(* ===== verification/_CoqProject ===== *)
-Q . S2P
Prelude.v
Def.v
IpAddr.v
Pbuf.v
PbufFacts.v
PbufMut.v
PbufData.v
PbufAlloc.v
OnesComplement.v
InetChksum.v
Timeouts.v
TimeoutsFacts.v
Ip4Addr.v
Tcp.v
TcpOut.v
TcpIn.v
TcpFacts.v
TcpStream.v
TcpOoseq.v
TcpRecv.v
TcpAck.v
TcpReceive.v
TcpOpt.v
TcpOutput.v
TcpSend.v
TcpProcess.v
TcpMachine.v
TcpInput.v
TcpApp.v
TcpReset.v
TcpDeliver.v
TcpRun.v
TcpWrite.v
TcpWriteFacts.v
TcpClose.v
TcpSteps.v
TcpSendStream.v
TcpSender.v
TcpSendRun.v
TcpParse.v
TcpChksum.v
TcpLink.v
TcpExample.v
Links.v
Net.v
Netif.v
IpOut.v
Ip6Src.v
TcpPcbs.v
TcpDemux.v
TcpTimer.v
TcpLists.v
TcpOrder.v
TcpOrderIn.v
TcpWorld.v
TcpCalls.v
TcpTicks.v
TcpSearch.v
Raw.v
Udp.v
IpIn.v
Ip6In.v
UdpFacts.v
Datagram.v
Prepend.v
UdpSend.v
UdpRecv.v
Ip6Recv.v
IcmpRaw.v
PbufProps.v
ChksumProps.v
TimeoutsProps.v
TcpProps.v
TcpSendProps.v
NetExample.v
TcpWorldExample.v
NetProps.v
NetFindings.v
TcpWorldProps.v
TcpFindings.v
