(* ===== verification/Prelude.v ===== *)
(** * The packet path of tun2proxylib, verified

    tun2proxylib turns the packets of a TUN device into TCP connections and UDP datagrams.
    The work is done by the lwIP stack under [src/lwipcore/core/c], built with TUN2SOCKS,
    NO_SYS, IPv4 and IPv6, and driven by the Go wrappers of [src/lwipcore/core].  This
    development models the stack's own logic and proves what it promises: packet buffers
    keep their bytes, checksums verify, timers fire, a UDP datagram arrives as it was sent,
    and the bytes that go into a TCP connection at one end come out at the other, once and
    in order.

    ** The parts and the code

    - Packet buffers: [Pbuf] ([core/pbuf.c], [include/lwip/pbuf.h]; [mem.c], [memp.c] in the
      configured form, [malloc] being the class [Malloc]).  State: a [heap] of [struct
      pbuf]s and of the blocks of memory their payloads are in, with aliasing and reference
      counts; every function of [pbuf.c] is a program of the monad [M heap].  Theory:
      [PbufFacts] (chains, the invariant of [tot_len], contents), [PbufMut], [PbufData],
      [PbufAlloc].
    - Checksums: [InetChksum] ([core/inet_chksum.c]) on chains of that heap, over the
      arithmetic of [OnesComplement].
    - Timers: [Timeouts] ([core/timeouts.c]); theory in [TimeoutsFacts].
    - Byte order and addresses: [Def] ([core/def.c]), [IpAddr] ([ip4_addr.h], [ip6_addr.h],
      [ip_addr.h]), [Ip4Addr] ([core/ipv4/ip4_addr.c]).
    - TCP, data: [Tcp] (the control block, segments, sequence numbers, the monad [TM]).
    - TCP, input ([core/tcp_in.c]): [TcpParse] (the header, up to [tcplen]), [TcpOpt]
      ([tcp_parseopt]), [TcpIn] ([tcp_receive]), [TcpProcess] ([tcp_process],
      [tcp_timewait_input]), [TcpInput] ([tcp_input] from the point where the control block
      is found, notifications of the application, refused data, [tcp_recved]).
    - TCP, output ([core/tcp_out.c]): [TcpWrite] ([tcp_write], [tcp_enqueue_flags],
      [tcp_send_fin], [tcp_split_unsent_seg]), [TcpOutput] ([tcp_output],
      [tcp_output_segment], [tcp_rexmit_rto]), [TcpOut] (control segments, [tcp_rexmit],
      [tcp_rexmit_fast]), [TcpChksum] (the checksum field).
    - TCP, control blocks ([core/tcp.c]): [TcpProcess] (purging, removal, abort), [TcpClose]
      ([tcp_close], [tcp_shutdown]), [TcpPcbs] (all of them together: creation and whom to
      give up for it, ports, [tcp_bind], [tcp_listen], [tcp_connect], closing a listener,
      address changes), [TcpDemux] (the search of [tcp_input], [tcp_listen_input]),
      [TcpTimer] ([tcp_slowtmr], [tcp_fasttmr], [tcp_tmr], [tcp_txnow]; keep-alive and
      zero-window probes of [core/tcp_out.c]).

    - Network layer, data: [Net] ([struct netif], [struct udp_pcb], [struct raw_pcb],
      [ip_data]), [Links] (lists linked by [next] pointers), [Netif] ([core/netif.c]:
      look-ups, the loopback queue, output functions; routing, zones).
    - IP: [IpOut] (output, [ip4_frag], ICMP errors), [IpIn] ([ip4_input],
      [icmp_input]), [Ip6In] ([ip6_input] with the extension headers, [ip_input]), [Ip6Src]
      (source address selection, output without a source address).
    - UDP: [Udp] (control blocks, input and output).  Raw sockets: [Raw].

    The network files work on [net]: the heap of [Pbuf], the interfaces, the control blocks
    by their addresses, and the globals, in the monad [M net]; [lift] runs a function of the
    heap.  With TUN2SOCKS the stack has one interface, takes every packet, hands every
    datagram to the first UDP control block, and the sender of a datagram says where it
    comes from.  The class [NetEnv] is the outside: the tun device, the callbacks, and the
    entry points of the modules not modelled on this state ([tcp_input], whose own model
    works on [tcp_st], both reassemblies, ICMPv6, IPv6 fragments); theorems hold for every
    instance.

    The TCP files work on [tcp_st], one connection and what it sees of the others: the
    control block a segment belongs to, the file-scope variables of [tcp_in.c] and [tcp.c],
    the lists of control blocks, and two ends, the segments sent ([sent]) and the calls of
    the application ([events]).  What the world answers (does [malloc] succeed, what does
    the IP layer return, does a driver still hold a buffer, where does a buffer lie) is
    taken from an oracle, a list of integers; every theorem is for all oracles.  Callbacks
    of the application are parameters, arbitrary programs of the same monad; what the raw
    API asks of them is [app_ok] and [never_aborts].  A failed LWIP_ASSERT, a use of a freed
    control block, a read outside a buffer is a [Fault], so that every theorem that gives a
    result also excludes those.

    [TcpPcbs] and the files after it work on [tcp_world]: all
    control blocks by their addresses, of connections and of listeners, the four lists,
    ports, timers, and the [net] that routing looks at.  [focus a m] runs a function [m] of
    one connection on the control block at [a]: it copies that block into a [tcp_st] whose
    [other_state] has the states of all others, and back; a control block [m] has freed is
    gone.  A callback runs on the connection it is called for, and through it on the lists;
    it does not reach into other connections.  What the raw API asks of an application with
    many connections is [orderly_app]: its callbacks are made of functions of the interface
    and answer [ERR_ABRT] exactly when they have aborted.

    A segment's data is the list of the payloads of its buffers; the operations on such
    chains TCP uses (append, truncate, drop) are what [PbufMut] and [PbufData] prove of
    [pbuf.c] on the heap.

    ** The theorems

    - [PbufProps], [ChksumProps], [TimeoutsProps], and [Ip4Addr]: the contracts of the
      modules below TCP, branch by branch.
    - [TcpProps], the receiving side.  The peer's stream is a list of bytes [σ] behind its
      initial sequence number; [TcpStream] says when a segment carries a part of it,
      [TcpOoseq] treats the out-of-order queue, [TcpRecv], [TcpAck] and [TcpReceive]
      [tcp_receive], [TcpMachine] the state machine (the invariant [conn_inv]), [TcpApp] and
      [TcpDeliver] the application (the invariant [stream_inv]), [TcpRun] runs of operations
      in any order, [TcpReset] what a segment with RST does from [tcp_input] on.
    - [TcpSendProps], the sending side.  [TcpSend]: the order and the contents of the send
      queues, what a time-out puts back, and that unsent data is attended to;
      [TcpWriteFacts]: [tcp_write] queues all or nothing, with running checksums and under
      which sequence numbers; [TcpSteps]: what all runs of a function respect,
      by a small logic of preorders; [TcpSendStream], [TcpSender], [TcpSendRun]: the
      invariant [sender] of a connection that sends a stream, for every order of writes,
      output, time-outs, acknowledgements of any content and shutdown.
    - [TcpLink] puts both together: a run of two connections and a network that loses,
      repeats, delays, reorders and cuts up packets, from [tcp_write] at one end through the
      bytes of the packets to the receive callback at the other.  What arrives is a
      beginning of what was written, all of it once the end is reported; nothing fails on
      the way.  Both halves have conditions, listed below with the findings.
    - [TcpWorldProps], all connections.  [TcpLists] and [TcpOrder]: what each function of a
      connection does to the lists ([calm], [orderly]); [TcpOrderIn]: the same for an
      incoming segment; [TcpWorld]: the invariant [world_ok], which is what [tcp_priv.h]
      says of the lists, and [tame], to keep it; [TcpCalls], [TcpTicks]: every call, packet
      and tick is tame.  [TcpTicks] also follows the walks of the timers through all
      restarts and shows that they end.  [TcpSearch]: [tcp_new_port] and [tcp_bind], whom a
      segment goes to and whom the allocation gives up.  [TcpWorldExample] holds the
      concrete hosts.
    - [NetProps], the network layer.  [Datagram] (the bytes of UDP, IPv4 and IPv6 headers
      and their checksums), [Prepend] (room in front of a packet) and [UdpSend] follow a
      datagram from the call to the tun device, [UdpRecv] and [Ip6Recv] a packet from the
      tun device to the receive callback; put together, datagrams arrive as they were sent.
      [UdpFacts]: the invariant [udp_inv] of the UDP control blocks, kept by every call;
      [IcmpRaw]: the offer of a packet to raw sockets, the echo reply; [Ip6Src]: the rules of
      RFC 6724 that [ip6.c] follows, on the octets of the addresses.
      [NetExample] holds the concrete hosts the instances are evaluated on.
    - [TcpFindings], [NetFindings]: evaluated runs in which the code does not do what it
      means to.  For one connection the preconditions of the theorems exclude these runs:
      [arrives] asks a segment to begin at or before [rcv_nxt] or to end within the window
      ([tcp_receive_ooseq_untrimmed]), [plain_segment] asks readable options
      ([tcp_parseopt_overread]), [op_fits] and [admits] that no data is refused in CLOSING
      ([tcp_input_closing_drops_refused]) and that the application never aborts while it
      refuses data ([tcp_input_uses_freed_pcb]), [tail_at_end] and [in_order] that no fast
      retransmission waits on the unsent queue when data is written, the connection shut
      down or a time-out comes ([tcp_write_behind_retransmission]), [send_load] that the MSS
      stays as it is ([tcp_write_after_mss_option]).  The theorems on reachable states are
      about runs under these conditions.

    ** Bounds and fuel

    Machine integers are [Z] with the conversions the source makes written out ([u8_t],
    [u16_t], [u32_t], [s16_t], [s32_t]).  Positions in a stream are unbounded; sequence
    numbers are positions modulo 2^32, and comparisons are right as long as positions are
    less than 2^30 ([near_edge], [arrives], [edge_near], the length of [σ] in [TcpLink]) or,
    for the sender, 2^29 apart, which the size of the send buffer guarantees ([buf_ok]).
    Recursion that is not structural has fuel, and each use passes enough: the length of
    the chain and one more in [Pbuf] and [InetChksum] ([chain_fuel_enough]), the number of
    timers in [Timeouts], the number of option bytes in [tcp_parseopt], the number of bytes
    in the segment loop of [tcp_write], since every new segment takes at least one, one more
    than the number of structures for a walk over a list of control blocks or interfaces,
    16384 rounds in [udp_new_port] and [tcp_new_port] (their own limit), the square of the
    number of active connections and a little more in the walks of the TCP timers
    ([loop_fuel], proved to be enough in [TcpTicks]), one more than the bytes left in
    [ip4_frag], one more than the header's length in the option loops of [ip6_input] and
    65536 extension headers, of which a packet of 65535 bytes cannot have as many.

    ** What is not modelled

    Reassembly of IPv4 packets, IPv6 fragments, ICMPv6, neighbour discovery and the set-up
    of interfaces; the Go wrappers, which only pass data to the calls above.  [tcp_arg],
    [tcp_recv], [tcp_sent], [tcp_err] and [tcp_accept] store a pointer; the functions they
    register are parameters here.  DHCP, DNS, ARP, IGMP, MLD, AUTOIP, altcp and the threads
    of [sys.c] are compiled out.  The option handling of SACK, window scaling and time
    stamps is compiled out as well. *)From Stdlib Require Export ZArith Lia String.
From stdpp Require Export prelude gmap list.
#[global] Open Scope Z_scope.

Declare Scope lwip_scope.
Delimit Scope lwip_scope with lwip.

(** ** Machine integers

    [u8_t], [u16_t], [u32_t] are the C conversions to the unsigned types of
    [arch.h]; [s16_t], [s32_t] the (two's complement) conversions to the signed
    ones.  Every C expression of the model is an expression over [Z] with the
    conversions the source performs written out. *)

(** Linear arithmetic with division and remainder by constants. *)
Ltac dlia := Z.div_mod_to_equations; lia.

Definition u8_t (x : Z) : Z := x mod 256.
Definition u16_t (x : Z) : Z := x mod 65536.
Definition u32_t (x : Z) : Z := x mod 4294967296.
Definition u64_t (x : Z) : Z := x mod 18446744073709551616.
Definition s16_t (x : Z) : Z := (x + 32768) mod 65536 - 32768.
Definition s32_t (x : Z) : Z := (x + 2147483648) mod 4294967296 - 2147483648.

Lemma u8_t_range x : 0 <= u8_t x < 256.
Proof. unfold u8_t. dlia. Qed.
Lemma u16_t_range x : 0 <= u16_t x < 65536.
Proof. unfold u16_t. dlia. Qed.
Lemma u32_t_range x : 0 <= u32_t x < 4294967296.
Proof. unfold u32_t. dlia. Qed.
Lemma s32_t_range x : -2147483648 <= s32_t x < 2147483648.
Proof. unfold s32_t. dlia. Qed.
Lemma u8_t_id x : 0 <= x < 256 -> u8_t x = x.
Proof. apply Z.mod_small. Qed.
Lemma u16_t_id x : 0 <= x < 65536 -> u16_t x = x.
Proof. apply Z.mod_small. Qed.
Lemma u32_t_id x : 0 <= x < 4294967296 -> u32_t x = x.
Proof. apply Z.mod_small. Qed.
Lemma u64_t_id x : 0 <= x < 18446744073709551616 -> u64_t x = x.
Proof. apply Z.mod_small. Qed.
Lemma s16_t_id x : -32768 <= x < 32768 -> s16_t x = x.
Proof. unfold s16_t. dlia. Qed.
Lemma s32_t_id x : -2147483648 <= x < 2147483648 -> s32_t x = x.
Proof. unfold s32_t. dlia. Qed.

(** ** Bit masks as arithmetic *)

Lemma land_ones_mod x n : 0 <= n -> Z.land x (Z.ones n) = x mod 2 ^ n.
Proof. intros. by apply Z.land_ones. Qed.

Lemma land_ff x : Z.land x 255 = x mod 256.
Proof. apply (Z.land_ones x 8). lia. Qed.
Lemma land_ffff x : Z.land x 65535 = x mod 65536.
Proof. apply (Z.land_ones x 16). lia. Qed.
Lemma shiftr8 x : Z.shiftr x 8 = x / 256.
Proof. by rewrite Z.shiftr_div_pow2 by lia. Qed.
Lemma shiftr16 x : Z.shiftr x 16 = x / 65536.
Proof. by rewrite Z.shiftr_div_pow2 by lia. Qed.
Lemma shiftl8 x : Z.shiftl x 8 = x * 256.
Proof. by rewrite Z.shiftl_mul_pow2 by lia. Qed.
Lemma shiftl16 x : Z.shiftl x 16 = x * 65536.
Proof. by rewrite Z.shiftl_mul_pow2 by lia. Qed.
Lemma shiftl24 x : Z.shiftl x 24 = x * 16777216.
Proof. by rewrite Z.shiftl_mul_pow2 by lia. Qed.
Lemma shiftr24 x : Z.shiftr x 24 = x / 16777216.
Proof. by rewrite Z.shiftr_div_pow2 by lia. Qed.

(** A byte field of a word: [x & (0xff << 8k)]. *)
Lemma land_shifted x k m : 0 <= k -> 0 <= m ->
  Z.land x (Z.shiftl m k) = Z.shiftl (Z.land (Z.shiftr x k) m) k.
Proof.
  intros Hk Hm. apply Z.bits_inj'. intros i Hi.
  rewrite Z.land_spec, !Z.shiftl_spec by lia.
  destruct (decide (i < k)) as [Hlt|Hge].
  - rewrite !(Z.testbit_neg_r _ (i - k)) by lia. by rewrite andb_false_r.
  - rewrite Z.land_spec, Z.shiftr_spec by lia. by rewrite Z.sub_add.
Qed.

Lemma land_ff00 x : Z.land x 65280 = (x / 256) mod 256 * 256.
Proof.
  change 65280 with (Z.shiftl 255 8). rewrite land_shifted by lia.
  by rewrite land_ff, shiftr8, shiftl8.
Qed.

(** [lor] of two values that do not overlap is their sum. *)
Lemma land_shiftl_small a b n : 0 <= n -> 0 <= b < 2 ^ n -> Z.land (Z.shiftl a n) b = 0.
Proof.
  intros Hn Hb. apply Z.bits_inj'. intros i Hi.
  rewrite Z.land_spec, Z.bits_0, Z.shiftl_spec by lia.
  destruct (decide (i < n)) as [Hlt|Hge].
  - by rewrite Z.testbit_neg_r by lia.
  - rewrite <- (Z.mod_small b (2 ^ n)) by lia.
    by rewrite Z.mod_pow2_bits_high, andb_false_r by lia.
Qed.

Lemma lor_add_disjoint a b n : 0 <= n -> 0 <= b < 2 ^ n ->
  Z.lor (a * 2 ^ n) b = a * 2 ^ n + b.
Proof.
  intros Hn Hb. rewrite <- Z.shiftl_mul_pow2 by lia.
  pose proof (land_shiftl_small a b n Hn Hb) as H0.
  rewrite <- Z.lxor_lor by done. by rewrite <- Z.add_nocarry_lxor.
Qed.

Lemma lor_add8 a b : 0 <= b < 256 -> Z.lor (a * 256) b = a * 256 + b.
Proof. intros. by apply (lor_add_disjoint a b 8). Qed.
Lemma lor_add16 a b : 0 <= b < 65536 -> Z.lor (a * 65536) b = a * 65536 + b.
Proof. intros. by apply (lor_add_disjoint a b 16). Qed.
Lemma lor_add24 a b : 0 <= b < 16777216 -> Z.lor (a * 16777216) b = a * 16777216 + b.
Proof. intros. by apply (lor_add_disjoint a b 24). Qed.

(** ** Faults and the state monad of the model

    A C run either produces a value or ends in a fault: an [LWIP_ASSERT] or
    [LWIP_ERROR] that fails ([LWIP_PLATFORM_ASSERT] of [cc_others.h] calls
    [abort()]), an access outside the live objects, or (a model artefact) a loop
    that used up its fuel.  The theorems show that on well-formed inputs none of
    these happens. *)

Inductive fault :=
| AssertFailed (msg : string)
| BadAccess
| OutOfFuel.

Inductive result (A : Type) :=
| Ok (a : A)
| Fault (f : fault).
Arguments Ok {A} a.
Arguments Fault {A} f.

Definition M (S A : Type) : Type := S -> result (A * S).

Definition ret {S A} (a : A) : M S A := fun s => Ok (a, s).
Definition bind {S A B} (m : M S A) (k : A -> M S B) : M S B := fun s =>
  match m s with
  | Ok (a, s') => k a s'
  | Fault f => Fault f
  end.
Definition fail {S A} (f : fault) : M S A := fun _ => Fault f.
Definition get {S} : M S S := fun s => Ok (s, s).
Definition put {S} (s' : S) : M S unit := fun _ => Ok (tt, s').
Definition modify {S} (f : S -> S) : M S unit := fun s => Ok (tt, f s).

(** [LWIP_ASSERT(msg, cond)]; also [LWIP_ERROR], whose handler is never reached
    because [LWIP_PLATFORM_ERROR] is [LWIP_PLATFORM_ASSERT] in this build. *)
Definition lwip_assert {S} (msg : string) (cond : bool) : M S unit :=
  if cond then ret tt else fail (AssertFailed msg).

Notation "'let*' x := c1 'in' c2" := (bind c1 (fun x => c2))
  (at level 10, x pattern, c1 at level 200, c2 at level 200)
  : lwip_scope.
Notation "c1 ;;; c2" := (bind c1 (fun _ => c2))
  (at level 200, c2 at level 200, right associativity) : lwip_scope.
#[global] Open Scope lwip_scope.

Lemma bind_ret_l {S A B} (a : A) (k : A -> M S B) s : bind (ret a) k s = k a s.
Proof. done. Qed.
Lemma bind_ok {S A B} (m : M S A) (k : A -> M S B) s a s' :
  m s = Ok (a, s') -> bind m k s = k a s'.
Proof. intros H. unfold bind. by rewrite H. Qed.
Lemma bind_inv {S A B} (m : M S A) (k : A -> M S B) s r :
  bind m k s = Ok r -> exists a s', m s = Ok (a, s') /\ k a s' = Ok r.
Proof. unfold bind. destruct (m s) as [[a s']|]; [eauto|done]. Qed.
Lemma assert_true {S} msg (b : bool) (s : S) : b = true -> lwip_assert msg b s = Ok (tt, s).
Proof. by intros ->. Qed.

(** ** Byte lists indexed by [Z] *)

Definition zlen {A} (l : list A) : Z := Z.of_nat (length l).
Definition ztake {A} (n : Z) (l : list A) : list A := take (Z.to_nat n) l.
Definition zdrop {A} (n : Z) (l : list A) : list A := drop (Z.to_nat n) l.
(** [n] elements of [l] from offset [off]. *)
Definition zslice {A} (off n : Z) (l : list A) : list A := ztake n (zdrop off l).
(** Overwrite [l] with [new] from offset [off] ([MEMCPY] into a buffer). *)
Definition zpatch {A} (off : Z) (new l : list A) : list A :=
  ztake off l ++ new ++ zdrop (off + zlen new) l.

Definition byte_ok (b : Z) : Prop := 0 <= b < 256.
Abbreviation bytes_ok := (Forall byte_ok).

Lemma zlen_nonneg {A} (l : list A) : 0 <= zlen l.
Proof. unfold zlen. lia. Qed.
Lemma zlen_nil {A} : zlen (@nil A) = 0.
Proof. done. Qed.
Lemma zlen_cons {A} (x : A) l : zlen (x :: l) = 1 + zlen l.
Proof. unfold zlen. simpl. lia. Qed.
Lemma zlen_app {A} (l1 l2 : list A) : zlen (l1 ++ l2) = zlen l1 + zlen l2.
Proof. unfold zlen. rewrite length_app. lia. Qed.
Lemma zlen_ztake {A} n (l : list A) : 0 <= n <= zlen l -> zlen (ztake n l) = n.
Proof. unfold zlen, ztake. rewrite length_take. lia. Qed.
Lemma zlen_zdrop {A} n (l : list A) : 0 <= n <= zlen l -> zlen (zdrop n l) = zlen l - n.
Proof. unfold zlen, zdrop. rewrite length_drop. lia. Qed.
Lemma zlen_zslice {A} off n (l : list A) :
  0 <= off -> 0 <= n -> off + n <= zlen l -> zlen (zslice off n l) = n.
Proof. intros. unfold zslice. rewrite zlen_ztake; rewrite ?zlen_zdrop; lia. Qed.
Lemma zlen_zpatch {A} off (new l : list A) :
  0 <= off -> off + zlen new <= zlen l -> zlen (zpatch off new l) = zlen l.
Proof.
  intros. pose proof (zlen_nonneg new). unfold zpatch.
  rewrite !zlen_app, zlen_ztake, zlen_zdrop; lia.
Qed.
Lemma zlen_0_inv {A} (l : list A) : zlen l = 0 -> l = [].
Proof. destruct l; [done|]. rewrite zlen_cons. pose proof (zlen_nonneg l). lia. Qed.

Lemma ztake_app_l {A} n (l1 l2 : list A) : n <= zlen l1 -> ztake n (l1 ++ l2) = ztake n l1.
Proof. unfold ztake, zlen. intros. rewrite take_app_le; [done|lia]. Qed.
Lemma ztake_app_r {A} n (l1 l2 : list A) :
  zlen l1 <= n -> ztake n (l1 ++ l2) = l1 ++ ztake (n - zlen l1) l2.
Proof.
  unfold ztake, zlen. intros. rewrite take_app_ge by lia. do 2 f_equal. lia.
Qed.
Lemma zdrop_app_l {A} n (l1 l2 : list A) : n <= zlen l1 -> zdrop n (l1 ++ l2) = zdrop n l1 ++ l2.
Proof. unfold zdrop, zlen. intros. rewrite drop_app_le; [done|lia]. Qed.
Lemma zdrop_app_r {A} n (l1 l2 : list A) :
  zlen l1 <= n -> zdrop n (l1 ++ l2) = zdrop (n - zlen l1) l2.
Proof. unfold zdrop, zlen. intros. rewrite drop_app_ge by lia. f_equal. lia. Qed.
Lemma ztake_all {A} n (l : list A) : zlen l <= n -> ztake n l = l.
Proof. unfold ztake, zlen. intros. apply take_ge. lia. Qed.
Lemma zdrop_all {A} n (l : list A) : zlen l <= n -> zdrop n l = [].
Proof. unfold zdrop, zlen. intros. apply drop_ge. lia. Qed.
Lemma ztake_nonpos {A} n (l : list A) : n <= 0 -> ztake n l = [].
Proof. intros. unfold ztake. by replace (Z.to_nat n) with 0%nat by lia. Qed.
Lemma zdrop_nonpos {A} n (l : list A) : n <= 0 -> zdrop n l = l.
Proof. intros. unfold zdrop. by replace (Z.to_nat n) with 0%nat by lia. Qed.
Lemma zdrop_zdrop {A} a b (l : list A) : 0 <= a -> 0 <= b -> zdrop a (zdrop b l) = zdrop (b + a) l.
Proof. intros. unfold zdrop. rewrite drop_drop. f_equal. lia. Qed.
Lemma ztake_ztake {A} a b (l : list A) : 0 <= a <= b -> ztake a (ztake b l) = ztake a l.
Proof. intros. unfold ztake. rewrite take_take. f_equal. lia. Qed.
Lemma ztake_zdrop {A} n (l : list A) : ztake n l ++ zdrop n l = l.
Proof. unfold ztake, zdrop. apply take_drop. Qed.
Lemma zdrop_ztake {A} a b (l : list A) : 0 <= a -> 0 <= b ->
  zdrop a (ztake (a + b) l) = ztake b (zdrop a l).
Proof.
  intros. unfold ztake, zdrop.
  replace (Z.to_nat (a + b)) with (Z.to_nat a + Z.to_nat b)%nat by lia.
  by rewrite <- take_drop_commute.
Qed.
Lemma zslice_full {A} (l : list A) : zslice 0 (zlen l) l = l.
Proof. unfold zslice. rewrite zdrop_nonpos, ztake_all; done || lia. Qed.
Lemma bytes_ok_ztake n l : bytes_ok l -> bytes_ok (ztake n l).
Proof. apply Forall_take. Qed.
Lemma bytes_ok_zdrop n l : bytes_ok l -> bytes_ok (zdrop n l).
Proof. apply Forall_drop. Qed.

(** ** Automation *)

Create HintDb lwip.
Create Rewrite HintDb zlen.
#[export] Hint Resolve zlen_nonneg u8_t_range u16_t_range u32_t_range s32_t_range : lwip.
#[export] Hint Resolve bytes_ok_ztake bytes_ok_zdrop : lwip.
#[export] Hint Rewrite @zlen_nil @zlen_cons @zlen_app : zlen.

(** Decide every boolean test of the goal by case analysis on its [Z] spec. *)
Ltac bool_cases :=
  repeat match goal with
  | |- context [?a =? ?b] => destruct (Z.eqb_spec a b)
  | |- context [?a <? ?b] => destruct (Z.ltb_spec a b)
  | |- context [?a <=? ?b] => destruct (Z.leb_spec a b)
  end; simpl; try lia.

(** Steps through the statements of a monadic function. *)
Ltac m_assert tac := erewrite bind_ok; [|apply assert_true; tac].
Tactic Notation "m_step" uconstr(H) := rewrite (bind_ok _ _ _ _ _ H).

(** Remove conversions to [u32_t] that do not wrap, innermost first. *)
Ltac u32_simpl :=
  repeat match goal with
  | |- context [u32_t ?x] =>
      lazymatch x with context [u32_t _] => fail | _ => rewrite (u32_t_id x) by lia end
  end.

Lemma nz_true x : x <> 0 -> negb (x =? 0) = true.
Proof. intros. by rewrite negb_true_iff, Z.eqb_neq. Qed.

Ltac bool_to_prop :=
  repeat match goal with
  | H : _ && _ = true |- _ => apply andb_true_iff in H as [? ?]
  | H : _ || _ = false |- _ => apply orb_false_iff in H as [? ?]
  | H : negb _ = true |- _ => apply negb_true_iff in H
  | H : negb _ = false |- _ => apply negb_false_iff in H
  | H : (_ =? _) = true |- _ => apply Z.eqb_eq in H
  | H : (_ =? _) = false |- _ => apply Z.eqb_neq in H
  | H : (_ <? _) = true |- _ => apply Z.ltb_lt in H
  | H : (_ <? _) = false |- _ => apply Z.ltb_ge in H
  | H : (_ <=? _) = true |- _ => apply Z.leb_le in H
  | H : (_ <=? _) = false |- _ => apply Z.leb_gt in H
  end.

(** ** Weakest preconditions

    [wp m Q s]: from [s] the run of [m] does not fault and ends in a value and a state
    that satisfy [Q]. *)

Definition wp {S A} (m : M S A) (Q : A -> S -> Prop) (s : S) : Prop :=
  match m s with Ok (a, s') => Q a s' | Fault _ => False end.

Lemma wp_run {S A} (m : M S A) Q s : wp m Q s <-> exists a s', m s = Ok (a, s') /\ Q a s'.
Proof.
  unfold wp. destruct (m s) as [[a s']|f].
  - split; [eauto|]. by intros (? & ? & [= <- <-] & ?).
  - split; [done|]. by intros (? & ? & ? & ?).
Qed.
Lemma wp_bind {S A B} (m : M S A) (k : A -> M S B) Q s :
  wp m (fun a s' => wp (k a) Q s') s -> wp (bind m k) Q s.
Proof. unfold wp, bind. by destruct (m s) as [[a s']|f]. Qed.
Lemma wp_conseq {S A} (m : M S A) (P Q : A -> S -> Prop) s :
  wp m P s -> (forall a s', P a s' -> Q a s') -> wp m Q s.
Proof. unfold wp. destruct (m s) as [[a s']|f]; auto. Qed.
Lemma wp_ret {S A} (a : A) Q (s : S) : Q a s -> wp (ret a) Q s.
Proof. done. Qed.
Lemma wp_get {S} Q (s : S) : Q s s -> wp get Q s.
Proof. done. Qed.
Lemma wp_modify {S} (f : S -> S) Q s : Q tt (f s) -> wp (modify f) Q s.
Proof. done. Qed.
Lemma wp_assert {S} msg (b : bool) Q (s : S) : b = true -> Q tt s -> wp (lwip_assert msg b) Q s.
Proof. by intros ->. Qed.

(** ** Field updates of the C structures

    [r <| f := v |>] is the assignment [r.f = v]: the record with field [f]
    replaced.  A structure gets the notation from one [Fields] instance, its
    eta-expanded identity, from which the updater of every field is derived. *)

Class Fields (R : Type) := fields_eta : R -> R.
Class Field {R T : Type} (proj : R -> T) := upd : (T -> T) -> R -> R.
Arguments upd {R T} proj {_} f r : simpl never.

Ltac derive_field :=
  lazymatch goal with
  | |- @Field ?R ?T ?proj =>
      let e := constr:(_ : Fields R) in
      let b := eval hnf in e in
      match eval pattern proj in b with
      | ?G _ =>
          let u := eval cbv beta in (fun (f : T -> T) => G (fun r : R => f (proj r))) in
          exact u
      end
  end.
#[export] Hint Extern 1 (Field _) => derive_field : typeclass_instances.

Notation "r <| f := v |>" := (upd f (fun _ => v) r)
  (at level 12, left associativity, f at level 9, format "r <| f  :=  v |>") : lwip_scope.

(** [q] is one of the fields of the structure [R]. *)
Ltac is_field q R :=
  is_const q;
  let e := constr:(_ : Fields R) in
  let b := eval hnf in e in
  lazymatch b with context [q] => idtac end.

(** The value of field [q] of a record built by updates. *)
Ltac field_of q r :=
  lazymatch r with
  | @upd _ _ q _ (fun _ => ?v) _ => v
  | @upd _ _ _ _ _ ?r' => field_of q r'
  | _ => constr:(q r)
  end.

(** Reads of updated records: [proj (r <| f := v |>)] is [v] or [proj r]. *)
Ltac rec_simpl :=
  repeat match goal with
  | |- context [?q (@upd ?R ?T ?p ?i ?f ?r)] =>
      is_field q R;
      let v := field_of q (@upd R T p i f r) in
      change (q (@upd R T p i f r)) with v
  | |- context [@upd ?R ?T ?p ?i (fun _ => ?v) (@upd ?R ?T ?p ?i ?g ?r)] =>
      change (@upd R T p i (fun _ => v) (@upd R T p i g r)) with (@upd R T p i (fun _ => v) r)
  end; cbv beta.
Ltac rec_simpl_in H :=
  repeat match type of H with
  | context [?q (@upd ?R ?T ?p ?i ?f ?r)] =>
      is_field q R;
      let v := field_of q (@upd R T p i f r) in
      change (q (@upd R T p i f r)) with v in H
  end; cbv beta in H.
