(* ===== verification/Def.v ===== *)
(** * Byte order and character helpers ([core/def.c], [include/lwip/def.h])

    The host is little endian ([BYTE_ORDER] of [cc_others.h]).  [le16]/[le32] are
    the bytes a host integer has in memory, [be16]/[be32] the bytes of the same
    value in network order; the conversion functions exchange the two. *)

From S2P Require Import Prelude.

(** ** [PP_HTONS], [PP_HTONL] and the functions of [def.c] *)

Definition PP_HTONS (x : Z) : Z :=
  u16_t (Z.lor (Z.shiftl (Z.land x 255) 8) (Z.shiftr (Z.land x 65280) 8)).

Definition PP_HTONL (x : Z) : Z :=
  Z.lor (Z.lor (Z.lor (Z.shiftl (Z.land x 255) 24)
                      (Z.shiftl (Z.land x 65280) 8))
               (Z.shiftr (Z.land x 16711680) 8))
        (Z.shiftr (Z.land x 4278190080) 24).

Definition lwip_htons (n : Z) : Z := PP_HTONS n.
Definition lwip_htonl (n : Z) : Z := PP_HTONL n.
Definition lwip_ntohs (n : Z) : Z := lwip_htons n.
Definition lwip_ntohl (n : Z) : Z := lwip_htonl n.

(** ** Bytes of an integer *)

Definition le16 (n : Z) : list Z := [n mod 256; (n / 256) mod 256].
Definition be16 (n : Z) : list Z := [(n / 256) mod 256; n mod 256].
Definition le32 (n : Z) : list Z :=
  [n mod 256; (n / 256) mod 256; (n / 65536) mod 256; (n / 16777216) mod 256].
Definition be32 (n : Z) : list Z :=
  [(n / 16777216) mod 256; (n / 65536) mod 256; (n / 256) mod 256; n mod 256].
(** Reading a host integer from two bytes of memory. *)
Definition of_le16 (b0 b1 : Z) : Z := b0 + 256 * b1.

(** ** Arithmetic forms *)

Lemma lwip_htons_arith n : lwip_htons n = (n mod 256) * 256 + (n / 256) mod 256.
Proof.
  unfold lwip_htons, PP_HTONS. rewrite land_ff, land_ff00, shiftl8, shiftr8.
  rewrite Z.div_mul by lia. rewrite lor_add8 by dlia.
  apply u16_t_id. dlia.
Qed.

Lemma land_byte2 x : Z.land x 16711680 = (x / 65536) mod 256 * 65536.
Proof.
  change 16711680 with (Z.shiftl 255 16). rewrite land_shifted by lia.
  by rewrite land_ff, shiftr16, shiftl16.
Qed.
Lemma land_byte3 x : Z.land x 4278190080 = (x / 16777216) mod 256 * 16777216.
Proof.
  change 4278190080 with (Z.shiftl 255 24). rewrite land_shifted by lia.
  by rewrite land_ff, shiftr24, shiftl24.
Qed.

Lemma lwip_htonl_arith n :
  lwip_htonl n = (n mod 256) * 16777216 + ((n / 256) mod 256) * 65536
                 + ((n / 65536) mod 256) * 256 + (n / 16777216) mod 256.
Proof.
  unfold lwip_htonl, PP_HTONL. rewrite land_ff, land_ff00, land_byte2, land_byte3.
  rewrite shiftl24, shiftl8, shiftr8, shiftr24, Z.div_mul by lia.
  set (a := n mod 256). set (b := (n / 256) mod 256).
  set (c := (n / 65536) mod 256). set (d := (n / 16777216) mod 256).
  assert (0 <= a < 256 /\ 0 <= b < 256 /\ 0 <= c < 256 /\ 0 <= d < 256) as (?&?&?&?).
  { subst a b c d. repeat split; dlia. }
  replace (c * 65536 / 256) with (c * 256) by dlia.
  rewrite (lor_add24 a) by lia.
  replace (a * 16777216 + b * 256 * 256) with ((a * 256 + b) * 65536) by lia.
  rewrite lor_add16 by lia.
  replace ((a * 256 + b) * 65536 + c * 256) with (((a * 256 + b) * 256 + c) * 256) by lia.
  rewrite lor_add8 by lia. lia.
Qed.

Lemma lwip_htons_range n : 0 <= lwip_htons n < 65536.
Proof. rewrite lwip_htons_arith. dlia. Qed.
Lemma lwip_htonl_range n : 0 <= lwip_htonl n < 4294967296.
Proof. rewrite lwip_htonl_arith. dlia. Qed.
#[export] Hint Resolve lwip_htons_range lwip_htonl_range : lwip.

(** In the host's memory the converted value is the network representation. *)
Lemma le16_htons n : le16 (lwip_htons n) = be16 n.
Proof.
  unfold le16, be16. rewrite lwip_htons_arith.
  f_equal; [|f_equal]; dlia.
Qed.

Lemma four_bytes a b c d :
  0 <= a < 256 -> 0 <= b < 256 -> 0 <= c < 256 -> 0 <= d < 256 ->
  let n := a * 16777216 + b * 65536 + c * 256 + d in
  n mod 256 = d /\ (n / 256) mod 256 = c /\ (n / 65536) mod 256 = b /\ (n / 16777216) mod 256 = a.
Proof. intros ? ? ? ? n. subst n. repeat split; dlia. Qed.

Lemma le32_htonl n : le32 (lwip_htonl n) = be32 n.
Proof.
  unfold le32, be32. rewrite lwip_htonl_arith.
  destruct (four_bytes (n mod 256) ((n / 256) mod 256) ((n / 65536) mod 256)
              ((n / 16777216) mod 256)) as (H0 & H1 & H2 & H3); [dlia..|].
  by rewrite H0, H1, H2, H3.
Qed.

Lemma lwip_htons_involutive n : 0 <= n < 65536 -> lwip_ntohs (lwip_htons n) = n.
Proof. intros. unfold lwip_ntohs. rewrite !lwip_htons_arith. dlia. Qed.

Lemma lwip_htonl_involutive n : 0 <= n < 4294967296 -> lwip_ntohl (lwip_htonl n) = n.
Proof.
  intros. unfold lwip_ntohl. rewrite (lwip_htonl_arith (lwip_htonl n)), (lwip_htonl_arith n).
  destruct (four_bytes (n mod 256) ((n / 256) mod 256) ((n / 65536) mod 256)
              ((n / 16777216) mod 256)) as (H0 & H1 & H2 & H3); [dlia..|].
  rewrite H0, H1, H2, H3. dlia.
Qed.

(** ** Character classes of [ctype.h] in the C locale *)

Definition lwip_isdigit (c : Z) : bool := (48 <=? c) && (c <=? 57).
Definition lwip_islower (c : Z) : bool := (97 <=? c) && (c <=? 122).
Definition lwip_isxdigit (c : Z) : bool :=
  lwip_isdigit c || ((97 <=? c) && (c <=? 102)) || ((65 <=? c) && (c <=? 70)).
Definition lwip_isspace (c : Z) : bool :=
  (c =? 32) || (c =? 12) || (c =? 10) || (c =? 13) || (c =? 9) || (c =? 11).

(** [*s] on a NUL-terminated string represented by its characters. *)
Definition chr (s : list Z) : Z := match s with [] => 0 | c :: _ => c end.

(** The bytes are bytes. *)
Lemma bytes_le16 n : bytes_ok (le16 n).
Proof. unfold le16. repeat constructor; unfold byte_ok; dlia. Qed.
Lemma bytes_be16 n : bytes_ok (be16 n).
Proof. unfold be16. repeat constructor; unfold byte_ok; dlia. Qed.
Lemma bytes_le32 n : bytes_ok (le32 n).
Proof. unfold le32. repeat constructor; unfold byte_ok; dlia. Qed.
Lemma bytes_be32 n : bytes_ok (be32 n).
Proof. unfold be32. repeat constructor; unfold byte_ok; dlia. Qed.
#[export] Hint Resolve bytes_le16 bytes_be16 bytes_le32 bytes_be32 : lwip.
