(* ===== verification/IpAddr.v ===== *)
(** * IP addresses ([include/lwip/ip4_addr.h], [ip6_addr.h], [ip_addr.h])

    An IPv4 address is the [u32_t] of [struct ip4_addr] (network byte order in a
    little-endian host integer); an IPv6 address has four such words and a zone
    ([LWIP_IPV6_SCOPES] is on).  [ip_addr_t] is the union of both with a type tag:
    the IPv4 member is the first word of the IPv6 member. *)

From S2P Require Import Prelude Def.

Definition ip4_addr : Type := Z.

Record ip6_addr := mkIp6 { ip6_w0 : Z; ip6_w1 : Z; ip6_w2 : Z; ip6_w3 : Z; ip6_zone : Z }.

Definition IPADDR_TYPE_V4 : Z := 0.
Definition IPADDR_TYPE_V6 : Z := 6.
Definition IPADDR_TYPE_ANY : Z := 46.

Record ip_addr := mkIpAddr { u_addr : ip6_addr; ip_type : Z }.

Definition ip_2_ip6 (a : ip_addr) : ip6_addr := u_addr a.
Definition ip_2_ip4 (a : ip_addr) : ip4_addr := ip6_w0 (u_addr a).
Definition IP_IS_V6_VAL (a : ip_addr) : bool := ip_type a =? IPADDR_TYPE_V6.
Definition IP_IS_V4_VAL (a : ip_addr) : bool := ip_type a =? IPADDR_TYPE_V4.
Definition IP_IS_ANY_TYPE_VAL (a : ip_addr) : bool := ip_type a =? IPADDR_TYPE_ANY.

Definition ip6_words (a : ip6_addr) : list Z := [ip6_w0 a; ip6_w1 a; ip6_w2 a; ip6_w3 a].

#[global] Instance ip6_addr_eq_dec : EqDecision ip6_addr.
Proof. solve_decision. Defined.
#[global] Instance ip_addr_eq_dec : EqDecision ip_addr.
Proof. solve_decision. Defined.

(** ** Constructors and copies *)

Definition LWIP_MAKEU32 (a b c d : Z) : Z :=
  Z.lor (Z.lor (Z.lor (Z.shiftl (Z.land a 255) 24) (Z.shiftl (Z.land b 255) 16))
               (Z.shiftl (Z.land c 255) 8)) (Z.land d 255).
Definition IP4_ADDR (a b c d : Z) : ip4_addr := PP_HTONL (LWIP_MAKEU32 a b c d).

Definition ip_addr_copy_from_ip4 (src : ip4_addr) : ip_addr :=
  mkIpAddr (mkIp6 src 0 0 0 0) IPADDR_TYPE_V4.
Definition ip_addr_copy_from_ip6 (src : ip6_addr) : ip_addr := mkIpAddr src IPADDR_TYPE_V6.
Definition ip_addr_copy (src : ip_addr) : ip_addr :=
  if IP_IS_V6_VAL src then mkIpAddr (u_addr src) (ip_type src)
  else mkIpAddr (mkIp6 (ip_2_ip4 src) 0 0 0 0) (ip_type src).

(** ** Comparisons and classes *)

Definition IPADDR_ANY : Z := 0.
Definition IPADDR_BROADCAST : Z := 4294967295.
Definition IPADDR_NONE : Z := 4294967295.

Definition ip4_addr_netcmp (addr1 addr2 mask : ip4_addr) : bool := Z.land addr1 mask =? Z.land addr2 mask.
Definition ip4_addr_isany_val (a : ip4_addr) : bool := a =? IPADDR_ANY.
Definition ip4_addr_ismulticast (a : ip4_addr) : bool :=
  Z.land a (PP_HTONL 4026531840) =? PP_HTONL 3758096384.
Definition ip4_addr_islinklocal (a : ip4_addr) : bool :=
  Z.land a (PP_HTONL 4294901760) =? PP_HTONL 2851995648.
Definition ip4_addr_isloopback (a : ip4_addr) : bool :=
  Z.land a (PP_HTONL 4278190080) =? PP_HTONL 2130706432.

Definition ip6_addr_cmp_zoneless (a b : ip6_addr) : bool :=
  (ip6_w0 a =? ip6_w0 b) && (ip6_w1 a =? ip6_w1 b) && (ip6_w2 a =? ip6_w2 b) && (ip6_w3 a =? ip6_w3 b).
Definition ip6_addr_cmp_zone (a b : ip6_addr) : bool := ip6_zone a =? ip6_zone b.
Definition ip6_addr_cmp (a b : ip6_addr) : bool := ip6_addr_cmp_zoneless a b && ip6_addr_cmp_zone a b.
Definition ip6_addr_isany_val (a : ip6_addr) : bool :=
  (ip6_w0 a =? 0) && (ip6_w1 a =? 0) && (ip6_w2 a =? 0) && (ip6_w3 a =? 0).
Definition ip6_addr_ismulticast (a : ip6_addr) : bool :=
  Z.land (ip6_w0 a) (PP_HTONL 4278190080) =? PP_HTONL 4278190080.
Definition ip6_addr_isipv4mappedipv6 (a : ip6_addr) : bool :=
  (ip6_w0 a =? 0) && (ip6_w1 a =? 0) && (ip6_w2 a =? PP_HTONL 65535).

Definition ip_addr_cmp (a b : ip_addr) : bool :=
  if negb (ip_type a =? ip_type b) then false
  else if IP_IS_V6_VAL a then ip6_addr_cmp (ip_2_ip6 a) (ip_2_ip6 b)
  else ip_2_ip4 a =? ip_2_ip4 b.
Definition ip_addr_isany_val (a : ip_addr) : bool :=
  if IP_IS_V6_VAL a then ip6_addr_isany_val (ip_2_ip6 a) else ip4_addr_isany_val (ip_2_ip4 a).
Definition ip_addr_ismulticast (a : ip_addr) : bool :=
  if IP_IS_V6_VAL a then ip6_addr_ismulticast (ip_2_ip6 a) else ip4_addr_ismulticast (ip_2_ip4 a).

Lemma ip_addr_cmp_copy a b : ip_addr_cmp a b = true -> ip_addr_copy a = ip_addr_copy b.
Proof.
  unfold ip_addr_cmp, ip_addr_copy, IP_IS_V6_VAL, ip_2_ip4, ip_2_ip6, ip6_addr_cmp, ip6_addr_cmp_zoneless, ip6_addr_cmp_zone.
  destruct a as [[a0 a1 a2 a3 az] at_], b as [[b0 b1 b2 b3 bz] bt]. simpl.
  destruct (Z.eqb_spec at_ bt) as [->|]; [|done]. simpl.
  destruct (bt =? IPADDR_TYPE_V6); intros Hc; bool_to_prop; by subst.
Qed.

Definition u32_ok (x : Z) : Prop := 0 <= x < 4294967296.
Definition ip6_ok (a : ip6_addr) : Prop := Forall u32_ok (ip6_words a) /\ byte_ok (ip6_zone a).

(** Protocol numbers ([prot/ip.h]). *)
Definition IP_PROTO_ICMP : Z := 1.
Definition IP_PROTO_UDP : Z := 17.
Definition IP_PROTO_TCP : Z := 6.

(** The bytes of an address in a packet (the words are in network order). *)
Definition ip4_bytes (a : ip4_addr) : list Z := le32 a.
Definition ip6_bytes (a : ip6_addr) : list Z := concat (le32 <$> ip6_words a).

Lemma bytes_ip6 a : bytes_ok (ip6_bytes a).
Proof.
  unfold ip6_bytes. apply Forall_concat, Forall_fmap. apply Forall_forall. intros x _. apply bytes_le32.
Qed.
#[export] Hint Resolve bytes_ip6 : lwip.
