(* ===== verification/Pbuf.v ===== *)
(** * Packet buffers ([core/pbuf.c], [include/lwip/pbuf.h])

    The heap of the model: a [struct pbuf] per live block, and the bytes of every
    live block.  A [struct pbuf *] is the identifier of the block that holds it
    ([NULL] is [0]); a [void *payload] is a block and an offset.  [PBUF_RAM] and
    [PBUF_POOL] buffers live in the block of their own struct, behind its
    [SIZEOF_STRUCT_PBUF] bytes.  Reference counts, links and lengths are mutated in
    place, so chains that share a tail share it in the model too.

    The allocator ([malloc] of the C library, reached through [mem_malloc] since
    [MEM_LIBC_MALLOC] and [MEMP_MEM_MALLOC] are set) and the free function of
    custom pbufs are parameters. *)

From S2P Require Import Prelude Def.

(** ** Constants ([pbuf.h], [opt.h] with [lwipopts.h]; LP64) *)

Definition SIZEOF_STRUCT_PBUF : Z := 24.
Definition MEM_ALIGNMENT : Z := 1.
Definition LWIP_MEM_ALIGN_SIZE (size : Z) : Z :=
  Z.land (u32_t (size + MEM_ALIGNMENT - 1)) (u32_t (Z.lnot (MEM_ALIGNMENT - 1))).
Definition PBUF_POOL_BUFSIZE : Z := 1514.
Definition PBUF_POOL_BUFSIZE_ALIGNED : Z := LWIP_MEM_ALIGN_SIZE PBUF_POOL_BUFSIZE.
Definition NETIF_NO_INDEX : Z := 0.

Definition PBUF_TRANSPORT : Z := 74.
Definition PBUF_IP : Z := 54.
Definition PBUF_LINK : Z := 14.
Definition PBUF_RAW_TX : Z := 0.
Definition PBUF_RAW : Z := 0.

Definition PBUF_TYPE_FLAG_STRUCT_DATA_CONTIGUOUS : Z := 128.
Definition PBUF_TYPE_ALLOC_SRC_MASK : Z := 15.
Definition PBUF_TYPE_ALLOC_SRC_MASK_STD_HEAP : Z := 0.
Definition PBUF_TYPE_ALLOC_SRC_MASK_STD_MEMP_PBUF : Z := 1.
Definition PBUF_TYPE_ALLOC_SRC_MASK_STD_MEMP_PBUF_POOL : Z := 2.

(** [pbuf_type]: PBUF_ALLOC_FLAG_RX is 0x100, PBUF_ALLOC_FLAG_DATA_CONTIGUOUS
    0x200, PBUF_TYPE_FLAG_DATA_VOLATILE 0x40. *)
Definition PBUF_RAM : Z := 640.
Definition PBUF_ROM : Z := 1.
Definition PBUF_REF : Z := 65.
Definition PBUF_POOL : Z := 386.

Definition PBUF_FLAG_PUSH : Z := 1.
Definition PBUF_FLAG_IS_CUSTOM : Z := 2.
Definition PBUF_FLAG_TCP_FIN : Z := 32.

(** [err_t] values used by the buffer functions ([err.h]). *)
Definition ERR_OK : Z := 0.
Definition ERR_MEM : Z := -1.
Definition ERR_VAL : Z := -6.
Definition ERR_ARG : Z := -16.

(** ** [struct pbuf] and the heap *)

Record pbuf := mkPbuf {
  pb_next : Z;
  pb_payload : Z * Z;
  pb_tot_len : Z;
  pb_len : Z;
  pb_type_internal : Z;
  pb_flags : Z;
  pb_ref : Z;
  pb_if_idx : Z
}.

Definition set_next (v : Z) (p : pbuf) : pbuf :=
  mkPbuf v (pb_payload p) (pb_tot_len p) (pb_len p) (pb_type_internal p) (pb_flags p) (pb_ref p) (pb_if_idx p).
Definition set_payload (v : Z * Z) (p : pbuf) : pbuf :=
  mkPbuf (pb_next p) v (pb_tot_len p) (pb_len p) (pb_type_internal p) (pb_flags p) (pb_ref p) (pb_if_idx p).
Definition set_tot_len (v : Z) (p : pbuf) : pbuf :=
  mkPbuf (pb_next p) (pb_payload p) v (pb_len p) (pb_type_internal p) (pb_flags p) (pb_ref p) (pb_if_idx p).
Definition set_len (v : Z) (p : pbuf) : pbuf :=
  mkPbuf (pb_next p) (pb_payload p) (pb_tot_len p) v (pb_type_internal p) (pb_flags p) (pb_ref p) (pb_if_idx p).
Definition set_ref (v : Z) (p : pbuf) : pbuf :=
  mkPbuf (pb_next p) (pb_payload p) (pb_tot_len p) (pb_len p) (pb_type_internal p) (pb_flags p) v (pb_if_idx p).

Record heap := mkHeap {
  hp_pbufs : gmap Z pbuf;
  hp_blocks : gmap Z (list Z);
  hp_ooseq_pending : Z      (* pbuf_free_ooseq_pending *)
}.

Definition with_pbufs (m : gmap Z pbuf) (h : heap) : heap :=
  mkHeap m (hp_blocks h) (hp_ooseq_pending h).
Definition with_blocks (m : gmap Z (list Z)) (h : heap) : heap :=
  mkHeap (hp_pbufs h) m (hp_ooseq_pending h).

(** What the code relies on from [malloc]: a non-null block that is not in use,
    of the requested size, with unspecified contents. *)
Class Malloc := {
  malloc : heap -> Z -> option (Z * list Z);
  malloc_fresh : forall h n p bs, malloc h n = Some (p, bs) ->
    p <> 0 /\ hp_pbufs h !! p = None /\ hp_blocks h !! p = None /\
    zlen bs = n /\ bytes_ok bs
}.

(** ** Memory accesses *)

Definition get_pbuf (p : Z) : M heap pbuf := fun h =>
  match hp_pbufs h !! p with Some b => Ok (b, h) | None => Fault BadAccess end.

Definition upd_pbuf (p : Z) (f : pbuf -> pbuf) : M heap unit := fun h =>
  match hp_pbufs h !! p with
  | Some b => Ok (tt, with_pbufs (<[p := f b]> (hp_pbufs h)) h)
  | None => Fault BadAccess
  end.

(** The [n] bytes at [ptr], if they lie in a live block. *)
Definition load_bytes (h : heap) (ptr : Z * Z) (n : Z) : option (list Z) :=
  if n =? 0 then Some [] else
  match hp_blocks h !! ptr.1 with
  | Some bs => if (0 <=? ptr.2) && (0 <=? n) && (ptr.2 + n <=? zlen bs)
               then Some (zslice ptr.2 n bs) else None
  | None => None
  end.

Definition mem_read (ptr : Z * Z) (n : Z) : M heap (list Z) := fun h =>
  match load_bytes h ptr n with Some l => Ok (l, h) | None => Fault BadAccess end.

Definition mem_write (ptr : Z * Z) (l : list Z) : M heap unit := fun h =>
  if zlen l =? 0 then Ok (tt, h) else
  match hp_blocks h !! ptr.1 with
  | Some bs => if (0 <=? ptr.2) && (ptr.2 + zlen l <=? zlen bs)
               then Ok (tt, with_blocks (<[ptr.1 := zpatch ptr.2 l bs]> (hp_blocks h)) h)
               else Fault BadAccess
  | None => Fault BadAccess
  end.

(** A const input buffer is given by its bytes; [&data[off]] for [n] bytes. *)
Definition buf_read (data : list Z) (off n : Z) : M heap (list Z) :=
  if (0 <=? off) && (0 <=? n) && (off + n <=? zlen data)
  then ret (zslice off n data) else fail BadAccess.

Definition ptr_add (ptr : Z * Z) (n : Z) : Z * Z := (ptr.1, ptr.2 + n).

(** A chain has at most as many links as there are live pbufs. *)
Definition chain_fuel (h : heap) : nat := S (size (hp_pbufs h)).

Section PbufOps.
Context `{Malloc}.
(** [((struct pbuf_custom * )p)->custom_free_function] *)
Context (custom_free_function : Z -> M heap unit).

(** ** [mem.c] and [memp.c] on top of [malloc] *)

Definition mem_malloc (size : Z) : M heap Z := fun h =>
  match malloc h size with
  | Some (p, bs) => Ok (p, with_blocks (<[p := bs]> (hp_blocks h)) h)
  | None => Ok (0, h)
  end.

Definition mem_free (rmem : Z) : M heap unit :=
  lwip_assert "rmem != NULL" (negb (rmem =? 0)) ;;;
  (fun h => match hp_blocks h !! rmem with
            | Some _ => Ok (tt, mkHeap (delete rmem (hp_pbufs h)) (delete rmem (hp_blocks h))
                                       (hp_ooseq_pending h))
            | None => Fault BadAccess
            end).

Definition mem_trim (mem size : Z) : M heap Z := ret mem.

(** Element sizes of the two pbuf pools ([memp_std.h]). *)
Definition MEMP_PBUF_SIZE : Z := SIZEOF_STRUCT_PBUF.
Definition MEMP_PBUF_POOL_SIZE : Z := SIZEOF_STRUCT_PBUF + PBUF_POOL_BUFSIZE.

Definition memp_malloc (element_size : Z) : M heap Z := mem_malloc element_size.

Definition memp_free (mem : Z) : M heap unit :=
  if mem =? 0 then ret tt else mem_free mem.

(** ** Allocation *)

Definition pbuf_pool_is_empty : M heap unit := fun h =>
  Ok (tt, mkHeap (hp_pbufs h) (hp_blocks h) 1).

Definition pbuf_init_alloced_pbuf (p : Z) (payload : Z * Z) (tot_len len type flags : Z)
  : M heap unit := fun h =>
  match hp_blocks h !! p with
  | Some bs =>
      if SIZEOF_STRUCT_PBUF <=? zlen bs then
        Ok (tt, with_pbufs (<[p := mkPbuf 0 payload tot_len len (u8_t type) flags 1
                                     NETIF_NO_INDEX]> (hp_pbufs h)) h)
      else Fault BadAccess
  | None => Fault BadAccess
  end.

Definition pbuf_alloc_reference (payload : Z * Z) (length type : Z) : M heap Z :=
  lwip_assert "invalid pbuf_type" ((type =? PBUF_REF) || (type =? PBUF_ROM)) ;;;
  let* p := memp_malloc MEMP_PBUF_SIZE in
  if p =? 0 then ret 0 else
  pbuf_init_alloced_pbuf p payload length length type 0 ;;;
  ret p.

Definition pbuf_get_allocsrc (b : pbuf) : Z :=
  Z.land (pb_type_internal b) PBUF_TYPE_ALLOC_SRC_MASK.
Definition pbuf_match_allocsrc (b : pbuf) (type : Z) : bool :=
  pbuf_get_allocsrc b =? Z.land type PBUF_TYPE_ALLOC_SRC_MASK.

(** ** Deallocation *)

(** What [pbuf_free] does with a pbuf whose count reached zero. *)
Definition pbuf_dealloc (p : Z) (b : pbuf) : M heap unit :=
  let alloc_src := pbuf_get_allocsrc b in
  if negb (Z.land (pb_flags b) PBUF_FLAG_IS_CUSTOM =? 0) then custom_free_function p
  else if alloc_src =? PBUF_TYPE_ALLOC_SRC_MASK_STD_MEMP_PBUF_POOL then memp_free p
  else if alloc_src =? PBUF_TYPE_ALLOC_SRC_MASK_STD_MEMP_PBUF then memp_free p
  else if alloc_src =? PBUF_TYPE_ALLOC_SRC_MASK_STD_HEAP then mem_free p
  else lwip_assert "invalid pbuf type" false.

Fixpoint pbuf_free_loop (fuel : nat) (p count : Z) : M heap Z :=
  match fuel with
  | O => fail OutOfFuel
  | S fuel =>
      if p =? 0 then ret count else
      let* b := get_pbuf p in
      lwip_assert "pbuf_free: p->ref > 0" (0 <? pb_ref b) ;;;
      let ref := u8_t (pb_ref b - 1) in
      upd_pbuf p (set_ref ref) ;;;
      if ref =? 0 then
        pbuf_dealloc p b ;;;
        pbuf_free_loop fuel (pb_next b) (u8_t (count + 1))
      else
        pbuf_free_loop fuel 0 count
  end.

Definition pbuf_free (p : Z) : M heap Z :=
  lwip_assert "p != NULL" (negb (p =? 0)) ;;;
  (fun h => pbuf_free_loop (S (chain_fuel h)) p 0 h).

(** ** [pbuf_alloc] *)

Fixpoint pbuf_alloc_pool_loop (fuel : nat) (p last rem_len offset type : Z) : M heap Z :=
  match fuel with
  | O => fail OutOfFuel
  | S fuel =>
      let* q := memp_malloc MEMP_PBUF_POOL_SIZE in
      if q =? 0 then
        pbuf_pool_is_empty ;;;
        (if negb (p =? 0) then let* _ := pbuf_free p in ret 0 else ret 0)
      else
        let qlen := Z.min rem_len (u16_t (PBUF_POOL_BUFSIZE_ALIGNED - LWIP_MEM_ALIGN_SIZE offset)) in
        pbuf_init_alloced_pbuf q (q, SIZEOF_STRUCT_PBUF + offset) rem_len qlen type 0 ;;;
        lwip_assert "PBUF_POOL_BUFSIZE must be bigger than MEM_ALIGNMENT"
          (0 <? u32_t (PBUF_POOL_BUFSIZE_ALIGNED - LWIP_MEM_ALIGN_SIZE offset)) ;;;
        (if p =? 0 then ret tt else upd_pbuf last (set_next q)) ;;;
        let p' := if p =? 0 then q else p in
        let rem_len' := u16_t (rem_len - qlen) in
        if 0 <? rem_len' then pbuf_alloc_pool_loop fuel p' q rem_len' 0 type else ret p'
  end.

Definition pbuf_alloc (layer length type : Z) : M heap Z :=
  let offset := u16_t layer in
  if (type =? PBUF_REF) || (type =? PBUF_ROM) then pbuf_alloc_reference (0, 0) length type
  else if type =? PBUF_POOL then
    pbuf_alloc_pool_loop (S (Z.to_nat length)) 0 0 length offset type
  else if type =? PBUF_RAM then
    let payload_len := u16_t (LWIP_MEM_ALIGN_SIZE offset + LWIP_MEM_ALIGN_SIZE length) in
    let alloc_len := u64_t (LWIP_MEM_ALIGN_SIZE SIZEOF_STRUCT_PBUF + payload_len) in
    if (payload_len <? LWIP_MEM_ALIGN_SIZE length) || (alloc_len <? LWIP_MEM_ALIGN_SIZE length)
    then ret 0 else
    let* p := mem_malloc alloc_len in
    if p =? 0 then ret 0 else
    pbuf_init_alloced_pbuf p (p, SIZEOF_STRUCT_PBUF + offset) length length type 0 ;;;
    ret p
  else
    lwip_assert "pbuf_alloc: erroneous type" false ;;; ret 0.

(** [p] is the already allocated [struct pbuf_custom]. *)
Definition pbuf_alloced_custom (l length type p : Z) (payload_mem : Z * Z) (payload_mem_len : Z)
  : M heap Z :=
  let offset := u16_t l in
  if payload_mem_len <? LWIP_MEM_ALIGN_SIZE offset + length then ret 0 else
  let payload := if payload_mem.1 =? 0 then (0, 0)
                 else ptr_add payload_mem (LWIP_MEM_ALIGN_SIZE offset) in
  pbuf_init_alloced_pbuf p payload length length type PBUF_FLAG_IS_CUSTOM ;;;
  ret p.

(** ** [pbuf_realloc] *)

Fixpoint pbuf_realloc_loop (fuel : nat) (q rem_len shrink : Z) : M heap (Z * Z) :=
  match fuel with
  | O => fail OutOfFuel
  | S fuel =>
      let* b := get_pbuf q in
      if pb_len b <? rem_len then
        let rem_len' := u16_t (rem_len - pb_len b) in
        upd_pbuf q (fun b => set_tot_len (u16_t (pb_tot_len b - shrink)) b) ;;;
        lwip_assert "pbuf_realloc: q != NULL" (negb (pb_next b =? 0)) ;;;
        pbuf_realloc_loop fuel (pb_next b) rem_len' shrink
      else ret (q, rem_len)
  end.

Definition pbuf_realloc (p new_len : Z) : M heap unit :=
  lwip_assert "pbuf_realloc: p != NULL" (negb (p =? 0)) ;;;
  let* b := get_pbuf p in
  if pb_tot_len b <=? new_len then ret tt else
  let shrink := u16_t (pb_tot_len b - new_len) in
  let* (q, rem_len) := (fun h => pbuf_realloc_loop (chain_fuel h) p new_len shrink h) in
  let* bq := get_pbuf q in
  let* q := (if pbuf_match_allocsrc bq PBUF_TYPE_ALLOC_SRC_MASK_STD_HEAP &&
                negb (rem_len =? pb_len bq) &&
                (Z.land (pb_flags bq) PBUF_FLAG_IS_CUSTOM =? 0)
             then mem_trim q (u64_t ((pb_payload bq).2 + rem_len))
             else ret q) in
  lwip_assert "mem_trim returned q == NULL" (negb (q =? 0)) ;;;
  upd_pbuf q (set_len rem_len) ;;;
  upd_pbuf q (fun b => set_tot_len (pb_len b) b) ;;;
  let* bq := get_pbuf q in
  (if negb (pb_next bq =? 0) then let* _ := pbuf_free (pb_next bq) in ret tt else ret tt) ;;;
  upd_pbuf q (set_next 0).

(** ** Header adjustment *)

Definition pbuf_add_header_impl (p header_size_increment force : Z) : M heap Z :=
  lwip_assert "p != NULL" (negb (p =? 0)) ;;;
  if 65535 <? header_size_increment then ret 1 else
  if header_size_increment =? 0 then ret 0 else
  let increment_magnitude := u16_t header_size_increment in
  let* b := get_pbuf p in
  if u16_t (increment_magnitude + pb_tot_len b) <? increment_magnitude then ret 1 else
  let type_internal := pb_type_internal b in
  let payload := ptr_add (pb_payload b) (- header_size_increment) in
  let adjust :=
    upd_pbuf p (fun b => set_payload payload b) ;;;
    upd_pbuf p (fun b => set_len (u16_t (pb_len b + increment_magnitude)) b) ;;;
    upd_pbuf p (fun b => set_tot_len (u16_t (pb_tot_len b + increment_magnitude)) b) ;;;
    ret 0 in
  if negb (Z.land type_internal PBUF_TYPE_FLAG_STRUCT_DATA_CONTIGUOUS =? 0) then
    if payload.1 =? p then
      if payload.2 <? SIZEOF_STRUCT_PBUF then ret 1 else adjust
    else fail BadAccess
  else if negb (force =? 0) then adjust
  else ret 1.

Definition pbuf_add_header (p header_size_increment : Z) : M heap Z :=
  pbuf_add_header_impl p header_size_increment 0.
Definition pbuf_add_header_force (p header_size_increment : Z) : M heap Z :=
  pbuf_add_header_impl p header_size_increment 1.

Definition pbuf_remove_header (p header_size_decrement : Z) : M heap Z :=
  lwip_assert "p != NULL" (negb (p =? 0)) ;;;
  if 65535 <? header_size_decrement then ret 1 else
  if header_size_decrement =? 0 then ret 0 else
  let increment_magnitude := u16_t header_size_decrement in
  let* b := get_pbuf p in
  lwip_assert "increment_magnitude <= p->len" (increment_magnitude <=? pb_len b) ;;;
  upd_pbuf p (fun b => set_payload (ptr_add (pb_payload b) header_size_decrement) b) ;;;
  upd_pbuf p (fun b => set_len (u16_t (pb_len b - increment_magnitude)) b) ;;;
  upd_pbuf p (fun b => set_tot_len (u16_t (pb_tot_len b - increment_magnitude)) b) ;;;
  ret 0.

Definition pbuf_header_impl (p header_size_increment force : Z) : M heap Z :=
  if header_size_increment <? 0 then pbuf_remove_header p (- header_size_increment)
  else pbuf_add_header_impl p header_size_increment force.
Definition pbuf_header (p header_size_increment : Z) : M heap Z :=
  pbuf_header_impl p header_size_increment 0.
Definition pbuf_header_force (p header_size_increment : Z) : M heap Z :=
  pbuf_header_impl p header_size_increment 1.

Fixpoint pbuf_free_header_loop (fuel : nat) (p free_left : Z) : M heap Z :=
  match fuel with
  | O => fail OutOfFuel
  | S fuel =>
      if negb (free_left =? 0) && negb (p =? 0) then
        let* b := get_pbuf p in
        if pb_len b <=? free_left then
          let f := p in
          let free_left' := u16_t (free_left - pb_len b) in
          let p' := pb_next b in
          upd_pbuf f (set_next 0) ;;;
          let* _ := pbuf_free f in
          pbuf_free_header_loop fuel p' free_left'
        else
          let* _ := pbuf_remove_header p free_left in
          pbuf_free_header_loop fuel p 0
      else ret p
  end.

Definition pbuf_free_header (q size : Z) : M heap Z := fun h =>
  pbuf_free_header_loop (S (chain_fuel h)) q size h.

(** ** Chain operations *)

Fixpoint pbuf_clen_loop (fuel : nat) (p len : Z) : M heap Z :=
  match fuel with
  | O => fail OutOfFuel
  | S fuel =>
      if p =? 0 then ret len else
      let* b := get_pbuf p in
      pbuf_clen_loop fuel (pb_next b) (u16_t (len + 1))
  end.
Definition pbuf_clen (p : Z) : M heap Z := fun h => pbuf_clen_loop (S (chain_fuel h)) p 0 h.

Definition pbuf_ref (p : Z) : M heap unit :=
  if negb (p =? 0) then
    upd_pbuf p (fun b => set_ref (u8_t (pb_ref b + 1)) b) ;;;
    let* b := get_pbuf p in
    lwip_assert "pbuf ref overflow" (0 <? pb_ref b)
  else ret tt.

Fixpoint pbuf_cat_loop (fuel : nat) (p t : Z) : M heap Z :=
  match fuel with
  | O => fail OutOfFuel
  | S fuel =>
      let* b := get_pbuf p in
      if pb_next b =? 0 then ret p else
      let* bt := get_pbuf t in
      upd_pbuf p (fun b => set_tot_len (u16_t (pb_tot_len b + pb_tot_len bt)) b) ;;;
      pbuf_cat_loop fuel (pb_next b) t
  end.

Definition pbuf_cat (h t : Z) : M heap unit :=
  lwip_assert "(h != NULL) && (t != NULL) (programmer violates API)"
    (negb (h =? 0) && negb (t =? 0)) ;;;
  let* p := (fun s => pbuf_cat_loop (chain_fuel s) h t s) in
  let* b := get_pbuf p in
  lwip_assert "p->tot_len == p->len (of last pbuf in chain)" (pb_tot_len b =? pb_len b) ;;;
  lwip_assert "p->next == NULL" (pb_next b =? 0) ;;;
  let* bt := get_pbuf t in
  upd_pbuf p (fun b => set_tot_len (u16_t (pb_tot_len b + pb_tot_len bt)) b) ;;;
  upd_pbuf p (set_next t).

Definition pbuf_chain (h t : Z) : M heap unit :=
  pbuf_cat h t ;;;
  pbuf_ref t.

Definition pbuf_dechain (p : Z) : M heap Z :=
  let* b := get_pbuf p in
  let q := pb_next b in
  let* tail_gone :=
    (if negb (q =? 0) then
       let* bq := get_pbuf q in
       lwip_assert "p->tot_len == p->len + q->tot_len"
         (pb_tot_len bq =? pb_tot_len b - pb_len b) ;;;
       upd_pbuf q (set_tot_len (u16_t (pb_tot_len b - pb_len b))) ;;;
       upd_pbuf p (set_next 0) ;;;
       upd_pbuf p (fun b => set_tot_len (pb_len b) b) ;;;
       pbuf_free q
     else ret 1) in
  let* b := get_pbuf p in
  lwip_assert "p->tot_len == p->len" (pb_tot_len b =? pb_len b) ;;;
  ret (if 0 <? tail_gone then 0 else q).

(** ** Copying *)

Fixpoint pbuf_copy_loop (fuel : nat) (p_to p_from offset_to offset_from : Z) : M heap Z :=
  match fuel with
  | O => fail OutOfFuel
  | S fuel =>
      let* bt := get_pbuf p_to in
      let* bf := get_pbuf p_from in
      let len := if u64_t (pb_len bf - offset_from) <=? u64_t (pb_len bt - offset_to)
                 then u64_t (pb_len bf - offset_from)
                 else u64_t (pb_len bt - offset_to) in
      let* l := mem_read (ptr_add (pb_payload bf) offset_from) len in
      mem_write (ptr_add (pb_payload bt) offset_to) l ;;;
      let offset_to := u64_t (offset_to + len) in
      let offset_from := u64_t (offset_from + len) in
      lwip_assert "offset_to <= p_to->len" (offset_to <=? pb_len bt) ;;;
      lwip_assert "offset_from <= p_from->len" (offset_from <=? pb_len bf) ;;;
      let from_done := pb_len bf <=? offset_from in
      let p_from' := if from_done then pb_next bf else p_from in
      let offset_from' := if from_done then 0 else offset_from in
      let to_done := offset_to =? pb_len bt in
      let p_to' := if to_done then pb_next bt else p_to in
      let offset_to' := if to_done then 0 else offset_to in
      (if to_done then lwip_assert "p_to != NULL" (negb (p_to' =? 0) || (p_from' =? 0))
       else ret tt) ;;;
      (if negb (p_from' =? 0) then
         let* b := get_pbuf p_from' in
         if pb_len b =? pb_tot_len b then
           lwip_assert "pbuf_copy() does not allow packet queues!" (pb_next b =? 0)
         else ret tt
       else ret tt) ;;;
      (if negb (p_to' =? 0) then
         let* b := get_pbuf p_to' in
         if pb_len b =? pb_tot_len b then
           lwip_assert "pbuf_copy() does not allow packet queues!" (pb_next b =? 0)
         else ret tt
       else ret tt) ;;;
      if negb (p_from' =? 0) then pbuf_copy_loop fuel p_to' p_from' offset_to' offset_from'
      else ret ERR_OK
  end.

Definition pbuf_copy (p_to p_from : Z) : M heap Z :=
  lwip_assert "pbuf_copy: target not big enough to hold source"
    (negb (p_to =? 0) && negb (p_from =? 0)) ;;;
  let* bt := get_pbuf p_to in
  let* bf := get_pbuf p_from in
  lwip_assert "pbuf_copy: target not big enough to hold source"
    (pb_tot_len bf <=? pb_tot_len bt) ;;;
  (fun h => pbuf_copy_loop (2 * chain_fuel h) p_to p_from 0 0 h).

Fixpoint pbuf_copy_partial_loop (fuel : nat) (p : Z) (dataptr : Z * Z)
    (left len offset copied_total : Z) : M heap Z :=
  match fuel with
  | O => fail OutOfFuel
  | S fuel =>
      if negb (len =? 0) && negb (p =? 0) then
        let* b := get_pbuf p in
        if negb (offset =? 0) && (pb_len b <=? offset) then
          pbuf_copy_partial_loop fuel (pb_next b) dataptr left len
            (u16_t (offset - pb_len b)) copied_total
        else
          let buf_copy_len := u16_t (pb_len b - offset) in
          let buf_copy_len := if len <? buf_copy_len then len else buf_copy_len in
          let* l := mem_read (ptr_add (pb_payload b) offset) buf_copy_len in
          mem_write (ptr_add dataptr left) l ;;;
          pbuf_copy_partial_loop fuel (pb_next b) dataptr (u16_t (left + buf_copy_len))
            (u16_t (len - buf_copy_len)) 0 (u16_t (copied_total + buf_copy_len))
      else ret copied_total
  end.

Definition pbuf_copy_partial (buf : Z) (dataptr : Z * Z) (len offset : Z) : M heap Z :=
  lwip_assert "pbuf_copy_partial: invalid buf" (negb (buf =? 0)) ;;;
  lwip_assert "pbuf_copy_partial: invalid dataptr" (negb (dataptr.1 =? 0)) ;;;
  (fun h => pbuf_copy_partial_loop (S (chain_fuel h)) buf dataptr 0 len offset 0 h).

(** [pbuf_skip_const] returns the pbuf and stores the offset inside it. *)
Fixpoint pbuf_skip_loop (fuel : nat) (q offset_left : Z) : M heap (Z * Z) :=
  match fuel with
  | O => fail OutOfFuel
  | S fuel =>
      if q =? 0 then ret (q, offset_left) else
      let* b := get_pbuf q in
      if pb_len b <=? offset_left then
        pbuf_skip_loop fuel (pb_next b) (u16_t (offset_left - pb_len b))
      else ret (q, offset_left)
  end.
Definition pbuf_skip_const (inp in_offset : Z) : M heap (Z * Z) := fun h =>
  pbuf_skip_loop (S (chain_fuel h)) inp in_offset h.
Definition pbuf_skip (inp in_offset : Z) : M heap (Z * Z) := pbuf_skip_const inp in_offset.

Definition pbuf_get_contiguous (p : Z) (buffer : Z * Z) (bufsize len offset : Z)
  : M heap (Z * Z) :=
  lwip_assert "pbuf_get_contiguous: invalid buf" (negb (p =? 0)) ;;;
  lwip_assert "pbuf_get_contiguous: invalid dataptr" (negb (buffer.1 =? 0)) ;;;
  lwip_assert "pbuf_get_contiguous: invalid dataptr" (len <=? bufsize) ;;;
  let* (q, out_offset) := pbuf_skip_const p offset in
  if negb (q =? 0) then
    let* b := get_pbuf q in
    if out_offset + len <=? pb_len b then ret (ptr_add (pb_payload b) out_offset) else
    let* n := pbuf_copy_partial q buffer len out_offset in
    if negb (n =? len) then ret (0, 0) else ret buffer
  else ret (0, 0).

Fixpoint pbuf_take_loop (fuel : nat) (p : Z) (dataptr : list Z) (total_copy_len copied_total : Z)
  : M heap (Z * Z) :=
  match fuel with
  | O => fail OutOfFuel
  | S fuel =>
      if total_copy_len =? 0 then ret (total_copy_len, copied_total) else
      lwip_assert "pbuf_take: invalid pbuf" (negb (p =? 0)) ;;;
      let* b := get_pbuf p in
      let buf_copy_len := if pb_len b <? total_copy_len then pb_len b else total_copy_len in
      let* l := buf_read dataptr copied_total buf_copy_len in
      mem_write (pb_payload b) l ;;;
      pbuf_take_loop fuel (pb_next b) dataptr (u64_t (total_copy_len - buf_copy_len))
        (u64_t (copied_total + buf_copy_len))
  end.

(** [dataptr] is [None] for a null pointer. *)
Definition pbuf_take (buf : Z) (dataptr : option (list Z)) (len : Z) : M heap Z :=
  lwip_assert "pbuf_take: invalid buf" (negb (buf =? 0)) ;;;
  match dataptr with
  | None => lwip_assert "pbuf_take: invalid dataptr" false ;;; ret ERR_ARG
  | Some data =>
      let* b := get_pbuf buf in
      lwip_assert "pbuf_take: buf not large enough" (len <=? pb_tot_len b) ;;;
      let* (total_copy_len, copied_total) :=
        (fun h => pbuf_take_loop (S (chain_fuel h)) buf data len 0 h) in
      lwip_assert "did not copy all data" ((total_copy_len =? 0) && (copied_total =? len)) ;;;
      ret ERR_OK
  end.

Definition pbuf_take_at (buf : Z) (dataptr : option (list Z)) (len offset : Z) : M heap Z :=
  let* (q, target_offset) := pbuf_skip buf offset in
  if q =? 0 then ret ERR_MEM else
  let* b := get_pbuf q in
  if target_offset + len <=? pb_tot_len b then
    lwip_assert "check pbuf_skip result" (target_offset <? pb_len b) ;;;
    let first_copy_len := u16_t (Z.min (pb_len b - target_offset) len) in
    let* l := (match dataptr with
               | Some data => buf_read data 0 first_copy_len
               | None => if first_copy_len =? 0 then ret [] else fail BadAccess
               end) in
    mem_write (ptr_add (pb_payload b) target_offset) l ;;;
    let remaining_len := u16_t (len - first_copy_len) in
    if 0 <? remaining_len then
      pbuf_take (pb_next b) (zdrop first_copy_len <$> dataptr) remaining_len
    else ret ERR_OK
  else ret ERR_MEM.

Definition pbuf_clone (layer type p : Z) : M heap Z :=
  let* b := get_pbuf p in
  let* q := pbuf_alloc layer (pb_tot_len b) type in
  if q =? 0 then ret 0 else
  let* err := pbuf_copy q p in
  lwip_assert "pbuf_copy failed" (err =? ERR_OK) ;;;
  ret q.

Definition pbuf_coalesce (p layer : Z) : M heap Z :=
  let* b := get_pbuf p in
  if pb_next b =? 0 then ret p else
  let* q := pbuf_clone layer PBUF_RAM p in
  if q =? 0 then ret p else
  let* _ := pbuf_free p in
  ret q.

(** ** Byte access *)

(** Negative when [offset] is outside the chain. *)
Definition pbuf_try_get_at (p offset : Z) : M heap Z :=
  let* (q, q_idx) := pbuf_skip_const p offset in
  if q =? 0 then ret (-1) else
  let* b := get_pbuf q in
  if q_idx <? pb_len b then
    let* l := mem_read (ptr_add (pb_payload b) q_idx) 1 in
    ret (chr l)
  else ret (-1).

Definition pbuf_get_at (p offset : Z) : M heap Z :=
  let* ret_ := pbuf_try_get_at p offset in
  ret (if 0 <=? ret_ then u8_t ret_ else 0).

Definition pbuf_put_at (p offset data : Z) : M heap unit :=
  let* (q, q_idx) := pbuf_skip p offset in
  if q =? 0 then ret tt else
  let* b := get_pbuf q in
  if q_idx <? pb_len b then mem_write (ptr_add (pb_payload b) q_idx) [data]
  else ret tt.

Fixpoint pbuf_memcmp_loop (fuel : nat) (q start : Z) (s2 : list Z) (n i : Z) : M heap Z :=
  match fuel with
  | O => fail OutOfFuel
  | S fuel =>
      if i <? n then
        let* a := pbuf_get_at q (u16_t (start + i)) in
        let* l := buf_read s2 i 1 in
        if negb (a =? chr l) then ret (u16_t (Z.min (i + 1) 65535))
        else pbuf_memcmp_loop fuel q start s2 n (u16_t (i + 1))
      else ret 0
  end.

Definition pbuf_memcmp (p offset : Z) (s2 : list Z) (n : Z) : M heap Z :=
  let* b := get_pbuf p in
  if pb_tot_len b <? offset + n then ret 65535 else
  let* (q, start) := (fun h => pbuf_skip_loop (S (chain_fuel h)) p offset h) in
  pbuf_memcmp_loop (S (Z.to_nat n)) q start s2 n 0.

Fixpoint pbuf_memfind_loop (fuel : nat) (p : Z) (mem : list Z) (mem_len max_cmp_start i : Z)
  : M heap Z :=
  match fuel with
  | O => fail OutOfFuel
  | S fuel =>
      if i <=? max_cmp_start then
        let* plus := pbuf_memcmp p i mem mem_len in
        if plus =? 0 then ret i
        else pbuf_memfind_loop fuel p mem mem_len max_cmp_start (u16_t (i + 1))
      else ret 65535
  end.

Definition pbuf_memfind (p : Z) (mem : list Z) (mem_len start_offset : Z) : M heap Z :=
  let* b := get_pbuf p in
  let max_cmp_start := u16_t (pb_tot_len b - mem_len) in
  if mem_len + start_offset <=? pb_tot_len b then
    pbuf_memfind_loop (S (Z.to_nat (max_cmp_start + 1))) p mem mem_len max_cmp_start start_offset
  else ret 65535.

(** [substr] is the characters before the terminating NUL, [None] for [NULL]. *)
Definition pbuf_strstr (p : Z) (substr : option (list Z)) : M heap Z :=
  match substr with
  | None => ret 65535
  | Some s =>
      if chr s =? 0 then ret 65535 else
      let* b := get_pbuf p in
      if pb_tot_len b =? 65535 then ret 65535 else
      if 65535 <=? zlen s then ret 65535 else
      pbuf_memfind p s (u16_t (zlen s)) 0
  end.

End PbufOps.
