(* ===== verification/PbufFacts.v ===== *)
(** * Theory of packet-buffer chains

    [chain h p l]: following [next] from [p] in [h] visits the pbufs [l] and ends in
    [NULL].  [lens_ok] is the invariant of [pbuf.h]
    (p->tot_len == p->len + (p->next? p->next->tot_len: 0)) with [tot_len] in range,
    [contents] the bytes of the packet.  A [packet] has all three. *)

From S2P Require Import Prelude Def Pbuf.

Inductive chain (h : heap) : Z -> list (Z * pbuf) -> Prop :=
| chain_nil : chain h 0 []
| chain_cons p b l :
    p <> 0 -> hp_pbufs h !! p = Some b -> chain h (pb_next b) l -> chain h p ((p, b) :: l).
#[export] Hint Constructors chain : lwip.

Fixpoint total (l : list (Z * pbuf)) : Z :=
  match l with [] => 0 | (_, b) :: l => pb_len b + total l end.

Fixpoint lens_ok (l : list (Z * pbuf)) : Prop :=
  match l with
  | [] => True
  | (_, b) :: l => 0 <= pb_len b /\ pb_tot_len b = pb_len b + total l /\
                   pb_tot_len b < 65536 /\ lens_ok l
  end.

Fixpoint contents (h : heap) (l : list (Z * pbuf)) : option (list Z) :=
  match l with
  | [] => Some []
  | (_, b) :: l =>
      match load_bytes h (pb_payload b) (pb_len b), contents h l with
      | Some d, Some r => Some (d ++ r)
      | _, _ => None
      end
  end.

Definition packet (h : heap) (p : Z) (l : list (Z * pbuf)) (d : list Z) : Prop :=
  chain h p l /\ lens_ok l /\ contents h l = Some d.

(** ** Chains *)

Definition hd_ptr (l : list (Z * pbuf)) : Z := match l with [] => 0 | (p, _) :: _ => p end.

Lemma chain_hd h p l : chain h p l -> p = hd_ptr l.
Proof. by destruct 1. Qed.

Lemma chain_det h p l1 l2 : chain h p l1 -> chain h p l2 -> l1 = l2.
Proof.
  intros H1. revert l2. induction H1 as [|p b l Hp Hb Hc IH]; intros l2 H2;
    inversion H2; subst; try done.
  rewrite Hb in *. simplify_eq. f_equal. by apply IH.
Qed.

Lemma chain_app_inv h p l1 l2 : chain h p (l1 ++ l2) -> exists q, chain h q l2 /\ q = hd_ptr l2.
Proof.
  revert p. induction l1 as [|[a b] l1 IH]; simpl; intros p Hc.
  - eauto using chain_hd.
  - inversion Hc; subst. eauto.
Qed.

Lemma chain_lookup h p l q b : chain h p l -> (q, b) ∈ l -> q <> 0 /\ hp_pbufs h !! q = Some b.
Proof. induction 1; [by intros ?%elem_of_nil|]. intros [[=]|]%elem_of_cons; subst; auto. Qed.

Lemma chain_NoDup h p l : chain h p l -> NoDup l.*1.
Proof.
  induction 1 as [|p b l Hp Hb Hc IH]; simpl; [constructor|]. constructor; [|done].
  intros ((q & c) & Heq & Hin)%list_elem_of_fmap. simpl in Heq. subst q.
  apply list_elem_of_split in Hin as (l1 & l2 & ->).
  destruct (chain_app_inv h _ l1 _ Hc) as (q & Hq & ->). simpl in Hq.
  assert (chain h p ((p, b) :: l1 ++ (p, c) :: l2)) as Hall by (constructor; auto).
  pose proof (chain_det _ _ _ _ Hall Hq) as Heq. apply (f_equal length) in Heq.
  simpl in Heq. rewrite length_app in Heq. simpl in Heq. lia.
Qed.

Lemma chain_fuel_enough h p l : chain h p l -> (length l < chain_fuel h)%nat.
Proof.
  intros Hc. unfold chain_fuel.
  assert (length l <= size (hp_pbufs h))%nat; [|lia].
  rewrite <- (length_fmap fst l), <- size_dom.
  rewrite <- (size_list_to_set (C := gset Z) (l.*1)) by eauto using chain_NoDup.
  apply subseteq_size. intros q (( ? & b) & -> & Hin)%elem_of_list_to_set%list_elem_of_fmap.
  apply elem_of_dom. destruct (chain_lookup _ _ _ _ _ Hc Hin). eauto.
Qed.

Lemma chain_frame h h' p l :
  chain h p l -> (forall q, q ∈ l.*1 -> hp_pbufs h' !! q = hp_pbufs h !! q) -> chain h' p l.
Proof.
  induction 1 as [|p b l Hp Hb Hc IH]; intros Hf; constructor; auto.
  - rewrite Hf; [done|]. simpl. by left.
  - apply IH. intros q Hq. apply Hf. simpl. by right.
Qed.

(** ** Lengths and contents *)

Lemma total_app l1 l2 : total (l1 ++ l2) = total l1 + total l2.
Proof. induction l1 as [|[p b] l1 IH]; simpl; lia. Qed.

Lemma total_nonneg l : lens_ok l -> 0 <= total l.
Proof. induction l as [|[p b] l IH]; simpl; [lia|]. intros (?&?&?&?). specialize (IH ltac:(done)). lia. Qed.

Lemma lens_ok_app_r l1 l2 : lens_ok (l1 ++ l2) -> lens_ok l2.
Proof. induction l1 as [|[p b] l1 IH]; simpl; [done|]. intros (?&?&?&?). auto. Qed.

Lemma lens_ok_total_lt l : lens_ok l -> total l < 65536.
Proof. destruct l as [|[p b] l]; simpl; lia. Qed.

Lemma load_bytes_len h ptr n d : 0 <= n -> load_bytes h ptr n = Some d -> zlen d = n.
Proof.
  unfold load_bytes. intros Hn. destruct (Z.eqb_spec n 0); [intros [= <-]; by subst|].
  destruct (hp_blocks h !! ptr.1); [|done].
  destruct (_ && _) eqn:E; [|done]. bool_to_prop. intros [= <-].
  apply zlen_zslice; lia.
Qed.

Lemma contents_app h l1 l2 :
  contents h (l1 ++ l2) =
  match contents h l1, contents h l2 with Some a, Some b => Some (a ++ b) | _, _ => None end.
Proof.
  induction l1 as [|[p b] l1 IH]; simpl; [by destruct (contents h l2)|].
  rewrite IH. destruct (load_bytes _ _ _), (contents h l1), (contents h l2); simpl; try done.
  by rewrite (assoc_L (++)).
Qed.

Lemma contents_len h l d : lens_ok l -> contents h l = Some d -> zlen d = total l.
Proof.
  revert d. induction l as [|[p b] l IH]; simpl; intros d Hl Hd; [by simplify_eq|].
  destruct Hl as (? & ? & ? & ?).
  destruct (load_bytes _ _ _) as [d1|] eqn:E1; [|done].
  destruct (contents h l) as [d2|] eqn:E2; [|done]. simplify_eq.
  rewrite zlen_app, (IH d2) by done. f_equal. by eapply load_bytes_len.
Qed.

Lemma contents_cons_inv h p b l d : contents h ((p, b) :: l) = Some d ->
  exists d1 d2, load_bytes h (pb_payload b) (pb_len b) = Some d1 /\
                contents h l = Some d2 /\ d = d1 ++ d2.
Proof. simpl. destruct (load_bytes _ _ _), (contents h l); intros; simplify_eq; eauto. Qed.

Lemma packet_len h p l d : packet h p l d -> zlen d = total l.
Proof. intros (_ & Hl & Hd). by eapply contents_len. Qed.

Lemma packet_tail h p b l d :
  packet h p ((p, b) :: l) d ->
  exists d1 d2, load_bytes h (pb_payload b) (pb_len b) = Some d1 /\ zlen d1 = pb_len b /\
                packet h (pb_next b) l d2 /\ d = d1 ++ d2.
Proof.
  intros (Hc & Hl & Hd). inversion Hc; subst. destruct Hl as (? & ? & ? & Hl).
  apply contents_cons_inv in Hd as (d1 & d2 & Hd1 & Hd2 & ->).
  exists d1, d2. repeat split; auto. by eapply load_bytes_len.
Qed.

(** Any part of a loaded range can be loaded. *)
Lemma load_bytes_sub h ptr n d o m :
  load_bytes h ptr n = Some d -> 0 <= o -> 0 <= m -> o + m <= n ->
  load_bytes h (ptr_add ptr o) m = Some (zslice o m d).
Proof.
  unfold load_bytes, ptr_add. simpl. intros Hd Ho Hm Hle.
  destruct (Z.eqb_spec m 0) as [->|Hm0].
  { unfold zslice. by rewrite ztake_nonpos. }
  destruct (Z.eqb_spec n 0); [lia|].
  destruct (hp_blocks h !! ptr.1) as [bs|]; [|done].
  destruct (_ && _) eqn:E in Hd; [|done]. bool_to_prop. simplify_eq.
  replace ((0 <=? ptr.2 + o) && (0 <=? m) && (ptr.2 + o + m <=? zlen bs)) with true.
  2:{ symmetry. rewrite !andb_true_iff, !Z.leb_le. lia. }
  f_equal. unfold zslice.
  replace n with (o + (n - o)) at 1 by lia.
  rewrite zdrop_ztake, zdrop_zdrop, ztake_ztake by lia. done.
Qed.

(** ** Read-only walks *)

Section ReadOnly.
Implicit Types h : heap.

Lemma get_pbuf_ok h p b : hp_pbufs h !! p = Some b -> get_pbuf p h = Ok (b, h).
Proof. unfold get_pbuf. by intros ->. Qed.

Lemma pbuf_clen_loop_spec fuel h p l n :
  chain h p l -> (length l < fuel)%nat -> 0 <= n -> n + zlen l < 65536 ->
  pbuf_clen_loop fuel p n h = Ok (n + zlen l, h).
Proof.
  intros Hc. revert fuel n. induction Hc as [|p b l Hp Hb Hc IH]; intros [|fuel] n Hf Hn Hlt;
    simpl in *; try lia.
  - unfold ret. do 2 f_equal. rewrite zlen_nil. lia.
  - destruct (Z.eqb_spec p 0); [done|]. m_step (get_pbuf_ok _ _ _ Hb).
    rewrite zlen_cons in *. pose proof (zlen_nonneg l).
    rewrite u16_t_id by lia. rewrite IH by lia. do 2 f_equal. lia.
Qed.

(** [pbuf_clen] counts the pbufs of the chain. *)
Lemma pbuf_clen_spec h p l : chain h p l -> zlen l < 65536 -> pbuf_clen p h = Ok (zlen l, h).
Proof.
  intros Hc Hl. unfold pbuf_clen. pose proof (chain_fuel_enough _ _ _ Hc).
  rewrite (pbuf_clen_loop_spec _ _ _ l) by (done || lia). by rewrite Z.add_0_l.
Qed.

Lemma pbuf_skip_loop_spec fuel h p l off :
  chain h p l -> lens_ok l -> (length l < fuel)%nat -> 0 <= off < 65536 ->
  exists l1 l2 o, l = l1 ++ l2 /\ pbuf_skip_loop fuel p off h = Ok ((hd_ptr l2, o), h) /\
    0 <= o /\ off = total l1 + o /\
    match l2 with [] => True | (_, b) :: _ => o < pb_len b end.
Proof.
  intros Hc. revert fuel off. induction Hc as [|p b l Hp Hb Hc IH]; intros [|fuel] off Hl Hf Ho;
    simpl in Hf; try lia.
  - exists [], [], off. simpl. repeat split; lia.
  - simpl. destruct (Z.eqb_spec p 0); [done|].
    m_step (get_pbuf_ok _ _ _ Hb).
    destruct Hl as (? & ? & ? & Hl). destruct (Z.leb_spec (pb_len b) off).
    + rewrite u16_t_id by lia.
      destruct (IH fuel (off - pb_len b)) as (l1 & l2 & o & -> & -> & ? & ? & ?); [done|lia..|].
      exists ((p, b) :: l1), l2, o. simpl. repeat split; auto; lia.
    + exists [], ((p, b) :: l), off. simpl. repeat split; auto; lia.
Qed.

Lemma pbuf_skip_spec h p l off :
  chain h p l -> lens_ok l -> 0 <= off < 65536 ->
  exists l1 l2 o, l = l1 ++ l2 /\ pbuf_skip_const p off h = Ok ((hd_ptr l2, o), h) /\
    0 <= o /\ off = total l1 + o /\
    match l2 with [] => True | (_, b) :: _ => o < pb_len b end.
Proof.
  intros Hc Hl Ho. pose proof (chain_fuel_enough _ _ _ Hc).
  apply pbuf_skip_loop_spec; auto with lia.
Qed.

Lemma lookup_zslice1 (d : list Z) o : 0 <= o < zlen d -> zslice o 1 d = [nth (Z.to_nat o) d 0].
Proof.
  intros Ho. unfold zslice, ztake, zdrop. change (Z.to_nat 1) with 1%nat.
  destruct (lookup_lt_is_Some_2 d (Z.to_nat o)) as [x Hx]; [unfold zlen in Ho; lia|].
  rewrite (drop_S _ _ _ Hx). simpl. rewrite take_0. f_equal.
  symmetry. by apply nth_lookup_Some.
Qed.

(** The byte a chain holds at an offset, [-1] outside it. *)
Definition byte_at (d : list Z) (off : Z) : Z :=
  if off <? zlen d then nth (Z.to_nat off) d 0 else -1.

Lemma pbuf_try_get_at_spec h p l d off :
  packet h p l d -> 0 <= off < 65536 -> pbuf_try_get_at p off h = Ok (byte_at d off, h).
Proof.
  intros (Hc & Hl & Hd) Ho. unfold pbuf_try_get_at, byte_at.
  destruct (pbuf_skip_spec h p l off) as (l1 & l2 & o & -> & Hs & H0 & -> & Hlt); auto.
  m_step Hs. pose proof (contents_len _ _ _ Hl Hd) as Hlen.
  destruct (chain_app_inv _ _ _ _ Hc) as (q & Hq & ->).
  destruct l2 as [|[q b] l2]; simpl.
  - rewrite total_app in Hlen. simpl in Hlen. by destruct (Z.ltb_spec (total l1 + o) (zlen d)); [lia|].
  - inversion Hq; subst. destruct (Z.eqb_spec q 0); [done|].
    m_step (get_pbuf_ok h q b ltac:(done)).
    destruct (Z.ltb_spec o (pb_len b)); [|lia].
    rewrite contents_app in Hd. destruct (contents h l1) as [d1|] eqn:E1; [|done].
    destruct (contents h ((q, b) :: l2)) as [d2|] eqn:E2; [|done]. simplify_eq.
    apply contents_cons_inv in E2 as (d3 & d4 & E3 & E4 & ->).
    assert (zlen d3 = pb_len b) as Hd3.
    { eapply load_bytes_len; [|done]. apply lens_ok_app_r in Hl. simpl in Hl. lia. }
    assert (zlen d1 = total l1) as Hd1.
    { rewrite !zlen_app, total_app in Hlen. simpl in Hlen.
      assert (zlen d4 = total l2); [|lia]. apply contents_len with h; [|done].
      apply lens_ok_app_r in Hl. simpl in Hl. tauto. }
    pose proof (zlen_nonneg d4). pose proof (zlen_nonneg d1).
    unfold bind, mem_read. rewrite (load_bytes_sub _ _ _ d3 o 1) by (done || lia).
    rewrite lookup_zslice1 by lia. simpl.
    destruct (Z.ltb_spec (total l1 + o) (zlen (d1 ++ d3 ++ d4))); [|rewrite !zlen_app in *; lia].
    unfold ret. do 2 f_equal. rewrite app_nth2; [|unfold zlen in *; lia].
    rewrite app_nth1; [|unfold zlen in *; lia]. f_equal. unfold zlen in *. lia.
Qed.

Lemma byte_at_ok d off : bytes_ok d -> 0 <= off < zlen d -> 0 <= byte_at d off < 256.
Proof.
  intros Hd Ho. unfold byte_at. destruct (Z.ltb_spec off (zlen d)); [|lia].
  rewrite Forall_forall in Hd. apply Hd. apply list_elem_of_In, nth_In. unfold zlen in *. lia.
Qed.

Lemma pbuf_get_at_spec h p l d off :
  packet h p l d -> bytes_ok d -> 0 <= off < 65536 ->
  pbuf_get_at p off h = Ok (nth (Z.to_nat off) d 0, h).
Proof.
  intros Hp Hb Ho. unfold pbuf_get_at. m_step (pbuf_try_get_at_spec _ _ _ _ _ Hp Ho).
  unfold ret. do 2 f_equal. unfold byte_at. destruct (Z.ltb_spec off (zlen d)).
  - pose proof (byte_at_ok d off Hb ltac:(lia)) as Hr. unfold byte_at in Hr.
    destruct (Z.ltb_spec off (zlen d)); [|lia]. destruct (Z.leb_spec 0 (nth (Z.to_nat off) d 0)); [|lia].
    by apply u8_t_id.
  - simpl. symmetry. apply nth_overflow. unfold zlen in *. lia.
Qed.

End ReadOnly.

(** ** Writes to memory *)

(** [poke B o l]: the bytes [l] stored at offset [o] of block [B]. *)
Definition poke (B o : Z) (l : list Z) (h : heap) : heap :=
  match hp_blocks h !! B with
  | Some bs => with_blocks (<[B := zpatch o l bs]> (hp_blocks h)) h
  | None => h
  end.

Lemma heap_eta h : mkHeap (hp_pbufs h) (hp_blocks h) (hp_ooseq_pending h) = h.
Proof. by destruct h. Qed.
Lemma poke_pbufs B o l h : hp_pbufs (poke B o l h) = hp_pbufs h.
Proof. unfold poke. by destruct (_ !! _). Qed.
Lemma poke_blocks_ne B o l h B' : B <> B' -> hp_blocks (poke B o l h) !! B' = hp_blocks h !! B'.
Proof. intros. unfold poke. destruct (_ !! B); [|done]. simpl. by rewrite lookup_insert_ne. Qed.
Lemma poke_blocks_eq B o l h bs :
  hp_blocks h !! B = Some bs -> hp_blocks (poke B o l h) !! B = Some (zpatch o l bs).
Proof. intros E. unfold poke. rewrite E. simpl. by rewrite lookup_insert_eq. Qed.
Lemma zpatch_nil {A} o (l : list A) : zpatch o [] l = l.
Proof. unfold zpatch. rewrite zlen_nil, Z.add_0_r. simpl. apply ztake_zdrop. Qed.
Lemma poke_nil B o h : poke B o [] h = h.
Proof.
  unfold poke. destruct (_ !! _) eqn:E; [|done]. rewrite zpatch_nil, insert_id by done.
  apply heap_eta.
Qed.

Lemma zpatch_zpatch {A} o (a b l : list A) :
  0 <= o -> o + zlen a + zlen b <= zlen l ->
  zpatch (o + zlen a) b (zpatch o a l) = zpatch o (a ++ b) l.
Proof.
  intros Ho Hle. pose proof (zlen_nonneg a). pose proof (zlen_nonneg b).
  assert (zlen (ztake o l) = o) as Ht by (apply zlen_ztake; lia).
  unfold zpatch.
  rewrite (ztake_app_r _ (ztake o l)), (zdrop_app_r _ (ztake o l)) by lia.
  rewrite Ht. rewrite (ztake_app_l _ a) by lia. rewrite (ztake_all _ a) by lia.
  rewrite (zdrop_app_r _ a) by lia. rewrite zdrop_zdrop by lia.
  rewrite zlen_app, <- !(assoc_L (++)). do 4 f_equal. lia.
Qed.

Lemma poke_poke B o a b h bs :
  hp_blocks h !! B = Some bs -> 0 <= o -> o + zlen a + zlen b <= zlen bs ->
  poke B (o + zlen a) b (poke B o a h) = poke B o (a ++ b) h.
Proof.
  intros E Ho Hle. unfold poke at 1. rewrite (poke_blocks_eq _ _ _ _ _ E).
  unfold poke. rewrite E. unfold with_blocks. simpl.
  by rewrite insert_insert_eq, zpatch_zpatch.
Qed.

Lemma mem_write_ok h ptr l bs :
  hp_blocks h !! ptr.1 = Some bs -> 0 <= ptr.2 -> ptr.2 + zlen l <= zlen bs ->
  mem_write ptr l h = Ok (tt, poke ptr.1 ptr.2 l h).
Proof.
  intros E Ho Hle. unfold mem_write. destruct (Z.eqb_spec (zlen l) 0) as [H0|].
  { apply zlen_0_inv in H0 as ->. by rewrite poke_nil. }
  rewrite E. replace ((0 <=? ptr.2) && (ptr.2 + zlen l <=? zlen bs)) with true.
  2:{ symmetry. rewrite andb_true_iff, !Z.leb_le. lia. }
  unfold poke. by rewrite E.
Qed.

Lemma contents_frame h h' l :
  (forall p b, (p, b) ∈ l -> hp_blocks h' !! (pb_payload b).1 = hp_blocks h !! (pb_payload b).1) ->
  contents h' l = contents h l.
Proof.
  induction l as [|[p b] l IH]; intros Hf; [done|]. simpl.
  rewrite IH by (intros; apply (Hf p0); by right).
  unfold load_bytes. rewrite (Hf p b) by (by left). done.
Qed.

(** No pbuf of the chain keeps its payload in block [B]. *)
Definition payload_avoids (B : Z) (l : list (Z * pbuf)) : Prop :=
  Forall (fun pb => (pb_payload pb.2).1 <> B) l.

Lemma contents_poke_avoid B o x h l : payload_avoids B l -> contents (poke B o x h) l = contents h l.
Proof.
  intros Ha. apply contents_frame. intros p b Hin. unfold payload_avoids in Ha.
  rewrite Forall_forall in Ha. specialize (Ha _ Hin). simpl in Ha.
  apply poke_blocks_ne. congruence.
Qed.

Lemma packet_poke_avoid B o x h p l d :
  payload_avoids B l -> packet h p l d -> packet (poke B o x h) p l d.
Proof.
  intros Ha (Hc & Hl & Hd). repeat split; auto.
  - eapply chain_frame; [done|]. by rewrite poke_pbufs.
  - by rewrite contents_poke_avoid.
Qed.

(** ** [pbuf_copy_partial] *)

Lemma zslice_app_l {A} off n (a b : list A) : 0 <= off -> off + n <= zlen a ->
  zslice off n (a ++ b) = zslice off n a.
Proof.
  intros. pose proof (zlen_nonneg a). destruct (decide (n <= 0)).
  { unfold zslice. by rewrite !ztake_nonpos. }
  unfold zslice. rewrite zdrop_app_l, ztake_app_l; rewrite ?zlen_zdrop; done || lia.
Qed.

Lemma zslice_app_split {A} off n (a b : list A) : 0 <= off <= zlen a -> zlen a <= off + n ->
  zslice off n (a ++ b) = zdrop off a ++ ztake (n - (zlen a - off)) b.
Proof.
  intros. unfold zslice. rewrite zdrop_app_l, ztake_app_r by (rewrite ?zlen_zdrop; lia).
  by rewrite zlen_zdrop by lia.
Qed.

Lemma zslice_app_min {A} off n (a b : list A) : 0 <= off <= zlen a -> 0 <= n ->
  let m := Z.min n (zlen a - off) in
  zslice off n (a ++ b) = zslice off m a ++ zslice 0 (n - m) b.
Proof.
  intros Ho Hn m. subst m. unfold zslice at 3. rewrite (zdrop_nonpos 0) by lia.
  destruct (decide (n <= zlen a - off)).
  - rewrite Z.min_l, Z.sub_diag, (ztake_nonpos 0), app_nil_r by lia. apply zslice_app_l; lia.
  - rewrite Z.min_r by lia. rewrite zslice_app_split by lia. f_equal.
    unfold zslice. rewrite ztake_all; rewrite ?zlen_zdrop; done || lia.
Qed.

Lemma pbuf_copy_partial_loop_spec fuel p l d dst left len off copied bs h :
  packet h p l d -> (length l < fuel)%nat ->
  payload_avoids dst.1 l -> hp_blocks h !! dst.1 = Some bs -> 0 <= dst.2 ->
  0 <= off < 65536 -> 0 <= len < 65536 -> 0 <= left -> 0 <= copied ->
  let out := zslice off len d in
  left + zlen out < 65536 -> copied + zlen out < 65536 -> dst.2 + left + zlen out <= zlen bs ->
  pbuf_copy_partial_loop fuel p dst left len off copied h =
    Ok (copied + zlen out, poke dst.1 (dst.2 + left) out h).
Proof.
  intros (Hc & Hl & Hd). revert p fuel d left len off copied bs h Hc Hl Hd.
  induction l as [|[q b] l IH]; intros p [|fuel] d left len off copied bs h Hc Hl Hd Hf Ha Hbs Hdst
    Ho Hlen Hleft Hcop; simpl in Hf; try lia; cbv zeta.
  - inversion Hc; subst. simpl in Hd. simplify_eq. simpl.
    rewrite andb_false_r. unfold zslice, zdrop, ztake. rewrite drop_nil, take_nil.
    intros. rewrite poke_nil. unfold ret. do 2 f_equal. rewrite zlen_nil. lia.
  - inversion Hc; subst. cbn [pbuf_copy_partial_loop].
    destruct (Z.eqb_spec len 0) as [->|Hlen0].
    { unfold zslice. rewrite ztake_nonpos, poke_nil, zlen_nil by lia. intros. simpl.
      unfold ret. do 2 f_equal. lia. }
    destruct (Z.eqb_spec q 0); [done|]. cbn [negb andb].
    m_step (get_pbuf_ok h q b ltac:(done)).
    destruct (packet_tail h q b l d ltac:(done)) as (d1 & d2 & Hd1 & Hz1 & (Hc2 & Hl2 & Hd2) & ->).
    destruct Hl as (? & ? & ? & _). inversion Ha; subst.
    pose proof (zlen_nonneg d2). pose proof (total_nonneg l Hl2).
    destruct (negb (off =? 0) && (pb_len b <=? off)) eqn:E.
    + bool_to_prop. rewrite u16_t_id by lia.
      assert (zslice off len (d1 ++ d2) = zslice (off - pb_len b) len d2) as ->.
      { unfold zslice. rewrite zdrop_app_r by lia. by rewrite Hz1. }
      intros. eapply IH; eauto; lia.
    + assert (off <= pb_len b) as Hoff.
      { apply andb_false_iff in E as [?|?]; bool_to_prop; lia. }
      rewrite (u16_t_id (pb_len b - off)) by lia. intros Hr1 Hr2 Hr3.
      replace (if len <? pb_len b - off then len else pb_len b - off)
        with (Z.min len (pb_len b - off)) by (destruct (Z.ltb_spec len (pb_len b - off)); lia).
      set (m := Z.min len (pb_len b - off)) in *.
      unfold bind at 1. unfold mem_read.
      rewrite (load_bytes_sub _ _ _ d1 off m) by (done || lia).
      set (a := zslice off m d1) in *.
      assert (zlen a = m) as Hza by (apply zlen_zslice; lia).
      assert (zslice off len (d1 ++ d2) = a ++ zslice 0 (len - m) d2) as Hout.
      { rewrite zslice_app_min, Hz1 by lia. done. }
      rewrite Hout in *. rewrite zlen_app in *.
      pose proof (zlen_nonneg (zslice 0 (len - m) d2)).
      m_step (mem_write_ok h (ptr_add dst left) a bs
                 ltac:(done) ltac:(simpl; lia) ltac:(simpl; lia)).
      rewrite !u16_t_id by lia. simpl fst. simpl snd.
      rewrite (IH (pb_next b) fuel d2 (left + m) (len - m) 0 (copied + m) (zpatch (dst.2 + left) a bs)).
      * replace (dst.2 + (left + m)) with (dst.2 + left + zlen a) by lia.
        rewrite (poke_poke _ _ _ _ _ bs) by (done || lia).
        do 2 f_equal. lia.
      * eapply chain_frame; [done|]. by rewrite poke_pbufs.
      * done.
      * by rewrite contents_poke_avoid.
      * lia.
      * done.
      * by apply poke_blocks_eq.
      * done.
      * lia.
      * lia.
      * lia.
      * lia.
      * lia.
      * lia.
      * rewrite zlen_zpatch by lia. lia.
Qed.

Lemma pbuf_copy_partial_spec h p l d dst len off bs :
  packet h p l d -> p <> 0 -> dst.1 <> 0 ->
  payload_avoids dst.1 l -> hp_blocks h !! dst.1 = Some bs -> 0 <= dst.2 ->
  0 <= off < 65536 -> 0 <= len < 65536 -> dst.2 + len <= zlen bs ->
  pbuf_copy_partial p dst len off h =
    Ok (zlen (zslice off len d), poke dst.1 dst.2 (zslice off len d) h).
Proof.
  intros Hp Hp0 Hdst Ha Hbs Ho Hoff Hlen Hfit. unfold pbuf_copy_partial.
  rewrite (bind_ok _ _ _ _ _ (assert_true _ _ h (proj2 (negb_true_iff _) (proj2 (Z.eqb_neq _ _) Hp0)))).
  rewrite (bind_ok _ _ _ _ _ (assert_true _ _ h (proj2 (negb_true_iff _) (proj2 (Z.eqb_neq _ _) Hdst)))).
  assert (zlen (zslice off len d) <= len).
  { unfold zslice, ztake, zlen. rewrite length_take. lia. }
  pose proof (chain_fuel_enough _ _ _ (proj1 Hp)).
  rewrite (pbuf_copy_partial_loop_spec _ p l d dst 0 len off 0 bs h) by (done || lia).
  by rewrite Z.add_0_r, Z.add_0_l.
Qed.

(** ** Searching *)

Lemma packet_suffix h p l1 l2 d : packet h p (l1 ++ l2) d ->
  exists d1 d2, d = d1 ++ d2 /\ zlen d1 = total l1 /\ packet h (hd_ptr l2) l2 d2.
Proof.
  intros (Hc & Hl & Hd). destruct (chain_app_inv _ _ _ _ Hc) as (q & Hq & ->).
  pose proof (contents_len _ _ _ Hl Hd) as Hlen.
  rewrite contents_app in Hd. destruct (contents h l1) as [d1|] eqn:E1; [|done].
  destruct (contents h l2) as [d2|] eqn:E2; [|done]. simplify_eq.
  apply lens_ok_app_r in Hl as Hl2. pose proof (contents_len _ _ _ Hl2 E2) as Hlen2.
  rewrite zlen_app, total_app in Hlen.
  exists d1, d2. repeat split; auto. lia.
Qed.

(** Index (plus one) of the first difference, zero when there is none. *)
Fixpoint first_diff (a b : list Z) (i : Z) : Z :=
  match a, b with
  | x :: a, y :: b => if x =? y then first_diff a b (i + 1) else i + 1
  | _, _ => 0
  end.

Lemma first_diff_zero a b i : 0 <= i -> zlen a = zlen b -> first_diff a b i = 0 <-> a = b.
Proof.
  revert b i. induction a as [|x a IH]; intros [|y b] i Hi Hl;
    rewrite ?zlen_cons, ?zlen_nil in Hl.
  { done. }
  { pose proof (zlen_nonneg b). lia. }
  { pose proof (zlen_nonneg a). lia. }
  simpl. destruct (Z.eqb_spec x y) as [->|]; [rewrite IH by lia|]; split; congruence || lia.
Qed.

Lemma zslice_step (d : list Z) o n : 0 <= o -> 0 < n -> o + n <= zlen d ->
  zslice o n d = nth (Z.to_nat o) d 0 :: zslice (o + 1) (n - 1) d.
Proof.
  intros Ho Hn Hle. rewrite <- (app_nil_r (zslice (o + 1) _ _)), app_comm_cons, app_nil_r.
  change (nth (Z.to_nat o) d 0 :: zslice (o + 1) (n - 1) d)
    with ([nth (Z.to_nat o) d 0] ++ zslice (o + 1) (n - 1) d).
  rewrite <- lookup_zslice1 by lia. unfold zslice.
  rewrite <- (zdrop_zdrop 1 o) by lia.
  rewrite <- (ztake_zdrop 1 (zdrop o d)) at 1.
  rewrite ztake_app_r by (rewrite zlen_ztake; rewrite ?zlen_zdrop; lia).
  by rewrite zlen_ztake by (rewrite zlen_zdrop; lia).
Qed.

Lemma buf_read_byte h (s : list Z) i : 0 <= i < zlen s ->
  buf_read s i 1 h = Ok ([nth (Z.to_nat i) s 0], h).
Proof.
  intros Hi. unfold buf_read.
  replace ((0 <=? i) && (0 <=? 1) && (i + 1 <=? zlen s)) with true.
  2:{ symmetry. rewrite !andb_true_iff, !Z.leb_le. lia. }
  by rewrite lookup_zslice1.
Qed.

Lemma pbuf_memcmp_loop_spec fuel h q l d start s2 n i :
  packet h q l d -> bytes_ok d -> 0 <= start -> 0 <= i <= n -> start + n <= zlen d ->
  n <= zlen s2 -> (Z.to_nat (n - i) < fuel)%nat ->
  pbuf_memcmp_loop fuel q start s2 n i h =
    Ok (first_diff (zslice (start + i) (n - i) d) (zslice i (n - i) s2) i, h).
Proof.
  intros Hp Hb Hs. revert i. induction fuel as [|fuel IH]; intros i Hi Hle Hs2 Hf; [lia|].
  pose proof (packet_len _ _ _ _ Hp) as Hlen. destruct Hp as (Hc & Hl & Hd).
  pose proof (lens_ok_total_lt _ Hl). simpl.
  destruct (Z.ltb_spec i n) as [Hlt|Hge].
  - rewrite (u16_t_id (start + i)) by lia.
    m_step (pbuf_get_at_spec h q l d (start + i) ltac:(done) Hb ltac:(lia)).
    m_step (buf_read_byte h s2 i ltac:(lia)).
    rewrite (zslice_step d), (zslice_step s2) by lia. simpl.
    destruct (Z.eqb_spec (nth (Z.to_nat (start + i)) d 0) (nth (Z.to_nat i) s2 0)); simpl.
    + rewrite u16_t_id, IH by lia.
      by replace (start + (i + 1)) with (start + i + 1) by lia;
         replace (n - (i + 1)) with (n - i - 1) by lia.
    + rewrite Z.min_l, u16_t_id by lia. done.
  - replace (n - i) with 0 by lia. unfold zslice. by rewrite !ztake_nonpos by lia.
Qed.

Lemma pbuf_memcmp_spec h p l d offset s2 :
  packet h p l d -> p <> 0 -> bytes_ok d -> 0 <= offset < 65536 -> zlen s2 < 65536 ->
  pbuf_memcmp p offset s2 (zlen s2) h =
    Ok (if zlen d <? offset + zlen s2 then 65535
        else first_diff (zslice offset (zlen s2) d) s2 0, h).
Proof.
  intros Hp Hp0 Hb Ho Hs. pose proof (packet_len _ _ _ _ Hp) as Hlen.
  pose proof Hp as (Hc & Hl & Hd). unfold pbuf_memcmp.
  inversion Hc as [|? b l' ? Hb' ? ]; subst; [done|].
  m_step (get_pbuf_ok h p b Hb').
  destruct Hl as (? & Htot & ? & ?). simpl in Hlen. rewrite Htot, <- Hlen.
  destruct (Z.ltb_spec (zlen d) (offset + zlen s2)); [done|].
  pose proof (chain_fuel_enough _ _ _ Hc).
  destruct (pbuf_skip_loop_spec (S (chain_fuel h)) h p ((p, b) :: l') offset)
    as (l1 & l2 & o & Hl12 & Hskip & Ho0 & Hoff & Hlt); [done|simpl; auto with lia|lia..|].
  unfold bind at 1. rewrite Hskip. rewrite Hl12 in Hp.
  destruct (packet_suffix _ _ _ _ _ Hp) as (d1 & d2 & -> & Hd1 & Hp2).
  rewrite zlen_app in *. pose proof (zlen_nonneg s2). pose proof (zlen_nonneg d1).
  rewrite (pbuf_memcmp_loop_spec _ h (hd_ptr l2) l2 d2) by (try done; try lia; by apply Forall_app in Hb as []).
  rewrite Z.add_0_r, Z.sub_0_r, zslice_full. do 3 f_equal.
  unfold zslice. rewrite zdrop_app_r by lia. do 2 f_equal. lia.
Qed.

Definition occurs (d m : list Z) (i : Z) : Prop := zslice i (zlen m) d = m.

Lemma pbuf_memfind_loop_spec fuel h p l d m i :
  packet h p l d -> p <> 0 -> bytes_ok d -> 0 <= i -> zlen m <= zlen d -> i <= zlen d - zlen m + 1 ->
  zlen d - zlen m < 65535 -> zlen m < 65536 ->
  (Z.to_nat (zlen d - zlen m + 1 - i) < fuel)%nat ->
  exists r, pbuf_memfind_loop fuel p m (zlen m) (zlen d - zlen m) i h = Ok (r, h) /\
    ((r = 65535 /\ forall j, i <= j <= zlen d - zlen m -> ~ occurs d m j) \/
     (i <= r <= zlen d - zlen m /\ occurs d m r /\ forall j, i <= j < r -> ~ occurs d m j)).
Proof.
  intros Hp Hp0 Hb. revert i. induction fuel as [|fuel IH]; intros i Hi Hm Hile Hlt Hm2 Hf; [lia|].
  pose proof (zlen_nonneg m). simpl. destruct (Z.leb_spec i (zlen d - zlen m)).
  - m_step (pbuf_memcmp_spec h p l d i m Hp Hp0 Hb ltac:(lia) Hm2).
    destruct (Z.ltb_spec (zlen d) (i + zlen m)); [lia|].
    pose proof (first_diff_zero (zslice i (zlen m) d) m 0 ltac:(lia)
                  ltac:(apply zlen_zslice; lia)) as Hfd.
    destruct (Z.eqb_spec (first_diff (zslice i (zlen m) d) m 0) 0) as [E|E].
    + exists i. split; [done|]. right. split; [lia|]. split; [by apply Hfd|lia].
    + rewrite u16_t_id by lia.
      destruct (IH (i + 1)) as (r & -> & Hr); [lia..|]. exists r. split; [done|].
      assert (forall j, j = i -> ~ occurs d m j) by (intros j -> Ho; by apply E, Hfd).
      destruct Hr as [[-> Hr]|(Hr1 & Hr2 & Hr3)]; [left|right]; repeat split; try lia; auto;
        intros j Hj; (destruct (decide (j = i)); [auto|]); [apply Hr|apply Hr3]; lia.
  - exists 65535. split; [done|]. left. split; [done|]. intros. lia.
Qed.

(** ** Reference counts: [pbuf_free] *)

Definition del_pbuf (h : heap) (pb : Z * pbuf) : heap :=
  mkHeap (delete pb.1 (hp_pbufs h)) (delete pb.1 (hp_blocks h)) (hp_ooseq_pending h).
(** The first pbuf that stays loses one reference. *)
Definition dec_ref (r : list (Z * pbuf)) (h : heap) : heap :=
  match r with
  | [] => h
  | (q, b) :: _ => with_pbufs (<[q := set_ref (pb_ref b - 1) b]> (hp_pbufs h)) h
  end.

(** A pbuf [pbuf_free] can handle without the custom free function. *)
Definition freeable (h : heap) (pb : Z * pbuf) : Prop :=
  Z.land (pb_flags pb.2) PBUF_FLAG_IS_CUSTOM = 0 /\
  0 <= pbuf_get_allocsrc pb.2 <= 2 /\ 1 <= pb_ref pb.2 <= 255 /\
  is_Some (hp_blocks h !! pb.1).

Lemma pbuf_dealloc_ok cf h p b :
  p <> 0 -> Z.land (pb_flags b) PBUF_FLAG_IS_CUSTOM = 0 ->
  0 <= pbuf_get_allocsrc b <= 2 -> is_Some (hp_blocks h !! p) ->
  pbuf_dealloc cf p b h = Ok (tt, del_pbuf h (p, b)).
Proof.
  intros Hp Hcust Hsrc [bs Hbs]. unfold pbuf_dealloc. rewrite Hcust. simpl.
  assert (mem_free p h = Ok (tt, del_pbuf h (p, b))) as Hmf.
  { unfold mem_free, bind, lwip_assert. destruct (Z.eqb_spec p 0); [done|]. simpl. by rewrite Hbs. }
  unfold memp_free, PBUF_TYPE_ALLOC_SRC_MASK_STD_MEMP_PBUF_POOL,
    PBUF_TYPE_ALLOC_SRC_MASK_STD_MEMP_PBUF, PBUF_TYPE_ALLOC_SRC_MASK_STD_HEAP.
  destruct (Z.eqb_spec p 0); [done|].
  destruct (Z.eqb_spec (pbuf_get_allocsrc b) 2); [done|].
  destruct (Z.eqb_spec (pbuf_get_allocsrc b) 1); [done|].
  destruct (Z.eqb_spec (pbuf_get_allocsrc b) 0); [done|]. lia.
Qed.

Lemma del_pbuf_insert h q x b :
  del_pbuf (with_pbufs (<[q := x]> (hp_pbufs h)) h) (q, b) = del_pbuf h (q, b).
Proof. unfold del_pbuf. simpl. by rewrite delete_insert_eq. Qed.

Lemma freeable_del h pb pb' : pb.1 <> pb'.1 -> freeable h pb' -> freeable (del_pbuf h pb) pb'.
Proof.
  intros Hne (? & ? & ? & ?). repeat split; auto; try lia.
  unfold del_pbuf. simpl. by rewrite lookup_delete_ne.
Qed.

Lemma chain_del h pb p l : pb.1 ∉ l.*1 -> chain h p l -> chain (del_pbuf h pb) p l.
Proof.
  intros Hni Hc. eapply chain_frame; [done|]. intros q Hq. simpl.
  rewrite lookup_delete_ne; [done|]. by intros <-.
Qed.

Lemma pbuf_free_loop_spec cf fuel h p f r n :
  chain h p (f ++ r) -> Forall (freeable h) (f ++ r) ->
  Forall (fun pb => pb_ref pb.2 = 1) f ->
  (match r with [] => True | (_, b) :: _ => 1 < pb_ref b end) ->
  (S (length (f ++ r)) < fuel)%nat ->
  pbuf_free_loop cf fuel p (u8_t n) h =
    Ok (u8_t (n + zlen f), dec_ref r (foldl del_pbuf h f)).
Proof.
  revert fuel h p n. induction f as [|[q b] f IH]; intros [|fuel] h p n Hc Hfr Hf Hr Hfuel;
    simpl in Hfuel; try lia.
  - simpl in Hc. rewrite zlen_nil, Z.add_0_r.
    destruct r as [|[q b] r]; inversion Hc; subst; [done|].
    simpl. destruct (Z.eqb_spec q 0); [done|].
    m_step (get_pbuf_ok h q b ltac:(done)).
    inversion Hfr as [|? ? (? & ? & Href & ?)]; subst. simpl in Href.
    unfold lwip_assert, upd_pbuf. destruct (Z.ltb_spec 0 (pb_ref b)); [|lia].
    rewrite bind_ret_l. unfold bind. destruct (hp_pbufs h !! q) eqn:E; [|done]. simplify_eq.
    rewrite u8_t_id by lia. destruct (Z.eqb_spec (pb_ref b - 1) 0); [lia|].
    destruct fuel; [simpl in Hfuel; lia|]. done.
  - simpl in Hc. inversion Hc; subst. simpl. destruct (Z.eqb_spec q 0); [done|].
    m_step (get_pbuf_ok h q b ltac:(done)).
    inversion Hfr as [|? ? (Hcu & Hsrc & Href & Hblk) Hfr']; subst. simpl in *.
    inversion Hf as [|? ? Href1 Hf']; subst. simpl in Href1.
    unfold lwip_assert. rewrite Href1. simpl. rewrite bind_ret_l.
    unfold upd_pbuf. unfold bind at 1. destruct (hp_pbufs h !! q) eqn:E; [|done]. simplify_eq.
    change (u8_t 0) with 0. simpl.
    erewrite bind_ok; [|apply pbuf_dealloc_ok; auto].
    pose proof (chain_NoDup _ _ _ Hc) as Hnd. simpl in Hnd. apply NoDup_cons in Hnd as [Hni _].
    rewrite del_pbuf_insert.
    assert (u8_t (u8_t n + 1) = u8_t (n + 1)) as -> by (unfold u8_t; dlia).
    rewrite IH.
    + by rewrite zlen_cons, Z.add_assoc.
    + by apply chain_del.
    + rewrite Forall_forall in Hfr' |- *. intros [q' b'] Hin. apply freeable_del; [|by apply Hfr'].
      simpl. intros ->. apply Hni. apply list_elem_of_fmap. by exists (q', b').
    + done.
    + done.
    + lia.
Qed.

(** [pbuf_free] on a chain: the leading pbufs [f] with a single reference are
    deallocated, the first one of the rest [r] loses a reference. *)
Lemma pbuf_free_spec cf h p f r :
  chain h p (f ++ r) -> p <> 0 -> Forall (freeable h) (f ++ r) ->
  Forall (fun pb => pb_ref pb.2 = 1) f ->
  (match r with [] => True | (_, b) :: _ => 1 < pb_ref b end) ->
  pbuf_free cf p h = Ok (u8_t (zlen f), dec_ref r (foldl del_pbuf h f)).
Proof.
  intros Hc Hp Hfr Hf Hr. unfold pbuf_free, bind, lwip_assert.
  destruct (Z.eqb_spec p 0); [done|]. simpl negb. unfold ret.
  pose proof (chain_fuel_enough _ _ _ Hc).
  pose proof (pbuf_free_loop_spec cf (S (chain_fuel h)) h p f r 0) as Hloop.
  change (u8_t 0) with 0 in Hloop. rewrite Z.add_0_l in Hloop. apply Hloop; done || lia.
Qed.
