(* ===== verification/PbufMut.v ===== *)
(** * Packet-buffer operations that rebuild chains

    [pbuf_cat], [pbuf_chain], [pbuf_realloc], [pbuf_dechain], header adjustment,
    [pbuf_free_header], [pbuf_take], [pbuf_copy] and allocation, specified on
    [packet]s: what the chain and its bytes are afterwards, and what is freed. *)

From S2P Require Import Prelude Def Pbuf PbufFacts.

(** ** Chains as linked lists of records *)

Definition end_ptr (l : list (Z * pbuf)) (e : Z) : Z :=
  match l with [] => e | (p, _) :: _ => p end.

Fixpoint linked (l : list (Z * pbuf)) (e : Z) : Prop :=
  match l with
  | [] => True
  | (p, b) :: l => p <> 0 /\ pb_next b = end_ptr l e /\ linked l e
  end.

Definition stored (h : heap) (pb : Z * pbuf) : Prop := hp_pbufs h !! pb.1 = Some pb.2.

Lemma chain_iff h p l : chain h p l <-> p = hd_ptr l /\ linked l 0 /\ Forall (stored h) l.
Proof.
  split.
  - induction 1 as [|p b l Hp Hb Hc (IH1 & IH2 & IH3)]; simpl; [done|].
    split; [done|]. split; [|by constructor].
    split; [done|]. split; [|done]. rewrite IH1. by destruct l as [|[]].
  - revert p. induction l as [|[q b] l IH]; simpl; intros p (-> & Hl & Hs); [constructor|].
    destruct Hl as (? & Hn & ?). inversion Hs; subst. constructor; [done|done|].
    apply IH. rewrite Hn. split; [|done]. by destruct l as [|[]].
Qed.

Lemma linked_app l1 l2 e : linked (l1 ++ l2) e <-> linked l1 (end_ptr l2 e) /\ linked l2 e.
Proof.
  induction l1 as [|[p b] l1 IH]; simpl; [tauto|]. rewrite IH.
  destruct l1 as [|[q c] l1]; simpl; tauto.
Qed.

(** ** Storing records *)

Definition setp (h : heap) (pb : Z * pbuf) : heap :=
  with_pbufs (<[pb.1 := pb.2]> (hp_pbufs h)) h.

Lemma upd_pbuf_ok h p f b :
  hp_pbufs h !! p = Some b -> upd_pbuf p f h = Ok (tt, setp h (p, f b)).
Proof. unfold upd_pbuf. by intros ->. Qed.

Lemma setp_lookup_eq h p b : hp_pbufs (setp h (p, b)) !! p = Some b.
Proof. simpl. apply lookup_insert_eq. Qed.
Lemma setp_lookup_ne h p b q : p <> q -> hp_pbufs (setp h (p, b)) !! q = hp_pbufs h !! q.
Proof. simpl. apply lookup_insert_ne. Qed.
Lemma setp_setp h p b c : setp (setp h (p, b)) (p, c) = setp h (p, c).
Proof. unfold setp, with_pbufs. simpl. by rewrite insert_insert_eq. Qed.
Lemma setp_blocks h pb : hp_blocks (setp h pb) = hp_blocks h.
Proof. done. Qed.

Lemma foldl_setp_ne l h q : q ∉ l.*1 -> hp_pbufs (foldl setp h l) !! q = hp_pbufs h !! q.
Proof.
  revert h. induction l as [|[p b] l IH]; intros h Hni; [done|]. simpl in *.
  apply not_elem_of_cons in Hni as [? ?]. rewrite IH by done. by apply setp_lookup_ne.
Qed.
Lemma foldl_setp_blocks l h : hp_blocks (foldl setp h l) = hp_blocks h.
Proof. revert h. induction l as [|pb l IH]; intros h; [done|]. simpl. by rewrite IH. Qed.
Lemma foldl_setp_stored l h : NoDup l.*1 -> Forall (stored (foldl setp h l)) l.
Proof.
  revert h. induction l as [|[p b] l IH]; intros h Hnd; [constructor|]. simpl in *.
  apply NoDup_cons in Hnd as [Hni Hnd]. constructor; [|by apply IH].
  unfold stored. simpl. rewrite foldl_setp_ne by done. apply lookup_insert_eq.
Qed.

Lemma stored_frame h h' l : Forall (stored h) l ->
  (forall q, q ∈ l.*1 -> hp_pbufs h' !! q = hp_pbufs h !! q) -> Forall (stored h') l.
Proof.
  rewrite !Forall_forall. intros Hs Hf [p b] Hin. unfold stored. simpl.
  rewrite Hf; [by apply (Hs (p, b))|]. apply list_elem_of_fmap. by exists (p, b).
Qed.

(** Records that agree on what the bytes depend on. *)
Definition same_data (x y : Z * pbuf) : Prop :=
  pb_payload x.2 = pb_payload y.2 /\ pb_len x.2 = pb_len y.2.

Lemma same_data_refl l : Forall2 same_data l l.
Proof. induction l; by constructor. Qed.

Lemma contents_same h h' l l' : Forall2 same_data l l' ->
  (forall p b, (p, b) ∈ l -> hp_blocks h' !! (pb_payload b).1 = hp_blocks h !! (pb_payload b).1) ->
  contents h' l' = contents h l.
Proof.
  intros H2. induction H2 as [|[p b] [p' b'] l l' [Hpay Hlen] H2 IH]; intros Hf; [done|].
  simpl in *. rewrite IH by (intros; apply (Hf p0); by right).
  unfold load_bytes. rewrite <- Hpay, <- Hlen, (Hf p b) by (by left). done.
Qed.

Lemma total_same l l' : Forall2 same_data l l' -> total l' = total l.
Proof. induction 1 as [|[p b] [p' b'] l l' [? Hlen] _ IH]; simpl in *; lia. Qed.

Lemma lens_ok_snoc_total l1 l2 : lens_ok (l1 ++ l2) -> 0 <= total l1.
Proof.
  induction l1 as [|[p b] l1 IH]; simpl; [lia|]. intros (?&?&?&Hl). specialize (IH Hl). lia.
Qed.

(** ** [pbuf_cat] and [pbuf_chain] *)

Definition bump (T : Z) (pb : Z * pbuf) : Z * pbuf :=
  (pb.1, set_tot_len (u16_t (pb_tot_len pb.2 + T)) pb.2).

Lemma bump_fst T l : (bump T <$> l).*1 = l.*1.
Proof. rewrite <- list_fmap_compose. by apply list_fmap_ext. Qed.
Lemma bump_linked T l e : linked (bump T <$> l) e <-> linked l e.
Proof. induction l as [|[p b] [|[q c] l] IH]; simpl in *; tauto. Qed.
Lemma bump_same T l : Forall2 same_data l (bump T <$> l).
Proof. induction l as [|[p b] l IH]; simpl; constructor; done. Qed.

Lemma pbuf_cat_loop_spec fuel h l1 q b t bt :
  chain h (hd_ptr (l1 ++ [(q, b)])) (l1 ++ [(q, b)]) -> hp_pbufs h !! t = Some bt -> t ∉ l1.*1 ->
  (length l1 < fuel)%nat ->
  pbuf_cat_loop fuel (hd_ptr (l1 ++ [(q, b)])) t h =
    Ok (q, foldl setp h (bump (pb_tot_len bt) <$> l1)).
Proof.
  revert fuel h. induction l1 as [|[p c] l1 IH]; intros [|fuel] h Hc Ht Hni Hf; simpl in *; try lia.
  - inversion Hc as [|? ? ? ? Hb Hc']; subst. inversion Hc' as [Hn|]; subst.
    m_step (get_pbuf_ok _ _ _ Hb). by rewrite <- Hn.
  - pose proof (chain_NoDup _ _ _ Hc) as Hnd. simpl in Hnd. apply NoDup_cons in Hnd as [Hp Hnd].
    inversion Hc as [|? ? ? ? Hb Hc']; subst.
    m_step (get_pbuf_ok _ _ _ Hb).
    pose proof (chain_hd _ _ _ Hc') as Hn. rewrite Hn in *.
    destruct (Z.eqb_spec (hd_ptr (l1 ++ [(q, b)])) 0) as [E|].
    { exfalso. destruct l1 as [|[x y] l1]; simpl in *; inversion Hc'; congruence. }
    m_step (get_pbuf_ok _ _ _ Ht).
    m_step (upd_pbuf_ok _ _ _ _ Hb).
    apply not_elem_of_cons in Hni as [Hni1 Hni2].
    rewrite IH; [done| |by rewrite setp_lookup_ne by congruence|done|lia].
    eapply chain_frame; [done|]. intros x Hx. apply setp_lookup_ne. by intros ->.
Qed.

(** The records of the head chain after [pbuf_cat(h, t)]. *)
Definition cat_head (l1 : list (Z * pbuf)) (q : Z) (b : pbuf) (t T : Z) : list (Z * pbuf) :=
  (bump T <$> l1) ++ [(q, set_next t (bump T (q, b)).2)].

Lemma cat_head_fst l1 q b t T : (cat_head l1 q b t T).*1 = (l1 ++ [(q, b)]).*1.
Proof. unfold cat_head. by rewrite !fmap_app, bump_fst. Qed.
Lemma cat_head_same l1 q b t T : Forall2 same_data (l1 ++ [(q, b)]) (cat_head l1 q b t T).
Proof. apply Forall2_app; [apply bump_same|]. by repeat constructor. Qed.

Lemma lens_ok_cat l1 q b t T l2 :
  lens_ok (l1 ++ [(q, b)]) -> lens_ok l2 -> T = total l2 ->
  total (l1 ++ [(q, b)]) + T < 65536 -> lens_ok (cat_head l1 q b t T ++ l2).
Proof.
  intros Hl Hl2 -> Hlt. pose proof (total_nonneg l2 Hl2).
  induction l1 as [|[p c] l1 IH].
  - simpl in *. destruct Hl as (? & ? & ? & _). rewrite u16_t_id by lia. repeat split; auto; lia.
  - assert (total (cat_head l1 q b t (total l2) ++ l2) = total (l1 ++ [(q, b)]) + total l2) as Htc.
    { by rewrite total_app, (total_same _ _ (cat_head_same l1 q b t (total l2))). }
    destruct Hl as (? & Ht & ? & Hl). pose proof (total_nonneg _ Hl).
    cbn [app total] in Hlt.
    change (cat_head ((p, c) :: l1) q b t (total l2) ++ l2)
      with (bump (total l2) (p, c) :: (cat_head l1 q b t (total l2) ++ l2)).
    cbn [lens_ok bump fst snd set_tot_len pb_len pb_tot_len].
    rewrite Htc, u16_t_id by lia.
    repeat split; [lia|lia|lia|apply IH; [done|lia]].
Qed.

Lemma pbuf_cat_spec h a la da t lt dt :
  packet h a la da -> packet h t lt dt -> a <> 0 -> t <> 0 ->
  (forall x, x ∈ la.*1 -> x ∉ lt.*1) -> total la + total lt < 65536 ->
  exists la', pbuf_cat a t h = Ok (tt, foldl setp h la') /\ la'.*1 = la.*1 /\
    Forall2 (fun x y => pb_ref x.2 = pb_ref y.2 /\ pb_flags x.2 = pb_flags y.2) la la' /\
    packet (foldl setp h la') a (la' ++ lt) (da ++ dt).
Proof.
  intros (Hca & Hla & Hda) (Hct & Hlt & Hdt) Ha Ht Hdis Hsum.
  destruct la as [|[q b] l1 _] using rev_ind; [inversion Hca; by subst|].
  pose proof (chain_hd _ _ _ Hca) as Hhd. pose proof (chain_NoDup _ _ _ Hca) as Hnd.
  destruct lt as [|[t' bt] lt]; [inversion Hct; by subst|].
  inversion Hct as [|? ? ? ? Hbt Hct']; subst t'. pose proof Hlt as (_ & Htot & _ & _).
  set (T := pb_tot_len bt). exists (cat_head l1 q b t T).
  assert (T = total ((t, bt) :: lt)) as HT by done.
  assert (t ∉ (l1 ++ [(q, b)]).*1) as Htni.
  { intros Hin. eapply Hdis; [done|]. simpl. by left. }
  rewrite fmap_app in Htni, Hnd. simpl in Htni, Hnd.
  apply not_elem_of_app in Htni as [Htni1 Htni2%not_elem_of_cons].
  apply NoDup_app in Hnd as (Hnd1 & Hnd2 & _). 
  assert (q ∉ l1.*1) as Hqni by (intros Hin; apply (Hnd2 q Hin); by left).
  assert (foldl setp h (cat_head l1 q b t T) =
          setp (foldl setp h (bump T <$> l1)) (q, set_next t (bump T (q, b)).2)) as Hh'.
  { unfold cat_head. by rewrite foldl_app. }
  assert (hp_pbufs h !! q = Some b) as Hqb.
  { eapply chain_lookup; [exact Hca|]. apply elem_of_app. right. by left. }
  pose proof (chain_fuel_enough _ _ _ Hca) as Hfuel. rewrite length_app in Hfuel. simpl in Hfuel.
  repeat split.
  - unfold pbuf_cat. m_assert ltac:(by rewrite !nz_true by done).
    unfold bind at 1. rewrite Hhd, (pbuf_cat_loop_spec _ _ _ _ _ _ bt) by (rewrite <- ?Hhd; done || lia).
    fold T. set (h1 := foldl setp h (bump T <$> l1)) in *.
    assert (hp_pbufs h1 !! q = Some b) as Hq1.
    { subst h1. rewrite foldl_setp_ne; [done|]. by rewrite bump_fst. }
    assert (hp_pbufs h1 !! t = Some bt) as Ht1.
    { subst h1. rewrite foldl_setp_ne; [done|]. by rewrite bump_fst. }
    m_step (get_pbuf_ok _ _ _ Hq1).
    apply lens_ok_app_r in Hla as Hq. simpl in Hq. destruct Hq as (? & Hqt & ? & _).
    apply chain_iff in Hca as (_ & [_ Hlk]%linked_app & _). simpl in Hlk. destruct Hlk as (_ & Hqn & _).
    m_assert ltac:(apply Z.eqb_eq; lia).
    m_assert ltac:(by apply Z.eqb_eq).
    m_step (get_pbuf_ok _ _ _ Ht1).
    m_step (upd_pbuf_ok _ _ _ _ Hq1).
    rewrite (upd_pbuf_ok _ _ _ _ (setp_lookup_eq _ _ _)), setp_setp. by rewrite Hh'.
  - apply cat_head_fst.
  - unfold cat_head. apply Forall2_app; [|by repeat constructor].
    clear. induction l1; simpl; constructor; done.
  - apply chain_iff. split; [|split].
    + rewrite Hhd. by destruct l1 as [|[? ?] ?].
    + apply chain_iff in Hca as (_ & [Hlk1 Hlk2]%linked_app & _).
      apply (proj1 (chain_iff _ _ _)) in Hct as (_ & Hlkt & _).
      unfold cat_head. rewrite <- (assoc_L (++)). apply linked_app. split.
      * by apply bump_linked.
      * simpl in *. tauto.
    + apply Forall_app. split.
      * apply foldl_setp_stored. rewrite cat_head_fst, fmap_app. simpl.
        apply NoDup_app. auto using NoDup_singleton.
      * apply chain_iff in Hct as (_ & _ & Hst). eapply stored_frame; [done|].
        intros x Hx. apply foldl_setp_ne. rewrite cat_head_fst. intros Hin. by eapply Hdis.
  - apply lens_ok_cat; auto. by rewrite HT.
  - rewrite contents_app.
    rewrite (contents_same h _ (l1 ++ [(q, b)])), Hda by (done || apply cat_head_same ||
      (intros; by rewrite foldl_setp_blocks)).
    rewrite (contents_frame h); [by rewrite Hdt|]. intros. by rewrite foldl_setp_blocks.
Qed.

Lemma foldl_setp_stored_at l h p b : (p, b) ∈ l -> NoDup l.*1 -> hp_pbufs (foldl setp h l) !! p = Some b.
Proof.
  intros Hin Hnd. pose proof (foldl_setp_stored l h Hnd) as Hs. rewrite Forall_forall in Hs.
  by apply (Hs (p, b)).
Qed.

(** [pbuf_chain] also takes a reference to the tail. *)
Lemma pbuf_chain_spec h a la da t bt lt dt :
  packet h a la da -> packet h t ((t, bt) :: lt) dt -> a <> 0 -> 0 <= pb_ref bt < 255 ->
  (forall x, x ∈ la.*1 -> x ∉ ((t, bt) :: lt).*1) -> total la + total ((t, bt) :: lt) < 65536 ->
  exists la' h', pbuf_chain a t h = Ok (tt, h') /\ la'.*1 = la.*1 /\
    packet h' a (la' ++ (t, set_ref (pb_ref bt + 1) bt) :: lt) (da ++ dt).
Proof.
  intros Ha Ht Ha0 Href Hdis Hsum. pose proof Ht as (Hct & _). inversion Hct as [|? ? ? Ht0 Hbt _]; subst.
  destruct (pbuf_cat_spec h a la da t _ dt Ha Ht Ha0 Ht0 Hdis Hsum) as (la' & Hcat & Hfst & _ & Hp).
  set (h1 := foldl setp h la') in *. destruct Hp as (Hc & Hl & Hd).
  assert (hp_pbufs h1 !! t = Some bt) as Hb1.
  { subst h1. rewrite foldl_setp_ne; [done|]. rewrite Hfst. intros Hin. apply (Hdis t Hin). by left. }
  exists la', (setp h1 (t, set_ref (pb_ref bt + 1) bt)). repeat split; auto.
  - unfold pbuf_chain. m_step Hcat. unfold pbuf_ref. rewrite nz_true by done.
    m_step (upd_pbuf_ok _ _ _ _ Hb1). rewrite u8_t_id by lia.
    m_step (get_pbuf_ok _ _ _ (setp_lookup_eq _ _ _)). simpl.
    apply assert_true, Z.ltb_lt. lia.
  - pose proof (chain_NoDup _ _ _ Hc) as Hnd. rewrite fmap_app in Hnd. simpl in Hnd.
    apply NoDup_app in Hnd as (_ & Hnd1 & [Hnd2 _]%NoDup_cons).
    apply chain_iff in Hc as (-> & Hlk & Hst). apply chain_iff. split; [|split].
    + by destruct la' as [|[]].
    + apply linked_app in Hlk as [Hlk1 Hlk2]. apply linked_app. simpl in *. tauto.
    + apply Forall_app in Hst as [Hs1 [_ Hs2]%Forall_cons].
      apply Forall_app. split; [|constructor].
      * eapply stored_frame; [done|]. intros x Hx. apply setp_lookup_ne. intros ->.
        apply (Hnd1 x Hx). by left.
      * apply setp_lookup_eq.
      * eapply stored_frame; [done|]. intros x Hx. apply setp_lookup_ne. by intros ->.
  - clear - Hl. induction la' as [|[p c] la' IH]; simpl in *; [tauto|].
    rewrite total_app in *. simpl in *. tauto.
  - rewrite (contents_same h1 _ (la' ++ (t, bt) :: lt)); [done| |done].
    apply Forall2_app; [|constructor; [done|]]; apply same_data_refl.
Qed.

(** ** Freeing a chain nobody else refers to *)

Lemma foldl_del_ne f h q : q ∉ f.*1 ->
  hp_pbufs (foldl del_pbuf h f) !! q = hp_pbufs h !! q /\
  hp_blocks (foldl del_pbuf h f) !! q = hp_blocks h !! q.
Proof.
  revert h. induction f as [|[p b] f IH]; intros h Hni; [done|]. simpl in *.
  apply not_elem_of_cons in Hni as [? ?]. destruct (IH (del_pbuf h (p, b))) as [-> ->]; [done|].
  simpl. by rewrite !lookup_delete_ne by congruence.
Qed.

Lemma foldl_del_eq f h q : q ∈ f.*1 ->
  hp_pbufs (foldl del_pbuf h f) !! q = None /\ hp_blocks (foldl del_pbuf h f) !! q = None.
Proof.
  revert h. induction f as [|[p b] f IH]; intros h Hin; [by apply elem_of_nil in Hin|].
  simpl in *. destruct (decide (q ∈ f.*1)) as [Hq|Hq]; [by apply IH|].
  apply elem_of_cons in Hin as [->|]; [|done].
  destruct (foldl_del_ne f (del_pbuf h (p, b)) p Hq) as [-> ->]. simpl. by rewrite !lookup_delete_eq.
Qed.

(** Every pbuf is unshared, allocated by lwIP, and keeps its payload in its own
    block or outside the chain's blocks. *)
Definition owned (h : heap) (l : list (Z * pbuf)) : Prop :=
  Forall (fun pb => freeable h pb /\ pb_ref pb.2 = 1) l /\
  (forall x y, x ∈ l -> y ∈ l -> x.1 <> y.1 -> (pb_payload x.2).1 <> y.1).

Lemma owned_app_r h l1 l2 : owned h (l1 ++ l2) -> owned h l2.
Proof.
  intros [Hf Ha]. apply Forall_app in Hf as [_ Hf]. split; [done|].
  intros x y Hx Hy. apply Ha; apply elem_of_app; by right.
Qed.

Lemma pbuf_free_owned cf h p l : chain h p l -> p <> 0 -> owned h l ->
  pbuf_free cf p h = Ok (u8_t (zlen l), foldl del_pbuf h l).
Proof.
  intros Hc Hp [Hf _]. rewrite <- (app_nil_r l) in Hc at 1.
  rewrite (pbuf_free_spec cf h p l []); [done|done|done| | |done].
  - rewrite app_nil_r. eapply Forall_impl; [exact Hf|]. by intros ? [? _].
  - eapply Forall_impl; [exact Hf|]. by intros ? [_ ?].
Qed.

(** ** [pbuf_realloc] *)

Lemma pbuf_realloc_loop_spec fuel h p l n s :
  chain h p l -> lens_ok l -> l <> [] -> 0 <= n <= total l -> (length l <= fuel)%nat ->
  exists l1 q b l2 rem, l = l1 ++ (q, b) :: l2 /\ n = total l1 + rem /\ 0 <= rem <= pb_len b /\
    pbuf_realloc_loop fuel p n s h = Ok ((q, rem), foldl setp h (bump (- s) <$> l1)).
Proof.
  intros Hc. revert fuel h p n Hc. induction l as [|[p c] l IH]; intros [|fuel] h p' n Hc Hl Hne Hn Hf;
    simpl in Hf; try (done || lia).
  pose proof (chain_NoDup _ _ _ Hc) as Hnd. apply NoDup_cons in Hnd as [Hp _].
  inversion Hc as [|? ? ? Hp0 Hb Hc']; subst p'. subst. destruct Hl as (Hl0 & Ht & Hlt & Hl).
  cbn [pbuf_realloc_loop]. m_step (get_pbuf_ok _ _ _ Hb). simpl in Hn.
  destruct (Z.ltb_spec (pb_len c) n) as [Hlen|Hlen].
  - m_step (upd_pbuf_ok _ _ _ _ Hb).
    destruct l as [|[r d] l']; [simpl in Hn; lia|]. set (l := (r, d) :: l') in *.
    pose proof (total_nonneg l Hl).
    m_assert ltac:(inversion Hc'; subst; by apply nz_true).
    rewrite u16_t_id by lia.
    set (h1 := setp h (p, set_tot_len (u16_t (pb_tot_len c - s)) c)) in *.
    assert (chain h1 (pb_next c) l) as Hc1.
    { eapply chain_frame; [done|]. intros x Hx. apply setp_lookup_ne. by intros ->. }
    destruct (IH fuel h1 _ (n - pb_len c) Hc1 Hl) as (l1 & q & b & l2 & rem & Hl12 & Hn' & Hr & Hres);
      [done|lia|lia|].
    exists ((p, c) :: l1), q, b, l2, rem. rewrite Hl12. repeat split; try lia; simpl; [lia|exact Hres].
  - exists [], p, c, l, n. repeat split; simpl; lia.
Qed.

(** The chain after [pbuf_realloc] cut it inside [(q, b)]. *)
Definition cut_chain (l1 : list (Z * pbuf)) (q : Z) (b : pbuf) (rem s : Z) : list (Z * pbuf) :=
  (bump (- s) <$> l1) ++ [(q, set_next 0 (set_tot_len rem (set_len rem b)))].

Lemma cut_chain_fst l1 q b rem s : (cut_chain l1 q b rem s).*1 = l1.*1 ++ [q].
Proof. unfold cut_chain. by rewrite fmap_app, bump_fst. Qed.

Lemma cut_chain_lens l1 q b l2 rem :
  lens_ok (l1 ++ (q, b) :: l2) -> 0 <= rem <= pb_len b ->
  lens_ok (cut_chain l1 q b rem (pb_len b + total l2 - rem)) /\
  total (cut_chain l1 q b rem (pb_len b + total l2 - rem)) = total l1 + rem.
Proof.
  intros Hl Hr. set (s := _ - rem). induction l1 as [|[p c] l1 IH].
  - simpl in *. destruct Hl as (? & ? & ? & Hl). pose proof (total_nonneg _ Hl). repeat split; lia.
  - destruct Hl as (? & Ht & ? & Hl). destruct (IH Hl) as [IH1 IH2].
    apply lens_ok_snoc_total in Hl as ?. apply lens_ok_app_r in Hl as (_ & _ & _ & Hl2).
    pose proof (total_nonneg _ Hl2). rewrite total_app in Ht. simpl in Ht.
    change (cut_chain ((p, c) :: l1) q b rem s) with (bump (- s) (p, c) :: cut_chain l1 q b rem s).
    cbn [lens_ok total bump fst snd set_tot_len pb_len pb_tot_len]. rewrite IH2.
    rewrite u16_t_id by lia. repeat split; auto; lia.
Qed.

Lemma load_bytes_prefix h ptr n d m : load_bytes h ptr n = Some d -> 0 <= m <= n ->
  load_bytes h ptr m = Some (ztake m d).
Proof.
  intros Hd Hm. pose proof (load_bytes_sub h ptr n d 0 m Hd) as Hs.
  unfold ptr_add in Hs. rewrite Z.add_0_r, <- surjective_pairing in Hs. rewrite Hs by lia.
  unfold zslice. by rewrite zdrop_nonpos.
Qed.

Lemma cut_chain_contents h l1 q b l2 rem s d :
  lens_ok (l1 ++ (q, b) :: l2) -> contents h (l1 ++ (q, b) :: l2) = Some d -> 0 <= rem <= pb_len b ->
  contents h (cut_chain l1 q b rem s) = Some (ztake (total l1 + rem) d).
Proof.
  intros Hl Hd Hr. rewrite contents_app in Hd. destruct (contents h l1) as [d1|] eqn:E1; [|done].
  destruct (contents h ((q, b) :: l2)) as [d2|] eqn:E2; [|done]. simplify_eq.
  apply contents_cons_inv in E2 as (d3 & d4 & E3 & E4 & ->).
  pose proof (lens_ok_app_r _ _ Hl) as (Hb & _ & _ & Hl2).
  assert (zlen d3 = pb_len b) as Hd3 by by eapply load_bytes_len.
  assert (zlen d1 = total l1) as Hd1.
  { clear - Hl E1. revert d1 E1. induction l1 as [|[p c] l1 IH]; intros d1 E1; [by simplify_eq/=|].
    apply contents_cons_inv in E1 as (da & db & Ea & Eb & ->). destruct Hl as (? & ? & ? & Hl).
    rewrite zlen_app, (IH Hl _ Eb). simpl. f_equal. by eapply load_bytes_len. }
  unfold cut_chain. rewrite contents_app.
  rewrite (contents_same h h l1), E1 by (apply bump_same || done).
  simpl. rewrite (load_bytes_prefix _ _ _ _ _ E3) by lia. f_equal.
  rewrite ztake_app_r by lia. f_equal. rewrite ztake_app_l by lia. rewrite app_nil_r. f_equal. lia.
Qed.

(** The heap after the cut: [l2] is freed, [q] is the new last pbuf. *)
Definition cut_heap (h : heap) (l1 : list (Z * pbuf)) (q : Z) (b : pbuf) (l2 : list (Z * pbuf))
    (rem s : Z) : heap :=
  setp (foldl del_pbuf (setp (foldl setp h (bump (- s) <$> l1)) (q, set_tot_len rem (set_len rem b))) l2)
       (q, set_next 0 (set_tot_len rem (set_len rem b))).

Section Cut.
Context (h : heap) (p : Z) (l1 : list (Z * pbuf)) (q : Z) (b : pbuf) (l2 : list (Z * pbuf)).
Context (Hc : chain h p (l1 ++ (q, b) :: l2)).

Lemma cut_nodup : NoDup (l1.*1 ++ [q]) /\ (q ∉ l1.*1) /\ (q ∉ l2.*1) /\
  (forall x, x ∈ l1.*1 -> x ∉ l2.*1).
Proof using Hc.
  pose proof (chain_NoDup _ _ _ Hc) as Hnd. rewrite fmap_app in Hnd. simpl in Hnd.
  apply NoDup_app in Hnd as (Hnd1 & Hnd2 & [Hq2 _]%NoDup_cons).
  assert (forall x, x ∈ l1.*1 -> (x ∉ l2.*1) /\ x <> q) as Hx.
  { intros x Hi. specialize (Hnd2 x Hi). by apply not_elem_of_cons in Hnd2 as []. }
  split; [|split; [|split]]; [|intros Hi; by destruct (Hx q Hi)|done|intros x Hi; by destruct (Hx x Hi)].
  apply NoDup_app. split; [done|]. split; [|apply NoDup_singleton].
  intros x Hi ->%list_elem_of_singleton. by destruct (Hx q Hi).
Qed.

Lemma cut_heap_blocks rem s x : x ∉ l2.*1 ->
  hp_blocks (cut_heap h l1 q b l2 rem s) !! x = hp_blocks h !! x.
Proof.
  intros Hx. unfold cut_heap. rewrite setp_blocks.
  destruct (foldl_del_ne l2 (setp (foldl setp h (bump (- s) <$> l1))
    (q, set_tot_len rem (set_len rem b))) x Hx) as [_ ->].
  by rewrite setp_blocks, foldl_setp_blocks.
Qed.

Lemma cut_heap_pbufs rem s x : x ∉ l2.*1 -> x <> q ->
  hp_pbufs (cut_heap h l1 q b l2 rem s) !! x = hp_pbufs (foldl setp h (bump (- s) <$> l1)) !! x.
Proof.
  intros Hx Hq. unfold cut_heap. rewrite setp_lookup_ne by done.
  destruct (foldl_del_ne l2 (setp (foldl setp h (bump (- s) <$> l1))
    (q, set_tot_len rem (set_len rem b))) x Hx) as [-> _].
  by rewrite setp_lookup_ne.
Qed.

Lemma cut_heap_freed rem s x : x ∈ l2.*1 ->
  hp_pbufs (cut_heap h l1 q b l2 rem s) !! x = None /\
  hp_blocks (cut_heap h l1 q b l2 rem s) !! x = None.
Proof using Hc.
  intros Hx. destruct cut_nodup as (_ & _ & Hq & _). unfold cut_heap.
  rewrite setp_lookup_ne, setp_blocks by (by intros ->). by apply foldl_del_eq.
Qed.

Lemma cut_heap_chain rem s : chain (cut_heap h l1 q b l2 rem s) p (cut_chain l1 q b rem s).
Proof using Hc.
  destruct cut_nodup as (Hnd & Hq1 & Hq2 & Hdis).
  apply chain_iff in Hc as (-> & Hlk & Hst). apply chain_iff. split; [|split].
  - by destruct l1 as [|[]].
  - apply linked_app in Hlk as [Hlk1 (Hq0 & _ & _)]. apply linked_app. split; [by apply bump_linked|done].
  - apply Forall_app. split; [|constructor; [|constructor]]; [|apply setp_lookup_eq].
    apply (stored_frame (foldl setp h (bump (- s) <$> l1))).
    + apply foldl_setp_stored. rewrite bump_fst. by apply NoDup_app in Hnd as [].
    + intros x Hx. rewrite bump_fst in Hx. apply cut_heap_pbufs; [by apply Hdis|by intros ->].
Qed.

Lemma cut_heap_packet rem d : lens_ok (l1 ++ (q, b) :: l2) ->
  contents h (l1 ++ (q, b) :: l2) = Some d -> owned h (l1 ++ (q, b) :: l2) -> 0 <= rem <= pb_len b ->
  let s := pb_len b + total l2 - rem in
  packet (cut_heap h l1 q b l2 rem s) p (cut_chain l1 q b rem s) (ztake (total l1 + rem) d).
Proof using Hc.
  intros Hl Hd [_ Hsep] Hr s. destruct cut_nodup as (Hnd & Hq1 & Hq2 & Hdis).
  split; [apply cut_heap_chain|]. split; [by apply cut_chain_lens|].
  rewrite (contents_frame h); [by apply (cut_chain_contents _ _ _ _ l2)|].
  intros x c Hin. apply cut_heap_blocks. intros (y & Hy1 & Hy2)%list_elem_of_fmap.
  assert (exists c', (x, c') ∈ l1 ++ (q, b) :: l2 /\ (x ∉ l2.*1) /\ pb_payload c = pb_payload c')
    as (c' & Hc1 & Hc2 & Hc3).
  { apply elem_of_app in Hin as [Hin|Hin].
    - apply list_elem_of_fmap in Hin as ((x' & c') & [= -> ->] & Hin). exists c'. split_and!; [|apply Hdis|done].
      + apply elem_of_app. by left.
      + apply list_elem_of_fmap. by exists (x', c').
    - apply list_elem_of_singleton in Hin as [= -> ->]. exists b. split_and!; [|done|done].
      apply elem_of_app. right. by left. }
  eapply (Hsep (x, c') y); [done|apply elem_of_app; right; by right| |simpl; congruence].
  simpl. intros ->. apply Hc2. apply list_elem_of_fmap. by exists y.
Qed.
End Cut.

Lemma owned_frame h h' l : owned h l -> hp_blocks h' = hp_blocks h -> owned h' l.
Proof. intros [Hf Hs] Heq. split; [|done]. unfold freeable in *. by rewrite Heq. Qed.

(** The [if (q->next != NULL) pbuf_free(q->next)] idiom. *)
Lemma free_next cf h p l : chain h p l -> owned h l ->
  (if negb (p =? 0) then let* _ := pbuf_free cf p in ret tt else ret tt) h =
    Ok (tt, foldl del_pbuf h l).
Proof.
  intros Hc Ho. destruct (Z.eqb_spec p 0) as [->|Hp]; simpl.
  - by inversion Hc; subst.
  - by erewrite bind_ok by (by apply pbuf_free_owned).
Qed.

Lemma pbuf_realloc_run cf h p l n :
  chain h p l -> lens_ok l -> p <> 0 -> owned h l -> 0 <= n < total l ->
  exists l1 q b l2 rem, l = l1 ++ (q, b) :: l2 /\ n = total l1 + rem /\ 0 <= rem <= pb_len b /\
    pbuf_realloc cf p n h = Ok (tt, cut_heap h l1 q b l2 rem (pb_len b + total l2 - rem)).
Proof.
  intros Hc Hl Hp Hown Hn. pose proof (chain_fuel_enough _ _ _ Hc) as Hfuel.
  inversion Hc as [|? b0 l0 _ Hb0 _]; subst; [done|]. set (l := (p, b0) :: l0) in *.
  assert (pb_tot_len b0 = total l) as Ht by (simpl in *; tauto).
  pose proof (lens_ok_total_lt _ Hl).
  destruct (pbuf_realloc_loop_spec (chain_fuel h) h p l n (total l - n) Hc Hl)
    as (l1 & q & b & l2 & rem & Hl12 & Hnr & Hr & Hloop); [done|lia|lia|].
  exists l1, q, b, l2, rem. do 3 (split; [done|]).
  replace (pb_len b + total l2 - rem) with (total l - n) by (rewrite Hl12, total_app; simpl; lia).
  set (s := total l - n) in *. set (h1 := foldl setp h (bump (- s) <$> l1)) in *.
  rewrite Hl12 in Hc, Hown. destruct (cut_nodup _ _ _ _ _ _ Hc) as (Hnd & Hq1 & Hq2 & Hdis).
  apply chain_iff in Hc as (Hhd & [_ (Hq0 & Hqn & Hlk2)]%linked_app & [_ [Hstq Hst2]%Forall_cons]%Forall_app).
  assert (hp_pbufs h1 !! q = Some b) as Hqh1.
  { subst h1. rewrite foldl_setp_ne; [done|]. by rewrite bump_fst. }
  unfold pbuf_realloc. m_assert ltac:(by apply nz_true). m_step (get_pbuf_ok _ _ _ Hb0).
  destruct (Z.leb_spec (pb_tot_len b0) n); [lia|]. rewrite Ht, u16_t_id by lia. fold s.
  unfold bind at 1. rewrite Hloop. m_step (get_pbuf_ok _ _ _ Hqh1).
  erewrite bind_ok by (by destruct (_ && _ && _)).
  m_assert ltac:(by apply nz_true).
  m_step (upd_pbuf_ok _ _ _ _ Hqh1). m_step (upd_pbuf_ok _ _ _ _ (setp_lookup_eq _ _ _)).
  rewrite setp_setp. m_step (get_pbuf_ok _ _ _ (setp_lookup_eq _ _ _)).
  set (h2 := setp h1 _). simpl pb_next.
  assert (chain h2 (pb_next b) l2) as Hc2.
  { apply chain_iff. split; [|split; [done|]]; [rewrite Hqn; by destruct l2 as [|[]]|].
    eapply stored_frame; [done|]. intros x Hx. unfold h2. rewrite setp_lookup_ne by (by intros ->).
    subst h1. apply foldl_setp_ne. rewrite bump_fst. intros Hi. by apply (Hdis x). }
  erewrite bind_ok; [|apply (free_next cf h2 (pb_next b) l2 Hc2)].
  2:{ apply (owned_frame h); [by apply (owned_app_r _ [(q, b)]), (owned_app_r _ l1)|].
      unfold h2, h1. by rewrite setp_blocks, foldl_setp_blocks. }
  destruct (foldl_del_ne l2 h2 q Hq2) as [Hq3 _]. unfold h2 in Hq3 at 2. rewrite setp_lookup_eq in Hq3.
  by rewrite (upd_pbuf_ok _ _ _ _ Hq3).
Qed.

(** What [pbuf_realloc] leaves: the first [n] bytes in a prefix of the chain; the
    pbufs behind it are freed, nothing else changes. *)
Lemma pbuf_realloc_spec cf h p l d n :
  packet h p l d -> p <> 0 -> owned h l -> 0 <= n < zlen d ->
  exists l1 l2 l' h', l = l1 ++ l2 /\ l'.*1 = l1.*1 /\
    pbuf_realloc cf p n h = Ok (tt, h') /\ packet h' p l' (ztake n d) /\
    (forall x, x ∈ l2.*1 -> hp_pbufs h' !! x = None /\ hp_blocks h' !! x = None) /\
    (forall x, x ∉ l.*1 -> hp_pbufs h' !! x = hp_pbufs h !! x) /\
    (forall x, x ∉ l2.*1 -> hp_blocks h' !! x = hp_blocks h !! x).
Proof.
  intros Hpk Hp Hown Hn. pose proof (packet_len _ _ _ _ Hpk) as Hlen. rewrite Hlen in Hn.
  destruct Hpk as (Hc & Hl & Hd).
  destruct (pbuf_realloc_run cf h p l n Hc Hl Hp Hown Hn) as (l1 & q & b & l2 & rem & -> & -> & Hr & Hrun).
  exists (l1 ++ [(q, b)]), l2. eexists _, _.
  split; [by rewrite <- (assoc_L (++))|]. split; [|split; [exact Hrun|]].
  2:{ split; [by apply cut_heap_packet|]. split; [by apply (cut_heap_freed h p)|].
      split; [|intros; by apply cut_heap_blocks].
      intros x Hx. rewrite fmap_app in Hx. simpl in Hx.
      apply not_elem_of_app in Hx as [Hx1 [Hx2 Hx3]%not_elem_of_cons].
      rewrite cut_heap_pbufs by done. apply foldl_setp_ne. by rewrite bump_fst. }
  by rewrite cut_chain_fst, fmap_app.
Qed.

(** ** Header adjustment *)

Definition strip_rec (n : Z) (b : pbuf) : pbuf :=
  set_tot_len (pb_tot_len b - n) (set_len (pb_len b - n) (set_payload (ptr_add (pb_payload b) n) b)).

Lemma setp_id h p b : hp_pbufs h !! p = Some b -> setp h (p, b) = h.
Proof. intros Hb. unfold setp, with_pbufs. simpl. rewrite insert_id by done. apply heap_eta. Qed.

Lemma strip_rec_0 b : strip_rec 0 b = b.
Proof. destruct b as [n [B o] t len ty f r i]. unfold strip_rec, ptr_add; simpl. by rewrite Z.add_0_r, !Z.sub_0_r. Qed.

Lemma pbuf_remove_header_run h p b n :
  p <> 0 -> hp_pbufs h !! p = Some b -> 0 <= n <= pb_len b -> pb_len b <= pb_tot_len b < 65536 ->
  pbuf_remove_header p n h = Ok (0, setp h (p, strip_rec n b)).
Proof.
  intros Hp Hb Hn Hl. unfold pbuf_remove_header. m_assert ltac:(by apply nz_true).
  destruct (Z.ltb_spec 65535 n); [lia|]. destruct (Z.eqb_spec n 0) as [->|].
  { by rewrite strip_rec_0, setp_id. }
  rewrite u16_t_id by lia. m_step (get_pbuf_ok _ _ _ Hb). m_assert ltac:(apply Z.leb_le; lia).
  m_step (upd_pbuf_ok _ _ _ _ Hb). do 2 m_step (upd_pbuf_ok _ _ _ _ (setp_lookup_eq _ _ _)).
  rewrite !setp_setp. unfold strip_rec. simpl. by rewrite !u16_t_id by lia.
Qed.

Lemma pbuf_remove_header_spec h p b l d n :
  packet h p ((p, b) :: l) d -> 0 <= n <= pb_len b ->
  pbuf_remove_header p n h = Ok (0, setp h (p, strip_rec n b)) /\
  packet (setp h (p, strip_rec n b)) p ((p, strip_rec n b) :: l) (zdrop n d).
Proof.
  intros Hpk Hn. pose proof Hpk as (Hc & Hl & Hd). inversion Hc as [|? ? ? Hp Hb Hc']; subst.
  pose proof (chain_NoDup _ _ _ Hc) as Hnd. apply NoDup_cons in Hnd as [Hni _].
  destruct Hl as (? & Ht & ? & Hl). pose proof (total_nonneg _ Hl).
  split; [apply pbuf_remove_header_run; auto; lia|]. repeat split; simpl; try lia; try done.
  - constructor; [done|apply setp_lookup_eq|]. eapply chain_frame; [done|].
    intros x Hx. apply setp_lookup_ne. by intros ->.
  - destruct (packet_tail _ _ _ _ _ Hpk) as (d1 & d2 & Hd1 & Hz & (_ & _ & Hd2) & ->).
    rewrite (contents_frame h), Hd2 by done. unfold load_bytes in *. simpl hp_blocks.
    fold (load_bytes h (ptr_add (pb_payload b) n) (pb_len b - n)).
    rewrite (load_bytes_sub _ _ _ d1) by (done || lia). f_equal.
    rewrite zdrop_app_l by lia. unfold zslice. rewrite ztake_all; [done|]. rewrite zlen_zdrop; lia.
Qed.

Lemma strip_rec_strip n b : strip_rec (- n) (strip_rec n b) = b.
Proof.
  destruct b as [? [B o] ? ? ? ? ? ?]. unfold strip_rec, set_tot_len, set_len, set_payload, ptr_add.
  simpl. f_equal; try lia. f_equal; lia.
Qed.

(** [pbuf_add_header] on a pbuf whose data follows its struct: refused, with nothing
    changed, when a length would overflow or the payload would run into the struct. *)
Lemma pbuf_add_header_impl_spec h p b n force :
  p <> 0 -> hp_pbufs h !! p = Some b -> 0 <= n -> 0 <= pb_len b <= pb_tot_len b ->
  pb_tot_len b < 65536 -> Z.land (pb_type_internal b) PBUF_TYPE_FLAG_STRUCT_DATA_CONTIGUOUS <> 0 ->
  (pb_payload b).1 = p -> SIZEOF_STRUCT_PBUF <= (pb_payload b).2 ->
  pbuf_add_header_impl p n force h =
    if (65535 <? n + pb_tot_len b) || ((pb_payload b).2 - n <? SIZEOF_STRUCT_PBUF)
    then Ok (1, h) else Ok (0, setp h (p, strip_rec (- n) b)).
Proof.
  intros Hp Hb Hn Hlen Htot Hty Hpay Hoff. unfold pbuf_add_header_impl.
  m_assert ltac:(by apply nz_true). destruct (Z.ltb_spec 65535 n) as [Hbig|Hsmall].
  { destruct (Z.ltb_spec 65535 (n + pb_tot_len b)); [done|lia]. }
  destruct (Z.eqb_spec n 0) as [->|Hn0].
  { destruct (Z.ltb_spec 65535 (0 + pb_tot_len b)); [lia|].
    destruct (Z.ltb_spec ((pb_payload b).2 - 0) SIZEOF_STRUCT_PBUF); [lia|].
    by rewrite strip_rec_0, setp_id. }
  rewrite (u16_t_id n) by lia. m_step (get_pbuf_ok _ _ _ Hb).
  assert ((u16_t (n + pb_tot_len b) <? n) = (65535 <? n + pb_tot_len b)) as ->.
  { unfold u16_t. apply eq_true_iff_eq. rewrite !Z.ltb_lt. dlia. }
  destruct (Z.ltb_spec 65535 (n + pb_tot_len b)); [done|]. rewrite nz_true by done. simpl fst. simpl snd.
  change ((ptr_add (pb_payload b) (- n)).1) with ((pb_payload b).1).
  change ((ptr_add (pb_payload b) (- n)).2) with ((pb_payload b).2 - n).
  destruct (Z.eqb_spec (pb_payload b).1 p); [|done]. rewrite orb_false_l.
  destruct (Z.ltb_spec ((pb_payload b).2 - n) SIZEOF_STRUCT_PBUF); [done|].
  m_step (upd_pbuf_ok _ _ _ _ Hb). do 2 m_step (upd_pbuf_ok _ _ _ _ (setp_lookup_eq _ _ _)).
  rewrite !setp_setp. unfold strip_rec. rewrite !u16_t_id; simpl; [|lia..]. by rewrite !Z.sub_opp_r.
Qed.

(** A header that was removed can be put back, and the heap is as it was. *)
Lemma pbuf_add_remove_header h p b n :
  p <> 0 -> hp_pbufs h !! p = Some b -> 0 <= n <= pb_len b -> pb_len b <= pb_tot_len b < 65536 ->
  Z.land (pb_type_internal b) PBUF_TYPE_FLAG_STRUCT_DATA_CONTIGUOUS <> 0 ->
  (pb_payload b).1 = p -> SIZEOF_STRUCT_PBUF <= (pb_payload b).2 ->
  exists h1, pbuf_remove_header p n h = Ok (0, h1) /\ pbuf_add_header p n h1 = Ok (0, h).
Proof.
  intros Hp Hb Hn Hl Hty Hpay Hoff. exists (setp h (p, strip_rec n b)).
  split; [by apply pbuf_remove_header_run|]. unfold pbuf_add_header.
  rewrite (pbuf_add_header_impl_spec _ _ (strip_rec n b));
    [|done|apply setp_lookup_eq|simpl; done || lia..].
  rewrite setp_setp, strip_rec_strip, (setp_id h p b) by done. simpl.
  destruct (Z.ltb_spec 65535 (n + (pb_tot_len b - n))); [lia|].
  destruct (Z.ltb_spec ((pb_payload b).2 + n - n) SIZEOF_STRUCT_PBUF); [lia|done].
Qed.

(** ** [pbuf_free_header] *)

Lemma owned_del h p b l : owned h ((p, b) :: l) -> p ∉ l.*1 -> owned (del_pbuf h (p, b)) l.
Proof.
  intros Ho Hni. pose proof (owned_app_r h [(p, b)] l Ho) as [Hf Hs]. split; [|done].
  rewrite Forall_forall in Hf |- *. intros [x c] Hin. destruct (Hf _ Hin). split; [|done].
  apply freeable_del; [|done]. simpl. intros ->. apply Hni, list_elem_of_fmap. by exists (x, c).
Qed.

Lemma packet_del h p b l q d :
  owned h ((p, b) :: l) -> p ∉ l.*1 -> packet h q l d -> packet (del_pbuf h (p, b)) q l d.
Proof.
  intros [_ Hs] Hni (Hc & Hl & Hd). split_and!; [by apply chain_del|done|].
  rewrite (contents_frame h); [done|]. intros x c Hin. simpl. apply lookup_delete_ne.
  intros Heq. refine (Hs (x, c) (p, b) _ _ _ (eq_sym Heq)); [by right|by left|]. simpl. intros ->.
  apply Hni, list_elem_of_fmap. by exists (p, c).
Qed.

(** Detaching and freeing the first pbuf. *)
Lemma free_first cf h p b l : chain h p ((p, b) :: l) -> owned h ((p, b) :: l) ->
  pbuf_free cf p (setp h (p, set_next 0 b)) = Ok (1, del_pbuf h (p, b)).
Proof.
  intros Hc [Hf Hs]. inversion Hc as [|? ? ? Hp Hb _]; subst. inversion Hf as [|? ? [Hfr Href] _]; subst.
  rewrite (pbuf_free_owned cf _ p [(p, set_next 0 b)]); [|constructor; [done|apply setp_lookup_eq|constructor]|done|].
  - simpl. change (u8_t (zlen [(p, set_next 0 b)])) with 1. do 2 f_equal.
    unfold del_pbuf. simpl. by rewrite delete_insert_eq.
  - split; [|intros x y ->%list_elem_of_singleton ->%list_elem_of_singleton; done].
    constructor; [done|constructor].
Qed.

Lemma pbuf_free_header_loop_spec cf fuel h p l d n :
  packet h p l d -> owned h l -> 0 <= n < 65536 -> (S (length l) < fuel)%nat ->
  exists l1 l2 l' h', l = l1 ++ l2 /\ l'.*1 = l2.*1 /\
    pbuf_free_header_loop cf fuel p n h = Ok (hd_ptr l', h') /\
    packet h' (hd_ptr l') l' (zdrop n d) /\
    (forall x, x ∈ l1.*1 -> hp_pbufs h' !! x = None /\ hp_blocks h' !! x = None) /\
    (forall x, x ∉ l.*1 -> hp_pbufs h' !! x = hp_pbufs h !! x) /\
    (forall x, x ∉ l1.*1 -> hp_blocks h' !! x = hp_blocks h !! x).
Proof.
  revert fuel h p d n. induction l as [|[q b] l IH]; intros [|fuel] h p d n Hpk Hown Hn Hf; simpl in Hf; try lia.
  { pose proof Hpk as (Hc & _ & Hd). inversion Hc; subst. injection Hd as <-.
    exists [], [], [], h. unfold zdrop. rewrite drop_nil. cbn [pbuf_free_header_loop]. simpl. rewrite andb_false_r.
    split_and!; try done. intros x Hx. by apply elem_of_nil in Hx. }
  pose proof Hpk as (Hc & Hl & Hd). inversion Hc as [|? ? ? Hq Hb Hc']; subst.
  pose proof (chain_NoDup _ _ _ Hc) as Hnd. cbn in Hnd. apply NoDup_cons in Hnd as [Hni Hnd].
  cbn [pbuf_free_header_loop]. destruct (Z.eqb_spec n 0) as [->|Hn0].
  { exists [], ((q, b) :: l), ((q, b) :: l), h. rewrite zdrop_nonpos by lia. simpl. split_and!; auto.
    intros x Hx. by apply elem_of_nil in Hx. }
  rewrite (nz_true q) by done. cbn [negb andb]. m_step (get_pbuf_ok _ _ _ Hb).
  destruct (packet_tail _ _ _ _ _ Hpk) as (d1 & d2 & Hd1 & Hz & Hpk2 & ->).
  assert (0 <= pb_len b) by (by destruct Hl).
  destruct (Z.leb_spec (pb_len b) n) as [Hle|Hgt].
  - m_step (upd_pbuf_ok _ _ _ _ Hb). m_step (free_first cf h q b l Hc Hown).
    rewrite u16_t_id by lia.
    destruct (IH fuel (del_pbuf h (q, b)) (pb_next b) d2 (n - pb_len b))
      as (l1 & l2 & l' & h' & Hl12 & Hfst & Hrun & Hpk' & Hfreed & Hfrp & Hfrb);
      [by apply packet_del|by apply owned_del|lia|lia|].
    exists ((q, b) :: l1), l2, l', h'. rewrite Hl12. simpl. split_and!; auto.
    + rewrite zdrop_app_r by lia. by rewrite Hz.
    + intros x [->|Hx]%elem_of_cons; [|by apply Hfreed].
      assert (q ∉ l1.*1) by (subst l; rewrite fmap_app in Hni; by apply not_elem_of_app in Hni as []).
      rewrite Hfrp, Hfrb by done. simpl. by rewrite !lookup_delete_eq.
    + intros x [Hxq Hx]%not_elem_of_cons. rewrite Hl12 in Hfrp. rewrite Hfrp by done.
      simpl. by apply lookup_delete_ne.
    + intros x [Hxq Hx]%not_elem_of_cons. rewrite Hfrb by done. simpl. by apply lookup_delete_ne.
  - destruct (pbuf_remove_header_spec _ _ _ _ _ n Hpk) as [Hrm Hpk']; [lia|].
    m_step Hrm. destruct fuel as [|fuel]; [lia|].
    exists [], ((q, b) :: l), ((q, strip_rec n b) :: l), (setp h (q, strip_rec n b)). split_and!; auto.
    + intros x Hx. by apply elem_of_nil in Hx.
    + intros x [Hxq Hx]%not_elem_of_cons. apply setp_lookup_ne. simpl in Hxq; congruence.
Qed.

Lemma pbuf_free_header_spec cf h p l d n :
  packet h p l d -> owned h l -> 0 <= n < 65536 ->
  exists l1 l2 l' h', l = l1 ++ l2 /\ l'.*1 = l2.*1 /\
    pbuf_free_header cf p n h = Ok (hd_ptr l', h') /\
    packet h' (hd_ptr l') l' (zdrop n d) /\
    (forall x, x ∈ l1.*1 -> hp_pbufs h' !! x = None /\ hp_blocks h' !! x = None) /\
    (forall x, x ∉ l.*1 -> hp_pbufs h' !! x = hp_pbufs h !! x) /\
    (forall x, x ∉ l1.*1 -> hp_blocks h' !! x = hp_blocks h !! x).
Proof.
  intros Hpk Ho Hn. pose proof (chain_fuel_enough _ _ _ (proj1 Hpk)).
  apply pbuf_free_header_loop_spec; auto. lia.
Qed.
