(* ===== verification/PbufData.v ===== *)
(** * Writing packet data: [pbuf_take], [pbuf_take_at], [pbuf_put_at], [pbuf_copy]

    The bytes of a chain after data was copied into it.  A destination chain keeps
    its payloads in pairwise different blocks ([payloads_nodup]). *)

From S2P Require Import Prelude Def Pbuf PbufFacts PbufMut.

Lemma zpatch_mid {A} o k (x pre mid post : list A) :
  zlen pre = o -> 0 <= k -> k + zlen x <= zlen mid ->
  zpatch (o + k) x (pre ++ mid ++ post) = pre ++ zpatch k x mid ++ post.
Proof.
  intros Hpre Hk Hle. pose proof (zlen_nonneg x). pose proof (zlen_nonneg pre).
  unfold zpatch. rewrite ztake_app_r, zdrop_app_r by lia.
  rewrite ztake_app_l, zdrop_app_l by lia. rewrite <- !(assoc_L (++)). do 2 f_equal; [f_equal; lia|].
  do 3 f_equal. lia.
Qed.

Lemma zslice_mid {A} o n (pre mid post : list A) :
  zlen pre = o -> zlen mid = n -> zslice o n (pre ++ mid ++ post) = mid.
Proof.
  intros Hp Hm. pose proof (zlen_nonneg pre). unfold zslice. rewrite zdrop_app_r by lia.
  rewrite Hp, Z.sub_diag, zdrop_nonpos by lia. rewrite ztake_app_l, ztake_all; done || lia.
Qed.

Lemma zsplit3 {A} o n (l : list A) : 0 <= o -> 0 <= n -> o + n <= zlen l ->
  l = ztake o l ++ zslice o n l ++ zdrop (o + n) l.
Proof.
  intros. unfold zslice. rewrite <- (ztake_zdrop o l) at 1. f_equal.
  rewrite <- (ztake_zdrop n (zdrop o l)) at 1. f_equal. rewrite zdrop_zdrop by lia. done.
Qed.

Lemma zslice_split {A} o a b (l : list A) : 0 <= o -> 0 <= a -> 0 <= b ->
  zslice o a l ++ zslice (o + a) b l = zslice o (a + b) l.
Proof.
  intros. unfold zslice. rewrite <- (zdrop_zdrop a o) by lia. generalize (zdrop o l). clear l. intros l.
  unfold ztake, zdrop. replace (Z.to_nat (a + b)) with (Z.to_nat a + Z.to_nat b)%nat by lia.
  by rewrite take_take_drop.
Qed.

Lemma zslice_nonpos {A} o n (l : list A) : n <= 0 -> zslice o n l = [].
Proof. intros. unfold zslice. by apply ztake_nonpos. Qed.

(** Overwriting the start of [d1 ++ d2], piece by piece. *)
Lemma overwrite_app {A} (data d1 d2 : list A) c n :
  0 <= c -> 0 <= n -> let m := Z.min (zlen d1) n in
  (zslice c m data ++ zdrop m d1) ++ zslice (c + m) (n - m) data ++ zdrop (n - m) d2 =
  zslice c n data ++ zdrop n (d1 ++ d2).
Proof.
  intros Hc Hn m. pose proof (zlen_nonneg d1). subst m. destruct (decide (zlen d1 <= n)).
  - rewrite Z.min_l by lia. rewrite (zdrop_all _ d1), app_nil_r, zdrop_app_r by lia.
    rewrite (assoc_L (++)), zslice_split by lia. do 2 f_equal. lia.
  - rewrite Z.min_r by lia. rewrite Z.sub_diag, (zslice_nonpos _ 0), (zdrop_nonpos _ d2), zdrop_app_l by lia.
    by rewrite <- (assoc_L (++)).
Qed.

(** Loading a range back after part of it was written. *)
Lemma load_poke h ptr n d k x :
  load_bytes h ptr n = Some d -> 0 <= n -> 0 <= k -> k + zlen x <= n ->
  load_bytes (poke ptr.1 (ptr.2 + k) x h) ptr n = Some (zpatch k x d).
Proof.
  intros Hd Hn Hk Hle. pose proof (zlen_nonneg x). unfold load_bytes in *.
  destruct (Z.eqb_spec n 0) as [->|].
  { injection Hd as <-. assert (x = []) as -> by (apply zlen_0_inv; lia).
    by rewrite zpatch_nil. }
  destruct (hp_blocks h !! ptr.1) as [bs|] eqn:E; [|done].
  rewrite (poke_blocks_eq _ _ _ _ _ E). destruct (_ && _) eqn:Eb in Hd; [|done]. bool_to_prop.
  injection Hd as <-. rewrite zlen_zpatch by lia.
  replace ((0 <=? ptr.2) && (0 <=? n) && (ptr.2 + n <=? zlen bs)) with true.
  2:{ symmetry. rewrite !andb_true_iff, !Z.leb_le. lia. }
  f_equal. rewrite (zsplit3 ptr.2 n bs) at 1 by lia.
  assert (zlen (zslice ptr.2 n bs) = n) by (apply zlen_zslice; lia).
  rewrite zpatch_mid by (rewrite ?zlen_ztake; lia).
  apply zslice_mid; [by rewrite zlen_ztake by lia|]. by rewrite zlen_zpatch by lia.
Qed.

Lemma load_block h ptr n d : load_bytes h ptr n = Some d -> 0 < n ->
  exists bs, hp_blocks h !! ptr.1 = Some bs /\ 0 <= ptr.2 /\ ptr.2 + n <= zlen bs.
Proof.
  unfold load_bytes. intros Hd Hn. destruct (Z.eqb_spec n 0); [lia|].
  destruct (hp_blocks h !! ptr.1) as [bs|]; [|done]. destruct (_ && _) eqn:E; [|done].
  bool_to_prop. by exists bs.
Qed.

(** Writing inside a range that can be loaded. *)
Lemma mem_write_in h ptr n d k x :
  load_bytes h ptr n = Some d -> 0 <= k -> k + zlen x <= n ->
  mem_write (ptr_add ptr k) x h = Ok (tt, poke ptr.1 (ptr.2 + k) x h).
Proof.
  intros Hd Hk Hle. pose proof (zlen_nonneg x). destruct (decide (x = [])) as [->|Hx].
  { by rewrite poke_nil. }
  destruct x as [|z x]; [done|]. rewrite zlen_cons in *. pose proof (zlen_nonneg x).
  destruct (load_block h ptr n d Hd ltac:(lia)) as (bs & Hbs & ? & ?).
  apply (mem_write_ok h (ptr_add ptr k) (z :: x) bs); simpl; rewrite ?zlen_cons; done || lia.
Qed.

Definition payload_blocks (l : list (Z * pbuf)) : list Z := (fun pb => (pb_payload pb.2).1) <$> l.
Abbreviation payloads_nodup l := (NoDup (payload_blocks l)).

Lemma avoids_iff B l : payload_avoids B l <-> B ∉ payload_blocks l.
Proof.
  unfold payload_avoids, payload_blocks. induction l as [|[p b] l IH]; simpl.
  - split; [intros _ H; by apply elem_of_nil in H|constructor].
  - rewrite not_elem_of_cons, Forall_cons, IH. simpl. split; intros [? ?]; split; (congruence || done).
Qed.

Lemma zpatch_0 (x d : list Z) : zpatch 0 x d = x ++ zdrop (zlen x) d.
Proof. unfold zpatch. by rewrite ztake_nonpos by lia. Qed.

Lemma pbuf_take_loop_spec fuel h p l d data n copied :
  packet h p l d -> payloads_nodup l -> (length l < fuel)%nat ->
  0 <= n <= zlen d -> 0 <= copied -> copied + n <= zlen data -> copied + n < 65536 ->
  exists h', pbuf_take_loop fuel p data n copied h = Ok ((0, copied + n), h') /\
    hp_pbufs h' = hp_pbufs h /\ contents h' l = Some (zslice copied n data ++ zdrop n d) /\
    (forall B, B ∉ payload_blocks l -> hp_blocks h' !! B = hp_blocks h !! B).
Proof.
  revert fuel h p d n copied. induction l as [|[q b] l IH]; intros [|fuel] h p d n copied Hpk Hnd Hf Hn Hc0 Hle Hlt;
    simpl in Hf; try lia; cbn [pbuf_take_loop]; destruct (Z.eqb_spec n 0) as [->|Hn0].
  1, 3: exists h; rewrite Z.add_0_r; unfold zslice; rewrite ztake_nonpos, zdrop_nonpos by lia;
    destruct Hpk as (_ & _ & Hd); auto.
  { pose proof (packet_len _ _ _ _ Hpk) as Hz. simpl in Hz. lia. }
  pose proof Hpk as (Hc & Hl & _). inversion Hc as [|? ? ? Hq Hb _]; subst.
  m_assert ltac:(by apply nz_true). m_step (get_pbuf_ok _ _ _ Hb).
  destruct (packet_tail _ _ _ _ _ Hpk) as (d1 & d2 & Hd1 & Hz & (Hc2 & Hl2 & Hd2) & ->).
  destruct Hl as (Hb0 & _). rewrite zlen_app in Hn. pose proof (zlen_nonneg d2).
  replace (if pb_len b <? n then pb_len b else n) with (Z.min (pb_len b) n)
    by (destruct (Z.ltb_spec (pb_len b) n); lia).
  set (m := Z.min (pb_len b) n). unfold bind at 1. unfold buf_read.
  replace ((0 <=? copied) && (0 <=? m) && (copied + m <=? zlen data)) with true.
  2:{ symmetry. rewrite !andb_true_iff, !Z.leb_le. lia. }
  set (x := zslice copied m data). assert (zlen x = m) as Hx by (apply zlen_zslice; lia).
  pose proof (mem_write_in h (pb_payload b) (pb_len b) d1 0 x Hd1 ltac:(lia) ltac:(lia)) as Hw.
  unfold ptr_add in Hw. rewrite Z.add_0_r, <- surjective_pairing in Hw.
  unfold ret. m_step Hw. rewrite !u64_t_id by lia.
  apply NoDup_cons in Hnd as [Hni Hnd]. set (B := (pb_payload b).1) in *.
  assert (payload_avoids B l) as Hav by (by apply avoids_iff).
  set (h1 := poke B (pb_payload b).2 x h).
  assert (packet h1 (pb_next b) l d2) as Hpk1 by (by apply packet_poke_avoid).
  destruct (IH fuel h1 (pb_next b) d2 (n - m) (copied + m) Hpk1 Hnd) as (h' & Hrun & Hpb & Hcon & Hfr); [lia..|].
  exists h'. split_and!.
  - rewrite Hrun. do 3 f_equal. lia.
  - rewrite Hpb. apply poke_pbufs.
  - pose proof (load_poke h (pb_payload b) (pb_len b) d1 0 x Hd1 ltac:(lia) ltac:(lia) ltac:(lia)) as Hld.
    rewrite Z.add_0_r in Hld. fold B h1 in Hld. simpl.
    assert (load_bytes h' (pb_payload b) (pb_len b) = load_bytes h1 (pb_payload b) (pb_len b)) as ->.
    { unfold load_bytes. by rewrite Hfr. }
    rewrite Hld, Hcon, zpatch_0, Hx. f_equal. subst x m. rewrite <- Hz. apply overwrite_app; lia.
  - intros B' [HB' Hni']%not_elem_of_cons. rewrite Hfr by done. apply poke_blocks_ne. by intros <-.
Qed.

(** [pbuf_take]: the packet's first [len] bytes become the first [len] bytes of the
    buffer, the others and every other block stay. *)
Lemma pbuf_take_spec h p l d data n :
  packet h p l d -> p <> 0 -> payloads_nodup l -> 0 <= n <= zlen d -> n <= zlen data ->
  exists h', pbuf_take p (Some data) n h = Ok (ERR_OK, h') /\
    packet h' p l (ztake n data ++ zdrop n d) /\ hp_pbufs h' = hp_pbufs h /\
    (forall B, B ∉ payload_blocks l -> hp_blocks h' !! B = hp_blocks h !! B).
Proof.
  intros Hpk Hp Hnd Hn Hle. pose proof Hpk as (Hc & Hl & Hd). pose proof (packet_len _ _ _ _ Hpk) as Hz.
  pose proof (chain_fuel_enough _ _ _ Hc). pose proof (lens_ok_total_lt _ Hl).
  destruct (pbuf_take_loop_spec (S (chain_fuel h)) h p l d data n 0) as (h' & Hrun & Hpb & Hcon & Hfr);
    [done|done|lia..|].
  exists h'. split_and!; auto.
  - inversion Hc as [|? b l' ? Hb _]; subst; [done|].
    unfold pbuf_take. m_assert ltac:(by apply nz_true). m_step (get_pbuf_ok _ _ _ Hb).
    destruct Hl as (_ & Ht & _). m_assert ltac:(apply Z.leb_le; simpl in Hz; lia).
    unfold bind at 1. rewrite Hrun. by m_assert ltac:(by rewrite Z.add_0_l, !Z.eqb_refl).
  - split_and!; auto.
    eapply chain_frame; [done|]. by rewrite Hpb.
Qed.

(** ** [pbuf_copy] *)

Lemma chain_null h l : chain h 0 l -> l = [].
Proof. by inversion 1. Qed.

(** No empty pbufs in the chain. *)
Definition solid (l : list (Z * pbuf)) : Prop := Forall (fun pb => 0 < pb_len pb.2) l.

Lemma solid_total l : solid l -> l <> [] -> 0 < total l.
Proof.
  induction l as [|[p b] l IH]; [done|]. intros [Hb Hs]%Forall_cons _. simpl in *.
  destruct l as [|x l]; [simpl; lia|]. specialize (IH Hs ltac:(done)). lia.
Qed.

(** The "packet queue" checks at the end of a round hold on solid chains. *)
Lemma copy_check msg h p l : chain h p l -> lens_ok l -> solid l ->
  (if negb (p =? 0) then
     let* b := get_pbuf p in
     if pb_len b =? pb_tot_len b then lwip_assert msg (pb_next b =? 0) else ret tt
   else ret tt) h = Ok (tt, h).
Proof.
  intros Hc Hl Hs. destruct Hc as [|p b l Hp Hb Hc]; [done|]. rewrite nz_true by done.
  m_step (get_pbuf_ok _ _ _ Hb). destruct (Z.eqb_spec (pb_len b) (pb_tot_len b)) as [He|]; [|done].
  destruct Hl as (_ & Ht & _). apply Forall_cons in Hs as [_ Hs].
  destruct l as [|x l]; [by inversion Hc; subst|].
  pose proof (solid_total _ Hs ltac:(done)). lia.
Qed.

Lemma zpatch_app_l {A} o (x a b : list A) : 0 <= o -> o + zlen x <= zlen a ->
  zpatch o x (a ++ b) = zpatch o x a ++ b.
Proof. intros Ho Hle. exact (zpatch_mid 0 o x [] a b eq_refl Ho Hle). Qed.

Lemma zpatch_fill {A} o (x y a b : list A) : 0 <= o -> o + zlen x = zlen a -> zlen y <= zlen b ->
  zpatch o x a ++ zpatch 0 y b = zpatch o (x ++ y) (a ++ b).
Proof.
  intros Ho Hx Hy. pose proof (zlen_nonneg x). pose proof (zlen_nonneg y). pose proof (zlen_nonneg b).
  rewrite <- zpatch_zpatch by (rewrite ?zlen_app; lia).
  rewrite zpatch_app_l by lia. rewrite Hx.
  assert (zlen (zpatch o x a) = zlen a) as Hz by (rewrite zlen_zpatch; lia).
  pose proof (zpatch_mid (zlen a) 0 y (zpatch o x a) b [] Hz ltac:(lia) ltac:(lia)) as Hm.
  by rewrite !app_nil_r, Z.add_0_r in Hm.
Qed.

(** The state of the copy loop: [ot] bytes of the first target pbuf and [ofr] bytes
    of the first source pbuf are done, the rest of the source fits. *)
Record copy_inv (h : heap) (t : Z) (lt : list (Z * pbuf)) (dt : list Z) (ot : Z)
    (f : Z) (lf : list (Z * pbuf)) (df : list Z) (ofr : Z) : Prop := {
  ci_t : packet h t lt dt;
  ci_f : packet h f lf df;
  ci_st : solid lt;
  ci_sf : solid lf;
  ci_nd : payloads_nodup lt;
  ci_dis : forall B, B ∈ payload_blocks lt -> payload_avoids B lf;
  ci_ot : 0 <= ot;
  ci_of : 0 <= ofr;
  ci_fit : zlen df - ofr <= zlen dt - ot
}.

Lemma load_frame h h' ptr n : hp_blocks h' !! ptr.1 = hp_blocks h !! ptr.1 ->
  load_bytes h' ptr n = load_bytes h ptr n.
Proof. unfold load_bytes. by intros ->. Qed.

Definition head_room (l : list (Z * pbuf)) (o : Z) : Prop :=
  match l with [] => True | (_, b) :: _ => o < pb_len b end.

Lemma head_room_lt h p l d o : packet h p l d -> head_room l o -> p <> 0 -> o < zlen d.
Proof.
  intros Hpk Hr Hp. rewrite (packet_len _ _ _ _ Hpk). destruct Hpk as (Hc & Hl & _).
  inversion Hc; subst; [done|]. destruct Hl as (? & ? & ? & Hl). apply total_nonneg in Hl.
  simpl in *. lia.
Qed.

Lemma head_room_0 l : solid l -> head_room l 0.
Proof. destruct l as [|[p b] l]; [done|]. by intros [? _]%Forall_cons. Qed.

Section CopyRound.
Context (h : heap) (t : Z) (bt : pbuf) (lt : list (Z * pbuf)) (dt : list Z) (ot : Z).
Context (f : Z) (bf : pbuf) (lf : list (Z * pbuf)) (df : list Z) (ofr : Z).
Context (Hinv : copy_inv h t ((t, bt) :: lt) dt ot f ((f, bf) :: lf) df ofr).
Context (Hot : ot < pb_len bt) (Hof : ofr < pb_len bf).

Definition rd_m : Z := Z.min (pb_len bf - ofr) (pb_len bt - ot).
Definition rd_x : list Z := zslice ofr rd_m df.
Definition rd_h : heap := poke (pb_payload bt).1 ((pb_payload bt).2 + ot) rd_x h.
Definition rd_f : Z := if pb_len bf <=? ofr + rd_m then pb_next bf else f.
Definition rd_t : Z := if ot + rd_m =? pb_len bt then pb_next bt else t.
Definition rd_lf : list (Z * pbuf) := if pb_len bf <=? ofr + rd_m then lf else (f, bf) :: lf.
Definition rd_lt : list (Z * pbuf) := if ot + rd_m =? pb_len bt then lt else (t, bt) :: lt.

Lemma rd_base : exists dt1 dt2 df1 df2,
  dt = dt1 ++ dt2 /\ df = df1 ++ df2 /\ zlen dt1 = pb_len bt /\ zlen df1 = pb_len bf /\
  zlen rd_x = rd_m /\ 0 < rd_m /\ ofr + rd_m <= pb_len bf /\ ot + rd_m <= pb_len bt /\
  load_bytes rd_h (pb_payload bt) (pb_len bt) = Some (zpatch ot rd_x dt1) /\
  packet rd_h t ((t, bt) :: lt) (zpatch ot rd_x dt1 ++ dt2) /\ packet rd_h (pb_next bt) lt dt2 /\
  packet rd_h f ((f, bf) :: lf) (df1 ++ df2) /\ packet rd_h (pb_next bf) lf df2.
Proof using Hinv Hot Hof.
  destruct Hinv as [Ht Hf Hst Hsf Hnd Hdis H1 H2 Hfit].
  destruct (packet_tail _ _ _ _ _ Ht) as (dt1 & dt2 & Hdt1 & Hzt & Hpt2 & Hdt).
  destruct (packet_tail _ _ _ _ _ Hf) as (df1 & df2 & Hdf1 & Hzf & Hpf2 & Hdf).
  assert (0 < rd_m /\ ofr + rd_m <= pb_len bf /\ ot + rd_m <= pb_len bt) as (Hm0 & Hm1 & Hm2)
    by (unfold rd_m; lia).
  assert (rd_x = zslice ofr rd_m df1) as Hx by (unfold rd_x; rewrite Hdf; apply zslice_app_l; lia).
  assert (zlen rd_x = rd_m) as Hzx by (rewrite Hx; apply zlen_zslice; lia).
  pose proof (load_poke h _ _ dt1 ot rd_x Hdt1 ltac:(lia) H1 ltac:(lia)) as Hld. fold rd_h in Hld.
  assert (payload_avoids (pb_payload bt).1 ((f, bf) :: lf)) as Hav by (apply Hdis; by left).
  apply NoDup_cons in Hnd as [Hni Hnd]. apply avoids_iff in Hni.
  assert (packet rd_h (pb_next bt) lt dt2) as Hpt2' by (by apply packet_poke_avoid).
  exists dt1, dt2, df1, df2. split_and!; try done.
  - split_and!; [|by destruct Ht as (_ & ? & _)|].
    + eapply chain_frame; [exact (proj1 Ht)|]. intros. unfold rd_h. by rewrite poke_pbufs.
    + simpl. rewrite Hld. by destruct Hpt2' as (_ & _ & ->).
  - rewrite <- Hdf. by apply packet_poke_avoid.
  - apply Forall_cons in Hav as [_ Hav]. by apply packet_poke_avoid.
Qed.

Lemma zdrop_slice {A} o m (l : list A) : 0 <= o -> 0 <= m -> zdrop o l = zslice o m l ++ zdrop (o + m) l.
Proof. intros. unfold zslice. rewrite <- zdrop_zdrop by lia. by rewrite ztake_zdrop. Qed.

Lemma rd_packets : exists dt' df' : list Z,
  let ot' := if ot + rd_m =? pb_len bt then 0 else ot + rd_m in
  let ofr' := if pb_len bf <=? ofr + rd_m then 0 else ofr + rd_m in
  copy_inv rd_h rd_t rd_lt dt' ot' rd_f rd_lf df' ofr' /\
  zdrop ofr' df' = zdrop (ofr + rd_m) df /\
  (forall h', contents h' rd_lt = Some (zpatch ot' (zdrop ofr' df') dt') ->
     (forall B, B ∉ payload_blocks rd_lt -> hp_blocks h' !! B = hp_blocks rd_h !! B) ->
     contents h' ((t, bt) :: lt) = Some (zpatch ot (zdrop ofr df) dt)).
Proof using Hinv Hot Hof.
  destruct rd_base as (dt1 & dt2 & df1 & df2 & -> & Hdf & Hzt & Hzf & Hzx & Hm0 & Hm1 & Hm2 & Hld & Pt & Pt2 & Pf & Pf2).
  destruct Hinv as [_ _ Hst Hsf Hnd Hdis H1 H2 Hfit]. rewrite Hdf, !zlen_app in Hfit.
  pose proof (zlen_nonneg dt2). pose proof (zlen_nonneg df2).
  assert (zlen (zpatch ot rd_x dt1) = zlen dt1) as Hzp by (apply zlen_zpatch; lia).
  set (df' := if pb_len bf <=? ofr + rd_m then df2 else df1 ++ df2).
  set (ofr' := if pb_len bf <=? ofr + rd_m then 0 else ofr + rd_m).
  assert (zdrop ofr' df' = zdrop (ofr + rd_m) df) as Hrest.
  { subst df' ofr'. rewrite Hdf. destruct (Z.leb_spec (pb_len bf) (ofr + rd_m)); [|done].
    rewrite zdrop_nonpos, zdrop_app_r by lia. by rewrite zdrop_nonpos by lia. }
  assert (packet rd_h rd_f rd_lf df' /\ solid rd_lf /\ (forall B, payload_avoids B ((f, bf) :: lf) -> payload_avoids B rd_lf)
          /\ 0 <= ofr' /\ zlen df' - ofr' = zlen df1 + zlen df2 - (ofr + rd_m)) as (Pf' & Sf' & Af' & Hof' & Hzf').
  { subst df' ofr'. unfold rd_f, rd_lf. destruct (Z.leb_spec (pb_len bf) (ofr + rd_m)).
    - split_and!; auto; [by apply Forall_cons in Hsf as []|by intros B [_ ?]%Forall_cons|lia|lia].
    - rewrite zlen_app. split_and!; auto; lia. }
  assert (zdrop ofr df = rd_x ++ zdrop ofr' df') as Hsplit by (rewrite Hrest; apply zdrop_slice; lia).
  assert (zlen (zdrop ofr' df') <= zlen dt1 + zlen dt2 - (ot + rd_m)) as Hyz.
  { rewrite zlen_zdrop; [lia|]. subst df' ofr'. destruct (Z.leb_spec (pb_len bf) (ofr + rd_m)); rewrite ?zlen_app; lia. }
  exists (if ot + rd_m =? pb_len bt then dt2 else zpatch ot rd_x dt1 ++ dt2), df'. cbv zeta.
  fold ofr'. rewrite Hsplit. unfold rd_t, rd_lt. clearbody df' ofr'.
  destruct (Z.eqb_spec (ot + rd_m) (pb_len bt)) as [Hdone|Hmore]; (split; [|split; [done|]]).
  - constructor; auto; try lia; [by apply Forall_cons in Hst as []|by apply NoDup_cons in Hnd as []|].
    intros B HB. apply Af', Hdis. by right.
  - intros h' Hcon Hfr. simpl. rewrite Hcon.
    rewrite (load_frame rd_h h'), Hld by (apply Hfr; by apply NoDup_cons in Hnd as []).
    f_equal. apply zpatch_fill; lia.
  - constructor; auto; try lia. rewrite zlen_app. lia.
  - intros h' Hcon _. rewrite Hcon. f_equal.
    rewrite <- zpatch_app_l by lia. rewrite <- Hzx. apply zpatch_zpatch; [lia|]. rewrite zlen_app. lia.
Qed.

Lemma rd_room_f : head_room rd_lf (if pb_len bf <=? ofr + rd_m then 0 else ofr + rd_m).
Proof using Hinv.
  unfold rd_lf. destruct (Z.leb_spec (pb_len bf) (ofr + rd_m)); [|done].
  apply head_room_0. destruct Hinv as [_ _ _ Hsf _ _ _ _ _]. by apply Forall_cons in Hsf as [].
Qed.
Lemma rd_room_t : head_room rd_lt (if ot + rd_m =? pb_len bt then 0 else ot + rd_m).
Proof using Hinv.
  unfold rd_lt. destruct (Z.eqb_spec (ot + rd_m) (pb_len bt)).
  - apply head_room_0. destruct Hinv as [_ _ Hst _ _ _ _ _ _]. by apply Forall_cons in Hst as [].
  - simpl. unfold rd_m in *. lia.
Qed.

Lemma rd_lens : (length rd_lt + length rd_lf < length ((t, bt) :: lt) + length ((f, bf) :: lf))%nat.
Proof.
  unfold rd_lt, rd_lf. destruct (Z.eqb_spec (ot + rd_m) (pb_len bt)),
    (Z.leb_spec (pb_len bf) (ofr + rd_m)); simpl; try lia. unfold rd_m in *. lia.
Qed.

(** One round of the loop. *)
Lemma copy_round fuel :
  pbuf_copy_loop (S fuel) t f ot ofr h =
  (if negb (rd_f =? 0) then
     pbuf_copy_loop fuel rd_t rd_f (if ot + rd_m =? pb_len bt then 0 else ot + rd_m)
       (if pb_len bf <=? ofr + rd_m then 0 else ofr + rd_m)
   else ret ERR_OK) rd_h.
Proof using Hinv Hot Hof.
  destruct rd_packets as (dt' & df' & [Pt' Pf' St' Sf' _ _ _ Hof' Hfit'] & Hrest & _).
  pose proof rd_room_f as Hroom.
  destruct rd_base as (dt1 & dt2 & df1 & df2 & Hdt & Hdf & Hzt & Hzf & Hzx & Hm0 & Hm1 & Hm2 & _ & Pt & _ & Pf & _).
  destruct Hinv as [(Hct & Hlt & Hdt') (Hcf & Hlf & Hdf') _ _ _ _ H1 H2 _].
  inversion Hct as [|? ? ? Ht0 Hbt _]; subst. inversion Hcf as [|? ? ? Hf0 Hbf _]; subst.
  assert (pb_len bt < 65536 /\ pb_len bf < 65536) as [Hlt16 Hlf16].
  { destruct Hlt as (? & ? & ? & Hx), Hlf as (? & ? & ? & Hy). apply total_nonneg in Hx, Hy. lia. }
  cbn [pbuf_copy_loop]. m_step (get_pbuf_ok _ _ _ Hbt). m_step (get_pbuf_ok _ _ _ Hbf).
  rewrite (u64_t_id (pb_len bf - ofr)), (u64_t_id (pb_len bt - ot)) by lia.
  replace (if pb_len bf - ofr <=? pb_len bt - ot then pb_len bf - ofr else pb_len bt - ot) with rd_m
    by (unfold rd_m; destruct (Z.leb_spec (pb_len bf - ofr) (pb_len bt - ot)); lia).
  apply contents_cons_inv in Hdf' as (d1 & d2 & Hd1 & _ & Hd12).
  apply contents_cons_inv in Hdt' as (e1 & e2 & He1 & _ & _).
  assert (d1 = df1) as ->.
  { apply (app_inj_1 _ _ d2 df2); [|congruence]. apply load_bytes_len in Hd1; [|lia]. unfold zlen in *. lia. }
  unfold bind at 1. unfold mem_read at 1.
  rewrite (load_bytes_sub _ _ _ df1 ofr rd_m) by (done || lia).
  assert (zslice ofr rd_m df1 = rd_x) as ->.
  { unfold rd_x. rewrite Hdf. symmetry. apply zslice_app_l; lia. }
  m_step (mem_write_in h (pb_payload bt) (pb_len bt) e1 ot rd_x He1 H1 ltac:(lia)). fold rd_h.
  rewrite !u64_t_id by lia. m_assert ltac:(apply Z.leb_le; lia). m_assert ltac:(apply Z.leb_le; lia).
  fold rd_f rd_t. erewrite bind_ok; [|].
  - erewrite bind_ok; [|exact (copy_check _ _ _ _ (proj1 Pf') (proj1 (proj2 Pf')) Sf')].
    erewrite bind_ok; [done|exact (copy_check _ _ _ _ (proj1 Pt') (proj1 (proj2 Pt')) St')].
  - destruct (Z.eqb_spec (ot + rd_m) (pb_len bt)) as [Hd|]; [|done]. apply assert_true.
    apply orb_true_iff. destruct (Z.eqb_spec rd_f 0) as [|Hf']; [by right|left].
    apply negb_true_iff, Z.eqb_neq. intros Ht'. destruct Pt' as (Hct' & _ & Hdt'). rewrite Ht' in Hct'.
    rewrite (chain_null _ _ Hct') in Hdt'. injection Hdt' as <-.
    pose proof (head_room_lt _ _ _ _ _ Pf' Hroom Hf') as Hlt'. change (zlen (@nil Z)) with 0 in Hfit'. lia.
Qed.
End CopyRound.

Lemma pbuf_copy_loop_spec fuel h t lt dt ot f lf df ofr :
  copy_inv h t lt dt ot f lf df ofr -> t <> 0 -> f <> 0 -> head_room lt ot -> head_room lf ofr ->
  (length lt + length lf <= fuel)%nat ->
  exists h', pbuf_copy_loop fuel t f ot ofr h = Ok (ERR_OK, h') /\ hp_pbufs h' = hp_pbufs h /\
    contents h' lt = Some (zpatch ot (zdrop ofr df) dt) /\
    (forall B, B ∉ payload_blocks lt -> hp_blocks h' !! B = hp_blocks h !! B).
Proof.
  revert h t lt dt ot f lf df ofr. induction fuel as [|fuel IH]; intros h t lt dt ot f lf df ofr Hinv Ht Hf Hrt Hrf Hfuel.
  all: pose proof (ci_t _ _ _ _ _ _ _ _ _ Hinv) as (Hct & _); inversion Hct as [|? bt lt' _ _ _]; subst; [done|].
  all: pose proof (ci_f _ _ _ _ _ _ _ _ _ Hinv) as (Hcf & _); inversion Hcf as [|? bf lf' _ _ _]; subst; [done|].
  { simpl in Hfuel. lia. }
  rewrite (copy_round h t bt lt' dt ot f bf lf' df ofr Hinv Hrt Hrf).
  destruct (rd_packets h t bt lt' dt ot f bf lf' df ofr Hinv Hrt Hrf) as (dt' & df' & Hinv' & Hrest & Hrec).
  pose proof (rd_room_f h t bt lt' dt ot f bf lf' df ofr Hinv) as Hrf'.
  pose proof (rd_room_t h t bt lt' dt ot f bf lf' df ofr Hinv) as Hrt'.
  pose proof (rd_lens t bt lt' ot f bf lf' ofr) as Hlens.
  assert (forall B, B ∉ payload_blocks ((t, bt) :: lt') ->
    (B ∉ payload_blocks (rd_lt t bt lt' ot bf ofr)) /\
    hp_blocks (rd_h h bt ot bf df ofr) !! B = hp_blocks h !! B) as Hfr1.
  { intros B HB. split; [unfold rd_lt; by destruct (_ =? _); [apply not_elem_of_cons in HB as []|]|].
    apply poke_blocks_ne. apply not_elem_of_cons in HB as [HB _]. by intros <-. }
  assert (hp_pbufs (rd_h h bt ot bf df ofr) = hp_pbufs h) as Hpb1 by apply poke_pbufs.
  set (h1 := rd_h h bt ot bf df ofr) in *. set (t1 := rd_t t bt ot bf ofr) in *.
  set (f1 := rd_f bt ot f bf ofr) in *. clearbody h1.
  set (ot1 := if ot + rd_m bt ot bf ofr =? pb_len bt then 0 else ot + rd_m bt ot bf ofr) in *.
  set (of1 := if pb_len bf <=? ofr + rd_m bt ot bf ofr then 0 else ofr + rd_m bt ot bf ofr) in *.
  pose proof Hinv' as [Pt1 Pf1 _ _ _ _ Hot1 Hof1 Hfit1].
  destruct (Z.eqb_spec f1 0) as [Hf1|Hf1]; cbn [negb].
  - exists h1. split_and!; [done|done| |by intros B [_ ?]%Hfr1].
    apply Hrec; [|done]. rewrite Hf1 in Pf1. destruct Pf1 as (Hc0 & _ & Hd0).
    rewrite (chain_null _ _ Hc0) in Hd0. injection Hd0 as <-.
    unfold zdrop. rewrite drop_nil, zpatch_nil. by destruct Pt1 as (_ & _ & ?).
  - assert (t1 <> 0) as Ht1.
    { intros Ht1. rewrite Ht1 in Pt1. destruct Pt1 as (Hc0 & _ & Hd0).
      rewrite (chain_null _ _ Hc0) in Hd0. injection Hd0 as <-.
      pose proof (head_room_lt _ _ _ _ _ Pf1 Hrf' Hf1). change (zlen (@nil Z)) with 0 in Hfit1. lia. }
    destruct (IH _ _ _ _ _ _ _ _ _ Hinv' Ht1 Hf1 Hrt' Hrf' ltac:(lia)) as (h' & Hrun & Hpb & Hcon & Hfr).
    exists h'. split_and!; [done|congruence|by apply Hrec|].
    intros B [HB1 HB2]%Hfr1. rewrite Hfr by done. done.
Qed.

(** [pbuf_copy] puts the whole source packet at the start of the target. *)
Lemma pbuf_copy_spec h t lt dt f lf df :
  packet h t lt dt -> packet h f lf df -> t <> 0 -> f <> 0 -> solid lt -> solid lf ->
  payloads_nodup lt -> (forall B, B ∈ payload_blocks lt -> payload_avoids B lf) ->
  zlen df <= zlen dt ->
  exists h', pbuf_copy t f h = Ok (ERR_OK, h') /\ hp_pbufs h' = hp_pbufs h /\
    packet h' t lt (df ++ zdrop (zlen df) dt) /\ packet h' f lf df /\
    (forall B, B ∉ payload_blocks lt -> hp_blocks h' !! B = hp_blocks h !! B).
Proof.
  intros Pt Pf Ht Hf St Sf Hnd Hdis Hle.
  pose proof (packet_len _ _ _ _ Pt) as Hzt. pose proof (packet_len _ _ _ _ Pf) as Hzf.
  pose proof Pt as (Hct & Hlt & _). pose proof Pf as (Hcf & Hlf & Hdf).
  pose proof (chain_fuel_enough _ _ _ Hct). pose proof (chain_fuel_enough _ _ _ Hcf).
  assert (copy_inv h t lt dt 0 f lf df 0) as Hinv by (constructor; auto; lia).
  destruct (pbuf_copy_loop_spec (2 * chain_fuel h) _ _ _ _ _ _ _ _ _ Hinv Ht Hf) as (h' & Hrun & Hpb & Hcon & Hfr);
    [by apply head_room_0|by apply head_room_0|lia|].
  exists h'. rewrite zdrop_nonpos, zpatch_0 in Hcon by lia. split_and!; auto.
  - inversion Hct as [|? bt lt' _ Hbt _]; subst; [done|]. inversion Hcf as [|? bf lf' _ Hbf _]; subst; [done|].
    unfold pbuf_copy. m_assert ltac:(by rewrite !nz_true by done).
    m_step (get_pbuf_ok _ _ _ Hbt). m_step (get_pbuf_ok _ _ _ Hbf).
    destruct Hlt as (_ & Ht' & _), Hlf as (_ & Hf' & _). simpl in Hzt, Hzf.
    m_assert ltac:(apply Z.leb_le; lia). done.
  - split_and!; auto. eapply chain_frame; [done|]. by rewrite Hpb.
  - split_and!; auto; [eapply chain_frame; [done|]; by rewrite Hpb|].
    rewrite (contents_frame h); [done|]. intros p b Hin. apply Hfr. intros HB.
    specialize (Hdis _ HB). unfold payload_avoids in Hdis. rewrite Forall_forall in Hdis.
    by apply (Hdis _ Hin).
Qed.
