(* ===== verification/PbufAlloc.v ===== *)
(** * Allocation: [pbuf_alloc] from the pool and from the heap

    An allocation either fails, and then every pbuf and block is as before (the part
    of a chain that was already built is freed), or it returns a chain of fresh
    pbufs that holds exactly the requested number of bytes. *)

From S2P Require Import Prelude Def Pbuf PbufFacts PbufMut PbufData.

(** Lengths of a chain under construction: [T] bytes are still to come. *)
Fixpoint lens_to (l : list (Z * pbuf)) (T : Z) : Prop :=
  match l with
  | [] => True
  | (_, b) :: l => 0 <= pb_len b /\ pb_tot_len b = pb_len b + total l + T /\
                   pb_tot_len b < 65536 /\ lens_to l T
  end.

Lemma lens_to_0 l : lens_to l 0 -> lens_ok l.
Proof. induction l as [|[p b] l IH]; simpl; [done|]. intros (?&?&?&?). split_and!; auto; lia. Qed.

Lemma lens_to_snoc l q b T :
  lens_to l (pb_len b + T) -> 0 <= pb_len b -> 0 <= T -> pb_tot_len b = pb_len b + T ->
  pb_tot_len b < 65536 -> lens_to (l ++ [(q, b)]) T.
Proof.
  intros Hl Hb HT Ht Hlt. induction l as [|[p c] l IH]; simpl in *; [split_and!; auto; lia|].
  destruct Hl as (?&?&?&?). rewrite total_app. simpl. split_and!; auto; lia.
Qed.

(** A pbuf fresh from the allocator, with its payload behind its struct. *)
Record fresh_pbuf (h : heap) (pb : Z * pbuf) : Prop := {
  fp_own : (pb_payload pb.2).1 = pb.1;
  fp_off : SIZEOF_STRUCT_PBUF <= (pb_payload pb.2).2;
  fp_len : 0 <= pb_len pb.2;
  fp_block : exists bs, hp_blocks h !! pb.1 = Some bs /\ bytes_ok bs /\
               (pb_payload pb.2).2 + pb_len pb.2 <= zlen bs;
  fp_ref : pb_ref pb.2 = 1;
  fp_flags : pb_flags pb.2 = 0;
  fp_src : 0 <= pbuf_get_allocsrc pb.2 <= 2
}.

(** What has been built so far on top of the heap [h0]. *)
Record alloc_inv (h0 h : heap) (l : list (Z * pbuf)) (T : Z) : Prop := {
  ai_linked : linked l 0;
  ai_stored : Forall (stored h) l;
  ai_nodup : NoDup l.*1;
  ai_lens : lens_to l T;
  ai_fresh : Forall (fresh_pbuf h) l;
  ai_new : forall x, x ∈ l.*1 -> hp_pbufs h0 !! x = None /\ hp_blocks h0 !! x = None;
  ai_frame : forall x, x ∉ l.*1 ->
    hp_pbufs h !! x = hp_pbufs h0 !! x /\ hp_blocks h !! x = hp_blocks h0 !! x
}.

Lemma alloc_inv_nil h T : alloc_inv h h [] T.
Proof. constructor; try done; [constructor|intros x Hx; by apply elem_of_nil in Hx]. Qed.

Lemma alloc_inv_chain h0 h l T : alloc_inv h0 h l T -> chain h (hd_ptr l) l.
Proof. intros [Hl Hs _ _ _ _ _]. by apply chain_iff. Qed.

Lemma fresh_freeable h l : Forall (fresh_pbuf h) l -> owned h l.
Proof.
  intros Hf. rewrite Forall_forall in Hf. split.
  - apply Forall_forall. intros pb [Ho _ _ (bs & Hbs & _) Hr Hfl Hsrc]%Hf.
    split; [|done]. unfold freeable. rewrite Hfl, Hr. split_and!; try done; lia.
  - intros x y [Ho _ _ _ _ _ _]%Hf _ Hne. congruence.
Qed.

Lemma fresh_contents h l : Forall (fresh_pbuf h) l -> exists d, contents h l = Some d /\ bytes_ok d.
Proof.
  induction 1 as [|[p b] l Hpb _ (d & IH & Hd)]; [by exists []|].
  destruct Hpb as [Ho Hoff Hlen (bs & Hbs & Hby & Hle) _ _ _]. simpl in *.
  assert (SIZEOF_STRUCT_PBUF = 24) as H24 by done.
  exists ((if pb_len b =? 0 then [] else zslice (pb_payload b).2 (pb_len b) bs) ++ d).
  rewrite IH. unfold load_bytes. rewrite Ho, Hbs.
  destruct (Z.eqb_spec (pb_len b) 0); [done|].
  replace ((0 <=? (pb_payload b).2) && (0 <=? pb_len b) && ((pb_payload b).2 + pb_len b <=? zlen bs)) with true.
  2:{ symmetry. rewrite !andb_true_iff, !Z.leb_le. lia. }
  split; [done|]. apply Forall_app. split; [|done]. unfold zslice. auto with lwip.
Qed.

Lemma alloc_inv_packet h0 h l : alloc_inv h0 h l 0 ->
  exists d, packet h (hd_ptr l) l d /\ zlen d = total l /\ bytes_ok d.
Proof.
  intros Hi. destruct (fresh_contents h l (ai_fresh _ _ _ _ Hi)) as (d & Hd & Hb).
  pose proof (lens_to_0 _ (ai_lens _ _ _ _ Hi)) as Hl.
  exists d. split; [|split; [by apply (contents_len h)|done]].
  split_and!; [by eapply alloc_inv_chain|done|done].
Qed.

(** Undoing the work so far gives the old heap back. *)
Lemma alloc_inv_undo h0 h l T : alloc_inv h0 h l T ->
  hp_pbufs (foldl del_pbuf h l) = hp_pbufs h0 /\ hp_blocks (foldl del_pbuf h l) = hp_blocks h0.
Proof.
  intros [_ _ _ _ _ Hnew Hfr]. split; apply map_eq; intros x;
    (destruct (decide (x ∈ l.*1)) as [Hx|Hx];
     [destruct (foldl_del_eq l h x Hx) as [H1 H2], (Hnew x Hx) as [H3 H4]
     |destruct (foldl_del_ne l h x Hx) as [H1 H2], (Hfr x Hx) as [H3 H4]]); congruence.
Qed.

(** ** One more pbuf *)

Definition add_block (h : heap) (q : Z) (bs : list Z) : heap :=
  with_blocks (<[q := bs]> (hp_blocks h)) h.

Lemma fresh_pbuf_mono h h' pb : fresh_pbuf h pb -> hp_blocks h' !! pb.1 = hp_blocks h !! pb.1 ->
  fresh_pbuf h' pb.
Proof. intros [? ? ? Hb ? ? ?] He. constructor; auto. by rewrite He. Qed.

Lemma alloc_inv_add h0 h l T q bs b :
  alloc_inv h0 h l (pb_len b + T) -> l = [] ->
  q <> 0 -> hp_pbufs h !! q = None -> hp_blocks h !! q = None ->
  pb_next b = 0 -> pb_tot_len b = pb_len b + T -> 0 <= T -> pb_tot_len b < 65536 ->
  fresh_pbuf (setp (add_block h q bs) (q, b)) (q, b) ->
  alloc_inv h0 (setp (add_block h q bs) (q, b)) [(q, b)] T.
Proof.
  intros Hi -> Hq Hqp Hqb Hn Ht HT Hlt Hf. destruct Hi as [_ _ _ _ _ _ Hfr].
  destruct (Hfr q (not_elem_of_nil q)) as [Hq1 Hq2].
  constructor; simpl; auto.
  - constructor; [|constructor]. apply setp_lookup_eq.
  - apply NoDup_singleton.
  - pose proof (fp_len _ _ Hf). simpl in *. split_and!; auto; lia.
  - intros x ->%list_elem_of_singleton. by rewrite <- Hq1, <- Hq2.
  - intros x Hx. apply not_elem_of_cons in Hx as [Hx _]. rewrite !lookup_insert_ne by done.
    apply Hfr, not_elem_of_nil.
Qed.

Lemma alloc_inv_link h0 h l p c T q bs b :
  alloc_inv h0 h (l ++ [(p, c)]) (pb_len b + T) ->
  q <> 0 -> hp_pbufs h !! q = None -> hp_blocks h !! q = None ->
  pb_next b = 0 -> pb_tot_len b = pb_len b + T -> 0 <= T -> pb_tot_len b < 65536 ->
  fresh_pbuf (setp (add_block h q bs) (q, b)) (q, b) ->
  alloc_inv h0 (setp (setp (add_block h q bs) (q, b)) (p, set_next q c))
    ((l ++ [(p, set_next q c)]) ++ [(q, b)]) T.
Proof.
  intros [Hlk Hst Hnd Hlens Hfp Hnew Hfr] Hq Hqp Hqb Hn Ht HT Hlt Hf.
  assert ((l ++ [(p, set_next q c)]).*1 = (l ++ [(p, c)]).*1) as Hfst by (by rewrite !fmap_app).
  assert (q ∉ (l ++ [(p, c)]).*1) as Hqni.
  { intros (pb & -> & Hin)%list_elem_of_fmap. rewrite Forall_forall in Hst. specialize (Hst _ Hin).
    unfold stored in Hst. congruence. }
  assert ((p ∉ l.*1) /\ p <> q) as [Hpl Hpq].
  { rewrite fmap_app in Hnd, Hqni. simpl in *. apply NoDup_app in Hnd as (_ & Hnd & _). split.
    - intros Hin. apply (Hnd p Hin). by left.
    - intros ->. apply Hqni. apply elem_of_app. right. by left. }
  set (h' := setp (setp (add_block h q bs) (q, b)) (p, set_next q c)).
  assert (forall x, x <> q -> hp_blocks h' !! x = hp_blocks h !! x) as Hblk
    by (intros; simpl; by rewrite lookup_insert_ne).
  apply Forall_app in Hst as [Hst1 Hst2]. apply Forall_app in Hfp as [Hfp1 Hfp2].
  apply Forall_cons in Hfp2 as [Hfp2 _]. rewrite fmap_app in Hqni. apply not_elem_of_app in Hqni as [Hql _].
  constructor.
  - apply linked_app in Hlk as [Hlk1 Hlk2]. rewrite <- (assoc_L (++)). apply linked_app. simpl in *.
    destruct Hlk2 as (? & _ & _). by rewrite Hn.
  - apply Forall_app. split; [apply Forall_app; split|]; [|constructor; [apply setp_lookup_eq|done]|].
    + eapply stored_frame; [done|]. intros x Hx. subst h'.
      rewrite !setp_lookup_ne by (by intros ->). done.
    + constructor; [|done]. unfold stored. subst h'. simpl. rewrite lookup_insert_ne by done. apply lookup_insert_eq.
  - rewrite fmap_app, Hfst. simpl. apply NoDup_app. split_and!; [done| |apply NoDup_singleton].
    intros x Hx ->%list_elem_of_singleton. rewrite fmap_app in Hx. apply elem_of_app in Hx as [|Hx]; [done|].
    by apply list_elem_of_singleton in Hx.
  - apply lens_to_snoc; auto; [|by apply (fp_len _ _ Hf)]. clear - Hlens. induction l as [|[x y] l IH]; simpl in *.
    + done.
    + rewrite total_app in *. simpl in *. tauto.
  - apply Forall_app. split; [apply Forall_app; split|]; [|apply Forall_singleton|apply Forall_singleton].
    + rewrite Forall_forall in Hfp1 |- *. intros pb Hin. apply (fresh_pbuf_mono h); [by apply Hfp1|].
      apply Hblk. intros Heq. apply Hql, list_elem_of_fmap. by exists pb.
    + apply (fresh_pbuf_mono h h' (p, c)) in Hfp2; [|by apply Hblk]. by destruct Hfp2; constructor.
    + by apply (fresh_pbuf_mono _ h') in Hf.
  - intros x Hx. rewrite fmap_app, Hfst in Hx. apply elem_of_app in Hx as [Hx|Hx]; [by apply Hnew|].
    apply list_elem_of_singleton in Hx as ->. simpl. destruct (Hfr q) as [<- <-]; [|done].
    intros Hin. rewrite fmap_app in Hin. apply elem_of_app in Hin as [|Hin]; [done|].
    by apply list_elem_of_singleton in Hin.
  - intros x Hx. rewrite fmap_app, Hfst in Hx.
    apply not_elem_of_app in Hx as [Hx [Hxq _]%not_elem_of_cons].
    destruct (Hfr x Hx) as [<- <-]. split; [|by apply Hblk]. subst h'.
    rewrite !setp_lookup_ne; [done|simpl in Hxq; congruence|]. intros ->. apply Hx.
    rewrite fmap_app. apply elem_of_app. right. by left.
Qed.

(** ** The pool loop *)

Lemma LWIP_MEM_ALIGN_SIZE_id n : 0 <= n < 4294967296 -> LWIP_MEM_ALIGN_SIZE n = n.
Proof.
  intros Hn. unfold LWIP_MEM_ALIGN_SIZE, MEM_ALIGNMENT.
  change (u32_t (Z.lnot (1 - 1))) with (Z.ones 32). rewrite Z.land_ones by lia.
  replace (n + 1 - 1) with n by lia. rewrite u32_t_id by lia. by apply Z.mod_small.
Qed.

Definition pool_pbuf (q off rem qlen : Z) : pbuf :=
  mkPbuf 0 (q, SIZEOF_STRUCT_PBUF + off) rem qlen (u8_t PBUF_POOL) 0 1 NETIF_NO_INDEX.

Section PoolLoop.
Context `{Malloc} (cf : Z -> M heap unit).

Lemma mem_malloc_cases h n :
  (mem_malloc n h = Ok (0, h)) \/
  (exists q bs, mem_malloc n h = Ok (q, add_block h q bs) /\ q <> 0 /\
     hp_pbufs h !! q = None /\ hp_blocks h !! q = None /\ zlen bs = n /\ bytes_ok bs).
Proof.
  unfold mem_malloc. destruct (malloc h n) as [[q bs]|] eqn:E; [right|by left].
  apply malloc_fresh in E as (? & ? & ? & ? & ?). by exists q, bs.
Qed.

Lemma init_pbuf h q bs payload rem len type flags :
  SIZEOF_STRUCT_PBUF <= zlen bs ->
  pbuf_init_alloced_pbuf q payload rem len type flags (add_block h q bs) =
    Ok (tt, setp (add_block h q bs) (q, mkPbuf 0 payload rem len (u8_t type) flags 1 NETIF_NO_INDEX)).
Proof.
  intros Hs. unfold pbuf_init_alloced_pbuf. simpl. rewrite lookup_insert_eq.
  by destruct (Z.leb_spec SIZEOF_STRUCT_PBUF (zlen bs)); [|lia].
Qed.

Definition alloc_result (h0 : heap) (n : Z) (r : Z) (h' : heap) : Prop :=
  (r = 0 /\ hp_pbufs h' = hp_pbufs h0 /\ hp_blocks h' = hp_blocks h0) \/
  (exists l, r = hd_ptr l /\ r <> 0 /\ total l = n /\ alloc_inv h0 h' l 0).

Lemma alloc_fail h0 h l T : alloc_inv h0 h l T ->
  exists h', (pbuf_pool_is_empty ;;;
              (if negb (hd_ptr l =? 0) then let* _ := pbuf_free cf (hd_ptr l) in ret 0 else ret 0)) h
             = Ok (0, h') /\ hp_pbufs h' = hp_pbufs h0 /\ hp_blocks h' = hp_blocks h0.
Proof.
  intros Hi. set (h1 := mkHeap (hp_pbufs h) (hp_blocks h) 1).
  assert (alloc_inv h0 h1 l T) as Hi1 by (destruct Hi as [? ? ? ? Hfp ? ?]; constructor; auto;
    (eapply Forall_impl; [exact Hfp|]); intros pb Hpb; by apply (fresh_pbuf_mono h)).
  unfold bind at 1. unfold pbuf_pool_is_empty. fold h1.
  exists (foldl del_pbuf h1 l). split; [|by eapply alloc_inv_undo].
  destruct (Z.eqb_spec (hd_ptr l) 0) as [He|He]; simpl.
  - pose proof (alloc_inv_chain _ _ _ _ Hi1) as Hc. rewrite He in Hc. by rewrite (chain_null _ _ Hc).
  - erewrite bind_ok; [done|]. apply pbuf_free_owned; [by eapply alloc_inv_chain|done|].
    apply fresh_freeable. by destruct Hi1.
Qed.

Lemma pool_fresh h q bs off rem qlen :
  zlen bs = MEMP_PBUF_POOL_SIZE -> bytes_ok bs -> 0 <= off -> 0 <= qlen -> off + qlen <= PBUF_POOL_BUFSIZE ->
  fresh_pbuf (setp (add_block h q bs) (q, pool_pbuf q off rem qlen)) (q, pool_pbuf q off rem qlen).
Proof.
  intros Hz Hb Ho Hq Hle. unfold MEMP_PBUF_POOL_SIZE in *.
  constructor; simpl; try done; try lia.
  - exists bs. rewrite lookup_insert_eq. split_and!; [done|done|lia].
Qed.

(** The new pbuf becomes the last one of the chain. *)
Lemma alloc_link_run h0 h l last T q bs b :
  alloc_inv h0 h l (pb_len b + T) -> l = [] \/ (exists l' c, l = l' ++ [(last, c)]) ->
  q <> 0 -> hp_pbufs h !! q = None -> hp_blocks h !! q = None ->
  pb_next b = 0 -> pb_tot_len b = pb_len b + T -> 0 <= T -> pb_tot_len b < 65536 ->
  fresh_pbuf (setp (add_block h q bs) (q, b)) (q, b) ->
  exists h3 l3, (if hd_ptr l =? 0 then ret tt else upd_pbuf last (set_next q))
                  (setp (add_block h q bs) (q, b)) = Ok (tt, h3) /\
    (if hd_ptr l =? 0 then q else hd_ptr l) = hd_ptr l3 /\ alloc_inv h0 h3 l3 T /\
    total l3 = total l + pb_len b /\ exists l', l3 = l' ++ [(q, b)].
Proof.
  intros Hi [->|(l' & c & ->)] Hq Hqp Hqb Hn Ht HT Hlt Hf.
  - exists (setp (add_block h q bs) (q, b)), [(q, b)]. simpl. split_and!; try done; [|lia|by exists []].
    by eapply alloc_inv_add.
  - pose proof (alloc_inv_chain _ _ _ _ Hi) as Hc.
    destruct (chain_lookup _ _ _ last c Hc) as [Hl0 Hlc]; [apply elem_of_app; right; by left|].
    assert (hd_ptr (l' ++ [(last, c)]) <> 0) as Hh0.
    { intros He. rewrite He in Hc. apply chain_null in Hc. by destruct l'. }
    assert (hd_ptr ((l' ++ [(last, set_next q c)]) ++ [(q, b)]) = hd_ptr (l' ++ [(last, c)])) as Hhd
      by (by destruct l' as [|[]]).
    exists (setp (setp (add_block h q bs) (q, b)) (last, set_next q c)), ((l' ++ [(last, set_next q c)]) ++ [(q, b)]).
    destruct (Z.eqb_spec (hd_ptr (l' ++ [(last, c)])) 0); [done|]. split_and!.
    + apply upd_pbuf_ok. rewrite setp_lookup_ne; [done|]. intros ->. congruence.
    + done.
    + by apply alloc_inv_link.
    + rewrite !total_app. simpl. lia.
    + eauto.
Qed.

Lemma pbuf_alloc_pool_loop_spec fuel h0 h l last rem off :
  alloc_inv h0 h l rem -> 0 <= rem -> total l + rem < 65536 -> 0 <= total l ->
  (l = [] /\ 0 <= off < PBUF_POOL_BUFSIZE) \/
  (0 < rem /\ off = 0 /\ exists l' c, l = l' ++ [(last, c)]) ->
  (Z.to_nat rem < fuel)%nat ->
  exists r h', pbuf_alloc_pool_loop cf fuel (hd_ptr l) last rem off PBUF_POOL h = Ok (r, h') /\
    alloc_result h0 (total l + rem) r h'.
Proof.
  revert h l last rem off. induction fuel as [|fuel IH]; intros h l last rem off Hi Hr Hlt Ht0 Hcase Hf; [lia|].
  assert (0 <= off < PBUF_POOL_BUFSIZE) as Hoff by (destruct Hcase as [[_ ?]|(_ & -> & _)]; done).
  assert (PBUF_POOL_BUFSIZE = 1514 /\ PBUF_POOL_BUFSIZE_ALIGNED = 1514) as [E1 E2] by done.
  cbn [pbuf_alloc_pool_loop]. unfold memp_malloc.
  destruct (mem_malloc_cases h MEMP_PBUF_POOL_SIZE) as [Hm|(q & bs & Hm & Hq0 & Hqp & Hqb & Hz & Hby)].
  { m_step Hm. simpl. destruct (alloc_fail h0 h l rem Hi) as (h' & -> & Hp & Hb).
    exists 0, h'. split; [done|]. by left. }
  m_step Hm. destruct (Z.eqb_spec q 0); [done|].
  rewrite LWIP_MEM_ALIGN_SIZE_id, E2, u16_t_id by lia.
  set (qlen := Z.min rem (1514 - off)). set (b := pool_pbuf q off rem qlen).
  erewrite bind_ok; [|apply init_pbuf; rewrite Hz; done].
  fold (pool_pbuf q off rem qlen). fold b.
  m_assert ltac:(apply Z.ltb_lt; rewrite u32_t_id; lia).
  rewrite (u16_t_id (rem - qlen)) by lia.
  assert (fresh_pbuf (setp (add_block h q bs) (q, b)) (q, b)) as Hfb by (apply pool_fresh; auto; lia).
  replace rem with (pb_len b + (rem - qlen)) in Hi by (simpl; lia).
  destruct (alloc_link_run h0 h l last (rem - qlen) q bs b Hi) as (h3 & l3 & Hrun & Hhd & Hi3 & Ht3 & l3' & Hl3);
    auto; try (simpl; lia).
  { destruct Hcase as [[? _]|(_ & _ & ?)]; auto. }
  m_step Hrun. rewrite Hhd. assert (total l3 = total l + qlen) as Ht3' by done.
  destruct (Z.ltb_spec 0 (rem - qlen)) as [Hmore|Hdone].
  - destruct (IH h3 l3 q (rem - qlen) 0) as (r & h' & Hr' & Hres); [done|lia..| |lia|].
    + right. split_and!; [lia|done|]. by exists l3', b.
    + exists r, h'. split; [done|]. by replace (total l + rem) with (total l3 + (rem - qlen)) by lia.
  - exists (hd_ptr l3), h3. split; [done|]. right. exists l3. split_and!; [done| |lia|].
    + rewrite <- Hhd. by destruct (Z.eqb_spec (hd_ptr l) 0).
    + by replace 0 with (rem - qlen) by lia.
Qed.

(** [pbuf_alloc(layer, length, PBUF_POOL)] and [PBUF_RAM]. *)
Lemma pbuf_alloc_pool_spec h layer n :
  0 <= layer < PBUF_POOL_BUFSIZE -> 0 <= n < 65536 ->
  exists r h', pbuf_alloc cf layer n PBUF_POOL h = Ok (r, h') /\ alloc_result h n r h'.
Proof.
  intros Hl Hn. unfold pbuf_alloc. simpl. rewrite u16_t_id by (unfold PBUF_POOL_BUFSIZE in *; lia).
  destruct (pbuf_alloc_pool_loop_spec (S (Z.to_nat n)) h h [] 0 n layer) as (r & h' & Hr & Hres);
    [apply alloc_inv_nil|lia|simpl; lia|simpl; lia|by left|lia|].
  by exists r, h'.
Qed.

Lemma pbuf_alloc_ram_spec h layer n :
  0 <= layer -> 0 <= n -> layer + n < 65536 ->
  exists r h', pbuf_alloc cf layer n PBUF_RAM h = Ok (r, h') /\ alloc_result h n r h' /\
    (r <> 0 -> exists b, hp_pbufs h' !! r = Some b /\ pb_next b = 0 /\
       pb_payload b = (r, SIZEOF_STRUCT_PBUF + layer)).
Proof.
  intros Hl Hn Hs. unfold pbuf_alloc. simpl. rewrite (u16_t_id layer) by lia.
  assert (SIZEOF_STRUCT_PBUF = 24) as H24 by done.
  rewrite !LWIP_MEM_ALIGN_SIZE_id, (u16_t_id (layer + n)), u64_t_id by lia.
  destruct (Z.ltb_spec (layer + n) n); [lia|].
  destruct (Z.ltb_spec (SIZEOF_STRUCT_PBUF + (layer + n)) n); [lia|]. simpl.
  destruct (mem_malloc_cases h (SIZEOF_STRUCT_PBUF + (layer + n))) as [Hm|(q & bs & Hm & Hq0 & Hqp & Hqb & Hz & Hby)].
  { m_step Hm. exists 0, h. split_and!; [done|by left|done]. }
  m_step Hm. destruct (Z.eqb_spec q 0); [done|].
  erewrite bind_ok; [|apply init_pbuf; lia].
  set (b := mkPbuf 0 _ n n _ 0 1 NETIF_NO_INDEX).
  eexists q, _. split; [done|]. split.
  - right. exists [(q, b)]. split_and!; [done|done|simpl; lia|].
    eapply alloc_inv_add; [apply alloc_inv_nil|done..|simpl; lia|lia|simpl; lia|].
    constructor; simpl; try done; try lia.
    exists bs. rewrite lookup_insert_eq. split_and!; [done|done|lia].
  - intros _. exists b. split_and!; [apply setp_lookup_eq|done|done].
Qed.
End PoolLoop.

(** ** [pbuf_clone] and [pbuf_coalesce] *)

Lemma payload_live h p l d : packet h p l d -> solid l -> forall B, B ∈ payload_blocks l ->
  is_Some (hp_blocks h !! B).
Proof.
  revert p d. induction l as [|[q b] l IH]; intros p d Hpk Hs B HB; [by apply elem_of_nil in HB|].
  pose proof Hpk as (Hc & _). inversion Hc; subst.
  destruct (packet_tail _ _ _ _ _ Hpk) as (d1 & d2 & Hd1 & _ & Hpk2 & _).
  apply Forall_cons in Hs as [Hb Hs]. apply elem_of_cons in HB as [->|HB]; [|by eapply IH].
  simpl. destruct (load_block _ _ _ _ Hd1 Hb) as (bs & -> & _). done.
Qed.

Lemma packet_new h0 h l p d T lp : alloc_inv h0 h l T -> packet h0 p lp d -> solid lp ->
  packet h p lp d /\ (forall B, B ∈ payload_blocks lp -> B ∉ l.*1).
Proof.
  intros [_ _ _ _ _ Hnew Hfr] Hpk Hs. pose proof (payload_live _ _ _ _ Hpk Hs) as Hlive.
  assert (forall B, B ∈ payload_blocks lp -> B ∉ l.*1) as Hni.
  { intros B HB Hin. destruct (Hlive B HB) as [? ?], (Hnew B Hin). congruence. }
  split; [|done]. destruct Hpk as (Hc & Hl & Hd). split_and!; auto.
  - eapply chain_frame; [done|]. intros q Hq. apply Hfr. intros Hin. destruct (Hnew q Hin) as [Hn _].
    apply list_elem_of_fmap in Hq as ((q' & b) & -> & Hq). destruct (chain_lookup _ _ _ _ _ Hc Hq). simpl in *. congruence.
  - rewrite (contents_frame h0); [done|]. intros q b Hin. apply Hfr, Hni.
    apply list_elem_of_fmap. by exists (q, b).
Qed.

Section Clone.
Context `{Malloc} (cf : Z -> M heap unit).

Lemma pbuf_clone_spec h layer p l d :
  packet h p l d -> p <> 0 -> solid l -> 0 <= layer -> layer + zlen d < 65536 ->
  exists r h', pbuf_clone cf layer PBUF_RAM p h = Ok (r, h') /\
    ((r = 0 /\ hp_pbufs h' = hp_pbufs h /\ hp_blocks h' = hp_blocks h) \/
     (exists b, r <> 0 /\ hp_pbufs h !! r = None /\ hp_blocks h !! r = None /\
        (pb_payload b).1 = r /\ packet h' r [(r, b)] d /\ packet h' p l d /\ owned h' [(r, b)] /\
        (forall x, x <> r -> hp_pbufs h' !! x = hp_pbufs h !! x /\ hp_blocks h' !! x = hp_blocks h !! x))).
Proof.
  intros Hpk Hp Hs Hl Hle. pose proof (packet_len _ _ _ _ Hpk) as Hz.
  destruct (pbuf_alloc_ram_spec cf h layer (zlen d)) as (r & h1 & Ha & Hres & Hshape); [lia|apply zlen_nonneg|lia|].
  unfold pbuf_clone. pose proof Hpk as (Hc & Hlens & _).
  inversion Hc as [|? b0 l0 _ Hb0 _]; subst; [done|]. m_step (get_pbuf_ok _ _ _ Hb0).
  assert (pb_tot_len b0 = zlen d) as -> by (destruct Hlens as (_ & ? & _); simpl in Hz; lia).
  m_step Ha. destruct Hres as [(-> & Hpb & Hbl)|(lr & Hr & Hr0 & Ht & Hi)].
  { exists 0, h1. split; [done|]. by left. }
  destruct (Z.eqb_spec r 0); [done|]. destruct (Hshape Hr0) as (b & Hb & Hbn & Hbp).
  pose proof (alloc_inv_chain _ _ _ _ Hi) as Hcr. rewrite <- Hr in Hcr.
  assert (lr = [(r, b)]) as ->.
  { apply (chain_det h1 r); [done|]. constructor; [done|done|]. rewrite Hbn. constructor. }
  destruct (packet_new _ _ _ _ _ _ _ Hi Hpk Hs) as [Hpk1 Hni].
  destruct (alloc_inv_packet _ _ _ Hi) as (dr & Hpr & Hzr & _). simpl in Hpr, Ht, Hzr, Hni.
  pose proof (solid_total _ Hs ltac:(done)) as Hpos.
  assert (forall B, B ∈ payload_blocks [(r, b)] -> B = r) as HBr.
  { intros B ->%list_elem_of_singleton. simpl. by rewrite Hbp. }
  destruct (pbuf_copy_spec h1 r [(r, b)] dr p ((p, b0) :: l0) d) as (h2 & Hcp & Hpb2 & Hr2 & Hp2 & Hfr2); auto.
  { constructor; [simpl; lia|constructor]. }
  { apply NoDup_singleton. }
  { intros B ->%HBr. apply avoids_iff. intros Hin. apply (Hni r Hin). by left. }
  { lia. }
  m_step Hcp. exists r, h2. split; [done|]. right. exists b.
  destruct Hi as [_ _ _ _ Hf Hnew Hfr]. destruct (Hnew r) as [Hn1 Hn2]; [by left|].
  split_and!; auto; [by rewrite Hbp|..].
  - rewrite zdrop_all, app_nil_r in Hr2; [done|lia].
  - pose proof (fresh_freeable _ _ Hf) as [Hfree Hsep]. split; [|done].
    apply Forall_cons in Hfree as [[(? & ? & ? & _) ?] _]. constructor; [|constructor].
    split; [|done]. split_and!; try tauto. simpl. destruct Hr2 as (_ & _ & Hd2).
    apply contents_cons_inv in Hd2 as (x & _ & Hx & _). simpl in *.
    destruct (load_block _ _ _ _ Hx ltac:(lia)) as (bs & Hbs & _). rewrite Hbp in Hbs. by exists bs.
  - intros x Hx. rewrite Hpb2, Hfr2 by (intros ->%HBr; done). apply Hfr.
    by intros ->%list_elem_of_singleton.
Qed.

(** [pbuf_coalesce]: one pbuf with the bytes of the whole chain, the chain freed;
    or, without memory, the chain as it was. *)
Lemma pbuf_coalesce_spec h layer p l d :
  packet h p l d -> p <> 0 -> solid l -> owned h l ->
  0 <= layer -> layer + zlen d < 65536 ->
  exists r h' l', pbuf_coalesce cf p layer h = Ok (r, h') /\ packet h' r l' d /\
    (l' = l \/ (exists b, l' = [(r, b)] /\
       forall x, x ∈ l.*1 -> hp_pbufs h' !! x = None /\ hp_blocks h' !! x = None)).
Proof.
  intros Hpk Hp Hs Ho Hl Hle. unfold pbuf_coalesce. pose proof Hpk as (Hc & Hlens & _).
  inversion Hc as [|? b0 l0 _ Hb0 _]; subst; [done|]. m_step (get_pbuf_ok _ _ _ Hb0).
  set (l := (p, b0) :: l0) in *.
  destruct (Z.eqb_spec (pb_next b0) 0); [exists p, h, l; split_and!; auto|].
  destruct (pbuf_clone_spec h layer p l d) as (r & h1 & Hcl & Hres); auto.
  m_step Hcl. destruct Hres as [(-> & Hpb & Hbl)|(b & Hr & Hrn & Hrb & Hpay & Hpr & Hpk1 & _ & Hfr)].
  { exists p, h1, l. split_and!; [done| |by left]. split_and!.
    - eapply chain_frame; [done|]. by rewrite Hpb.
    - done.
    - destruct Hpk as (_ & _ & Hd). rewrite <- Hd. apply contents_frame. by rewrite Hbl. }
  destruct (Z.eqb_spec r 0); [done|].
  assert (r ∉ l.*1) as Hrl.
  { intros (pb & -> & Hin)%list_elem_of_fmap. destruct pb as [q c].
    destruct (chain_lookup _ _ _ _ _ Hc Hin). simpl in *. congruence. }
  assert (owned h1 l) as Ho1.
  { destruct Ho as [Hf Hsep]. split; [|done]. rewrite Forall_forall in Hf |- *. intros pb Hin.
    destruct (Hf pb Hin) as [(? & ? & ? & Hblk) ?]. split; [|done]. split_and!; try tauto.
    destruct (Hfr pb.1) as [_ ->]; [|done]. intros Heq. apply Hrl, list_elem_of_fmap. by exists pb. }
  erewrite bind_ok; [|apply pbuf_free_owned; [exact (proj1 Hpk1)|done|done]].
  exists r, (foldl del_pbuf h1 l), [(r, b)]. destruct Hpr as (Hcr & Hlr & Hdr).
  split; [done|]. split; [split_and!; [|done|]|].
  - eapply chain_frame; [done|]. intros x ->%list_elem_of_singleton. by apply foldl_del_ne.
  - rewrite <- Hdr. apply contents_frame. intros x c [= -> ->]%list_elem_of_singleton.
    rewrite Hpay. by apply foldl_del_ne.
  - right. exists b. split; [done|]. intros x Hx. by apply foldl_del_eq.
Qed.
End Clone.
