(* ===== verification/OnesComplement.v ===== *)
(** * One's-complement sums

    The Internet checksum (RFC 1071) is a sum of 16-bit words modulo 65535 in which a
    non-zero sum is never represented by zero.  [word_sum] is the exact sum of the
    little-endian words of a buffer, [canon] its 16-bit representative; folding
    carries and exchanging bytes are related to them up to the congruence [eqm]. *)

From Stdlib Require Import Setoid Morphisms.
From S2P Require Import Prelude Def.

(** ** Congruence modulo 65535 *)

Definition eqm (x y : Z) : Prop := exists k, x = y + 65535 * k.
Infix "==" := eqm (at level 70) : lwip_scope.

Lemma eqm_diff k x y : x = y + 65535 * k -> x == y.
Proof. by exists k. Qed.

#[export] Instance eqm_equiv : Equivalence eqm.
Proof.
  split.
  - intros x. exists 0. lia.
  - intros x y [k ->]. exists (- k). lia.
  - intros x y z [k ->] [m ->]. exists (k + m). lia.
Qed.
#[export] Instance eqm_add : Proper (eqm ==> eqm ==> eqm) Z.add.
Proof. intros a b [k ->] c d [m ->]. exists (k + m). lia. Qed.
#[export] Instance eqm_mul : Proper (eqm ==> eqm ==> eqm) Z.mul.
Proof. intros a b [k ->] c d [m ->]. exists (k * d + b * m + 65535 * k * m). lia. Qed.

(** ** The representative of a sum *)

Definition canon (x : Z) : Z := if x =? 0 then 0 else (x - 1) mod 65535 + 1.

Lemma canon_range x : 0 <= canon x <= 65535.
Proof. unfold canon. destruct (x =? 0); dlia. Qed.
Lemma canon_eqm x : canon x == x.
Proof.
  unfold canon. destruct (Z.eqb_spec x 0) as [->|]; [done|].
  apply (eqm_diff (- ((x - 1) / 65535))). dlia.
Qed.
Lemma canon_zero x : canon x = 0 <-> x = 0.
Proof. unfold canon. destruct (Z.eqb_spec x 0); split; try done; dlia. Qed.

(** [canon] is the only 16-bit value congruent to the sum that is zero just when
    the sum is. *)
Lemma canon_unique x y : 0 <= y <= 65535 -> y == x -> (y = 0 <-> x = 0) -> y = canon x.
Proof.
  intros Hy He Hz. pose proof (canon_range x). pose proof (canon_eqm x) as Hc.
  pose proof (canon_zero x) as Hcz. symmetry in He. destruct (transitivity Hc He) as [k Hk].
  assert (y = 0 <-> canon x = 0) as Hiff by tauto.
  assert (k = -1 \/ k = 0 \/ k = 1) by lia. lia.
Qed.

Lemma canon_id x : 0 <= x <= 65535 -> canon x = x.
Proof. intros. symmetry. by apply canon_unique. Qed.

Lemma canon_add x y : 0 <= x -> 0 <= y -> canon (canon x + y) = canon (x + y).
Proof.
  intros Hx Hy. apply canon_unique; [apply canon_range|by rewrite canon_eqm, canon_eqm|].
  rewrite canon_zero. pose proof (canon_range x). pose proof (canon_zero x). lia.
Qed.

(** ** [FOLD_U32T] and [SWAP_BYTES_IN_WORD] ([inet_chksum.h]) *)

Definition FOLD_U32T (u : Z) : Z := u32_t (Z.shiftr u 16 + Z.land u 65535).
Definition SWAP_BYTES_IN_WORD (w : Z) : Z :=
  Z.lor (Z.shiftl (Z.land w 255) 8) (Z.shiftr (Z.land w 65280) 8).

Lemma FOLD_arith u : 0 <= u < 4294967296 -> FOLD_U32T u = u / 65536 + u mod 65536.
Proof. intros Hu. unfold FOLD_U32T. rewrite shiftr16, land_ffff. apply u32_t_id. dlia. Qed.

Lemma FOLD_eqm u : 0 <= u < 4294967296 ->
  FOLD_U32T u == u /\ (FOLD_U32T u = 0 <-> u = 0) /\ 0 <= FOLD_U32T u < 131071.
Proof.
  intros Hu. rewrite FOLD_arith by done. split; [apply (eqm_diff (- (u / 65536))); dlia|].
  split; [split|]; dlia.
Qed.

Lemma FOLD_once u : 0 <= u <= 131070 -> FOLD_U32T u = canon u.
Proof.
  intros Hu. destruct (FOLD_eqm u) as (He & Hz & _); [lia|]. apply canon_unique; auto.
  rewrite FOLD_arith by lia. dlia.
Qed.

Lemma FOLD_twice u : 0 <= u < 4294967296 -> FOLD_U32T (FOLD_U32T u) = canon u.
Proof.
  intros Hu. destruct (FOLD_eqm u Hu) as (He & Hz & Hr). rewrite FOLD_once by lia.
  apply canon_unique; [apply canon_range|by rewrite canon_eqm, He|].
  by rewrite canon_zero.
Qed.

Lemma SWAP_arith w : SWAP_BYTES_IN_WORD w = (w mod 256) * 256 + (w / 256) mod 256.
Proof.
  unfold SWAP_BYTES_IN_WORD. rewrite land_ff, land_ff00, shiftl8, shiftr8.
  rewrite Z.div_mul by lia. by rewrite lor_add8 by dlia.
Qed.

(** Exchanging the bytes multiplies the sum by 256. *)
Lemma SWAP_canon x : SWAP_BYTES_IN_WORD (canon x) = canon (256 * x).
Proof.
  pose proof (canon_range x). set (y := canon x) in *.
  apply canon_unique; rewrite SWAP_arith; [dlia| |].
  - rewrite <- (canon_eqm x). fold y. apply (eqm_diff (- (y / 256))). dlia.
  - transitivity (y = 0); [split; dlia|]. subst y. rewrite canon_zero. lia.
Qed.

(** ** The sum of a buffer *)

(** Little-endian words; an odd last byte is padded with a zero byte. *)
Fixpoint word_sum (d : list Z) : Z :=
  match d with
  | b0 :: b1 :: r => of_le16 b0 b1 + word_sum r
  | [b] => b
  | [] => 0
  end.

Lemma pair_ind (P : list Z -> Prop) :
  P [] -> (forall b, P [b]) -> (forall b0 b1 r, P r -> P (b0 :: b1 :: r)) -> forall d, P d.
Proof.
  intros H0 H1 H2. assert (forall d, P d /\ forall b, P (b :: d)) as H; [|intros d; apply H].
  induction d as [|x d [IH1 IH2]]; auto.
Qed.

Lemma word_sum_nonneg d : bytes_ok d -> 0 <= word_sum d.
Proof.
  induction d as [|b|b0 b1 r IH] using pair_ind; intros Hd; simpl; [lia| |].
  - apply Forall_cons in Hd as [Hb _]. unfold byte_ok in Hb. lia.
  - apply Forall_cons in Hd as [H0 [H1 Hr]%Forall_cons]. specialize (IH Hr).
    unfold byte_ok, of_le16 in *. lia.
Qed.

Lemma word_sum_bound d : bytes_ok d -> word_sum d <= 65535 * ((zlen d + 1) / 2).
Proof.
  induction d as [|b|b0 b1 r IH] using pair_ind; intros Hd; simpl; [done| |].
  - apply Forall_cons in Hd as [Hb _]. unfold byte_ok in Hb. change (zlen [b]) with 1. simpl. dlia.
  - apply Forall_cons in Hd as [H0 [H1 Hr]%Forall_cons]. specialize (IH Hr).
    rewrite !zlen_cons. replace (1 + (1 + zlen r) + 1) with (zlen r + 1 + 1 * 2) by lia.
    rewrite Z.div_add by lia. unfold byte_ok, of_le16 in *. lia.
Qed.

(** Moving a buffer by one byte multiplies its sum by 256. *)
Lemma word_sum_cons b r : word_sum (b :: r) == b + 256 * word_sum r.
Proof.
  revert b. induction r as [|c|c0 c1 r IH] using pair_ind; intros b.
  - simpl. apply (eqm_diff 0). lia.
  - simpl. unfold of_le16. apply (eqm_diff 0). lia.
  - cbn [word_sum]. fold (word_sum (c1 :: r)).
    change (match r with [] => c1 | b2 :: r0 => of_le16 c1 b2 + word_sum r0 end) with (word_sum (c1 :: r)).
    rewrite IH. unfold of_le16. apply (eqm_diff (- c1)). lia.
Qed.

Definition parity (n : Z) : Z := if Z.odd n then 256 else 1.

Lemma word_sum_app a b : word_sum (a ++ b) == word_sum a + parity (zlen a) * word_sum b.
Proof.
  unfold parity. induction a as [|x|x y a IH] using pair_ind.
  - simpl. apply (eqm_diff 0). lia.
  - simpl app. rewrite word_sum_cons. change (Z.odd (zlen [x])) with true. reflexivity.
  - cbn [app word_sum]. rewrite IH, !zlen_cons.
    replace (Z.odd (1 + (1 + zlen a))) with (Z.odd (zlen a))
      by (rewrite !Z.odd_add; by destruct (Z.odd (zlen a))).
    apply (eqm_diff 0). lia.
Qed.

(** After an even number of bytes the words are the same. *)
Lemma word_sum_app_even a b : Z.even (zlen a) = true -> word_sum (a ++ b) = word_sum a + word_sum b.
Proof.
  induction a as [|x|x y a IH] using pair_ind; intros He; [done|done|].
  cbn [app word_sum]. rewrite IH; [lia|].
  rewrite !zlen_cons in He. by rewrite !Z.even_add in He; destruct (Z.even (zlen a)).
Qed.

Lemma word_sum_zero d : bytes_ok d -> word_sum d = 0 <-> Forall (fun b => b = 0) d.
Proof.
  induction d as [|b|b0 b1 r IH] using pair_ind; intros Hd.
  - simpl. split; [constructor|done].
  - rewrite Forall_singleton. done.
  - apply Forall_cons in Hd as [H0 [H1 Hr]%Forall_cons]. pose proof (word_sum_nonneg _ Hr).
    rewrite !Forall_cons, <- (IH Hr). cbn [word_sum]. unfold byte_ok, of_le16 in *. lia.
Qed.

Lemma word_sum_zero_app a b : bytes_ok a -> bytes_ok b ->
  word_sum (a ++ b) = 0 <-> word_sum a = 0 /\ word_sum b = 0.
Proof. intros Ha Hb. rewrite !word_sum_zero, Forall_app by (done || by apply Forall_app). done. Qed.

(** The sum of a concatenation, from the representatives of the parts. *)
Lemma canon_app a b : bytes_ok a -> bytes_ok b ->
  canon (word_sum a + parity (zlen a) * word_sum b) = canon (word_sum (a ++ b)).
Proof.
  intros Ha Hb. pose proof (word_sum_nonneg _ Ha). pose proof (word_sum_nonneg _ Hb).
  apply canon_unique; [apply canon_range|by rewrite canon_eqm, word_sum_app|].
  rewrite canon_zero, word_sum_zero_app by done. unfold parity. destruct (Z.odd (zlen a)); lia.
Qed.

Lemma canon_congr x y : x == y -> (x = 0 <-> y = 0) -> canon x = canon y.
Proof.
  intros He Hz. apply canon_unique; [apply canon_range|by rewrite canon_eqm|by rewrite canon_zero].
Qed.

(** A checksum field that is sent: zero means "no checksum", so ones are sent instead. *)
Definition nonzero_sum (c : Z) : Z := if c =? 0 then 65535 else c.

Lemma nonzero_sum_congr a b : 0 <= a <= 65535 -> 0 <= b <= 65535 -> a == b -> nonzero_sum a = nonzero_sum b.
Proof.
  intros Ha Hb (k & ->). unfold nonzero_sum. assert (k = 0 \/ k = 1 \/ k = -1) as [->|[->| ->]] by lia.
  - by rewrite Z.mul_0_r, Z.add_0_r.
  - assert (b = 0) as -> by lia. done.
  - assert (b = 65535) as -> by lia. done.
Qed.

(** The complements of two sums, added up. *)
Lemma nonzero_sum_add x y :
  nonzero_sum (canon (65535 - canon x + (65535 - canon y))) = nonzero_sum (65535 - canon (x + y)).
Proof.
  pose proof (canon_range (x + y)). apply nonzero_sum_congr; [apply canon_range|lia|].
  destruct (canon_eqm x) as (k1 & E1), (canon_eqm y) as (k2 & E2), (canon_eqm (x + y)) as (k3 & E3),
    (canon_eqm (65535 - canon x + (65535 - canon y))) as (k4 & E4).
  exists (k4 - k1 - k2 + k3 + 1). lia.
Qed.
