(* ===== verification/InetChksum.v ===== *)
(** * Internet checksum ([core/inet_chksum.c])

    [lwip_standard_chksum] (algorithm 2) sums 16-bit words at even addresses and
    corrects for an odd start by exchanging bytes; the pbuf versions carry the parity
    of the bytes seen so far in [swapped].  All are shown to compute the
    one's-complement sum of the flat bytes, whatever the alignment of the buffers
    and however the packet is split over pbufs. *)

From S2P Require Import Prelude Def IpAddr OnesComplement Pbuf PbufFacts PbufMut PbufData.

(** ** [lwip_standard_chksum] *)

(** [while (len > 1) { sum += *ps++; len -= 2; }]: the sum and what is left. *)
Fixpoint chksum_words (sum : Z) (ps : list Z) : Z * list Z :=
  match ps with
  | b0 :: b1 :: r => chksum_words (u32_t (sum + of_le16 b0 b1)) r
  | _ => (sum, ps)
  end.

(** [addr] is the address of the buffer, [data] its [len] bytes. *)
Definition lwip_standard_chksum (addr : Z) (data : list Z) : Z :=
  let odd := negb (Z.land addr 1 =? 0) in
  let (t, pb) := match data with
                 | b :: r => if odd then (256 * b, r) else (0, data)
                 | [] => (0, data)
                 end in
  let (sum, ps) := chksum_words 0 pb in
  let t := match ps with b :: _ => t - t mod 256 + b | [] => t end in
  let sum := u32_t (sum + t) in
  let sum := FOLD_U32T sum in
  let sum := FOLD_U32T sum in
  let sum := if odd then SWAP_BYTES_IN_WORD sum else sum in
  u16_t sum.

Abbreviation LWIP_CHKSUM := lwip_standard_chksum.

Definition inet_chksum (addr : Z) (data : list Z) : Z :=
  u16_t (Z.lnot (LWIP_CHKSUM addr data)).

Section PbufChksum.
(** Address of a block: only its parity is used. *)
Context (base : Z -> Z).
Definition address (ptr : Z * Z) : Z := base ptr.1 + ptr.2.

Fixpoint chksum_loop (fuel : nat) (q acc : Z) (swapped : bool) : M heap (Z * bool) :=
  match fuel with
  | O => fail OutOfFuel
  | S fuel =>
      if q =? 0 then ret (acc, swapped) else
      let* b := get_pbuf q in
      let* l := mem_read (pb_payload b) (pb_len b) in
      let acc := u32_t (acc + LWIP_CHKSUM (address (pb_payload b)) l) in
      let acc := FOLD_U32T acc in
      if negb (pb_len b mod 2 =? 0)
      then chksum_loop fuel (pb_next b) (SWAP_BYTES_IN_WORD acc) (negb swapped)
      else chksum_loop fuel (pb_next b) acc swapped
  end.

Definition inet_chksum_pbuf (p : Z) : M heap Z :=
  let* (acc, swapped) := (fun h => chksum_loop (S (chain_fuel h)) p 0 false h) in
  let acc := if swapped then SWAP_BYTES_IN_WORD acc else acc in
  ret (u16_t (Z.lnot (Z.land acc 65535))).

Definition inet_cksum_pseudo_base (p proto proto_len acc : Z) : M heap Z :=
  let* (acc, swapped) := (fun h => chksum_loop (S (chain_fuel h)) p acc false h) in
  let acc := if swapped then SWAP_BYTES_IN_WORD acc else acc in
  let acc := u32_t (acc + lwip_htons (u16_t proto)) in
  let acc := u32_t (acc + lwip_htons proto_len) in
  let acc := FOLD_U32T acc in
  let acc := FOLD_U32T acc in
  ret (u16_t (Z.lnot (Z.land acc 65535))).

Definition pseudo_acc4 (src dest : ip4_addr) : Z :=
  let acc := Z.land src 65535 in
  let acc := u32_t (acc + Z.land (Z.shiftr src 16) 65535) in
  let acc := u32_t (acc + Z.land dest 65535) in
  let acc := u32_t (acc + Z.land (Z.shiftr dest 16) 65535) in
  FOLD_U32T (FOLD_U32T acc).

Definition inet_chksum_pseudo (p proto proto_len : Z) (src dest : ip4_addr) : M heap Z :=
  inet_cksum_pseudo_base p proto proto_len (pseudo_acc4 src dest).

Definition pseudo_acc6 (src dest : ip6_addr) : Z :=
  let add_word acc addr :=
    u32_t (u32_t (acc + Z.land addr 65535) + Z.land (Z.shiftr addr 16) 65535) in
  let acc := foldl (fun acc w => add_word (add_word acc w.1) w.2) 0
               (zip (ip6_words src) (ip6_words dest)) in
  FOLD_U32T (FOLD_U32T acc).

Definition ip6_chksum_pseudo (p proto proto_len : Z) (src dest : ip6_addr) : M heap Z :=
  inet_cksum_pseudo_base p proto proto_len (pseudo_acc6 src dest).

Definition ip_chksum_pseudo (p proto proto_len : Z) (src dest : ip_addr) : M heap Z :=
  if IP_IS_V6_VAL dest
  then ip6_chksum_pseudo p proto proto_len (ip_2_ip6 src) (ip_2_ip6 dest)
  else inet_chksum_pseudo p proto proto_len (ip_2_ip4 src) (ip_2_ip4 dest).

(** ** Partial coverage (UDP-Lite) *)

Fixpoint chksum_partial_loop (fuel : nat) (q chksum_len acc : Z) (swapped : bool) : M heap (Z * bool) :=
  match fuel with
  | O => fail OutOfFuel
  | S fuel =>
      if negb (q =? 0) && (0 <? chksum_len) then
        let* b := get_pbuf q in
        let chklen := if chksum_len <? pb_len b then chksum_len else pb_len b in
        let* l := mem_read (pb_payload b) chklen in
        let acc := u32_t (acc + LWIP_CHKSUM (address (pb_payload b)) l) in
        let chksum_len := u16_t (chksum_len - chklen) in
        lwip_assert "delete me" (chksum_len <? 32767) ;;;
        let acc := FOLD_U32T acc in
        if negb (pb_len b mod 2 =? 0)
        then chksum_partial_loop fuel (pb_next b) chksum_len (SWAP_BYTES_IN_WORD acc) (negb swapped)
        else chksum_partial_loop fuel (pb_next b) chksum_len acc swapped
      else ret (acc, swapped)
  end.

Definition inet_cksum_pseudo_partial_base (p proto proto_len chksum_len acc : Z) : M heap Z :=
  let* (acc, swapped) := (fun h => chksum_partial_loop (S (chain_fuel h)) p chksum_len acc false h) in
  let acc := if swapped then SWAP_BYTES_IN_WORD acc else acc in
  let acc := u32_t (acc + lwip_htons (u16_t proto)) in
  let acc := u32_t (acc + lwip_htons proto_len) in
  let acc := FOLD_U32T acc in
  let acc := FOLD_U32T acc in
  ret (u16_t (Z.lnot (Z.land acc 65535))).

Definition inet_chksum_pseudo_partial (p proto proto_len chksum_len : Z) (src dest : ip4_addr) : M heap Z :=
  inet_cksum_pseudo_partial_base p proto proto_len chksum_len (pseudo_acc4 src dest).
Definition ip6_chksum_pseudo_partial (p proto proto_len chksum_len : Z) (src dest : ip6_addr) : M heap Z :=
  inet_cksum_pseudo_partial_base p proto proto_len chksum_len (pseudo_acc6 src dest).
Definition ip_chksum_pseudo_partial (p proto proto_len chksum_len : Z) (src dest : ip_addr) : M heap Z :=
  if IP_IS_V6_VAL dest
  then ip6_chksum_pseudo_partial p proto proto_len chksum_len (ip_2_ip6 src) (ip_2_ip6 dest)
  else inet_chksum_pseudo_partial p proto proto_len chksum_len (ip_2_ip4 src) (ip_2_ip4 dest).

(** ** Checksum while copying *)

Definition lwip_chksum_copy (dst : Z * Z) (src : list Z) (len : Z) : M heap Z :=
  let* l := buf_read src 0 len in
  mem_write dst l ;;;
  let* l := mem_read dst len in
  ret (LWIP_CHKSUM (address dst) l).

(** Returns the error and the updated [*chksum]. *)
Definition pbuf_fill_chksum (p start_offset : Z) (dataptr : list Z) (len chksum : Z) : M heap (Z * Z) :=
  lwip_assert "p != NULL" (negb (p =? 0)) ;;;
  lwip_assert "len != 0" (negb (len =? 0)) ;;;
  let* b := get_pbuf p in
  if (pb_len b <=? start_offset) || (pb_len b <? start_offset + len) then ret (ERR_ARG, chksum) else
  let* copy_chksum := lwip_chksum_copy (ptr_add (pb_payload b) start_offset) dataptr len in
  let copy_chksum := if negb (Z.land start_offset 1 =? 0)
                     then u16_t (SWAP_BYTES_IN_WORD copy_chksum) else copy_chksum in
  let acc := u32_t (chksum + copy_chksum) in
  ret (ERR_OK, u16_t (FOLD_U32T acc)).

End PbufChksum.

(** ** Correctness of [lwip_standard_chksum] *)

Lemma chksum_words_spec sum ps : bytes_ok ps -> 0 <= sum -> sum + word_sum ps < 4294967296 ->
  exists rest, chksum_words sum ps = (sum + word_sum ps - word_sum rest, rest) /\
    (rest = [] \/ exists b, rest = [b] /\ byte_ok b).
Proof.
  revert sum. induction ps as [|b|b0 b1 r IH] using pair_ind; intros sum Hb H0 Hlt.
  - exists []. split; [|by left]. simpl. f_equal. lia.
  - exists [b]. split; [simpl; f_equal; lia|]. right. exists b. by apply Forall_cons in Hb as [].
  - apply Forall_cons in Hb as [Hb0 [Hb1 Hr]%Forall_cons]. pose proof (word_sum_nonneg _ Hr).
    cbn [word_sum] in Hlt. unfold byte_ok, of_le16 in *.
    destruct (IH (sum + (b0 + 256 * b1)) Hr) as (rest & He & Hrest); [lia|lia|].
    exists rest. split; [|done]. cbn [chksum_words word_sum]. unfold of_le16. rewrite u32_t_id by lia.
    rewrite He. f_equal. lia.
Qed.

Lemma lwip_standard_chksum_spec addr data :
  bytes_ok data -> zlen data <= 131072 -> lwip_standard_chksum addr data = canon (word_sum data).
Proof.
  intros Hb Hlen. pose proof (word_sum_bound _ Hb) as Hbd. pose proof (word_sum_nonneg _ Hb) as Hnn.
  assert (word_sum data <= 4294901760) as Hmax.
  { assert ((zlen data + 1) / 2 <= 65536) by dlia. lia. }
  unfold lwip_standard_chksum. destruct data as [|b r].
  { simpl. by destruct (negb _). }
  destruct (negb (Z.land addr 1 =? 0)).
  - apply Forall_cons in Hb as [Hb Hr]. unfold byte_ok in Hb. rewrite zlen_cons in Hlen.
    pose proof (word_sum_nonneg _ Hr). pose proof (word_sum_bound _ Hr) as Hbr.
    assert (word_sum r <= 4294901760) as Hmr.
    { assert ((zlen r + 1) / 2 <= 65536) by dlia. lia. }
    destruct (chksum_words_spec 0 r Hr) as (rest & -> & Hrest); [lia|lia|].
    replace (match rest with [] => 256 * b | c :: _ => 256 * b - (256 * b) mod 256 + c end)
      with (256 * b + word_sum rest).
    2:{ destruct Hrest as [->|(c & -> & _)]; simpl; [lia|].
        rewrite (Z.mul_comm 256 b), Z_mod_mult. lia. }
    replace (0 + word_sum r - word_sum rest + (256 * b + word_sum rest)) with (word_sum r + 256 * b) by lia.
    rewrite u32_t_id, FOLD_twice, SWAP_canon by lia.
    assert (canon (256 * (word_sum r + 256 * b)) = canon (word_sum (b :: r))) as ->.
    { apply canon_congr.
      - rewrite word_sum_cons. apply (eqm_diff b). lia.
      - rewrite (word_sum_zero (b :: r)) by (by constructor). rewrite Forall_cons, <- word_sum_zero by done. lia. }
    pose proof (canon_range (word_sum (b :: r))). by rewrite u16_t_id by lia.
  - destruct (chksum_words_spec 0 (b :: r) Hb) as (rest & -> & Hrest); [lia|lia|].
    replace (match rest with [] => 0 | c :: _ => 0 - 0 mod 256 + c end) with (word_sum rest)
      by (destruct Hrest as [->|(c & -> & _)]; done).
    replace (0 + word_sum (b :: r) - word_sum rest + word_sum rest) with (word_sum (b :: r)) by lia.
    rewrite u32_t_id, FOLD_twice by lia.
    pose proof (canon_range (word_sum (b :: r))). by rewrite u16_t_id by lia.
Qed.

Lemma chksum_range addr data : bytes_ok data -> zlen data <= 131072 ->
  0 <= lwip_standard_chksum addr data <= 65535.
Proof. intros. rewrite lwip_standard_chksum_spec by done. apply canon_range. Qed.

(** [(u16_t)~x] of a 16-bit value. *)
Lemma u16_lnot x : 0 <= x <= 65535 -> u16_t (Z.lnot x) = 65535 - x.
Proof. intros. unfold u16_t, Z.lnot. dlia. Qed.

(** The Internet checksum of a flat buffer. *)
Definition checksum (d : list Z) : Z := 65535 - canon (word_sum d).

Lemma inet_chksum_spec addr data : bytes_ok data -> zlen data <= 131072 ->
  inet_chksum addr data = checksum data.
Proof.
  intros. unfold inet_chksum, checksum. rewrite lwip_standard_chksum_spec by done.
  apply u16_lnot, canon_range.
Qed.

(** Filling in the checksum field makes the checksum of the whole zero. *)
Lemma checksum_verifies pre post :
  bytes_ok pre -> bytes_ok post -> Z.even (zlen pre) = true ->
  checksum (pre ++ le16 (checksum (pre ++ [0; 0] ++ post)) ++ post) = 0.
Proof.
  intros Hpre Hpost Hev. unfold checksum. set (S := word_sum (pre ++ [0; 0] ++ post)).
  pose proof (canon_range S) as Hr.
  assert (S = word_sum pre + word_sum post) as HS.
  { subst S. rewrite word_sum_app_even by done. f_equal. }
  assert (word_sum (pre ++ le16 (65535 - canon S) ++ post) = S + (65535 - canon S)) as ->.
  { rewrite word_sum_app_even by done. unfold le16. cbn [app word_sum]. unfold of_le16.
    clearbody S. generalize dependent (canon S). intros c Hc. dlia. }
  replace (canon (S + (65535 - canon S))) with 65535; [lia|].
  pose proof (word_sum_nonneg _ Hpre). pose proof (word_sum_nonneg _ Hpost).
  apply canon_unique; [lia| |pose proof (canon_zero S); lia].
  destruct (canon_eqm S) as [k Hk]. apply (eqm_diff k). lia.
Qed.

(** ** Pbuf chains *)

(** The accumulator after the bytes [pre], with the parity correction pending. *)
Definition chk_acc (a0 : Z) (pre : list Z) : Z := canon (parity (zlen pre) * (a0 + word_sum pre)).

Lemma parity_app (a b : list Z) : parity (zlen (a ++ b)) =
  if Z.odd (zlen a) then (if Z.odd (zlen b) then 1 else 256) else parity (zlen b).
Proof.
  unfold parity. rewrite zlen_app, Z.odd_add. by destruct (Z.odd (zlen a)), (Z.odd (zlen b)).
Qed.

Lemma canon_256_256 s : 0 <= s -> canon (256 * (256 * s)) = canon s.
Proof. intros. apply canon_congr; [apply (eqm_diff s); lia|lia]. Qed.

(** Adding the sum of the next piece to the accumulator and folding. *)
Lemma chk_acc_fold a0 pre x addr : bytes_ok pre -> bytes_ok x -> 0 <= a0 -> zlen x <= 131072 ->
  FOLD_U32T (u32_t (chk_acc a0 pre + LWIP_CHKSUM addr x)) =
    canon (parity (zlen pre) * (a0 + word_sum (pre ++ x))).
Proof.
  intros Hp Hx Ha Hlen. pose proof (word_sum_nonneg _ Hp). pose proof (word_sum_nonneg _ Hx).
  set (P := parity (zlen pre)). set (s := P * (a0 + word_sum pre)).
  assert (P = 1 \/ P = 256) as HP by (subst P; unfold parity; destruct (Z.odd _); auto).
  assert (0 <= s) by (subst s; destruct HP as [-> | ->]; lia).
  pose proof (canon_range s). pose proof (canon_range (word_sum x)).
  rewrite lwip_standard_chksum_spec by done. unfold chk_acc. fold P s.
  rewrite u32_t_id, FOLD_once by lia.
  rewrite canon_add by lia. rewrite (Z.add_comm s), canon_add by done. subst s.
  pose proof (word_sum_zero_app pre x Hp Hx) as Hz.
  pose proof (word_sum_nonneg (pre ++ x) ltac:(by apply Forall_app)).
  apply canon_congr; [|destruct HP as [-> | ->]; lia].
  rewrite word_sum_app. fold P. destruct HP as [-> | ->]; [apply (eqm_diff 0)|apply (eqm_diff (- word_sum x))]; lia.
Qed.

Lemma chk_acc_step a0 pre x addr : bytes_ok pre -> bytes_ok x -> 0 <= a0 -> zlen x <= 131072 ->
  let acc := FOLD_U32T (u32_t (chk_acc a0 pre + LWIP_CHKSUM addr x)) in
  (if Z.odd (zlen x) then SWAP_BYTES_IN_WORD acc else acc) = chk_acc a0 (pre ++ x).
Proof.
  intros Hp Hx Ha Hlen acc. subst acc. rewrite chk_acc_fold by done.
  pose proof (word_sum_nonneg (pre ++ x) ltac:(by apply Forall_app)).
  unfold chk_acc. rewrite parity_app, SWAP_canon. unfold parity.
  destruct (Z.odd (zlen x)), (Z.odd (zlen pre)); try done; [|f_equal; lia].
  rewrite canon_256_256 by lia. f_equal. lia.
Qed.

Lemma odd_mod2 n : negb (n mod 2 =? 0) = Z.odd n.
Proof. rewrite Zmod_odd. by destruct (Z.odd n). Qed.

Section PbufChksumFacts.
Context (base : Z -> Z).

Lemma mem_read_ok h ptr n d : load_bytes h ptr n = Some d -> mem_read ptr n h = Ok (d, h).
Proof. unfold mem_read. by intros ->. Qed.

Lemma chksum_loop_spec fuel h q l d a0 pre :
  packet h q l d -> bytes_ok d -> (length l < fuel)%nat -> bytes_ok pre -> 0 <= a0 ->
  chksum_loop base fuel q (chk_acc a0 pre) (Z.odd (zlen pre)) h =
    Ok ((chk_acc a0 (pre ++ d), Z.odd (zlen (pre ++ d))), h).
Proof.
  revert fuel q d pre. induction l as [|[p b] l IH]; intros [|fuel] q d pre Hpk Hd Hf Hpre Ha; simpl in Hf; try lia.
  - destruct Hpk as (Hc & _ & Hcon). inversion Hc; subst. injection Hcon as <-. by rewrite app_nil_r.
  - pose proof Hpk as (Hc & Hl & _). inversion Hc as [|? ? ? Hp Hb _]; subst.
    destruct (packet_tail _ _ _ _ _ Hpk) as (d1 & d2 & Hd1 & Hz & Hpk2 & ->).
    apply Forall_app in Hd as [Hd1b Hd2b].
    assert (zlen d1 <= 131072) as Hlen.
    { destruct Hl as (? & ? & ? & Hl). apply total_nonneg in Hl. lia. }
    cbn [chksum_loop]. destruct (Z.eqb_spec p 0); [done|].
    m_step (get_pbuf_ok _ _ _ Hb). m_step (mem_read_ok _ _ _ _ Hd1).
    pose proof (chk_acc_step a0 pre d1 (address base (pb_payload b)) Hpre Hd1b Ha Hlen) as Hstep.
    cbv zeta in Hstep. rewrite odd_mod2, <- Hz. rewrite (assoc_L (++)).
    assert (bytes_ok (pre ++ d1)) as Hpre' by (by apply Forall_app).
    rewrite <- (IH fuel (pb_next b) d2 (pre ++ d1) Hpk2 Hd2b ltac:(lia) Hpre' Ha).
    rewrite <- Hstep, zlen_app, Z.odd_add. destruct (Z.odd (zlen d1)); [|by rewrite xorb_false_r].
    by rewrite xorb_true_r.
Qed.

Lemma chksum_unswap a0 d : bytes_ok d -> 0 <= a0 ->
  (if Z.odd (zlen d) then SWAP_BYTES_IN_WORD (chk_acc a0 d) else chk_acc a0 d) = canon (a0 + word_sum d).
Proof.
  intros Hd Ha. pose proof (word_sum_nonneg _ Hd). unfold chk_acc, parity. destruct (Z.odd (zlen d)).
  - rewrite SWAP_canon. apply canon_congr; [|lia]. apply (eqm_diff (a0 + word_sum d)). lia.
  - f_equal. lia.
Qed.

Lemma lnot_land_ffff x : 0 <= x <= 65535 -> u16_t (Z.lnot (Z.land x 65535)) = 65535 - x.
Proof. intros. rewrite land_ffff, Z.mod_small by lia. by apply u16_lnot. Qed.

(** The checksum of a chain is the checksum of its flat bytes. *)
Lemma inet_chksum_pbuf_spec h p l d : packet h p l d -> bytes_ok d ->
  inet_chksum_pbuf base p h = Ok (checksum d, h).
Proof.
  intros Hpk Hd. unfold inet_chksum_pbuf. pose proof (chain_fuel_enough _ _ _ (proj1 Hpk)).
  pose proof (chksum_loop_spec (S (chain_fuel h)) h p l d 0 [] Hpk Hd ltac:(lia) ltac:(constructor) ltac:(lia)) as Hl.
  change (chk_acc 0 []) with 0 in Hl. change (Z.odd (zlen (@nil Z))) with false in Hl. simpl app in Hl.
  unfold bind. rewrite Hl. rewrite chksum_unswap by (done || lia).
  unfold ret. rewrite lnot_land_ffff by apply canon_range. by rewrite Z.add_0_l.
Qed.

(** ** Pseudo headers *)

(** The pseudo header of RFC 793 / RFC 768, and that of RFC 2460. *)
Definition pseudo_header4 (src dest : ip4_addr) (proto proto_len : Z) : list Z :=
  ip4_bytes src ++ ip4_bytes dest ++ [0; proto] ++ be16 proto_len.
Definition pseudo_header6 (src dest : ip6_addr) (proto proto_len : Z) : list Z :=
  ip6_bytes src ++ ip6_bytes dest ++ be32 proto_len ++ [0; 0; 0; proto].

Lemma land_shiftr16 a : u32_ok a -> Z.land a 65535 + Z.land (Z.shiftr a 16) 65535 = word_sum (le32 a).
Proof.
  intros Ha. unfold u32_ok in Ha. rewrite shiftr16, !land_ffff. cbn [le32 word_sum]. unfold of_le16. dlia.
Qed.

Lemma land_ffff_range a : 0 <= Z.land a 65535 <= 65535.
Proof. rewrite land_ffff. dlia. Qed.

(** Abstract the halves of address words, keeping their ranges. *)
Ltac abs_land :=
  repeat match goal with |- context [Z.land ?a 65535] =>
    let H := fresh in let v := fresh in
    pose proof (land_ffff_range a) as H; set (v := Z.land a 65535) in *; clearbody v end.


Lemma pseudo_acc4_spec src dest : u32_ok src -> u32_ok dest ->
  pseudo_acc4 src dest = canon (word_sum (le32 src ++ le32 dest)).
Proof.
  intros Hs Hd. unfold pseudo_acc4. rewrite word_sum_app_even by done.
  rewrite <- (land_shiftr16 src), <- (land_shiftr16 dest) by done.
  abs_land.
  u32_simpl. rewrite FOLD_twice by lia. f_equal. lia.
Qed.

Lemma pseudo_acc6_spec src dest : ip6_ok src -> ip6_ok dest ->
  pseudo_acc6 src dest = canon (word_sum (ip6_bytes src ++ ip6_bytes dest)).
Proof.
  intros [Hs _] [Hd _]. destruct src as [s0 s1 s2 s3 sz], dest as [d0 d1 d2 d3 dz].
  unfold ip6_words in *. simpl in Hs, Hd.
  repeat match goal with H : Forall _ (_ :: _) |- _ => apply Forall_cons in H as [? ?] end.
  assert (forall a r, word_sum (le32 a ++ r) = word_sum (le32 a) + word_sum r) as Happ
    by (intros; by apply word_sum_app_even).
  unfold pseudo_acc6, ip6_bytes. simpl foldl. cbn [ip6_words ip6_w0 ip6_w1 ip6_w2 ip6_w3 fmap list_fmap concat].
  rewrite <- !(assoc_L (++)). rewrite !app_nil_l, !Happ.
  rewrite <- !land_shiftr16 by done. change (word_sum []) with 0.
  abs_land.
  u32_simpl. rewrite FOLD_twice by lia. f_equal. lia.
Qed.

(** Protocol number and length are added last. *)
Lemma pseudo_tail s proto proto_len : 0 <= s -> byte_ok proto -> 0 <= proto_len < 65536 ->
  u16_t (Z.lnot (Z.land (FOLD_U32T (FOLD_U32T
    (u32_t (u32_t (canon s + lwip_htons (u16_t proto)) + lwip_htons proto_len)))) 65535)) =
  65535 - canon (s + 256 * proto + word_sum (be16 proto_len)).
Proof.
  intros Hs Hpr Hpl. unfold byte_ok in Hpr. pose proof (canon_range s).
  assert (lwip_htons (u16_t proto) = 256 * proto) as ->.
  { rewrite u16_t_id, lwip_htons_arith by lia. dlia. }
  assert (lwip_htons proto_len = word_sum (be16 proto_len)) as ->.
  { rewrite lwip_htons_arith. cbn [be16 word_sum]. unfold of_le16. lia. }
  assert (0 <= word_sum (be16 proto_len) <= 65535) as Hw.
  { cbn [be16 word_sum]. unfold of_le16. dlia. }
  u32_simpl. rewrite FOLD_twice by lia. rewrite lnot_land_ffff by apply canon_range. f_equal.
  rewrite <- Z.add_assoc, canon_add by lia. f_equal. lia.
Qed.

Lemma chk_acc_nil a0 : chk_acc a0 [] = canon a0.
Proof. unfold chk_acc. f_equal. change (parity (zlen (@nil Z))) with 1. cbn [word_sum]. lia. Qed.

Lemma inet_cksum_pseudo_base_spec h p l d proto proto_len a0 :
  packet h p l d -> bytes_ok d -> byte_ok proto -> 0 <= proto_len < 65536 -> 0 <= a0 ->
  inet_cksum_pseudo_base base p proto proto_len (canon a0) h =
    Ok (65535 - canon (a0 + word_sum d + 256 * proto + word_sum (be16 proto_len)), h).
Proof.
  intros Hpk Hd Hpr Hpl Ha. unfold inet_cksum_pseudo_base. pose proof (chain_fuel_enough _ _ _ (proj1 Hpk)).
  pose proof (chksum_loop_spec (S (chain_fuel h)) h p l d a0 [] Hpk Hd ltac:(lia) ltac:(constructor) Ha) as Hl.
  rewrite chk_acc_nil in Hl. change (Z.odd (zlen (@nil Z))) with false in Hl. simpl app in Hl.
  pose proof (word_sum_nonneg _ Hd).
  unfold bind. rewrite Hl. rewrite chksum_unswap by done. unfold ret. rewrite pseudo_tail by (done || lia). done.
Qed.

(** ** Partial checksums *)

Lemma ztake_app_min {A} n (a b : list A) : 0 <= n ->
  ztake n (a ++ b) = ztake (Z.min n (zlen a)) a ++ ztake (n - Z.min n (zlen a)) b.
Proof.
  intros Hn. pose proof (zlen_nonneg a). destruct (decide (n <= zlen a)).
  - rewrite Z.min_l, ztake_app_l, (ztake_nonpos (n - n)), app_nil_r by lia. done.
  - rewrite Z.min_r, ztake_app_r, (ztake_all (zlen a)) by lia. done.
Qed.

Lemma chksum_partial_loop_spec fuel h q l d n a0 pre :
  packet h q l d -> bytes_ok d -> (length l < fuel)%nat -> bytes_ok pre -> 0 <= a0 -> 0 <= n < 32767 ->
  exists sw, chksum_partial_loop base fuel q n (chk_acc a0 pre) (Z.odd (zlen pre)) h =
    Ok ((canon ((if sw : bool then 256 else 1) * (a0 + word_sum (pre ++ ztake n d))), sw), h).
Proof.
  revert fuel q d n pre. induction l as [|[p b] l IH]; intros [|fuel] q d n pre Hpk Hd Hf Hpre Ha Hn; simpl in Hf; try lia.
  - destruct Hpk as (Hc & _ & Hcon). inversion Hc; subst. injection Hcon as <-. exists (Z.odd (zlen pre)).
    unfold ztake. by rewrite take_nil, app_nil_r.
  - pose proof Hpk as (Hc & Hl & _). inversion Hc as [|? ? ? Hp Hb _]; subst.
    destruct (packet_tail _ _ _ _ _ Hpk) as (d1 & d2 & Hd1 & Hz & Hpk2 & ->).
    apply Forall_app in Hd as [Hd1b Hd2b].
    assert (0 <= pb_len b < 65536) as Hlen.
    { destruct Hl as (? & ? & ? & Hl). apply total_nonneg in Hl. lia. }
    cbn [chksum_partial_loop]. rewrite (nz_true p) by done. destruct (Z.ltb_spec 0 n) as [Hn0|Hn0]; cbn [andb].
    2:{ exists (Z.odd (zlen pre)). by rewrite ztake_nonpos, app_nil_r by lia. }
    m_step (get_pbuf_ok _ _ _ Hb).
    replace (if n <? pb_len b then n else pb_len b) with (Z.min n (zlen d1))
      by (rewrite Hz; destruct (Z.ltb_spec n (pb_len b)); lia).
    rewrite ztake_app_min by lia. set (m := Z.min n (zlen d1)) in *. set (x := ztake m d1).
    assert (bytes_ok x) as Hx by (subst x; auto with lwip).
    assert (zlen x = m) as Hzx by (apply zlen_ztake; lia).
    m_step (mem_read_ok _ _ _ _ (load_bytes_prefix _ _ _ _ m Hd1 ltac:(lia))). fold x.
    rewrite (u16_t_id (n - m)) by lia. m_assert ltac:(apply Z.ltb_lt; lia).
    rewrite chk_acc_fold by (done || lia). rewrite odd_mod2.
    destruct (decide (m = n)) as [Hmn|Hmn].
    + rewrite Hmn, Z.sub_diag, (ztake_nonpos 0), app_nil_r by lia.
      assert (bytes_ok (pre ++ x)) as Hpx by (by apply Forall_app). pose proof (word_sum_nonneg _ Hpx).
      assert (forall acc sw, chksum_partial_loop base fuel (pb_next b) 0 acc sw h = Ok ((acc, sw), h)) as Hend.
      { intros. destruct fuel; [lia|]. simpl. by rewrite andb_false_r. }
      rewrite SWAP_canon. unfold parity.
      destruct (Z.odd (pb_len b)); rewrite Hend;
        [exists (negb (Z.odd (zlen pre)))|by exists (Z.odd (zlen pre))].
      destruct (Z.odd (zlen pre)); simpl negb; do 3 f_equal; [|f_equal; lia].
      rewrite canon_256_256 by lia. f_equal. lia.
    + assert (x = d1) as -> by (apply ztake_all; lia).
      pose proof (chk_acc_step a0 pre d1 (address base (pb_payload b)) Hpre Hd1b Ha ltac:(lia)) as Hstep.
      cbv zeta in Hstep. rewrite chk_acc_fold in Hstep by (done || lia).
      destruct (IH fuel (pb_next b) d2 (n - m) (pre ++ d1)) as (sw & Hrun);
        [done|done|lia|by apply Forall_app|done|lia|].
      exists sw. rewrite (assoc_L (++)), <- Hrun, <- Hstep, <- Hz, zlen_app, Z.odd_add.
      destruct (Z.odd (zlen d1)); [by rewrite xorb_true_r|by rewrite xorb_false_r].
Qed.

(** Only the first [n] bytes of the packet are summed. *)
Lemma inet_cksum_pseudo_partial_base_spec h p l d proto proto_len n a0 :
  packet h p l d -> bytes_ok d -> byte_ok proto -> 0 <= proto_len < 65536 -> 0 <= n < 32767 -> 0 <= a0 ->
  inet_cksum_pseudo_partial_base base p proto proto_len n (canon a0) h =
    Ok (65535 - canon (a0 + word_sum (ztake n d) + 256 * proto + word_sum (be16 proto_len)), h).
Proof.
  intros Hpk Hd Hpr Hpl Hn Ha. unfold inet_cksum_pseudo_partial_base. pose proof (chain_fuel_enough _ _ _ (proj1 Hpk)).
  assert (bytes_ok (ztake n d)) as Ht by auto with lwip. pose proof (word_sum_nonneg _ Ht).
  destruct (chksum_partial_loop_spec (S (chain_fuel h)) h p l d n a0 []) as (sw & Hl); [done|done|lia|done|done|done|].
  rewrite chk_acc_nil in Hl. change (Z.odd (zlen (@nil Z))) with false in Hl. simpl app in Hl.
  unfold bind. rewrite Hl.
  replace (if sw then SWAP_BYTES_IN_WORD (canon ((if sw then 256 else 1) * (a0 + word_sum (ztake n d))))
           else canon ((if sw then 256 else 1) * (a0 + word_sum (ztake n d))))
    with (canon (a0 + word_sum (ztake n d))).
  2:{ destruct sw; [rewrite SWAP_canon, canon_256_256 by lia; done|f_equal; lia]. }
  unfold ret. by rewrite pseudo_tail by (done || lia).
Qed.

Lemma inet_chksum_pseudo_partial_spec h p l d proto proto_len n src dest :
  packet h p l d -> bytes_ok d -> byte_ok proto -> 0 <= proto_len < 65536 -> 0 <= n < 32767 ->
  u32_ok src -> u32_ok dest ->
  inet_chksum_pseudo_partial base p proto proto_len n src dest h =
    Ok (checksum (pseudo_header4 src dest proto proto_len ++ ztake n d), h).
Proof.
  intros Hpk Hd Hpr Hpl Hn Hs Hdst. unfold inet_chksum_pseudo_partial. rewrite pseudo_acc4_spec by done.
  rewrite (inet_cksum_pseudo_partial_base_spec h p l d) by (done || apply word_sum_nonneg, Forall_app; split; apply bytes_le32).
  unfold checksum. do 4 f_equal. unfold pseudo_header4, ip4_bytes.
  rewrite <- !(assoc_L (++)), !(word_sum_app_even (le32 _)) by done. cbn [app be16 word_sum]. unfold of_le16. lia.
Qed.

Lemma inet_chksum_pseudo_spec h p l d proto proto_len src dest :
  packet h p l d -> bytes_ok d -> byte_ok proto -> 0 <= proto_len < 65536 ->
  u32_ok src -> u32_ok dest ->
  inet_chksum_pseudo base p proto proto_len src dest h =
    Ok (checksum (pseudo_header4 src dest proto proto_len ++ d), h).
Proof.
  intros Hpk Hd Hpr Hpl Hs Hdst. unfold inet_chksum_pseudo. rewrite pseudo_acc4_spec by done.
  rewrite (inet_cksum_pseudo_base_spec h p l d) by (done || apply word_sum_nonneg, Forall_app; split; apply bytes_le32).
  unfold checksum. do 4 f_equal. unfold pseudo_header4, ip4_bytes.
  rewrite <- !(assoc_L (++)), !(word_sum_app_even (le32 _)) by done. cbn [app be16 word_sum]. unfold of_le16. lia.
Qed.

Lemma ip6_chksum_pseudo_spec h p l d proto proto_len src dest :
  packet h p l d -> bytes_ok d -> byte_ok proto -> 0 <= proto_len < 65536 ->
  ip6_ok src -> ip6_ok dest ->
  ip6_chksum_pseudo base p proto proto_len src dest h =
    Ok (checksum (pseudo_header6 src dest proto proto_len ++ d), h).
Proof.
  intros Hpk Hd Hpr Hpl Hs Hdst. unfold ip6_chksum_pseudo. rewrite pseudo_acc6_spec by done.
  rewrite (inet_cksum_pseudo_base_spec h p l d) by (done || apply word_sum_nonneg, Forall_app; split; apply bytes_ip6).
  unfold checksum. do 4 f_equal. unfold pseudo_header6.
  rewrite <- !(assoc_L (++)), !(word_sum_app_even (ip6_bytes _)) by done.
  cbn [app be16 be32 word_sum]. unfold of_le16. dlia.
Qed.

(** The pseudo header by the type of the destination address. *)
Definition pseudo_header (src dest : ip_addr) (proto proto_len : Z) : list Z :=
  if IP_IS_V6_VAL dest then pseudo_header6 (ip_2_ip6 src) (ip_2_ip6 dest) proto proto_len
  else pseudo_header4 (ip_2_ip4 src) (ip_2_ip4 dest) proto proto_len.

(** Pseudo-headers are whole words. *)
Lemma pseudo_header_ok src dest proto n : byte_ok proto ->
  bytes_ok (pseudo_header src dest proto n) /\ Z.even (zlen (pseudo_header src dest proto n)) = true.
Proof.
  intros Hp. unfold pseudo_header, pseudo_header4, pseudo_header6, ip4_bytes.
  assert (H0 : byte_ok 0) by (unfold byte_ok; lia).
  destruct (IP_IS_V6_VAL dest); (split; [|done]); rewrite !Forall_app; split_and!; auto with lwip.
Qed.

Lemma ip6_ok_ip4 a : ip6_ok (u_addr a) -> u32_ok (ip_2_ip4 a).
Proof. by intros [[H _]%Forall_cons _]. Qed.

Lemma ip_chksum_pseudo_spec h p l d proto proto_len src dest :
  packet h p l d -> bytes_ok d -> byte_ok proto -> 0 <= proto_len < 65536 ->
  ip6_ok (u_addr src) -> ip6_ok (u_addr dest) ->
  ip_chksum_pseudo base p proto proto_len src dest h = Ok (checksum (pseudo_header src dest proto proto_len ++ d), h).
Proof.
  intros Hpk Hd Hpr Hpl Hs Hdst. unfold ip_chksum_pseudo, pseudo_header. destruct (IP_IS_V6_VAL dest).
  - by apply (ip6_chksum_pseudo_spec h p l d).
  - apply (inet_chksum_pseudo_spec h p l d); try done; by apply ip6_ok_ip4.
Qed.

Lemma ip_chksum_pseudo_partial_spec h p l d proto proto_len n src dest :
  packet h p l d -> bytes_ok d -> byte_ok proto -> 0 <= proto_len < 65536 -> 0 <= n < 32767 ->
  ip6_ok (u_addr src) -> ip6_ok (u_addr dest) ->
  ip_chksum_pseudo_partial base p proto proto_len n src dest h =
    Ok (checksum (pseudo_header src dest proto proto_len ++ ztake n d), h).
Proof.
  intros Hpk Hd Hpr Hpl Hn Hs Hdst. unfold ip_chksum_pseudo_partial, pseudo_header. destruct (IP_IS_V6_VAL dest).
  - unfold ip6_chksum_pseudo_partial. rewrite pseudo_acc6_spec by done.
    rewrite (inet_cksum_pseudo_partial_base_spec h p l d) by (done || apply word_sum_nonneg, Forall_app; split; apply bytes_ip6).
    unfold checksum. do 4 f_equal. unfold pseudo_header6. rewrite <- !(assoc_L (++)), !(word_sum_app_even (ip6_bytes _)) by done.
    cbn [app be16 be32 word_sum]. unfold of_le16. dlia.
  - apply (inet_chksum_pseudo_partial_spec h p l d); try done; by apply ip6_ok_ip4.
Qed.

(** ** [pbuf_fill_chksum] *)

Lemma lwip_chksum_copy_spec h ptr m d off data n :
  load_bytes h ptr m = Some d -> 0 <= off -> 0 < n < 65536 -> off + n <= m -> n <= zlen data -> bytes_ok data ->
  lwip_chksum_copy base (ptr_add ptr off) data n h =
    Ok (canon (word_sum (ztake n data)), poke ptr.1 (ptr.2 + off) (ztake n data) h).
Proof.
  intros Hd Ho Hn Hfit Hle Hby. set (x := ztake n data).
  assert (zlen x = n) as Hzx by (apply zlen_ztake; lia). assert (bytes_ok x) as Hx by (subst x; auto with lwip).
  unfold lwip_chksum_copy, buf_read. replace ((0 <=? 0) && (0 <=? n) && (0 + n <=? zlen data)) with true.
  2:{ symmetry. rewrite !andb_true_iff, !Z.leb_le. lia. }
  rewrite bind_ret_l. replace (zslice 0 n data) with x by (unfold zslice; by rewrite zdrop_nonpos by lia).
  m_step (mem_write_in h ptr m d off x Hd Ho ltac:(lia)).
  pose proof (load_poke h ptr m d off x Hd ltac:(lia) Ho ltac:(lia)) as Hlp.
  assert (load_bytes (poke ptr.1 (ptr.2 + off) x h) (ptr_add ptr off) n = Some x) as Hl.
  { rewrite (load_bytes_sub _ _ _ _ off n Hlp) by lia. f_equal.
    assert (zlen d = m) as Hzd by (eapply load_bytes_len; [|done]; lia).
    unfold zpatch. apply zslice_mid; [by rewrite zlen_ztake by lia|done]. }
  m_step (mem_read_ok _ _ _ _ Hl). unfold ret. by rewrite lwip_standard_chksum_spec by (done || lia).
Qed.

(** Data copied to offset [off] of a pbuf adds its (position-corrected) sum to the
    running checksum. *)
Lemma pbuf_fill_chksum_spec h p b d off data n s :
  p <> 0 -> hp_pbufs h !! p = Some b -> load_bytes h (pb_payload b) (pb_len b) = Some d ->
  0 <= off -> 0 < n -> off + n <= pb_len b -> pb_len b < 65536 -> n <= zlen data -> bytes_ok data -> 0 <= s ->
  pbuf_fill_chksum base p off data n (canon s) h =
    Ok ((ERR_OK, canon (s + parity off * word_sum (ztake n data))),
        poke (pb_payload b).1 ((pb_payload b).2 + off) (ztake n data) h).
Proof.
  intros Hp Hb Hd Ho Hn Hfit Hlt Hle Hby Hs. unfold pbuf_fill_chksum.
  do 2 m_assert ltac:(apply nz_true; lia). m_step (get_pbuf_ok _ _ _ Hb).
  destruct (Z.leb_spec (pb_len b) off); [lia|]. destruct (Z.ltb_spec (pb_len b) (off + n)); [lia|]. cbn [orb].
  set (x := ztake n data). assert (zlen x = n) as Hzx by (apply zlen_ztake; lia).
  assert (bytes_ok x) as Hx by (subst x; auto with lwip). pose proof (word_sum_nonneg _ Hx).
  m_step (lwip_chksum_copy_spec h (pb_payload b) (pb_len b) d off data n Hd Ho ltac:(lia) ltac:(lia) Hle Hby).
  fold x.
  unfold ret. do 3 f_equal.
  pose proof (canon_range s). pose proof (canon_range (word_sum x)). pose proof (canon_range (256 * word_sum x)).
  rewrite SWAP_canon. unfold parity.
  replace (negb (Z.land off 1 =? 0)) with (Z.odd off)
    by (rewrite <- odd_mod2; do 2 f_equal; symmetry; apply (Z.land_ones off 1); lia).
  destruct (Z.odd off); rewrite ?(u16_t_id (canon (256 * word_sum x))) by lia;
    rewrite u32_t_id, FOLD_once by lia;
    rewrite canon_add, (Z.add_comm s), canon_add by lia.
  - pose proof (canon_range (256 * word_sum x + s)). rewrite u16_t_id by lia. f_equal. lia.
  - pose proof (canon_range (word_sum x + s)). rewrite u16_t_id by lia. f_equal. lia.
Qed.

End PbufChksumFacts.
