(* ===== verification/Timeouts.v ===== *)
(** * Timers ([core/timeouts.c])

    The list of pending timeouts, sorted by due time modulo the wrap-around of the
    millisecond clock.  Handlers are C function pointers: the two the module defines
    itself are modelled, the ones it only calls ([tcp_tmr] and the other cyclic
    handlers, application handlers) are parameters acting on the whole state, whose
    part outside this module is the type [W]. *)

From S2P Require Import Prelude.

Definition LWIP_MAX_TIMEOUT : Z := 2147483647.
Definition LWIP_UINT32_MAX : Z := 4294967295.
Definition SYS_TIMEOUTS_SLEEPTIME_INFINITE : Z := 4294967295.
Definition TIME_LESS_THAN (t compare_to : Z) : bool := LWIP_MAX_TIMEOUT <? u32_t (t - compare_to).

Definition TCP_TMR_INTERVAL : Z := 250.
Definition IP_TMR_INTERVAL : Z := 1000.
Definition ND6_TMR_INTERVAL : Z := 1000.
Definition IP6_REASS_TMR_INTERVAL : Z := 1000.

Inductive cyclic_handler := tcp_tmr | ip_reass_tmr | nd6_tmr | ip6_reass_tmr.
#[global] Instance cyclic_handler_eq_dec : EqDecision cyclic_handler.
Proof. solve_decision. Defined.

(** [lwip_cyclic_timers] of this configuration. *)
Definition lwip_cyclic_timers : list (Z * cyclic_handler) :=
  [(TCP_TMR_INTERVAL, tcp_tmr); (IP_TMR_INTERVAL, ip_reass_tmr);
   (ND6_TMR_INTERVAL, nd6_tmr); (IP6_REASS_TMR_INTERVAL, ip6_reass_tmr)].

(** [sys_timeout_handler]: the handlers of this module, or another one. *)
Inductive sys_timeout_handler := h_null | h_tcpip_tcp_timer | h_lwip_cyclic_timer | h_other (n : Z).
#[global] Instance sys_timeout_handler_eq_dec : EqDecision sys_timeout_handler.
Proof. solve_decision. Defined.

(** [arg]: the index of a cyclic timer, or an application value ([0] is [NULL]). *)
Record sys_timeo := mkTimeo { to_time : Z; to_h : sys_timeout_handler; to_arg : Z }.
#[global] Instance sys_timeo_eq_dec : EqDecision sys_timeo.
Proof. solve_decision. Defined.

Section Timeouts.
Context {W : Type}.

Record tstate := mkTS {
  next_timeout : list sys_timeo;
  current_timeout_due_time : Z;
  tcpip_tcp_timer_active : bool;
  ts_world : W
}.

Definition set_list (l : list sys_timeo) (s : tstate) : tstate :=
  mkTS l (current_timeout_due_time s) (tcpip_tcp_timer_active s) (ts_world s).
Definition set_due (d : Z) (s : tstate) : tstate :=
  mkTS (next_timeout s) d (tcpip_tcp_timer_active s) (ts_world s).
Definition set_active (b : bool) (s : tstate) : tstate :=
  mkTS (next_timeout s) (current_timeout_due_time s) b (ts_world s).

(** The clock, the allocator, the PCB lists and the callbacks. *)
Context (sys_now : W -> Z).
Context (memp_malloc_ok : tstate -> bool).
Context (tcp_pcbs : W -> bool).     (* tcp_active_pcbs || tcp_tw_pcbs *)
Context (cyclic_call : cyclic_handler -> M tstate unit).
Context (other_call : Z -> Z -> M tstate unit).
Context (pbuf_check_free_ooseq : M tstate unit).

Definition now : M tstate Z := fun s => Ok (sys_now (ts_world s), s).

(** The [for] loop of [sys_timeout_abs]: [timeout] goes behind the first entry whose
    successor is missing or later. *)
Fixpoint insert_after (timeout : sys_timeo) (l : list sys_timeo) : list sys_timeo :=
  match l with
  | [] => []
  | t :: rest =>
      match rest with
      | [] => [t; timeout]
      | t2 :: _ => if TIME_LESS_THAN (to_time timeout) (to_time t2) then t :: timeout :: rest
                   else t :: insert_after timeout rest
      end
  end.

Definition sys_timeout_abs (abs_time : Z) (handler : sys_timeout_handler) (arg : Z) : M tstate unit :=
  let* s := get in
  lwip_assert "sys_timeout: timeout != NULL, pool MEMP_SYS_TIMEOUT is empty" (memp_malloc_ok s) ;;;
  let timeout := mkTimeo abs_time handler arg in
  match next_timeout s with
  | [] => modify (set_list [timeout])
  | t0 :: rest =>
      if TIME_LESS_THAN (to_time timeout) (to_time t0)
      then modify (set_list (timeout :: t0 :: rest))
      else modify (set_list (insert_after timeout (t0 :: rest)))
  end.

Definition sys_timeout (msecs : Z) (handler : sys_timeout_handler) (arg : Z) : M tstate unit :=
  lwip_assert "Timeout time too long, max is LWIP_UINT32_MAX/4 msecs" (msecs <=? LWIP_UINT32_MAX / 4) ;;;
  let* n := now in
  let next_timeout_time := u32_t (n + msecs) in
  sys_timeout_abs next_timeout_time handler arg.

Definition tcpip_tcp_timer (arg : Z) : M tstate unit :=
  cyclic_call tcp_tmr ;;;
  let* s := get in
  if tcp_pcbs (ts_world s) then sys_timeout TCP_TMR_INTERVAL h_tcpip_tcp_timer 0
  else modify (set_active false).

Definition tcp_timer_needed : M tstate unit :=
  let* s := get in
  if negb (tcpip_tcp_timer_active s) && tcp_pcbs (ts_world s) then
    modify (set_active true) ;;;
    sys_timeout TCP_TMR_INTERVAL h_tcpip_tcp_timer 0
  else ret tt.

Definition lwip_cyclic_timer (arg : Z) : M tstate unit :=
  match lwip_cyclic_timers !! Z.to_nat arg with
  | None => fail BadAccess
  | Some (interval_ms, handler) =>
      cyclic_call handler ;;;
      let* n := now in
      let* s := get in
      let next_timeout_time := u32_t (current_timeout_due_time s + interval_ms) in
      if TIME_LESS_THAN next_timeout_time n
      then sys_timeout_abs (u32_t (n + interval_ms)) h_lwip_cyclic_timer arg
      else sys_timeout_abs next_timeout_time h_lwip_cyclic_timer arg
  end.

(** The loop of [sys_timeouts_init] from index [i]. *)
Fixpoint timeouts_init_loop (i : Z) (l : list (Z * cyclic_handler)) : M tstate unit :=
  match l with
  | [] => ret tt
  | (interval_ms, _) :: l =>
      sys_timeout interval_ms h_lwip_cyclic_timer i ;;;
      timeouts_init_loop (i + 1) l
  end.
Definition sys_timeouts_init : M tstate unit := timeouts_init_loop 1 (drop 1 lwip_cyclic_timers).

Fixpoint untimeout_list (handler : sys_timeout_handler) (arg : Z) (l : list sys_timeo) : list sys_timeo :=
  match l with
  | [] => []
  | t :: l => if bool_decide (to_h t = handler) && (to_arg t =? arg) then l
              else t :: untimeout_list handler arg l
  end.
Definition sys_untimeout (handler : sys_timeout_handler) (arg : Z) : M tstate unit :=
  modify (fun s => set_list (untimeout_list handler arg (next_timeout s)) s).

Definition call_handler (h : sys_timeout_handler) (arg : Z) : M tstate unit :=
  match h with
  | h_null => ret tt
  | h_tcpip_tcp_timer => tcpip_tcp_timer arg
  | h_lwip_cyclic_timer => lwip_cyclic_timer arg
  | h_other n => other_call n arg
  end.

Fixpoint check_timeouts_loop (fuel : nat) (n : Z) : M tstate unit :=
  match fuel with
  | O => fail OutOfFuel
  | S fuel =>
      pbuf_check_free_ooseq ;;;
      let* s := get in
      match next_timeout s with
      | [] => ret tt
      | tmptimeout :: rest =>
          if TIME_LESS_THAN n (to_time tmptimeout) then ret tt else
          modify (set_list rest) ;;;
          modify (set_due (to_time tmptimeout)) ;;;
          call_handler (to_h tmptimeout) (to_arg tmptimeout) ;;;
          check_timeouts_loop fuel n
      end
  end.

Definition sys_check_timeouts (fuel : nat) : M tstate unit :=
  let* n := now in
  check_timeouts_loop fuel n.

Definition sys_restart_timeouts : M tstate unit :=
  let* s := get in
  match next_timeout s with
  | [] => ret tt
  | t0 :: _ =>
      let* n := now in
      let base := to_time t0 in
      modify (fun s => set_list
        ((fun t => mkTimeo (u32_t (u32_t (to_time t - base) + n)) (to_h t) (to_arg t)) <$> next_timeout s) s)
  end.

Definition sys_timeouts_sleeptime : M tstate Z :=
  let* s := get in
  match next_timeout s with
  | [] => ret SYS_TIMEOUTS_SLEEPTIME_INFINITE
  | t0 :: _ =>
      let* n := now in
      if TIME_LESS_THAN (to_time t0) n then ret 0 else
      let ret_ := u32_t (to_time t0 - n) in
      lwip_assert "invalid sleeptime" (ret_ <=? LWIP_MAX_TIMEOUT) ;;;
      ret ret_
  end.

End Timeouts.
