(* ===== verification/TimeoutsFacts.v ===== *)
(** * Correctness of the timer list

    [rel n t] is the signed distance of the time stamp [t] from the current time
    [n] on the 32-bit clock.  Within a window of 2^30 ms around [n] (what
    [sys_timeout] accepts) [TIME_LESS_THAN] is the order of [rel], the list is sorted
    by it, and every operation keeps it so. *)

From Stdlib Require Import Sorted Permutation.
From S2P Require Import Prelude Timeouts.

Definition rel (n t : Z) : Z := s32_t (t - n).
Definition near (n t : Z) : Prop := 0 <= t < 4294967296 /\ -1073741824 <= rel n t < 1073741824.

Lemma rel_unfold n t : exists k, rel n t = t - n + 4294967296 * k /\ -2147483648 <= rel n t < 2147483648.
Proof.
  unfold rel, s32_t. exists (- ((t - n + 2147483648) / 4294967296)). dlia.
Qed.

(** [TIME_LESS_THAN] is the order of the due times seen from [n]. *)
Lemma time_less_rel n a b : near n a -> near n b -> TIME_LESS_THAN a b = (rel n a <? rel n b).
Proof.
  intros [_ Ha] [_ Hb]. destruct (rel_unfold n a) as (ka & Ea & _), (rel_unfold n b) as (kb & Eb & _).
  unfold TIME_LESS_THAN, LWIP_MAX_TIMEOUT.
  replace (u32_t (a - b)) with (u32_t (rel n a - rel n b)).
  2:{ rewrite Ea, Eb. replace (a - n + 4294967296 * ka - (b - n + 4294967296 * kb))
        with (a - b + (ka - kb) * 4294967296) by lia. apply Z_mod_plus_full. }
  apply eq_true_iff_eq. rewrite !Z.ltb_lt. unfold u32_t. dlia.
Qed.

(** A time stamp [d] ms from now. *)
Lemma rel_add n d : -2147483648 <= d < 2147483648 -> rel n (u32_t (n + d)) = d.
Proof. intros Hd. unfold rel, s32_t, u32_t. dlia. Qed.
Lemma near_add n d : -1073741824 <= d < 1073741824 -> near n (u32_t (n + d)).
Proof. intros. split; [apply u32_t_range|rewrite rel_add; lia]. Qed.

(** ** The reference: insertion into a sorted list, behind equal elements *)

Definition due (n : Z) (t : sys_timeo) : Z := rel n (to_time t).

Fixpoint insert_sorted (n : Z) (x : sys_timeo) (l : list sys_timeo) : list sys_timeo :=
  match l with
  | [] => [x]
  | t :: r => if due n x <? due n t then x :: l else t :: insert_sorted n x r
  end.

Definition near_list (n : Z) (l : list sys_timeo) : Prop := Forall (fun t => near n (to_time t)) l.
Definition sorted (n : Z) (l : list sys_timeo) : Prop := StronglySorted (fun x y => due n x <= due n y) l.

Lemma insert_sorted_perm n x l : insert_sorted n x l ≡ₚ x :: l.
Proof.
  induction l as [|t r IH]; simpl; [done|]. destruct (_ <? _); [done|].
  rewrite IH. constructor.
Qed.

Lemma insert_sorted_sorted n x l : sorted n l -> sorted n (insert_sorted n x l).
Proof.
  induction 1 as [|t r Hs IH Hle]; simpl; [repeat constructor|].
  destruct (Z.ltb_spec (due n x) (due n t)).
  - constructor; [by constructor|]. constructor; [lia|].
    eapply Forall_impl; [done|]. simpl. intros. lia.
  - constructor; [done|]. rewrite insert_sorted_perm. constructor; [lia|done].
Qed.

(** The C loop is the reference insertion. *)
Lemma insert_after_spec n x t r : near n (to_time x) -> near_list n (t :: r) ->
  due n t <= due n x -> insert_after x (t :: r) = insert_sorted n x (t :: r).
Proof.
  intros Hx. revert t. induction r as [|t2 r IH]; intros t Hn Hle; simpl;
    apply Forall_cons in Hn as [Ht Hn]; destruct (Z.ltb_spec (due n x) (due n t)); try lia; [done|].
  apply Forall_cons in Hn as [Ht2 Hn].
  rewrite (time_less_rel n) by done. fold (due n x) (due n t2).
  destruct (Z.ltb_spec (due n x) (due n t2)); [done|]. f_equal.
  change (insert_after x (t2 :: r) = t2 :: insert_sorted n x r). rewrite IH by (done || by constructor).
  simpl. by destruct (Z.ltb_spec (due n x) (due n t2)); [lia|].
Qed.

Section Facts.
Context {W : Type} (sys_now : W -> Z) (memp_malloc_ok : @tstate W -> bool).
Abbreviation tstate := (@tstate W).

Lemma sys_timeout_abs_spec n (s : tstate) abs h arg :
  near_list n (next_timeout s) -> near n abs -> memp_malloc_ok s = true ->
  sys_timeout_abs memp_malloc_ok abs h arg s =
    Ok (tt, set_list (insert_sorted n (mkTimeo abs h arg) (next_timeout s)) s).
Proof.
  intros Hl Ha Hm. unfold sys_timeout_abs, get. unfold bind at 1. m_assert ltac:(done).
  destruct (next_timeout s) as [|t0 rest] eqn:E; [done|].
  pose proof (proj1 (Forall_cons _ _ _) Hl) as [Ht0 _].
  rewrite (time_less_rel n) by done. fold (due n (mkTimeo abs h arg)) (due n t0).
  destruct (Z.ltb_spec (due n (mkTimeo abs h arg)) (due n t0)) as [Hlt|Hge].
  - unfold modify. cbn [insert_sorted].
    by destruct (Z.ltb_spec (due n (mkTimeo abs h arg)) (due n t0)); [|lia].
  - unfold modify. by rewrite (insert_after_spec n) by done.
Qed.

Lemma sys_timeout_spec (s : tstate) msecs h arg :
  let n := sys_now (ts_world s) in
  near_list n (next_timeout s) -> 0 <= msecs < 1073741824 -> memp_malloc_ok s = true ->
  sys_timeout sys_now memp_malloc_ok msecs h arg s =
    Ok (tt, set_list (insert_sorted n (mkTimeo (u32_t (n + msecs)) h arg) (next_timeout s)) s).
Proof.
  intros n Hl Hm Hok. unfold sys_timeout. m_assert ltac:(apply Z.leb_le; unfold LWIP_UINT32_MAX; dlia).
  unfold bind at 1. unfold now. apply sys_timeout_abs_spec; auto. apply near_add. lia.
Qed.

(** [sys_timeouts_sleeptime]: how long until the earliest timer is due. *)
Lemma sys_timeouts_sleeptime_spec (s : tstate) :
  let n := sys_now (ts_world s) in
  near_list n (next_timeout s) ->
  sys_timeouts_sleeptime sys_now s =
    Ok (match next_timeout s with [] => SYS_TIMEOUTS_SLEEPTIME_INFINITE | t :: _ => Z.max 0 (due n t) end, s).
Proof using Type.
  clear memp_malloc_ok. intros n Hl. unfold sys_timeouts_sleeptime, get. unfold bind at 1.
  destruct (next_timeout s) as [|t rest]; [done|]. apply Forall_cons in Hl as [[Hr Ht] _].
  unfold bind at 1. unfold now. fold n.
  destruct (rel_unfold n (to_time t)) as (k & Ek & _).
  assert (u32_t (to_time t - n) = u32_t (due n t)) as Hu.
  { unfold due. rewrite Ek. unfold u32_t. rewrite Z.mul_comm. by rewrite Z_mod_plus_full. }
  unfold TIME_LESS_THAN, LWIP_MAX_TIMEOUT. rewrite Hu. fold (due n t) in Ht.
  destruct (Z.ltb_spec 2147483647 (u32_t (due n t))) as [H1|H1].
  - unfold ret. do 2 f_equal. unfold u32_t in H1. dlia.
  - m_assert ltac:(by apply Z.leb_le). unfold ret. do 2 f_equal. unfold u32_t in *. dlia.
Qed.
End Facts.

(** ** Running expired timers *)

(** How often a timer can still fire in one [sys_check_timeouts] at time [n]. *)
Definition weight (n : Z) (t : sys_timeo) : nat :=
  if 0 <? due n t then 0%nat else if due n t =? 0 then 1%nat else 2%nat.
Definition total_weight (n : Z) (l : list sys_timeo) : nat := sum_list_with (weight n) l.

(** The arguments of the pending cyclic timers, and the number of TCP timers. *)
Definition cyclic_args (l : list sys_timeo) : list Z :=
  to_arg <$> filter (fun t => to_h t = h_lwip_cyclic_timer) l.
Definition tcp_pending (l : list sys_timeo) : nat :=
  length (filter (fun t => to_h t = h_tcpip_tcp_timer) l).

Definition entry_ok (t : sys_timeo) : Prop :=
  to_h t = h_lwip_cyclic_timer -> 0 <= to_arg t < 4.

#[export] Instance total_weight_proper n : Proper ((≡ₚ) ==> eq) (total_weight n).
Proof. intros l1 l2 Hp. unfold total_weight. by rewrite Hp. Qed.
#[export] Instance cyclic_args_proper : Proper ((≡ₚ) ==> (≡ₚ)) cyclic_args.
Proof. intros l1 l2 Hp. unfold cyclic_args. by rewrite Hp. Qed.
#[export] Instance tcp_pending_proper : Proper ((≡ₚ) ==> eq) tcp_pending.
Proof. intros l1 l2 Hp. unfold tcp_pending. by rewrite Hp. Qed.

Lemma weight_le n t : (weight n t <= 2)%nat.
Proof. unfold weight. destruct (0 <? _); [lia|]. destruct (_ =? _); lia. Qed.
Lemma total_weight_le n l : (total_weight n l <= 2 * length l)%nat.
Proof. unfold total_weight. induction l as [|t l IH]; simpl; [lia|]. pose proof (weight_le n t). lia. Qed.

Section Check.
Context {W : Type} (sys_now : W -> Z) (memp_malloc_ok : @tstate W -> bool) (tcp_pcbs : W -> bool).
Context (cyclic_call : cyclic_handler -> M (@tstate W) unit).
Context (other_call : Z -> Z -> M (@tstate W) unit).
Context (pbuf_check_free_ooseq : M (@tstate W) unit).
Context (n : Z).
Abbreviation tstate := (@tstate W).

(** The handlers together take less than 2^29 ms. *)
Definition clock_ok (w : W) : Prop := near n (sys_now w) /\ 0 <= rel n (sys_now w) < 536870912.

(** A callback that does not touch the timer module. *)
Definition quiet (c : M tstate unit) : Prop := forall s, clock_ok (ts_world s) ->
  exists w, c s = Ok (tt, mkTS (next_timeout s) (current_timeout_due_time s) (tcpip_tcp_timer_active s) w)
            /\ clock_ok w.

Context (n_range : 0 <= n < 4294967296).
Context (malloc_ok : forall s, memp_malloc_ok s = true).
Context (cyclic_quiet : forall h, quiet (cyclic_call h)).
Context (other_quiet : forall k a, quiet (other_call k a)).
Context (ooseq_quiet : quiet pbuf_check_free_ooseq).

(** The invariant of the module between two events. *)
Record timers_inv (s : tstate) : Prop := {
  ti_near : near_list n (next_timeout s);
  ti_sorted : sorted n (next_timeout s);
  ti_entry : Forall entry_ok (next_timeout s);
  ti_tcp : tcp_pending (next_timeout s) = if tcpip_tcp_timer_active s then 1%nat else 0%nat;
  ti_clock : clock_ok (ts_world s)
}.

(** Invariant without the TCP clause, for the states in between. *)
Definition base_inv (s : tstate) : Prop :=
  near_list n (next_timeout s) /\ sorted n (next_timeout s) /\
  Forall entry_ok (next_timeout s) /\ clock_ok (ts_world s).

Lemma insert_base s x : base_inv s -> near n (to_time x) -> entry_ok x ->
  base_inv (set_list (insert_sorted n x (next_timeout s)) s).
Proof.
  intros (Hn & Hs & He & Hc) Hx Hex. split_and!; simpl; [| |  |done].
  - unfold near_list. rewrite insert_sorted_perm. by constructor.
  - by apply insert_sorted_sorted.
  - rewrite insert_sorted_perm. by constructor.
Qed.

Lemma rel_clock w d : clock_ok w -> -1000000 <= d <= 1000000 ->
  near n (u32_t (sys_now w + d)) /\ rel n (u32_t (sys_now w + d)) = rel n (sys_now w) + d.
Proof.
  intros [_ Hc] Hd. destruct (rel_unfold n (sys_now w)) as (k & Ek & _).
  assert (u32_t (sys_now w + d) = u32_t (n + (rel n (sys_now w) + d))) as ->.
  { rewrite Ek. unfold u32_t. rewrite <- (Z_mod_plus_full (sys_now w + d) k). f_equal. lia. }
  split; [apply near_add; lia|apply rel_add; lia].
Qed.

Lemma rel_due_add t d : near n t -> 0 <= d <= 1000000 -> rel n t <= 0 ->
  near n (u32_t (t + d)) /\ rel n (u32_t (t + d)) = rel n t + d.
Proof.
  intros [_ Ht] Hd H0. destruct (rel_unfold n t) as (k & Ek & _).
  assert (u32_t (t + d) = u32_t (n + (rel n t + d))) as ->.
  { rewrite Ek. unfold u32_t. rewrite <- (Z_mod_plus_full (t + d) k). f_equal. lia. }
  split; [apply near_add; lia|apply rel_add; lia].
Qed.

(** A cyclic timer that fires is scheduled again, and fires less often from there. *)
Lemma lwip_cyclic_timer_spec (s : tstate) arg :
  base_inv s -> near n (current_timeout_due_time s) -> rel n (current_timeout_due_time s) <= 0 ->
  0 <= arg < 4 ->
  exists w x, lwip_cyclic_timer sys_now memp_malloc_ok cyclic_call arg s =
      Ok (tt, mkTS (insert_sorted n x (next_timeout s)) (current_timeout_due_time s)
                   (tcpip_tcp_timer_active s) w) /\
    clock_ok w /\ to_h x = h_lwip_cyclic_timer /\ to_arg x = arg /\ near n (to_time x) /\
    (weight n x < weight n (mkTimeo (current_timeout_due_time s) h_lwip_cyclic_timer arg))%nat.
Proof.
  intros (Hn & Hs & He & Hc) Hdn Hd Ha. unfold lwip_cyclic_timer.
  assert (exists iv hd, lwip_cyclic_timers !! Z.to_nat arg = Some (iv, hd) /\ 0 < iv <= 1000) as (iv & hd & -> & Hiv).
  { assert (arg = 0 \/ arg = 1 \/ arg = 2 \/ arg = 3) as [->|[->|[->| ->]]] by lia;
      eexists _, _; (split; [reflexivity|]); unfold TCP_TMR_INTERVAL, IP_TMR_INTERVAL, ND6_TMR_INTERVAL,
        IP6_REASS_TMR_INTERVAL; lia. }
  destruct (cyclic_quiet hd s Hc) as (w & Hcall & Hcw). m_step Hcall.
  set (s1 := mkTS _ _ _ w). unfold bind at 1. unfold now. change (ts_world s1) with w.
  unfold bind at 1. unfold get.
  set (dt := current_timeout_due_time s) in *. change (current_timeout_due_time s1) with dt.
  destruct (rel_due_add dt iv Hdn ltac:(lia) Hd) as [Hn1 Hr1].
  destruct (rel_clock w iv Hcw ltac:(lia)) as [Hn2 Hr2]. destruct Hcw as [Hcn Hcr].
  rewrite (time_less_rel n), Hr1 by done.
  destruct (Z.ltb_spec (rel n dt + iv) (rel n (sys_now w))).
  - exists w, (mkTimeo (u32_t (sys_now w + iv)) h_lwip_cyclic_timer arg).
    rewrite (sys_timeout_abs_spec memp_malloc_ok n) by done. split_and!; try done.
    unfold weight, due. simpl to_time. rewrite Hr2.
    destruct (Z.ltb_spec 0 (rel n (sys_now w) + iv)); [|lia]. destruct (Z.ltb_spec 0 (rel n dt)); [lia|].
    destruct (_ =? _); lia.
  - exists w, (mkTimeo (u32_t (dt + iv)) h_lwip_cyclic_timer arg).
    rewrite (sys_timeout_abs_spec memp_malloc_ok n) by done. split_and!; try done.
    unfold weight, due. simpl to_time. rewrite Hr1.
    destruct (Z.ltb_spec 0 (rel n dt)), (Z.ltb_spec 0 (rel n dt + iv)), (Z.eqb_spec (rel n dt) 0),
      (Z.eqb_spec (rel n dt + iv) 0); lia.
Qed.

Lemma rel_self : rel n n = 0.
Proof. unfold rel. by rewrite Z.sub_diag. Qed.
Lemma near_self : near n n.
Proof using n_range. split; [done|]. rewrite rel_self. lia. Qed.

Lemma weight_pos t : due n t <= 0 -> (1 <= weight n t)%nat.
Proof. intros. unfold weight. destruct (Z.ltb_spec 0 (due n t)); [lia|]. destruct (_ =? _); lia. Qed.
Lemma total_weight_cons t l : total_weight n (t :: l) = (weight n t + total_weight n l)%nat.
Proof. done. Qed.
Lemma tcp_pending_cons t l :
  tcp_pending (t :: l) = ((if decide (to_h t = h_tcpip_tcp_timer) then 1 else 0) + tcp_pending l)%nat.
Proof. unfold tcp_pending. rewrite filter_cons. by destruct (decide _). Qed.
Lemma cyclic_args_cons t l : cyclic_args (t :: l) =
  if decide (to_h t = h_lwip_cyclic_timer) then to_arg t :: cyclic_args l else cyclic_args l.
Proof. unfold cyclic_args. rewrite filter_cons. by destruct (decide _). Qed.

Section Fire.
Context (s : tstate) (t : sys_timeo) (rest : list sys_timeo).
Context (Hinv : timers_inv s) (Hl : next_timeout s = t :: rest) (Hdue : due n t <= 0).
(** The state in which the handler of [t] is called. *)
Let s1 : tstate := set_due (to_time t) (set_list rest s).
Let goal (c : M tstate unit) : Prop := exists s2, c s1 = Ok (tt, s2) /\ timers_inv s2 /\
  (total_weight n (next_timeout s2) < total_weight n (t :: rest))%nat /\
  cyclic_args (next_timeout s2) ≡ₚ cyclic_args (t :: rest).

Lemma fire_base : base_inv s1 /\ near n (to_time t) /\ entry_ok t /\
  tcp_pending (t :: rest) = if tcpip_tcp_timer_active s then 1%nat else 0%nat.
Proof using Hinv Hl.
  destruct Hinv as [Hn Hs He Ht Hc]. rewrite Hl in *. apply Forall_cons in Hn as [Hn1 Hn2].
  apply StronglySorted_inv in Hs as [Hs _]. apply Forall_cons in He as [He1 He2]. by split_and!.
Qed.

Lemma fire_quiet c : quiet c -> to_h t <> h_lwip_cyclic_timer -> to_h t <> h_tcpip_tcp_timer -> goal c.
Proof using Hinv Hl Hdue.
  intros Hq Hc Ht. destruct fire_base as ((B1 & B2 & B3 & B4) & Hn & He & Hp).
  destruct (Hq s1 B4) as (w & Hrun & Hw). eexists. split; [exact Hrun|]. cbn [next_timeout]. change (next_timeout s1) with rest in *.
  rewrite tcp_pending_cons, decide_False in Hp by done.
  rewrite cyclic_args_cons, decide_False, total_weight_cons by done.
  pose proof (weight_pos t Hdue). split_and!; [|lia|done]. by constructor.
Qed.

Lemma fire_cyclic : to_h t = h_lwip_cyclic_timer ->
  goal (lwip_cyclic_timer sys_now memp_malloc_ok cyclic_call (to_arg t)).
Proof using Hinv Hl Hdue malloc_ok cyclic_quiet.
  intros Hh. destruct fire_base as (B & Hn & He & Hp).
  destruct (lwip_cyclic_timer_spec s1 (to_arg t) B Hn Hdue (He Hh)) as (w & x & Hrun & Hw & Hxh & Hxa & Hxn & Hxw).
  eexists. split; [exact Hrun|]. cbn [next_timeout]. change (next_timeout s1) with rest in *.
  assert (entry_ok x) as Hex by (unfold entry_ok; rewrite Hxa; auto).
  destruct (insert_base s1 x B Hxn Hex) as (I1 & I2 & I3 & _).
  rewrite tcp_pending_cons, decide_False in Hp by congruence.
  split; [|split].
  - constructor; simpl; try done. rewrite insert_sorted_perm, tcp_pending_cons. by rewrite decide_False by congruence.
  - rewrite insert_sorted_perm, !total_weight_cons.
    assert (weight n (mkTimeo (to_time t) h_lwip_cyclic_timer (to_arg t)) = weight n t) as <- by done.
    change (current_timeout_due_time s1) with (to_time t) in Hxw. lia.
  - rewrite insert_sorted_perm, !cyclic_args_cons. rewrite !decide_True by done. by rewrite Hxa.
Qed.

Lemma fire_tcp : to_h t = h_tcpip_tcp_timer ->
  goal (tcpip_tcp_timer sys_now memp_malloc_ok tcp_pcbs cyclic_call (to_arg t)).
Proof using Hinv Hl Hdue malloc_ok cyclic_quiet.
  intros Hh. destruct fire_base as (B & Hn & He & Hp). pose proof B as (B1 & B2 & B3 & B4).
  rewrite tcp_pending_cons, decide_True in Hp by done.
  destruct (cyclic_quiet tcp_tmr s1 B4) as (w & Hrun & Hw). unfold goal, tcpip_tcp_timer.
  rewrite (bind_ok _ _ _ _ _ Hrun). unfold bind at 1. unfold get. cbn [ts_world].
  rewrite cyclic_args_cons, decide_False, total_weight_cons by congruence.
  pose proof (weight_pos t Hdue). set (s2 := mkTS _ _ _ w).
  destruct (tcp_pcbs w).
  - unfold sys_timeout. m_assert ltac:(done). unfold bind at 1. unfold now. change (ts_world s2) with w.
    destruct (rel_clock w TCP_TMR_INTERVAL Hw) as [Hxn Hxr]; [unfold TCP_TMR_INTERVAL; lia|].
    set (x := mkTimeo (u32_t (sys_now w + TCP_TMR_INTERVAL)) h_tcpip_tcp_timer 0).
    rewrite (sys_timeout_abs_spec memp_malloc_ok n) by done. fold x. eexists. split; [done|].
    destruct (insert_base s1 x B Hxn) as (I1 & I2 & I3 & _); [done|].
    assert (weight n x = 0%nat) as Hwx.
    { unfold weight, due. subst x. simpl to_time. rewrite Hxr. destruct Hw as [_ Hw].
      unfold TCP_TMR_INTERVAL in *. by destruct (Z.ltb_spec 0 (rel n (sys_now w) + 250)); [|lia]. }
    cbn [next_timeout set_list]. split; [|split].
    + constructor; simpl; try done. rewrite insert_sorted_perm, tcp_pending_cons. by rewrite decide_True.
    + rewrite insert_sorted_perm, total_weight_cons. change (next_timeout s2) with rest. lia.
    + rewrite insert_sorted_perm, cyclic_args_cons. by rewrite decide_False.
  - eexists. split; [done|]. cbn [next_timeout set_active]. split_and!; [|change (next_timeout s2) with rest; lia|done]. constructor; simpl; try done.
    destruct (tcpip_tcp_timer_active s); simpl in Hp; lia.
Qed.
End Fire.

(** ** [sys_check_timeouts] *)

Lemma check_timeouts_loop_spec fuel s :
  timers_inv s -> (total_weight n (next_timeout s) < fuel)%nat ->
  exists s', check_timeouts_loop sys_now memp_malloc_ok tcp_pcbs cyclic_call other_call
               pbuf_check_free_ooseq fuel n s = Ok (tt, s') /\
    timers_inv s' /\ Forall (fun t => 0 < due n t) (next_timeout s') /\
    cyclic_args (next_timeout s') ≡ₚ cyclic_args (next_timeout s).
Proof using malloc_ok cyclic_quiet other_quiet ooseq_quiet n_range.
  revert s. induction fuel as [|fuel IH]; intros s Hinv Hf; [lia|].
  cbn [check_timeouts_loop]. destruct (ooseq_quiet s (ti_clock _ Hinv)) as (w & Hrun & Hw).
  rewrite (bind_ok _ _ _ _ _ Hrun). unfold bind at 1. unfold get.
  set (s1 := mkTS _ _ _ w). assert (timers_inv s1) as Hinv1 by (destruct Hinv; by constructor).
  assert (next_timeout s = next_timeout s1) as Hsl by done. clearbody s1. rewrite Hsl in Hf |- *.
  destruct (next_timeout s1) as [|t rest] eqn:Hl.
  { exists s1. rewrite Hl. by split_and!. }
  pose proof (ti_near _ Hinv1) as Hn. rewrite Hl in Hn. apply Forall_cons in Hn as [Hnt _].
  pose proof (ti_sorted _ Hinv1) as Hs. rewrite Hl in Hs. apply StronglySorted_inv in Hs as [_ Hs].
  rewrite (time_less_rel n), rel_self by (done || apply near_self). fold (due n t).
  destruct (Z.ltb_spec 0 (due n t)) as [Hd|Hd].
  { exists s1. split_and!; [done|done| |by rewrite Hl]. rewrite Hl. constructor; [done|].
    eapply Forall_impl; [exact Hs|]. simpl. intros. lia. }
  assert (exists s2, call_handler sys_now memp_malloc_ok tcp_pcbs cyclic_call other_call (to_h t) (to_arg t)
      (set_due (to_time t) (set_list rest s1)) = Ok (tt, s2) /\ timers_inv s2 /\
      (total_weight n (next_timeout s2) < total_weight n (t :: rest))%nat /\
      cyclic_args (next_timeout s2) ≡ₚ cyclic_args (t :: rest)) as (s2 & Hcall & Hinv2 & Hw2 & Hc2).
  { destruct (to_h t) eqn:Hh; cbn [call_handler].
    - apply (fire_quiet s1 t rest Hinv1 Hl Hd (ret tt)); [|congruence..]. intros s' Hs'. by exists (ts_world s'); destruct s'.
    - by apply (fire_tcp s1 t rest).
    - by apply (fire_cyclic s1 t rest).
    - apply (fire_quiet s1 t rest Hinv1 Hl Hd); [done|congruence..]. }
  unfold bind at 1. unfold modify at 1. unfold bind at 1. unfold modify at 1.
  rewrite (bind_ok _ _ _ _ _ Hcall).
  destruct (IH s2 Hinv2 ltac:(lia)) as (s' & Hrun' & Hinv' & Hall & Hcyc).
  exists s'. split_and!; [done..|]. by rewrite Hcyc, Hc2.
Qed.

(** With handlers that leave the timer module alone, [sys_check_timeouts] returns
    after at most two calls per pending timer; then no pending timer is due, the
    cyclic timers are all still there, and the invariant holds. *)
Lemma sys_check_timeouts_spec s :
  timers_inv s -> sys_now (ts_world s) = n ->
  exists s', sys_check_timeouts sys_now memp_malloc_ok tcp_pcbs cyclic_call other_call
               pbuf_check_free_ooseq (2 * length (next_timeout s) + 1) s = Ok (tt, s') /\
    timers_inv s' /\ Forall (fun t => 0 < due n t) (next_timeout s') /\
    cyclic_args (next_timeout s') ≡ₚ cyclic_args (next_timeout s).
Proof using malloc_ok cyclic_quiet other_quiet ooseq_quiet n_range.
  intros Hinv Hnow. unfold sys_check_timeouts. unfold bind at 1. unfold now. rewrite Hnow.
  apply check_timeouts_loop_spec; [done|]. pose proof (total_weight_le n (next_timeout s)). lia.
Qed.

(** Starting the TCP timer on demand keeps "pending if and only if active". *)
Lemma tcp_timer_needed_spec s : timers_inv s -> sys_now (ts_world s) = n ->
  exists s', tcp_timer_needed sys_now memp_malloc_ok tcp_pcbs s = Ok (tt, s') /\ timers_inv s' /\
    (tcp_pcbs (ts_world s) = true -> tcp_pending (next_timeout s') = 1%nat) /\
    cyclic_args (next_timeout s') ≡ₚ cyclic_args (next_timeout s).
Proof using malloc_ok n_range.
  intros Hinv Hnow. pose proof Hinv as [Hn Hs He Ht Hc]. unfold tcp_timer_needed, get. unfold bind at 1.
  destruct (tcpip_tcp_timer_active s) eqn:Ea; cbn [negb andb].
  { exists s. split_and!; try done. }
  destruct (tcp_pcbs (ts_world s)); [|by exists s; split_and!].
  unfold bind at 1. unfold modify at 1.
  set (s1 := set_active true s). pose proof (sys_timeout_spec sys_now memp_malloc_ok s1 TCP_TMR_INTERVAL
    h_tcpip_tcp_timer 0) as Hrun. change (ts_world s1) with (ts_world s) in Hrun. rewrite Hnow in Hrun.
  rewrite Hrun by (done || unfold TCP_TMR_INTERVAL; lia).
  set (x := mkTimeo _ h_tcpip_tcp_timer 0). eexists. split; [done|].
  assert (near n (to_time x)) as Hx by (apply near_add; unfold TCP_TMR_INTERVAL; lia).
  destruct (insert_base s1 x) as (I1 & I2 & I3 & _); [by split_and!|done|done|].
  change (next_timeout s1) with (next_timeout s) in *. cbn [set_list next_timeout].
  assert (tcp_pending (insert_sorted n x (next_timeout s)) = 1%nat) as Hp.
  { rewrite insert_sorted_perm, tcp_pending_cons, decide_True by done. by rewrite Ht. }
  split_and!; [by constructor|done|]. rewrite insert_sorted_perm, cyclic_args_cons. by rewrite decide_False.
Qed.
End Check.

(** ** [sys_untimeout] *)

(** The first entry with that handler and argument is removed, nothing else. *)
Lemma untimeout_list_spec h arg l :
  (untimeout_list h arg l = l /\ forall t, t ∈ l -> ~ (to_h t = h /\ to_arg t = arg)) \/
  (exists l1 t l2, l = l1 ++ t :: l2 /\ untimeout_list h arg l = l1 ++ l2 /\ to_h t = h /\ to_arg t = arg /\
     forall x, x ∈ l1 -> ~ (to_h x = h /\ to_arg x = arg)).
Proof.
  induction l as [|t l IH]; simpl.
  { left. split; [done|]. intros t Ht. by apply elem_of_nil in Ht. }
  destruct (bool_decide (to_h t = h) && (to_arg t =? arg)) eqn:E.
  - apply andb_true_iff in E as [E1%bool_decide_eq_true E2%Z.eqb_eq].
    right. exists [], t, l. split_and!; try done. intros x Hx. by apply elem_of_nil in Hx.
  - assert (~ (to_h t = h /\ to_arg t = arg)) as Hne.
    { intros [E1 E2]. rewrite bool_decide_true in E by done. by rewrite E2, Z.eqb_refl in E. }
    destruct IH as [[-> IH]|(l1 & x & l2 & -> & -> & Hh & Ha & Hno)].
    + left. split; [done|]. by intros y [->|Hy]%elem_of_cons; [|apply IH].
    + right. exists (t :: l1), x, l2. split_and!; try done. by intros y [->|Hy]%elem_of_cons; [|apply Hno].
Qed.

(** ** [sys_restart_timeouts] *)

Lemma sys_restart_timeouts_spec {W} (sys_now : W -> Z) (s : @tstate W) n t0 rest :
  next_timeout s = t0 :: rest -> near_list n (t0 :: rest) -> sorted n (t0 :: rest) ->
  Forall (fun t => due n t - due n t0 < 1073741824) rest ->
  let n' := sys_now (ts_world s) in
  exists l', sys_restart_timeouts sys_now s = Ok (tt, set_list l' s) /\
    near_list n' l' /\ sorted n' l' /\
    (fun t => (due n' t, to_h t, to_arg t)) <$> l' =
    (fun t => (due n t - due n t0, to_h t, to_arg t)) <$> (t0 :: rest).
Proof.
  intros Hl Hn Hs Hspan n'. unfold sys_restart_timeouts, get. unfold bind at 1. rewrite Hl.
  unfold bind at 1. unfold now. fold n'. unfold modify. rewrite Hl.
  set (f := fun t => mkTimeo (u32_t (u32_t (to_time t - to_time t0) + n')) (to_h t) (to_arg t)).
  exists (f <$> (t0 :: rest)). split; [done|].
  apply Forall_cons in Hn as [Ht0 Hnr]. apply StronglySorted_inv in Hs as [Hs Hle].
  assert (forall t, near n (to_time t) -> 0 <= due n t - due n t0 < 1073741824 ->
    near n' (to_time (f t)) /\ due n' (f t) = due n t - due n t0) as Hf.
  { intros t [_ Ht] Hd. destruct (rel_unfold n (to_time t)) as (k & Ek & _), (rel_unfold n (to_time t0)) as (k0 & Ek0 & _).
    assert (to_time (f t) = u32_t (n' + (due n t - due n t0))) as Heq.
    { subst f. unfold due. rewrite Ek, Ek0. cbn [to_time]. unfold u32_t. rewrite Zplus_mod_idemp_l.
      rewrite <- (Z_mod_plus_full (to_time t - to_time t0 + n') (k - k0)). f_equal. lia. }
    unfold due at 1. rewrite Heq. split; [apply near_add; lia|apply rel_add; lia]. }
  assert (Forall (fun t => near n (to_time t) /\ 0 <= due n t - due n t0 < 1073741824) (t0 :: rest)) as Hall.
  { constructor; [split; [done|lia]|]. rewrite Forall_forall in Hnr, Hspan, Hle |- *. intros t Hin.
    specialize (Hnr t Hin). specialize (Hspan t Hin). specialize (Hle t Hin). simpl in *. split; [done|lia]. }
  split_and!.
  - apply Forall_fmap. eapply Forall_impl; [exact Hall|]. intros t [H1 H2]. by apply Hf.
  - assert (sorted n (t0 :: rest)) as Hs0 by (by constructor).
    clear - Hf Hall Hs0. induction Hs0 as [|t l Hs IH Hle]; [constructor|].
    apply Forall_cons in Hall as [[H1 H2] Hall]. simpl. constructor; [by apply IH|].
    apply Forall_fmap. rewrite Forall_forall in Hle, Hall |- *. intros x Hx. simpl.
    destruct (Hall x Hx) as [H3 H4]. destruct (Hf t H1 H2) as [_ ->], (Hf x H3 H4) as [_ ->].
    specialize (Hle x Hx). simpl in Hle. lia.
  - rewrite <- list_fmap_compose. apply list_fmap_ext. intros i t Hi.
    rewrite Forall_forall in Hall. destruct (Hall t) as [H1 H2]; [by eapply list_elem_of_lookup_2|].
    simpl. by destruct (Hf t H1 H2) as [_ ->].
Qed.
