(* ===== verification/Ip4Addr.v ===== *)
(** * IPv4 addresses: text form, netmasks, broadcast ([core/ipv4/ip4_addr.c])

    C strings are the lists of their characters without the terminating NUL. *)

From S2P Require Import Prelude Def IpAddr.

(** ** The part of [struct netif] used here *)

Definition NETIF_FLAG_BROADCAST : Z := 2.
Record netif4 := mkNetif4 { nif_flags : Z; nif_ip : ip4_addr; nif_netmask : ip4_addr }.

Definition u32_not (x : Z) : Z := u32_t (Z.lnot x).

Definition ip4_addr_isbroadcast_u32 (addr : Z) (netif : netif4) : Z :=
  if (u32_not addr =? IPADDR_ANY) || (addr =? IPADDR_ANY) then 1
  else if Z.land (nif_flags netif) NETIF_FLAG_BROADCAST =? 0 then 0
  else if addr =? nif_ip netif then 0
  else if ip4_addr_netcmp addr (nif_ip netif) (nif_netmask netif) &&
          (Z.land addr (u32_not (nif_netmask netif)) =?
           Z.land IPADDR_BROADCAST (u32_not (nif_netmask netif))) then 1
  else 0.

(** ** Netmasks *)

(** [for (; mask != 0; mask >>= 1) if ((nm & mask) == 0) break;] *)
Fixpoint netmask_ones (fuel : nat) (nm mask : Z) : Z :=
  match fuel with
  | O => mask
  | S fuel => if mask =? 0 then mask
              else if Z.land nm mask =? 0 then mask
              else netmask_ones fuel nm (Z.shiftr mask 1)
  end.
(** [for (; mask != 0; mask >>= 1) if ((nm & mask) != 0) return 0;] *)
Fixpoint netmask_zeros (fuel : nat) (nm mask : Z) : Z :=
  match fuel with
  | O => 1
  | S fuel => if mask =? 0 then 1
              else if negb (Z.land nm mask =? 0) then 0
              else netmask_zeros fuel nm (Z.shiftr mask 1)
  end.

Definition ip4_addr_netmask_valid (netmask : Z) : Z :=
  let nm_hostorder := lwip_htonl netmask in
  let mask := netmask_ones 33 nm_hostorder (Z.shiftl 1 31) in
  netmask_zeros 33 nm_hostorder mask.

(** ** [ip4addr_aton] *)

(** The digit loop: the value and the rest of the string. *)
Fixpoint aton_digits (base val : Z) (cp : list Z) : Z * list Z :=
  match cp with
  | [] => (val, [])
  | c :: r =>
      if lwip_isdigit c then aton_digits base (u32_t (u32_t (val * base) + (c - 48))) r
      else if (base =? 16) && lwip_isxdigit c then
        aton_digits base (Z.lor (u32_t (Z.shiftl val 4))
                                (u32_t (c + 10 - (if lwip_islower c then 97 else 65)))) r
      else (val, cp)
  end.

(** One number; [None] when it does not start with a digit. *)
Definition aton_number (cp : list Z) : option (Z * list Z) :=
  if negb (lwip_isdigit (chr cp)) then None else
  Some (if chr cp =? 48 then
          let cp := tail cp in
          if (chr cp =? 120) || (chr cp =? 88) then aton_digits 16 0 (tail cp)
          else aton_digits 8 0 cp
        else aton_digits 10 0 cp).

(** The parts before the last one, the last value and the rest of the string. *)
Fixpoint aton_parts (fuel : nat) (parts : list Z) (cp : list Z) : option (list Z * Z * list Z) :=
  match fuel with
  | O => None
  | S fuel =>
      match aton_number cp with
      | None => None
      | Some (val, cp) =>
          if chr cp =? 46 then
            if 3 <=? zlen parts then None else aton_parts fuel (parts ++ [val]) (tail cp)
          else Some (parts, val, cp)
      end
  end.

(** [Some addr] for a result of 1, [None] for 0. *)
Definition ip4addr_aton (cp : list Z) : option ip4_addr :=
  match aton_parts 4 [] cp with
  | None => None
  | Some (parts, val, cp) =>
      let c := chr cp in
      if negb (c =? 0) && negb (lwip_isspace c) then None else
      match parts with
      | [] => Some (lwip_htonl val)
      | [a] =>
          if 16777215 <? val then None else if 255 <? a then None
          else Some (lwip_htonl (Z.lor val (u32_t (Z.shiftl a 24))))
      | [a; b] =>
          if 65535 <? val then None else if (255 <? a) || (255 <? b) then None
          else Some (lwip_htonl (Z.lor val (Z.lor (u32_t (Z.shiftl a 24)) (u32_t (Z.shiftl b 16)))))
      | [a; b; c] =>
          if 255 <? val then None else if (255 <? a) || (255 <? b) || (255 <? c) then None
          else Some (lwip_htonl (Z.lor val (Z.lor (Z.lor (u32_t (Z.shiftl a 24)) (u32_t (Z.shiftl b 16)))
                                                  (u32_t (Z.shiftl c 8)))))
      | _ => None
      end
  end.

Definition ipaddr_addr (cp : list Z) : Z :=
  match ip4addr_aton cp with Some val => val | None => IPADDR_NONE end.

(** ** [ip4addr_ntoa_r] *)

(** [inv]: the digits of one byte, least significant first. *)
Fixpoint ntoa_inv (fuel : nat) (ap : Z) : list Z :=
  match fuel with
  | O => []
  | S fuel => (48 + ap mod 10) :: (if ap / 10 =? 0 then [] else ntoa_inv fuel (ap / 10))
  end.

(** Appending characters while they fit. *)
Fixpoint ntoa_put (buflen : Z) (cs out : list Z) : option (list Z) :=
  match cs with
  | [] => Some out
  | c :: cs => if buflen <=? zlen out then None else ntoa_put buflen cs (out ++ [c])
  end.

Fixpoint ntoa_bytes (buflen : Z) (ap : list Z) (out : list Z) : option (list Z) :=
  match ap with
  | [] => Some out
  | b :: ap =>
      match ntoa_put buflen (rev (ntoa_inv 3 b)) out with
      | None => None
      | Some out => match ntoa_put buflen [46] out with
                    | None => None
                    | Some out => ntoa_bytes buflen ap out
                    end
      end
  end.

(** The string in the buffer; the last ['.'] becomes the terminating NUL. *)
Definition ip4addr_ntoa_r (addr : ip4_addr) (buflen : Z) : option (list Z) :=
  match ntoa_bytes buflen (le32 addr) [] with
  | None => None
  | Some out => Some (removelast out)
  end.

Definition IP4ADDR_STRLEN_MAX : Z := 16.
Definition ip4addr_ntoa (addr : ip4_addr) : option (list Z) := ip4addr_ntoa_r addr IP4ADDR_STRLEN_MAX.

(** ** Netmask validity *)

Lemma land_pow2 nm i : 0 <= i -> (Z.land nm (2 ^ i) =? 0) = negb (Z.testbit nm i).
Proof.
  intros Hi. assert (Z.land nm (2 ^ i) = if Z.testbit nm i then 2 ^ i else 0) as ->.
  { apply Z.bits_inj'. intros j Hj. rewrite Z.land_spec, Z.pow2_bits_eqb by done.
    destruct (Z.eqb_spec i j) as [->|Hne].
    - rewrite andb_true_r. destruct (Z.testbit nm j); [by rewrite Z.pow2_bits_true|by rewrite Z.bits_0].
    - rewrite andb_false_r. destruct (Z.testbit nm i); [|by rewrite Z.bits_0].
      by rewrite Z.pow2_bits_false. }
  destruct (Z.testbit nm i); [|done]. apply Z.eqb_neq. pose proof (Z.pow_pos_nonneg 2 i). lia.
Qed.

Lemma shiftr_pow2 i : 0 < i -> Z.shiftr (2 ^ i) 1 = 2 ^ (i - 1).
Proof. intros. rewrite Z.shiftr_div_pow2 by lia. by rewrite <- Z.pow_sub_r by lia. Qed.

Lemma netmask_ones_spec fuel nm i : 0 <= i -> i + 2 <= Z.of_nat fuel ->
  let m := netmask_ones fuel nm (2 ^ i) in
  (m = 0 /\ forall j, 0 <= j <= i -> Z.testbit nm j = true) \/
  (exists j, 0 <= j <= i /\ m = 2 ^ j /\ Z.testbit nm j = false /\ forall x, j < x <= i -> Z.testbit nm x = true).
Proof.
  revert i. induction fuel as [|fuel IH]; intros i Hi Hf; [lia|]. cbn [netmask_ones].
  pose proof (Z.pow_pos_nonneg 2 i). destruct (Z.eqb_spec (2 ^ i) 0); [lia|].
  rewrite land_pow2 by done. destruct (Z.testbit nm i) eqn:Eb; cbn [negb].
  - destruct (decide (i = 0)) as [->|Hi0].
    + change (Z.shiftr (2 ^ 0) 1) with 0. left. split; [by destruct fuel|].
      intros j Hj. by replace j with 0 by lia.
    + rewrite shiftr_pow2 by lia. destruct (IH (i - 1)) as [[-> Hall]|(j & Hj & -> & Hz & Hall)]; [lia|lia| |].
      * left. split; [done|]. intros j Hj. destruct (decide (j = i)) as [->|]; [done|]. apply Hall. lia.
      * right. exists j. split_and!; [lia|lia|done|done|]. intros x Hx.
        destruct (decide (x = i)) as [->|]; [done|]. apply Hall. lia.
  - right. exists i. split_and!; try done; lia.
Qed.

Lemma netmask_zeros_spec fuel nm i : 0 <= i -> i + 2 <= Z.of_nat fuel ->
  (netmask_zeros fuel nm (2 ^ i) = 1 /\ forall j, 0 <= j <= i -> Z.testbit nm j = false) \/
  (netmask_zeros fuel nm (2 ^ i) = 0 /\ exists j, 0 <= j <= i /\ Z.testbit nm j = true).
Proof.
  revert i. induction fuel as [|fuel IH]; intros i Hi Hf; [lia|]. cbn [netmask_zeros].
  pose proof (Z.pow_pos_nonneg 2 i). destruct (Z.eqb_spec (2 ^ i) 0); [lia|].
  rewrite land_pow2 by done. destruct (Z.testbit nm i) eqn:Eb; cbn [negb].
  - right. split; [done|]. exists i. split; [lia|done].
  - destruct (decide (i = 0)) as [->|Hi0].
    + change (Z.shiftr (2 ^ 0) 1) with 0. left. split; [by destruct fuel|].
      intros j Hj. by replace j with 0 by lia.
    + rewrite shiftr_pow2 by lia. destruct (IH (i - 1)) as [[-> Hall]|(-> & j & Hj & Hz)]; [lia|lia| |].
      * left. split; [done|]. intros j Hj. destruct (decide (j = i)) as [->|]; [done|]. apply Hall. lia.
      * right. split; [done|]. exists j. split; [lia|done].
Qed.

(** A mask is a prefix of [k] ones. *)
Definition prefix_mask (nm k : Z) : Prop :=
  0 <= k <= 32 /\ forall i, 0 <= i < 32 -> Z.testbit nm i = (32 - k <=? i).

Lemma ip4_addr_netmask_valid_spec netmask :
  (ip4_addr_netmask_valid netmask = 1 /\ exists k, prefix_mask (lwip_htonl netmask) k) \/
  (ip4_addr_netmask_valid netmask = 0 /\ ~ exists k, prefix_mask (lwip_htonl netmask) k).
Proof.
  unfold ip4_addr_netmask_valid. set (nm := lwip_htonl netmask). change (Z.shiftl 1 31) with (2 ^ 31).
  destruct (netmask_ones_spec 33 nm 31) as [[-> Hall]|(j & Hj & -> & Hz & Hall)]; [lia|lia| |].
  { left. split; [done|]. exists 32. split; [lia|]. intros i Hi. rewrite Hall by lia. symmetry. apply Z.leb_le. lia. }
  destruct (netmask_zeros_spec 33 nm j) as [[-> Hzero]|(-> & x & Hx & Hone)]; [lia|lia| |].
  - left. split; [done|]. exists (31 - j). split; [lia|]. intros i Hi. destruct (decide (i <= j)).
    + rewrite Hzero by lia. symmetry. apply Z.leb_gt. lia.
    + rewrite Hall by lia. symmetry. apply Z.leb_le. lia.
  - right. split; [done|]. intros (k & Hk & Hpre). pose proof (Hpre j ltac:(lia)) as H1. pose proof (Hpre x ltac:(lia)) as H2.
    rewrite Hz in H1. rewrite Hone in H2. symmetry in H1, H2. bool_to_prop. lia.
Qed.

(** ** Printing and parsing *)

(** A property of all bytes can be checked by computation. *)
Lemma byte_forall (f : Z -> bool) : forallb f (seqZ 0 256) = true -> forall b, 0 <= b < 256 -> f b = true.
Proof.
  intros Hf b Hb. rewrite forallb_forall in Hf. apply Hf. apply list_elem_of_In, elem_of_seqZ. lia.
Qed.

Definition dec (b : Z) : list Z := rev (ntoa_inv 3 b).

Lemma dec_facts b : 0 <= b < 256 ->
  1 <= zlen (dec b) <= 3 /\ aton_number (dec b) = Some (b, []) /\
  (forall r, lwip_isdigit (chr (dec b ++ r)) = true /\ (chr (dec b ++ r) = 48 -> b = 0)).
Proof.
  intros Hb.
  pose (f := fun b => (1 <=? zlen (dec b)) && (zlen (dec b) <=? 3) &&
    bool_decide (aton_number (dec b) = Some (b, [])) && lwip_isdigit (chr (dec b)) &&
    (negb (chr (dec b) =? 48) || (b =? 0))).
  assert (f b = true) as H by (apply byte_forall; [by vm_compute|done]). unfold f in H.
  rewrite !andb_true_iff, bool_decide_eq_true, !Z.leb_le in H. destruct H as ((((H1 & H2) & H3) & H4) & H5).
  split_and!; auto. intros r. destruct (dec b) as [|c s] eqn:E; [done|].
  simpl. split; [done|]. simpl in H5. intros ->. simpl in H5. by apply Z.eqb_eq.
Qed.

Lemma aton_digits_app base val s v r : aton_digits base val s = (v, []) ->
  lwip_isdigit (chr r) = false -> lwip_isxdigit (chr r) = false -> aton_digits base val (s ++ r) = (v, r).
Proof.
  intros Hs Hd Hx. revert val Hs. induction s as [|c s IH]; intros val Hs; simpl in *.
  - injection Hs as ->. destruct r as [|c r]; [done|]. simpl in *. by rewrite Hd, Hx, andb_false_r.
  - destruct (lwip_isdigit c); [by apply IH|]. destruct ((base =? 16) && lwip_isxdigit c); [by apply IH|done].
Qed.

(** A printed byte, followed by a dot or the end, is read back. *)
Lemma aton_number_dec b r : 0 <= b < 256 -> chr r = 46 \/ r = [] ->
  aton_number (dec b ++ r) = Some (b, r).
Proof.
  intros Hb Hr. destruct (dec_facts b Hb) as (Hlen & Hnum & Hchr).
  assert (lwip_isdigit (chr r) = false /\ lwip_isxdigit (chr r) = false /\
          chr r <> 120 /\ chr r <> 88) as (Hd & Hx & Hx1 & Hx2).
  { destruct Hr as [-> | ->]; done. }
  destruct (Hchr r) as [Hdig Hz]. unfold aton_number in *. rewrite Hdig. cbn [negb].
  destruct (Hchr []) as [Hdig0 Hz0]. rewrite app_nil_r in *. rewrite Hdig0 in Hnum. cbn [negb] in Hnum.
  assert (chr (dec b ++ r) = chr (dec b)) as Hc by (by destruct (dec b)).
  rewrite Hc in *. destruct (Z.eqb_spec (chr (dec b)) 48) as [E|E].
  - rewrite (Hz0 E). change (dec 0) with [48]. cbn [app tail].
    destruct (Z.eqb_spec (chr r) 120); [done|]. destruct (Z.eqb_spec (chr r) 88); [done|]. cbn [orb].
    f_equal. by apply (aton_digits_app 8 0 []).
  - f_equal. injection Hnum as Hnum. by apply aton_digits_app.
Qed.

Lemma ntoa_put_spec buflen cs out : zlen out <= buflen ->
  ntoa_put buflen cs out = if zlen out + zlen cs <=? buflen then Some (out ++ cs) else None.
Proof.
  revert out. induction cs as [|c cs IH]; intros out Hle; cbn [ntoa_put].
  - rewrite zlen_nil, app_nil_r, Z.add_0_r. by destruct (Z.leb_spec (zlen out) buflen); [|lia].
  - rewrite zlen_cons. pose proof (zlen_nonneg cs). destruct (Z.leb_spec buflen (zlen out)).
    + by destruct (Z.leb_spec (zlen out + (1 + zlen cs)) buflen); [lia|].
    + rewrite IH by (rewrite zlen_app, zlen_cons, zlen_nil; lia).
      rewrite zlen_app, zlen_cons, zlen_nil, <- (assoc_L (++)).
      by replace (zlen out + (1 + 0) + zlen cs) with (zlen out + (1 + zlen cs)) by lia.
Qed.

Definition dotted_bytes (bs : list Z) : list Z := concat ((fun b => dec b ++ [46]) <$> bs).

Lemma ntoa_bytes_spec buflen bs out : zlen out <= buflen ->
  ntoa_bytes buflen bs out =
    if zlen out + zlen (dotted_bytes bs) <=? buflen then Some (out ++ dotted_bytes bs) else None.
Proof.
  revert out. induction bs as [|b bs IH]; intros out Hle.
  - unfold dotted_bytes. simpl. rewrite app_nil_r, Z.add_0_r. by destruct (Z.leb_spec (zlen out) buflen); [|lia].
  - cbn [ntoa_bytes]. fold (dec b). change (dotted_bytes (b :: bs)) with ((dec b ++ [46]) ++ dotted_bytes bs).
    pose proof (zlen_nonneg (dotted_bytes bs)). pose proof (zlen_nonneg (dec b)).
    rewrite ntoa_put_spec by done. rewrite !zlen_app. change (zlen [46]) with 1.
    destruct (Z.leb_spec (zlen out + zlen (dec b)) buflen).
    2:{ by destruct (Z.leb_spec (zlen out + (zlen (dec b) + 1 + zlen (dotted_bytes bs))) buflen); [lia|]. }
    rewrite ntoa_put_spec by (rewrite zlen_app; lia). rewrite zlen_app. change (zlen [46]) with 1.
    destruct (Z.leb_spec (zlen out + zlen (dec b) + 1) buflen).
    2:{ by destruct (Z.leb_spec (zlen out + (zlen (dec b) + 1 + zlen (dotted_bytes bs))) buflen); [lia|]. }
    rewrite IH by (rewrite !zlen_app; change (zlen [46]) with 1; lia).
    rewrite !zlen_app. change (zlen [46]) with 1. rewrite <- !(assoc_L (++)).
    by replace (zlen out + zlen (dec b) + 1 + zlen (dotted_bytes bs))
      with (zlen out + (zlen (dec b) + 1 + zlen (dotted_bytes bs))) by lia.
Qed.

(** The text of an address: four decimal numbers separated by dots. *)
Definition dotted (addr : ip4_addr) : list Z :=
  match le32 addr with
  | [a; b; c; d] => dec a ++ 46 :: dec b ++ 46 :: dec c ++ 46 :: dec d
  | _ => []
  end.

Lemma byte_le32 addr : exists a b c d, le32 addr = [a; b; c; d] /\
  0 <= a < 256 /\ 0 <= b < 256 /\ 0 <= c < 256 /\ 0 <= d < 256.
Proof. unfold le32. do 4 eexists. split; [done|]. split_and!; dlia. Qed.

Lemma dotted_len addr : 7 <= zlen (dotted addr) <= 15.
Proof.
  unfold dotted. destruct (byte_le32 addr) as (a & b & c & d & -> & Ha & Hb & Hc & Hd).
  apply dec_facts in Ha as [Ha _], Hb as [Hb _], Hc as [Hc _], Hd as [Hd _].
  rewrite !zlen_app, !zlen_cons, !zlen_app, !zlen_cons, !zlen_app, !zlen_cons. lia.
Qed.

Lemma ip4addr_ntoa_r_spec addr buflen : 0 <= buflen ->
  ip4addr_ntoa_r addr buflen = if zlen (dotted addr) <? buflen then Some (dotted addr) else None.
Proof.
  intros Hb0. unfold ip4addr_ntoa_r. rewrite ntoa_bytes_spec by done. rewrite zlen_nil, Z.add_0_l. simpl app.
  assert (dotted_bytes (le32 addr) = dotted addr ++ [46]) as ->.
  { unfold dotted. destruct (byte_le32 addr) as (a & b & c & d & -> & _).
    unfold dotted_bytes. cbn. by list_simplifier. }
  rewrite zlen_app. change (zlen [46]) with 1.
  destruct (Z.leb_spec (zlen (dotted addr) + 1) buflen), (Z.ltb_spec (zlen (dotted addr)) buflen);
    rewrite ?removelast_last; done || lia.
Qed.

Lemma aton_parts_dot fuel parts b r : 0 <= b < 256 -> zlen parts < 3 ->
  aton_parts (S fuel) parts (dec b ++ 46 :: r) = aton_parts fuel (parts ++ [b]) r.
Proof.
  intros Hb Hp. cbn [aton_parts]. rewrite aton_number_dec by (done || by left). cbn [chr tail].
  change (46 =? 46) with true. by destruct (Z.leb_spec 3 (zlen parts)); [lia|].
Qed.
Lemma aton_parts_end fuel parts b : 0 <= b < 256 -> aton_parts (S fuel) parts (dec b) = Some (parts, b, []).
Proof.
  intros Hb. cbn [aton_parts]. rewrite <- (app_nil_r (dec b)). by rewrite aton_number_dec by (done || by right).
Qed.

(** Reading a printed address gives it back. *)
Lemma ip4addr_aton_dotted addr : u32_ok addr -> ip4addr_aton (dotted addr) = Some addr.
Proof.
  intros Hok. unfold dotted. destruct (byte_le32 addr) as (a & b & c & d & E & Ha & Hb & Hc & Hd).
  rewrite E. unfold ip4addr_aton. rewrite !aton_parts_dot, aton_parts_end by done.
  cbn [app chr Z.eqb negb andb].
  destruct (Z.ltb_spec 255 d), (Z.ltb_spec 255 a), (Z.ltb_spec 255 b), (Z.ltb_spec 255 c); try lia. cbn [orb].
  f_equal. rewrite shiftl24, shiftl16, shiftl8, !u32_t_id by lia.
  rewrite (Z.lor_comm d). rewrite (lor_add24 a) by lia.
  replace (a * 16777216 + b * 65536) with ((a * 256 + b) * 65536) by lia. rewrite lor_add16 by lia.
  replace ((a * 256 + b) * 65536 + c * 256) with (((a * 256 + b) * 256 + c) * 256) by lia.
  rewrite lor_add8 by lia.
  rewrite lwip_htonl_arith. unfold le32 in E. injection E as <- <- <- <-.
  unfold u32_ok in Hok. dlia.
Qed.

(** ** Broadcast *)

Lemma testbit_high x i : u32_ok x -> 32 <= i -> Z.testbit x i = false.
Proof.
  intros Hx Hi. unfold u32_ok in Hx. rewrite <- (Z.mod_small x (2 ^ 32)) by lia.
  apply Z.mod_pow2_bits_high. lia.
Qed.

Lemma testbit_u32_not m i : 0 <= i -> Z.testbit (u32_not m) i = (i <? 32) && negb (Z.testbit m i).
Proof.
  intros Hi. unfold u32_not, u32_t. change 4294967296 with (2 ^ 32). destruct (Z.ltb_spec i 32).
  - by rewrite Z.mod_pow2_bits_low, Z.lnot_spec by lia.
  - by rewrite Z.mod_pow2_bits_high by lia.
Qed.

Lemma same_subnet_broadcast addr ip m : u32_ok addr -> u32_ok ip -> u32_ok m ->
  (Z.land addr m = Z.land ip m /\ Z.land addr (u32_not m) = Z.land IPADDR_BROADCAST (u32_not m)) <->
  addr = Z.lor (Z.land ip m) (u32_not m).
Proof.
  intros Ha Hi Hm. split.
  - intros [H1 H2]. apply Z.bits_inj'. intros i Hi0.
    pose proof (f_equal (fun x => Z.testbit x i) H1) as B1. pose proof (f_equal (fun x => Z.testbit x i) H2) as B2.
    simpl in B1, B2. rewrite !Z.land_spec in B1, B2. rewrite !testbit_u32_not in B2 by done.
    change IPADDR_BROADCAST with (Z.ones 32) in B2.
    rewrite Z.lor_spec, Z.land_spec, testbit_u32_not by done. destruct (Z.ltb_spec i 32) in B2 |- *.
    + rewrite Z.ones_spec_low in B2 by lia. destruct (Z.testbit addr i), (Z.testbit ip i), (Z.testbit m i); done.
    + rewrite (testbit_high addr), (testbit_high ip) by done. done.
  - intros ->. split; apply Z.bits_inj'; intros i Hi0;
      rewrite !Z.land_spec, !Z.lor_spec, !Z.land_spec, !testbit_u32_not by done.
    + destruct (Z.testbit ip i), (Z.testbit m i), (i <? 32); done.
    + change IPADDR_BROADCAST with (Z.ones 32). destruct (Z.ltb_spec i 32).
      * rewrite Z.ones_spec_low by lia. destruct (Z.testbit ip i), (Z.testbit m i); done.
      * by rewrite !andb_false_r.
Qed.

(** On a broadcast interface an address other than all zeroes and all ones is a
    broadcast address exactly if it is the network part of the interface's address
    with all host bits set, and not the interface's own address. *)
Lemma ip4_addr_isbroadcast_spec addr nif : u32_ok addr -> u32_ok (nif_ip nif) -> u32_ok (nif_netmask nif) ->
  Z.land (nif_flags nif) NETIF_FLAG_BROADCAST <> 0 -> addr <> 0 -> addr <> IPADDR_BROADCAST ->
  ip4_addr_isbroadcast_u32 addr nif =
    if negb (addr =? nif_ip nif) &&
       (addr =? Z.lor (Z.land (nif_ip nif) (nif_netmask nif)) (u32_not (nif_netmask nif)))
    then 1 else 0.
Proof.
  intros Ha Hi Hm Hfl H0 H1. unfold ip4_addr_isbroadcast_u32.
  assert (u32_not addr <> 0) as Hn.
  { unfold u32_not, u32_t, Z.lnot, u32_ok, IPADDR_BROADCAST in *. dlia. }
  destruct (Z.eqb_spec (u32_not addr) IPADDR_ANY); [done|]. destruct (Z.eqb_spec addr IPADDR_ANY); [done|]. cbn [orb].
  destruct (Z.eqb_spec (Z.land (nif_flags nif) NETIF_FLAG_BROADCAST) 0); [done|].
  destruct (Z.eqb_spec addr (nif_ip nif)); [done|]. cbn [negb andb]. unfold ip4_addr_netcmp.
  pose proof (same_subnet_broadcast addr (nif_ip nif) (nif_netmask nif) Ha Hi Hm) as Hiff.
  set (m := nif_netmask nif) in *. set (ip := nif_ip nif) in *.
  destruct (Z.eqb_spec (Z.land addr m) (Z.land ip m)), (Z.eqb_spec (Z.land addr (u32_not m))
    (Z.land IPADDR_BROADCAST (u32_not m))), (Z.eqb_spec addr (Z.lor (Z.land ip m) (u32_not m))); cbn [andb]; tauto.
Qed.

(** * Properties of the IPv4 address functions *)

(** printing an IPv4 address with [ip4addr_ntoa_r] succeeds exactly when the text
    and its terminator fit into the buffer, a buffer of [IP4ADDR_STRLEN_MAX] always
    suffices, and [ip4addr_aton] reads every printed address back. *)
Theorem ip4addr_ntoa_aton addr buflen : u32_ok addr -> 0 <= buflen ->
  (ip4addr_ntoa_r addr buflen = None <-> buflen <= zlen (dotted addr)) /\
  zlen (dotted addr) < IP4ADDR_STRLEN_MAX /\
  (forall s, ip4addr_ntoa_r addr buflen = Some s -> zlen s < buflen /\ ip4addr_aton s = Some addr).
Proof.
  intros Ha Hb. rewrite ip4addr_ntoa_r_spec by done. pose proof (dotted_len addr).
  destruct (Z.ltb_spec (zlen (dotted addr)) buflen) as [Hlt|Hge].
  - split; [split; [done|lia]|]. split; [unfold IP4ADDR_STRLEN_MAX; lia|].
    intros s [= <-]. split; [done|]. by apply ip4addr_aton_dotted.
  - split; [done|]. split; [unfold IP4ADDR_STRLEN_MAX; lia|done].
Qed.

Lemma ip4addr_ntoa_aton_ex : exists s, ip4addr_ntoa_r (IP4_ADDR 192 168 0 1) 16 = Some s /\
  ip4addr_aton s = Some (IP4_ADDR 192 168 0 1).
Proof.
  exists (dotted (IP4_ADDR 192 168 0 1)). split; [by vm_compute|].
  apply (ip4addr_ntoa_aton (IP4_ADDR 192 168 0 1) 16); [vm_compute; done|done|by vm_compute].
Defined.

(** [ip4_addr_netmask_valid] accepts exactly the masks that are a run of ones
    followed by zeros in host order, from 0.0.0.0 to 255.255.255.255. *)
Theorem ip4_addr_netmask_valid_iff netmask :
  (ip4_addr_netmask_valid netmask = 1 <-> exists k, prefix_mask (lwip_htonl netmask) k) /\
  (ip4_addr_netmask_valid netmask = 0 <-> ~ exists k, prefix_mask (lwip_htonl netmask) k).
Proof.
  destruct (ip4_addr_netmask_valid_spec netmask) as [[-> H]|[-> H]]; split; split; done.
Qed.

(** on an interface with broadcast support an address other than 0.0.0.0 and
    255.255.255.255 is a broadcast address exactly when it is the interface's network
    with all host bits set and not the interface's own address. *)
Theorem ip4_addr_isbroadcast_subnet addr nif : u32_ok addr -> u32_ok (nif_ip nif) -> u32_ok (nif_netmask nif) ->
  Z.land (nif_flags nif) NETIF_FLAG_BROADCAST <> 0 -> addr <> 0 -> addr <> IPADDR_BROADCAST ->
  ip4_addr_isbroadcast_u32 addr nif =
    if negb (addr =? nif_ip nif) &&
       (addr =? Z.lor (Z.land (nif_ip nif) (nif_netmask nif)) (u32_not (nif_netmask nif)))
    then 1 else 0.
Proof. apply ip4_addr_isbroadcast_spec. Qed.

Lemma ip4_addr_isbroadcast_subnet_ex :
  ip4_addr_isbroadcast_u32 (IP4_ADDR 10 0 0 255) (mkNetif4 2 (IP4_ADDR 10 0 0 7) (IP4_ADDR 255 255 255 0)) = 1.
Proof. rewrite ip4_addr_isbroadcast_subnet; vm_compute; done. Defined.

(** [ip4addr_aton] does not detect numbers that overflow 32 bits:
    "4294967297.2.3.4" is read as 1.2.3.4. *)
Theorem ip4addr_aton_overflow :
  ip4addr_aton ([52; 50; 57; 52; 57; 54; 55; 50; 57; 55] ++ [46; 50; 46; 51; 46; 52]) = Some (IP4_ADDR 1 2 3 4).
Proof. by vm_compute. Qed.
