(* ===== verification/Tcp.v ===== *)
(** * TCP: data model and helpers ([tcp.h], [priv/tcp_priv.h], [prot/tcp.h], [tcp.c])

    Sequence-number comparison, the protocol control block and its segments, and
    the helpers of [tcp.c] the input path calls.

    A segment's [struct tcp_hdr] is represented by the fields the code reads after
    [tcp_input] put them in host byte order (sequence number and flags); the data of
    a segment is the list of the payloads of its pbufs, [[]] being the [NULL] chain.
    The operations on such chains used here ([pbuf_cat], [pbuf_realloc],
    [pbuf_remove_header]) are what [PbufMut] proves of [pbuf.c] on the heap: append,
    truncate, drop.  Freeing a segment has no effect on values.

    Questions the code puts to the world outside TCP (does [malloc] succeed, which
    [err_t] does the IP layer answer, does a driver still hold the pbuf) are answered
    by an oracle, a list of integers consumed from the front ([0] when exhausted);
    every theorem is for all oracles. *)

From S2P Require Import Prelude Def IpAddr.

(** ** Sequence numbers *)

Definition TCP_SEQ_LT (a b : Z) : bool := s32_t (u32_t a - u32_t b) <? 0.
Definition TCP_SEQ_LEQ (a b : Z) : bool := s32_t (u32_t a - u32_t b) <=? 0.
Definition TCP_SEQ_GT (a b : Z) : bool := 0 <? s32_t (u32_t a - u32_t b).
Definition TCP_SEQ_GEQ (a b : Z) : bool := 0 <=? s32_t (u32_t a - u32_t b).
Definition TCP_SEQ_BETWEEN (a b c : Z) : bool := TCP_SEQ_GEQ a b && TCP_SEQ_LEQ a c.

(** ** Constants *)

Definition TCP_FIN : Z := 1.
Definition TCP_SYN : Z := 2.
Definition TCP_RST : Z := 4.
Definition TCP_PSH : Z := 8.
Definition TCP_ACK : Z := 16.

Definition TF_ACK_DELAY : Z := 1.
Definition TF_ACK_NOW : Z := 2.
Definition TF_INFR : Z := 4.
Definition TF_CLOSEPEND : Z := 8.
Definition TF_RXCLOSED : Z := 16.
Definition TF_FIN : Z := 32.
Definition TF_NODELAY : Z := 64.
Definition TF_NAGLEMEMERR : Z := 128.
Definition TF_RTO : Z := 2048.

(** [recv_flags] of the input path. *)
Definition TF_RESET : Z := 8.
Definition TF_CLOSED : Z := 16.
Definition TF_GOT_FIN : Z := 32.

Definition TCP_HLEN : Z := 20.
Definition TCP_MSS : Z := 1460.
Definition TCP_WND : Z := 32768.
Definition TCP_SND_BUF : Z := TCP_WND.
Definition TCP_SYNMAXRTX : Z := 6.
Definition TCP_WND_UPDATE_THRESHOLD : Z := Z.min (TCP_WND / 4) (TCP_MSS * 4).

Definition ERR_OK : Z := 0.
Definition ERR_MEM : Z := -1.
Definition ERR_BUF : Z := -2.
Definition ERR_RTE : Z := -4.
Definition ERR_INPROGRESS : Z := -5.
Definition ERR_VAL : Z := -6.
Definition ERR_ABRT : Z := -13.
Definition ERR_RST : Z := -14.
Definition ERR_CLSD : Z := -15.

(** [flags & bit], as a condition. *)
Definition has (flags bit : Z) : bool := negb (Z.land flags bit =? 0).
(** [flags & ~bit] on the flag words (bits of the [u16_t] and wider are kept). *)
Definition clear_bits (flags bits : Z) : Z := Z.ldiff flags bits.

(** ** Packets: chains of payloads *)

Definition pkt : Type := list (list Z).
Definition pkt_bytes (p : pkt) : list Z := concat p.
Definition pkt_clen (p : pkt) : Z := u16_t (zlen p).

(** [p->tot_len]; reading it through [NULL] is a fault. *)
Definition pkt_tot_len {S} (p : pkt) : M S Z :=
  match p with [] => fail BadAccess | _ => ret (u16_t (zlen (pkt_bytes p))) end.

(** [pbuf_realloc(p, new_len)] for [new_len < tot_len]: the walk of [pbuf.c] to the
    pbuf that holds the new end, which becomes the last one of the chain. *)
Fixpoint pkt_cut (p : pkt) (rem_len : Z) : pkt :=
  match p with
  | [] => []
  | c :: cs => if zlen c <? rem_len then c :: pkt_cut cs (rem_len - zlen c) else [ztake rem_len c]
  end.
Definition pkt_realloc (p : pkt) (new_len : Z) : pkt :=
  if zlen (pkt_bytes p) <=? new_len then p else pkt_cut p new_len.

(** ** Segments *)

Record tcp_seg := mkSeg {
  seg_seqno : Z;       (* tcphdr->seqno *)
  seg_flags : Z;       (* TCPH_FLAGS(tcphdr) *)
  seg_len : Z;         (* len *)
  seg_p : pkt;         (* p *)
  oversize_left : Z;
  seg_optflags : Z;    (* flags: TF_SEG_OPTS_MSS, TF_SEG_DATA_CHECKSUMMED *)
  seg_chksum : Z;
  seg_chksum_swapped : bool
}.
#[export] Instance tcp_seg_fields : Fields tcp_seg := fun s =>
  mkSeg (seg_seqno s) (seg_flags s) (seg_len s) (seg_p s) (oversize_left s)
    (seg_optflags s) (seg_chksum s) (seg_chksum_swapped s).

Definition TCP_TCPLEN (s : tcp_seg) : Z :=
  seg_len s + (if has (seg_flags s) (Z.lor TCP_FIN TCP_SYN) then 1 else 0).

(** ** Protocol control blocks *)

Inductive tcp_state :=
| CLOSED | LISTEN | SYN_SENT | SYN_RCVD | ESTABLISHED | FIN_WAIT_1 | FIN_WAIT_2
| CLOSE_WAIT | CLOSING | LAST_ACK | TIME_WAIT.

#[global] Instance tcp_state_eq_dec : EqDecision tcp_state.
Proof. solve_decision. Defined.

(** The numbers of [enum tcp_state], used by the comparisons of the code. *)
Definition state_num (s : tcp_state) : Z :=
  match s with
  | CLOSED => 0 | LISTEN => 1 | SYN_SENT => 2 | SYN_RCVD => 3 | ESTABLISHED => 4
  | FIN_WAIT_1 => 5 | FIN_WAIT_2 => 6 | CLOSE_WAIT => 7 | CLOSING => 8 | LAST_ACK => 9
  | TIME_WAIT => 10
  end.
Definition state_is (s t : tcp_state) : bool := state_num s =? state_num t.

Record tcp_pcb := mkPcb {
  local_ip : ip_addr; remote_ip : ip_addr; local_port : Z; remote_port : Z;
  state : tcp_state; flags : Z;
  (* timers *)
  polltmr : Z; tmr : Z;
  (* receiver variables *)
  rcv_nxt : Z; rcv_wnd : Z; rcv_ann_wnd : Z; rcv_ann_right_edge : Z;
  (* retransmission timer, RTT estimation *)
  rtime : Z; mss : Z; rttest : Z; rtseq : Z; sa : Z; sv : Z; rto : Z; nrtx : Z;
  (* fast retransmit, congestion control *)
  dupacks : Z; lastack : Z; cwnd : Z; ssthresh : Z; rto_end : Z;
  (* sender variables *)
  snd_nxt : Z; snd_wl1 : Z; snd_wl2 : Z; snd_lbb : Z; snd_wnd : Z; snd_wnd_max : Z;
  snd_buf : Z; snd_queuelen : Z; unsent_oversize : Z; bytes_acked : Z;
  (* queues *)
  unsent : list tcp_seg; unacked : list tcp_seg; ooseq : list tcp_seg;
  refused_data : pkt; refused_fin : bool;  (* PBUF_FLAG_TCP_FIN of refused_data *)
  listener : Z;
  persist_cnt : Z; persist_backoff : Z; persist_probe : Z; keep_cnt_sent : Z
}.
#[export] Instance tcp_pcb_fields : Fields tcp_pcb := fun p =>
  mkPcb (local_ip p) (remote_ip p) (local_port p) (remote_port p) (state p) (flags p)
    (polltmr p) (tmr p) (rcv_nxt p) (rcv_wnd p) (rcv_ann_wnd p) (rcv_ann_right_edge p)
    (rtime p) (mss p) (rttest p) (rtseq p) (sa p) (sv p) (rto p) (nrtx p)
    (dupacks p) (lastack p) (cwnd p) (ssthresh p) (rto_end p)
    (snd_nxt p) (snd_wl1 p) (snd_wl2 p) (snd_lbb p) (snd_wnd p) (snd_wnd_max p)
    (snd_buf p) (snd_queuelen p) (unsent_oversize p) (bytes_acked p)
    (unsent p) (unacked p) (ooseq p) (refused_data p) (refused_fin p) (listener p)
    (persist_cnt p) (persist_backoff p) (persist_probe p) (keep_cnt_sent p).

(** A segment handed to [ip_output_if], header fields in host byte order; [o_opts] are
    the option bytes. *)
Record tcp_out := mkOut {
  o_src : Z; o_dest : Z; o_seqno : Z; o_ackno : Z; o_flags : Z; o_wnd : Z;
  o_opts : list Z; o_data : list Z
}.

(** A call of one of the functions the application registered with the control block
    ([accept], [connected], [recv], [sent], [errf]); [ret] is what [recv] answered. *)
Inductive tcp_event :=
| EvAccept (err : Z)
| EvConnected (err : Z)
| EvRecv (p : pkt) (ret : Z)
| EvClosed
| EvSent (len : Z)
| EvErr (err : Z).

(** ** The state of the input path

    [st_pcb] is the control block the segment was demultiplexed to; the others are
    the file-scope variables of [tcp_in.c] and [tcp.c] and the two ends of the model:
    the segments sent so far, the callbacks made so far and the oracle.  [tcp_input_pcb]
    is the address of the control block being processed ([0] for [NULL]), [pcb_freed]
    says that [st_pcb] has been given back by [tcp_free], [other_state] holds the states
    of the other control blocks, [netif_local_ip] is the answer
    of [ip_netif_get_local_ip].  [tcphdr_opts] is the memory that can be
    read behind the fixed header in the first pbuf, [tcphdr_opt2] that of the second
    pbuf when the options continue there. *)
Record tcp_st := mkSt {
  st_pcb : tcp_pcb; pcb_addr : Z;
  inseg : tcp_seg; seqno : Z; ackno : Z; recv_acked : Z; tcplen : Z; in_flags : Z;
  in_src : Z; in_dest : Z; in_wnd : Z; in_is_v6 : bool;
  recv_flags : Z; recv_data : pkt;
  tcphdr_opts : list Z; tcphdr_optlen : Z; tcphdr_opt1len : Z; tcphdr_opt2 : option (list Z); tcp_optidx : Z;
  tcp_ticks : Z;
  tcp_active_pcbs : list Z; tcp_tw_pcbs : list Z; tcp_bound_pcbs : list Z; tcp_active_pcbs_changed : bool;
  tcp_input_pcb : Z; pcb_freed : bool; other_state : gmap Z tcp_state; netif_local_ip : option ip_addr;
  sent : list tcp_out; events : list tcp_event; nd6_hints : Z; timer_needed_calls : Z; oracle : list Z
}.
#[export] Instance tcp_st_fields : Fields tcp_st := fun s =>
  mkSt (st_pcb s) (pcb_addr s) (inseg s) (seqno s) (ackno s) (recv_acked s) (tcplen s) (in_flags s)
    (in_src s) (in_dest s) (in_wnd s) (in_is_v6 s) (recv_flags s) (recv_data s)
    (tcphdr_opts s) (tcphdr_optlen s) (tcphdr_opt1len s) (tcphdr_opt2 s) (tcp_optidx s) (tcp_ticks s)
    (tcp_active_pcbs s) (tcp_tw_pcbs s) (tcp_bound_pcbs s) (tcp_active_pcbs_changed s)
    (tcp_input_pcb s) (pcb_freed s) (other_state s) (netif_local_ip s) (sent s) (events s) (nd6_hints s)
    (timer_needed_calls s) (oracle s).

Definition TM := M tcp_st.

Definition gets {A} (f : tcp_st -> A) : TM A := fun s => Ok (f s, s).
Definition getp {A} (f : tcp_pcb -> A) : TM A := fun s => Ok (f (st_pcb s), s).
Definition modp (f : tcp_pcb -> tcp_pcb) : TM unit := fun s => Ok (tt, s <| st_pcb := f (st_pcb s) |>).
Definition when (b : bool) (m : TM unit) : TM unit := if b then m else ret tt.

(** The next answer of the oracle. *)
Definition ask : TM Z := fun s =>
  match oracle s with
  | [] => Ok (0, s)
  | z :: zs => Ok (z, s <| oracle := zs |>)
  end.

Definition tcp_set_flags (set : Z) : TM unit := modp (fun p => p <| flags := Z.lor (flags p) set |>).
Definition tcp_clear_flags (bits : Z) : TM unit := modp (fun p => p <| flags := clear_bits (flags p) bits |>).
Definition tcp_ack_now : TM unit := tcp_set_flags TF_ACK_NOW.
Definition tcp_ack : TM unit :=
  let* f := getp flags in
  if has f TF_ACK_DELAY then tcp_clear_flags TF_ACK_DELAY ;;; tcp_ack_now
  else tcp_set_flags TF_ACK_DELAY.

(** [TCP_WND_INC(wnd, inc)] on a [u16_t] window: saturating addition. *)
Definition TCP_WND_INC (wnd inc : Z) : Z :=
  if wnd <=? u16_t (wnd + inc) then u16_t (wnd + inc) else 65535.

(** [tcp_seg_copy]: the pbuf and the header are shared with the original, which the
    input path does not touch again; [None] when [memp_malloc] fails. *)
Definition tcp_seg_copy (seg : tcp_seg) : TM (option tcp_seg) :=
  let* fails := ask in
  if fails =? 0 then ret (Some seg) else ret None.

(** [tcp_update_rcv_ann_wnd]. *)
Definition tcp_update_rcv_ann_wnd : TM Z :=
  let* nxt := getp rcv_nxt in
  let* wnd := getp rcv_wnd in
  let* edge := getp rcv_ann_right_edge in
  let* m := getp mss in
  let new_right_edge := u32_t (nxt + wnd) in
  if TCP_SEQ_GEQ new_right_edge (edge + Z.min (TCP_WND / 2) m) then
    modp (fun p => p <| rcv_ann_wnd := rcv_wnd p |>) ;;;
    ret (u32_t (new_right_edge - edge))
  else
    (if TCP_SEQ_GT nxt edge then
       modp (fun p => p <| rcv_ann_wnd := 0 |>)
     else
       let new_rcv_ann_wnd := u32_t (edge - nxt) in
       lwip_assert "new_rcv_ann_wnd <= 0xffff" (new_rcv_ann_wnd <=? 65535) ;;;
       modp (fun p => p <| rcv_ann_wnd := u16_t new_rcv_ann_wnd |>)) ;;;
    ret 0.

(** [tcp_pcb_purge]. *)
Definition tcp_pcb_purge : TM unit :=
  let* s := getp state in
  when (negb (state_is s CLOSED) && negb (state_is s TIME_WAIT) && negb (state_is s LISTEN))
    (modp (fun p => p <| refused_data := [] |> <| ooseq := [] |> <| rtime := -1 |>
                      <| unacked := [] |> <| unsent := [] |> <| unsent_oversize := 0 |>)).

(** [TCP_RMV_ACTIVE(pcb)] and [TCP_REG(&tcp_tw_pcbs, pcb)]. *)
Fixpoint TCP_RMV (pcbs : list Z) (npcb : Z) : list Z :=
  match pcbs with
  | [] => []
  | a :: r => if a =? npcb then r else a :: TCP_RMV r npcb
  end.
Definition TCP_RMV_ACTIVE : TM unit :=
  modify (fun s => s <| tcp_active_pcbs := TCP_RMV (tcp_active_pcbs s) (pcb_addr s) |>
                     <| tcp_active_pcbs_changed := true |>).
(** [tcp_timer_needed] (modelled in [Timeouts]) is recorded as a call. *)
Definition TCP_REG_TW : TM unit :=
  modify (fun s => s <| tcp_tw_pcbs := pcb_addr s :: tcp_tw_pcbs s |>
                     <| timer_needed_calls := timer_needed_calls s + 1 |>).
