(* ===== verification/TcpOut.v ===== *)
(** * TCP output: control segments and retransmission ([core/tcp_out.c])

    Building and sending empty acknowledgements and resets, and moving segments from
    the unacked to the unsent queue for retransmission. *)

From S2P Require Import Prelude Def IpAddr Tcp.

(** ** Control segments *)

(** [tcp_output_alloc_header_common]: [None] when [pbuf_alloc] fails.  The header is
    given as the receiver reads it, in host byte order. *)
Definition tcp_output_alloc_header_common (ackno seqno src_port dst_port fl wnd : Z) : TM (option tcp_out) :=
  let* fails := ask in
  if fails =? 0 then ret (Some (mkOut src_port dst_port seqno (u32_t ackno) fl wnd [] [])) else ret None.

(** [tcp_output_alloc_header] (no options, no data). *)
Definition tcp_output_alloc_header (seqno : Z) : TM (option tcp_out) :=
  let* pcb := gets st_pcb in
  let* p := tcp_output_alloc_header_common (rcv_nxt pcb) seqno (local_port pcb) (remote_port pcb)
              TCP_ACK (rcv_ann_wnd pcb) in
  match p with
  | None => ret None
  | Some o =>
      modp (fun q => q <| rcv_ann_right_edge := u32_t (rcv_nxt q + rcv_ann_wnd q) |>) ;;;
      ret (Some o)
  end.

(** [tcp_output_control_segment]: no route, or the answer of [ip_output_if]. *)
Definition tcp_output_control_segment (p : tcp_out) : TM Z :=
  let* no_route := ask in
  if no_route =? 0 then
    modify (fun s => s <| sent := sent s ++ [p] |>) ;;;
    ask
  else ret ERR_RTE.

Definition tcp_rst (seqno ackno local_port remote_port : Z) : TM unit :=
  let wnd := PP_HTONS TCP_WND in
  let* p := tcp_output_alloc_header_common ackno seqno local_port remote_port (Z.lor TCP_RST TCP_ACK) wnd in
  match p with
  | None => ret tt
  | Some o => let* _ := tcp_output_control_segment o in ret tt
  end.

Definition tcp_send_empty_ack : TM Z :=
  let* nxt := getp snd_nxt in
  let* p := tcp_output_alloc_header nxt in
  match p with
  | None => tcp_set_flags (Z.lor TF_ACK_DELAY TF_ACK_NOW) ;;; ret ERR_BUF
  | Some o =>
      let* err := tcp_output_control_segment o in
      (if err =? ERR_OK then tcp_clear_flags (Z.lor TF_ACK_DELAY TF_ACK_NOW)
       else tcp_set_flags (Z.lor TF_ACK_DELAY TF_ACK_NOW)) ;;;
      ret err
  end.

(** ** Retransmission *)

(** [tcp_output_segment_busy]: whether a driver still references the first pbuf. *)
Definition tcp_output_segment_busy (seg : tcp_seg) : TM bool :=
  let* other_ref := ask in ret (negb (other_ref =? 0)).

(** The loop of [tcp_rexmit] that keeps the unsent queue sorted. *)
Fixpoint rexmit_insert (seg : tcp_seg) (q : list tcp_seg) : list tcp_seg :=
  match q with
  | [] => [seg]
  | cur :: rest =>
      if TCP_SEQ_LT (seg_seqno cur) (seg_seqno seg) then cur :: rexmit_insert seg rest else seg :: q
  end.

(** [seg->next == NULL] after the insertion. *)
Definition rexmit_inserted_last (seg : tcp_seg) (q : list tcp_seg) : bool :=
  forallb (fun cur => TCP_SEQ_LT (seg_seqno cur) (seg_seqno seg)) q.

Definition tcp_rexmit : TM Z :=
  let* una := getp unacked in
  match una with
  | [] => ret ERR_VAL
  | seg :: rest =>
      let* busy := tcp_output_segment_busy seg in
      if (busy : bool) then ret ERR_VAL
      else
        modp (fun p => p <| unacked := rest |>) ;;;
        let* q := getp unsent in
        modp (fun p => p <| unsent := rexmit_insert seg q |>) ;;;
        when (rexmit_inserted_last seg q) (modp (fun p => p <| unsent_oversize := 0 |>)) ;;;
        modp (fun p => if nrtx p <? 255 then p <| nrtx := nrtx p + 1 |> else p) ;;;
        modp (fun p => p <| rttest := 0 |>) ;;;
        ret ERR_OK
  end.

(** [tcp_rexmit_fast]: [ssthresh] and [cwnd] are [u16_t]. *)
Definition tcp_rexmit_fast : TM unit :=
  let* una := getp unacked in
  let* f := getp flags in
  when (negb (match una with [] => true | _ => false end) && negb (has f TF_INFR))
    (let* r := tcp_rexmit in
     when (r =? ERR_OK)
       (modp (fun p => p <| ssthresh := Z.min (cwnd p) (snd_wnd p) / 2 |>) ;;;
        modp (fun p => if ssthresh p <? 2 * mss p then p <| ssthresh := u16_t (2 * mss p) |> else p) ;;;
        modp (fun p => p <| cwnd := u16_t (ssthresh p + 3 * mss p) |>) ;;;
        tcp_set_flags TF_INFR ;;;
        modp (fun p => p <| rtime := 0 |>))).
