(* ===== verification/TcpIn.v ===== *)
(** * TCP input: receiving segments ([core/tcp_in.c])

    [tcp_receive] and its helpers, cut into the parts its comments announce: window
    update, duplicate acknowledgements, acknowledgement of new data, round-trip
    estimation, trimming to [rcv_nxt], in-sequence delivery, and the insertion of
    out-of-sequence segments. *)

From S2P Require Import Prelude Def IpAddr Tcp TcpOut.

(** ** Acknowledgements *)

(** [tcp_receive], "Update window". *)
Definition receive_window_update : TM unit :=
  let* seqno := gets seqno in
  let* ackno := gets ackno in
  let* wnd := gets in_wnd in
  modp (fun p =>
    if TCP_SEQ_LT (snd_wl1 p) seqno
       || ((snd_wl1 p =? seqno) && TCP_SEQ_LT (snd_wl2 p) ackno)
       || ((snd_wl2 p =? ackno) && (snd_wnd p <? wnd))
    then
      let p := p <| snd_wnd := wnd |> in
      let p := if snd_wnd_max p <? snd_wnd p then p <| snd_wnd_max := snd_wnd p |> else p in
      p <| snd_wl1 := seqno |> <| snd_wl2 := ackno |>
    else p).

(** [tcp_receive], clauses 2 to 5: a duplicate acknowledgement. *)
Definition receive_dupack (right_wnd_edge : Z) : TM unit :=
  let* p := gets st_pcb in
  let* tcplen := gets tcplen in
  let* ackno := gets ackno in
  if (tcplen =? 0) && (u32_t (snd_wl2 p + snd_wnd p) =? right_wnd_edge) &&
     (0 <=? rtime p) && (lastack p =? ackno)
  then
    modp (fun p => if dupacks p <? u8_t (dupacks p + 1) then p <| dupacks := u8_t (dupacks p + 1) |> else p) ;;;
    let* d := getp dupacks in
    when (3 <? d) (modp (fun p => p <| cwnd := TCP_WND_INC (cwnd p) (mss p) |>)) ;;;
    when (3 <=? d) tcp_rexmit_fast
  else modp (fun p => p <| dupacks := 0 |>).

(** [tcp_free_acked_segments]: the loop, on the queue [seg_list]; returns what is
    left of it. *)
Fixpoint tcp_free_acked_segments (seg_list dbg_other_seg_list : list tcp_seg) : TM (list tcp_seg) :=
  match seg_list with
  | [] => ret []
  | next :: rest =>
      let* ackno := gets ackno in
      if TCP_SEQ_LEQ (seg_seqno next + TCP_TCPLEN next) ackno then
        let clen := pkt_clen (seg_p next) in
        let* qlen := getp snd_queuelen in
        lwip_assert "pcb->snd_queuelen >= pbuf_clen(next->p)" (clen <=? qlen) ;;;
        modp (fun p => p <| snd_queuelen := u16_t (snd_queuelen p - clen) |>) ;;;
        modify (fun s => s <| recv_acked := u16_t (recv_acked s + seg_len next) |>) ;;;
        let* qlen := getp snd_queuelen in
        (if negb (qlen =? 0) then
           lwip_assert "tcp_receive: valid queue length"
             (match rest, dbg_other_seg_list with [], [] => false | _, _ => true end)
         else ret tt) ;;;
        tcp_free_acked_segments rest dbg_other_seg_list
      else ret seg_list
  end.

(** [tcp_receive], "Update the congestion control variables". *)
Definition receive_cwnd (acked : Z) (p : tcp_pcb) : tcp_pcb :=
  if cwnd p <? ssthresh p then
    let num_seg := if has (flags p) TF_RTO then 1 else 2 in
    let increase := Z.min acked (u16_t (num_seg * mss p)) in
    p <| cwnd := TCP_WND_INC (cwnd p) increase |>
  else
    let p := p <| bytes_acked := TCP_WND_INC (bytes_acked p) acked |> in
    if cwnd p <=? bytes_acked p then
      let p := p <| bytes_acked := u16_t (bytes_acked p - cwnd p) |> in
      p <| cwnd := TCP_WND_INC (cwnd p) (mss p) |>
    else p.

(** [nd6_reachability_hint(ip6_current_src_addr())] for a v6 packet, recorded as a call. *)
Definition receive_nd6_hint : TM unit :=
  modify (fun s => if in_is_v6 s then s <| nd6_hints := nd6_hints s + 1 |> else s).

(** [tcp_receive], the end of a retransmission of in-flight data. *)
Definition receive_rto_done (p : tcp_pcb) : tcp_pcb :=
  if has (flags p) TF_RTO then
    let done := match unacked p, unsent p with
                | [], [] => true
                | [], useg :: _ => TCP_SEQ_LEQ (rto_end p) (seg_seqno useg)
                | useg :: _, _ => TCP_SEQ_LEQ (rto_end p) (seg_seqno useg)
                end in
    if done then p <| flags := clear_bits (flags p) TF_RTO |> else p
  else p.

(** [tcp_receive], "We come here when the ACK acknowledges new data": leaving fast
    retransmit, the counters and the congestion window. *)
Definition new_ack_pcb (ackno : Z) (p : tcp_pcb) : tcp_pcb :=
  let p := if has (flags p) TF_INFR then
      p <| flags := clear_bits (flags p) TF_INFR |> <| cwnd := ssthresh p |> <| bytes_acked := 0 |>
    else p in
  let p := p <| nrtx := 0 |> in
  let p := p <| rto := s16_t (Z.shiftr (sa p) 3 + sv p) |> in
  let acked := u16_t (ackno - lastack p) in
  let p := p <| dupacks := 0 |> <| lastack := ackno |> in
  if state_num ESTABLISHED <=? state_num (state p) then receive_cwnd acked p else p.

(** [tcp_receive], "If there's nothing left to acknowledge, stop the retransmit timer". *)
Definition new_ack_timers (p : tcp_pcb) : tcp_pcb :=
  let p := p <| rtime := match unacked p with [] => -1 | _ => 0 end |> <| polltmr := 0 |> in
  match unsent p with [] => p <| unsent_oversize := 0 |> | _ => p end.

(** [tcp_receive], "Remove segment from the unacknowledged list if the incoming ACK
    acknowledges them", for both queues. *)
Definition free_acked_queues : TM unit :=
  let* una := getp unacked in
  let* uns := getp unsent in
  let* una' := tcp_free_acked_segments una uns in
  modp (fun p => p <| unacked := una' |>) ;;;
  let* uns' := tcp_free_acked_segments uns una' in
  modp (fun p => p <| unsent := uns' |>).

Definition receive_new_ack : TM unit :=
  let* ackno := gets ackno in
  modp (new_ack_pcb ackno) ;;;
  free_acked_queues ;;;
  modp new_ack_timers ;;;
  receive_nd6_hint ;;;
  let* ra := gets recv_acked in
  modp (fun p => p <| snd_buf := u16_t (snd_buf p + ra) |>) ;;;
  modp receive_rto_done.

(** [tcp_receive], "RTT estimation calculations". *)
Definition receive_rtt : TM unit :=
  let* ticks := gets tcp_ticks in
  let* ackno := gets ackno in
  modp (fun p =>
    if negb (rttest p =? 0) && TCP_SEQ_LT (rtseq p) ackno then
      let m := s16_t (u32_t (ticks - rttest p)) in
      let m := s16_t (m - Z.shiftr (sa p) 3) in
      let p := p <| sa := s16_t (sa p + m) |> in
      let m := if m <? 0 then s16_t (- m) else m in
      let m := s16_t (m - Z.shiftr (sv p) 2) in
      let p := p <| sv := s16_t (sv p + m) |> in
      let p := p <| rto := s16_t (Z.shiftr (sa p) 3 + sv p) |> in
      p <| rttest := 0 |>
    else p).

(** [tcp_receive], the [if (flags & TCP_ACK)] block. *)
Definition receive_ack : TM unit :=
  let* p := gets st_pcb in
  let right_wnd_edge := u32_t (snd_wnd p + snd_wl2 p) in
  receive_window_update ;;;
  let* ackno := gets ackno in
  let* p := gets st_pcb in
  (if TCP_SEQ_LEQ ackno (lastack p) then receive_dupack right_wnd_edge
   else if TCP_SEQ_BETWEEN ackno (lastack p + 1) (snd_nxt p) then receive_new_ack
   else let* _ := tcp_send_empty_ack in ret tt) ;;;
  receive_rtt.

(** ** Data *)

(** The loop that moves the start of the data [off] bytes into the chain: pbufs that
    lie before the new start are emptied, the pbuf that holds it is shortened. *)
Fixpoint trim_front (p : pkt) (off : Z) : TM pkt :=
  match p with
  | [] => fail BadAccess
  | c :: cs =>
      if zlen c <? off then let* cs' := trim_front cs (off - zlen c) in ret ([] :: cs')
      else ret (zdrop off c :: cs)
  end.

(** [tcp_receive], "First, we check if we must trim the first edge". *)
Definition receive_trim_front : TM unit :=
  let* sq := gets seqno in
  let* tl := gets tcplen in
  let* nxt := getp rcv_nxt in
  if TCP_SEQ_BETWEEN nxt (sq + 1) (sq + tl - 1) then
    let* seg := gets inseg in
    let off32 := u32_t (nxt - sq) in
    lwip_assert "inseg.p != NULL" (match seg_p seg with [] => false | _ => true end) ;;;
    lwip_assert "insane offset!" (off32 <? 65535) ;;;
    let off := u16_t off32 in
    let* tot := pkt_tot_len (seg_p seg) in
    lwip_assert "pbuf too short!" (off <=? tot) ;;;
    let* p' := trim_front (seg_p seg) off in
    modify (fun s => s <| inseg := seg <| seg_len := u16_t (seg_len seg - off) |>
                                       <| seg_p := p' |> <| seg_seqno := nxt |> |>
                       <| seqno := nxt |>)
  else when (TCP_SEQ_LT sq nxt) tcp_ack_now.

(** [tcp_receive], the incoming segment overran the receive window. *)
Definition inseq_trim_window : TM unit :=
  let* wnd := getp rcv_wnd in
  let* tl := gets tcplen in
  if wnd <? tl then
    modify (fun s => s <| inseg := inseg s <| seg_flags := clear_bits (seg_flags (inseg s)) TCP_FIN |> |>) ;;;
    modify (fun s => s <| inseg := inseg s <| seg_len := u16_t wnd |> |>) ;;;
    modify (fun s => if has (seg_flags (inseg s)) TCP_SYN
                     then s <| inseg := inseg s <| seg_len := u16_t (seg_len (inseg s) - 1) |> |> else s) ;;;
    modify (fun s => s <| inseg := inseg s <| seg_p := pkt_realloc (seg_p (inseg s)) (seg_len (inseg s)) |> |>) ;;;
    modify (fun s => s <| tcplen := u16_t (TCP_TCPLEN (inseg s)) |>) ;;;
    let* s := get in
    lwip_assert "tcp_receive: segment not trimmed correctly to rcv_wnd"
      (u32_t (seqno s + tcplen s) =? u32_t (rcv_nxt (st_pcb s) + rcv_wnd (st_pcb s)))
  else ret tt.

(** The loop that removes the segments of [ooseq] covered by the incoming one; a FIN
    among them moves to it. *)
Fixpoint inseq_remove_covered (next : list tcp_seg) : TM (list tcp_seg) :=
  match next with
  | [] => ret []
  | n :: rest =>
      let* s := get in
      if TCP_SEQ_GEQ (seqno s + tcplen s) (seg_seqno n + seg_len n) then
        (if has (seg_flags n) TCP_FIN && negb (has (seg_flags (inseg s)) TCP_SYN) then
           modify (fun s => s <| inseg := inseg s <| seg_flags := Z.lor (seg_flags (inseg s)) TCP_FIN |> |>) ;;;
           modify (fun s => s <| tcplen := u16_t (TCP_TCPLEN (inseg s)) |>)
         else ret tt) ;;;
        inseq_remove_covered rest
      else ret next
  end.

(** "Now trim right side of inseg if it overlaps with the first segment on ooseq". *)
Definition inseq_trim_right (next : list tcp_seg) : TM unit :=
  match next with
  | [] => ret tt
  | n :: _ =>
      let* s := get in
      if TCP_SEQ_GT (seqno s + tcplen s) (seg_seqno n) then
        modify (fun s => s <| inseg := inseg s <| seg_len := u16_t (seg_seqno n - seqno s) |> |>) ;;;
        modify (fun s => if has (seg_flags (inseg s)) TCP_SYN
                         then s <| inseg := inseg s <| seg_len := u16_t (seg_len (inseg s) - 1) |> |> else s) ;;;
        modify (fun s => s <| inseg := inseg s <| seg_p := pkt_realloc (seg_p (inseg s)) (seg_len (inseg s)) |> |>) ;;;
        modify (fun s => s <| tcplen := u16_t (TCP_TCPLEN (inseg s)) |>) ;;;
        let* s := get in
        lwip_assert "tcp_receive: segment not trimmed correctly to ooseq queue"
          (u32_t (seqno s + tcplen s) =? seg_seqno n)
      else ret tt
  end.

(** "Received in-sequence data, adjust ooseq data". *)
Definition inseq_adjust_ooseq : TM unit :=
  let* q := getp ooseq in
  let* seg := gets inseg in
  match q with
  | [] => ret tt
  | _ =>
      if has (seg_flags seg) TCP_FIN then modp (fun p => p <| ooseq := [] |>)
      else
        let* next := inseq_remove_covered q in
        inseq_trim_right next ;;;
        modp (fun p => p <| ooseq := next |>)
  end.

(** [rcv_nxt], the receive window and the data for the application. *)
Definition inseq_accept : TM unit :=
  let* s := get in
  modp (fun p => p <| rcv_nxt := u32_t (seqno s + tcplen s) |>) ;;;
  lwip_assert "tcp_receive: tcplen > rcv_wnd" (tcplen s <=? rcv_wnd (st_pcb s)) ;;;
  modp (fun p => p <| rcv_wnd := u16_t (rcv_wnd p - tcplen s) |>) ;;;
  let* _ := tcp_update_rcv_ann_wnd in
  let* tot := pkt_tot_len (seg_p (inseg s)) in
  (if 0 <? tot then
     modify (fun s => s <| recv_data := seg_p (inseg s) |> <| inseg := inseg s <| seg_p := [] |> |>)
   else ret tt) ;;;
  (if has (seg_flags (inseg s)) TCP_FIN then
     modify (fun s => s <| recv_flags := Z.lor (recv_flags s) TF_GOT_FIN |>)
   else ret tt).

(** One segment of [ooseq] that has become the next in sequence. *)
Definition ooseq_dequeue_one (cseg : tcp_seg) (rest : list tcp_seg) : TM unit :=
  modify (fun s => s <| seqno := seg_seqno cseg |>) ;;;
  modp (fun p => p <| rcv_nxt := u32_t (rcv_nxt p + TCP_TCPLEN cseg) |>) ;;;
  let* wnd := getp rcv_wnd in
  lwip_assert "tcp_receive: ooseq tcplen > rcv_wnd" (TCP_TCPLEN cseg <=? wnd) ;;;
  modp (fun p => p <| rcv_wnd := u16_t (rcv_wnd p - TCP_TCPLEN cseg) |>) ;;;
  let* _ := tcp_update_rcv_ann_wnd in
  let* tot := pkt_tot_len (seg_p cseg) in
  (if 0 <? tot then modify (fun s => s <| recv_data := recv_data s ++ seg_p cseg |>) else ret tt) ;;;
  (if has (seg_flags cseg) TCP_FIN then
     modify (fun s => s <| recv_flags := Z.lor (recv_flags s) TF_GOT_FIN |>) ;;;
     modp (fun p => if state_is (state p) ESTABLISHED then p <| state := CLOSE_WAIT |> else p)
   else ret tt) ;;;
  modp (fun p => p <| ooseq := rest |>).

(** "We now check if we have segments on the ->ooseq queue that are now in sequence":
    the loop, by recursion on the queue it consumes. *)
Fixpoint ooseq_dequeue (q : list tcp_seg) : TM unit :=
  match q with
  | [] => ret tt
  | cseg :: rest =>
      let* nxt := getp rcv_nxt in
      if seg_seqno cseg =? nxt then ooseq_dequeue_one cseg rest ;;; ooseq_dequeue rest
      else ret tt
  end.

(** [tcp_receive], "The incoming segment is the next in sequence". *)
Definition receive_inseq : TM unit :=
  modify (fun s => s <| tcplen := u16_t (TCP_TCPLEN (inseg s)) |>) ;;;
  inseq_trim_window ;;;
  inseq_adjust_ooseq ;;;
  inseq_accept ;;;
  let* q := getp ooseq in
  ooseq_dequeue q ;;;
  tcp_ack ;;;
  receive_nd6_hint.

(** ** Out-of-sequence segments *)

(** [tcp_oos_insert_segment], the loop that deletes the following segments covered by
    [cseg]; a FIN among them moves to it. *)
Fixpoint oos_delete_covered (seqno : Z) (cseg : tcp_seg) (next : list tcp_seg) : tcp_seg * list tcp_seg :=
  match next with
  | [] => (cseg, [])
  | n :: rest =>
      if TCP_SEQ_GEQ (seqno + seg_len cseg) (seg_seqno n + seg_len n) then
        oos_delete_covered seqno
          (if has (seg_flags n) TCP_FIN then cseg <| seg_flags := Z.lor (seg_flags cseg) TCP_FIN |> else cseg)
          rest
      else (cseg, next)
  end.

(** [tcp_oos_insert_segment(cseg, next)]: the list from [cseg] on. *)
Definition tcp_oos_insert_segment (seqno : Z) (cseg : tcp_seg) (next : list tcp_seg) : list tcp_seg :=
  if has (seg_flags cseg) TCP_FIN then [cseg]
  else
    let '(cseg, next) := oos_delete_covered seqno cseg next in
    match next with
    | n :: _ =>
        if TCP_SEQ_GT (seqno + seg_len cseg) (seg_seqno n) then
          let len := u16_t (seg_seqno n - seqno) in
          (cseg <| seg_len := len |> <| seg_p := pkt_realloc (seg_p cseg) len |>) :: next
        else cseg :: next
    | [] => [cseg]
    end.

(** Trimming the second edge of a queued segment that reaches beyond [seqno]. *)
Definition oos_trim_prev (seqno : Z) (prev : tcp_seg) : tcp_seg :=
  if TCP_SEQ_GT (seg_seqno prev + seg_len prev) seqno then
    let len := u16_t (seqno - seg_seqno prev) in
    prev <| seg_len := len |> <| seg_p := pkt_realloc (seg_p prev) len |>
  else prev.

(** "check if the remote side overruns our receive window", for a segment appended
    to the queue. *)
Definition oos_trim_window (seg : tcp_seg) : TM tcp_seg :=
  let* s := get in
  let p := st_pcb s in
  if TCP_SEQ_GT (tcplen s + seqno s) (rcv_nxt p + rcv_wnd p) then
    let seg := seg <| seg_flags := clear_bits (seg_flags seg) TCP_FIN |> in
    let len := u16_t (rcv_nxt p + rcv_wnd p - seqno s) in
    let seg := seg <| seg_len := len |> <| seg_p := pkt_realloc (seg_p seg) len |> in
    modify (fun s => s <| tcplen := u16_t (TCP_TCPLEN seg) |>) ;;;
    let* s := get in
    lwip_assert "tcp_receive: segment not trimmed correctly to rcv_wnd"
      (u32_t (seqno s + tcplen s) =? u32_t (rcv_nxt p + rcv_wnd p)) ;;;
    ret seg
  else ret seg.

(** A copy of the incoming segment put in front of [next] when there is memory. *)
Definition oos_insert_copy (next : list tcp_seg) : TM (option (list tcp_seg)) :=
  let* seg := gets inseg in
  let* sq := gets seqno in
  let* c := tcp_seg_copy seg in
  ret ((fun cseg => tcp_oos_insert_segment sq cseg next) <$> c).

(** "If the next segment is the last segment on the ooseq queue, we add the incoming
    segment to the end of the list". *)
Definition oos_append (next : tcp_seg) : TM (list tcp_seg) :=
  if has (seg_flags next) TCP_FIN then ret [next]
  else
    let* seg := gets inseg in
    let* sq := gets seqno in
    let* c := tcp_seg_copy seg in
    match c with
    | None => ret [next]
    | Some nn => let* nn' := oos_trim_window nn in ret [oos_trim_prev sq next; nn']
    end.

(** The walk over the queue: [prev] is the segment before [q], already passed;
    the result is the list from [prev] on. *)
Fixpoint oos_walk (prev : option tcp_seg) (q : list tcp_seg) : TM (list tcp_seg) :=
  match q with
  | [] => ret (option_list prev)
  | next :: rest =>
      let* sq := gets seqno in
      let* seg := gets inseg in
      let step :=
        match rest with
        | [] => if TCP_SEQ_GT sq (seg_seqno next) then oos_append next else oos_walk (Some next) rest
        | _ => oos_walk (Some next) rest
        end in
      if sq =? seg_seqno next then
        if seg_len next <? seg_len seg then
          let* q' := oos_insert_copy q in
          ret (option_list prev ++ default q q')
        else ret (option_list prev ++ q)
      else
        match prev with
        | None =>
            if TCP_SEQ_LT sq (seg_seqno next) then
              let* q' := oos_insert_copy q in ret (default q q')
            else step
        | Some pv =>
            if TCP_SEQ_BETWEEN sq (seg_seqno pv + 1) (seg_seqno next - 1) then
              let* q' := oos_insert_copy q in
              ret (match q' with Some q' => oos_trim_prev sq pv :: q' | None => pv :: q end)
            else let* r := step in ret (pv :: r)
        end
  end.

(** [tcp_receive], "We get here if the incoming segment is out-of-sequence". *)
Definition receive_oos : TM unit :=
  let* q := getp ooseq in
  (match q with
   | [] =>
       let* seg := gets inseg in
       let* c := tcp_seg_copy seg in
       modp (fun p => p <| ooseq := option_list c |>)
   | _ =>
       let* q' := oos_walk None q in
       modp (fun p => p <| ooseq := q' |>)
   end) ;;;
  let* _ := tcp_send_empty_ack in ret tt.

(** ** [tcp_receive] *)

Definition receive_data : TM unit :=
  let* tl := gets tcplen in
  let* st := getp state in
  if (0 <? tl) && (state_num st <? state_num CLOSE_WAIT) then
    receive_trim_front ;;;
    let* s := get in
    let p := st_pcb s in
    if TCP_SEQ_BETWEEN (seqno s) (rcv_nxt p) (rcv_nxt p + rcv_wnd p - 1) then
      if rcv_nxt p =? seqno s then receive_inseq else receive_oos
    else let* _ := tcp_send_empty_ack in ret tt
  else
    let* s := get in
    let p := st_pcb s in
    when (negb (TCP_SEQ_BETWEEN (seqno s) (rcv_nxt p) (rcv_nxt p + rcv_wnd p - 1))) tcp_ack_now.

Definition tcp_receive : TM unit :=
  let* st := getp state in
  lwip_assert "tcp_receive: wrong state" (state_num ESTABLISHED <=? state_num st) ;;;
  let* fl := gets in_flags in
  when (has fl TCP_ACK) receive_ack ;;;
  receive_data.
