(* ===== verification/TcpFacts.v ===== *)
(** * Facts about the TCP data model

    Sequence numbers as positions in a byte stream, chains of payloads as byte
    strings, and the symbolic execution of the state-passing code. *)

From S2P Require Import Prelude Def IpAddr Tcp TcpOut.

(** ** Symbolic execution *)

Lemma wp_gets {A} (f : tcp_st -> A) Q s : Q (f s) s -> wp (gets f) Q s.
Proof. done. Qed.
Lemma wp_getp {A} (f : tcp_pcb -> A) Q s : Q (f (st_pcb s)) s -> wp (getp f) Q s.
Proof. done. Qed.
Lemma wp_modp (f : tcp_pcb -> tcp_pcb) Q s : Q tt (s <| st_pcb := f (st_pcb s) |>) -> wp (modp f) Q s.
Proof. done. Qed.
Lemma wp_ask Q s :
  (forall z l, Q z (s <| oracle := l |>)) -> (oracle s = [] -> Q 0 s) -> wp ask Q s.
Proof. intros H1 H2. unfold wp, ask. destruct (oracle s) eqn:E; auto. Qed.

Ltac wp_step :=
  lazymatch goal with
  | |- wp (bind _ _) _ _ => apply wp_bind
  | |- wp (ret _) _ _ => apply wp_ret
  | |- wp get _ _ => apply wp_get
  | |- wp (gets _) _ _ => apply wp_gets
  | |- wp (getp _) _ _ => apply wp_getp
  | |- wp (modp _) _ _ => apply wp_modp
  | |- wp (modify _) _ _ => apply wp_modify
  end.
Ltac wp_steps := repeat (wp_step; cbv beta iota; rec_simpl); rec_simpl.

(** ** Sequence numbers are positions

    Within half of the sequence space the comparisons of the code are the order of
    the positions the sequence numbers stand for. *)

Lemma u32_t_idem x : u32_t (u32_t x) = u32_t x.
Proof. apply Z.mod_mod. lia. Qed.
Lemma u32_t_add_l x y : u32_t (u32_t x + y) = u32_t (x + y).
Proof. apply Zplus_mod_idemp_l. Qed.
Lemma u32_t_add_r x y : u32_t (x + u32_t y) = u32_t (x + y).
Proof. apply Zplus_mod_idemp_r. Qed.
Lemma u32_t_sub_l x y : u32_t (u32_t x - y) = u32_t (x - y).
Proof. apply Zminus_mod_idemp_l. Qed.
Lemma u32_t_sub_r x y : u32_t (x - u32_t y) = u32_t (x - y).
Proof. apply Zminus_mod_idemp_r. Qed.

Lemma seq_diff x y a b : u32_t x = u32_t a -> u32_t y = u32_t b ->
  -2147483648 <= a - b < 2147483648 -> s32_t (u32_t x - u32_t y) = a - b.
Proof. intros -> -> H. unfold s32_t, u32_t. dlia. Qed.

Section Positions.
Context (isn : Z).

(** The sequence number of position [a] of the stream that starts at [isn]. *)
Definition seq_of (a : Z) : Z := u32_t (isn + a).

(** [x] denotes position [a], up to the wrap-around. *)
Definition denotes (x a : Z) : Prop := u32_t x = u32_t (isn + a).

Lemma denotes_seq a : denotes (seq_of a) a.
Proof. apply u32_t_idem. Qed.
Lemma denotes_u32 x a : denotes x a -> denotes (u32_t x) a.
Proof. unfold denotes. by rewrite u32_t_idem. Qed.
Lemma denotes_add x a n : denotes x a -> denotes (x + n) (a + n).
Proof. unfold denotes, u32_t. intros. dlia. Qed.
Lemma denotes_add_l x a n : denotes x a -> denotes (n + x) (n + a).
Proof. unfold denotes, u32_t. intros. dlia. Qed.
Lemma denotes_sub x a n : denotes x a -> denotes (x - n) (a - n).
Proof. unfold denotes, u32_t. intros. dlia. Qed.
Lemma denotes_eq x a : denotes x a -> u32_t x = seq_of a.
Proof. done. Qed.

Definition near (a b : Z) : Prop := -2147483648 <= a - b < 2147483648.

Context (x y a b : Z) (Hx : denotes x a) (Hy : denotes y b) (Hn : near a b).

Lemma seq_lt : TCP_SEQ_LT x y = (a <? b).
Proof using All. unfold TCP_SEQ_LT. rewrite (seq_diff _ _ _ _ Hx Hy); unfold near in Hn; [bool_cases|lia]. Qed.
Lemma seq_leq : TCP_SEQ_LEQ x y = (a <=? b).
Proof using All. unfold TCP_SEQ_LEQ. rewrite (seq_diff _ _ _ _ Hx Hy); unfold near in Hn; [bool_cases|lia]. Qed.
Lemma seq_gt : TCP_SEQ_GT x y = (b <? a).
Proof using All. unfold TCP_SEQ_GT. rewrite (seq_diff _ _ _ _ Hx Hy); unfold near in Hn; [bool_cases|lia]. Qed.
Lemma seq_geq : TCP_SEQ_GEQ x y = (b <=? a).
Proof using All. unfold TCP_SEQ_GEQ. rewrite (seq_diff _ _ _ _ Hx Hy); unfold near in Hn; [bool_cases|lia]. Qed.
Lemma seq_of_inj : 0 <= a - b < 4294967296 \/ -4294967296 < a - b <= 0 -> (seq_of a =? seq_of b) = (a =? b).
Proof using. clear. unfold seq_of, u32_t. intros. bool_cases; [|congruence]. dlia. Qed.
Lemma seq_dist : b <= a -> u32_t (x - y) = a - b.
Proof using Hx Hy Hn.
  intros. unfold denotes, near, u32_t in *. dlia.
Qed.
Lemma seq_dist16 : 0 <= a - b < 65536 -> u16_t (x - y) = a - b.
Proof using Hx Hy Hn.
  intros H. rewrite <- (u16_t_id (a - b)) by lia. rewrite <- seq_dist by lia.
  unfold u16_t, u32_t. dlia.
Qed.
End Positions.

Lemma seq_between isn x y z a b c :
  denotes isn x a -> denotes isn y b -> denotes isn z c -> near a b -> near a c ->
  TCP_SEQ_BETWEEN x y z = (b <=? a) && (a <=? c).
Proof.
  intros. unfold TCP_SEQ_BETWEEN.
  by rewrite (seq_geq isn x y a b), (seq_leq isn x z a c).
Qed.

Create HintDb seq.
#[export] Hint Resolve denotes_seq denotes_u32 denotes_add denotes_add_l denotes_sub : seq.
#[export] Hint Extern 5 (near _ _) => unfold near; lia : seq.

(** ** Chains of payloads *)

Lemma pkt_bytes_cons c p : pkt_bytes (c :: p) = c ++ pkt_bytes p.
Proof. done. Qed.
Lemma pkt_bytes_app p q : pkt_bytes (p ++ q) = pkt_bytes p ++ pkt_bytes q.
Proof. apply concat_app. Qed.

Lemma pkt_cut_bytes p n : 0 <= n -> pkt_bytes (pkt_cut p n) = ztake n (pkt_bytes p).
Proof.
  revert n. induction p as [|c p IH]; intros n Hn; cbn [pkt_cut];
    [unfold ztake, pkt_bytes; simpl; by rewrite take_nil|].
  rewrite pkt_bytes_cons. destruct (Z.ltb_spec (zlen c) n).
  - rewrite pkt_bytes_cons, IH, ztake_app_r by lia. done.
  - rewrite ztake_app_l by lia. unfold pkt_bytes. simpl. by rewrite app_nil_r.
Qed.

Lemma pkt_realloc_bytes p n : 0 <= n -> pkt_bytes (pkt_realloc p n) = ztake n (pkt_bytes p).
Proof.
  intros. unfold pkt_realloc. destruct (Z.leb_spec (zlen (pkt_bytes p)) n).
  - by rewrite ztake_all.
  - by apply pkt_cut_bytes.
Qed.
Lemma pkt_realloc_nonempty p n : p <> [] -> pkt_realloc p n <> [].
Proof.
  unfold pkt_realloc. destruct (_ <=? _); [done|]. destruct p as [|c p]; [done|].
  simpl. by destruct (_ <? _).
Qed.

Lemma wp_tot_len p Q (s : tcp_st) :
  p <> [] -> zlen (pkt_bytes p) < 65536 -> Q (zlen (pkt_bytes p)) s -> wp (pkt_tot_len p) Q s.
Proof.
  intros Hp Hl HQ. destruct p; [done|]. unfold wp, pkt_tot_len, ret.
  rewrite u16_t_id; [done|]. pose proof (zlen_nonneg (pkt_bytes (l :: p))). lia.
Qed.

(** The insertion loop keeps the segments. *)
Lemma rexmit_insert_perm x q : Permutation (rexmit_insert x q) (x :: q).
Proof.
  induction q as [|y q IH]; [done|]. cbn [rexmit_insert]. destruct (TCP_SEQ_LT _ _); [|done].
  rewrite IH. apply Permutation_swap.
Qed.
