(* ===== verification/TcpStream.v ===== *)
(** * Segments of a byte stream

    The peer sends one stream of bytes [σ], whose first byte has sequence number
    [isn], followed by a FIN.  A segment is genuine when it carries the bytes of the
    stream at the position its sequence number stands for; the [ooseq] queue is well
    formed when its segments are genuine, sorted and disjoint. *)

From S2P Require Import Prelude Def IpAddr Tcp TcpOut TcpIn TcpFacts.

(** ** Flag words *)

Lemma has_bit f k : 0 <= k -> has f (2 ^ k) = Z.testbit f k.
Proof.
  intros Hk. unfold has. destruct (Z.testbit f k) eqn:E.
  - apply nz_true. intros H. apply (f_equal (fun z => Z.testbit z k)) in H.
    rewrite Z.land_spec, Z.pow2_bits_true, E, Z.bits_0 in H by lia. done.
  - replace (Z.land f (2 ^ k)) with 0; [done|]. symmetry. apply Z.bits_inj'. intros i Hi.
    rewrite Z.land_spec, Z.pow2_bits_eqb, Z.bits_0 by lia.
    destruct (Z.eqb_spec k i); [subst; by rewrite E|by rewrite andb_false_r].
Qed.
Lemma has_FIN f : has f TCP_FIN = Z.testbit f 0.
Proof. by apply (has_bit f 0). Qed.
Lemma has_SYN f : has f TCP_SYN = Z.testbit f 1.
Proof. by apply (has_bit f 1). Qed.
Lemma has_or f a b : has f (Z.lor a b) = has f a || has f b.
Proof.
  unfold has. rewrite Z.land_lor_distr_r.
  destruct (Z.eqb_spec (Z.land f a) 0) as [Ea|Ea], (Z.eqb_spec (Z.land f b) 0) as [Eb|Eb]; simpl.
  - by rewrite Ea, Eb.
  - apply nz_true. intros [? ?]%Z.lor_eq_0_iff. done.
  - apply nz_true. intros [? ?]%Z.lor_eq_0_iff. done.
  - apply nz_true. intros [? ?]%Z.lor_eq_0_iff. done.
Qed.
Lemma has_lor f g b : has (Z.lor f g) b = has f b || has g b.
Proof. unfold has. rewrite !(Z.land_comm _ b). apply (has_or b f g). Qed.

Lemma set_FIN f : has (Z.lor f TCP_FIN) TCP_FIN = true /\ has (Z.lor f TCP_FIN) TCP_SYN = has f TCP_SYN.
Proof. rewrite !has_FIN, !has_SYN, !Z.lor_spec. split; [apply orb_true_r|apply orb_false_r]. Qed.
Lemma clear_FIN f :
  has (clear_bits f TCP_FIN) TCP_FIN = false /\ has (clear_bits f TCP_FIN) TCP_SYN = has f TCP_SYN.
Proof.
  unfold clear_bits. rewrite !has_FIN, !has_SYN, !Z.ldiff_spec. split; [apply andb_false_r|apply andb_true_r].
Qed.

(** ** Genuine segments *)

Definition fin (s : tcp_seg) : bool := has (seg_flags s) TCP_FIN.

Section Stream.
Context (σ : list Z) (isn : Z).

Record seg_at (a : Z) (s : tcp_seg) : Prop := SegAt {
  at_seqno : seg_seqno s = seq_of isn a;
  at_pos : 0 <= a;
  at_end : a + seg_len s <= zlen σ;
  at_len : 0 <= seg_len s < 65535;
  at_p : seg_p s <> [];
  at_bytes : pkt_bytes (seg_p s) = zslice a (seg_len s) σ;
  at_syn : has (seg_flags s) TCP_SYN = false;
  at_fin : fin s = true -> a + seg_len s = zlen σ
}.

Lemma at_tcplen a s : seg_at a s -> TCP_TCPLEN s = seg_len s + (if fin s then 1 else 0).
Proof. intros H. unfold TCP_TCPLEN. rewrite has_or, (at_syn _ _ H), orb_false_r. done. Qed.

Lemma at_bytes_len a s : seg_at a s -> zlen (pkt_bytes (seg_p s)) = seg_len s.
Proof. intros [? ? ? ? ? -> ? ?]. apply zlen_zslice; lia. Qed.

Lemma at_denotes a s : seg_at a s -> denotes isn (seg_seqno s) a.
Proof. intros H. rewrite (at_seqno _ _ H). apply denotes_seq. Qed.

(** Cutting the end off a segment without FIN leaves a genuine segment. *)
Lemma at_cut a s n : seg_at a s -> fin s = false -> 0 <= n <= seg_len s ->
  seg_at a (s <| seg_len := n |> <| seg_p := pkt_realloc (seg_p s) n |>).
Proof.
  intros [? ? ? ? ? Hb ? ?] Hf Hn. split; unfold fin; rec_simpl; auto; try lia.
  - by apply pkt_realloc_nonempty.
  - rewrite pkt_realloc_bytes, Hb by lia. unfold zslice. by rewrite ztake_ztake.
  - unfold fin in Hf. by rewrite Hf.
Qed.

Lemma at_cut_tcplen a s n : seg_at a s -> fin s = false ->
  TCP_TCPLEN (s <| seg_len := n |> <| seg_p := pkt_realloc (seg_p s) n |>) = n.
Proof.
  intros H Hf. unfold TCP_TCPLEN. rec_simpl. rewrite has_or, (at_syn _ _ H).
  unfold fin in Hf. rewrite Hf. simpl. lia.
Qed.

Lemma at_set_fin a s : seg_at a s -> a + seg_len s = zlen σ ->
  seg_at a (s <| seg_flags := Z.lor (seg_flags s) TCP_FIN |>).
Proof. intros [? ? ? ? ? ? ? ?] He. split; unfold fin; rec_simpl; auto. by rewrite (proj2 (set_FIN _)). Qed.

Lemma at_clear_fin a s : seg_at a s -> seg_at a (s <| seg_flags := clear_bits (seg_flags s) TCP_FIN |>).
Proof.
  intros [? ? ? ? ? ? ? ?]. split; unfold fin; rec_simpl; auto.
  - by rewrite (proj2 (clear_FIN _)).
  - by rewrite (proj1 (clear_FIN _)).
Qed.

(** ** Queues *)

(** Sorted, disjoint, genuine segments that take up sequence space within [lo, hi). *)
Fixpoint oos_ok (lo hi : Z) (q : list tcp_seg) : Prop :=
  match q with
  | [] => True
  | s :: r => exists a, lo <= a /\ seg_at a s /\ 0 < TCP_TCPLEN s /\
                a + TCP_TCPLEN s <= hi /\ oos_ok (a + TCP_TCPLEN s) hi r
  end.

(** The stream positions whose bytes are in the queue. *)
Definition covered (q : list tcp_seg) (k : Z) : Prop :=
  Exists (fun s => exists a, seg_at a s /\ a <= k < a + seg_len s) q.

Lemma oos_weaken lo lo' hi q : lo' <= lo -> oos_ok lo hi q -> oos_ok lo' hi q.
Proof. destruct q as [|s q]; [done|]. intros Hl (a & ? & ?). exists a. split; [lia|done]. Qed.

(** Nothing follows the FIN. *)
Lemma oos_after_fin lo hi q : zlen σ < lo -> oos_ok lo hi q -> q = [].
Proof.
  destruct q as [|s q]; [done|]. intros Hl (a & Ha & Hs & _).
  pose proof (at_end _ _ Hs). pose proof (at_len _ _ Hs). lia.
Qed.

Lemma fin_last a s hi q : seg_at a s -> fin s = true -> oos_ok (a + TCP_TCPLEN s) hi q -> q = [].
Proof.
  intros Hs Hf. apply oos_after_fin. rewrite (at_tcplen _ _ Hs), Hf.
  pose proof (at_fin _ _ Hs Hf). lia.
Qed.
End Stream.
