(* ===== verification/TcpOoseq.v ===== *)
(** * The out-of-sequence queue

    Inserting a genuine segment keeps the queue sorted, disjoint and genuine, and
    loses no byte that was queued or arrived ([tcp_oos_insert_segment] and the walk of
    [tcp_receive]). *)

From S2P Require Import Prelude Def IpAddr Tcp TcpOut TcpIn TcpFacts TcpStream.

Lemma wp_ask_any Q s :
  (forall z l, (oracle s = [] -> z = 0 /\ l = []) -> Q z (s <| oracle := l |>)) -> wp ask Q s.
Proof.
  intros H. unfold wp, ask. destruct (oracle s) as [|z l] eqn:E; [|by apply H].
  specialize (H 0 [] ltac:(done)). by destruct s; simpl in E; subst.
Qed.

(** The same with the answer that is used up. *)
Lemma wp_ask_cons Q s :
  (forall z l, (oracle s = [] /\ z = 0 /\ l = []) \/ oracle s = z :: l -> Q z (s <| oracle := l |>)) -> wp ask Q s.
Proof.
  intros H. unfold wp, ask. destruct (oracle s) as [|z l] eqn:E; [|apply H; auto].
  specialize (H 0 []). assert (Es : s <| oracle := [] |> = s) by (destruct s; simpl in E; by subst). rewrite Es in H. auto.
Qed.

Section Ooseq.
Context (σ : list Z) (isn : Z).
Abbreviation seg_at := (seg_at σ isn).
Abbreviation oos_ok := (oos_ok σ isn).
Abbreviation covered := (covered σ isn).

Lemma covered_cons s q k : covered (s :: q) k <->
  (exists a, seg_at a s /\ a <= k < a + seg_len s) \/ covered q k.
Proof. apply Exists_cons. Qed.
Lemma covered_here a s q k : seg_at a s -> a <= k < a + seg_len s -> covered (s :: q) k.
Proof. intros. apply covered_cons. left. by exists a. Qed.
Lemma covered_next s q k : covered q k -> covered (s :: q) k.
Proof. intros. apply covered_cons. by right. Qed.

(** Within the window a sequence number stands for one position. *)
Lemma at_unique a b s : seg_at a s -> seg_at b s -> -2147483648 < a - b < 2147483648 -> a = b.
Proof.
  intros Ha Hb ?. pose proof (at_seqno _ _ _ _ Ha) as E1. pose proof (at_seqno _ _ _ _ Hb) as E2.
  rewrite E1 in E2. unfold seq_of, u32_t in E2. dlia.
Qed.

Definition window (hi k : Z) : Prop := hi - 1073741824 <= k < hi.

Lemma covered_head a s q hi k : seg_at a s -> window hi k -> hi - 1073741824 < a <= hi ->
  covered (s :: q) k <-> a <= k < a + seg_len s \/ covered q k.
Proof.
  intros Hs Hk Ha. rewrite covered_cons. split; [|intros [?|?]; [left; by exists a|by right]].
  intros [(b & Hb & Hr)|?]; [left|by right]. pose proof (at_len _ _ _ _ Hs).
  unfold window in Hk. by rewrite (at_unique a b s) by (done || lia).
Qed.

Lemma at_size a s : seg_at a s -> seg_len s <= TCP_TCPLEN s <= seg_len s + 1 /\ seg_len s < 65535 /\
  (fin s = false -> TCP_TCPLEN s = seg_len s).
Proof.
  intros H. rewrite (at_tcplen _ _ _ _ H). pose proof (at_len _ _ _ _ H).
  destruct (fin s); split_and!; lia || done.
Qed.

(** The queued bytes lie in the stream, after the lower bound of the queue. *)
Lemma covered_range lo hi q k : oos_ok lo hi q -> hi - lo < 1073741824 -> window hi k ->
  covered q k -> lo <= k < zlen σ.
Proof.
  revert lo. induction q as [|s q IH]; intros lo Hq Hw Hk Hcv; [by apply Exists_nil in Hcv|].
  destruct Hq as (a & ? & Hs & ? & ? & Hq). pose proof (at_end _ _ _ _ Hs).
  apply (covered_head a s q hi k Hs Hk ltac:(lia)) in Hcv as [?|Hcv]; [lia|].
  apply (IH (a + TCP_TCPLEN s)) in Hcv; done || lia.
Qed.

(** The deletion loop of [tcp_oos_insert_segment]. *)
Lemma oos_delete_covered_spec a c hi q : seg_at a c -> fin c = false -> a + seg_len c <= hi ->
  oos_ok (a + 1) hi q -> hi - a < 1073741824 ->
  exists c' q', oos_delete_covered (seq_of isn a) c q = (c', q') /\ seg_at a c' /\
    seg_len c' = seg_len c /\ a + TCP_TCPLEN c' <= hi /\ oos_ok (a + 1) hi q' /\
    (q' <> [] -> fin c' = false) /\
    (forall n r, q' = n :: r -> exists a1, a < a1 /\ seg_at a1 n /\ oos_ok a1 hi q' /\
      a + seg_len c < a1 + seg_len n) /\
    (forall k, window hi k -> covered q k -> covered q' k \/ a <= k < a + seg_len c).
Proof.
  intros Hc Hf He Hq Hw. pose proof (at_size _ _ Hc) as (_ & Hcl & Hct). specialize (Hct Hf).
  revert Hq. induction q as [|n r IH]; intros Hq.
  { exists c, []. cbn [oos_delete_covered]. rewrite Hct. split_and!; try done; auto. }
  destruct Hq as (a1 & Ha1 & Hn & Hpos & Hend & Hr). pose proof (at_size _ _ Hn) as (Hs1 & ? & _).
  pose proof (at_len _ _ _ _ Hn). pose proof (at_len _ _ _ _ Hc).
  cbn [oos_delete_covered].
  rewrite (seq_geq isn _ _ (a + seg_len c) (a1 + seg_len n)); eauto using at_denotes with seq.
  destruct (Z.leb_spec (a1 + seg_len n) (a + seg_len c)) as [Hle|Hgt].
  - assert (Hcov : forall q' k, window hi k -> (covered r k -> covered q' k \/ a <= k < a + seg_len c) ->
      covered (n :: r) k -> covered q' k \/ a <= k < a + seg_len c).
    { intros q' k Hk Himp Hcv. apply (covered_head a1 n r hi k Hn Hk ltac:(lia)) in Hcv as [?|?]; [lia|auto]. }
    destruct (has (seg_flags n) TCP_FIN) eqn:Hfn.
    + pose proof (at_fin _ _ _ _ Hn Hfn). pose proof (at_end _ _ _ _ Hc).
      rewrite (fin_last _ _ a1 n hi r Hn Hfn Hr) in *. cbn [oos_delete_covered].
      eexists _, []. split; [done|].
      assert (Hc' := at_set_fin _ _ a c Hc ltac:(lia)).
      rewrite (at_tcplen _ _ _ _ Hc'). unfold fin. rec_simpl. rewrite (proj1 (set_FIN _)).
      rewrite (at_tcplen _ _ _ _ Hn) in Hend. unfold fin in Hend. rewrite Hfn in Hend.
      split_and!; try done; try lia. intros k Hk. apply Hcov; [done|by intros ?%Exists_nil].
    + destruct IH as (c' & q' & -> & IH).
      { eapply oos_weaken; [|done]. lia. }
      exists c', q'. split; [done|]. destruct IH as (? & ? & ? & ? & ? & ? & ?). split_and!; auto.
  - exists c, (n :: r). rewrite Hct. split_and!; auto.
    + by exists a1.
    + intros n' r' [= <- <-]. exists a1. split_and!; [lia|done| |lia]. by exists a1.
Qed.

(** [tcp_oos_insert_segment] of a segment at [a] in front of later segments. *)
Lemma oos_insert_spec a c hi q : seg_at a c -> 0 < TCP_TCPLEN c -> a + TCP_TCPLEN c <= hi ->
  oos_ok (a + 1) hi q -> hi - a < 1073741824 ->
  oos_ok a hi (tcp_oos_insert_segment (seq_of isn a) c q) /\
  (forall k, window hi k -> covered q k \/ a <= k < a + seg_len c ->
     covered (tcp_oos_insert_segment (seq_of isn a) c q) k).
Proof.
  intros Hc Hpos He Hq Hw. pose proof (at_size _ _ Hc) as (Hs & Hcl & Hct).
  unfold tcp_oos_insert_segment. destruct (has (seg_flags c) TCP_FIN) eqn:Hf.
  { split; [by exists a; split_and!|]. intros k Hk Hcv. apply (covered_head a c [] hi k Hc Hk ltac:(lia)).
    left. pose proof (at_fin _ _ _ _ Hc Hf). destruct Hcv as [Hcv|]; [|done].
    apply (covered_range (a + 1) hi) in Hcv; done || lia. }
  destruct (oos_delete_covered_spec a c hi q Hc Hf ltac:(lia) Hq Hw)
    as (c' & q' & -> & Hc' & Hl' & He' & Hq' & Hf' & Hhd & Hcov).
  pose proof (at_size _ _ Hc') as (Hs' & _ & Hct'). pose proof (at_len _ _ _ _ Hc).
  assert (Hstay : forall k, window hi k -> covered q k \/ a <= k < a + seg_len c ->
    covered (c' :: q') k).
  { intros k Hk Hcv. apply (covered_head a c' q' hi k Hc' Hk ltac:(lia)). rewrite Hl'.
    destruct Hcv as [Hcv|?]; [|by left]. destruct (Hcov k Hk Hcv); [by right|by left]. }
  rewrite (Hct Hf) in Hpos.
  destruct q' as [|n r]; [split; [exists a; split_and!; try done; lia|done]|].
  destruct (Hhd n r eq_refl) as (a1 & Ha1 & Hn & Hq1 & Hlt). specialize (Hct' (Hf' ltac:(done))).
  assert (Hend1 : a1 + seg_len n <= hi).
  { destruct Hq1 as (b & ? & Hb & ? & ? & _). pose proof (at_size _ _ Hb).
    rewrite (at_unique a1 b n) by (done || lia). lia. }
  pose proof (at_len _ _ _ _ Hn).
  rewrite (seq_gt isn _ _ (a + seg_len c') a1); eauto using at_denotes with seq.
  destruct (Z.ltb_spec a1 (a + seg_len c')) as [Hov|Hno].
  - rewrite (at_seqno _ _ _ _ Hn), (seq_dist16 isn _ _ a1 a); eauto with seq; try lia.
    pose proof (at_cut _ _ a c' (a1 - a) Hc' (Hf' ltac:(done)) ltac:(lia)) as Hcut.
    split.
    + exists a. rewrite (at_cut_tcplen _ _ a c' (a1 - a) Hc' (Hf' ltac:(done))).
      split_and!; try done; try lia. by replace (a + (a1 - a)) with a1 by lia.
    + intros k Hk Hcv. apply (covered_head a _ _ hi k Hcut Hk ltac:(lia)). rec_simpl.
      apply Hstay, (covered_head a c' _ hi k Hc' Hk ltac:(lia)) in Hcv; [|done].
      destruct Hcv as [?|?]; [|by right]. destruct (decide (k < a1)); [left; lia|right].
      apply (covered_here a1); [done|lia].
  - split; [|done]. exists a. split_and!; try done; try lia.
    by eapply oos_weaken, Hq1; lia.
Qed.

(** ** The walk of [tcp_receive] over the queue *)

Section Walk.
Context (s : tcp_st) (b N hi : Z).
Context (Hsq : seqno s = seq_of isn b) (Hin : seg_at b (inseg s)).
Context (Hpos : 0 < TCP_TCPLEN (inseg s)) (Htl : tcplen s = TCP_TCPLEN (inseg s)).
Context (Hend : b + TCP_TCPLEN (inseg s) <= hi).
Context (Hnxt : rcv_nxt (st_pcb s) = seq_of isn N) (Hwnd : rcv_wnd (st_pcb s) = hi - N).

Let ins := tcp_oos_insert_segment (seqno s) (inseg s).

(** Byte [k] belongs to the end of a queued segment that contains the whole new one:
    such a segment is cut where the new one starts. *)
Definition cut_off (q : list tcp_seg) (k : Z) : Prop :=
  b + seg_len (inseg s) <= k /\
  Exists (fun pv => exists a, seg_at a pv /\ a < b /\ k < a + seg_len pv) q.

(** What an insertion that starts the result with lower bound [lo] achieves. *)
Definition kept (lo : Z) (q r : list tcp_seg) : Prop :=
  oos_ok lo hi r /\ (forall k, window hi k -> covered q k -> covered r k \/ cut_off q k).
Definition stored (r : list tcp_seg) : Prop :=
  forall k, window hi k -> b <= k < b + seg_len (inseg s) -> covered r k.

Lemma ins_later q : oos_ok (b + 1) hi q -> hi - b < 1073741824 -> kept b q (ins q) /\ stored (ins q).
Proof using Hsq Hin Hpos Hend.
  intros Hq Hw. destruct (oos_insert_spec b (inseg s) hi q) as [H1 H2]; try done.
  unfold kept, stored, ins. rewrite Hsq. split_and!; auto 6.
Qed.

(** The head has the sequence number of the new segment but less data. *)
Lemma ins_same n r : seg_at b n -> seg_len n < seg_len (inseg s) -> oos_ok (b + TCP_TCPLEN n) hi r ->
  0 < TCP_TCPLEN n -> hi - b < 1073741824 -> kept b (n :: r) (ins (n :: r)) /\ stored (ins (n :: r)).
Proof using Hsq Hin Hpos Hend.
  intros Hn Hlt Hr Hp Hw. destruct (ins_later r) as [[H1 H2] H3]; [eapply oos_weaken, Hr; lia|done|].
  pose proof (at_end _ _ _ _ Hin). pose proof (at_len _ _ _ _ Hn). pose proof (at_len _ _ _ _ Hin).
  assert (ins (n :: r) = ins r) as ->.
  { unfold ins, tcp_oos_insert_segment. destruct (has _ _); [done|]. cbn [oos_delete_covered].
    rewrite (seq_geq isn _ _ (b + seg_len (inseg s)) (b + seg_len n)); rewrite ?Hsq;
      eauto using at_denotes with seq.
    destruct (Z.leb_spec (b + seg_len n) (b + seg_len (inseg s))); [|lia].
    destruct (has (seg_flags n) TCP_FIN) eqn:E; [|done]. apply (at_fin _ _ _ _ Hn) in E. lia. }
  split; [split; [done|]|done]. intros k Hk Hc.
  apply (covered_head b n r hi k Hn Hk) in Hc; [|lia]. destruct Hc as [?|Hc].
  - left. apply H3; [done|lia].
  - destruct (H2 k Hk Hc) as [?|[? ?]]; [by left|right]. split; [done|by right].
Qed.

Lemma oos_insert_copy_spec q Q :
  (forall l, Q (Some (ins q)) (s <| oracle := l |>)) ->
  (forall l, oracle s <> [] -> Q None (s <| oracle := l |>)) ->
  wp (oos_insert_copy q) Q s.
Proof.
  intros H1 H2. unfold oos_insert_copy, tcp_seg_copy. wp_steps. apply wp_ask_any. intros z l Hz.
  destruct (Z.eqb_spec z 0) as [->|Hne]; wp_steps; [apply H1|apply H2].
  intros E. by apply Hz in E as [-> _].
Qed.

(** Trimming the segment before the new one. *)
Lemma oos_trim_prev_spec a pv : seg_at a pv -> a < b -> fin pv = false -> 0 < TCP_TCPLEN pv ->
  b - a < 1073741824 ->
  exists pv', oos_trim_prev (seqno s) pv = pv' /\ seg_at a pv' /\ 0 < TCP_TCPLEN pv' /\
    a + TCP_TCPLEN pv' <= b /\ seg_len pv' = Z.min (seg_len pv) (b - a).
Proof using Hsq.
  intros Hp Hab Hf Hpp Hw. unfold oos_trim_prev. pose proof (at_len _ _ _ _ Hp).
  pose proof (at_size _ _ Hp) as (_ & _ & Hct). specialize (Hct Hf). eexists. split; [done|].
  rewrite (seq_gt isn _ _ (a + seg_len pv) b); rewrite ?Hsq; eauto using at_denotes with seq.
  destruct (Z.ltb_spec b (a + seg_len pv)).
  - rewrite (seq_dist16 isn _ _ b a); eauto using at_denotes with seq; try lia.
    rewrite (at_cut_tcplen _ _ a) by done. split_and!; try lia; [|rec_simpl; lia].
    apply at_cut; done || lia.
  - rewrite Hct. split_and!; done || lia.
Qed.

(** Nothing is trimmed off a segment that respects the window. *)
Lemma oos_trim_window_spec seg l Q : N <= b -> hi - N < 65536 -> Q seg (s <| oracle := l |>) ->
  wp (oos_trim_window seg) Q (s <| oracle := l |>).
Proof using Hsq Hin Hpos Htl Hend Hnxt Hwnd.
  intros HN Hw HQ. unfold oos_trim_window. wp_steps. rewrite Hsq, Htl, Hnxt, Hwnd.
  pose proof (at_size _ _ Hin). pose proof (at_len _ _ _ _ Hin).
  rewrite (seq_gt isn _ _ (TCP_TCPLEN (inseg s) + b) (N + (hi - N))); eauto with seq.
  destruct (Z.ltb_spec (N + (hi - N)) (TCP_TCPLEN (inseg s) + b)); [lia|]. by wp_steps.
Qed.

Lemma cut_off_cons pv q k : cut_off q k -> cut_off (pv :: q) k.
Proof. intros [? ?]. split; [done|by right]. Qed.

Lemma kept_refl lo q : oos_ok lo hi q -> kept lo q q.
Proof. split; [done|auto]. Qed.

(** A passed segment stays where it is, or is cut where the new one starts. *)
Lemma kept_cons lo lo' a pv pv' q r : seg_at a pv -> seg_at a pv' -> lo <= a -> 0 < TCP_TCPLEN pv' ->
  a + TCP_TCPLEN pv' <= lo' -> lo' <= hi -> hi - lo < 1073741824 -> a < b ->
  (seg_len pv' = seg_len pv \/ seg_len pv' = Z.min (seg_len pv) (b - a) /\ stored r) ->
  kept lo' q r -> kept lo (pv :: q) (pv' :: r).
Proof.
  intros Hp Hp' Hlo Hpp Hle Hhi Hw Hab Hlen [Hr Hk]. split.
  - exists a. split_and!; try done; [lia|]. by eapply oos_weaken, Hr.
  - intros k Hw' Hc. apply (covered_head a pv q hi k Hp Hw') in Hc; [|pose proof (at_size _ _ Hp'); pose proof (at_len _ _ _ _ Hp'); lia].
    destruct Hc as [Hc|Hc].
    + destruct (decide (k < a + seg_len pv')) as [Hin'|Hout]; [left; by apply (covered_here a); [|lia]|].
      destruct Hlen as [?|[Hm Hst]]; [lia|].
      destruct (decide (k < b + seg_len (inseg s))) as [Hlt|Hge].
      * left. apply covered_next, Hst; [done|lia].
      * right. split; [lia|]. left. exists a. split_and!; done || lia.
    + destruct (Hk k Hw' Hc); [left; by apply covered_next|right; by apply cut_off_cons].
Qed.

Lemma stored_cons pv r : stored r -> stored (pv :: r).
Proof. intros H k Hk Hr. by apply covered_next, H. Qed.

Definition walk_post (lo : Z) (q : list tcp_seg) (r : list tcp_seg) (s' : tcp_st) : Prop :=
  exists l, s' = s <| oracle := l |> /\ kept lo q r /\ (oracle s = [] -> stored r).

(** Appending after the last segment. *)
Lemma oos_append_spec a n : seg_at a n -> a < b -> 0 < TCP_TCPLEN n -> a + TCP_TCPLEN n <= hi ->
  hi - a < 1073741824 -> N <= b -> hi - N < 65536 ->
  wp (oos_append n) (walk_post a [n]) s.
Proof using All.
  intros Hn Hab Hp He Hw HN Hh. unfold oos_append. pose proof (at_size _ _ Hn) as (Hs & _ & Hct).
  assert (Hself : oos_ok a hi [n]) by (exists a; split_and!; done || lia).
  destruct (has (seg_flags n) TCP_FIN) eqn:Hf.
  { wp_steps. exists (oracle s). split; [by destruct s|]. split; [by apply kept_refl|].
    intros _ k Hk Hr. apply (covered_here a); [done|]. pose proof (at_fin _ _ _ _ Hn Hf).
    pose proof (at_end _ _ _ _ Hin). lia. }
  unfold tcp_seg_copy. wp_steps. apply wp_ask_any. intros z l Hz.
  destruct (Z.eqb_spec z 0) as [->|Hne]; wp_steps.
  - apply oos_trim_window_spec; [done|done|]. wp_steps. exists l. split; [done|].
    destruct (oos_trim_prev_spec a n) as (n' & -> & Hn' & Hp' & Hle & Hl'); try done; [lia|].
    assert (Hst : stored [inseg s]) by (intros k Hk Hr; by apply (covered_here b)).
    split; [|intros _; by apply stored_cons].
    eapply (kept_cons a b a); try done; try lia; [by right|]. split.
    + exists b. split_and!; done || lia.
    + intros k Hk Hc. by apply Exists_nil in Hc.
  - exists l. split; [done|]. split; [by apply kept_refl|]. intros E. by apply Hz in E as [-> _].
Qed.

(** Putting a copy in front of [q], or leaving [q] when there is no memory. *)
Lemma insert_copy_post lo q (g : option (list tcp_seg) -> list tcp_seg) q0 :
  kept lo q0 (g None) -> (kept lo q0 (g (Some (ins q))) /\ stored (g (Some (ins q)))) ->
  wp (let* q' := oos_insert_copy q in ret (g q')) (walk_post lo q0) s.
Proof.
  intros H1 [H2 H3]. wp_step. apply oos_insert_copy_spec; intros l; [|intros Hne]; wp_steps; exists l;
    split_and!; auto. by intros ?%Hne.
Qed.

Lemma kept_weaken lo lo' q r : lo' <= lo -> kept lo q r -> kept lo' q r.
Proof. intros ? [? ?]. split; [by eapply oos_weaken|done]. Qed.

(** The segment before the rest of the queue is genuine and ends before it. *)
Definition prev_ok (lo lo' : Z) (prev : option tcp_seg) : Prop :=
  forall pv, prev = Some pv -> exists a, seg_at a pv /\ lo <= a < b /\ 0 < TCP_TCPLEN pv /\
    a + TCP_TCPLEN pv <= lo' /\ fin pv = false.

Lemma kept_prev lo lo' prev q r : prev_ok lo lo' prev -> lo <= lo' <= hi -> hi - lo < 1073741824 ->
  kept lo' q r -> kept lo (option_list prev ++ q) (option_list prev ++ r).
Proof.
  intros Hp Hl Hw Hk. destruct prev as [pv|]; simpl.
  - destruct (Hp pv eq_refl) as (a & ? & ? & ? & ? & ?). apply (kept_cons lo lo' a); auto; lia.
  - by apply (kept_weaken lo' lo); [lia|].
Qed.
Lemma stored_prev prev r : stored r -> stored (option_list prev ++ r).
Proof. destruct prev; [apply stored_cons|done]. Qed.

Lemma oos_split lo prev n r : oos_ok lo hi (option_list prev ++ n :: r) ->
  (forall pv, prev = Some pv -> exists a, seg_at a pv /\ lo <= a < b) ->
  hi - lo < 1073741824 -> b <= hi ->
  exists a1, lo <= a1 /\ seg_at a1 n /\ 0 < TCP_TCPLEN n /\ a1 + TCP_TCPLEN n <= hi /\
    oos_ok (a1 + TCP_TCPLEN n) hi r /\ prev_ok lo a1 prev.
Proof.
  intros Hq Hpv Hw Hb. destruct prev as [pv|].
  - destruct Hq as (a0 & Hl0 & H0 & Hp0 & He0 & (a1 & ? & Hn & ? & ? & ?)).
    destruct (Hpv pv eq_refl) as (a & Ha & Hab). assert (a = a0) as -> by (apply (at_unique a a0 pv); done || lia).
    exists a1. split_and!; try done; [lia|]. intros ? [= <-]. exists a0. split_and!; try done; [lia..|].
    destruct (fin pv) eqn:Hf; [|done]. pose proof (at_size _ _ H0). pose proof (at_fin _ _ _ _ H0 Hf).
    pose proof (at_end _ _ _ _ Hn). pose proof (at_len _ _ _ _ Hn). rewrite (at_tcplen _ _ _ _ H0), Hf in *. lia.
  - destruct Hq as (a1 & ? & Hn & ? & ? & ?). exists a1. by split_and!.
Qed.

Lemma oos_walk_spec q : forall lo prev, q <> [] -> oos_ok lo hi (option_list prev ++ q) ->
  (prev = None -> lo <= b) -> (forall pv, prev = Some pv -> exists a, seg_at a pv /\ lo <= a < b) ->
  hi - lo < 1073741824 -> hi - b < 1073741824 -> N <= b -> hi - N < 65536 ->
  wp (oos_walk prev q) (walk_post lo (option_list prev ++ q)) s.
Proof using All.
  induction q as [|n r IH]; intros lo prev Hq0 Hq Hlo Hpv Hw Hwb HN Hh; [done|]. clear Hq0.
  destruct (oos_split lo prev n r) as (a1 & Hlo1 & Hn & Hnp & Hne & Hr & Hprev); try done; [lia|].
  assert (Hself : oos_ok a1 hi (n :: r)) by (exists a1; split_and!; done || lia).
  cbn [oos_walk]. wp_steps. rewrite Hsq, (at_seqno _ _ _ _ Hn), seq_of_inj by lia.
  destruct (Z.eqb_spec b a1) as [<-|Hba].
  { destruct (Z.ltb_spec (seg_len n) (seg_len (inseg s))).
    - destruct (ins_same n r) as [? ?]; try done. apply insert_copy_post; simpl.
      + apply (kept_prev lo b); try done; [lia|]. by apply kept_refl.
      + split; [|by apply stored_prev]. by apply (kept_prev lo b); try lia.
    - wp_steps. exists (oracle s). split; [by destruct s|]. split; [by apply kept_refl|].
      intros _ k Hk Hk'. apply Exists_app. right. apply (covered_here b); [done|lia]. }
  assert (Hstep : a1 < b -> wp (match r with
    | [] => if TCP_SEQ_GT (seq_of isn b) (seq_of isn a1) then oos_append n else oos_walk (Some n) r
    | _ => oos_walk (Some n) r end) (walk_post a1 (n :: r)) s).
  { intros Hlt. destruct r as [|n2 r2].
    - rewrite (seq_gt isn _ _ b a1); eauto with seq.
      destruct (Z.ltb_spec a1 b); [|lia]. apply oos_append_spec; done || lia.
    - apply (IH a1 (Some n)); try done; try lia. intros ? [= <-]. exists a1. split; [done|lia]. }
  destruct prev as [pv|].
  - destruct (Hprev pv eq_refl) as (a0 & H0 & Hab & Hp0 & He0 & Hf0).
    rewrite (seq_between isn _ _ _ b (a0 + 1) (a1 - 1)); eauto using at_denotes with seq.
    destruct (Z.leb_spec (a0 + 1) b), (Z.leb_spec b (a1 - 1)); simpl; try lia.
    + destruct (ins_later (n :: r)) as [? ?]; [exists a1; split_and!; done || lia|done|].
      destruct (oos_trim_prev_spec a0 pv) as (pv' & Hpv' & ? & ? & ? & ?); try done; try lia.
      rewrite <- Hsq, Hpv'. apply (insert_copy_post lo (n :: r)
        (fun q' => match q' with Some q' => pv' :: q' | None => pv :: n :: r end)); simpl.
      * by apply kept_refl.
      * split; [|by apply stored_cons]. apply (kept_cons lo b a0); try done; try lia. by right.
    + wp_step. eapply wp_conseq; [apply Hstep; lia|]. intros r' s' (l & -> & Hk & Hst). wp_steps.
      exists l. split_and!; [done| |intros ?; by apply stored_cons, Hst].
      apply (kept_prev lo a1 (Some pv)); done || lia.
  - rewrite (seq_lt isn _ _ b a1); eauto with seq. destruct (Z.ltb_spec b a1).
    + destruct (ins_later (n :: r)) as [? ?]; [exists a1; split_and!; done || lia|done|].
      apply (insert_copy_post lo (n :: r) (default (n :: r))); simpl; [by apply kept_refl|].
      split; [|done]. apply (kept_weaken b); auto.
    + eapply wp_conseq; [apply Hstep; lia|]. intros r' s' (l & -> & Hk & Hst). exists l.
      split_and!; [done|by apply (kept_weaken a1); [lia|]|done].
Qed.
End Walk.
End Ooseq.
