(* ===== verification/TcpRecv.v ===== *)
(** * In-order delivery: the data part of [tcp_receive]

    For a peer that sends the stream [σ] and respects the announced window, the data
    part of [tcp_receive] never fails an assertion, keeps the receive invariant and
    passes to the application exactly the bytes of the stream that follow the ones
    passed before. *)

From S2P Require Import Prelude Def IpAddr Tcp TcpOut TcpIn TcpFacts TcpStream.
From S2P Require Import TcpOoseq.

(** ** What the data part leaves alone *)

(** The sender's side of the control block. *)
Definition tx_of (p : tcp_pcb) :=
  ((mss p, snd_nxt p, snd_wl1 p, snd_wl2 p, snd_lbb p, snd_wnd p, snd_wnd_max p, snd_buf p,
    snd_queuelen p, unsent_oversize p, bytes_acked p),
   (unsent p, unacked p, lastack p, cwnd p, ssthresh p, rto_end p, dupacks p, nrtx p, rto p, sa p, sv p),
   (rttest p, rtseq p, rtime p, polltmr p, tmr p, listener p, refused_data p, refused_fin p,
    local_ip p, remote_ip p, local_port p, remote_port p)).

(** The incoming header, and the variables of the stack around the control block. *)
Definition hdr_of (s : tcp_st) := (ackno s, in_flags s, in_wnd s, in_src s, in_dest s, in_is_v6 s,
  (tcphdr_opts s, tcphdr_optlen s, tcphdr_opt1len s, tcphdr_opt2 s)).
Definition world_of (s : tcp_st) :=
  (pcb_addr s, pcb_freed s, tcp_input_pcb s, tcp_active_pcbs s, tcp_tw_pcbs s, tcp_bound_pcbs s, tcp_active_pcbs_changed s,
   other_state s, netif_local_ip s, events s, timer_needed_calls s, tcp_ticks s).
Definition frame_of (s : tcp_st) := (tx_of (st_pcb s), recv_acked s, hdr_of s, world_of s).

(** The receiver's side, and what is passed to the application. *)
Definition rx_of (s : tcp_st) :=
  (rcv_nxt (st_pcb s), rcv_wnd (st_pcb s), rcv_ann_wnd (st_pcb s), ooseq (st_pcb s), state (st_pcb s),
   recv_data s, recv_flags s).

Lemma rx_of_eq s s' : rx_of s' = rx_of s ->
  rcv_nxt (st_pcb s') = rcv_nxt (st_pcb s) /\ rcv_wnd (st_pcb s') = rcv_wnd (st_pcb s) /\
  rcv_ann_wnd (st_pcb s') = rcv_ann_wnd (st_pcb s) /\ ooseq (st_pcb s') = ooseq (st_pcb s) /\
  state (st_pcb s') = state (st_pcb s) /\ recv_data s' = recv_data s /\ recv_flags s' = recv_flags s.
Proof. unfold rx_of. by intros [=]. Qed.
Lemma frame_mss s s' : frame_of s' = frame_of s -> mss (st_pcb s') = mss (st_pcb s).
Proof. unfold frame_of, tx_of. by intros [=]. Qed.

Lemma tcp_ack_spec s : wp tcp_ack (fun _ s' => rx_of s' = rx_of s /\ frame_of s' = frame_of s /\
  rcv_ann_right_edge (st_pcb s') = rcv_ann_right_edge (st_pcb s)) s.
Proof.
  unfold tcp_ack, tcp_clear_flags, tcp_ack_now, tcp_set_flags. wp_steps. by destruct (has _ _); wp_steps.
Qed.

Lemma tcp_send_empty_ack_spec s :
  wp tcp_send_empty_ack (fun _ s' => rx_of s' = rx_of s /\ frame_of s' = frame_of s /\
    (rcv_ann_right_edge (st_pcb s') = rcv_ann_right_edge (st_pcb s) \/
     rcv_ann_right_edge (st_pcb s') = u32_t (rcv_nxt (st_pcb s) + rcv_ann_wnd (st_pcb s)))) s.
Proof.
  unfold tcp_send_empty_ack, tcp_output_alloc_header, tcp_output_alloc_header_common,
    tcp_output_control_segment, tcp_set_flags, tcp_clear_flags.
  wp_steps. apply wp_ask_any. intros z l _. destruct (z =? 0); wp_steps; [|by split_and!; auto].
  apply wp_ask_any. intros z2 l2 _. destruct (z2 =? 0); wp_steps; [|by split_and!; auto].
  apply wp_ask_any. intros z3 l3 _. destruct (z3 =? ERR_OK); wp_steps; by split_and!; auto.
Qed.

Lemma nd6_hint_spec s : wp receive_nd6_hint (fun _ s' => rx_of s' = rx_of s /\ frame_of s' = frame_of s /\
  rcv_ann_right_edge (st_pcb s') = rcv_ann_right_edge (st_pcb s)) s.
Proof. unfold receive_nd6_hint. wp_steps. by destruct (in_is_v6 s). Qed.

Section Recv.
Context (σ : list Z) (isn : Z).
(** A position that neither [rcv_nxt] nor the announced right edge is behind; the
    window must end within 2^30 of it. *)
Context (A : Z).
Abbreviation seg_at := (seg_at σ isn).
Abbreviation oos_ok := (oos_ok σ isn).
Abbreviation covered := (covered σ isn).

(** ** The receive window *)

(** [rcv_nxt] stands for position [N], [W] bytes of window are left, and the
    announced right edge is not beyond the real one. *)
Record wnd_ok (N W : Z) (p : tcp_pcb) : Prop := WndOk {
  ok_nxt : rcv_nxt p = seq_of isn N;
  ok_wnd : rcv_wnd p = W;
  ok_pos : 0 <= N;
  ok_range : 0 <= W <= TCP_WND;
  ok_edge : exists E, rcv_ann_right_edge p = seq_of isn E /\ E <= N + W /\
    (A <= E /\ A <= N /\ N + W - A < 1073741824);
  ok_mss : 0 <= mss p < 65536
}.

(** The announced window fits as well. *)
Definition rcv_ok (N W : Z) (p : tcp_pcb) : Prop := wnd_ok N W p /\ 0 <= rcv_ann_wnd p <= W.

Lemma tcp_update_rcv_ann_wnd_spec N W s : wnd_ok N W (st_pcb s) ->
  wp tcp_update_rcv_ann_wnd (fun _ s' => exists v, 0 <= v <= W /\
    s' = s <| st_pcb := st_pcb s <| rcv_ann_wnd := v |> |>) s.
Proof.
  intros [Hn Hw Hp Hr (E & HE & HE1 & HE2) Hm]. unfold TCP_WND in *.
  unfold tcp_update_rcv_ann_wnd. wp_steps. rewrite Hn, Hw, HE.
  set (m := Z.min _ _). assert (0 <= m < 65536) by (subst m; change (TCP_WND / 2) with 16384; lia).
  rewrite (seq_geq isn _ _ (N + W) (E + m)); eauto with seq.
  destruct (_ <=? _); wp_steps; [exists W; rewrite Hw; split; [lia|done]|].
  rewrite (seq_gt isn _ _ N E); eauto with seq.
  destruct (Z.ltb_spec E N); wp_steps; [exists 0; split; [lia|done]|].
  rewrite (seq_dist isn _ _ E N); eauto with seq. apply wp_assert; [apply Z.leb_le; lia|]. wp_steps.
  exists (E - N). split; [lia|]. by rewrite u16_t_id by lia.
Qed.

(** Sending an acknowledgement keeps the window. *)
Lemma rcv_ok_edge N W s s' : rcv_ok N W (st_pcb s) -> rx_of s' = rx_of s -> mss (st_pcb s') = mss (st_pcb s) ->
  (rcv_ann_right_edge (st_pcb s') = rcv_ann_right_edge (st_pcb s) \/
   rcv_ann_right_edge (st_pcb s') = u32_t (rcv_nxt (st_pcb s) + rcv_ann_wnd (st_pcb s))) ->
  rcv_ok N W (st_pcb s').
Proof.
  intros [[Hn Hw Hp Hr (E & HE & HE1 & HE2) Hm] Ha] (R1 & R2 & R3 & _)%rx_of_eq HF Hedge.
  unfold TCP_WND in *. split; [split|]; rewrite ?HF, ?R1, ?R2, ?R3; auto.
  destruct Hedge as [->| ->]; [by exists E|].
  exists (N + rcv_ann_wnd (st_pcb s)). rewrite Hn. unfold seq_of. rewrite u32_t_add_l, Z.add_assoc.
  split_and!; done || lia.
Qed.

(** ** Delivery *)

Lemma zslice_app a n m : 0 <= a -> 0 <= n -> 0 <= m -> zslice a n σ ++ zslice (a + n) m σ = zslice a (n + m) σ.
Proof.
  intros. unfold zslice. rewrite <- (zdrop_zdrop n a) by lia. generalize (zdrop a σ). intros l.
  rewrite <- zdrop_ztake by lia. rewrite <- (ztake_ztake n (n + m) l) by lia. apply ztake_zdrop.
Qed.

Lemma at_bytes_tcplen a c : seg_at a c -> pkt_bytes (seg_p c) = zslice a (TCP_TCPLEN c) σ.
Proof.
  intros H. rewrite (at_tcplen _ _ _ _ H), (at_bytes _ _ _ _ H). destruct (fin c) eqn:E; [|by rewrite Z.add_0_r].
  pose proof (at_fin _ _ _ _ H E). pose proof (at_pos _ _ _ _ H). pose proof (at_len _ _ _ _ H).
  unfold zslice. rewrite !ztake_all; [done|..]; rewrite zlen_zdrop; lia.
Qed.

Definition got_fin (s : tcp_st) : bool := has (recv_flags s) TF_GOT_FIN.

Lemma got_fin_set f : has (Z.lor f TF_GOT_FIN) TF_GOT_FIN = true.
Proof. change TF_GOT_FIN with (2 ^ 5). rewrite has_bit, Z.lor_spec by lia. apply orb_true_r. Qed.

(** No other flag is reported to [tcp_input]. *)
Definition fin_only (f f' : Z) : Prop := f' = f \/ f' = Z.lor f TF_GOT_FIN.
Lemma fin_only_trans f1 f2 f3 : fin_only f1 f2 -> fin_only f2 f3 -> fin_only f1 f3.
Proof.
  unfold fin_only. intros [->| ->] [->| ->]; auto. right. by rewrite <- Z.lor_assoc, Z.lor_diag.
Qed.
Lemma fin_only_closed f f' : fin_only f f' -> has f' TF_CLOSED = has f TF_CLOSED.
Proof.
  intros [->| ->]; [done|]. change TF_CLOSED with (2 ^ 4). rewrite !has_bit, Z.lor_spec by lia. apply orb_false_r.
Qed.

(** From position [N] to [N'] the application got the bytes of the stream in between. *)
Definition delivered (N N' : Z) (s s' : tcp_st) : Prop :=
  pkt_bytes (recv_data s') = pkt_bytes (recv_data s) ++ zslice N (N' - N) σ /\
  got_fin s' = got_fin s || ((N <=? zlen σ) && (zlen σ <? N')) /\
  fin_only (recv_flags s) (recv_flags s') /\
  (state (st_pcb s') = state (st_pcb s) \/
   state (st_pcb s) = ESTABLISHED /\ state (st_pcb s') = CLOSE_WAIT /\ got_fin s' = true) /\
  N' <= Z.max N (zlen σ + 1).

Lemma delivered_same N s s' : recv_data s' = recv_data s -> recv_flags s' = recv_flags s ->
  state (st_pcb s') = state (st_pcb s) -> delivered N N s s'.
Proof.
  intros Er Ef Es. unfold delivered, got_fin. rewrite Er, Ef, Es.
  replace (N - N) with 0 by lia. unfold zslice. rewrite ztake_nonpos, app_nil_r by lia.
  split_and!; auto; [bool_cases; by rewrite orb_false_r|by left|lia].
Qed.

Lemma delivered_refl N s s' : rx_of s' = rx_of s -> delivered N N s s'.
Proof. intros (_ & _ & _ & _ & Es & Er & Ef)%rx_of_eq. by apply delivered_same. Qed.

Lemma delivered_trans N N1 N2 s s1 s2 : 0 <= N -> N <= N1 <= N2 ->
  delivered N N1 s s1 -> delivered N1 N2 s1 s2 -> delivered N N2 s s2.
Proof.
  intros HN Hle (B1 & F1 & O1 & S1 & M1) (B2 & F2 & O2 & S2 & M2). split_and!; [| | | |lia].
  - rewrite B2, B1, <- app_assoc. replace N1 with (N + (N1 - N)) at 2 by lia.
    rewrite zslice_app by lia. do 2 f_equal. lia.
  - rewrite F2, F1. destruct (got_fin s); [done|]. bool_cases.
  - by eapply fin_only_trans.
  - destruct S1 as [E1|(E1 & E2 & E3)]; [by rewrite E1 in S2|].
    right. rewrite F2, E3. split_and!; auto. destruct S2 as [->|(E4 & _)]; congruence.
Qed.

(** Taking [n] bytes of sequence space out of the window. *)
Lemma wnd_ok_advance N W n p : wnd_ok N W p -> 0 <= n <= W ->
  wnd_ok (N + n) (W - n) (p <| rcv_nxt := u32_t (rcv_nxt p + n) |> <| rcv_wnd := u16_t (rcv_wnd p - n) |>).
Proof.
  intros [Hn Hw Hp Hr (E & HE & HE1 & HE2) Hm] Hle. unfold TCP_WND in *.
  split; rec_simpl; try done; try (unfold TCP_WND; lia).
  - rewrite Hn. unfold seq_of. by rewrite u32_t_add_l, Z.add_assoc.
  - rewrite Hw, u16_t_id by lia. lia.
  - exists E. split_and!; done || lia.
Qed.

(** The invariants only depend on the receiver's variables. *)
Lemma wnd_ok_ext N W p p' : wnd_ok N W p ->
  (rcv_nxt p', rcv_wnd p', rcv_ann_right_edge p', mss p') =
  (rcv_nxt p, rcv_wnd p, rcv_ann_right_edge p, mss p) -> wnd_ok N W p'.
Proof. intros [] [= E1 E2 E3 E4]. split; congruence || (rewrite ?E3, ?E4; done). Qed.
Lemma rcv_ok_ext N W p p' : rcv_ok N W p ->
  (rcv_nxt p', rcv_wnd p', rcv_ann_right_edge p', mss p', rcv_ann_wnd p') =
  (rcv_nxt p, rcv_wnd p, rcv_ann_right_edge p, mss p, rcv_ann_wnd p) -> rcv_ok N W p'.
Proof. intros [? ?] [= E1 E2 E3 E4 E5]. split; [eapply wnd_ok_ext; [done|congruence]|congruence]. Qed.

(** The window after the next [n] numbers are taken and the announcement is updated. *)
Lemma update_window N W n s s1 : wnd_ok N W (st_pcb s) -> 0 <= n <= W ->
  st_pcb s1 = (st_pcb s) <| rcv_nxt := u32_t (rcv_nxt (st_pcb s) + n) |> <| rcv_wnd := u16_t (rcv_wnd (st_pcb s) - n) |> ->
  wp tcp_update_rcv_ann_wnd (fun _ s' => exists v,
    s' = s1 <| st_pcb := st_pcb s1 <| rcv_ann_wnd := v |> |> /\ rcv_ok (N + n) (W - n) (st_pcb s')) s1.
Proof.
  intros Hok Hle E. pose proof (wnd_ok_advance N W n _ Hok Hle) as Hok'. rewrite <- E in Hok'.
  eapply wp_conseq; [apply (tcp_update_rcv_ann_wnd_spec _ _ _ Hok')|].
  intros _ s' (v & Hv & ->). exists v. split; [done|]. split; [by eapply wnd_ok_ext|done].
Qed.

Lemma delivered_seg N c s s' b : seg_at N c -> b = fin c ->
  pkt_bytes (recv_data s') = pkt_bytes (recv_data s) ++ pkt_bytes (seg_p c) ->
  got_fin s' = got_fin s || b -> fin_only (recv_flags s) (recv_flags s') ->
  (state (st_pcb s') = state (st_pcb s) \/
   state (st_pcb s) = ESTABLISHED /\ state (st_pcb s') = CLOSE_WAIT /\ got_fin s' = true) ->
  delivered N (N + TCP_TCPLEN c) s s'.
Proof.
  intros Hc -> Hb Hf Ho Hs. pose proof (at_end _ _ _ _ Hc). pose proof (at_len _ _ _ _ Hc). split_and!; [| |done|done|].
  - rewrite Hb, (at_bytes_tcplen N c Hc). do 2 f_equal. lia.
  - rewrite Hf, (at_tcplen _ _ _ _ Hc). f_equal. destruct (fin c) eqn:E; [|bool_cases].
    apply (at_fin _ _ _ _ Hc) in E. bool_cases.
  - rewrite (at_tcplen _ _ _ _ Hc). destruct (fin c); lia.
Qed.

Lemma ooseq_dequeue_one_spec N hi c r s :
  wnd_ok N (hi - N) (st_pcb s) -> seg_at N c -> 0 < TCP_TCPLEN c -> N + TCP_TCPLEN c <= hi ->
  wp (ooseq_dequeue_one c r) (fun _ s' => rcv_ok (N + TCP_TCPLEN c) (hi - (N + TCP_TCPLEN c)) (st_pcb s') /\
    ooseq (st_pcb s') = r /\ frame_of s' = frame_of s /\ delivered N (N + TCP_TCPLEN c) s s') s.
Proof.
  intros Hok Hc Hpos Hend. unfold ooseq_dequeue_one. wp_steps. rewrite (ok_wnd _ _ _ Hok).
  apply wp_assert; [apply Z.leb_le; lia|]. wp_steps.
  eapply wp_conseq; [eapply update_window; [exact Hok| |by rec_simpl]; lia|].
  cbv beta. intros _ s' (v & -> & Hok'). rec_simpl_in Hok'. rewrite <- Z.sub_add_distr in Hok'. wp_steps.
  pose proof (at_bytes_len _ _ _ _ Hc) as Hbl. pose proof (at_len _ _ _ _ Hc).
  apply wp_tot_len; [apply (at_p _ _ _ _ Hc)|lia|].
  apply wp_bind, (wp_conseq _ (fun _ s' => rcv_ok (N + TCP_TCPLEN c) (hi - (N + TCP_TCPLEN c)) (st_pcb s') /\
    frame_of s' = frame_of s /\ state (st_pcb s') = state (st_pcb s) /\ recv_flags s' = recv_flags s /\
    pkt_bytes (recv_data s') = pkt_bytes (recv_data s) ++ pkt_bytes (seg_p c))).
  { destruct (Z.ltb_spec 0 (zlen (pkt_bytes (seg_p c)))); wp_steps; split_and!; try done.
    - by rewrite pkt_bytes_app.
    - by rewrite (zlen_0_inv (pkt_bytes (seg_p c))), app_nil_r by lia. }
  clear Hok Hok'. intros _ s1 (Hok1 & HF1 & Hs1 & Hf1 & Hb1).
  destruct (has (seg_flags c) TCP_FIN) eqn:HFIN; wp_steps.
  - destruct (state_is (state (st_pcb s1)) ESTABLISHED) eqn:Hst; rec_simpl; split_and!; try done;
      try (by eapply rcv_ok_ext); apply (delivered_seg _ _ _ _ true); auto;
      unfold got_fin, fin_only; rec_simpl; rewrite ?got_fin_set, ?orb_true_r, ?Hf1; auto.
    right. split_and!; try done. rewrite <- Hs1. apply Z.eqb_eq in Hst. by destruct (state (st_pcb s1)).
  - split_and!; try done; [by eapply rcv_ok_ext|]. apply (delivered_seg _ _ _ _ false); auto.
    + unfold got_fin. rec_simpl. by rewrite Hf1, orb_false_r.
    + left. exact Hf1.
Qed.

(** ** Dequeuing *)

Lemma ooseq_dequeue_spec hi q : forall N s,
  rcv_ok N (hi - N) (st_pcb s) -> ooseq (st_pcb s) = q -> oos_ok N hi q ->
  wp (ooseq_dequeue q) (fun _ s' => exists N', N <= N' /\ rcv_ok N' (hi - N') (st_pcb s') /\
    oos_ok (N' + 1) hi (ooseq (st_pcb s')) /\ frame_of s' = frame_of s /\ delivered N N' s s' /\
    (forall c r, q = c :: r -> seg_at N c -> N + TCP_TCPLEN c <= N') /\
    (forall k, window hi k -> N' <= k -> covered q k -> covered (ooseq (st_pcb s')) k)) s.
Proof.
  induction q as [|c r IH]; intros N s Hok Hq Hoos; cbn [ooseq_dequeue].
  { wp_steps. exists N. rewrite Hq. split_and!; try done. by apply delivered_refl. }
  destruct Hoos as (a & Ha & Hc & Hpos & Hend & Hr). pose proof (proj1 Hok) as Hw. pose proof (ok_range _ _ _ Hw) as Hrg.
  unfold TCP_WND in Hrg. wp_steps. rewrite (ok_nxt _ _ _ Hw), (at_seqno _ _ _ _ Hc), seq_of_inj by lia.
  destruct (Z.eqb_spec a N) as [->|Hne].
  - wp_steps. eapply wp_conseq; [by apply (ooseq_dequeue_one_spec N hi)|].
    intros _ s1 (Hok1 & Hq1 & HF1 & HD1). eapply wp_conseq; [by apply IH|].
    intros _ s2 (N' & HN' & Hok2 & Ho2 & HF2 & HD2 & Hh2 & Hc2). exists N'. pose proof (ok_pos _ _ _ Hw).
    split_and!; try done; [lia|congruence|by eapply delivered_trans; [..|exact HD1|exact HD2]; lia| |].
    + by intros ? ? [= <- <-].
    + intros k Hk Hle Hcv. apply (covered_head _ _ N c r hi k Hc Hk) in Hcv; [|lia].
      destruct Hcv as [?|?]; [|auto]. pose proof (at_size _ _ _ _ Hc). lia.
  - wp_steps. exists N. rewrite Hq. split_and!; try done; [|by apply delivered_refl|].
    + exists a. split_and!; done || lia.
    + intros ? ? [= <- <-] Hc'. by pose proof (at_unique _ _ a N c Hc Hc' ltac:(lia)).
Qed.

(** ** The segment that is next in sequence *)

(** Trimming to the receive window. *)
Lemma inseq_trim_window_spec N W s : wnd_ok N W (st_pcb s) -> seg_at N (inseg s) -> seqno s = seq_of isn N ->
  tcplen s = TCP_TCPLEN (inseg s) ->
  wp inseq_trim_window (fun _ s' => exists seg, s' = s <| inseg := seg |> <| tcplen := TCP_TCPLEN seg |> /\
    seg_at N seg /\ TCP_TCPLEN seg = Z.min (TCP_TCPLEN (inseg s)) W) s.
Proof.
  intros Hok Hs Hq Ht. pose proof Hok as [Hn Hw Hp Hr _ _]. unfold TCP_WND in Hr.
  unfold inseq_trim_window. wp_steps. rewrite Hw, Ht.
  pose proof (at_size _ _ _ _ Hs). pose proof (at_len _ _ _ _ Hs).
  destruct (Z.ltb_spec W (TCP_TCPLEN (inseg s))); wp_steps.
  - pose proof (at_clear_fin _ _ _ _ Hs) as Hs1. destruct (clear_FIN (seg_flags (inseg s))) as [Hf1 Hsyn].
    rewrite Hsyn, (at_syn _ _ _ _ Hs). rec_simpl. rewrite (u16_t_id W) by lia.
    pose proof (at_cut _ _ N _ W Hs1 Hf1 ltac:(rec_simpl; lia)) as Hs2.
    pose proof (at_cut_tcplen _ _ N _ W Hs1 Hf1) as Hl2. rec_simpl_in Hl2. rec_simpl_in Hs2.
    set (seg := _ <| seg_p := _ |>) in *. rewrite Hl2, (u16_t_id W), Hq, Hn, Hw by lia.
    apply wp_assert; [apply Z.eqb_refl|]. exists seg. rewrite Hl2. split; [done|]. split; [done|lia].
  - exists (inseg s). rewrite <- Ht. split; [by destruct s|]. split; [done|lia].
Qed.

(** The loop over the covered segments computes what [oos_delete_covered] computes. *)
Lemma inseq_remove_covered_eq hi q : forall N s, seg_at N (inseg s) -> fin (inseg s) = false ->
  seqno s = seq_of isn N -> tcplen s = TCP_TCPLEN (inseg s) -> oos_ok (N + 1) hi q ->
  wp (inseq_remove_covered q) (fun q' s' => exists seg, oos_delete_covered (seq_of isn N) (inseg s) q = (seg, q') /\
    s' = s <| inseg := seg |> <| tcplen := TCP_TCPLEN seg |>) s.
Proof.
  induction q as [|n r IH]; intros N s Hs Hf Hq Ht Hoos; cbn [inseq_remove_covered oos_delete_covered].
  { wp_steps. exists (inseg s). split; [done|]. rewrite <- Ht. by destruct s. }
  destruct Hoos as (a & Ha & Hn & Hpos & Hend & Hr). pose proof (at_size _ _ _ _ Hs) as (_ & _ & Hct).
  wp_steps. rewrite Hq, Ht, (Hct Hf).
  destruct (TCP_SEQ_GEQ _ _); [|wp_steps; exists (inseg s); split; [done|]; rewrite <- Ht; by destruct s].
  rewrite (at_syn _ _ _ _ Hs), andb_true_r. destruct (has (seg_flags n) TCP_FIN) eqn:E; wp_steps.
  - rewrite (fin_last _ _ a n hi r Hn E Hr). cbn [inseq_remove_covered oos_delete_covered]. wp_steps.
    eexists. split; [done|]. rewrite u16_t_id; [done|].
    unfold TCP_TCPLEN. rec_simpl. rewrite has_or, (proj1 (set_FIN _)). simpl. pose proof (at_len _ _ _ _ Hs). lia.
  - apply IH; try done. by eapply oos_weaken, Hr; lia.
Qed.

(** Trimming to the first segment that is left on the queue. *)
Lemma inseq_trim_right_spec N a1 n r s : seg_at N (inseg s) -> fin (inseg s) = false ->
  seqno s = seq_of isn N -> tcplen s = TCP_TCPLEN (inseg s) -> seg_at a1 n -> N < a1 < N + 131072 ->
  wp (inseq_trim_right (n :: r)) (fun _ s' => exists seg, s' = s <| inseg := seg |> <| tcplen := TCP_TCPLEN seg |> /\
    seg_at N seg /\ TCP_TCPLEN seg = Z.min (TCP_TCPLEN (inseg s)) (a1 - N)) s.
Proof.
  intros Hs Hf Hq Ht Hn Hlt. pose proof (at_size _ _ _ _ Hs) as (_ & ? & Hct). specialize (Hct Hf).
  pose proof (at_len _ _ _ _ Hs). unfold inseq_trim_right. wp_steps. rewrite Hq, Ht, Hct.
  rewrite (seq_gt isn _ _ (N + seg_len (inseg s)) a1); eauto using at_denotes with seq.
  destruct (Z.ltb_spec a1 (N + seg_len (inseg s))); wp_steps.
  - rewrite (at_syn _ _ _ _ Hs), Hq. rec_simpl. rewrite (seq_dist16 isn _ _ a1 N); eauto using at_denotes with seq; try lia.
    pose proof (at_cut _ _ N _ (a1 - N) Hs Hf ltac:(lia)) as Hs2.
    pose proof (at_cut_tcplen _ _ N _ (a1 - N) Hs Hf) as Hl2. set (seg := _ <| seg_p := _ |>) in *.
    rewrite Hl2, (u16_t_id (a1 - N)), Hq, (at_seqno _ _ _ _ Hn) by lia. apply wp_assert.
    + unfold seq_of. rewrite u32_t_add_l. apply Z.eqb_eq. f_equal. lia.
    + exists seg. rewrite Hl2. split; [done|]. split; [done|lia].
  - exists (inseg s). rewrite <- Ht. split; [by destruct s|]. split; [done|lia].
Qed.

(** What is left of the queue follows the segment, which together with it reaches as
    far as before. *)
Definition adjusted (N hi : Z) (s s' : tcp_st) : Prop :=
  exists seg q', s' = s <| inseg := seg |> <| tcplen := TCP_TCPLEN seg |> <| st_pcb := st_pcb s <| ooseq := q' |> |> /\
    seg_at N seg /\ 0 < TCP_TCPLEN seg /\ N + TCP_TCPLEN seg <= hi /\ oos_ok (N + TCP_TCPLEN seg) hi q' /\
    (TCP_TCPLEN (inseg s) <= TCP_TCPLEN seg \/
     exists c r, q' = c :: r /\ seg_at (N + TCP_TCPLEN seg) c /\
       TCP_TCPLEN (inseg s) <= TCP_TCPLEN seg + TCP_TCPLEN c) /\
    (forall k, window hi k -> covered (ooseq (st_pcb s)) k -> covered q' k \/ k < N + TCP_TCPLEN (inseg s)).

Lemma inseq_adjust_ooseq_spec N hi s : seg_at N (inseg s) -> 0 < TCP_TCPLEN (inseg s) ->
  N + TCP_TCPLEN (inseg s) <= hi -> seqno s = seq_of isn N -> tcplen s = TCP_TCPLEN (inseg s) ->
  oos_ok (N + 1) hi (ooseq (st_pcb s)) -> hi - N < 65536 ->
  wp inseq_adjust_ooseq (fun _ s' => adjusted N hi s s') s.
Proof.
  intros Hs Hpos Hend Hq Ht Hoos Hw. unfold inseq_adjust_ooseq. wp_steps.
  pose proof (at_size _ _ _ _ Hs) as (Hsz & _ & Hct).
  destruct (ooseq (st_pcb s)) as [|n0 r0] eqn:Eq.
  { wp_steps. exists (inseg s), []. rewrite <- Ht. split_and!; try done; try lia;
      [by destruct s as [[]]; simpl in *; subst|].
    intros k _ Hk. rewrite Eq in Hk. by apply Exists_nil in Hk. }
  rewrite <- Eq in *. clear Eq n0 r0. destruct (has (seg_flags (inseg s)) TCP_FIN) eqn:Hf.
  { wp_steps. exists (inseg s), []. rewrite <- Ht. split_and!; try done; try lia; try (by destruct s).
    intros k Hk Hc. right. apply (covered_range _ _ (N + 1) hi) in Hc; [|done|lia|done].
    pose proof (at_fin _ _ _ _ Hs Hf). lia. }
  specialize (Hct Hf). wp_steps. eapply wp_conseq; [by apply (inseq_remove_covered_eq hi _ N)|].
  intros q' s1 (seg & Hdel & ->).
  destruct (oos_delete_covered_spec _ _ N (inseg s) hi (ooseq (st_pcb s)) Hs Hf ltac:(lia) Hoos ltac:(lia))
    as (c' & q'' & Hdel' & Hc' & Hl' & He' & Hq' & Hf' & Hhd & Hcov).
  rewrite Hdel in Hdel'. injection Hdel' as <- <-. pose proof (at_size _ _ _ _ Hc') as (Hsz' & _ & Hct').
  assert (Hcov' : forall k, window hi k -> covered (ooseq (st_pcb s)) k -> covered q' k \/ k < N + TCP_TCPLEN (inseg s)).
  { intros k Hk Hc. destruct (Hcov k Hk Hc); [by left|right; lia]. }
  destruct q' as [|n r].
  - unfold inseq_trim_right. wp_steps. exists seg, []. split_and!; try done; try lia.
  - destruct (Hhd n r eq_refl) as (a1 & Ha1 & Hn & Hq1 & Hlt). specialize (Hct' (Hf' ltac:(done))).
    assert (a1 + TCP_TCPLEN n <= hi).
    { destruct Hq1 as (b & ? & Hb & ? & ? & _). by rewrite (at_unique _ _ a1 b n) by (done || lia). }
    pose proof (at_size _ _ _ _ Hn) as (? & _). pose proof (at_len _ _ _ _ Hn).
    wp_step. eapply wp_conseq; [by apply (inseq_trim_right_spec N a1); auto; lia|].
    intros _ s2 (seg2 & -> & Hs2 & Hl2). wp_steps. rec_simpl_in Hl2. exists seg2, (n :: r).
    split_and!; try done; try lia.
    + eapply oos_weaken, Hq1. lia.
    + destruct (Z.le_gt_cases (N + TCP_TCPLEN seg) a1); [left; lia|right]. exists n, r.
      replace (N + TCP_TCPLEN seg2) with a1 by lia. split_and!; done || lia.
Qed.

Lemma inseq_accept_spec N W s : wnd_ok N W (st_pcb s) -> seg_at N (inseg s) -> seqno s = seq_of isn N ->
  tcplen s = TCP_TCPLEN (inseg s) -> 0 < TCP_TCPLEN (inseg s) <= W -> recv_data s = [] ->
  wp inseq_accept (fun _ s' => rcv_ok (N + TCP_TCPLEN (inseg s)) (W - TCP_TCPLEN (inseg s)) (st_pcb s') /\
    ooseq (st_pcb s') = ooseq (st_pcb s) /\ frame_of s' = frame_of s /\
    delivered N (N + TCP_TCPLEN (inseg s)) s s') s.
Proof.
  intros Hok Hs Hq Ht Hle Hrd. unfold inseq_accept. wp_steps. rewrite Hq, Ht, (ok_wnd _ _ _ Hok).
  apply wp_assert; [apply Z.leb_le; lia|]. wp_steps. rewrite <- (ok_nxt _ _ _ Hok).
  eapply wp_conseq; [eapply update_window; [exact Hok| |by rec_simpl]; lia|].
  intros _ s' (v & -> & Hok'). rec_simpl_in Hok'. wp_steps.
  pose proof (at_bytes_len _ _ _ _ Hs) as Hbl. pose proof (at_len _ _ _ _ Hs).
  apply wp_tot_len; [apply (at_p _ _ _ _ Hs)|lia|].
  apply wp_bind, (wp_conseq _ (fun _ s' => rcv_ok (N + TCP_TCPLEN (inseg s)) (W - TCP_TCPLEN (inseg s)) (st_pcb s') /\
    ooseq (st_pcb s') = ooseq (st_pcb s) /\ frame_of s' = frame_of s /\ state (st_pcb s') = state (st_pcb s) /\
    recv_flags s' = recv_flags s /\ pkt_bytes (recv_data s') = pkt_bytes (recv_data s) ++ pkt_bytes (seg_p (inseg s)))).
  { rewrite Hrd. destruct (Z.ltb_spec 0 (zlen (pkt_bytes (seg_p (inseg s))))); wp_steps; split_and!; try done.
    by rewrite Hrd, (zlen_0_inv (pkt_bytes (seg_p (inseg s)))) by lia. }
  clear Hok Hok'. intros _ s1 (Hok1 & Hq1 & HF1 & Hs1 & Hf1 & Hb1).
  destruct (has (seg_flags (inseg s)) TCP_FIN) eqn:HFIN; wp_steps; split_and!; try done.
  - apply (delivered_seg _ _ _ _ true); auto; unfold got_fin, fin_only; rec_simpl; rewrite ?Hf1; auto.
    by rewrite got_fin_set, orb_true_r.
  - apply (delivered_seg _ _ _ _ false); auto; [|by left]. unfold got_fin. by rewrite Hf1, orb_false_r.
Qed.

(** The receive invariant: window and queue. *)
Definition rx_inv (N W : Z) (p : tcp_pcb) : Prop := rcv_ok N W p /\ oos_ok (N + 1) (N + W) (ooseq p).

(** The outcome of the data part: position [N'] is reached, the right edge of the
    window stays and the bytes in between are delivered. *)
Definition recv_post (N W N' : Z) (s s' : tcp_st) : Prop :=
  N <= N' /\ rx_inv N' (W - (N' - N)) (st_pcb s') /\ frame_of s' = frame_of s /\ delivered N N' s s'.

Lemma rx_inv_edge N W s s' : rx_inv N W (st_pcb s) -> rx_of s' = rx_of s -> mss (st_pcb s') = mss (st_pcb s) ->
  (rcv_ann_right_edge (st_pcb s') = rcv_ann_right_edge (st_pcb s) \/
   rcv_ann_right_edge (st_pcb s') = u32_t (rcv_nxt (st_pcb s) + rcv_ann_wnd (st_pcb s))) ->
  rx_inv N W (st_pcb s').
Proof.
  intros [Hok Hoos] Hrx HF He. split; [by eapply rcv_ok_edge|].
  apply rx_of_eq in Hrx as (_ & _ & _ & -> & _). done.
Qed.
Lemma rx_inv_quiet N W s s' : rx_inv N W (st_pcb s) -> rx_of s' = rx_of s -> frame_of s' = frame_of s ->
  (rcv_ann_right_edge (st_pcb s') = rcv_ann_right_edge (st_pcb s) \/
   rcv_ann_right_edge (st_pcb s') = u32_t (rcv_nxt (st_pcb s) + rcv_ann_wnd (st_pcb s))) ->
  rx_inv N W (st_pcb s').
Proof. intros ? ? ?%frame_mss. by apply rx_inv_edge. Qed.

Lemma delivered_quiet N N' s s1 s2 : delivered N N' s s1 -> rx_of s2 = rx_of s1 -> delivered N N' s s2.
Proof.
  intros HD (_ & _ & _ & _ & E1 & E2 & E3)%rx_of_eq. unfold delivered, got_fin in *. by rewrite E1, E2, E3.
Qed.

Lemma receive_inseq_spec N W s : rx_inv N W (st_pcb s) -> seg_at N (inseg s) -> 0 < TCP_TCPLEN (inseg s) ->
  seqno s = seq_of isn N -> recv_data s = [] -> 0 < W ->
  wp receive_inseq (fun _ s' => exists N', recv_post N W N' s s' /\
    N + Z.min (TCP_TCPLEN (inseg s)) W <= N' /\
    (forall k, window (N + W) k -> N' <= k -> covered (ooseq (st_pcb s)) k -> covered (ooseq (st_pcb s')) k)) s.
Proof.
  intros [[Hok Ha] Hoos] Hs Hpos Hq Hrd HW. pose proof (ok_range _ _ _ Hok) as Hrg. unfold TCP_WND in Hrg.
  unfold receive_inseq. wp_steps. pose proof (at_size _ _ _ _ Hs). pose proof (at_len _ _ _ _ Hs).
  rewrite u16_t_id by lia.
  eapply wp_conseq; [by apply (inseq_trim_window_spec N W)|]. intros _ s1 (seg1 & -> & Hs1 & Hl1). rec_simpl_in Hl1. wp_steps.
  eapply wp_conseq; [apply (inseq_adjust_ooseq_spec N (N + W)); rec_simpl; done || lia|].
  intros _ s2 (seg2 & q2 & -> & Hs2 & Hpos2 & Hend2 & Hoos2 & Hprog & Hcov). rec_simpl_in Hprog. rec_simpl_in Hcov. wp_steps.
  eapply wp_conseq; [apply (inseq_accept_spec N W); rec_simpl; try done; [by eapply wnd_ok_ext|lia]|].
  rec_simpl. intros _ s3 (Hok3 & Hq3 & HF3 & HD3). change (frame_of s3 = frame_of s) in HF3. rec_simpl_in Hq3.
  wp_steps. rewrite Hq3.
  eapply wp_conseq.
  { apply (ooseq_dequeue_spec (N + W) q2 (N + TCP_TCPLEN seg2)); try done.
    by replace (N + W - (N + TCP_TCPLEN seg2)) with (W - TCP_TCPLEN seg2) by lia. }
  intros _ s4 (N' & HN' & Hok4 & Hoos4 & HF4 & HD4 & Hh4 & Hc4).
  wp_step. eapply wp_conseq; [apply tcp_ack_spec|]. intros _ s5 (R5 & HF5 & E5).
  eapply wp_conseq; [apply nd6_hint_spec|]. intros _ s6 (R6 & HF6 & E6).
  assert (Hfar : N + TCP_TCPLEN seg1 <= N').
  { destruct Hprog as [?|(c & r & -> & Hc & ?)]; [lia|]. pose proof (Hh4 c r eq_refl Hc). lia. }
  exists N'. split; [split_and!|split]; [lia| |congruence| |lia|].
  - apply (rx_inv_quiet _ _ s5); auto. apply (rx_inv_quiet _ _ s4); auto.
    replace (W - (N' - N)) with (N + W - N') by lia. split; [done|].
    by replace (N' + (N + W - N')) with (N + W) by lia.
  - eapply delivered_quiet; [|exact R6]. eapply delivered_quiet; [|exact R5].
    eapply delivered_trans; [apply (ok_pos _ _ _ Hok)| |exact HD3|exact HD4]. lia.
  - apply rx_of_eq in R5 as (_ & _ & _ & O5 & _), R6 as (_ & _ & _ & O6 & _). rewrite O6, O5.
    intros k Hk Hle Hc. destruct (Hcov k Hk Hc); [auto|lia].
Qed.

(** ** Segments before and after the next one *)

Lemma trim_front_spec p off (s : tcp_st) : p <> [] -> 0 <= off <= zlen (pkt_bytes p) ->
  wp (trim_front p off) (fun p' s' => s' = s /\ p' <> [] /\ pkt_bytes p' = zdrop off (pkt_bytes p)) s.
Proof.
  revert off. induction p as [|c cs IH]; intros off Hp Hoff; [done|]. rewrite pkt_bytes_cons, zlen_app in Hoff.
  cbn [trim_front]. destruct (Z.ltb_spec (zlen c) off).
  - wp_step. eapply wp_conseq; [apply IH; [|pose proof (zlen_nonneg c); lia]|].
    + intros ->. change (zlen (pkt_bytes [])) with 0 in Hoff. lia.
    + intros p' s' (-> & _ & Hb). wp_steps. split_and!; try done.
      by rewrite !pkt_bytes_cons, Hb, zdrop_app_r by lia.
  - wp_steps. split_and!; try done. by rewrite !pkt_bytes_cons, zdrop_app_l by lia.
Qed.

(** The front of a segment that overlaps what was received is cut off. *)
Lemma receive_trim_front_overlap N W b s : wnd_ok N W (st_pcb s) -> seg_at b (inseg s) ->
  seqno s = seq_of isn b -> tcplen s = TCP_TCPLEN (inseg s) -> b < N < b + TCP_TCPLEN (inseg s) ->
  wp receive_trim_front (fun _ s' => exists seg, s' = s <| inseg := seg |> <| seqno := seq_of isn N |> /\
    seg_at N seg /\ N + TCP_TCPLEN seg = b + TCP_TCPLEN (inseg s)) s.
Proof.
  intros Hok Hs Hq Ht Hlt. pose proof (at_size _ _ _ _ Hs). pose proof (at_len _ _ _ _ Hs).
  pose proof (at_bytes_len _ _ _ _ Hs) as Hbl. pose proof (at_p _ _ _ _ Hs) as Hp.
  pose proof (at_end _ _ _ _ Hs). pose proof (at_pos _ _ _ _ Hs).
  unfold receive_trim_front. wp_steps. rewrite Hq, Ht, (ok_nxt _ _ _ Hok).
  rewrite (seq_between isn _ _ _ N (b + 1) (b + TCP_TCPLEN (inseg s) - 1)); eauto with seq.
  destruct (Z.leb_spec (b + 1) N), (Z.leb_spec N (b + TCP_TCPLEN (inseg s) - 1)); simpl; try lia.
  rewrite (seq_dist isn _ _ N b); eauto with seq; [|lia]. wp_steps.
  apply wp_assert; [by destruct (seg_p (inseg s))|]. wp_steps.
  apply wp_assert; [apply Z.ltb_lt; lia|]. wp_steps. rewrite u16_t_id by lia.
  apply wp_tot_len; [done|lia|]. wp_steps. apply wp_assert; [apply Z.leb_le; lia|]. wp_steps.
  eapply wp_conseq; [apply trim_front_spec; [done|lia]|]. intros p' s' (-> & Hp' & Hb'). wp_steps.
  eexists. split; [done|]. rewrite u16_t_id by lia.
  assert (Hs' : seg_at N (inseg s <| seg_len := seg_len (inseg s) - (N - b) |> <| seg_p := p' |>
    <| seg_seqno := seq_of isn N |>)).
  { destruct Hs as [? ? ? ? ? Hby ? Hfin]. split; unfold fin; rec_simpl; try done; try lia.
    - rewrite Hb', Hby. unfold zslice. replace (seg_len (inseg s)) with ((N - b) + (seg_len (inseg s) - (N - b))) at 1 by lia.
      rewrite zdrop_ztake, zdrop_zdrop by lia. do 2 f_equal. lia.
    - intros Hf. specialize (Hfin Hf). lia. }
  split; [done|]. rewrite (at_tcplen _ _ _ _ Hs'), (at_tcplen _ _ _ _ Hs). unfold fin. rec_simpl. lia.
Qed.

(** Otherwise the segment is left alone; for a duplicate an acknowledgement is asked for. *)
Lemma receive_trim_front_other N W b s : wnd_ok N W (st_pcb s) -> seqno s = seq_of isn b ->
  tcplen s = TCP_TCPLEN (inseg s) -> seg_at b (inseg s) -> 0 < TCP_TCPLEN (inseg s) ->
  N <= b \/ b + TCP_TCPLEN (inseg s) <= N -> -1073741824 < N - b < 1073741824 ->
  wp receive_trim_front (fun _ s' => exists f, s' = s <| st_pcb := st_pcb s <| flags := f |> |>) s.
Proof.
  intros Hok Hq Ht Hs Hpos Hc Hn. pose proof (at_size _ _ _ _ Hs). pose proof (at_len _ _ _ _ Hs).
  unfold receive_trim_front, when, tcp_ack_now, tcp_set_flags. wp_steps. rewrite Hq, Ht, (ok_nxt _ _ _ Hok).
  rewrite (seq_between isn _ _ _ N (b + 1) (b + TCP_TCPLEN (inseg s) - 1)); eauto with seq.
  destruct (Z.leb_spec (b + 1) N), (Z.leb_spec N (b + TCP_TCPLEN (inseg s) - 1)); simpl; try lia;
    destruct (TCP_SEQ_LT _ _); wp_steps; eauto; exists (flags (st_pcb s)); by destruct s as [[]].
Qed.

(** What the queue holds afterwards: all bytes beyond [N'] that were queued, up to
    those cut off behind a segment that lies inside a queued one, and the bytes of
    the segment itself if there was memory. *)
Definition queue_post (b hi N' : Z) (s s' : tcp_st) : Prop :=
  forall k, window hi k -> N' <= k ->
    (covered (ooseq (st_pcb s)) k ->
       covered (ooseq (st_pcb s')) k \/ cut_off σ isn s b (ooseq (st_pcb s)) k) /\
    (oracle s = [] -> b <= k < b + seg_len (inseg s) -> covered (ooseq (st_pcb s')) k).

Lemma receive_oos_spec N W b s : rx_inv N W (st_pcb s) -> seg_at b (inseg s) -> 0 < TCP_TCPLEN (inseg s) ->
  seqno s = seq_of isn b -> tcplen s = TCP_TCPLEN (inseg s) -> N < b -> b + TCP_TCPLEN (inseg s) <= N + W ->
  wp receive_oos (fun _ s' => recv_post N W N s s' /\ queue_post b (N + W) N s s') s.
Proof.
  intros [[Hok Ha] Hoos] Hs Hpos Hq Ht Hlt Hend. pose proof (ok_range _ _ _ Hok) as Hrg. unfold TCP_WND in Hrg.
  unfold receive_oos. wp_steps.
  apply (wp_conseq _ (fun _ s' => exists l q', s' = s <| oracle := l |> <| st_pcb := st_pcb s <| ooseq := q' |> |> /\
    kept σ isn s b (N + W) (N + 1) (ooseq (st_pcb s)) q' /\ (oracle s = [] -> stored σ isn s b (N + W) q'))).
  { destruct (ooseq (st_pcb s)) as [|n r] eqn:E.
    - unfold tcp_seg_copy. wp_steps. apply wp_ask_any. intros z l Hz.
      destruct (Z.eqb_spec z 0) as [->|Hne]; wp_steps; eexists l, _; (split; [done|]); split.
      + split; [exists b; split_and!; done || lia|]. intros k _ Hc. by apply Exists_nil in Hc.
      + intros _ k Hk Hr. by apply (covered_here _ _ b).
      + split; [done|]. intros k _ Hc. by apply Exists_nil in Hc.
      + intros Hz'. by apply Hz in Hz' as [-> _].
    - rewrite <- E in *. wp_step. eapply wp_conseq.
      { apply (oos_walk_spec σ isn s b N (N + W)) with (lo := N + 1) (prev := None); try done; try lia.
        - apply (ok_nxt _ _ _ Hok).
        - rewrite (ok_wnd _ _ _ Hok). lia.
        - by rewrite E. }
      intros q' s' (l & -> & Hk & Hst). wp_steps. by exists l, q'. }
  intros _ s1 (l & q' & -> & [Hq' Hk] & Hst). wp_step. eapply wp_conseq; [apply tcp_send_empty_ack_spec|].
  intros _ s2 (R2 & HF2 & E2). wp_steps. rec_simpl_in E2.
  assert (HO : ooseq (st_pcb s2) = q') by (by apply rx_of_eq in R2 as (_ & _ & _ & -> & _)).
  split; [split_and!; [lia| |done|]|].
  - replace (W - (N - N)) with W by lia. eapply rx_inv_quiet; [|exact R2|done|done].
    split; [split; [eapply wnd_ok_ext; [exact Hok|done]|done]|done].
  - eapply delivered_quiet; [|exact R2]. by apply delivered_same.
  - intros k Hw HN. rewrite HO. split; [by apply Hk|]. intros Ho Hr. by apply Hst.
Qed.

(** ** The data part of [tcp_receive] *)

(** Nothing but flags and the announced edge changes. *)
Lemma recv_post_quiet N W s s' : rx_inv N W (st_pcb s) -> rx_of s' = rx_of s -> frame_of s' = frame_of s ->
  (rcv_ann_right_edge (st_pcb s') = rcv_ann_right_edge (st_pcb s) \/
   rcv_ann_right_edge (st_pcb s') = u32_t (rcv_nxt (st_pcb s) + rcv_ann_wnd (st_pcb s))) ->
  recv_post N W N s s'.
Proof.
  intros Hinv Hrx HF He. split_and!; [lia| |done|by apply delivered_refl].
  replace (W - (N - N)) with W by lia. by eapply rx_inv_quiet.
Qed.

Lemma queue_post_quiet b hi N s s' : ooseq (st_pcb s') = ooseq (st_pcb s) -> b + seg_len (inseg s) <= N ->
  queue_post b hi N s s'.
Proof. intros E Hle k Hw HN. rewrite E. split; [by left|]. lia. Qed.

Theorem receive_data_spec N W b s :
  rx_inv N W (st_pcb s) -> seg_at b (inseg s) -> 0 < TCP_TCPLEN (inseg s) ->
  seqno s = seq_of isn b -> tcplen s = TCP_TCPLEN (inseg s) -> recv_data s = [] ->
  state_num (state (st_pcb s)) < state_num CLOSE_WAIT -> -1073741824 < N - b < 1073741824 ->
  b <= N \/ b + TCP_TCPLEN (inseg s) <= N + W ->
  wp receive_data (fun _ s' => exists N', recv_post N W N' s s' /\ queue_post b (N + W) N' s s' /\
    (b <= N -> Z.min (b + TCP_TCPLEN (inseg s)) (N + W) <= N')) s.
Proof.
  intros Hinv Hs Hpos Hq Ht Hrd Hst Hnear Hwin. pose proof Hinv as [[Hok Ha] Hoos].
  pose proof (ok_range _ _ _ Hok) as Hrg. unfold TCP_WND in Hrg.
  pose proof (at_size _ _ _ _ Hs) as (Hsz & Hlen & _). pose proof (at_len _ _ _ _ Hs).
  unfold receive_data. wp_steps. rewrite Ht, (proj2 (Z.ltb_lt _ _) Hpos), (proj2 (Z.ltb_lt _ _) Hst). simpl. wp_step.
  destruct (decide (b < N < b + TCP_TCPLEN (inseg s))) as [Hov|Hno].
  - eapply wp_conseq; [by apply (receive_trim_front_overlap N W b)|].
    intros _ s1 (seg & -> & Hs1 & Hl1). wp_steps. rewrite (ok_nxt _ _ _ Hok), (ok_wnd _ _ _ Hok).
    rewrite (seq_between isn _ _ _ N N (N + W - 1)); eauto with seq. rewrite Z.leb_refl, Z.eqb_refl. simpl.
    destruct (Z.leb_spec N (N + W - 1)).
    + eapply wp_conseq; [apply (receive_inseq_spec N W); rec_simpl; done || lia|]. rec_simpl.
      intros _ s2 (N' & HP & Hfar & Hc). exists N'. rec_simpl_in Hc. split_and!; [done| |lia].
      intros k Hw HN. split; [left; by apply Hc|]. intros _ ?. unfold window in Hw. lia.
    + wp_step. eapply wp_conseq; [apply tcp_send_empty_ack_spec|]. intros _ s2 (R2 & HF2 & E2). wp_steps.
      exists N. split_and!; [by apply recv_post_quiet| |lia].
      intros k Hw HN. unfold window in Hw. lia.
  - eapply wp_conseq; [apply (receive_trim_front_other N W b); done || lia|].
    intros _ s1 (f & ->). wp_steps. rewrite Hq, (ok_nxt _ _ _ Hok), (ok_wnd _ _ _ Hok).
    rewrite (seq_between isn _ _ _ b N (N + W - 1)); eauto with seq. rewrite seq_of_inj by lia.
    assert (Hinv' : rx_inv N W (st_pcb s <| flags := f |>)) by (split; [split; [eapply wnd_ok_ext; [exact Hok|done]|done]|done]).
    assert (Hsilent : (forall k, window (N + W) k -> N <= k ->
        (covered (ooseq (st_pcb s)) k -> covered (ooseq (st_pcb s)) k \/ cut_off σ isn s b (ooseq (st_pcb s)) k) /\
        (oracle s = [] -> b <= k < b + seg_len (inseg s) -> covered (ooseq (st_pcb s)) k)) ->
      b + TCP_TCPLEN (inseg s) <= N \/ W = 0 ->
      wp (let* _ := tcp_send_empty_ack in ret tt) (fun _ s' => exists N', recv_post N W N' s s' /\
        queue_post b (N + W) N' s s' /\ (b <= N -> Z.min (b + TCP_TCPLEN (inseg s)) (N + W) <= N'))
        (s <| st_pcb := st_pcb s <| flags := f |> |>)).
    { intros Hqp Hw. wp_step. eapply wp_conseq; [apply tcp_send_empty_ack_spec|]. intros _ s2 (R2 & HF2 & E2). wp_steps.
      exists N. split_and!; [by apply recv_post_quiet| |lia].
      apply rx_of_eq in R2 as (_ & _ & _ & O2 & _). rec_simpl_in O2. unfold queue_post. by rewrite O2. }
    destruct (Z.leb_spec N b), (Z.leb_spec b (N + W - 1)), (Z.eqb_spec N b); simpl; try lia.
    + subst b. eapply wp_conseq; [apply (receive_inseq_spec N W); rec_simpl; done || lia|]. rec_simpl.
      intros _ s2 (N' & HP & Hfar & Hc). exists N'. rec_simpl_in Hc. split_and!; [done| |lia].
      intros k Hw HN. split; [left; by apply Hc|]. intros _ ?. unfold window in Hw. lia.
    + eapply wp_conseq; [apply (receive_oos_spec N W b); rec_simpl; done || lia|].
      intros _ s2 [HP HQ]. exists N. split_and!; [done|done|lia].
    + apply Hsilent; [|lia]. intros k Hw HN. unfold window in Hw. lia.
    + apply Hsilent; [|lia]. intros k Hw HN. split; [by left|lia].
Qed.
End Recv.
