(* ===== verification/TcpAck.v ===== *)
(** * Acknowledgements: the ACK part of [tcp_receive]

    An acknowledgement removes exactly the acknowledged prefix of the send queues and
    keeps the account of the pbufs on them, touches nothing of the receiver's side,
    and never fails an assertion. *)

From S2P Require Import Prelude Def IpAddr Tcp TcpOut TcpIn TcpFacts TcpStream.
From S2P Require Import TcpOoseq TcpRecv.

(** ** The account of the send queues *)

Definition clens (q : list tcp_seg) : Z := foldr (fun s n => zlen (seg_p s) + n) 0 q.
Definition seg_lens (q : list tcp_seg) : Z := foldr (fun s n => seg_len s + n) 0 q.

Lemma clens_cons s q : clens (s :: q) = zlen (seg_p s) + clens q.
Proof. done. Qed.
Lemma clens_nonneg q : 0 <= clens q.
Proof. induction q as [|s q IH]; [done|]. rewrite clens_cons. pose proof (zlen_nonneg (seg_p s)). lia. Qed.
Lemma clens_app q r : clens (q ++ r) = clens q + clens r.
Proof. induction q as [|s q IH]; [done|]. simpl app. rewrite !clens_cons. lia. Qed.

(** [snd_queuelen] counts the pbufs of both queues. *)
Definition qlen_ok (p : tcp_pcb) : Prop :=
  snd_queuelen p = clens (unacked p) + clens (unsent p) /\ snd_queuelen p < 65536.

(** [ackno] acknowledges all of the segment. *)
Definition acked_by (a : Z) (s : tcp_seg) : bool := TCP_SEQ_LEQ (seg_seqno s + TCP_TCPLEN s) a.

Definition first_unacked (a : Z) (q : list tcp_seg) : Prop :=
  match q with [] => True | s :: _ => acked_by a s = false end.

(** The state after segments with [n] bytes in all were freed. *)
Definition freed (ql n : Z) (s : tcp_st) : tcp_st :=
  s <| st_pcb := st_pcb s <| snd_queuelen := ql |> |> <| recv_acked := u16_t (recv_acked s + n) |>.

Lemma freed_freed a b n m s : freed a n (freed b m s) = freed a (m + n) s.
Proof.
  unfold freed. rec_simpl. replace (u16_t (u16_t (recv_acked s + m) + n)) with (u16_t (recv_acked s + (m + n))); [done|].
  unfold u16_t. rewrite Zplus_mod_idemp_l. f_equal. lia.
Qed.

Lemma tcp_free_acked_segments_spec q o : forall s,
  snd_queuelen (st_pcb s) = clens q + clens o -> clens q + clens o < 65536 -> 0 <= recv_acked s < 65536 ->
  wp (tcp_free_acked_segments q o) (fun r s' => exists l, q = l ++ r /\
    Forall (fun x => acked_by (ackno s) x = true) l /\ first_unacked (ackno s) r /\
    s' = freed (clens r + clens o) (seg_lens l) s) s.
Proof.
  induction q as [|x q IH]; intros s Hq Hlt Hra; cbn [tcp_free_acked_segments].
  { wp_steps. exists []. unfold freed. rewrite <- Hq. split_and!; try done.
    simpl. rewrite u16_t_id by lia. rewrite Z.add_0_r. by destruct s as [[]]. }
  wp_steps. change (TCP_SEQ_LEQ _ _) with (acked_by (ackno s) x). rewrite clens_cons in Hq, Hlt.
  pose proof (clens_nonneg q). pose proof (clens_nonneg o). pose proof (zlen_nonneg (seg_p x)).
  destruct (acked_by (ackno s) x) eqn:Ha.
  2: { wp_steps. exists []. split_and!; try done. unfold freed. simpl. rewrite <- Hq, u16_t_id by lia.
       rewrite Z.add_0_r. by destruct s as [[]]. }
  wp_steps. unfold pkt_clen. rewrite (u16_t_id (zlen (seg_p x))), Hq by lia.
  apply wp_assert; [apply Z.leb_le; lia|]. wp_steps.
  rewrite (u16_t_id (snd_queuelen (st_pcb s) - zlen (seg_p x))), Hq by lia.
  replace (zlen (seg_p x) + clens q + clens o - zlen (seg_p x)) with (clens q + clens o) by lia.
  apply (wp_conseq _ (fun _ s' => s' = s <| st_pcb := st_pcb s <| snd_queuelen := clens q + clens o |> |>
    <| recv_acked := u16_t (recv_acked s + seg_len x) |>)).
  { destruct (Z.eqb_spec (clens q + clens o) 0); simpl; [by wp_steps|]. apply wp_assert; [|done].
    destruct q, o; done. }
  intros _ s1 ->. eapply wp_conseq; [apply IH; rec_simpl; [done|lia|apply u16_t_range]|]. rec_simpl.
  intros r s' (l & -> & Hl & Hf & ->). exists (x :: l). split_and!; try done; [by constructor|].
  apply freed_freed.
Qed.

(** ** What the ACK part leaves alone *)

(** The receiver's side, the incoming segment and the fixed part of the control block. *)
Definition rxin_of (s : tcp_st) :=
  (rx_of s, (mss (st_pcb s), refused_data (st_pcb s), refused_fin (st_pcb s), snd_nxt (st_pcb s), snd_lbb (st_pcb s), tmr (st_pcb s),
    local_ip (st_pcb s), remote_ip (st_pcb s), local_port (st_pcb s), remote_port (st_pcb s), listener (st_pcb s)),
   (inseg s, seqno s, tcplen s), hdr_of s, world_of s).

(** The send queues and their account. *)
Definition txq_of (p : tcp_pcb) := (unacked p, unsent p, snd_queuelen p, snd_buf p).

(** Fields of the receiver's side that the ACK part does not write. *)
Definition rxp_of (p : tcp_pcb) :=
  (rcv_nxt p, rcv_wnd p, rcv_ann_wnd p, rcv_ann_right_edge p, ooseq p, state p,
   (mss p, refused_data p, refused_fin p, snd_nxt p, snd_lbb p, tmr p, local_ip p, remote_ip p, local_port p, remote_port p, listener p)).

Lemma txq_of_eq p a b c d : txq_of p = (a, b, c, d) ->
  unacked p = a /\ unsent p = b /\ snd_queuelen p = c /\ snd_buf p = d.
Proof. unfold txq_of. by intros [=]. Qed.

Lemma receive_cwnd_frame a p : rxp_of (receive_cwnd a p) = rxp_of p /\ txq_of (receive_cwnd a p) = txq_of p /\
  lastack (receive_cwnd a p) = lastack p /\ dupacks (receive_cwnd a p) = dupacks p /\
  nrtx (receive_cwnd a p) = nrtx p /\ flags (receive_cwnd a p) = flags p.
Proof. unfold receive_cwnd. repeat case_match; done. Qed.

Lemma new_ack_pcb_frame a p : rxp_of (new_ack_pcb a p) = rxp_of p /\ txq_of (new_ack_pcb a p) = txq_of p /\
  lastack (new_ack_pcb a p) = a /\ dupacks (new_ack_pcb a p) = 0 /\ nrtx (new_ack_pcb a p) = 0 /\
  has (flags (new_ack_pcb a p)) TF_INFR = false.
Proof.
  unfold new_ack_pcb. cbv zeta.
  set (q := if has (flags p) TF_INFR then _ else p).
  assert (rxp_of q = rxp_of p /\ txq_of q = txq_of p /\ has (flags q) TF_INFR = false) as (H1 & H2 & H3).
  { subst q. destruct (has (flags p) TF_INFR) eqn:E; [|done]. split_and!; try done. rec_simpl.
    change TF_INFR with (2 ^ 2). unfold clear_bits. rewrite has_bit, Z.ldiff_spec by lia. apply andb_false_r. }
  clearbody q. case_match; [|by split_and!].
  destruct (receive_cwnd_frame (u16_t (a - lastack q)) (q <| nrtx := 0 |> <| rto := s16_t (Z.shiftr (sa q) 3 + sv q) |>
    <| dupacks := 0 |> <| lastack := a |>)) as (E1 & E2 & E3 & E4 & E5 & E6).
  rec_simpl. rewrite E1, E2, E3, E4, E5, E6. by split_and!.
Qed.

(** ** An acknowledgement of new data *)

Lemma new_ack_timers_frame p : rxp_of (new_ack_timers p) = rxp_of p /\ txq_of (new_ack_timers p) = txq_of p /\
  lastack (new_ack_timers p) = lastack p /\ dupacks (new_ack_timers p) = dupacks p /\
  nrtx (new_ack_timers p) = nrtx p /\ (rtime (new_ack_timers p) = -1 <-> unacked p = []).
Proof. unfold new_ack_timers. rec_simpl. destruct (unsent p), (unacked p) eqn:E; rec_simpl; by rewrite ?E. Qed.

Lemma receive_rto_done_frame p : rxp_of (receive_rto_done p) = rxp_of p /\
  txq_of (receive_rto_done p) = txq_of p /\ lastack (receive_rto_done p) = lastack p /\
  dupacks (receive_rto_done p) = dupacks p /\ nrtx (receive_rto_done p) = nrtx p /\
  rtime (receive_rto_done p) = rtime p.
Proof. unfold receive_rto_done. destruct (has _ _); [|done]. destruct (unacked p), (unsent p); repeat case_match; done. Qed.

(** [l1] and [l2] are acknowledged and gone, the rest stays; the bytes are free again. *)
Definition new_acked (s s' : tcp_st) : Prop :=
  exists l1 l2, unacked (st_pcb s) = l1 ++ unacked (st_pcb s') /\ unsent (st_pcb s) = l2 ++ unsent (st_pcb s') /\
    Forall (fun x => acked_by (ackno s) x = true) (l1 ++ l2) /\
    first_unacked (ackno s) (unacked (st_pcb s')) /\ first_unacked (ackno s) (unsent (st_pcb s')) /\
    recv_acked s' = u16_t (recv_acked s + seg_lens l1 + seg_lens l2) /\
    snd_buf (st_pcb s') = u16_t (snd_buf (st_pcb s) + recv_acked s') /\
    lastack (st_pcb s') = ackno s /\ dupacks (st_pcb s') = 0 /\ nrtx (st_pcb s') = 0 /\
    (rtime (st_pcb s') = -1 <-> unacked (st_pcb s') = []).

Lemma rxin_intro s s' : rxp_of (st_pcb s') = rxp_of (st_pcb s) ->
  (recv_data s', recv_flags s', inseg s', seqno s', tcplen s', hdr_of s', world_of s') =
  (recv_data s, recv_flags s, inseg s, seqno s, tcplen s, hdr_of s, world_of s) ->
  rxin_of s' = rxin_of s /\ rcv_ann_right_edge (st_pcb s') = rcv_ann_right_edge (st_pcb s).
Proof. unfold rxp_of, rxin_of, rx_of, hdr_of, world_of. intros [=] [=]. split; congruence. Qed.

Lemma nd6_hint_eq s : wp receive_nd6_hint (fun _ s' => exists n, s' = s <| nd6_hints := n |>) s.
Proof.
  unfold receive_nd6_hint. wp_steps. destruct (in_is_v6 s); [eauto|]. exists (nd6_hints s). by destruct s.
Qed.

(** Both queues lose their acknowledged prefix. *)
Lemma free_acked_queues_spec s : qlen_ok (st_pcb s) -> 0 <= recv_acked s < 65536 ->
  wp free_acked_queues (fun _ s' => exists l1 l2 r1 r2, unacked (st_pcb s) = l1 ++ r1 /\ unsent (st_pcb s) = l2 ++ r2 /\
    Forall (fun x => acked_by (ackno s) x = true) (l1 ++ l2) /\
    first_unacked (ackno s) r1 /\ first_unacked (ackno s) r2 /\ clens r1 + clens r2 < 65536 /\
    s' = s <| st_pcb := st_pcb s <| snd_queuelen := clens r1 + clens r2 |> <| unacked := r1 |> <| unsent := r2 |> |>
           <| recv_acked := u16_t (recv_acked s + seg_lens l1 + seg_lens l2) |>) s.
Proof.
  intros [Hq Hlt] Hra. unfold free_acked_queues. wp_steps.
  eapply wp_conseq; [by apply tcp_free_acked_segments_spec; try lia|].
  intros r1 s1 (l1 & E1 & F1 & U1 & ->). wp_steps. rewrite E1, clens_app in *. pose proof (clens_nonneg l1).
  eapply wp_conseq; [apply tcp_free_acked_segments_spec; unfold freed; rec_simpl; [lia|lia|apply u16_t_range]|].
  intros r2 s2 (l2 & E2 & F2 & U2 & ->). rewrite E2, clens_app in *. pose proof (clens_nonneg l2). wp_steps.
  exists l1, l2, r1, r2. split_and!; try done; [by apply Forall_app|lia|].
  unfold freed. rec_simpl. rewrite (Z.add_comm (clens r2)).
  replace (u16_t (u16_t (recv_acked s + seg_lens l1) + seg_lens l2))
    with (u16_t (recv_acked s + seg_lens l1 + seg_lens l2)); [done|].
  unfold u16_t. by rewrite Zplus_mod_idemp_l.
Qed.

(** The part after the queues: timers and the account of free buffer space. *)
Lemma new_ack_rest_spec s :
  wp (modp new_ack_timers ;;; receive_nd6_hint ;;; let* ra := gets recv_acked in
      modp (fun p => p <| snd_buf := u16_t (snd_buf p + ra) |>) ;;; modp receive_rto_done)
    (fun _ s' => exists p n, s' = s <| st_pcb := p |> <| nd6_hints := n |> /\ rxp_of p = rxp_of (st_pcb s) /\
      txq_of p = (unacked (st_pcb s), unsent (st_pcb s), snd_queuelen (st_pcb s),
                  u16_t (snd_buf (st_pcb s) + recv_acked s)) /\
      lastack p = lastack (st_pcb s) /\ dupacks p = dupacks (st_pcb s) /\ nrtx p = nrtx (st_pcb s) /\
      (rtime p = -1 <-> unacked p = [])) s.
Proof.
  wp_steps. eapply wp_conseq; [apply nd6_hint_eq|]. intros _ s3 (n & ->). wp_steps.
  generalize (new_ack_timers_frame (st_pcb s)). generalize (new_ack_timers (st_pcb s)).
  intros p3 (Q1 & Q2 & Q6 & Q7 & Q8 & Q9).
  generalize (receive_rto_done_frame (p3 <| snd_buf := u16_t (snd_buf p3 + recv_acked s) |>)).
  generalize (receive_rto_done (p3 <| snd_buf := u16_t (snd_buf p3 + recv_acked s) |>)).
  intros p5 (R1 & R2 & R3 & R4 & R5 & R6). exists p5, n.
  apply txq_of_eq in Q2 as (Q2 & Q3 & Q4 & Q5), R2 as (R2 & R7 & R8 & R9).
  rec_simpl_in R2. rec_simpl_in R7. rec_simpl_in R8. rec_simpl_in R9.
  rec_simpl_in R3. rec_simpl_in R4. rec_simpl_in R5. rec_simpl_in R6.
  split_and!; [done|exact (eq_trans R1 Q1)| |congruence|congruence|congruence|].
  - unfold txq_of. by rewrite R2, R7, R8, R9, Q2, Q3, Q4, Q5.
  - by rewrite R6, R2, Q2.
Qed.

Lemma receive_new_ack_spec s : qlen_ok (st_pcb s) -> 0 <= recv_acked s < 65536 ->
  wp receive_new_ack (fun _ s' => qlen_ok (st_pcb s') /\ new_acked s s' /\ rxin_of s' = rxin_of s /\
    rcv_ann_right_edge (st_pcb s') = rcv_ann_right_edge (st_pcb s)) s.
Proof.
  intros [Hq Hlt] Hra. unfold receive_new_ack. wp_steps.
  generalize (new_ack_pcb_frame (ackno s) (st_pcb s)). generalize (new_ack_pcb (ackno s) (st_pcb s)).
  intros p1 (P1 & P2 & P6 & P7 & P8 & _). apply txq_of_eq in P2 as (P2 & P3 & P4 & P5).
  eapply wp_conseq; [apply free_acked_queues_spec; rec_simpl; [|done]; split; congruence|].
  rec_simpl. intros _ s1 (l1 & l2 & r1 & r2 & E1 & E2 & F & U1 & U2 & Hc & ->).
  eapply wp_conseq; [apply new_ack_rest_spec|]. rec_simpl.
  intros _ s2 (p & n & -> & H1 & H2 & H3 & H4 & H5 & H6). apply txq_of_eq in H2 as (T1 & T2 & T3 & T4).
  split; [|split].
  - split; rec_simpl; rewrite T3, ?T1, ?T2; done.
  - exists l1, l2. rec_simpl. rewrite T1, T2, T4, H3, H4, H5, <- P2, <- P3, P5. split_and!; try done. by rewrite <- T1.
  - apply rxin_intro; rec_simpl; [exact (eq_trans H1 P1)|done].
Qed.

(** ** Duplicate acknowledgements and retransmission *)

Lemma clens_perm q r : Permutation q r -> clens q = clens r.
Proof. induction 1; rewrite ?clens_cons; lia. Qed.

(** Segments at the head of the unacked queue have moved to their place in the unsent one. *)
Inductive rexmitted : list tcp_seg -> list tcp_seg -> list tcp_seg -> list tcp_seg -> Prop :=
  | rexmitted_none una uns : rexmitted una uns una uns
  | rexmitted_one x una uns una' uns' :
      rexmitted una (rexmit_insert x uns) una' uns' -> rexmitted (x :: una) uns una' uns'.

Lemma rexmitted_trans una uns una1 uns1 una2 uns2 :
  rexmitted una uns una1 uns1 -> rexmitted una1 uns1 una2 uns2 -> rexmitted una uns una2 uns2.
Proof. induction 1; [done|]. intros. constructor. auto. Qed.
Lemma rexmitted_perm una uns una' uns' : rexmitted una uns una' uns' -> Permutation (una' ++ uns') (una ++ uns).
Proof. induction 1 as [|x una uns una' uns' _ ->]; [done|]. rewrite rexmit_insert_perm. simpl. by rewrite Permutation_middle. Qed.

(** The segments on the send queues are the same, in whichever queue. *)
Definition requeued (p p' : tcp_pcb) : Prop :=
  rexmitted (unacked p) (unsent p) (unacked p') (unsent p') /\ snd_queuelen p' = snd_queuelen p /\
  snd_buf p' = snd_buf p /\ lastack p' = lastack p.

Lemma requeued_refl p p' : txq_of p' = txq_of p -> lastack p' = lastack p -> requeued p p'.
Proof. intros (E1 & E2 & E3 & E4)%txq_of_eq E5. unfold requeued. rewrite E1, E2, E3, E4. split; [constructor|done]. Qed.
Lemma requeued_trans p1 p2 p3 : requeued p1 p2 -> requeued p2 p3 -> requeued p1 p3.
Proof. intros (A1 & A2 & A3 & A4) (B1 & B2 & B3 & B4). split_and!; [by eapply rexmitted_trans|congruence..]. Qed.

Lemma qlen_ok_requeued p p' : qlen_ok p -> requeued p p' -> qlen_ok p'.
Proof.
  intros [H1 H2] (Hp%rexmitted_perm & Hq & _). apply clens_perm in Hp. rewrite !clens_app in Hp. split; lia.
Qed.

(** [s'] differs from [s] in the control block and the oracle, and not on the
    receiver's side of it. *)
Definition only_tx (s s' : tcp_st) : Prop :=
  exists p l, s' = s <| st_pcb := p |> <| oracle := l |> /\ rxp_of p = rxp_of (st_pcb s).

Lemma only_tx_pcb p s : rxp_of p = rxp_of (st_pcb s) -> only_tx s (s <| st_pcb := p |>).
Proof. intros H. exists p, (oracle s). split; [by destruct s|done]. Qed.
Lemma only_tx_refl s : only_tx s s.
Proof. exists (st_pcb s), (oracle s). split; [by destruct s|done]. Qed.
Lemma only_tx_trans s1 s2 s3 : only_tx s1 s2 -> only_tx s2 s3 -> only_tx s1 s3.
Proof.
  intros (p & l & -> & H1) (p' & l' & -> & H2). rec_simpl_in H2. exists p', l'. split; [done|congruence].
Qed.
Lemma only_tx_rxin s s' : only_tx s s' -> rxin_of s' = rxin_of s /\
  rcv_ann_right_edge (st_pcb s') = rcv_ann_right_edge (st_pcb s).
Proof. intros (p & l & -> & H). by apply rxin_intro; rec_simpl. Qed.

Lemma tcp_rexmit_spec s : wp tcp_rexmit (fun _ s' => only_tx s s' /\ requeued (st_pcb s) (st_pcb s')) s.
Proof.
  unfold tcp_rexmit, tcp_output_segment_busy. wp_steps. destruct (unacked (st_pcb s)) as [|x r] eqn:E.
  { wp_steps. split; [exists (st_pcb s), (oracle s); split; [by destruct s|done]|by apply requeued_refl]. }
  wp_steps. apply wp_ask_any. intros z l _. wp_steps. destruct (negb (z =? 0)); wp_steps.
  { split; [by exists (st_pcb s), l; destruct s|by apply requeued_refl]. }
  unfold when. destruct (rexmit_inserted_last x (unsent (st_pcb s))); wp_steps;
    match goal with |- context [if ?c then _ else _] => destruct c end; rec_simpl;
    (split; [eexists _, l; split; reflexivity|]); unfold requeued; rec_simpl; (split_and!; try done);
    rewrite E; by repeat constructor.
Qed.

Lemma tcp_rexmit_fast_spec s : wp tcp_rexmit_fast (fun _ s' => only_tx s s' /\ requeued (st_pcb s) (st_pcb s')) s.
Proof.
  assert (Hid : only_tx s s /\ requeued (st_pcb s) (st_pcb s)).
  { split; [apply only_tx_refl|by apply requeued_refl]. }
  unfold tcp_rexmit_fast, tcp_set_flags. wp_steps. unfold when. destruct (_ && _); [|by wp_steps]. wp_step.
  eapply wp_conseq; [apply tcp_rexmit_spec|]. intros r s1 [H1 H2]. destruct (r =? ERR_OK); [|by wp_steps].
  wp_steps. match goal with |- context [if ?c then _ else _] => destruct c end; rec_simpl;
    (split; [eapply only_tx_trans; [exact H1|by apply only_tx_pcb]
            |eapply requeued_trans; [exact H2|by apply requeued_refl]]).
Qed.

Lemma receive_window_update_spec s : wp receive_window_update (fun _ s' => exists p, s' = s <| st_pcb := p |> /\
  rxp_of p = rxp_of (st_pcb s) /\ txq_of p = txq_of (st_pcb s) /\ lastack p = lastack (st_pcb s) /\
  rtime p = rtime (st_pcb s) /\ dupacks p = dupacks (st_pcb s)) s.
Proof. unfold receive_window_update. wp_steps. eexists. split; [done|]. repeat case_match; done. Qed.

Lemma receive_rtt_spec s : wp receive_rtt (fun _ s' => exists p, s' = s <| st_pcb := p |> /\
  rxp_of p = rxp_of (st_pcb s) /\ txq_of p = txq_of (st_pcb s) /\ lastack p = lastack (st_pcb s) /\
  rtime p = rtime (st_pcb s) /\ dupacks p = dupacks (st_pcb s) /\ nrtx p = nrtx (st_pcb s)) s.
Proof. unfold receive_rtt. wp_steps. eexists. split; [done|]. case_match; done. Qed.

Lemma receive_dupack_spec e s : wp (receive_dupack e) (fun _ s' => only_tx s s' /\ requeued (st_pcb s) (st_pcb s')) s.
Proof.
  unfold receive_dupack. wp_steps. destruct (_ && _ && _ && _); [|wp_steps; split; [by apply only_tx_pcb|by apply requeued_refl]].
  wp_steps. set (p1 := if dupacks (st_pcb s) <? _ then _ else _).
  assert (Hp1 : rxp_of p1 = rxp_of (st_pcb s) /\ txq_of p1 = txq_of (st_pcb s) /\ lastack p1 = lastack (st_pcb s))
    by (subst p1; by case_match).
  clearbody p1. destruct Hp1 as (E1 & E2 & E3). unfold when.
  apply (wp_conseq _ (fun _ s' => only_tx s s' /\ requeued (st_pcb s) (st_pcb s'))).
  { destruct (3 <? dupacks p1); wp_steps; (split; [by apply only_tx_pcb|by apply requeued_refl]). }
  intros _ s1 [H1 H2]. destruct (3 <=? dupacks p1); [|by wp_steps].
  eapply wp_conseq; [apply tcp_rexmit_fast_spec|]. intros _ s2 [H3 H4].
  split; [by eapply only_tx_trans|by eapply requeued_trans].
Qed.

(** ** The ACK part *)

(** The announced right edge stays, or is what an acknowledgement just sent announces. *)
Definition edge_ok (s s' : tcp_st) : Prop :=
  rcv_ann_right_edge (st_pcb s') = rcv_ann_right_edge (st_pcb s) \/
  rcv_ann_right_edge (st_pcb s') = u32_t (rcv_nxt (st_pcb s) + rcv_ann_wnd (st_pcb s)).

Lemma tcp_send_empty_ack_tx s : wp tcp_send_empty_ack (fun _ s' => rxin_of s' = rxin_of s /\ edge_ok s s' /\
  requeued (st_pcb s) (st_pcb s') /\ recv_acked s' = recv_acked s) s.
Proof.
  unfold tcp_send_empty_ack, tcp_output_alloc_header, tcp_output_alloc_header_common,
    tcp_output_control_segment, tcp_set_flags, tcp_clear_flags, edge_ok.
  wp_steps. apply wp_ask_any. intros z l _. destruct (z =? 0); wp_steps; [|by split_and!; auto; apply requeued_refl].
  apply wp_ask_any. intros z2 l2 _. destruct (z2 =? 0); wp_steps; [|by split_and!; auto; apply requeued_refl].
  apply wp_ask_any. intros z3 l3 _. destruct (z3 =? ERR_OK); wp_steps; by split_and!; auto; apply requeued_refl.
Qed.

(** The acknowledgement is for data sent and not acknowledged before. *)
Definition acks_new (s : tcp_st) : bool :=
  negb (TCP_SEQ_LEQ (ackno s) (lastack (st_pcb s))) &&
  TCP_SEQ_BETWEEN (ackno s) (lastack (st_pcb s) + 1) (snd_nxt (st_pcb s)).

Definition ack_post (s s' : tcp_st) : Prop :=
  qlen_ok (st_pcb s') /\ rxin_of s' = rxin_of s /\ edge_ok s s' /\
  if acks_new s then new_acked s s'
  else requeued (st_pcb s) (st_pcb s') /\ recv_acked s' = recv_acked s.

Lemma new_acked_ext s s1 p s2 q : new_acked s1 s2 -> s1 = s <| st_pcb := p |> ->
  txq_of p = txq_of (st_pcb s) -> txq_of q = txq_of (st_pcb s2) -> lastack q = lastack (st_pcb s2) ->
  rtime q = rtime (st_pcb s2) -> dupacks q = dupacks (st_pcb s2) -> nrtx q = nrtx (st_pcb s2) ->
  new_acked s (s2 <| st_pcb := q |>).
Proof.
  intros (l1 & l2 & H1 & H2 & H3 & H4 & H5 & H6 & H7 & H8 & H9 & H10 & H11) -> (A1 & A2 & A3 & A4)%txq_of_eq
    (B1 & B2 & B3 & B4)%txq_of_eq E1 E2 E3 E4.
  rec_simpl_in H1. rec_simpl_in H2. rec_simpl_in H3. rec_simpl_in H4. rec_simpl_in H5. rec_simpl_in H6.
  rec_simpl_in H7. rec_simpl_in H8.
  exists l1, l2. rec_simpl. rewrite B1, B2, B4, E1, E2, E3, E4, <- A1, <- A2, <- A4. by split_and!.
Qed.

Lemma rxin_of_pcb s p : rxp_of p = rxp_of (st_pcb s) -> rxin_of (s <| st_pcb := p |>) = rxin_of s /\
  rcv_ann_right_edge p = rcv_ann_right_edge (st_pcb s) /\ rcv_nxt p = rcv_nxt (st_pcb s) /\
  rcv_ann_wnd p = rcv_ann_wnd (st_pcb s) /\ snd_nxt p = snd_nxt (st_pcb s).
Proof.
  intros H. destruct (rxin_intro s (s <| st_pcb := p |>)) as [? ?]; [done|done|].
  split; [done|]. split; [done|]. by injection H.
Qed.

Lemma receive_ack_spec s : qlen_ok (st_pcb s) -> 0 <= recv_acked s < 65536 -> wp receive_ack (fun _ s' => ack_post s s') s.
Proof.
  intros Hq Hra. unfold receive_ack. wp_steps. eapply wp_conseq; [apply receive_window_update_spec|].
  intros _ s1 (p & -> & H1 & H2 & H3 & _). wp_steps. destruct (rxin_of_pcb s p H1) as (R1 & R2 & R3 & R4 & R5).
  assert (Hq' : qlen_ok p) by (eapply qlen_ok_requeued; [exact Hq|by apply requeued_refl]).
  apply (wp_conseq _ (fun _ s' => qlen_ok (st_pcb s') /\ rxin_of s' = rxin_of s /\ edge_ok s s' /\
    if acks_new s then new_acked (s <| st_pcb := p |>) s'
    else requeued (st_pcb s) (st_pcb s') /\ recv_acked s' = recv_acked s)).
  - unfold acks_new. rewrite H3, R5. destruct (TCP_SEQ_LEQ _ _); simpl; [|destruct (TCP_SEQ_BETWEEN _ _ _)].
    + eapply wp_conseq; [apply receive_dupack_spec|]. rec_simpl. intros _ s2 [G1 G2].
      pose proof (only_tx_rxin _ _ G1) as [I1 I2]. rec_simpl_in I2. split_and!.
      * by eapply qlen_ok_requeued.
      * congruence.
      * left. congruence.
      * eapply requeued_trans; [|exact G2]. by apply requeued_refl.
      * by destruct G1 as (? & ? & -> & _).
    + eapply wp_conseq; [by apply receive_new_ack_spec|]. intros _ s2 (G1 & G2 & G3 & G4). rec_simpl_in G4.
      split_and!; try done; [congruence|]. left. congruence.
    + wp_step. eapply wp_conseq; [apply tcp_send_empty_ack_tx|]. intros z s2 (G1 & G2 & G3 & G4).
      rec_simpl_in G3. rec_simpl_in G4. wp_steps. split_and!; try done.
      * by eapply qlen_ok_requeued.
      * congruence.
      * unfold edge_ok in *. rec_simpl_in G2. rewrite R2, R3, R4 in G2. done.
      * eapply requeued_trans; [|exact G3]. by apply requeued_refl.
  - intros _ s2 (G1 & G2 & G3 & G4). eapply wp_conseq; [apply receive_rtt_spec|].
    intros _ s3 (q & -> & K1 & K2 & K3 & K4 & K5 & K6). destruct (rxin_of_pcb s2 q K1) as (Z1 & Z2 & _).
    split; [|split; [congruence|split]].
    + eapply qlen_ok_requeued; [exact G1|by apply requeued_refl].
    + unfold edge_ok in *. rec_simpl. by rewrite Z2.
    + destruct (acks_new s).
      * by eapply (new_acked_ext s (s <| st_pcb := p |>) p s2 q).
      * destruct G4 as [G4 G5]. split; [|done]. eapply requeued_trans; [exact G4|by apply requeued_refl].
Qed.
