(* ===== verification/TcpReceive.v ===== *)
(** * [tcp_receive] as a whole

    The ACK part followed by the data part, for a segment of the peer's stream. *)

From S2P Require Import Prelude Def IpAddr Tcp TcpOut TcpIn TcpFacts TcpStream.
From S2P Require Import TcpOoseq TcpRecv TcpAck.

Section Receive.
Context (σ : list Z) (isn A : Z).
Abbreviation seg_at := (seg_at σ isn).
Abbreviation rx_inv := (rx_inv σ isn A).

(** The segment [tcp_input] has put into the variables of the module: genuine, at
    position [b], and either not beyond [rcv_nxt] or within the window. *)
Record arrives (N W b : Z) (s : tcp_st) : Prop := Arrives {
  ar_seg : seg_at b (inseg s);
  ar_seqno : seqno s = seq_of isn b;
  ar_tcplen : tcplen s = TCP_TCPLEN (inseg s);
  ar_data : recv_data s = [];
  ar_acked : recv_acked s = 0;
  ar_near : -1073741824 < N - b < 1073741824;
  ar_window : b <= N \/ b + TCP_TCPLEN (inseg s) <= N + W
}.

(** Fields of the control block that [tcp_receive] does not write. *)
Definition fixed_of (p : tcp_pcb) :=
  (snd_nxt p, snd_lbb p, refused_data p, refused_fin p, local_ip p, remote_ip p, local_port p, remote_port p, listener p).

Lemma receive_data_empty N W s : rx_inv N W (st_pcb s) -> tcplen s = 0 ->
  wp receive_data (fun _ s' => recv_post σ isn A N W N s s' /\ recv_data s' = recv_data s) s.
Proof.
  intros Hinv H0. unfold receive_data. wp_steps. rewrite H0. simpl. wp_steps.
  unfold when, tcp_ack_now, tcp_set_flags. destruct (negb _); wp_steps; (split; [apply recv_post_quiet; auto|done]).
Qed.

Lemma rxin_of_eq s s' : rxin_of s' = rxin_of s -> rx_of s' = rx_of s /\ mss (st_pcb s') = mss (st_pcb s) /\
  inseg s' = inseg s /\ seqno s' = seqno s /\ tcplen s' = tcplen s.
Proof. unfold rxin_of. intros [= ? ?]. split_and!; auto. unfold rx_of. congruence. Qed.

(** The data part does not touch the sender's side. *)
Lemma frame_tx s s' : frame_of s' = frame_of s -> txq_of (st_pcb s') = txq_of (st_pcb s) /\
  lastack (st_pcb s') = lastack (st_pcb s) /\ dupacks (st_pcb s') = dupacks (st_pcb s) /\
  nrtx (st_pcb s') = nrtx (st_pcb s) /\ rtime (st_pcb s') = rtime (st_pcb s).
Proof. unfold frame_of, tx_of, txq_of. intros [=]. split_and!; congruence. Qed.
Lemma frame_acked s s' : frame_of s' = frame_of s -> recv_acked s' = recv_acked s.
Proof. unfold frame_of. by intros [=]. Qed.
Lemma requeued_frame s s' : frame_of s' = frame_of s -> requeued (st_pcb s) (st_pcb s').
Proof. intros (E1 & E2 & _)%frame_tx. by apply requeued_refl. Qed.
Lemma new_acked_frame s s1 s' : new_acked s s1 -> frame_of s' = frame_of s1 -> new_acked s s'.
Proof.
  intros (l1 & l2 & H) HF. pose proof (frame_tx _ _ HF) as ((E1 & E2 & E3 & E4)%txq_of_eq & E5 & E6 & E7 & E8).
  exists l1, l2. by rewrite E1, E2, E4, E5, E6, E7, E8, (frame_acked _ _ HF).
Qed.

(** Past the peer's FIN the text of a segment is ignored. *)
Lemma receive_data_closed N W s : rx_inv N W (st_pcb s) ->
  state_num CLOSE_WAIT <= state_num (state (st_pcb s)) ->
  wp receive_data (fun _ s' => recv_post σ isn A N W N s s' /\ recv_data s' = recv_data s) s.
Proof.
  intros Hinv Hst. unfold receive_data. wp_steps. rewrite (proj2 (Z.ltb_ge _ _) Hst), andb_false_r. wp_steps.
  unfold when, tcp_ack_now, tcp_set_flags. destruct (negb _); wp_steps; (split; [apply recv_post_quiet; auto|done]).
Qed.

(** The outcome for a segment at position [b]: [N'] is the new position of
    [rcv_nxt], the bytes up to it are delivered, the window keeps its right edge,
    and the send queues lose what the segment acknowledges. *)
Record received (N W b : Z) (s : tcp_st) (N' : Z) (s' : tcp_st) : Prop := Received {
  rc_le : N <= N';
  rc_inv : rx_inv N' (W - (N' - N)) (st_pcb s');
  rc_bytes : delivered σ N N' s s';
  rc_progress : b <= N -> state_num (state (st_pcb s)) < state_num CLOSE_WAIT ->
    Z.min (b + TCP_TCPLEN (inseg s)) (N + W) <= N';
  rc_closed : state_num CLOSE_WAIT <= state_num (state (st_pcb s)) -> N' = N /\ recv_data s' = [];
  rc_empty : TCP_TCPLEN (inseg s) = 0 -> N' = N /\ recv_data s' = [];
  rc_qlen : qlen_ok (st_pcb s');
  rc_acked : if has (in_flags s) TCP_ACK && acks_new s then new_acked s s'
             else requeued (st_pcb s) (st_pcb s') /\ recv_acked s' = 0;
  rc_hdr : hdr_of s' = hdr_of s;
  rc_world : world_of s' = world_of s;
  rc_fixed : fixed_of (st_pcb s') = fixed_of (st_pcb s)
}.

Lemma rxin_world s s' : rxin_of s' = rxin_of s -> hdr_of s' = hdr_of s /\ world_of s' = world_of s /\
  fixed_of (st_pcb s') = fixed_of (st_pcb s).
Proof. unfold rxin_of, fixed_of. intros [=]. unfold hdr_of, world_of. split_and!; congruence. Qed.
Lemma frame_world s s' : frame_of s' = frame_of s -> hdr_of s' = hdr_of s /\ world_of s' = world_of s /\
  fixed_of (st_pcb s') = fixed_of (st_pcb s).
Proof. unfold frame_of, tx_of, fixed_of. intros [=]. unfold hdr_of, world_of. split_and!; congruence. Qed.

Lemma receive_data_any N W b s : rx_inv N W (st_pcb s) -> seg_at b (inseg s) -> seqno s = seq_of isn b ->
  tcplen s = TCP_TCPLEN (inseg s) -> recv_data s = [] -> -1073741824 < N - b < 1073741824 ->
  b <= N \/ b + TCP_TCPLEN (inseg s) <= N + W ->
  wp receive_data (fun _ s' => exists N', recv_post σ isn A N W N' s s' /\
    (b <= N -> state_num (state (st_pcb s)) < state_num CLOSE_WAIT ->
     Z.min (b + TCP_TCPLEN (inseg s)) (N + W) <= N') /\
    (state_num CLOSE_WAIT <= state_num (state (st_pcb s)) -> N' = N /\ recv_data s' = []) /\
    (TCP_TCPLEN (inseg s) = 0 -> N' = N /\ recv_data s' = [])) s.
Proof.
  intros Hinv A1 A2 A3 A4 A6 A7.
  destruct (Z.le_gt_cases (state_num CLOSE_WAIT) (state_num (state (st_pcb s)))) as [Hcl|Hst].
  { eapply wp_conseq; [by apply (receive_data_closed N W)|]. intros ? s2 [HP HD]. exists N. rewrite A4 in HD. split_and!; done || lia. }
  destruct (decide (TCP_TCPLEN (inseg s) = 0)) as [E0|Hne].
  - eapply wp_conseq; [apply (receive_data_empty N W); [done|congruence]|].
    intros ? s2 [HP HD]. exists N. rewrite A4 in HD. split_and!; done || lia.
  - pose proof (at_size _ _ _ _ A1). pose proof (at_len _ _ _ _ A1).
    eapply wp_conseq; [apply (receive_data_spec σ isn A N W b); done || lia|].
    intros _ s2 (N' & HP & _ & Hp). exists N'. split_and!; done || lia.
Qed.

Lemma tcp_receive_spec N W b s :
  qlen_ok (st_pcb s) -> rx_inv N W (st_pcb s) -> arrives N W b s ->
  state_num ESTABLISHED <= state_num (state (st_pcb s)) ->
  wp tcp_receive (fun _ s' => exists N', received N W b s N' s') s.
Proof.
  intros Hq Hinv Har Hst. unfold tcp_receive. wp_steps. apply wp_assert; [apply Z.leb_le; lia|]. wp_steps.
  apply (wp_conseq _ (fun _ s' => qlen_ok (st_pcb s') /\ rxin_of s' = rxin_of s /\ edge_ok s s' /\
    if has (in_flags s) TCP_ACK && acks_new s then new_acked s s'
    else requeued (st_pcb s) (st_pcb s') /\ recv_acked s' = 0)).
  { unfold when. destruct (has (in_flags s) TCP_ACK); simpl.
    - eapply wp_conseq; [by apply receive_ack_spec; [|rewrite (ar_acked _ _ _ _ Har)]|].
      unfold ack_post. by rewrite (ar_acked _ _ _ _ Har).
    - wp_steps. split_and!; try done; [by left|by apply requeued_refl|apply (ar_acked _ _ _ _ Har)]. }
  intros _ s1 (Hq1 & HR & He & Hack). pose proof (rxin_world _ _ HR) as (HH1 & HW1 & HX1).
  pose proof (rxin_of_eq _ _ HR) as (R1 & R2 & R3 & R4 & R5).
  pose proof (rx_inv_edge σ isn A N W s s1 Hinv R1 R2 He) as Hinv1.
  apply rx_of_eq in R1 as (_ & _ & _ & _ & E1 & E2 & E3).
  apply (wp_conseq _ (fun _ s' => exists N', recv_post σ isn A N W N' s1 s' /\
    (b <= N -> state_num (state (st_pcb s)) < state_num CLOSE_WAIT -> Z.min (b + TCP_TCPLEN (inseg s)) (N + W) <= N') /\
    (state_num CLOSE_WAIT <= state_num (state (st_pcb s)) -> N' = N /\ recv_data s' = []) /\
    (TCP_TCPLEN (inseg s) = 0 -> N' = N /\ recv_data s' = []))).
  { destruct Har as [A1 A2 A3 A4 A5 A6 A7].
    eapply wp_conseq; [apply (receive_data_any N W b); rewrite ?R3, ?R4, ?R5, ?E2; done|]. by rewrite E1, R3. }
  intros _ s2 (N' & (HN & Hinv2 & HF & HD) & Hp & Hcl & Hem). pose proof (frame_world _ _ HF) as (HH2 & HW2 & HX2).
  exists N'. split; try done || congruence.
  - unfold delivered, got_fin in *. by rewrite E1, E2, E3 in HD.
  - eapply qlen_ok_requeued; [exact Hq1|by apply requeued_frame].
  - destruct (_ && _); [by eapply new_acked_frame|]. destruct Hack as [H1 H2]. split.
    + eapply requeued_trans; [exact H1|by apply requeued_frame].
    + rewrite <- H2. by apply frame_acked.
Qed.
End Receive.
