(* ===== verification/TcpOpt.v ===== *)
(** * TCP options ([tcp_parseopt] of [core/tcp_in.c])

    The option parser reads the options of a segment byte by byte, from one or two
    pbufs, and takes over the MSS option. *)

From S2P Require Import Prelude Def IpAddr Tcp TcpOut TcpFacts.

Definition LWIP_TCP_OPT_EOL : Z := 0.
Definition LWIP_TCP_OPT_NOP : Z := 1.
Definition LWIP_TCP_OPT_MSS : Z := 2.
Definition LWIP_TCP_OPT_LEN_MSS : Z := 4.

(** A byte read from memory; beyond the readable bytes it is a fault. *)
Definition read_byte (mem : list Z) (i : Z) : TM Z :=
  match mem !! Z.to_nat i with Some b => ret b | None => fail BadAccess end.

Definition tcp_get_next_optbyte : TM Z :=
  let* s := get in
  let optidx := tcp_optidx s in
  modify (fun s => s <| tcp_optidx := u16_t (tcp_optidx s + 1) |>) ;;;
  match tcphdr_opt2 s with
  | None => read_byte (tcphdr_opts s) optidx
  | Some opt2 =>
      if optidx <? tcphdr_opt1len s then read_byte (tcphdr_opts s) optidx
      else read_byte opt2 (u8_t (optidx - tcphdr_opt1len s))
  end.

(** The MSS taken over from an option: limited to [TCP_MSS], never zero. *)
Definition opt_mss (mss : Z) : Z := if (TCP_MSS <? mss) || (mss =? 0) then TCP_MSS else mss.

Fixpoint tcp_parseopt_loop (fuel : nat) : TM unit :=
  match fuel with
  | O => fail OutOfFuel
  | S fuel =>
      let* s := get in
      if tcp_optidx s <? tcphdr_optlen s then
        let* opt := tcp_get_next_optbyte in
        if opt =? LWIP_TCP_OPT_EOL then ret tt
        else if opt =? LWIP_TCP_OPT_NOP then tcp_parseopt_loop fuel
        else if opt =? LWIP_TCP_OPT_MSS then
          let* len := tcp_get_next_optbyte in
          let* idx := gets tcp_optidx in
          if negb (len =? LWIP_TCP_OPT_LEN_MSS) || (tcphdr_optlen s <? idx - 2 + LWIP_TCP_OPT_LEN_MSS) then ret tt
          else
            let* hi := tcp_get_next_optbyte in
            let* lo := tcp_get_next_optbyte in
            let m := Z.lor (u16_t (Z.shiftl hi 8)) lo in
            modp (fun p => p <| mss := opt_mss m |>) ;;;
            tcp_parseopt_loop fuel
        else
          let* data := tcp_get_next_optbyte in
          if data <? 2 then ret tt
          else
            modify (fun s => s <| tcp_optidx := u16_t (tcp_optidx s + (data - 2)) |>) ;;;
            tcp_parseopt_loop fuel
      else ret tt
  end.

Definition tcp_parseopt : TM unit :=
  let* optlen := gets tcphdr_optlen in
  if negb (optlen =? 0) then
    modify (fun s => s <| tcp_optidx := 0 |>) ;;;
    tcp_parseopt_loop (S (Z.to_nat optlen))
  else ret tt.

(** ** Reading *)

(** Byte [i] behind the fixed header. *)
Definition opt_byte (s : tcp_st) (i : Z) : option Z :=
  match tcphdr_opt2 s with
  | None => tcphdr_opts s !! Z.to_nat i
  | Some opt2 =>
      if i <? tcphdr_opt1len s then tcphdr_opts s !! Z.to_nat i
      else opt2 !! Z.to_nat (i - tcphdr_opt1len s)
  end.

(** Only the MSS and the read position differ. *)
Definition opt_frame (s s' : tcp_st) : Prop :=
  exists m i, s' = s <| st_pcb := st_pcb s <| mss := m |> |> <| tcp_optidx := i |>.

Lemma opt_frame_refl s : opt_frame s s.
Proof. exists (mss (st_pcb s)), (tcp_optidx s). by destruct s as [[]]. Qed.
Lemma opt_frame_trans s1 s2 s3 : opt_frame s1 s2 -> opt_frame s2 s3 -> opt_frame s1 s3.
Proof. intros (m & i & ->) (m' & i' & ->). by exists m', i'. Qed.
Lemma opt_frame_byte s s' i : opt_frame s s' -> opt_byte s' i = opt_byte s i.
Proof. by intros (m & j & ->). Qed.

(** The options fit a TCP header: at most 40 bytes. *)
Definition opts_sized (s : tcp_st) : Prop :=
  0 <= tcphdr_opt1len s <= tcphdr_optlen s /\ tcphdr_optlen s <= 40.

Lemma next_optbyte_spec s b : opts_sized s -> 0 <= tcp_optidx s <= tcphdr_optlen s ->
  opt_byte s (tcp_optidx s) = Some b ->
  wp tcp_get_next_optbyte (fun r s' => r = b /\ s' = s <| tcp_optidx := tcp_optidx s + 1 |>) s.
Proof.
  intros [Hs1 Hs2] Hi Hb. unfold tcp_get_next_optbyte, opt_byte, read_byte in *. wp_steps. rewrite (u16_t_id (_ + 1)) by lia.
  destruct (tcphdr_opt2 s) as [o2|]; [|by rewrite Hb; wp_steps].
  destruct (Z.ltb_spec (tcp_optidx s) (tcphdr_opt1len s)); rewrite ?u8_t_id by lia; rewrite Hb; by wp_steps.
Qed.

Lemma opt_mss_range m : 1 <= opt_mss m <= TCP_MSS \/ m < 0.
Proof. unfold opt_mss, TCP_MSS. bool_cases. Qed.

(** ** Safety *)

(** The bytes [0 .. n-1] can be read and are bytes. *)
Definition opts_readable (s : tcp_st) (n : Z) : Prop :=
  forall i, 0 <= i < n -> exists b, opt_byte s i = Some b /\ byte_ok b.

Lemma opt_frame_idx s j : opt_frame s (s <| tcp_optidx := j |>).
Proof. exists (mss (st_pcb s)), j. by destruct s as [[]]. Qed.
Lemma opts_readable_idx s n j : opts_readable (s <| tcp_optidx := j |>) n <-> opts_readable s n.
Proof. done. Qed.

Definition mss_ok (s s' : tcp_st) : Prop :=
  mss (st_pcb s') = mss (st_pcb s) \/ 1 <= mss (st_pcb s') <= TCP_MSS.

Lemma mss_value hi lo : byte_ok hi -> byte_ok lo ->
  Z.lor (u16_t (Z.shiftl hi 8)) lo = hi * 256 + lo.
Proof. unfold byte_ok. intros. rewrite shiftl8, u16_t_id, lor_add8; lia. Qed.

Lemma read_optbyte s n : opts_sized s -> opts_readable s n -> tcp_optidx s < n ->
  0 <= tcp_optidx s <= tcphdr_optlen s ->
  wp tcp_get_next_optbyte (fun r s' => byte_ok r /\ opt_byte s (tcp_optidx s) = Some r /\
    s' = s <| tcp_optidx := tcp_optidx s + 1 |>) s.
Proof.
  intros Hs Hr Hn Hi. destruct (Hr (tcp_optidx s)) as (b & Hb & Hok); [lia|].
  eapply wp_conseq; [by apply next_optbyte_spec|]. by intros r s' [-> ->].
Qed.

Lemma tcp_parseopt_loop_safe fuel : forall s,
  opts_sized s -> opts_readable s (tcphdr_optlen s + 1) -> 0 <= tcp_optidx s < 4096 ->
  Z.max 0 (tcphdr_optlen s - tcp_optidx s) < Z.of_nat fuel ->
  wp (tcp_parseopt_loop fuel) (fun _ s' => opt_frame s s' /\ mss_ok s s') s.
Proof.
  induction fuel as [|fuel IH]; intros s Hs Hr Hi Hf; [lia|].
  assert (Hidx : forall j, opt_frame s (s <| tcp_optidx := j |>)) by (intros; apply opt_frame_idx).
  assert (Hsame : forall j, mss_ok s (s <| tcp_optidx := j |>)) by (by left).
  pose proof Hs as [Hs1 Hs2].
  cbn [tcp_parseopt_loop]. wp_steps.
  destruct (Z.ltb_spec (tcp_optidx s) (tcphdr_optlen s)); [|wp_steps; split; [apply opt_frame_refl|by left]].
  wp_step. eapply wp_conseq; [by apply (read_optbyte s _ Hs Hr); lia|]. intros b s1 (Hb & _ & ->).
  case_match; [by wp_steps|]. case_match.
  { eapply wp_conseq; [apply IH; rec_simpl; done || lia|]. intros _ s' [HF HM].
    split; [eapply opt_frame_trans; [apply Hidx|done]|done]. }
  case_match; wp_step;
    (eapply wp_conseq; [apply (read_optbyte _ (tcphdr_optlen s + 1)); rec_simpl; done || lia|]);
    rec_simpl; intros b1 s1 (Hb1 & _ & ->); wp_steps.
  - case_match; [by wp_steps|]. bool_to_prop. wp_step.
    eapply wp_conseq; [apply (read_optbyte _ (tcphdr_optlen s + 1)); rec_simpl; unfold LWIP_TCP_OPT_LEN_MSS in *; done || lia|].
    rec_simpl. intros hi s1 (Hhi & _ & ->). wp_step.
    eapply wp_conseq; [apply (read_optbyte _ (tcphdr_optlen s + 1)); rec_simpl; unfold LWIP_TCP_OPT_LEN_MSS in *; done || lia|].
    rec_simpl. intros lo s1 (Hlo & _ & ->). wp_steps. rewrite mss_value by done.
    eapply wp_conseq; [apply IH; rec_simpl; done || lia|]. intros _ s' [HF HM].
    split; [eapply opt_frame_trans; [|done]; by eexists _, _|].
    unfold mss_ok in *. rec_simpl_in HM. pose proof (opt_mss_range (hi * 256 + lo)). unfold byte_ok in *. lia.
  - case_match; [by wp_steps|]. bool_to_prop. unfold byte_ok in *. wp_steps. rewrite u16_t_id by lia.
    eapply wp_conseq; [apply IH; rec_simpl; done || lia|]. intros _ s' [HF HM].
    split; [eapply opt_frame_trans; [apply Hidx|done]|done].
Qed.

(** There are no options, or one byte more than the options can be read. *)
Definition opts_safe (s : tcp_st) : Prop := tcphdr_optlen s = 0 \/ opts_readable s (tcphdr_optlen s + 1).

Lemma tcp_parseopt_safe_wp s : opts_sized s -> opts_safe s ->
  wp tcp_parseopt (fun _ s' => opt_frame s s' /\ mss_ok s s') s.
Proof.
  intros Hs Hr. pose proof Hs as [? ?]. unfold tcp_parseopt. wp_steps.
  destruct (Z.eqb_spec (tcphdr_optlen s) 0) as [E0|E0]; cbn [negb]; [wp_steps; split; [apply opt_frame_refl|by left]|]. wp_steps.
  destruct Hr as [Hr|Hr]; [done|].
  eapply wp_conseq; [apply tcp_parseopt_loop_safe; rec_simpl; done || lia|]. intros _ s' [HF HM].
  split; [eapply opt_frame_trans; [apply opt_frame_idx|done]|done].
Qed.

(** ** Encoding *)

Inductive tcp_option :=
| OptNop
| OptMss (m : Z)
| OptOther (kind : Z) (body : list Z).

Definition opt_encode (o : tcp_option) : list Z :=
  match o with
  | OptNop => [LWIP_TCP_OPT_NOP]
  | OptMss m => [LWIP_TCP_OPT_MSS; LWIP_TCP_OPT_LEN_MSS; m / 256; m mod 256]
  | OptOther kind body => kind :: 2 + zlen body :: body
  end.
Definition opts_encode (os : list tcp_option) : list Z := concat (opt_encode <$> os).

Definition opt_wf (o : tcp_option) : Prop :=
  match o with
  | OptNop => True
  | OptMss m => 0 <= m < 65536
  | OptOther kind body => 3 <= kind < 256
  end.

(** The MSS after the options: the last MSS option counts. *)
Definition opts_mss (os : list tcp_option) (m0 : Z) : Z :=
  fold_left (fun m o => match o with OptMss m' => opt_mss m' | _ => m end) os m0.

(** The bytes from [i] on are [l]. *)
Definition opts_at (s : tcp_st) (i : Z) (l : list Z) : Prop :=
  forall k b, l !! k = Some b -> opt_byte s (i + Z.of_nat k) = Some b.

Lemma opts_at_app s i l1 l2 : opts_at s i (l1 ++ l2) -> opts_at s i l1 /\ opts_at s (i + zlen l1) l2.
Proof.
  intros H. split; intros k b Hk; [apply H; by apply lookup_app_l_Some|].
  replace (i + zlen l1 + Z.of_nat k) with (i + Z.of_nat (length l1 + k)) by (unfold zlen; lia).
  apply H. rewrite lookup_app_r by lia. by replace (length l1 + k - length l1)%nat with k by lia.
Qed.
Lemma opts_at_cons s i b l : opts_at s i (b :: l) -> opt_byte s i = Some b /\ opts_at s (i + 1) l.
Proof.
  intros H. apply (opts_at_app s i [b] l) in H as [H1 H2]. split; [|done].
  rewrite <- (Z.add_0_r i). by apply (H1 0%nat).
Qed.
Lemma opts_at_frame s s' i l : opt_frame s s' -> opts_at s i l -> opts_at s' i l.
Proof. intros F H k b Hk. rewrite (opt_frame_byte s s') by done. by apply H. Qed.

(** What may follow the options: nothing, or the end-of-options byte and padding. *)
Definition opts_tail (l : list Z) : Prop := l = [] \/ exists pad, l = LWIP_TCP_OPT_EOL :: pad.

Lemma zlen_opts_encode_cons o os : zlen (opts_encode (o :: os)) = zlen (opt_encode o) + zlen (opts_encode os).
Proof. unfold opts_encode. simpl. apply zlen_app. Qed.

(** Every option takes at least one byte. *)
Lemma opts_encode_length os : Forall opt_wf os -> Z.of_nat (length os) <= zlen (opts_encode os).
Proof.
  induction 1 as [|o os _ _ IH]; [done|]. rewrite zlen_opts_encode_cons. simpl length.
  assert (1 <= zlen (opt_encode o)); [|lia].
  destruct o as [|m|k body]; simpl; rewrite ?zlen_cons; try done. pose proof (zlen_nonneg body). lia.
Qed.

Ltac next_optbyte :=
  wp_step; eapply wp_conseq; [apply next_optbyte_spec; rec_simpl; done || lia|];
  rec_simpl; intros ? ? [-> ->]; rec_simpl.

Lemma tcp_parseopt_loop_encoded os tail : opts_tail tail -> forall fuel s,
  Forall opt_wf os -> opts_sized s -> 0 <= tcp_optidx s ->
  opts_at s (tcp_optidx s) (opts_encode os ++ tail) ->
  tcphdr_optlen s = tcp_optidx s + zlen (opts_encode os) + zlen tail ->
  (length os < fuel)%nat ->
  wp (tcp_parseopt_loop fuel)
    (fun _ s' => opt_frame s s' /\ mss (st_pcb s') = opts_mss os (mss (st_pcb s))) s.
Proof.
  intros Htail fuel. revert os. induction fuel as [|fuel IH]; intros os s Hwf Hs Hi Hat Hlen Hf; [simpl in Hf; lia|].
  pose proof Hs as [Hs1 Hs2]. pose proof (zlen_nonneg tail) as Ht.
  cbn [tcp_parseopt_loop]. wp_steps.
  destruct os as [|o os].
  { change (zlen (opts_encode [])) with 0 in Hlen. change (opts_encode []) with (@nil Z) in Hat. rewrite app_nil_l in Hat.
    destruct Htail as [->|[pad ->]].
    - rewrite (proj2 (Z.ltb_ge _ _)) by (unfold zlen in Hlen; simpl in Hlen; lia). wp_steps. split; [apply opt_frame_refl|done].
    - apply opts_at_cons in Hat as [Hb _]. rewrite zlen_cons in *. pose proof (zlen_nonneg pad).
      rewrite (proj2 (Z.ltb_lt _ _)) by lia. next_optbyte. wp_steps. split; [apply opt_frame_idx|done]. }
  apply Forall_cons in Hwf as [Ho Hwf]. rewrite zlen_opts_encode_cons in Hlen.
  unfold opts_encode in Hat. simpl fmap in Hat. rewrite concat_cons, <- app_assoc in Hat. fold (opts_encode os) in Hat.
  apply opts_at_app in Hat as [Hat Hrest]. pose proof (zlen_nonneg (opts_encode os)) as Hz.
  assert (HIH : forall j m, j = tcp_optidx s + zlen (opt_encode o) ->
    opts_mss os m = opts_mss (o :: os) (mss (st_pcb s)) ->
    wp (tcp_parseopt_loop fuel) (fun _ s' => opt_frame s s' /\ mss (st_pcb s') = opts_mss (o :: os) (mss (st_pcb s)))
      (s <| st_pcb := st_pcb s <| mss := m |> |> <| tcp_optidx := j |>)).
  { intros j m -> Hm. eapply wp_conseq; [apply (IH os); rec_simpl; try done; try lia|].
    - pose proof (zlen_nonneg (opt_encode o)). lia.
    - simpl in Hf. lia.
    - intros _ s' [HF HM]. rec_simpl_in HM. split; [|congruence]. eapply opt_frame_trans; [|done]. by eexists _, _. }
  assert (HIH' : forall j, j = tcp_optidx s + zlen (opt_encode o) ->
    opts_mss os (mss (st_pcb s)) = opts_mss (o :: os) (mss (st_pcb s)) ->
    wp (tcp_parseopt_loop fuel) (fun _ s' => opt_frame s s' /\ mss (st_pcb s') = opts_mss (o :: os) (mss (st_pcb s)))
      (s <| tcp_optidx := j |>)).
  { intros j Hj Hm. replace (s <| tcp_optidx := j |>) with (s <| st_pcb := st_pcb s <| mss := mss (st_pcb s) |> |> <| tcp_optidx := j |>)
      by (by destruct s as [[]]). by apply HIH. }
  destruct o as [|m|kind body]; simpl opt_encode in *; rewrite ?zlen_cons, ?zlen_nil in *.
  - apply opts_at_cons in Hat as [Hb _]. rewrite (proj2 (Z.ltb_lt _ _)) by lia. next_optbyte. simpl. by apply HIH'.
  - apply opts_at_cons in Hat as [Hb0 Hat]. apply opts_at_cons in Hat as [Hb1 Hat].
    apply opts_at_cons in Hat as [Hb2 Hat]. apply opts_at_cons in Hat as [Hb3 _]. simpl in Ho.
    rewrite (proj2 (Z.ltb_lt _ _)) by lia. next_optbyte. simpl. next_optbyte. wp_steps.
    simpl. rewrite (proj2 (Z.ltb_ge _ _)) by (unfold LWIP_TCP_OPT_LEN_MSS; lia).
    next_optbyte. next_optbyte. wp_steps. rewrite mss_value by (unfold byte_ok; dlia).
    replace (m / 256 * 256 + m mod 256) with m by dlia. apply (HIH (tcp_optidx s + 1 + 1 + 1 + 1) (opt_mss m)); [lia|done].
  - apply opts_at_cons in Hat as [Hb0 Hat]. apply opts_at_cons in Hat as [Hb1 _]. simpl in Ho.
    pose proof (zlen_nonneg body).
    rewrite (proj2 (Z.ltb_lt _ _)) by lia. next_optbyte.
    do 3 (rewrite (proj2 (Z.eqb_neq kind _)) by (unfold LWIP_TCP_OPT_EOL, LWIP_TCP_OPT_NOP, LWIP_TCP_OPT_MSS; lia)).
    next_optbyte. rewrite (proj2 (Z.ltb_ge _ _)) by lia. wp_steps. rewrite u16_t_id by lia.
    apply HIH'; [lia|done].
Qed.

Lemma tcp_parseopt_encoded os tail s : opts_tail tail -> Forall opt_wf os -> opts_sized s ->
  opts_at s 0 (opts_encode os ++ tail) -> tcphdr_optlen s = zlen (opts_encode os) + zlen tail ->
  wp tcp_parseopt (fun _ s' => mss (st_pcb s') = opts_mss os (mss (st_pcb s))) s.
Proof.
  intros H1 H2 [H3 H3'] H4 H5. pose proof (zlen_nonneg tail). pose proof (opts_encode_length os H2) as Hl.
  unfold tcp_parseopt. wp_steps. destruct (Z.eqb_spec (tcphdr_optlen s) 0) as [E|E]; cbn [negb].
  - wp_steps. pose proof (zlen_nonneg (opts_encode os)). assert (length os = 0%nat) as ->%length_zero_iff_nil by lia. done.
  - wp_steps. eapply wp_conseq; [apply (tcp_parseopt_loop_encoded os tail); rec_simpl; try done; unfold zlen in *; lia|].
    by intros _ s' [_ Hm].
Qed.
