(* ===== verification/TcpOutput.v ===== *)
(** * TCP output: sending queued segments ([tcp_output] of [core/tcp_out.c])

    [tcp_output] sends the segments of the unsent queue that fit the window and moves
    them to the unacked queue; [tcp_rexmit_rto] puts the whole unacked queue back.
    Routing and the answer of the IP layer come from the oracle. *)

From S2P Require Import Prelude Def IpAddr Tcp TcpOut.

Definition TF_SEG_OPTS_MSS : Z := 1.
Definition TF_SEG_DATA_CHECKSUMMED : Z := 4.
Definition TCP_SND_QUEUELEN : Z := (4 * TCP_SND_BUF + (TCP_MSS - 1)) / TCP_MSS.
Definition IP_HLEN : Z := 20.
Definition IP6_HLEN : Z := 40.

(** [tcp_eff_send_mss_netif(sendmss, outif, dest)]: the MTU is that of the netif, or
    for IPv6 the answer of [nd6_get_destination_mtu]. *)
Definition tcp_eff_send_mss_netif (sendmss : Z) (outif_null : bool) (dest : ip_addr) : TM Z :=
  let limit mtu :=
    if negb (mtu =? 0) then
      let offset := if IP_IS_V6_VAL dest then IP6_HLEN + TCP_HLEN else IP_HLEN + TCP_HLEN in
      let mss_s := if offset <? mtu then u16_t (mtu - offset) else 0 in
      Z.min sendmss mss_s
    else sendmss in
  if IP_IS_V6_VAL dest then let* mtu := ask in ret (limit (u16_t mtu))
  else if outif_null then ret sendmss
  else let* mtu := ask in ret (limit (u16_t mtu)).

(** [TCP_BUILD_MSS_OPTION(mss)], as the bytes of the 32-bit word in network order. *)
Definition TCP_BUILD_MSS_OPTION (mss : Z) : list Z :=
  let w := Z.lor 33816576 (Z.land mss 65535) in
  [Z.land (Z.shiftr w 24) 255; Z.land (Z.shiftr w 16) 255; Z.land (Z.shiftr w 8) 255; Z.land w 255].

(** [LWIP_TCP_OPT_LENGTH(flags)] with the options of this build. *)
Definition LWIP_TCP_OPT_LENGTH (optflags : Z) : Z := if has optflags TF_SEG_OPTS_MSS then 4 else 0.

(** [tcp_output_segment]: the value of the checksum field is the business of
    [TcpChksum]; swapping [seg->chksum] to the order needed for the sum is undone at
    the end of the function. *)
Definition tcp_output_segment (seg : tcp_seg) : TM Z :=
  let* busy := tcp_output_segment_busy seg in
  if (busy : bool) then ret ERR_OK
  else
    let* p := gets st_pcb in
    modp (fun p => p <| rcv_ann_right_edge := u32_t (rcv_nxt p + rcv_ann_wnd p) |>) ;;;
    let* opts :=
      (if has (seg_optflags seg) TF_SEG_OPTS_MSS then
         let* m := tcp_eff_send_mss_netif TCP_MSS false (remote_ip p) in ret (TCP_BUILD_MSS_OPTION m)
       else ret []) in
    let* ticks := gets tcp_ticks in
    modp (fun p => if rtime p <? 0 then p <| rtime := 0 |> else p) ;;;
    modp (fun p => if rttest p =? 0 then p <| rttest := ticks |> <| rtseq := seg_seqno seg |> else p) ;;;
    lwip_assert "options not filled" (zlen opts =? LWIP_TCP_OPT_LENGTH (seg_optflags seg)) ;;;
    lwip_assert "data included but not checksummed"
      (has (seg_optflags seg) TF_SEG_DATA_CHECKSUMMED || (zlen (pkt_bytes (seg_p seg)) =? 0)) ;;;
    modify (fun s => s <| sent := sent s ++ [mkOut (local_port p) (remote_port p) (seg_seqno seg) (rcv_nxt p)
                                               (seg_flags seg) (rcv_ann_wnd p) opts (pkt_bytes (seg_p seg))] |>) ;;;
    ask.

(** [tcp_do_output_nagle(pcb)]. *)
Definition tcp_do_output_nagle (p : tcp_pcb) : bool :=
  match unacked p with [] => true | _ => false end
  || has (flags p) (Z.lor TF_NODELAY TF_INFR)
  || match unsent p with
     | [] => false
     | useg :: rest => match rest with [] => mss p <=? seg_len useg | _ => true end
     end
  || (snd_buf p =? 0) || (TCP_SND_QUEUELEN <=? snd_queuelen p).

(** "put segment on unacknowledged list": behind the last one ([useg]), or, when it is
    older than that (fast retransmit), before the first one that is not older. *)
Definition unacked_insert (seg : tcp_seg) (una : list tcp_seg) : list tcp_seg :=
  match last una with
  | None => [seg]
  | Some useg =>
      if TCP_SEQ_LT (seg_seqno seg) (seg_seqno useg) then rexmit_insert seg una
      else una ++ [seg]
  end.

(** Whether a segment fits the window: [seqno - lastack + len <= wnd] in [u32_t]. *)
Definition fits (wnd : Z) (p : tcp_pcb) (seg : tcp_seg) : bool :=
  u32_t (seg_seqno seg - lastack p + seg_len seg) <=? wnd.

(** What the loop does after a segment was sent. *)
Definition output_sent (seg : tcp_seg) (rest : list tcp_seg) (p : tcp_pcb) : tcp_pcb :=
  let seg := seg <| oversize_left := 0 |> in
  let p := p <| unsent := rest |> in
  let p := if state_is (state p) SYN_SENT then p
           else p <| flags := clear_bits (flags p) (Z.lor TF_ACK_DELAY TF_ACK_NOW) |> in
  let snd_nxt' := u32_t (seg_seqno seg + TCP_TCPLEN seg) in
  let p := if TCP_SEQ_LT (snd_nxt p) snd_nxt' then p <| snd_nxt := snd_nxt' |> else p in
  if 0 <? TCP_TCPLEN seg then p <| unacked := unacked_insert seg (unacked p) |> else p.

(** The loop of [tcp_output] over the unsent queue; [Some err] when a segment could
    not be sent. *)
Fixpoint output_loop (wnd : Z) (q : list tcp_seg) : TM (option Z) :=
  match q with
  | [] => ret None
  | seg :: rest =>
      let* p := gets st_pcb in
      if fits wnd p seg then
        lwip_assert "RST not expected here!" (negb (has (seg_flags seg) TCP_RST)) ;;;
        if negb (tcp_do_output_nagle p) && negb (has (flags p) (Z.lor TF_NAGLEMEMERR TF_FIN)) then ret None
        else
          let seg := if state_is (state p) SYN_SENT then seg
                     else seg <| seg_flags := Z.lor (seg_flags seg) TCP_ACK |> in
          modp (fun p => p <| unsent := seg :: rest |>) ;;;
          let* err := tcp_output_segment seg in
          if negb (err =? ERR_OK) then tcp_set_flags TF_NAGLEMEMERR ;;; ret (Some err)
          else modp (output_sent seg rest) ;;; output_loop wnd rest
      else ret None
  end.

Definition output_done : TM Z := tcp_clear_flags TF_NAGLEMEMERR ;;; ret ERR_OK.

(** "Handle the current segment not fitting within the window". *)
Definition output_blocked (wnd : Z) : TM Z :=
  modp (fun p => if (wnd =? snd_wnd p) && match unacked p with [] => true | _ => false end && (persist_backoff p =? 0)
                 then p <| persist_cnt := 0 |> <| persist_backoff := 1 |> <| persist_probe := 0 |> else p) ;;;
  let* f := getp flags in
  if has f TF_ACK_NOW then tcp_send_empty_ack else output_done.

(** "If we don't have a local IP address, we get one from netif": [false] when there
    is none. *)
Definition output_local_ip : TM bool :=
  let* ip := getp local_ip in
  if ip_addr_isany_val ip then
    let* l := gets netif_local_ip in
    match l with
    | None => ret false
    | Some a => modp (fun p => p <| local_ip := ip_addr_copy a |>) ;;; ret true
    end
  else ret true.

(** [tcp_output] once the input-processing check has passed. *)
Definition tcp_output_queued : TM Z :=
  let* p := gets st_pcb in
  let wnd := Z.min (snd_wnd p) (cwnd p) in
  match unsent p with
  | [] => if has (flags p) TF_ACK_NOW then tcp_send_empty_ack else output_done
  | seg :: _ =>
      let* no_route := ask in
      if negb (no_route =? 0) then ret ERR_RTE
      else
        let* has_ip := output_local_ip in
        if negb has_ip then ret ERR_RTE
        else
          let* p := gets st_pcb in
          if negb (fits wnd p seg) then output_blocked wnd
          else
            modp (fun p => p <| persist_backoff := 0 |>) ;;;
            let* r := output_loop wnd (unsent p) in
            match r with
            | Some err => ret err
            | None =>
                modp (fun p => match unsent p with [] => p <| unsent_oversize := 0 |> | _ => p end) ;;;
                output_done
            end
  end.

Definition tcp_output : TM Z :=
  let* s := get in
  lwip_assert "don't call tcp_output for listen-pcbs" (negb (state_is (state (st_pcb s)) LISTEN)) ;;;
  if tcp_input_pcb s =? pcb_addr s then ret ERR_OK
  else tcp_output_queued.

(** ** Retransmission after a time-out *)

(** Whether one of the segments is still referenced by a driver. *)
Fixpoint any_busy (q : list tcp_seg) : TM bool :=
  match q with
  | [] => ret false
  | seg :: rest => let* busy := tcp_output_segment_busy seg in if (busy : bool) then ret true else any_busy rest
  end.

Definition tcp_rexmit_rto_prepare : TM Z :=
  let* una := getp unacked in
  match last una with
  | None => ret ERR_VAL
  | Some seg =>
      let* busy := any_busy una in
      if (busy : bool) then ret ERR_VAL
      else
        modp (fun p => match unsent p with [] => p <| unsent_oversize := oversize_left seg |> | _ => p end) ;;;
        modp (fun p => p <| unsent := unacked p ++ unsent p |>) ;;;
        modp (fun p => p <| unacked := [] |>) ;;;
        tcp_set_flags TF_RTO ;;;
        modp (fun p => p <| rto_end := u32_t (seg_seqno seg + TCP_TCPLEN seg) |>) ;;;
        modp (fun p => p <| rttest := 0 |>) ;;;
        ret ERR_OK
  end.

Definition tcp_rexmit_rto_commit : TM unit :=
  modp (fun p => if nrtx p <? 255 then p <| nrtx := nrtx p + 1 |> else p) ;;;
  let* _ := tcp_output in ret tt.

Definition tcp_rexmit_rto : TM unit :=
  let* r := tcp_rexmit_rto_prepare in
  when (r =? ERR_OK) tcp_rexmit_rto_commit.
