(* ===== verification/TcpSend.v ===== *)
(** * What [tcp_output] guarantees

    The send queues stay sorted and keep their segments, nothing is sent beyond the
    window, and no data is left without a running timer. *)

From Stdlib Require Import Sorted.
From stdpp Require Import sorting.
From S2P Require Import Prelude Def IpAddr Tcp TcpOut TcpFacts TcpIn TcpStream.
From S2P Require Import TcpOoseq TcpRecv TcpAck TcpOutput.

(** ** Segments up to what sending changes *)

(** Sending sets the ACK flag and resets [oversize_left]. *)
Definition plain (s : tcp_seg) : tcp_seg :=
  s <| seg_flags := clear_bits (seg_flags s) TCP_ACK |> <| oversize_left := 0 |>.
Definition plains (q : list tcp_seg) : list tcp_seg := plain <$> q.

Lemma clear_ack_set f : clear_bits (Z.lor f TCP_ACK) TCP_ACK = clear_bits f TCP_ACK.
Proof.
  unfold clear_bits. apply Z.bits_inj'. intros i Hi. rewrite !Z.ldiff_spec, Z.lor_spec.
  destruct (Z.testbit f i), (Z.testbit TCP_ACK i); done.
Qed.
Lemma plain_set_ack s : plain (s <| seg_flags := Z.lor (seg_flags s) TCP_ACK |>) = plain s.
Proof. unfold plain. rec_simpl. by rewrite clear_ack_set. Qed.

Lemma has_clear_ack f b : Z.land b TCP_ACK = 0 -> has (clear_bits f TCP_ACK) b = has f b.
Proof.
  intros Hb. unfold has, clear_bits. do 2 f_equal. apply Z.bits_inj'. intros i Hi.
  rewrite !Z.land_spec, Z.ldiff_spec. apply (f_equal (fun z => Z.testbit z i)) in Hb.
  rewrite Z.land_spec, Z.bits_0 in Hb. destruct (Z.testbit f i), (Z.testbit b i), (Z.testbit TCP_ACK i); done.
Qed.
Lemma plain_tcplen s : TCP_TCPLEN (plain s) = TCP_TCPLEN s.
Proof. unfold TCP_TCPLEN, plain. rec_simpl. by rewrite has_clear_ack. Qed.

(** ** Sorted queues *)


Section Send.
(** The sequence numbers in use lie in the half of the sequence space from [B] on. *)
Context (B : Z).

Definition off (s : tcp_seg) : Z := u32_t (seg_seqno s - B).
Definition offs (q : list tcp_seg) : list Z := off <$> q.

Lemma off_plain s : off (plain s) = off s.
Proof. done. Qed.
Lemma offs_plains q : offs (plains q) = offs q.
Proof. unfold offs, plains. by rewrite <- list_fmap_compose. Qed.

Lemma seq_lt_off x y : off x < 2147483648 -> off y < 2147483648 ->
  TCP_SEQ_LT (seg_seqno x) (seg_seqno y) = (off x <? off y).
Proof.
  unfold off, TCP_SEQ_LT, s32_t, u32_t. intros.
  destruct (Z.ltb_spec ((seg_seqno x - B) mod 4294967296) ((seg_seqno y - B) mod 4294967296));
    [apply Z.ltb_lt|apply Z.ltb_ge]; dlia.
Qed.

Definition seq_sorted (q : list tcp_seg) : Prop := StronglySorted Z.lt (offs q).

(** Inserting a segment with a sequence number of its own keeps a queue sorted. *)
Lemma rexmit_insert_offs x q : Forall (fun o => o < 2147483648) (offs (x :: q)) -> off x ∉ offs q -> seq_sorted q ->
  seq_sorted (rexmit_insert x q).
Proof.
  unfold seq_sorted. induction q as [|y q IH]; intros Ha Hn Hs; [by repeat constructor|].
  unfold offs in *. simpl in *. inversion Hs as [|? ? Hs1 Hs2]; subst.
  apply Forall_cons in Ha as [Hx Ha]. apply Forall_cons in Ha as [Hy Ha]. apply not_elem_of_cons in Hn as [Hn1 Hn2].
  rewrite seq_lt_off by done. destruct (Z.ltb_spec (off y) (off x)); simpl.
  - constructor; [by apply IH; [constructor| |]|]. 
    assert (HP : Permutation (off <$> rexmit_insert x q) (off x :: (off <$> q))) by (rewrite rexmit_insert_perm; done).
    rewrite HP. by constructor.
  - constructor; [done|]. constructor; [lia|]. eapply Forall_impl; [exact Hs2|]. simpl. lia.
Qed.

(** ** The queues of a control block *)

Record tx_inv (p : tcp_pcb) : Prop := TxInv {
  tx_una : seq_sorted (unacked p);
  tx_uns : seq_sorted (unsent p);
  tx_nodup : NoDup (offs (unacked p ++ unsent p));
  tx_half : Forall (fun o => o < 2147483648) (offs (unacked p ++ unsent p))
}.

Lemma unacked_insert_perm x q : Permutation (unacked_insert x q) (x :: q).
Proof.
  unfold unacked_insert. destruct (last q) eqn:E; [|apply last_None in E; by subst].
  destruct (TCP_SEQ_LT _ _); [apply rexmit_insert_perm|]. by rewrite (Permutation_cons_append q x).
Qed.
Lemma last_le x q z : seq_sorted q -> last q = Some z -> x ∈ q -> off x <= off z.
Proof.
  unfold seq_sorted, offs. induction q as [|y q IH]; [done|]. simpl. intros Hs Hl Hin.
  inversion Hs as [|? ? Hs1 Hs2]; subst. destruct q as [|w q'].
  - simpl in Hl. injection Hl as <-. apply list_elem_of_singleton in Hin. by subst.
  - rewrite last_cons_cons in Hl. apply elem_of_cons in Hin as [->|Hin]; [|by apply IH].
    assert (z ∈ w :: q') by (by apply last_Some_elem_of).
    rewrite Forall_forall in Hs2. specialize (Hs2 (off z)). apply Z.lt_le_incl, Hs2. by apply list_elem_of_fmap_2.
Qed.

Lemma unacked_insert_sorted x q : Forall (fun o => o < 2147483648) (offs (x :: q)) -> off x ∉ offs q -> seq_sorted q ->
  seq_sorted (unacked_insert x q).
Proof.
  intros Ha Hn Hs. unfold unacked_insert. destruct (last q) as [z|] eqn:E; [|by repeat constructor].
  destruct (TCP_SEQ_LT _ _) eqn:El; [by apply rexmit_insert_offs|].
  assert (Hz : z ∈ q) by (by apply last_Some_elem_of).
  unfold offs in *. simpl in Ha. apply Forall_cons in Ha as [Hx Ha]. rewrite Forall_fmap, Forall_forall in Ha.
  rewrite seq_lt_off in El by first [exact Hx|exact (Ha z Hz)]. apply Z.ltb_ge in El.
  unfold seq_sorted, offs in *. rewrite fmap_app. apply StronglySorted_app_2; [|done|by repeat constructor].
  intros a b (y & -> & Hy)%list_elem_of_fmap (x' & -> & Hx')%list_elem_of_fmap. apply list_elem_of_singleton in Hx' as ->.
  pose proof (last_le y q z Hs E Hy). assert (off x <> off y) by (intros Hc; apply Hn; rewrite Hc; by apply list_elem_of_fmap_2). lia.
Qed.
(** ** One segment *)

(** Segments as [tcp_write] and [tcp_enqueue_flags] queue them. *)
Record txseg_ok (x : tcp_seg) : Prop := TxSegOk {
  txs_len : 0 < TCP_TCPLEN x;
  txs_bytes : seg_len x = zlen (pkt_bytes (seg_p x));
  txs_rst : has (seg_flags x) TCP_RST = false;
  txs_sum : has (seg_optflags x) TF_SEG_DATA_CHECKSUMMED || (zlen (pkt_bytes (seg_p x)) =? 0) = true
}.

(** The packet [o] is segment [x], with the current acknowledgement and window. *)
Definition carries (p : tcp_pcb) (o : tcp_out) (x : tcp_seg) : Prop :=
  o_seqno o = seg_seqno x /\ o_data o = pkt_bytes (seg_p x) /\ o_flags o = seg_flags x /\
  o_ackno o = rcv_nxt p /\ o_wnd o = rcv_ann_wnd p /\ o_src o = local_port p /\ o_dest o = remote_port p.

Lemma tcp_eff_send_mss_spec m b d s : 
  wp (tcp_eff_send_mss_netif m b d)
    (fun r s' => exists l, s' = s <| oracle := l |> /\ (oracle s = [] -> l = []) /\ r <= m) s.
Proof.
  unfold tcp_eff_send_mss_netif. 
  destruct (IP_IS_V6_VAL d); [|destruct b; [wp_steps; exists (oracle s); split; [by destruct s|done]|]];
    wp_step; apply wp_ask_any; intros z l Hz; wp_steps; exists l; (split; [done|]); (split; [tauto|]);
    destruct (negb _); lia.
Qed.

(** What sending leaves alone. *)
Definition cc_of (p : tcp_pcb) :=
  (lastack p, snd_wnd p, cwnd p, mss p, state p, snd_buf p, snd_queuelen p,
   (rcv_nxt p, rcv_wnd p, rcv_ann_wnd p, ooseq p, refused_data p, refused_fin p, local_port p, remote_port p, snd_lbb p)).

(** Busy: nothing happens.  Otherwise the segment is handed to IP and the
    retransmission timer runs. *)
Lemma tcp_output_segment_spec x s : txseg_ok x ->
  wp (tcp_output_segment x) (fun r s' => exists l, (oracle s = [] -> l = [] /\ r = ERR_OK) /\
    ((oracle s <> [] /\ r = ERR_OK /\ s' = s <| oracle := l |>) \/
     exists o p', carries (st_pcb s) o x /\ 0 <= rtime p' /\ unacked p' = unacked (st_pcb s) /\
       unsent p' = unsent (st_pcb s) /\ cc_of p' = cc_of (st_pcb s) /\
       rcv_ann_right_edge p' = u32_t (rcv_nxt (st_pcb s) + rcv_ann_wnd (st_pcb s)) /\
       s' = s <| st_pcb := p' |> <| oracle := l |> <| sent := sent s ++ [o] |>)) s.
Proof.
  intros [_ _ _ Hsum]. unfold tcp_output_segment, tcp_output_segment_busy. wp_steps.
  apply wp_ask_any. intros z l Hz. wp_steps. destruct (Z.eqb_spec z 0) as [->|Hne]; simpl; wp_steps;
    [|exists l; split; [tauto|left; split_and!; tauto]].
  apply (wp_conseq _ (fun opts s' => zlen opts = LWIP_TCP_OPT_LENGTH (seg_optflags x) /\
    exists l, (oracle s = [] -> l = []) /\ s' = s <| oracle := l |> <| st_pcb := st_pcb s <| rcv_ann_right_edge := u32_t (rcv_nxt (st_pcb s) + rcv_ann_wnd (st_pcb s)) |> |>)).
  { unfold LWIP_TCP_OPT_LENGTH. destruct (has (seg_optflags x) TF_SEG_OPTS_MSS).
    - wp_step. eapply wp_conseq; [apply tcp_eff_send_mss_spec|]. intros m s' (l' & -> & Hl' & _). wp_steps. rec_simpl_in Hl'. split; [done|exists l'; split; [tauto|done]].
    - wp_steps. split; [done|exists l; split; [tauto|done]]. }
  intros opts s1 (Hlen & l1 & Hl1 & ->). wp_steps. apply wp_assert; [by apply Z.eqb_eq|]. wp_steps.
  apply wp_assert; [done|]. wp_steps. apply wp_ask_any. intros r l2 Hr. rec_simpl_in Hr. exists l2.
  split; [unfold ERR_OK; tauto|]. right.
  exists (mkOut (local_port (st_pcb s)) (remote_port (st_pcb s)) (seg_seqno x) (rcv_nxt (st_pcb s)) (seg_flags x)
            (rcv_ann_wnd (st_pcb s)) opts (pkt_bytes (seg_p x))).
  eexists. split; [done|]. split; [|split; [|split; [|split; [|split; [|reflexivity]]]]];
    destruct (Z.ltb_spec (rtime (st_pcb s)) 0); rec_simpl; destruct (rttest (st_pcb s) =? 0); rec_simpl; done || lia.
Qed.
(** ** The loop *)

Lemma output_sent_facts x rest p : txseg_ok x ->
  let p' := output_sent x rest p in
  (tx_inv (p <| unsent := x :: rest |>) -> tx_inv p') /\ cc_of p' = cc_of p /\ unsent p' = rest /\
  rtime p' = rtime p /\ rcv_ann_right_edge p' = rcv_ann_right_edge p /\
  unacked p' = unacked_insert (x <| oversize_left := 0 |>) (unacked p) /\
  Permutation (plains (unacked p')) (plain x :: plains (unacked p)).
Proof.
  intros [Hlen _ _ _] p'.
  set (x0 := x <| oversize_left := 0 |>).
  assert (Hp : unacked p' = unacked_insert x0 (unacked p) /\ unsent p' = rest /\ cc_of p' = cc_of p /\ rtime p' = rtime p /\
    rcv_ann_right_edge p' = rcv_ann_right_edge p).
  { subst p'. unfold output_sent. change (TCP_TCPLEN (x <| oversize_left := 0 |>)) with (TCP_TCPLEN x).
    rewrite (proj2 (Z.ltb_lt _ _) Hlen). repeat case_match; done. }
  destruct Hp as (E1 & E2 & E3 & E4 & E5). clearbody p'.
  assert (Hperm : Permutation (offs (unacked p' ++ unsent p')) (offs (unacked p ++ x :: rest))).
  { rewrite E1, E2. unfold offs. rewrite !fmap_app, unacked_insert_perm. simpl. change (off x0) with (off x).
    by rewrite Permutation_middle. }
  split_and!; try done.
  - intros [H1 H2 H3 H4]. rec_simpl_in H1. rec_simpl_in H2. rec_simpl_in H3. rec_simpl_in H4.
    unfold seq_sorted, offs in H2. simpl in H2. apply StronglySorted_inv in H2 as [H2 _]. split.
    + rewrite E1. apply unacked_insert_sorted; [..|done].
      * unfold offs in *. rewrite fmap_app in H4. simpl in *. change (off x0) with (off x).
        rewrite Forall_app, Forall_cons in H4. constructor; tauto.
      * change (off x0) with (off x). unfold offs in *. rewrite fmap_app in H3. apply NoDup_app in H3 as (_ & Hd & _).
        intros Hin. apply (Hd _ Hin). simpl. by left.
    + by rewrite E2.
    + by rewrite Hperm.
    + by rewrite Hperm.
  - rewrite E1. unfold plains. rewrite unacked_insert_perm. done.
Qed.

(** Everything but the control block, the oracle and what is sent. *)
Definition io_of (s : tcp_st) :=
  (hdr_of s, world_of s, (inseg s, seqno s, tcplen s, recv_data s, recv_flags s, recv_acked s)).

(** Nothing of [o] lies beyond [wnd] bytes from [la] on. *)
Definition in_window (la wnd : Z) (o : tcp_out) : Prop := u32_t (o_seqno o - la + zlen (o_data o)) <= wnd.
(** [o] is one of the queued segments, up to the ACK flag. *)
Definition sends (q : list tcp_seg) (o : tcp_out) : Prop :=
  exists x, x ∈ q /\ o_seqno o = seg_seqno x /\ o_data o = pkt_bytes (seg_p x) /\
    clear_bits (o_flags o) TCP_ACK = clear_bits (seg_flags x) TCP_ACK.

(** The queues before and after: a prefix of [unsent] has moved to [unacked]. *)
Record moved (wnd : Z) (s s' : tcp_st) : Prop := Moved {
  mv_inv : tx_inv (st_pcb s) -> tx_inv (st_pcb s');
  mv_ok : Forall txseg_ok (unsent (st_pcb s'));
  mv_all : Permutation (plains (unacked (st_pcb s') ++ unsent (st_pcb s')))
                       (plains (unacked (st_pcb s) ++ unsent (st_pcb s)));
  mv_suffix : exists n, plains (unsent (st_pcb s')) = drop n (plains (unsent (st_pcb s)));
  mv_cc : cc_of (st_pcb s') = cc_of (st_pcb s);
  mv_sent : exists outs, sent s' = sent s ++ outs /\ Forall (in_window (lastack (st_pcb s)) wnd) outs /\
              Forall (sends (unsent (st_pcb s))) outs;
  mv_edge : edge_ok s s';
  mv_same : io_of s' = io_of s
}.
Lemma cc_of_eq p p' : cc_of p' = cc_of p -> lastack p' = lastack p /\ snd_wnd p' = snd_wnd p /\
  cwnd p' = cwnd p /\ mss p' = mss p /\ state p' = state p.
Proof. unfold cc_of. by intros [=]. Qed.

Lemma sends_suffix q q' n o : plains q' = drop n (plains q) -> sends q' o -> sends q o.
Proof.
  intros H (x & Hx & E1 & E2 & E3). assert (Hin : plain x ∈ plains q).
  { assert (Hin : plain x ∈ plains q') by (by apply list_elem_of_fmap_2). rewrite H in Hin.
    rewrite <- (take_drop n (plains q)). apply elem_of_app. by right. }
  apply list_elem_of_fmap in Hin as (y & Hy & Hin). exists y. split; [done|].
  apply (f_equal (fun z => (seg_seqno z, seg_p z, seg_flags z))) in Hy. unfold plain in Hy. rec_simpl_in Hy.
  injection Hy as <- <- <-. done.
Qed.

Lemma edge_trans s s1 s2 : cc_of (st_pcb s1) = cc_of (st_pcb s) -> edge_ok s s1 -> edge_ok s1 s2 -> edge_ok s s2.
Proof.
  unfold cc_of, edge_ok. intros [= _ _ _ _ _ _ _ E1 E2 E3 _ _ _ _ _] [H1|H1] [H2|H2]; rewrite ?H2, ?H1, ?E1, ?E3; auto.
Qed.

Lemma moved_trans wnd s s1 s2 : moved wnd s s1 -> moved wnd s1 s2 -> moved wnd s s2.
Proof.
  intros [A0 _ A1 (n1 & A2) A3 (o1 & A4 & A5 & A6) A7 A8] [B1 B2 B3 (n2 & B4) B5 (o2 & B6 & B7 & B8) C1 C2].
  split; [by auto|done|by rewrite B3| |congruence| |by apply (edge_trans s s1)|congruence].
  - exists (n1 + n2)%nat. by rewrite B4, A2, drop_drop.
  - exists (o1 ++ o2). rewrite B6, A4, app_assoc. split; [done|]. rewrite !Forall_app.
    apply cc_of_eq in A3 as (E & _). rewrite E in B7. split_and!; try done.
    eapply Forall_impl; [exact B8|]. intros o. by apply (sends_suffix _ _ n1).
Qed.

(** A change outside the queues. *)
Lemma moved_quiet wnd s s' : Forall txseg_ok (unsent (st_pcb s)) ->
  unacked (st_pcb s') = unacked (st_pcb s) -> plains (unsent (st_pcb s')) = plains (unsent (st_pcb s)) ->
  Forall txseg_ok (unsent (st_pcb s')) ->
  cc_of (st_pcb s') = cc_of (st_pcb s) -> sent s' = sent s -> edge_ok s s' -> io_of s' = io_of s -> moved wnd s s'.
Proof.
  intros Hok E1 E2 Hok' E3 E4 E5 E6.
  assert (Ho : offs (unsent (st_pcb s')) = offs (unsent (st_pcb s))) by (rewrite <- offs_plains, E2; apply offs_plains).
  split; [intros [H1 H2 H3 H4]; split; unfold seq_sorted, offs in *; rewrite ?fmap_app, ?E1, ?Ho in *; done
         |done| |by exists 0%nat|done| |done|done].
  - unfold plains in *. by rewrite !fmap_app, E1, E2.
  - exists []. by rewrite app_nil_r.
Qed.

Lemma txseg_ok_ack x : txseg_ok x -> txseg_ok (x <| seg_flags := Z.lor (seg_flags x) TCP_ACK |>).
Proof.
  intros [H1 H2 H3 H4]. split; try done; rec_simpl.
  - rewrite <- plain_tcplen, plain_set_ack, plain_tcplen. done.
  - rewrite <- (has_clear_ack _ TCP_RST), clear_ack_set, has_clear_ack by done. done.
Qed.

(** The segment a fitting one becomes when it is sent. *)
Definition with_ack (p : tcp_pcb) (x : tcp_seg) : tcp_seg :=
  if state_is (state p) SYN_SENT then x else x <| seg_flags := Z.lor (seg_flags x) TCP_ACK |>.
Lemma with_ack_ok p x : txseg_ok x -> txseg_ok (with_ack p x) /\ plain (with_ack p x) = plain x.
Proof.
  intros H. unfold with_ack. destruct (state_is _ _); [done|]. split; [by apply txseg_ok_ack|apply plain_set_ack].
Qed.

(** The retransmission timer runs for something in flight. *)
Definition timed (p : tcp_pcb) : Prop := unacked p <> [] /\ 0 <= rtime p.

(** Handing the first segment to IP moves nothing yet; an error leaves it there. *)
Lemma output_segment_moved wnd x rest s : Forall txseg_ok (x :: rest) ->
  unsent (st_pcb s) = x :: rest -> fits wnd (st_pcb s) x = true ->
  wp (tcp_output_segment (with_ack (st_pcb s) x)) (fun r s' =>
    moved wnd s s' /\ unacked (st_pcb s') = unacked (st_pcb s) /\
    unsent (st_pcb s') = with_ack (st_pcb s) x :: rest /\
    (0 <= rtime (st_pcb s) -> 0 <= rtime (st_pcb s')) /\
    (oracle s = [] -> oracle s' = [] /\ r = ERR_OK /\ 0 <= rtime (st_pcb s')))
    (s <| st_pcb := st_pcb s <| unsent := with_ack (st_pcb s) x :: rest |> |>).
Proof.
  intros Hok Hu Hfit. pose proof Hok as [Hx Hr]%Forall_cons. destruct (with_ack_ok (st_pcb s) x Hx) as [Hx' Hpl].
  set (x' := with_ack (st_pcb s) x) in *.
  assert (Hq : forall s', unacked (st_pcb s') = unacked (st_pcb s) -> unsent (st_pcb s') = x' :: rest ->
    cc_of (st_pcb s') = cc_of (st_pcb s) -> sent s' = sent s -> edge_ok s s' -> io_of s' = io_of s -> moved wnd s s').
  { intros s' U1 U2 U3 U4 U5 U6. apply moved_quiet; try done; rewrite ?U2, ?Hu; [done|simpl; unfold plains; simpl; by rewrite Hpl|by constructor]. }
  eapply wp_conseq; [by apply tcp_output_segment_spec|]. rec_simpl.
  intros r s' (l & Ho & [(Hne & -> & ->)|(o & p' & Hc & Ht & P1 & P2 & P3 & P4 & ->)]).
  - split_and!; [apply Hq; done || by left|done..].
  - rec_simpl_in P1. rec_simpl_in P2. rec_simpl. split_and!; try done; [|tauto].
    rec_simpl_in P4. destruct (Hq (s <| st_pcb := p' |>)) as [Q1 Q2 Q3 Q4 Q5 _ Q6 Q7]; try done; [by right|].
    rec_simpl_in Q1. rec_simpl_in Q2. rec_simpl_in Q3. rec_simpl_in Q4. rec_simpl_in Q5.
    split; rec_simpl; try done.
    exists [o]. destruct Hc as (C1 & C2 & C3 & _). rec_simpl_in C1.
    assert (E : seg_seqno x' = seg_seqno x /\ seg_p x' = seg_p x) by (subst x'; unfold with_ack; by case_match).
    destruct E as [E1 E2]. destruct Hx. split; [done|]. split; repeat constructor.
    + unfold in_window. rewrite C1, C2, E1, E2, <- txs_bytes0. apply Z.leb_le, Hfit.
    + exists x. rewrite Hu, C1, C2, C3, E1, E2. split_and!; try done; [apply elem_of_cons; by left|].
      apply (f_equal seg_flags) in Hpl. exact Hpl.
Qed.

Lemma output_loop_spec wnd q : forall s, Forall txseg_ok q -> unsent (st_pcb s) = q ->
  wp (output_loop wnd q) (fun r s' => moved wnd s s' /\ r <> Some ERR_OK /\
    (oracle s = [] -> oracle s' = [] /\ r = None /\
      (timed (st_pcb s) -> timed (st_pcb s')) /\
      (forall x rest, q = x :: rest -> fits wnd (st_pcb s) x = true -> unacked (st_pcb s) = [] -> timed (st_pcb s')))) s.
Proof.
  induction q as [|x rest IH]; intros s Hok Hu; cbn [output_loop]; wp_steps.
  { split_and!; try done. apply moved_quiet; rewrite ?Hu; done || by left. }
  destruct (fits wnd (st_pcb s) x) eqn:Hfit; wp_steps; cycle 1.
  { split_and!; try done; [apply moved_quiet; rewrite ?Hu; done || by left|]. intros. split_and!; try done. intros ? ? [= <- <-]. by rewrite Hfit. }
  pose proof Hok as [Hx Hr]%Forall_cons. pose proof (txs_rst _ Hx) as Hrst. rewrite Hrst. apply wp_assert; [done|].
  destruct (negb _ && negb _) eqn:Hn; wp_steps.
  { split_and!; try done; [apply moved_quiet; rewrite ?Hu; done || by left|]. intros. split_and!; try done. intros ? ? _ _ Hua.
    apply andb_true_iff in Hn as [Hn _]. unfold tcp_do_output_nagle in Hn. by rewrite Hua in Hn. }
  fold (with_ack (st_pcb s) x). eapply wp_conseq; [by apply output_segment_moved|].
  intros r s1 (Hm & U1 & U2 & Ht & Hq).
  destruct (Z.eqb_spec r ERR_OK) as [->|Hne]; simpl; cycle 1.
  { unfold tcp_set_flags. wp_steps. split; [|split; [congruence|intros Ho; by apply Hq in Ho as (_ & ? & _)]].
    eapply moved_trans; [exact Hm|]. destruct Hm. apply moved_quiet; done || by left. }
  wp_steps. set (s2 := s1 <| st_pcb := _ |>).
  destruct (with_ack_ok (st_pcb s) x Hx) as [Hx' Hpl].
  destruct (output_sent_facts (with_ack (st_pcb s) x) rest (st_pcb s1) Hx') as (F1 & F2 & F3 & F4 & F7 & F5 & F6).
  assert (Hm2 : moved wnd s s2).
  { eapply moved_trans; [exact Hm|]. subst s2. split; rec_simpl; try done; [|by rewrite F3|..].
    - intros [I1 I2 I3 I4]. apply F1. split; rec_simpl; rewrite <- ?U2; done.
    - rewrite F3, U2. unfold plains in *. rewrite !fmap_app, F6. simpl. by rewrite Permutation_middle.
    - exists 1%nat. by rewrite F3, U2.
    - exists []. by rewrite app_nil_r.
    - by left. }
  assert (Htm : 0 <= rtime (st_pcb s1) -> timed (st_pcb s2)).
  { intros Hrt. subst s2. split; rec_simpl; [|by rewrite F4]. rewrite F5. intros Hnil.
    apply (f_equal length) in Hnil. rewrite unacked_insert_perm in Hnil. done. }
  eapply wp_conseq; [apply (IH s2); [done|exact F3]|].
  intros r s3 (H1 & H2 & H3). split; [by eapply moved_trans|]. split; [done|]. intros Ho.
  destruct (Hq Ho) as (O1 & O2 & O3). destruct H3 as (O4 & -> & O5 & _); [done|]. split_and!; auto.
Qed.

(** ** [tcp_output] *)

(** An acknowledgement without data, for everything received so far. *)
Definition pure_ack (p : tcp_pcb) (o : tcp_out) : Prop :=
  o = mkOut (local_port p) (remote_port p) (snd_nxt p) (u32_t (rcv_nxt p)) TCP_ACK (rcv_ann_wnd p) [] [].

Definition same_tx (p p' : tcp_pcb) : Prop :=
  unacked p' = unacked p /\ unsent p' = unsent p /\ cc_of p' = cc_of p /\
  rtime p' = rtime p /\ snd_nxt p' = snd_nxt p /\ persist_backoff p' = persist_backoff p /\
  (rcv_ann_right_edge p' = rcv_ann_right_edge p \/ rcv_ann_right_edge p' = u32_t (rcv_nxt p + rcv_ann_wnd p)).

Lemma tcp_send_empty_ack_out s :
  wp tcp_send_empty_ack (fun r s' => exists p' l outs, same_tx (st_pcb s) p' /\
    s' = s <| st_pcb := p' |> <| oracle := l |> <| sent := sent s ++ outs |> /\ Forall (pure_ack (st_pcb s)) outs /\
    (oracle s = [] -> l = [] /\ r = ERR_OK /\ length outs = 1%nat)) s.
Proof.
  apply (wp_conseq _ (fun r s' => exists l outs, same_tx (st_pcb s) (st_pcb s') /\
    s' = s <| st_pcb := st_pcb s' |> <| oracle := l |> <| sent := sent s ++ outs |> /\ Forall (pure_ack (st_pcb s)) outs /\
    (oracle s = [] -> l = [] /\ r = ERR_OK /\ length outs = 1%nat))); [|eauto].
  unfold tcp_send_empty_ack, tcp_output_alloc_header, tcp_output_alloc_header_common,
    tcp_output_control_segment, tcp_set_flags, tcp_clear_flags.
  wp_steps. apply wp_ask_any. intros z l Hz. destruct (Z.eqb_spec z 0) as [->|]; wp_steps.
  2:{ exists l, []. rewrite app_nil_r. split; [split_and!; auto|]. split; [reflexivity|split; [done|tauto]]. }
  apply wp_ask_any. rec_simpl. intros z2 l2 Hz2. destruct (Z.eqb_spec z2 0) as [->|]; wp_steps.
  2:{ exists l2, []. rewrite app_nil_r. split; [split_and!; auto|]. split; [reflexivity|split; [done|tauto]]. }
  apply wp_ask_any. rec_simpl. intros z3 l3 Hz3.
  assert (HO : oracle s = [] -> l3 = [] /\ z3 = 0) by tauto.
  destruct (Z.eqb_spec z3 ERR_OK) as [->|]; wp_steps;
    eexists l3, [_]; (split; [split_and!; auto|]); (split; [reflexivity|split; [by repeat constructor|intros Ho; split_and!; tauto]]).
Qed.

(** What [tcp_output] does to the queues and what it hands to IP. *)
Record outputs (s s' : tcp_st) : Prop := Outputs {
  op_inv : tx_inv (st_pcb s) -> tx_inv (st_pcb s');
  op_ok : Forall txseg_ok (unsent (st_pcb s'));
  op_all : Permutation (plains (unacked (st_pcb s') ++ unsent (st_pcb s')))
                       (plains (unacked (st_pcb s) ++ unsent (st_pcb s)));
  op_suffix : exists n, plains (unsent (st_pcb s')) = drop n (plains (unsent (st_pcb s)));
  op_cc : cc_of (st_pcb s') = cc_of (st_pcb s);
  op_sent : exists outs, sent s' = sent s ++ outs /\
    Forall (fun o => pure_ack (st_pcb s) o \/
      in_window (lastack (st_pcb s)) (Z.min (snd_wnd (st_pcb s)) (cwnd (st_pcb s))) o /\
      sends (unsent (st_pcb s)) o) outs;
  op_edge : edge_ok s s';
  op_same : io_of s' = io_of s
}.

Lemma outputs_quiet s s' outs : Forall txseg_ok (unsent (st_pcb s)) ->
  unacked (st_pcb s') = unacked (st_pcb s) -> unsent (st_pcb s') = unsent (st_pcb s) ->
  cc_of (st_pcb s') = cc_of (st_pcb s) -> sent s' = sent s ++ outs -> Forall (pure_ack (st_pcb s)) outs ->
  edge_ok s s' -> io_of s' = io_of s -> outputs s s'.
Proof.
  intros Hok E1 E2 E3 E4 Ho E5 E6.
  split; [intros [H1 H2 H3 H4]; split|..]; rewrite ?E1, ?E2; try done; [by exists 0%nat|].
  exists outs. split; [done|]. eapply Forall_impl; [exact Ho|]. by left.
Qed.

(** After [tcp_output] nothing is left to send, or a timer will call it again. *)
Definition attended (p : tcp_pcb) : Prop := unsent p = [] \/ timed p \/ persist_backoff p <> 0.

(** The conditions under which that holds: IP accepts the packets, there is a local
    address, the timer runs for data in flight, and with nothing in flight the first
    segment is within the congestion window. *)
Definition ready (s : tcp_st) : Prop :=
  let p := st_pcb s in
  oracle s = [] /\ (unacked p <> [] -> 0 <= rtime p) /\
  (forall x rest, unsent p = x :: rest -> unacked p = [] -> fits (cwnd p) p x = true).
Definition can_send (s : tcp_st) : Prop :=
  ready s /\ (ip_addr_isany_val (local_ip (st_pcb s)) = true -> netif_local_ip s <> None).

Lemma output_blocked_spec x rest s : Forall txseg_ok (unsent (st_pcb s)) ->
  unsent (st_pcb s) = x :: rest -> fits (Z.min (snd_wnd (st_pcb s)) (cwnd (st_pcb s))) (st_pcb s) x = false ->
  wp (output_blocked (Z.min (snd_wnd (st_pcb s)) (cwnd (st_pcb s)))) (fun r s' => outputs s s' /\
    (ready s -> r = ERR_OK /\ oracle s' = [] /\ attended (st_pcb s'))) s.
Proof.
  intros Hok Hu Hfit. unfold output_blocked. wp_steps.
  set (c := (_ =? _) && _ && _). set (p1 := if c then _ else _).
  assert (HP : unacked p1 = unacked (st_pcb s) /\ unsent p1 = unsent (st_pcb s) /\ cc_of p1 = cc_of (st_pcb s) /\
    rcv_ann_right_edge p1 = rcv_ann_right_edge (st_pcb s) /\ rtime p1 = rtime (st_pcb s) /\ snd_nxt p1 = snd_nxt (st_pcb s) /\
    (ready s -> attended p1)).
  { split_and!; try by subst p1; destruct c. intros (_ & Ht & Hh). right.
    destruct (unacked (st_pcb s)) as [|y una] eqn:Ua.
    - right. specialize (Hh x rest Hu eq_refl). unfold fits in *. subst p1 c. apply Z.leb_le in Hh. apply Z.leb_gt in Hfit.
      destruct (Z.eqb_spec (Z.min (snd_wnd (st_pcb s)) (cwnd (st_pcb s))) (snd_wnd (st_pcb s))); [|lia]. simpl.
      destruct (Z.eqb_spec (persist_backoff (st_pcb s)) 0); rec_simpl; done.
    - left. split; [|by destruct c; subst p1; apply Ht]. subst p1. destruct c; rec_simpl; by rewrite Ua. }
  destruct HP as (P1 & P2 & P3 & P4 & P5 & P6 & P7). clearbody p1. clear c.
  assert (Hcc : cc_of p1 = cc_of (st_pcb s)) by done. assert (He : edge_ok s (s <| st_pcb := p1 |>)) by (by left). unfold cc_of in P3. injection P3 as C1 C2 C3 C4 C5 C6 C7 C8 C9 C10 C11 C12 C12' C13 C14.
  destruct (has (flags p1) TF_ACK_NOW); cycle 1.
  { unfold output_done, tcp_clear_flags. wp_steps. split; [apply (outputs_quiet s _ []); try done; by rewrite app_nil_r|].
    intros Hc. split_and!; [done|apply Hc|by apply P7]. }
  eapply wp_conseq; [apply tcp_send_empty_ack_out|]. rec_simpl. intros r s' (p2 & l & outs & (S1 & S2 & S3 & S4 & S5 & S6 & S7) & -> & Ho & Hq).
  assert (Ho' : Forall (pure_ack (st_pcb s)) outs).
  { eapply Forall_impl; [exact Ho|]. unfold pure_ack. intros o ->. by rewrite C8, C10, C13, C14, P6. }
  split; [apply (outputs_quiet s _ outs); rec_simpl; try (congruence || done)|].
  { apply (edge_trans s (s <| st_pcb := p1 |>)); [exact Hcc|exact He|exact S7]. }
  intros Hc.
  destruct Hq as (-> & -> & _); [apply Hc|]. split_and!; [done..|]. apply P7 in Hc. unfold attended, timed in *. rec_simpl.
  by rewrite S1, S2, S4, S6.
Qed.

Lemma output_local_ip_spec s : wp output_local_ip (fun b s' => exists a, s' = s <| st_pcb := st_pcb s <| local_ip := a |> |> /\
  ((ip_addr_isany_val (local_ip (st_pcb s)) = true -> netif_local_ip s <> None) -> b = true)) s.
Proof.
  unfold output_local_ip. wp_steps. destruct (ip_addr_isany_val _) eqn:E.
  - wp_steps. destruct (netif_local_ip s) eqn:En; wp_steps; [eauto|].
    exists (local_ip (st_pcb s)). split; [by destruct s as [[]]|]. intros H. by destruct (H eq_refl).
  - wp_steps. exists (local_ip (st_pcb s)). split; [by destruct s as [[]]|done].
Qed.

Lemma moved_outputs s s1 s' : st_pcb s1 = st_pcb s <| local_ip := local_ip (st_pcb s1) |> <| persist_backoff := 0 |> ->
  sent s1 = sent s -> io_of s1 = io_of s ->
  moved (Z.min (snd_wnd (st_pcb s)) (cwnd (st_pcb s))) s1 s' -> outputs s s'.
Proof.
  intros Hp E1 E2 [M1 M2 M3 M4 M5 (outs & M6 & M7 & M8) M9 M10].
  unfold edge_ok in M9. rewrite Hp in M1, M3, M4, M5, M7, M8, M9. rec_simpl_in M9. rec_simpl_in M3. rec_simpl_in M4. rec_simpl_in M5. rec_simpl_in M7. rec_simpl_in M8.
  split; try done; [intros [I1 I2 I3 I4]; apply M1; by split| |congruence]. exists outs. rewrite <- E1. split; [done|].
  rewrite Forall_forall in *. intros o Hin. right. eauto.
Qed.

Lemma outputs_after s s1 s' : outputs s s1 -> unacked (st_pcb s') = unacked (st_pcb s1) ->
  unsent (st_pcb s') = unsent (st_pcb s1) -> cc_of (st_pcb s') = cc_of (st_pcb s1) -> sent s' = sent s1 ->
  rcv_ann_right_edge (st_pcb s') = rcv_ann_right_edge (st_pcb s1) -> io_of s' = io_of s1 -> outputs s s'.
Proof.
  intros [I H2 H3 H4 H5 H6 H7 H8] E1 E2 E3 E4 E5 E6.
  split; unfold edge_ok; rewrite ?E1, ?E2, ?E3, ?E4, ?E5, ?E6; try done.
  intros J. destruct (I J). split; by rewrite ?E1, ?E2.
Qed.

Lemma tcp_output_queued_spec s : Forall txseg_ok (unsent (st_pcb s)) ->
  wp tcp_output_queued (fun r s' => outputs s s' /\
    (can_send s -> r = ERR_OK /\ oracle s' = [] /\ attended (st_pcb s'))) s.
Proof.
  intros Hok. unfold tcp_output_queued. wp_steps. destruct (unsent (st_pcb s)) as [|x rest] eqn:Hu.
  { destruct (has (flags (st_pcb s)) TF_ACK_NOW).
    - eapply wp_conseq; [apply tcp_send_empty_ack_out|]. intros r s' (p2 & l & outs & (S1 & S2 & S3 & S4 & S5 & S6 & S7) & -> & Ho & Hq).
      split; [apply (outputs_quiet s _ outs); rewrite ?Hu; rec_simpl; congruence || done|].
      intros Hc. destruct Hq as (-> & -> & _); [apply Hc|]. split_and!; [done..|left; rec_simpl; congruence].
    - unfold output_done, tcp_clear_flags. wp_steps. split.
      + apply (outputs_quiet s _ []); try done; [by rewrite Hu|by rewrite app_nil_r|by left].
      + intros Hc. split_and!; [done|apply Hc|by left; rec_simpl]. }
  rewrite <- Hu in Hok. assert (Hrte : forall s', sent s' = sent s -> unacked (st_pcb s') = unacked (st_pcb s) ->
    unsent (st_pcb s') = unsent (st_pcb s) -> cc_of (st_pcb s') = cc_of (st_pcb s) ->
    edge_ok s s' -> io_of s' = io_of s -> outputs s s').
  { intros. apply (outputs_quiet s _ []); try done. by rewrite app_nil_r. }
  wp_steps. apply wp_ask_any. intros z l Hz. destruct (Z.eqb_spec z 0) as [->|Hne]; simpl; wp_steps.
  2:{ split; [apply Hrte; done || by left|]. intros ((Ho & _) & _). tauto. }
  eapply wp_conseq; [apply output_local_ip_spec|]. rec_simpl. intros b s1 (a & -> & Hb). destruct b; simpl; wp_steps.
  2:{ split; [apply Hrte; done || by left|]. intros (_ & Hc). by apply Hb in Hc. }
  rewrite Hu. destruct (fits _ _ x) eqn:Hfit; cbn [negb]; cycle 1.
  { change (fits (Z.min (snd_wnd (st_pcb s)) (cwnd (st_pcb s))) (st_pcb s) x = false) in Hfit.
    set (s1 := s <| oracle := l |> <| st_pcb := _ |>).
    eapply wp_conseq; [by apply (output_blocked_spec x rest s1)|]. intros r s2 [H1 H2]. split.
    - destruct H1 as [O1 O2 O3 O4 O5 O6 O7 O8]. split; try done. intros [I1 I2 I3 I4]. apply O1. by split.
    - intros ((C1 & C2 & C3) & _). apply H2. split; [|done]. subst s1. rec_simpl. tauto. }
  wp_steps. set (s1 := s <| oracle := l |> <| st_pcb := _ |>).
  assert (Hs1 : st_pcb s1 = st_pcb s <| local_ip := local_ip (st_pcb s1) |> <| persist_backoff := 0 |>) by done.
  assert (E : unsent (st_pcb s1) = x :: rest) by done. rewrite Hu in Hok.
  eapply wp_conseq; [by apply (output_loop_spec _ _ s1)|]. intros r s2 (Hm & Hr & Hq).
  assert (Ho : outputs s s2) by (by apply (moved_outputs s s1)).
  assert (Hlive : ready s -> oracle s2 = [] /\ r = None /\ timed (st_pcb s2)).
  { intros (C1 & C2 & C3). destruct Hq as (Q1 & Q2 & Q3 & Q4); [subst s1; rec_simpl; tauto|]. split_and!; try done.
    change (unacked (st_pcb s1)) with (unacked (st_pcb s)) in Q4.
    destruct (unacked (st_pcb s)) eqn:Ua; [by eapply Q4|]. apply Q3. split; [|by apply C2].
    change (unacked (st_pcb s1)) with (unacked (st_pcb s)). by rewrite Ua. }
  clearbody s1. destruct r as [err|]; [wp_steps; split; [done|]; intros [Hc _]; by apply Hlive in Hc as (_ & ? & _)|].
  unfold output_done, tcp_clear_flags. wp_steps.
  set (p' := match unsent (st_pcb s2) with [] => _ | _ => _ end).
  assert (Hp' : unacked p' = unacked (st_pcb s2) /\ unsent p' = unsent (st_pcb s2) /\ cc_of p' = cc_of (st_pcb s2) /\
    rtime p' = rtime (st_pcb s2) /\ rcv_ann_right_edge p' = rcv_ann_right_edge (st_pcb s2)).
  { subst p'. destruct (unsent (st_pcb s2)) eqn:Eu; rec_simpl; by rewrite ?Eu. }
  destruct Hp' as (P1 & P2 & P3 & P4 & P5). clearbody p'. split.
  - by apply (outputs_after s s2).
  - intros [Hc _]. apply Hlive in Hc as (L1 & L2 & [L3 L4]). split_and!; [done..|]. right. left. split; rec_simpl; congruence.
Qed.

Lemma tcp_output_spec s : Forall txseg_ok (unsent (st_pcb s)) ->
  state (st_pcb s) <> LISTEN -> tcp_input_pcb s <> pcb_addr s ->
  wp tcp_output (fun r s' => outputs s s' /\
    (can_send s -> r = ERR_OK /\ oracle s' = [] /\ attended (st_pcb s'))) s.
Proof.
  intros Hok Hl Hne. unfold tcp_output. wp_steps. apply wp_assert.
  { apply negb_true_iff. unfold state_is. apply Z.eqb_neq. by destruct (state (st_pcb s)). }
  rewrite (proj2 (Z.eqb_neq _ _) Hne). by apply tcp_output_queued_spec.
Qed.

(** With nothing in flight the first segment that fits is sent. *)
Lemma output_loop_head wnd x rest s : Forall txseg_ok (x :: rest) -> unsent (st_pcb s) = x :: rest ->
  fits wnd (st_pcb s) x = true -> unacked (st_pcb s) = [] -> oracle s = [] ->
  wp (output_loop wnd (x :: rest)) (fun r s' => r = None /\ exists o outs, sent s' = sent s ++ o :: outs /\ sends [x] o) s.
Proof.
  intros Hok Hu Hfit Hua Ho. pose proof Hok as [Hx Hr]%Forall_cons. destruct (with_ack_ok (st_pcb s) x Hx) as [Hx' Hpl].
  cbn [output_loop]. wp_steps. rewrite Hfit. wp_steps. rewrite (txs_rst _ Hx). apply wp_assert; [done|].
  assert (Hn : tcp_do_output_nagle (st_pcb s) = true) by (unfold tcp_do_output_nagle; by rewrite Hua).
  rewrite Hn. cbn [negb andb]. wp_steps. fold (with_ack (st_pcb s) x). eapply wp_conseq; [by apply tcp_output_segment_spec|]. rec_simpl.
  intros r s1 (l & Hl & [(Hne & _)|(o & p' & Hc & _ & _ & _ & _ & _ & ->)]); [done|]. destruct (Hl Ho) as [-> ->].
  change (ERR_OK =? ERR_OK) with true. cbn [negb]. wp_steps. set (s2 := s <| st_pcb := _ |> <| oracle := _ |> <| sent := _ |> <| st_pcb := _ |>).
  eapply wp_conseq; [apply (output_loop_spec wnd rest s2); [done|]|].
  { subst s2. rec_simpl. unfold output_sent. repeat case_match; done. }
  intros r s3 ([_ _ _ _ _ (outs & E & _) _ _] & _ & H). destruct H as (_ & -> & _); [done|]. split; [done|].
  exists o, outs. split; [rewrite E; subst s2; rec_simpl; by rewrite <- app_assoc|].
  destruct Hc as (C1 & C2 & C3 & _). exists x. split; [by left|].
  apply (f_equal (fun z => (seg_seqno z, seg_p z, seg_flags z))) in Hpl. unfold plain in Hpl. rec_simpl_in Hpl. injection Hpl as P1 P2 P3.
  split; [congruence|]. split; [congruence|]. by rewrite C3, P3.
Qed.
Lemma tcp_output_head x rest s : Forall txseg_ok (x :: rest) -> unsent (st_pcb s) = x :: rest -> state (st_pcb s) <> LISTEN ->
  tcp_input_pcb s <> pcb_addr s -> fits (Z.min (snd_wnd (st_pcb s)) (cwnd (st_pcb s))) (st_pcb s) x = true ->
  unacked (st_pcb s) = [] -> oracle s = [] -> (ip_addr_isany_val (local_ip (st_pcb s)) = true -> netif_local_ip s <> None) ->
  wp tcp_output (fun _ s' => exists o outs, sent s' = sent s ++ o :: outs /\ sends [x] o) s.
Proof.
  intros Hok Hu Hl Hne Hfit Hua Ho Hip. unfold tcp_output. wp_steps. apply wp_assert.
  { apply negb_true_iff. unfold state_is. apply Z.eqb_neq. by destruct (state (st_pcb s)). }
  rewrite (proj2 (Z.eqb_neq _ _) Hne). unfold tcp_output_queued. wp_steps. rewrite Hu. wp_steps.
  apply wp_ask_any. intros z l Hz. destruct (Hz Ho) as [-> ->]. change (0 =? 0) with true. cbn [negb]. wp_steps.
  eapply wp_conseq; [apply output_local_ip_spec|]. rec_simpl. intros b s1 (a & -> & Hb). rewrite (Hb Hip). cbn [negb]. wp_steps.
  rec_simpl. set (s1 := s <| oracle := _ |> <| st_pcb := _ |>).
  change (fits _ (st_pcb s <| local_ip := a |>) x) with (fits (Z.min (snd_wnd (st_pcb s)) (cwnd (st_pcb s))) (st_pcb s) x).
  rewrite Hfit, Hu. cbn [negb]. wp_steps. set (s2 := s1 <| st_pcb := _ |>).
  eapply wp_conseq; [by apply (output_loop_head _ x rest s2)|]. intros r s3 (-> & o & outs & E & Hs). wp_steps.
  unfold output_done, tcp_clear_flags. wp_steps. exists o, outs. split; [exact E|done].
Qed.

(** ** Retransmission after a time-out *)

(** Everything in flight precedes everything unsent. *)
Definition tx_ordered (p : tcp_pcb) : Prop :=
  seq_sorted (unacked p ++ unsent p) /\ Forall (fun o => o < 2147483648) (offs (unacked p ++ unsent p)).

Lemma sorted_nodup (l : list Z) : StronglySorted Z.lt l -> NoDup l.
Proof.
  induction 1 as [|x l Hl IH Hx]; constructor; [|done]. intros Hin. rewrite Forall_forall in Hx. apply Hx in Hin. lia.
Qed.
Lemma tx_ordered_inv p : tx_ordered p -> tx_inv p.
Proof.
  intros [H1 H2]. unfold seq_sorted, offs in H1. rewrite fmap_app in H1. split.
  - by apply StronglySorted_app_1_l in H1.
  - by apply StronglySorted_app_1_r in H1.
  - unfold offs. rewrite fmap_app. by apply sorted_nodup.
  - done.
Qed.

(** No driver holds a segment of [q]: the next answers, one for each segment, are all "no". *)
Definition idle (q : list tcp_seg) (s : tcp_st) : Prop := Forall (fun z => z = 0) (take (length q) (oracle s)).

Lemma any_busy_spec q s : wp (any_busy q) (fun b s' => exists l, s' = s <| oracle := l |> /\
  (oracle s = [] -> l = []) /\ (b = false <-> idle q s)) s.
Proof.
  unfold idle. revert s. induction q as [|x q IH]; intros s; cbn [any_busy length take].
  { wp_steps. exists (oracle s). split; [by destruct s|]. split; [done|]. split; [constructor|done]. }
  unfold tcp_output_segment_busy. wp_steps. apply wp_ask_cons. intros z l Hl. wp_steps.
  assert (E : take (S (length q)) (oracle s) = [] /\ z = 0 /\ l = [] \/ take (S (length q)) (oracle s) = z :: take (length q) l)
    by (destruct Hl as [(-> & -> & ->)| ->]; [by left|by right]).
  assert (Hn : oracle s = [] -> l = []) by (destruct Hl as [(_ & _ & ->)| ->]; done).
  destruct (Z.eqb_spec z 0) as [->|Hz]; cbn [negb]; wp_steps.
  - eapply wp_conseq; [apply IH|]. intros b s' (l' & -> & H1 & H2). rec_simpl_in H1. rec_simpl_in H2. exists l'.
    split; [done|]. split; [auto|]. rewrite H2. destruct E as [(-> & _ & ->)| ->]; [by rewrite take_nil|].
    split; [by constructor|by inversion 1].
  - exists l. split; [done|]. split; [done|]. split; [done|]. intros H. destruct E as [(_ & ? & _)|E]; [done|].
    rewrite E in H. by inversion H.
Qed.

(** Either nothing but the oracle changes, or the unacked queue is put in front of
    the unsent queue and the time-out is recorded. *)
Lemma tcp_rexmit_rto_prepare_spec s :
  wp tcp_rexmit_rto_prepare (fun r s' =>
    (r = ERR_VAL /\ (unacked (st_pcb s) = [] \/ ~ idle (unacked (st_pcb s)) s) /\ exists l, s' = s <| oracle := l |>) \/
    (exists p' l x, r = ERR_OK /\ s' = s <| st_pcb := p' |> <| oracle := l |> /\
      (idle (unacked (st_pcb s)) s /\ (oracle s = [] -> l = [])) /\
      last (unacked (st_pcb s)) = Some x /\ rto_end p' = u32_t (seg_seqno x + TCP_TCPLEN x) /\
      unacked p' = [] /\ unsent p' = unacked (st_pcb s) ++ unsent (st_pcb s) /\ cc_of p' = cc_of (st_pcb s) /\
      snd_nxt p' = snd_nxt (st_pcb s) /\ has (flags p') TF_RTO = true /\ rttest p' = 0 /\
      rcv_ann_right_edge p' = rcv_ann_right_edge (st_pcb s) /\ nrtx p' = nrtx (st_pcb s) /\ local_ip p' = local_ip (st_pcb s))) s.
Proof.
  unfold tcp_rexmit_rto_prepare, tcp_set_flags. wp_steps. destruct (last (unacked (st_pcb s))) as [x|] eqn:E.
  2:{ wp_steps. left. split_and!; [done|left; by apply last_None in E|exists (oracle s); by destruct s]. }
  wp_step. eapply wp_conseq; [apply any_busy_spec|]. intros b s1 (l & -> & Hn & Hb). destruct b; wp_steps.
  { left. split_and!; [done|right; intros H; by apply Hb in H|eauto]. }
  right. set (p0 := match unsent (st_pcb s) with [] => _ | _ => _ end).
  assert (H0 : unsent p0 = unsent (st_pcb s) /\ unacked p0 = unacked (st_pcb s) /\ cc_of p0 = cc_of (st_pcb s) /\
    snd_nxt p0 = snd_nxt (st_pcb s) /\ rcv_ann_right_edge p0 = rcv_ann_right_edge (st_pcb s) /\ nrtx p0 = nrtx (st_pcb s) /\
    local_ip p0 = local_ip (st_pcb s))
    by (subst p0; destruct (unsent (st_pcb s)) eqn:Eu; rec_simpl; by rewrite ?Eu).
  destruct H0 as (U1 & U2 & U3 & U4 & U5 & U6 & U7). clearbody p0. rewrite U1, U2.
  exists (p0 <| unsent := unacked (st_pcb s) ++ unsent (st_pcb s) |> <| unacked := [] |>
    <| flags := Z.lor (flags p0) TF_RTO |> <| rto_end := u32_t (seg_seqno x + TCP_TCPLEN x) |> <| rttest := 0 |>), l, x.
  split; [done|]. split; [reflexivity|]. rec_simpl. split_and!; try done; try tauto.
  change TF_RTO with (2 ^ 11). rewrite has_bit, Z.lor_spec, Z.pow2_bits_true by lia. apply orb_true_r.
Qed.

(** What [tcp_rexmit_rto] hands to [tcp_output]. *)
Definition rto_prepared (s s1 : tcp_st) : Prop := exists p1 l, s1 = s <| st_pcb := p1 |> <| oracle := l |> /\
  unacked p1 = [] /\ unsent p1 = unacked (st_pcb s) ++ unsent (st_pcb s) /\ cc_of p1 = cc_of (st_pcb s) /\
  snd_nxt p1 = snd_nxt (st_pcb s) /\ rcv_ann_right_edge p1 = rcv_ann_right_edge (st_pcb s).

(** Everything in flight is back in front of what was not sent, and the time-out is recorded. *)
Record requeued (s s1 : tcp_st) : Prop := Requeued {
  rq_prepared : rto_prepared s s1;
  rq_flag : has (flags (st_pcb s1)) TF_RTO = true;
  rq_rtt : rttest (st_pcb s1) = 0;
  rq_end : exists x, last (unacked (st_pcb s)) = Some x /\ rto_end (st_pcb s1) = u32_t (seg_seqno x + TCP_TCPLEN x);
  rq_count : nrtx (st_pcb s1) = (if nrtx (st_pcb s) <? 255 then nrtx (st_pcb s) + 1 else nrtx (st_pcb s));
  rq_idle : idle (unacked (st_pcb s)) s;
  rq_some : unacked (st_pcb s) <> [];
  rq_free : oracle s = [] -> oracle s1 = [];
  rq_ip : local_ip (st_pcb s1) = local_ip (st_pcb s)
}.
Lemma tcp_rexmit_rto_cases Q s :
  (forall l, unacked (st_pcb s) = [] \/ ~ idle (unacked (st_pcb s)) s -> Q tt (s <| oracle := l |>)) ->
  (forall s1, requeued s s1 -> wp tcp_output (fun _ s' => Q tt s') s1) -> wp tcp_rexmit_rto Q s.
Proof.
  intros H1 H2. unfold tcp_rexmit_rto. wp_step. eapply wp_conseq; [apply tcp_rexmit_rto_prepare_spec|].
  intros r s1 [(-> & Hu & l & ->)|(p1 & l & x & -> & -> & Hl & Hx & He & U1 & U2 & U3 & U4 & U6 & U7 & U5 & U8 & U9)].
  { unfold when. change (ERR_VAL =? ERR_OK) with false. wp_steps. by apply H1. }
  unfold when, tcp_rexmit_rto_commit. change (ERR_OK =? ERR_OK) with true. cbv iota. wp_steps.
  eapply wp_conseq; [apply H2|intros r s' H; by wp_steps].
  split; rec_simpl.
  - eexists _, l. split; [reflexivity|]. by destruct (nrtx p1 <? 255).
  - by destruct (nrtx p1 <? 255).
  - by destruct (nrtx p1 <? 255).
  - exists x. split; [done|]. by destruct (nrtx p1 <? 255).
  - rewrite <- U8. by destruct (nrtx p1 <? 255).
  - apply Hl.
  - intros H. by rewrite H in Hx.
  - apply Hl.
  - by destruct (nrtx p1 <? 255).
Qed.
Lemma tcp_rexmit_rto_prepared Q s :
  (forall l, Q tt (s <| oracle := l |>)) ->
  (forall s1, rto_prepared s s1 -> wp tcp_output (fun _ s' => Q tt s') s1) -> wp tcp_rexmit_rto Q s.
Proof. intros H1 H2. apply tcp_rexmit_rto_cases; [auto|]. intros s1 H. apply H2, H. Qed.

Lemma tcp_rexmit_rto_spec s : tx_ordered (st_pcb s) -> Forall txseg_ok (unacked (st_pcb s) ++ unsent (st_pcb s)) ->
  state (st_pcb s) <> LISTEN -> tcp_input_pcb s <> pcb_addr s ->
  wp tcp_rexmit_rto (fun _ s' => tx_inv (st_pcb s') /\
    Permutation (plains (unacked (st_pcb s') ++ unsent (st_pcb s'))) (plains (unacked (st_pcb s) ++ unsent (st_pcb s))) /\
    exists outs, sent s' = sent s ++ outs /\ Forall (fun o => pure_ack (st_pcb s) o \/
      in_window (lastack (st_pcb s)) (Z.min (snd_wnd (st_pcb s)) (cwnd (st_pcb s))) o /\
      sends (unacked (st_pcb s) ++ unsent (st_pcb s)) o) outs) s.
Proof.
  intros Hord Hok Hl Hne. pose proof (tx_ordered_inv _ Hord) as Hinv. apply tcp_rexmit_rto_prepared.
  { intros l. split_and!; [done..|]. exists []. by rewrite app_nil_r. }
  intros s1 (p2 & l & -> & V1 & V2 & V3 & V4 & _). pose proof (cc_of_eq _ _ V3) as (W1 & W2 & W3 & _ & W5).
  eapply wp_conseq; [apply tcp_output_spec; rec_simpl; rewrite ?V2; [done|congruence|done]|].
  rec_simpl. intros r s' [[O1 O2 O3 _ _ (outs & O5 & O6) _ _] _]. rec_simpl_in O3. rec_simpl_in O5.
  rec_simpl_in O1. rewrite V1, V2 in O3. split_and!; [|done|].
  { apply O1. destruct Hord as [H1 H2]. apply tx_ordered_inv. split; by rewrite V1, V2. }
  exists outs. split; [done|]. eapply Forall_impl; [exact O6|].
  rec_simpl. intros o. rewrite V2, W1, W2, W3. unfold pure_ack, cc_of in *.
  injection V3 as Z1 Z2 Z3 Z4 Z5 Z6 Z7 Z8 Z9 Z10 Z11 Z12 Z12' Z13 Z14. by rewrite Z8, Z10, Z13, Z14, V4.
Qed.

(** With something in flight that no driver holds, all of it is back in front of what was not sent
    and [tcp_output] runs on that; the oldest segment goes out again if the windows allow it.
    Otherwise nothing happens. *)
Lemma tcp_rexmit_rto_again s : Forall txseg_ok (unacked (st_pcb s) ++ unsent (st_pcb s)) ->
  state (st_pcb s) <> LISTEN -> tcp_input_pcb s <> pcb_addr s ->
  wp tcp_rexmit_rto (fun _ s' =>
    (unacked (st_pcb s) <> [] -> idle (unacked (st_pcb s)) s -> exists s1 r, requeued s s1 /\ tcp_output s1 = Ok (r, s')) /\
    (unacked (st_pcb s) = [] \/ ~ idle (unacked (st_pcb s)) s -> exists l, s' = s <| oracle := l |>) /\
    (forall x rest, unacked (st_pcb s) = x :: rest -> oracle s = [] ->
       fits (Z.min (snd_wnd (st_pcb s)) (cwnd (st_pcb s))) (st_pcb s) x = true ->
       (ip_addr_isany_val (local_ip (st_pcb s)) = true -> netif_local_ip s <> None) ->
       exists o outs, sent s' = sent s ++ o :: outs /\ sends [x] o)) s.
Proof.
  intros Hok Hl Hne. apply tcp_rexmit_rto_cases.
  { intros l Hu. split; [intros H1 H2; by destruct Hu|]. split; [intros _; by exists l|]. intros x rest E Ho.
    exfalso. destruct Hu as [Hu|Hu]; [by rewrite Hu in E|]. apply Hu. unfold idle. rewrite Ho, take_nil. constructor. }
  intros s1 Hrq. pose proof Hrq as [(p1 & l & -> & V1 & V2 & V3 & _) _ _ _ _ Hidle Hsome Hfree Hip].
  pose proof (cc_of_eq _ _ V3) as (W1 & W2 & W3 & _ & W5). set (s1 := s <| st_pcb := p1 |> <| oracle := l |>) in *.
  assert (H : wp tcp_output (fun r s' => outputs s1 s') s1).
  { eapply wp_conseq; [apply tcp_output_spec; unfold s1; rec_simpl; rewrite ?V2; [done|congruence|done]|]. by intros r s' []. }
  apply wp_run in H as (r & s' & Hrun & _). unfold wp. rewrite Hrun. split; [by exists s1, r|].
  split; [intros [?|?]; done|].
  intros x rest E Ho Hfit Hany. assert (E2 : unsent (st_pcb s1) = x :: rest ++ unsent (st_pcb s)) by (unfold s1; rec_simpl; by rewrite V2, E).
  pose proof (tcp_output_head x (rest ++ unsent (st_pcb s)) s1) as H. unfold wp in H. rewrite Hrun in H. apply H.
  - by rewrite <- E2; unfold s1; rec_simpl; rewrite V2.
  - exact E2.
  - unfold s1. rec_simpl. congruence.
  - done.
  - unfold s1, fits in *. rec_simpl. by rewrite W1, W2, W3.
  - done.
  - by apply Hfree.
  - unfold s1 in *. rec_simpl_in Hip. rec_simpl. by rewrite Hip.
Qed.
End Send.

(** ** What does not depend on the changes of sending *)

Lemma clens_plain q : clens (plains q) = clens q.
Proof. induction q as [|x q IH]; [done|]. simpl. by rewrite IH. Qed.
Lemma clens_plains q1 q2 : Permutation (plains q1) (plains q2) -> clens q1 = clens q2.
Proof.
  intros Hp. rewrite <- (clens_plain q1), <- (clens_plain q2). clear - Hp. induction Hp; simpl; lia.
Qed.
Lemma txseg_ok_plain x : txseg_ok (plain x) <-> txseg_ok x.
Proof.
  split; intros [H1 H2 H3 H4]; rewrite ?plain_tcplen in H1; split; rewrite ?plain_tcplen; unfold plain in *; rec_simpl_in H2;
    rec_simpl_in H3; rec_simpl_in H4; rec_simpl; rewrite ?has_clear_ack in * by done; done.
Qed.
Lemma txseg_ok_plains q1 q2 : Forall txseg_ok q2 -> Permutation (plains q1) (plains q2) -> Forall txseg_ok q1.
Proof.
  intros H Hp. assert (E : forall q, Forall txseg_ok (plains q) <-> Forall txseg_ok q).
  { intros q. unfold plains. rewrite Forall_fmap. apply Forall_proper; [|done]. intros x. apply txseg_ok_plain. }
  apply E. rewrite Hp. by apply E.
Qed.
