(* ===== verification/TcpProcess.v ===== *)
(** * The TCP state machine ([tcp_process], [tcp_timewait_input] of [core/tcp_in.c];
    removal of control blocks in [core/tcp.c])

    The functions the application registers with a control block are parameters: they
    run arbitrary operations of the stack and answer an [err_t].  Every call is recorded
    in [events]. *)

From S2P Require Import Prelude Def IpAddr Tcp TcpOut TcpIn TcpOpt TcpOutput.

(** [accept], [connected], [recv] (with data, and with [NULL] for the end of the
    stream), [sent] and [errf] of a control block. *)
Record tcp_callbacks := mkCallbacks {
  cb_accept : Z -> TM Z;
  cb_connected : Z -> TM Z;
  cb_recv : pkt -> TM Z;
  cb_closed : TM Z;
  cb_sent : Z -> TM Z;
  cb_err : Z -> TM unit
}.

(** ** The lists of control blocks *)

(** The state of the control block at an address, if there is one. *)
Definition pcb_state (s : tcp_st) (a : Z) : option tcp_state :=
  if a =? pcb_addr s then (if pcb_freed s then None else Some (state (st_pcb s))) else other_state s !! a.

(** A property of the control block every element of a list points to. *)
Fixpoint pcbs_assert (msg : string) (ok : tcp_state -> bool) (l : list Z) : TM unit :=
  match l with
  | [] => ret tt
  | a :: rest =>
      let* s := get in
      match pcb_state s a with
      | None => fail BadAccess
      | Some st => lwip_assert msg (ok st) ;;; pcbs_assert msg ok rest
      end
  end.

Definition active_state (st : tcp_state) : bool :=
  negb (state_is st CLOSED) && negb (state_is st LISTEN) && negb (state_is st TIME_WAIT).

Definition tcp_pcbs_sane : TM unit :=
  let* s := get in
  pcbs_assert "tcp_pcbs_sane: active pcb" active_state (tcp_active_pcbs s) ;;;
  pcbs_assert "tcp_pcbs_sane: tw pcb->state == TIME-WAIT" (fun st => state_is st TIME_WAIT) (tcp_tw_pcbs s).

(** Using the control block after it was freed is a fault. *)
Definition deref : TM unit :=
  let* f := gets pcb_freed in if (f : bool) then fail BadAccess else ret tt.

Definition tcp_free : TM unit :=
  deref ;;;
  let* st := getp state in
  lwip_assert "tcp_free: LISTEN" (negb (state_is st LISTEN)) ;;;
  modify (fun s => s <| pcb_freed := true |>).

(** [tcp_pcb_remove(&tcp_active_pcbs, pcb)] or [tcp_pcb_remove(&tcp_tw_pcbs, pcb)]. *)
Definition tcp_pcb_remove (tw : bool) : TM unit :=
  deref ;;;
  modify (fun s => if tw then s <| tcp_tw_pcbs := TCP_RMV (tcp_tw_pcbs s) (pcb_addr s) |>
                   else s <| tcp_active_pcbs := TCP_RMV (tcp_active_pcbs s) (pcb_addr s) |>) ;;;
  tcp_pcb_purge ;;;
  let* p := gets st_pcb in
  when (negb (state_is (state p) TIME_WAIT) && negb (state_is (state p) LISTEN) && has (flags p) TF_ACK_DELAY)
    (tcp_ack_now ;;; let* _ := tcp_output in ret tt) ;;;
  let* p := gets st_pcb in
  when (negb (state_is (state p) LISTEN))
    (lwip_assert "unsent segments leaking" (match unsent p with [] => true | _ => false end) ;;;
     lwip_assert "unacked segments leaking" (match unacked p with [] => true | _ => false end) ;;;
     lwip_assert "ooseq segments leaking" (match ooseq p with [] => true | _ => false end)) ;;;
  modp (fun p => p <| state := CLOSED |>) ;;;
  modp (fun p => p <| local_port := 0 |>) ;;;
  tcp_pcbs_sane.

Section Callbacks.
Context (cb : tcp_callbacks).

Definition event (e : tcp_event) : TM unit := modify (fun s => s <| events := events s ++ [e] |>).
Definition TCP_EVENT_ACCEPT (err : Z) : TM Z := event (EvAccept err) ;;; cb_accept cb err.
Definition TCP_EVENT_CONNECTED (err : Z) : TM Z := event (EvConnected err) ;;; cb_connected cb err.
Definition TCP_EVENT_RECV (p : pkt) : TM Z := 
  let* ret_ := cb_recv cb p in event (EvRecv p ret_) ;;; ret ret_.
Definition TCP_EVENT_CLOSED : TM Z := event EvClosed ;;; cb_closed cb.
Definition TCP_EVENT_SENT (len : Z) : TM Z := event (EvSent len) ;;; cb_sent cb len.
Definition TCP_EVENT_ERR (err : Z) : TM unit := event (EvErr err) ;;; cb_err cb err.

(** [tcp_abandon(pcb, reset)]. *)
Definition tcp_abandon (reset : bool) : TM unit :=
  deref ;;;
  let* p := gets st_pcb in
  lwip_assert "don't call tcp_abort/tcp_abandon for listen-pcbs" (negb (state_is (state p) LISTEN)) ;;;
  if state_is (state p) TIME_WAIT then tcp_pcb_remove true ;;; tcp_free
  else
    let seqno := snd_nxt p in
    let ackno := rcv_nxt p in
    let closed := state_is (state p) CLOSED in
    (if closed then
       when (negb (local_port p =? 0)) (modify (fun s => s <| tcp_bound_pcbs := TCP_RMV (tcp_bound_pcbs s) (pcb_addr s) |>))
     else tcp_pcb_remove false ;;; modify (fun s => s <| tcp_active_pcbs_changed := true |>)) ;;;
    modp (fun p => p <| unacked := [] |> <| unsent := [] |> <| ooseq := [] |>) ;;;
    when (reset && negb closed) (tcp_rst seqno ackno (local_port p) (remote_port p)) ;;;
    tcp_free ;;;
    TCP_EVENT_ERR ERR_ABRT.
Definition tcp_abort : TM unit := tcp_abandon true.

(** ** The state machine *)

(** [tcp_rst(pcb, ackno, seqno + tcplen, ..., tcphdr->dest, tcphdr->src)]: the answer to
    the incoming segment. *)
Definition rst_reply : TM unit :=
  let* s := get in
  tcp_rst (ackno s) (u32_t (seqno s + tcplen s)) (in_dest s) (in_src s).

(** "Process incoming RST segments". *)
Definition process_rst : TM Z :=
  let* s := get in
  let p := st_pcb s in
  let* acceptable :=
    (if state_is (state p) SYN_SENT then ret (ackno s =? snd_nxt p)
     else if seqno s =? rcv_nxt p then ret true
     else if TCP_SEQ_BETWEEN (seqno s) (rcv_nxt p) (rcv_nxt p + rcv_wnd p) then tcp_ack_now ;;; ret false
     else ret false) in
  if acceptable then
    lwip_assert "tcp_input: pcb->state != CLOSED" (negb (state_is (state p) CLOSED)) ;;;
    modify (fun s => s <| recv_flags := Z.lor (recv_flags s) TF_RESET |>) ;;;
    tcp_clear_flags TF_ACK_DELAY ;;;
    ret ERR_RST
  else ret ERR_OK.

Definition LWIP_TCP_CALC_INITIAL_CWND (mss : Z) : Z := u16_t (Z.min (4 * mss) (Z.max (2 * mss) 4380)).

(** [tcp_eff_send_mss(sendmss, src, dest)]: [ip_route] is asked for the netif. *)
Definition tcp_eff_send_mss (sendmss : Z) (dest : ip_addr) : TM Z :=
  let* no_route := ask in tcp_eff_send_mss_netif sendmss (negb (no_route =? 0)) dest.

(** The SYN is acknowledged: its segment is taken off the queue it is on. *)
Definition free_syn_segment : TM unit :=
  let* una := getp unacked in
  match una with
  | _ :: rest => modp (fun p => p <| unacked := rest |>)
  | [] =>
      let* uns := getp unsent in
      match uns with
      | [] => fail (AssertFailed "no segment to free")
      | _ :: rest => modp (fun p => p <| unsent := rest |>)
      end
  end.

(** [SYN_SENT], "received SYN ACK with expected sequence number". *)
Definition process_syn_ack : TM Z :=
  let* s := get in
  modp (fun p => p <| rcv_nxt := u32_t (seqno s + 1) |>) ;;;
  modp (fun p => p <| rcv_ann_right_edge := rcv_nxt p |> <| lastack := ackno s |> <| snd_wnd := in_wnd s |>) ;;;
  modp (fun p => p <| snd_wnd_max := snd_wnd p |> <| snd_wl1 := u32_t (seqno s - 1) |> <| state := ESTABLISHED |>) ;;;
  let* p := gets st_pcb in
  let* m := tcp_eff_send_mss (mss p) (remote_ip p) in
  modp (fun p => p <| mss := m |> <| cwnd := LWIP_TCP_CALC_INITIAL_CWND m |>) ;;;
  let* qlen := getp snd_queuelen in
  lwip_assert "pcb->snd_queuelen > 0" (0 <? qlen) ;;;
  modp (fun p => p <| snd_queuelen := snd_queuelen p - 1 |>) ;;;
  free_syn_segment ;;;
  modp (fun p => match unacked p with [] => p <| rtime := -1 |> | _ => p <| rtime := 0 |> <| nrtx := 0 |> end) ;;;
  let* err := TCP_EVENT_CONNECTED ERR_OK in
  if err =? ERR_ABRT then ret ERR_ABRT
  else deref ;;; tcp_ack_now ;;; ret ERR_OK.

Definition process_syn_sent : TM Z :=
  let* s := get in
  if has (in_flags s) TCP_ACK && has (in_flags s) TCP_SYN && (ackno s =? u32_t (lastack (st_pcb s) + 1)) then
    process_syn_ack
  else if has (in_flags s) TCP_ACK then
    rst_reply ;;;
    let* n := getp nrtx in
    when (n <? TCP_SYNMAXRTX) (modp (fun p => p <| rtime := 0 |>) ;;; tcp_rexmit_rto) ;;;
    ret ERR_OK
  else ret ERR_OK.

(** [SYN_RCVD], the expected acknowledgement. *)
Definition process_syn_rcvd_ack : TM Z :=
  modp (fun p => p <| state := ESTABLISHED |>) ;;;
  let* l := getp listener in
  let* err := (if l =? 0 then ret ERR_VAL else TCP_EVENT_ACCEPT ERR_OK) in
  if negb (err =? ERR_OK) then
    when (negb (err =? ERR_ABRT)) tcp_abort ;;;
    ret ERR_ABRT
  else
    deref ;;;
    tcp_receive ;;;
    modify (fun s => if negb (recv_acked s =? 0) then s <| recv_acked := recv_acked s - 1 |> else s) ;;;
    modp (fun p => p <| cwnd := LWIP_TCP_CALC_INITIAL_CWND (mss p) |>) ;;;
    let* s := get in
    when (has (recv_flags s) TF_GOT_FIN) (tcp_ack_now ;;; modp (fun p => p <| state := CLOSE_WAIT |>)) ;;;
    ret ERR_OK.

Definition process_syn_rcvd : TM Z :=
  let* s := get in
  let p := st_pcb s in
  if has (in_flags s) TCP_ACK then
    if TCP_SEQ_BETWEEN (ackno s) (lastack p + 1) (snd_nxt p) then process_syn_rcvd_ack
    else rst_reply ;;; ret ERR_OK
  else if has (in_flags s) TCP_SYN && (seqno s =? u32_t (rcv_nxt p - 1)) then
    let* _ := tcp_rexmit in ret ERR_OK
  else ret ERR_OK.

(** [CLOSE_WAIT] and [ESTABLISHED]. *)
Definition process_established : TM Z :=
  tcp_receive ;;;
  let* f := gets recv_flags in
  when (has f TF_GOT_FIN) (tcp_ack_now ;;; modp (fun p => p <| state := CLOSE_WAIT |>)) ;;;
  ret ERR_OK.

(** Our FIN is acknowledged: [(flags & TCP_ACK) && ackno == snd_nxt && unsent == NULL]. *)
Definition fin_acked (s : tcp_st) : bool :=
  has (in_flags s) TCP_ACK && (ackno s =? snd_nxt (st_pcb s)) &&
  match unsent (st_pcb s) with [] => true | _ => false end.

(** Purge, and move from the active list to that of [TIME_WAIT]. *)
Definition enter_time_wait : TM unit :=
  tcp_pcb_purge ;;; TCP_RMV_ACTIVE ;;; modp (fun p => p <| state := TIME_WAIT |>) ;;; TCP_REG_TW.

Definition process_fin_wait_1 : TM Z :=
  tcp_receive ;;;
  let* s := get in
  (if has (recv_flags s) TF_GOT_FIN then
     if fin_acked s then tcp_ack_now ;;; enter_time_wait
     else tcp_ack_now ;;; modp (fun p => p <| state := CLOSING |>)
   else when (fin_acked s) (modp (fun p => p <| state := FIN_WAIT_2 |>))) ;;;
  ret ERR_OK.

Definition process_fin_wait_2 : TM Z :=
  tcp_receive ;;;
  let* s := get in
  when (has (recv_flags s) TF_GOT_FIN) (tcp_ack_now ;;; enter_time_wait) ;;;
  ret ERR_OK.

Definition process_closing : TM Z :=
  tcp_receive ;;;
  let* s := get in
  when (fin_acked s) enter_time_wait ;;;
  ret ERR_OK.

Definition process_last_ack : TM Z :=
  tcp_receive ;;;
  let* s := get in
  when (fin_acked s) (modify (fun s => s <| recv_flags := Z.lor (recv_flags s) TF_CLOSED |>)) ;;;
  ret ERR_OK.

(** The [switch] over the states. *)
Definition process_state : TM Z :=
  let* st := getp state in
  match st with
  | SYN_SENT => process_syn_sent
  | SYN_RCVD => process_syn_rcvd
  | CLOSE_WAIT | ESTABLISHED => process_established
  | FIN_WAIT_1 => process_fin_wait_1
  | FIN_WAIT_2 => process_fin_wait_2
  | CLOSING => process_closing
  | LAST_ACK => process_last_ack
  | CLOSED | LISTEN | TIME_WAIT => ret ERR_OK
  end.

Definition tcp_process : TM Z :=
  let* s := get in
  if has (in_flags s) TCP_RST then process_rst
  else if has (in_flags s) TCP_SYN &&
          negb (state_is (state (st_pcb s)) SYN_SENT) && negb (state_is (state (st_pcb s)) SYN_RCVD) then
    tcp_ack_now ;;; ret ERR_OK
  else
    modp (fun p => if has (flags p) TF_RXCLOSED then p else p <| tmr := tcp_ticks s |>) ;;;
    modp (fun p => p <| keep_cnt_sent := 0 |> <| persist_probe := 0 |>) ;;;
    tcp_parseopt ;;;
    process_state.
End Callbacks.

Definition tcp_timewait_input : TM unit :=
  let* s := get in
  let p := st_pcb s in
  if has (in_flags s) TCP_RST then ret tt
  else
    let in_wnd := has (in_flags s) TCP_SYN && TCP_SEQ_BETWEEN (seqno s) (rcv_nxt p) (rcv_nxt p + rcv_wnd p) in
    if in_wnd then tcp_rst (ackno s) (u32_t (seqno s + tcplen s)) (in_dest s) (in_src s)
    else
      when (negb (has (in_flags s) TCP_SYN) && has (in_flags s) TCP_FIN) (modp (fun p => p <| tmr := tcp_ticks s |>)) ;;;
      when (0 <? tcplen s) (tcp_ack_now ;;; let* _ := tcp_output in ret tt).
