(* ===== verification/TcpMachine.v ===== *)
(** * The TCP state machine keeps its promises

    For a connection whose peer sends the stream [σ] and then a FIN: [tcp_process]
    never faults, keeps the invariants of the control block and of the lists of control
    blocks, and moves between the states as RFC 793 says. *)

From S2P Require Import Prelude Def IpAddr Tcp TcpOut TcpIn TcpFacts TcpStream.
From S2P Require Import TcpOoseq TcpRecv TcpAck TcpReceive TcpOpt TcpOutput TcpSend TcpProcess.


(** ** The lists of control blocks *)

(** "Axioms about the above lists" of [tcp_priv.h]: a control block is on one list
    only, and its state is one of those the list is for. *)
Record pcbs_ok (s : tcp_st) : Prop := PcbsOk {
  pc_nodup : NoDup (tcp_active_pcbs s ++ tcp_tw_pcbs s);
  pc_active : Forall (fun a => exists st, pcb_state s a = Some st /\ active_state st = true) (tcp_active_pcbs s);
  pc_tw : Forall (fun a => pcb_state s a = Some TIME_WAIT) (tcp_tw_pcbs s)
}.

Lemma TCP_RMV_in l a x : NoDup l -> x ∈ TCP_RMV l a <-> x ∈ l /\ x <> a.
Proof.
  induction l as [|y l IH]; [intros; simpl; rewrite elem_of_nil; tauto|]. intros [Hy Hl]%NoDup_cons. simpl.
  destruct (Z.eqb_spec y a) as [->|Hne]; rewrite !elem_of_cons, ?(IH Hl); split; try (intros [[->|?] ?]; tauto).
  - intros Hx. split; [by right|by intros ->].
  - intros [->|?]; tauto.
Qed.
Lemma TCP_RMV_nodup l a : NoDup l -> NoDup (TCP_RMV l a).
Proof.
  induction l as [|y l IH]; [done|]. intros [Hy Hl]%NoDup_cons. simpl. destruct (y =? a); [done|].
  constructor; [|by apply IH]. by rewrite TCP_RMV_in by done; intros [? _].
Qed.

Lemma world_of_eq s s' : world_of s' = world_of s -> pcb_addr s' = pcb_addr s /\ pcb_freed s' = pcb_freed s /\
  tcp_active_pcbs s' = tcp_active_pcbs s /\ tcp_tw_pcbs s' = tcp_tw_pcbs s /\ other_state s' = other_state s /\
  events s' = events s /\ tcp_input_pcb s' = tcp_input_pcb s /\ tcp_ticks s' = tcp_ticks s /\
  timer_needed_calls s' = timer_needed_calls s.
Proof. unfold world_of. intros [=]. split_and!; done. Qed.

(** The lists only depend on the states. *)
Lemma pcb_state_ext s s' : world_of s' = world_of s -> state (st_pcb s') = state (st_pcb s) ->
  forall a, pcb_state s' a = pcb_state s a.
Proof. intros (E1 & E2 & _ & _ & E3 & _)%world_of_eq Hst a. unfold pcb_state. by rewrite E1, E2, E3, Hst. Qed.

Lemma pcb_state_other s s' a : a <> pcb_addr s -> pcb_addr s' = pcb_addr s -> other_state s' = other_state s ->
  pcb_state s' a = pcb_state s a.
Proof. intros Ha E1 E2. unfold pcb_state. rewrite E1, E2. by rewrite (proj2 (Z.eqb_neq _ _) Ha). Qed.

(** The control block changes its state but not its list. *)
Lemma pcbs_ok_state s s' : pcbs_ok s -> world_of s' = world_of s ->
  pcb_addr s ∈ tcp_active_pcbs s -> active_state (state (st_pcb s')) = true -> pcbs_ok s'.
Proof.
  intros [H1 H2 H3] (W1 & W2 & W4 & W5 & W6 & _)%world_of_eq Hin Hact.
  rewrite Forall_forall in H2, H3. apply NoDup_app in H1 as Hd. destruct Hd as (_ & Hd & _).
  split; rewrite ?W4, ?W5; [done|rewrite Forall_forall..].
  - intros a Ha. destruct (decide (a = pcb_addr s)) as [->|Hne].
    + destruct (H2 _ Hin) as (st & Hst & _). unfold pcb_state in *. rewrite W1, W2, Z.eqb_refl in *.
      destruct (pcb_freed s); [done|eauto].
    + rewrite (pcb_state_other s s') by done. by apply H2.
  - intros a Ha. rewrite (pcb_state_other s s'); auto. intros ->. by apply (Hd (pcb_addr s)).
Qed.

(** ** Entering [TIME_WAIT] *)

(** The queues are empty, the timer is stopped, the control block has changed lists. *)
Record in_time_wait (s s' : tcp_st) : Prop := InTimeWait {
  tw_state : state (st_pcb s') = TIME_WAIT;
  tw_empty : unsent (st_pcb s') = [] /\ unacked (st_pcb s') = [] /\ ooseq (st_pcb s') = [] /\
    refused_data (st_pcb s') = [] /\ rtime (st_pcb s') = -1;
  tw_lists : tcp_active_pcbs s' = TCP_RMV (tcp_active_pcbs s) (pcb_addr s) /\
    tcp_tw_pcbs s' = pcb_addr s :: tcp_tw_pcbs s;
  tw_timer : timer_needed_calls s' = timer_needed_calls s + 1;
  tw_addr : pcb_addr s' = pcb_addr s /\ pcb_freed s' = pcb_freed s /\ other_state s' = other_state s /\
    events s' = events s /\ tcp_input_pcb s' = tcp_input_pcb s /\ refused_fin (st_pcb s') = refused_fin (st_pcb s)
}.

(** The receiver's variables other than the queue. *)
Definition rcv_of (p : tcp_pcb) := (rcv_nxt p, rcv_wnd p, rcv_ann_wnd p, rcv_ann_right_edge p, mss p).

Lemma enter_time_wait_spec s : active_state (state (st_pcb s)) = true ->
  wp enter_time_wait (fun _ s' => in_time_wait s s' /\ rcv_of (st_pcb s') = rcv_of (st_pcb s) /\
    recv_data s' = recv_data s /\ recv_flags s' = recv_flags s /\ recv_acked s' = recv_acked s) s.
Proof.
  unfold active_state. intros Hst. unfold enter_time_wait, tcp_pcb_purge, TCP_RMV_ACTIVE, TCP_REG_TW, when. wp_steps.
  replace (_ && _ && _) with true by (by destruct (state (st_pcb s))). wp_steps. by split_and!.
Qed.

Lemma pcbs_ok_time_wait s s' : pcbs_ok s -> pcb_addr s ∈ tcp_active_pcbs s -> pcb_freed s = false ->
  in_time_wait s s' -> pcbs_ok s' /\ pcb_addr s' ∈ tcp_tw_pcbs s'.
Proof.
  intros [H1 H2 H3] Hin Hf [Hst _ [L1 L2] _ (A1 & A2 & A3 & _)].
  apply NoDup_app in H1 as (N1 & Nd & N2). rewrite Forall_forall in H2, H3.
  assert (Htw : pcb_addr s ∉ tcp_tw_pcbs s) by (by apply Nd).
  split; [|rewrite L2, A1; by left]. split; rewrite ?L1, ?L2, ?Forall_cons, ?Forall_forall.
  - apply NoDup_app. split_and!; [by apply TCP_RMV_nodup| |by constructor].
    intros x Hx. apply (TCP_RMV_in _ _ _ N1) in Hx as [Hx Hne]. intros [->|Hc]%elem_of_cons; [done|]. by apply (Nd x).
  - intros x Hx. apply (TCP_RMV_in _ _ _ N1) in Hx as [Hx Hne]. rewrite (pcb_state_other s s') by done. by apply H2.
  - split; [unfold pcb_state; by rewrite A1, A2, Z.eqb_refl, Hf, Hst|].
    intros x Hx. rewrite (pcb_state_other s s'); auto. by intros ->.
Qed.

Section Machine.
Context (σ : list Z) (isn A : Z) (cb : tcp_callbacks).
Abbreviation seg_at := (seg_at σ isn).
Abbreviation rx_inv := (rx_inv σ isn A).

(** ** The invariant of a connection *)

(** The peer has closed its direction: its FIN is behind [rcv_nxt]. *)
Definition rx_closed (st : tcp_state) : bool :=
  match st with CLOSE_WAIT | CLOSING | LAST_ACK | TIME_WAIT => true | _ => false end.

Record conn_inv (N W : Z) (s : tcp_st) : Prop := ConnInv {
  ci_rx : rx_inv N W (st_pcb s);
  ci_qlen : state (st_pcb s) <> TIME_WAIT -> qlen_ok (st_pcb s);
  ci_pcbs : pcbs_ok s;
  ci_live : pcb_freed s = false;
  ci_list : if state_is (state (st_pcb s)) TIME_WAIT then pcb_addr s ∈ tcp_tw_pcbs s
            else pcb_addr s ∈ tcp_active_pcbs s;
  ci_sync : state_num ESTABLISHED <= state_num (state (st_pcb s));
  ci_tw : state (st_pcb s) = TIME_WAIT -> unsent (st_pcb s) = [] /\ unacked (st_pcb s) = [] /\ ooseq (st_pcb s) = [];
  ci_send : Forall txseg_ok (unacked (st_pcb s) ++ unsent (st_pcb s));
  ci_fin : rx_closed (state (st_pcb s)) = (zlen σ <? N)
}.

(** The state after a segment: [fin] says that the peer's FIN has been reached,
    [acked] that our own FIN is acknowledged (RFC 793, page 23). *)
Definition next_state (st : tcp_state) (fin acked : bool) : tcp_state :=
  match st with
  | ESTABLISHED => if fin then CLOSE_WAIT else ESTABLISHED
  | FIN_WAIT_1 => if fin then (if acked then TIME_WAIT else CLOSING) else if acked then FIN_WAIT_2 else FIN_WAIT_1
  | FIN_WAIT_2 => if fin then TIME_WAIT else FIN_WAIT_2
  | CLOSING => if acked then TIME_WAIT else CLOSING
  | _ => st
  end.

(** The segment carries neither RST nor SYN, its options can be read, and nothing
    was reported for it yet. *)
Record plain_segment (s : tcp_st) : Prop := PlainSegment {
  ps_rst : has (in_flags s) TCP_RST = false;
  ps_syn : has (in_flags s) TCP_SYN = false;
  ps_opts : opts_sized s /\ opts_safe s;
  ps_flags : recv_flags s = 0
}.

(** ** From [tcp_process] to [tcp_receive] *)

(** What happens before the [switch]: only timers and the MSS. *)
Lemma process_prepare (k : TM Z) Q s : opts_sized s -> opts_safe s ->
  (forall t m i, mss_ok s (s <| st_pcb := st_pcb s <| mss := m |> |>) ->
     wp k Q (s <| st_pcb := st_pcb s <| tmr := t |> <| keep_cnt_sent := 0 |> <| persist_probe := 0 |> <| mss := m |> |>
               <| tcp_optidx := i |>)) ->
  wp (modp (fun p => if has (flags p) TF_RXCLOSED then p else p <| tmr := tcp_ticks s |>) ;;;
      modp (fun p => p <| keep_cnt_sent := 0 |> <| persist_probe := 0 |>) ;;; tcp_parseopt ;;; k) Q s.
Proof.
  intros Hs Hr HQ. wp_steps.
  assert (E : (if has (flags (st_pcb s)) TF_RXCLOSED then st_pcb s else st_pcb s <| tmr := tcp_ticks s |>) =
    st_pcb s <| tmr := if has (flags (st_pcb s)) TF_RXCLOSED then tmr (st_pcb s) else tcp_ticks s |>).
  { destruct (has _ _); [|done]. by destruct (st_pcb s). }
  rewrite E. clear E. generalize (if has (flags (st_pcb s)) TF_RXCLOSED then tmr (st_pcb s) else tcp_ticks s). intros t.
  eapply wp_conseq; [by apply tcp_parseopt_safe_wp|]. rec_simpl. intros _ s' [(m & i & ->) Hm]. rec_simpl_in Hm.
  by apply HQ.
Qed.

(** ** The synchronised states *)

Lemma received_state N W b s N' s' : received σ isn A N W b s N' s' -> conn_inv N W s -> recv_flags s = 0 ->
  got_fin s' = negb (rx_closed (state (st_pcb s))) && (zlen σ <? N') /\
  (state (st_pcb s') = state (st_pcb s) \/
   state (st_pcb s) = ESTABLISHED /\ state (st_pcb s') = CLOSE_WAIT /\ got_fin s' = true).
Proof.
  intros [HN _ (_ & Hf & _ & Hst & _) _ _ _ _ _ _ _] [_ _ _ _ _ _ _ _ Hc] H0. split; [|done].
  rewrite Hf, Hc. unfold got_fin. rewrite H0. change (has 0 TF_GOT_FIN) with false. simpl. bool_cases.
Qed.

(** What one segment does in a synchronised state: [s1] is the state after
    [tcp_receive]. *)
Record processed (N W b : Z) (s : tcp_st) (N' : Z) (s1 s' : tcp_st) : Prop := Processed {
  pr_recv : received σ isn A N W b s N' s1;
  pr_inv : conn_inv N' (W - (N' - N)) s';
  pr_state : state (st_pcb s') = next_state (state (st_pcb s)) (zlen σ <? N') (fin_acked s1);
  pr_tw : if state_is (state (st_pcb s')) TIME_WAIT then in_time_wait s1 s' else world_of s' = world_of s;
  pr_closed : has (recv_flags s') TF_CLOSED = state_is (state (st_pcb s)) LAST_ACK && fin_acked s1;
  pr_reset : has (recv_flags s') TF_RESET = false;
  pr_fin : got_fin s' = got_fin s1;
  pr_out : recv_data s' = recv_data s1 /\ recv_acked s' = recv_acked s1;
  pr_refused : refused_fin (st_pcb s') = refused_fin (st_pcb s) /\
    refused_data (st_pcb s') = (if state_is (state (st_pcb s')) TIME_WAIT then [] else refused_data (st_pcb s))
}.

(** The state and the flags after [tcp_receive], and what the handlers rely on. *)
Record after_receive (N W b : Z) (s : tcp_st) (N' : Z) (s1 : tcp_st) : Prop := AfterReceive {
  af_recv : received σ isn A N W b s N' s1;
  af_fin : has (recv_flags s1) TF_GOT_FIN = negb (rx_closed (state (st_pcb s))) && (zlen σ <? N');
  af_closed : has (recv_flags s1) TF_CLOSED = false;
  af_reset : has (recv_flags s1) TF_RESET = false;
  af_state : state (st_pcb s1) = state (st_pcb s) \/
    state (st_pcb s) = ESTABLISHED /\ state (st_pcb s1) = CLOSE_WAIT /\ got_fin s1 = true;
  af_active : active_state (state (st_pcb s1)) = true;
  af_rx : rx_closed (state (st_pcb s)) = true -> (zlen σ <? N') = true;
  af_pcbs : pcbs_ok s1 /\ pcb_addr s1 ∈ tcp_active_pcbs s1 /\ pcb_freed s1 = false;
  af_send : Forall txseg_ok (unacked (st_pcb s1) ++ unsent (st_pcb s1))
}.

Lemma received_send N W b s N' s1 : received σ isn A N W b s N' s1 ->
  Forall txseg_ok (unacked (st_pcb s) ++ unsent (st_pcb s)) ->
  Forall txseg_ok (unacked (st_pcb s1) ++ unsent (st_pcb s1)).
Proof.
  intros HR Hok. pose proof (rc_acked _ _ _ _ _ _ _ _ _ HR) as Ha. destruct (_ && _).
  - destruct Ha as (l1 & l2 & E1 & E2 & _). rewrite E1, E2, !Forall_app in Hok. rewrite Forall_app. tauto.
  - destruct Ha as [(Hp%rexmitted_perm & _) _]. by rewrite Hp.
Qed.

Lemma received_after N W b s N' s1 : received σ isn A N W b s N' s1 -> conn_inv N W s -> recv_flags s = 0 ->
  state (st_pcb s) <> TIME_WAIT -> after_receive N W b s N' s1.
Proof.
  intros HR Hci H0 Hntw. pose proof (received_state _ _ _ _ _ _ HR Hci H0) as [Hf Hs].
  pose proof (ci_sync _ _ _ Hci) as Hst. pose proof (ci_list _ _ _ Hci) as Hin.
  assert (state_is (state (st_pcb s)) TIME_WAIT = false) as E by (by destruct (state (st_pcb s))). rewrite E in Hin.
  pose proof (world_of_eq _ _ (rc_world _ _ _ _ _ _ _ _ _ HR)) as (W1 & W2 & W3 & _).
  assert (Hact : active_state (state (st_pcb s1)) = true).
  { destruct Hs as [->|(_ & -> & _)]; [|done]. destruct (state (st_pcb s)); simpl in Hst; done || lia. }
  destruct (rc_bytes _ _ _ _ _ _ _ _ _ HR) as (_ & _ & Ho & _).
  split; try done.
  - rewrite (fin_only_closed _ _ Ho), H0. done.
  - destruct Ho as [->| ->]; by rewrite H0.
  - rewrite (ci_fin _ _ _ Hci), !Z.ltb_lt. pose proof (rc_le _ _ _ _ _ _ _ _ _ HR). lia.
  - split_and!; [|by rewrite W1, W3|rewrite W2; apply Hci].
    eapply pcbs_ok_state; [apply Hci|apply (rc_world _ _ _ _ _ _ _ _ _ HR)|done|done].
  - eapply received_send; [exact HR|apply Hci].
Qed.

(** The invariant after a change of state and flags only. *)
Lemma conn_inv_state N W b s N' s1 s' : after_receive N W b s N' s1 ->
  rcv_of (st_pcb s') = rcv_of (st_pcb s1) -> ooseq (st_pcb s') = ooseq (st_pcb s1) \/ ooseq (st_pcb s') = [] ->
  (state (st_pcb s') <> TIME_WAIT -> qlen_ok (st_pcb s')) -> pcbs_ok s' -> pcb_freed s' = false ->
  (if state_is (state (st_pcb s')) TIME_WAIT then pcb_addr s' ∈ tcp_tw_pcbs s' else pcb_addr s' ∈ tcp_active_pcbs s') ->
  state_num ESTABLISHED <= state_num (state (st_pcb s')) ->
  (state (st_pcb s') = TIME_WAIT -> unsent (st_pcb s') = [] /\ unacked (st_pcb s') = [] /\ ooseq (st_pcb s') = []) ->
  Forall txseg_ok (unacked (st_pcb s') ++ unsent (st_pcb s')) ->
  rx_closed (state (st_pcb s')) = (zlen σ <? N') -> conn_inv N' (W - (N' - N)) s'.
Proof.
  intros [[_ [Hrx Hoos] _ _ _ _ _ _ _ _] _ _ _ _ _ _ _] Hr Ho Hq Hp Hf Hl Hsy Htw Hse Hs. split; try done. split.
  - unfold rcv_of in Hr. eapply rcv_ok_ext; [exact Hrx|congruence].
  - by destruct Ho as [->| ->].
Qed.

(** The control block keeps its list. *)
Lemma stay_processed N W b s N' s1 s' : after_receive N W b s N' s1 ->
  world_of s' = world_of s1 -> rcv_of (st_pcb s') = rcv_of (st_pcb s1) -> ooseq (st_pcb s') = ooseq (st_pcb s1) ->
  txq_of (st_pcb s') = txq_of (st_pcb s1) -> recv_data s' = recv_data s1 -> recv_acked s' = recv_acked s1 ->
  got_fin s' = got_fin s1 -> has (recv_flags s') TF_RESET = false ->
  has (recv_flags s') TF_CLOSED = state_is (state (st_pcb s)) LAST_ACK && fin_acked s1 ->
  state (st_pcb s') = next_state (state (st_pcb s)) (zlen σ <? N') (fin_acked s1) ->
  active_state (state (st_pcb s')) = true -> state_num ESTABLISHED <= state_num (state (st_pcb s')) ->
  fixed_of (st_pcb s') = fixed_of (st_pcb s1) ->
  rx_closed (state (st_pcb s')) = (zlen σ <? N') -> processed N W b s N' s1 s'.
Proof.
  intros Ha HW Hr Ho Hq Hd Hk Hg Hre Hc Hst Hact Hsy Hx Hrx. pose proof (af_recv _ _ _ _ _ _ Ha) as HR.
  destruct (af_pcbs _ _ _ _ _ _ Ha) as (P1 & P2 & P3). pose proof (world_of_eq _ _ HW) as (W1 & W2 & W3 & _).
  unfold txq_of in Hq. injection Hq as T1 T2 T3 T4.
  assert (Hntw : state_is (state (st_pcb s')) TIME_WAIT = false) by (unfold active_state in Hact; by destruct (state (st_pcb s'))).
  split; try done.
  - eapply conn_inv_state; try done; [by left|intros _| |congruence|by rewrite Hntw, W1, W3|intros E; by rewrite E in Hntw|].
    + pose proof (rc_qlen _ _ _ _ _ _ _ _ _ HR) as [Q1 Q2]. unfold qlen_ok. by rewrite T1, T2, T3.
    + by apply (pcbs_ok_state s1).
    + rewrite T1, T2. apply (af_send _ _ _ _ _ _ Ha).
  - rewrite Hntw, HW. apply (rc_world _ _ _ _ _ _ _ _ _ HR).
  - rewrite Hntw. rewrite (rc_fixed _ _ _ _ _ _ _ _ _ HR) in Hx. unfold fixed_of in Hx. split; congruence.
Qed.

(** The control block enters [TIME_WAIT]. *)
Lemma time_wait_processed N W b s N' s1 f : after_receive N W b s N' s1 ->
  next_state (state (st_pcb s)) (zlen σ <? N') (fin_acked s1) = TIME_WAIT -> (zlen σ <? N') = true ->
  wp enter_time_wait (fun _ s' => processed N W b s N' s1 s') (s1 <| st_pcb := st_pcb s1 <| flags := f |> |>).
Proof.
  intros Ha Hn Hfin. pose proof (af_recv _ _ _ _ _ _ Ha) as HR. destruct (af_pcbs _ _ _ _ _ _ Ha) as (P1 & P2 & P3).
  eapply wp_conseq; [apply enter_time_wait_spec; apply (af_active _ _ _ _ _ _ Ha)|].
  intros _ s' (Htw & Hr & Hd & Hfl & Hk). rec_simpl_in Hd. rec_simpl_in Hfl. rec_simpl_in Hk.
  assert (Htw1 : in_time_wait s1 s') by (by destruct Htw).
  destruct (pcbs_ok_time_wait s1 s') as [Hp Hin]; try done. destruct Htw1 as [T1 (T2 & T3 & T4 & T8 & _) _ _ (T5 & T6 & _ & _ & _ & T7)].
  split; try done.
  - eapply conn_inv_state; try done; [by right|congruence|by rewrite T1|by rewrite T1|by rewrite T2, T3|by rewrite T1, Hfin].
  - by rewrite T1.
  - rewrite T1. by destruct Htw.
  - rewrite Hfl, (af_closed _ _ _ _ _ _ Ha). destruct (state (st_pcb s)); done.
  - by rewrite Hfl, (af_reset _ _ _ _ _ _ Ha).
  - unfold got_fin. by rewrite Hfl.
  - rewrite T1, T7, T8. pose proof (rc_fixed _ _ _ _ _ _ _ _ _ HR) as Hx. unfold fixed_of in Hx. split; [congruence|done].
Qed.

(** The flags of the control block, or its state, are changed. *)
Ltac stays :=
  eapply stay_processed; try done; unfold got_fin, fin_acked in *; rec_simpl; try congruence.

Ltac enters Ha :=
  eapply wp_conseq;
  [eapply time_wait_processed; [exact Ha|..]; repeat match goal with H : _ = _ |- _ => rewrite H end; reflexivity
  |cbv beta; intros ? ? ?; wp_steps; split; [reflexivity|eauto]].

Lemma process_state_spec N W b s : conn_inv N W s -> arrives σ isn N W b s -> recv_flags s = 0 ->
  state (st_pcb s) <> TIME_WAIT -> wp (process_state cb) (fun r s' => r = ERR_OK /\ exists N' s1, processed N W b s N' s1 s') s.
Proof.
  intros Hci Har H0 Hntw. pose proof (ci_sync _ _ _ Hci) as Hst. unfold process_state. wp_steps.
  assert (HR : wp tcp_receive (fun _ s1 => exists N', after_receive N W b s N' s1) s).
  { eapply wp_conseq; [apply (tcp_receive_spec σ isn A N W b); [by apply Hci|apply Hci|done|done]|].
    - intros _ s1 (N' & H). exists N'. by apply received_after. }
  destruct (state (st_pcb s)) eqn:Es; simpl in Hst; try lia; try done;
    unfold process_established, process_fin_wait_1, process_fin_wait_2, process_closing, process_last_ack,
      tcp_ack_now, tcp_set_flags, when; wp_step; (eapply wp_conseq; [exact HR|]); intros _ s1 (N' & Ha);
    pose proof (af_fin _ _ _ _ _ _ Ha) as Hf; pose proof (af_closed _ _ _ _ _ _ Ha) as Hc;
    pose proof (af_reset _ _ _ _ _ _ Ha) as Hre;
    pose proof (af_state _ _ _ _ _ _ Ha) as Hs; pose proof (af_rx _ _ _ _ _ _ Ha) as Hx;
    rewrite Es in Hf, Hs, Hx; simpl in Hf; wp_steps.
  - rewrite Hf. destruct (zlen σ <? N') eqn:Efin; wp_steps; (split; [done|]); exists N', s1.
    + stays; by rewrite Es, ?Efin.
    + destruct Hs as [Hs|(_ & _ & Hg)]; [|unfold got_fin in Hg; congruence]. stays; by rewrite ?Es, ?Hs, ?Efin.
  - destruct Hs as [Hs|(? & _)]; [|done].
    rewrite Hf. destruct (zlen σ <? N') eqn:Efin, (fin_acked s1) eqn:Eack; wp_steps.
    + enters Ha.
    + split; [done|]. exists N', s1. stays; by rewrite Es, ?Efin, ?Eack.
    + split; [done|]. exists N', s1. stays; by rewrite Es, ?Efin, ?Eack.
    + split; [done|]. exists N', s1. stays; by rewrite ?Es, ?Hs, ?Efin, ?Eack.
  - destruct Hs as [Hs|(? & _)]; [|done]. rewrite Hf. destruct (zlen σ <? N') eqn:Efin; wp_steps.
    + enters Ha.
    + split; [done|]. exists N', s1. stays; by rewrite ?Es, ?Hs, ?Efin.
  - destruct Hs as [Hs|(? & _)]; [|done]. rewrite Hf. wp_steps. split; [done|]. exists N', s1.
    specialize (Hx eq_refl). stays; by rewrite ?Es, ?Hs, ?Hx.
  - destruct Hs as [Hs|(? & _)]; [|done]. specialize (Hx eq_refl). destruct (fin_acked s1) eqn:Eack; wp_steps.
    + assert (E1 : s1 = s1 <| st_pcb := st_pcb s1 <| flags := flags (st_pcb s1) |> |>) by (by destruct s1 as [[]]).
      rewrite E1. clear E1. enters Ha.
    + split; [done|]. exists N', s1. stays; by rewrite ?Es, ?Hs, ?Hx, ?Eack.
  - destruct Hs as [Hs|(? & _)]; [|done]. specialize (Hx eq_refl). destruct (fin_acked s1) eqn:Eack; wp_steps;
      (split; [done|]); exists N', s1.
    + stays; try (by rewrite ?Es, ?Hs, ?Hx, ?Eack).
      * rewrite has_lor. by rewrite orb_false_r.
      * by rewrite has_lor, Hre.
      * rewrite Es, has_lor, orb_true_r. unfold fin_acked in Eack. by rewrite Eack.
    + stays; by rewrite ?Es, ?Hs, ?Hx, ?Eack.
Qed.

Lemma conn_inv_prepare N W s t m i : conn_inv N W s -> mss_ok s (s <| st_pcb := st_pcb s <| mss := m |> |>) ->
  conn_inv N W (s <| st_pcb := st_pcb s <| tmr := t |> <| keep_cnt_sent := 0 |> <| persist_probe := 0 |> <| mss := m |> |>
                  <| tcp_optidx := i |>).
Proof.
  intros [[[[Hn Hw Hp Hr He Hm] Ha] Ho] Hq Hpc Hl Hli Hsy Htw Hse Hf] Hmss. unfold mss_ok, TCP_MSS in Hmss. rec_simpl_in Hmss.
  split; try done; [|by destruct Hpc; split]. split; [|done]. split; [|done]. split; try done. rec_simpl. lia.
Qed.

(** A segment of the connection, RST and SYN apart, in a synchronised state. *)
Lemma tcp_process_spec N W b s : conn_inv N W s -> arrives σ isn N W b s -> plain_segment s ->
  state (st_pcb s) <> TIME_WAIT ->
  wp (tcp_process cb) (fun r s' => r = ERR_OK /\ exists N' s1, processed N W b s N' s1 s') s.
Proof.
  intros Hci Har [Hrst Hsyn [Ho1 Ho2] Hfl] Hst. unfold tcp_process. wp_step. wp_step. rewrite Hrst, Hsyn. cbn [andb].
  apply process_prepare; [done..|]. intros t m i Hm. set (s0 := s <| st_pcb := _ |> <| tcp_optidx := i |>).
  eapply wp_conseq; [apply (process_state_spec N W b s0); try done|].
  - by apply conn_inv_prepare.
  - by destruct Har.
  - intros r s' (-> & N' & s1 & [P1 P2 P3 P4 P5 P6 P7 P8 P9]). split; [done|]. exists N', s1. split; try done. by destruct P1.
Qed.

(** ** RST and SYN *)

(** The reset is acceptable: it acknowledges our SYN, or its sequence number is the
    one expected next. *)
Definition rst_acceptable (s : tcp_st) : bool :=
  if state_is (state (st_pcb s)) SYN_SENT then ackno s =? snd_nxt (st_pcb s) else seqno s =? rcv_nxt (st_pcb s).

(** An acceptable reset is reported, one elsewhere in the window or at its right edge provokes
    an acknowledgement, any other is ignored. *)
Definition rst_outcome (s : tcp_st) : tcp_st :=
  let p := st_pcb s in
  if rst_acceptable s then
    s <| recv_flags := Z.lor (recv_flags s) TF_RESET |> <| st_pcb := p <| flags := clear_bits (flags p) TF_ACK_DELAY |> |>
  else if negb (state_is (state p) SYN_SENT) && TCP_SEQ_BETWEEN (seqno s) (rcv_nxt p) (rcv_nxt p + rcv_wnd p) then
    s <| st_pcb := p <| flags := Z.lor (flags p) TF_ACK_NOW |> |>
  else s.

Lemma process_rst_spec s : state (st_pcb s) <> CLOSED -> has (in_flags s) TCP_RST = true ->
  wp (tcp_process cb) (fun r s' => r = (if rst_acceptable s then ERR_RST else ERR_OK) /\ s' = rst_outcome s) s.
Proof.
  intros Hc Hr. unfold tcp_process, process_rst, rst_outcome, rst_acceptable, tcp_ack_now, tcp_clear_flags, tcp_set_flags.
  wp_step. wp_step. rewrite Hr. wp_steps.
  assert (Ha : forall Q, Q tt s -> wp (lwip_assert "tcp_input: pcb->state != CLOSED" (negb (state_is (state (st_pcb s)) CLOSED))) Q s).
  { intros Q HQ. apply wp_assert; [|done]. by destruct (state (st_pcb s)). }
  destruct (state_is (state (st_pcb s)) SYN_SENT); simpl; wp_steps.
  - destruct (ackno s =? snd_nxt (st_pcb s)); [|by wp_steps]. wp_step. apply Ha. by wp_steps.
  - destruct (seqno s =? rcv_nxt (st_pcb s)); wp_steps; [apply Ha; by wp_steps|].
    destruct (TCP_SEQ_BETWEEN _ _ _); cbv iota; wp_steps; done.
Qed.
End Machine.
