(* ===== verification/TcpInput.v ===== *)
(** * TCP input for a connection ([tcp_input] of [core/tcp_in.c] from the point where the
    control block is found; [tcp_recved], [tcp_process_refused_data] of [core/tcp.c]) *)

From S2P Require Import Prelude Def IpAddr Tcp TcpOut TcpIn TcpOpt TcpOutput.
From S2P Require Import TcpProcess.

(** [TCP_WND_MAX(pcb)] without window scaling. *)
Definition TCP_WND_MAX : Z := TCP_WND.

Definition tcp_recved (len : Z) : TM unit :=
  deref ;;;
  let* p := gets st_pcb in
  lwip_assert "don't call tcp_recved for listen-pcbs" (negb (state_is (state p) LISTEN)) ;;;
  let rcv_wnd' := u16_t (rcv_wnd p + len) in
  modp (fun p => if (TCP_WND_MAX <? rcv_wnd') || (rcv_wnd' <? rcv_wnd p) then p <| rcv_wnd := TCP_WND_MAX |>
                 else p <| rcv_wnd := rcv_wnd' |>) ;;;
  let* wnd_inflation := tcp_update_rcv_ann_wnd in
  when (TCP_WND_UPDATE_THRESHOLD <=? wnd_inflation) (tcp_ack_now ;;; let* _ := tcp_output in ret tt).

(** "correct rcv_wnd as the application won't call tcp_recved() for the FIN's seqno". *)
Definition fin_wnd : TM unit :=
  modp (fun p => if negb (rcv_wnd p =? TCP_WND_MAX) then p <| rcv_wnd := u16_t (rcv_wnd p + 1) |> else p).

Section Input.
Context (cb : tcp_callbacks).

Definition tcp_process_refused_data : TM Z :=
  let* p := gets st_pcb in
  let data := refused_data p in
  let refused_flags := refused_fin p in
  modp (fun p => p <| refused_data := [] |> <| refused_fin := false |>) ;;;
  let* err := TCP_EVENT_RECV cb data in
  if err =? ERR_OK then
    if (refused_flags : bool) then
      deref ;;; fin_wnd ;;;
      let* err := TCP_EVENT_CLOSED cb in
      if err =? ERR_ABRT then ret ERR_ABRT else ret ERR_OK
    else ret ERR_OK
  else if err =? ERR_ABRT then ret ERR_ABRT
  else
    deref ;;;
    modp (fun p => p <| refused_data := data |> <| refused_fin := refused_flags |>) ;;;
    ret ERR_INPROGRESS.

(** [true]: the control block has been deallocated. *)
Definition tcp_input_delayed_close : TM bool :=
  let* f := gets recv_flags in
  if has f TF_CLOSED then
    deref ;;;
    let* pf := getp flags in
    when (negb (has pf TF_RXCLOSED)) (TCP_EVENT_ERR cb ERR_CLSD) ;;;
    tcp_pcb_remove false ;;;
    tcp_free ;;;
    ret true
  else ret false.

(** The three notifications of [tcp_input]; [ERR_ABRT] stands for [goto aborted]. *)
Definition input_sent : TM Z :=
  let* ra := gets recv_acked in
  if 0 <? ra then
    let* err := TCP_EVENT_SENT cb ra in
    if err =? ERR_ABRT then ret ERR_ABRT
    else modify (fun s => s <| recv_acked := 0 |>) ;;; ret ERR_OK
  else ret ERR_OK.

Definition input_recv : TM Z :=
  let* data := gets recv_data in
  match data with
  | [] => ret ERR_OK
  | _ =>
      deref ;;;
      let* p := gets st_pcb in
      lwip_assert "pcb->refused_data == NULL" (match refused_data p with [] => true | _ => false end) ;;;
      if has (flags p) TF_RXCLOSED then tcp_abort cb ;;; ret ERR_ABRT
      else
        let* err := TCP_EVENT_RECV cb data in
        if err =? ERR_ABRT then ret ERR_ABRT
        else
          when (negb (err =? ERR_OK)) (deref ;;; modp (fun p => p <| refused_data := data |> <| refused_fin := false |>)) ;;;
          ret ERR_OK
  end.

Definition input_closed : TM Z :=
  let* f := gets recv_flags in
  if has f TF_GOT_FIN then
    deref ;;;
    let* p := gets st_pcb in
    match refused_data p with
    | [] =>
        fin_wnd ;;;
        let* err := TCP_EVENT_CLOSED cb in
        if err =? ERR_ABRT then ret ERR_ABRT else ret ERR_OK
    | _ => modp (fun p => p <| refused_fin := true |>) ;;; ret ERR_OK
    end
  else ret ERR_OK.

(** After [tcp_process], the connection being alive: notify the application, close if
    asked for, send what can be sent. *)
Definition input_notify : TM unit :=
  let* e := input_sent in
  if e =? ERR_ABRT then ret tt else
  let* closed := tcp_input_delayed_close in
  if (closed : bool) then ret tt else
  let* e := input_recv in
  if e =? ERR_ABRT then ret tt else
  let* e := input_closed in
  if e =? ERR_ABRT then ret tt else
  modify (fun s => s <| tcp_input_pcb := 0 |>) ;;;
  let* closed := tcp_input_delayed_close in
  if (closed : bool) then ret tt else
  deref ;;; let* _ := tcp_output in ret tt.

(** "Set up a tcp_seg structure". *)
Definition input_setup (p : pkt) (s : tcp_st) : tcp_st :=
  s <| inseg := mkSeg (seqno s) (in_flags s) (u16_t (zlen (pkt_bytes p))) p 0 0 0 false |>
    <| recv_data := [] |> <| recv_flags := 0 |> <| recv_acked := 0 |>.

(** "If there is data which was previously refused by upper layer": whether the segment is
    dropped for it. *)
Definition input_refused : TM bool :=
  let* rd := getp refused_data in
  match rd with
  | [] => ret false
  | _ =>
      let* e := tcp_process_refused_data in
      let* drop_it :=
        (if e =? ERR_ABRT then ret true
         else
           let* s := get in
           ret (match refused_data (st_pcb s) with [] => false | _ => true end && (0 <? tcplen s))) in
      if (drop_it : bool) then
        deref ;;;
        let* w := getp rcv_ann_wnd in
        when (w =? 0) (let* _ := tcp_send_empty_ack in ret tt) ;;;
        ret true
      else ret false
  end.

(** "The incoming segment belongs to a connection": from the set-up of [inseg] with the
    packet [p] to the label [aborted], and the check at the end. *)
Definition tcp_input_pcb_found (p : pkt) : TM unit :=
  modify (input_setup p) ;;;
  let* dropped := input_refused in
  when (negb dropped)
    (modify (fun s => s <| tcp_input_pcb := pcb_addr s |>) ;;;
     let* err := tcp_process cb in
     when (negb (err =? ERR_ABRT))
       (let* f := gets recv_flags in
        if has f TF_RESET then
          TCP_EVENT_ERR cb ERR_RST ;;; tcp_pcb_remove false ;;; tcp_free
        else input_notify)) ;;;
  modify (fun s => s <| tcp_input_pcb := 0 |> <| recv_data := [] |> <| inseg := inseg s <| seg_p := [] |> |>) ;;;
  tcp_pcbs_sane.
End Input.

(** "no PCB match found, resetting". *)
Definition tcp_input_no_pcb : TM unit :=
  let* s := get in
  when (negb (has (in_flags s) TCP_RST)) (tcp_rst (ackno s) (u32_t (seqno s + tcplen s)) (in_dest s) (in_src s)).
