(* ===== verification/TcpApp.v ===== *)
(** * A connection and its application

    [tcp_input] for a connection whose application keeps to the rules of the raw API
    ([ERR_ABRT] is answered exactly when the control block was aborted): the stack never
    touches a freed control block, keeps its invariants, and hands the application the
    byte stream of the peer in order, each byte accepted once, with one end-of-stream
    notification. *)

From S2P Require Import Prelude Def IpAddr Tcp TcpOut TcpIn TcpFacts TcpStream.
From S2P Require Import TcpOoseq TcpRecv TcpAck TcpReceive TcpOpt TcpOutput TcpSend TcpProcess.
From S2P Require Import TcpMachine TcpInput.

(** ** Removing a control block *)

Lemma wp_deref Q s : pcb_freed s = false -> Q tt s -> wp deref Q s.
Proof. intros H HQ. unfold deref. wp_step. wp_step. rewrite H. by wp_steps. Qed.

Lemma pcbs_assert_spec msg ok l s Q :
  Forall (fun a => exists st, pcb_state s a = Some st /\ ok st = true) l -> Q tt s -> wp (pcbs_assert msg ok l) Q s.
Proof.
  induction l as [|a l IH]; intros Hl HQ; cbn [pcbs_assert]; [by wp_steps|].
  apply Forall_cons in Hl as [(st & Hst & Hok) Hl]. wp_steps. rewrite Hst. wp_step. apply wp_assert; [done|]. auto.
Qed.
Lemma tcp_pcbs_sane_spec s Q : pcbs_ok s -> Q tt s -> wp tcp_pcbs_sane Q s.
Proof.
  intros [_ H1 H2] HQ. unfold tcp_pcbs_sane. wp_steps. apply pcbs_assert_spec; [done|].
  apply pcbs_assert_spec; [|done]. eapply Forall_impl; [exact H2|]. intros a Ha. by exists TIME_WAIT.
Qed.

(** What the application and the rest of the stack see of a step. *)
Definition outer_of (s : tcp_st) := (pcb_addr s, other_state s, events s, tcp_input_pcb s).

(** The control block is on none of the lists. *)
Definition unlisted (s : tcp_st) : Prop := (pcb_addr s ∉ tcp_active_pcbs s) /\ (pcb_addr s ∉ tcp_tw_pcbs s).

Lemma pcbs_ok_unlisted s s' : pcbs_ok s -> unlisted s -> tcp_active_pcbs s' = tcp_active_pcbs s ->
  tcp_tw_pcbs s' = tcp_tw_pcbs s -> pcb_addr s' = pcb_addr s -> other_state s' = other_state s -> pcbs_ok s'.
Proof.
  intros [H1 H2 H3] [U1 U2] E1 E2 E3 E4. rewrite Forall_forall in H2, H3.
  split; rewrite ?E1, ?E2, ?Forall_forall; [done|..]; intros a Ha; rewrite (pcb_state_other s s'); auto; by intros ->.
Qed.

(** Taking the control block off its list. *)
Lemma pcbs_ok_remove s s' tw : pcbs_ok s ->
  (if (tw : bool) then pcb_addr s ∈ tcp_tw_pcbs s else pcb_addr s ∈ tcp_active_pcbs s) ->
  tcp_active_pcbs s' = (if tw then tcp_active_pcbs s else TCP_RMV (tcp_active_pcbs s) (pcb_addr s)) ->
  tcp_tw_pcbs s' = (if tw then TCP_RMV (tcp_tw_pcbs s) (pcb_addr s) else tcp_tw_pcbs s) ->
  pcb_addr s' = pcb_addr s -> other_state s' = other_state s -> pcbs_ok s' /\ unlisted s'.
Proof.
  intros [H1 H2 H3] Hin E1 E2 E3 E4. pose proof H1 as (N1 & Nd & N2)%NoDup_app. rewrite Forall_forall in H2, H3.
  assert (Hu : (pcb_addr s ∉ tcp_active_pcbs s') /\ (pcb_addr s ∉ tcp_tw_pcbs s')).
  { rewrite E1, E2. destruct tw; split; intros Hx; rewrite ?TCP_RMV_in in Hx by done;
      try (by destruct Hx); by apply (Nd (pcb_addr s)). }
  assert (Hsub : (forall a, a ∈ tcp_active_pcbs s' -> a ∈ tcp_active_pcbs s) /\ (forall a, a ∈ tcp_tw_pcbs s' -> a ∈ tcp_tw_pcbs s)).
  { rewrite E1, E2. destruct tw; split; intros a Ha; rewrite ?TCP_RMV_in in Ha by done; tauto. }
  destruct Hu as [U1 U2], Hsub as [S1 S2]. split; [|by split; rewrite E3].
  split; rewrite ?Forall_forall.
  - apply NoDup_app. split_and!.
    + rewrite E1. destruct tw; [done|by apply TCP_RMV_nodup].
    + intros a Ha Ha'. by apply (Nd a); auto.
    + rewrite E2. destruct tw; [by apply TCP_RMV_nodup|done].
  - intros a Ha. rewrite (pcb_state_other s s'); auto. intros ->. done.
  - intros a Ha. rewrite (pcb_state_other s s'); auto. intros ->. done.
Qed.

Lemma purge_spec s : wp tcp_pcb_purge (fun _ s' => exists p', s' = s <| st_pcb := p' |> /\ state p' = state (st_pcb s) /\
  flags p' = flags (st_pcb s) /\
  (active_state (state (st_pcb s)) = true -> unsent p' = [] /\ unacked p' = [] /\ ooseq p' = []) /\
  (active_state (state (st_pcb s)) = false -> p' = st_pcb s)) s.
Proof.
  unfold tcp_pcb_purge, when. wp_steps.
  replace (negb _ && negb _ && negb _) with (active_state (state (st_pcb s))) by (by destruct (state (st_pcb s))).
  destruct (active_state _); wp_steps.
  - eexists. split; [reflexivity|]. by rec_simpl.
  - exists (st_pcb s). split_and!; try done. by destruct s.
Qed.

Lemma plains_nil q : plains q = [] -> q = [].
Proof. by destruct q. Qed.

Lemma outputs_empty B s s' : outputs B s s' -> unsent (st_pcb s) = [] -> unacked (st_pcb s) = [] ->
  unsent (st_pcb s') = [] /\ unacked (st_pcb s') = [] /\ ooseq (st_pcb s') = ooseq (st_pcb s) /\ state (st_pcb s') = state (st_pcb s).
Proof.
  intros [_ _ Hp _ Hc _ _ _] E1 E2. rewrite E1, E2 in Hp. symmetry in Hp. apply Permutation_nil, plains_nil in Hp.
  apply app_eq_nil in Hp as [-> ->]. unfold cc_of in Hc. injection Hc. intros. split_and!; congruence.
Qed.

(** The control block can be removed: it is listed where its state says, and in
    [TIME_WAIT] its queues are empty. *)
Record removable (tw : bool) (s : tcp_st) : Prop := Removable {
  rm_live : pcb_freed s = false;
  rm_pcbs : pcbs_ok s;
  rm_state : if tw then state (st_pcb s) = TIME_WAIT else active_state (state (st_pcb s)) = true;
  rm_list : if tw then pcb_addr s ∈ tcp_tw_pcbs s else pcb_addr s ∈ tcp_active_pcbs s;
  rm_empty : tw = true -> unsent (st_pcb s) = [] /\ unacked (st_pcb s) = [] /\ ooseq (st_pcb s) = []
}.

Lemma not_listen st : st <> LISTEN -> negb (state_is st LISTEN) = true.
Proof. by destruct st. Qed.

Lemma tcp_output_empty s : unsent (st_pcb s) = [] -> unacked (st_pcb s) = [] -> state (st_pcb s) <> LISTEN ->
  wp tcp_output (fun _ s' => unsent (st_pcb s') = [] /\ unacked (st_pcb s') = [] /\ ooseq (st_pcb s') = ooseq (st_pcb s) /\
    state (st_pcb s') = state (st_pcb s) /\ world_of s' = world_of s) s.
Proof.
  intros E1 E2 Hl. destruct (Z.eqb_spec (tcp_input_pcb s) (pcb_addr s)) as [E|Hne].
  - unfold tcp_output. wp_steps. apply wp_assert; [by apply not_listen|].
    rewrite E, Z.eqb_refl. by wp_steps.
  - eapply wp_conseq; [apply (tcp_output_spec 0); rewrite ?E1; done|]. intros r s' [HO _].
    destruct (outputs_empty 0 s s' HO E1 E2) as (O1 & O2 & O3 & O4). pose proof (op_same _ _ _ HO) as Hs.
    unfold io_of in Hs. assert (HW : world_of s' = world_of s) by congruence. by split_and!.
Qed.

Lemma tcp_pcb_remove_spec tw s : removable tw s ->
  wp (tcp_pcb_remove tw) (fun _ s' => pcb_freed s' = false /\ pcbs_ok s' /\ unlisted s' /\ outer_of s' = outer_of s /\
    state (st_pcb s') = CLOSED) s.
Proof.
  intros [Hl Hp Hst Hin He]. unfold tcp_pcb_remove. wp_step. apply wp_deref; [done|]. wp_step. wp_step.
  set (s1 := if tw then _ else _).
  assert (H1 : pcbs_ok s1 /\ unlisted s1 /\ st_pcb s1 = st_pcb s /\ pcb_freed s1 = false /\ outer_of s1 = outer_of s).
  { destruct (pcbs_ok_remove s s1 tw) as [A1 A2]; try done; subst s1; by destruct tw. }
  destruct H1 as (A1 & A2 & A3 & A4 & A5). clearbody s1.
  wp_step. eapply wp_conseq; [apply purge_spec|]. intros _ s2 (p2 & -> & B1 & B2 & B3 & B4). rewrite A3 in *.
  assert (C : unsent p2 = [] /\ unacked p2 = [] /\ ooseq p2 = []).
  { destruct tw; [|by apply B3]. rewrite B4 by (by rewrite Hst). by apply He. }
  destruct C as (C1 & C2 & C3). clear B3 B4. wp_steps.
  assert (Hnl : state p2 <> LISTEN) by (rewrite B1; destruct tw; [by rewrite Hst|by intros E; rewrite E in Hst]).
  apply (wp_conseq _ (fun _ s' => unsent (st_pcb s') = [] /\ unacked (st_pcb s') = [] /\ ooseq (st_pcb s') = [] /\
    state (st_pcb s') = state p2 /\ world_of s' = world_of s1)).
  { unfold when, tcp_ack_now, tcp_set_flags. destruct (_ && _ && _); cbv iota; wp_steps; [|done].
    eapply wp_conseq; [by apply tcp_output_empty|]. rec_simpl. rewrite C3. intros r s3 H. by wp_steps. }
  intros _ s3 (D1 & D2 & D3 & D4 & D5). wp_steps. rewrite D1, D2, D3, D4. unfold when.
  rewrite (not_listen _ Hnl). wp_steps.
  apply wp_bind, wp_assert; [done|]. apply wp_assert; [done|]. wp_steps.
  pose proof (world_of_eq _ _ D5) as (W1 & W2 & W3 & W4 & W5 & W6 & W7 & _).
  set (s4 := s3 <| st_pcb := _ |>).
  assert (Hok : pcbs_ok s4) by (by apply (pcbs_ok_unlisted s1)).
  apply tcp_pcbs_sane_spec; [done|]. subst s4. unfold unlisted, outer_of in *. rec_simpl.
  rewrite W1, W3, W4, W5, W6, W7. split_and!; try done; [congruence|apply A2..].
Qed.

(** ** What the application has been told *)

(** The bytes it accepted, and the number of end-of-stream notifications. *)
Definition accepted (l : list tcp_event) : list Z :=
  concat ((fun e => match e with EvRecv p r => if r =? ERR_OK then pkt_bytes p else [] | _ => [] end) <$> l).
Definition eofs (l : list tcp_event) : Z :=
  foldr (fun e n => match e with EvClosed => 1 + n | _ => n end) 0 l.
Definition stream_of (s : tcp_st) := (accepted (events s), eofs (events s)).

Lemma accepted_app l1 l2 : accepted (l1 ++ l2) = accepted l1 ++ accepted l2.
Proof. unfold accepted. by rewrite fmap_app, concat_app. Qed.
Lemma eofs_app l1 l2 : eofs (l1 ++ l2) = eofs l1 + eofs l2.
Proof. induction l1 as [|e l1 IH]; [done|]. simpl. unfold eofs in *. simpl. rewrite IH. destruct e; lia. Qed.

(** An event that is neither data accepted nor the end of the stream. *)
Definition quiet (e : tcp_event) : bool :=
  match e with EvRecv p r => negb (r =? ERR_OK) | EvClosed => false | _ => true end.
Lemma stream_quiet s s' e : quiet e = true -> events s' = events s ++ [e] -> stream_of s' = stream_of s.
Proof.
  intros Hq E. unfold stream_of. rewrite E, accepted_app, eofs_app.
  destruct e as [| |p r| | |]; try done; unfold accepted, eofs; simpl; rewrite ?app_nil_r, ?Z.add_0_r; try done.
  simpl in Hq. apply negb_true_iff in Hq. rewrite Hq. simpl. by rewrite app_nil_r.
Qed.

(** The control block is gone, the lists are in order; [t] is what was delivered. *)
Record aborted (t : list Z * Z) (s' : tcp_st) : Prop := Aborted {
  ab_freed : pcb_freed s' = true;
  ab_pcbs : pcbs_ok s';
  ab_stream : stream_of s' = t
}.

Lemma tcp_free_spec Q s : pcb_freed s = false -> state (st_pcb s) <> LISTEN -> Q tt (s <| pcb_freed := true |>) ->
  wp tcp_free Q s.
Proof.
  intros Hf Hl HQ. unfold tcp_free. wp_step. apply wp_deref; [done|]. wp_steps. apply wp_assert; [by apply not_listen|].
  by wp_steps.
Qed.

Lemma tcp_rst_frame a b c d s : wp (tcp_rst a b c d) (fun _ s' => exists l outs, s' = s <| oracle := l |> <| sent := outs |>) s.
Proof.
  unfold tcp_rst, tcp_output_alloc_header_common, tcp_output_control_segment. wp_steps.
  apply wp_ask_any. intros z l _. destruct (z =? 0); wp_steps; [|exists l, (sent s); by destruct s].
  apply wp_ask_any. intros z2 l2 _. destruct (z2 =? 0); wp_steps; [|exists l2, (sent s); by destruct s].
  apply wp_ask_any. intros z3 l3 _. wp_steps. rec_simpl. by eexists _, _.
Qed.

(** ** Aborting a connection *)

(** [errf] is told of the end of the connection and leaves the stack alone. *)
Definition err_ok (cb : tcp_callbacks) : Prop := forall e s, wp (cb_err cb e) (fun _ s' => s' = s) s.

Lemma removable_live tw s : removable tw s -> state_is (state (st_pcb s)) TIME_WAIT = tw /\
  state (st_pcb s) <> CLOSED /\ state (st_pcb s) <> LISTEN.
Proof. intros [_ _ Hst _ _]. destruct tw; [by rewrite Hst|]. by destruct (state (st_pcb s)). Qed.

Lemma outer_of_eq s s' : outer_of s' = outer_of s -> pcb_addr s' = pcb_addr s /\ other_state s' = other_state s /\
  events s' = events s /\ tcp_input_pcb s' = tcp_input_pcb s.
Proof. unfold outer_of. by intros [=]. Qed.

Lemma event_err_spec cb e s s0 : err_ok cb -> pcb_freed s = true -> pcbs_ok s -> events s = events s0 ->
  wp (TCP_EVENT_ERR cb e) (fun _ s' => aborted (stream_of s0) s') s.
Proof.
  intros Herr Hf [H1 H2 H3] He. unfold TCP_EVENT_ERR, event. wp_steps. eapply wp_conseq; [apply Herr|]. intros _ s' ->.
  split; [done|by split|]. apply (stream_quiet _ _ (EvErr e)); [done|]. rec_simpl. by rewrite He.
Qed.

Lemma tcp_abort_spec cb tw s : err_ok cb -> removable tw s -> wp (tcp_abort cb) (fun _ s' => aborted (stream_of s) s') s.
Proof.
  intros Herr Hr. destruct (removable_live _ _ Hr) as (Htw & Hc & Hnl). unfold tcp_abort, tcp_abandon. wp_step.
  apply wp_deref; [apply Hr|]. wp_steps. apply wp_assert; [by apply not_listen|]. wp_steps. rewrite Htw.
  replace (state_is (state (st_pcb s)) CLOSED) with false by (by destruct (state (st_pcb s))).
  destruct tw; [wp_step|wp_step; wp_step]; (eapply wp_conseq; [by apply tcp_pcb_remove_spec|]);
    intros _ s1 (F1 & P1 & U1 & (O1 & O2 & O3 & O4)%outer_of_eq & S1).
  - apply tcp_free_spec; [done|by rewrite S1|]. split; [done|by eapply pcbs_ok_unlisted|]. unfold stream_of. rec_simpl. by rewrite O3.
  - cbn [andb negb]. unfold when. wp_steps. eapply wp_conseq; [apply tcp_rst_frame|]. intros _ s2 (l & outs & ->).
    wp_step. apply tcp_free_spec; [done|rec_simpl; by rewrite S1|].
    apply event_err_spec; try done; rec_simpl. by eapply pcbs_ok_unlisted.
Qed.

(** ** The contract with the application *)

(** The segment in hand, and the refused data waiting for the application. *)
Definition in_hand (s : tcp_st) :=
  (hdr_of s, (inseg s, seqno s, tcplen s),
   (recv_data s, recv_flags s, recv_acked s), (pcb_addr s, tcp_input_pcb s)).
Definition waiting (s : tcp_st) := (refused_data (st_pcb s), refused_fin (st_pcb s)).

(** What the invariant of a connection depends on. *)
Definition conn_of (s : tcp_st) :=
  (st_pcb s, pcb_addr s, pcb_freed s, tcp_active_pcbs s, tcp_tw_pcbs s, other_state s).

Lemma pcbs_ok_ext s s' : pcbs_ok s -> pcb_addr s' = pcb_addr s -> pcb_freed s' = pcb_freed s ->
  tcp_active_pcbs s' = tcp_active_pcbs s -> tcp_tw_pcbs s' = tcp_tw_pcbs s -> other_state s' = other_state s ->
  state (st_pcb s') = state (st_pcb s) -> pcbs_ok s'.
Proof.
  intros [H1 H2 H3] E1 E2 E3 E4 E5 E6. assert (E : forall a, pcb_state s' a = pcb_state s a).
  { intros a. unfold pcb_state. by rewrite E1, E2, E5, E6. }
  split; rewrite ?E3, ?E4; [done|..]; (eapply Forall_impl; [done|]); intros a Ha; simpl in *; by rewrite E.
Qed.

Lemma oos_widen σ isn lo hi hi' q : hi <= hi' -> oos_ok σ isn lo hi q -> oos_ok σ isn lo hi' q.
Proof.
  intros Hh. revert lo. induction q as [|x q IH]; [done|]. intros lo (a & Ha & Hs & Hp & He & Ho).
  exists a. split_and!; try done; [lia|by apply IH].
Qed.

Section App.
Context (σ : list Z) (isn A : Z) (cb : tcp_callbacks).
Abbreviation conn_inv := (conn_inv σ isn A).

Lemma conn_inv_ext N W s s' : conn_inv N W s -> conn_of s' = conn_of s -> conn_inv N W s'.
Proof.
  intros [H1 H2 H3 H4 H5 H6 H7 H8 H9] E. unfold conn_of in E. injection E as E1 E2 E3 E4 E5 E6.
  split; rewrite ?E1, ?E2, ?E3, ?E4, ?E5; try done. apply (pcbs_ok_ext s); congruence.
Qed.

(** The connection goes on: the window has not shrunk, the segment in hand is as it
    was; [t] is what has been delivered. *)
Record continues (N W : Z) (t : list Z * Z) (s s' : tcp_st) : Prop := Continues {
  ct_inv : exists W', W <= W' /\ conn_inv N W' s';
  ct_hand : in_hand s' = in_hand s;
  ct_waiting : waiting s' = waiting s;
  ct_state : state (st_pcb s') = CLOSING \/ state (st_pcb s') = TIME_WAIT -> state (st_pcb s) = state (st_pcb s');
  ct_stream : stream_of s' = t
}.

(** The window is not 2^30 ahead of what the peer was told. *)
Definition near_edge (N : Z) : Prop := N + TCP_WND - A < 1073741824.

(** A callback runs operations of the stack that keep the invariant, and answers
    [ERR_ABRT] exactly when it has aborted the connection. *)
Definition answers (m : TM Z) : Prop := forall N W s, conn_inv N W s -> near_edge N ->
  wp m (fun r s' => if r =? ERR_ABRT then aborted (stream_of s) s' else continues N W (stream_of s) s s') s.
Record app_ok : Prop := AppOk {
  ap_recv : forall p, answers (cb_recv cb p);
  ap_closed : answers (cb_closed cb);
  ap_sent : forall n, answers (cb_sent cb n);
  ap_err : err_ok cb
}.

Lemma continues_trans N W W1 t t' s s1 s2 : continues N W t s s1 -> W <= W1 ->
  continues N W1 t' s1 s2 -> continues N W t' s s2.
Proof.
  intros [_ E1 E2 C1 _] HW [(W2 & L2 & I2) F1 F2 C2 H]. split; try congruence; auto.
  - exists W2. split; [lia|done].
  - intros Hst. specialize (C2 Hst). rewrite C1; [done|]. by rewrite C2.
Qed.
Lemma continues_refl N W s : conn_inv N W s -> continues N W (stream_of s) s s.
Proof. intros H. split; try done. by exists W. Qed.

(** A step that changes neither the connection nor what was delivered. *)
Lemma continues_ext N W t s s' s0 : continues N W t s0 s -> conn_of s' = conn_of s -> in_hand s' = in_hand s ->
  stream_of s' = stream_of s -> continues N W t s0 s'.
Proof.
  intros [(W' & HW & Hi) E1 E2 C1 H] Hc Hh Hs. unfold waiting in *.
  assert (Hp : st_pcb s' = st_pcb s) by (unfold conn_of in Hc; congruence).
  split; unfold waiting; rewrite ?Hp; try congruence; auto. exists W'. split; [done|]. by eapply conn_inv_ext.
Qed.

Lemma aborted_ext t s s' : aborted t s -> pcb_freed s' = true -> pcb_addr s' = pcb_addr s ->
  tcp_active_pcbs s' = tcp_active_pcbs s -> tcp_tw_pcbs s' = tcp_tw_pcbs s -> other_state s' = other_state s ->
  st_pcb s' = st_pcb s -> forall t', stream_of s' = t' -> aborted t' s'.
Proof.
  intros [Hf Hp _] E0 E1 E2 E3 E4 E5 t' Ht. split; try done. apply (pcbs_ok_ext s); congruence.
Qed.

(** ** The notifications *)

Definition told (d : list Z) (n : Z) (s : tcp_st) : list Z * Z :=
  (accepted (events s) ++ d, eofs (events s) + n).
Lemma told_none s : told [] 0 s = stream_of s.
Proof. unfold told, stream_of. by rewrite app_nil_r, Z.add_0_r. Qed.

Lemma event_sent_spec n N W s : app_ok -> conn_inv N W s -> near_edge N ->
  wp (TCP_EVENT_SENT cb n) (fun r s' => if r =? ERR_ABRT then aborted (stream_of s) s'
                                        else continues N W (stream_of s) s s') s.
Proof.
  intros Hok Hc Hn. unfold TCP_EVENT_SENT, event. wp_steps. set (s1 := s <| events := _ |>).
  assert (Hs : stream_of s1 = stream_of s) by (by apply (stream_quiet _ _ (EvSent n))). rewrite <- Hs.
  assert (Hc1 : conn_inv N W s1) by (by eapply conn_inv_ext).
  eapply wp_conseq; [by apply (ap_sent Hok)|]. intros r s2 H. cbv beta in H. destruct (r =? ERR_ABRT); [done|]. by destruct H; split.
Qed.

Lemma event_closed_spec N W s : app_ok -> conn_inv N W s -> near_edge N ->
  wp (TCP_EVENT_CLOSED cb) (fun r s' => if r =? ERR_ABRT then aborted (told [] 1 s) s'
                                        else continues N W (told [] 1 s) s s') s.
Proof.
  intros Hok Hc Hn. unfold TCP_EVENT_CLOSED, event. wp_steps. set (s1 := s <| events := _ |>).
  assert (Hs : stream_of s1 = told [] 1 s).
  { unfold stream_of, told, s1. rec_simpl. by rewrite accepted_app, eofs_app. }
  rewrite <- Hs. assert (Hc1 : conn_inv N W s1) by (by eapply conn_inv_ext).
  eapply wp_conseq; [by apply (ap_closed Hok)|]. intros r s2 H. cbv beta in H. destruct (r =? ERR_ABRT); [done|]. by destruct H; split.
Qed.

Lemma event_recv_spec p N W s : app_ok -> conn_inv N W s -> near_edge N ->
  wp (TCP_EVENT_RECV cb p) (fun r s' => if r =? ERR_ABRT then aborted (stream_of s) s'
    else continues N W (told (if r =? ERR_OK then pkt_bytes p else []) 0 s) s s') s.
Proof.
  intros Hok Hc Hn. unfold TCP_EVENT_RECV, event. wp_step. eapply wp_conseq; [by apply (ap_recv Hok)|].
  intros r s1 H. cbv beta in H. wp_steps. destruct (Z.eqb_spec r ERR_ABRT) as [->|Hr].
  - eapply aborted_ext; [exact H|..]; try done; [apply H|]. rewrite <- (ab_stream _ _ H).
    by apply (stream_quiet _ _ (EvRecv p ERR_ABRT)).
  - destruct H as [H1 H2 H3 H4 H5]. split; try done.
    + destruct H1 as (W' & HW & Hi). exists W'. split; [done|]. by eapply conn_inv_ext.
    + unfold stream_of, told in *. rec_simpl. rewrite accepted_app, eofs_app.
      injection H5 as -> ->. f_equal. f_equal. unfold accepted. simpl. destruct (r =? ERR_OK); by rewrite ?app_nil_r.
Qed.

(** The application has taken bytes: the window grows. *)
Lemma conn_inv_widen N W W' v s : conn_inv N W s -> W <= W' <= TCP_WND -> near_edge N -> 0 <= v <= W' ->
  conn_inv N W' (s <| st_pcb := st_pcb s <| rcv_wnd := W' |> <| rcv_ann_wnd := v |> |>).
Proof.
  intros [[[[Hnx Hw Hp Hr (E & HE & HE1 & HE2) Hm] Ha] Ho] H2 H3 H4 H5 H6 H7 H8 H9] HW Hn Hv. unfold near_edge, TCP_WND in *.
  split; try done; [|by eapply pcbs_ok_ext]. split; [split; [split|]|]; rec_simpl; try done; try (unfold TCP_WND; lia).
  - exists E. split; [done|lia].
  - by eapply oos_widen; [|exact Ho]; lia.
Qed.

Lemma fin_wnd_spec N W s : conn_inv N W s -> near_edge N ->
  wp fin_wnd (fun _ s' => continues N W (stream_of s) s s') s.
Proof.
  intros Hc Hn. unfold fin_wnd. wp_steps. pose proof (ci_rx _ _ _ _ _ _ Hc) as [[Hok Ha] _].
  rewrite (ok_wnd _ _ _ _ _ Hok). pose proof (ok_range _ _ _ _ _ Hok) as Hr. unfold TCP_WND_MAX.
  destruct (Z.eqb_spec W TCP_WND) as [->|Hne]; cbn [negb].
  - eapply continues_ext; [by apply continues_refl|..]; by destruct s.
  - assert (W + 1 <= TCP_WND) by lia. unfold TCP_WND in *. rewrite u16_t_id by lia. split; try done. exists (W + 1). split; [lia|].
    eapply conn_inv_ext; [apply (conn_inv_widen N W (W + 1) (rcv_ann_wnd (st_pcb s))); unfold TCP_WND; done || lia|].
    unfold conn_of. rec_simpl. by destruct s as [[]].
Qed.

(** ** Sending *)

Lemma conn_inv_tx N W s s' : conn_inv N W s ->
  Permutation (plains (unacked (st_pcb s') ++ unsent (st_pcb s'))) (plains (unacked (st_pcb s) ++ unsent (st_pcb s))) ->
  cc_of (st_pcb s') = cc_of (st_pcb s) -> edge_ok s s' -> io_of s' = io_of s -> conn_inv N W s'.
Proof.
  intros [H1 H2 H3 H4 H5 H6 H7 H8 H9] Hp Hc He Hs.
  assert (HW : world_of s' = world_of s) by (unfold io_of in Hs; congruence).
  pose proof (world_of_eq _ _ HW) as (W1 & W2 & W3 & W4 & W5 & _).
  assert (Hst : state (st_pcb s') = state (st_pcb s)) by (unfold cc_of in Hc; congruence).
  split; rewrite ?Hst, ?W1, ?W2, ?W3, ?W4; try done.
  - unfold cc_of, io_of in *. apply (rx_inv_edge σ isn A N W s s'); [done|unfold rx_of; congruence|congruence|exact He].
  - intros Hn. destruct (H2 Hn) as [Q1 Q2]. unfold qlen_ok. rewrite <- clens_app, (clens_plains _ _ Hp), clens_app.
    unfold cc_of in Hc. injection Hc. intros. split; congruence.
  - by apply (pcbs_ok_ext s).
  - intros Ht. destruct (H7 Ht) as (E1 & E2 & E3). rewrite E1, E2 in Hp. symmetry in Hp.
    apply Permutation_nil, plains_nil, app_eq_nil in Hp as [-> ->]. unfold cc_of in Hc. split_and!; congruence.
  - by eapply txseg_ok_plains.
Qed.
Lemma conn_inv_outputs N W s s' : conn_inv N W s -> outputs 0 s s' -> conn_inv N W s'.
Proof. intros H [_ _ Hp _ Hc _ He Hs]. by apply (conn_inv_tx N W s). Qed.

Lemma conn_inv_flags N W s p f : conn_inv N W (s <| st_pcb := p |>) -> conn_inv N W (s <| st_pcb := p <| flags := f |> |>).
Proof.
  intros [[[[H1 H2 H3 H4 H5 H6] H7] H8] H9 H10 H11 H12 H13 H14 H15 H16]. split; try done. by eapply pcbs_ok_ext.
Qed.

Lemma tcp_output_continues N W s : conn_inv N W s ->
  wp tcp_output (fun _ s' => continues N W (stream_of s) s s' /\ rcv_wnd (st_pcb s') = rcv_wnd (st_pcb s)) s.
Proof.
  intros Hc. assert (Hl : state (st_pcb s) <> LISTEN) by (intros E; pose proof (ci_sync _ _ _ _ _ _ Hc) as H; by rewrite E in H).
  destruct (Z.eqb_spec (tcp_input_pcb s) (pcb_addr s)) as [E|Hne].
  - unfold tcp_output. wp_steps. apply wp_assert; [by apply not_listen|].
    rewrite E, Z.eqb_refl. wp_steps. split; [by apply continues_refl|done].
  - pose proof (ci_send _ _ _ _ _ _ Hc) as Hse. apply Forall_app in Hse as [_ Hse].
    eapply wp_conseq; [by apply (tcp_output_spec 0)|]. intros r s' [HO _].
    pose proof (op_cc _ _ _ HO) as Hcc. pose proof (op_same _ _ _ HO) as Hs.
    unfold cc_of, io_of, world_of, in_hand, waiting, stream_of in *. split; [|congruence]. split; unfold in_hand, waiting, stream_of; try congruence.
    exists W. split; [lia|by eapply conn_inv_outputs].
Qed.

(** [tcp_recved]: the window is reopened by the bytes the application has taken. *)
Lemma tcp_recved_spec n N W s : 0 <= n < 65536 -> conn_inv N W s -> near_edge N ->
  wp (tcp_recved n) (fun _ s' => continues N W (stream_of s) s s' /\ rcv_wnd (st_pcb s') = Z.min (W + n) TCP_WND) s.
Proof.
  intros Hb Hc Hn. pose proof (ci_rx _ _ _ _ _ _ Hc) as [[Hok Ha] _]. pose proof (ok_range _ _ _ _ _ Hok) as Hr.
  pose proof (ok_wnd _ _ _ _ _ Hok) as Hw. set (W' := Z.min (W + n) TCP_WND).
  assert (HW : W <= W' <= TCP_WND) by (unfold TCP_WND in *; lia).
  pose proof (conn_inv_widen N W W' (rcv_ann_wnd (st_pcb s)) s Hc HW Hn ltac:(lia)) as Hc1.
  unfold tcp_recved. wp_step. apply wp_deref; [apply Hc|]. wp_steps. apply wp_assert.
  { apply not_listen. intros E. pose proof (ci_sync _ _ _ _ _ _ Hc) as H. by rewrite E in H. }
  wp_steps. rewrite Hw. set (p1 := if (TCP_WND_MAX <? _) || _ then _ else _).
  assert (E1 : p1 = st_pcb s <| rcv_wnd := W' |> <| rcv_ann_wnd := rcv_ann_wnd (st_pcb s) |>).
  { assert (Ec : (TCP_WND_MAX <? u16_t (W + n)) || (u16_t (W + n) <? W) = (TCP_WND <? W + n)).
    { unfold TCP_WND_MAX, TCP_WND, u16_t in *. destruct (Z.lt_ge_cases (W + n) 65536).
      - rewrite Z.mod_small by lia. bool_cases.
      - replace ((W + n) mod 65536) with (W + n - 65536) by dlia. bool_cases. }
    subst p1. rewrite Ec. subst W'. unfold TCP_WND_MAX. destruct (Z.ltb_spec TCP_WND (W + n)).
    - rewrite Z.min_r by lia. by destruct (st_pcb s).
    - unfold TCP_WND in *. rewrite Z.min_l, u16_t_id by lia. by destruct (st_pcb s). }
  rewrite E1. clear p1 E1. set (s1 := s <| st_pcb := _ |>). pose proof (ci_rx _ _ _ _ _ _ Hc1) as [[Hok1 _] _].
  eapply wp_conseq; [by apply (tcp_update_rcv_ann_wnd_spec isn A N W')|]. intros infl s2 (v & Hv & ->).
  assert (C : forall f, continues N W (stream_of s) s (s <| st_pcb := st_pcb s <| rcv_wnd := W' |> <| rcv_ann_wnd := v |> <| flags := f |> |>)).
  { intros f. split; try done. exists W'. split; [lia|]. by apply conn_inv_flags, (conn_inv_widen N W). }
  unfold when, tcp_ack_now, tcp_set_flags. destruct (_ <=? _); wp_steps; subst s1; rec_simpl.
  - eapply wp_conseq; [apply (tcp_output_continues N W'); by apply conn_inv_flags, (conn_inv_widen N W)|].
    rec_simpl. intros r s3 [H Hw3]. wp_steps. split; [|done]. eapply continues_trans; [apply (C (Z.lor (flags (st_pcb s)) TF_ACK_NOW))|apply HW|exact H].
  - split; [|done]. specialize (C (flags (st_pcb s))). eapply continues_ext; [exact C|..]; unfold conn_of; rec_simpl; try done.
Qed.

(** The acknowledgement of a zero-window probe. *)
Lemma send_empty_ack_continues N W s : conn_inv N W s ->
  wp tcp_send_empty_ack (fun _ s' => continues N W (stream_of s) s s') s.
Proof.
  intros Hc. pose proof (ci_send _ _ _ _ _ _ Hc) as Hse. apply Forall_app in Hse as [_ Hse].
  eapply wp_conseq; [apply tcp_send_empty_ack_out|].
  intros r s' (p' & l & outs & (S1 & S2 & S3 & _ & _ & _ & S7) & -> & Ho & _). set (s' := _ <| sent := _ |>).
  assert (HO : outputs 0 s s') by (by apply (outputs_quiet 0 s s' outs)).
  unfold cc_of in S3. split; try done; unfold waiting; subst s'; rec_simpl; [|congruence..].
  exists W. split; [lia|by eapply conn_inv_outputs].
Qed.
End App.
