(* ===== verification/TcpReset.v ===== *)
(** * The end of a connection by a reset

    What [tcp_input] does with a segment that carries RST, from the control block it
    belongs to to the notification of the application. *)

From S2P Require Import Prelude Def IpAddr Tcp TcpOut TcpIn TcpFacts TcpStream.
From S2P Require Import TcpOoseq TcpRecv TcpAck TcpReceive TcpOpt TcpOutput TcpSend TcpProcess.
From S2P Require Import TcpMachine TcpInput TcpApp.

(** ** Where the number of the reset lies *)

(** How far the segment is ahead of the next number expected, modulo 2^32. *)
Definition ahead (s : tcp_st) : Z := (seqno s - rcv_nxt (st_pcb s)) mod 4294967296.

(** The reset ends the connection: it has the very number that is expected, or, before
    anything is expected, it acknowledges our SYN. *)
Definition reset_due (s : tcp_st) : Prop :=
  (state (st_pcb s) = SYN_SENT /\ ackno s = snd_nxt (st_pcb s)) \/ (state (st_pcb s) <> SYN_SENT /\ ahead s = 0).

(** It is inside the window, or just behind it, but not the one expected. *)
Definition challenged (s : tcp_st) : Prop :=
  state (st_pcb s) <> SYN_SENT /\ 0 < ahead s <= rcv_wnd (st_pcb s).

(** The numbers are 32-bit numbers and the window is less than half of their space. *)
Record numbers_ok (s : tcp_st) : Prop := NumbersOk {
  no_seqno : 0 <= seqno s < 4294967296;
  no_nxt : 0 <= rcv_nxt (st_pcb s) < 4294967296;
  no_wnd : 0 <= rcv_wnd (st_pcb s) < 2147483648
}.

Lemma between_ahead a b w : 0 <= a < 4294967296 -> 0 <= b < 4294967296 -> 0 <= w < 2147483648 ->
  TCP_SEQ_BETWEEN a b (b + w) = ((a - b) mod 4294967296 <=? w).
Proof.
  intros Ha Hb Hw. unfold TCP_SEQ_BETWEEN, TCP_SEQ_GEQ, TCP_SEQ_LEQ. apply eq_true_iff_eq.
  rewrite andb_true_iff, !Z.leb_le. unfold s32_t, u32_t. repeat case_match; dlia.
Qed.

Lemma state_eqb s : state_is (state (st_pcb s)) SYN_SENT = true <-> state (st_pcb s) = SYN_SENT.
Proof. by destruct (state (st_pcb s)). Qed.

Lemma reset_due_acceptable s : numbers_ok s -> rst_acceptable s = true <-> reset_due s.
Proof.
  intros [H1 H2 _]. unfold rst_acceptable, reset_due, ahead. pose proof (state_eqb s) as He.
  destruct (state_is _ _); rewrite Z.eqb_eq; destruct He as [He1 He2].
  - specialize (He1 eq_refl). split; [by left|]. intros [[_ H]|[H _]]; done.
  - assert (Hne : state (st_pcb s) <> SYN_SENT) by (intros H; by apply He2 in H). split.
    + intros ->. right. split; [done|]. by rewrite Z.sub_diag.
    + intros [[H _]|[_ H]]; [done|]. dlia.
Qed.

(** The answer of [tcp_process], with the distance. *)
Lemma rst_outcome_ahead s : numbers_ok s ->
  (reset_due s -> rst_acceptable s = true /\ rst_outcome s =
     s <| recv_flags := Z.lor (recv_flags s) TF_RESET |> <| st_pcb := st_pcb s <| flags := clear_bits (flags (st_pcb s)) TF_ACK_DELAY |> |>) /\
  (~ reset_due s -> rst_acceptable s = false /\
     (challenged s -> rst_outcome s = s <| st_pcb := st_pcb s <| flags := Z.lor (flags (st_pcb s)) TF_ACK_NOW |> |>) /\
     (~ challenged s -> rst_outcome s = s)).
Proof.
  intros Hn. pose proof (reset_due_acceptable s Hn) as Ha. pose proof Hn as [H1 H2 H3]. unfold rst_outcome.
  rewrite between_ahead by done. fold (ahead s). pose proof (state_eqb s) as He. split; intros Hd.
  { apply Ha in Hd. by rewrite Hd. }
  assert (Hf : rst_acceptable s = false) by (destruct (rst_acceptable s); [by destruct Hd; apply Ha|done]).
  rewrite Hf. split; [done|]. unfold challenged. split.
  - intros [Hs Hw]. destruct (state_is _ _); [by destruct Hs; apply He|]. cbn [negb andb]. by rewrite (proj2 (Z.leb_le _ _)) by lia.
  - intros Hc. destruct (state_is _ _) eqn:Es; [done|]. cbn [negb andb]. destruct (Z.leb_spec (ahead s) (rcv_wnd (st_pcb s))); [|done].
    assert (Hne : state (st_pcb s) <> SYN_SENT) by (intros H'; by apply He in H'). assert (0 <= ahead s) by (unfold ahead; dlia).
    destruct (decide (ahead s = 0)); [destruct Hd; right; done|]. destruct Hc. split; [done|lia].
Qed.

(** ** Taking the connection down *)

Record torn_down (s s' : tcp_st) : Prop := TornDown {
  td_freed : pcb_freed s' = true;
  td_active : tcp_active_pcbs s' = TCP_RMV (tcp_active_pcbs s) (pcb_addr s);
  td_tw : tcp_tw_pcbs s' = tcp_tw_pcbs s;
  td_pcbs : pcbs_ok s' /\ unlisted s';
  td_told : events s' = events s ++ [EvErr ERR_RST];
  td_sent : sent s' = sent s
}.

(** Without a delayed acknowledgement nothing is sent. *)
Lemma tcp_pcb_remove_silent s : removable false s -> has (flags (st_pcb s)) TF_ACK_DELAY = false ->
  wp (tcp_pcb_remove false) (fun _ s' => (exists p', state p' = CLOSED /\
    s' = s <| tcp_active_pcbs := TCP_RMV (tcp_active_pcbs s) (pcb_addr s) |> <| st_pcb := p' |>) /\ pcbs_ok s' /\ unlisted s') s.
Proof.
  intros [Hl Hp Hst Hin _] Hf. unfold tcp_pcb_remove. wp_step. apply wp_deref; [done|]. wp_steps.
  set (s1 := s <| tcp_active_pcbs := _ |>).
  destruct (pcbs_ok_remove s s1 false) as [A1 A2]; try done.
  eapply wp_conseq; [apply purge_spec|]. intros _ s2 (p2 & -> & B1 & B2 & B3 & _). specialize (B3 Hst). destruct B3 as (C1 & C2 & C3).
  change (flags (st_pcb s1)) with (flags (st_pcb s)) in B2. change (state (st_pcb s1)) with (state (st_pcb s)) in B1. wp_steps.
  rewrite B2, Hf, andb_false_r. unfold when. wp_steps. rewrite C1, C2, C3.
  assert (Hnl : negb (state_is (state p2) LISTEN) = true) by (apply not_listen; rewrite B1; by destruct (state (st_pcb s))).
  rewrite Hnl. wp_step. apply wp_assert; [done|]. wp_step. apply wp_assert; [done|]. apply wp_assert; [done|]. wp_steps.
  apply tcp_pcbs_sane_spec; [by eapply (pcbs_ok_unlisted s1)|]. split; [by eexists; split; [|reflexivity]|].
  split; [by eapply (pcbs_ok_unlisted s1)|done].
Qed.

Lemma clear_delay f : has (clear_bits f TF_ACK_DELAY) TF_ACK_DELAY = false.
Proof.
  unfold has, clear_bits. rewrite negb_false_iff, Z.eqb_eq. apply Z.bits_inj'. intros i Hi.
  rewrite Z.land_spec, Z.ldiff_spec, Z.bits_0. by destruct (Z.testbit f i), (Z.testbit TF_ACK_DELAY i).
Qed.

(** ** Living on *)

(** The connection is as it was, but for what [tcp_output] has sent. *)
Record lives_on (s s' : tcp_st) : Prop := LivesOn {
  lo_cc : cc_of (st_pcb s') = cc_of (st_pcb s);
  lo_queues : Permutation (plains (unacked (st_pcb s') ++ unsent (st_pcb s'))) (plains (unacked (st_pcb s) ++ unsent (st_pcb s)));
  lo_live : pcb_freed s' = false;
  lo_lists : tcp_active_pcbs s' = tcp_active_pcbs s /\ tcp_tw_pcbs s' = tcp_tw_pcbs s;
  lo_told : events s' = events s;
  lo_sent : exists outs, sent s' = sent s ++ outs /\ Forall (fun o => pure_ack (st_pcb s) o \/
    in_window (lastack (st_pcb s)) (Z.min (snd_wnd (st_pcb s)) (cwnd (st_pcb s))) o /\ sends (unsent (st_pcb s)) o) outs
}.

(** With nothing to send, [tcp_output] sends the acknowledgement asked for, or nothing. *)
Lemma tcp_output_acks s : unsent (st_pcb s) = [] -> state (st_pcb s) <> LISTEN -> tcp_input_pcb s <> pcb_addr s ->
  wp tcp_output (fun _ s' =>
    (has (flags (st_pcb s)) TF_ACK_NOW = false -> sent s' = sent s) /\
    (has (flags (st_pcb s)) TF_ACK_NOW = true -> oracle s = [] -> exists o, sent s' = sent s ++ [o] /\ pure_ack (st_pcb s) o)) s.
Proof.
  intros Hu Hl Hne. unfold tcp_output. wp_steps. apply wp_assert; [by apply not_listen|].
  rewrite (proj2 (Z.eqb_neq _ _) Hne). unfold tcp_output_queued. wp_steps. rewrite Hu.
  destruct (has (flags (st_pcb s)) TF_ACK_NOW).
  - eapply wp_conseq; [apply tcp_send_empty_ack_out|]. intros r s' (p' & l & outs & _ & -> & Ho & Hr). rec_simpl.
    split; [done|]. intros _ H. destruct (Hr H) as (_ & _ & Hl1). destruct outs as [|o [|]]; try done.
    exists o. split; [done|]. by apply Forall_cons in Ho as [].
  - unfold output_done, tcp_clear_flags. by wp_steps.
Qed.

(** ** The whole of [tcp_input] *)

Section Reset.
Context (cb : tcp_callbacks).

(** What is asked of the connection. *)
Record resettable (s : tcp_st) : Prop := Resettable {
  rs_removable : removable false s;
  rs_refused : refused_data (st_pcb s) = [];
  rs_segs : Forall txseg_ok (unsent (st_pcb s));
  rs_addr : pcb_addr s <> 0;
  rs_numbers : numbers_ok s
}.

(** The variables of [tcp_input] do not matter. *)
Definition at_process (p : pkt) (s : tcp_st) : tcp_st := input_setup p s <| tcp_input_pcb := pcb_addr s |>.

Lemma input_to_process p Q s : refused_data (st_pcb s) = [] ->
  wp (let* err := tcp_process cb in
      when (negb (err =? ERR_ABRT))
        (let* f := gets recv_flags in
         if has f TF_RESET then TCP_EVENT_ERR cb ERR_RST ;;; tcp_pcb_remove false ;;; tcp_free else input_notify cb))
    (fun _ s1 => wp (modify (fun s => s <| tcp_input_pcb := 0 |> <| recv_data := [] |> <| inseg := inseg s <| seg_p := [] |> |>) ;;;
                     tcp_pcbs_sane) Q s1) (at_process p s) ->
  wp (tcp_input_pcb_found cb p) Q s.
Proof.
  intros Hr H. unfold tcp_input_pcb_found. wp_step. wp_step. wp_step.
  assert (Hir : forall Q', Q' false (input_setup p s) -> wp (input_refused cb) Q' (input_setup p s)).
  { intros Q' HQ. unfold input_refused. wp_step. wp_step. assert (E : refused_data (st_pcb (input_setup p s)) = []) by exact Hr.
    rewrite E. by wp_step. }
  apply Hir. unfold when at 1. cbn [negb]. cbv iota. wp_step. wp_step. wp_step.
  assert (E : pcb_addr (input_setup p s) = pcb_addr s) by done. rewrite E. exact H.
Qed.

(** The connection is reset. *)
Lemma input_torn_down s s1 : err_ok cb -> resettable s -> s1 = s <| recv_flags := recv_flags s1 |> <| st_pcb := st_pcb s1 |> ->
  st_pcb s1 = st_pcb s <| flags := clear_bits (flags (st_pcb s)) TF_ACK_DELAY |> ->
  wp (TCP_EVENT_ERR cb ERR_RST ;;; tcp_pcb_remove false ;;; tcp_free) (fun _ s' => torn_down s s') s1.
Proof.
  intros Herr [[R1 R2 R3 R4 _] Hrd Hok Ha Hn] E1 E2. unfold TCP_EVENT_ERR, event. wp_step. wp_step. wp_step.
  eapply wp_conseq; [apply Herr|]. intros _ s2 ->. cbv beta. wp_step.
  set (s2 := s1 <| events := _ |>).
  assert (Hs2 : pcb_freed s2 = pcb_freed s /\ pcb_addr s2 = pcb_addr s /\ tcp_active_pcbs s2 = tcp_active_pcbs s /\
    tcp_tw_pcbs s2 = tcp_tw_pcbs s /\ other_state s2 = other_state s /\ st_pcb s2 = st_pcb s1 /\
    events s2 = events s ++ [EvErr ERR_RST] /\ sent s2 = sent s) by (subst s2; rec_simpl; rewrite E1; by split_and!).
  destruct Hs2 as (F1 & F2 & F3 & F4 & F5 & F6 & F7 & F8). clearbody s2.
  assert (Hrm : removable false s2).
  { split; [by rewrite F1| |rewrite F6, E2; exact R3|by rewrite F2, F3|done].
    eapply pcbs_ok_ext; [exact R2|done..|]. by rewrite F6, E2. }
  eapply wp_conseq; [apply tcp_pcb_remove_silent; [done|rewrite F6, E2; apply clear_delay]|].
  intros _ s3 ((p' & Hp' & ->) & Hok3 & Hun). cbv beta. rec_simpl. apply tcp_free_spec; rec_simpl; [congruence|congruence|].
  split; rec_simpl; try done; [by rewrite F3, F2|]. split; [|done]. by eapply pcbs_ok_unlisted.
Qed.

#[local] Ltac quiet_steps :=
  repeat (change (0 <? 0) with false || change (ERR_OK =? ERR_ABRT) with false ||
          change (has 0 TF_CLOSED) with false || change (has 0 TF_GOT_FIN) with false; cbv iota; wp_steps).

(** The connection stays: nothing to report, and [tcp_output] runs. *)
Lemma input_notify_quiet Q s : recv_flags s = 0 -> recv_acked s = 0 -> recv_data s = [] -> pcb_freed s = false ->
  wp tcp_output (fun _ s' => Q tt s') (s <| tcp_input_pcb := 0 |>) -> wp (input_notify cb) Q s.
Proof.
  intros H1 H2 H3 H4 H. unfold input_notify, input_sent, input_recv, input_closed, tcp_input_delayed_close.
  wp_steps. rewrite H2. quiet_steps. rewrite H1. quiet_steps. rewrite H3. quiet_steps. rewrite H1. quiet_steps. rewrite H1.
  quiet_steps. apply wp_deref; [done|]. wp_step. eapply wp_conseq; [exact H|]. intros r s' H'. by wp_step.
Qed.
Lemma challenged_or s : challenged s \/ ~ challenged s.
Proof.
  unfold challenged. pose proof (state_eqb s) as He. destruct (state_is _ _); [right; intros [H _]; by destruct H; apply He|].
  assert (Hne : state (st_pcb s) <> SYN_SENT) by (intros H; by apply He in H). destruct (decide (0 < ahead s <= rcv_wnd (st_pcb s))) as [H|H]; [by left|].
  right. intros [_ ?]. done.
Qed.

(** The two outcomes. *)
Definition spared (s s' : tcp_st) : Prop :=
  lives_on s s' /\
  (unsent (st_pcb s) = [] -> challenged s -> oracle s = [] -> exists o, sent s' = sent s ++ [o] /\ pure_ack (st_pcb s) o) /\
  (unsent (st_pcb s) = [] -> ~ challenged s -> has (flags (st_pcb s)) TF_ACK_NOW = false -> sent s' = sent s).

(** [s1] is the state behind [tcp_process]. *)
Lemma input_spared p s s1 f : resettable s -> s1 = at_process p s <| st_pcb := st_pcb s <| flags := f |> |> ->
  (challenged s -> has f TF_ACK_NOW = true) -> (~ challenged s -> f = flags (st_pcb s)) ->
  wp (input_notify cb) (fun _ s' => pcb_addr s' = pcb_addr s /\ other_state s' = other_state s /\ spared s s') s1.
Proof.
  intros [[R1 R2 R3 R4 _] Hrd Hok Ha Hn] -> Hc Hnc. apply input_notify_quiet; [done|done|done|exact R1|].
  set (s2 := at_process p s <| st_pcb := _ |> <| tcp_input_pcb := 0 |>).
  assert (Hl : state (st_pcb s2) <> LISTEN) by (change (state (st_pcb s) <> LISTEN); by destruct (state (st_pcb s))).
  assert (Hne : tcp_input_pcb s2 <> pcb_addr s2) by (change (0 <> pcb_addr s); congruence).
  apply (wp_conseq _ (fun r s' => outputs 0 s2 s' /\ (unsent (st_pcb s) = [] ->
    (has f TF_ACK_NOW = false -> sent s' = sent s) /\
    (has f TF_ACK_NOW = true -> oracle s = [] -> exists o, sent s' = sent s ++ [o] /\ pure_ack (st_pcb s) o)))).
  - pose proof (tcp_output_spec 0 s2 Hok Hl Hne) as H. destruct (decide (unsent (st_pcb s) = [])) as [E|E].
    + pose proof (tcp_output_acks s2 E Hl Hne) as H2. unfold wp in *. destruct (tcp_output s2) as [[r s']|]; [|done].
      split; [apply H|]. intros _. exact H2.
    + eapply wp_conseq; [exact H|]. intros r s' [H' _]. by split.
  - intros r s' ([_ _ O3 _ O5 O6 _ O8] & Hs). unfold io_of, world_of in O8. injection O8. intros. split; [done|]. split; [done|].
    split; [split; try done; congruence|]. split; intros Hu Hch Hx; destruct (Hs Hu) as [Hs1 Hs2]; [by apply Hs2; auto|].
    apply Hs1. by rewrite (Hnc Hch).
Qed.

Abbreviation cleanup :=
  (modify (fun s : tcp_st => s <| tcp_input_pcb := 0 |> <| recv_data := [] |> <| inseg := inseg s <| seg_p := [] |> |>) ;;; tcp_pcbs_sane).

Lemma cleanup_torn_down s sa s2 : pcb_addr sa = pcb_addr s -> tcp_active_pcbs sa = tcp_active_pcbs s -> tcp_tw_pcbs sa = tcp_tw_pcbs s ->
  events sa = events s -> sent sa = sent s -> torn_down sa s2 -> wp cleanup (fun _ s' => torn_down s s') s2.
Proof.
  intros E1 E2 E3 E4 E5 [T1 T2 T3 [T4 T4'] T5 T6]. wp_steps. apply tcp_pcbs_sane_spec; [by eapply pcbs_ok_unlisted|].
  split; rec_simpl; try congruence. split; [by eapply pcbs_ok_unlisted|done].
Qed.
Lemma cleanup_spared s s2 : removable false s -> pcb_addr s2 = pcb_addr s -> other_state s2 = other_state s -> spared s s2 ->
  wp cleanup (fun _ s' => spared s s') s2.
Proof.
  intros [R1 R2 _ _ _] E1 E2 ([L1 L2 L3 [L4 L4'] L5 L6] & Hs). wp_steps.
  assert (Est : state (st_pcb s2) = state (st_pcb s)) by (unfold cc_of in L1; congruence).
  apply tcp_pcbs_sane_spec; [eapply pcbs_ok_ext; [exact R2|..]; rec_simpl; congruence|]. split; [by split|exact Hs].
Qed.

Lemma resettable_at p s : resettable s -> resettable (at_process p s).
Proof.
  intros [[R1 R2 R3 R4 R5] H2 H3 H4 [N1 N2 N3]]. split; [split|..]; try done. by eapply pcbs_ok_ext.
Qed.

Lemma input_due p s : err_ok cb -> resettable s -> has (in_flags s) TCP_RST = true -> reset_due s ->
  wp (tcp_input_pcb_found cb p) (fun _ s' => torn_down s s') s.
Proof.
  intros Herr Hr Hf Hd. pose proof (resettable_at p s Hr) as Hr0. apply input_to_process; [apply Hr|].
  assert (Hcl : state (st_pcb s) <> CLOSED) by (apply (removable_live false), Hr).
  destruct (rst_outcome_ahead _ (rs_numbers _ Hr0)) as [Hdue _]. destruct (Hdue Hd) as [E1 E2].
  wp_step. eapply wp_conseq; [by apply (process_rst_spec cb (at_process p s))|]. intros err s1 [-> ->]. cbv beta.
  rewrite E1, E2. unfold when. change (negb (ERR_RST =? ERR_ABRT)) with true. cbv iota. wp_step. wp_step.
  change (has _ TF_RESET) with true. cbv iota. eapply wp_conseq; [by eapply (input_torn_down (at_process p s))|].
  intros [] s2 H. by apply (cleanup_torn_down s (at_process p s)).
Qed.

Lemma at_process_flags p s : at_process p s = at_process p s <| st_pcb := st_pcb s <| flags := flags (st_pcb s) |> |>.
Proof. unfold at_process, input_setup. rec_simpl. by destruct s as [[]]. Qed.

Lemma input_not_due p s : err_ok cb -> resettable s -> has (in_flags s) TCP_RST = true -> ~ reset_due s ->
  wp (tcp_input_pcb_found cb p) (fun _ s' => spared s s') s.
Proof.
  intros Herr Hr Hf Hd. pose proof (resettable_at p s Hr) as Hr0. apply input_to_process; [apply Hr|].
  assert (Hcl : state (st_pcb s) <> CLOSED) by (apply (removable_live false), Hr).
  destruct (rst_outcome_ahead _ (rs_numbers _ Hr0)) as [_ Hnot]. destruct (Hnot Hd) as (E1 & E2 & E3).
  wp_step. eapply wp_conseq; [by apply (process_rst_spec cb (at_process p s))|]. intros err s1 [-> ->]. cbv beta.
  rewrite E1. unfold when. change (negb (ERR_OK =? ERR_ABRT)) with true. cbv iota. wp_step. wp_step.
  assert (H : exists f, rst_outcome (at_process p s) = at_process p s <| st_pcb := st_pcb s <| flags := f |> |> /\
    (challenged s -> has f TF_ACK_NOW = true) /\ (~ challenged s -> f = flags (st_pcb s))).
  { destruct (challenged_or s) as [Hc|Hc].
    - exists (Z.lor (flags (st_pcb s)) TF_ACK_NOW). split; [by apply E2|]. split; [intros _|done]. by rewrite has_lor, orb_true_r.
    - exists (flags (st_pcb s)). rewrite (E3 Hc). split; [apply at_process_flags|done]. }
  destruct H as (f & -> & F1 & F2). change (has _ TF_RESET) with false. cbv iota.
  eapply wp_conseq; [by apply (input_spared p s _ f)|]. intros [] s2 (A1 & A2 & H). apply cleanup_spared; try done. apply Hr.
Qed.

Lemma reset_due_or s : numbers_ok s -> reset_due s \/ ~ reset_due s.
Proof. intros Hn. rewrite <- reset_due_acceptable by done. destruct (rst_acceptable s); [by left|by right]. Qed.

Lemma tcp_input_reset_spec p s : err_ok cb -> resettable s -> has (in_flags s) TCP_RST = true ->
  wp (tcp_input_pcb_found cb p) (fun _ s' => (reset_due s -> torn_down s s') /\ (~ reset_due s -> spared s s')) s.
Proof.
  intros Herr Hr Hf. destruct (reset_due_or s (rs_numbers _ Hr)) as [Hd|Hd].
  - eapply wp_conseq; [by apply input_due|]. intros ? s' H. by split.
  - eapply wp_conseq; [by apply input_not_due|]. intros ? s' H. by split.
Qed.
End Reset.
