(* ===== verification/TcpDeliver.v ===== *)
(** * From the wire to the application

    [tcp_input] hands the application the byte stream of its peer: every byte once, in
    order, the data it refused kept for the next segment, and the end of the stream after
    the last byte. *)

From S2P Require Import Prelude Def IpAddr Tcp TcpOut TcpIn TcpFacts TcpStream.
From S2P Require Import TcpOoseq TcpRecv TcpAck TcpReceive TcpOpt TcpOutput TcpSend TcpProcess.
From S2P Require Import TcpMachine TcpInput TcpApp.

Section Deliver.
Context (σ : list Z) (isn A : Z) (cb : tcp_callbacks).
Abbreviation conn_inv := (conn_inv σ isn A).
Abbreviation continues := (continues σ isn A).
Abbreviation app_ok := (app_ok σ isn A cb).
Abbreviation near_edge := (near_edge A).

(** ** The abstract specification *)

(** The end-of-stream notifications made, and the one kept with the refused data. *)
Definition eof_of (s : tcp_st) : Z * bool := (eofs (events s), refused_fin (st_pcb s)).
Definition eof_at (N : Z) (refused : pkt) : Z * bool :=
  if zlen σ <? N then match refused with [] => (1, false) | _ => (0, true) end else (0, false).

(** Between two segments, with [rcv_nxt] at position [N] of the stream: what the
    application accepted and what it refused last make up the first [N] bytes. *)
Record stream_inv (N W : Z) (s : tcp_st) : Prop := StreamInv {
  si_conn : conn_inv N W s;
  si_bytes : accepted (events s) ++ pkt_bytes (refused_data (st_pcb s)) = ztake N σ;
  si_eof : eof_of s = eof_at N (refused_data (st_pcb s))
}.

(** The connection is over: the application got a beginning of the stream, all of it if
    it was told of the end. *)
Record ended (s : tcp_st) : Prop := Ended {
  en_freed : pcb_freed s = true;
  en_pcbs : pcbs_ok s;
  en_bytes : accepted (events s) `prefix_of` σ;
  en_eof : eofs (events s) = 0 \/ eofs (events s) = 1 /\ accepted (events s) = σ
}.

(** While a segment is processed: [d] is what it lets the application have and has not
    been passed on, [closed] that the connection is to be closed. *)
Record pending (N W : Z) (closed : bool) (d : pkt) (s : tcp_st) : Prop := Pending {
  pe_conn : conn_inv N W s;
  pe_bytes : accepted (events s) ++ pkt_bytes (refused_data (st_pcb s)) ++ pkt_bytes d = ztake N σ;
  pe_data : d <> [] -> refused_data (st_pcb s) = [] /\ eofs (events s) = 0;
  pe_eof : if got_fin s then zlen σ < N /\ eof_of s = (0, false) else eof_of s = eof_at N (refused_data (st_pcb s));
  pe_closed : has (recv_flags s) TF_CLOSED = closed /\ (closed = true -> state (st_pcb s) <> TIME_WAIT)
}.

Lemma waiting_eq s s' : waiting s' = waiting s ->
  refused_data (st_pcb s') = refused_data (st_pcb s) /\ refused_fin (st_pcb s') = refused_fin (st_pcb s).
Proof. unfold waiting. by intros [=]. Qed.
Lemma stream_of_eq s s' : stream_of s' = stream_of s -> accepted (events s') = accepted (events s) /\ eofs (events s') = eofs (events s).
Proof. unfold stream_of. by intros [=]. Qed.
Lemma in_hand_eq s s' : in_hand s' = in_hand s -> hdr_of s' = hdr_of s /\ inseg s' = inseg s /\ seqno s' = seqno s /\
  tcplen s' = tcplen s /\ recv_data s' = recv_data s /\ recv_flags s' = recv_flags s /\ recv_acked s' = recv_acked s /\
  pcb_addr s' = pcb_addr s /\ tcp_input_pcb s' = tcp_input_pcb s.
Proof. unfold in_hand. intros H. split_and!; congruence. Qed.
Lemma in_hand_flags s s' : in_hand s' = in_hand s -> recv_flags s' = recv_flags s.
Proof. by intros (_ & _ & _ & _ & _ & H & _)%in_hand_eq. Qed.

Lemma stream_continues N W s s' : stream_inv N W s -> continues N W (stream_of s) s s' ->
  exists W', W <= W' /\ stream_inv N W' s'.
Proof.
  intros [H1 H2 H3] [(W' & HW & Hi) _ (E1 & E2)%waiting_eq _ (F1 & F2)%stream_of_eq].
  exists W'. split; [done|]. unfold eof_of in *. split; unfold eof_of; rewrite ?E1, ?E2, ?F1, ?F2; done.
Qed.
Lemma pending_continues N W c d s s' : pending N W c d s -> continues N W (stream_of s) s s' ->
  exists W', W <= W' /\ pending N W' c d s'.
Proof.
  intros [H1 H2 H3 H4 H5] [(W' & HW & Hi) H6%in_hand_flags (E1 & E2)%waiting_eq Hst (F1 & F2)%stream_of_eq].
  exists W'. split; [done|]. unfold eof_of, got_fin in *.
  split; unfold eof_of, got_fin; rewrite ?E1, ?E2, ?F1, ?F2, ?H6; try done. destruct H5 as [H5 H7]. split; [done|].
  intros Hc Ht. apply (H7 Hc). rewrite Hst; auto.
Qed.

(** What the application has got so far is a beginning of the stream. *)
Lemma pending_ended N W c d s s' : pending N W c d s -> aborted (stream_of s) s' -> ended s'.
Proof.
  intros [H1 H2 H3 H4 _] [Hf Hp (F1 & F2)%stream_of_eq]. pose proof (ci_rx _ _ _ _ _ _ H1) as [[[_ _ Hn _ _ _] _] _].
  split; try done; rewrite ?F1, ?F2.
  - exists (pkt_bytes (refused_data (st_pcb s)) ++ pkt_bytes d ++ zdrop N σ).
    rewrite <- (ztake_zdrop N σ) at 1. by rewrite <- H2, <- !app_assoc.
  - destruct d as [|x d].
    + destruct (got_fin s).
      * destruct H4 as [_ H4]. left. by injection H4.
      * unfold eof_of, eof_at in H4. destruct (Z.ltb_spec (zlen σ) N); [|left; by injection H4].
        destruct (refused_data (st_pcb s)); [right|left]; injection H4 as H4 _; [|done].
        split; [done|]. unfold pkt_bytes in H2. simpl in H2. rewrite !app_nil_r, ztake_all in H2 by lia. done.
    + left. by apply H3.
Qed.
Lemma stream_pending N W s : stream_inv N W s -> recv_flags s = 0 -> pending N W false [] s.
Proof.
  intros [H1 H2 H3] Hf. split; unfold got_fin; rewrite ?Hf; try done. unfold pkt_bytes at 2. simpl. by rewrite app_nil_r.
Qed.

(** ** Refused data *)

(** [recv] never aborts the connection: [tcp_input] still uses the control block after
    [tcp_process_refused_data] has reported [ERR_ABRT]. *)
Record never_aborts : Prop := NeverAborts {
  na_recv : forall p N W s, conn_inv N W s -> near_edge N -> wp (cb_recv cb p) (fun r _ => r <> ERR_ABRT) s;
  na_closed : forall N W s, conn_inv N W s -> near_edge N -> wp (cb_closed cb) (fun r _ => r <> ERR_ABRT) s
}.

Lemma wp_and {S B} (m : M S B) P Q s : wp m P s -> wp m Q s -> wp m (fun a s' => P a s' /\ Q a s') s.
Proof. unfold wp. destruct (m s) as [[a s']|f]; auto. Qed.

Lemma recv_goes_on p N W s : app_ok -> never_aborts -> conn_inv N W s -> near_edge N ->
  wp (TCP_EVENT_RECV cb p) (fun r s' => r <> ERR_ABRT /\
    continues N W (told (if r =? ERR_OK then pkt_bytes p else []) 0 s) s s') s.
Proof.
  intros Hok Hna Hc Hn. eapply wp_conseq.
  - apply wp_and; [by apply (event_recv_spec σ isn A)|]. instantiate (1 := fun r _ => r <> ERR_ABRT).
    unfold TCP_EVENT_RECV, event. wp_step. eapply wp_conseq; [by apply (na_recv Hna p N W)|]. intros r s1 Hr. by wp_steps.
  - intros r s' [H1 H2]. cbv beta in *. by rewrite (proj2 (Z.eqb_neq _ _) H2) in H1.
Qed.
Lemma closed_goes_on N W s : app_ok -> never_aborts -> conn_inv N W s -> near_edge N ->
  wp (TCP_EVENT_CLOSED cb) (fun r s' => r <> ERR_ABRT /\ continues N W (told [] 1 s) s s') s.
Proof.
  intros Hok Hna Hc Hn. eapply wp_conseq.
  - apply wp_and; [by apply (event_closed_spec σ isn A)|]. instantiate (1 := fun r _ => r <> ERR_ABRT).
    unfold TCP_EVENT_CLOSED, event. wp_steps. apply (na_closed Hna N W); [|done]. by eapply conn_inv_ext.
  - intros r s' [H1 H2]. cbv beta in *. by rewrite (proj2 (Z.eqb_neq _ _) H2) in H1.
Qed.

Lemma conn_inv_refused N W s d f : conn_inv N W s ->
  conn_inv N W (s <| st_pcb := st_pcb s <| refused_data := d |> <| refused_fin := f |> |>).
Proof.
  intros [[[[H1 H2 H3 H4 H5 H6] H7] H8] H9 H10 H11 H12 H13 H14 H15 H16]. split; try done. by eapply pcbs_ok_ext.
Qed.

(** The segment in hand is still to be processed. *)
Record resumes (N W : Z) (s s' : tcp_st) : Prop := Resumes {
  rs_inv : exists W', W <= W' /\ stream_inv N W' s';
  rs_hand : in_hand s' = in_hand s;
  rs_state : state (st_pcb s') = CLOSING \/ state (st_pcb s') = TIME_WAIT -> state (st_pcb s) = state (st_pcb s')
}.

Lemma tcp_process_refused_data_spec N W s : app_ok -> never_aborts -> stream_inv N W s -> near_edge N ->
  refused_data (st_pcb s) <> [] ->
  wp (tcp_process_refused_data cb) (fun r s' => r <> ERR_ABRT /\ resumes N W s s') s.
Proof.
  intros Hok Hna [H1 H2 H3] Hn Hd. unfold tcp_process_refused_data. wp_steps.
  pose proof (conn_inv_refused N W s [] false H1) as Hc. set (s1 := s <| st_pcb := _ |>) in *. fold s1.
  assert (Hf : eof_of s = (0, zlen σ <? N) /\ refused_fin (st_pcb s) = (zlen σ <? N)).
  { unfold eof_at in H3. destruct (refused_data (st_pcb s)); [done|]. unfold eof_of in *.
    destruct (zlen σ <? N); injection H3 as -> ->; done. }
  destruct Hf as [Hf Hrf]. injection Hf as He _. clear H3.
  eapply wp_conseq; [by apply (recv_goes_on _ N W)|].
  intros r s2 [Hr [(W2 & HW2 & Hi2) Hh2 (E1 & E2)%waiting_eq Hst2 Hs2]]. cbv beta.
  unfold told, stream_of in Hs2. destruct (Z.eqb_spec r ERR_OK) as [->|Hne].
  - injection Hs2 as F1 F2. rewrite Z.add_0_r in F2. rewrite Hrf. destruct (zlen σ <? N) eqn:Efin.
    + wp_step. apply wp_deref; [apply Hi2|]. wp_step.
      eapply wp_conseq; [by apply (fin_wnd_spec σ isn A N W2)|].
      intros _ s3 [(W3 & HW3 & Hi3) Hh3 (E3 & E4)%waiting_eq Hst3 (F3 & F4)%stream_of_eq]. cbv beta.
      wp_step. eapply wp_conseq; [by apply (closed_goes_on N W3)|].
      intros r3 s4 [Hr3 [(W4 & HW4 & Hi4) Hh4 (E5 & E6)%waiting_eq Hst4 Hs4]].
      rewrite (proj2 (Z.eqb_neq _ _) Hr3). wp_steps. split; [done|]. unfold told, stream_of in Hs4. injection Hs4 as F5 F6.
      split.
      * exists W4. split; [lia|]. split; [done|..]; unfold eof_of, eof_at; rewrite ?F5, ?F6, ?E5, ?E3, ?E1, ?E6, ?E4, ?E2, ?F3, ?F4, ?F1, ?F2.
        -- subst s1. rec_simpl. unfold pkt_bytes at 2. simpl. by rewrite !app_nil_r.
        -- rewrite Efin. subst s1. rec_simpl. by rewrite He.
      * by rewrite Hh4, Hh3, Hh2.
      * intros Hst. specialize (Hst4 Hst). rewrite <- Hst4 in Hst |- *. specialize (Hst3 Hst). rewrite <- Hst3 in Hst |- *. by apply Hst2.
    + wp_steps. split; [done|]. split; try done. exists W2. split; [done|]. split; [done|..]; unfold eof_of, eof_at; rewrite ?F1, ?F2, ?E1, ?E2.
      * subst s1. rec_simpl. unfold pkt_bytes at 2. simpl. by rewrite !app_nil_r.
      * rewrite Efin. subst s1. rec_simpl. by rewrite He.
  - rewrite (proj2 (Z.eqb_neq _ _) Hr). wp_step. apply wp_deref; [apply Hi2|]. wp_steps. split; [done|].
    rewrite app_nil_r, Z.add_0_r in Hs2. injection Hs2 as F1 F2. split; try done.
    exists W2. split; [done|]. split; [by apply conn_inv_refused|..]; unfold eof_of, eof_at; rec_simpl; rewrite ?F1, ?F2; [done|].
    rewrite Hrf. subst s1. rec_simpl. rewrite He. destruct (refused_data (st_pcb s)); [done|]. by destruct (zlen σ <? N).
Qed.

(** ** The notifications of a segment *)

Lemma state_is_false st st' : state_is st st' = false <-> st <> st'.
Proof. destruct st, st'; done. Qed.
Lemma conn_removable N W s : conn_inv N W s -> removable (state_is (state (st_pcb s)) TIME_WAIT) s.
Proof.
  intros [_ _ Q1 Q2 Q3 Q4 Q5 _ _]. split; try done.
  - unfold active_state. destruct (state (st_pcb s)); done.
  - intros Ht. apply Q5. by destruct (state (st_pcb s)).
Qed.

Lemma input_sent_spec N W c d s : app_ok -> pending N W c d s -> near_edge N ->
  wp (input_sent cb) (fun r s' => if r =? ERR_ABRT then ended s'
    else (exists W', W <= W' /\ pending N W' c d s') /\ recv_data s' = recv_data s) s.
Proof.
  intros Hok Hp Hn. unfold input_sent. wp_steps. destruct (0 <? recv_acked s); wp_steps; [|split; [by exists W|done]].
  eapply wp_conseq; [by apply (event_sent_spec σ isn A cb _ N W); [|apply (pe_conn _ _ _ _ _ Hp)|]|].
  intros r s1 H. cbv beta in H. destruct (r =? ERR_ABRT) eqn:Er; wp_steps.
  - by eapply pending_ended.
  - simpl. pose proof (ct_hand _ _ _ _ _ _ _ _ H) as Hh.
    destruct (pending_continues N W c d s s1 Hp H) as (W' & HW & [P1 P2 P3 P4 P5]).
    split; [|by injection Hh]. exists W'. split; [done|]. split; try done. by eapply conn_inv_ext.
Qed.

Lemma delayed_close_spec N W c d s : app_ok -> pending N W c d s ->
  wp (tcp_input_delayed_close cb) (fun b s' => if (b : bool) then ended s' else s' = s /\ c = false) s.
Proof.
  intros Hok Hp. pose proof Hp as [P1 P2 P3 P4 [<- P5]]. unfold tcp_input_delayed_close. wp_steps.
  destruct (has (recv_flags s) TF_CLOSED) eqn:Ec; [|by wp_steps]. specialize (P5 eq_refl).
  assert (Hr : removable false s).
  { rewrite <- (proj2 (state_is_false _ _) P5). by eapply conn_removable. }
  wp_step. apply wp_deref; [apply Hr|]. wp_steps.
  apply (wp_conseq _ (fun _ s1 => removable false s1 /\ stream_of s1 = stream_of s)).
  { unfold when, TCP_EVENT_ERR, event. destruct (negb _); wp_steps; [|done].
    eapply wp_conseq; [apply (ap_err _ _ _ _ Hok)|]. intros _ s1 ->. split; [|by apply (stream_quiet _ _ (EvErr ERR_CLSD))].
    destruct Hr as [? Hpc ? ? ?]. split; try done. by eapply pcbs_ok_ext. }
  intros _ s1 [Hr1 Hs1]. wp_step. eapply wp_conseq; [by apply tcp_pcb_remove_spec|].
  intros _ s2 (F1 & G1 & U1 & (O1 & O2 & O3 & O4)%outer_of_eq & S1).
  wp_step. apply tcp_free_spec; [done|by rewrite S1|]. wp_steps. eapply pending_ended; [exact Hp|].
  split; [done|by eapply pcbs_ok_unlisted|]. unfold stream_of in *. rec_simpl. by rewrite O3.
Qed.

Lemma input_recv_spec N W s : app_ok -> pending N W false (recv_data s) s -> near_edge N ->
  wp (input_recv cb) (fun r s' => if r =? ERR_ABRT then ended s' else exists W', W <= W' /\ pending N W' false [] s') s.
Proof.
  intros Hok Hp Hn. unfold input_recv. wp_steps. destruct (recv_data s) as [|x d] eqn:Ed; [wp_steps; by exists W|].
  pose proof Hp as [P1 P2 P3 P4 P5]. destruct (P3 ltac:(done)) as [Hr He]. wp_step. apply wp_deref; [apply P1|]. wp_steps.
  apply wp_assert; [by rewrite Hr|]. rewrite Hr in P2. destruct (has _ TF_RXCLOSED); wp_step.
  - eapply wp_conseq; [apply (tcp_abort_spec cb (state_is (state (st_pcb s)) TIME_WAIT)); [apply Hok|by eapply conn_removable]|].
    intros ? s1 Hab. wp_steps. by eapply pending_ended.
  - eapply wp_conseq; [by apply (event_recv_spec σ isn A cb _ N W)|]. intros r s1 H. cbv beta in H.
    destruct (r =? ERR_ABRT) eqn:Er; wp_steps; [by eapply pending_ended|]. simpl.
    destruct H as [(W' & HW & Hi) H6%in_hand_flags (E1 & E2)%waiting_eq Hst H].
    unfold told, stream_of in H. unfold when. rewrite Z.add_0_r in H. injection H as F1 F2.
    destruct P5 as [P5 P6]. unfold eof_of, got_fin in P4.
    destruct (r =? ERR_OK) eqn:Eok; cbn [negb]; wp_steps.
    + exists W'. split; [done|]. split; unfold eof_of, got_fin; rewrite ?E1, ?E2, ?F1, ?F2, ?H6, ?Hr in *; try done.
      rewrite <- P2. unfold pkt_bytes. simpl. by rewrite app_nil_r.
    + apply wp_deref; [apply Hi|]. wp_steps. rewrite app_nil_r in F1. exists W'. split; [done|].
      split; [by apply conn_inv_refused|..]; unfold eof_of, got_fin; rec_simpl; rewrite ?E1, ?E2, ?F1, ?F2, ?H6, ?Hr in *; try done.
      * rewrite <- P2. unfold pkt_bytes. simpl. by rewrite app_nil_r.
      * destruct (has (recv_flags s) TF_GOT_FIN); [destruct P4 as [P4 P7]; split; [done|congruence]|].
        unfold eof_at in *. destruct (zlen σ <? N); [|congruence]. congruence.
Qed.

Lemma input_closed_spec N W s : app_ok -> pending N W false [] s -> near_edge N ->
  wp (input_closed cb) (fun r s' => if r =? ERR_ABRT then ended s'
    else exists W', W <= W' /\ stream_inv N W' s' /\ has (recv_flags s') TF_CLOSED = false) s.
Proof.
  intros Hok Hp Hn. unfold input_closed. wp_steps. pose proof Hp as [P1 P2 P3 P4 [P5 _]].
  unfold pkt_bytes in P2. simpl in P2. rewrite app_nil_r in P2. fold (pkt_bytes (refused_data (st_pcb s))) in P2.
  unfold got_fin in P4.
  destruct (has (recv_flags s) TF_GOT_FIN); [|wp_steps; exists W; by split_and!; [lia|split|]].
  destruct P4 as [Hfin [= He Hrf]]. apply Z.ltb_lt in Hfin.
  wp_step. apply wp_deref; [apply P1|]. wp_steps.
  destruct (refused_data (st_pcb s)) as [|x l] eqn:Er.
  - wp_step. eapply wp_conseq; [by apply (fin_wnd_spec σ isn A N W)|].
    intros _ s1 [(W1 & HW1 & Hi1) Hh1%in_hand_flags (E1 & E2)%waiting_eq Hst1 (F1 & F2)%stream_of_eq].
    wp_step. eapply wp_conseq; [by apply (event_closed_spec σ isn A cb N W1)|]. intros r s2 H. cbv beta in H.
    unfold pkt_bytes in P2. simpl in P2. rewrite app_nil_r in P2.
    destruct (r =? ERR_ABRT); wp_steps.
    + destruct H as [G1 G2 G3]. unfold told, stream_of in G3. rewrite app_nil_r, F1, F2, He in G3. injection G3 as G3 G4.
      split; try done; rewrite G3; [|right; split; [done|]; rewrite P2; apply ztake_all; lia].
      exists (zdrop N σ). by rewrite P2, ztake_zdrop.
    + simpl. destruct H as [(W2 & HW2 & Hi2) Hh2%in_hand_flags (E3 & E4)%waiting_eq Hst2 G].
      unfold told, stream_of in G. rewrite app_nil_r, F1, F2, He in G. injection G as G3 G4.
      exists W2. split_and!; [lia| |by rewrite Hh2, Hh1].
      split; [done|..]; unfold eof_of, eof_at; rewrite ?E3, ?E4, ?E1, ?E2, ?Er, ?G3, ?G4.
      * unfold pkt_bytes. simpl. by rewrite app_nil_r.
      * by rewrite Hfin, Hrf.
  - wp_steps. simpl. exists W. split_and!; [lia| |done]. split; [|rec_simpl; by rewrite Er|].
    + eapply conn_inv_ext; [by apply (conn_inv_refused N W s (x :: l) true)|]. unfold conn_of. rec_simpl.
      rewrite <- Er. by destruct s as [[]].
    + unfold eof_of, eof_at. rec_simpl. by rewrite Er, Hfin, He.
Qed.

Lemma input_notify_spec N W s : app_ok -> (exists c, pending N W c (recv_data s) s) -> near_edge N ->
  wp (input_notify cb) (fun _ s' => ended s' \/ exists W', W <= W' /\ stream_inv N W' s') s.
Proof.
  intros Hok [c Hp] Hn. unfold input_notify. wp_step. eapply wp_conseq; [by apply (input_sent_spec N W c (recv_data s))|].
  intros r s1 H. cbv beta in H. destruct (r =? ERR_ABRT); [wp_steps; by left|]. destruct H as [(W1 & HW1 & Hp1) Hd1].
  wp_step. eapply wp_conseq; [by eapply delayed_close_spec|]. intros [] s2 H; cbv beta iota in H; cbv iota; [wp_steps; by left|].
  destruct H as [-> ->]. rewrite <- Hd1 in Hp1.
  wp_step. eapply wp_conseq; [by eapply input_recv_spec|].
  intros r2 s3 H. cbv beta in H. destruct (r2 =? ERR_ABRT); [wp_steps; by left|]. destruct H as (W3 & HW3 & Hp3).
  wp_step. eapply wp_conseq; [by eapply input_closed_spec|].
  intros r4 s4 H. cbv beta in H. destruct (r4 =? ERR_ABRT); [wp_steps; by left|]. destruct H as (W4 & HW4 & Hp4 & Hc4).
  wp_step. wp_step. set (s5 := s4 <| tcp_input_pcb := 0 |>).
  assert (Hp5 : stream_inv N W4 s5) by (destruct Hp4 as [Q1 Q2 Q3]; split; try done; by eapply conn_inv_ext).
  unfold tcp_input_delayed_close. wp_steps. subst s5. rec_simpl. rewrite Hc4. wp_steps.
  apply wp_deref; [apply Hp4|]. wp_step.
  eapply wp_conseq; [apply (tcp_output_continues σ isn A N W4); apply Hp5|]. intros r6 s6 [H6 _]. wp_steps. right.
  destruct (stream_continues N W4 _ s6 Hp5 H6) as (W6 & HW6 & Hp6). exists W6. split; [lia|done].
Qed.

(** ** From [tcp_process] to the notifications *)

Lemma processed_events N W b s N' s1 s' : processed σ isn A N W b s N' s1 s' -> events s' = events s.
Proof.
  intros [[_ _ _ _ _ _ _ _ _ Hw _] _ _ Htw _ _ _ _ _]. apply world_of_eq in Hw as (_ & _ & _ & _ & _ & Hw & _).
  destruct (state_is _ TIME_WAIT); [|by apply world_of_eq in Htw as (_ & _ & _ & _ & _ & Htw & _)].
  destruct Htw as [_ _ _ _ (_ & _ & _ & Htw & _)]. congruence.
Qed.

Lemma rx_closed_num st : rx_closed st = true -> state_num CLOSE_WAIT <= state_num st.
Proof. destruct st; simpl; intros; done || lia. Qed.

(** Nothing that was refused is lost. *)
Lemma processed_refused N W b s N' s1 s' : processed σ isn A N W b s N' s1 s' -> conn_inv N W s ->
  state (st_pcb s) <> TIME_WAIT -> (state (st_pcb s) = CLOSING -> refused_data (st_pcb s) = []) ->
  refused_data (st_pcb s) = [] \/ TCP_TCPLEN (inseg s) = 0 ->
  refused_data (st_pcb s') = refused_data (st_pcb s).
Proof.
  intros Hpr Hc Hntw Hcl Hr. pose proof (pr_refused _ _ _ _ _ _ _ _ _ _ Hpr) as [_ ->].
  pose proof (pr_state _ _ _ _ _ _ _ _ _ _ Hpr) as ->. pose proof (ci_fin _ _ _ _ _ _ Hc) as Hf.
  destruct Hr as [->|H0]; [by destruct (state_is _ _)|].
  destruct (rc_empty _ _ _ _ _ _ _ _ _ (pr_recv _ _ _ _ _ _ _ _ _ _ Hpr) H0) as [-> _]. rewrite <- Hf.
  destruct (state (st_pcb s)), (fin_acked s1); simpl; try done; by rewrite Hcl.
Qed.

Lemma processed_pending N W b s N' s1 s' : processed σ isn A N W b s N' s1 s' -> stream_inv N W s ->
  recv_flags s = 0 -> recv_data s = [] -> state (st_pcb s) <> TIME_WAIT ->
  (state (st_pcb s) = CLOSING -> refused_data (st_pcb s) = []) ->
  refused_data (st_pcb s) = [] \/ TCP_TCPLEN (inseg s) = 0 ->
  pending N' (W - (N' - N)) (state_is (state (st_pcb s)) LAST_ACK && fin_acked s1) (recv_data s') s'.
Proof.
  intros Hpr [Hc Hb He] Hf0 Hd0 Hntw Hcl Hr. pose proof (processed_refused _ _ _ _ _ _ _ Hpr Hc Hntw Hcl Hr) as Hre.
  pose proof (processed_events _ _ _ _ _ _ _ Hpr) as Hev. destruct Hpr as [HR Hi Hst _ Hclo _ Hgf [Hd _] [Hrf _]].
  pose proof (ci_fin _ _ _ _ _ _ Hc) as Hfin. pose proof (ci_rx _ _ _ _ _ _ Hc) as [[Hok _] _].
  pose proof (ok_pos _ _ _ _ _ Hok) as HN. pose proof (rc_le _ _ _ _ _ _ _ _ _ HR) as HNN.
  destruct (rc_bytes _ _ _ _ _ _ _ _ _ HR) as (Hby & Hgot & _ & _). rewrite Hd0 in Hby.
  assert (Hg0 : got_fin s = false) by (unfold got_fin; by rewrite Hf0). rewrite Hg0 in Hgot. cbn [orb] in Hgot.
  unfold eof_of in He. split; unfold eof_of; rewrite ?Hev, ?Hre, ?Hrf, ?Hd; try done.
  - destruct Hr as [Hr|H0].
    + rewrite Hr in Hb |- *. unfold pkt_bytes at 1 in Hb. unfold pkt_bytes at 1. simpl in *. rewrite app_nil_r in Hb.
      rewrite Hb, Hby. simpl. rewrite <- (zdrop_nonpos 0 σ) at 1 by lia. fold (zslice 0 N σ).
      replace N with (0 + N) at 2 by lia. rewrite zslice_app by lia. unfold zslice. rewrite zdrop_nonpos by lia. f_equal. lia.
    + destruct (rc_empty _ _ _ _ _ _ _ _ _ HR H0) as [-> Hd1]. rewrite Hd1. unfold pkt_bytes at 2. simpl. by rewrite app_nil_r.
  - intros Hne. split.
    + destruct Hr as [Hr|H0]; [done|]. destruct (rc_empty _ _ _ _ _ _ _ _ _ HR H0) as [_ Hd1]. by rewrite Hd1 in Hne.
    + unfold eof_at in He. destruct (zlen σ <? N); [|by injection He].
      destruct (rc_closed _ _ _ _ _ _ _ _ _ HR (rx_closed_num _ Hfin)) as [_ Hd1]. by rewrite Hd1 in Hne.
  - unfold eof_at in *. rewrite Hgf, Hgot. destruct (Z.leb_spec N (zlen σ)), (Z.ltb_spec (zlen σ) N'); simpl.
    + split; [done|]. by rewrite (proj2 (Z.ltb_ge _ _)) in He by lia.
    + by rewrite (proj2 (Z.ltb_ge _ _)) in He by lia.
    + by rewrite (proj2 (Z.ltb_lt _ _)) in He by lia.
    + lia.
  - split; [done|]. intros (Hl & _)%andb_true_iff Ht. rewrite Ht in Hst. by destruct (state (st_pcb s)).
Qed.

(** ** A segment from the wire *)

Lemma input_refused_spec N W s : app_ok -> stream_inv N W s -> near_edge N ->
  refused_data (st_pcb s) = [] \/ never_aborts ->
  wp (input_refused cb) (fun dropped s' => if (dropped : bool)
    then refused_data (st_pcb s) <> [] /\ exists W', W <= W' /\ stream_inv N W' s'
    else resumes N W s s' /\ (refused_data (st_pcb s') = [] \/ tcplen s <= 0) /\
         (refused_data (st_pcb s) = [] -> s' = s)) s.
Proof.
  intros Hok Hs Hn Hna. unfold input_refused. wp_steps. destruct (refused_data (st_pcb s)) as [|x d] eqn:Er.
  { wp_steps. split_and!; try done; [|by left]. split; try done. by exists W. }
  destruct Hna as [Hna|Hna]; [done|]. wp_step.
  eapply wp_conseq; [apply tcp_process_refused_data_spec; try done; by rewrite Er|].
  intros r s1 [Hr Hres]. rewrite (proj2 (Z.eqb_neq _ _) Hr). destruct Hres as [(W1 & HW1 & Hi1) Hh Hst] eqn:E. clear E. wp_steps.
  assert (Ht : tcplen s1 = tcplen s) by (unfold in_hand in Hh; congruence). rewrite Ht.
  destruct (refused_data (st_pcb s1)) as [|y e] eqn:Er1; cbn [andb]; [wp_steps; split_and!; auto; done|].
  destruct (Z.ltb_spec 0 (tcplen s)); cbn [andb]; [|wp_steps; split_and!; auto; done].
  wp_step. apply wp_deref; [apply Hi1|]. wp_steps. unfold when. destruct (_ =? 0); wp_steps; [|by eauto].
  eapply wp_conseq; [apply (send_empty_ack_continues σ isn A N W1); apply Hi1|]. intros r2 s2 H2. wp_steps. split; [done|].
  destruct (stream_continues N W1 s1 s2 Hi1 H2) as (W2 & HW2 & Hi2). exists W2. split; [lia|done].
Qed.

(** The segment is as it was for [tcp_process], the window at least as large. *)
Lemma arrives_resumed N W W' b s s' : arrives σ isn N W b s -> in_hand s' = in_hand s -> W <= W' -> arrives σ isn N W' b s'.
Proof.
  intros [A1 A2 A3 A4 A5 A6 A7] Hh HW. pose proof (in_hand_eq _ _ Hh) as (_ & Hin & Hse & Htl & Hrd & _ & Hra & _).
  split; rewrite ?Hin, ?Hse, ?Htl, ?Hrd, ?Hra; try done. lia.
Qed.
Lemma plain_resumed s s' : plain_segment s -> in_hand s' = in_hand s -> plain_segment s'.
Proof.
  intros [P1 P2 [P3 P4] P5] Hh. pose proof (in_hand_eq _ _ Hh) as (Hhd & _ & _ & _ & _ & Hrf & _).
  unfold hdr_of in Hhd. injection Hhd as _ Hfl _ _ _ _ E1 E2 E3 E4.
  split; rewrite ?Hfl, ?Hrf; try done. unfold opts_sized, opts_safe, opts_readable, opt_byte in *. by rewrite E1, E2, E3, E4.
Qed.

(** From position [N] a segment leads to [N'], at most one behind the end of the stream. *)
Definition reaches (N N' : Z) : Prop := N <= N' <= N + TCP_WND /\ N' <= Z.max N (zlen σ + 1).

(** The segment at position [b] has been processed. *)
Definition input_outcome (N W b : Z) (s s' : tcp_st) : Prop :=
  ended s' \/ exists N' W', reaches N N' /\ stream_inv N' W' s' /\
    (refused_data (st_pcb s) = [] -> b <= N -> state_num (state (st_pcb s)) < state_num CLOSE_WAIT ->
     Z.min (b + tcplen s) (N + W) <= N').

Lemma input_cleanup_spec N W b s s1 : input_outcome N W b s s1 ->
  wp (modify (fun s => s <| tcp_input_pcb := 0 |> <| recv_data := [] |> <| inseg := inseg s <| seg_p := [] |> |>) ;;; tcp_pcbs_sane)
    (fun _ s' => input_outcome N W b s s') s1.
Proof.
  intros H1. wp_steps. destruct H1 as [[E1 E2 E3 E4]|(N' & W' & H1 & [E1 E2 E3] & H2)].
  - apply tcp_pcbs_sane_spec; [by eapply pcbs_ok_ext|]. left. split; try done. by eapply pcbs_ok_ext.
  - apply tcp_pcbs_sane_spec; [eapply pcbs_ok_ext; [apply E1|..]; done|]. right. exists N', W'. split; [done|]. split; [|done].
    split; try done. by eapply conn_inv_ext.
Qed.

(** From [tcp_process] on. *)
Lemma input_process_spec N W b s : app_ok -> stream_inv N W s -> N + 2 * TCP_WND - A < 1073741824 ->
  arrives σ isn N W b s -> plain_segment s -> state (st_pcb s) <> TIME_WAIT ->
  (state (st_pcb s) = CLOSING -> refused_data (st_pcb s) = []) ->
  refused_data (st_pcb s) = [] \/ tcplen s <= 0 ->
  wp (let* err := tcp_process cb in
      when (negb (err =? ERR_ABRT))
        (let* f := gets recv_flags in
         if has f TF_RESET then TCP_EVENT_ERR cb ERR_RST ;;; tcp_pcb_remove false ;;; tcp_free
         else input_notify cb))
    (fun _ s' => ended s' \/ exists N' W', reaches N N' /\ stream_inv N' W' s' /\
      (b <= N -> state_num (state (st_pcb s)) < state_num CLOSE_WAIT -> Z.min (b + tcplen s) (N + W) <= N')) s.
Proof.
  intros Hok Hs Hn Har Hpl Hntw Hcl Hr. wp_step.
  eapply wp_conseq; [apply (tcp_process_spec σ isn A cb N W b); try done; apply Hs|].
  intros r s1 (-> & N' & s2 & Hp). unfold when. cbn [negb Z.eqb ERR_OK ERR_ABRT]. wp_steps.
  rewrite (pr_reset _ _ _ _ _ _ _ _ _ _ Hp). pose proof (pr_recv _ _ _ _ _ _ _ _ _ _ Hp) as HR.
  pose proof (rc_le _ _ _ _ _ _ _ _ _ HR) as HNN. pose proof (rc_inv _ _ _ _ _ _ _ _ _ HR) as [[Hok2 _] _].
  pose proof (ok_range _ _ _ _ _ Hok2) as Hr2.
  pose proof (ci_rx _ _ _ _ _ _ (si_conn _ _ _ Hs)) as [[Hok0 _] _]. pose proof (ok_range _ _ _ _ _ Hok0) as Hr0.
  assert (Hlen : 0 <= TCP_TCPLEN (inseg s)).
  { rewrite (at_tcplen _ _ _ _ (ar_seg _ _ _ _ _ _ Har)). pose proof (at_len _ _ _ _ (ar_seg _ _ _ _ _ _ Har)). destruct (fin _); lia. }
  rewrite (ar_tcplen _ _ _ _ _ _ Har) in Hr |- *.
  eapply wp_conseq; [apply (input_notify_spec N' (W - (N' - N))); [done| |unfold near_edge, TCP_WND in *; lia]|].
  - exists (state_is (state (st_pcb s)) LAST_ACK && fin_acked s2). eapply processed_pending; try done.
    + apply Hpl.
    + apply Har.
    + destruct Hr; [by left|right; lia].
  - intros ? s3 [H|(W3 & HW3 & H3)]; [by left|right]. exists N', W3. pose proof (rc_bytes _ _ _ _ _ _ _ _ _ HR) as (_ & _ & _ & _ & Hm).
    unfold reaches. split_and!; try done; try lia. apply (rc_progress _ _ _ _ _ _ _ _ _ HR).
Qed.

Lemma tcp_input_pcb_found_spec N W b p s : app_ok -> stream_inv N W s -> N + 2 * TCP_WND - A < 1073741824 ->
  arrives σ isn N W b (input_setup p s) -> plain_segment (input_setup p s) -> state (st_pcb s) <> TIME_WAIT ->
  (state (st_pcb s) = CLOSING -> refused_data (st_pcb s) = []) ->
  refused_data (st_pcb s) = [] \/ never_aborts ->
  wp (tcp_input_pcb_found cb p) (fun _ s' => input_outcome N W b s s') s.
Proof.
  intros Hok Hs Hn Har Hpl Hntw Hcl Hna. unfold tcp_input_pcb_found. wp_step. wp_step. set (s0 := input_setup p s) in *.
  assert (Hs0 : stream_inv N W s0) by (destruct Hs as [Q1 Q2 Q3]; split; try done; by eapply conn_inv_ext).
  assert (Hn0 : near_edge N) by (unfold near_edge, TCP_WND in *; lia).
  wp_step. eapply wp_conseq; [by apply (input_refused_spec N W)|]. intros [] s1 H; cbv beta iota in H; unfold when; cbn [negb]; cbv iota.
  { wp_step. wp_step. apply input_cleanup_spec. right. destruct H as (Hr & W1 & HW1 & Hi1). exists N, W1. unfold reaches, TCP_WND. split_and!; done || lia. }
  destruct H as ([(W1 & HW1 & Hi1) Hh1 Hst1] & Hr1 & Hsame).
  wp_step. eapply wp_conseq; [|intros ? s3 H3; apply input_cleanup_spec; exact H3]. wp_step. wp_step.
  set (s2 := s1 <| tcp_input_pcb := _ |>).
  assert (Hi2 : stream_inv N W1 s2) by (destruct Hi1 as [Q1 Q2 Q3]; split; try done; by eapply conn_inv_ext).
  pose proof (in_hand_eq _ _ Hh1) as (_ & _ & _ & Htl & _).
  eapply wp_conseq; [apply (input_process_spec N W1 b s2); try done|].
  - pose proof (arrives_resumed N W W1 b s0 s1 Har Hh1 HW1) as []. by split.
  - pose proof (plain_resumed s0 s1 Hpl Hh1) as []. by split.
  - subst s2. rec_simpl. intros E. apply Hntw. change (state (st_pcb s)) with (state (st_pcb s0)). rewrite Hst1; auto.
  - subst s2. rec_simpl. intros E. change (refused_data (st_pcb s) = []) with (refused_data (st_pcb s0) = []) in *.
    assert (E0 : refused_data (st_pcb s0) = []) by (apply Hcl; change (state (st_pcb s)) with (state (st_pcb s0)); rewrite Hst1; auto).
    by rewrite (Hsame E0).
  - subst s2. rec_simpl. by rewrite Htl.
  - intros ? s3 [H|(N' & W' & HN & Hi & Hp)]; [by left|right]. exists N', W'. split; [done|]. split; [done|].
    intros Hr Hb Hst. subst s2. rec_simpl_in Hp. rewrite (Hsame Hr) in Hp. change (state (st_pcb s0)) with (state (st_pcb s)) in Hp.
    specialize (Hp Hb Hst). change (tcplen s0) with (tcplen s) in Hp. lia.
Qed.
End Deliver.
