(* ===== verification/TcpRun.v ===== *)
(** * Runs of a connection

    The operations on a connection in any order: segments from the peer, calls of the
    application, the retransmission timer.  Each has its precondition; the reachable
    states are those of the step relation, the invariant is proved by induction on the
    run, and no operation fails in a reachable state. *)

From S2P Require Import Prelude Def IpAddr Tcp TcpOut TcpIn TcpFacts TcpStream.
From S2P Require Import TcpOoseq TcpRecv TcpAck TcpReceive TcpOpt TcpOutput TcpSend TcpProcess.
From S2P Require Import TcpMachine TcpInput TcpApp TcpDeliver.

(** ** The operations *)

Inductive conn_op : Type :=
  | OpSegment (p : pkt)  (** [tcp_input] has found the connection of a segment with data [p] *)
  | OpRecved (n : Z)     (** the application calls [tcp_recved] *)
  | OpOutput             (** the application calls [tcp_output] *)
  | OpRexmitRto          (** the retransmission timer has expired *)
  | OpAbort.             (** the application calls [tcp_abort] *)

Definition op_run (cb : tcp_callbacks) (o : conn_op) : TM unit :=
  match o with
  | OpSegment p => tcp_input_pcb_found cb p
  | OpRecved n => tcp_recved n
  | OpOutput => let* _ := tcp_output in ret tt
  | OpRexmitRto => tcp_rexmit_rto
  | OpAbort => tcp_abort cb
  end.

(** The announced right edge is at most 2^29 numbers behind [rcv_nxt]. *)
Definition edge_near (p : tcp_pcb) : bool :=
  u32_t (rcv_ann_right_edge p - rcv_nxt p + 536870912) <=? 536870912 + rcv_wnd p.

(** Between two operations the header variables and the answers of the environment
    change, the connection does not. *)
Definition op_load (s s0 : tcp_st) : Prop := conn_of s0 = conn_of s /\ events s0 = events s.

(** ** Retransmission *)

Section Run.
Context (σ : list Z) (isn : Z) (cb : tcp_callbacks).

Lemma tcp_rexmit_rto_continues A N W s : conn_inv σ isn A N W s ->
  wp tcp_rexmit_rto (fun _ s' => continues σ isn A N W (stream_of s) s s') s.
Proof.
  intros Hc. apply tcp_rexmit_rto_prepared.
  { intros l. eapply continues_ext; [by apply continues_refl|done..]. }
  intros s2 (p2 & l & -> & V1 & V2 & V3 & _ & V4). set (s2 := s <| st_pcb := p2 |> <| oracle := l |>).
  assert (Hc2 : conn_inv σ isn A N W s2).
  { apply (conn_inv_tx σ isn A N W s); try done; subst s2; rec_simpl; [by rewrite V1, V2|by left]. }
  assert (H2 : continues σ isn A N W (stream_of s) s s2).
  { unfold cc_of in V3. split; try done; unfold waiting; subst s2; rec_simpl; [exists W; by split|congruence..]. }
  eapply wp_conseq; [by apply (tcp_output_continues σ isn A N W)|]. intros r s' [H _].
  by eapply continues_trans; [exact H2| |exact H].
Qed.

(** ** The position the receive window is anchored at *)

Lemma wnd_ok_anchor A N W p : wnd_ok isn A N W p -> edge_near p = true -> wnd_ok isn (N - 536870912) N W p.
Proof.
  intros [Hn Hw Hp Hr (E & HE & HE1 & HE2) Hm] He. apply Z.leb_le in He. unfold TCP_WND in *. split; try done.
  rewrite Hn, HE, Hw in He. set (u := u32_t _) in He.
  assert (Hu : u = u32_t (E - N + 536870912)).
  { subst u. unfold seq_of, u32_t. dlia. }
  exists (N - 536870912 + u). split; [|pose proof (u32_t_range (E - N + 536870912)); lia].
  rewrite HE, Hu. unfold seq_of, u32_t. dlia.
Qed.

Lemma stream_anchor A N W s : stream_inv σ isn A N W s -> edge_near (st_pcb s) = true ->
  stream_inv σ isn (N - 536870912) N W s.
Proof.
  intros [[[[H1 H2] H3] H4 H5 H6 H7 H8 H9 H10 H11] H12 H13] He. apply wnd_ok_anchor in H1; [|done].
  split; [|done..]. by split.
Qed.

(** ** Reachable states *)

(** What each operation asks of the state it starts in, [N] bytes being consumed. *)
Definition op_pre (N : Z) (s : tcp_st) (o : conn_op) : Prop :=
  edge_near (st_pcb s) = true /\
  match o with
  | OpSegment p =>
      (exists b, arrives σ isn N (rcv_wnd (st_pcb s)) b (input_setup p s)) /\ plain_segment (input_setup p s) /\
      state (st_pcb s) <> TIME_WAIT /\ (state (st_pcb s) = CLOSING -> refused_data (st_pcb s) = []) /\
      (refused_data (st_pcb s) = [] \/ forall A, never_aborts σ isn A cb)
  | OpRecved n => 0 <= n < 65536
  | OpOutput | OpRexmitRto | OpAbort => True
  end.

(** [conn_run N s]: [s] is reached from an established connection, and [rcv_nxt] stands
    for position [N] of the peer's stream while the control block exists. *)
Inductive conn_run : Z -> tcp_st -> Prop :=
  | run_start A W s : stream_inv σ isn A 0 W s -> conn_run 0 s
  | run_op N N' s s0 o s' :
      conn_run N s -> op_load s s0 -> pcb_freed s0 = false -> op_pre N s0 o ->
      op_run cb o s0 = Ok (tt, s') -> N <= N' <= N + TCP_WND ->
      (pcb_freed s' = false -> rcv_nxt (st_pcb s') = seq_of isn N') ->
      conn_run N' s'.

(** The invariant of a run. *)
Definition run_inv (N : Z) (s : tcp_st) : Prop := ended σ s \/ exists A W, stream_inv σ isn A N W s.

Context (Hok : forall A, app_ok σ isn A cb).

Lemma stream_load A N W s s0 : stream_inv σ isn A N W s -> op_load s s0 -> stream_inv σ isn A N W s0.
Proof.
  intros [H1 H2 H3] [E1 E2]. pose proof E1 as Ep. unfold conn_of in Ep. injection Ep as E3 _ _ _ _ _.
  unfold eof_of in *. split; unfold eof_of; rewrite ?E2, ?E3; try done. by eapply conn_inv_ext.
Qed.

Lemma stream_ended A N W s s' : stream_inv σ isn A N W s -> aborted (stream_of s) s' -> ended σ s'.
Proof.
  intros [H1 H2 H3] [Hf Hp (F1 & F2)%stream_of_eq]. split; try done; rewrite ?F1, ?F2.
  - exists (pkt_bytes (refused_data (st_pcb s)) ++ zdrop N σ). by rewrite app_assoc, H2, ztake_zdrop.
  - unfold eof_of, eof_at in H3. destruct (Z.ltb_spec (zlen σ) N); [|left; by injection H3].
    destruct (refused_data (st_pcb s)); [right|left]; injection H3 as H3 _; [|done].
    split; [done|]. unfold pkt_bytes in H2. simpl in H2. by rewrite app_nil_r, ztake_all in H2 by lia.
Qed.

(** What an operation asks besides the position of the announced edge. *)
Definition op_fits (N : Z) (s : tcp_st) (o : conn_op) : Prop :=
  match o with
  | OpSegment p =>
      (exists b, arrives σ isn N (rcv_wnd (st_pcb s)) b (input_setup p s)) /\ plain_segment (input_setup p s) /\
      state (st_pcb s) <> TIME_WAIT /\ (state (st_pcb s) = CLOSING -> refused_data (st_pcb s) = []) /\
      (refused_data (st_pcb s) = [] \/ forall A, never_aborts σ isn A cb)
  | OpRecved n => 0 <= n < 65536
  | OpOutput | OpRexmitRto | OpAbort => True
  end.

(** One operation on a live connection. *)
Lemma op_run_near A N W o s : stream_inv σ isn A N W s -> op_fits N s o -> N + 2 * TCP_WND - A < 1073741824 ->
  wp (op_run cb o) (fun _ s' => ended σ s' \/ exists N' W', reaches σ N N' /\ stream_inv σ isn A N' W' s') s.
Proof.
  intros Hs Hp HNA. pose proof (si_conn _ _ _ _ _ _ Hs) as Hc. pose proof (ci_rx _ _ _ _ _ _ Hc) as [[Hwo _] _].
  pose proof (ok_wnd _ _ _ _ _ Hwo) as HW. assert (Hn : near_edge A N) by (unfold near_edge, TCP_WND in *; lia).
  assert (Hcont : forall s', continues σ isn A N W (stream_of s) s s' -> ended σ s' \/
    exists N' W', reaches σ N N' /\ stream_inv σ isn A N' W' s').
  { intros s' H. destruct (stream_continues σ isn A N W s s' Hs H) as (W' & _ & H'). right. exists N, W'.
    split; [unfold reaches, TCP_WND; lia|done]. }
  destruct o as [p|n| | |]; cbn [op_run].
  - destruct Hp as ((b & Har) & Hpl & Hst & Hcl & Hr). rewrite HW in Har.
    eapply wp_conseq; [apply (tcp_input_pcb_found_spec σ isn A cb N W b p s); try done|].
    + destruct Hr as [Hr|Hr]; auto.
    + intros ? s' [H|(N' & W' & HN & H & _)]; [by left|right; by exists N', W'].
  - eapply wp_conseq; [by apply (tcp_recved_spec σ isn A n N W)|]. intros ? s' [H _]. auto.
  - wp_step. eapply wp_conseq; [by apply (tcp_output_continues σ isn A N W)|]. intros ? s' [H _]. wp_steps. auto.
  - eapply wp_conseq; [by apply (tcp_rexmit_rto_continues A N W)|]. intros ? s' H. auto.
  - eapply wp_conseq; [apply (tcp_abort_spec cb (state_is (state (st_pcb s)) TIME_WAIT)); [apply (Hok A)|by eapply conn_removable]|].
    intros ? s' H. left. by eapply stream_ended.
Qed.

(** The same with the edge of the state. *)
Lemma op_run_spec A N W o s : stream_inv σ isn A N W s -> op_pre N s o ->
  wp (op_run cb o) (fun _ s' => ended σ s' \/ exists N' A' W', N <= N' <= N + TCP_WND /\ stream_inv σ isn A' N' W' s') s.
Proof.
  intros Hs [He Hp]. eapply wp_conseq; [apply (op_run_near (N - 536870912) N W o s); [by eapply stream_anchor|by destruct o|unfold TCP_WND; lia]|].
  intros ? s' [H|(N' & W' & [HN _] & H)]; [by left|right; by exists N', (N - 536870912), W'].
Qed.

Lemma conn_run_inv N s : conn_run N s -> run_inv N s.
Proof.
  induction 1 as [A W s Hs|N N' s s0 o s' _ IH Hl Hf Hp Hrun HN Hnx]; [right; by exists A, W|].
  destruct IH as [[En _ _ _]|(A & W & Hs)].
  { destruct Hl as [E _]. unfold conn_of in E. congruence. }
  pose proof (stream_load _ _ _ _ _ Hs Hl) as Hs0. pose proof (op_run_spec _ _ _ _ _ Hs0 Hp) as H.
  unfold wp in H. rewrite Hrun in H. destruct H as [H|(N1 & A1 & W1 & HN1 & H)]; [by left|right].
  pose proof (si_conn _ _ _ _ _ _ H) as Hc. specialize (Hnx (ci_live _ _ _ _ _ _ Hc)).
  pose proof (ci_rx _ _ _ _ _ _ Hc) as [[[Hn1 _ _ _ _ _] _] _]. rewrite Hn1 in Hnx.
  assert (N1 = N') as <-; [|by exists A1, W1].
  apply Z.eqb_eq. unfold TCP_WND in *. rewrite <- (seq_of_inj isn) by lia. by apply Z.eqb_eq.
Qed.

Lemma op_run_goes_on N s s0 o : conn_run N s -> op_load s s0 -> pcb_freed s0 = false -> op_pre N s0 o ->
  exists s' N', op_run cb o s0 = Ok (tt, s') /\ N <= N' <= N + TCP_WND /\ conn_run N' s'.
Proof.
  intros Hr Hl Hf Hp. destruct (conn_run_inv _ _ Hr) as [[En _ _ _]|(A & W & Hs)].
  { destruct Hl as [E _]. unfold conn_of in E. congruence. }
  pose proof (stream_load _ _ _ _ _ Hs Hl) as Hs0. pose proof (op_run_spec _ _ _ _ _ Hs0 Hp) as H.
  apply wp_run in H as ([] & s' & Hrun & [[En _ _ _]|(N' & A' & W' & HN & H)]).
  - exists s', N. unfold TCP_WND in *. split_and!; [done|lia|lia|].
    eapply run_op; try done; [unfold TCP_WND; lia|congruence].
  - exists s', N'. split_and!; [done|lia|lia|]. eapply run_op; try done. intros _.
    by pose proof (ci_rx _ _ _ _ _ _ (si_conn _ _ _ _ _ _ H)) as [[[]]].
Qed.

(** What the application has got in a reachable state. *)
Lemma run_inv_prefix N s : run_inv N s -> accepted (events s) `prefix_of` σ /\
  (eofs (events s) = 0 \/ eofs (events s) = 1 /\ accepted (events s) = σ).
Proof.
  intros [[_ _ H1 H2]|(A & W & H)]; [done|].
  assert (Ha : aborted (stream_of s) (s <| pcb_freed := true |> <| tcp_active_pcbs := [] |> <| tcp_tw_pcbs := [] |>)).
  { split; try done. split; [constructor|done..]. }
  destruct (stream_ended _ _ _ _ _ H Ha) as [_ _ H1 H2]. done.
Qed.
End Run.
