(* ===== verification/TcpWrite.v ===== *)
(** * TCP output: queueing data ([core/tcp_out.c])

    [tcp_write] and the functions that put segments on the unsent queue:
    [tcp_enqueue_flags], [tcp_send_fin], [tcp_split_unsent_seg].  The memory behind a
    buffer is the list of its bytes; its address, which only the checksum routine looks
    at, comes from the oracle like the answers of the allocators. *)

From S2P Require Import Prelude Def IpAddr Pbuf OnesComplement InetChksum.
From S2P Require Import Tcp TcpOut TcpIn TcpOutput.

Definition TCP_WRITE_FLAG_COPY : Z := 1.
Definition TCP_WRITE_FLAG_MORE : Z := 2.
Definition TCP_OVERSIZE : Z := TCP_MSS.
Definition TCP_SNDQUEUELEN_OVERFLOW : Z := 65532.
Definition ERR_CONN : Z := -11.

(** [TCP_OVERSIZE_CALC_LENGTH(length)]. *)
Definition TCP_OVERSIZE_CALC_LENGTH (length : Z) : Z := length + TCP_OVERSIZE.

(** ** Segments *)

(** [tcp_create_segment]: [p] is the data behind the options; [None] when there is no
    memory for the segment or no room for the header. *)
Definition tcp_create_segment (p : pkt) (hdrflags seqno optflags : Z) : TM (option tcp_seg) :=
  let* no_memory := ask in
  if negb (no_memory =? 0) then ret None
  else
    let seg := mkSeg (u32_t seqno) hdrflags (u16_t (zlen (pkt_bytes p))) p 0 optflags 0 false in
    lwip_assert "invalid optflags passed: TF_SEG_DATA_CHECKSUMMED" (negb (has optflags TF_SEG_DATA_CHECKSUMMED)) ;;;
    let* no_room := ask in
    if negb (no_room =? 0) then ret None else ret (Some seg).

(** [tcp_pbuf_prealloc]: the number of usable bytes behind the [length] used ones, [None]
    when the allocation fails. *)
Definition tcp_pbuf_prealloc (length max_length apiflags : Z) (first_seg : bool) : TM (option Z) :=
  let* p := gets st_pcb in
  let alloc :=
    if length <? max_length then
      if has apiflags TCP_WRITE_FLAG_MORE ||
         (negb (has (flags p) TF_NODELAY) &&
          (negb first_seg || negb (match unsent p with [] => true | _ => false end)
                          || negb (match unacked p with [] => true | _ => false end)))
      then u16_t (Z.min max_length (LWIP_MEM_ALIGN_SIZE (TCP_OVERSIZE_CALC_LENGTH length)))
      else length
    else length in
  let* no_memory := ask in
  if negb (no_memory =? 0) then ret None else ret (Some (u16_t (alloc - length))).

Definition tcp_seg_add_chksum (chksum len seg_chksum : Z) (seg_chksum_swapped : bool) : Z * bool :=
  let helper := u32_t (chksum + seg_chksum) in
  let chksum := u16_t (FOLD_U32T helper) in
  if negb (Z.land len 1 =? 0) then (u16_t (SWAP_BYTES_IN_WORD chksum), negb seg_chksum_swapped)
  else (chksum, seg_chksum_swapped).

(** [LWIP_CHKSUM_COPY(dst, src, len)], the sum taken at the destination. *)
Definition LWIP_CHKSUM_COPY (data : list Z) : TM Z :=
  let* dst := ask in ret (LWIP_CHKSUM dst data).
(** [~inet_chksum(src, len)], as the [u16_t] it is passed or assigned as. *)
Definition chksum_nocopy (data : list Z) : TM Z :=
  let* src := ask in ret (u16_t (Z.lnot (inet_chksum src data))).

Definition tcp_write_checks (len : Z) : TM Z :=
  let* p := gets st_pcb in
  if negb (state_is (state p) ESTABLISHED) && negb (state_is (state p) CLOSE_WAIT) &&
     negb (state_is (state p) SYN_SENT) && negb (state_is (state p) SYN_RCVD) then ret ERR_CONN
  else if len =? 0 then ret ERR_OK
  else if snd_buf p <? len then tcp_set_flags TF_NAGLEMEMERR ;;; ret ERR_MEM
  else if Z.min TCP_SND_QUEUELEN (TCP_SNDQUEUELEN_OVERFLOW + 1) <=? snd_queuelen p then
    tcp_set_flags TF_NAGLEMEMERR ;;; ret ERR_MEM
  else
    (if negb (snd_queuelen p =? 0) then
       lwip_assert "tcp_write: pbufs on queue => at least one queue non-empty"
         (match unacked p, unsent p with [], [] => false | _, _ => true end)
     else
       lwip_assert "tcp_write: no pbufs on queue => both queues empty"
         (match unacked p, unsent p with [], [] => true | _, _ => false end)) ;;;
    ret ERR_OK.

(** ** [tcp_write] *)

(** The local variables of [tcp_write] in which the changes are recorded. *)
Record write_vars := mkWrite {
  w_pos : Z; w_queuelen : Z; w_oversize : Z; w_oversize_used : Z; w_oversize_add : Z; w_extendlen : Z;
  w_concat : option (list Z);   (* concat_p: its payload *)
  w_concat_chksum : Z; w_concat_swapped : bool; w_concat_chksummed : Z;
  w_queue : list tcp_seg;       (* queue *)
  w_touched : bool              (* seg != NULL *)
}.
#[export] Instance write_vars_fields : Fields write_vars := fun w =>
  mkWrite (w_pos w) (w_queuelen w) (w_oversize w) (w_oversize_used w) (w_oversize_add w) (w_extendlen w)
    (w_concat w) (w_concat_chksum w) (w_concat_swapped w) (w_concat_chksummed w) (w_queue w) (w_touched w).

Section Write.
(** The data [arg], the flags of the call, and whether the payload of the last pbuf of a
    segment is read-only memory that ends where [arg] begins. *)
Context (arg : list Z) (apiflags : Z) (rom_adjacent : tcp_seg -> bool).
Let len : Z := zlen arg.
Let copy : bool := has apiflags TCP_WRITE_FLAG_COPY.

(** "Phase 1: Copy data directly into an oversized pbuf": the variables and the space left. *)
Definition write_phase1 (mss_local : Z) (last_unsent : tcp_seg) (w : write_vars) : TM (write_vars * Z) :=
  let unsent_optlen := LWIP_TCP_OPT_LENGTH (seg_optflags last_unsent) in
  lwip_assert "mss_local is too small" (seg_len last_unsent + unsent_optlen <=? mss_local) ;;;
  let space := u16_t (mss_local - (seg_len last_unsent + unsent_optlen)) in
  let* oversize := getp unsent_oversize in
  lwip_assert "unsent_oversize mismatch (pcb vs. last_unsent)" (oversize =? oversize_left last_unsent) ;;;
  let* (w, space) :=
    (if 0 <? oversize then
       lwip_assert "inconsistent oversize vs. space" (oversize <=? space) ;;;
       let used := Z.min space (Z.min oversize len) in
       ret (w <| w_oversize_used := used |> <| w_pos := u16_t (w_pos w + used) |>
              <| w_oversize := u16_t (oversize - used) |> <| w_touched := true |>, u16_t (space - used))
     else ret (w <| w_oversize := oversize |>, space)) in
  lwip_assert "inconsistent oversize vs. len" ((w_oversize w =? 0) || (w_pos w =? len)) ;;;
  ret (w, space).

(** "Phase 2: Chain a new pbuf to the end of pcb->unsent"; [None] stands for
    [goto memerr]. *)
Definition write_phase2 (last_unsent : tcp_seg) (space : Z) (w : write_vars) : TM (option write_vars) :=
  if (w_pos w <? len) && (0 <? space) && (0 <? seg_len last_unsent) then
    let seglen := Z.min space (len - w_pos w) in
    let data := zslice (w_pos w) seglen arg in
    let* r :=
      (if copy then
         let* oversize := tcp_pbuf_prealloc seglen space apiflags true in
         match oversize with
         | None => ret None
         | Some oversize =>
             let* c := LWIP_CHKSUM_COPY data in
             let (c, sw) := tcp_seg_add_chksum c seglen (w_concat_chksum w) (w_concat_swapped w) in
             ret (Some (w <| w_oversize := oversize |> <| w_oversize_add := oversize |> <| w_concat := Some data |>
                          <| w_concat_chksum := c |> <| w_concat_swapped := sw |>
                          <| w_queuelen := u16_t (w_queuelen w + pkt_clen [data]) |>))
         end
       else
         let* w' :=
           (if rom_adjacent last_unsent then
              lwip_assert "tcp_write: ROM pbufs cannot be oversized" (w_pos w =? 0) ;;;
              ret (Some (w <| w_extendlen := seglen |>))
            else
              let* no_memory := ask in
              if negb (no_memory =? 0) then ret None
              else ret (Some (w <| w_concat := Some data |> <| w_queuelen := u16_t (w_queuelen w + pkt_clen [data]) |>))) in
         match w' with
         | None => ret None
         | Some w =>
             let* c := chksum_nocopy data in
             let (c, sw) := tcp_seg_add_chksum c seglen (w_concat_chksum w) (w_concat_swapped w) in
             ret (Some (w <| w_concat_chksum := c |> <| w_concat_swapped := sw |>))
         end) in
    ret ((fun w => w <| w_concat_chksummed := u16_t (w_concat_chksummed w + seglen) |>
                     <| w_pos := u16_t (w_pos w + seglen) |> <| w_touched := true |>) <$> r)
  else ret (Some w).

(** The pbufs of a new segment with their payloads and the checksum of the data, when
    there is memory. *)
Definition write_new_pbufs (mss_local seglen : Z) (w : write_vars) : TM (option (pkt * (Z * bool) * Z)) :=
  let data := zslice (w_pos w) seglen arg in
  if copy then
    let first := match w_queue w with [] => true | _ => false end in
    let* oversize := tcp_pbuf_prealloc (seglen + LWIP_TCP_OPT_LENGTH 0) mss_local apiflags first in
    match oversize with
    | None => ret None
    | Some oversize =>
        let* c := LWIP_CHKSUM_COPY data in
        ret (Some ([data], tcp_seg_add_chksum c seglen 0 false, oversize))
    end
  else
    lwip_assert "oversize == 0" (w_oversize w =? 0) ;;;
    let* no_memory := ask in
    if negb (no_memory =? 0) then ret None
    else
      let* chksum := chksum_nocopy data in
      let sum := if negb (Z.land seglen 1 =? 0) then (u16_t (SWAP_BYTES_IN_WORD chksum), true) else (chksum, false) in
      let* no_memory := ask in
      if negb (no_memory =? 0) then ret None else ret (Some ([[]; data], sum, w_oversize w)).

(** "Phase 3: Create new segments": the body of the loop. *)
Definition write_new_segment (mss_local : Z) (w : write_vars) : TM (option write_vars) :=
  let left := len - w_pos w in
  let max_len := mss_local - LWIP_TCP_OPT_LENGTH 0 in
  let seglen := Z.min left max_len in
  let* r := write_new_pbufs mss_local seglen w in
  match r with
  | None => ret None
  | Some (p, (chksum, swapped), oversize) =>
      let queuelen := u16_t (w_queuelen w + pkt_clen p) in
      if Z.min TCP_SND_QUEUELEN TCP_SNDQUEUELEN_OVERFLOW <? queuelen then ret None
      else
        let* lbb := getp snd_lbb in
        let* seg := tcp_create_segment p 0 (lbb + w_pos w) 0 in
        match seg with
        | None => ret None
        | Some seg =>
            let seg := seg <| oversize_left := oversize |> <| seg_chksum := chksum |> <| seg_chksum_swapped := swapped |>
                           <| seg_optflags := Z.lor (seg_optflags seg) TF_SEG_DATA_CHECKSUMMED |> in
            ret (Some (w <| w_queuelen := queuelen |> <| w_oversize := oversize |>
                         <| w_queue := w_queue w ++ [seg] |> <| w_pos := u16_t (w_pos w + seglen) |>
                         <| w_touched := true |>))
        end
  end.

(** The loop, with fuel for the number of segments. *)
Fixpoint write_phase3 (fuel : nat) (mss_local : Z) (w : write_vars) : TM (option write_vars) :=
  if w_pos w <? len then
    match fuel with
    | O => fail OutOfFuel
    | S fuel =>
        let* r := write_new_segment mss_local w in
        match r with
        | None => ret None
        | Some w => write_phase3 fuel mss_local w
        end
    end
  else ret (Some w).

(** The data [d] is put behind the last pbuf's payload. *)
Fixpoint extend_last (p : pkt) (d : list Z) : pkt :=
  match p with
  | [] => []
  | [c] => [c ++ d]
  | c :: cs => c :: extend_last cs d
  end.

(** The changes to [last_unsent]: "commit the transaction", phases 1 and 2. *)
Definition write_commit_last (w : write_vars) (last_unsent : tcp_seg) : TM tcp_seg :=
  let seg := last_unsent in
  let seg := if negb (w_oversize_add w =? 0) then seg <| oversize_left := u16_t (oversize_left seg + w_oversize_add w) |>
             else seg in
  let* seg :=
    (if 0 <? w_oversize_used w then
       let used := w_oversize_used w in
       let data := zslice 0 used arg in
       let* c := LWIP_CHKSUM_COPY data in
       let (c, sw) := tcp_seg_add_chksum c used (seg_chksum seg) (seg_chksum_swapped seg) in
       let seg := seg <| seg_p := extend_last (seg_p seg) data |> <| seg_chksum := c |> <| seg_chksum_swapped := sw |>
                      <| seg_optflags := Z.lor (seg_optflags seg) TF_SEG_DATA_CHECKSUMMED |>
                      <| seg_len := u16_t (seg_len seg + used) |> in
       lwip_assert "last_unsent->oversize_left >= oversize_used" (used <=? oversize_left seg) ;;;
       ret (seg <| oversize_left := u16_t (oversize_left seg - used) |>)
     else ret seg) in
  let has_pbuf := match seg_p seg with [] => false | _ => true end in
  let* seg :=
    match w_concat w with
    | Some data =>
        lwip_assert "(h != NULL) && (t != NULL) (programmer violates API)" has_pbuf ;;;
        ret (seg <| seg_p := seg_p seg ++ [data] |> <| seg_len := u16_t (seg_len seg + zlen data) |>)
    | None =>
        if 0 <? w_extendlen w then
          lwip_assert "tcp_write: extension of reference requires reference" has_pbuf ;;;
          ret (seg <| seg_p := extend_last (seg_p seg) (zslice 0 (w_extendlen w) arg) |>
                   <| seg_len := u16_t (seg_len seg + w_extendlen w) |>)
        else ret seg
    end in
  if negb (w_concat_chksummed w =? 0) then
    lwip_assert "tcp_write: concat checksum needs concatenated data"
      (match w_concat w with Some _ => true | None => 0 <? w_extendlen w end) ;;;
    let c := if w_concat_swapped w then u16_t (SWAP_BYTES_IN_WORD (w_concat_chksum w)) else w_concat_chksum w in
    let (c, sw) := tcp_seg_add_chksum c (w_concat_chksummed w) (seg_chksum seg) (seg_chksum_swapped seg) in
    ret (seg <| seg_chksum := c |> <| seg_chksum_swapped := sw |>
             <| seg_optflags := Z.lor (seg_optflags seg) TF_SEG_DATA_CHECKSUMMED |>)
  else ret seg.

(** [TCPH_SET_FLAG(seg->tcphdr, TCP_PSH)] on the last segment of a queue. *)
Definition set_psh (seg : tcp_seg) : tcp_seg := seg <| seg_flags := Z.lor (seg_flags seg) TCP_PSH |>.
Fixpoint on_last (f : tcp_seg -> tcp_seg) (q : list tcp_seg) : list tcp_seg :=
  match q with
  | [] => []
  | [x] => [f x]
  | x :: q => x :: on_last f q
  end.

Definition valid_queuelen : TM unit :=
  let* p := gets st_pcb in
  if negb (snd_queuelen p =? 0) then
    lwip_assert "tcp_write: valid queue length" (match unacked p, unsent p with [], [] => false | _, _ => true end)
  else ret tt.

(** "All three segmentation phases were successful." *)
Definition write_commit (w : write_vars) : TM Z :=
  let* uns := getp unsent in
  let* uns :=
    match last uns with
    | Some last_unsent =>
        let* seg := write_commit_last w last_unsent in
        ret (removelast uns ++ seg :: w_queue w)
    | None =>
        lwip_assert "tcp_write: cannot concatenate when pcb->unsent is empty"
          (match w_concat w with Some _ => false | None => true end) ;;;
        ret (w_queue w)
    end in
  modp (fun p => p <| unsent_oversize := w_oversize w |> <| unsent := uns |>) ;;;
  modp (fun p => p <| snd_lbb := u32_t (snd_lbb p + len) |> <| snd_buf := u16_t (snd_buf p - len) |>
                   <| snd_queuelen := w_queuelen w |>) ;;;
  valid_queuelen ;;;
  when (w_touched w && negb (has apiflags TCP_WRITE_FLAG_MORE))
    (modp (fun p => p <| unsent := on_last set_psh (unsent p) |>)) ;;;
  ret ERR_OK.

Definition write_memerr : TM Z :=
  tcp_set_flags TF_NAGLEMEMERR ;;;
  valid_queuelen ;;;
  ret ERR_MEM.

(** "don't allocate segments bigger than half the maximum window we ever received". *)
Definition write_mss (p : tcp_pcb) : Z :=
  let mss_local := Z.min (mss p) (Z.min (snd_wnd_max p / 2) 65535) in
  if negb (mss_local =? 0) then mss_local else mss p.

Definition tcp_write : TM Z :=
  let* p := gets st_pcb in
  let mss_local := write_mss p in
  let* err := tcp_write_checks len in
  if negb (err =? ERR_OK) then ret err
  else
    let* p := gets st_pcb in
    let w := mkWrite 0 (snd_queuelen p) 0 0 0 0 None 0 false 0 [] false in
    let* r :=
      match last (unsent p) with
      | Some last_unsent =>
          let* (w, space) := write_phase1 mss_local last_unsent w in
          write_phase2 last_unsent space w
      | None =>
          lwip_assert "unsent_oversize mismatch (pcb->unsent is NULL)" (unsent_oversize p =? 0) ;;;
          ret (Some w)
      end in
    match r with
    | None => write_memerr
    | Some w =>
        let* r := write_phase3 (Z.to_nat len) mss_local w in
        match r with
        | None => write_memerr
        | Some w => write_commit w
        end
    end.
End Write.

(** ** SYN and FIN *)

Definition tcp_enqueue_flags (fl : Z) : TM Z :=
  lwip_assert "tcp_enqueue_flags: need either TCP_SYN or TCP_FIN in flags (programmer violates API)"
    (has fl (Z.lor TCP_SYN TCP_FIN)) ;;;
  let optflags := if has fl TCP_SYN then TF_SEG_OPTS_MSS else 0 in
  let* no_memory := ask in
  if negb (no_memory =? 0) then tcp_set_flags TF_NAGLEMEMERR ;;; ret ERR_MEM
  else
    let* lbb := getp snd_lbb in
    let* seg := tcp_create_segment [[]] fl lbb optflags in
    match seg with
    | None => tcp_set_flags TF_NAGLEMEMERR ;;; ret ERR_MEM
    | Some seg =>
        lwip_assert "tcp_enqueue_flags: invalid segment length" (seg_len seg =? 0) ;;;
        modp (fun p => p <| unsent := unsent p ++ [seg] |>) ;;;
        modp (fun p => p <| unsent_oversize := 0 |>) ;;;
        when (has fl TCP_SYN || has fl TCP_FIN) (modp (fun p => p <| snd_lbb := u32_t (snd_lbb p + 1) |>)) ;;;
        when (has fl TCP_FIN) (tcp_set_flags TF_FIN) ;;;
        modp (fun p => p <| snd_queuelen := u16_t (snd_queuelen p + pkt_clen (seg_p seg)) |>) ;;;
        valid_queuelen ;;;
        ret ERR_OK
    end.

(** The FIN of [tcp_send_fin] on an already queued segment is not counted in [snd_lbb]. *)
Definition tcp_send_fin : TM Z :=
  let* uns := getp unsent in
  match last uns with
  | Some last_unsent =>
      if negb (has (seg_flags last_unsent) (Z.lor (Z.lor TCP_SYN TCP_FIN) TCP_RST)) then
        modp (fun p => p <| unsent := on_last (fun seg => seg <| seg_flags := Z.lor (seg_flags seg) TCP_FIN |>) uns |>) ;;;
        tcp_set_flags TF_FIN ;;;
        ret ERR_OK
      else tcp_enqueue_flags TCP_FIN
  | None => tcp_enqueue_flags TCP_FIN
  end.

(** ** Splitting a segment *)

(** The checksum of a chain of payloads, buffer by buffer. *)
Fixpoint chksum_payloads (p : pkt) (chksum : Z) (swapped : bool) : TM (Z * bool) :=
  match p with
  | [] => ret (chksum, swapped)
  | c :: cs =>
      let* sum := chksum_nocopy c in
      let (chksum, swapped) := tcp_seg_add_chksum sum (zlen c) chksum swapped in
      chksum_payloads cs chksum swapped
  end.

(** When [tcp_create_segment] fails it has freed the new pbuf; [memerr] then frees it
    again, an access to memory that is no longer allocated. *)
Definition tcp_split_unsent_seg (split : Z) : TM Z :=
  let* p := gets st_pcb in
  match unsent p with
  | [] => ret ERR_MEM
  | useg :: rest =>
      if split =? 0 then lwip_assert "Can't split segment into length 0" false ;;; ret ERR_VAL
      else if seg_len useg <=? split then ret ERR_OK
      else
        lwip_assert "split <= mss" (split <=? mss p) ;;;
        lwip_assert "useg->len > 0" (0 <? seg_len useg) ;;;
        let optflags := clear_bits (seg_optflags useg) TF_SEG_DATA_CHECKSUMMED in
        let remainder := seg_len useg - split in
        let* no_memory := ask in
        if negb (no_memory =? 0) then ret ERR_MEM
        else
          let data := zslice split remainder (pkt_bytes (seg_p useg)) in
          if negb (zlen data =? remainder) then ret ERR_MEM
          else
            let* c := chksum_nocopy data in
            let (chksum, swapped) := tcp_seg_add_chksum c remainder 0 false in
            let split_flags := seg_flags useg in
            let remainder_flags := 0 in
            let '(split_flags, remainder_flags) :=
              if has split_flags TCP_PSH then (clear_bits split_flags TCP_PSH, Z.lor remainder_flags TCP_PSH)
              else (split_flags, remainder_flags) in
            let '(split_flags, remainder_flags) :=
              if has split_flags TCP_FIN then (clear_bits split_flags TCP_FIN, Z.lor remainder_flags TCP_FIN)
              else (split_flags, remainder_flags) in
            let* seg := tcp_create_segment [data] remainder_flags (seg_seqno useg + split) optflags in
            match seg with
            | None => fail BadAccess
            | Some seg =>
                let seg := seg <| seg_chksum := chksum |> <| seg_chksum_swapped := swapped |>
                               <| seg_optflags := Z.lor (seg_optflags seg) TF_SEG_DATA_CHECKSUMMED |> in
                modp (fun p => p <| snd_queuelen := u16_t (snd_queuelen p - pkt_clen (seg_p useg)) |>) ;;;
                let useg := useg <| seg_p := pkt_realloc (seg_p useg) (zlen (pkt_bytes (seg_p useg)) - remainder) |>
                                 <| seg_len := u16_t (seg_len useg - remainder) |>
                                 <| seg_flags := Z.lor (seg_flags useg) split_flags |>
                                 <| oversize_left := 0 |> in
                modp (fun p => p <| snd_queuelen := u16_t (snd_queuelen p + pkt_clen (seg_p useg)) |>) ;;;
                let* (c, sw) := chksum_payloads (seg_p useg) 0 false in
                let useg := useg <| seg_chksum := c |> <| seg_chksum_swapped := sw |> in
                modp (fun p => p <| snd_queuelen := u16_t (snd_queuelen p + pkt_clen (seg_p seg)) |>) ;;;
                modp (fun p => p <| unsent := useg :: seg :: rest |>) ;;;
                modp (fun p => match rest with [] => p <| unsent_oversize := 0 |> | _ => p end) ;;;
                ret ERR_OK
            end
  end.
