(* ===== verification/TcpWriteFacts.v ===== *)
(** * What [tcp_write] guarantees

    The data is queued behind what is queued already, the running checksums of the
    segments are those of their data, the accounts of the queues are kept; when memory
    runs out nothing is changed. *)

From S2P Require Import Prelude Def IpAddr OnesComplement Pbuf InetChksum.
From S2P Require Import Tcp TcpOut TcpIn TcpFacts TcpStream.
From S2P Require Import TcpOoseq TcpRecv TcpAck TcpOutput TcpSend TcpWrite.

(** ** The running checksum of a segment *)

(** What [chksum] and [chksum_swapped] are for the data [d]: the sum as seen from the
    byte behind it. *)
Definition sum_of (d : list Z) : Z * bool := (canon (parity (zlen d) * word_sum d), Z.odd (zlen d)).

Lemma odd_land n : 0 <= n -> negb (Z.land n 1 =? 0) = Z.odd n.
Proof.
  intros. change 1 with (Z.ones 1) at 1. rewrite Z.land_ones by lia. change (2 ^ 1) with 2. rewrite Zmod_odd. by destruct (Z.odd n).
Qed.

Lemma parity_range n : parity n = 1 \/ parity n = 256.
Proof. unfold parity. destruct (Z.odd n); auto. Qed.

Lemma word_sum_parity_zero d n : bytes_ok d -> parity n * word_sum d = 0 <-> word_sum d = 0.
Proof. intros. destruct (parity_range n) as [-> | ->]; lia. Qed.

Lemma add_chksum_spec d0 d : bytes_ok d0 -> bytes_ok d ->
  tcp_seg_add_chksum (canon (word_sum d)) (zlen d) (sum_of d0).1 (sum_of d0).2 = sum_of (d0 ++ d).
Proof.
  intros H0 Hd. unfold tcp_seg_add_chksum, sum_of. simpl. rewrite odd_land by apply zlen_nonneg.
  pose proof (canon_range (word_sum d)) as R1. pose proof (canon_range (parity (zlen d0) * word_sum d0)) as R0.
  pose proof (word_sum_nonneg _ H0) as N0. pose proof (word_sum_nonneg _ Hd) as Nd.
  rewrite (u32_t_id (_ + _)) by lia. rewrite FOLD_once by lia.
  set (x := parity (zlen d0) * word_sum d0) in *. assert (Hx : 0 <= x) by (subst x; destruct (parity_range (zlen d0)) as [-> | ->]; lia).
  assert (E : canon (canon (word_sum d) + canon x) = canon (word_sum d + x)).
  { rewrite canon_add by (done || lia). rewrite (Z.add_comm _ (canon x)), canon_add by done. by rewrite Z.add_comm. }
  rewrite E. pose proof (canon_range (word_sum d + x)). rewrite (u16_t_id (canon (word_sum d + x))) by lia.
  assert (Hc : canon ((if Z.odd (zlen d) then 256 else 1) * (word_sum d + x)) =
               canon (parity (zlen (d0 ++ d)) * word_sum (d0 ++ d))).
  { apply canon_congr.
    - rewrite word_sum_app, zlen_app. subst x. unfold parity. rewrite Z.odd_add.
      destruct (Z.odd (zlen d0)), (Z.odd (zlen d)); simpl.
      + apply (eqm_diff (word_sum d0)). lia.
      + apply (eqm_diff (- word_sum d)). lia.
      + apply (eqm_diff 0). lia.
      + apply (eqm_diff 0). lia.
    - rewrite word_sum_parity_zero by (by apply Forall_app). rewrite word_sum_zero_app by done.
      subst x. destruct (Z.odd (zlen d)), (parity_range (zlen d0)) as [-> | ->]; lia. }
  destruct (Z.odd (zlen d)) eqn:Eo.
  - rewrite SWAP_canon. pose proof (canon_range (256 * (word_sum d + x))). rewrite u16_t_id by lia. rewrite Hc. f_equal.
    rewrite zlen_app, Z.odd_add, Eo. by destruct (Z.odd (zlen d0)).
  - rewrite Z.mul_1_l in Hc. rewrite Hc. f_equal. rewrite zlen_app, Z.odd_add, Eo. by destruct (Z.odd (zlen d0)).
Qed.

(** Undoing the exchange of bytes gives the plain sum. *)
Lemma unswap_spec d : bytes_ok d ->
  (if (sum_of d).2 then u16_t (SWAP_BYTES_IN_WORD (sum_of d).1) else (sum_of d).1) = canon (word_sum d).
Proof.
  intros Hd. unfold sum_of, parity. simpl. destruct (Z.odd (zlen d)); [|by rewrite Z.mul_1_l].
  rewrite SWAP_canon. pose proof (canon_range (256 * (256 * word_sum d))). rewrite u16_t_id by lia.
  apply canon_congr; [apply (eqm_diff (word_sum d)); lia|lia].
Qed.

(** The two ways of summing new data. *)
Lemma chksum_copy_spec d (s : tcp_st) : bytes_ok d -> zlen d <= 131072 ->
  wp (LWIP_CHKSUM_COPY d) (fun c s' => c = canon (word_sum d) /\ exists l, s' = s <| oracle := l |>) s.
Proof.
  intros Hd Hl. unfold LWIP_CHKSUM_COPY. wp_step. apply wp_ask_any. intros z l _. wp_steps.
  split; [by apply lwip_standard_chksum_spec|eauto].
Qed.
Lemma chksum_nocopy_spec d (s : tcp_st) : bytes_ok d -> zlen d <= 131072 ->
  wp (chksum_nocopy d) (fun c s' => c = canon (word_sum d) /\ exists l, s' = s <| oracle := l |>) s.
Proof.
  intros Hd Hl. unfold chksum_nocopy, inet_chksum. wp_step. apply wp_ask_any. intros z l _. wp_steps.
  rewrite lwip_standard_chksum_spec by done. pose proof (canon_range (word_sum d)). split; [|eauto].
  unfold u16_t, Z.lnot. dlia.
Qed.

(** ** Queued segments *)

Abbreviation seg_data x := (pkt_bytes (seg_p x)).

(** A segment as the functions of this file leave it. *)
Record tseg_ok (x : tcp_seg) : Prop := TsegOk {
  ts_tx : txseg_ok x;
  ts_p : seg_p x <> [];
  ts_bytes : bytes_ok (seg_data x);
  ts_sum : (seg_chksum x, seg_chksum_swapped x) = sum_of (seg_data x);
  ts_len : seg_len x < 65535
}.

(** The segment fits into a packet of [m] bytes. *)
Definition seg_fits (m : Z) (x : tcp_seg) : Prop := seg_len x + LWIP_TCP_OPT_LENGTH (seg_optflags x) <= m.

(** The unsent queue: its segments fit, and the room kept free behind its last one. *)
Definition tail_ok (p : tcp_pcb) : Prop :=
  Forall (seg_fits (write_mss p)) (unsent p) /\
  match last (unsent p) with
  | None => unsent_oversize p = 0
  | Some x =>
      unsent_oversize p = oversize_left x /\ 0 <= oversize_left x /\
      seg_len x + LWIP_TCP_OPT_LENGTH (seg_optflags x) + oversize_left x <= write_mss p
  end.

Record write_inv (p : tcp_pcb) : Prop := WriteInv {
  wi_segs : Forall tseg_ok (unacked p ++ unsent p);
  wi_qlen : qlen_ok p;
  wi_tail : tail_ok p;
  wi_una : Forall (fun x => seg_fits (write_mss p) x /\ oversize_left x = 0) (unacked p);
  wi_mss : 0 < mss p <= TCP_MSS /\ 2 <= snd_wnd_max p < 65536;
  wi_buf : 0 <= snd_buf p < 65536
}.

(** [q] is new data [d] from sequence number [sq] on. *)
Fixpoint new_segs (sq : Z) (q : list tcp_seg) (d : list Z) : Prop :=
  match q with
  | [] => d = []
  | x :: q => seg_seqno x = u32_t sq /\ tseg_ok x /\ has (seg_flags x) (Z.lor TCP_FIN TCP_SYN) = false /\
      exists d', d = seg_data x ++ d' /\ new_segs (sq + seg_len x) q d'
  end.

(** [x'] is [x] with the data [d] appended. *)
Record extends (x x' : tcp_seg) (d : list Z) : Prop := Extends {
  ex_ok : tseg_ok x -> tseg_ok x';
  ex_data : seg_data x' = seg_data x ++ d;
  ex_seqno : seg_seqno x' = seg_seqno x;
  ex_flags : forall b, Z.land b TCP_PSH = 0 -> has (seg_flags x') b = has (seg_flags x) b;
  ex_opts : LWIP_TCP_OPT_LENGTH (seg_optflags x') = LWIP_TCP_OPT_LENGTH (seg_optflags x)
}.

Lemma write_mss_range p : 0 < mss p <= TCP_MSS -> 2 <= snd_wnd_max p < 65536 -> 0 < write_mss p < 65535.
Proof.
  unfold TCP_MSS. intros H1 H2. unfold write_mss. destruct (Z.eqb_spec (Z.min (mss p) (Z.min (snd_wnd_max p / 2) 65535)) 0); cbn [negb]; [lia|].
  assert (0 <= snd_wnd_max p / 2) by (apply Z.div_pos; lia). lia.
Qed.

Lemma summed_flag f : has (Z.lor f TF_SEG_DATA_CHECKSUMMED) TF_SEG_DATA_CHECKSUMMED = true /\
  LWIP_TCP_OPT_LENGTH (Z.lor f TF_SEG_DATA_CHECKSUMMED) = LWIP_TCP_OPT_LENGTH f.
Proof.
  unfold LWIP_TCP_OPT_LENGTH. rewrite !has_lor. change (has TF_SEG_DATA_CHECKSUMMED TF_SEG_DATA_CHECKSUMMED) with true.
  change (has TF_SEG_DATA_CHECKSUMMED TF_SEG_OPTS_MSS) with false. by rewrite orb_true_r, orb_false_r.
Qed.

Lemma extend_last_bytes p d : p <> [] -> pkt_bytes (extend_last p d) = pkt_bytes p ++ d /\ extend_last p d <> [] /\
  zlen (extend_last p d) = zlen p.
Proof.
  induction p as [|c p IH]; [done|]. intros _. destruct p as [|c2 p].
  - simpl. unfold pkt_bytes. simpl. by rewrite !app_nil_r.
  - destruct (IH ltac:(done)) as (IH1 & IH2 & IH3). change (extend_last (c :: c2 :: p) d) with (c :: extend_last (c2 :: p) d).
    rewrite !(pkt_bytes_cons c), IH1, app_assoc, !(zlen_cons c), IH3. done.
Qed.

(** *** The numbers of the queued bytes *)

(** The sequence number of the first byte of data: a SYN takes a number of its own. *)
Definition data_seqno (x : tcp_seg) : Z := seg_seqno x + (if has (seg_flags x) TCP_SYN then 1 else 0).

(** Byte [b] is queued with sequence number [n]. *)
Definition numbered (q : list tcp_seg) (n b : Z) : Prop :=
  exists x k, x ∈ q /\ seg_data x !! k = Some b /\ n = u32_t (data_seqno x + Z.of_nat k).

(** The data of the last unsent segment ends where new data starts. It does not when a
    segment put back for a fast retransmission is alone on the queue. *)
Definition tail_joins (p : tcp_pcb) : Prop :=
  match last (unsent p) with
  | None => True
  | Some x => u32_t (data_seqno x + seg_len x) = u32_t (snd_lbb p)
  end.

Lemma numbered_app q1 q2 n b : numbered (q1 ++ q2) n b <-> numbered q1 n b \/ numbered q2 n b.
Proof.
  unfold numbered. split.
  - intros (x & k & Hx & H). rewrite elem_of_app in Hx. destruct Hx; [left|right]; eauto.
  - intros [(x & k & Hx & H)|(x & k & Hx & H)]; exists x, k; rewrite elem_of_app; auto.
Qed.
Lemma numbered_one x n b : numbered [x] n b <-> exists k, seg_data x !! k = Some b /\ n = u32_t (data_seqno x + Z.of_nat k).
Proof.
  split; [intros (y & k & Hy & H)|intros (k & H)].
  - apply list_elem_of_singleton in Hy as ->. eauto.
  - exists x, k. by rewrite list_elem_of_singleton.
Qed.

(** The bytes of [d] from number [sq] on. *)
Definition laid (sq : Z) (d : list Z) (n b : Z) : Prop := exists i, d !! i = Some b /\ n = u32_t (sq + Z.of_nat i).
Lemma laid_app sq d1 d2 n b : laid sq (d1 ++ d2) n b <-> laid sq d1 n b \/ laid (sq + zlen d1) d2 n b.
Proof.
  unfold laid. split.
  - intros (i & Hi & ->). apply lookup_app_Some in Hi as [Hi|[Hl Hi]]; [by left; exists i|right].
    exists (i - length d1)%nat. split; [done|]. f_equal. unfold zlen. lia.
  - intros [(i & Hi & ->)|(i & Hi & ->)].
    + exists i. split; [by apply lookup_app_l_Some|done].
    + exists (length d1 + i)%nat. rewrite lookup_app_r by lia. replace (length d1 + i - length d1)%nat with i by lia.
      split; [done|]. f_equal. unfold zlen. lia.
Qed.
Lemma laid_eq sq1 sq2 d n b : u32_t sq1 = u32_t sq2 -> laid sq1 d n b -> laid sq2 d n b.
Proof.
  intros E (i & Hi & ->). exists i. split; [done|]. rewrite <- (u32_t_add_l sq1), E. apply u32_t_add_l.
Qed.

Lemma new_segs_numbered sq q d n b : new_segs sq q d -> numbered q n b <-> laid sq d n b.
Proof.
  revert sq d. induction q as [|x q IH]; intros sq d.
  { intros ->. split; [intros (x & _ & Hx & _); by apply not_elem_of_nil in Hx|intros (i & Hi & _); done]. }
  intros (E & Hx & Hf & d' & -> & Hq). change (x :: q) with ([x] ++ q). rewrite numbered_app, numbered_one, laid_app.
  rewrite (IH _ _ Hq), (txs_bytes _ (ts_tx _ Hx)). apply or_iff_compat_r.
  assert (Hs : has (seg_flags x) TCP_SYN = false).
  { revert Hf. unfold has. rewrite !negb_false_iff, !Z.eqb_eq. intros Hf. apply Z.bits_inj'. intros i Hi.
    apply (f_equal (fun z => Z.testbit z i)) in Hf. rewrite Z.land_spec, Z.lor_spec, Z.bits_0 in Hf. rewrite Z.land_spec, Z.bits_0.
    destruct (Z.testbit (seg_flags x) i), (Z.testbit TCP_SYN i); try done. by rewrite orb_true_r in Hf. }
  unfold data_seqno, laid. rewrite Hs, Z.add_0_r, E. by setoid_rewrite u32_t_add_l.
Qed.

(** ** The phases *)

Section Write.
Context (arg : list Z) (apiflags : Z) (rom_adjacent : tcp_seg -> bool).
Context (Harg : bytes_ok arg) (Hlen : zlen arg < 65536).
(** A pbuf that refers to read-only memory has no room behind its data. *)
Context (Hrom : forall x, rom_adjacent x = true -> oversize_left x = 0).
Abbreviation len := (zlen arg).

(** Only the oracle differs. *)
Definition asked (s s' : tcp_st) : Prop := exists l, s' = s <| oracle := l |>.
Lemma asked_refl s : asked s s.
Proof. exists (oracle s). by destruct s. Qed.
Lemma asked_trans s1 s2 s3 : asked s1 s2 -> asked s2 s3 -> asked s1 s3.
Proof. intros [l ->] [l' ->]. by exists l'. Qed.

Lemma prealloc_spec n m fl first s : 0 <= n <= m -> m < 65536 ->
  wp (tcp_pbuf_prealloc n m fl first) (fun r s' => asked s s' /\
    match r with Some o => 0 <= o /\ n + o <= m | None => True end) s.
Proof.
  intros Hn Hm. unfold tcp_pbuf_prealloc. wp_steps. set (alloc := if n <? m then _ else _).
  assert (Ha : n <= alloc <= m).
  { subst alloc. destruct (Z.ltb_spec n m); [|lia]. destruct (_ || _); [|lia].
    assert (E : LWIP_MEM_ALIGN_SIZE (TCP_OVERSIZE_CALC_LENGTH n) = n + 1460).
    { unfold LWIP_MEM_ALIGN_SIZE, TCP_OVERSIZE_CALC_LENGTH, MEM_ALIGNMENT, TCP_OVERSIZE, TCP_MSS.
      replace (n + 1460 + 1 - 1) with (n + 1460) by lia. change (u32_t (Z.lnot (1 - 1))) with (Z.ones 32).
      rewrite Z.land_ones by lia. rewrite u32_t_id by lia. apply Z.mod_small. lia. }
    rewrite E, u16_t_id by lia. lia. }
  clearbody alloc. apply wp_ask_any. intros z l _. destruct (negb _); wp_steps; (split; [by exists l|]); [done|].
  rewrite u16_t_id by lia. lia.
Qed.

Record last_vars (p : tcp_pcb) (x : tcp_seg) (k : Z) (w : write_vars) : Prop := LastVars {
  lv_used : 0 <= w_oversize_used w <= oversize_left x;
  lv_pos : w_pos w = w_oversize_used w + k /\ 0 <= k /\ w_pos w <= len;
  lv_concat : (exists d, w_concat w = Some d /\ d = zslice (w_oversize_used w) k arg /\ w_extendlen w = 0 /\
                w_queuelen w = snd_queuelen p + 1 /\ 0 < k) \/
              (w_concat w = None /\ w_extendlen w = k /\ (0 < k -> w_oversize_used w = 0) /\ w_queuelen w = snd_queuelen p);
  lv_sum : (w_concat_chksum w, w_concat_swapped w) = sum_of (zslice (w_oversize_used w) k arg) /\ w_concat_chksummed w = k;
  lv_over : w_oversize w = oversize_left x - w_oversize_used w + w_oversize_add w /\ 0 <= w_oversize_add w;
  lv_room : seg_len x + LWIP_TCP_OPT_LENGTH (seg_optflags x) + w_oversize_used w + k + w_oversize w <= write_mss p;
  lv_full : w_oversize w = 0 \/ w_pos w = len;
  lv_queue : w_queue w = []
}.

Definition no_vars (p : tcp_pcb) : write_vars := mkWrite 0 (snd_queuelen p) 0 0 0 0 None 0 false 0 [] false.

Lemma zslice_0 {A} n (l : list A) : zslice n 0 l = [].
Proof. done. Qed.
Lemma opt_length_pos f : 0 <= LWIP_TCP_OPT_LENGTH f <= 4.
Proof. unfold LWIP_TCP_OPT_LENGTH. destruct (has _ _); lia. Qed.

Lemma write_phase1_spec x s : write_inv (st_pcb s) -> last (unsent (st_pcb s)) = Some x -> 0 <= seg_len x ->
  wp (write_phase1 arg (write_mss (st_pcb s)) x (no_vars (st_pcb s))) (fun r s' => s' = s /\
    last_vars (st_pcb s) x 0 r.1 /\ r.2 = write_mss (st_pcb s) - (seg_len x + LWIP_TCP_OPT_LENGTH (seg_optflags x)) - w_oversize_used r.1 /\
    w_concat r.1 = None /\ w_oversize_add r.1 = 0 /\ w_extendlen r.1 = 0) s.
Proof.
  intros [Hs Hq Ht _ [Hm1 Hm2] Hb] Hl Hx. unfold tail_ok in Ht. rewrite Hl in Ht. destruct Ht as (_ & T1 & T2 & T3).
  pose proof (write_mss_range _ Hm1 Hm2). pose proof (opt_length_pos (seg_optflags x)).
  unfold write_phase1. wp_steps. apply wp_assert; [apply Z.leb_le; lia|]. wp_steps.
  rewrite (u16_t_id (write_mss _ - _)) by lia. rewrite T1. apply wp_assert; [apply Z.eqb_refl|].
  pose proof (zlen_nonneg arg).
  destruct (Z.ltb_spec 0 (oversize_left x)); wp_steps.
  - apply wp_assert; [apply Z.leb_le; lia|]. wp_steps. set (used := Z.min _ _).
    assert (Hu : 0 <= used <= oversize_left x /\ used <= len /\ (used = len \/ used = oversize_left x)) by (subst used; lia).
    change (w_pos (no_vars (st_pcb s)) + used) with (0 + used).
    rewrite (u16_t_id (0 + used)), (u16_t_id (oversize_left x - used)) by lia.
    apply wp_assert; [apply orb_true_iff; rewrite !Z.eqb_eq; lia|]. wp_steps. split; [done|].
    cbn [fst snd]. split; [|split; [rec_simpl; rewrite u16_t_id by lia; lia|done]].
    split; rec_simpl; rewrite ?zslice_0; try done; try lia; [|unfold no_vars; simpl; lia].
    right. by split_and!.
  - apply wp_assert; [apply orb_true_iff; rewrite Z.eqb_eq; lia|]. wp_steps. split; [done|].
    cbn [fst snd]. split; [|split; [rec_simpl; unfold no_vars; simpl; lia|done]].
    split; rec_simpl; rewrite ?zslice_0; try done; try (unfold no_vars; simpl; lia).
    right. by split_and!.
Qed.

Lemma add_first_spec d c sw : bytes_ok d -> (c, sw) = sum_of [] ->
  tcp_seg_add_chksum (canon (word_sum d)) (zlen d) c sw = sum_of d.
Proof. intros Hd [= -> ->]. by apply (add_chksum_spec []). Qed.

(** The variables after new data has been recorded for the last segment. *)
Lemma last_vars_more p x w k o oa ad c q ql : last_vars p x 0 w -> write_inv p -> 0 < k -> w_pos w + k <= len ->
  w_oversize w = 0 -> w_oversize_add w = 0 ->
  seg_len x + LWIP_TCP_OPT_LENGTH (seg_optflags x) + w_oversize_used w + k + o <= write_mss p ->
  0 <= o -> oa = o -> (o = 0 \/ w_pos w + k = len) ->
  (q = Some (zslice (w_pos w) k arg) /\ ad = w_extendlen w /\ ql = snd_queuelen p + 1 /\ w_extendlen w = 0 \/
   q = None /\ ad = k /\ w_pos w = 0 /\ ql = snd_queuelen p) ->
  c = sum_of (zslice (w_pos w) k arg) ->
  last_vars p x k (w <| w_oversize := o |> <| w_oversize_add := oa |> <| w_extendlen := ad |> <| w_concat := q |>
    <| w_concat_chksum := c.1 |> <| w_concat_swapped := c.2 |> <| w_queuelen := ql |>
    <| w_concat_chksummed := k |> <| w_pos := w_pos w + k |> <| w_touched := true |>).
Proof.
  intros [L1 (L2 & L2' & L2'') L3 [L4 L4'] [L5 L5'] L6 L7 L8] Hi Hk Hpos Ho Hoa Hroom Hoo -> Hf Hq ->. rewrite Z.add_0_r in L2.
  split; rec_simpl; try done; try lia; rewrite <- ?L2.
  - destruct Hq as [(-> & -> & -> & E)|(-> & -> & E & ->)]; [left|right].
    + eexists. split_and!; done.
    + split_and!; done.
  - split; [|done]. by destruct (sum_of _).
Qed.

Lemma last_vars_eq p x k w w' : last_vars p x k w -> w' = w -> last_vars p x k w'.
Proof. by intros ? ->. Qed.
Lemma slice_ok a n : 0 <= a -> 0 <= n -> a + n <= len -> bytes_ok (zslice a n arg) /\ zlen (zslice a n arg) = n.
Proof. intros. split; [by apply bytes_ok_ztake, bytes_ok_zdrop|by apply zlen_zslice]. Qed.

Lemma write_phase2_spec x w s space : write_inv (st_pcb s) -> last_vars (st_pcb s) x 0 w -> w_concat w = None ->
  w_oversize_add w = 0 -> w_extendlen w = 0 ->
  space = write_mss (st_pcb s) - (seg_len x + LWIP_TCP_OPT_LENGTH (seg_optflags x)) - w_oversize_used w ->
  0 <= seg_len x -> 0 <= snd_queuelen (st_pcb s) -> len = 0 \/ snd_queuelen (st_pcb s) < 90 ->
  wp (write_phase2 arg apiflags rom_adjacent x space w) (fun r s' => asked s s' /\
    match r with Some w' => exists k, last_vars (st_pcb s) x k w' | None => True end) s.
Proof.
  intros Hi Hl Hc Had Hex Hsp Hx Hq0 Hq. unfold write_phase2.
  destruct (Z.ltb_spec (w_pos w) len); cbn [andb]; [|wp_steps; split; [apply asked_refl|by exists 0]].
  destruct (Z.ltb_spec 0 space); cbn [andb]; [|wp_steps; split; [apply asked_refl|by exists 0]].
  destruct (Z.ltb_spec 0 (seg_len x)); cbn [andb]; [|wp_steps; split; [apply asked_refl|by exists 0]].
  pose proof Hl as [L1 (L2 & L2' & L2'') L3 [L4 L4'] [L5 L5'] L6 L7 L8]. pose proof Hi as [_ _ _ _ [Hm1 Hm2] _].
  pose proof (write_mss_range _ Hm1 Hm2). pose proof (opt_length_pos (seg_optflags x)).
  assert (Ho : w_oversize w = 0) by lia. set (seglen := Z.min space (len - w_pos w)).
  assert (Hs : 0 < seglen <= space /\ w_pos w + seglen <= len) by lia.
  destruct (slice_ok (w_pos w) seglen) as [Hd Hdl]; [lia..|]. remember (zslice (w_pos w) seglen arg) as data eqn:Ed.
  assert (Hqu : w_queuelen w = snd_queuelen (st_pcb s)) by (destruct L3 as [(d & E & _)|(_ & _ & _ & E)]; [congruence|done]).
  assert (Hsum : (w_concat_chksum w, w_concat_swapped w) = sum_of []) by done.
  assert (Hcl : pkt_clen [data] = 1) by done.
  pose proof (add_first_spec data _ _ Hd Hsum) as Hadd. rewrite Hdl in Hadd.
  destruct (sum_of data) as [c1 sw1] eqn:Es.
  assert (Hql : u16_t (w_queuelen w + 1) = snd_queuelen (st_pcb s) + 1) by (rewrite Hqu; apply u16_t_id; lia).
  assert (Hchk : u16_t (w_concat_chksummed w + seglen) = seglen) by (rewrite L4'; apply u16_t_id; lia).
  assert (Hpo : u16_t (w_pos w + seglen) = w_pos w + seglen) by (apply u16_t_id; lia).
  assert (Hend : seglen = space \/ w_pos w + seglen = len) by lia. clearbody seglen.
  wp_step. destruct (has apiflags TCP_WRITE_FLAG_COPY).
  - wp_step. eapply wp_conseq; [apply (prealloc_spec seglen space apiflags true s); lia|].
    intros [o|] s1 [Hs1 Ho1]; wp_steps; [|by split].
    eapply wp_conseq; [apply (chksum_copy_spec data); [done|lia]|]. intros c s2 [-> Hs2]. wp_steps.
    rewrite Hadd. wp_steps. split; [by eapply asked_trans|]. exists seglen. simpl. rewrite Hcl, Hql, Hchk, Hpo.
    pose proof (last_vars_more _ x w seglen o o (w_extendlen w) (c1, sw1) (Some data) (snd_queuelen (st_pcb s) + 1) Hl) as HL.
    eapply last_vars_eq; [apply HL; try done; try lia; rewrite <- Ed; [by left|done]|by destruct w].
  - wp_step.
    apply (wp_conseq _ (fun r s' => asked s s' /\ match r with Some w1 =>
      w1 = w <| w_extendlen := seglen |> /\ w_pos w = 0 \/
      w1 = w <| w_concat := Some data |> <| w_queuelen := u16_t (w_queuelen w + pkt_clen [data]) |> | None => True end)).
    { destruct (rom_adjacent x) eqn:Er.
      - apply Hrom in Er. wp_steps. apply wp_assert; [apply Z.eqb_eq; lia|]. wp_steps. split; [apply asked_refl|]. left. split; [done|lia].
      - wp_steps. apply wp_ask_any. intros z l _. destruct (negb _); wp_steps; (split; [by exists l|]); [done|by right]. }
    intros [w1|] s1 [Hs1 Hw]; wp_steps; [|by split].
    eapply wp_conseq; [apply (chksum_nocopy_spec data); [done|lia]|]. intros c s2 [-> Hs2]. wp_steps.
    destruct Hw as [[-> Hp0]| ->]; rec_simpl; rewrite Hadd; wp_steps; (split; [by eapply asked_trans|]); exists seglen; simpl; rewrite ?Hcl, ?Hql, Hchk, Hpo.
    + pose proof (last_vars_more _ x w seglen (w_oversize w) (w_oversize_add w) seglen (c1, sw1) (w_concat w) (w_queuelen w) Hl) as HL.
      eapply last_vars_eq; [apply HL; try done; try lia; rewrite <- ?Ed; [right; by split_and!|done]|by destruct w].
    + pose proof (last_vars_more _ x w seglen (w_oversize w) (w_oversize_add w) (w_extendlen w) (c1, sw1) (Some data)
        (snd_queuelen (st_pcb s) + 1) Hl) as HL.
      eapply last_vars_eq; [apply HL; try done; try lia; rewrite <- ?Ed; [by left|done]|by destruct w].
Qed.

(** ** New segments *)

Lemma new_segs_snoc sq q d x : new_segs sq q d -> seg_seqno x = u32_t (sq + zlen d) -> tseg_ok x ->
  has (seg_flags x) (Z.lor TCP_FIN TCP_SYN) = false -> new_segs sq (q ++ [x]) (d ++ seg_data x).
Proof.
  revert sq d. induction q as [|y q IH]; intros sq d; simpl.
  - intros -> E Hx Hf. change (zlen (@nil Z)) with 0 in E. rewrite Z.add_0_r in E.
    split_and!; try done. exists []. by rewrite app_nil_r.
  - intros (E1 & Hy & Hfy & d' & -> & Hq) E Hx Hf. split_and!; try done. exists (d' ++ seg_data x). rewrite app_assoc.
    split; [done|]. apply IH; try done. rewrite E, zlen_app, (txs_bytes _ (ts_tx _ Hy)). f_equal. lia.
Qed.

Lemma zslice_snoc {A} a n m (l : list A) : 0 <= a -> 0 <= n -> 0 <= m -> zslice a n l ++ zslice (a + n) m l = zslice a (n + m) l.
Proof.
  intros. unfold zslice. rewrite <- (zdrop_zdrop n a) by lia. generalize (zdrop a l). intros k.
  rewrite <- zdrop_ztake by lia. rewrite <- (ztake_ztake n (n + m) k) by lia. apply ztake_zdrop.
Qed.

Lemma create_segment_spec p hf sq s : zlen (pkt_bytes p) < 65536 ->
  wp (tcp_create_segment p hf sq 0) (fun r s' => asked s s' /\
    match r with Some x => x = mkSeg (u32_t sq) hf (zlen (pkt_bytes p)) p 0 0 0 false | None => True end) s.
Proof.
  intros Hp. pose proof (zlen_nonneg (pkt_bytes p)). unfold tcp_create_segment. wp_step. apply wp_ask_any. intros z l _.
  destruct (negb (z =? 0)); wp_steps; [split; [by exists l|done]|]. apply wp_assert; [done|].
  wp_step. apply wp_ask_any. intros z2 l2 _. destruct (negb (z2 =? 0)); wp_steps; (split; [by exists l2|]); [done|].
  by rewrite u16_t_id by lia.
Qed.

(** The pbufs of a new segment. *)
Lemma write_new_pbufs_spec seglen w s : 0 < seglen -> w_pos w + seglen <= len -> 0 <= w_pos w ->
  seglen <= write_mss (st_pcb s) -> write_mss (st_pcb s) < 65535 -> w_oversize w = 0 ->
  wp (write_new_pbufs arg apiflags (write_mss (st_pcb s)) seglen w) (fun r s' => asked s s' /\
    match r with
    | Some (p, c, o) => pkt_bytes p = zslice (w_pos w) seglen arg /\ p <> [] /\ zlen p <= 2 /\
        c = sum_of (pkt_bytes p) /\ 0 <= o /\ seglen + o <= write_mss (st_pcb s)
    | None => True
    end) s.
Proof.
  intros Hs Hp Hp0 Hm Hm2 Ho. destruct (slice_ok (w_pos w) seglen) as [Hd Hdl]; [lia..|].
  unfold write_new_pbufs. remember (zslice (w_pos w) seglen arg) as data eqn:Ed.
  assert (E1 : pkt_bytes [data] = data /\ pkt_bytes [[]; data] = data) by (unfold pkt_bytes; simpl; by rewrite app_nil_r).
  destruct E1 as [E1 E2]. destruct (has apiflags TCP_WRITE_FLAG_COPY).
  - wp_step. eapply wp_conseq; [apply prealloc_spec; change (LWIP_TCP_OPT_LENGTH 0) with 0; lia|].
    intros [o|] s1 [Hs1 Ho1]; wp_steps; [|by split].
    eapply wp_conseq; [apply (chksum_copy_spec data); [done|lia]|]. intros c s2 [-> Hs2]. wp_steps.
    rewrite <- Hdl at 1. rewrite (add_first_spec data 0 false Hd) by done. split; [by eapply asked_trans|].
    rewrite E1. change (LWIP_TCP_OPT_LENGTH 0) with 0 in Ho1. split_and!; done || lia.
  - wp_step. apply wp_assert; [by apply Z.eqb_eq|]. wp_step. apply wp_ask_any. intros z l _.
    destruct (negb (z =? 0)); wp_steps; [split; [by exists l|done]|].
    eapply wp_conseq; [apply (chksum_nocopy_spec data); [done|lia]|]. intros c s2 [-> [l2 ->]]. wp_steps.
    apply wp_ask_any. intros z3 l3 _. destruct (negb (z3 =? 0)); wp_steps; (split; [by exists l3|]); [done|].
    rewrite E2, odd_land, Ho by lia. split_and!; try done; try lia.
    unfold sum_of, parity. rewrite Hdl. destruct (Z.odd seglen); [|by rewrite Z.mul_1_l].
    rewrite SWAP_canon. pose proof (canon_range (256 * word_sum data)). by rewrite u16_t_id by lia.
Qed.

(** The variables while segments are added to those of [w0]. *)
Record queue_vars (p : tcp_pcb) (w0 w : write_vars) : Prop := QueueVars {
  qv_same : w = w0 <| w_queuelen := w_queuelen w |> <| w_oversize := w_oversize w |> <| w_queue := w_queue w |>
                   <| w_pos := w_pos w |> <| w_touched := w_touched w |>;
  qv_pos : w_pos w0 <= w_pos w <= len;
  qv_queue : new_segs (snd_lbb p + w_pos w0) (w_queue w) (zslice (w_pos w0) (w_pos w - w_pos w0) arg);
  qv_len : w_queuelen w = w_queuelen w0 + clens (w_queue w) /\ w_queuelen w <= TCP_SND_QUEUELEN;
  qv_over : match last (w_queue w) with
            | None => w_oversize w = w_oversize w0
            | Some x => w_oversize w = oversize_left x /\ 0 <= oversize_left x /\
                seg_len x + LWIP_TCP_OPT_LENGTH (seg_optflags x) + oversize_left x <= write_mss p
            end;
  qv_full : w_oversize w = 0 \/ w_pos w = len;
  qv_fit : Forall (seg_fits (write_mss p)) (w_queue w)
}.

Lemma write_new_segment_spec w0 w s : queue_vars (st_pcb s) w0 w -> 0 <= w_pos w0 -> 0 <= w_queuelen w0 <= TCP_SND_QUEUELEN -> w_pos w < len ->
  0 < write_mss (st_pcb s) < 65535 ->
  wp (write_new_segment arg apiflags (write_mss (st_pcb s)) w) (fun r s' => asked s s' /\
    match r with Some w' => queue_vars (st_pcb s) w0 w' /\ w_pos w < w_pos w' | None => True end) s.
Proof.
  intros [Q1 Q2 Q3 Q4 Q5 Q6 Q7] Hw0 Hql Hlt Hm. assert (H90 : TCP_SND_QUEUELEN = 90) by done. unfold write_new_segment. change (LWIP_TCP_OPT_LENGTH 0) with 0. rewrite Z.sub_0_r.
  set (seglen := Z.min _ _). assert (Hs : 0 < seglen <= write_mss (st_pcb s) /\ w_pos w + seglen <= len /\
    (seglen = write_mss (st_pcb s) \/ w_pos w + seglen = len)) by lia.
  clearbody seglen. wp_step. eapply wp_conseq; [apply write_new_pbufs_spec; lia|].
  intros [[[p c] o]|] s1 [Hs1 Hr]; [|by wp_steps]. destruct Hr as (P1 & P2 & P3 & -> & P5 & P6).
  destruct (slice_ok (w_pos w) seglen) as [Hd Hdl]; [lia..|].
  remember (zslice (w_pos w) seglen arg) as data eqn:Ed. destruct (sum_of (pkt_bytes p)) as [c sw] eqn:Es. wp_steps.
  pose proof (clens_nonneg (w_queue w)). pose proof (zlen_nonneg p).
  unfold pkt_clen. rewrite (u16_t_id (zlen p)) by lia. 
  destruct (Z.ltb_spec (Z.min TCP_SND_QUEUELEN TCP_SNDQUEUELEN_OVERFLOW) (u16_t (w_queuelen w + zlen p))); [by wp_steps|].
  wp_steps. eapply wp_conseq; [apply create_segment_spec; rewrite P1, Hdl; lia|].
  intros [x|] s2 [Hs2 Hx]; wp_steps; (split; [by eapply asked_trans|]); [|done]. subst x. rec_simpl.
  set (x := _ <| seg_optflags := _ |>).
  assert (Hx : tseg_ok x /\ seg_data x = data /\ seg_len x = seglen /\ seg_seqno x = u32_t (snd_lbb (st_pcb s1) + w_pos w) /\
    seg_flags x = 0 /\ LWIP_TCP_OPT_LENGTH (seg_optflags x) = 0 /\ zlen (seg_p x) = zlen p /\ oversize_left x = o).
  { subst x. rec_simpl. simpl. rewrite P1, Hdl. split_and!; try done. split; rec_simpl; simpl; rewrite ?P1; try done; [|by rewrite <- P1, Es|lia].
    split; unfold TCP_TCPLEN; rec_simpl; simpl; rewrite ?P1, ?Hdl; try done. lia. }
  clearbody x. destruct Hx as (X1 & X2 & X3 & X4 & X5 & X6 & X7 & X8).
  assert (Hsp : snd_lbb (st_pcb s1) = snd_lbb (st_pcb s)) by (by destruct Hs1 as [? ->]). rewrite Hsp in X4.
  rewrite (u16_t_id (w_queuelen w + zlen p)), (u16_t_id (w_pos w + seglen)) in * by lia.
  unfold TCP_SNDQUEUELEN_OVERFLOW in *.
  split; [|rec_simpl; lia]. split; rec_simpl.
  - rewrite Q1 at 1. by destruct w0.
  - lia.
  - replace (w_pos w + seglen - w_pos w0) with ((w_pos w - w_pos w0) + seglen) by lia.
    rewrite <- zslice_snoc by lia. replace (w_pos w0 + (w_pos w - w_pos w0)) with (w_pos w) by lia. rewrite <- Ed, <- X2.
    apply new_segs_snoc; try done; [|by rewrite X5]. rewrite X4, zlen_zslice by lia. f_equal. lia.
  - rewrite clens_app. simpl. lia.
  - rewrite last_snoc, X3, X6, X8. lia.
  - destruct Hs as (_ & _ & [Hs|Hs]); [left; lia|by right].
  - apply Forall_app. split; [done|]. constructor; [|done]. unfold seg_fits. rewrite X3, X6. lia.
Qed.

Lemma write_phase3_spec fuel w0 w s : queue_vars (st_pcb s) w0 w -> 0 <= w_pos w0 -> 0 <= w_queuelen w0 <= TCP_SND_QUEUELEN ->
  0 < write_mss (st_pcb s) < 65535 -> len - w_pos w <= Z.of_nat fuel ->
  wp (write_phase3 arg apiflags fuel (write_mss (st_pcb s)) w) (fun r s' => asked s s' /\
    match r with Some w' => queue_vars (st_pcb s) w0 w' /\ w_pos w' = len | None => True end) s.
Proof.
  revert w s. induction fuel as [|fuel IH]; intros w s Hq H0 Hql Hm Hf; cbn [write_phase3]; pose proof (qv_pos _ _ _ Hq).
  - destruct (Z.ltb_spec (w_pos w) len); [lia|]. wp_steps. split; [apply asked_refl|]. split; [done|lia].
  - destruct (Z.ltb_spec (w_pos w) len); [|wp_steps; split; [apply asked_refl|]; split; [done|lia]].
    wp_step. eapply wp_conseq; [by apply (write_new_segment_spec w0)|].
    intros [w'|] s1 [[l ->] Hr]; [|wp_steps; split; [by exists l|done]]. destruct Hr as [Hq' Hlt].
    specialize (IH w' (s <| oracle := l |>)). change (st_pcb (s <| oracle := l |>)) with (st_pcb s) in IH.
    eapply wp_conseq; [apply IH; try done; lia|].
    intros r s2 [Hs2 Hr]. split; [|done]. eapply asked_trans; [|exact Hs2]. by exists l.
Qed.

(** ** Committing the changes *)

Lemma append_ok x x' d : bytes_ok d -> seg_p x' <> [] -> seg_data x' = seg_data x ++ d -> seg_seqno x' = seg_seqno x ->
  seg_flags x' = seg_flags x -> seg_len x' = seg_len x + zlen d -> seg_len x' < 65535 ->
  (d = [] /\ seg_optflags x' = seg_optflags x \/ seg_optflags x' = Z.lor (seg_optflags x) TF_SEG_DATA_CHECKSUMMED) ->
  (tseg_ok x -> (seg_chksum x', seg_chksum_swapped x') = sum_of (seg_data x ++ d)) -> extends x x' d.
Proof.
  intros Hd Hp Hdat Hsq Hfl Hl Hl5 Ho Hs. split; [|done|done|by rewrite Hfl|].
  - intros Hx. pose proof Hx as [[T1 T2 T3 T4] T5 T6 T7 T8].
    assert (Hlen' : seg_len x' = zlen (seg_data x')) by (rewrite Hdat, zlen_app, Hl; lia).
    split; [split|done|rewrite Hdat; by apply Forall_app|rewrite Hdat; auto|done].
    + unfold TCP_TCPLEN in *. rewrite Hfl, Hl. pose proof (zlen_nonneg d). lia.
    + done.
    + by rewrite Hfl.
    + destruct Ho as [[-> ->]| ->]; [by rewrite Hdat, app_nil_r|by rewrite (proj1 (summed_flag _))].
  - destruct Ho as [[_ ->]| ->]; [done|apply summed_flag].
Qed.

Lemma write_commit_last_spec x k w0 w s : tseg_ok x -> last_vars (st_pcb s) x k w0 -> queue_vars (st_pcb s) w0 w ->
  0 < write_mss (st_pcb s) < 65535 ->
  wp (write_commit_last arg w x) (fun x' s' => asked s s' /\ extends x x' (zslice 0 (w_pos w0) arg) /\
    oversize_left x' = w_oversize w0 /\ clens [x'] = clens [x] + (w_queuelen w0 - snd_queuelen (st_pcb s)) /\
    seg_len x' = seg_len x + w_pos w0) s.
Proof.
  intros Hx [L1 (L2 & L2' & L2'') L3 [L4 L4'] [L5 L5'] L6 L7 L8] [Q1 Q2 Q3 Q4 Q5 Q6] Hm.
  assert (Hw : w_oversize_add w = w_oversize_add w0 /\ w_oversize_used w = w_oversize_used w0 /\ w_concat w = w_concat w0 /\
    w_extendlen w = w_extendlen w0 /\ w_concat_chksummed w = w_concat_chksummed w0 /\ w_concat_swapped w = w_concat_swapped w0 /\
    w_concat_chksum w = w_concat_chksum w0) by (rewrite Q1; by destruct w0).
  destruct Hw as (E0 & E0' & E1 & E2 & E3 & E4 & E5). unfold write_commit_last. rewrite E0, E0', E1, E2, E3, E4, E5.
  clear E0 E0' E1 E2 E3 E4 E5.
  pose proof Hx as [[T1 T2 T3 T4] T5 T6 T7 T8]. pose proof (zlen_nonneg (seg_data x)). pose proof (opt_length_pos (seg_optflags x)).
  set (used := w_oversize_used w0) in *. set (add := w_oversize_add w0) in *.
  set (x1 := if negb (add =? 0) then _ else x).
  assert (H1 : x1 = x <| oversize_left := oversize_left x + add |>).
  { subst x1. destruct (Z.eqb_spec add 0) as [->|]; cbn [negb]; [rewrite Z.add_0_r; by destruct x|]. by rewrite u16_t_id by lia. }
  clearbody x1. subst x1. rec_simpl.
  destruct (slice_ok 0 used) as [D1 D1l]; [lia..|]. destruct (slice_ok used k) as [D2 D2l]; [lia..|].
  assert (Hd : zslice 0 (w_pos w0) arg = zslice 0 used arg ++ zslice used k arg) by (rewrite L2; symmetry; by apply zslice_snoc; lia).
  remember (zslice 0 used arg) as d1 eqn:Ed1. 
  wp_step. apply (wp_conseq _ (fun x2 s' => asked s s' /\ extends x x2 d1 /\ oversize_left x2 = oversize_left x + add - used /\
    clens [x2] = clens [x] /\ seg_len x2 = seg_len x + used /\ seg_p x2 <> [])).
  { destruct (Z.ltb_spec 0 used).
    - wp_step. eapply wp_conseq; [apply (chksum_copy_spec d1); [done|lia]|]. intros c s2 [-> Hs2].
      assert (Hadd : tcp_seg_add_chksum (canon (word_sum d1)) used (seg_chksum x) (seg_chksum_swapped x) = sum_of (seg_data x ++ d1)).
      { rewrite <- D1l. rewrite <- (add_chksum_spec (seg_data x) d1) by done. rewrite <- T7. done. }
      cbv beta iota. rewrite Hadd. destruct (sum_of (seg_data x ++ d1)) as [c1 sw1] eqn:Es. wp_steps.
      apply wp_assert; [apply Z.leb_le; lia|]. wp_steps. rewrite !u16_t_id by lia.
      destruct (extend_last_bytes (seg_p x) d1 T5) as (B1 & B2 & B3).
      split; [done|]. split; [|split_and!; try done; simpl; lia].
      apply append_ok; rec_simpl; try done; [lia|lia|by right].
    - wp_steps. assert (Hu : used = 0) by lia. rewrite Hu in Ed1. rewrite zslice_0 in Ed1. subst d1.
      split; [apply asked_refl|]. rec_simpl. split; [|split_and!; try done; lia].
      apply append_ok; rec_simpl; rewrite ?app_nil_r; try done; [change (zlen (@nil Z)) with 0; lia|by left]. }
  intros x2 s2 (Hs2 & X1 & X2 & X3 & X4 & X5). cbv beta.
  assert (Ht2 : tseg_ok x2) by (by apply X1). pose proof Ht2 as [_ _ Y6 Y7 Y8].
  assert (Hb : match seg_p x2 with [] => false | _ => true end = true) by (by destruct (seg_p x2)). rewrite Hb.
  remember (zslice used k arg) as d2 eqn:Ed2.
  wp_step. apply (wp_conseq _ (fun x3 s' => s' = s2 /\ seg_p x3 <> [] /\ seg_data x3 = seg_data x2 ++ d2 /\
    (seg_seqno x3, seg_flags x3, seg_optflags x3, seg_chksum x3, seg_chksum_swapped x3, oversize_left x3) =
    (seg_seqno x2, seg_flags x2, seg_optflags x2, seg_chksum x2, seg_chksum_swapped x2, oversize_left x2) /\
    seg_len x3 = seg_len x2 + k /\ clens [x3] = clens [x2] + (w_queuelen w0 - snd_queuelen (st_pcb s)))).
  { destruct L3 as [(d & -> & -> & L3' & -> & _)|(-> & -> & L3' & ->)].
    - wp_step. apply wp_assert; [done|]. wp_steps. rewrite u16_t_id by lia. split_and!; try done.
      + by destruct (seg_p x2).
      + rewrite pkt_bytes_app. unfold pkt_bytes at 2. simpl. by rewrite app_nil_r.
      + by rewrite D2l.
      + simpl. rewrite zlen_app. change (zlen [d2]) with 1. lia.
    - destruct (Z.ltb_spec 0 k).
      + wp_step. apply wp_assert; [done|]. wp_steps. rewrite u16_t_id by lia.
        replace (zslice 0 k arg) with d2 by (by rewrite Ed2, L3').
        destruct (extend_last_bytes (seg_p x2) d2 X5) as (B1 & B2 & B3). split_and!; try done. simpl. lia.
      + wp_steps. assert (Hk : k = 0) by lia. rewrite Hk, zslice_0 in Ed2. rewrite Ed2. split_and!; try done; try lia. by rewrite app_nil_r. }
  intros x3 s3 (-> & Z1 & Z2 & [= Z3 Z4 Z5 Z6 Z7 Z8] & Z9 & Z10). cbv beta. rewrite L4'.
  assert (Hext : forall x4, extends x2 x4 d2 -> extends x x4 (d1 ++ d2)).
  { intros x4 [V1 V2 V3 V4 V5]. destruct X1 as [U1 U2 U3 U4 U5]. split; [auto|by rewrite V2, U2, app_assoc|congruence| |congruence].
    intros b Hbb. by rewrite V4, U4. }
  rewrite Hd. destruct (Z.eqb_spec k 0) as [Hk|Hk]; cbn [negb].
  - wp_steps. split; [done|]. split; [apply Hext, append_ok; try done|split_and!; lia].
    + lia.
    + lia.
    + left. split; [by rewrite Ed2, Hk|done].
    + intros _. rewrite Z6, Z7, Y7, Ed2, Hk. by rewrite zslice_0, app_nil_r.
  - wp_step. apply wp_assert.
    { destruct L3 as [(d & -> & _)|(-> & -> & _)]; [done|]. apply Z.ltb_lt. lia. }
    assert (Hun : (if w_concat_swapped w0 then u16_t (SWAP_BYTES_IN_WORD (w_concat_chksum w0)) else w_concat_chksum w0) = canon (word_sum d2)).
    { injection L4 as -> ->. rewrite <- (unswap_spec d2) by done. done. }
    rewrite Hun, Z6, Z7. rewrite <- D2l at 1.
    assert (Hadd : tcp_seg_add_chksum (canon (word_sum d2)) (zlen d2) (seg_chksum x2) (seg_chksum_swapped x2) = sum_of (seg_data x2 ++ d2)).
    { rewrite <- (add_chksum_spec (seg_data x2) d2) by done. rewrite <- Y7. done. }
    rewrite Hadd. destruct (sum_of (seg_data x2 ++ d2)) as [c1 sw1] eqn:Es. wp_steps. split; [done|].
    split; [apply Hext, append_ok; rec_simpl; try done|split_and!; simpl in *; lia].
    + lia.
    + lia.
    + right. by rewrite Z5.
Qed.

(** ** The push flag *)

Lemma has_set_psh x b : Z.land b TCP_PSH = 0 -> has (seg_flags (set_psh x)) b = has (seg_flags x) b.
Proof.
  intros Hb. unfold set_psh. rec_simpl. rewrite has_lor. replace (has TCP_PSH b) with false; [apply orb_false_r|].
  unfold has. by rewrite Z.land_comm, Hb.
Qed.
Lemma tseg_ok_psh x : tseg_ok x -> tseg_ok (set_psh x).
Proof.
  intros [[T1 T2 T3 T4] T5 T6 T7 T8]. split; try done. split; try done.
  - unfold TCP_TCPLEN in *. rewrite has_set_psh by done. done.
  - by rewrite has_set_psh.
Qed.
Lemma extends_psh x x' d : extends x x' d -> extends x (set_psh x') d.
Proof.
  intros [E1 E2 E3 E4 E5]. split; try done.
  - intros H. by apply tseg_ok_psh, E1.
  - intros b Hb. rewrite has_set_psh by done. auto.
Qed.
Lemma on_last_snoc f q x : on_last f (q ++ [x]) = q ++ [f x].
Proof. induction q as [|y q IH]; [done|]. simpl. rewrite IH. by destruct q. Qed.
Lemma last_on_last f q : last (on_last f q) = f <$> last q.
Proof. destruct (last q) as [x|] eqn:E; [|by apply last_None in E as ->]. apply last_Some in E as [q' ->]. by rewrite on_last_snoc, last_snoc. Qed.
Lemma new_segs_psh sq q d : new_segs sq q d -> new_segs sq (on_last set_psh q) d.
Proof.
  revert sq d. induction q as [|x q IH]; intros sq d; [done|]. intros (H1 & H2 & H3 & d' & -> & H4).
  destruct q as [|y q].
  - change (on_last set_psh [x]) with [set_psh x]. split; [done|]. split; [by apply tseg_ok_psh|].
    split; [by rewrite has_set_psh|by exists d'].
  - change (on_last set_psh (x :: y :: q)) with (x :: on_last set_psh (y :: q)).
    split; [done|]. split; [done|]. split; [done|]. exists d'. auto.
Qed.
Lemma clens_psh q : clens (on_last set_psh q) = clens q.
Proof. induction q as [|x q IH]; [done|]. destruct q as [|y q]; [done|]. change (on_last _ (x :: y :: q)) with (x :: on_last set_psh (y :: q)). by rewrite !clens_cons, IH. Qed.

(** ** The outcome *)

(** The old queue with the data [d1] added to its last segment, and new segments. *)
Definition queue_grown (p : tcp_pcb) (q : list tcp_seg) : Prop :=
  exists q1 queue d1 d2, arg = d1 ++ d2 /\ q = q1 ++ queue /\ new_segs (snd_lbb p + zlen d1) queue d2 /\
    (q1 = unsent p /\ d1 = [] \/
     exists pre x x', unsent p = pre ++ [x] /\ q1 = pre ++ [x'] /\ extends x x' d1).

Lemma queue_grown_psh p q : queue_grown p q -> queue_grown p (on_last set_psh q).
Proof.
  intros (q1 & queue & d1 & d2 & E & -> & Hn & Hq). destruct (last queue) as [z|] eqn:El.
  - apply last_Some in El as [queue' ->]. rewrite app_assoc, on_last_snoc. exists q1, (queue' ++ [set_psh z]), d1, d2.
    rewrite <- app_assoc. split_and!; try done. rewrite <- on_last_snoc. by apply new_segs_psh.
  - apply last_None in El as ->. rewrite app_nil_r. destruct Hq as [[-> ->]|(pre & x & x' & Hu & -> & Hx)].
    + destruct (last (unsent p)) as [x|] eqn:El.
      * apply last_Some in El as [pre El]. rewrite El, on_last_snoc. exists (pre ++ [set_psh x]), [], [], d2. rewrite app_nil_r.
        split_and!; try done. right. exists pre, x, (set_psh x). split_and!; try done. apply extends_psh.
        split; try done. by rewrite app_nil_r.
      * apply last_None in El. rewrite El. exists [], [], [], d2. split_and!; try done. left. by rewrite El.
    + rewrite on_last_snoc. exists (pre ++ [set_psh x']), [], d1, d2. rewrite app_nil_r. split_and!; try done.
      right. exists pre, x, (set_psh x'). split_and!; try done. by apply extends_psh.
Qed.

Record written (p p' : tcp_pcb) : Prop := Written {
  wr_queue : queue_grown p (unsent p');
  wr_inv : write_inv p';
  wr_qlen : snd_queuelen p' <= TCP_SND_QUEUELEN;
  wr_rest : p' = p <| unsent := unsent p' |> <| unsent_oversize := unsent_oversize p' |> <| snd_queuelen := snd_queuelen p' |>
                   <| snd_lbb := u32_t (snd_lbb p + len) |> <| snd_buf := snd_buf p - len |>
}.

Lemma new_segs_ok sq q d : new_segs sq q d -> Forall tseg_ok q.
Proof. revert sq d. induction q as [|x q IH]; intros sq d; [done|]. intros (_ & H & _ & d' & _ & Hq). constructor; eauto. Qed.

(** New data is numbered from [snd_lbb] on, behind what was queued, which keeps its numbers. *)
Lemma written_numbered p p' n b : written p p' -> Forall tseg_ok (unsent p) -> tail_joins p ->
  numbered (unsent p') n b <-> numbered (unsent p) n b \/ laid (snd_lbb p) arg n b.
Proof.
  intros [(q1 & queue & d1 & d2 & Harg' & -> & Hn & Hq) _ _ _] Hok Hj. rewrite numbered_app, (new_segs_numbered _ _ _ _ _ Hn), Harg', laid_app.
  rewrite (or_assoc (numbered _ _ _)). apply or_iff_compat_r. destruct Hq as [[-> ->]|(pre & x & x' & E & -> & Hx)].
  { split; [auto|]. intros [H|(i & Hi & _)]; [done|]. done. }
  unfold tail_joins in Hj. rewrite E, last_snoc in Hj. rewrite E in Hok. apply Forall_app in Hok as [_ [Hx0 _]%Forall_cons].
  rewrite E, !numbered_app, <- (or_assoc (numbered pre _ _)). apply or_iff_compat_l. rewrite !numbered_one.
  change (laid (data_seqno x') (seg_data x') n b <-> laid (data_seqno x) (seg_data x) n b \/ laid (snd_lbb p) d1 n b).
  assert (Ed : data_seqno x' = data_seqno x) by (unfold data_seqno; by rewrite (ex_seqno _ _ _ Hx), (ex_flags _ _ _ Hx)).
  rewrite (ex_data _ _ _ Hx), Ed, laid_app, <- (txs_bytes _ (ts_tx _ Hx0)). apply or_iff_compat_l.
  split; apply laid_eq; by rewrite Hj.
Qed.

Lemma clens_pos q : Forall tseg_ok q -> q <> [] -> 0 < clens q.
Proof.
  destruct q as [|x q]; [done|]. intros [Hx _]%Forall_cons _. rewrite clens_cons. pose proof (clens_nonneg q).
  pose proof (ts_p _ Hx). destruct (seg_p x) as [|c l]; [done|]. rewrite zlen_cons. pose proof (zlen_nonneg l). lia.
Qed.

Lemma valid_queuelen_spec Q s : qlen_ok (st_pcb s) -> Q tt s -> wp valid_queuelen Q s.
Proof.
  intros [Hq _] HQ. unfold valid_queuelen. wp_steps. destruct (Z.eqb_spec (snd_queuelen (st_pcb s)) 0) as [E|E]; simpl; [by wp_steps|].
  apply wp_assert; [|done]. rewrite Hq in E. destruct (unacked (st_pcb s)), (unsent (st_pcb s)); done.
Qed.

(** What the variables describe, when all of [arg] is recorded. *)
Definition vars_done (p : tcp_pcb) (w0 : write_vars) : Prop :=
  (last (unsent p) = None /\ w0 = no_vars p) \/ exists x k, last (unsent p) = Some x /\ last_vars p x k w0.

Lemma seg_fits_psh m q : Forall (seg_fits m) q -> Forall (seg_fits m) (on_last set_psh q).
Proof. induction 1 as [|x q Hx Hq IH]; [constructor|]. destruct q as [|y q]; by repeat constructor. Qed.
Lemma tail_ok_psh p q v : tail_ok (p <| unsent := q |> <| unsent_oversize := v |>) ->
  tail_ok (p <| unsent := on_last set_psh q |> <| unsent_oversize := v |>).
Proof. unfold tail_ok. rec_simpl. rewrite last_on_last. intros [H1 H2]. split; [by apply seg_fits_psh|by destruct (last q)]. Qed.

(** The new queues, before the push flag is set. *)
Lemma write_commit_queue_spec w0 w s : write_inv (st_pcb s) -> queue_vars (st_pcb s) w0 w -> w_pos w = len ->
  vars_done (st_pcb s) w0 -> 
  wp (match last (unsent (st_pcb s)) with
      | Some last_unsent =>
          let* seg := write_commit_last arg w last_unsent in ret (removelast (unsent (st_pcb s)) ++ seg :: w_queue w)
      | None =>
          lwip_assert "tcp_write: cannot concatenate when pcb->unsent is empty"
            (match w_concat w with Some _ => false | None => true end) ;;;
          ret (w_queue w)
      end)
    (fun q s' => asked s s' /\ queue_grown (st_pcb s) q /\ Forall tseg_ok q /\
       clens q = clens (unsent (st_pcb s)) + (w_queuelen w - snd_queuelen (st_pcb s)) /\
       tail_ok (st_pcb s <| unsent := q |> <| unsent_oversize := w_oversize w |>)) s.
Proof.
  intros Hi Hq Hp Hd. pose proof Hq as [Q1 Q2 Q3 [Q4 _] Q5 _ Q7]. pose proof Hi as [Hs _ [Ht _] _ [Hm1 Hm2] _].
  pose proof (write_mss_range _ Hm1 Hm2) as Hm. apply Forall_app in Hs as [_ Hs]. rewrite Hp in Q3.
  pose proof (new_segs_ok _ _ _ Q3) as Hnew.
  destruct Hd as [[El ->]|(x & k & El & Hl)]; rewrite El.
  - apply last_None in El. wp_step. apply wp_assert; [by rewrite Q1|]. wp_steps. split; [apply asked_refl|].
    change (w_pos (no_vars (st_pcb s))) with 0 in Q3. rewrite Z.add_0_r, Z.sub_0_r in Q3. unfold zslice in Q3.
    rewrite zdrop_nonpos, ztake_all in Q3 by lia. rewrite El. split_and!; try done.
    + exists [], (w_queue w), [], arg. rewrite El. change (zlen (@nil Z)) with 0. rewrite Z.add_0_r. split_and!; try done. by left.
    + change (w_queuelen (no_vars (st_pcb s))) with (snd_queuelen (st_pcb s)) in Q4. simpl. lia.
  - apply last_Some in El as [pre El]. rewrite El in Hs. apply Forall_app in Hs as [Hpre [Hx _]%Forall_cons].
    wp_step. eapply wp_conseq; [by apply (write_commit_last_spec x k w0)|]. intros x' s1 (Hs1 & Hx' & E1 & E2 & E3). wp_steps.
    rewrite El, removelast_last. split; [done|]. pose proof Hl as [_ (L2 & L2' & L2'') _ _ _ L6 _ _]. pose proof (lv_used _ _ _ _ Hl).
    assert (Hrest : zslice 0 (w_pos w0) arg ++ zslice (w_pos w0) (len - w_pos w0) arg = arg).
    { rewrite (zslice_snoc 0) by lia. replace (w_pos w0 + (len - w_pos w0)) with len by lia. apply zslice_full. }
    destruct (slice_ok 0 (w_pos w0)) as [_ Hl0]; [lia..|]. split_and!.
    + exists (pre ++ [x']), (w_queue w), (zslice 0 (w_pos w0) arg), (zslice (w_pos w0) (len - w_pos w0) arg).
      rewrite <- app_assoc, Hl0. split_and!; try done. right. by exists pre, x, x'.
    + apply Forall_app. split; [done|]. constructor; [by apply (ex_ok _ _ _ Hx')|done].
    + rewrite !clens_app, clens_cons. simpl in E2 |- *. lia.
    + change (x' :: w_queue w) with ([x'] ++ w_queue w). unfold tail_ok. rec_simpl.
      change (write_mss (_ <| unsent_oversize := _ |>)) with (write_mss (st_pcb s)). split.
      { rewrite El in Ht. apply Forall_app in Ht as [Ht _]. apply Forall_app. split; [done|]. apply Forall_app. split; [|done].
        constructor; [|done]. unfold seg_fits. rewrite E3, (ex_opts _ _ _ Hx'). pose proof (lv_over _ _ _ _ Hl). lia. }
      rewrite app_assoc. destruct (last (w_queue w)) as [z|] eqn:Ez.
      * apply last_Some in Ez as [l Ez]. rewrite Ez, app_assoc, last_snoc. destruct Q5 as (-> & Q6 & Q8). split_and!; try done.
      * apply last_None in Ez as ->. rewrite app_nil_r, last_snoc, Q5, E1, (ex_opts _ _ _ Hx').
        pose proof (lv_over _ _ _ _ Hl). lia.
Qed.

Lemma write_commit_spec w0 w s : write_inv (st_pcb s) -> queue_vars (st_pcb s) w0 w -> w_pos w = len ->
  vars_done (st_pcb s) w0 -> 0 <= len <= snd_buf (st_pcb s) -> 0 <= snd_queuelen (st_pcb s) ->
  wp (write_commit arg apiflags w) (fun r s' => r = ERR_OK /\
    exists p' l, s' = s <| st_pcb := p' |> <| oracle := l |> /\ written (st_pcb s) p') s.
Proof.
  intros Hi Hq Hp Hd Hb Hql. unfold write_commit. wp_step. wp_step.
  wp_step. eapply wp_conseq; [by apply (write_commit_queue_spec w0)|]. intros q s1 ([l ->] & Hg & Hok & Hc & Ht). cbv beta.
  pose proof (qv_len _ _ _ Hq) as [_ Hq91]. pose proof Hi as [Hs [Hqa Hqb] _ Hu Hm Hbuf]. apply Forall_app in Hs as [Hs1 _].
  wp_steps. rewrite (u16_t_id (snd_buf (st_pcb s) - len)) by lia.
  set (p1 := st_pcb s <| unsent_oversize := _ |> <| unsent := q |> <| snd_lbb := _ |> <| snd_buf := _ |> <| snd_queuelen := _ |>).
  assert (Hq1 : qlen_ok p1) by (unfold qlen_ok; subst p1; rec_simpl; change TCP_SND_QUEUELEN with 90 in Hq91; lia).
  apply valid_queuelen_spec; [exact Hq1|]. wp_steps.
  assert (Hw : forall q', (q' = q \/ q' = on_last set_psh q) -> written (st_pcb s) (p1 <| unsent := q' |>)).
  { intros q' Hq'. split.
    - subst p1. rec_simpl. destruct Hq' as [-> | ->]; [done|by apply queue_grown_psh].
    - assert (Hok' : Forall tseg_ok q').
      { destruct Hq' as [-> | ->]; [done|]. destruct (last q) as [x|] eqn:El; [|by apply last_None in El as ->].
        apply last_Some in El as [q0 ->]. rewrite on_last_snoc. apply Forall_app in Hok as [H1 [H2 _]%Forall_cons].
        apply Forall_app. split; [done|]. by repeat constructor; try apply tseg_ok_psh. }
      assert (Hcl : clens q' = clens q) by (destruct Hq' as [-> | ->]; [done|apply clens_psh]).
      split.
      + apply Forall_app. by split.
      + unfold qlen_ok in *. subst p1. rec_simpl. rec_simpl_in Hq1. by rewrite Hcl.
      + destruct Hq' as [-> | ->]; [exact Ht|exact (tail_ok_psh (st_pcb s) q (w_oversize w) Ht)].
      + exact Hu.
      + exact Hm.
      + subst p1. rec_simpl. lia.
    - subst p1. rec_simpl. exact Hq91.
    - subst p1. rec_simpl. reflexivity. }
  unfold when. destruct (_ && _); wp_steps; (split; [done|]).
  - eexists _, l. split; [reflexivity|]. subst p1. rec_simpl. apply Hw. by right.
  - eexists _, l. split; [reflexivity|]. subst p1. rec_simpl. exact (Hw q (or_introl eq_refl)).
Qed.

(** The flag of a failed call. *)
Definition refused_write (s s' : tcp_st) : Prop :=
  exists f l, s' = s <| st_pcb := st_pcb s <| flags := f |> |> <| oracle := l |> /\
    (f = flags (st_pcb s) \/ f = Z.lor (flags (st_pcb s)) TF_NAGLEMEMERR).

Lemma write_memerr_spec s s1 : write_inv (st_pcb s) -> asked s s1 ->
  wp write_memerr (fun r s' => r = ERR_MEM /\ refused_write s s') s1.
Proof.
  intros Hi [l ->]. unfold write_memerr, tcp_set_flags. wp_steps. apply valid_queuelen_spec; [apply Hi|]. wp_steps.
  split; [done|]. eexists _, l. split; [reflexivity|by right].
Qed.

(** The states in which data may be written. *)
Definition may_write (st : tcp_state) : bool :=
  state_is st ESTABLISHED || state_is st CLOSE_WAIT || state_is st SYN_SENT || state_is st SYN_RCVD.

Lemma tcp_write_checks_spec s : write_inv (st_pcb s) ->
  wp (tcp_write_checks len) (fun r s' =>
    (r = ERR_OK /\ s' = s /\ len <= snd_buf (st_pcb s) /\ may_write (state (st_pcb s)) = true /\
       (len = 0 \/ snd_queuelen (st_pcb s) < TCP_SND_QUEUELEN)) \/
    ((r = ERR_CONN /\ may_write (state (st_pcb s)) = false \/
      r = ERR_MEM /\ may_write (state (st_pcb s)) = true) /\ refused_write s s')) s.
Proof.
  intros [Hs [Hq Hq2] _ _ _ Hb]. unfold tcp_write_checks. wp_steps.
  replace (_ && _ && _ && _) with (negb (may_write (state (st_pcb s)))) by (by destruct (state (st_pcb s))).
  assert (Hr : refused_write s s).
  { exists (flags (st_pcb s)), (oracle s). split; [by destruct s as [[]]|by left]. }
  destruct (may_write (state (st_pcb s))); cbn [negb]; [|wp_steps; right; split; [by left|done]].
  destruct (Z.eqb_spec len 0); [wp_steps; left; split_and!; try done; [lia|by left]|].
  unfold tcp_set_flags. destruct (Z.ltb_spec (snd_buf (st_pcb s)) len).
  { wp_steps. right. split; [by right|]. eexists _, (oracle s). split; [|by right]. by destruct s. }
  change (Z.min TCP_SND_QUEUELEN (TCP_SNDQUEUELEN_OVERFLOW + 1)) with TCP_SND_QUEUELEN.
  destruct (Z.leb_spec TCP_SND_QUEUELEN (snd_queuelen (st_pcb s))).
  { wp_steps. right. split; [by right|]. eexists _, (oracle s). split; [|by right]. by destruct s. }
  apply Forall_app in Hs as [Hs1 Hs2].
  destruct (Z.eqb_spec (snd_queuelen (st_pcb s)) 0) as [E|E]; cbn [negb].
  - wp_step. apply wp_assert; [|wp_steps; left; split_and!; try done; by right].
    pose proof (clens_nonneg (unacked (st_pcb s))). pose proof (clens_nonneg (unsent (st_pcb s))).
    destruct (unacked (st_pcb s)) as [|x q] eqn:E1; [|pose proof (clens_pos _ Hs1 ltac:(done)); lia].
    destruct (unsent (st_pcb s)) as [|y q'] eqn:E2; [done|pose proof (clens_pos _ Hs2 ltac:(done)); lia].
  - wp_step. apply wp_assert; [|wp_steps; left; split_and!; try done; by right].
    rewrite Hq in E. by destruct (unacked (st_pcb s)), (unsent (st_pcb s)).
Qed.

(** [tcp_write] never fails an assertion; it queues all of the data or none. *)
Lemma tcp_write_spec s : write_inv (st_pcb s) -> snd_queuelen (st_pcb s) <= TCP_SND_QUEUELEN ->
  wp (tcp_write arg apiflags rom_adjacent) (fun r s' =>
    (r = ERR_OK /\ may_write (state (st_pcb s)) = true /\ len <= snd_buf (st_pcb s) /\
       exists p' l, s' = s <| st_pcb := p' |> <| oracle := l |> /\ written (st_pcb s) p') \/
    ((r = ERR_CONN /\ may_write (state (st_pcb s)) = false \/ r = ERR_MEM /\ may_write (state (st_pcb s)) = true) /\
       refused_write s s')) s.
Proof.
  intros Hi Hq90. unfold tcp_write. wp_step. wp_step. wp_step. eapply wp_conseq; [by apply tcp_write_checks_spec|].
  intros r s1 [(-> & -> & Hb & Hst & Hq)|[Hr H1]].
  2:{ assert (Hne : (r =? ERR_OK) = false) by (apply Z.eqb_neq; unfold ERR_OK, ERR_CONN, ERR_MEM in *; lia).
      rewrite Hne. wp_steps. by right. }
  change (ERR_OK =? ERR_OK) with true. cbn [negb]. wp_step. wp_step. fold (no_vars (st_pcb s)).
  pose proof Hi as [Hs [Hqa _] [_ Ht] _ [Hm1 Hm2] _]. pose proof (write_mss_range _ Hm1 Hm2) as Hm.
  pose proof (zlen_nonneg arg). pose proof (clens_nonneg (unacked (st_pcb s))). pose proof (clens_nonneg (unsent (st_pcb s))).
  assert (H90 : TCP_SND_QUEUELEN = 90) by done.
  assert (Hmem : forall s2, asked s s2 -> wp write_memerr (fun r s' => (r = ERR_OK /\ may_write (state (st_pcb s)) = true /\
    len <= snd_buf (st_pcb s) /\ exists p' l, s' = s <| st_pcb := p' |> <| oracle := l |> /\ written (st_pcb s) p') \/
    ((r = ERR_CONN /\ may_write (state (st_pcb s)) = false \/ r = ERR_MEM /\ may_write (state (st_pcb s)) = true) /\
       refused_write s s')) s2).
  { intros s2 Ha. eapply wp_conseq; [by apply (write_memerr_spec s)|]. intros r s' [-> Hrw]. right. split; [by right|done]. }
  wp_step. apply (wp_conseq _ (fun r s' => asked s s' /\ match r with
    | Some w0 => vars_done (st_pcb s) w0 /\ 0 <= w_pos w0 <= len /\ w_queue w0 = [] /\ (w_oversize w0 = 0 \/ w_pos w0 = len) /\
        snd_queuelen (st_pcb s) <= w_queuelen w0 <= TCP_SND_QUEUELEN | None => True end)).
  - destruct (last (unsent (st_pcb s))) as [x|] eqn:El.
    + assert (Hx : tseg_ok x).
      { apply last_Some in El as [q El]. rewrite El in Hs. by apply Forall_app in Hs as [_ [_ [? _]%Forall_cons]%Forall_app]. }
      assert (Hxl : 0 <= seg_len x) by (rewrite (txs_bytes _ (ts_tx _ Hx)); apply zlen_nonneg).
      wp_step. eapply wp_conseq; [by apply (write_phase1_spec x)|]. intros [w sp] s2 (-> & Hl & E1 & E2 & E3 & E4). cbn [fst snd] in *.
      eapply wp_conseq; [apply (write_phase2_spec x w s sp); try done; lia|]. intros [w'|] s3 [Hs3 Hw]; (split; [done|]); [|done].
      destruct Hw as [k Hl']. pose proof Hl' as [L1 (L2 & L2' & L2'') L3 _ _ _ L7 L8].
      split; [right; by exists x, k|]. split_and!; try done; try lia; destruct L3 as [(d & _ & _ & _ & -> & Hk)|(_ & _ & _ & ->)]; lia.
    + wp_step. apply wp_assert; [by rewrite Ht|]. wp_steps. split; [apply asked_refl|].
      split; [by left|]. change (w_pos (no_vars (st_pcb s))) with 0. change (w_queuelen (no_vars (st_pcb s))) with (snd_queuelen (st_pcb s)).
      split_and!; try done; try lia. by left.
  - intros [w0|] s2 [[l2 ->] Hw0]; [|by apply Hmem; exists l2]. destruct Hw0 as (Hd & Hpos & Hqe & Hov & Hqw).
    assert (Hqv : queue_vars (st_pcb s) w0 w0).
    { split; [by destruct w0|lia| | |by rewrite Hqe|done|by rewrite Hqe].
      - rewrite Hqe. simpl. by rewrite Z.sub_diag, zslice_0.
      - rewrite Hqe. simpl. lia. }
    wp_step. pose proof (write_phase3_spec (Z.to_nat len) w0 w0 (s <| oracle := l2 |>)) as H3.
    change (st_pcb (s <| oracle := l2 |>)) with (st_pcb s) in H3.
    eapply wp_conseq; [apply H3; try done; lia|]. intros [w|] s3 [[l3 ->] Hw]; [|by apply Hmem; exists l3].
    destruct Hw as [Hqw' Hp']. 
    pose proof (write_commit_spec w0 w (s <| oracle := l2 |> <| oracle := l3 |>)) as H4.
    change (st_pcb (s <| oracle := l2 |> <| oracle := l3 |>)) with (st_pcb s) in H4.
    eapply wp_conseq; [apply H4; try done; lia|]. intros r s4 (-> & p' & l4 & -> & Hwr). left. split_and!; try done.
    by exists p', l4.
Qed.
End Write.
