(* ===== verification/TcpClose.v ===== *)
(** * Closing a connection ([tcp_close], [tcp_shutdown] of [core/tcp.c])

    Listening control blocks are structures of another type ([tcp_pcb_listen]) and are not
    closed here. *)

From S2P Require Import Prelude Def IpAddr Tcp TcpOut TcpIn TcpOutput TcpProcess TcpInput TcpWrite.

(** [tcp_trigger_input_pcb_close] of [tcp_in.c]. *)
Definition tcp_trigger_input_pcb_close : TM unit :=
  modify (fun s => s <| recv_flags := Z.lor (recv_flags s) TF_CLOSED |>).

(** The state a connection goes to when its FIN is queued. *)
Definition fin_state (st : tcp_state) : option tcp_state :=
  match st with
  | SYN_RCVD | ESTABLISHED => Some FIN_WAIT_1
  | CLOSE_WAIT => Some LAST_ACK
  | _ => None
  end.

Definition tcp_close_shutdown_fin : TM Z :=
  let* st := getp state in
  match fin_state st with
  | None => ret ERR_OK
  | Some st' =>
      let* err := tcp_send_fin in
      when (err =? ERR_OK) (modp (fun p => p <| state := st' |>)) ;;;
      if err =? ERR_OK then let* _ := tcp_output in ret err
      else if err =? ERR_MEM then tcp_set_flags TF_CLOSEPEND ;;; ret ERR_OK
      else ret err
  end.

(** Taking the control block off [tcp_bound_pcbs]. *)
Definition TCP_RMV_BOUND : TM unit :=
  modify (fun s => s <| tcp_bound_pcbs := TCP_RMV (tcp_bound_pcbs s) (pcb_addr s) |>).
(** [TCP_PCB_REMOVE_ACTIVE(pcb)]. *)
Definition TCP_PCB_REMOVE_ACTIVE : TM unit :=
  tcp_pcb_remove false ;;; modify (fun s => s <| tcp_active_pcbs_changed := true |>).

Definition tcp_close_shutdown (rst_on_unacked_data : bool) : TM Z :=
  deref ;;;
  let* p := gets st_pcb in
  let* s := get in
  if rst_on_unacked_data && (state_is (state p) ESTABLISHED || state_is (state p) CLOSE_WAIT) &&
     (negb (match refused_data p with [] => true | _ => false end) || negb (rcv_wnd p =? TCP_WND_MAX))
  then
    lwip_assert "pcb->flags & TF_RXCLOSED" (has (flags p) TF_RXCLOSED) ;;;
    tcp_rst (snd_nxt p) (rcv_nxt p) (local_port p) (remote_port p) ;;;
    tcp_pcb_purge ;;;
    TCP_RMV_ACTIVE ;;;
    (if tcp_input_pcb s =? pcb_addr s then tcp_trigger_input_pcb_close else tcp_free) ;;;
    ret ERR_OK
  else
    match state p with
    | CLOSED =>
        when (negb (local_port p =? 0)) TCP_RMV_BOUND ;;;
        tcp_free ;;;
        ret ERR_OK
    | LISTEN => fail BadAccess
    | SYN_SENT => TCP_PCB_REMOVE_ACTIVE ;;; tcp_free ;;; ret ERR_OK
    | _ => tcp_close_shutdown_fin
    end.

Definition tcp_close : TM Z :=
  deref ;;;
  let* st := getp state in
  when (negb (state_is st LISTEN)) (tcp_set_flags TF_RXCLOSED) ;;;
  tcp_close_shutdown true.

Definition tcp_shutdown (shut_rx shut_tx : bool) : TM Z :=
  deref ;;;
  let* st := getp state in
  if state_is st LISTEN then ret ERR_CONN
  else
    when shut_rx (tcp_set_flags TF_RXCLOSED) ;;;
    if shut_rx && shut_tx then tcp_close_shutdown true
    else
      when shut_rx (modp (fun p => p <| refused_data := [] |> <| refused_fin := false |>)) ;;;
      if shut_tx then
        match fin_state st with
        | Some _ => tcp_close_shutdown shut_rx
        | None => ret ERR_CONN
        end
      else ret ERR_OK.
