(* ===== verification/TcpSteps.v ===== *)
(** * What every run of a function respects

    [steps R m]: whenever [m] returns, the states before and after are related by the
    preorder [R].  The rules follow the control structure of the code, so that a function
    is covered by hints for its parts.  Two instances: handling an acknowledgement sends
    nothing but acknowledgements, and the functions of the sender keep the account of the
    room left in the segments of the unsent queue. *)

From S2P Require Import Prelude Def IpAddr Tcp TcpOut TcpIn TcpFacts TcpStream.
From S2P Require Import TcpOoseq TcpRecv TcpAck TcpOutput TcpSend TcpWrite TcpWriteFacts.

(** ** Liberal preconditions

    [wlp m Q s]: if [m] returns from [s], then with [Q]. *)

Definition wlp {S A} (m : M S A) (Q : A -> S -> Prop) (s : S) : Prop := forall r s', m s = Ok (r, s') -> Q r s'.

Lemma wlp_bind {S A B} (m : M S A) (k : A -> M S B) Q s : wlp m (fun a => wlp (k a) Q) s -> wlp (bind m k) Q s.
Proof. intros H r s' (a & s1 & H1 & H2)%bind_inv. exact (H _ _ H1 _ _ H2). Qed.
Lemma wlp_conseq {S A} (m : M S A) (P Q : A -> S -> Prop) s : wlp m P s -> (forall r s', P r s' -> Q r s') -> wlp m Q s.
Proof. unfold wlp. auto. Qed.
Lemma wlp_ret {S A} (a : A) Q (s : S) : Q a s -> wlp (ret a) Q s.
Proof. by intros H r s' [= <- <-]. Qed.
Lemma wlp_get {S} Q (s : S) : Q s s -> wlp get Q s.
Proof. by intros H r s' [= <- <-]. Qed.
Lemma wlp_gets {A} (f : tcp_st -> A) Q s : Q (f s) s -> wlp (gets f) Q s.
Proof. by intros H r s' [= <- <-]. Qed.
Lemma wlp_getp {A} (f : tcp_pcb -> A) Q s : Q (f (st_pcb s)) s -> wlp (getp f) Q s.
Proof. by intros H r s' [= <- <-]. Qed.
Lemma wlp_modp f Q s : Q tt (s <| st_pcb := f (st_pcb s) |>) -> wlp (modp f) Q s.
Proof. by intros H r s' [= <- <-]. Qed.
Lemma wlp_modify {S} f Q (s : S) : Q tt (f s) -> wlp (modify f) Q s.
Proof. by intros H r s' [= <- <-]. Qed.
Lemma wlp_assert {S} msg b Q (s : S) : (b = true -> Q tt s) -> wlp (lwip_assert msg b) Q s.
Proof. intros H r s'. unfold lwip_assert. destruct b; [|done]. intros [= <- <-]. auto. Qed.
Lemma wlp_fail {S A} f (Q : A -> S -> Prop) s : wlp (fail f) Q s.
Proof. done. Qed.
Lemma wlp_ask Q s : (forall z l, Q z (s <| oracle := l |>)) -> wlp ask Q s.
Proof.
  intros H r s'. unfold ask. destruct (oracle s) as [|z l] eqn:E; intros [= <- <-]; [|apply H].
  specialize (H 0 []). rewrite <- E in H. by destruct s.
Qed.
Lemma wlp_if {S A} (b : bool) (m1 m2 : M S A) Q s : (b = true -> wlp m1 Q s) -> (b = false -> wlp m2 Q s) ->
  wlp (if b then m1 else m2) Q s.
Proof. destruct b; auto. Qed.
Lemma wlp_when b m Q s : (b = true -> wlp m Q s) -> (b = false -> Q tt s) -> wlp (when b m) Q s.
Proof. intros. unfold when. apply wlp_if; [done|]. intros. apply wlp_ret. auto. Qed.
(** A total specification is a partial one. *)
Lemma wlp_wp {S A} (m : M S A) Q s : wp m Q s -> wlp m Q s.
Proof. unfold wp. intros H r s' E. by rewrite E in H. Qed.
(** Both hold of the same run. *)
Lemma wp_wlp {S A} (m : M S A) (P Q : A -> S -> Prop) s : wp m P s -> wlp m Q s -> wp m (fun r s' => P r s' /\ Q r s') s.
Proof. unfold wp. intros H1 H2. destruct (m s) as [[r s']|] eqn:E; [|done]. split; [done|by apply H2]. Qed.

Ltac wlp_step :=
  lazymatch goal with
  | |- wlp (bind _ _) _ _ => apply wlp_bind
  | |- wlp (ret _) _ _ => apply wlp_ret
  | |- wlp get _ _ => apply wlp_get
  | |- wlp (gets _) _ _ => apply wlp_gets
  | |- wlp (getp _) _ _ => apply wlp_getp
  | |- wlp (modp _) _ _ => apply wlp_modp
  | |- wlp (modify _) _ _ => apply wlp_modify
  | |- wlp ask _ _ => apply wlp_ask; intros ? ?
  | |- wlp (lwip_assert _ _) _ _ => apply wlp_assert; intros ?
  | |- wlp (fail _) _ _ => apply wlp_fail
  | |- wlp (when _ _) _ _ => apply wlp_when; intros ?
  | |- wlp (if _ then _ else _) _ _ => apply wlp_if; intros ?
  end.
Ltac wlp_steps := repeat (wlp_step; cbv beta iota; rec_simpl); rec_simpl.

(** ** Preorders *)

Section Steps.
Context (R : tcp_st -> tcp_st -> Prop) `{!PreOrder R}.

Definition steps {A} (m : TM A) : Prop := forall s r s', m s = Ok (r, s') -> R s s'.

Lemma steps_wlp {A} (m : TM A) : (forall s, wlp m (fun _ s' => R s s') s) <-> steps m.
Proof. done. Qed.
Lemma wlp_steps_post {A} (m : TM A) (Q : A -> tcp_st -> Prop) s : steps m -> (forall r s', R s s' -> Q r s') -> wlp m Q s.
Proof. intros Hm HQ r s' H. apply HQ. by eapply Hm. Qed.
Lemma steps_bind {A B} (m : TM A) (k : A -> TM B) : steps m -> (forall a, steps (k a)) -> steps (bind m k).
Proof. intros Hm Hk s r s' (a & s1 & H1 & H2)%bind_inv. etransitivity; [by eapply Hm|by eapply Hk]. Qed.
Lemma steps_ret {A} (a : A) : steps (ret a).
Proof. by intros s r s' [= _ <-]. Qed.
Lemma steps_get : steps get.
Proof. by intros s r s' [= _ <-]. Qed.
Lemma steps_gets {A} (f : tcp_st -> A) : steps (gets f).
Proof. by intros s r s' [= _ <-]. Qed.
Lemma steps_getp {A} (f : tcp_pcb -> A) : steps (getp f).
Proof. by intros s r s' [= _ <-]. Qed.
Lemma steps_modify f : (forall s, R s (f s)) -> steps (modify f).
Proof. intros H s r s' [= _ <-]. apply H. Qed.
Lemma steps_modp f : (forall s, R s (s <| st_pcb := f (st_pcb s) |>)) -> steps (modp f).
Proof. intros H. by apply steps_modify. Qed.
Lemma steps_assert msg b : steps (lwip_assert msg b).
Proof. unfold lwip_assert. destruct b; [by intros s r s' [= _ <-]|done]. Qed.
Lemma steps_if {A} (b : bool) (m1 m2 : TM A) : steps m1 -> steps m2 -> steps (if b then m1 else m2).
Proof. by destruct b. Qed.
Lemma steps_when b m : steps m -> steps (when b m).
Proof. intros. apply steps_if; [done|apply steps_ret]. Qed.
Lemma steps_ask : (forall s l, R s (s <| oracle := l |>)) -> steps ask.
Proof. intros H s r s'. unfold ask. destruct (oracle s); intros [= _ <-]; [done|apply H]. Qed.
End Steps.

Lemma steps_sub (R R' : tcp_st -> tcp_st -> Prop) {A} (m : TM A) : steps R m -> (forall s s', R s s' -> R' s s') -> steps R' m.
Proof. intros H HR s r s' E. apply HR. by eapply H. Qed.

Create HintDb steps.
#[export] Hint Resolve steps_bind steps_ret steps_get steps_gets steps_getp steps_assert steps_if steps_when : steps.
#[export] Hint Extern 1 (steps _ (modp _)) => apply steps_modp; intros; try (repeat case_match; done) : steps.
#[export] Hint Extern 1 (steps _ (modify _)) => apply steps_modify; intros; try (repeat case_match; done) : steps.
#[export] Hint Extern 3 (steps _ (match ?x with _ => _ end)) => destruct x : steps.
#[export] Hint Extern 1 (steps _ ask) => apply steps_ask; intros; try done : steps.

(** ** Sending nothing but acknowledgements *)

(** No data, no SYN and no FIN. *)
Definition quiet_out (o : tcp_out) : Prop := o_data o = [] /\ o_flags o = TCP_ACK.

(** Nothing but acknowledgements was sent. *)
Definition only_acks (s s' : tcp_st) : Prop := exists outs, sent s' = sent s ++ outs /\ Forall quiet_out outs.

Lemma only_acks_same s s' : sent s' = sent s -> only_acks s s'.
Proof. unfold only_acks. intros ->. exists []. rewrite app_nil_r. split; [done|constructor]. Qed.
#[export] Instance only_acks_preorder : PreOrder only_acks.
Proof.
  split; [intros s; by apply only_acks_same|].
  intros s1 s2 s3 (o1 & E1 & F1) (o2 & E2 & F2). exists (o1 ++ o2). rewrite E2, E1, app_assoc. split; [done|by apply Forall_app].
Qed.
#[export] Hint Resolve only_acks_preorder : steps.
Abbreviation emits := (steps only_acks).
#[export] Hint Extern 2 (only_acks _ _) => apply only_acks_same; repeat case_match; done : steps.
#[export] Hint Extern 1 (steps only_acks (modp _)) => apply steps_modp; intros; by apply only_acks_same : steps.
#[export] Hint Extern 1 (steps only_acks (modify _)) => apply steps_modify; intros; apply only_acks_same; repeat case_match; done : steps.
#[export] Hint Extern 1 (steps only_acks ask) => apply steps_ask; [apply only_acks_preorder|intros; by apply only_acks_same] : steps.

Lemma emits_empty_ack : emits tcp_send_empty_ack.
Proof.
  intros s r s' Hm. pose proof (tcp_send_empty_ack_out s) as H. unfold wp in H. rewrite Hm in H.
  destruct H as (p' & l & outs & _ & -> & Ho & _). exists outs. split; [done|].
  eapply Forall_impl; [exact Ho|]. by intros o ->.
Qed.
Lemma emits_rexmit : emits tcp_rexmit.
Proof. unfold tcp_rexmit, tcp_output_segment_busy. apply steps_bind; [apply _|auto with steps|]. intros [|x q]; auto 20 with steps. Qed.
#[export] Hint Resolve emits_empty_ack emits_rexmit : steps.
Lemma emits_dupack e : emits (receive_dupack e).
Proof. unfold receive_dupack, tcp_rexmit_fast, tcp_set_flags. auto 20 with steps. Qed.
Lemma emits_free_acked q o : emits (tcp_free_acked_segments q o).
Proof. induction q as [|x q IH]; cbn [tcp_free_acked_segments]; auto 20 with steps. Qed.
#[export] Hint Resolve emits_dupack emits_free_acked : steps.
Lemma emits_receive_ack : emits receive_ack.
Proof.
  unfold receive_ack, receive_window_update, receive_new_ack, free_acked_queues, receive_nd6_hint, receive_rtt. auto 30 with steps.
Qed.

(** ** The room in the segments of the sender *)

(** Everything of [write_inv] that sending does not share with the queues' order. *)
Record room (p : tcp_pcb) : Prop := Room {
  rm_tail : tail_ok p;
  rm_una : Forall (fun x => seg_fits (write_mss p) x /\ oversize_left x = 0) (unacked p);
  rm_mss : 0 < mss p <= TCP_MSS /\ 2 <= snd_wnd_max p < 65536;
  rm_buf : 0 <= snd_buf p < 65536
}.
Lemma write_inv_room p : write_inv p -> room p.
Proof. by intros [_ _ ? ? ? ?]. Qed.
Lemma room_write_inv p : room p -> Forall tseg_ok (unacked p ++ unsent p) -> qlen_ok p -> write_inv p.
Proof. by intros [? ? ? ?] ? ?. Qed.

(** The fields it is about. *)
Definition room_of (p : tcp_pcb) := (unacked p, unsent p, unsent_oversize p, mss p, snd_wnd_max p, snd_buf p).

Lemma room_ext p p' : room_of p' = room_of p -> room p -> room p'.
Proof.
  unfold room_of. intros [= E1 E2 E3 E4 E5 E6] [R1 R2 R3 R4].
  assert (Em : write_mss p' = write_mss p) by (unfold write_mss; by rewrite E4, E5).
  split; unfold tail_ok in *; by rewrite ?Em, ?E1, ?E2, ?E3, ?E4, ?E5, ?E6.
Qed.

(** They stay as they are, and so does the window of the incoming segment. *)
Definition same_room (s s' : tcp_st) : Prop := room_of (st_pcb s') = room_of (st_pcb s) /\ in_wnd s' = in_wnd s.
#[export] Instance same_room_preorder : PreOrder same_room.
Proof. split; [done|]. intros s1 s2 s3 [A B] [C D]. split; congruence. Qed.
#[export] Hint Resolve same_room_preorder : steps.

Lemma same_room_empty_ack : steps same_room tcp_send_empty_ack.
Proof.
  assert (Hh : forall n, steps same_room (tcp_output_alloc_header n)).
  { intros n. unfold tcp_output_alloc_header, tcp_output_alloc_header_common. auto 20 with steps. }
  unfold tcp_send_empty_ack, tcp_output_control_segment, tcp_set_flags, tcp_clear_flags.
  apply steps_bind; [apply _|auto with steps|]. intros n. apply steps_bind; [apply _|auto with steps|].
  intros [o|]; auto 20 with steps.
Qed.
Lemma same_room_output_segment x : steps same_room (tcp_output_segment x).
Proof.
  unfold tcp_output_segment, tcp_output_segment_busy, tcp_eff_send_mss_netif. auto 30 with steps.
Qed.
#[export] Hint Resolve same_room_empty_ack same_room_output_segment : steps.

Definition roomy (s : tcp_st) : Prop := room (st_pcb s) /\ 0 <= in_wnd s < 65536.
Definition keeps_room (s s' : tcp_st) : Prop := roomy s -> roomy s'.
#[export] Instance keeps_room_preorder : PreOrder keeps_room.
Proof. split; unfold keeps_room; intros ?; auto. Qed.
#[export] Hint Resolve keeps_room_preorder : steps.

Lemma same_room_keeps s s' : same_room s s' -> keeps_room s s'.
Proof. intros [E1 E2] [H1 H2]. split; [by apply (room_ext (st_pcb s))|by rewrite E2]. Qed.
Lemma keeps_intro {A} (m : TM A) : (forall s, roomy s -> wlp m (fun _ s' => roomy s') s) -> steps keeps_room m.
Proof. intros H s r s' Hm Hs. by eapply H. Qed.
Lemma same_room_wlp {A} (m : TM A) Q s : roomy s -> steps same_room m ->
  (forall r s', roomy s' -> same_room s s' -> Q r s') -> wlp m Q s.
Proof. intros Hs Hm HQ. eapply wlp_steps_post; [exact Hm|]. intros r s' H. apply HQ; [by apply (same_room_keeps s)|done]. Qed.
#[export] Hint Extern 1 (steps keeps_room (modp _)) => apply steps_modp; intros; apply same_room_keeps; split; [repeat case_match; done|done] : steps.
#[export] Hint Extern 1 (steps keeps_room (modify _)) => apply steps_modify; intros; apply same_room_keeps; split; repeat case_match; done : steps.
#[export] Hint Extern 1 (steps keeps_room ask) => apply steps_ask; [apply _|intros; by apply same_room_keeps] : steps.

Lemma write_mss_mono p p' : 0 < mss p -> 2 <= snd_wnd_max p -> mss p' = mss p -> snd_wnd_max p <= snd_wnd_max p' ->
  write_mss p <= write_mss p'.
Proof.
  intros H1 H2 E H3. unfold write_mss. rewrite E. assert (1 <= snd_wnd_max p / 2) by (apply Z.div_le_lower_bound; lia).
  assert (snd_wnd_max p / 2 <= snd_wnd_max p' / 2) by (apply Z.div_le_mono; lia).
  rewrite !nz_true by lia. lia.
Qed.
Lemma seg_fits_mono m m' x : m <= m' -> seg_fits m x -> seg_fits m' x.
Proof. unfold seg_fits. lia. Qed.

(** A larger window makes more room. *)
Lemma room_grow p p' : room p -> unacked p' = unacked p -> unsent p' = unsent p -> unsent_oversize p' = unsent_oversize p ->
  mss p' = mss p -> snd_buf p' = snd_buf p -> snd_wnd_max p <= snd_wnd_max p' < 65536 -> room p'.
Proof.
  intros [[R1 R1'] R2 [R3 R3'] R4] E1 E2 E3 E4 E5 Hw. assert (Hm : write_mss p <= write_mss p') by (apply write_mss_mono; lia).
  split; rewrite ?E1, ?E4, ?E5; try done; try lia.
  - unfold tail_ok. rewrite E2, E3. split; [eapply Forall_impl; [exact R1|]; intros x; by apply seg_fits_mono|].
    destruct (last (unsent p)); [|done]. lia.
  - eapply Forall_impl; [exact R2|]. intros x [? ?]. split; [by eapply seg_fits_mono|done].
Qed.

Lemma keeps_window_update : steps keeps_room receive_window_update.
Proof.
  apply steps_wlp. intros s. unfold receive_window_update. wlp_steps. intros [Hr Hw]. split; [|exact Hw]. rec_simpl.
  pose proof (rm_mss _ Hr) as [_ Hm].
  assert (Hc : forall p', room_of p' = room_of (st_pcb s) \/ (room_of p' = room_of (st_pcb s <| snd_wnd_max := in_wnd s |>) /\
    snd_wnd_max (st_pcb s) < in_wnd s) -> room p').
  { intros p' [E|[E Hlt]]; [by apply (room_ext (st_pcb s))|]. apply (room_ext (st_pcb s <| snd_wnd_max := in_wnd s |>)); [done|].
    apply (room_grow (st_pcb s)); try done. rec_simpl. lia. }
  apply Hc. destruct (_ || _); [|by left]. rec_simpl. destruct (Z.ltb_spec (snd_wnd_max (st_pcb s)) (in_wnd s)); by auto.
Qed.

(** Suffixes of the queues; with nothing unsent there is no room kept. *)
Lemma room_suffix p p' l1 l2 : room p -> unacked p = l1 ++ unacked p' -> unsent p = l2 ++ unsent p' ->
  unsent_oversize p' = (match unsent p' with [] => 0 | _ => unsent_oversize p end) ->
  mss p' = mss p -> snd_wnd_max p' = snd_wnd_max p -> 0 <= snd_buf p' < 65536 -> room p'.
Proof.
  intros [[R1 R1'] R2 R3 R4] E1 E2 E3 E4 E5 Hb. assert (Em : write_mss p' = write_mss p) by (unfold write_mss; by rewrite E4, E5).
  rewrite E1 in R2. rewrite E2 in R1, R1'. apply Forall_app in R1 as [_ R1]. apply Forall_app in R2 as [_ R2].
  split; rewrite ?Em, ?E4, ?E5; try done. split; [by rewrite Em|]. rewrite last_app in R1'.
  destruct (last (unsent p')) as [x|] eqn:El; [|apply last_None in El; by rewrite El in E3].
  rewrite E3, Em. destruct (unsent p'); done.
Qed.

(** A segment that is put last has no room left in it. *)
Lemma last_rexmit_insert x q : last (rexmit_insert x q) = if rexmit_inserted_last x q then Some x else last q.
Proof.
  unfold rexmit_inserted_last. induction q as [|y q IH]; [done|]. cbn [rexmit_insert forallb].
  destruct (TCP_SEQ_LT (seg_seqno y) (seg_seqno x)); cbn [andb]; [|done].
  assert (Hne : rexmit_insert x q <> []) by (destruct q; cbn [rexmit_insert]; [done|by destruct (TCP_SEQ_LT _ _)]).
  destruct (rexmit_insert x q) as [|z l]; [done|]. rewrite last_cons_cons, IH. destruct q as [|w q]; [done|].
  destruct (forallb _ _); [done|by rewrite last_cons_cons].
Qed.
Lemma room_rexmit p x una p' : room p -> unacked p = x :: una ->
  room_of p' = room_of (p <| unacked := una |> <| unsent := rexmit_insert x (unsent p) |>
    <| unsent_oversize := if rexmit_inserted_last x (unsent p) then 0 else unsent_oversize p |>) -> room p'.
Proof.
  intros [[R1 R1'] R2 R3 R4] Eu E. apply (room_ext _ _ E). rewrite Eu in R2. apply Forall_cons in R2 as [[X1 X2] R2].
  split; try done. unfold tail_ok. rec_simpl. change (write_mss _) with (write_mss p). split.
  - rewrite rexmit_insert_perm. by constructor.
  - rewrite last_rexmit_insert. destruct (rexmit_inserted_last x (unsent p)) eqn:Ei; [|by destruct (last (unsent p))].
    unfold seg_fits in X1. lia.
Qed.

Lemma keeps_rexmit : steps keeps_room tcp_rexmit.
Proof.
  apply steps_wlp. intros s. unfold tcp_rexmit, tcp_output_segment_busy. wlp_steps. destruct (unacked (st_pcb s)) as [|x una] eqn:Eu.
  { by wlp_steps. }
  wlp_steps; [by apply same_room_keeps|..]; intros [Hr Hw]; (split; [|exact Hw]); rec_simpl; apply (room_rexmit _ x una _ Hr Eu);
    match goal with H : rexmit_inserted_last _ _ = _ |- _ => rewrite H end; case_match; done.
Qed.
#[export] Hint Resolve keeps_window_update keeps_rexmit : steps.
Lemma keeps_dupack e : steps keeps_room (receive_dupack e).
Proof. unfold receive_dupack, tcp_rexmit_fast, tcp_set_flags. auto 20 with steps. Qed.

(** Acknowledged segments leave at the front. *)
Definition freed_room (s s' : tcp_st) : Prop := room_of (st_pcb s') = room_of (st_pcb s) /\ in_wnd s' = in_wnd s.
Lemma free_acked_suffix q o s : wlp (tcp_free_acked_segments q o) (fun r s' => same_room s s' /\ exists l, q = l ++ r) s.
Proof.
  revert s. induction q as [|x q IH]; intros s; cbn [tcp_free_acked_segments]; [wlp_steps; split; [done|by exists []]|].
  assert (Hq : forall s1, same_room s s1 -> wlp (tcp_free_acked_segments q o) (fun r s' => same_room s s' /\ exists l, x :: q = l ++ r) s1).
  { intros s1 H1. eapply wlp_conseq; [apply IH|]. intros r s2 [H2 [l ->]]. split; [by etransitivity|by exists (x :: l)]. }
  wlp_steps; [by apply Hq..|]. split; [done|by exists []].
Qed.

Lemma room_new_ack q b : room_of (receive_rto_done (new_ack_timers q <| snd_buf := b |>)) =
  (unacked q, unsent q, match unsent q with [] => 0 | _ => unsent_oversize q end, mss q, snd_wnd_max q, b).
Proof.
  transitivity (room_of (new_ack_timers q <| snd_buf := b |>)); [unfold receive_rto_done; repeat case_match; done|].
  unfold new_ack_timers. destruct q as []. unfold room_of. rec_simpl. cbn [Tcp.unsent]. by destruct unsent.
Qed.
Lemma room_acked p q l1 l2 una uns b : room p -> room_of q = room_of (p <| unacked := una |>) ->
  unacked p = l1 ++ una -> unsent p = l2 ++ uns -> 0 <= b < 65536 ->
  room (receive_rto_done (new_ack_timers (q <| unsent := uns |>) <| snd_buf := b |>)).
Proof.
  intros Hr Hq E1 E2 Hb. pose proof (room_new_ack (q <| unsent := uns |>) b) as H. revert H.
  generalize (receive_rto_done (new_ack_timers (q <| unsent := uns |>) <| snd_buf := b |>)). intros p' H.
  unfold room_of in *. rec_simpl_in Hq. rec_simpl_in H. injection Hq as A1 A2 A3 A4 A5 A6. injection H as B1 B2 B3 B4 B5 B6.
  apply (room_suffix p p' l1 l2 Hr); congruence || lia || idtac. rewrite B2, B3. by destruct uns.
Qed.
Lemma free_acked_queues_room s : roomy s -> wlp free_acked_queues (fun _ s' => 0 <= in_wnd s' < 65536 /\ forall b, 0 <= b < 65536 ->
  room (receive_rto_done (new_ack_timers (st_pcb s') <| snd_buf := b |>))) s.
Proof.
  intros [Hr Hw]. unfold free_acked_queues. wlp_steps.
  eapply wlp_conseq; [apply free_acked_suffix|]. intros una s1 [[H1 W1] [l1 E1]]. wlp_steps.
  eapply wlp_conseq; [apply free_acked_suffix|]. intros uns s2 [[H2 W2] [l2 E2]]. wlp_steps. rec_simpl_in H2. rec_simpl_in W2.
  assert (Hq : room_of (st_pcb s2) = room_of (st_pcb s <| unacked := una |>)).
  { rewrite H2. unfold room_of in *. rec_simpl. by injection H1 as _ -> -> -> -> ->. }
  split; [by rewrite W2, W1|]. intros b Hb. apply (room_acked (st_pcb s) (st_pcb s2) l1 l2 una uns b Hr Hq E1 E2 Hb).
Qed.
Lemma keeps_new_ack : steps keeps_room receive_new_ack.
Proof.
  assert (H0 : forall a, steps keeps_room (modp (new_ack_pcb a))).
  { intros a. apply steps_modp. intros s. apply same_room_keeps. split; [|done]. unfold new_ack_pcb, receive_cwnd. cbv zeta.
    repeat case_match; done. }
  apply keeps_intro. intros s Hs. unfold receive_new_ack, receive_nd6_hint. wlp_step. wlp_step. wlp_step.
  eapply wlp_steps_post; [apply H0|]. intros _ s1 Hk. wlp_step. eapply wlp_conseq; [apply free_acked_queues_room, Hk, Hs|].
  intros _ s2 [Hw Hr]. wlp_step. wlp_step. wlp_step. wlp_step. wlp_step. wlp_step. wlp_step. wlp_step. wlp_step.
  set (s3 := if in_is_v6 _ then _ else _).
  assert (E : st_pcb s3 = new_ack_timers (st_pcb s2) /\ in_wnd s3 = in_wnd s2) by (subst s3; case_match; done).
  clearbody s3. destruct E as [E1 E2]. unfold roomy. rec_simpl. rewrite E1, E2. split; [|done]. apply Hr, u16_t_range.
Qed.
#[export] Hint Resolve keeps_dupack keeps_new_ack : steps.

Lemma keeps_receive_ack : steps keeps_room receive_ack.
Proof.
  unfold receive_ack, receive_rtt. 
  assert (He : steps keeps_room tcp_send_empty_ack) by (eapply steps_sub; [apply same_room_empty_ack|apply same_room_keeps]).
  auto 30 with steps.
Qed.
#[export] Hint Resolve keeps_receive_ack : steps.

(** While the loop of [tcp_output] runs, the room of an empty queue may be out of date. *)
Definition tail_part (p : tcp_pcb) : Prop :=
  match last (unsent p) with
  | None => True
  | Some x => unsent_oversize p = oversize_left x /\ 0 <= oversize_left x /\
      seg_len x + LWIP_TCP_OPT_LENGTH (seg_optflags x) + oversize_left x <= write_mss p
  end.
Record room_part (p : tcp_pcb) : Prop := RoomPart {
  rp_fits : Forall (seg_fits (write_mss p)) (unsent p);
  rp_tail : tail_part p;
  rp_una : Forall (fun x => seg_fits (write_mss p) x /\ oversize_left x = 0) (unacked p);
  rp_mss : 0 < mss p <= TCP_MSS /\ 2 <= snd_wnd_max p < 65536;
  rp_buf : 0 <= snd_buf p < 65536
}.
Lemma room_room_part p : room p -> room_part p.
Proof. intros [[R1 R2] R3 R4 R5]. split; try done. unfold tail_part. by destruct (last (unsent p)). Qed.
Lemma room_part_room p : room_part p -> (unsent p = [] -> unsent_oversize p = 0) -> room p.
Proof.
  intros [R1 R2 R3 R4 R5] H. split; try done. split; [done|]. unfold tail_part in R2.
  destruct (last (unsent p)) eqn:E; [done|]. apply last_None in E. auto.
Qed.
Lemma room_part_ext p p' : room_of p' = room_of p -> room_part p -> room_part p'.
Proof.
  unfold room_of. intros [= E1 E2 E3 E4 E5 E6] [R1 R2 R3 R4 R5].
  assert (Em : write_mss p' = write_mss p) by (unfold write_mss; by rewrite E4, E5).
  split; unfold tail_part in *; by rewrite ?Em, ?E1, ?E2, ?E3, ?E4, ?E5, ?E6.
Qed.

(** Setting the ACK flag of the first segment, and moving it. *)
Lemma room_part_flag p x f rest : room_part p -> unsent p = x :: rest ->
  room_part (p <| unsent := x <| seg_flags := f |> :: rest |>).
Proof.
  intros [R1 R2 R3 R4 R5] E. unfold tail_part in R2. rewrite E in R1, R2. apply Forall_cons in R1 as [R0 R1].
  split; try done; [constructor; done|]. unfold tail_part. rec_simpl. destruct rest as [|y rest]; [done|].
  rewrite last_cons_cons in *. done.
Qed.
Lemma room_part_sent p x rest : room_part p -> unsent p = x :: rest -> room_part (output_sent x rest p) /\ unsent (output_sent x rest p) = rest.
Proof.
  intros [R1 R2 R3 R4 R5] E.
  set (p1 := p <| unsent := rest |> <| unacked := if 0 <? TCP_TCPLEN x then unacked_insert (x <| oversize_left := 0 |>) (unacked p) else unacked p |>).
  assert (Hp : room_of (output_sent x rest p) = room_of p1).
  { subst p1. unfold output_sent. change (TCP_TCPLEN (x <| oversize_left := 0 |>)) with (TCP_TCPLEN x). repeat case_match; done. }
  split; [|by injection Hp]. apply (room_part_ext p1); [done|]. clear Hp. subst p1.
  unfold tail_part in R2. rewrite E in R1, R2. apply Forall_cons in R1 as [R0 R1].
  split; try done; rec_simpl.
  - unfold tail_part. rec_simpl. destruct rest as [|y rest]; [done|]. rewrite last_cons_cons in R2. done.
  - destruct (0 <? TCP_TCPLEN x); [|done]. rewrite unacked_insert_perm. by constructor.
Qed.

Definition part_roomy (s : tcp_st) : Prop := room_part (st_pcb s) /\ 0 <= in_wnd s < 65536.
Lemma part_same s s' : same_room s s' -> part_roomy s -> part_roomy s'.
Proof. intros [E1 E2] [H1 H2]. split; [by apply (room_part_ext (st_pcb s))|by rewrite E2]. Qed.

Lemma output_loop_room wnd q s : part_roomy s -> unsent (st_pcb s) = q -> 
  wlp (output_loop wnd q) (fun r s' => part_roomy s' /\ (r <> None -> unsent (st_pcb s') <> [])) s.
Proof.
  revert s. induction q as [|x rest IH]; intros s Hs Hu; cbn [output_loop]; [by wlp_steps|].
  wlp_step. wlp_step. destruct (fits wnd (st_pcb s) x); [|by wlp_steps]. wlp_step. wlp_step. wlp_step; [by wlp_steps|].
  set (x' := if state_is _ _ then x else _).
  assert (H1 : part_roomy (s <| st_pcb := st_pcb s <| unsent := x' :: rest |> |>)).
  { destruct Hs as [Hs Hw]. split; [|exact Hw]. rec_simpl. subst x'. destruct (state_is _ _); [|by apply room_part_flag].
    apply (room_part_ext (st_pcb s)); [unfold room_of; rec_simpl; by rewrite Hu|done]. }
  clearbody x'. wlp_step. wlp_step. set (s1 := s <| st_pcb := _ |>) in *. wlp_step.
  assert (Hu1 : unsent (st_pcb s1) = x' :: rest) by done. clearbody s1.
  eapply wlp_steps_post; [apply same_room_output_segment|]. intros r s2 H2. pose proof (part_same _ _ H2 H1) as P2.
  assert (Hu2 : unsent (st_pcb s2) = x' :: rest) by (destruct H2 as [H2 _]; injection H2; congruence).
  wlp_step.
  - unfold tcp_set_flags. wlp_steps. split; [by apply (part_same s2)|]. by rewrite Hu2.
  - wlp_step. wlp_step. destruct P2 as [P2 W2]. destruct (room_part_sent _ _ _ P2 Hu2) as [P3 U3]. apply IH; rec_simpl; [by split|done].
Qed.

Lemma keeps_output : steps keeps_room tcp_output.
Proof.
  apply keeps_intro. intros s Hs. unfold tcp_output. wlp_step. wlp_step. wlp_step. wlp_step. wlp_step; [by wlp_steps|].
  assert (Hd : forall s1, roomy s1 -> wlp output_done (fun _ s' => roomy s') s1).
  { intros s1 H1. unfold output_done, tcp_clear_flags. wlp_steps. by apply (same_room_keeps s1). }
  assert (Ha : forall s1, roomy s1 -> wlp tcp_send_empty_ack (fun _ s' => roomy s') s1).
  { intros s1 H1. eapply same_room_wlp; [exact H1|apply same_room_empty_ack|]. done. }
  unfold tcp_output_queued. wlp_step. wlp_step. destruct (unsent (st_pcb s)) as [|x q] eqn:Eu.
  { destruct (has _ _); auto. }
  wlp_step. wlp_step. wlp_step; [wlp_step; by apply (same_room_keeps s)|]. wlp_step.
  set (s1 := s <| oracle := l |>). assert (K1 : roomy s1) by (by apply (same_room_keeps s)). clearbody s1. 
  eapply same_room_wlp; [exact K1| |].
  { unfold output_local_ip. apply steps_bind; [apply _|auto with steps|]. intros ip. destruct (ip_addr_isany_val ip); auto 20 with steps. }
  intros b s2 K2 _. wlp_step; [by wlp_steps|]. wlp_step. wlp_step. wlp_step.
  - unfold output_blocked. wlp_step. eapply same_room_wlp; [exact K2|auto with steps|]. intros _ s3 K3 _. wlp_step. wlp_step.
    destruct (has _ _); auto.
  - wlp_step. wlp_step. wlp_step. set (s3 := s2 <| st_pcb := _ |>).
    assert (K3 : part_roomy s3) by (destruct K2; split; [by apply room_room_part, (room_ext (st_pcb s2))|done]).
    eapply wlp_conseq; [apply (output_loop_room _ _ s3 K3); done|]. intros r s4 [[K4 W4] Hr].
    destruct r as [err|]; [wlp_step; split; [|done]; apply room_part_room; [done|by intros E; destruct Hr]|].
    wlp_step. wlp_step. apply Hd. split; [|exact W4]. rec_simpl. destruct (unsent (st_pcb s4)) eqn:E4.
    + apply room_part_room; [|done]. destruct K4 as [P1 P2 P3 P4 P5]. split; rec_simpl; try done. unfold tail_part. rec_simpl. by rewrite E4.
    + apply room_part_room; [done|]. by rewrite E4.
Qed.
#[export] Hint Resolve keeps_output : steps.

(** The unacked queue, which has no room in it, goes in front of the unsent queue. *)
Lemma keeps_rexmit_rto : steps keeps_room tcp_rexmit_rto.
Proof.
  apply keeps_intro. intros s [Hr Hw]. unfold tcp_rexmit_rto. wlp_step.
  apply (wlp_conseq _ (fun r s' => roomy s')).
  2:{ intros r s1 H1. wlp_step; [|done]. unfold tcp_rexmit_rto_commit. wlp_step. wlp_step. wlp_step.
      eapply wlp_steps_post; [apply keeps_output|]. intros e s2 Hk. wlp_step. apply Hk. apply (same_room_keeps s1); [|done].
      split; [case_match; done|done]. }
  unfold tcp_rexmit_rto_prepare. wlp_step. wlp_step. destruct (last (unacked (st_pcb s))) as [x|] eqn:El; [|by wlp_steps].
  assert (Hb : forall q, steps same_room (any_busy q)).
  { induction q as [|y q IH]; cbn [any_busy]; [auto with steps|]. unfold tcp_output_segment_busy. auto 20 with steps. }
  wlp_step. eapply same_room_wlp; [by split|apply Hb|]. intros b s1 [H1 W1] [Hs1 _]. wlp_step; [by wlp_steps|].
  unfold tcp_set_flags. wlp_steps. split; [|exact W1]. rec_simpl.
  assert (Ex : last (unacked (st_pcb s1)) = Some x) by (injection Hs1; congruence). clear - H1 Ex.
  destruct H1 as [[R1 R1'] R2 R3 R4]. assert (Hx : seg_fits (write_mss (st_pcb s1)) x /\ oversize_left x = 0).
  { rewrite Forall_forall in R2. apply R2. by apply last_Some_elem_of. }
  destruct Hx as [X1 X2]. generalize (st_pcb s1) as p, R1, R1', R2, R3, R4, Ex, X1. clear - X2. intros p R1 R1' R2 R3 R4 Ex X1.
  set (p0 := match unsent p with [] => _ | _ => p end).
  assert (E0 : room_of p0 = room_of (p <| unsent_oversize := unsent_oversize p0 |>) /\
    unsent_oversize p0 = match unsent p with [] => 0 | _ => unsent_oversize p end).
  { subst p0. destruct (unsent p) eqn:E; rec_simpl; unfold room_of; rec_simpl; rewrite ?E; done. }
  clearbody p0. destruct E0 as [E0 E1]. unfold room_of in E0. rec_simpl_in E0. injection E0 as A1 A2 A3 A4 A5. rewrite A1, A2.
  apply (room_ext (p <| unsent_oversize := unsent_oversize p0 |> <| unsent := unacked p ++ unsent p |> <| unacked := [] |>)).
  { unfold room_of. rec_simpl. by rewrite A3, A4, A5. }
  split; rec_simpl; try done. unfold tail_ok. rec_simpl. change (write_mss (_ <| unacked := [] |>)) with (write_mss p). split.
  - apply Forall_app. split; [|done]. eapply Forall_impl; [exact R2|]. by intros y [? _].
  - rewrite last_app. destruct (unsent p) as [|y q] eqn:Eu.
    + simpl. rewrite Ex, E1, X2. unfold seg_fits in X1. split_and!; try done. lia.
    + rewrite E1. destruct (last (y :: q)) eqn:Ey; [done|]. by apply last_None in Ey.
Qed.

(** ** The FIN *)

(** What queueing a FIN does: the flag goes to the last unsent segment, or into a segment
    of its own behind it. *)
Definition fin_queued (p p' : tcp_pcb) : Prop :=
  (exists pre x, unsent p = pre ++ [x] /\ has (seg_flags x) (Z.lor (Z.lor TCP_SYN TCP_FIN) TCP_RST) = false /\
     p' = p <| unsent := pre ++ [x <| seg_flags := Z.lor (seg_flags x) TCP_FIN |>] |> <| flags := Z.lor (flags p) TF_FIN |>) \/
  (exists x, seg_seqno x = u32_t (snd_lbb p) /\ seg_flags x = TCP_FIN /\ seg_p x = [[]] /\ seg_len x = 0 /\ tseg_ok x /\
     oversize_left x = 0 /\ LWIP_TCP_OPT_LENGTH (seg_optflags x) = 0 /\
     p' = p <| unsent := unsent p ++ [x] |> <| unsent_oversize := 0 |> <| snd_lbb := u32_t (snd_lbb p + 1) |>
            <| flags := Z.lor (flags p) TF_FIN |> <| snd_queuelen := u16_t (snd_queuelen p + 1) |>).

Lemma fin_segment_ok sq : tseg_ok (mkSeg (u32_t sq) TCP_FIN 0 [[]] 0 0 0 false).
Proof. by repeat split. Qed.

Lemma tcp_enqueue_fin_spec s : qlen_ok (st_pcb s) -> snd_queuelen (st_pcb s) < 65535 ->
  wp (tcp_enqueue_flags TCP_FIN) (fun r s' => exists p' l, s' = s <| st_pcb := p' |> <| oracle := l |> /\
    ((r = ERR_OK /\ fin_queued (st_pcb s) p') \/
     (r = ERR_MEM /\ exists f, p' = st_pcb s <| flags := f |>))) s.
Proof.
  intros Hq Hlt. pose proof Hq as [Hq1 _]. unfold tcp_enqueue_flags. wp_step. apply wp_assert; [done|].
  change (has TCP_FIN TCP_SYN) with false. change (has TCP_FIN TCP_FIN) with true. cbv iota zeta. wp_step.
  apply wp_ask_any. intros z l _. unfold tcp_set_flags. destruct (negb (z =? 0)).
  { wp_steps. eexists _, l. split; [reflexivity|]. right. eauto. }
  wp_step. wp_step. wp_step. eapply wp_conseq; [apply (create_segment_spec [[]]); done|]. rec_simpl.
  intros [x|] s1 [[l1 ->] Hx].
  2:{ wp_steps. eexists _, l1. split; [reflexivity|]. right. eauto. }
  subst x. change (zlen (pkt_bytes [[]])) with 0. wp_step. apply wp_assert; [done|]. unfold when. cbn [orb]. wp_steps.
  change (pkt_clen _) with 1. apply valid_queuelen_spec.
  { pose proof (clens_nonneg (unacked (st_pcb s))). pose proof (clens_nonneg (unsent (st_pcb s))).
    unfold qlen_ok. rec_simpl. rewrite clens_app, (u16_t_id (snd_queuelen (st_pcb s) + 1)) by lia. simpl. change (zlen [[]]) with 1. split; lia. }
  wp_steps. eexists _, l1. split; [reflexivity|]. left. split; [done|]. right. rec_simpl.
  eexists. split; [|split; [|split; [|split; [|split; [apply (fin_segment_ok (snd_lbb (st_pcb s)))|]]]]]; done.
Qed.

Lemma tcp_send_fin_spec s : qlen_ok (st_pcb s) -> snd_queuelen (st_pcb s) < 65535 ->
  wp tcp_send_fin (fun r s' => exists p' l, s' = s <| st_pcb := p' |> <| oracle := l |> /\
    ((r = ERR_OK /\ fin_queued (st_pcb s) p') \/
     (r = ERR_MEM /\ exists f, p' = st_pcb s <| flags := f |>))) s.
Proof.
  intros Hq Hlt. unfold tcp_send_fin, tcp_set_flags. wp_step. wp_step. 
  destruct (last (unsent (st_pcb s))) as [x|] eqn:El; [|by apply tcp_enqueue_fin_spec].
  destruct (has (seg_flags x) _) eqn:Ef; cbn [negb]; [by apply tcp_enqueue_fin_spec|]. wp_steps.
  apply last_Some in El as [pre El]. rewrite El, on_last_snoc. exists (st_pcb s <| unsent := pre ++ [x <| seg_flags := Z.lor (seg_flags x) TCP_FIN |>] |> <| flags := Z.lor (flags (st_pcb s)) TF_FIN |>), (oracle s).
  split; [by destruct s|]. left. split; [done|]. left. eauto.
Qed.

Lemma room_fin_queued p p' : room p -> fin_queued p p' -> room p'.
Proof.
  intros [[R1 R1'] R2 R3 R4] [(pre & x & Eu & _ & ->)|(x & _ & _ & _ & Hl & _ & Ho & Hopt & ->)].
  - rewrite Eu in R1, R1'. rewrite last_snoc in R1'. split; rec_simpl; try done. split; rec_simpl; [|by rewrite last_snoc].
    apply Forall_app in R1 as [R1 [R0 _]%Forall_cons]. apply Forall_app. split; [done|]. by constructor.
  - assert (Hx : seg_fits (write_mss p) x).
    { unfold seg_fits. rewrite Hl, Hopt. pose proof (write_mss_range p) as Hm. destruct R3. lia. }
    split; rec_simpl; try done. split; rec_simpl; [apply Forall_app; split; [done|by constructor]|].
    rewrite last_snoc. unfold seg_fits in Hx. split_and!; [done|lia|]. rewrite Ho. 
    change (write_mss (_ <| snd_queuelen := _ |>)) with (write_mss p). lia.
Qed.

(** ** The next sequence number to send *)

(** A part of the control block stays as it is. *)
Definition kept_by {T} (f : tcp_pcb -> T) (s s' : tcp_st) : Prop := f (st_pcb s') = f (st_pcb s).
#[export] Instance kept_by_preorder {T} (f : tcp_pcb -> T) : PreOrder (kept_by f).
Proof. split; [done|]. intros s1 s2 s3 A B. unfold kept_by in *. congruence. Qed.
#[export] Hint Resolve kept_by_preorder : steps.

Definition next_of (p : tcp_pcb) := (snd_nxt p, unsent p).
Lemma kept_next_empty_ack : steps (kept_by next_of) tcp_send_empty_ack.
Proof.
  assert (Hh : forall n, steps (kept_by next_of) (tcp_output_alloc_header n)).
  { intros n. unfold tcp_output_alloc_header, tcp_output_alloc_header_common. auto 20 with steps. }
  unfold tcp_send_empty_ack, tcp_output_control_segment, tcp_set_flags, tcp_clear_flags.
  apply steps_bind; [apply _|auto with steps|]. intros n. apply steps_bind; [apply _|auto with steps|].
  intros [o|]; auto 20 with steps.
Qed.
Lemma kept_next_output_segment x : steps (kept_by next_of) (tcp_output_segment x).
Proof. unfold tcp_output_segment, tcp_output_segment_busy, tcp_eff_send_mss_netif. auto 30 with steps. Qed.
#[export] Hint Resolve kept_next_empty_ack kept_next_output_segment : steps.

Section Next.
(** [P] holds of [snd_nxt], and goes on to hold when [snd_nxt] moves to the end of a segment of [q]. *)
Context (P : Z -> Prop).
Definition moves_next (q : list tcp_seg) : Prop := forall x n, x ∈ q -> P n ->
  TCP_SEQ_LT n (u32_t (seg_seqno x + TCP_TCPLEN x)) = true -> P (u32_t (seg_seqno x + TCP_TCPLEN x)).

Lemma output_loop_next wnd q s : moves_next q -> unsent (st_pcb s) = q -> P (snd_nxt (st_pcb s)) ->
  wlp (output_loop wnd q) (fun _ s' => P (snd_nxt (st_pcb s'))) s.
Proof.
  revert s. induction q as [|x rest IH]; intros s Hm Hu Hs; cbn [output_loop]; [by wlp_steps|].
  wlp_step. wlp_step. destruct (fits wnd (st_pcb s) x); [|by wlp_steps]. wlp_step. wlp_step. wlp_step; [by wlp_steps|].
  set (x' := if state_is _ _ then x else _).
  assert (Hx' : seg_seqno x' = seg_seqno x /\ TCP_TCPLEN x' = TCP_TCPLEN x).
  { subst x'. destruct (state_is _ _); [done|]. split; [done|]. by rewrite <- plain_tcplen, plain_set_ack, plain_tcplen. }
  clearbody x'. destruct Hx' as [X1 X2]. wlp_step. wlp_step. wlp_step. eapply wlp_steps_post; [apply kept_next_output_segment|].
  intros r s2 H2. unfold kept_by, next_of in H2. rec_simpl_in H2. injection H2 as N2 U2. wlp_step.
  - unfold tcp_set_flags. wlp_steps. by rewrite N2.
  - wlp_step. wlp_step. apply IH; rec_simpl.
    + intros y n Hy. apply Hm. apply elem_of_cons. by right.
    + destruct (TCP_SEQ_LT (snd_nxt (st_pcb s2)) (u32_t (seg_seqno x' + TCP_TCPLEN x'))) eqn:El; unfold output_sent;
        change (TCP_TCPLEN (x' <| oversize_left := 0 |>)) with (TCP_TCPLEN x'); repeat case_match; done.
    + assert (E : snd_nxt (output_sent x' rest (st_pcb s2)) =
        if TCP_SEQ_LT (snd_nxt (st_pcb s2)) (u32_t (seg_seqno x' + TCP_TCPLEN x')) then u32_t (seg_seqno x' + TCP_TCPLEN x') else snd_nxt (st_pcb s2)).
      { unfold output_sent. change (TCP_TCPLEN (x' <| oversize_left := 0 |>)) with (TCP_TCPLEN x').
        change (seg_seqno (x' <| oversize_left := 0 |>)) with (seg_seqno x'). destruct (state_is _ _); rec_simpl; destruct (TCP_SEQ_LT _ _); case_match; done. }
      rewrite E, X1, X2, N2. destruct (TCP_SEQ_LT (snd_nxt (st_pcb s)) _) eqn:El; [|exact Hs]. apply (Hm x (snd_nxt (st_pcb s))); try done. apply elem_of_cons. by left.
Qed.

Lemma tcp_output_next s : moves_next (unsent (st_pcb s)) -> P (snd_nxt (st_pcb s)) ->
  wlp tcp_output (fun _ s' => P (snd_nxt (st_pcb s'))) s.
Proof.
  intros Hm Hs. unfold tcp_output. wlp_step. wlp_step. wlp_step. wlp_step. wlp_step; [by wlp_steps|].
  assert (Hk : forall A (m : TM A) s1, steps (kept_by next_of) m -> P (snd_nxt (st_pcb s1)) -> wlp m (fun _ s' => P (snd_nxt (st_pcb s'))) s1).
  { intros A m s1 Hst H1. eapply wlp_steps_post; [exact Hst|]. intros r s2 H2. injection H2 as E _. by rewrite E. }
  assert (Hd : steps (kept_by next_of) output_done) by (unfold output_done, tcp_clear_flags; auto with steps).
  unfold tcp_output_queued. wlp_step. wlp_step. destruct (unsent (st_pcb s)) as [|x q] eqn:Eu.
  { destruct (has _ _); auto with steps. }
  wlp_step. wlp_step. wlp_step; [by wlp_steps|]. wlp_step.
  eapply wlp_steps_post with (R := kept_by next_of).
  { unfold output_local_ip. apply steps_bind; [apply _|auto with steps|]. intros ip. destruct (ip_addr_isany_val ip); auto 20 with steps. }
  intros b s2 K2. injection K2 as N2 U2. rewrite <- N2 in Hs. rewrite Eu in U2. wlp_step; [by wlp_steps|]. wlp_step. wlp_step. wlp_step.
  - unfold output_blocked. apply Hk; [|done]. auto 20 with steps.
  - wlp_step. wlp_step. wlp_step. eapply wlp_conseq; [apply (output_loop_next _ _ (s2 <| st_pcb := st_pcb s2 <| persist_backoff := 0 |> |>)); [by rewrite U2|done|done]|].
    intros r s4 H4. destruct r as [err|]; [by wlp_steps|]. wlp_step. wlp_step. apply Hk; [done|].
    rec_simpl. by destruct (unsent (st_pcb s4)).
Qed.
End Next.
