(* ===== verification/TcpSendStream.v ===== *)
(** * The sending side of a byte stream

    The application writes the stream [σ], piece by piece, and shuts the connection down
    behind it.  Whatever acknowledgements arrive and whatever is retransmitted, the
    segments on the queues carry the bytes of [σ] at the positions their sequence numbers
    stand for, and every byte written and not acknowledged is on a queue. *)

From Stdlib Require Import Sorted.
From stdpp Require Import sorting.
From S2P Require Import Prelude Def IpAddr OnesComplement Pbuf InetChksum.
From S2P Require Import Tcp TcpOut TcpIn TcpFacts TcpStream TcpOoseq TcpRecv TcpAck.
From S2P Require Import TcpOutput TcpSend TcpProcess TcpInput TcpWrite TcpWriteFacts TcpClose TcpSteps.

(** ** Moving segments keeps the queues sorted *)

Lemma rexmitted_tx_inv B p p' : tx_inv B p -> rexmitted (unacked p) (unsent p) (unacked p') (unsent p') -> tx_inv B p'.
Proof.
  intros Hi Hr. remember (unacked p) as una eqn:E1. remember (unsent p) as uns eqn:E2.
  remember (unacked p') as una' eqn:E3. remember (unsent p') as uns' eqn:E4.
  assert (H : seq_sorted B una /\ seq_sorted B uns /\ NoDup (offs B (una ++ uns)) /\
    Forall (fun o => o < 2147483648) (offs B (una ++ uns))) by (subst; by destruct Hi).
  assert (G : seq_sorted B una' /\ seq_sorted B uns' /\ NoDup (offs B (una' ++ uns')) /\
    Forall (fun o => o < 2147483648) (offs B (una' ++ uns'))).
  { clear E1 E2 E3 E4 Hi. induction Hr as [una uns|x una uns una' uns' Hr IH]; [done|]. apply IH. destruct H as (H1 & H2 & H3 & H4).
    assert (Hp : Permutation (offs B (una ++ rexmit_insert x uns)) (offs B ((x :: una) ++ uns))).
    { unfold offs. by rewrite rexmit_insert_perm, <- Permutation_middle. }
    split; [by apply StronglySorted_inv in H1 as [? _]|]. rewrite Hp. split; [|done]. apply rexmit_insert_offs; [| |done].
    - unfold offs in *. simpl in *. rewrite fmap_app in H4. apply Forall_cons in H4 as [H4 H5]. apply Forall_app in H5 as [_ H5].
      by constructor.
    - unfold offs in *. simpl in H3. rewrite fmap_app in H3. apply NoDup_cons in H3 as [H3 _]. apply not_elem_of_app in H3. tauto. }
  subst. by destruct G as (G1 & G2 & G3 & G4).
Qed.

(** Suffixes of the queues. *)
Lemma tx_inv_suffix B p p' l1 l2 : tx_inv B p -> unacked p = l1 ++ unacked p' -> unsent p = l2 ++ unsent p' -> tx_inv B p'.
Proof.
  intros [H1 H2 H3 H4] E1 E2. rewrite E1, E2 in *. unfold seq_sorted, offs in *. rewrite !fmap_app in *. split.
  - by apply StronglySorted_app_1_r in H1.
  - by apply StronglySorted_app_1_r in H2.
  - unfold offs. rewrite fmap_app. rewrite <- app_assoc in H3. apply NoDup_app in H3 as (_ & _ & H3).
    apply NoDup_app in H3 as (Ha & Hd & Hb). apply NoDup_app in Hb as (_ & _ & Hb). apply NoDup_app. split_and!; try done.
    intros x Hx Hx'. apply (Hd x Hx). apply elem_of_app. by right.
  - unfold offs. rewrite fmap_app. rewrite !Forall_app in *. tauto.
Qed.

(** The same queues seen from another base. *)
Lemma tx_inv_rebase B B' d p : tx_inv B p -> 
  Forall (fun x => off B' x = off B x - d /\ off B' x < 2147483648) (unacked p ++ unsent p) -> tx_inv B' p.
Proof.
  intros [H1 H2 H3 H4] Hf. assert (Hm : forall q, (forall x, x ∈ q -> x ∈ unacked p ++ unsent p) -> offs B' q = (fun o => o - d) <$> offs B q).
  { intros q Hq. unfold offs. rewrite <- list_fmap_compose. apply list_fmap_ext. intros i x Hx. apply list_elem_of_lookup_2 in Hx.
    rewrite Forall_forall in Hf. by apply Hf, Hq. }
  assert (Hs : forall q, StronglySorted Z.lt q -> StronglySorted Z.lt ((fun o => o - d) <$> q)).
  { induction 1 as [|x q Hq IH Hx]; [constructor|]. simpl. constructor; [done|]. apply Forall_fmap. eapply Forall_impl; [exact Hx|]. simpl. lia. }
  split; unfold seq_sorted; rewrite ?Hm; try (intros; set_solver); auto.
  - apply NoDup_fmap_2; [|done]. intros a b. lia.
  - rewrite <- Hm by done. unfold offs. apply Forall_fmap. eapply Forall_impl; [exact Hf|]. simpl. tauto.
Qed.

(** New segments behind all others. *)
Lemma tx_inv_grow B p p' queue m : tx_inv B p -> unacked p' = unacked p ->
  offs B (unsent p') = offs B (unsent p) ++ offs B queue ->
  Forall (fun o => o < m) (offs B (unacked p ++ unsent p)) -> StronglySorted Z.lt (offs B queue) ->
  Forall (fun o => m <= o < 2147483648) (offs B queue) -> tx_inv B p'.
Proof.
  intros [H1 H2 H3 H4] E1 E2 Hm Hq Hqm.
  assert (E : offs B (unacked p' ++ unsent p') = offs B (unacked p ++ unsent p) ++ offs B queue).
  { unfold offs in *. by rewrite !fmap_app, E1, E2, app_assoc. }
  rewrite Forall_forall in Hm, Hqm. split; unfold seq_sorted; rewrite ?E, ?E1, ?E2; try done.
  - apply StronglySorted_app_2; try done. intros a b Ha Hb. specialize (Hqm b Hb).
    assert (a < m); [|lia]. apply Hm. unfold offs in *. rewrite fmap_app. apply elem_of_app. by right.
  - apply NoDup_app. split_and!; [done| |by apply sorted_nodup]. intros o Ho Ho'. specialize (Hqm o Ho'). specialize (Hm o Ho). lia.
  - apply Forall_app. split; [done|]. apply Forall_forall. intros o Ho. by apply Hqm.
Qed.

Section SendStream.
Context (σ : list Z) (iss : Z).
Abbreviation seg_at := (seg_at σ iss).

(** ** The invariant *)

(** The end of the sequence space in use: [T] bytes written, and the FIN. *)
Definition send_end (T : Z) (c : bool) : Z := T + Z.b2z c.
(** No queued segment begins more than 2^16 numbers before what is acknowledged. *)
Definition send_base (L : Z) : Z := seq_of iss (L - 65536).

(** [x] is at position [a], at most 2^16 behind [L] and within what is written. *)
Definition placed (L E : Z) (x : tcp_seg) (a : Z) : Prop := seg_at a x /\ L - 65536 <= a /\ a + TCP_TCPLEN x <= E.

(** [L] is acknowledged, [T] bytes of [σ] are written, [c] says that the FIN is queued. *)
Record send_inv (L T : Z) (c : bool) (p : tcp_pcb) : Prop := SendInv {
  sd_ok : Forall tseg_ok (unacked p ++ unsent p);
  sd_at : Forall (fun x => exists a, placed L (send_end T c) x a) (unacked p ++ unsent p);
  sd_sorted : tx_inv (send_base L) p;
  sd_cover : forall i, L <= i < send_end T c ->
    exists x a, x ∈ unacked p ++ unsent p /\ placed L (send_end T c) x a /\ a <= i < a + TCP_TCPLEN x;
  sd_lastack : lastack p = seq_of iss L;
  sd_lbb : c = false -> snd_lbb p = seq_of iss T;
  sd_range : 0 <= L <= send_end T c /\ T <= zlen σ /\ send_end T c - L <= 536870912;
  sd_open : c = false -> Forall (fun x => fin x = false) (unacked p ++ unsent p);
  sd_closed : c = true -> T = zlen σ /\ may_write (state p) = false
}.

Lemma placed_off L E x a : placed L E x a -> E - L <= 536870912 -> 0 < TCP_TCPLEN x -> off (send_base L) x = a - (L - 65536).
Proof.
  intros (Ha & H1 & H2) HE Hx. unfold off, send_base. rewrite (at_seqno _ _ _ _ Ha). unfold seq_of, u32_t.
  rewrite <- Zminus_mod. replace (iss + a - (iss + (L - 65536))) with (a - (L - 65536)) by lia. apply Z.mod_small. lia.
Qed.

Lemma seg_at_inj x a b : seg_at a x -> seg_at b x -> -4294967296 < a - b < 4294967296 -> a = b.
Proof.
  intros Ha Hb Hab. apply Z.eqb_eq. rewrite <- (seq_of_inj iss) by lia. apply Z.eqb_eq.
  by rewrite <- (at_seqno _ _ _ _ Ha), <- (at_seqno _ _ _ _ Hb).
Qed.

(** Only the queues, [lastack], [snd_lbb] and the state matter. *)
Lemma send_inv_ext L T c p p' : send_inv L T c p -> unacked p' = unacked p -> unsent p' = unsent p ->
  lastack p' = lastack p -> snd_lbb p' = snd_lbb p -> (may_write (state p') = true -> may_write (state p) = true) ->
  send_inv L T c p'.
Proof.
  intros [H1 H2 [S1 S2 S3 S4] H4 H5 H6 H7 H8 H9] E1 E2 E3 E4 E5. split; rewrite ?E1, ?E2, ?E3, ?E4; try done.
  - split; by rewrite ?E1, ?E2.
  - intros Hc. destruct (H9 Hc) as [? Hm]. split; [done|]. destruct (may_write (state p')); [|done]. by rewrite E5 in Hm.
Qed.

Lemma tseg_ok_plain x y : plain x = plain y -> tseg_ok x -> tseg_ok y.
Proof.
  intros Hp [H1 H2 H3 H4 H5]. pose proof (f_equal (fun z => (seg_p z, seg_len z, seg_chksum z, seg_chksum_swapped z)) Hp) as E.
  unfold plain in E. rec_simpl_in E. injection E as E1 E2 E3 E4.
  split; rewrite <- ?E1, <- ?E2, <- ?E3, <- ?E4; try done. apply txseg_ok_plain. rewrite <- Hp. by apply txseg_ok_plain.
Qed.
Lemma seg_at_plain x y a : plain x = plain y -> seg_at a x -> seg_at a y /\ fin y = fin x /\ TCP_TCPLEN y = TCP_TCPLEN x.
Proof.
  intros Hp [H1 H2 H3 H4 H5 H6 H7 H8]. pose proof (f_equal (fun z => (seg_p z, seg_len z, seg_seqno z)) Hp) as E.
  unfold plain in E. rec_simpl_in E. injection E as E1 E2 E3.
  assert (Hf : forall b, Z.land b TCP_ACK = 0 -> has (seg_flags y) b = has (seg_flags x) b).
  { intros b Hb. apply (f_equal seg_flags) in Hp. unfold plain in Hp. rec_simpl_in Hp.
    rewrite <- (has_clear_ack (seg_flags y)), <- Hp by done. by apply has_clear_ack. }
  assert (Hfin : fin y = fin x) by (by apply Hf).
  split_and!; [split|done|unfold TCP_TCPLEN; rewrite <- E2; by rewrite Hf]; rewrite <- ?E1, <- ?E2, <- ?E3, ?Hfin; try done.
  by rewrite Hf.
Qed.

(** The same segments, up to what sending changes, in sorted queues. *)
Lemma send_inv_perm L T c p p' : send_inv L T c p -> tx_inv (send_base L) p' ->
  Permutation (plains (unacked p' ++ unsent p')) (plains (unacked p ++ unsent p)) ->
  lastack p' = lastack p -> snd_lbb p' = snd_lbb p -> state p' = state p -> send_inv L T c p'.
Proof.
  intros [H1 H2 H3 H4 H5 H6 H7 H8 H9] Hs Hp E3 E4 E5.
  set (q := unacked p ++ unsent p) in *. set (q' := unacked p' ++ unsent p') in *.
  assert (Hback : forall y, y ∈ q' -> exists x, x ∈ q /\ plain x = plain y).
  { intros y Hy. assert (Hin : plain y ∈ plains q') by (by apply list_elem_of_fmap_2). rewrite Hp in Hin.
    apply list_elem_of_fmap in Hin as (x & Hx & Hin). by exists x. }
  assert (Hforth : forall x, x ∈ q -> exists y, y ∈ q' /\ plain x = plain y).
  { intros x Hx. assert (Hin : plain x ∈ plains q) by (by apply list_elem_of_fmap_2). rewrite <- Hp in Hin.
    apply list_elem_of_fmap in Hin as (y & Hy & Hin). by exists y. }
  rewrite Forall_forall in H1, H2. split; rewrite ?E3, ?E4, ?E5; try done; rewrite ?Forall_forall.
  - intros y Hy. destruct (Hback y Hy) as (x & Hx & Hpl). eapply tseg_ok_plain; [exact Hpl|auto].
  - intros y Hy. destruct (Hback y Hy) as (x & Hx & Hpl). destruct (H2 x Hx) as (a & Ha & Hl & He).
    destruct (seg_at_plain x y a Hpl Ha) as (Hy' & _ & Ht). exists a. split; [done|]. by rewrite Ht.
  - intros i Hi. destruct (H4 i Hi) as (x & a & Hx & (Ha & Hl & He) & Hc'). destruct (Hforth x Hx) as (y & Hy & Hpl).
    destruct (seg_at_plain x y a Hpl Ha) as (Hy' & _ & Ht). exists y, a. unfold placed. rewrite Ht. done.
  - intros Hc y Hy. destruct (Hback y Hy) as (x & Hx & Hpl). destruct (H2 x Hx) as (a & Ha & _).
    destruct (seg_at_plain x y a Hpl Ha) as (_ & -> & _). specialize (H8 Hc). rewrite Forall_forall in H8. auto.
Qed.

(** ** Writing *)

(** New data is at the position it was written at. *)
Lemma new_segs_at sq q d b : new_segs sq q d -> u32_t sq = seq_of iss b -> 0 <= b -> zslice b (zlen d) σ = d -> b + zlen d <= zlen σ ->
  Forall (fun x => fin x = false /\ exists a, seg_at a x /\ b <= a /\ a + TCP_TCPLEN x <= b + zlen d) q /\
  (forall i, b <= i < b + zlen d -> exists x a, x ∈ q /\ seg_at a x /\ b <= a /\ a + TCP_TCPLEN x <= b + zlen d /\ a <= i < a + TCP_TCPLEN x).
Proof.
  revert sq d b. induction q as [|x q IH]; intros sq d b; cbn [new_segs].
  - intros -> _ _ _ _. split; [constructor|]. change (zlen (@nil Z)) with 0. intros i. lia.
  - intros (E1 & Hx & Hf & d' & -> & Hq) Hsq Hb Hd He. rewrite zlen_app in *.
    pose proof (txs_bytes _ (ts_tx _ Hx)) as Hl. pose proof (zlen_nonneg (seg_data x)). pose proof (zlen_nonneg d').
    rewrite <- (zslice_snoc b) in Hd by lia. apply app_inj_1 in Hd as [Hd1 Hd2].
    2:{ apply Nat2Z.inj. change (zlen (zslice b (zlen (seg_data x)) σ) = zlen (seg_data x)). apply zlen_zslice; lia. }
    rewrite has_or in Hf. apply orb_false_iff in Hf as [Hf1 Hf2].
    assert (Hat : seg_at b x).
    { split; try done; [by rewrite E1|lia|pose proof (ts_len _ Hx); lia|apply (ts_p _ Hx)|by rewrite Hl|unfold fin; by rewrite Hf1]. }
    assert (Htl : TCP_TCPLEN x = zlen (seg_data x)) by (rewrite (at_tcplen _ _ _ _ Hat); unfold fin; rewrite Hf1; lia).
    destruct (IH (sq + seg_len x) d' (b + zlen (seg_data x)) Hq) as [G1 G2]; [|lia|done|lia|].
    { unfold seq_of in *. rewrite <- u32_t_add_l, Hsq, u32_t_add_l, Hl. f_equal. lia. }
    split.
    + constructor; [split; [done|]; exists b; split_and!; [done|lia|lia]|]. eapply Forall_impl; [exact G1|].
      intros y (Hfy & a & Ha & Hl1 & Hl2). split; [done|]. exists a. split_and!; try done; lia.
    + intros i Hi. destruct (Z.lt_ge_cases i (b + zlen (seg_data x))).
      * exists x, b. split_and!; try done; try lia. apply elem_of_cons. by left.
      * destruct (G2 i) as (y & a & Hy & Ha & Hl1 & Hl2 & Hl3); [lia|]. exists y, a. split_and!; try done; try lia.
        apply elem_of_cons. by right.
Qed.

(** Their offsets increase. *)
Lemma new_segs_sorted sq q d b B : new_segs sq q d -> u32_t sq = seq_of iss b -> B <= b -> b + zlen d - B < 4294967296 ->
  StronglySorted Z.lt (offs (seq_of iss B) q) /\ Forall (fun o => b - B <= o < b + zlen d - B) (offs (seq_of iss B) q).
Proof.
  revert sq d b. induction q as [|x q IH]; intros sq d b; cbn [new_segs]; [intros; split; constructor|].
  intros (E1 & Hx & Hf & d' & -> & Hq) Hsq Hb He. rewrite zlen_app in *.
  pose proof (txs_bytes _ (ts_tx _ Hx)) as Hl. pose proof (txs_len _ (ts_tx _ Hx)) as Hp. unfold TCP_TCPLEN in Hp.
  rewrite has_or in Hf, Hp. rewrite Hf in Hp. pose proof (zlen_nonneg d').
  destruct (IH (sq + seg_len x) d' (b + zlen (seg_data x)) Hq) as [G1 G2]; [|lia|lia|].
  { unfold seq_of in *. rewrite <- u32_t_add_l, Hsq, u32_t_add_l, Hl. f_equal. lia. }
  assert (Ho : off (seq_of iss B) x = b - B).
  { unfold off. rewrite E1, Hsq. unfold seq_of, u32_t. rewrite <- Zminus_mod. replace (iss + b - (iss + B)) with (b - B) by lia.
    apply Z.mod_small. lia. }
  unfold offs in *. simpl. rewrite Ho. split; constructor; try done; try lia.
  - eapply Forall_impl; [exact G2|]. simpl. lia.
  - eapply Forall_impl; [exact G2|]. simpl. lia.
Qed.

(** New data goes on where the last unsent segment ends. *)
Definition tail_at_end (p : tcp_pcb) : bool :=
  match last (unsent p) with
  | None => true
  | Some x => u32_t (seg_seqno x + TCP_TCPLEN x) =? snd_lbb p
  end.

(** The last unsent segment, with data appended. *)
Lemma extends_at L T x x' d a : placed L T x a -> fin x = false -> u32_t (seg_seqno x + TCP_TCPLEN x) = seq_of iss T ->
  T - L <= 536870912 -> tseg_ok x -> extends x x' d -> zslice T (zlen d) σ = d -> T + zlen d <= zlen σ ->
  seg_at a x' /\ fin x' = false /\ a + TCP_TCPLEN x = T /\ TCP_TCPLEN x' = TCP_TCPLEN x + zlen d.
Proof.
  intros (Ha & Hl & He) Hf Hend Hnear Hx [X1 X2 X3 X4 X5] Hd Hr. specialize (X1 Hx).
  pose proof (at_tcplen _ _ _ _ Ha) as Htl. rewrite Hf in Htl. pose proof (txs_len _ (ts_tx _ Hx)).
  pose proof (txs_bytes _ (ts_tx _ Hx)) as Hb. pose proof (txs_bytes _ (ts_tx _ X1)) as Hb'. rewrite X2, zlen_app in Hb'.
  pose proof (at_pos _ _ _ _ Ha). pose proof (zlen_nonneg d).
  assert (HT : a + TCP_TCPLEN x = T).
  { apply Z.eqb_eq. rewrite <- (seq_of_inj iss) by lia. apply Z.eqb_eq. rewrite <- Hend, (at_seqno _ _ _ _ Ha).
    unfold seq_of. rewrite u32_t_add_l. f_equal. lia. }
  assert (Hfin' : fin x' = false) by (unfold fin; by rewrite X4).
  assert (Hat : seg_at a x').
  { split; try done; [by rewrite X3, (at_seqno _ _ _ _ Ha)|lia|pose proof (ts_len _ X1); lia|apply (ts_p _ X1)| | |by rewrite Hfin'].
    - rewrite X2, (at_bytes _ _ _ _ Ha). replace (seg_len x') with (seg_len x + zlen d) by lia.
      rewrite <- zslice_snoc by lia. f_equal. replace (a + seg_len x) with T by lia. done.
    - rewrite X4 by done. apply (at_syn _ _ _ _ Ha). }
  split_and!; try done. rewrite (at_tcplen _ _ _ _ Hat), Hfin'. lia.
Qed.

Lemma send_inv_written L T arg p p' : send_inv L T false p -> written arg p p' -> tail_at_end p = true ->
  zslice T (zlen arg) σ = arg -> T + zlen arg <= zlen σ -> T + zlen arg - L <= 536870912 ->
  send_inv L (T + zlen arg) false p'.
Proof.
  intros [H1 H2 H3 H4 H5 H6 H7 H8 H9] [(q1 & queue & d1 & d2 & Earg & Eq & Hn & Hq) Hi _ Hrest] Ht Harg Hr Hnear.
  unfold send_end in *. rewrite !Z.add_0_r in *. specialize (H6 eq_refl). specialize (H8 eq_refl).
  assert (Er : unacked p' = unacked p /\ lastack p' = lastack p /\ state p' = state p /\ snd_lbb p' = u32_t (snd_lbb p + zlen arg))
    by (rewrite Hrest; by rec_simpl).
  destruct Er as (Eu & El & Es & Elbb). rewrite Earg, zlen_app in *. pose proof (zlen_nonneg d1). pose proof (zlen_nonneg d2).
  rewrite <- (zslice_snoc T) in Harg by lia. apply app_inj_1 in Harg as [Hd1 Hd2].
  2:{ apply Nat2Z.inj. change (zlen (zslice T (zlen d1) σ) = zlen d1). apply zlen_zslice; lia. }
  assert (Hsq : u32_t (snd_lbb p + zlen d1) = seq_of iss (T + zlen d1)).
  { rewrite H6. unfold seq_of. rewrite u32_t_add_l. f_equal. lia. }
  destruct (new_segs_at _ _ _ (T + zlen d1) Hn Hsq ltac:(lia) Hd2 ltac:(lia)) as [N1 N2].
  destruct (new_segs_sorted _ _ _ (T + zlen d1) (L - 65536) Hn Hsq ltac:(lia) ltac:(lia)) as [N3 N4].
  set (R := fun x y => seg_seqno y = seg_seqno x /\ forall a, placed L T x a ->
    seg_at a y /\ fin y = false /\ a + TCP_TCPLEN y <= T + zlen d1 /\ TCP_TCPLEN x <= TCP_TCPLEN y).
  assert (HR : Forall2 R (unsent p) q1 /\ forall i, T <= i < T + zlen d1 ->
    exists y a, y ∈ q1 /\ seg_at a y /\ L - 65536 <= a /\ a + TCP_TCPLEN y <= T + zlen d1 /\ a <= i < a + TCP_TCPLEN y).
  { assert (Hrefl : forall q, Forall (fun x => fin x = false) q -> Forall2 R q q).
    { induction q as [|x q IH]; intros Hq'; constructor; apply Forall_cons in Hq' as [Hf Hq']; [|auto]. split; [done|].
      intros a (Ha & _ & He). split_and!; try done; lia. }
    apply Forall_app in H8 as [_ H8]. destruct Hq as [[-> ->]|(pre & x & x' & Ep & -> & Hx)].
    - split; [by apply Hrefl|]. change (zlen (@nil Z)) with 0. intros i. lia.
    - unfold tail_at_end in Ht. rewrite Ep, last_snoc in Ht. apply Z.eqb_eq in Ht. rewrite H6 in Ht.
      rewrite Ep in H8. apply Forall_app in H8 as [Hpre [Hfx _]%Forall_cons].
      rewrite Ep in H1, H2. apply Forall_app in H1 as [_ [_ [Hxok _]%Forall_cons]%Forall_app].
      apply Forall_app in H2 as [_ [_ [[a Hxa] _]%Forall_cons]%Forall_app].
      assert (He : forall a, placed L T x a -> seg_at a x' /\ fin x' = false /\ a + TCP_TCPLEN x = T /\
        TCP_TCPLEN x' = TCP_TCPLEN x + zlen d1) by (intros a' Ha'; apply (extends_at L T x x' d1 a'); done || lia).
      split; [rewrite Ep; apply Forall2_app; [by apply Hrefl|]|].
      + constructor; [|constructor]. split; [apply Hx|]. intros a' Ha'. destruct (He a' Ha') as (E1 & E2 & E3 & E4).
        split_and!; try done; lia.
      + intros i Hii. destruct (He a Hxa) as (E1 & E2 & E3 & E4). pose proof (txs_len _ (ts_tx _ Hxok)).
        exists x', a. destruct Hxa as (_ & Hxa & _). split_and!; try done; try lia. apply elem_of_app. right. by apply list_elem_of_singleton. }
  clear Hq. destruct HR as [HR HRc].
  assert (Hoffs : offs (send_base L) q1 = offs (send_base L) (unsent p)).
  { clear - HR. unfold offs, off. induction HR as [|x y q q' [Hxy _] _ IH]; [done|]. simpl. f_equal; [by rewrite Hxy|exact IH]. }
  assert (Hold : forall y, y ∈ q1 -> exists x a, x ∈ unsent p /\ placed L T x a /\ R x y).
  { intros y Hy. apply list_elem_of_lookup in Hy as [i Hy]. destruct (Forall2_lookup_r _ _ _ _ _ HR Hy) as (x & Hx & Hxy).
    apply list_elem_of_lookup_2 in Hx. rewrite Forall_forall in H2. destruct (H2 x) as [a Ha]; [apply elem_of_app; by right|]. by exists x, a. }
  assert (Hin : forall x, x ∈ unacked p' ++ unsent p' <-> x ∈ unacked p \/ x ∈ q1 \/ x ∈ queue).
  { intros x. rewrite Eu, Eq, !elem_of_app. done. }
  split; unfold send_end; rewrite ?Z.add_0_r, ?El, ?Es; try done.
  - apply (wi_segs _ Hi).
  - rewrite Forall_forall in *. intros x Hx. apply Hin in Hx as [Hx|[Hx|Hx]].
    + destruct (H2 x) as (a & Ha & Hl & He); [apply elem_of_app; by left|]. exists a. split_and!; done || lia.
    + destruct (Hold x Hx) as (x0 & a & _ & Hxa & _ & Hp). destruct (Hp a Hxa) as (P1 & P2 & P3 & P4). destruct Hxa as (_ & Hxa & _).
      exists a. split_and!; done || lia.
    + destruct (N1 x Hx) as (_ & a & Ha & Hl & He). exists a. split_and!; done || lia.
  - apply (tx_inv_grow _ p p' queue (T - (L - 65536))); try done; [by unfold offs in *; rewrite Eq, fmap_app, Hoffs| |].
    + unfold offs. apply Forall_fmap. rewrite Forall_forall in *. intros x Hx. simpl. destruct (H2 x Hx) as [a Ha].
      pose proof (txs_len _ (ts_tx _ (H1 x Hx))). rewrite (placed_off L T x a) by (done || lia). destruct Ha as (_ & _ & Ha). lia.
    + eapply Forall_impl; [exact N4|]. simpl. lia.
  - intros i Hii. destruct (Z.lt_ge_cases i T) as [HiT|HiT].
    + destruct (H4 i) as (x & a & Hx & Hxa & Hc); [lia|]. apply elem_of_app in Hx as [Hx|Hx].
      * exists x, a. unfold placed. rewrite Hin. destruct Hxa as (Ha & Hl & He). split_and!; try done; try lia. by left.
      * apply list_elem_of_lookup in Hx as [k Hx]. destruct (Forall2_lookup_l _ _ _ _ _ HR Hx) as (y & Hy & _ & Hp).
        destruct (Hp a Hxa) as (P1 & P2 & P3 & P4). destruct Hxa as (_ & Hl & _). exists y, a. unfold placed. rewrite Hin.
        split_and!; try done; try lia. right. left. by eapply list_elem_of_lookup_2.
    + destruct (Z.lt_ge_cases i (T + zlen d1)) as [Hid|Hid].
      * destruct (HRc i) as (y & a & Hy & Ha & Hl & He & Hc); [lia|]. exists y, a. unfold placed. rewrite Hin. split_and!; try done; try lia. by right; left.
      * destruct (N2 i) as (y & a & Hy & Ha & Hl & He & Hc); [lia|]. exists y, a. unfold placed. rewrite Hin. split_and!; try done; try lia. by right; right.
  - intros _. rewrite Elbb, H6. unfold seq_of. rewrite u32_t_add_l. f_equal. lia.
  - lia.
  - intros _. rewrite Forall_forall in *. intros x Hx. apply Hin in Hx as [Hx|[Hx|Hx]].
    + apply H8, elem_of_app. by left.
    + destruct (Hold x Hx) as (x0 & a & _ & Hxa & _ & Hp). by destruct (Hp a Hxa) as (P1 & P2 & _).
    + by destruct (N1 x Hx) as [? _].
Qed.
End SendStream.
