(* ===== verification/TcpSender.v ===== *)
(** * The sender of a byte stream, operation by operation

    Writing, sending, retransmitting, handling acknowledgements and queueing the FIN keep
    the invariant of [TcpSendStream]; whatever is sent is a part of the stream. *)

From Stdlib Require Import Sorted.
From stdpp Require Import sorting.
From S2P Require Import Prelude Def IpAddr OnesComplement Pbuf InetChksum.
From S2P Require Import Tcp TcpOut TcpIn TcpFacts TcpStream TcpOoseq TcpRecv TcpAck.
From S2P Require Import TcpOutput TcpSend TcpProcess TcpInput TcpApp TcpWrite TcpWriteFacts TcpClose.
From S2P Require Import TcpSteps TcpSendStream.

(** ** The account of the send buffer *)

Lemma seg_lens_app q r : seg_lens (q ++ r) = seg_lens q + seg_lens r.
Proof. induction q as [|x q IH]; [done|]. simpl app. unfold seg_lens in *. simpl. lia. Qed.
Lemma seg_lens_plain q : seg_lens (plains q) = seg_lens q.
Proof. unfold seg_lens. induction q as [|x q IH]; [done|]. simpl. by rewrite IH. Qed.
Lemma seg_lens_plains q1 q2 : Permutation (plains q1) (plains q2) -> seg_lens q1 = seg_lens q2.
Proof. intros Hp. rewrite <- (seg_lens_plain q1), <- (seg_lens_plain q2). unfold seg_lens. induction Hp; simpl; lia. Qed.
Lemma seg_lens_nonneg q : Forall tseg_ok q -> 0 <= seg_lens q.
Proof.
  unfold seg_lens. induction 1 as [|x q Hx Hq IH]; simpl; [done|]. rewrite (txs_bytes _ (ts_tx _ Hx)).
  pose proof (zlen_nonneg (pkt_bytes (seg_p x))). lia.
Qed.

(** What is queued and what is free make up the send buffer. *)
Definition buf_ok (p : tcp_pcb) : Prop := snd_buf p + seg_lens (unacked p ++ unsent p) = TCP_SND_BUF.

(** The numbers from [L] to [T], all in one of the segments, are no more than the segments
    have bytes. *)
Lemma cover_length L T (q : list tcp_seg) (at_ : tcp_seg -> Z -> Prop) :
  (forall x a b, x ∈ q -> at_ x a -> at_ x b -> a = b) -> Forall (fun x => 0 <= seg_len x /\ exists a, at_ x a) q ->
  (forall i, L <= i < T -> exists x a, x ∈ q /\ at_ x a /\ a <= i < a + seg_len x) -> T - L <= Z.max 0 (seg_lens q).
Proof.
  intros Hinj Hq Hc. destruct (Z.le_gt_cases T L) as [|HLT]; [lia|].
  assert (Hl : exists l : list Z, Z.of_nat (length l) = seg_lens q /\ forall i x a, x ∈ q -> at_ x a -> a <= i < a + seg_len x -> i ∈ l).
  { clear Hc. unfold seg_lens. induction Hq as [|x q [Hx [a Ha]] Hq IH]; [exists []; split; [done|]; intros i y b Hy; by apply elem_of_nil in Hy|].
    destruct IH as (l & Hl & Hin); [intros y b c Hy; apply Hinj; apply elem_of_cons; by right|].
    exists (seqZ a (seg_len x) ++ l). rewrite length_app, length_seqZ. split; [simpl; lia|].
    intros i y b Hy Hb Hi. apply elem_of_app. apply elem_of_cons in Hy as [->|Hy]; [left|right; by eapply Hin].
    apply elem_of_seqZ. rewrite (Hinj x a b); [done| |done..]. apply elem_of_cons. by left. }
  destruct Hl as (l & <- & Hin). assert (Hsub : seqZ L (T - L) ⊆ l).
  { intros i Hi. apply elem_of_seqZ in Hi. destruct (Hc i) as (x & a & H1 & H2 & H3); [lia|]. by eapply Hin. }
  assert (Hlen : (length (seqZ L (T - L)) <= length l)%nat).
  { apply submseteq_length, NoDup_submseteq; [apply NoDup_seqZ|exact Hsub]. }
  rewrite length_seqZ in Hlen. lia.
Qed.

Section Sender.
Context (σ : list Z) (iss : Z).
Abbreviation send_inv := (send_inv σ iss).
Abbreviation placed := (placed σ iss).

Lemma send_inv_span L T c p : send_inv L T c p -> T - L <= seg_lens (unacked p ++ unsent p).
Proof.
  intros Hi. pose proof (sd_ok _ _ _ _ _ _ Hi) as Hok. pose proof (sd_range _ _ _ _ _ _ Hi) as (HL & HT & HE).
  pose proof (seg_lens_nonneg _ Hok) as Hn.
  assert (H : T - L <= Z.max 0 (seg_lens (unacked p ++ unsent p))); [|lia].
  apply (cover_length L T _ (placed L (send_end T c))).
  - intros x a b Hx (Ha & Ha1 & Ha2) (Hb & Hb1 & Hb2). rewrite Forall_forall in Hok. pose proof (txs_len _ (ts_tx _ (Hok x Hx))).
    eapply seg_at_inj; [exact Ha|exact Hb|lia].
  - pose proof (sd_at _ _ _ _ _ _ Hi) as Hat. rewrite Forall_forall in *. intros x Hx. split; [|auto].
    rewrite (txs_bytes _ (ts_tx _ (Hok x Hx))). apply zlen_nonneg.
  - intros i Hii. destruct (sd_cover _ _ _ _ _ _ Hi i) as (x & a & Hx & Hp & Hc); [unfold send_end in *; destruct c; simpl; lia|].
    exists x, a. split; [done|]. split; [done|]. destruct Hp as (Ha & _). rewrite (at_tcplen _ _ _ _ Ha) in Hc.
    destruct (fin x) eqn:Ef; [|lia]. pose proof (at_fin _ _ _ _ Ha Ef). lia.
Qed.

(** ** The sender's part of a connection *)

Record sending (L T : Z) (c : bool) (s : tcp_st) : Prop := Sending {
  sn_inv : send_inv L T c (st_pcb s);
  sn_qlen : qlen_ok (st_pcb s);
  sn_buf : buf_ok (st_pcb s);
  sn_count : snd_queuelen (st_pcb s) <= TCP_SND_QUEUELEN + Z.b2z c;
  sn_next : exists N, snd_nxt (st_pcb s) = seq_of iss N /\ L <= N <= send_end T c;
  sn_live : pcb_freed s = false /\ state (st_pcb s) <> LISTEN;
  sn_open : c = false -> may_write (state (st_pcb s)) = true
}.
Definition sender (L T : Z) (c : bool) (s : tcp_st) : Prop := sending L T c s /\ roomy s.

Lemma sender_closed L T c s : sender L T c s -> c = negb (may_write (state (st_pcb s))).
Proof.
  intros [H _]. destruct c; [|by rewrite (sn_open _ _ _ _ H)].
  by destruct (sd_closed _ _ _ _ _ _ (sn_inv _ _ _ _ H) eq_refl) as [_ ->].
Qed.
Lemma sender_write_inv L T c s : sender L T c s -> write_inv (st_pcb s).
Proof. intros [[H1 H2 _ _ _ _ _] [H3 _]]. apply room_write_inv; [done|apply (sd_ok _ _ _ _ _ _ H1)|done]. Qed.

(** ** What is sent *)

(** [o] carries the bytes of [σ] at position [a]; a FIN only behind the last one. *)
Record out_at (a : Z) (o : tcp_out) : Prop := OutAt {
  oa_seqno : o_seqno o = seq_of iss a;
  oa_pos : 0 <= a;
  oa_data : o_data o = zslice a (zlen (o_data o)) σ;
  oa_end : a + zlen (o_data o) <= zlen σ;
  oa_syn : has (o_flags o) TCP_SYN = false;
  oa_rst : has (o_flags o) TCP_RST = false;
  oa_fin : has (o_flags o) TCP_FIN = true -> a + zlen (o_data o) = zlen σ
}.
(** A bare acknowledgement, or data that was written and a FIN only when it was asked for. *)
Definition genuine (T : Z) (c : bool) (o : tcp_out) : Prop :=
  quiet_out o \/ exists a, out_at a o /\ a + zlen (o_data o) <= T /\ (has (o_flags o) TCP_FIN = true -> c = true).
Definition sent_genuine (T : Z) (c : bool) (s s' : tcp_st) : Prop :=
  exists outs, sent s' = sent s ++ outs /\ Forall (genuine T c) outs.

Lemma sent_genuine_refl T c s s' : sent s' = sent s -> sent_genuine T c s s'.
Proof. intros E. exists []. rewrite app_nil_r. split; [done|constructor]. Qed.
Lemma sent_genuine_trans T c s1 s2 s3 : sent_genuine T c s1 s2 -> sent_genuine T c s2 s3 -> sent_genuine T c s1 s3.
Proof.
  intros (o1 & E1 & F1) (o2 & E2 & F2). exists (o1 ++ o2). rewrite E2, E1, app_assoc. split; [done|by apply Forall_app].
Qed.
Lemma genuine_mono T c T' c' o : genuine T c o -> T <= T' -> (c = true -> c' = true) -> genuine T' c' o.
Proof. intros [H|(a & H1 & H2 & H3)] HT Hc; [by left|right; exists a]. split_and!; try done; [lia|auto]. Qed.

Lemma clear_ack_has f g b : clear_bits f TCP_ACK = clear_bits g TCP_ACK -> Z.land b TCP_ACK = 0 -> has f b = has g b.
Proof. intros E Hb. by rewrite <- (has_clear_ack f), E, has_clear_ack. Qed.

(** A queued segment, sent. *)
Lemma sends_genuine L T c p q o : send_inv L T c p -> sends q o -> (forall x, x ∈ q -> x ∈ unacked p ++ unsent p) -> genuine T c o.
Proof.
  intros Hi (x & Hx & E1 & E2 & E3) Hq. specialize (Hq x Hx). right.
  pose proof (sd_at _ _ _ _ _ _ Hi) as Hat. pose proof (sd_ok _ _ _ _ _ _ Hi) as Hok. pose proof (sd_open _ _ _ _ _ _ Hi) as Hop.
  pose proof (sd_closed _ _ _ _ _ _ Hi) as Hcl. rewrite Forall_forall in Hat, Hok. destruct (Hat x Hq) as (a & Ha & Hl & He).
  destruct (Hok x Hq) as [[T1 T2 T3 T4] _ _ _ _]. pose proof (at_tcplen _ _ _ _ Ha) as Ht. unfold send_end in He.
  assert (Hf : has (o_flags o) TCP_FIN = fin x) by (by apply clear_ack_has).
  assert (Hc : fin x = true -> c = true).
  { intros Hf'. destruct c; [done|]. specialize (Hop eq_refl). rewrite Forall_forall in Hop. by rewrite (Hop x Hq) in Hf'. }
  exists a. rewrite E2, <- T2, Hf. split; [split|split; [|done]].
  - by rewrite E1, (at_seqno _ _ _ _ Ha).
  - apply (at_pos _ _ _ _ Ha).
  - rewrite E2, <- T2. apply (at_bytes _ _ _ _ Ha).
  - rewrite E2, <- T2. apply (at_end _ _ _ _ Ha).
  - rewrite <- (at_syn _ _ _ _ Ha). by apply clear_ack_has.
  - rewrite <- T3. by apply clear_ack_has.
  - rewrite E2, <- T2, Hf. apply (at_fin _ _ _ _ Ha).
  - pose proof (at_end _ _ _ _ Ha). destruct c; simpl in He; [destruct (Hcl eq_refl) as [-> _]; lia|].
    destruct (fin x); [by specialize (Hc eq_refl)|lia].
Qed.

(** A bare acknowledgement. *)
Lemma pure_ack_quiet p o : pure_ack p o -> quiet_out o.
Proof. by intros ->. Qed.

(** Moving segments between the queues. *)
Lemma sending_perm L T c s s' : sending L T c s -> tx_inv (send_base iss L) (st_pcb s') ->
  Permutation (plains (unacked (st_pcb s') ++ unsent (st_pcb s'))) (plains (unacked (st_pcb s) ++ unsent (st_pcb s))) ->
  cc_of (st_pcb s') = cc_of (st_pcb s) -> pcb_freed s' = pcb_freed s ->
  (exists N, snd_nxt (st_pcb s') = seq_of iss N /\ L <= N <= send_end T c) -> sending L T c s'.
Proof.
  intros [H1 [H2 H2'] H4 H5 H6 H7 H7o] Hs Hp Hcc Hf HN. unfold cc_of in Hcc. injection Hcc as C1 C2 C3 C4 C5 C6 C7 C8 C9 C10 C11 C12 C13 C14 C15 C16.
  split; try done.
  - by apply (send_inv_perm σ iss L T c (st_pcb s)).
  - pose proof (clens_plains _ _ Hp) as Hc. rewrite !clens_app in Hc. split; rewrite C7; lia.
  - unfold buf_ok in *. by rewrite C6, (seg_lens_plains _ _ Hp).
  - by rewrite C7.
  - by rewrite Hf, C5.
  - by rewrite C5.
Qed.

Lemma sending_txseg L T c s : sending L T c s -> Forall txseg_ok (unacked (st_pcb s) ++ unsent (st_pcb s)).
Proof. intros H. eapply Forall_impl; [apply (sd_ok _ _ _ _ _ _ (sn_inv _ _ _ _ H))|]. intros x Hx. apply Hx. Qed.

(** [snd_nxt] moves forward to ends of segments. *)
Lemma sender_moves_next L T c p q : send_inv L T c p -> (forall x, x ∈ q -> x ∈ unacked p ++ unsent p) ->
  moves_next (fun n => exists N, n = seq_of iss N /\ L <= N <= send_end T c) q.
Proof.
  intros Hi Hq x n Hx (N & -> & HN) Hlt. specialize (Hq x Hx). pose proof (sd_at _ _ _ _ _ _ Hi) as Hat.
  rewrite Forall_forall in Hat. destruct (Hat x Hq) as (a & Ha & Hl & He). pose proof (sd_range _ _ _ _ _ _ Hi) as (H1 & H2 & H3).
  pose proof (sd_ok _ _ _ _ _ _ Hi) as Hok. rewrite Forall_forall in Hok. pose proof (txs_len _ (ts_tx _ (Hok x Hq))).
  assert (E : u32_t (seg_seqno x + TCP_TCPLEN x) = seq_of iss (a + TCP_TCPLEN x)).
  { rewrite (at_seqno _ _ _ _ Ha). unfold seq_of. rewrite u32_t_add_l. f_equal. lia. }
  rewrite E in *. rewrite (seq_lt iss _ _ N (a + TCP_TCPLEN x)) in Hlt by (apply denotes_seq || unfold near; lia).
  apply Z.ltb_lt in Hlt. exists (a + TCP_TCPLEN x). split; [done|lia].
Qed.

Lemma sending_output L T c s : sending L T c s ->
  wp tcp_output (fun _ s' => sending L T c s' /\ sent_genuine T c s s') s.
Proof.
  intros Hs. destruct (Z.eq_dec (tcp_input_pcb s) (pcb_addr s)) as [Ein|Ein].
  { unfold tcp_output. wp_steps. apply wp_assert.
    { apply negb_true_iff. unfold state_is. apply Z.eqb_neq. pose proof (sn_live _ _ _ _ Hs) as [_ Hl]. by destruct (state (st_pcb s)). }
    rewrite (proj2 (Z.eqb_eq _ _) Ein). wp_steps. split; [done|by apply sent_genuine_refl]. }
  pose proof (sending_txseg _ _ _ _ Hs) as Hok. pose proof (sn_inv _ _ _ _ Hs) as Hi.
  pose proof (tcp_output_next _ s (sender_moves_next L T c (st_pcb s) (unsent (st_pcb s)) Hi ltac:(intros x Hx; apply elem_of_app; by right))
    (sn_next _ _ _ _ Hs)) as Hn.
  pose proof (tcp_output_spec (send_base iss L) s) as Hsp. apply Forall_app in Hok as [_ Hok].
  eapply wp_conseq; [apply wp_wlp; [apply Hsp; try done; apply Hs|exact Hn]|].
  intros r s' [[[O1 O2 O3 O4 O5 (outs & O6 & O7) O8 O9] _] HN]. split.
  - apply (sending_perm L T c s); try done; [apply O1, Hi|]. unfold io_of, world_of in O9. congruence.
  - exists outs. split; [done|]. eapply Forall_impl; [exact O7|]. intros o [Ho|[_ Ho]]; [left; by eapply pure_ack_quiet|].
    eapply sends_genuine; [exact Hi|exact Ho|]. intros x Hx. apply elem_of_app. by right.
Qed.

(** With the account of the room. *)
Lemma sender_keeps {A} L T c L' T' c' (m : TM A) s P : sender L T c s -> steps keeps_room m ->
  wp m (fun r s' => sending L' T' c' s' /\ P r s') s -> wp m (fun r s' => sender L' T' c' s' /\ P r s') s.
Proof.
  intros [_ Hr] Hk Hw. unfold wp in *. destruct (m s) as [[r s']|] eqn:E; [|done]. destruct Hw as [H1 H2].
  split; [|done]. split; [done|]. by eapply Hk.
Qed.

Lemma sender_output L T c s : sender L T c s -> wp tcp_output (fun _ s' => sender L T c s' /\ sent_genuine T c s s') s.
Proof. intros Hs. eapply (sender_keeps L T c L T c); [exact Hs|apply keeps_output|]. apply sending_output, Hs. Qed.

(** ** Retransmission after a time-out *)

(** Everything in flight precedes everything unsent: no fast retransmission is waiting. *)
Fixpoint seqs_increase (q : list tcp_seg) : bool :=
  match q with
  | [] => true
  | x :: q' => match q' with [] => true | y :: _ => TCP_SEQ_LT (seg_seqno x) (seg_seqno y) && seqs_increase q' end
  end.
Definition in_order (p : tcp_pcb) : bool := seqs_increase (unacked p ++ unsent p).

Lemma seqs_increase_sorted B q : Forall (fun o => o < 2147483648) (offs B q) -> seqs_increase q = true -> seq_sorted B q.
Proof.
  intros Ho Hq. unfold seq_sorted. apply Sorted_StronglySorted; [intros ? ? ?; lia|]. unfold offs in *.
  induction q as [|x q IH]; [constructor|]. simpl in Ho. apply Forall_cons in Ho as [Hx Ho].
  destruct q as [|y q]; [by repeat constructor|]. cbn [seqs_increase] in Hq. apply andb_true_iff in Hq as [Hlt Hq].
  constructor; [by apply IH|]. constructor. simpl in Ho. apply Forall_cons in Ho as [Hy _].
  rewrite (seq_lt_off B) in Hlt by done. by apply Z.ltb_lt in Hlt.
Qed.

Lemma sender_rexmit_rto L T c s : sender L T c s -> in_order (st_pcb s) = true ->
  wp tcp_rexmit_rto (fun _ s' => sender L T c s' /\ sent_genuine T c s s') s.
Proof.
  intros Hs Ho. eapply (sender_keeps L T c L T c); [exact Hs|apply keeps_rexmit_rto|]. destruct Hs as [Hs _].
  pose proof (sn_inv _ _ _ _ Hs) as Hi. pose proof (sd_sorted _ _ _ _ _ _ Hi) as Hso.
  apply tcp_rexmit_rto_prepared.
  { intros l. split; [|by apply sent_genuine_refl]. by apply (sending_perm L T c s); try apply Hs. }
  intros s1 (p1 & l & -> & U1 & U2 & U3 & U4 & _). eapply wp_conseq; [apply (sending_output L T c)|done].
  apply (sending_perm L T c s); rec_simpl; rewrite ?U1, ?U2, ?U4; try done; [|by apply Hs].
  apply tx_ordered_inv. split; rewrite U1, U2; [|apply Hso]. apply seqs_increase_sorted; [apply Hso|done].
Qed.

(** ** Acknowledgements *)

(** An acknowledgement the code takes as new is for a position between the last one and
    the last one sent. *)
Lemma acks_new_at L N T c s : send_inv L T c (st_pcb s) -> snd_nxt (st_pcb s) = seq_of iss N -> L <= N <= send_end T c ->
  0 <= ackno s < 4294967296 -> acks_new s = true -> exists K, ackno s = seq_of iss K /\ L < K <= N.
Proof.
  intros Hi HN HLN Ha Hn. unfold acks_new in Hn. rewrite HN, (sd_lastack _ _ _ _ _ _ Hi) in Hn.
  pose proof (sd_range _ _ _ _ _ _ Hi) as (_ & _ & HE). apply andb_true_iff in Hn as [H1 H2]. apply negb_true_iff in H1.
  exists (L + u32_t (ackno s - seq_of iss L)).
  assert (Hk : ackno s = seq_of iss (L + u32_t (ackno s - seq_of iss L))).
  { unfold seq_of. rewrite <- u32_t_add_r, u32_t_sub_r. rewrite <- (u32_t_id (ackno s)) at 1 by lia. unfold u32_t. dlia. }
  split; [done|]. unfold TCP_SEQ_BETWEEN in H2. apply andb_true_iff in H2 as [_ H2]. 
  unfold TCP_SEQ_LEQ in H1, H2. rewrite Z.leb_gt in H1. rewrite Z.leb_le in H2. revert H1 H2.
  unfold seq_of, s32_t, u32_t. intros. dlia.
Qed.

Lemma acked_by_at L E K x a : placed L E x a -> E - L <= 536870912 -> L < K <= E -> 0 < TCP_TCPLEN x -> TCP_TCPLEN x <= 65536 ->
  acked_by (seq_of iss K) x = (a + TCP_TCPLEN x <=? K).
Proof.
  intros (Ha & Hl & He) HE HK Hp Hlen. unfold acked_by. rewrite (at_seqno _ _ _ _ Ha).
  rewrite (seq_leq iss _ _ (a + TCP_TCPLEN x) K); [done|apply denotes_add, denotes_seq|apply denotes_seq|unfold near; lia].
Qed.
Lemma tcplen_bound x a : seg_at σ iss a x -> TCP_TCPLEN x <= 65536.
Proof. intros Ha. rewrite (at_tcplen _ _ _ _ Ha). pose proof (at_len _ _ _ _ Ha). destruct (fin x); lia. Qed.

Lemma send_inv_acked L T c K p p' l1 l2 : send_inv L T c p -> L < K <= send_end T c ->
  unacked p = l1 ++ unacked p' -> unsent p = l2 ++ unsent p' -> Forall (fun x => acked_by (seq_of iss K) x = true) (l1 ++ l2) ->
  first_unacked (seq_of iss K) (unacked p') -> first_unacked (seq_of iss K) (unsent p') ->
  lastack p' = seq_of iss K -> snd_lbb p' = snd_lbb p -> state p' = state p -> send_inv K T c p'.
Proof.
  intros Hi HK E1 E2 Hl Hf1 Hf2 E3 E4 E5. pose proof Hi as [H1 H2 H3 H4 H5 H6 H7 H8 H9]. set (E := send_end T c) in *.
  destruct H7 as (H7 & H7' & H7'').
  assert (Hsub : forall x, x ∈ unacked p' ++ unsent p' -> x ∈ unacked p ++ unsent p).
  { intros x. rewrite E1, E2, !elem_of_app. tauto. }
  assert (Hby : forall x a, x ∈ unacked p ++ unsent p -> placed L E x a -> acked_by (seq_of iss K) x = (a + TCP_TCPLEN x <=? K) /\
    off (send_base iss L) x = a - (L - 65536) /\ 0 < TCP_TCPLEN x <= 65536).
  { intros x a Hx Hp. rewrite Forall_forall in H1. pose proof (txs_len _ (ts_tx _ (H1 x Hx))).
    pose proof (tcplen_bound x a (proj1 Hp)). split_and!; [by apply (acked_by_at L E)|by apply (placed_off σ iss L E)|done|done]. }
  assert (Hs' : tx_inv (send_base iss L) p') by (by apply (tx_inv_suffix _ p p' l1 l2)).
  (* the remaining segments end behind [K] *)
  assert (Hq : forall q, seq_sorted (send_base iss L) q -> first_unacked (seq_of iss K) q -> (forall x, x ∈ q -> x ∈ unacked p ++ unsent p) ->
    forall x, x ∈ q -> exists a, placed K E x a).
  { intros q Hsq Hfq Hq x Hx. destruct q as [|y q]; [by apply elem_of_nil in Hx|].
    rewrite Forall_forall in H2. assert (Hyin : y ∈ y :: q) by (apply elem_of_cons; by left).
    destruct (H2 y (Hq y Hyin)) as [b Hb]. destruct (Hby y b (Hq y Hyin) Hb) as (By & Oy & Ly). simpl in Hfq. rewrite By in Hfq. apply Z.leb_gt in Hfq.
    destruct (H2 x (Hq x Hx)) as [a Ha]. destruct (Hby x a (Hq x Hx) Ha) as (Bx & Ox & Lx). exists a.
    assert (b <= a); [|destruct Ha as (Ha1 & Ha2 & Ha3); split_and!; done || lia].
    apply elem_of_cons in Hx as [->|Hx]; [by rewrite Ox in Oy; lia|].
    unfold seq_sorted, offs in Hsq. simpl in Hsq. apply StronglySorted_inv in Hsq as [_ Hsq].
    rewrite Forall_fmap, Forall_forall in Hsq. specialize (Hsq x Hx). simpl in Hsq. lia. }
  assert (Hall : forall x, x ∈ unacked p' ++ unsent p' -> exists a, placed K E x a).
  { intros x Hx. pose proof (Hsub x Hx) as Hx'. apply elem_of_app in Hx as [Hx|Hx].
    - apply (Hq (unacked p')); try done; [apply Hs'|]. intros y Hy. apply Hsub, elem_of_app. by left.
    - apply (Hq (unsent p')); try done; [apply Hs'|]. intros y Hy. apply Hsub, elem_of_app. by right. }
  split; rewrite ?E3, ?E4, ?E5; try done; fold E.
  - rewrite Forall_forall in *. auto.
  - rewrite Forall_forall. exact Hall.
  - apply (tx_inv_rebase _ _ (K - L) p' Hs'). rewrite Forall_forall. intros x Hx. destruct (Hall x Hx) as [a Ha].
    rewrite Forall_forall in H1. pose proof (txs_len _ (ts_tx _ (H1 x (Hsub x Hx)))).
    rewrite (placed_off σ iss K E x a) by (done || lia). rewrite (placed_off σ iss L E x a); [destruct Ha; lia| |lia|done].
    destruct Ha as (? & ? & ?). split_and!; done || lia.
  - intros i Hii. destruct (H4 i) as (x & a & Hx & Hp & Hc); [lia|]. destruct (Hby x a Hx Hp) as (Bx & _).
    assert (Hin : x ∈ unacked p' ++ unsent p').
    { rewrite E1, E2 in Hx. rewrite Forall_forall in Hl. rewrite !elem_of_app in Hx. rewrite elem_of_app.
      assert (Hno : x ∉ l1 ++ l2).
      { intros Hin. rewrite (Hl x Hin) in Bx. symmetry in Bx. apply Z.leb_le in Bx. lia. }
      rewrite elem_of_app in Hno. tauto. }
    exists x, a. split; [done|]. split; [|done]. destruct (Hall x Hin) as [b Hb]. 
    rewrite Forall_forall in H1. pose proof (txs_len _ (ts_tx _ (H1 x Hx))).
    assert (a = b) as ->; [|done]. destruct Hp as (P1 & P2 & P3), Hb as (B1 & B2 & B3). eapply seg_at_inj; [exact P1|exact B1|lia].
  - split_and!; try done; lia.
  - intros Hc. specialize (H8 Hc). rewrite Forall_forall in *. auto.
Qed.

Lemma sender_receive_ack L T c s : sender L T c s -> 0 <= ackno s < 4294967296 -> recv_acked s = 0 ->
  wp receive_ack (fun _ s' => exists L', L <= L' <= send_end T c /\ sender L' T c s' /\ sent_genuine T c s s') s.
Proof.
  intros [Hs Hr] Ha Hra. pose proof (sn_inv _ _ _ _ Hs) as Hi. pose proof (sn_qlen _ _ _ _ Hs) as Hq.
  assert (Hk : wlp receive_ack (fun _ s' => roomy s') s) by (intros r s' E; by eapply keeps_receive_ack).
  assert (He : wlp receive_ack (fun _ s' => only_acks s s') s) by (intros r s' E; by eapply emits_receive_ack).
  eapply wp_conseq; [apply wp_wlp; [apply wp_wlp; [apply receive_ack_spec; [done|lia]|exact Hk]|exact He]|].
  intros _ s' [[(Hq' & Hrx & _ & Hp) Hr'] (outs & Eo & Ho)].
  assert (Hg : sent_genuine T c s s').
  { exists outs. split; [done|]. eapply Forall_impl; [exact Ho|]. by left. }
  assert (R : state (st_pcb s') = state (st_pcb s) /\ snd_nxt (st_pcb s') = snd_nxt (st_pcb s) /\
    snd_lbb (st_pcb s') = snd_lbb (st_pcb s) /\ pcb_freed s' = pcb_freed s)
    by (unfold rxin_of, rx_of, world_of in Hrx; injection Hrx; intros; split_and!; assumption).
  destruct R as (R1 & R2 & R3 & R4). clear Hrx. pose proof (sd_range _ _ _ _ _ _ Hi) as (HL & HT & HE).
  destruct Hs as [_ Hq0 Hb0 Hc0 (N & HN & HLN) Hl0 Hop0]. pose proof (sd_ok _ _ _ _ _ _ Hi) as Hok. destruct (acks_new s) eqn:En.
  - destruct (acks_new_at L N T c s) as (K & HK & HLK); try done. unfold new_acked in Hp. rewrite HK in Hp.
    destruct Hp as (l1 & l2 & E1 & E2 & Hl & Hf1 & Hf2 & Era & Eb & Ela & _). exists K. split; [lia|]. split; [|done]. split; [|done].
    rewrite E1, E2 in Hok. rewrite !Forall_app in Hok. destruct Hok as [[O1 O2] [O3 O4]].
    pose proof (seg_lens_nonneg _ O1). pose proof (seg_lens_nonneg _ O2). pose proof (seg_lens_nonneg _ O3). pose proof (seg_lens_nonneg _ O4).
    unfold buf_ok in *. rewrite E1, E2 in Hb0. rewrite !seg_lens_app in *. destruct Hr as [Hr _]. pose proof (rm_buf _ Hr).
    unfold TCP_SND_BUF, TCP_WND in *. split; rewrite ?R1, ?R2, ?R4; try done.
    + apply (send_inv_acked L T c K (st_pcb s) (st_pcb s') l1 l2); try done. lia.
    + unfold buf_ok, TCP_SND_BUF, TCP_WND. rewrite seg_lens_app, Eb, Era, Hra, (u16_t_id (0 + seg_lens l1 + seg_lens l2)), u16_t_id by lia. lia.
    + destruct Hq' as [Q1 Q2], Hq0 as [Q3 Q4]. rewrite Q1. rewrite E1, E2, !clens_app in Q3.
      pose proof (clens_nonneg l1). pose proof (clens_nonneg l2). lia.
    + exists N. split; [done|lia].
  - destruct Hp as [(Hx & X2 & X3 & X4) _]. exists L. split; [lia|]. split; [|done]. split; [|done].
    pose proof (rexmitted_perm _ _ _ _ Hx) as Hp. assert (Hpl : Permutation (plains (unacked (st_pcb s') ++ unsent (st_pcb s'))) (plains (unacked (st_pcb s) ++ unsent (st_pcb s)))).
    { unfold plains. by rewrite Hp. }
    split; rewrite ?R1, ?R2, ?R4, ?X2; try done.
    + apply (send_inv_perm σ iss L T c (st_pcb s)); try done. by apply (rexmitted_tx_inv _ (st_pcb s)), Hx; apply Hi.
    + unfold buf_ok in *. by rewrite X3, (seg_lens_plains _ _ Hpl).
    + by exists N.
Qed.

(** ** Writing *)

Lemma seg_lens_new sq q d : new_segs sq q d -> seg_lens q = zlen d.
Proof.
  revert sq d. induction q as [|x q IH]; intros sq d; cbn [new_segs]; [by intros ->|].
  intros (_ & Hx & _ & d' & -> & Hq). rewrite zlen_app, <- (IH _ _ Hq), <- (txs_bytes _ (ts_tx _ Hx)). done.
Qed.
Lemma written_lens arg p p' : Forall tseg_ok (unsent p) -> written arg p p' -> seg_lens (unsent p') = seg_lens (unsent p) + zlen arg.
Proof.
  intros Hok [(q1 & queue & d1 & d2 & -> & -> & Hn & Hq) _ _ _]. rewrite seg_lens_app, (seg_lens_new _ _ _ Hn), zlen_app.
  destruct Hq as [[-> ->]|(pre & x & x' & E & -> & [X1 X2 _ _ _])]; [change (zlen (@nil Z)) with 0; lia|].
  rewrite E in Hok. apply Forall_app in Hok as [_ [Hx _]%Forall_cons]. rewrite E, !seg_lens_app. unfold seg_lens. simpl.
  rewrite (txs_bytes _ (ts_tx _ (X1 Hx))), X2, zlen_app, (txs_bytes _ (ts_tx _ Hx)). lia.
Qed.

(** [sending] does not depend on the flags and the oracle. *)
Lemma sender_flags L T c s f l : sender L T c s -> sender L T c (s <| st_pcb := st_pcb s <| flags := f |> |> <| oracle := l |>).
Proof.
  intros [[H1 H2 H3 H4 H5 H6 H6o] [H7 H8]]. split; [split; try done; by apply (send_inv_ext σ iss L T c (st_pcb s))|].
  split; [by apply (room_ext (st_pcb s))|done].
Qed.

(** What the application may write next. *)
Definition writes (T : Z) (p : tcp_pcb) (arg : list Z) : Prop :=
  tail_at_end p = true /\ bytes_ok arg /\ zlen arg < 65536 /\ T + zlen arg <= zlen σ /\ zslice T (zlen arg) σ = arg.

Lemma tcp_write_refused arg fl rom s : may_write (state (st_pcb s)) = false -> tcp_write arg fl rom s = Ok (ERR_CONN, s).
Proof.
  intros H. unfold tcp_write, tcp_write_checks, bind, gets, getp. cbn [fst snd].
  assert (E : negb (state_is (state (st_pcb s)) ESTABLISHED) && negb (state_is (state (st_pcb s)) CLOSE_WAIT) &&
     negb (state_is (state (st_pcb s)) SYN_SENT) && negb (state_is (state (st_pcb s)) SYN_RCVD) = true) by (by destruct (state (st_pcb s))).
  by rewrite E.
Qed.

Lemma sender_write L T c arg fl rom s : sender L T c s -> writes T (st_pcb s) arg ->
  (forall x, rom x = true -> oversize_left x = 0) ->
  wp (tcp_write arg fl rom) (fun r s' => sent s' = sent s /\
    (r = ERR_OK /\ c = false /\ sender L (T + zlen arg) false s' \/ r <> ERR_OK /\ sender L T c s')) s.
Proof.
  intros Hs (Ht & Hb & Hl & HT & Ha) Hrom. destruct (may_write (state (st_pcb s))) eqn:Em.
  2:{ unfold wp. rewrite tcp_write_refused by done. split; [done|]. right. done. }
  pose proof (sender_write_inv _ _ _ _ Hs) as Hw. destruct Hs as [Hs Hr]. pose proof (sn_inv _ _ _ _ Hs) as Hi.
  assert (c = false) as ->.
  { destruct c; [|done]. destruct (sd_closed _ _ _ _ _ _ Hi eq_refl) as [_ Hf]. by rewrite Hf in Em. }
  pose proof (sn_count _ _ _ _ Hs) as Hc. simpl in Hc.
  eapply wp_conseq; [apply (tcp_write_spec arg fl rom Hb Hl Hrom s Hw); lia|].
  intros r s' [(-> & _ & Hbuf & p' & l & -> & Hwr)|[Hres (f & l & -> & _)]].
  2:{ split; [done|]. right. split; [unfold ERR_OK, ERR_CONN, ERR_MEM in *; lia|]. by apply sender_flags. }
  split; [done|]. left. split; [done|]. split; [done|].
  pose proof (sn_buf _ _ _ _ Hs) as Hbo. pose proof (send_inv_span _ _ _ _ Hi) as Hsp. pose proof (zlen_nonneg arg).
  pose proof Hwr as [_ Hwi Hq90 Er]. assert (E : unacked p' = unacked (st_pcb s) /\ snd_buf p' = snd_buf (st_pcb s) - zlen arg /\
    snd_nxt p' = snd_nxt (st_pcb s) /\ state p' = state (st_pcb s)) by (rewrite Er; by rec_simpl).
  destruct E as (E1 & E2 & E3 & E4). pose proof (sd_ok _ _ _ _ _ _ Hi) as Hok. apply Forall_app in Hok as [_ Hok].
  unfold buf_ok, TCP_SND_BUF, TCP_WND in *. rewrite seg_lens_app in *. destruct Hr as [Hr Hw0]. pose proof (rm_buf _ Hr).
  split; [|split; [by apply write_inv_room|exact Hw0]]. split; rec_simpl.
  - apply (send_inv_written σ iss L T arg (st_pcb s)); try done. lia.
  - apply Hwi.
  - unfold buf_ok, TCP_SND_BUF, TCP_WND. rewrite seg_lens_app, E1, E2, (written_lens arg (st_pcb s) p') by done. lia.
  - simpl. lia.
  - rewrite E3. destruct (sn_next _ _ _ _ Hs) as (N & HN & HLN). exists N. split; [done|]. unfold send_end in *. simpl in *. lia.
  - rewrite E4. apply Hs.
  - by rewrite E4.
Qed.

(** ** The FIN *)

Lemma tseg_ok_fin x : tseg_ok x -> fin x = false -> has (seg_flags x) TCP_SYN = false ->
  tseg_ok (x <| seg_flags := Z.lor (seg_flags x) TCP_FIN |>) /\
  TCP_TCPLEN (x <| seg_flags := Z.lor (seg_flags x) TCP_FIN |>) = TCP_TCPLEN x + 1.
Proof.
  intros [[T1 T2 T3 T4] T5 T6 T7 T8] Hf Hs.
  assert (Ht : TCP_TCPLEN (x <| seg_flags := Z.lor (seg_flags x) TCP_FIN |>) = TCP_TCPLEN x + 1).
  { unfold TCP_TCPLEN. rec_simpl. rewrite !has_or, (proj1 (set_FIN _)), Hs. unfold fin in Hf. rewrite Hf. simpl. lia. }
  split; [|done]. split; try done. split; rec_simpl; try done; [lia|]. rewrite has_lor, T3. done.
Qed.

(** The last unsent segment ends where the written data ends. *)
Lemma tail_ends L T c p pre x a : send_inv L T c p -> snd_lbb p = seq_of iss T -> unsent p = pre ++ [x] -> tail_at_end p = true ->
  placed L (send_end T c) x a -> fin x = false -> a + seg_len x = T.
Proof.
  intros Hi Hlbb Eu Ht Hp Hf. unfold tail_at_end in Ht. rewrite Eu, last_snoc, Hlbb in Ht. apply Z.eqb_eq in Ht.
  pose proof (sd_range _ _ _ _ _ _ Hi) as (HL & HT & HE). destruct Hp as (Ha & Hl & He). pose proof (at_tcplen _ _ _ _ Ha) as Htl. rewrite Hf in Htl.
  unfold send_end in *. pose proof (sd_ok _ _ _ _ _ _ Hi) as Hok. rewrite Forall_forall in Hok.
  assert (Hx : x ∈ unacked p ++ unsent p) by (rewrite Eu, !elem_of_app, list_elem_of_singleton; auto). pose proof (txs_len _ (ts_tx _ (Hok x Hx))).
  assert (Hb : 0 <= Z.b2z c <= 1) by (destruct c; simpl; lia).
  apply Z.eqb_eq. rewrite <- (seq_of_inj iss) by lia. apply Z.eqb_eq. rewrite <- Ht, (at_seqno _ _ _ _ Ha).
  unfold seq_of. rewrite u32_t_add_l. f_equal. lia.
Qed.

Lemma placed_closed L T x a : placed L (send_end T false) x a -> placed L (send_end T true) x a.
Proof. unfold placed, send_end. simpl. intros (? & ? & ?). split_and!; done || lia. Qed.

Lemma send_inv_fin_flag L p p' pre x st : let T := zlen σ in send_inv L T false p -> tail_at_end p = true -> T - L <= TCP_SND_BUF ->
  unsent p = pre ++ [x] -> fin x = false -> unsent p' = pre ++ [x <| seg_flags := Z.lor (seg_flags x) TCP_FIN |>] ->
  unacked p' = unacked p -> lastack p' = lastack p -> state p' = st -> may_write st = false -> send_inv L T true p'.
Proof.
  intros T Hi Ht Hspan Eu Hf Eu' E1 E2 E3 Hst. pose proof Hi as [H1 H2 H3 H4 H5 H6 H7 H8 H9]. unfold TCP_SND_BUF, TCP_WND in Hspan.
  set (x' := x <| seg_flags := Z.lor (seg_flags x) TCP_FIN |>) in *.
  assert (Hx : x ∈ unacked p ++ unsent p) by (rewrite Eu, !elem_of_app, list_elem_of_singleton; auto).
  rewrite Forall_forall in H1, H2. destruct (H2 x Hx) as [a Hp]. pose proof (tail_ends L T false p pre x a Hi (H6 eq_refl) Eu Ht Hp Hf) as Hend.
  pose proof Hp as (Ha & Hl & He). destruct (tseg_ok_fin x (H1 x Hx) Hf (at_syn _ _ _ _ Ha)) as [Hx' Htl]. fold x' in Hx', Htl.
  pose proof (at_set_fin _ _ _ _ Ha Hend) as Ha'. fold x' in Ha'. pose proof (at_tcplen _ _ _ _ Ha) as Htx. rewrite Hf in Htx.
  assert (Hp' : placed L (send_end T true) x' a) by (unfold placed, send_end; simpl; split_and!; done || lia).
  assert (Hin : forall y, y ∈ unacked p' ++ unsent p' -> y = x' \/ y ∈ unacked p ++ unsent p).
  { intros y. rewrite E1, Eu', Eu, !elem_of_app, !list_elem_of_singleton. tauto. }
  split; rewrite ?E2, ?E3; try done.
  - rewrite Forall_forall. intros y Hy. destruct (Hin y Hy) as [->|]; auto.
  - rewrite Forall_forall. intros y Hy. destruct (Hin y Hy) as [->|Hy']; [by exists a|]. destruct (H2 y Hy') as [b Hb]. exists b. by apply placed_closed.
  - destruct H3 as [S1 S2 S3 S4]. assert (Eo : offs (send_base iss L) (unsent p') = offs (send_base iss L) (unsent p)).
    { unfold offs. by rewrite Eu', Eu, !fmap_app. }
    assert (Eo' : offs (send_base iss L) (unacked p' ++ unsent p') = offs (send_base iss L) (unacked p ++ unsent p)).
    { unfold offs in *. by rewrite !fmap_app, Eo, E1. }
    split; unfold seq_sorted; by rewrite ?Eo, ?Eo', ?E1.
  - intros i Hii. unfold send_end in Hii. simpl in Hii. destruct (Z.eq_dec i T) as [->|Hne].
    + exists x', a. split; [rewrite Eu', !elem_of_app, list_elem_of_singleton; auto|]. split; [done|]. rewrite Htl, Htx. pose proof (at_len _ _ _ _ Ha). lia.
    + destruct (H4 i) as (y & b & Hy & Hb & Hc); [unfold send_end; simpl; lia|].
      assert (Hy' : y ∈ unacked p' ++ unsent p' \/ y = x).
      { rewrite Eu, !elem_of_app, list_elem_of_singleton in Hy. rewrite E1, Eu', !elem_of_app. tauto. }
      destruct Hy' as [Hy'| ->]; [exists y, b; split; [done|]; split; [by apply placed_closed|done]|].
      exists x', b. split; [rewrite Eu', !elem_of_app, list_elem_of_singleton; auto|].
      assert (a = b) as <-; [|split; [done|lia]]. destruct Hb as (Hb & Hb1 & Hb2). eapply seg_at_inj; [exact Ha|exact Hb|]. unfold send_end in *. simpl in *. lia.
  - unfold send_end in *. simpl in *. lia.
Qed.

Lemma send_inv_fin_seg L p p' x st : let T := zlen σ in send_inv L T false p -> T - L <= TCP_SND_BUF ->
  tseg_ok x -> seg_seqno x = seq_of iss T -> seg_flags x = TCP_FIN -> seg_p x = [[]] -> seg_len x = 0 -> unsent p' = unsent p ++ [x] ->
  unacked p' = unacked p -> lastack p' = lastack p -> state p' = st -> may_write st = false -> send_inv L T true p'.
Proof.
  intros T Hi Hspan Hx Hsq Hfl Hpk Hlen Eu' E1 E2 E3 Hst. pose proof Hi as [H1 H2 H3 H4 H5 H6 H7 H8 H9]. unfold TCP_SND_BUF, TCP_WND in Hspan.
  assert (Ha : seg_at σ iss T x).
  { split; try done; unfold fin; rewrite ?Hlen, ?Hpk, ?Hfl; try done; try lia. apply zlen_nonneg. }
  assert (Ht : TCP_TCPLEN x = 1) by (unfold TCP_TCPLEN; by rewrite Hlen, Hfl).
  assert (Hp : placed L (send_end T true) x T) by (unfold placed, send_end in *; simpl in *; split_and!; done || lia).
  assert (Hin : forall y, y ∈ unacked p' ++ unsent p' <-> y ∈ unacked p ++ unsent p \/ y = x).
  { intros y. rewrite E1, Eu', !elem_of_app, !list_elem_of_singleton. tauto. }
  rewrite Forall_forall in H1, H2. split; rewrite ?E2, ?E3; try done.
  - rewrite Forall_forall. intros y [Hy| ->]%Hin; auto.
  - rewrite Forall_forall. intros y [Hy| ->]%Hin; [|by exists T]. destruct (H2 y Hy) as [b Hb]. exists b. by apply placed_closed.
  - apply (tx_inv_grow _ p p' [x] (T - (L - 65536))); try done.
    + unfold offs. by rewrite Eu', fmap_app.
    + unfold offs. apply Forall_fmap. rewrite Forall_forall. intros y Hy. simpl. destruct (H2 y Hy) as [b Hb].
      pose proof (txs_len _ (ts_tx _ (H1 y Hy))). unfold send_end in *. simpl in *. 
      rewrite (placed_off σ iss L (T + 0) y b) by (done || lia). destruct Hb as (_ & _ & Hb). lia.
    + repeat constructor.
    + unfold offs. simpl. constructor; [|done]. unfold send_end in *. simpl in *. rewrite (placed_off σ iss L (T + 1) x T) by (done || lia). lia.
  - intros i Hii. unfold send_end in Hii. simpl in Hii. destruct (Z.eq_dec i T) as [->|Hne].
    + exists x, T. split; [apply Hin; by right|]. split; [done|]. lia.
    + destruct (H4 i) as (y & b & Hy & Hb & Hc); [unfold send_end; simpl; lia|]. exists y, b. split; [apply Hin; by left|].
      split; [by apply placed_closed|done].
  - unfold send_end in *. simpl in *. lia.
Qed.

(** The control block once the FIN is queued and the state has moved on. *)
Lemma sender_fin_queued L s p' st l : let T := zlen σ in sender L T false s -> tail_at_end (st_pcb s) = true ->
  fin_queued (st_pcb s) p' -> may_write st = false -> st <> LISTEN ->
  sender L T true (s <| st_pcb := p' <| state := st |> |> <| oracle := l |>).
Proof.
  intros T [Hs [Hr Hw]] Ht Hq Hst Hl. pose proof (room_fin_queued _ _ Hr Hq) as Hr'. destruct Hs as [Hi [Q1 Q2] Hb Hc (N & HN & HLN) [Hf _] _].
  pose proof (send_inv_span _ _ _ _ Hi) as Hsp. pose proof (rm_buf _ Hr). simpl in Hc. change TCP_SND_QUEUELEN with 90 in Hc.
  assert (Hspan : T - L <= TCP_SND_BUF) by (unfold buf_ok in Hb; lia).
  assert (HN' : exists N', seq_of iss N = seq_of iss N' /\ L <= N' <= send_end T true) by (exists N; unfold send_end in *; simpl in *; split; [done|lia]).
  split; [|split; [by apply (room_ext p')|done]].
  destruct Hq as [(pre & x & Eu & Hno & ->)|(x & X1 & X2 & X3 & X4 & X5 & X6 & X7 & ->)].
  - split; rec_simpl; try done.
    + apply (send_inv_fin_flag L (st_pcb s) _ pre x st); try done. rewrite !has_or in Hno. unfold fin. by destruct (has (seg_flags x) TCP_SYN), (has (seg_flags x) TCP_FIN).
    + unfold qlen_ok in *. rec_simpl. rewrite Eu, !clens_app in *. done.
    + unfold buf_ok in *. rec_simpl. rewrite Eu, !seg_lens_app in *. done.
    + simpl. change TCP_SND_QUEUELEN with 90. lia.
    + by rewrite HN.
  - pose proof (clens_nonneg (unacked (st_pcb s))). pose proof (clens_nonneg (unsent (st_pcb s))).
    split; rec_simpl; rewrite ?(u16_t_id (snd_queuelen (st_pcb s) + 1)) by lia; try done.
    + apply (send_inv_fin_seg L (st_pcb s) _ x st); try done. rewrite X1, (sd_lbb _ _ _ _ _ _ Hi eq_refl). apply u32_t_idem.
    + unfold qlen_ok in *. rec_simpl. rewrite clens_app. simpl. rewrite X3. change (zlen [[]]) with 1. lia.
    + unfold buf_ok in *. rec_simpl. rewrite app_assoc, seg_lens_app. unfold seg_lens at 2. simpl. rewrite X4. lia.
    + simpl. change TCP_SND_QUEUELEN with 90. lia.
    + by rewrite HN.
Qed.

Lemma fin_state_spec st st' : fin_state st = Some st' -> may_write st = true /\ may_write st' = false /\ st' <> LISTEN /\
  (st = SYN_RCVD \/ st = ESTABLISHED \/ st = CLOSE_WAIT).
Proof. destruct st; simpl; intros [= <-]; (split; [done|split; [done|split; [done|auto]]]). Qed.

Lemma sender_shutdown L T c s : sender L T c s -> tail_at_end (st_pcb s) = true -> T = zlen σ ->
  wp (tcp_shutdown false true) (fun r s' => exists c', sender L T c' s' /\ sent_genuine T c' s s' /\
    (c = true -> c' = true) /\ (c' = false -> c = false)) s.
Proof.
  intros Hs Ht HT. pose proof (sn_live _ _ _ _ (proj1 Hs)) as [Hf Hl].
  assert (Hid : exists c', sender L T c' s /\ sent_genuine T c' s s /\ (c = true -> c' = true) /\ (c' = false -> c = false)).
  { exists c. split; [done|]. split; [by apply sent_genuine_refl|done]. }
  unfold tcp_shutdown. wp_step. apply wp_deref; [done|]. wp_step. wp_step.
  assert (Hnl : state_is (state (st_pcb s)) LISTEN = false) by (apply Z.eqb_neq; by destruct (state (st_pcb s))). rewrite Hnl.
  cbn [andb when]. wp_step. wp_step. wp_step. wp_step.
  destruct (fin_state (state (st_pcb s))) as [st'|] eqn:Efs; [|by wp_steps].
  destruct (fin_state_spec _ _ Efs) as (M1 & M2 & M3 & M4). unfold tcp_close_shutdown. wp_step. apply wp_deref; [done|].
  wp_step. wp_step. wp_step. wp_step. cbn [andb].
  assert (c = false) as ->.
  { destruct c; [|done]. destruct (sd_closed _ _ _ _ _ _ (sn_inv _ _ _ _ (proj1 Hs)) eq_refl) as [_ E]. by rewrite E in M1. }
  match goal with |- wp ?m _ _ => replace m with tcp_close_shutdown_fin by (by destruct M4 as [E|[E|E]]; rewrite E) end.
  unfold tcp_close_shutdown_fin. wp_step. wp_step. rewrite Efs. wp_step.
  pose proof (sn_count _ _ _ _ (proj1 Hs)) as Hc. simpl in Hc. change TCP_SND_QUEUELEN with 90 in Hc.
  eapply wp_conseq; [apply tcp_send_fin_spec; [apply (sn_qlen _ _ _ _ (proj1 Hs))|lia]|].
  intros r s1 (p' & l & -> & [[-> Hq]|[-> [f ->]]]).
  - change (ERR_OK =? ERR_OK) with true. cbn [when]. wp_step. wp_step. wp_step. 
    rewrite HT in Hs. pose proof (sender_fin_queued L s p' st' l Hs Ht Hq M2 M3) as Hs'. eapply wp_conseq; [apply (sender_output L (zlen σ) true), Hs'|].
    intros e s2 [H1 H2]. wp_step. exists true. rewrite HT. done.
  - change (ERR_MEM =? ERR_OK) with false. change (ERR_MEM =? ERR_MEM) with true. cbn [when]. wp_step. wp_step.
    unfold tcp_set_flags. wp_step. wp_step. wp_step. exists false. split; [|split; [by apply sent_genuine_refl|done]].
    apply (sender_flags L T false s (Z.lor f TF_CLOSEPEND) l) in Hs. done.
Qed.
End Sender.
