(* ===== verification/TcpSendRun.v ===== *)
(** * Runs of a sender

    The operations on the sending side in any order: the application writes and shuts
    down, the output function and the retransmission timer run, acknowledgements of any
    kind arrive.  Everything sent in a reachable state is a part of the stream, everything
    written and not acknowledged is queued, and no operation fails. *)

From S2P Require Import Prelude Def IpAddr Tcp TcpOut TcpIn TcpFacts TcpStream TcpAck.
From S2P Require Import TcpOutput TcpSend TcpWrite TcpWriteFacts TcpClose TcpSteps TcpSendStream TcpSender.

(** ** The operations *)

Inductive send_op : Type :=
  | SendWrite (arg : list Z) (apiflags : Z) (rom_adjacent : tcp_seg -> bool) (** the application calls [tcp_write] *)
  | SendOutput    (** [tcp_output], called by the application or by [tcp_input] *)
  | SendTimeout   (** the retransmission timer has expired *)
  | SendAck       (** the ACK part of [tcp_receive], for a segment with any header *)
  | SendShutdown. (** the application calls [tcp_shutdown(pcb, 0, 1)] *)

Definition send_step (o : send_op) : TM Z :=
  match o with
  | SendWrite arg apiflags rom_adjacent => tcp_write arg apiflags rom_adjacent
  | SendOutput => tcp_output
  | SendTimeout => tcp_rexmit_rto ;;; ret ERR_OK
  | SendAck => receive_ack ;;; ret ERR_OK
  | SendShutdown => tcp_shutdown false true
  end.

(** The part of the control block that belongs to the sending side. *)
Definition send_part (p : tcp_pcb) :=
  (unacked p, unsent p, unsent_oversize p, snd_queuelen p, snd_buf p, lastack p, snd_nxt p, snd_lbb p,
   mss p, snd_wnd_max p, may_write (state p)).

(** Between two operations the receiving side works: it sends acknowledgements, changes
    the state from [ESTABLISHED] to [CLOSE_WAIT] or between the closing states, and loads
    the header of the next segment. *)
Record send_load (s s0 : tcp_st) : Prop := SendLoad {
  sl_part : send_part (st_pcb s0) = send_part (st_pcb s);
  sl_sent : only_acks s s0;
  sl_live : pcb_freed s0 = false /\ state (st_pcb s0) <> LISTEN;
  sl_wnd : 0 <= in_wnd s0 < 65536
}.

Section SendRun.
Context (σ : list Z) (iss : Z).

(** What each operation asks of the state, [T] bytes of the stream being written. *)
Definition send_pre (T : Z) (s : tcp_st) (o : send_op) : Prop :=
  match o with
  | SendWrite arg _ rom_adjacent => writes σ T (st_pcb s) arg /\ forall x, rom_adjacent x = true -> oversize_left x = 0
  | SendOutput => True
  | SendTimeout => in_order (st_pcb s) = true
  | SendAck => 0 <= ackno s < 4294967296 /\ recv_acked s = 0
  | SendShutdown => tail_at_end (st_pcb s) = true /\ T = zlen σ
  end.

(** The bytes written after the operation. *)
Definition op_written (o : send_op) (r T : Z) : Z :=
  match o with SendWrite arg _ _ => if r =? ERR_OK then T + zlen arg else T | _ => T end.

(** [send_run T c s]: [s] is reached from an established connection with nothing queued;
    [T] bytes have been written, and [c] says that the FIN is queued. *)
Inductive send_run : Z -> bool -> tcp_st -> Prop :=
  | send_start s : sender σ iss 0 0 false s -> sent s = [] -> send_run 0 false s
  | send_next T c s s0 o r s' : send_run T c s -> send_load s s0 -> send_pre T s0 o ->
      send_step o s0 = Ok (r, s') -> send_run (op_written o r T) (negb (may_write (state (st_pcb s')))) s'.

Lemma sender_load L T c s s0 : sender σ iss L T c s -> send_load s s0 -> sender σ iss L T c s0.
Proof.
  intros [[Hi Hq Hb Hc HN Hl Ho] [Hr Hw]] [Hp _ Hl0 Hw0]. unfold send_part in Hp. injection Hp as P1 P2 P3 P4 P5 P6 P7 P8 P9 P10 P11.
  split.
  - split; try done.
    + apply (send_inv_ext σ iss L T c (st_pcb s)); try done. by rewrite P11.
    + unfold qlen_ok. by rewrite P1, P2, P4.
    + unfold buf_ok. by rewrite P1, P2, P5.
    + by rewrite P4.
    + by rewrite P7.
    + by rewrite P11.
  - split; [|done]. apply (room_ext (st_pcb s)); [|done]. unfold room_of. by rewrite P1, P2, P3, P5, P9, P10.
Qed.

Lemma genuines_mono T c T' c' l : Forall (genuine σ iss T c) l -> T <= T' -> (c = true -> c' = true) -> Forall (genuine σ iss T' c') l.
Proof. intros H HT Hc. eapply Forall_impl; [exact H|]. intros o Ho. by eapply genuine_mono. Qed.

(** One operation. *)
Lemma send_step_spec L T c o s : sender σ iss L T c s -> send_pre T s o ->
  wp (send_step o) (fun r s' => exists L' c', L <= L' /\ T <= op_written o r T /\ (c = true -> c' = true) /\
    sender σ iss L' (op_written o r T) c' s' /\ sent_genuine σ iss (op_written o r T) c' s s') s.
Proof.
  intros Hs Hp. destruct o as [arg fl rom| | | |]; cbn [send_step op_written send_pre] in *.
  - destruct Hp as [Hw Hrom]. pose proof (zlen_nonneg arg). eapply wp_conseq; [by apply (sender_write σ iss L T c)|].
    intros r s' [Hsent [(-> & -> & H')|[Hr H']]]; cbn [op_written].
    + change (ERR_OK =? ERR_OK) with true. exists L, false. split_and!; try done; try lia; by apply sent_genuine_refl.
    + rewrite (proj2 (Z.eqb_neq _ _) Hr). exists L, c. split_and!; try done; try lia; by apply sent_genuine_refl.
  - eapply wp_conseq; [by apply (sender_output σ iss L T c)|]. intros r s' [H1 H2]. exists L, c. split_and!; done || lia.
  - wp_step. eapply wp_conseq; [by apply (sender_rexmit_rto σ iss L T c)|]. intros [] s' [H1 H2]. wp_step. exists L, c. split_and!; done || lia.
  - destruct Hp as [Ha Hra]. wp_step. eapply wp_conseq; [by apply (sender_receive_ack σ iss L T c)|].
    intros [] s' (L' & HL & H1 & H2). wp_step. exists L', c. split_and!; done || lia.
  - destruct Hp as [Ht HT]. eapply wp_conseq; [by apply (sender_shutdown σ iss L T c)|].
    intros r s' (c' & H1 & H2 & H3 & _). exists L, c'. split_and!; done || lia.
Qed.

Lemma send_run_inv T c s : send_run T c s -> exists L, sender σ iss L T c s /\ Forall (genuine σ iss T c) (sent s).
Proof.
  induction 1 as [s Hs Hse|T c s s0 o r s' _ (L & Hs & Hg) Hl Hp Hrun]; [exists 0; by rewrite Hse|].
  pose proof (sender_load _ _ _ _ _ Hs Hl) as Hs0. pose proof (send_step_spec _ _ _ _ _ Hs0 Hp) as H.
  unfold wp in H. rewrite Hrun in H. destruct H as (L' & c' & _ & HT & Hc & Hs' & (outs & Eo & Ho)).
  exists L'. rewrite <- (sender_closed _ _ _ _ _ _ Hs'). split; [done|]. rewrite Eo. apply Forall_app. split; [|done].
  destruct (sl_sent _ _ Hl) as (acks & -> & Ha). apply Forall_app. split; [by eapply genuines_mono|].
  eapply Forall_impl; [exact Ha|]. by left.
Qed.

(** No operation fails. *)
Lemma send_step_goes_on T c s s0 o : send_run T c s -> send_load s s0 -> send_pre T s0 o ->
  exists r s', send_step o s0 = Ok (r, s') /\ send_run (op_written o r T) (negb (may_write (state (st_pcb s')))) s'.
Proof.
  intros Hr Hl Hp. destruct (send_run_inv _ _ _ Hr) as (L & Hs & _). pose proof (sender_load _ _ _ _ _ Hs Hl) as Hs0.
  pose proof (send_step_spec _ _ _ _ _ Hs0 Hp) as H. apply wp_run in H as (r & s' & Hrun & _).
  exists r, s'. split; [done|]. by eapply send_next.
Qed.
End SendRun.
