(* ===== verification/TcpParse.v ===== *)
(** * The TCP header on the wire ([tcp_input] of [core/tcp_in.c])

    The packet that [tcp_output_segment] hands to IP, byte by byte, and the first part of
    [tcp_input]: the checks of the header, the options, the conversion to host byte order
    and [tcplen].  A packet is a chain of buffers that begins with the TCP header; the host
    is little endian. *)

From S2P Require Import Prelude Def IpAddr Tcp TcpOut TcpIn TcpFacts TcpOpt TcpOutput.

(** ** Building a packet *)

Definition TCP_FLAGS : Z := 63.

(** The value of [_hdrlen_rsvd_flags] in memory. *)
Definition TCPH_HDRLEN_FLAGS_SET (len fl : Z) : Z := u16_t (lwip_htons (Z.lor (u16_t (Z.shiftl len 12)) fl)).

(** The header [tcp_create_segment] and [tcp_output_segment] build for [o], which gives the
    fields in host byte order; [chksum] as it is in memory. *)
Definition tcp_header (chksum : Z) (o : tcp_out) : list Z :=
  le16 (lwip_htons (o_src o)) ++ le16 (lwip_htons (o_dest o)) ++
  le32 (lwip_htonl (o_seqno o)) ++ le32 (lwip_htonl (o_ackno o)) ++
  le16 (TCPH_HDRLEN_FLAGS_SET (5 + zlen (o_opts o) / 4) (o_flags o)) ++ le16 (lwip_htons (o_wnd o)) ++
  le16 chksum ++ le16 0.
Definition tcp_packet (chksum : Z) (o : tcp_out) : list Z := tcp_header chksum o ++ o_opts o ++ o_data o.

(** ** Reading a header *)

(** The [u16_t] and the [u32_t] at an offset of the header. *)
Definition hdr16 (c : list Z) (off : nat) : Z := of_le16 (nth off c 0) (nth (S off) c 0).
Definition hdr32 (c : list Z) (off : nat) : Z := hdr16 c off + 65536 * hdr16 c (S (S off)).

Definition TCPH_HDRLEN (c : list Z) : Z := u16_t (Z.shiftr (lwip_ntohs (hdr16 c 12)) 12).
Definition TCPH_HDRLEN_BYTES (c : list Z) : Z := u8_t (Z.shiftl (TCPH_HDRLEN c) 2).
Definition TCPH_FLAGS (c : list Z) : Z := u8_t (Z.land (lwip_ntohs (hdr16 c 12)) TCP_FLAGS).

(** "Move the payload pointer in the pbuf so that it points to the TCP data instead of the
    TCP header"; [None] when the options do not fit into the second buffer. *)
Definition tcp_input_options (c : list Z) (rest : pkt) (hdrlen_bytes : Z) : TM (option pkt) :=
  modify (fun s => s <| tcphdr_opts := zdrop TCP_HLEN c |>) ;;;
  let optlen := u16_t (hdrlen_bytes - TCP_HLEN) in
  modify (fun s => s <| tcphdr_optlen := optlen |> <| tcphdr_opt2 := None |>) ;;;
  if hdrlen_bytes <=? zlen c then
    modify (fun s => s <| tcphdr_opt1len := optlen |>) ;;;
    ret (Some (zdrop hdrlen_bytes c :: rest))
  else
    match rest with
    | [] => lwip_assert "p->next != NULL" false ;;; ret None
    | n :: more =>
        let c1 := zdrop TCP_HLEN c in
        modify (fun s => s <| tcphdr_opt1len := zlen c1 |>) ;;;
        let opt2len := u16_t (optlen - zlen c1) in
        let c2 := zdrop (zlen c1) c1 in
        if zlen n <? opt2len then ret None
        else
          modify (fun s => s <| tcphdr_opt2 := Some n |>) ;;;
          let n' := zdrop opt2len n in
          lwip_assert "p->len == 0" (zlen c2 =? 0) ;;;
          ret (Some (c2 :: n' :: more))
    end.

(** "Convert fields in TCP header to host byte order": the values of the header fields. *)
Record header_fields := mkFields { hf_src : Z; hf_dest : Z; hf_seqno : Z; hf_ackno : Z; hf_wnd : Z; hf_flags : Z }.
Definition tcp_fields (c : list Z) : header_fields :=
  mkFields (lwip_ntohs (hdr16 c 0)) (lwip_ntohs (hdr16 c 2)) (lwip_ntohl (hdr32 c 4)) (lwip_ntohl (hdr32 c 8))
    (lwip_ntohs (hdr16 c 14)) (TCPH_FLAGS c).

(** They are stored, and [tcplen] is computed. *)
Definition tcp_input_fields (h : header_fields) (v6 : bool) (p : pkt) : TM (option pkt) :=
  modify (fun s => s <| in_src := hf_src h |> <| in_dest := hf_dest h |> <| seqno := hf_seqno h |> <| ackno := hf_ackno h |>
                     <| in_wnd := hf_wnd h |> <| in_is_v6 := v6 |>) ;;;
  modify (fun s => s <| in_flags := hf_flags h |>) ;;;
  let tot_len := zlen (pkt_bytes p) in
  modify (fun s => s <| tcplen := tot_len |>) ;;;
  let* f := gets in_flags in
  if has f (Z.lor TCP_FIN TCP_SYN) then
    modify (fun s => s <| tcplen := u16_t (tcplen s + 1) |>) ;;;
    let* n := gets tcplen in
    if n <? tot_len then ret None else ret (Some p)
  else ret (Some p).

(** [tcp_input] up to the demultiplexing: [None] when the packet is dropped.  [to_group]: the
    destination is a broadcast or multicast address. *)
Definition tcp_input_header (to_group v6 : bool) (p : pkt) : TM (option pkt) :=
  match p with
  | [] => lwip_assert "tcp_input: invalid pbuf" false ;;; ret None
  | c :: rest =>
      if zlen c <? TCP_HLEN then ret None
      else if to_group then ret None
      else
        let hdrlen_bytes := TCPH_HDRLEN_BYTES c in
        if (hdrlen_bytes <? TCP_HLEN) || (zlen (pkt_bytes p) <? hdrlen_bytes) then ret None
        else
          let* r := tcp_input_options c rest hdrlen_bytes in
          match r with
          | None => ret None
          | Some p => tcp_input_fields (tcp_fields c) v6 p
          end
  end.

(** ** Safety *)

(** What reading a header leaves alone: everything but the header variables. *)
Definition unread_of (s : tcp_st) :=
  (st_pcb s, (pcb_addr s, pcb_freed s, tcp_input_pcb s, tcp_active_pcbs s, tcp_tw_pcbs s, tcp_bound_pcbs s, tcp_active_pcbs_changed s),
   (other_state s, netif_local_ip s, sent s, events s, nd6_hints s, timer_needed_calls s, oracle s, tcp_ticks s),
   (inseg s, recv_acked s, recv_flags s, recv_data s)).

Lemma hdrlen_bytes_range c : 0 <= TCPH_HDRLEN_BYTES c <= 60.
Proof.
  unfold TCPH_HDRLEN_BYTES, TCPH_HDRLEN. pose proof (lwip_htons_range (hdr16 c 12)) as H. unfold lwip_ntohs.
  rewrite Z.shiftr_div_pow2, Z.shiftl_mul_pow2 by lia. change (2 ^ 12) with 4096. change (2 ^ 2) with 4.
  rewrite u16_t_id, u8_t_id by dlia. dlia.
Qed.

(** The options of a packet that is not dropped, and the data behind them. *)
Record header_read (p : pkt) (p' : pkt) (s' : tcp_st) : Prop := HeaderRead {
  hr_sized : opts_sized s';
  hr_opts : forall i, 0 <= i < tcphdr_optlen s' -> opt_byte s' i = zdrop (TCP_HLEN + i) (pkt_bytes p) !! 0%nat;
  hr_data : pkt_bytes p' = zdrop (TCP_HLEN + tcphdr_optlen s') (pkt_bytes p);
  hr_pkt : p' <> []
}.

Lemma zdrop_lookup0 {A} (l : list A) i : 0 <= i -> zdrop i l !! 0%nat = l !! Z.to_nat i.
Proof. intros. unfold zdrop. rewrite lookup_drop. f_equal. lia. Qed.
Lemma lookup_app_z {A} (l1 l2 : list A) i : 0 <= i ->
  (l1 ++ l2) !! Z.to_nat i = if i <? zlen l1 then l1 !! Z.to_nat i else l2 !! Z.to_nat (i - zlen l1).
Proof.
  intros. unfold zlen. destruct (Z.ltb_spec i (Z.of_nat (length l1))); [by rewrite lookup_app_l by lia|].
  rewrite lookup_app_r by lia. f_equal. lia.
Qed.

(** [TCP_HLEN + i] bytes in. *)
Lemma zdrop_hlen_lookup (c : list Z) i : TCP_HLEN <= zlen c -> 0 <= i -> zdrop TCP_HLEN c !! Z.to_nat i = c !! Z.to_nat (TCP_HLEN + i).
Proof. intros. unfold zdrop, TCP_HLEN. rewrite lookup_drop. f_equal. lia. Qed.

Lemma tcp_input_options_spec c rest h s : TCP_HLEN <= zlen c -> TCP_HLEN <= h <= 60 -> h <= zlen (pkt_bytes (c :: rest)) ->
  wp (tcp_input_options c rest h) (fun r s' => unread_of s' = unread_of s /\
    match r with
    | Some p' => header_read (c :: rest) p' s' /\ tcphdr_optlen s' = h - TCP_HLEN
    | None => exists n more, rest = n :: more /\ zlen c + zlen n < h
    end) s.
Proof.
  intros Hc Hh Ht. unfold tcp_input_options. pose proof Hc as Hc'. unfold TCP_HLEN in Hc', Hh. wp_steps. rewrite (u16_t_id (h - TCP_HLEN)) by (unfold TCP_HLEN; lia).
  rewrite pkt_bytes_cons in *. rewrite zlen_app in Ht.
  destruct (Z.leb_spec h (zlen c)) as [Hle|Hgt].
  - wp_steps. split; [done|]. split; [|done]. split; rec_simpl; try done.
    + unfold opts_sized. rec_simpl. unfold TCP_HLEN. lia.
    + unfold TCP_HLEN. intros i Hi. unfold opt_byte. rec_simpl. rewrite pkt_bytes_cons, zdrop_lookup0 by lia.
      rewrite lookup_app_z by lia. rewrite (proj2 (Z.ltb_lt _ _)) by lia. by apply (zdrop_hlen_lookup c i); [|lia].
    + rewrite !pkt_bytes_cons. replace (TCP_HLEN + (h - TCP_HLEN)) with h by lia. by rewrite zdrop_app_l by lia.
  - destruct rest as [|n more]; [change (zlen (pkt_bytes [])) with 0 in Ht; lia|].
    assert (Hc1 : zlen (zdrop TCP_HLEN c) = zlen c - TCP_HLEN) by (apply zlen_zdrop; unfold TCP_HLEN; lia).
    wp_steps. rewrite Hc1. rewrite (u16_t_id (h - TCP_HLEN - (zlen c - TCP_HLEN))) by (unfold TCP_HLEN; lia).
    replace (h - TCP_HLEN - (zlen c - TCP_HLEN)) with (h - zlen c) by lia.
    destruct (Z.ltb_spec (zlen n) (h - zlen c)) as [Hn|Hn]; [wp_steps; split; [done|]; exists n, more; split; [done|lia]|].
    assert (Hz : zdrop (zlen c - TCP_HLEN) (zdrop TCP_HLEN c) = []) by (apply zdrop_all; lia). rewrite Hz.
    wp_steps. apply wp_assert; [done|]. wp_steps. split; [done|]. split; [|done]. rewrite pkt_bytes_cons in *. split; rec_simpl; try done.
    + unfold opts_sized. rec_simpl. unfold TCP_HLEN. lia.
    + intros i Hi. unfold opt_byte. rec_simpl. unfold TCP_HLEN in *. rewrite !pkt_bytes_cons, zdrop_lookup0 by lia.
      rewrite lookup_app_z by lia. destruct (Z.ltb_spec i (zlen c - 20)).
      * rewrite (proj2 (Z.ltb_lt (20 + i) _)) by lia. by apply (zdrop_hlen_lookup c i); [|lia].
      * rewrite (proj2 (Z.ltb_ge (20 + i) _)) by lia. rewrite lookup_app_z by lia. rewrite (proj2 (Z.ltb_lt _ (zlen n))) by lia. do 2 f_equal. lia.
    + rewrite !pkt_bytes_cons. replace (TCP_HLEN + (h - TCP_HLEN)) with h by lia. simpl. rewrite zdrop_app_r by lia. by rewrite zdrop_app_l by lia.
Qed.

(** The header of [s'] is [h], for [n] bytes of data. *)
Definition fields_read (h : header_fields) (v6 : bool) (n : Z) (s' : tcp_st) : Prop :=
  mkFields (in_src s') (in_dest s') (seqno s') (ackno s') (in_wnd s') (in_flags s') = h /\ in_is_v6 s' = v6 /\
  tcplen s' = n + (if has (in_flags s') (Z.lor TCP_FIN TCP_SYN) then 1 else 0).

(** The option variables. *)
Definition opts_of (s : tcp_st) := (tcphdr_opts s, tcphdr_optlen s, tcphdr_opt1len s, tcphdr_opt2 s).

Lemma tcp_input_fields_spec h v6 p s : zlen (pkt_bytes p) < 65536 ->
  wp (tcp_input_fields h v6 p) (fun r s' => unread_of s' = unread_of s /\ opts_of s' = opts_of s /\
    match r with Some p' => p' = p /\ fields_read h v6 (zlen (pkt_bytes p)) s' | None => 65535 <= zlen (pkt_bytes p) end) s.
Proof.
  intros Hl. pose proof (zlen_nonneg (pkt_bytes p)) as Hn. destruct h as [src dest sq ack w fl]. unfold tcp_input_fields, fields_read.
  cbn [hf_src hf_dest hf_seqno hf_ackno hf_wnd hf_flags]. wp_steps. destruct (has fl (Z.lor TCP_FIN TCP_SYN)) eqn:Ef; wp_steps; [|rewrite Ef, Z.add_0_r; done].
  destruct (Z.ltb_spec (u16_t (zlen (pkt_bytes p) + 1)) (zlen (pkt_bytes p))) as [Hlt|Hge]; wp_steps.
  - split; [done|]. split; [done|]. unfold u16_t in Hlt. dlia.
  - assert (zlen (pkt_bytes p) <> 65535) by (intros E; rewrite E in Hge; done). rewrite Ef, u16_t_id by lia. done.
Qed.

(** Whatever the bytes are, reading the header fails no assertion; a packet that is not
    dropped has well-formed option variables, and its data is what follows the options. *)
Lemma tcp_input_header_spec to_group v6 c rest s : zlen (pkt_bytes (c :: rest)) < 65536 ->
  wp (tcp_input_header to_group v6 (c :: rest)) (fun r s' => unread_of s' = unread_of s /\
    match r with
    | Some p' => header_read (c :: rest) p' s' /\ tcphdr_optlen s' = TCPH_HDRLEN_BYTES c - TCP_HLEN /\
        TCP_HLEN <= zlen c /\ to_group = false /\ fields_read (tcp_fields c) v6 (zlen (pkt_bytes p')) s'
    | None => zlen c < TCP_HLEN \/ to_group = true \/ TCPH_HDRLEN_BYTES c < TCP_HLEN \/ zlen (pkt_bytes (c :: rest)) < TCPH_HDRLEN_BYTES c \/
        (exists n more, rest = n :: more /\ zlen c + zlen n < TCPH_HDRLEN_BYTES c) \/ 65535 <= zlen (pkt_bytes (c :: rest)) - TCPH_HDRLEN_BYTES c
    end) s.
Proof.
  intros Hl. unfold tcp_input_header. destruct (Z.ltb_spec (zlen c) TCP_HLEN); [wp_steps; auto|].
  destruct to_group; [wp_steps; auto|]. pose proof (hdrlen_bytes_range c) as Hr.
  destruct (Z.ltb_spec (TCPH_HDRLEN_BYTES c) TCP_HLEN); cbn [orb]; [wp_steps; split; auto|].
  destruct (Z.ltb_spec (zlen (pkt_bytes (c :: rest))) (TCPH_HDRLEN_BYTES c)); [wp_steps; split; auto|].
  wp_step. eapply wp_conseq; [apply tcp_input_options_spec; lia|]. intros [p'|] s1 [Hu Hp].
  2:{ wp_steps. split; [done|]. right; right; right; right; left. done. }
  destruct Hp as [Hread Ho]. pose proof Hread as [R1 R2 R3 R4]. rewrite Ho in R3. pose proof (zlen_nonneg (pkt_bytes p')).
  assert (Hn : zlen (pkt_bytes p') = zlen (pkt_bytes (c :: rest)) - TCPH_HDRLEN_BYTES c).
  { rewrite R3, zlen_zdrop by (unfold TCP_HLEN in *; lia). lia. }
  eapply wp_conseq; [apply tcp_input_fields_spec; unfold TCP_HLEN in *; lia|]. intros r s2 (Hu2 & Ho2 & Hr2).
  split; [congruence|]. destruct r as [p2|]; [|do 5 right; lia]. destruct Hr2 as [-> Hf].
  unfold opts_of in Ho2. injection Ho2 as O1 O2 O3 O4.
  split; [|by rewrite O2]. split; try done.
  - unfold opts_sized in *. by rewrite O2, O3.
  - intros i. unfold opt_byte. rewrite O1, O2, O3, O4. apply R2.
  - rewrite O2, Ho. exact R3.
Qed.

(** ** Reading back what was built *)

(** The fields fit into the header. *)
Record out_fits (o : tcp_out) : Prop := OutFits {
  of_src : 0 <= o_src o < 65536;
  of_dest : 0 <= o_dest o < 65536;
  of_seqno : 0 <= o_seqno o < 4294967296;
  of_ackno : 0 <= o_ackno o < 4294967296;
  of_flags : 0 <= o_flags o < 64;
  of_wnd : 0 <= o_wnd o < 65536;
  of_opts : exists k, zlen (o_opts o) = 4 * k /\ k <= 10;
  of_len : TCP_HLEN + zlen (o_opts o) + zlen (o_data o) < 65536
}.

Lemma of_le16_bytes n : 0 <= n < 65536 -> of_le16 (n mod 256) ((n / 256) mod 256) = n.
Proof. unfold of_le16. intros. dlia. Qed.
Lemma of_le32_bytes n : 0 <= n < 4294967296 ->
  of_le16 (n mod 256) ((n / 256) mod 256) + 65536 * of_le16 ((n / 65536) mod 256) ((n / 16777216) mod 256) = n.
Proof. unfold of_le16. intros. dlia. Qed.

Lemma hdrlen_flags_read k fl : 0 <= k <= 10 -> 0 <= fl < 64 ->
  let v := lwip_ntohs (TCPH_HDRLEN_FLAGS_SET (5 + k) fl) in
  0 <= TCPH_HDRLEN_FLAGS_SET (5 + k) fl < 65536 /\ u8_t (Z.shiftl (u16_t (Z.shiftr v 12)) 2) = TCP_HLEN + 4 * k /\ u8_t (Z.land v TCP_FLAGS) = fl.
Proof.
  intros Hk Hf. unfold TCPH_HDRLEN_FLAGS_SET, lwip_ntohs. cbv zeta.
  assert (E : Z.lor (u16_t (Z.shiftl (5 + k) 12)) fl = (5 + k) * 4096 + fl).
  { rewrite Z.shiftl_mul_pow2, u16_t_id by (lia || (change (2 ^ 12) with 4096; lia)). apply (lor_add_disjoint (5 + k) fl 12); lia. }
  rewrite E. rewrite (u16_t_id (lwip_htons _)) by apply lwip_htons_range. fold (lwip_ntohs (lwip_htons ((5 + k) * 4096 + fl))).
  rewrite lwip_htons_involutive by lia. split; [apply lwip_htons_range|]. split.
  - rewrite Z.shiftr_div_pow2, Z.shiftl_mul_pow2 by lia. change (2 ^ 12) with 4096. change (2 ^ 2) with 4.
    replace (((5 + k) * 4096 + fl) / 4096) with (5 + k) by dlia. rewrite u16_t_id, u8_t_id by lia. unfold TCP_HLEN. lia.
  - unfold TCP_FLAGS. change 63 with (Z.ones 6). rewrite Z.land_ones by lia. change (2 ^ 6) with 64. rewrite u8_t_id by dlia. dlia.
Qed.

Lemma tcp_header_len chksum o : zlen (tcp_header chksum o) = TCP_HLEN.
Proof. done. Qed.

Lemma tcp_header_read chksum o tl : out_fits o ->
  tcp_fields (tcp_header chksum o ++ tl) = mkFields (o_src o) (o_dest o) (o_seqno o) (o_ackno o) (o_wnd o) (o_flags o) /\
  TCPH_HDRLEN_BYTES (tcp_header chksum o ++ tl) = TCP_HLEN + zlen (o_opts o).
Proof.
  intros [H1 H2 H3 H4 H5 H6 (k & Hk & Hk') H7]. pose proof (zlen_nonneg (o_opts o)).
  assert (Ek : zlen (o_opts o) / 4 = k) by (rewrite Hk; dlia).
  destruct (hdrlen_flags_read k (o_flags o)) as (F0 & F1 & F2); [lia|lia|].
  unfold tcp_fields, TCPH_HDRLEN_BYTES, TCPH_HDRLEN, TCPH_FLAGS, hdr32, hdr16, tcp_header. rewrite Ek.
  pose proof (lwip_htons_range (o_src o)). pose proof (lwip_htons_range (o_dest o)). pose proof (lwip_htons_range (o_wnd o)).
  pose proof (lwip_htonl_range (o_seqno o)). pose proof (lwip_htonl_range (o_ackno o)).
  unfold le16, le32. cbn [app nth]. rewrite !of_le32_bytes by lia. rewrite !of_le16_bytes by lia.
  rewrite !lwip_htons_involutive, !lwip_htonl_involutive by lia. cbv zeta in F1, F2. rewrite F1, F2, Hk. done.
Qed.

(** A packet that [tcp_output_segment] sent, in whatever buffers it arrives: the header
    variables get the values it was built from, and the data is the data. *)
Lemma tcp_packet_read chksum o v6 c rest s : out_fits o -> pkt_bytes (c :: rest) = tcp_packet chksum o -> TCP_HLEN <= zlen c ->
  wp (tcp_input_header false v6 (c :: rest)) (fun r s' => unread_of s' = unread_of s /\
    match r with
    | Some p' => pkt_bytes p' = o_data o /\ p' <> [] /\ opts_sized s' /\ tcphdr_optlen s' = zlen (o_opts o) /\
        (forall i, 0 <= i < zlen (o_opts o) -> opt_byte s' i = o_opts o !! Z.to_nat i) /\
        fields_read (mkFields (o_src o) (o_dest o) (o_seqno o) (o_ackno o) (o_wnd o) (o_flags o)) v6 (zlen (o_data o)) s'
    | None => (exists n more, rest = n :: more /\ zlen c + zlen n < TCP_HLEN + zlen (o_opts o)) \/ 65535 <= zlen (o_data o)
    end) s.
Proof.
  intros Ho Hp Hc. pose proof (of_len _ Ho) as Hl. pose proof (zlen_nonneg (o_opts o)). pose proof (zlen_nonneg (o_data o)).
  assert (Hlen : zlen (pkt_bytes (c :: rest)) = TCP_HLEN + zlen (o_opts o) + zlen (o_data o)).
  { rewrite Hp. unfold tcp_packet. rewrite !zlen_app, tcp_header_len. lia. }
  assert (Ec : c = tcp_header chksum o ++ zdrop TCP_HLEN c).
  { rewrite pkt_bytes_cons in Hp. apply (f_equal (ztake TCP_HLEN)) in Hp. unfold tcp_packet in Hp.
    rewrite ztake_app_l in Hp by done. rewrite ztake_app_l in Hp by (rewrite tcp_header_len; lia).
    rewrite (ztake_all _ (tcp_header chksum o)) in Hp by (rewrite tcp_header_len; lia). rewrite <- Hp. by rewrite ztake_zdrop. }
  destruct (tcp_header_read chksum o (zdrop TCP_HLEN c) Ho) as [Hf Hh]. rewrite <- Ec in Hf, Hh.
  eapply wp_conseq; [apply tcp_input_header_spec; lia|]. intros [p'|] s' [Hu Hr]; (split; [done|]).
  - destruct Hr as ([R1 R2 R3 R4] & R5 & _ & _ & R6). rewrite Hh in R5. assert (R5' : tcphdr_optlen s' = zlen (o_opts o)) by lia.
    rewrite R5' in R2, R3. rewrite Hf in R6. unfold tcp_packet in Hp.
    assert (Hd : pkt_bytes p' = o_data o).
    { rewrite R3, Hp. rewrite app_assoc. rewrite zdrop_app_r by (rewrite zlen_app, tcp_header_len; lia).
      rewrite zlen_app, tcp_header_len, Z.sub_diag. by rewrite zdrop_nonpos. }
    rewrite Hd in R6. split_and!; try done. intros i Hi. rewrite R2 by done. rewrite Hp.
    rewrite zdrop_app_r by (rewrite tcp_header_len; lia). rewrite tcp_header_len. replace (TCP_HLEN + i - TCP_HLEN) with i by lia.
    rewrite zdrop_lookup0 by lia. rewrite lookup_app_z by lia. by rewrite (proj2 (Z.ltb_lt _ _)) by lia.
  - rewrite Hh in Hr. rewrite Hlen in Hr. destruct Hr as [Hr|[Hr|[Hr|[Hr|[Hr|Hr]]]]]; try done; try lia; by left.
Qed.
