(* ===== verification/TcpChksum.v ===== *)
(** * The TCP checksum of a segment ([tcp_output_segment] of [core/tcp_out.c])

    The checksum of the data of a segment is taken when the data is queued, and carried
    along, with its bytes exchanged after an odd number of bytes, while data is added.
    [tcp_output_segment] sums only the pseudo header, the TCP header and the options, and
    adds it.  The result is the checksum of the whole packet, so that a receiver that
    checks it accepts the packet. *)

From S2P Require Import Prelude Def IpAddr OnesComplement Pbuf PbufFacts PbufMut PbufData.
From S2P Require Import InetChksum Tcp TcpOut TcpIn TcpFacts TcpOutput TcpSend TcpWrite TcpWriteFacts TcpParse.


Section SegmentChksum.
Context (base : Z -> Z).

(** "rebuild TCP header checksum", "add payload checksum": the packet is the chain at [q],
    with zero in its checksum field; the result is what is written there. *)
Definition segment_chksum (seg : tcp_seg) (q tot_len hdrlen_bytes : Z) (src dest : ip_addr) : M heap Z :=
  let* acc := ip_chksum_pseudo_partial base q IP_PROTO_TCP tot_len hdrlen_bytes src dest in
  let chksum := if seg_chksum_swapped seg then u16_t (SWAP_BYTES_IN_WORD (seg_chksum seg)) else seg_chksum seg in
  let acc := u32_t (u16_t (Z.lnot acc) + chksum) in
  ret (u16_t (Z.lnot (FOLD_U32T acc))).
End SegmentChksum.

(** ** The packet *)

(** The packet around its checksum field. *)
Lemma tcp_packet_split c o : exists pre post, zlen pre = 16 /\ bytes_ok pre /\
  (forall x, tcp_packet x o = pre ++ le16 x ++ post) /\ (bytes_ok (o_opts o) -> bytes_ok (o_data o) -> bytes_ok post) /\
  zlen (tcp_packet c o) = TCP_HLEN + zlen (o_opts o) + zlen (o_data o).
Proof.
  exists (le16 (lwip_htons (o_src o)) ++ le16 (lwip_htons (o_dest o)) ++ le32 (lwip_htonl (o_seqno o)) ++ le32 (lwip_htonl (o_ackno o)) ++
    le16 (TCPH_HDRLEN_FLAGS_SET (5 + zlen (o_opts o) / 4) (o_flags o)) ++ le16 (lwip_htons (o_wnd o))), (le16 0 ++ o_opts o ++ o_data o).
  split; [done|]. split; [|split; [|split]].
  - rewrite !Forall_app. split_and!; try apply bytes_le16; apply bytes_le32.
  - done.
  - intros H1 H2. rewrite !Forall_app. split_and!; try done. apply bytes_le16.
  - unfold tcp_packet. rewrite !zlen_app, tcp_header_len. lia.
Qed.

(** Fields of a packet that was built. *)
Record chksum_fits (o : tcp_out) : Prop := ChksumFits {
  cf_opts : exists k, zlen (o_opts o) = 4 * k /\ k <= 10;
  cf_len : TCP_HLEN + zlen (o_opts o) + zlen (o_data o) < 65536;
  cf_bytes : bytes_ok (o_opts o) /\ bytes_ok (o_data o)
}.

(** The two parts of the sum make up the sum of the whole. *)
Lemma segment_chksum_spec base h q l o seg src dest :
  packet h q l (tcp_packet 0 o) -> chksum_fits o -> o_data o = seg_data seg ->
  (seg_chksum seg, seg_chksum_swapped seg) = sum_of (seg_data seg) -> ip6_ok (u_addr src) -> ip6_ok (u_addr dest) ->
  segment_chksum base seg q (zlen (tcp_packet 0 o)) (TCP_HLEN + zlen (o_opts o)) src dest h =
    Ok (checksum (pseudo_header src dest IP_PROTO_TCP (zlen (tcp_packet 0 o)) ++ tcp_packet 0 o), h).
Proof.
  intros Hpk [(k & Hk & Hk10) Hlen [Ho Hd]] Ed Hsum Hs Hdst. destruct (tcp_packet_split 0 o) as (pre & post & Hpre & Hpb & Hp & Hpost & Hz).
  pose proof (zlen_nonneg (o_opts o)). pose proof (zlen_nonneg (o_data o)). unfold TCP_HLEN in *. set (n := zlen (tcp_packet 0 o)) in *.
  destruct (pseudo_header_ok src dest IP_PROTO_TCP n) as [Hph Hev]; [done|]. set (ph := pseudo_header src dest IP_PROTO_TCP n) in *.
  assert (Hpkb : bytes_ok (tcp_packet 0 o)) by (rewrite Hp, !Forall_app; split; [done|]; split; [apply bytes_le16|by apply Hpost]).
  unfold segment_chksum, bind. rewrite (ip_chksum_pseudo_partial_spec base h q l (tcp_packet 0 o)) by (done || lia). fold ph. unfold ret.
  set (hd := tcp_header 0 o ++ o_opts o). assert (Ehd : tcp_packet 0 o = hd ++ o_data o) by (subst hd; unfold tcp_packet; by rewrite app_assoc).
  assert (Hhl : zlen hd = 20 + zlen (o_opts o)) by (subst hd; rewrite zlen_app, tcp_header_len; done).
  assert (Hht : ztake (20 + zlen (o_opts o)) (tcp_packet 0 o) = hd) by (rewrite Ehd; rewrite ztake_app_l by lia; apply ztake_all; lia).
  assert (Hhd : bytes_ok hd) by (rewrite Ehd in Hpkb; by apply Forall_app in Hpkb as [? _]).
  assert (Hhev : Z.even (zlen hd) = true) by (rewrite Hhl, Hk; replace (20 + 4 * k) with (2 * (10 + 2 * k)) by lia; by rewrite Z.even_mul).
  rewrite Hht. assert (Hun : (if seg_chksum_swapped seg then u16_t (SWAP_BYTES_IN_WORD (seg_chksum seg)) else seg_chksum seg) = canon (word_sum (o_data o))).
  { rewrite Ed in *. rewrite <- (unswap_spec (seg_data seg)) by done. by rewrite <- Hsum. }
  rewrite Hun. unfold checksum. rewrite Ehd. rewrite !(word_sum_app_even ph) by done. rewrite (word_sum_app_even hd) by done.
  pose proof (word_sum_nonneg _ Hph). pose proof (word_sum_nonneg _ Hhd). pose proof (word_sum_nonneg _ Hd).
  set (s1 := word_sum ph + word_sum hd) in *. pose proof (canon_range s1). pose proof (canon_range (word_sum (o_data o))).
  rewrite (u16_lnot (65535 - canon s1)) by lia. replace (65535 - (65535 - canon s1)) with (canon s1) by lia.
  rewrite u32_t_id, FOLD_once by lia. rewrite u16_lnot by apply canon_range. do 3 f_equal.
  rewrite canon_add by (subst s1; lia). rewrite (Z.add_comm s1), canon_add by (subst s1; lia). f_equal. subst s1. lia.
Qed.

(** A packet with this checksum verifies, wherever it is received and however it is split. *)
Lemma tcp_packet_verifies base h q l o src dest : chksum_fits o ->
  let n := zlen (tcp_packet 0 o) in
  let c := checksum (pseudo_header src dest IP_PROTO_TCP n ++ tcp_packet 0 o) in
  packet h q l (tcp_packet c o) -> ip6_ok (u_addr src) -> ip6_ok (u_addr dest) ->
  ip_chksum_pseudo base q IP_PROTO_TCP n src dest h = Ok (0, h).
Proof.
  intros [(k & Hk & Hk10) Hlen [Ho Hd]] n c Hpk Hs Hdst. destruct (tcp_packet_split 0 o) as (pre & post & Hpre & Hpb & Hp & Hpost & Hz).
  pose proof (zlen_nonneg (o_opts o)). pose proof (zlen_nonneg (o_data o)). unfold TCP_HLEN in *.
  destruct (pseudo_header_ok src dest IP_PROTO_TCP n) as [Hph Hev]; [done|].
  rewrite (ip_chksum_pseudo_spec base h q l (tcp_packet c o)); try done; [|rewrite Hp, !Forall_app; split; [done|]; split; [apply bytes_le16|by apply Hpost]|subst n; lia].
  do 2 f_equal. subst c. rewrite !Hp. set (ph := pseudo_header src dest IP_PROTO_TCP n) in *. rewrite !app_assoc, <- !(app_assoc (ph ++ pre)).
  change (le16 0) with [0; 0]. apply checksum_verifies; [by apply Forall_app|by apply Hpost|].
  rewrite zlen_app, Z.even_add, Hev, Hpre. done.
Qed.
