(* ===== verification/TcpLink.v ===== *)
(** * A sender and a receiver

    The two halves of the development put together: what one connection sends, another
    one receives, with everything in between: the header is built byte by byte, packets
    are lost, repeated, delayed and cut into buffers in any way, and read again.  The
    application at the receiving end gets what the one at the sending end wrote. *)

From S2P Require Import Prelude Def IpAddr Tcp TcpOut TcpIn TcpFacts TcpStream.
From S2P Require Import TcpOoseq TcpRecv TcpAck TcpReceive TcpOpt TcpOutput TcpSend TcpProcess.
From S2P Require Import TcpMachine TcpInput TcpApp TcpDeliver TcpRun.
From S2P Require Import TcpWrite TcpWriteFacts TcpClose TcpSteps TcpSendStream TcpSender TcpSendRun TcpParse.

Section Link.
Context (iss : Z) (cb : tcp_callbacks).

(** ** Arrival *)

(** The segment in hand is not beyond [rcv_nxt], or it fits into the receive window. *)
Definition in_reach (s : tcp_st) : bool :=
  TCP_SEQ_LEQ (seqno s) (rcv_nxt (st_pcb s)) || (u32_t (seqno s - rcv_nxt (st_pcb s)) + tcplen s <=? rcv_wnd (st_pcb s)).

(** What is asked of a receiver a segment comes to. *)
Record admits (s : tcp_st) : Prop := Admits {
  ad_reach : in_reach s = true;
  ad_state : state (st_pcb s) <> TIME_WAIT;
  ad_closing : state (st_pcb s) = CLOSING -> refused_data (st_pcb s) = [];
  ad_refused : refused_data (st_pcb s) = [] \/ forall σ A, never_aborts σ iss A cb
}.

(** The packet of [o], in any buffers of which the first holds the TCP header, is read
    by [tcp_input] in state [s] and found to be for this connection in state [s1], with
    the data [p].  A bare acknowledgement is in the part of the stream that is written. *)
Record carried (T : Z) (o : tcp_out) (s s1 : tcp_st) (p : pkt) : Prop := Carried {
  cy_fits : out_fits o;
  cy_opts : o_opts o = [];
  cy_ack : quiet_out o -> u32_t (o_seqno o - iss) <= T;
  cy_read : exists chksum v6 c rest, pkt_bytes (c :: rest) = tcp_packet chksum o /\ TCP_HLEN <= zlen c /\
    tcp_input_header false v6 (c :: rest) s = Ok (Some p, s1)
}.

(** What the receiving application and its timers may do. *)
Definition app_op (o : conn_op) : Prop :=
  match o with OpSegment _ => False | OpRecved n => 0 <= n < 65536 | OpOutput | OpRexmitRto | OpAbort => True end.

(** ** Runs *)

(** [link_run σ T c sa sb]: the sender [sa] and the receiver [sb] are reached from an
    established connection; [T] bytes of [σ] are written, [c] says that the FIN is queued. *)
Inductive link_run (σ : list Z) : Z -> bool -> tcp_st -> tcp_st -> Prop :=
  | link_start W sa sb : sender σ iss 0 0 false sa -> sent sa = [] -> stream_inv σ iss 0 0 W sb ->
      ooseq (st_pcb sb) = [] -> link_run σ 0 false sa sb
  | link_send T c sa sb s0 o r sa' : link_run σ T c sa sb -> send_load sa s0 -> send_pre σ T s0 o ->
      send_step o s0 = Ok (r, sa') -> link_run σ (op_written o r T) (negb (may_write (state (st_pcb sa')))) sa' sb
  | link_arrive T c sa sb o s0 s1 p sb' : link_run σ T c sa sb -> o ∈ sent sa -> op_load sb s0 -> pcb_freed s0 = false ->
      carried T o s0 s1 p -> admits s1 -> op_run cb (OpSegment p) s1 = Ok (tt, sb') -> link_run σ T c sa sb'
  | link_app T c sa sb s0 o sb' : link_run σ T c sa sb -> op_load sb s0 -> pcb_freed s0 = false -> app_op o ->
      op_run cb o s0 = Ok (tt, sb') -> link_run σ T c sa sb'.

Lemma linked_sends σ T c sa sb : link_run σ T c sa sb -> send_run σ iss T c sa.
Proof. induction 1; [by apply send_start|by eapply send_next|done..]. Qed.

(** The receiver's invariant: positions count from the beginning of the stream. *)
Definition receiver (σ : list Z) (s : tcp_st) : Prop :=
  ended σ s \/ exists N W, N <= zlen σ + 1 /\ stream_inv σ iss 0 N W s.

Lemma ended_load σ s s0 : ended σ s -> op_load s s0 -> pcb_freed s0 = true.
Proof. intros [H _ _ _] [E _]. unfold conn_of in E. congruence. Qed.

Section Short.
Context (σ : list Z) (Hσ : zlen σ + 1 + 2 * TCP_WND < 1073741824) (Hok : forall A, app_ok σ iss A cb).

(** Where a packet that was sent belongs. *)
Lemma genuine_at T c o : genuine σ iss T c o -> (quiet_out o -> u32_t (o_seqno o - iss) <= T) -> out_fits o -> T <= zlen σ ->
  exists a, out_at σ iss a o.
Proof.
  intros [Hq|(a & Ha & _)] Hc Ho HT; [|by exists a]. specialize (Hc Hq). destruct Hq as [Hd Hf]. pose proof (of_seqno _ Ho).
  pose proof (u32_t_range (o_seqno o - iss)).
  exists (u32_t (o_seqno o - iss)). split; rewrite ?Hd, ?Hf; try done; try lia.
  - unfold seq_of. rewrite u32_t_add_r. replace (iss + (o_seqno o - iss)) with (o_seqno o) by lia. by rewrite u32_t_id by lia.
  - change (zlen (@nil Z)) with 0. lia.
Qed.

(** The segment [tcp_input] builds from it. *)
Lemma carried_arrives T c o N W s s1 p : genuine σ iss T c o -> T <= zlen σ -> carried T o s s1 p -> 
  stream_inv σ iss 0 N W s1 -> N <= zlen σ + 1 -> in_reach s1 = true -> 
  fields_read (mkFields (o_src o) (o_dest o) (o_seqno o) (o_ackno o) (o_wnd o) (o_flags o)) (in_is_v6 s1) (zlen (o_data o)) s1 ->
  pkt_bytes p = o_data o -> p <> [] -> exists b, arrives σ iss N W b (input_setup p s1).
Proof.
  intros Hg HT [Cf Co Ca _] Hs HN Hr (Hfd & _ & Htl) Hp Hne. destruct (genuine_at T c o Hg Ca Cf HT) as [a Ha].
  injection Hfd as F1 F2 F3 F4 F5 F6. pose proof Ha as [A1 A2 A3 A4 A5 A6 A7]. pose proof (zlen_nonneg (o_data o)).
  pose proof (ci_rx _ _ _ _ _ _ (si_conn _ _ _ _ _ _ Hs)) as [[[Hn Hw Hp0 HW _ _] _] _]. unfold TCP_WND in *.
  pose proof (of_len _ Cf) as Hl. rewrite Co in Hl. change (zlen (@nil Z)) with 0 in Hl. unfold TCP_HLEN in Hl.
  assert (Hfin : has (o_flags o) (Z.lor TCP_FIN TCP_SYN) = has (o_flags o) TCP_FIN) by (by rewrite has_or, A5, orb_false_r).
  assert (Et : TCP_TCPLEN (inseg (input_setup p s1)) = tcplen s1).
  { unfold TCP_TCPLEN, input_setup. rec_simpl. rewrite Htl, Hp, u16_t_id by lia. done. }
  exists a. split.
  - unfold input_setup. rec_simpl. rewrite F3, F6, Hp, u16_t_id by lia. split; unfold fin; cbn; rewrite ?Hp; try done; try lia. unfold pkt_bytes in Hp. by rewrite Hp.
  - unfold input_setup. rec_simpl. by rewrite F3.
  - by rewrite Et.
  - done.
  - done.
  - lia.
  - rewrite Et. unfold in_reach in Hr. rewrite F3, Hn, Hw, A1 in Hr. apply orb_true_iff in Hr as [Hr|Hr].
    + rewrite (seq_leq iss _ _ a N) in Hr by (apply denotes_seq || unfold near; lia). apply Z.leb_le in Hr. by left.
    + apply Z.leb_le in Hr. assert (0 <= tcplen s1) by (rewrite Htl; destruct (has _ _); lia).
      assert (u32_t (seq_of iss a - seq_of iss N) = u32_t (a - N)).
      { unfold seq_of. rewrite u32_t_sub_l, u32_t_sub_r. f_equal. lia. }
      unfold u32_t in *. dlia.
Qed.

(** One arrival. *)
Lemma arrive_spec T c o s s0 s1 p : receiver σ s -> genuine σ iss T c o -> T <= zlen σ -> op_load s s0 -> pcb_freed s0 = false ->
  carried T o s0 s1 p -> admits s1 -> wp (op_run cb (OpSegment p)) (fun _ s' => receiver σ s') s1.
Proof.
  intros [He|(N & W & HN & Hs)] Hg HT Hl Hf Hc [R1 R2 R3 R4]; [by rewrite (ended_load _ _ _ He Hl) in Hf|].
  pose proof Hc as [Cf Co _ (ck & v6 & d & rest & Cp & Ch & Cr)].
  pose proof (tcp_packet_read ck o v6 d rest s0 Cf Cp Ch) as H. unfold wp in H. rewrite Cr in H.
  destruct H as (Hu & Hp & Hne & Hsz & Hol & _ & Hfr). rewrite Co in Hol. change (zlen []) with 0 in Hol.
  assert (Hl1 : op_load s s1).
  { destruct Hl as [L1 L2]. unfold unread_of in Hu. injection Hu as U1 U2 U3 U4 U5 U6 U7 U8 U9 U10 U11 U12 U13 U14 U15 U16 U17 U18.
    unfold op_load, conn_of in *. by rewrite U1, U2, U3, U5, U6, U9, U12. }
  assert (Hs1 : stream_inv σ iss 0 N W s1) by (by eapply stream_load).
  assert (Ev : in_is_v6 s1 = v6) by apply Hfr. rewrite <- Ev in Hfr.
  destruct (carried_arrives T c o N W s0 s1 p Hg HT Hc Hs1 HN R1 Hfr Hp Hne) as [b Hb].
  pose proof (ci_rx _ _ _ _ _ _ (si_conn _ _ _ _ _ _ Hs1)) as [[[_ HW _ _ _ _] _] _].
  eapply wp_conseq; [apply (op_run_near σ iss cb Hok 0 N W (OpSegment p) s1 Hs1); [|lia]|].
  - cbn [op_fits]. rewrite HW. split; [by exists b|]. assert (Hra : refused_data (st_pcb s1) = [] \/ forall A, never_aborts σ iss A cb) by (destruct R4 as [R4|R4]; [by left|right; apply R4]). split_and!; try done.
    destruct (genuine_at T c o Hg (cy_ack _ _ _ _ _ Hc) Cf HT) as [a [_ _ _ _ A5 A6 _]].
    destruct Hfr as (Hfd & _ & _). injection Hfd as _ _ _ _ _ F6.
    split; unfold input_setup; rec_simpl; rewrite ?F6; try done. split; [done|]. by left.
  - intros ? s' [H|(N' & W' & [H1 H2] & H)]; [by left|right]. exists N', W'. split; [lia|done].
Qed.

Lemma app_op_spec o s s0 : receiver σ s -> op_load s s0 -> pcb_freed s0 = false -> app_op o ->
  wp (op_run cb o) (fun _ s' => receiver σ s') s0.
Proof.
  intros [He|(N & W & HN & Hs)] Hl Hf Ho; [by rewrite (ended_load _ _ _ He Hl) in Hf|].
  assert (Hs0 : stream_inv σ iss 0 N W s0) by (by eapply stream_load).
  eapply wp_conseq; [apply (op_run_near σ iss cb Hok 0 N W o s0 Hs0); [by destruct o|lia]|].
  intros ? s' [H|(N' & W' & [H1 H2] & H)]; [by left|right]. exists N', W'. split; [lia|done].
Qed.

Lemma linked_inv T c sa sb : link_run σ T c sa sb ->
  (exists L, sender σ iss L T c sa /\ Forall (genuine σ iss T c) (sent sa)) /\ receiver σ sb.
Proof.
  intros Hl. split; [by apply send_run_inv, (linked_sends σ T c sa sb)|].
  induction Hl as [W sa sb _ _ Hs _|T c sa sb s0 o r sa' _ IH|T c sa sb o s0 s1 p sb' Hl IH Ho Hld Hf Hc Ha Hrun|T c sa sb s0 o sb' Hl IH Hld Hf Ho Hrun].
  - right. exists 0, W. pose proof (zlen_nonneg σ). split; [lia|done].
  - done.
  - destruct (send_run_inv _ _ _ _ _ (linked_sends _ _ _ _ _ Hl)) as (L & [Hs _] & Hg). rewrite Forall_forall in Hg.
    pose proof (sd_range _ _ _ _ _ _ (sn_inv _ _ _ _ _ _ Hs)) as (_ & HT & _).
    pose proof (arrive_spec T c o sb s0 s1 p IH (Hg o Ho) HT Hld Hf Hc Ha) as H. unfold wp in H. by rewrite Hrun in H.
  - pose proof (app_op_spec o sb s0 IH Hld Hf Ho) as H. unfold wp in H. by rewrite Hrun in H.
Qed.

Lemma receiver_prefix s : receiver σ s -> accepted (events s) `prefix_of` σ /\
  (eofs (events s) = 0 \/ eofs (events s) = 1 /\ accepted (events s) = σ).
Proof.
  intros [H|(N & W & _ & H)]; [apply (run_inv_prefix σ iss 0); by left|].
  apply (run_inv_prefix σ iss N). right. by exists 0, W.
Qed.
End Short.

(** ** Nothing is received that was not written *)

(** Before anything is written or received the stream does not matter. *)
Lemma stream_inv_fresh σ σ' W s : stream_inv σ iss 0 0 W s -> ooseq (st_pcb s) = [] -> stream_inv σ' iss 0 0 W s.
Proof.
  intros [[[H1 H2] H3 H4 H5 H6 H7 H8 H9 H10] H11 H12] Ho. pose proof (zlen_nonneg σ). pose proof (zlen_nonneg σ').
  rewrite (proj2 (Z.ltb_ge _ _)) in H10 by lia.
  split; unfold eof_at in *; rewrite ?(proj2 (Z.ltb_ge _ _)) in * by lia; try done.
  - split; rewrite ?(proj2 (Z.ltb_ge _ _)) by lia; try done. split; [done|]. rewrite Ho. constructor.
Qed.

(** What was sent carries bytes that are written already. *)
Lemma genuine_short σ T T' c o : genuine σ iss T c o -> T <= T' <= zlen σ -> (c = true -> T' = zlen σ) ->
  genuine (ztake T' σ) iss T c o.
Proof.
  intros [Hq|(a & [A1 A2 A3 A4 A5 A6 A7] & HT & Hc)] HT' Hc'; [by left|right]. exists a. split; [|done].
  pose proof (zlen_nonneg (o_data o)). assert (Hl : zlen (ztake T' σ) = T') by (rewrite zlen_ztake; lia). split; rewrite ?Hl; try done; try lia.
  - rewrite A3 at 1. unfold zslice. replace T' with (a + (T' - a)) by lia. rewrite zdrop_ztake by lia. rewrite ztake_ztake by lia. done.
  - intros Hf. rewrite (A7 Hf). by rewrite Hc' by auto.
Qed.

Context (Hok : forall σ A, app_ok σ iss A cb).

Lemma linked_receiver σ T' T c sa sb : zlen σ + 1 + 2 * TCP_WND < 1073741824 -> link_run σ T c sa sb -> T <= T' <= zlen σ ->
  receiver (ztake T' σ) sb.
Proof.
  intros Hσ Hl HT'. assert (Hl' : 0 <= T' -> zlen (ztake T' σ) = T') by (intros; rewrite zlen_ztake; lia).
  induction Hl as [W sa sb _ _ Hs Ho|T c sa sb s0 o r sa' Hl IH _ Hp _|T c sa sb o s0 s1 p sb' Hl IH Ho Hld Hf Hc Ha Hrun|T c sa sb s0 o sb' Hl IH Hld Hf Ho Hrun].
  - right. exists 0, W. pose proof (zlen_nonneg (ztake T' σ)). split; [lia|by eapply stream_inv_fresh].
  - apply IH. destruct o as [arg fl rom| | | |]; cbn [op_written] in HT'; try lia.
    pose proof (zlen_nonneg arg). destruct (r =? ERR_OK); lia.
  - destruct (send_run_inv _ _ _ _ _ (linked_sends _ _ _ _ _ Hl)) as (L & [Hs _] & Hg). rewrite Forall_forall in Hg.
    pose proof (sd_range _ _ _ _ _ _ (sn_inv _ _ _ _ _ _ Hs)) as (HL & HT & _). pose proof (sd_closed _ _ _ _ _ _ (sn_inv _ _ _ _ _ _ Hs)) as Hcl.
    assert (HT0 : 0 <= T'). { unfold send_end in HL. destruct c; simpl in HL; [destruct (Hcl eq_refl) as [E _]; pose proof (zlen_nonneg σ)|]; lia. }
    pose proof (arrive_spec (ztake T' σ) ltac:(rewrite Hl' by lia; lia) (Hok _) T c o sb s0 s1 p (IH HT')) as H.
    unfold wp in H. rewrite Hrun in H. apply H; try done; [|rewrite Hl' by lia; lia].
    apply genuine_short; [by apply Hg|done|]. intros E. destruct (Hcl E) as [E' _]. lia.
  - assert (HT0 : 0 <= T').
    { destruct (send_run_inv _ _ _ _ _ (linked_sends _ _ _ _ _ Hl)) as (L & [Hs _] & _).
      pose proof (sd_range _ _ _ _ _ _ (sn_inv _ _ _ _ _ _ Hs)) as (HL & HT & _). pose proof (sd_closed _ _ _ _ _ _ (sn_inv _ _ _ _ _ _ Hs)) as Hcl.
      unfold send_end in HL. destruct c; simpl in HL; [destruct (Hcl eq_refl) as [E _]; pose proof (zlen_nonneg σ)|]; lia. }
    pose proof (app_op_spec (ztake T' σ) ltac:(rewrite Hl' by lia; lia) (Hok _) o sb s0 (IH HT') Hld Hf Ho) as H. unfold wp in H. by rewrite Hrun in H.
Qed.

(** What the receiving application has got is a beginning of what was written. *)
Lemma linked_prefix σ T c sa sb : zlen σ + 1 + 2 * TCP_WND < 1073741824 -> link_run σ T c sa sb ->
  accepted (events sb) `prefix_of` ztake T σ /\ (eofs (events sb) = 0 \/ eofs (events sb) = 1 /\ accepted (events sb) = σ).
Proof.
  intros Hσ Hl. destruct (send_run_inv _ _ _ _ _ (linked_sends _ _ _ _ _ Hl)) as (L & [Hs _] & _).
  pose proof (sd_range _ _ _ _ _ _ (sn_inv _ _ _ _ _ _ Hs)) as (_ & HT & _). split.
  - apply (receiver_prefix (ztake T σ)), (linked_receiver σ T T c sa sb); done || lia.
  - apply (receiver_prefix σ). rewrite <- (ztake_all (zlen σ) σ) by lia. apply (linked_receiver σ (zlen σ) T c sa sb); done || lia.
Qed.

(** An arrival never fails. *)
Lemma link_arrive_goes_on σ T c sa sb o s0 s1 p : zlen σ + 1 + 2 * TCP_WND < 1073741824 -> link_run σ T c sa sb -> o ∈ sent sa ->
  op_load sb s0 -> pcb_freed s0 = false -> carried T o s0 s1 p -> admits s1 ->
  exists sb', op_run cb (OpSegment p) s1 = Ok (tt, sb') /\ link_run σ T c sa sb'.
Proof.
  intros Hσ Hl Ho Hld Hf Hc Ha. destruct (linked_inv σ Hσ (Hok σ) _ _ _ _ Hl) as [(L & [Hs _] & Hg) Hr]. rewrite Forall_forall in Hg.
  pose proof (sd_range _ _ _ _ _ _ (sn_inv _ _ _ _ _ _ Hs)) as (_ & HT & _).
  pose proof (arrive_spec σ Hσ (Hok σ) T c o sb s0 s1 p Hr (Hg o Ho) HT Hld Hf Hc Ha) as H.
  apply wp_run in H as ([] & sb' & Hrun & _). exists sb'. split; [done|]. by eapply link_arrive.
Qed.
End Link.
