(* ===== verification/TcpExample.v ===== *)
(** * Concrete connections

    The states at which the theorems about TCP are evaluated. *)

From S2P Require Import Prelude Def IpAddr Tcp TcpOut TcpIn TcpFacts TcpStream.
From S2P Require Import TcpOoseq TcpRecv TcpAck TcpReceive TcpOpt TcpOutput TcpSend TcpProcess.
From S2P Require Import TcpMachine TcpInput TcpApp TcpDeliver.

Definition ex_ip (a : Z) : ip_addr := mkIpAddr (mkIp6 a 0 0 0 0) 0.

(** An established connection between ports 80 and 4000: the next number expected is 1000
    and the whole window is announced; everything sent, up to 500, is acknowledged. *)
Definition ex_pcb : tcp_pcb :=
  mkPcb (ex_ip 1) (ex_ip 2) 80 4000 ESTABLISHED 0 0 0 1000 TCP_WND TCP_WND (1000 + TCP_WND) (-1) TCP_MSS 0 0 0 0 3 0 0
    500 4380 TCP_WND 0 500 999 500 500 1000 1000 TCP_SND_BUF 0 0 0 [] [] [] [] false 1 0 0 0 0.

(** A segment with flags [fl], sequence number [sq], acknowledgement [500] and [len] numbers
    of sequence space has arrived for it. *)
Definition ex_arrived (p : tcp_pcb) (fl sq len : Z) : tcp_st :=
  mkSt p 1 (mkSeg 0 0 0 [] 0 0 0 false) sq 500 0 len fl 4000 80 TCP_WND false 0 [] [10] 0 0 None 0 77 [1] [] [] false
    0 false ∅ None [] [] 0 0 [].

(** The peer's stream. *)
Definition ex_stream : list Z := [10; 20; 30; 40; 50].

Lemma ex_pcbs_ok p fl sq len : active_state (state p) = true -> pcbs_ok (ex_arrived p fl sq len).
Proof.
  intros Ha. split.
  - repeat constructor; set_solver.
  - constructor; [|constructor]. by exists (state p).
  - constructor.
Defined.

(** Any control block with these receiver's variables. *)
Lemma ex_rx_inv p : (rcv_nxt p, rcv_wnd p, rcv_ann_wnd p, rcv_ann_right_edge p, mss p, ooseq p) =
    (1000, TCP_WND, TCP_WND, 1000 + TCP_WND, TCP_MSS, []) -> rx_inv ex_stream 1000 0 0 TCP_WND p.
Proof.
  intros [= E1 E2 E3 E4 E5 E6]. split; [|by rewrite E6]. split; [split|]; rewrite ?E1, ?E2, ?E3, ?E4, ?E5.
  - reflexivity.
  - reflexivity.
  - lia.
  - unfold TCP_WND. lia.
  - exists TCP_WND. split; [reflexivity|unfold TCP_WND; lia].
  - unfold TCP_MSS. lia.
  - unfold TCP_WND. lia.
Defined.

Lemma ex_conn_inv fl sq len : conn_inv ex_stream 1000 0 0 TCP_WND (ex_arrived ex_pcb fl sq len).
Proof.
  split; try done; [by apply ex_rx_inv|by apply ex_pcbs_ok|by left].
Defined.

Lemma ex_stream_inv fl sq len : stream_inv ex_stream 1000 0 0 TCP_WND (ex_arrived ex_pcb fl sq len).
Proof. split; [apply ex_conn_inv|done|done]. Defined.

(** What a run leaves behind. *)
Definition result_of {A B} (f : tcp_st -> B) (r : result (A * tcp_st)) : option B :=
  match r with Ok (_, s) => Some (f s) | Fault _ => None end.
