(* ===== verification/Links.v ===== *)
(** * Linked lists

    The structures of type [T] that the code links by their [next] pointers: [links m p l]
    says that following [next] from [p] in the store [m] visits the structures [l] and
    ends in [NULL].  Used for the lists of control blocks. *)

From S2P Require Import Prelude.

Section Links.
Context {T : Type} (next : T -> Z).
Implicit Types (m : gmap Z T) (l : list Z).

Fixpoint links (m : gmap Z T) (p : Z) (l : list Z) : Prop :=
  match l with
  | [] => p = 0
  | q :: l => p = q /\ q <> 0 /\ exists x, m !! q = Some x /\ links m (next x) l
  end.

(** The first structure of the list that passes a test. *)
Fixpoint first_of (m : gmap Z T) (test : Z -> T -> bool) (l : list Z) : Z :=
  match l with
  | [] => 0
  | q :: l => match m !! q with
              | Some x => if test q x then q else first_of m test l
              | None => 0
              end
  end.

Lemma links_lookup m p l q : links m p l -> q ∈ l -> q <> 0 /\ is_Some (m !! q).
Proof.
  revert p. induction l as [|a l IH]; intros p; [by intros _ ?%elem_of_nil|].
  intros (-> & H0 & x & Hx & Hl) [->|Hin]%elem_of_cons; eauto.
Qed.

Lemma links_det m p l1 l2 : links m p l1 -> links m p l2 -> l1 = l2.
Proof.
  revert p l2. induction l1 as [|a l1 IH]; intros p [|b l2]; simpl; try done.
  - by intros -> (<- & ? & _).
  - by intros (<- & ? & _) ->.
  - intros (-> & _ & x & Hx & H1) (-> & _ & y & Hy & H2). rewrite Hx in Hy. simplify_eq.
    f_equal. eauto.
Qed.

Lemma links_suffix m p l1 q l2 : links m p (l1 ++ q :: l2) -> links m q (q :: l2).
Proof.
  revert p. induction l1 as [|a l1 IH]; intros p; [by intros (-> & ?)|].
  intros (_ & _ & x & _ & Hl). by eapply IH.
Qed.

Lemma links_NoDup m p l : links m p l -> NoDup l.
Proof.
  revert p. induction l as [|a l IH]; intros p; [constructor|].
  intros (-> & H0 & x & Hx & Hl). constructor; [|by eapply IH].
  intros (l1 & l2 & ->)%list_elem_of_split. pose proof (links_suffix _ _ _ _ _ Hl) as Hs.
  assert (Ha : links m a (a :: l1 ++ a :: l2)) by (simpl; eauto).
  pose proof (links_det _ _ _ _ Ha Hs) as Heq. apply (f_equal length) in Heq.
  simpl in Heq. rewrite length_app in Heq. simpl in Heq. lia.
Qed.

Lemma links_length m p l : links m p l -> (length l <= size m)%nat.
Proof.
  intros Hl. rewrite <- size_dom, <- (size_list_to_set (C := gset Z) l) by eauto using links_NoDup.
  apply subseteq_size. intros q Hq%elem_of_list_to_set. apply elem_of_dom. by eapply links_lookup.
Qed.

(** Only the [next] fields of the elements matter. *)
Lemma links_ext m m' p l : (forall q, q ∈ l -> next <$> m' !! q = next <$> m !! q) ->
  links m p l -> links m' p l.
Proof.
  revert p. induction l as [|a l IH]; intros p Hf; [done|].
  intros (-> & H0 & x & Hx & Hl). pose proof (Hf a (list_elem_of_here _ _)) as Ha.
  rewrite Hx in Ha. destruct (m' !! a) as [y|] eqn:Hy; [|done]. injection Ha as Ha.
  simpl. split; [done|]. split; [done|]. exists y. split; [done|]. rewrite Ha.
  apply IH; [|done]. intros q Hq. apply Hf. by right.
Qed.

(** A field other than [next] is assigned. *)
Lemma links_update m p l q x y : links m p l -> m !! q = Some x -> next y = next x ->
  links (<[q := y]> m) p l.
Proof.
  intros Hl Hx Hn. eapply links_ext; [|exact Hl]. intros r _. destruct (decide (r = q)) as [->|Hne].
  - rewrite lookup_insert_eq, Hx. simpl. by rewrite Hn.
  - by rewrite lookup_insert_ne.
Qed.

(** [x->next = list; list = x]. *)
Lemma links_push m p l q x : links m p l -> q <> 0 -> q ∉ l -> next x = p ->
  links (<[q := x]> m) q (q :: l).
Proof.
  intros Hl H0 Hq Hn. simpl. split; [done|]. split; [done|]. exists x.
  split; [by rewrite lookup_insert_eq|]. rewrite Hn. eapply links_ext; [|exact Hl].
  intros r Hr. rewrite lookup_insert_ne; [done|]. by intros ->.
Qed.

(** Taking the head off, and an element behind [a]. *)
Lemma links_pop m q x l : links m q (q :: l) -> m !! q = Some x -> links m (next x) l.
Proof. intros (_ & _ & y & Hy & Hl) Hx. rewrite Hx in Hy. by simplify_eq. Qed.

Lemma links_unlink m p l1 a q l2 xa xa' xq : links m p (l1 ++ a :: q :: l2) -> m !! a = Some xa -> m !! q = Some xq ->
  next xa' = next xq -> links (<[a := xa']> m) p (l1 ++ a :: l2).
Proof.
  intros Hl Ha Hq Hn. pose proof (links_NoDup _ _ _ Hl) as Hnd. revert p Hl.
  induction l1 as [|b l1 IH]; intros p; simpl.
  - intros (-> & H0 & x & Hx & <- & H1 & y & Hy & Hl).
    split; [done|]. split; [done|]. exists xa'. split; [by rewrite lookup_insert_eq|].
    rewrite Hq in Hy. simplify_eq. rewrite Hn. eapply links_ext; [|exact Hl].
    intros r Hr. rewrite lookup_insert_ne; [done|]. intros <-.
    simpl in Hnd. apply NoDup_cons in Hnd as [Hnd _]. apply Hnd. by right.
  - intros (-> & H0 & x & Hx & Hl). simpl in Hnd. apply NoDup_cons in Hnd as [Hb Hnd].
    split; [done|]. split; [done|]. exists x. split; [|by apply IH].
    rewrite lookup_insert_ne; [done|]. intros ->. apply Hb. apply elem_of_app. right. by left.
Qed.

Lemma links_delete m p l q : links m p l -> q ∉ l -> links (delete q m) p l.
Proof.
  intros Hl Hq. eapply links_ext; [|exact Hl]. intros r Hr. rewrite lookup_delete_ne; [done|]. by intros ->.
Qed.

(** What the element behind [a] is. *)
Lemma links_behind m p l1 a xa l2 : links m p (l1 ++ a :: l2) -> m !! a = Some xa -> links m (next xa) l2.
Proof. intros Hl Ha. eapply links_pop; [by eapply links_suffix|done]. Qed.

(** ** Searches *)

Lemma first_of_ext m test test' l : (forall q x, q ∈ l -> m !! q = Some x -> test q x = test' q x) ->
  first_of m test l = first_of m test' l.
Proof.
  induction l as [|a l IH]; [done|]. intros Hf. simpl. destruct (m !! a) as [x|] eqn:Hx; [|done].
  rewrite (Hf a x) by (done || by left). destruct (test' a x); [done|]. apply IH.
  intros q y Hq. apply Hf. by right.
Qed.

Lemma first_of_cases m test p l : links m p l ->
  (first_of m test l = 0 /\ forall q x, q ∈ l -> m !! q = Some x -> test q x = false) \/
  (exists q x l1 l2, first_of m test l = q /\ q <> 0 /\ l = l1 ++ q :: l2 /\ m !! q = Some x /\ test q x = true).
Proof.
  revert p. induction l as [|a l IH]; intros p.
  - intros _. left. split; [done|]. by intros q x ?%elem_of_nil.
  - intros (-> & H0 & x & Hx & Hl). simpl. rewrite Hx. destruct (test a x) eqn:Ht.
    + right. exists a, x, [], l. done.
    + destruct (IH _ Hl) as [(Hz & Hno)|(q & y & l1 & l2 & Hq & Hq0 & -> & Hy & Hty)].
      * left. split; [done|]. intros q y [->|Hin]%elem_of_cons Hqy; [by rewrite Hx in Hqy; simplify_eq|eauto].
      * right. exists q, y, (a :: l1), l2. done.
Qed.

(** Looking for an element by its address. *)
Lemma first_of_self m p l q : links m p l -> q <> 0 ->
  (first_of m (fun a _ => q =? a) l =? 0) = negb (bool_decide (q ∈ l)).
Proof.
  intros Hl Hq. destruct (first_of_cases m (fun a _ => q =? a) p l Hl) as [(-> & Hno)|(r & x & l1 & l2 & -> & Hr & -> & Hx & Ht)].
  - rewrite Z.eqb_refl. rewrite bool_decide_eq_false_2; [done|]. intros Hin.
    destruct (links_lookup _ _ _ _ Hl Hin) as (_ & x & Hx). specialize (Hno q x Hin Hx). simpl in Hno. lia.
  - apply Z.eqb_eq in Ht as <-. rewrite bool_decide_eq_true_2 by (apply elem_of_app; right; by left). simpl. lia.
Qed.

End Links.
