(* ===== verification/Net.v ===== *)
(** * The network layer: data and state ([netif.h], [ip.h], [udp.h], [ip4_frag.h])

    What the IP and UDP code works on: the heap of [Pbuf] with the packets in it, the
    [struct netif]s and [struct udp_pcb]s, linked by their [next] pointers as in the
    code, and the global variables.  A structure is named by its address; [NULL] is [0].

    [NetEnv] is what lies outside: the Go callbacks the stack calls
    ([output_export.go], [udp_callback_export.go]) and the entry points of the IPv6
    helper modules, which the IPv4/UDP code only calls. *)

From S2P Require Import Prelude Def IpAddr Pbuf.

(** ** Constants *)

Definition ERR_BUF : Z := -2.
Definition ERR_RTE : Z := -4.
Definition ERR_USE : Z := -8.
Definition ERR_IF : Z := -12.

Definition IP_HLEN : Z := 20.
Definition IP_RF : Z := 32768.
Definition IP_DF : Z := 16384.
Definition IP_MF : Z := 8192.
Definition IP_OFFMASK : Z := 8191.
Definition IP6_HLEN : Z := 40.
Definition UDP_HLEN : Z := 8.
Definition UDP_TTL : Z := 64.

Definition UDP_FLAGS_NOCHKSUM : Z := 1.
Definition UDP_FLAGS_CONNECTED : Z := 4.

Definition NETIF_FLAG_UP : Z := 1.
Definition NETIF_FLAG_BROADCAST : Z := 2.
Definition NETIF_FLAG_LINK_UP : Z := 4.
Definition IP6_ADDR_VALID : Z := 16.
Definition LWIP_IPV6_NUM_ADDRESSES : Z := 3.

(** [flags & bit], as a condition. *)
Definition has_flag (flags bit : Z) : bool := negb (Z.land flags bit =? 0).

(** ** [struct netif] *)

(** The values of [netif->output] and [netif->output_ip6]: the null functions
    [netif_add] installs, those of the loop interface, and the ones of [output.go]. *)
Inductive netif_output_fn := netif_null_output | netif_loop_output_ip | output_ip.

Record netif := mkNetif {
  ni_next : Z;
  ni_ip_addr : ip_addr; ni_netmask : ip_addr; ni_gw : ip_addr;
  ni_ip6_addr : list ip_addr; ni_ip6_addr_state : list Z;
  ni_output : netif_output_fn; ni_output_ip6 : netif_output_fn;
  ni_mtu : Z; ni_mtu6 : Z; ni_flags : Z; ni_num : Z;
  ni_loop_first : Z; ni_loop_last : Z
}.
#[export] Instance netif_fields : Fields netif := fun n =>
  mkNetif (ni_next n) (ni_ip_addr n) (ni_netmask n) (ni_gw n) (ni_ip6_addr n) (ni_ip6_addr_state n)
    (ni_output n) (ni_output_ip6 n) (ni_mtu n) (ni_mtu6 n) (ni_flags n) (ni_num n)
    (ni_loop_first n) (ni_loop_last n).

Definition netif_get_index (n : netif) : Z := u8_t (ni_num n + 1).
Definition netif_ip4_addr (n : netif) : ip4_addr := ip_2_ip4 (ni_ip_addr n).
Definition netif_ip4_netmask (n : netif) : ip4_addr := ip_2_ip4 (ni_netmask n).
Definition netif_is_up (n : netif) : bool := has_flag (ni_flags n) NETIF_FLAG_UP.

(** ** [struct udp_pcb] *)

Record udp_pcb := mkUdp {
  udp_local_ip : ip_addr; udp_remote_ip : ip_addr;
  udp_netif_idx : Z; udp_so_options : Z; udp_tos : Z; udp_ttl : Z;
  udp_next : Z; udp_flags : Z; udp_local_port : Z; udp_remote_port : Z;
  udp_recv_fn : Z; udp_recv_arg : Z
}.
#[export] Instance udp_pcb_fields : Fields udp_pcb := fun p =>
  mkUdp (udp_local_ip p) (udp_remote_ip p) (udp_netif_idx p) (udp_so_options p) (udp_tos p) (udp_ttl p)
    (udp_next p) (udp_flags p) (udp_local_port p) (udp_remote_port p) (udp_recv_fn p) (udp_recv_arg p).

(** [sizeof(struct udp_pcb)] on LP64. *)
Definition MEMP_UDP_PCB_SIZE : Z := 88.

(** ** [struct raw_pcb] *)

Record raw_pcb := mkRaw {
  raw_local_ip : ip_addr; raw_remote_ip : ip_addr;
  raw_netif_idx : Z; raw_so_options : Z; raw_tos : Z; raw_ttl : Z;
  raw_next : Z; raw_protocol : Z; raw_flags : Z;
  raw_recv_fn : Z; raw_recv_arg : Z; raw_chksum_offset : Z; raw_chksum_reqd : Z
}.
#[export] Instance raw_pcb_fields : Fields raw_pcb := fun p =>
  mkRaw (raw_local_ip p) (raw_remote_ip p) (raw_netif_idx p) (raw_so_options p) (raw_tos p) (raw_ttl p)
    (raw_next p) (raw_protocol p) (raw_flags p) (raw_recv_fn p) (raw_recv_arg p)
    (raw_chksum_offset p) (raw_chksum_reqd p).

(** [sizeof(struct raw_pcb)] on LP64. *)
Definition MEMP_RAW_PCB_SIZE : Z := 96.

(** ** Global variables *)

(** [struct ip_globals]; a header pointer is the place of the header in the heap. *)
Record ip_globals := mkIpData {
  current_netif : Z; current_input_netif : Z;
  current_ip4_header : Z * Z; current_ip6_header : Z * Z;
  current_ip_header_tot_len : Z;
  current_iphdr_src : ip_addr; current_iphdr_dest : ip_addr
}.
#[export] Instance ip_globals_fields : Fields ip_globals := fun g =>
  mkIpData (current_netif g) (current_input_netif g) (current_ip4_header g) (current_ip6_header g)
    (current_ip_header_tot_len g) (current_iphdr_src g) (current_iphdr_dest g).

Record net := mkNet {
  n_heap : heap;
  n_netifs : gmap Z netif; netif_list : Z;
  n_udps : gmap Z udp_pcb; udp_pcbs : Z; udp_port : Z;
  n_raws : gmap Z raw_pcb; raw_pcbs : Z;
  ip_id : Z; ip_data : ip_globals
}.
#[export] Instance net_fields : Fields net := fun n =>
  mkNet (n_heap n) (n_netifs n) (netif_list n) (n_udps n) (udp_pcbs n) (udp_port n) (n_raws n) (raw_pcbs n)
    (ip_id n) (ip_data n).

(** ** Accesses *)

(** A function of [pbuf.c], [mem.c] or [inet_chksum.c] called from the network layer. *)
Definition lift {A} (m : M heap A) : M net A := fun n =>
  match m (n_heap n) with
  | Ok (a, h) => Ok (a, n <| n_heap := h |>)
  | Fault f => Fault f
  end.

Definition get_netif (p : Z) : M net netif := fun n =>
  match n_netifs n !! p with Some x => Ok (x, n) | None => Fault BadAccess end.
Definition upd_netif (p : Z) (f : netif -> netif) : M net unit := fun n =>
  match n_netifs n !! p with
  | Some x => Ok (tt, n <| n_netifs := <[p := f x]> (n_netifs n) |>)
  | None => Fault BadAccess
  end.
Definition get_udp (p : Z) : M net udp_pcb := fun n =>
  match n_udps n !! p with Some x => Ok (x, n) | None => Fault BadAccess end.
Definition upd_udp (p : Z) (f : udp_pcb -> udp_pcb) : M net unit := fun n =>
  match n_udps n !! p with
  | Some x => Ok (tt, n <| n_udps := <[p := f x]> (n_udps n) |>)
  | None => Fault BadAccess
  end.

Definition get_raw (p : Z) : M net raw_pcb := fun n =>
  match n_raws n !! p with Some x => Ok (x, n) | None => Fault BadAccess end.
Definition upd_raw (p : Z) (f : raw_pcb -> raw_pcb) : M net unit := fun n =>
  match n_raws n !! p with
  | Some x => Ok (tt, n <| n_raws := <[p := f x]> (n_raws n) |>)
  | None => Fault BadAccess
  end.

(** A linked list has at most as many elements as there are structures of its type. *)
Definition udp_fuel (n : net) : nat := S (size (n_udps n)).
Definition raw_fuel (n : net) : nat := S (size (n_raws n)).
Definition netif_fuel (n : net) : nat := S (size (n_netifs n)).

(** ** The outside *)

Class NetEnv := {
  (** The machine address of a block (checksums depend on its parity). *)
  block_base : Z -> Z;
  (** [output(p)] of [output_export.go], the packet leaving for the tun device. *)
  output : Z -> M net Z;
  (** [pcb->recv(pcb->recv_arg, pcb, p, addr, port, dest_addr, dest_port)]: the
      function, its argument, and the other arguments of the call. *)
  udp_recv_call : Z -> Z -> Z -> Z -> ip_addr -> Z -> ip_addr -> Z -> M net unit;
  (** [pcb->recv(pcb->recv_arg, pcb, p, addr)] of a raw control block. *)
  raw_recv_call : Z -> Z -> Z -> Z -> ip_addr -> M net Z;
  (** [tcp_input(p, inp)], on the state of the TCP layer, which is not part of this one. *)
  tcp_input : Z -> Z -> M net unit;
  (** [ip4_reass(p)], [ip6_reass(p)]: the packet, or [NULL]. *)
  ip4_reass : Z -> M net Z;
  ip6_reass : Z -> M net Z;
  (** [icmp6_input(p, inp)], [icmp6_param_problem(p, c, pointer)]. *)
  icmp6_input : Z -> Z -> M net unit;
  icmp6_param_problem : Z -> Z -> Z * Z -> M net unit;
  (** [ip6_frag], [nd6_get_destination_mtu], [icmp6_dest_unreach]. *)
  ip6_frag : Z -> Z -> ip6_addr -> M net Z;
  nd6_get_destination_mtu : ip6_addr -> Z -> M net Z;
  icmp6_dest_unreach : Z -> Z -> M net unit
}.

(** ** [struct pbuf_custom_ref]: the custom pbufs of [ip4_frag.c] *)

Definition le64 (n : Z) : list Z := le32 n ++ le32 (n / 4294967296).
Definition of_le (l : list Z) : Z := foldr (fun b acc => b + 256 * acc) 0 l.

Definition PCR_ORIGINAL : Z := 32.
Definition MEMP_FRAG_PBUF_SIZE : Z := 40.

(** [ipfrag_free_pbuf_custom], the [custom_free_function] of every custom pbuf: it frees
    the pbuf the fragment refers to (which may be a custom one, hence the fuel). *)
Fixpoint ipfrag_free_pbuf_custom (fuel : nat) (p : Z) : M heap unit :=
  match fuel with
  | O => fail OutOfFuel
  | S fuel =>
      lwip_assert "pcr != NULL" (negb (p =? 0)) ;;;
      let* l := mem_read (p, PCR_ORIGINAL) 8 in
      (if negb (of_le l =? 0) then
         let* _ := pbuf_free (ipfrag_free_pbuf_custom fuel) (of_le l) in ret tt
       else ret tt) ;;;
      memp_free p
  end.
Definition custom_free (p : Z) : M heap unit := fun h => ipfrag_free_pbuf_custom (chain_fuel h) p h.

(** ** Rules *)

Lemma wp_lift {A} (m : M heap A) (Q : A -> net -> Prop) n :
  wp m (fun a h => Q a (n <| n_heap := h |>)) (n_heap n) -> wp (lift m) Q n.
Proof. unfold wp, lift. by destruct (m (n_heap n)) as [[a h]|f]. Qed.
Lemma lift_ok {A} (m : M heap A) n a h : m (n_heap n) = Ok (a, h) -> lift m n = Ok (a, n <| n_heap := h |>).
Proof. unfold lift. by intros ->. Qed.
Lemma lift_heap {A} (m : M heap A) n h a h' : m h = Ok (a, h') -> lift m (n <| n_heap := h |>) = Ok (a, n <| n_heap := h' |>).
Proof. unfold lift. rec_simpl. by intros ->. Qed.
Lemma lift_same {A} (m : M heap A) n a : m (n_heap n) = Ok (a, n_heap n) -> lift m n = Ok (a, n).
Proof. unfold lift. intros ->. by destruct n. Qed.
Lemma get_udp_ok n p x : n_udps n !! p = Some x -> get_udp p n = Ok (x, n).
Proof. unfold get_udp. by intros ->. Qed.
Lemma get_netif_ok n p x : n_netifs n !! p = Some x -> get_netif p n = Ok (x, n).
Proof. unfold get_netif. by intros ->. Qed.
Lemma upd_udp_ok n p x f : n_udps n !! p = Some x ->
  upd_udp p f n = Ok (tt, n <| n_udps := <[p := f x]> (n_udps n) |>).
Proof. unfold upd_udp. by intros ->. Qed.
Lemma get_raw_ok n p x : n_raws n !! p = Some x -> get_raw p n = Ok (x, n).
Proof. unfold get_raw. by intros ->. Qed.
Lemma upd_raw_ok n p x f : n_raws n !! p = Some x ->
  upd_raw p f n = Ok (tt, n <| n_raws := <[p := f x]> (n_raws n) |>).
Proof. unfold upd_raw. by intros ->. Qed.
