(* ===== verification/Netif.v ===== *)
(** * Interfaces and routing ([netif.c], [ip4.c], [ip6.c], [ip4_addr.c], [ip6_zone.h])

    The interface list, its lookups, the loopback queue and the output dispatch.  With
    [TUN2SOCKS] set there is no routing: both [ip4_route] and [ip6_route] answer the
    head of [netif_list]. *)

From S2P Require Import Prelude Def IpAddr Pbuf Ip4Addr Net.

(** ** Addresses and zones *)

(** [ip4_addr_isbroadcast], [ip_addr_isbroadcast] for an interface. *)
Definition netif4_of (n : netif) : netif4 :=
  mkNetif4 (ni_flags n) (netif_ip4_addr n) (netif_ip4_netmask n).
Definition ip4_addr_isbroadcast (a : ip4_addr) (n : netif) : bool :=
  negb (ip4_addr_isbroadcast_u32 a (netif4_of n) =? 0).
Definition ip_addr_isbroadcast (a : ip_addr) (n : netif) : bool :=
  if IP_IS_V6_VAL a then false else ip4_addr_isbroadcast (ip_2_ip4 a) n.

Definition ip6_addr_islinklocal (a : ip6_addr) : bool :=
  Z.land (ip6_w0 a) (PP_HTONL 4290772992) =? PP_HTONL 4269801472.
Definition ip6_addr_ismulticast_iflocal (a : ip6_addr) : bool :=
  Z.land (ip6_w0 a) (PP_HTONL 4287561728) =? PP_HTONL 4278255616.
Definition ip6_addr_ismulticast_linklocal (a : ip6_addr) : bool :=
  Z.land (ip6_w0 a) (PP_HTONL 4287561728) =? PP_HTONL 4278321152.

Inductive lwip_ipv6_scope_type := IP6_UNKNOWN | IP6_UNICAST | IP6_MULTICAST.

Definition ip6_addr_has_scope (a : ip6_addr) (type : lwip_ipv6_scope_type) : bool :=
  ip6_addr_islinklocal a ||
  (match type with IP6_UNICAST => false | _ => true end &&
   (ip6_addr_ismulticast_iflocal a || ip6_addr_ismulticast_linklocal a)).
Definition ip6_addr_set_zone (z : Z) (a : ip6_addr) : ip6_addr :=
  mkIp6 (ip6_w0 a) (ip6_w1 a) (ip6_w2 a) (ip6_w3 a) z.
Definition ip6_addr_has_zone (a : ip6_addr) : bool := negb (ip6_zone a =? 0).
Definition ip6_addr_lacks_zone (a : ip6_addr) (type : lwip_ipv6_scope_type) : bool :=
  negb (ip6_addr_has_zone a) && ip6_addr_has_scope a type.
Definition ip6_addr_assign_zone (type : lwip_ipv6_scope_type) (n : netif) (a : ip6_addr) : ip6_addr :=
  ip6_addr_set_zone (if ip6_addr_has_scope a type then netif_get_index n else 0) a.
Definition ip6_addr_test_zone (a : ip6_addr) (n : netif) : bool := ip6_zone a =? netif_get_index n.

(** [ip_addr_set(dest, src)] for a [src] that is not [NULL]; the same copy as [ip_addr_copy]. *)
Definition ip_addr_set (src : ip_addr) : ip_addr := ip_addr_copy src.
Definition ip6_any : ip6_addr := mkIp6 0 0 0 0 0.
Definition IP4_ADDR_ANY : ip_addr := mkIpAddr ip6_any IPADDR_TYPE_V4.
Definition IP_ANY_TYPE : ip_addr := mkIpAddr ip6_any IPADDR_TYPE_ANY.
(** [ip_addr_set_any]; [ip6_addr_set_any] clears the zone too. *)
Definition ip_addr_set_any (is_ipv6 : bool) : ip_addr :=
  mkIpAddr ip6_any (if is_ipv6 then IPADDR_TYPE_V6 else IPADDR_TYPE_V4).

(** ** The interface list *)

Fixpoint netif_find_from (fuel : nat) (test : netif -> bool) (p : Z) : M net Z :=
  match fuel with
  | O => fail OutOfFuel
  | S fuel =>
      if p =? 0 then ret 0 else
      let* n := get_netif p in
      if test n then ret p else netif_find_from fuel test (ni_next n)
  end.

Definition netif_get_by_index (idx : Z) : M net Z := fun s =>
  if negb (idx =? NETIF_NO_INDEX) then
    netif_find_from (netif_fuel s) (fun n => idx =? netif_get_index n) (netif_list s) s
  else Ok (0, s).

Definition ip4_route (dest : ip4_addr) : M net Z := fun s => Ok (netif_list s, s).
Definition ip6_route (src dest : ip6_addr) : M net Z := fun s => Ok (netif_list s, s).
Definition ip_route (src dest : ip_addr) : M net Z :=
  if IP_IS_V6_VAL dest then ip6_route (ip_2_ip6 src) (ip_2_ip6 dest) else ip4_route (ip_2_ip4 dest).

(** [ip6_addr_select_zone(dest, src)]: the new value of [dest]. *)
Definition ip6_addr_select_zone (dest src : ip6_addr) : M net ip6_addr :=
  let* sel := ip6_route src dest in
  if negb (sel =? 0) then
    let* n := get_netif sel in ret (ip6_addr_assign_zone IP6_UNKNOWN n dest)
  else ret dest.

(** [netif_get_ip6_addr_match]: the index of the first slot that is not invalid and
    holds the address, [-1] if there is none. *)
Fixpoint ip6_addr_match (slots : list (ip_addr * Z)) (a : ip6_addr) (i : Z) : Z :=
  match slots with
  | [] => -1
  | (x, st) :: slots =>
      if negb (st =? 0) && ip6_addr_cmp_zoneless (ip_2_ip6 x) a then i else ip6_addr_match slots a (i + 1)
  end.
Definition netif_get_ip6_addr_match (p : Z) (a : ip6_addr) : M net Z :=
  lwip_assert "netif_get_ip6_addr_match: invalid netif" (negb (p =? 0)) ;;;
  let* n := get_netif p in
  if ip6_addr_has_zone a && negb (ip6_addr_test_zone a n) then ret (-1)
  else ret (ip6_addr_match (zip (ni_ip6_addr n) (ni_ip6_addr_state n)) a 0).

(** ** Loopback *)

Section Output.
Context `{Malloc} `{NetEnv}.

Fixpoint pbuf_last (fuel : nat) (last : Z) : M heap Z :=
  match fuel with
  | O => fail OutOfFuel
  | S fuel =>
      let* b := get_pbuf last in
      if negb (pb_next b =? 0) then pbuf_last fuel (pb_next b) else ret last
  end.

Definition netif_loop_output (nif p : Z) : M net Z :=
  lwip_assert "netif_loop_output: invalid netif" (negb (nif =? 0)) ;;;
  lwip_assert "netif_loop_output: invalid pbuf" (negb (p =? 0)) ;;;
  let* b := lift (get_pbuf p) in
  let* r := lift (pbuf_alloc custom_free PBUF_LINK (pb_tot_len b) PBUF_RAM) in
  if r =? 0 then ret ERR_MEM else
  let* err := lift (pbuf_copy r p) in
  if negb (err =? ERR_OK) then let* _ := lift (pbuf_free custom_free r) in ret err else
  let* last := lift (fun h => pbuf_last (chain_fuel h) r h) in
  let* n := get_netif nif in
  (if negb (ni_loop_first n =? 0) then
     lwip_assert "if first != NULL, last must also be != NULL" (negb (ni_loop_last n =? 0)) ;;;
     lift (upd_pbuf (ni_loop_last n) (set_next r)) ;;;
     upd_netif nif (fun n => n <| ni_loop_last := last |>)
   else
     upd_netif nif (fun n => n <| ni_loop_first := r |> <| ni_loop_last := last |>)) ;;;
  ret ERR_OK.

(** [netif->output(netif, p, dest)] and [netif->output_ip6(netif, p, dest)]: none of the
    functions installed looks at [dest]. *)
Definition netif_output (fn : netif_output_fn) (nif p : Z) : M net Z :=
  match fn with
  | netif_null_output => ret ERR_IF
  | netif_loop_output_ip => netif_loop_output nif p
  | output_ip => output p
  end.

End Output.
