(* ===== verification/IpOut.v ===== *)
(** * IP output and ICMP errors ([core/ipv4/ip4.c], [core/ipv6/ip6.c], [core/ipv4/icmp.c])

    From a transport-layer packet to the call of [netif->output].  The IPv4 header is
    written field by field and its checksum accumulated on the way
    ([CHECKSUM_GEN_IP_INLINE]); [IP_OPTIONS_SEND] is off.  First [ip4_frag]
    ([core/ipv4/ip4_frag.c]), which cuts up a packet that is too long.  A null address is [None]. *)

From S2P Require Import Prelude Def IpAddr Pbuf InetChksum Net Netif.

(** ** [struct ip_hdr]: field offsets ([prot/ip4.h]) *)

Definition IPH_VHL_OFF : Z := 0.
Definition IPH_TOS_OFF : Z := 1.
Definition IPH_LEN_OFF : Z := 2.
Definition IPH_ID_OFF : Z := 4.
Definition IPH_OFFSET_OFF : Z := 6.
Definition IPH_TTL_OFF : Z := 8.
Definition IPH_PROTO_OFF : Z := 9.
Definition IPH_CHKSUM_OFF : Z := 10.
Definition IPH_SRC_OFF : Z := 12.
Definition IPH_DEST_OFF : Z := 16.

(** The field of [n] bytes at [off], as a host integer. *)
Definition hdr_read (hdr : Z * Z) (off n : Z) : M heap Z :=
  let* l := mem_read (ptr_add hdr off) n in ret (of_le l).
Definition hdr_write (hdr : Z * Z) (off : Z) (bytes : list Z) : M heap unit :=
  mem_write (ptr_add hdr off) bytes.

Definition IPH_V (vhl : Z) : Z := Z.shiftr vhl 4.
Definition IPH_HL_BYTES (vhl : Z) : Z := u8_t (Z.land vhl 15 * 4).

Section Frag.
Context `{Malloc} `{NetEnv}.

Definition ip_frag_alloc_pbuf_custom_ref : M heap Z := memp_malloc MEMP_FRAG_PBUF_SIZE.
Definition ip_frag_free_pbuf_custom_ref (p : Z) : M heap unit :=
  lwip_assert "p != NULL" (negb (p =? 0)) ;;; memp_free p.

(** [while (left_to_copy)]: the pbufs that mirror [left_to_copy] bytes of the packet,
    from [poff] in [p] on, are appended to [rambuf]; the answer is the new [p] and
    [poff], or [None] after [goto memerr]. *)
Fixpoint ip4_frag_copy (fuel : nat) (rambuf p poff left_to_copy newpbuflen : Z) : M heap (option (Z * Z)) :=
  match fuel with
  | O => fail OutOfFuel
  | S fuel =>
      if left_to_copy =? 0 then ret (Some (p, u16_t (poff + newpbuflen))) else
      let* b := get_pbuf p in
      let plen := u16_t (pb_len b - poff) in
      lwip_assert "p->len >= poff" (poff <=? pb_len b) ;;;
      let newpbuflen := Z.min left_to_copy plen in
      if newpbuflen =? 0 then ip4_frag_copy fuel rambuf (pb_next b) 0 left_to_copy newpbuflen else
      let* pcr := ip_frag_alloc_pbuf_custom_ref in
      if pcr =? 0 then let* _ := pbuf_free custom_free rambuf in ret None else
      let* newpbuf := pbuf_alloced_custom PBUF_RAW newpbuflen PBUF_REF pcr
                        (ptr_add (pb_payload b) poff) newpbuflen in
      if newpbuf =? 0 then
        ip_frag_free_pbuf_custom_ref pcr ;;;
        let* _ := pbuf_free custom_free rambuf in ret None
      else
      pbuf_ref p ;;;
      mem_write (pcr, PCR_ORIGINAL) (le64 p) ;;;
      pbuf_cat rambuf newpbuf ;;;
      let left_to_copy := u16_t (left_to_copy - newpbuflen) in
      if negb (left_to_copy =? 0) then ip4_frag_copy fuel rambuf (pb_next b) 0 left_to_copy newpbuflen
      else ip4_frag_copy fuel rambuf p poff left_to_copy newpbuflen
  end.

(** The header of a fragment: offset and flags, length, checksum. *)
Definition ip4_frag_header (iphdr : Z * Z) (tmp fragsize : Z) : M heap unit :=
  hdr_write iphdr IPH_OFFSET_OFF (le16 (lwip_htons tmp)) ;;;
  hdr_write iphdr IPH_LEN_OFF (le16 (lwip_htons (u16_t (fragsize + IP_HLEN)))) ;;;
  hdr_write iphdr IPH_CHKSUM_OFF (le16 0) ;;;
  let* hdr := mem_read iphdr IP_HLEN in
  hdr_write iphdr IPH_CHKSUM_OFF (le16 (inet_chksum (address block_base iphdr) hdr)).

(** [while (left)]: one fragment per round. *)
Fixpoint ip4_frag_loop (fuel : nat) (nif nfb mf_set : Z) (original_iphdr : Z * Z)
    (p poff left ofo : Z) : M net Z :=
  match fuel with
  | O => fail OutOfFuel
  | S fuel =>
      if left =? 0 then ret ERR_OK else
      let fragsize := Z.min left (u16_t (nfb * 8)) in
      let* rambuf := lift (pbuf_alloc custom_free PBUF_LINK IP_HLEN PBUF_RAM) in
      if rambuf =? 0 then ret ERR_MEM else
      let* rb := lift (get_pbuf rambuf) in
      lwip_assert "this needs a pbuf in one piece!" (IP_HLEN <=? pb_len rb) ;;;
      let* hdr := lift (mem_read original_iphdr IP_HLEN) in
      lift (mem_write (pb_payload rb) hdr) ;;;
      let iphdr := pb_payload rb in
      let* r := lift (fun h => ip4_frag_copy (Z.to_nat fragsize + chain_fuel h) rambuf p poff fragsize 0 h) in
      match r with
      | None => ret ERR_MEM
      | Some (p, poff) =>
          let* n := get_netif nif in
          let last := left <=? ni_mtu n - IP_HLEN in
          let tmp := Z.land IP_OFFMASK ofo in
          let tmp := if negb last || negb (mf_set =? 0) then Z.lor tmp IP_MF else tmp in
          lift (ip4_frag_header iphdr tmp fragsize) ;;;
          let* _ := netif_output (ni_output n) nif rambuf in
          let* _ := lift (pbuf_free custom_free rambuf) in
          ip4_frag_loop fuel nif nfb mf_set original_iphdr p poff (u16_t (left - fragsize)) (u16_t (ofo + nfb))
      end
  end.

Definition ip4_frag (p nif : Z) : M net Z :=
  let* n := get_netif nif in
  let nfb := u16_t (Z.quot (ni_mtu n - IP_HLEN) 8) in
  let* b := lift (get_pbuf p) in
  let original_iphdr := pb_payload b in
  let* vhl := lift (hdr_read original_iphdr IPH_VHL_OFF 1) in
  if negb (IPH_HL_BYTES vhl =? IP_HLEN) then ret ERR_VAL else
  lwip_assert "ip4_frag(): pbuf too short" (IP_HLEN <=? pb_len b) ;;;
  let* o := lift (hdr_read original_iphdr IPH_OFFSET_OFF 2) in
  let tmp := lwip_ntohs o in
  let ofo := Z.land tmp IP_OFFMASK in
  let mf_set := Z.land tmp IP_MF in
  let left := u16_t (pb_tot_len b - IP_HLEN) in
  ip4_frag_loop (S (Z.to_nat left)) nif nfb mf_set original_iphdr p IP_HLEN left ofo.

End Frag.

Section IpOut.
Context `{Malloc} `{NetEnv}.

(** ** IPv4 *)

(** The header of [ip4_output_if_src] for [dest != LWIP_IP_HDRINCL]; the packet already
    has room for it. *)
Definition ip4_write_header (iphdr : Z * Z) (tot_len : Z) (src : option ip4_addr) (dest : ip4_addr)
    (ttl tos proto id : Z) : M heap unit :=
  hdr_write iphdr IPH_TTL_OFF [u8_t ttl] ;;;
  hdr_write iphdr IPH_PROTO_OFF [u8_t proto] ;;;
  let chk_sum := u32_t (PP_HTONS (Z.lor proto (Z.shiftl ttl 8))) in
  hdr_write iphdr IPH_DEST_OFF (le32 dest) ;;;
  let chk_sum := u32_t (chk_sum + Z.land dest 65535) in
  let chk_sum := u32_t (chk_sum + Z.shiftr dest 16) in
  let vhl := u8_t (Z.lor (Z.shiftl 4 4) (IP_HLEN / 4)) in
  hdr_write iphdr IPH_VHL_OFF [vhl] ;;;
  hdr_write iphdr IPH_TOS_OFF [tos] ;;;
  let chk_sum := u32_t (chk_sum + PP_HTONS (Z.lor tos (Z.shiftl vhl 8))) in
  hdr_write iphdr IPH_LEN_OFF (le16 (lwip_htons tot_len)) ;;;
  let chk_sum := u32_t (chk_sum + lwip_htons tot_len) in
  hdr_write iphdr IPH_OFFSET_OFF (le16 0) ;;;
  hdr_write iphdr IPH_ID_OFF (le16 (lwip_htons id)) ;;;
  let chk_sum := u32_t (chk_sum + lwip_htons id) in
  let src := match src with Some src => src | None => IPADDR_ANY end in
  hdr_write iphdr IPH_SRC_OFF (le32 src) ;;;
  let chk_sum := u32_t (chk_sum + Z.land src 65535) in
  let chk_sum := u32_t (chk_sum + Z.shiftr src 16) in
  let chk_sum := u32_t (Z.shiftr chk_sum 16 + Z.land chk_sum 65535) in
  let chk_sum := u32_t (Z.shiftr chk_sum 16 + chk_sum) in
  let chk_sum := u32_t (Z.lnot chk_sum) in
  hdr_write iphdr IPH_CHKSUM_OFF (le16 (u16_t chk_sum)).

(** What [ip4_output_if_src] does with the finished packet. *)
Definition ip4_output_packet (p : Z) (dest : ip4_addr) (nif : Z) : M net Z :=
  let* n := get_netif nif in
  if dest =? netif_ip4_addr n then netif_loop_output nif p else
  let* b := lift (get_pbuf p) in
  if negb (ni_mtu n =? 0) && (ni_mtu n <? pb_tot_len b) then ip4_frag p nif
  else netif_output (ni_output n) nif p.

Definition ip4_output_if_src (p : Z) (src dest : option ip4_addr) (ttl tos proto nif : Z) : M net Z :=
  let* b := lift (get_pbuf p) in
  lwip_assert "p->ref == 1" (pb_ref b =? 1) ;;;
  match dest with
  | Some dest =>
      let* r := lift (pbuf_add_header p IP_HLEN) in
      if negb (r =? 0) then ret ERR_BUF else
      let* b := lift (get_pbuf p) in
      lwip_assert "check that first pbuf can hold struct ip_hdr" (IP_HLEN <=? pb_len b) ;;;
      let* n := get in
      lift (ip4_write_header (pb_payload b) (pb_tot_len b) src dest ttl tos proto (ip_id n)) ;;;
      modify (fun n => n <| ip_id := u16_t (ip_id n + 1) |>) ;;;
      ip4_output_packet p dest nif
  | None =>
      if pb_len b <? IP_HLEN then ret ERR_BUF else
      let* dest := lift (hdr_read (pb_payload b) IPH_DEST_OFF 4) in
      ip4_output_packet p dest nif
  end.

Definition ip4_output_if (p : Z) (src dest : option ip4_addr) (ttl tos proto nif : Z) : M net Z :=
  let* n := get_netif nif in
  let src_used :=
    match dest with
    | Some _ =>
        if match src with None => true | Some a => ip4_addr_isany_val a end
        then Some (netif_ip4_addr n) else src
    | None => src
    end in
  ip4_output_if_src p src_used dest ttl tos proto nif.

(** A route for the packet first; [ip4_route] does not look at the destination, which may
    be [NULL] ([LWIP_IP_HDRINCL]). *)
Definition ip4_output (p : Z) (src dest : option ip4_addr) (ttl tos proto : Z) : M net Z :=
  let* b := lift (get_pbuf p) in
  lwip_assert "p->ref == 1" (pb_ref b =? 1) ;;;
  let* nif := ip4_route (default IPADDR_ANY dest) in
  if nif =? 0 then ret ERR_RTE else ip4_output_if p src dest ttl tos proto nif.

(** ** IPv6 *)

Definition IP6_NEXTH_OFF : Z := 6.
Definition IP6_HOPLIM_OFF : Z := 7.
Definition IP6_PLEN_OFF : Z := 4.
Definition IP6_SRC_OFF : Z := 8.
Definition IP6_DEST_OFF : Z := 24.

Definition ip6_write_header (ip6hdr : Z * Z) (tot_len : Z) (src dest : ip6_addr) (hl tc nexth : Z) : M heap unit :=
  hdr_write ip6hdr IP6_HOPLIM_OFF [u8_t hl] ;;;
  hdr_write ip6hdr IP6_NEXTH_OFF [nexth] ;;;
  hdr_write ip6hdr IP6_DEST_OFF (ip6_bytes dest) ;;;
  hdr_write ip6hdr 0 (le32 (lwip_htonl (Z.lor (Z.shiftl 6 28) (Z.shiftl tc 20)))) ;;;
  hdr_write ip6hdr IP6_PLEN_OFF (le16 (lwip_htons (u16_t (tot_len - IP6_HLEN)))) ;;;
  hdr_write ip6hdr IP6_SRC_OFF (ip6_bytes src).

(** The addresses of the interface that count as "to self". *)
Definition ip6_addr_own (n : netif) (dest : ip6_addr) : bool :=
  existsb (fun x => has_flag x.2 IP6_ADDR_VALID && ip6_addr_cmp dest (ip_2_ip6 x.1))
    (zip (ni_ip6_addr n) (ni_ip6_addr_state n)).

(** What [ip6_output_if_src] does with the finished packet. *)
Definition ip6_output_packet (p : Z) (dest : ip6_addr) (nif : Z) : M net Z :=
  let* n := get_netif nif in
  if ip6_addr_own n dest then netif_loop_output nif p else
  let* too_big := (if negb (ni_mtu6 n =? 0) then
                     let* b := lift (get_pbuf p) in
                     let* mtu := nd6_get_destination_mtu dest nif in ret (mtu <? pb_tot_len b)
                   else ret false) in
  if too_big then ip6_frag p nif dest
  else netif_output (ni_output_ip6 n) nif p.

(** [ip6_addr_copy_from_packed]: an address in a header, without a zone. *)
Definition read_ip6 (hdr : Z * Z) (off : Z) : M heap ip6_addr :=
  let* w0 := hdr_read hdr off 4 in
  let* w1 := hdr_read hdr (off + 4) 4 in
  let* w2 := hdr_read hdr (off + 8) 4 in
  let* w3 := hdr_read hdr (off + 12) 4 in
  ret (mkIp6 w0 w1 w2 w3 0).

Definition ip6_output_if_src (p : Z) (src dest : option ip6_addr) (hl tc nexth nif : Z) : M net Z :=
  let* b := lift (get_pbuf p) in
  lwip_assert "p->ref == 1" (pb_ref b =? 1) ;;;
  let* n := get_netif nif in
  match dest with
  | Some dest =>
      let dest := if ip6_addr_lacks_zone dest IP6_UNKNOWN then ip6_addr_assign_zone IP6_UNKNOWN n dest else dest in
      let* r := lift (pbuf_add_header p IP6_HLEN) in
      if negb (r =? 0) then ret ERR_BUF else
      let* b := lift (get_pbuf p) in
      lwip_assert "check that first pbuf can hold struct ip6_hdr" (IP6_HLEN <=? pb_len b) ;;;
      let src := match src with Some src => src | None => ip6_any end in
      lift (ip6_write_header (pb_payload b) (pb_tot_len b) src dest hl tc nexth) ;;;
      ip6_output_packet p dest nif
  | None =>
      let* dest := lift (read_ip6 (pb_payload b) IP6_DEST_OFF) in
      ip6_output_packet p (ip6_addr_assign_zone IP6_UNKNOWN n dest) nif
  end.

(** ** Both *)

Definition ip_output_if_src (p : Z) (src dest : ip_addr) (ttl tos proto nif : Z) : M net Z :=
  if IP_IS_V6_VAL dest then ip6_output_if_src p (Some (ip_2_ip6 src)) (Some (ip_2_ip6 dest)) ttl tos proto nif
  else ip4_output_if_src p (Some (ip_2_ip4 src)) (Some (ip_2_ip4 dest)) ttl tos proto nif.

(** ** ICMP errors *)

Definition ICMP_DUR : Z := 3.
Definition ICMP_TE : Z := 11.
Definition ICMP_DUR_PROTO : Z := 2.
Definition ICMP_DUR_PORT : Z := 3.
Definition ICMP_TTL : Z := 64.
Definition ICMP_HLEN : Z := 8.
Definition ICMP_DEST_UNREACH_DATASIZE : Z := 8.

Definition icmp_send_response (p type code : Z) : M net unit :=
  let* q := lift (pbuf_alloc custom_free PBUF_IP (ICMP_HLEN + IP_HLEN + ICMP_DEST_UNREACH_DATASIZE) PBUF_RAM) in
  if q =? 0 then ret tt else
  let* qb := lift (get_pbuf q) in
  lwip_assert "check that first pbuf can hold icmp message"
    (ICMP_HLEN + IP_HLEN + ICMP_DEST_UNREACH_DATASIZE <=? pb_len qb) ;;;
  let* b := lift (get_pbuf p) in
  let iphdr := pb_payload b in
  let icmphdr := pb_payload qb in
  lift (hdr_write icmphdr 0 [type]) ;;;
  lift (hdr_write icmphdr 1 [code]) ;;;
  lift (hdr_write icmphdr 4 (le16 0)) ;;;
  lift (hdr_write icmphdr 6 (le16 0)) ;;;
  let* orig := lift (mem_read iphdr (IP_HLEN + ICMP_DEST_UNREACH_DATASIZE)) in
  lift (mem_write (ptr_add icmphdr ICMP_HLEN) orig) ;;;
  let* iphdr_src := lift (hdr_read iphdr IPH_SRC_OFF 4) in
  let* nif := ip4_route iphdr_src in
  (if negb (nif =? 0) then
     lift (hdr_write icmphdr 2 (le16 0)) ;;;
     let* data := lift (mem_read icmphdr (pb_len qb)) in
     lift (hdr_write icmphdr 2 (le16 (inet_chksum (address block_base icmphdr) data))) ;;;
     let* _ := ip4_output_if q None (Some iphdr_src) ICMP_TTL 0 IP_PROTO_ICMP nif in ret tt
   else ret tt) ;;;
  let* _ := lift (pbuf_free custom_free q) in ret tt.

Definition icmp_dest_unreach (p t : Z) : M net unit := icmp_send_response p ICMP_DUR t.
Definition icmp_time_exceeded (p t : Z) : M net unit := icmp_send_response p ICMP_TE t.

(** [icmp_port_unreach(isipv6, pbuf)] ([icmp.h]); [ICMP6_DUR_PORT] is 4. *)
Definition ICMP6_DUR_PORT : Z := 4.
Definition icmp_port_unreach (isipv6 : bool) (p : Z) : M net unit :=
  if isipv6 then icmp6_dest_unreach p ICMP6_DUR_PORT else icmp_dest_unreach p ICMP_DUR_PORT.

End IpOut.
