(* ===== verification/Ip6Src.v ===== *)
(** * IPv6 scopes and source address selection ([ip6_addr.h], [core/ipv6/ip6.c]) *)

From S2P Require Import Prelude Def IpAddr Pbuf Net Netif IpOut.

(** ** Predicates on addresses *)

Definition ip6_addr_isglobal (a : ip6_addr) : bool :=
  Z.land (ip6_w0 a) (PP_HTONL 3758096384) =? PP_HTONL 536870912.
Definition ip6_addr_issitelocal (a : ip6_addr) : bool :=
  Z.land (ip6_w0 a) (PP_HTONL 4290772992) =? PP_HTONL 4273995776.
Definition ip6_addr_isuniquelocal (a : ip6_addr) : bool :=
  Z.land (ip6_w0 a) (PP_HTONL 4261412864) =? PP_HTONL 4227858432.
Definition ip6_addr_isloopback (a : ip6_addr) : bool :=
  (ip6_w0 a =? 0) && (ip6_w1 a =? 0) && (ip6_w2 a =? 0) && (ip6_w3 a =? PP_HTONL 1).
Definition ip6_addr_multicast_scope (a : ip6_addr) : Z :=
  Z.land (Z.shiftr (lwip_htonl (ip6_w0 a)) 16) 15.
Definition ip6_addr_isallnodes_iflocal (a : ip6_addr) : bool :=
  (ip6_w0 a =? PP_HTONL 4278255616) && (ip6_w1 a =? 0) && (ip6_w2 a =? 0) && (ip6_w3 a =? PP_HTONL 1).
Definition ip6_addr_isallnodes_linklocal (a : ip6_addr) : bool :=
  (ip6_w0 a =? PP_HTONL 4278321152) && (ip6_w1 a =? 0) && (ip6_w2 a =? 0) && (ip6_w3 a =? PP_HTONL 1).
Definition ip6_addr_issolicitednode (a : ip6_addr) : bool :=
  (ip6_w0 a =? PP_HTONL 4278321152) && (ip6_w2 a =? PP_HTONL 1) &&
  (Z.land (ip6_w3 a) (PP_HTONL 4278190080) =? PP_HTONL 4278190080).
Definition ip6_addr_cmp_solicitednode (a sn : ip6_addr) : bool :=
  (ip6_w0 a =? PP_HTONL 4278321152) && (ip6_w1 a =? 0) && (ip6_w2 a =? PP_HTONL 1) &&
  (ip6_w3 a =? Z.lor (PP_HTONL 4278190080) (ip6_w3 sn)).
Definition ip6_addr_netcmp_zoneless (a b : ip6_addr) : bool := (ip6_w0 a =? ip6_w0 b) && (ip6_w1 a =? ip6_w1 b).
Definition ip6_addr_nethostcmp (a b : ip6_addr) : bool := (ip6_w2 a =? ip6_w2 b) && (ip6_w3 a =? ip6_w3 b).

Definition IP6_MULTICAST_SCOPE_RESERVED : Z := 0.
Definition IP6_MULTICAST_SCOPE_LINK_LOCAL : Z := 2.
Definition IP6_MULTICAST_SCOPE_SITE_LOCAL : Z := 5.
Definition IP6_MULTICAST_SCOPE_ORGANIZATION_LOCAL : Z := 8.
Definition IP6_MULTICAST_SCOPE_GLOBAL : Z := 14.
Definition IP6_MULTICAST_SCOPE_RESERVEDF : Z := 15.
Definition IP6_ADDR_PREFERRED : Z := 48.

Definition ip6_addr_isvalid (state : Z) : bool := has_flag state IP6_ADDR_VALID.
Definition ip6_addr_ispreferred (state : Z) : bool := state =? IP6_ADDR_PREFERRED.

(** ** [ip6_select_source_address] *)

Definition ip6_dest_scope (dest : ip6_addr) : Z :=
  if ip6_addr_isglobal dest then IP6_MULTICAST_SCOPE_GLOBAL
  else if ip6_addr_islinklocal dest || ip6_addr_isloopback dest then IP6_MULTICAST_SCOPE_LINK_LOCAL
  else if ip6_addr_isuniquelocal dest then IP6_MULTICAST_SCOPE_ORGANIZATION_LOCAL
  else if ip6_addr_ismulticast dest then ip6_addr_multicast_scope dest
  else if ip6_addr_issitelocal dest then IP6_MULTICAST_SCOPE_SITE_LOCAL
  else IP6_MULTICAST_SCOPE_GLOBAL.
Definition ip6_cand_scope (cand : ip6_addr) : Z :=
  if ip6_addr_isglobal cand then IP6_MULTICAST_SCOPE_GLOBAL
  else if ip6_addr_islinklocal cand then IP6_MULTICAST_SCOPE_LINK_LOCAL
  else if ip6_addr_isuniquelocal cand then IP6_MULTICAST_SCOPE_ORGANIZATION_LOCAL
  else if ip6_addr_issitelocal cand then IP6_MULTICAST_SCOPE_SITE_LOCAL
  else IP6_MULTICAST_SCOPE_RESERVEDF.

(** The best candidate so far: address, scope, preference and matching bits. *)
Record ip6_best := mkBest { best_addr : option ip_addr; best_scope : Z; best_pref : Z; best_bits : Z }.

(** The candidate replaces the best one (rules 2, 3 and 8). *)
Definition ip6_cand_wins (dest_scope : Z) (b : ip6_best) (cand_scope cand_pref cand_bits : Z) : bool :=
  match best_addr b with None => true | Some _ => false end ||
  ((cand_scope <? best_scope b) && (dest_scope <=? cand_scope)) ||
  ((best_scope b <? cand_scope) && (best_scope b <? dest_scope)) ||
  ((cand_scope =? best_scope b) &&
   ((best_pref b <? cand_pref) || ((cand_pref =? best_pref b) && (best_bits b <? cand_bits)))).

(** The loop over the address slots. *)
Fixpoint ip6_select_loop (slots : list (ip_addr * Z)) (dest : ip6_addr) (dest_scope : Z) (b : ip6_best) : option ip_addr :=
  match slots with
  | [] => best_addr b
  | (x, state) :: slots =>
      if negb (ip6_addr_isvalid state) then ip6_select_loop slots dest dest_scope b else
      let cand := ip_2_ip6 x in
      let cand_scope := ip6_cand_scope cand in
      let cand_pref := Z.b2z (ip6_addr_ispreferred state) in
      let cand_bits := Z.b2z (ip6_addr_netcmp_zoneless cand dest) in
      if negb (cand_bits =? 0) && ip6_addr_nethostcmp cand dest then Some x else
      if ip6_cand_wins dest_scope b cand_scope cand_pref cand_bits
      then ip6_select_loop slots dest dest_scope (mkBest (Some x) cand_scope cand_pref cand_bits)
      else ip6_select_loop slots dest dest_scope b
  end.

Definition ip6_slots (n : netif) : list (ip_addr * Z) := zip (ni_ip6_addr n) (ni_ip6_addr_state n).

Definition ip6_select_source_address (nif : netif) (dest : ip6_addr) : option ip_addr :=
  ip6_select_loop (ip6_slots nif) dest (ip6_dest_scope dest) (mkBest None IP6_MULTICAST_SCOPE_RESERVED 0 0).

(** ** Output with a source address to be chosen *)

Section Ip6Output.
Context `{Malloc} `{NetEnv}.

Definition ip6_output_if (p : Z) (src dest : option ip6_addr) (hl tc nexth nif : Z) : M net Z :=
  match src, dest with
  | Some a, Some d =>
      if ip6_addr_isany_val a then
        let* n := get_netif nif in
        match ip6_select_source_address n d with
        | Some a => if ip6_addr_isany_val (ip_2_ip6 a) then ret ERR_RTE
                    else ip6_output_if_src p (Some (ip_2_ip6 a)) dest hl tc nexth nif
        | None => ret ERR_RTE
        end
      else ip6_output_if_src p src dest hl tc nexth nif
  | _, _ => ip6_output_if_src p src dest hl tc nexth nif
  end.

(** A route for the packet first; with [LWIP_IP_HDRINCL] its header names the addresses. *)
Definition ip6_output (p : Z) (src dest : option ip6_addr) (hl tc nexth : Z) : M net Z :=
  let* b := lift (get_pbuf p) in
  lwip_assert "p->ref == 1" (pb_ref b =? 1) ;;;
  let* nif := match dest with
              | Some d => ip6_route (default ip6_any src) d
              | None => let* s := lift (read_ip6 (pb_payload b) IP6_SRC_OFF) in
                        let* d := lift (read_ip6 (pb_payload b) IP6_DEST_OFF) in
                        ip6_route s d
              end in
  if nif =? 0 then ret ERR_RTE else ip6_output_if p src dest hl tc nexth nif.

Definition ip_output_if (p : Z) (src dest : ip_addr) (ttl tos proto nif : Z) : M net Z :=
  if IP_IS_V6_VAL dest then ip6_output_if p (Some (ip_2_ip6 src)) (Some (ip_2_ip6 dest)) ttl tos proto nif
  else ip4_output_if p (Some (ip_2_ip4 src)) (Some (ip_2_ip4 dest)) ttl tos proto nif.

(** [ip_output_if_hdrincl]: the packet holds its header. *)
Definition ip_output_if_hdrincl (p : Z) (src dest : ip_addr) (nif : Z) : M net Z :=
  if IP_IS_V6_VAL dest then ip6_output_if p (Some (ip_2_ip6 src)) None 0 0 0 nif
  else ip4_output_if p (Some (ip_2_ip4 src)) None 0 0 0 nif.

Definition ip_netif_get_local_ip (nif : Z) (dest : ip_addr) : M net (option ip_addr) :=
  let* n := get_netif nif in
  ret (if IP_IS_V6_VAL dest then ip6_select_source_address n (ip_2_ip6 dest) else Some (ni_ip_addr n)).

End Ip6Output.

(** ** What is selected *)

Lemma ip6_cmp_words a b : ip6_addr_netcmp_zoneless a b && ip6_addr_nethostcmp a b = ip6_addr_cmp_zoneless a b.
Proof. unfold ip6_addr_netcmp_zoneless, ip6_addr_nethostcmp, ip6_addr_cmp_zoneless. by rewrite <- !andb_assoc. Qed.

Lemma ip6_rule1 a dest : negb (Z.b2z (ip6_addr_netcmp_zoneless a dest) =? 0) && ip6_addr_nethostcmp a dest = ip6_addr_cmp_zoneless a dest.
Proof. rewrite <- ip6_cmp_words. by destruct (ip6_addr_netcmp_zoneless a dest). Qed.

(** RFC 6724 as one number.  The destination itself comes first (rule 1); then the scope,
    the smallest one that contains the destination's, or else the largest one (rule 2); then
    preferred before deprecated addresses (rule 3); then the longer matching prefix (rule 8,
    which the code cuts down to the first 64 bits). *)
Definition scope_rank (dest_scope s : Z) : Z := if dest_scope <=? s then 31 - s else s.
Definition cand_key (dest_scope s pref bits : Z) : Z := 4 * scope_rank dest_scope s + 2 * pref + bits.
Definition source_key (dest : ip6_addr) (slot : ip_addr * Z) : Z :=
  let a := ip_2_ip6 slot.1 in
  if ip6_addr_cmp_zoneless a dest then 128
  else cand_key (ip6_dest_scope dest) (ip6_cand_scope a) (Z.b2z (ip6_addr_ispreferred slot.2))
         (Z.b2z (ip6_addr_netcmp_zoneless a dest)).

Lemma ip6_cand_scope_range a : 0 <= ip6_cand_scope a <= 15.
Proof. unfold ip6_cand_scope. repeat case_match; by vm_compute. Qed.
Lemma b2z_range c : 0 <= Z.b2z c <= 1.
Proof. by destruct c. Qed.
Lemma cand_key_range d a c c' : cand_key d (ip6_cand_scope a) (Z.b2z c) (Z.b2z c') < 128.
Proof.
  pose proof (ip6_cand_scope_range a). pose proof (b2z_range c). pose proof (b2z_range c').
  unfold cand_key, scope_rank. destruct (_ <=? _); lia.
Qed.

(** The three rules of the loop compare keys. *)
Lemma ip6_cand_wins_key d b s pref bits : best_addr b <> None -> 0 <= s <= 15 -> 0 <= best_scope b <= 15 ->
  0 <= pref <= 1 -> 0 <= bits <= 1 -> 0 <= best_pref b <= 1 -> 0 <= best_bits b <= 1 ->
  ip6_cand_wins d b s pref bits = (cand_key d (best_scope b) (best_pref b) (best_bits b) <? cand_key d s pref bits).
Proof.
  intros Hb ? ? ? ? ? ?. unfold ip6_cand_wins, cand_key, scope_rank. destruct (best_addr b); [|done]. cbn [orb].
  apply eq_true_iff_eq. rewrite !orb_true_iff, !andb_true_iff, !orb_true_iff, !andb_true_iff, !Z.ltb_lt, !Z.leb_le, !Z.eqb_eq.
  destruct (Z.leb_spec d (best_scope b)), (Z.leb_spec d s); lia.
Qed.

(** [b] holds the values of a slot that is not the destination. *)
Definition best_is (dest : ip6_addr) (b : ip6_best) (slot : ip_addr * Z) : Prop :=
  ip6_addr_cmp_zoneless (ip_2_ip6 slot.1) dest = false /\
  b = mkBest (Some slot.1) (ip6_cand_scope (ip_2_ip6 slot.1)) (Z.b2z (ip6_addr_ispreferred slot.2))
        (Z.b2z (ip6_addr_netcmp_zoneless (ip_2_ip6 slot.1) dest)).
Lemma best_is_key dest b slot : best_is dest b slot ->
  source_key dest slot = cand_key (ip6_dest_scope dest) (best_scope b) (best_pref b) (best_bits b).
Proof. intros [Hne ->]. unfold source_key. by rewrite Hne. Qed.

Definition valid_slot (slots : list (ip_addr * Z)) (slot : ip_addr * Z) : Prop :=
  slot ∈ slots /\ ip6_addr_isvalid slot.2 = true.
Definition best_of (dest : ip6_addr) (P : ip_addr * Z -> Prop) (slot : ip_addr * Z) : Prop :=
  P slot /\ forall slot', P slot' -> source_key dest slot' <= source_key dest slot.

Lemma valid_slot_cons s slots slot : valid_slot (s :: slots) slot <->
  (slot = s /\ ip6_addr_isvalid s.2 = true) \/ valid_slot slots slot.
Proof.
  unfold valid_slot. split.
  - intros [[->|Hin]%elem_of_cons Hv]; [by left|by right].
  - intros [[-> Hv]|[Hin Hv]]; split; [by left|done|by right|done].
Qed.
Lemma best_of_iff dest (P Q : ip_addr * Z -> Prop) slot : (forall s, P s <-> Q s) -> best_of dest P slot -> best_of dest Q slot.
Proof. intros Hiff [Hp Hmax]. split; [by apply Hiff|]. intros s Hs. apply Hmax. by apply Hiff. Qed.
Lemma best_of_drop dest (P : ip_addr * Z -> Prop) x y slot : source_key dest x <= source_key dest y ->
  best_of dest (fun s => P s \/ s = y) slot -> best_of dest (fun s => P s \/ s = x \/ s = y) slot.
Proof.
  intros Hle [[Hp| ->] Hmax]; (split; [auto|]); intros s [Hs|[->| ->]]; auto.
  etransitivity; [exact Hle|]. apply Hmax. by right.
Qed.

(** The loop, with the best slot of those seen. *)
Lemma ip6_select_loop_some slots dest b slot0 : best_is dest b slot0 ->
  exists slot, ip6_select_loop slots dest (ip6_dest_scope dest) b = Some slot.1 /\
    best_of dest (fun s => valid_slot slots s \/ s = slot0) slot.
Proof.
  revert b slot0. induction slots as [|[x state] slots IH]; intros b slot0 Hb.
  { exists slot0. split; [by destruct Hb as [_ ->]|]. split; [by right|].
    intros s [[Hin _]| ->]; [by apply elem_of_nil in Hin|lia]. }
  cbn [ip6_select_loop]. destruct (ip6_addr_isvalid state) eqn:Hv; cbn [negb].
  2:{ destruct (IH b slot0 Hb) as (slot & Hrun & Hbest). exists slot. split; [exact Hrun|].
      eapply best_of_iff; [|exact Hbest]. intros s. rewrite valid_slot_cons. cbn [snd]. rewrite Hv.
      split; [intros [?| ?]; auto|intros [[[_ ?]| ?]| ?]; auto; done]. }
  assert (Hcons : forall s, valid_slot ((x, state) :: slots) s <-> valid_slot slots s \/ s = (x, state)).
  { intros s. rewrite valid_slot_cons. cbn [snd]. split; [intros [[-> _]| ?]; auto|intros [?| ->]; auto]. }
  rewrite ip6_rule1. destruct (ip6_addr_cmp_zoneless (ip_2_ip6 x) dest) eqn:Hc.
  { exists (x, state). split; [done|]. split; [left; apply Hcons; by right|]. intros s _. unfold source_key. cbn [fst]. rewrite Hc.
    destruct (ip6_addr_cmp_zoneless (ip_2_ip6 s.1) dest); [lia|]. apply Z.lt_le_incl, cand_key_range. }
  set (b' := mkBest (Some x) _ _ _). assert (best_is dest b' (x, state)) as Hb' by (by split).
  assert (Hwins : ip6_cand_wins (ip6_dest_scope dest) b (ip6_cand_scope (ip_2_ip6 x)) (Z.b2z (ip6_addr_ispreferred state))
      (Z.b2z (ip6_addr_netcmp_zoneless (ip_2_ip6 x) dest)) = (source_key dest slot0 <? source_key dest (x, state))).
  { rewrite (best_is_key _ _ _ Hb), (best_is_key _ _ _ Hb'). destruct Hb as [_ ->].
    apply ip6_cand_wins_key; try apply ip6_cand_scope_range; try apply b2z_range. done. }
  rewrite Hwins. destruct (Z.ltb_spec (source_key dest slot0) (source_key dest (x, state))) as [Hlt|Hge].
  - destruct (IH b' (x, state) Hb') as (slot & Hrun & Hbest). exists slot. split; [exact Hrun|].
    apply (best_of_drop _ _ slot0) in Hbest; [|lia]. eapply best_of_iff; [|exact Hbest]. intros s. rewrite Hcons. tauto.
  - destruct (IH b slot0 Hb) as (slot & Hrun & Hbest). exists slot. split; [exact Hrun|].
    apply (best_of_drop _ _ (x, state)) in Hbest; [|lia]. eapply best_of_iff; [|exact Hbest]. intros s. rewrite Hcons. tauto.
Qed.

Lemma ip6_select_loop_spec slots dest b : best_addr b = None ->
  match ip6_select_loop slots dest (ip6_dest_scope dest) b with
  | None => forall slot, ~ valid_slot slots slot
  | Some a => exists slot, a = slot.1 /\ best_of dest (valid_slot slots) slot
  end.
Proof.
  intros Hb. induction slots as [|[x state] slots IH]; cbn [ip6_select_loop].
  { rewrite Hb. intros slot [Hin _]. by apply elem_of_nil in Hin. }
  destruct (ip6_addr_isvalid state) eqn:Hv; cbn [negb].
  2:{ destruct (ip6_select_loop slots dest (ip6_dest_scope dest) b) as [a|].
      - destruct IH as (slot & -> & Hbest). exists slot. split; [done|]. eapply best_of_iff; [|exact Hbest].
        intros s. rewrite valid_slot_cons. cbn [snd]. rewrite Hv. split; [auto|intros [[_ ?]| ?]; [done|auto]].
      - intros slot Hs. apply valid_slot_cons in Hs as [[_ Hs]|Hs]; [cbn [snd] in Hs; congruence|by eapply IH]. }
  rewrite ip6_rule1. destruct (ip6_addr_cmp_zoneless (ip_2_ip6 x) dest) eqn:Hc.
  { exists (x, state). split; [done|]. split; [apply valid_slot_cons; by left|]. intros s _. unfold source_key. cbn [fst]. rewrite Hc.
    destruct (ip6_addr_cmp_zoneless (ip_2_ip6 s.1) dest); [lia|]. apply Z.lt_le_incl, cand_key_range. }
  unfold ip6_cand_wins. rewrite Hb. cbn [orb].
  destruct (ip6_select_loop_some slots dest (mkBest (Some x) (ip6_cand_scope (ip_2_ip6 x)) (Z.b2z (ip6_addr_ispreferred state))
      (Z.b2z (ip6_addr_netcmp_zoneless (ip_2_ip6 x) dest))) (x, state)) as (slot & -> & Hbest); [by split|].
  exists slot. split; [done|]. eapply best_of_iff; [|exact Hbest]. intros s. rewrite valid_slot_cons. cbn [snd].
  split; [intros [?| ->]; auto|intros [[-> _]| ?]; auto].
Qed.

(** ** What RFC 6724 asks for *)

(** The kinds of addresses, by the octets on the wire: 2000::/3, fe80::/10, fec0::/10, fc00::/7,
    ff00::/8 with the scope in the second octet, and ::1 (RFC 4291, RFC 4193). *)
Inductive ip6_class :=
  | GlobalAddr | LinkLocalAddr | SiteLocalAddr | UniqueLocalAddr | MulticastAddr (scope : Z) | LoopbackAddr | OtherAddr.
Definition ip6_classify (a : ip6_addr) : ip6_class :=
  match ip6_bytes a with
  | b0 :: b1 :: _ =>
      if b0 / 32 =? 1 then GlobalAddr
      else if (b0 =? 254) && (b1 / 64 =? 2) then LinkLocalAddr
      else if (b0 =? 254) && (b1 / 64 =? 3) then SiteLocalAddr
      else if b0 / 2 =? 126 then UniqueLocalAddr
      else if b0 =? 255 then MulticastAddr (b1 mod 16)
      else if bool_decide (ip6_bytes a = replicate 15 0 ++ [1]) then LoopbackAddr
      else OtherAddr
  | _ => OtherAddr
  end.

(** Scopes as those of multicast addresses (RFC 6724, 3.1), but for the unique local addresses,
    which are below the global ones. A destination of another kind counts as global; a source
    that is none of the first four comes last. *)
Definition scope_of_dest (c : ip6_class) : Z :=
  match c with
  | GlobalAddr | OtherAddr => 14 | LinkLocalAddr | LoopbackAddr => 2 | SiteLocalAddr => 5 | UniqueLocalAddr => 8
  | MulticastAddr s => s
  end.
Definition scope_of_source (c : ip6_class) : Z :=
  match c with
  | GlobalAddr => 14 | LinkLocalAddr => 2 | SiteLocalAddr => 5 | UniqueLocalAddr => 8
  | MulticastAddr _ | LoopbackAddr | OtherAddr => 15
  end.

(** A slot is usable when its state has the bit of [IP6_ADDR_VALID]; a usable address is
    preferred or deprecated. *)
Definition usable (slots : list (ip_addr * Z)) (slot : ip_addr * Z) : Prop := slot ∈ slots /\ Z.testbit slot.2 4 = true.

Section Rules.
Context (dest : ip6_addr).
Abbreviation bytes_of slot := (ip6_bytes (ip_2_ip6 (slot : ip_addr * Z).1)).
Abbreviation scope slot := (scope_of_source (ip6_classify (ip_2_ip6 (slot : ip_addr * Z).1))).

(** Rule 1: the same address. *)
Definition is_dest (x : ip_addr * Z) : Prop := bytes_of x = ip6_bytes dest.
(** Rule 2: "If Scope(SA) < Scope(SB): if Scope(SA) < Scope(D), then prefer SB and otherwise
    prefer SA", and the same the other way round. *)
Definition rule2 (x y : ip_addr * Z) : Prop :=
  let d := scope_of_dest (ip6_classify dest) in
  (scope x < scope y /\ d <= scope x) \/ (scope y < scope x /\ scope y < d).
(** Rule 3: preferred before deprecated. *)
Definition rule3 (x y : ip_addr * Z) : Prop := x.2 = 48 /\ y.2 <> 48.
(** Rule 8, cut down to the first 64 bits. *)
Definition rule8 (x y : ip_addr * Z) : Prop :=
  take 8 (bytes_of x) = take 8 (ip6_bytes dest) /\ take 8 (bytes_of y) <> take 8 (ip6_bytes dest).

(** The first rule that tells them apart prefers [x]. *)
Fixpoint by_rules (rules : list (ip_addr * Z -> ip_addr * Z -> Prop)) (x y : ip_addr * Z) : Prop :=
  match rules with [] => False | r :: rules => r x y \/ (~ r y x /\ by_rules rules x y) end.
Definition preferred_over (x y : ip_addr * Z) : Prop := ~ is_dest y /\ (is_dest x \/ by_rules [rule2; rule3; rule8] x y).
End Rules.

(** *** The tests on words are tests on octets *)

Lemma land_split w m v : 0 <= m -> 0 <= v ->
  (Z.land w m =? v) = (Z.land (w mod 256) (m mod 256) =? v mod 256) && (Z.land (w / 256) (m / 256) =? v / 256).
Proof.
  intros Hm Hv. assert (E1 : Z.land w m mod 256 = Z.land (w mod 256) (m mod 256)).
  { rewrite <- !land_ff. apply Z.bits_inj'. intros i Hi. rewrite !Z.land_spec.
    by destruct (Z.testbit w i), (Z.testbit m i), (Z.testbit 255 i). }
  assert (E2 : Z.land w m / 256 = Z.land (w / 256) (m / 256)) by (rewrite <- !shiftr8; apply Z.shiftr_land).
  rewrite <- E1, <- E2. generalize (Z.land w m). intros x. clear. apply eq_true_iff_eq. rewrite andb_true_iff, !Z.eqb_eq.
  split; [by intros ->|]. intros [H1 H2]. dlia.
Qed.
Lemma land_octets w m v : 0 <= m < 65536 -> 0 <= v < 65536 ->
  (Z.land w m =? v) = (Z.land (w mod 256) (m mod 256) =? v mod 256) && (Z.land ((w / 256) mod 256) (m / 256) =? v / 256).
Proof.
  intros Hm Hv. rewrite land_split by lia. f_equal. rewrite (land_split (w / 256)) by dlia.
  rewrite (Z.div_small (m / 256) 256), (Z.div_small (v / 256) 256), Z.land_0_r, andb_true_r by dlia.
  by rewrite (Z.mod_small (m / 256)), (Z.mod_small (v / 256)) by dlia.
Qed.

(** A property of all bytes, by trying them. *)
Lemma byte_all (f : Z -> bool) b : forallb f (seqZ 0 256) = true -> 0 <= b < 256 -> f b = true.
Proof. intros Hf Hb. rewrite forallb_forall in Hf. apply Hf. apply list_elem_of_In, elem_of_seqZ. lia. Qed.
Lemma byte_ext (f g : Z -> bool) b : forallb (fun b => eqb (f b) (g b)) (seqZ 0 256) = true -> 0 <= b < 256 -> f b = g b.
Proof. intros H Hb. by apply eqb_prop, (byte_all _ b H). Qed.

Section Classes.
Context (a : ip6_addr).
Abbreviation b0 := (ip6_w0 a mod 256).
Abbreviation b1 := ((ip6_w0 a / 256) mod 256).

Lemma b0_range : 0 <= b0 < 256.
Proof. dlia. Qed.
Lemma b1_range : 0 <= b1 < 256.
Proof. dlia. Qed.

Lemma global_octets : ip6_addr_isglobal a = (b0 / 32 =? 1).
Proof.
  unfold ip6_addr_isglobal. rewrite land_octets by (by vm_compute). change (PP_HTONL 3758096384) with 224. change (PP_HTONL 536870912) with 32.
  change (224 / 256) with 0. rewrite Z.land_0_r, andb_true_r.
  apply (byte_ext (fun b => Z.land b 224 =? 32) (fun b => b / 32 =? 1)); [by vm_compute|apply b0_range].
Qed.
Lemma uniquelocal_octets : ip6_addr_isuniquelocal a = (b0 / 2 =? 126).
Proof.
  unfold ip6_addr_isuniquelocal. rewrite land_octets by (by vm_compute). change (PP_HTONL 4261412864) with 254. change (PP_HTONL 4227858432) with 252.
  change (254 / 256) with 0. rewrite Z.land_0_r, andb_true_r.
  apply (byte_ext (fun b => Z.land b 254 =? 252) (fun b => b / 2 =? 126)); [by vm_compute|apply b0_range].
Qed.
Lemma multicast_octets : ip6_addr_ismulticast a = (b0 =? 255).
Proof.
  unfold ip6_addr_ismulticast. rewrite land_octets by (by vm_compute). change (PP_HTONL 4278190080) with 255.
  change (255 / 256) with 0. rewrite Z.land_0_r, andb_true_r.
  apply (byte_ext (fun b => Z.land b 255 =? 255) (fun b => b =? 255)); [by vm_compute|apply b0_range].
Qed.
Lemma linklocal_octets : ip6_addr_islinklocal a = (b0 =? 254) && (b1 / 64 =? 2).
Proof.
  unfold ip6_addr_islinklocal. rewrite land_octets by (by vm_compute). change (PP_HTONL 4290772992) with 49407. change (PP_HTONL 4269801472) with 33022.
  f_equal.
  - apply (byte_ext (fun b => Z.land b 255 =? 254) (fun b => b =? 254)); [by vm_compute|apply b0_range].
  - apply (byte_ext (fun b => Z.land b 192 =? 128) (fun b => b / 64 =? 2)); [by vm_compute|apply b1_range].
Qed.
Lemma sitelocal_octets : ip6_addr_issitelocal a = (b0 =? 254) && (b1 / 64 =? 3).
Proof.
  unfold ip6_addr_issitelocal. rewrite land_octets by (by vm_compute). change (PP_HTONL 4290772992) with 49407. change (PP_HTONL 4273995776) with 49406.
  f_equal.
  - apply (byte_ext (fun b => Z.land b 255 =? 254) (fun b => b =? 254)); [by vm_compute|apply b0_range].
  - apply (byte_ext (fun b => Z.land b 192 =? 192) (fun b => b / 64 =? 3)); [by vm_compute|apply b1_range].
Qed.
Lemma multicast_scope_octets : ip6_addr_multicast_scope a = b1 mod 16.
Proof.
  unfold ip6_addr_multicast_scope. rewrite (Z.land_ones _ 4), shiftr16, lwip_htonl_arith by lia. dlia.
Qed.
End Classes.

(** *** The code's scopes are those of the classes *)

Lemma le32_inj x y : u32_ok x -> u32_ok y -> le32 x = le32 y -> x = y.
Proof. unfold u32_ok, le32. intros Hx Hy [= H1 H2 H3 H4]. dlia. Qed.
Lemma ip6_bytes_cons a : ip6_bytes a = le32 (ip6_w0 a) ++ le32 (ip6_w1 a) ++ le32 (ip6_w2 a) ++ le32 (ip6_w3 a).
Proof. unfold ip6_bytes, ip6_words. simpl. by rewrite ?app_nil_r. Qed.
Lemma ip6_words_ok a : ip6_ok a -> u32_ok (ip6_w0 a) /\ u32_ok (ip6_w1 a) /\ u32_ok (ip6_w2 a) /\ u32_ok (ip6_w3 a).
Proof. intros [H _]. unfold ip6_words in H. rewrite !Forall_cons in H. tauto. Qed.

(** Equal octets are equal words. *)
Lemma ip6_cmp_octets a b : ip6_ok a -> ip6_ok b -> ip6_addr_cmp_zoneless a b = true <-> ip6_bytes a = ip6_bytes b.
Proof.
  intros (A0 & A1 & A2 & A3)%ip6_words_ok (B0 & B1 & B2 & B3)%ip6_words_ok. unfold ip6_addr_cmp_zoneless. rewrite !ip6_bytes_cons.
  rewrite !andb_true_iff, !Z.eqb_eq. split; [by intros [[[-> ->] ->] ->]|]. intros H.
  apply app_inj_1 in H as [H0 H]; [|done]. apply app_inj_1 in H as [H1 H]; [|done]. apply app_inj_1 in H as [H2 H3]; [|done].
  split_and!; by apply le32_inj.
Qed.
Lemma ip6_netcmp_octets a b : ip6_ok a -> ip6_ok b -> ip6_addr_netcmp_zoneless a b = true <-> take 8 (ip6_bytes a) = take 8 (ip6_bytes b).
Proof.
  intros (A0 & A1 & _)%ip6_words_ok (B0 & B1 & _)%ip6_words_ok. unfold ip6_addr_netcmp_zoneless. rewrite !ip6_bytes_cons.
  rewrite !(app_assoc (le32 (ip6_w0 _))), !(take_app_length' (le32 (ip6_w0 _) ++ _)) by done.
  rewrite andb_true_iff, !Z.eqb_eq. split; [by intros [-> ->]|]. intros [H0 H1]%app_inj_1; [|done]. split; by apply le32_inj.
Qed.

Lemma loopback_octets a : ip6_ok a -> ip6_addr_isloopback a = bool_decide (ip6_bytes a = replicate 15 0 ++ [1]).
Proof.
  intros Ha. apply eq_true_iff_eq. rewrite bool_decide_eq_true. set (lo := mkIp6 0 0 0 (PP_HTONL 1) 0).
  assert (Hlo : ip6_ok lo) by (split; [repeat constructor; by vm_compute|by vm_compute]).
  change (replicate 15 0 ++ [1]) with (ip6_bytes lo). by rewrite <- (ip6_cmp_octets a lo).
Qed.

Lemma classify_octets a : ip6_classify a =
  (let b0 := ip6_w0 a mod 256 in let b1 := (ip6_w0 a / 256) mod 256 in
   if b0 / 32 =? 1 then GlobalAddr
   else if (b0 =? 254) && (b1 / 64 =? 2) then LinkLocalAddr
   else if (b0 =? 254) && (b1 / 64 =? 3) then SiteLocalAddr
   else if b0 / 2 =? 126 then UniqueLocalAddr
   else if b0 =? 255 then MulticastAddr (b1 mod 16)
   else if bool_decide (ip6_bytes a = replicate 15 0 ++ [1]) then LoopbackAddr
   else OtherAddr).
Proof. done. Qed.

(** A loopback address is of no other kind. *)
Lemma loopback_first a : ip6_addr_isloopback a = true -> ip6_w0 a = 0.
Proof. unfold ip6_addr_isloopback. rewrite !andb_true_iff, !Z.eqb_eq. tauto. Qed.

Lemma ip6_dest_scope_class a : ip6_ok a -> ip6_dest_scope a = scope_of_dest (ip6_classify a).
Proof.
  intros Ha. unfold ip6_dest_scope. rewrite classify_octets. cbv zeta. rewrite <- (loopback_octets a Ha).
  rewrite global_octets, linklocal_octets, uniquelocal_octets, sitelocal_octets, multicast_octets, multicast_scope_octets.
  pose proof (loopback_first a) as Hlo. pose proof (b0_range a) as Hb0. pose proof (b1_range a) as Hb1.
  destruct (ip6_addr_isloopback a); [by rewrite Hlo|]. rewrite orb_false_r.
  generalize dependent (ip6_w0 a mod 256). intros b0 Hb0. generalize dependent ((ip6_w0 a / 256) mod 256). intros b1 Hb1.
  destruct (Z.eqb_spec (b0 / 32) 1); [done|]. destruct (Z.eqb_spec b0 254) as [->|]; cbn [andb].
  - destruct (Z.eqb_spec (b1 / 64) 2); [done|]. by destruct (b1 / 64 =? 3).
  - destruct (Z.eqb_spec (b0 / 2) 126); [done|]. by destruct (b0 =? 255).
Qed.
Lemma ip6_cand_scope_class a : ip6_ok a -> ip6_cand_scope a = scope_of_source (ip6_classify a).
Proof.
  intros Ha. unfold ip6_cand_scope. rewrite classify_octets. cbv zeta. rewrite <- (loopback_octets a Ha).
  rewrite global_octets, linklocal_octets, uniquelocal_octets, sitelocal_octets.
  pose proof (b0_range a) as Hb0. generalize dependent (ip6_w0 a mod 256). intros b0 Hb0.
  destruct (Z.eqb_spec (b0 / 32) 1); [done|]. destruct (Z.eqb_spec b0 254) as [->|]; cbn [andb].
  - destruct (Z.eqb_spec ((ip6_w0 a / 256) mod 256 / 64) 2); [done|]. by destruct (_ =? 3), (ip6_addr_isloopback a).
  - destruct (Z.eqb_spec (b0 / 2) 126); [done|]. destruct (b0 =? 255); [done|]. by destruct (ip6_addr_isloopback a).
Qed.

(** *** The rules decide as the keys do *)

Lemma usable_valid slots slot : valid_slot slots slot <-> usable slots slot.
Proof.
  unfold valid_slot, usable, ip6_addr_isvalid, has_flag, IP6_ADDR_VALID. apply and_iff_compat_l.
  change 16 with (2 ^ 4). destruct (Z.testbit slot.2 4) eqn:E.
  - split; [done|intros _]. rewrite negb_true_iff, Z.eqb_neq. intros H. apply (f_equal (fun z => Z.testbit z 4)) in H.
    rewrite Z.land_spec, E, Z.pow2_bits_true, Z.bits_0 in H by lia. done.
  - split; [|done]. rewrite negb_true_iff, Z.eqb_neq. intros H. destruct H. apply Z.bits_inj'. intros i Hi.
    rewrite Z.land_spec, Z.pow2_bits_eqb, Z.bits_0 by lia. destruct (Z.eqb_spec 4 i) as [<-|]; [by rewrite E|apply andb_false_r].
Qed.

Lemma b2z_iff c P : (c = true <-> P) -> (P /\ Z.b2z c = 1) \/ (~ P /\ Z.b2z c = 0).
Proof. intros [H1 H2]. destruct c; [left; auto|right; split; [intros H; by apply H2 in H|done]]. Qed.

Lemma scope_of_source_range c : 0 <= scope_of_source c <= 15.
Proof. by destruct c. Qed.

Lemma preferred_over_key dest x y : ip6_ok dest -> ip6_ok (ip_2_ip6 x.1) -> ip6_ok (ip_2_ip6 y.1) ->
  preferred_over dest x y -> source_key dest y < source_key dest x.
Proof.
  intros Hd Hx Hy [Hny Hr]. unfold source_key. unfold is_dest in *. rewrite <- ip6_cmp_octets in Hny by done.
  destruct (ip6_addr_cmp_zoneless (ip_2_ip6 y.1) dest); [done|].
  destruct (ip6_addr_cmp_zoneless (ip_2_ip6 x.1) dest) eqn:Ex; [apply cand_key_range|].
  rewrite <- ip6_cmp_octets in Hr by done. destruct Hr as [Hr|Hr]; [congruence|].
  pose proof (b2z_iff _ _ (ip6_netcmp_octets (ip_2_ip6 x.1) dest Hx Hd)) as Bx.
  pose proof (b2z_iff _ _ (ip6_netcmp_octets (ip_2_ip6 y.1) dest Hy Hd)) as By.
  pose proof (b2z_iff _ _ (Z.eqb_eq x.2 48)) as Px. pose proof (b2z_iff _ _ (Z.eqb_eq y.2 48)) as Py.
  change (x.2 =? 48) with (ip6_addr_ispreferred x.2) in Px. change (y.2 =? 48) with (ip6_addr_ispreferred y.2) in Py.
  unfold by_rules, rule2, rule3, rule8 in Hr. unfold cand_key, scope_rank. rewrite ip6_dest_scope_class, !ip6_cand_scope_class by done.
  pose proof (scope_of_source_range (ip6_classify (ip_2_ip6 x.1))). pose proof (scope_of_source_range (ip6_classify (ip_2_ip6 y.1))).
  remember (scope_of_source (ip6_classify (ip_2_ip6 x.1))) as sx. remember (scope_of_source (ip6_classify (ip_2_ip6 y.1))) as sy.
  remember (scope_of_dest (ip6_classify dest)) as d. clear Heqsx Heqsy Heqd.
  destruct Hr as [Hr|[Hn2 Hr]]; [destruct (Z.leb_spec d sx), (Z.leb_spec d sy); lia|].
  assert (Hs : sx = sy \/ (sx < sy /\ d <= sx) \/ (sy < sx /\ sy < d)) by lia. clear Hn2.
  assert (Hk : 2 * Z.b2z (ip6_addr_ispreferred y.2) + Z.b2z (ip6_addr_netcmp_zoneless (ip_2_ip6 y.1) dest) <
               2 * Z.b2z (ip6_addr_ispreferred x.2) + Z.b2z (ip6_addr_netcmp_zoneless (ip_2_ip6 x.1) dest)).
  { destruct Bx as [[Bx ->]|[Bx ->]], By as [[By ->]|[By ->]]; destruct Hr as [Hr|[Hn3 [Hr|[_ []]]]]; try lia; tauto. }
  clear Hr Bx By Px Py. destruct (Z.leb_spec d sx), (Z.leb_spec d sy); lia.
Qed.

(** Among addresses that are addresses, the best key is what the rules ask for. *)
Lemma best_of_preferred dest slots slot : ip6_ok dest -> Forall (fun s => ip6_ok (ip_2_ip6 s.1)) slots ->
  best_of dest (valid_slot slots) slot ->
  usable slots slot /\ forall slot', usable slots slot' -> ~ preferred_over dest slot' slot.
Proof.
  intros Hd Hok [Hv Hmax]. rewrite Forall_forall in Hok. split; [by apply usable_valid|]. intros s Hs%usable_valid Hp.
  pose proof (Hmax s Hs). apply preferred_over_key in Hp; [lia|done|apply Hok, Hs|apply Hok, Hv].
Qed.
