(* ===== verification/TcpPcbs.v ===== *)
(** * The control blocks of TCP together ([core/tcp.c])

    [Tcp] and the files on top of it run the functions of one connection.  Here is the
    state around them: all control blocks by their addresses, the lists they are on, the
    ports, and the functions that create, bind, listen, connect and close.  [focus a m]
    runs a function [m] of one connection on the control block at [a].

    The functions the application registers run on the control block they are called for.
    [malloc] answers through the oracle: [NULL], or an address that is not in use. *)

From S2P Require Import Prelude Def IpAddr Pbuf Net Netif Ip6Src.
From S2P Require Import Tcp TcpOut TcpIn TcpOpt TcpOutput TcpProcess TcpInput TcpWrite.
From S2P Require Import TcpClose.

(** ** Control blocks *)

Definition TCP_LOCAL_PORT_RANGE_START : Z := 49152.
Definition TCP_LOCAL_PORT_RANGE_END : Z := 65535.
Definition TCP_ENSURE_LOCAL_PORT_RANGE (port : Z) : Z :=
  u16_t (Z.land port (u16_t (Z.lnot TCP_LOCAL_PORT_RANGE_START)) + TCP_LOCAL_PORT_RANGE_START).
Definition INITIAL_MSS : Z := 536.
Definition TCP_SLOW_INTERVAL : Z := 500.
Definition TCP_KEEPIDLE_DEFAULT : Z := 7200000.
Definition TCP_PRIO_NORMAL : Z := 64.
Definition TCP_PRIO_MAX : Z := 127.
Definition TCP_TTL : Z := 64.
Definition SOF_INHERITED : Z := 12.  (* SOF_REUSEADDR | SOF_KEEPALIVE *)
Definition ERR_ALREADY : Z := -9.

(** A [struct tcp_pcb]: the fields of the connection, and those that only the functions
    of this file and the timers look at. *)
Record tcp_sock := mkSock {
  sk : tcp_pcb;
  prio : Z; so_options : Z; netif_idx : Z; ttl : Z; tos : Z;
  pollinterval : Z; last_timer : Z; keep_idle : Z
}.
#[export] Instance tcp_sock_fields : Fields tcp_sock := fun k =>
  mkSock (sk k) (prio k) (so_options k) (netif_idx k) (ttl k) (tos k) (pollinterval k) (last_timer k) (keep_idle k).

(** A [struct tcp_pcb_listen]; its [state] is [LISTEN].  Of [remote_ip] only the type is
    ever set. *)
Record tcp_pcb_listen := mkListen {
  l_local_ip : ip_addr; l_remote_type : Z; l_local_port : Z;
  l_prio : Z; l_so_options : Z; l_netif_idx : Z; l_ttl : Z; l_tos : Z
}.
#[export] Instance tcp_pcb_listen_fields : Fields tcp_pcb_listen := fun l =>
  mkListen (l_local_ip l) (l_remote_type l) (l_local_port l) (l_prio l) (l_so_options l) (l_netif_idx l) (l_ttl l) (l_tos l).

(** ** The state *)

(** [tw_st] holds the file-scope variables of [tcp_in.c] and [tcp.c], the lists
    [tcp_active_pcbs], [tcp_tw_pcbs] and [tcp_bound_pcbs] among them; [tw_net] the
    interfaces and the tables routing looks at. *)
Record tcp_world := mkTcpWorld {
  tw_socks : gmap Z tcp_sock; tw_listens : gmap Z tcp_pcb_listen;
  tw_st : tcp_st; tcp_listen_pcbs : list Z;
  tcp_port : Z; tcp_iss : Z; tcp_timer : Z; tcp_timer_ctr : Z;
  tw_net : net
}.
#[export] Instance tcp_world_fields : Fields tcp_world := fun w =>
  mkTcpWorld (tw_socks w) (tw_listens w) (tw_st w) (tcp_listen_pcbs w) (tcp_port w) (tcp_iss w) (tcp_timer w)
    (tcp_timer_ctr w) (tw_net w).

Definition WM := M tcp_world.

Definition get_sock (a : Z) : WM tcp_sock := fun w =>
  match tw_socks w !! a with Some k => Ok (k, w) | None => Fault BadAccess end.
Definition upd_sock (a : Z) (f : tcp_sock -> tcp_sock) : WM unit := fun w =>
  match tw_socks w !! a with
  | Some k => Ok (tt, w <| tw_socks := <[a := f k]> (tw_socks w) |>)
  | None => Fault BadAccess
  end.
Definition get_listen (a : Z) : WM tcp_pcb_listen := fun w =>
  match tw_listens w !! a with Some l => Ok (l, w) | None => Fault BadAccess end.
Definition upd_listen (a : Z) (f : tcp_pcb_listen -> tcp_pcb_listen) : WM unit := fun w =>
  match tw_listens w !! a with
  | Some l => Ok (tt, w <| tw_listens := <[a := f l]> (tw_listens w) |>)
  | None => Fault BadAccess
  end.
(** Fields of the connection. *)
Definition upd_pcb (a : Z) (f : tcp_pcb -> tcp_pcb) : WM unit := upd_sock a (fun k => k <| sk := f (sk k) |>).
Definition mod_st (f : tcp_st -> tcp_st) : WM unit := modify (fun w => w <| tw_st := f (tw_st w) |>).

(** The states of the control blocks other than the one at [a]. *)
Definition other_states (a : Z) (m : gmap Z tcp_sock) : gmap Z tcp_state := (fun k => state (sk k)) <$> delete a m.

(** The state a function of the connection at [a] works on, and what it leaves behind. *)
Definition enter (a : Z) (k : tcp_sock) (w : tcp_world) : tcp_st :=
  tw_st w <| st_pcb := sk k |> <| pcb_addr := a |> <| pcb_freed := false |> <| other_state := other_states a (tw_socks w) |>.
Definition leave (a : Z) (k : tcp_sock) (s : tcp_st) (w : tcp_world) : tcp_world :=
  w <| tw_st := s |>
    <| tw_socks := if pcb_freed s then delete a (tw_socks w) else <[a := k <| sk := st_pcb s |>]> (tw_socks w) |>.
Definition focus {A} (a : Z) (m : TM A) : WM A := fun w =>
  match tw_socks w !! a with
  | None => Fault BadAccess
  | Some k => match m (enter a k w) with
              | Ok (r, s) => Ok (r, leave a k s w)
              | Fault f => Fault f
              end
  end.

(** A function that is called for no control block. *)
Definition nowhere (w : tcp_world) : tcp_st :=
  tw_st w <| pcb_addr := 0 |> <| pcb_freed := true |> <| other_state := (fun k => state (sk k)) <$> tw_socks w |>.
Definition globally {A} (m : TM A) : WM A := fun w =>
  match m (nowhere w) with Ok (r, s) => Ok (r, w <| tw_st := s |>) | Fault f => Fault f end.
(** A function of the network layer. *)
Definition on_net {A} (m : M net A) : WM A := fun w =>
  match m (tw_net w) with Ok (r, n) => Ok (r, w <| tw_net := n |>) | Fault f => Fault f end.

(** The [state] field of a control block of either type. *)
Definition get_state (a : Z) : WM tcp_state := fun w =>
  match tw_socks w !! a, tw_listens w !! a with
  | Some k, _ => Ok (state (sk k), w)
  | None, Some _ => Ok (LISTEN, w)
  | None, None => Fault BadAccess
  end.

(** A walk over a list: the first control block that passes the test. *)
Fixpoint walk {A} (get : Z -> WM A) (test : A -> bool) (l : list Z) : WM (option Z) :=
  match l with
  | [] => ret None
  | a :: rest => let* x := get a in if test x then ret (Some a) else walk get test rest
  end.

(** ** The lists *)

(** [TCP_REG]: to register a control block that is on the list would make it cyclic; the
    model has no such lists. *)
Definition reg (l : list Z) (a : Z) : WM (list Z) :=
  if bool_decide (a ∈ l) then fail BadAccess
  else mod_st (fun s => s <| timer_needed_calls := timer_needed_calls s + 1 |>) ;;; ret (a :: l).
Definition TCP_REG_BOUND (a : Z) : WM unit :=
  let* w := get in
  let* l := reg (tcp_bound_pcbs (tw_st w)) a in mod_st (fun s => s <| tcp_bound_pcbs := l |>).
Definition TCP_REG_LISTEN (a : Z) : WM unit :=
  let* w := get in
  let* l := reg (tcp_listen_pcbs w) a in modify (fun w => w <| tcp_listen_pcbs := l |>).
Definition TCP_REG_ACTIVE (a : Z) : WM unit :=
  let* w := get in
  let* l := reg (tcp_active_pcbs (tw_st w)) a in
  mod_st (fun s => s <| tcp_active_pcbs := l |> <| tcp_active_pcbs_changed := true |>).
Definition TCP_RMV_BOUND_PCB (a : Z) : WM unit :=
  mod_st (fun s => s <| tcp_bound_pcbs := TCP_RMV (tcp_bound_pcbs s) a |>).

(** ** Ports *)

(** [tcp_init]; [r] is the answer of [LWIP_RAND()]. *)
Definition tcp_init (r : Z) : WM unit :=
  modify (fun w => w <| tcp_port := TCP_ENSURE_LOCAL_PORT_RANGE r |>).

(** The control blocks of [tcp_pcb_lists] but the first list. *)
Definition pcb_lists (s : tcp_st) : list Z := tcp_bound_pcbs s ++ tcp_active_pcbs s ++ tcp_tw_pcbs s.

Definition tcp_port_used (port : Z) : WM bool :=
  let* w := get in
  let* r := walk get_listen (fun l => l_local_port l =? port) (tcp_listen_pcbs w) in
  match r with
  | Some _ => ret true
  | None =>
      let* r := walk get_sock (fun k => local_port (sk k) =? port) (pcb_lists (tw_st w)) in
      ret (match r with Some _ => true | None => false end)
  end.

(** [again:] with the number of collisions so far. *)
Fixpoint tcp_new_port_loop (fuel : nat) (n : Z) : WM Z :=
  match fuel with
  | O => fail OutOfFuel
  | S fuel =>
      modify (fun w => w <| tcp_port := u16_t (tcp_port w + 1) |>) ;;;
      modify (fun w => if tcp_port w =? TCP_LOCAL_PORT_RANGE_END then w <| tcp_port := TCP_LOCAL_PORT_RANGE_START |> else w) ;;;
      let* w := get in
      let* used := tcp_port_used (tcp_port w) in
      if (used : bool) then
        let n := u16_t (n + 1) in
        if TCP_LOCAL_PORT_RANGE_END - TCP_LOCAL_PORT_RANGE_START <? n then ret 0 else tcp_new_port_loop fuel n
      else ret (tcp_port w)
  end.
Definition tcp_new_port : WM Z :=
  tcp_new_port_loop (Z.to_nat (TCP_LOCAL_PORT_RANGE_END - TCP_LOCAL_PORT_RANGE_START + 1)) 0.

(** ** Binding *)

(** An address that lacks a zone gets one. *)
Definition tcp_zoned (ipaddr : ip_addr) : WM ip_addr :=
  if IP_IS_V6_VAL ipaddr && ip6_addr_lacks_zone (ip_2_ip6 ipaddr) IP6_UNICAST then
    let* a := on_net (ip6_addr_select_zone (ip_2_ip6 ipaddr) (ip_2_ip6 ipaddr)) in
    ret (mkIpAddr a (ip_type ipaddr))
  else ret ipaddr.

(** A control block with local address [ip] and port [p] is in the way of [ipaddr], [port]. *)
Definition bind_conflict (ipaddr : ip_addr) (port : Z) (ip : ip_addr) (p : Z) : bool :=
  (p =? port) && Bool.eqb (IP_IS_V6_VAL ipaddr) (IP_IS_V6_VAL ip) &&
  (ip_addr_isany_val ip || ip_addr_isany_val ipaddr || ip_addr_cmp ip ipaddr).

Definition bind_used (ipaddr : ip_addr) (port : Z) : WM bool :=
  let* w := get in
  let* r := walk get_listen (fun l => bind_conflict ipaddr port (l_local_ip l) (l_local_port l)) (tcp_listen_pcbs w) in
  match r with
  | Some _ => ret true
  | None =>
      let* r := walk get_sock (fun k => bind_conflict ipaddr port (local_ip (sk k)) (local_port (sk k))) (pcb_lists (tw_st w)) in
      ret (match r with Some _ => true | None => false end)
  end.

(** The end of [tcp_bind]. *)
Definition bind_commit (pcb : Z) (ipaddr : ip_addr) (port : Z) : WM Z :=
  let* k := get_sock pcb in
  (if negb (ip_addr_isany_val ipaddr) || negb (ip_type ipaddr =? ip_type (local_ip (sk k))) then
     upd_pcb pcb (fun p => p <| local_ip := ip_addr_set ipaddr |>)
   else ret tt) ;;;
  upd_pcb pcb (fun p => p <| local_port := port |>) ;;;
  TCP_REG_BOUND pcb ;;;
  ret ERR_OK.

Definition tcp_bind (pcb : Z) (ipaddr : option ip_addr) (port : Z) : WM Z :=
  let ipaddr := match ipaddr with Some a => a | None => IP4_ADDR_ANY end in
  lwip_assert "tcp_bind: invalid pcb" (negb (pcb =? 0)) ;;;
  let* st := get_state pcb in
  lwip_assert "tcp_bind: can only bind in state CLOSED" (state_is st CLOSED) ;;;
  let* ipaddr := tcp_zoned ipaddr in
  if port =? 0 then
    let* port := tcp_new_port in
    if port =? 0 then ret ERR_BUF else bind_commit pcb ipaddr port
  else
    let* used := bind_used ipaddr port in
    if (used : bool) then ret ERR_USE else bind_commit pcb ipaddr port.

Definition tcp_bind_netif (pcb nif : Z) : WM unit :=
  if negb (nif =? 0) then
    let* n := on_net (get_netif nif) in upd_sock pcb (fun k => k <| netif_idx := netif_get_index n |>)
  else upd_sock pcb (fun k => k <| netif_idx := NETIF_NO_INDEX |>).

(** ** Allocation *)

(** [memp_malloc]: the address, or [0]. *)
Definition memp_malloc_tcp : WM Z :=
  let* a := globally ask in
  let* w := get in
  ret (if bool_decide (a ∈ dom (tw_socks w)) || bool_decide (a ∈ dom (tw_listens w)) then 0 else a).

Section Alloc.
Context (cb : tcp_callbacks).

(** [tcp_ticks - pcb->tmr]. *)
Definition inactivity_of (ticks : Z) (k : tcp_sock) : Z := u32_t (ticks - tmr (sk k)).

(** The searches of [tcp_kill_prio], [tcp_kill_state] and [tcp_kill_timewait]: the value of
    [inactive] ([0] for [NULL]) after the walk over [l]. *)
Fixpoint find_prio (ticks : Z) (l : list Z) (mprio inactivity inactive : Z) : WM Z :=
  match l with
  | [] => ret inactive
  | a :: rest =>
      let* k := get_sock a in
      if (prio k <? mprio) || ((prio k =? mprio) && (inactivity <=? inactivity_of ticks k))
      then find_prio ticks rest (prio k) (inactivity_of ticks k) a
      else find_prio ticks rest mprio inactivity inactive
  end.
Fixpoint find_oldest (ticks : Z) (test : tcp_sock -> bool) (l : list Z) (inactivity inactive : Z) : WM Z :=
  match l with
  | [] => ret inactive
  | a :: rest =>
      let* k := get_sock a in
      if test k && (inactivity <=? inactivity_of ticks k)
      then find_oldest ticks test rest (inactivity_of ticks k) a
      else find_oldest ticks test rest inactivity inactive
  end.

Definition tcp_kill_prio (prio : Z) : WM unit :=
  let mprio := Z.min TCP_PRIO_MAX prio in
  if mprio =? 0 then ret tt else
  let* w := get in
  let* inactive := find_prio (tcp_ticks (tw_st w)) (tcp_active_pcbs (tw_st w)) (u8_t (mprio - 1)) 0 0 in
  if negb (inactive =? 0) then focus inactive (tcp_abort cb) else ret tt.

Definition tcp_kill_state (st : tcp_state) : WM unit :=
  lwip_assert "invalid state" (state_is st CLOSING || state_is st LAST_ACK) ;;;
  let* w := get in
  let* inactive := find_oldest (tcp_ticks (tw_st w)) (fun k => state_is (state (sk k)) st) (tcp_active_pcbs (tw_st w)) 0 0 in
  if negb (inactive =? 0) then focus inactive (tcp_abandon cb false) else ret tt.

Definition tcp_kill_timewait : WM unit :=
  let* w := get in
  let* inactive := find_oldest (tcp_ticks (tw_st w)) (fun _ => true) (tcp_tw_pcbs (tw_st w)) 0 0 in
  if negb (inactive =? 0) then focus inactive (tcp_abort cb) else ret tt.

(** "send pending FIN": what [tcp_handle_closepend] and [tcp_fasttmr] do with a control block. *)
Definition send_pending_fin : TM unit :=
  let* f := getp flags in
  when (has f TF_CLOSEPEND) (tcp_clear_flags TF_CLOSEPEND ;;; let* _ := tcp_close_shutdown_fin in ret tt).

Fixpoint handle_closepend (l : list Z) : WM unit :=
  match l with
  | [] => ret tt
  | a :: rest => focus a send_pending_fin ;;; handle_closepend rest
  end.
Definition tcp_handle_closepend : WM unit := let* w := get in handle_closepend (tcp_active_pcbs (tw_st w)).

(** A zeroed control block, and the fields [tcp_alloc] sets. *)
Definition tcp_pcb_zero : tcp_pcb :=
  mkPcb IP4_ADDR_ANY IP4_ADDR_ANY 0 0 CLOSED 0 0 0 0 0 0 0 0 0 0 0 0 0 0 0 0 0 0 0 0 0 0 0 0 0 0 0 0 0 0
    [] [] [] [] false 0 0 0 0 0.
Definition tcp_pcb_new (ticks : Z) : tcp_pcb :=
  tcp_pcb_zero <| snd_buf := TCP_SND_BUF |> <| rcv_wnd := TCP_WND |> <| rcv_ann_wnd := TCP_WND |>
    <| mss := INITIAL_MSS |> <| rto := 3000 / TCP_SLOW_INTERVAL |> <| sv := 3000 / TCP_SLOW_INTERVAL |>
    <| rtime := -1 |> <| cwnd := 1 |> <| tmr := ticks |> <| ssthresh := TCP_SND_BUF |>.
Definition tcp_sock_new (prio ticks timer_ctr : Z) : tcp_sock :=
  mkSock (tcp_pcb_new ticks) prio 0 0 TCP_TTL 0 0 timer_ctr TCP_KEEPIDLE_DEFAULT.

(** A further attempt, if there is no control block yet. *)
Definition or_else (pcb : Z) (free_one : WM unit) : WM Z :=
  if pcb =? 0 then free_one ;;; memp_malloc_tcp else ret pcb.

Definition tcp_alloc (prio : Z) : WM Z :=
  let* pcb := memp_malloc_tcp in
  let* pcb := or_else pcb (tcp_handle_closepend ;;; tcp_kill_timewait) in
  let* pcb := or_else pcb (tcp_kill_state LAST_ACK) in
  let* pcb := or_else pcb (tcp_kill_state CLOSING) in
  let* pcb := or_else pcb (tcp_kill_prio prio) in
  if pcb =? 0 then ret 0 else
  modify (fun w => w <| tw_socks := <[pcb := tcp_sock_new prio (tcp_ticks (tw_st w)) (tcp_timer_ctr w)]> (tw_socks w) |>) ;;;
  ret pcb.

Definition tcp_new : WM Z := tcp_alloc TCP_PRIO_NORMAL.
Definition tcp_new_ip_type (type : Z) : WM Z :=
  let* pcb := tcp_alloc TCP_PRIO_NORMAL in
  if pcb =? 0 then ret 0 else
  upd_pcb pcb (fun p => p <| local_ip := mkIpAddr (u_addr (local_ip p)) type |>
                          <| remote_ip := mkIpAddr (u_addr (remote_ip p)) type |>) ;;;
  ret pcb.

(** The functions a control block has as long as the application registers no others. *)
Definition tcp_accept_null (err : Z) : TM Z := tcp_abort cb ;;; ret ERR_ABRT.
End Alloc.

Definition tcp_recv_null (p : pkt) : TM Z :=
  match p with
  | [] => tcp_close
  | _ => let* n := pkt_tot_len p in tcp_recved n ;;; ret ERR_OK
  end.

Definition tcp_setprio (pcb prio_ : Z) : WM unit := upd_sock pcb (fun k => k <| prio := prio_ |>).
Definition tcp_poll (pcb interval : Z) : WM unit :=
  let* st := get_state pcb in
  lwip_assert "invalid socket state for poll" (negb (state_is st LISTEN)) ;;;
  upd_sock pcb (fun k => k <| pollinterval := interval |>).

(** ** Listening *)

Definition tcp_listen_with_backlog_and_err (pcb : Z) : WM (Z * Z) :=
  lwip_assert "tcp_listen_with_backlog_and_err: invalid pcb" (negb (pcb =? 0)) ;;;
  let* st := get_state pcb in
  lwip_assert "tcp_listen_with_backlog_and_err: pcb already connected" (state_is st CLOSED) ;;;
  if state_is st LISTEN then ret (pcb, ERR_ALREADY) else
  let* lpcb := memp_malloc_tcp in
  if lpcb =? 0 then ret (0, ERR_MEM) else
  let* k := get_sock pcb in
  let p := sk k in
  modify (fun w => w <| tw_listens := <[lpcb := mkListen (ip_addr_copy (local_ip p)) (ip_type (local_ip p)) (local_port p)
                                                 (prio k) (so_options k) NETIF_NO_INDEX (ttl k) (tos k)]> (tw_listens w) |>) ;;;
  (if negb (local_port p =? 0) then TCP_RMV_BOUND_PCB pcb else ret tt) ;;;
  focus pcb tcp_free ;;;
  TCP_REG_LISTEN lpcb ;;;
  ret (lpcb, ERR_OK).
Definition tcp_listen_with_backlog (pcb : Z) : WM Z :=
  let* r := tcp_listen_with_backlog_and_err pcb in ret (fst r).

(** ** Closing a listener *)

(** [tcp_remove_listener(list, lpcb)]. *)
Fixpoint tcp_remove_listener (l : list Z) (lpcb : Z) : WM unit :=
  match l with
  | [] => ret tt
  | a :: rest =>
      upd_pcb a (fun p => if listener p =? lpcb then p <| listener := 0 |> else p) ;;;
      tcp_remove_listener rest lpcb
  end.
Definition tcp_listen_closed (lpcb : Z) : WM unit :=
  let* w := get in
  tcp_remove_listener (tcp_bound_pcbs (tw_st w)) lpcb ;;;
  tcp_remove_listener (tcp_active_pcbs (tw_st w)) lpcb ;;;
  tcp_remove_listener (tcp_tw_pcbs (tw_st w)) lpcb.

(** [tcp_pcbs_sane]. *)
Fixpoint socks_assert (msg : string) (ok : tcp_state -> bool) (l : list Z) : WM unit :=
  match l with
  | [] => ret tt
  | a :: rest => let* k := get_sock a in lwip_assert msg (ok (state (sk k))) ;;; socks_assert msg ok rest
  end.
Definition pcbs_sane : WM unit :=
  let* w := get in
  socks_assert "tcp_pcbs_sane: active pcb" active_state (tcp_active_pcbs (tw_st w)) ;;;
  socks_assert "tcp_pcbs_sane: tw pcb->state == TIME-WAIT" (fun st => state_is st TIME_WAIT) (tcp_tw_pcbs (tw_st w)).

(** The [LISTEN] case of [tcp_close_shutdown]: [tcp_listen_closed], [tcp_pcb_remove] on the
    list of listeners, where there is nothing to purge, and [tcp_free_listen]. *)
Definition tcp_close_listen (lpcb : Z) : WM Z :=
  let* _ := get_listen lpcb in
  tcp_listen_closed lpcb ;;;
  modify (fun w => w <| tcp_listen_pcbs := TCP_RMV (tcp_listen_pcbs w) lpcb |>) ;;;
  pcbs_sane ;;;
  modify (fun w => w <| tw_listens := delete lpcb (tw_listens w) |>) ;;;
  ret ERR_OK.

(** [tcp_close] of a control block of either type. *)
Definition tcp_close_any (pcb : Z) : WM Z :=
  let* st := get_state pcb in
  if state_is st LISTEN then tcp_close_listen pcb else focus pcb tcp_close.

(** ** Connecting *)

Definition tcp_next_iss : WM Z :=
  modify (fun w => w <| tcp_iss := u32_t (tcp_iss w + tcp_ticks (tw_st w)) |>) ;;;
  let* w := get in ret (tcp_iss w).

(** The fields of a connection that is about to be opened. *)
Definition connect_pcb (iss : Z) (p : tcp_pcb) : tcp_pcb :=
  p <| rcv_nxt := 0 |> <| snd_nxt := iss |> <| lastack := u32_t (iss - 1) |> <| snd_wl2 := u32_t (iss - 1) |>
    <| snd_lbb := u32_t (iss - 1) |> <| rcv_wnd := TCP_WND |> <| rcv_ann_wnd := TCP_WND |> <| rcv_ann_right_edge := 0 |>
    <| snd_wnd := TCP_WND |> <| mss := INITIAL_MSS |>.

(** [tcp_connect] from the point where the addresses and the port are known. *)
Definition connect_send (pcb old_local_port : Z) : WM Z :=
  let* iss := tcp_next_iss in
  upd_pcb pcb (connect_pcb iss) ;;;
  focus pcb (let* p := gets st_pcb in
             let* m := tcp_eff_send_mss_netif (mss p) false (remote_ip p) in
             modp (fun p => p <| mss := m |> <| cwnd := 1 |>)) ;;;
  let* r := focus pcb (tcp_enqueue_flags TCP_SYN) in
  if r =? ERR_OK then
    upd_pcb pcb (fun p => p <| state := SYN_SENT |>) ;;;
    (if negb (old_local_port =? 0) then TCP_RMV_BOUND_PCB pcb else ret tt) ;;;
    TCP_REG_ACTIVE pcb ;;;
    let* _ := focus pcb tcp_output in
    ret r
  else ret r.

(** "check if local IP has been assigned to pcb, if not, get one": [false] when there is none. *)
Definition connect_local_ip (pcb nif : Z) (ipaddr : ip_addr) : WM bool :=
  let* k := get_sock pcb in
  if ip_addr_isany_val (local_ip (sk k)) then
    let* local := on_net (ip_netif_get_local_ip nif ipaddr) in
    match local with
    | None => ret false
    | Some a => upd_pcb pcb (fun p => p <| local_ip := ip_addr_copy a |>) ;;; ret true
    end
  else ret true.

Definition connect_zone (pcb nif : Z) : WM unit :=
  let* k := get_sock pcb in
  let remote := remote_ip (sk k) in
  if IP_IS_V6_VAL remote && ip6_addr_lacks_zone (ip_2_ip6 remote) IP6_UNICAST then
    let* n := on_net (get_netif nif) in
    upd_pcb pcb (fun p => p <| remote_ip := mkIpAddr (ip6_addr_assign_zone IP6_UNICAST n (ip_2_ip6 remote)) (ip_type remote) |>)
  else ret tt.

Definition tcp_connect (pcb : Z) (ipaddr : ip_addr) (port : Z) : WM Z :=
  lwip_assert "tcp_connect: invalid pcb" (negb (pcb =? 0)) ;;;
  let* st := get_state pcb in
  lwip_assert "tcp_connect: can only connect from state CLOSED" (state_is st CLOSED) ;;;
  upd_pcb pcb (fun p => p <| remote_ip := ip_addr_set ipaddr |> <| remote_port := port |>) ;;;
  let* k := get_sock pcb in
  let* nif := (if negb (netif_idx k =? NETIF_NO_INDEX) then on_net (netif_get_by_index (netif_idx k))
               else on_net (ip_route (local_ip (sk k)) (remote_ip (sk k)))) in
  if nif =? 0 then ret ERR_RTE else
  let* has_ip := connect_local_ip pcb nif ipaddr in
  if negb has_ip then ret ERR_RTE else
  connect_zone pcb nif ;;;
  let* k := get_sock pcb in
  let old_local_port := local_port (sk k) in
  if old_local_port =? 0 then
    let* port := tcp_new_port in
    upd_pcb pcb (fun p => p <| local_port := port |>) ;;;
    if port =? 0 then ret ERR_BUF else connect_send pcb old_local_port
  else connect_send pcb old_local_port.

(** ** A change of the interface's address *)

Section AddrChanged.
Context (cb : tcp_callbacks).

Fixpoint tcp_netif_ip_addr_changed_pcblist (old_addr : ip_addr) (l : list Z) : WM unit :=
  match l with
  | [] => ret tt
  | a :: rest =>
      let* k := get_sock a in
      (if ip_addr_cmp (local_ip (sk k)) old_addr then focus a (tcp_abort cb) else ret tt) ;;;
      tcp_netif_ip_addr_changed_pcblist old_addr rest
  end.

Fixpoint listen_addr_changed (old_addr new_addr : ip_addr) (l : list Z) : WM unit :=
  match l with
  | [] => ret tt
  | a :: rest =>
      upd_listen a (fun l => if ip_addr_cmp (l_local_ip l) old_addr then l <| l_local_ip := ip_addr_copy new_addr |> else l) ;;;
      listen_addr_changed old_addr new_addr rest
  end.

(** [new_addr] is [None] for [NULL]; [ip_addr_isany(NULL)] holds. *)
Definition tcp_netif_ip_addr_changed (old_addr : ip_addr) (new_addr : option ip_addr) : WM unit :=
  if negb (ip_addr_isany_val old_addr) then
    let* w := get in
    tcp_netif_ip_addr_changed_pcblist old_addr (tcp_active_pcbs (tw_st w)) ;;;
    let* w := get in
    tcp_netif_ip_addr_changed_pcblist old_addr (tcp_bound_pcbs (tw_st w)) ;;;
    match new_addr with
    | Some new_addr =>
        if negb (ip_addr_isany_val new_addr) then
          let* w := get in listen_addr_changed old_addr new_addr (tcp_listen_pcbs w)
        else ret tt
    | None => ret tt
    end
  else ret tt.
End AddrChanged.
