(* ===== verification/TcpDemux.v ===== *)
(** * From the packet to the control block ([tcp_input] of [core/tcp_in.c])

    The search for the control block an incoming segment belongs to, and what a listener
    does with a connection request.  With [TUN2SOCKS] the first listener takes every
    request, whatever its addresses and ports. *)

From S2P Require Import Prelude Def IpAddr Pbuf Net Netif.
From S2P Require Import Tcp TcpOut TcpIn TcpOpt TcpOutput TcpProcess TcpInput TcpWrite.
From S2P Require Import TcpClose TcpParse TcpPcbs.

(** ** The search *)

(** The addresses and ports of the segment in hand, and the index of the interface it came in by. *)
Record conn_key := mkKey { ck_src : ip_addr; ck_dest : ip_addr; ck_sport : Z; ck_dport : Z; ck_inp : Z }.

(** The control block is for the segment: interface, ports, addresses. *)
Definition pcb_matches (c : conn_key) (k : tcp_sock) : bool :=
  negb (negb (netif_idx k =? NETIF_NO_INDEX) && negb (netif_idx k =? ck_inp c)) &&
  ((remote_port (sk k) =? ck_sport c) && (local_port (sk k) =? ck_dport c) &&
   ip_addr_cmp (remote_ip (sk k)) (ck_src c) && ip_addr_cmp (local_ip (sk k)) (ck_dest c)).

Fixpoint find_active (c : conn_key) (l : list Z) : WM (option Z) :=
  match l with
  | [] => ret None
  | a :: rest =>
      let* k := get_sock a in
      lwip_assert "tcp_input: active pcb->state != CLOSED" (negb (state_is (state (sk k)) CLOSED)) ;;;
      lwip_assert "tcp_input: active pcb->state != TIME-WAIT" (negb (state_is (state (sk k)) TIME_WAIT)) ;;;
      lwip_assert "tcp_input: active pcb->state != LISTEN" (negb (state_is (state (sk k)) LISTEN)) ;;;
      if pcb_matches c k then ret (Some a) else find_active c rest
  end.
Fixpoint find_timewait (c : conn_key) (l : list Z) : WM (option Z) :=
  match l with
  | [] => ret None
  | a :: rest =>
      let* k := get_sock a in
      lwip_assert "tcp_input: TIME-WAIT pcb->state == TIME-WAIT" (state_is (state (sk k)) TIME_WAIT) ;;;
      if pcb_matches c k then ret (Some a) else find_timewait c rest
  end.

(** "Move this PCB to the front of the list". *)
Definition to_front (l : list Z) (a : Z) : list Z :=
  match l with
  | h :: _ => if h =? a then l else a :: TCP_RMV l a
  | [] => l
  end.

(** Where a segment goes. *)
Inductive tcp_dest := ToActive (a : Z) | ToTimeWait (a : Z) | ToListener (a : Z) | ToNobody.

Definition tcp_demux (c : conn_key) : WM tcp_dest :=
  let* w := get in
  let* r := find_active c (tcp_active_pcbs (tw_st w)) in
  match r with
  | Some a => mod_st (fun s => s <| tcp_active_pcbs := to_front (tcp_active_pcbs s) a |>) ;;; ret (ToActive a)
  | None =>
      let* r := find_timewait c (tcp_tw_pcbs (tw_st w)) in
      match r with
      | Some a => ret (ToTimeWait a)
      | None => ret (match tcp_listen_pcbs w with a :: _ => ToListener a | [] => ToNobody end)
      end
  end.

(** ** Connection requests *)

Section Input.
Context (cb : tcp_callbacks).

(** "Set up the new PCB". *)
Definition listen_pcb (c : conn_key) (lpcb iss sq : Z) (p : tcp_pcb) : tcp_pcb :=
  p <| local_ip := ip_addr_copy (ck_dest c) |> <| remote_ip := ip_addr_copy (ck_src c) |>
    <| local_port := ck_dport c |> <| remote_port := ck_sport c |> <| state := SYN_RCVD |>
    <| rcv_nxt := u32_t (sq + 1) |> <| rcv_ann_right_edge := u32_t (sq + 1) |>
    <| snd_wl2 := iss |> <| snd_nxt := iss |> <| lastack := iss |> <| snd_lbb := iss |>
    <| snd_wl1 := u32_t (sq - 1) |> <| listener := lpcb |>.

(** The options of the SYN, the window, and the answer. *)
Definition listen_answer : TM unit :=
  tcp_parseopt ;;;
  let* s := get in
  modp (fun p => p <| snd_wnd := in_wnd s |>) ;;;
  modp (fun p => p <| snd_wnd_max := snd_wnd p |>) ;;;
  let* p := gets st_pcb in
  let* m := tcp_eff_send_mss (mss p) (remote_ip p) in
  modp (fun p => p <| mss := m |>) ;;;
  let* rc := tcp_enqueue_flags (Z.lor TCP_SYN TCP_ACK) in
  if negb (rc =? ERR_OK) then tcp_abandon cb false
  else let* _ := tcp_output in ret tt.

Definition tcp_listen_input (c : conn_key) (lpcb : Z) : WM unit :=
  let* w := get in
  let fl := in_flags (tw_st w) in
  if has fl TCP_RST then ret tt
  else if has fl TCP_ACK then globally (rst_reply)
  else if has fl TCP_SYN then
    let* l := get_listen lpcb in
    let* npcb := tcp_alloc cb (l_prio l) in
    if npcb =? 0 then let* _ := globally (TCP_EVENT_ACCEPT cb ERR_MEM) in ret tt
    else
      let* iss := tcp_next_iss in
      let* w := get in
      upd_pcb npcb (listen_pcb c lpcb iss (seqno (tw_st w))) ;;;
      upd_sock npcb (fun k => k <| so_options := Z.land (l_so_options l) SOF_INHERITED |> <| netif_idx := l_netif_idx l |>) ;;;
      TCP_REG_ACTIVE npcb ;;;
      focus npcb listen_answer
  else ret tt.

(** ** [tcp_input] *)

(** The header is read; [p] is the data. *)
Definition tcp_input_demux (c : conn_key) (p : pkt) : WM unit :=
  let* d := tcp_demux c in
  match d with
  | ToActive a => focus a (tcp_input_pcb_found cb p)
  | ToTimeWait a => focus a tcp_timewait_input
  | ToListener l => tcp_listen_input c l
  | ToNobody => globally tcp_input_no_pcb ;;; pcbs_sane
  end.

(** [tcp_input(p, inp)] for a packet whose IP header is in [ip_data]. *)
Definition tcp_input (p : pkt) : WM unit :=
  let* w := get in
  let g := ip_data (tw_net w) in
  let* n := on_net (get_netif (current_netif g)) in
  let* inp := on_net (get_netif (current_input_netif g)) in
  let dest := current_iphdr_dest g in
  let* r := globally (tcp_input_header (ip_addr_isbroadcast dest n || ip_addr_ismulticast dest) 
    (negb ((current_ip6_header g).1 =? 0)) p) in
  match r with
  | None => ret tt
  | Some p =>
      let* w := get in
      tcp_input_demux (mkKey (current_iphdr_src g) dest (in_src (tw_st w)) (in_dest (tw_st w)) (netif_get_index inp)) p
  end.
End Input.
