(* ===== verification/TcpTimer.v ===== *)
(** * The timers of TCP ([tcp_slowtmr], [tcp_fasttmr], [tcp_tmr], [tcp_txnow] of [core/tcp.c];
    [tcp_keepalive], [tcp_zero_window_probe] of [core/tcp_out.c])

    Every 250 ms [tcp_fasttmr] sends delayed acknowledgements, pending FINs and refused
    data, every 500 ms [tcp_slowtmr] looks after retransmission, the persist timer,
    keep-alive and the time-outs of the states.  A callback that changes the list of active
    control blocks makes the walk start again; [last_timer] marks those already done. *)

From S2P Require Import Prelude Def IpAddr Pbuf Net Netif.
From S2P Require Import Tcp TcpOut TcpIn TcpOpt TcpOutput TcpProcess TcpInput TcpWrite.
From S2P Require Import TcpClose TcpPcbs.

Definition TCP_MAXRTX : Z := 12.
Definition TCP_MSL : Z := 60000.
Definition TCP_FIN_WAIT_TIMEOUT : Z := 20000.
Definition TCP_SYN_RCVD_TIMEOUT : Z := 20000.
Definition TCP_OOSEQ_TIMEOUT : Z := 6.
Definition TCP_KEEPINTVL_DEFAULT : Z := 75000.
Definition TCP_KEEPCNT_DEFAULT : Z := 9.
Definition TCP_MAXIDLE : Z := TCP_KEEPCNT_DEFAULT * TCP_KEEPINTVL_DEFAULT.
Definition SOF_KEEPALIVE : Z := 8.
Definition tcp_backoff : list Z := [1; 2; 3; 4; 5; 6; 7; 7; 7; 7; 7; 7; 7].
Definition tcp_persist_backoff : list Z := [3; 6; 12; 24; 48; 96; 120].

(** ** Probes *)

Definition tcp_keepalive : TM Z :=
  let* nxt := getp snd_nxt in
  let* p := tcp_output_alloc_header (u32_t (nxt - 1)) in
  match p with
  | None => ret ERR_MEM
  | Some o => tcp_output_control_segment o
  end.

(** The byte at the head of the data; with no data the fresh buffer keeps what was in it. *)
Definition probe_byte (seg : tcp_seg) : TM Z :=
  match zdrop (zlen (pkt_bytes (seg_p seg)) - seg_len seg) (pkt_bytes (seg_p seg)) with
  | b :: _ => ret b
  | [] => let* junk := ask in ret (u8_t junk)
  end.

(** The header with other flags and data. *)
Definition out_with (fl : Z) (data : list Z) (o : tcp_out) : tcp_out :=
  mkOut (o_src o) (o_dest o) (o_seqno o) (o_ackno o) fl (o_wnd o) (o_opts o) data.

Definition tcp_zero_window_probe : TM Z :=
  let* q := getp unsent in
  match q with
  | [] => ret ERR_OK
  | seg :: _ =>
      modp (fun p => if persist_probe p <? 255 then p <| persist_probe := persist_probe p + 1 |> else p) ;;;
      let is_fin := has (seg_flags seg) TCP_FIN && (seg_len seg =? 0) in
      let* p := tcp_output_alloc_header (seg_seqno seg) in
      match p with
      | None => ret ERR_MEM
      | Some o =>
          let* o := (if is_fin then ret (out_with (Z.lor TCP_ACK TCP_FIN) (o_data o) o)
                     else let* d := probe_byte seg in ret (out_with (o_flags o) [d] o)) in
          let next := u32_t (seg_seqno seg + 1) in
          modp (fun p => if TCP_SEQ_LT (snd_nxt p) next then p <| snd_nxt := next |> else p) ;;;
          tcp_output_control_segment o
      end
  end.

(** ** [tcp_slowtmr]: one control block *)

(** "increment timer to next slot". *)
Definition persist_next_slot : TM unit :=
  modp (fun p => p <| persist_cnt := 0 |>) ;;;
  modp (fun p => if persist_backoff p <? zlen tcp_persist_backoff then p <| persist_backoff := persist_backoff p + 1 |> else p).

(** What the persist timer does when the slot is over: whether to go to the next one. *)
Definition persist_fires : TM bool :=
  let* wnd := getp snd_wnd in
  if wnd =? 0 then
    let* e := tcp_zero_window_probe in ret (e =? ERR_OK)
  else
    let* e := tcp_split_unsent_seg (u16_t wnd) in
    if e =? ERR_OK then let* e := tcp_output in ret (negb (e =? ERR_OK)) else ret true.

(** [true]: the control block is to be removed. *)
Definition slow_persist : TM bool :=
  let* p := gets st_pcb in
  lwip_assert "tcp_slowtimr: persist ticking with in-flight data" (match unacked p with [] => true | _ => false end) ;;;
  lwip_assert "tcp_slowtimr: persist ticking with empty send buffer" (match unsent p with [] => false | _ => true end) ;;;
  if TCP_MAXRTX <=? persist_probe p then ret true else
  match tcp_persist_backoff !! Z.to_nat (persist_backoff p - 1) with
  | None => fail BadAccess
  | Some backoff_cnt =>
      modp (fun p => if persist_cnt p <? backoff_cnt then p <| persist_cnt := persist_cnt p + 1 |> else p) ;;;
      let* cnt := getp persist_cnt in
      when (backoff_cnt <=? cnt) (let* next_slot := persist_fires in when next_slot persist_next_slot) ;;;
      ret false
  end.

(** The retransmission time-out: the doubled [rto] and the smaller windows. *)
Definition calc_rto (p : tcp_pcb) : Z :=
  Z.shiftl (Z.shiftr (sa p) 3 + sv p) (nth (Z.to_nat (Z.min (nrtx p) (zlen tcp_backoff - 1))) tcp_backoff 0).
Definition rto_backoff (p : tcp_pcb) : tcp_pcb :=
  let p := if negb (state_is (state p) SYN_SENT) then p <| rto := s16_t (Z.min (calc_rto p) 32767) |> else p in
  let p := p <| rtime := 0 |> in
  let p := p <| ssthresh := Z.shiftr (Z.min (cwnd p) (snd_wnd p)) 1 |> in
  let p := if ssthresh p <? u16_t (Z.shiftl (mss p) 1) then p <| ssthresh := u16_t (Z.shiftl (mss p) 1) |> else p in
  p <| cwnd := mss p |> <| bytes_acked := 0 |>.

Definition slow_rto : TM unit :=
  modp (fun p => if (0 <=? rtime p) && (rtime p <? 32767) then p <| rtime := rtime p + 1 |> else p) ;;;
  let* p := gets st_pcb in
  when (rto p <=? rtime p)
    (let* r := tcp_rexmit_rto_prepare in
     let* p := gets st_pcb in
     when ((r =? ERR_OK) || (match unacked p with [] => true | _ => false end && match unsent p with [] => false | _ => true end))
       (modp rto_backoff ;;; tcp_rexmit_rto_commit)).

Definition slow_retransmit : TM bool :=
  let* p := gets st_pcb in
  if state_is (state p) SYN_SENT && (TCP_SYNMAXRTX <=? nrtx p) then ret true
  else if TCP_MAXRTX <=? nrtx p then ret true
  else if 0 <? persist_backoff p then slow_persist
  else slow_rto ;;; ret false.

(** More than [ms] milliseconds since [tmr]. *)
Definition idle_over (ticks ms : Z) (p : tcp_pcb) : bool := ms / TCP_SLOW_INTERVAL <? u32_t (ticks - tmr p).

(** "Check if KEEPALIVE should be sent": to remove, with a reset. *)
Definition slow_keepalive (so_options keep_idle : Z) : TM bool :=
  let* s := get in
  let p := st_pcb s in
  if has so_options SOF_KEEPALIVE && (state_is (state p) ESTABLISHED || state_is (state p) CLOSE_WAIT) then
    if idle_over (tcp_ticks s) (keep_idle + TCP_MAXIDLE) p then ret true
    else
      when (idle_over (tcp_ticks s) (keep_idle + keep_cnt_sent p * TCP_KEEPINTVL_DEFAULT) p)
        (let* err := tcp_keepalive in
         when (err =? ERR_OK) (modp (fun p => p <| keep_cnt_sent := u8_t (keep_cnt_sent p + 1) |>))) ;;;
      ret false
  else ret false.

(** "drop the data (it will eventually be retransmitted)". *)
Definition tcp_free_ooseq : TM unit := modp (fun p => p <| ooseq := [] |>).
Definition slow_ooseq : TM unit :=
  let* s := get in
  let p := st_pcb s in
  when (match ooseq p with [] => false | _ => true end &&
        (u32_t (u32_t (rto p) * TCP_OOSEQ_TIMEOUT) <=? u32_t (tcp_ticks s - tmr p))) tcp_free_ooseq.

(** The control block is to be removed ([pcb_remove]), with a reset ([pcb_reset]). *)
Definition slow_checks (so_options keep_idle : Z) : TM (bool * bool) :=
  let* r1 := slow_retransmit in
  let* s := get in
  let r2 := state_is (state (st_pcb s)) FIN_WAIT_2 && has (flags (st_pcb s)) TF_RXCLOSED &&
            idle_over (tcp_ticks s) TCP_FIN_WAIT_TIMEOUT (st_pcb s) in
  let* r3 := slow_keepalive so_options keep_idle in
  slow_ooseq ;;;
  let* s := get in
  let r4 := state_is (state (st_pcb s)) SYN_RCVD && idle_over (tcp_ticks s) TCP_SYN_RCVD_TIMEOUT (st_pcb s) in
  let r5 := state_is (state (st_pcb s)) LAST_ACK && idle_over (tcp_ticks s) (2 * TCP_MSL) (st_pcb s) in
  ret (r1 || r2 || r3 || r4 || r5, r3).

(** ** Pointers into a list *)

(** What is behind an element, and its [next] pointer. *)
Fixpoint list_after (l : list Z) (a : Z) : list Z :=
  match l with
  | [] => []
  | x :: r => if x =? a then r else list_after r a
  end.
Definition pcb_next (l : list Z) (a : Z) : Z := hd 0 (list_after l a).
Fixpoint list_upto (l : list Z) (a : Z) : list Z :=
  match l with
  | [] => []
  | x :: r => if x =? a then [x] else x :: list_upto r a
  end.

(** "Remove PCB from the list": [prev->next = pcb->next], or [*pcbs = pcb->next]. *)
Definition unlink (middle first : string) (prev : option Z) (l : list Z) (a : Z) : TM (list Z) :=
  match prev with
  | Some pv => lwip_assert middle (negb (a =? hd 0 l)) ;;; ret (list_upto l pv ++ list_after l a)
  | None => lwip_assert first (hd 0 l =? a) ;;; ret (list_after l a)
  end.

Section Timer.
Context (cb : tcp_callbacks).
(** The [poll] function of a control block, with its answer. *)
Context (cb_poll : TM Z).

Definition slow_remove (prev : option Z) (pcb_reset : bool) : TM unit :=
  tcp_pcb_purge ;;;
  let* s := get in
  let* l := unlink "tcp_slowtmr: middle tcp != tcp_active_pcbs" "tcp_slowtmr: first pcb == tcp_active_pcbs"
              prev (tcp_active_pcbs s) (pcb_addr s) in
  modify (fun s => s <| tcp_active_pcbs := l |>) ;;;
  let* p := gets st_pcb in
  when pcb_reset (tcp_rst (snd_nxt p) (rcv_nxt p) (local_port p) (remote_port p)) ;;;
  tcp_free ;;;
  modify (fun s => s <| tcp_active_pcbs_changed := false |>) ;;;
  TCP_EVENT_ERR cb ERR_ABRT.

(** "We check if we should poll the connection": whether the list was changed. *)
Definition slow_poll (pollinterval : Z) : TM bool :=
  modp (fun p => p <| polltmr := u8_t (polltmr p + 1) |>) ;;;
  let* t := getp polltmr in
  if pollinterval <=? t then
    modp (fun p => p <| polltmr := 0 |>) ;;;
    modify (fun s => s <| tcp_active_pcbs_changed := false |>) ;;;
    let* err := cb_poll in
    let* changed := gets tcp_active_pcbs_changed in
    if (changed : bool) then ret true
    else when (err =? ERR_OK) (deref ;;; let* _ := tcp_output in ret tt) ;;; ret false
  else ret false.

(** Where the [while] loop is: [prev] and [pcb]; [tcp_slowtmr_start] is where it starts again. *)
Definition slow_start (w : tcp_world) : option Z * Z := (None, hd 0 (tcp_active_pcbs (tw_st w))).

(** One round of the loop, and where it goes on. *)
Definition slow_step (prev : option Z) (pcb : Z) : WM (option Z * Z) :=
  let* k := get_sock pcb in
  lwip_assert "tcp_slowtmr: active pcb->state != CLOSED\n" (negb (state_is (state (sk k)) CLOSED)) ;;;
  lwip_assert "tcp_slowtmr: active pcb->state != LISTEN\n" (negb (state_is (state (sk k)) LISTEN)) ;;;
  lwip_assert "tcp_slowtmr: active pcb->state != TIME-WAIT\n" (negb (state_is (state (sk k)) TIME_WAIT)) ;;;
  let* w := get in
  if last_timer k =? tcp_timer_ctr w then ret (Some pcb, pcb_next (tcp_active_pcbs (tw_st w)) pcb)
  else
    upd_sock pcb (fun k => k <| last_timer := tcp_timer_ctr w |>) ;;;
    let* r := focus pcb (slow_checks (so_options k) (keep_idle k)) in
    let* w := get in
    let next := pcb_next (tcp_active_pcbs (tw_st w)) pcb in
    if (fst r : bool) then
      focus pcb (slow_remove prev (snd r)) ;;;
      let* w := get in
      ret (if tcp_active_pcbs_changed (tw_st w) then slow_start w else (prev, next))
    else
      let* k := get_sock pcb in
      let* restart := focus pcb (slow_poll (pollinterval k)) in
      let* w := get in
      ret (if (restart : bool) then slow_start w else (Some pcb, next)).

Fixpoint slow_loop (fuel : nat) (at_ : option Z * Z) : WM unit :=
  match fuel with
  | O => fail OutOfFuel
  | S fuel =>
      if snd at_ =? 0 then ret tt else
      let* at_ := slow_step (fst at_) (snd at_) in slow_loop fuel at_
  end.

(** A control block in [TIME_WAIT]: whether it stays. *)
Definition slow_timewait (prev : option Z) : TM bool :=
  let* s := get in
  lwip_assert "tcp_slowtmr: TIME-WAIT pcb->state == TIME-WAIT" (state_is (state (st_pcb s)) TIME_WAIT) ;;;
  if idle_over (tcp_ticks s) (2 * TCP_MSL) (st_pcb s) then
    tcp_pcb_purge ;;;
    let* s := get in
    let* l := unlink "tcp_slowtmr: middle tcp != tcp_tw_pcbs" "tcp_slowtmr: first pcb == tcp_tw_pcbs"
                prev (tcp_tw_pcbs s) (pcb_addr s) in
    modify (fun s => s <| tcp_tw_pcbs := l |>) ;;;
    tcp_free ;;;
    ret false
  else ret true.

Fixpoint timewait_loop (prev : option Z) (l : list Z) : WM unit :=
  match l with
  | [] => ret tt
  | pcb :: rest =>
      let* stays := focus pcb (slow_timewait prev) in
      timewait_loop (if (stays : bool) then Some pcb else prev) rest
  end.

(** Between two restarts at most all control blocks are passed, and every restart has done
    one of them for good. *)
Definition loop_fuel (w : tcp_world) : nat :=
  let n := S (length (tcp_active_pcbs (tw_st w))) in S (n * n).

Definition tcp_slowtmr : WM unit :=
  mod_st (fun s => s <| tcp_ticks := u32_t (tcp_ticks s + 1) |>) ;;;
  modify (fun w => w <| tcp_timer_ctr := u8_t (tcp_timer_ctr w + 1) |>) ;;;
  let* w := get in
  slow_loop (loop_fuel w) (slow_start w) ;;;
  let* w := get in
  timewait_loop None (tcp_tw_pcbs (tw_st w)).

(** ** [tcp_fasttmr] *)

(** "send delayed ACKs", "send pending FIN". *)
Definition fast_send : TM unit :=
  let* f := getp flags in
  when (has f TF_ACK_DELAY)
    (tcp_ack_now ;;; let* _ := tcp_output in tcp_clear_flags (Z.lor TF_ACK_DELAY TF_ACK_NOW)) ;;;
  send_pending_fin.

(** "If there is data which was previously refused by upper layer": whether the list was changed. *)
Definition fast_refused : TM bool :=
  let* rd := getp refused_data in
  match rd with
  | [] => ret false
  | _ =>
      modify (fun s => s <| tcp_active_pcbs_changed := false |>) ;;;
      let* _ := tcp_process_refused_data cb in
      gets tcp_active_pcbs_changed
  end.

(** One round of the loop, and where it goes on. *)
Definition fast_step (pcb : Z) : WM Z :=
  let* k := get_sock pcb in
  let* w := get in
  if negb (last_timer k =? tcp_timer_ctr w) then
    upd_sock pcb (fun k => k <| last_timer := tcp_timer_ctr w |>) ;;;
    focus pcb fast_send ;;;
    let* w := get in
    let next := pcb_next (tcp_active_pcbs (tw_st w)) pcb in
    let* restart := focus pcb fast_refused in
    let* w := get in
    ret (if (restart : bool) then hd 0 (tcp_active_pcbs (tw_st w)) else next)
  else ret (pcb_next (tcp_active_pcbs (tw_st w)) pcb).

Fixpoint fast_loop (fuel : nat) (pcb : Z) : WM unit :=
  match fuel with
  | O => fail OutOfFuel
  | S fuel => if pcb =? 0 then ret tt else let* pcb := fast_step pcb in fast_loop fuel pcb
  end.

Definition tcp_fasttmr : WM unit :=
  modify (fun w => w <| tcp_timer_ctr := u8_t (tcp_timer_ctr w + 1) |>) ;;;
  let* w := get in
  fast_loop (loop_fuel w) (hd 0 (tcp_active_pcbs (tw_st w))).

Definition tcp_tmr : WM unit :=
  tcp_fasttmr ;;;
  modify (fun w => w <| tcp_timer := u8_t (tcp_timer w + 1) |>) ;;;
  let* w := get in
  if negb (Z.land (tcp_timer w) 1 =? 0) then tcp_slowtmr else ret tt.
End Timer.

(** ** [tcp_txnow] *)

Definition txnow_one : TM unit :=
  let* f := getp flags in when (has f TF_NAGLEMEMERR) (let* _ := tcp_output in ret tt).
Fixpoint txnow_loop (l : list Z) : WM unit :=
  match l with
  | [] => ret tt
  | a :: rest => focus a txnow_one ;;; txnow_loop rest
  end.
Definition tcp_txnow : WM unit := let* w := get in txnow_loop (tcp_active_pcbs (tw_st w)).
