(* ===== verification/TcpLists.v ===== *)
(** * The lists of control blocks

    Every function of a connection keeps the lists sound: nothing is on a list twice, and
    the control blocks of a list exist and are in a state the list is for.  This holds for
    all segments, all answers of the outside world and all applications that keep to it
    themselves. *)

From S2P Require Import Prelude Def IpAddr Tcp TcpOut TcpIn TcpOpt TcpOutput TcpProcess.
From S2P Require Import TcpStream TcpMachine TcpInput TcpApp TcpWrite TcpClose TcpSteps.
From S2P Require Import TcpPcbs TcpDemux TcpTimer.

(** ** Functions that leave the lists alone *)

Definition lists_of (s : tcp_st) :=
  (pcb_addr s, pcb_freed s, (tcp_active_pcbs s, tcp_tw_pcbs s, tcp_bound_pcbs s, tcp_active_pcbs_changed s),
   other_state s, tcp_input_pcb s).
(** Where the control block belongs. *)
Definition place_of (p : tcp_pcb) := (state p, local_port p).
(** What the segment has led to so far. *)
Definition verdict_of (s : tcp_st) := (has (recv_flags s) TF_RESET, has (recv_flags s) TF_CLOSED).

(** The state changes at most from [ESTABLISHED] to [CLOSE_WAIT]. *)
Record calm (s s' : tcp_st) : Prop := Calm {
  cm_lists : lists_of s' = lists_of s;
  cm_state : state (st_pcb s') = state (st_pcb s) \/ state (st_pcb s) = ESTABLISHED /\ state (st_pcb s') = CLOSE_WAIT;
  cm_port : local_port (st_pcb s') = local_port (st_pcb s);
  cm_verdict : verdict_of s' = verdict_of s
}.
#[export] Instance calm_preorder : PreOrder calm.
Proof.
  split; [intros s; split; auto|].
  intros s1 s2 s3 [A B C D] [A' B' C' D']. split; try congruence.
  destruct B as [B|[B B2]], B' as [B'|[B' B2']]; rewrite ?B, ?B2 in *; auto; congruence.
Qed.
#[export] Hint Resolve calm_preorder : steps.

Lemma calm_same s s' : lists_of s' = lists_of s -> place_of (st_pcb s') = place_of (st_pcb s) ->
  recv_flags s' = recv_flags s -> calm s s'.
Proof. intros E [= E1 E2] Ef. split; auto. unfold verdict_of. by rewrite Ef. Qed.
Lemma calm_fin s : calm s (s <| recv_flags := Z.lor (recv_flags s) TF_GOT_FIN |>).
Proof. split; auto. unfold verdict_of. rec_simpl. by rewrite !has_lor, !orb_false_r. Qed.
#[export] Hint Extern 1 (steps calm (modp _)) => apply steps_modp; intros; apply calm_same; [done|repeat case_match; done|done] : steps.
#[export] Hint Extern 1 (steps calm (modify _)) => apply steps_modify; intros; first [apply calm_fin | apply calm_same; repeat case_match; done] : steps.
#[export] Hint Extern 1 (steps calm ask) => apply steps_ask; [apply calm_preorder|intros; by apply calm_same] : steps.
#[export] Hint Extern 1 (steps calm (tcp_set_flags _)) => apply steps_modp; intros; by apply calm_same : steps.
#[export] Hint Extern 1 (steps calm (tcp_clear_flags _)) => apply steps_modp; intros; by apply calm_same : steps.
#[export] Hint Extern 1 (steps calm tcp_ack_now) => apply steps_modp; intros; by apply calm_same : steps.

Lemma steps_fail R {A} f : steps R (fail f : TM A).
Proof. by intros s r s' [=]. Qed.

(** A bind, a conditional or a match, down to its parts. *)
Ltac steps_step :=
  lazymatch goal with
  | |- steps _ (bind _ _) => apply steps_bind; [apply _| |intros ?]
  | |- steps _ (when _ _) => apply steps_when; [apply _|]
  | |- steps _ (ret _) => apply steps_ret; apply _
  | |- steps _ get => apply steps_get; apply _
  | |- steps _ (gets _) => apply steps_gets; apply _
  | |- steps _ (getp _) => apply steps_getp; apply _
  | |- steps _ (lwip_assert _ _) => apply steps_assert; apply _
  | |- steps _ (fail _) => apply steps_fail
  | |- steps _ (if ?x then _ else _) => first [apply steps_if | destruct x]
  | |- steps _ (match ?x with _ => _ end) => destruct x
  | |- steps _ (let _ := _ in _) => cbv zeta
  | |- steps _ _ => solve [auto 2 with steps]
  end.
Ltac calm_tac := intros; repeat steps_step.

Lemma calm_update_ann_wnd : steps calm tcp_update_rcv_ann_wnd.
Proof. unfold tcp_update_rcv_ann_wnd. calm_tac. Qed.
Lemma calm_purge : steps calm tcp_pcb_purge.
Proof. unfold tcp_pcb_purge. calm_tac. Qed.
Lemma calm_alloc_header n : steps calm (tcp_output_alloc_header n).
Proof. unfold tcp_output_alloc_header, tcp_output_alloc_header_common. calm_tac. Qed.
Lemma calm_control_segment o : steps calm (tcp_output_control_segment o).
Proof. unfold tcp_output_control_segment. calm_tac. Qed.
#[export] Hint Resolve calm_update_ann_wnd calm_purge calm_alloc_header calm_control_segment : steps.
Lemma calm_rst a b c d : steps calm (tcp_rst a b c d).
Proof. unfold tcp_rst, tcp_output_alloc_header_common. calm_tac. Qed.
Lemma calm_empty_ack : steps calm tcp_send_empty_ack.
Proof. unfold tcp_send_empty_ack. calm_tac. Qed.
Lemma calm_rexmit : steps calm tcp_rexmit.
Proof. unfold tcp_rexmit, tcp_output_segment_busy. calm_tac. Qed.
#[export] Hint Resolve calm_rst calm_empty_ack calm_rexmit : steps.
Lemma calm_rexmit_fast : steps calm tcp_rexmit_fast.
Proof. unfold tcp_rexmit_fast. calm_tac. Qed.
Lemma calm_eff_mss m b a : steps calm (tcp_eff_send_mss_netif m b a).
Proof. unfold tcp_eff_send_mss_netif. calm_tac. Qed.
Lemma calm_eff_send_mss m a : steps calm (tcp_eff_send_mss m a).
Proof. unfold tcp_eff_send_mss. pose proof calm_eff_mss. calm_tac. Qed.
#[export] Hint Resolve calm_rexmit_fast calm_eff_mss calm_eff_send_mss : steps.

(** *** Output *)

Lemma calm_output_segment x : steps calm (tcp_output_segment x).
Proof. unfold tcp_output_segment, tcp_output_segment_busy. calm_tac. Qed.
#[export] Hint Resolve calm_output_segment : steps.
Lemma output_sent_place x rest p : place_of (output_sent x rest p) = place_of p.
Proof. unfold output_sent. repeat case_match; done. Qed.
Lemma calm_output_loop wnd q : steps calm (output_loop wnd q).
Proof.
  induction q as [|x rest IH]; cbn [output_loop]; calm_tac.
  apply steps_modp. intros s. apply calm_same; [done| |done]. apply output_sent_place.
Qed.
#[export] Hint Resolve calm_output_loop : steps.
Lemma calm_output : steps calm tcp_output.
Proof. unfold tcp_output, tcp_output_queued, output_local_ip, output_blocked, output_done. calm_tac. Qed.
Lemma calm_any_busy q : steps calm (any_busy q).
Proof. induction q; cbn [any_busy]; unfold tcp_output_segment_busy; calm_tac. Qed.
#[export] Hint Resolve calm_output calm_any_busy : steps.
Lemma calm_rto_prepare : steps calm tcp_rexmit_rto_prepare.
Proof. unfold tcp_rexmit_rto_prepare. calm_tac. Qed.
Lemma calm_rto_commit : steps calm tcp_rexmit_rto_commit.
Proof. unfold tcp_rexmit_rto_commit. calm_tac. Qed.
#[export] Hint Resolve calm_rto_prepare calm_rto_commit : steps.
Lemma calm_rexmit_rto : steps calm tcp_rexmit_rto.
Proof. unfold tcp_rexmit_rto. calm_tac. Qed.
#[export] Hint Resolve calm_rexmit_rto : steps.

(** *** Queueing *)

Lemma calm_create_segment p a b c : steps calm (tcp_create_segment p a b c).
Proof. unfold tcp_create_segment. calm_tac. Qed.
Lemma calm_prealloc a b c d : steps calm (tcp_pbuf_prealloc a b c d).
Proof. unfold tcp_pbuf_prealloc. calm_tac. Qed.
Lemma calm_chksum_copy d : steps calm (LWIP_CHKSUM_COPY d).
Proof. unfold LWIP_CHKSUM_COPY. calm_tac. Qed.
Lemma calm_chksum_nocopy d : steps calm (chksum_nocopy d).
Proof. unfold chksum_nocopy. calm_tac. Qed.
Lemma calm_valid_queuelen : steps calm valid_queuelen.
Proof. unfold valid_queuelen. calm_tac. Qed.
#[export] Hint Resolve calm_create_segment calm_prealloc calm_chksum_copy calm_chksum_nocopy calm_valid_queuelen : steps.
Lemma calm_enqueue_flags fl : steps calm (tcp_enqueue_flags fl).
Proof. unfold tcp_enqueue_flags. calm_tac. Qed.
#[export] Hint Resolve calm_enqueue_flags : steps.
Lemma calm_send_fin : steps calm tcp_send_fin.
Proof. unfold tcp_send_fin. calm_tac. Qed.
Lemma calm_payloads p : forall c sw, steps calm (chksum_payloads p c sw).
Proof. induction p as [|x p IH]; cbn [chksum_payloads]; calm_tac. Qed.
#[export] Hint Resolve calm_send_fin calm_payloads : steps.
Lemma calm_split n : steps calm (tcp_split_unsent_seg n).
Proof. unfold tcp_split_unsent_seg. calm_tac. Qed.
#[export] Hint Resolve calm_split : steps.

Section Write.
Context (arg : list Z) (apiflags : Z) (rom : tcp_seg -> bool).
Lemma calm_phase1 m x w : steps calm (write_phase1 arg m x w).
Proof. unfold write_phase1. calm_tac. Qed.
Lemma calm_phase2 x n w : steps calm (write_phase2 arg apiflags rom x n w).
Proof. unfold write_phase2. calm_tac. Qed.
Lemma calm_new_segment m w : steps calm (write_new_segment arg apiflags m w).
Proof. unfold write_new_segment, write_new_pbufs. calm_tac. Qed.
Lemma calm_phase3 fuel m : forall w, steps calm (write_phase3 arg apiflags fuel m w).
Proof. pose proof calm_new_segment. induction fuel as [|fuel IH]; intros w; cbn [write_phase3]; calm_tac. Qed.
Lemma calm_commit_last w x : steps calm (write_commit_last arg w x).
Proof. unfold write_commit_last. calm_tac. Qed.
Lemma calm_write : steps calm (tcp_write arg apiflags rom).
Proof.
  pose proof calm_phase1. pose proof calm_phase2. pose proof calm_phase3. pose proof calm_commit_last.
  unfold tcp_write, tcp_write_checks, write_commit, write_memerr. calm_tac.
Qed.
End Write.
#[export] Hint Resolve calm_write : steps.

(** *** Input *)

Lemma calm_free_acked q o : steps calm (tcp_free_acked_segments q o).
Proof. induction q as [|x q IH]; cbn [tcp_free_acked_segments]; calm_tac. Qed.
#[export] Hint Resolve calm_free_acked : steps.
Lemma new_ack_place a p : place_of (new_ack_pcb a p) = place_of p.
Proof. unfold new_ack_pcb, receive_cwnd. repeat case_match; done. Qed.
Lemma calm_receive_ack : steps calm receive_ack.
Proof.
  assert (Hn : forall a, steps calm (modp (new_ack_pcb a))).
  { intros a. apply steps_modp. intros s. apply calm_same; [done| |done]. apply new_ack_place. }
  unfold receive_ack, receive_window_update, receive_dupack, receive_new_ack, free_acked_queues, receive_nd6_hint, receive_rtt,
    new_ack_timers, receive_rto_done. calm_tac.
Qed.
Lemma calm_seg_copy x : steps calm (tcp_seg_copy x).
Proof. unfold tcp_seg_copy. calm_tac. Qed.
Lemma calm_tot_len p : steps calm (pkt_tot_len p).
Proof. unfold pkt_tot_len. calm_tac. Qed.
Lemma calm_trim_front p : forall n, steps calm (trim_front p n).
Proof. induction p as [|x p IH]; intros n; cbn [trim_front]; calm_tac. Qed.
Lemma calm_remove_covered q : steps calm (inseq_remove_covered q).
Proof. induction q as [|x q IH]; cbn [inseq_remove_covered]; calm_tac. Qed.
#[export] Hint Resolve calm_receive_ack calm_seg_copy calm_tot_len calm_trim_front calm_remove_covered : steps.
Lemma calm_dequeue_one x rest : steps calm (ooseq_dequeue_one x rest).
Proof.
  unfold ooseq_dequeue_one. calm_tac.
  apply steps_modp. intros s. split; [done| |repeat case_match; done|done]. rec_simpl.
  destruct (state_is (state (st_pcb s)) ESTABLISHED) eqn:E; [right|by left].
  split; [by destruct (state (st_pcb s))|done].
Qed.
#[export] Hint Resolve calm_dequeue_one : steps.
Lemma calm_dequeue q : steps calm (ooseq_dequeue q).
Proof. induction q as [|x q IH]; cbn [ooseq_dequeue]; calm_tac. Qed.
#[export] Hint Resolve calm_dequeue : steps.
Lemma calm_inseq : steps calm receive_inseq.
Proof.
  unfold receive_inseq, inseq_trim_window, inseq_adjust_ooseq, inseq_trim_right, inseq_accept, tcp_ack, receive_nd6_hint. calm_tac.
Qed.
Lemma calm_insert_copy q : steps calm (oos_insert_copy q).
Proof. unfold oos_insert_copy. calm_tac. Qed.
Lemma calm_append x : steps calm (oos_append x).
Proof. unfold oos_append, oos_trim_window. calm_tac. Qed.
#[export] Hint Resolve calm_inseq calm_insert_copy calm_append : steps.
Lemma calm_walk q : forall pv, steps calm (oos_walk pv q).
Proof. induction q as [|x q IH]; intros pv; cbn [oos_walk]; cbv zeta; calm_tac. Qed.
#[export] Hint Resolve calm_walk : steps.
Lemma calm_receive : steps calm tcp_receive.
Proof. unfold tcp_receive, receive_data, receive_trim_front, receive_oos. calm_tac. Qed.
Lemma calm_next_optbyte : steps calm tcp_get_next_optbyte.
Proof. unfold tcp_get_next_optbyte, read_byte. calm_tac. Qed.
#[export] Hint Resolve calm_receive calm_next_optbyte : steps.
Lemma calm_parseopt : steps calm tcp_parseopt.
Proof.
  assert (Hl : forall fuel, steps calm (tcp_parseopt_loop fuel)).
  { induction fuel as [|fuel IH]; cbn [tcp_parseopt_loop]; calm_tac. }
  unfold tcp_parseopt. calm_tac.
Qed.
#[export] Hint Resolve calm_parseopt : steps.
Lemma calm_deref : steps calm deref.
Proof. unfold deref. calm_tac. Qed.
#[export] Hint Resolve calm_deref : steps.
Lemma calm_recved n : steps calm (tcp_recved n).
Proof. unfold tcp_recved. calm_tac. Qed.
Lemma calm_assert msg ok l : steps calm (pcbs_assert msg ok l).
Proof. induction l as [|x l IH]; cbn [pcbs_assert]; calm_tac. Qed.
#[export] Hint Resolve calm_recved calm_assert : steps.
Lemma calm_sane : steps calm tcp_pcbs_sane.
Proof. unfold tcp_pcbs_sane. calm_tac. Qed.
#[export] Hint Resolve calm_sane : steps.
Lemma calm_timewait_input : steps calm tcp_timewait_input.
Proof. unfold tcp_timewait_input. calm_tac. Qed.
#[export] Hint Resolve calm_timewait_input : steps.

(** *** Timers *)

Lemma calm_keepalive : steps calm tcp_keepalive.
Proof. unfold tcp_keepalive. calm_tac. Qed.
Lemma calm_window_probe : steps calm tcp_zero_window_probe.
Proof. unfold tcp_zero_window_probe, probe_byte. calm_tac. Qed.
#[export] Hint Resolve calm_keepalive calm_window_probe : steps.
Lemma rto_backoff_place p : place_of (rto_backoff p) = place_of p.
Proof. unfold rto_backoff. repeat case_match; done. Qed.
Lemma calm_slow_checks a b : steps calm (slow_checks a b).
Proof.
  assert (Hb : steps calm (modp rto_backoff)).
  { apply steps_modp. intros s. apply calm_same; [done| |done]. apply rto_backoff_place. }
  unfold slow_checks, slow_retransmit, slow_persist, persist_fires, persist_next_slot, slow_rto, slow_keepalive, slow_ooseq,
    tcp_free_ooseq. calm_tac.
Qed.
#[export] Hint Resolve calm_slow_checks : steps.
Lemma calm_txnow : steps calm txnow_one.
Proof. unfold txnow_one. calm_tac. Qed.
#[export] Hint Resolve calm_txnow : steps.
