(* ===== verification/TcpOrder.v ===== *)
(** * The lists stay sound

    [lists_ok]: the axioms of [tcp_priv.h] about the lists, for the state of one connection
    among the others.  [orderly]: what every function the application may call does to the
    lists; a callback made of such calls is orderly too.  An incoming segment and the timers
    keep the lists sound for every orderly application. *)

From S2P Require Import Prelude Def IpAddr Tcp TcpOut TcpIn TcpOpt TcpOutput TcpProcess.
From S2P Require Import TcpStream TcpMachine TcpInput TcpApp TcpWrite TcpClose TcpSteps.
From S2P Require Import TcpPcbs TcpDemux TcpTimer TcpLists.

(** ** Sound lists *)

Record lists_ok (s : tcp_st) : Prop := ListsOk {
  lk_nodup : NoDup (tcp_active_pcbs s) /\ NoDup (tcp_tw_pcbs s) /\ NoDup (tcp_bound_pcbs s);
  lk_active : Forall (fun a => exists st, pcb_state s a = Some st /\ active_state st = true) (tcp_active_pcbs s);
  lk_tw : Forall (fun a => pcb_state s a = Some TIME_WAIT) (tcp_tw_pcbs s);
  lk_bound : Forall (fun a => pcb_state s a = Some CLOSED) (tcp_bound_pcbs s);
  lk_port : pcb_freed s = false -> pcb_addr s ∈ tcp_bound_pcbs s -> local_port (st_pcb s) <> 0
}.

(** The control block is on no list. *)
Definition unlisted_pcb (s : tcp_st) : Prop :=
  (pcb_addr s ∉ tcp_active_pcbs s) /\ (pcb_addr s ∉ tcp_tw_pcbs s) /\ (pcb_addr s ∉ tcp_bound_pcbs s).

Lemma pcb_state_self s : pcb_freed s = false -> pcb_state s (pcb_addr s) = Some (state (st_pcb s)).
Proof. unfold pcb_state. intros ->. by rewrite Z.eqb_refl. Qed.

(** The lists say what state it is in. *)
Lemma listed_state s : lists_ok s -> pcb_freed s = false ->
  (pcb_addr s ∈ tcp_active_pcbs s -> active_state (state (st_pcb s)) = true) /\
  (pcb_addr s ∈ tcp_tw_pcbs s -> state (st_pcb s) = TIME_WAIT) /\
  (pcb_addr s ∈ tcp_bound_pcbs s -> state (st_pcb s) = CLOSED).
Proof.
  intros [_ H1 H2 H3 _] Hf. rewrite Forall_forall in H1, H2, H3. pose proof (pcb_state_self s Hf) as E.
  split_and!; intros Hin.
  - destruct (H1 _ Hin) as (st & E1 & E2). congruence.
  - specialize (H2 _ Hin). congruence.
  - specialize (H3 _ Hin). congruence.
Qed.

(** Lists that only lose elements, and a control block that keeps its place or is on none. *)
Lemma lists_ok_shrink s s' : lists_ok s -> pcb_addr s' = pcb_addr s -> other_state s' = other_state s ->
  sublist (tcp_active_pcbs s') (tcp_active_pcbs s) -> sublist (tcp_tw_pcbs s') (tcp_tw_pcbs s) ->
  sublist (tcp_bound_pcbs s') (tcp_bound_pcbs s) ->
  (unlisted_pcb s' \/ pcb_freed s' = pcb_freed s /\ place_of (st_pcb s') = place_of (st_pcb s)) -> lists_ok s'.
Proof.
  intros [(N1 & N2 & N3) H1 H2 H3 H4] Ea Eo S1 S2 S3 Hp.
  assert (Hst : forall a, unlisted_pcb s' /\ a = pcb_addr s \/ pcb_state s' a = pcb_state s a).
  { intros a. unfold pcb_state. rewrite Ea, Eo. destruct (Z.eqb_spec a (pcb_addr s)) as [->|]; [|by right].
    destruct Hp as [Hu|[-> [= -> _]]]; [by left|by right]. }
  rewrite Forall_forall in H1, H2, H3.
  split; [split_and!; (eapply sublist_NoDup; [|eassumption]; done)|apply Forall_forall; intros a Ha..|].
  - destruct (Hst a) as [[(U & _ & _) ->]| ->]; [by rewrite Ea in U|]. apply H1. by eapply elem_of_sublist.
  - destruct (Hst a) as [[(_ & U & _) ->]| ->]; [by rewrite Ea in U|]. apply H2. by eapply elem_of_sublist.
  - destruct (Hst a) as [[(_ & _ & U) ->]| ->]; [by rewrite Ea in U|]. apply H3. by eapply elem_of_sublist.
  - intros Hf Hin. destruct Hp as [(_ & _ & U)|[Ef [= _ ->]]]; [done|].
    rewrite Ea in Hin. apply H4; [congruence|by eapply elem_of_sublist].
Qed.

(** It moves from one active state to another. *)
Lemma lists_ok_active s s' : lists_ok s -> lists_of s' = lists_of s -> local_port (st_pcb s') = local_port (st_pcb s) ->
  active_state (state (st_pcb s)) = true -> active_state (state (st_pcb s')) = true -> lists_ok s'.
Proof.
  intros Hok [= Ea Ef E1 E2 E3 _ Eo _] Hp Hs Hs'. destruct (pcb_freed s) eqn:Hf.
  - apply (lists_ok_shrink s); rewrite ?E1, ?E2, ?E3; auto. left.
    assert (Hno : forall l P, Forall (fun a => exists st : tcp_state, pcb_state s a = Some st /\ P st) l -> pcb_addr s ∉ l).
    { intros l P Hl Hin. rewrite Forall_forall in Hl. destruct (Hl _ Hin) as (st & E & _). unfold pcb_state in E.
      by rewrite Z.eqb_refl, Hf in E. }
    destruct Hok as [_ H1 H2 H3 _]. unfold unlisted_pcb. rewrite Ea, E1, E2, E3. split_and!.
    + by apply (Hno _ (fun st => active_state st = true)).
    + apply (Hno _ (fun st => st = TIME_WAIT)). eapply Forall_impl; [exact H2|]. intros a Ha. by exists TIME_WAIT.
    + apply (Hno _ (fun st => st = CLOSED)). eapply Forall_impl; [exact H3|]. intros a Ha. by exists CLOSED.
  - pose proof (listed_state _ Hok Hf) as (L1 & L2 & L3).
    assert (Hn : forall a, a <> pcb_addr s -> pcb_state s' a = pcb_state s a).
    { intros a Ha. unfold pcb_state. rewrite Ea, Eo. by rewrite (proj2 (Z.eqb_neq _ _) Ha). }
    destruct Hok as [(N1 & N2 & N3) H1 H2 H3 H4]. rewrite Forall_forall in H1, H2, H3.
    split; rewrite ?E1, ?E2, ?E3; [done|apply Forall_forall; intros a Ha..|].
    + destruct (decide (a = pcb_addr s)) as [->|Hne]; [|rewrite (Hn a Hne); auto].
      exists (state (st_pcb s')). split; [|done]. rewrite <- Ea. apply pcb_state_self. congruence.
    + destruct (decide (a = pcb_addr s)) as [->|Hne]; [|rewrite (Hn a Hne); auto]. specialize (L2 Ha). by rewrite L2 in Hs.
    + destruct (decide (a = pcb_addr s)) as [->|Hne]; [|rewrite (Hn a Hne); auto]. specialize (L3 Ha). by rewrite L3 in Hs.
    + intros _ Hin. rewrite Hp. apply H4; [done|congruence].
Qed.

Lemma calm_lists_ok s s' : calm s s' -> lists_ok s -> lists_ok s'.
Proof.
  intros [E [Es|[Es Es']] Ep _] Hok.
  - pose proof E as [= Ea Ef E1 E2 E3 _ Eo _]. apply (lists_ok_shrink s); rewrite ?E1, ?E2, ?E3; auto. right.
    split; [done|]. unfold place_of. congruence.
  - apply (lists_ok_active s); try done; [by rewrite Es|by rewrite Es'].
Qed.

Lemma TCP_RMV_sublist l a : sublist (TCP_RMV l a) l.
Proof. induction l as [|x l IH]; simpl; [done|]. destruct (x =? a); [by apply sublist_cons|by apply sublist_skip]. Qed.
Lemma TCP_RMV_not_in l a : a ∉ l -> TCP_RMV l a = l.
Proof.
  induction l as [|x l IH]; [done|]. intros [Hx Hl]%not_elem_of_cons. simpl.
  destruct (Z.eqb_spec x a) as [->|]; [done|]. by rewrite IH.
Qed.

(** ** Orderly functions *)

Record orderly (s s' : tcp_st) : Prop := Orderly {
  od_addr : pcb_addr s' = pcb_addr s /\ other_state s' = other_state s /\ tcp_input_pcb s' = tcp_input_pcb s;
  od_freed : pcb_freed s = true -> pcb_freed s' = true;
  od_lists : lists_ok s -> lists_ok s';
  od_active : sublist (tcp_active_pcbs s') (tcp_active_pcbs s) /\ sublist (tcp_bound_pcbs s') (tcp_bound_pcbs s);
  od_changed : tcp_active_pcbs_changed s = true -> tcp_active_pcbs_changed s' = true;
  od_same : tcp_active_pcbs_changed s' = false -> tcp_active_pcbs s' = tcp_active_pcbs s;
  od_state : pcb_freed s' = false -> active_state (state (st_pcb s')) = active_state (state (st_pcb s));
  od_reset : pcb_freed s' = false -> has (recv_flags s') TF_RESET = has (recv_flags s) TF_RESET;
  od_closed : pcb_freed s' = false -> has (recv_flags s') TF_CLOSED = true -> has (recv_flags s) TF_CLOSED = true \/
    (tcp_input_pcb s = pcb_addr s /\ active_state (state (st_pcb s)) = true)
}.

Lemma orderly_live s s' : orderly s s' -> pcb_freed s' = false -> pcb_freed s = false.
Proof. intros H Hf. destruct (pcb_freed s) eqn:E; [|done]. by rewrite (od_freed _ _ H E) in Hf. Qed.
#[export] Instance orderly_preorder : PreOrder orderly.
Proof.
  split; [by split; auto|]. intros s1 s2 s3 H1 H2. pose proof (orderly_live _ _ H2) as Hl.
  destruct H1 as [(A1 & A2 & A3) B C [D D2] E F G H I], H2 as [(A1' & A2' & A3') B' C' [D' D2'] E' F' G' H' I'].
  split; [split_and!; congruence|auto|auto|split; by etransitivity|auto|..].
  - intros Hc. rewrite F', F; [done| |done]. destruct (tcp_active_pcbs_changed s2); [by rewrite E' in Hc|done].
  - intros Hf. rewrite G', G; auto.
  - intros Hf. rewrite H', H; auto.
  - intros Hf Hc. destruct (I' Hf Hc) as [Hc'|[Hi Ha]]; [auto|]. right. rewrite <- A3, <- A1, <- G; auto.
Qed.
#[export] Hint Resolve orderly_preorder : steps.

Lemma calm_orderly s s' : calm s s' -> orderly s s'.
Proof.
  intros H. pose proof (calm_lists_ok _ _ H) as Hl. destruct H as [[= Ea Ef E1 E2 E3 E4 Eo Ei] Es Ep [= V1 V2]].
  split; auto; try congruence; try (by rewrite E1, E3).
  - intros _. by destruct Es as [->|[-> ->]].
  - intros _ Hc. left. congruence.
Qed.
Lemma calm_steps_orderly {A} (m : TM A) : steps calm m -> steps orderly m.
Proof. intros H. apply (steps_sub calm); [done|]. apply calm_orderly. Qed.
#[export] Hint Extern 4 (steps orderly _) => apply calm_steps_orderly; solve [auto 2 with steps] : steps.

(** *** Removing a control block *)

(** The state with the control block taken off a list. *)
Definition off_list (tw : bool) (s : tcp_st) : tcp_st :=
  if tw then s <| tcp_tw_pcbs := TCP_RMV (tcp_tw_pcbs s) (pcb_addr s) |>
  else s <| tcp_active_pcbs := TCP_RMV (tcp_active_pcbs s) (pcb_addr s) |>.

Lemma wlp_calm {A} (m : TM A) (Q : A -> tcp_st -> Prop) s : steps calm m -> (forall r s', calm s s' -> Q r s') -> wlp m Q s.
Proof. apply wlp_steps_post. Qed.

Lemma deref_wlp Q s : (pcb_freed s = false -> Q tt s) -> wlp deref Q s.
Proof. intros H. unfold deref. wlp_step. wlp_step. wlp_step; [apply wlp_fail|by wlp_steps; apply H]. Qed.

Lemma tcp_pcb_remove_wlp tw s :
  wlp (tcp_pcb_remove tw) (fun _ s' => pcb_freed s = false /\ lists_of s' = lists_of (off_list tw s) /\
    verdict_of s' = verdict_of s) s.
Proof.
  unfold tcp_pcb_remove. wlp_step. apply deref_wlp. intros Hf. wlp_step. wlp_step. fold (off_list tw s).
  wlp_step. apply wlp_calm; [auto with steps|]. intros _ s1 C1. wlp_step. wlp_step. wlp_step.
  apply wlp_calm; [unfold tcp_ack_now, tcp_set_flags; calm_tac|]. intros _ s2 C2. wlp_step. wlp_step. wlp_step.
  apply wlp_calm; [calm_tac|]. intros _ s3 C3. wlp_step. wlp_step. wlp_step. wlp_step.
  apply wlp_calm; [auto with steps|]. intros _ s4 C4. split; [done|].
  assert (E : forall t t', calm t t' -> lists_of t' = lists_of t /\ verdict_of t' = verdict_of t).
  { intros t t' [E1 _ _ E2]. done. }
  apply E in C1, C2, C3, C4. 
  assert (Ev : verdict_of (off_list tw s) = verdict_of s) by (by destruct tw).
  destruct C1 as [L1 V1], C2 as [L2 V2], C3 as [L3 V3], C4 as [L4 V4].
  split.
  - rewrite L4. transitivity (lists_of s3); [done|]. by rewrite L3, L2, L1.
  - rewrite V4. transitivity (verdict_of s3); [done|]. by rewrite V3, V2, V1, Ev.
Qed.

Lemma tcp_free_wlp s : wlp tcp_free (fun _ s' => pcb_freed s = false /\ s' = s <| pcb_freed := true |>) s.
Proof. unfold tcp_free. wlp_step. apply deref_wlp. intros Hf. wlp_steps. by split. Qed.

(** The control block was taken off its lists and freed. *)
Lemma gone_orderly s s' : pcb_freed s' = true ->
  pcb_addr s' = pcb_addr s -> other_state s' = other_state s -> tcp_input_pcb s' = tcp_input_pcb s ->
  sublist (tcp_active_pcbs s') (tcp_active_pcbs s) -> sublist (tcp_tw_pcbs s') (tcp_tw_pcbs s) ->
  sublist (tcp_bound_pcbs s') (tcp_bound_pcbs s) -> (lists_ok s -> unlisted_pcb s') ->
  (tcp_active_pcbs_changed s = true -> tcp_active_pcbs_changed s' = true) ->
  (tcp_active_pcbs_changed s' = false -> tcp_active_pcbs s' = tcp_active_pcbs s) -> orderly s s'.
Proof.
  intros Hf Ha Ho Hi S1 S2 S3 Hu Hc Hs. split; try done; try congruence.
  intros Hok. apply (lists_ok_shrink s); auto.
Qed.

Lemma off_timewait s : lists_ok s -> pcb_freed s = false -> state (st_pcb s) = TIME_WAIT -> unlisted_pcb (off_list true s).
Proof.
  intros Hok Hf Hst. pose proof (listed_state _ Hok Hf) as (L1 & _ & L3). destruct (lk_nodup _ Hok) as (_ & N & _).
  unfold unlisted_pcb, off_list. rec_simpl. split_and!.
  - intros H%L1. by rewrite Hst in H.
  - rewrite TCP_RMV_in by done. by intros [_ ?].
  - intros H%L3. by rewrite Hst in H.
Qed.
Lemma off_active s : lists_ok s -> pcb_freed s = false -> active_state (state (st_pcb s)) = true -> unlisted_pcb (off_list false s).
Proof.
  intros Hok Hf Hst. pose proof (listed_state _ Hok Hf) as (_ & L2 & L3). destruct (lk_nodup _ Hok) as (N & _ & _).
  unfold unlisted_pcb, off_list. rec_simpl. split_and!.
  - rewrite TCP_RMV_in by done. by intros [_ ?].
  - intros H%L2. by rewrite H in Hst.
  - intros H%L3. by rewrite H in Hst.
Qed.
Lemma off_closed s : lists_ok s -> pcb_freed s = false -> state (st_pcb s) = CLOSED ->
  (pcb_addr s ∉ tcp_active_pcbs s) /\ (pcb_addr s ∉ tcp_tw_pcbs s) /\
  (pcb_addr s ∉ if negb (local_port (st_pcb s) =? 0) then TCP_RMV (tcp_bound_pcbs s) (pcb_addr s) else tcp_bound_pcbs s).
Proof.
  intros Hok Hf Hst. pose proof (listed_state _ Hok Hf) as (L1 & L2 & _). destruct (lk_nodup _ Hok) as (_ & _ & N).
  split_and!.
  - intros H%L1. by rewrite Hst in H.
  - intros H%L2. by rewrite Hst in H.
  - destruct (Z.eqb_spec (local_port (st_pcb s)) 0) as [E|E]; simpl; [intros H; by apply (lk_port _ Hok Hf H)|].
    rewrite TCP_RMV_in by done. by intros [_ ?].
Qed.

Lemma unlisted_lists s s' : lists_of s' = lists_of s -> unlisted_pcb s -> unlisted_pcb s'.
Proof. intros [= E1 E2 E3 E4 E5 E6 E7 E8]. unfold unlisted_pcb. by rewrite E1, E3, E4, E5. Qed.

(** The control block of [s] is off its lists; [chg] says that the flag was set, [fr] that
    the control block was given back. *)
Record went (chg fr : bool) (s s' : tcp_st) : Prop := Went {
  wt_live : pcb_freed s = false;
  wt_freed : pcb_freed s' = fr;
  wt_same : pcb_addr s' = pcb_addr s /\ other_state s' = other_state s /\ tcp_input_pcb s' = tcp_input_pcb s;
  wt_sub : sublist (tcp_active_pcbs s') (tcp_active_pcbs s) /\ sublist (tcp_tw_pcbs s') (tcp_tw_pcbs s) /\
    sublist (tcp_bound_pcbs s') (tcp_bound_pcbs s);
  wt_unlisted : lists_ok s -> unlisted_pcb s';
  wt_changed : if chg then tcp_active_pcbs_changed s' = true
    else tcp_active_pcbs_changed s' = tcp_active_pcbs_changed s
}.
Lemma went_orderly chg s s' : went chg true s s' -> (chg = false -> tcp_active_pcbs s' = tcp_active_pcbs s) -> orderly s s'.
Proof.
  intros [H0 H1 (H2 & H3 & H4) (H5 & H6 & H7) H8 H9] Hs. apply gone_orderly; try done; destruct chg; try congruence; auto.
Qed.
Lemma went_lists_ok chg fr s s' : went chg fr s s' -> lists_ok s -> lists_ok s'.
Proof. intros [H0 H1 (H2 & H3 & H4) (H5 & H6 & H7) H8 H9] Hok. apply (lists_ok_shrink s); auto. Qed.

(** Later steps that leave the lists alone. *)
Lemma went_lists chg fr s s1 s2 : went chg fr s s1 -> lists_of s2 = lists_of s1 -> went chg fr s s2.
Proof.
  intros [H0 H1 (H2 & H3 & H4) (H5 & H6 & H7) H8 H9] E. pose proof (unlisted_lists _ _ E) as Hu.
  injection E as E1 E2 E3 E4 E5 E6 E7 E8.
  split; rewrite ?E1, ?E2, ?E3, ?E4, ?E5, ?E6, ?E7, ?E8; try done. auto.
Qed.
Lemma wlp_went_calm {A} (m : TM A) (Q : A -> tcp_st -> Prop) chg fr s s1 : went chg fr s s1 -> steps calm m ->
  (forall r s2, went chg fr s s2 -> Q r s2) -> wlp m Q s1.
Proof.
  intros Hw Hm HQ. eapply wlp_calm; [done|]. intros r s2 [E _ _ _]. apply HQ. by eapply went_lists.
Qed.
Lemma went_change chg fr s s1 : went chg fr s s1 -> went true fr s (s1 <| tcp_active_pcbs_changed := true |>).
Proof. intros [H0 H1 H2 H3 H4 H5]. by split. Qed.

Lemma remove_went (tw : bool) Q s : (lists_ok s -> pcb_freed s = false ->
    if tw then state (st_pcb s) = TIME_WAIT else active_state (state (st_pcb s)) = true) ->
  (forall s', went false false s s' -> (tw = true -> tcp_active_pcbs s' = tcp_active_pcbs s) -> Q tt s') ->
  wlp (tcp_pcb_remove tw) Q s.
Proof.
  intros Hst HQ. eapply wlp_conseq; [apply tcp_pcb_remove_wlp|]. intros [] s1 (Hf & L1 & _). pose proof (unlisted_lists _ _ L1) as Hu.
  pose proof L1 as [= E1 E2 E3 E4 E5 E6 E7 E8]. apply HQ; [|rewrite E3; by intros ->].
  split; rewrite ?E1, ?E2, ?E3, ?E4, ?E5, ?E6, ?E7, ?E8; try done; try (by destruct tw).
  - split_and!; destruct tw; simpl; try done; apply TCP_RMV_sublist.
  - intros Hok. apply Hu. specialize (Hst Hok Hf). destruct tw; [by apply off_timewait|by apply off_active].
Qed.
Lemma free_went chg fr Q s s1 : went chg fr s s1 -> (forall s', went chg true s s' ->
    tcp_active_pcbs s' = tcp_active_pcbs s1 -> Q tt s') -> wlp tcp_free Q s1.
Proof.
  intros [H0 H1 H2 H3 H4 H5] HQ. eapply wlp_conseq; [apply tcp_free_wlp|]. intros [] s2 [_ ->]. apply HQ; [|done]. by split.
Qed.

(** *** Abort *)

Section Callbacks.
Context (cb : tcp_callbacks).

(** What the registered functions may do: anything a function of the application may, and
    they answer [ERR_ABRT] exactly when the control block was aborted. *)
Definition well_behaved (m : TM Z) : Prop :=
  steps orderly m /\ forall s r s', m s = Ok (r, s') -> pcb_freed s = false -> pcb_freed s' = (r =? ERR_ABRT).
Record orderly_app : Prop := OrderlyApp {
  oa_accept : forall e, well_behaved (cb_accept cb e);
  oa_connected : forall e, well_behaved (cb_connected cb e);
  oa_recv : forall p, well_behaved (cb_recv cb p);
  oa_closed : well_behaved (cb_closed cb);
  oa_sent : forall n, well_behaved (cb_sent cb n);
  oa_err : forall e, steps orderly (cb_err cb e)
}.
Context (Happ : orderly_app).

Lemma calm_event e : steps calm (event e).
Proof. unfold event. auto with steps. Qed.
Hint Resolve calm_event : steps.
Lemma orderly_err e : steps orderly (TCP_EVENT_ERR cb e).
Proof. unfold TCP_EVENT_ERR. pose proof (oa_err Happ e). steps_step; auto with steps. Qed.

Lemma active_states st : negb (state_is st LISTEN) = true -> state_is st TIME_WAIT = false -> state_is st CLOSED = false ->
  active_state st = true.
Proof. by destruct st. Qed.
Lemma state_is_eq st st' : state_is st st' = true -> st = st'.
Proof. by destruct st, st'. Qed.

(** The control block is taken off the list it is on. *)
Definition unhooked (s s1 : tcp_st) : Prop :=
  exists chg, went chg false s s1 /\ (chg = false -> tcp_active_pcbs s1 = tcp_active_pcbs s).
Lemma unhooked_calm {A} (m : TM A) (Q : A -> tcp_st -> Prop) s s1 : unhooked s s1 -> steps calm m ->
  (forall r s2, unhooked s s2 -> Q r s2) -> wlp m Q s1.
Proof.
  intros (chg & W & Ha) Hm HQ. eapply wlp_calm; [done|]. intros r s2 [E _ _ _]. apply HQ. exists chg.
  split; [by eapply went_lists|]. injection E as _ _ -> _ _ _ _ _. done.
Qed.
Lemma unhooked_free Q s s1 : unhooked s s1 -> (forall s2, pcb_freed s2 = true -> orderly s s2 -> Q tt s2) -> wlp tcp_free Q s1.
Proof.
  intros (chg & W & Ha) HQ. eapply free_went; [done|]. intros s2 W2 Ea2. apply HQ; [apply W2|].
  apply (went_orderly _ _ _ W2). intros Hc. rewrite Ea2. auto.
Qed.
Lemma unhook_bound s : pcb_freed s = false -> state (st_pcb s) = CLOSED ->
  wlp (when (negb (local_port (st_pcb s) =? 0)) TCP_RMV_BOUND) (fun _ => unhooked s) s.
Proof.
  intros Hf Hst. unfold TCP_RMV_BOUND. pose proof (fun H => off_closed s H Hf Hst) as Ho.
  wlp_step; [wlp_steps|]; exists false; (split; [split|done]); rec_simpl; try done.
  - split_and!; [done..|apply TCP_RMV_sublist].
  - intros Hok. specialize (Ho Hok). rewrite H in Ho. done.
  - intros Hok. specialize (Ho Hok). rewrite H in Ho. done.
Qed.
Lemma unhook_active s : (lists_ok s -> pcb_freed s = false -> active_state (state (st_pcb s)) = true) ->
  wlp TCP_PCB_REMOVE_ACTIVE (fun _ => unhooked s) s.
Proof.
  intros Hst. unfold TCP_PCB_REMOVE_ACTIVE. wlp_step. apply remove_went; [done|]. intros s1 W1 _.
  wlp_steps. exists true. split; [by eapply went_change|done].
Qed.

Lemma orderly_abandon reset : steps orderly (tcp_abandon cb reset).
Proof.
  apply steps_wlp. intros s. unfold tcp_abandon. wlp_step. apply deref_wlp. intros Hf. wlp_step. wlp_step. wlp_step.
  apply wlp_assert. intros Hl. wlp_step.
  - wlp_step. apply remove_went; [intros _ _; by apply state_is_eq|]. intros s1 W1 Ea. eapply unhooked_free; [|by intros].
    exists false. split; [done|auto].
  - cbv zeta. wlp_step. eapply (wlp_conseq _ (fun _ => unhooked s)).
    { wlp_step; [apply unhook_bound; [done|by apply state_is_eq]|]. apply unhook_active. intros _ _. by apply active_states. }
    intros _ s1 U1. wlp_step. eapply unhooked_calm; [done|auto with steps|]. intros _ s2 U2.
    wlp_step. eapply unhooked_calm; [done|calm_tac|]. intros _ s3 U3.
    wlp_step. eapply unhooked_free; [done|]. intros s4 F4 O4. eapply wlp_steps_post; [apply orderly_err|].
    intros _ s5 O5. by transitivity s4.
Qed.
Lemma abandon_freed reset s s' : tcp_abandon cb reset s = Ok (tt, s') -> pcb_freed s' = true.
Proof.
  revert s'. cut (wlp (tcp_abandon cb reset) (fun _ s' => pcb_freed s' = true) s); [intros H s'; apply H|].
  assert (Hfree : forall s1, wlp tcp_free (fun _ s' => pcb_freed s' = true) s1).
  { intros s1. eapply wlp_conseq; [apply tcp_free_wlp|]. by intros _ s2 [_ ->]. }
  assert (Hany : forall A (m : TM A) Q s1, (forall r s2, Q r s2) -> wlp m Q s1) by (intros A m Q s1 HQ r s2 _; apply HQ).
  unfold tcp_abandon. wlp_step. apply deref_wlp. intros _. wlp_step. wlp_step. wlp_step. apply wlp_assert. intros _. wlp_step.
  - wlp_step. apply Hany. intros _ s1. apply Hfree.
  - cbv zeta. do 3 (wlp_step; apply Hany; intros ? ?). wlp_step. eapply wlp_conseq; [apply Hfree|].
    intros rr t F2. eapply wlp_steps_post; [apply orderly_err|]. intros _ t2 O3. by apply (od_freed _ _ O3).
Qed.

(** *** Closing *)

Lemma active_orderly s s' : lists_of s' = lists_of s -> local_port (st_pcb s') = local_port (st_pcb s) ->
  verdict_of s' = verdict_of s -> active_state (state (st_pcb s)) = true -> active_state (state (st_pcb s')) = true -> orderly s s'.
Proof.
  intros El Ep [= V1 V2] Hs Hs'. pose proof El as [= E1 E2 E3 E4 E5 E6 E7 E8]. split; try congruence; try done.
  - intros Hok. by apply (lists_ok_active s).
  - by rewrite E3, E5.
  - intros _ Hc. left. congruence.
Qed.
Lemma calm_active s s' : calm s s' -> active_state (state (st_pcb s)) = true -> active_state (state (st_pcb s')) = true.
Proof. by intros [_ [->|[-> ->]] _ _]. Qed.
Lemma fin_state_active st st' : fin_state st = Some st' -> active_state st = true /\ active_state st' = true.
Proof. destruct st; intros [= <-]; done. Qed.
Lemma wlp_calm_orderly {A} (m : TM A) s s1 : orderly s s1 -> steps calm m -> wlp m (fun _ s' => orderly s s') s1.
Proof. intros O Hm. eapply wlp_calm; [done|]. intros r s2 C. etransitivity; [done|by apply calm_orderly]. Qed.

Lemma orderly_close_fin : steps orderly tcp_close_shutdown_fin.
Proof.
  apply steps_wlp. intros s. unfold tcp_close_shutdown_fin. wlp_step. wlp_step.
  destruct (fin_state (state (st_pcb s))) as [st'|] eqn:E; [|by wlp_steps]. apply fin_state_active in E as [E E'].
  wlp_step. apply wlp_calm; [auto with steps|]. intros err s1 C1. pose proof (calm_active _ _ C1 E) as E1. wlp_step.
  eapply (wlp_conseq _ (fun _ => orderly s)).
  { apply calm_orderly in C1. wlp_step; [wlp_steps|done]. etransitivity; [done|]. by apply active_orderly. }
  intros _ s2 O2. wlp_step; [|wlp_step]; [wlp_step|wlp_step|]; try (apply wlp_calm_orderly; [done|calm_tac]).
  - eapply wlp_calm; [auto with steps|]. intros r s3 C3. wlp_step. etransitivity; [done|by apply calm_orderly].
  - eapply wlp_calm; [auto with steps|]. intros r s3 C3. wlp_step. etransitivity; [done|by apply calm_orderly].
Qed.

Lemma went_calm_pre chg fr s s1 s2 : calm s s1 -> went chg fr s1 s2 -> went chg fr s s2.
Proof.
  intros C [W0 W1 (W2 & W3 & W4) W5 W8 W9]. pose proof (calm_lists_ok _ _ C) as Hok. destruct C as [[= E1 E2 E3 E4 E5 E6 E7 E8] _ _ _].
  rewrite E1, E7, E8 in *. rewrite E3, E4, E5, E6 in *. split; auto. congruence.
Qed.
Lemma rmv_active_went s : pcb_freed s = false -> active_state (state (st_pcb s)) = true ->
  wlp TCP_RMV_ACTIVE (fun _ s' => went true false s s' /\ st_pcb s' = st_pcb s /\ recv_flags s' = recv_flags s) s.
Proof.
  intros Hf Hs. unfold TCP_RMV_ACTIVE. wlp_steps. split; [|done]. split; rec_simpl; try done.
  - split_and!; [apply TCP_RMV_sublist|done..].
  - intros Hok. by apply off_active.
Qed.

(** "don't close with unread data": freed, or left to [tcp_input], which is at work on it. *)
Lemma orderly_close_rst s : pcb_freed s = false -> active_state (state (st_pcb s)) = true ->
  wlp (TCP_RMV_ACTIVE ;;; (if tcp_input_pcb s =? pcb_addr s then tcp_trigger_input_pcb_close else tcp_free) ;;; ret ERR_OK)
    (fun _ s' => orderly s s') s.
Proof.
  intros Hf Hs. wlp_step. eapply wlp_conseq; [by apply rmv_active_went|]. intros _ s1 (W & Ep & Ev). wlp_step.
  wlp_step; [|eapply unhooked_free; [by exists true|]; intros s2 _ O2; by wlp_step].
  unfold tcp_trigger_input_pcb_close. wlp_step. wlp_step. pose proof (went_lists_ok _ _ _ _ W) as Hok.
  destruct W as [W0 W1 (W2 & W3 & W4) (W5 & W6 & W7) W8 W9].
  split; rec_simpl; try done; try congruence; try (by rewrite Ep).
  - intros Hl. apply Hok in Hl. by destruct Hl.
  - rewrite Ev. intros _. by rewrite has_lor, orb_false_r.
  - intros _ _. right. split; [lia|done].
Qed.

Lemma orderly_close_shutdown b : steps orderly (tcp_close_shutdown b).
Proof.
  apply steps_wlp. intros s. unfold tcp_close_shutdown. wlp_step. apply deref_wlp. intros Hf. wlp_step. wlp_step. wlp_step. wlp_step.
  wlp_step.
  - assert (Hs : active_state (state (st_pcb s)) = true).
    { apply andb_true_iff in H as [[_ H]%andb_true_iff _]. apply orb_true_iff in H as [->%state_is_eq| ->%state_is_eq]; done. }
    wlp_step. apply wlp_assert. intros _. wlp_step. apply wlp_calm; [auto with steps|]. intros _ s1 C1.
    wlp_step. apply wlp_calm; [auto with steps|]. intros _ s2 C2. assert (C : calm s s2) by (by transitivity s1).
    pose proof C as [[= E1 E2 E3 E4 E5 E6 E7 E8] _ _ _]. rewrite <- E1, <- E8.
    eapply wlp_conseq; [apply orderly_close_rst; [congruence|by apply (calm_active s)]|].
    intros ? s3 O3. etransitivity; [apply calm_orderly; exact C|done].
  - destruct (state (st_pcb s)) eqn:Es; try exact (orderly_close_fin s).
    + wlp_step. eapply wlp_conseq; [by apply unhook_bound|]. intros ? s1 U1. wlp_step. eapply unhooked_free; [exact U1|].
      intros s2 _ O2. by wlp_step.
    + apply wlp_fail.
    + wlp_step. eapply wlp_conseq; [apply unhook_active; by rewrite Es|]. intros ? s1 U1. wlp_step. eapply unhooked_free; [exact U1|].
      intros s2 _ O2. by wlp_step.
Qed.
Hint Resolve orderly_close_shutdown orderly_close_fin orderly_abandon orderly_err : steps.
Lemma orderly_close : steps orderly tcp_close.
Proof. unfold tcp_close. repeat steps_step. Qed.
Lemma orderly_shutdown a b : steps orderly (tcp_shutdown a b).
Proof. unfold tcp_shutdown. repeat steps_step. Qed.
Lemma orderly_pending_fin : steps orderly send_pending_fin.
Proof. unfold send_pending_fin. repeat steps_step. Qed.
End Callbacks.
