(* ===== verification/TcpOrderIn.v ===== *)
(** * An incoming segment keeps the lists sound

    [tcp_process] and the rest of [tcp_input] for the control block a segment belongs to:
    for every segment and every orderly application the lists are sound afterwards. *)

From S2P Require Import Prelude Def IpAddr Tcp TcpOut TcpIn TcpOpt TcpOutput TcpProcess.
From S2P Require Import TcpStream TcpMachine TcpInput TcpApp TcpWrite TcpClose TcpSteps.
From S2P Require Import TcpPcbs TcpDemux TcpTimer TcpLists TcpOrder.

(** What processing a segment keeps, the entry into [TIME_WAIT] included. *)
Record keeps (s s' : tcp_st) : Prop := Keeps {
  kp_same : pcb_addr s' = pcb_addr s /\ other_state s' = other_state s;
  kp_bound : sublist (tcp_bound_pcbs s') (tcp_bound_pcbs s);
  kp_lists : lists_ok s -> lists_ok s'
}.
#[export] Instance keeps_preorder : PreOrder keeps.
Proof.
  split; [by split|]. intros s1 s2 s3 [[A B] D C] [[A' B'] D' C']. split; [split; congruence|by etransitivity|auto].
Qed.
Lemma orderly_keeps s s' : orderly s s' -> keeps s s'.
Proof. intros [(A & B & _) _ C [_ D] _ _ _ _ _]. by split. Qed.

(** The control block has not been freed on the way from [s0]. *)
Definition alive (s0 s : tcp_st) : Prop := orderly s0 s /\ pcb_freed s = false.

(** The connection is to be closed or was reset only in an active state. *)
Definition closed_ok (s : tcp_st) : Prop :=
  has (recv_flags s) TF_RESET || has (recv_flags s) TF_CLOSED = true -> active_state (state (st_pcb s)) = true.

Lemma alive_closed_ok s0 s : alive s0 s -> closed_ok s0 -> closed_ok s.
Proof.
  intros [O Hf] Hc Hv. rewrite (od_state _ _ O Hf). rewrite (od_reset _ _ O Hf) in Hv.
  destruct (has (recv_flags s0) TF_RESET) eqn:Er; [apply Hc; by rewrite Er|]. simpl in Hv.
  destruct (od_closed _ _ O Hf Hv) as [E|[_ E]]; [|done]. apply Hc. by rewrite E, orb_true_r.
Qed.

Lemma alive_calm {A} (m : TM A) (Q : A -> tcp_st -> Prop) s0 s : alive s0 s -> steps calm m ->
  (forall r s', alive s0 s' -> calm s s' -> Q r s') -> wlp m Q s.
Proof.
  intros [O Hf] Hm HQ. eapply wlp_calm; [done|]. intros r s' C. apply HQ; [|done]. pose proof (calm_orderly _ _ C) as O'.
  split; [by transitivity s|]. destruct C as [[= _ -> _ _ _ _ _ _] _ _ _]. done.
Qed.
Lemma alive_active s0 s s' : alive s0 s -> lists_of s' = lists_of s -> local_port (st_pcb s') = local_port (st_pcb s) ->
  verdict_of s' = verdict_of s -> active_state (state (st_pcb s)) = true -> active_state (state (st_pcb s')) = true -> alive s0 s'.
Proof.
  intros [O Hf] El Ep Ev Ha Ha'. split; [etransitivity; [exact O|by apply active_orderly]|]. injection El as _ -> _ _ _ _ _ _. done.
Qed.
Lemma alive_state s0 s : alive s0 s -> active_state (state (st_pcb s)) = active_state (state (st_pcb s0)).
Proof. intros [O Hf]. by apply (od_state _ _ O). Qed.
Lemma alive_refl s : pcb_freed s = false -> alive s s.
Proof. by split. Qed.

Section Input.
Context (cb : tcp_callbacks) (Happ : orderly_app cb).

(** ** The notifications *)

Definition told_ok (s0 : tcp_st) (r : Z) (s : tcp_st) : Prop := orderly s0 s /\ pcb_freed s = (r =? ERR_ABRT).

Lemma well_behaved_wlp m s0 s : well_behaved m -> alive s0 s -> wlp m (told_ok s0) s.
Proof. intros [H1 H2] [O Hf] r s' E. split; [|by eapply H2]. etransitivity; [exact O|by eapply H1]. Qed.
Lemma told_calm {A} (m : TM A) s0 r s (Q : A -> tcp_st -> Prop) : told_ok s0 r s -> steps calm m ->
  (forall a s', told_ok s0 r s' -> Q a s') -> wlp m Q s.
Proof.
  intros [O Hf] Hm HQ. eapply wlp_calm; [done|]. intros a s' C. apply HQ. pose proof (calm_orderly _ _ C) as O'.
  split; [by transitivity s|]. destruct C as [[= _ -> _ _ _ _ _ _] _ _ _]. done.
Qed.
Lemma told_alive s0 r s : told_ok s0 r s -> r <> ERR_ABRT -> alive s0 s.
Proof. intros [O Hf] Hr. split; [done|]. rewrite Hf. by apply Z.eqb_neq. Qed.

Ltac event_tac H := intros s0 s Hl; wlp_step; eapply alive_calm; [exact Hl|apply calm_event|]; intros _ s1 L1 _;
  eapply well_behaved_wlp; [apply H; exact Happ|exact L1].
Lemma event_accept e : forall s0 s, alive s0 s -> wlp (TCP_EVENT_ACCEPT cb e) (told_ok s0) s.
Proof. unfold TCP_EVENT_ACCEPT. event_tac (oa_accept cb). Qed.
Lemma event_connected e : forall s0 s, alive s0 s -> wlp (TCP_EVENT_CONNECTED cb e) (told_ok s0) s.
Proof. unfold TCP_EVENT_CONNECTED. event_tac (oa_connected cb). Qed.
Lemma event_sent n : forall s0 s, alive s0 s -> wlp (TCP_EVENT_SENT cb n) (told_ok s0) s.
Proof. unfold TCP_EVENT_SENT. event_tac (oa_sent cb). Qed.
Lemma event_closed : forall s0 s, alive s0 s -> wlp (TCP_EVENT_CLOSED cb) (told_ok s0) s.
Proof. unfold TCP_EVENT_CLOSED. event_tac (oa_closed cb). Qed.
Lemma event_recv p s0 s : alive s0 s -> wlp (TCP_EVENT_RECV cb p) (told_ok s0) s.
Proof.
  intros Hl. unfold TCP_EVENT_RECV. wlp_step. eapply wlp_conseq; [eapply well_behaved_wlp; [apply (oa_recv _ Happ)|exact Hl]|].
  intros r s1 T1. wlp_step. eapply told_calm; [exact T1|apply calm_event|]. intros _ s2 T2. by wlp_step.
Qed.

(** ** [tcp_process] *)

Definition processed_ok (s0 : tcp_st) (r : Z) (s : tcp_st) : Prop :=
  keeps s0 s /\ (r <> ERR_ABRT -> pcb_freed s = false /\ closed_ok s).

Lemma told_processed s0 r s : closed_ok s0 -> told_ok s0 r s -> processed_ok s0 r s.
Proof.
  intros Hc T. split; [apply orderly_keeps, T|]. intros Hr. pose proof (told_alive _ _ _ T Hr) as L.
  split; [apply L|by eapply alive_closed_ok].
Qed.
Lemma alive_processed s0 r s : closed_ok s0 -> alive s0 s -> processed_ok s0 r s.
Proof. intros Hc L. split; [apply orderly_keeps, L|]. intros _. split; [apply L|by eapply alive_closed_ok]. Qed.

Lemma enter_time_wait_lists s : pcb_freed s = false -> active_state (state (st_pcb s)) = true ->
  wlp enter_time_wait (fun _ s' => keeps s s' /\ pcb_freed s' = false /\ verdict_of s' = verdict_of s) s.
Proof.
  intros Hf Hs. unfold enter_time_wait. wlp_step. eapply alive_calm; [by apply alive_refl|apply calm_purge|]. intros _ s1 [O1 F1] C1.
  pose proof (calm_active _ _ C1 Hs) as Hs1. wlp_step. eapply wlp_conseq; [by apply rmv_active_went|].
  intros _ s2 (W & Ep & Ev). unfold TCP_REG_TW. wlp_steps. pose proof (wt_unlisted _ _ _ _ W) as Hu.
  destruct W as [W0 W1 (W2 & W3 & W4) (W5 & W6 & W7) _ _]. destruct O1 as [(A1 & A2 & A3) _ Hok [_ Sb] _ _ _ _ _].
  split; [|split; [done|]]. 2:{ unfold verdict_of. rec_simpl. rewrite Ev. apply C1. }
  split; rec_simpl; [split; congruence|by etransitivity|]. intros Hok0. specialize (Hok Hok0). destruct (Hu Hok) as (U1 & U2 & U3).
  rewrite W2 in *. destruct Hok as [(N1 & N2 & N3) H1 H2 H3 H4].
  assert (Hst : forall s' a, pcb_addr s' = pcb_addr s2 -> other_state s' = other_state s2 -> a <> pcb_addr s1 -> pcb_state s' a = pcb_state s1 a).
  { intros s' a E1 E2 Hne. unfold pcb_state. rewrite E1, E2, W2, W3. by rewrite (proj2 (Z.eqb_neq _ _) Hne). }
  rewrite Forall_forall in H1, H2, H3. split; rec_simpl.
  - assert (Hnd : forall l l1 : list Z, NoDup l -> sublist l1 l -> NoDup l1) by (intros l l1 Hl; by apply sublist_NoDup).
    split_and!; [by apply (Hnd _ _ N1)|constructor; [done|by apply (Hnd _ _ N2)]|by apply (Hnd _ _ N3)].
  - apply Forall_forall. intros a Ha. rewrite Hst; [|done..|by intros ->]. apply H1. by eapply elem_of_sublist.
  - constructor; [rewrite <- W2; unfold pcb_state; rec_simpl; by rewrite Z.eqb_refl, W1|]. apply Forall_forall. intros a Ha.
    rewrite Hst; [|done..|by intros ->]. apply H2. by eapply elem_of_sublist.
  - apply Forall_forall. intros a Ha. rewrite Hst; [|done..|by intros ->]. apply H3. by eapply elem_of_sublist.
  - intros _ Hin. rewrite W2 in Hin. done.
Qed.

(** A calm part, or a change between active states, in a function that is under way. *)
Ltac calm_part L L' C := eapply alive_calm; [exact L|unfold tcp_ack_now, tcp_set_flags, free_syn_segment, rst_reply; calm_tac|]; intros ? ? L' C.
Ltac active_part L := eapply (alive_active _ _ _ L); try done.

Lemma abandon_told reset s0 s : alive s0 s -> wlp (tcp_abandon cb reset) (fun _ s' => told_ok s0 ERR_ABRT s') s.
Proof.
  intros [O Hf] r s' E. destruct r. split; [etransitivity; [exact O|by eapply orderly_abandon]|].
  by eapply abandon_freed.
Qed.

Lemma syn_ack_ok s : pcb_freed s = false -> state (st_pcb s) = SYN_SENT -> wlp (process_syn_ack cb) (told_ok s) s.
Proof.
  intros Hf Hs. pose proof (alive_refl _ Hf) as L0. unfold process_syn_ack. wlp_step. wlp_step. wlp_step.
  calm_part L0 L1 C1. wlp_step. calm_part L1 L2 C2. pose proof (calm_active _ _ C1) as A1. pose proof (calm_active _ _ C2) as A2.
  rewrite Hs in A1. specialize (A2 (A1 eq_refl)). clear A1. wlp_step. wlp_step.
  assert (L3 : alive s (s'0 <| st_pcb := st_pcb s'0 <| snd_wnd_max := snd_wnd (st_pcb s'0) |> <| snd_wl1 := u32_t (seqno s - 1) |>
    <| state := ESTABLISHED |> |>)) by active_part L2.
  wlp_step. wlp_step. wlp_step. calm_part L3 L4 C4. wlp_step. calm_part L4 L5 C5.
  wlp_step. wlp_step. wlp_step. apply wlp_assert. intros _. wlp_step. calm_part L5 L6 C6. wlp_step. calm_part L6 L7 C7.
  wlp_step. calm_part L7 L8 C8. wlp_step. eapply wlp_conseq; [apply event_connected; exact L8|]. intros err t T.
  wlp_step; [wlp_step; split; [apply T|]; destruct T as [_ ->]; by rewrite H|].
  apply told_alive in T; [|by intros ->]. wlp_step. calm_part T L9 C9. wlp_step. calm_part L9 L10 C10. wlp_step.
  by destruct L10.
Qed.
Lemma syn_sent_ok s : pcb_freed s = false -> state (st_pcb s) = SYN_SENT -> wlp (process_syn_sent cb) (told_ok s) s.
Proof.
  intros Hf Hs. pose proof (alive_refl _ Hf) as L0. unfold process_syn_sent. wlp_step. wlp_step. wlp_step; [by apply syn_ack_ok|].
  wlp_step; [|by wlp_step]. wlp_step. calm_part L0 L1 C1. wlp_step. calm_part L1 L2 C2. wlp_step. calm_part L2 L3 C3. wlp_step.
  by destruct L3.
Qed.
Lemma syn_rcvd_ack_ok s : pcb_freed s = false -> state (st_pcb s) = SYN_RCVD -> wlp (process_syn_rcvd_ack cb) (told_ok s) s.
Proof.
  intros Hf Hs. pose proof (alive_refl _ Hf) as L0. unfold process_syn_rcvd_ack. wlp_step. wlp_step.
  set (s1 := s <| st_pcb := _ |>).
  assert (L1 : alive s s1) by (active_part L0; by rewrite Hs). wlp_step. wlp_step. wlp_step.
  eapply (wlp_conseq _ (told_ok s)).
  { wlp_step; [wlp_step; by destruct L1|]. apply event_accept; exact L1. }
  intros err s2 T. wlp_step.
  - wlp_step. wlp_step.
    + apply told_alive in T; [|intros ->; done]. eapply wlp_conseq; [apply abandon_told; exact T|]. intros ? s3 T3. wlp_step. exact T3.
    + wlp_step. destruct (Z.eqb_spec err ERR_ABRT) as [->|]; [exact T|done].
  - apply told_alive in T; [|intros ->; done]. wlp_step. calm_part T L3 C3. wlp_step. calm_part L3 L4 C4.
    wlp_step. calm_part L4 L5 C5. wlp_step. calm_part L5 L6 C6. wlp_step. wlp_step. wlp_step.
    assert (A6 : active_state (state (st_pcb s'2)) = true) by (rewrite (alive_state _ _ L6); by rewrite Hs).
    wlp_step; [|wlp_step; by destruct L6]. wlp_step. calm_part L6 L7 C7. wlp_step. wlp_step.
    pose proof (calm_active _ _ C7 A6) as A7.
    assert (L8 : alive s (s'3 <| st_pcb := st_pcb s'3 <| state := CLOSE_WAIT |> |>)) by active_part L7.
    by destruct L8.
Qed.
Lemma syn_rcvd_ok s : pcb_freed s = false -> state (st_pcb s) = SYN_RCVD -> wlp (process_syn_rcvd cb) (told_ok s) s.
Proof.
  intros Hf Hs. pose proof (alive_refl _ Hf) as L0. unfold process_syn_rcvd. wlp_step. wlp_step. cbv zeta. wlp_step.
  - wlp_step; [by apply syn_rcvd_ack_ok|]. wlp_step. calm_part L0 L1 C1. wlp_step. by destruct L1.
  - wlp_step; [|by wlp_step]. wlp_step. calm_part L0 L1 C1. wlp_step. by destruct L1.
Qed.

(** The closing states: the control block stays in an active state, or enters [TIME_WAIT]. *)
Section Closing.
Context (s0 : tcp_st) (Hc : closed_ok s0) (Hv : verdict_of s0 = (false, false)).

Lemma enter_ok s r : alive s0 s -> active_state (state (st_pcb s)) = true -> verdict_of s = (false, false) ->
  wlp enter_time_wait (fun _ => wlp (ret r) (processed_ok s0)) s.
Proof.
  intros [O Hf] Ha V. eapply wlp_conseq; [by apply enter_time_wait_lists|]. intros _ s1 (K & F & V1). wlp_step.
  split; [etransitivity; [by apply orderly_keeps|done]|]. intros _. split; [done|].
  intros Hx. rewrite V in V1. injection V1 as E1 E2. by rewrite E1, E2 in Hx.
Qed.

(** After [tcp_receive], in an active state. *)
Definition received_ok (s : tcp_st) : Prop :=
  alive s0 s /\ active_state (state (st_pcb s)) = true /\ verdict_of s = (false, false).
Lemma received_intro s r : pcb_freed s0 = false -> active_state (state (st_pcb s0)) = true ->
  tcp_receive s0 = Ok (r, s) -> received_ok s.
Proof.
  intros Hf Ha E. pose proof (calm_receive _ _ _ E) as C. split; [|split].
  - split; [by apply calm_orderly|]. destruct C as [[= _ -> _ _ _ _ _ _] _ _ _]. done.
  - by apply (calm_active s0).
  - rewrite (cm_verdict _ _ C). done.
Qed.
Lemma received_calm {A} (m : TM A) (Q : A -> tcp_st -> Prop) s : received_ok s -> steps calm m ->
  (forall r s', received_ok s' -> Q r s') -> wlp m Q s.
Proof.
  intros (L & Ha & V) Hm HQ. eapply alive_calm; [exact L|done|]. intros r s' L' C. apply HQ. split; [done|].
  split; [by apply (calm_active s)|]. rewrite (cm_verdict _ _ C). done.
Qed.
Lemma received_move s st : received_ok s -> active_state st = true ->
  received_ok (s <| st_pcb := st_pcb s <| state := st |> |>).
Proof. intros (L & Ha & V) Hst. split; [by active_part L|]. done. Qed.
Lemma received_processed s r : received_ok s -> processed_ok s0 r s.
Proof. intros (L & _ & _). by apply alive_processed. Qed.
Lemma received_enter s r : received_ok s -> wlp enter_time_wait (fun _ => wlp (ret r) (processed_ok s0)) s.
Proof. intros (L & Ha & V). by apply enter_ok. Qed.

Context (Hf : pcb_freed s0 = false) (Ha : active_state (state (st_pcb s0)) = true).
Ltac receive_part R := wlp_step; intros ? ? R%received_intro; [|done|done].
Ltac received_part R R' := eapply received_calm; [exact R|unfold tcp_ack_now; auto with steps|]; intros ? ? R'.

Lemma established_ok : wlp process_established (processed_ok s0) s0.
Proof.
  unfold process_established. receive_part R. wlp_step. wlp_step. wlp_step. wlp_step.
  - wlp_step. received_part R R1. wlp_step. wlp_step. by apply received_processed, received_move.
  - wlp_step. by apply received_processed.
Qed.
Lemma fin_wait_2_ok : wlp process_fin_wait_2 (processed_ok s0) s0.
Proof.
  unfold process_fin_wait_2. receive_part R. wlp_step. wlp_step. wlp_step. wlp_step.
  - wlp_step. received_part R R1. by apply received_enter.
  - wlp_step. by apply received_processed.
Qed.
Lemma fin_wait_1_ok : wlp process_fin_wait_1 (processed_ok s0) s0.
Proof.
  unfold process_fin_wait_1. receive_part R. wlp_step. wlp_step. wlp_step. wlp_step.
  - wlp_step.
    + wlp_step. received_part R R1. by apply received_enter.
    + wlp_step. received_part R R1. wlp_step. wlp_step. by apply received_processed, received_move.
  - wlp_step; wlp_step; [wlp_step|]; apply received_processed; [by apply received_move|done].
Qed.
Lemma closing_ok : wlp process_closing (processed_ok s0) s0.
Proof.
  unfold process_closing. receive_part R. wlp_step. wlp_step. wlp_step. wlp_step; [by apply received_enter|].
  wlp_step. by apply received_processed.
Qed.
Lemma last_ack_ok : wlp process_last_ack (processed_ok s0) s0.
Proof.
  unfold process_last_ack. receive_part R. wlp_step. wlp_step. wlp_step. wlp_step; wlp_step; [wlp_step|by apply received_processed].
  destruct R as ([O F] & A & V). split.
  - apply orderly_keeps in O. destruct O as [O1 Ob O2]. split; [done|done|]. intros Hl%O2. by destruct Hl.
  - intros _. split; [exact F|intros _; exact A].
Qed.
End Closing.

Lemma process_rst_ok s : pcb_freed s = false -> active_state (state (st_pcb s)) = true -> verdict_of s = (false, false) ->
  wlp process_rst (processed_ok s) s.
Proof.
  intros Hf Ha V. unfold process_rst. wlp_step. wlp_step. cbv zeta. wlp_step.
  assert (Hc : closed_ok s) by (injection V as V1 V2; unfold closed_ok; by rewrite V1, V2).
  eapply alive_calm; [by apply alive_refl|unfold tcp_ack_now; calm_tac|]. intros b s1 L1 C1. wlp_step; [|wlp_step; by apply alive_processed].
  wlp_step. apply wlp_assert. intros _. wlp_step. wlp_step. wlp_step. unfold tcp_clear_flags. wlp_step. wlp_step.
  split.
  - destruct L1 as [O _]. apply orderly_keeps in O. destruct O as [O1 Ob O2]. split; [done|done|]. intros Hl%O2.
    apply (lists_ok_shrink s1); try done. by right.
  - intros _. split; [apply L1|]. intros _. exact (calm_active s s1 C1 Ha).
Qed.

Lemma tcp_process_ok s : pcb_freed s = false -> active_state (state (st_pcb s)) = true -> verdict_of s = (false, false) ->
  wlp (tcp_process cb) (processed_ok s) s.
Proof.
  intros Hf Ha V. unfold tcp_process. wlp_step. wlp_step. wlp_step; [by apply process_rst_ok|].
  assert (Hc : forall t, verdict_of t = (false, false) -> closed_ok t).
  { intros t [= V1 V2]. unfold closed_ok. by rewrite V1, V2. }
  pose proof (alive_refl _ Hf) as L0. wlp_step.
  { wlp_step. calm_part L0 L1 C1. wlp_step. apply alive_processed; auto. }
  wlp_step. calm_part L0 L1 C1. wlp_step. calm_part L1 L2 C2. wlp_step. calm_part L2 L3 C3.
  pose proof (calm_active _ _ C3 (calm_active _ _ C2 (calm_active _ _ C1 Ha))) as A3.
  assert (V3 : verdict_of s'1 = (false, false)).
  { by rewrite (cm_verdict _ _ C3), (cm_verdict _ _ C2), (cm_verdict _ _ C1). }
  assert (Htold : forall m : TM Z, wlp m (told_ok s'1) s'1 -> wlp m (processed_ok s) s'1).
  { intros m Hm. eapply wlp_conseq; [exact Hm|]. intros x t T. apply told_processed in T; [|by apply Hc].
    destruct T as [K T]. split; [etransitivity; [apply orderly_keeps, L3|exact K]|exact T]. }
  assert (Hproc : forall m : TM Z, wlp m (processed_ok s'1) s'1 -> wlp m (processed_ok s) s'1).
  { intros m Hm. eapply wlp_conseq; [exact Hm|]. intros x t [K T].
    split; [etransitivity; [apply orderly_keeps, L3|exact K]|exact T]. }
  destruct L3 as [O3 F3]. unfold process_state. wlp_step. wlp_step.
  destruct (state (st_pcb s'1)) eqn:Es; try done.
  - apply Htold. by apply syn_sent_ok.
  - apply Htold. by apply syn_rcvd_ok.
  - apply Hproc, established_ok; auto. by rewrite Es.
  - apply Hproc, fin_wait_1_ok; auto. by rewrite Es.
  - apply Hproc, fin_wait_2_ok; auto. by rewrite Es.
  - apply Hproc, established_ok; auto. by rewrite Es.
  - apply Hproc, closing_ok; auto. by rewrite Es.
  - apply Hproc, last_ack_ok; auto. by rewrite Es.
Qed.

(** ** Notifications *)

Lemma refused_data_ok s0 s : alive s0 s -> wlp (tcp_process_refused_data cb) (told_ok s0) s.
Proof.
  intros L. unfold tcp_process_refused_data, fin_wnd. wlp_step. wlp_step. cbv zeta. wlp_step. calm_part L L1 C1.
  wlp_step. eapply wlp_conseq; [apply event_recv; exact L1|]. intros err s2 T2. wlp_step; [|wlp_step].
  - apply told_alive in T2; [|intros ->; done]. wlp_step; [|wlp_step; by destruct T2].
    wlp_step. calm_part T2 L3 C3. wlp_step. calm_part L3 L4 C4. wlp_step. eapply wlp_conseq; [apply event_closed; exact L4|].
    intros err' s5 T5. wlp_step; wlp_step.
    + destruct (Z.eqb_spec err' ERR_ABRT) as [->|]; [exact T5|done].
    + apply told_alive in T5; [by destruct T5|intros ->; done].
  - wlp_step. destruct (Z.eqb_spec err ERR_ABRT) as [->|]; [exact T2|done].
  - apply told_alive in T2; [|intros ->; done]. wlp_step. calm_part T2 L3 C3. wlp_step. calm_part L3 L4 C4. wlp_step. by destruct L4.
Qed.

Lemma input_refused_ok s0 s : alive s0 s ->
  wlp (input_refused cb) (fun d s' => orderly s0 s' /\ (d = false -> pcb_freed s' = false)) s.
Proof.
  intros L. unfold input_refused. wlp_step. wlp_step. destruct (refused_data (st_pcb s)); [wlp_step; by destruct L|].
  wlp_step. eapply wlp_conseq; [apply refused_data_ok; exact L|]. intros e s1 T1. wlp_step.
  eapply (wlp_conseq _ (fun d s' => told_ok s0 e s' /\ (d = false -> e <> ERR_ABRT))).
  { wlp_step; [by wlp_step|]. wlp_step. wlp_step. wlp_step. split; [exact T1|]. intros _ ->. done. }
  intros d s2 [T2 Hd]. wlp_step.
  - wlp_step. apply deref_wlp. intros F2. assert (L2 : alive s0 s2) by (split; [apply T2|done]).
    wlp_step. wlp_step. wlp_step. calm_part L2 L3 C3. wlp_step. split; [apply L3|done].
  - wlp_step. specialize (Hd H). apply told_alive in T2; [|done]. destruct T2. by split.
Qed.

Lemma input_sent_ok s0 s : alive s0 s -> wlp (input_sent cb) (told_ok s0) s.
Proof.
  intros L. unfold input_sent. wlp_step. wlp_step. wlp_step; [|wlp_step; by destruct L]. wlp_step.
  eapply wlp_conseq; [apply event_sent; exact L|]. intros err s1 T1. wlp_step.
  - wlp_step. destruct (Z.eqb_spec err ERR_ABRT) as [->|]; [exact T1|done].
  - apply told_alive in T1; [|intros ->; done]. wlp_step. calm_part T1 L2 C2. wlp_step. by destruct L2.
Qed.
Lemma input_recv_ok s0 s : alive s0 s -> wlp (input_recv cb) (told_ok s0) s.
Proof.
  intros L. unfold input_recv. wlp_step. wlp_step. destruct (recv_data s); [wlp_step; by destruct L|].
  wlp_step. calm_part L L1 C1. wlp_step. wlp_step. wlp_step. apply wlp_assert. intros _. wlp_step.
  - wlp_step. eapply wlp_conseq; [apply abandon_told; exact L1|]. intros ? s2 T2. wlp_step. exact T2.
  - wlp_step. eapply wlp_conseq; [apply event_recv; exact L1|]. intros err s2 T2. wlp_step.
    + wlp_step. destruct (Z.eqb_spec err ERR_ABRT) as [->|]; [exact T2|done].
    + apply told_alive in T2; [|intros ->; done]. wlp_step. calm_part T2 L3 C3. wlp_step. by destruct L3.
Qed.
Lemma input_closed_ok s0 s : alive s0 s -> wlp (input_closed cb) (told_ok s0) s.
Proof.
  intros L. unfold input_closed, fin_wnd. wlp_step. wlp_step. wlp_step; [|wlp_step; by destruct L].
  wlp_step. calm_part L L1 C1. wlp_step. wlp_step. destruct (refused_data _).
  - wlp_step. calm_part L1 L2 C2. wlp_step. eapply wlp_conseq; [apply event_closed; exact L2|]. intros err s3 T3. wlp_step; wlp_step.
    + destruct (Z.eqb_spec err ERR_ABRT) as [->|]; [exact T3|done].
    + apply told_alive in T3; [by destruct T3|intros ->; done].
  - wlp_step. calm_part L1 L2 C2. wlp_step. by destruct L2.
Qed.

(** Taking the connection down. *)
Lemma went_keeps chg fr s s' : went chg fr s s' -> keeps s s'.
Proof. intros W. pose proof (went_lists_ok _ _ _ _ W) as Hok. destruct W as [_ _ (W1 & W2 & _) (_ & _ & W3) _ _]. by split. Qed.
Lemma take_down (Q : unit -> tcp_st -> Prop) s0 s : orderly s0 s -> active_state (state (st_pcb s0)) = true ->
  (forall s', keeps s0 s' -> Q tt s') -> wlp (tcp_pcb_remove false) (fun _ => wlp tcp_free Q) s.
Proof.
  intros O Ha HQ. apply remove_went.
  - intros _ F. by rewrite (od_state _ _ O F).
  - intros s1 W1 _. eapply free_went; [exact W1|]. intros s2 W2 _. apply HQ.
    etransitivity; [by apply orderly_keeps|by eapply went_keeps].
Qed.
Lemma delayed_close_ok s0 s : alive s0 s -> closed_ok s0 ->
  wlp (tcp_input_delayed_close cb) (fun b s' => keeps s0 s' /\ (b = false -> alive s0 s')) s.
Proof.
  intros L Hc. pose proof (alive_closed_ok _ _ L Hc) as Hc1. unfold tcp_input_delayed_close. wlp_step. wlp_step. wlp_step.
  2:{ wlp_step. split; [apply orderly_keeps, L|done]. }
  assert (Ha : active_state (state (st_pcb s)) = true) by (apply Hc1; by rewrite H, orb_true_r).
  wlp_step. apply deref_wlp. intros F. wlp_step. wlp_step. wlp_step.
  eapply (wlp_steps_post orderly); [apply steps_when; [apply _|by apply orderly_err]|]. intros _ s1 O1.
  assert (O : orderly s0 s1) by (etransitivity; [apply L|exact O1]).
  assert (Ha0 : active_state (state (st_pcb s0)) = true) by (by rewrite <- (alive_state _ _ L)).
  wlp_step. eapply wlp_conseq; [apply (take_down (fun _ s' => keeps s0 s') _ _ O Ha0); auto|].
  intros ? s2 H2. wlp_step. eapply wlp_conseq; [exact H2|]. intros ? s3 K3. wlp_step. by split.
Qed.

(** From [keeps s0] up to a state to [keeps s0] of what follows. *)
Lemma keeps_after {A} (m : TM A) s0 s : keeps s0 s -> wlp m (fun _ s' => keeps s s') s -> wlp m (fun _ s' => keeps s0 s') s.
Proof. intros K H. eapply wlp_conseq; [exact H|]. intros ? s' K'. by transitivity s. Qed.

Lemma input_notify_ok s : pcb_freed s = false -> closed_ok s -> wlp (input_notify cb) (fun _ s' => keeps s s') s.
Proof.
  intros Hf Hc. pose proof (alive_refl _ Hf) as L0. unfold input_notify.
  wlp_step. eapply wlp_conseq; [apply input_sent_ok; exact L0|]. intros e s1 T1. wlp_step; [wlp_step; apply orderly_keeps, T1|].
  apply told_alive in T1; [|intros ->; done].
  wlp_step. eapply wlp_conseq; [apply delayed_close_ok; [exact T1|done]|]. intros b s2 [K2 L2]. wlp_step; [by wlp_step|].
  specialize (L2 H0).
  wlp_step. eapply wlp_conseq; [apply input_recv_ok; exact L2|]. intros e3 s3 T3. wlp_step; [wlp_step; apply orderly_keeps, T3|].
  apply told_alive in T3; [|intros ->; done].
  wlp_step. eapply wlp_conseq; [apply input_closed_ok; exact T3|]. intros e4 s4 T4. wlp_step; [wlp_step; apply orderly_keeps, T4|].
  apply told_alive in T4; [|intros ->; done]. pose proof (alive_closed_ok _ _ T4 Hc) as Hc4.
  wlp_step. wlp_step. set (s5 := s4 <| tcp_input_pcb := 0 |>).
  assert (K5 : keeps s s5).
  { destruct T4 as [O _]. apply orderly_keeps in O. destruct O as [O1 Ob O2]. split; [done|done|]. intros Hl%O2. by destruct Hl. }
  apply keeps_after; [exact K5|]. assert (L5 : alive s5 s5) by (apply alive_refl, T4).
  wlp_step. eapply wlp_conseq; [apply delayed_close_ok; [exact L5|exact Hc4]|]. intros b6 s6 [K6 L6]. wlp_step; [by wlp_step|].
  specialize (L6 H3). wlp_step. calm_part L6 L7 C7. wlp_step. calm_part L7 L8 C8. wlp_step. apply orderly_keeps, L8.
Qed.

(** ** [tcp_input] *)

Lemma input_found_ok p s : pcb_freed s = false -> active_state (state (st_pcb s)) = true -> tcp_input_pcb s <> pcb_addr s ->
  wlp (tcp_input_pcb_found cb p) (fun _ s' => keeps s s' /\ tcp_input_pcb s' = 0) s.
Proof.
  intros Hf Ha Hi. unfold tcp_input_pcb_found. wlp_step. wlp_step. set (s1 := input_setup p s).
  assert (K1 : keeps s s1) by (split; [done|done|]; intros Hl; by destruct Hl).
  wlp_step. eapply wlp_conseq; [apply (input_refused_ok s1); by apply alive_refl|]. intros d s2 [O2 F2].
  wlp_step. eapply (wlp_conseq _ (fun _ s' => keeps s s')).
  - wlp_step; [|etransitivity; [exact K1|by apply orderly_keeps]]. apply negb_true_iff in H. specialize (F2 H).
    assert (V2 : verdict_of s2 = (false, false)).
    { unfold verdict_of. rewrite (od_reset _ _ O2 F2). change (has (recv_flags s1) TF_RESET) with false. f_equal.
      destruct (has (recv_flags s2) TF_CLOSED) eqn:E; [|done]. by destruct (od_closed _ _ O2 F2 E) as [?|[? _]]. }
    assert (A2 : active_state (state (st_pcb s2)) = true) by (rewrite (od_state _ _ O2 F2); exact Ha).
    wlp_step. wlp_step. set (s3 := s2 <| tcp_input_pcb := _ |>).
    assert (K3 : keeps s s3).
    { etransitivity; [exact K1|]. etransitivity; [apply orderly_keeps, O2|]. split; [done|done|]. intros Hl. by destruct Hl. }
    apply keeps_after; [exact K3|]. wlp_step. eapply wlp_conseq; [by apply tcp_process_ok|]. intros r s4 [K4 P4].
    wlp_step; [|done]. destruct P4 as [F4 Hc4]; [intros ->; done|]. wlp_step. wlp_step.
    apply keeps_after; [exact K4|]. wlp_step.
    + assert (A4 : active_state (state (st_pcb s4)) = true) by (apply Hc4; by rewrite H1).
      wlp_step. eapply wlp_steps_post; [by apply orderly_err|]. intros _ s5 O5. wlp_step.
      apply (take_down _ _ _ O5 A4). auto.
    + by apply input_notify_ok.
  - intros ? s3 K3. wlp_step. wlp_step. eapply wlp_calm; [apply calm_sane|]. intros _ s4 C4.
    pose proof (calm_lists_ok _ _ C4) as Hok4. destruct C4 as [[= E1 E2 E3 E4 E5 E6 E7 E8] _ _ _]. split; [|by rewrite E8].
    destruct K3 as [[K3 K3'] Kb K3'']. split; [split; rec_simpl_in E1; rec_simpl_in E7; congruence|by rewrite E5|].
    intros Hl%K3''. apply Hok4. by destruct Hl.
Qed.
End Input.
