(* ===== verification/TcpWorld.v ===== *)
(** * No dangling control blocks

    The lists of all control blocks are sound after every call of the application, every
    incoming packet and every timer tick: a list holds a control block once, and only
    control blocks that exist and are in a state the list is for. *)

From S2P Require Import Prelude Def IpAddr Pbuf Net Netif Ip6Src.
From S2P Require Import Tcp TcpOut TcpIn TcpOpt TcpOutput TcpProcess TcpMachine.
From S2P Require Import TcpInput TcpApp TcpWrite TcpClose TcpSteps TcpParse TcpPcbs TcpDemux.
From S2P Require Import TcpTimer TcpLists TcpOrder TcpOrderIn.

(** ** Sound worlds *)

Definition listed_as (w : tcp_world) (l : list Z) (P : tcp_pcb -> Prop) : Prop :=
  NoDup l /\ forall a, a ∈ l -> exists k, tw_socks w !! a = Some k /\ P (sk k).

Record world_ok (w : tcp_world) : Prop := WorldOk {
  wo_null : tw_socks w !! 0 = None /\ tw_listens w !! 0 = None;
  wo_apart : forall a, is_Some (tw_socks w !! a) -> tw_listens w !! a = None;
  wo_active : listed_as w (tcp_active_pcbs (tw_st w)) (fun p => active_state (state p) = true);
  wo_tw : listed_as w (tcp_tw_pcbs (tw_st w)) (fun p => state p = TIME_WAIT);
  wo_bound : listed_as w (tcp_bound_pcbs (tw_st w)) (fun p => state p = CLOSED /\ local_port p <> 0);
  wo_listen : NoDup (tcp_listen_pcbs w) /\ forall a, a ∈ tcp_listen_pcbs w -> is_Some (tw_listens w !! a);
  wo_idle : tcp_input_pcb (tw_st w) = 0
}.

(** "A PCB is only in one of the lists." *)
Lemma one_list w a : world_ok w ->
  (a ∈ tcp_active_pcbs (tw_st w) -> (a ∉ tcp_tw_pcbs (tw_st w)) /\ (a ∉ tcp_bound_pcbs (tw_st w)) /\ (a ∉ tcp_listen_pcbs w)) /\
  (a ∈ tcp_tw_pcbs (tw_st w) -> (a ∉ tcp_bound_pcbs (tw_st w)) /\ (a ∉ tcp_listen_pcbs w)) /\
  (a ∈ tcp_bound_pcbs (tw_st w) -> a ∉ tcp_listen_pcbs w).
Proof.
  intros [_ Hd [_ H1] [_ H2] [_ H3] [_ H4] _].
  assert (Hs : forall k, tw_socks w !! a = Some k -> a ∉ tcp_listen_pcbs w).
  { intros k Hk Hin. destruct (H4 _ Hin) as [l Hl]. by rewrite Hd in Hl by (by exists k). }
  split_and!.
  - intros (k & Hk & Ha)%H1. split_and!; [intros (k' & Hk' & E)%H2|intros (k' & Hk' & E & _)%H3|by eapply Hs];
      rewrite Hk in Hk'; injection Hk' as <-; by rewrite E in Ha.
  - intros (k & Hk & Ha)%H2. split; [intros (k' & Hk' & E & _)%H3|by eapply Hs]. rewrite Hk in Hk'. injection Hk' as <-. by rewrite E in Ha.
  - intros (k & Hk & _)%H3. by eapply Hs.
Qed.

(** One control block is changed, and may be put on the list. *)
Lemma listed_insert w w' l P a k : tw_socks w' = <[a := k]> (tw_socks w) -> listed_as w l P -> (a ∈ l -> P (sk k)) -> listed_as w' l P.
Proof.
  intros E [N H] HP. split; [done|]. intros b Hb. rewrite E. destruct (decide (b = a)) as [->|]; [|rewrite lookup_insert_ne by done; auto].
  rewrite lookup_insert_eq. eauto.
Qed.
Lemma listed_cons w w' l P a k : tw_socks w' = <[a := k]> (tw_socks w) -> listed_as w l P -> a ∉ l -> P (sk k) -> listed_as w' (a :: l) P.
Proof.
  intros E [N H] Ha HP. split; [by constructor|]. intros b Hb. rewrite E.
  destruct (decide (b = a)) as [->|Hne]; [rewrite lookup_insert_eq; eauto|rewrite lookup_insert_ne by done].
  apply elem_of_cons in Hb as [->|Hb]; [done|auto].
Qed.
Lemma listed_sublist w l l' P : listed_as w l P -> sublist l' l -> listed_as w l' P.
Proof. intros [N H] S. split; [by apply (sublist_NoDup _ l)|]. intros b Hb. apply H. by eapply elem_of_sublist. Qed.
Lemma listed_holds w l (P : tcp_pcb -> Prop) a k : listed_as w l P -> tw_socks w !! a = Some k -> a ∈ l -> P (sk k).
Proof. intros [_ H] Hk (k' & Hk' & HP)%H. rewrite Hk in Hk'. by injection Hk' as <-. Qed.

(** ** Entering and leaving a connection *)

Lemma enter_state a k w b : tw_socks w !! a = Some k ->
  pcb_state (enter a k w) b = (fun k => state (sk k)) <$> tw_socks w !! b.
Proof.
  intros Hk. unfold pcb_state, enter, other_states. rec_simpl. destruct (Z.eqb_spec b a) as [->|Hne]; [by rewrite Hk|].
  by rewrite lookup_fmap, lookup_delete_ne by done.
Qed.

Lemma enter_lists_ok a k w : world_ok w -> tw_socks w !! a = Some k -> lists_ok (enter a k w).
Proof.
  intros [_ _ [N1 H1] [N2 H2] [N3 H3] _ _] Hk. split; [done|apply Forall_forall; intros b Hb..|].
  - destruct (H1 _ Hb) as (kb & Hkb & Ha). exists (state (sk kb)). split; [|done]. by rewrite (enter_state a), Hkb.
  - destruct (H2 _ Hb) as (kb & Hkb & Ha). by rewrite (enter_state a), Hkb; simpl; rewrite ?Ha.
  - destruct (H3 _ Hb) as (kb & Hkb & Ha & _). by rewrite (enter_state a), Hkb; simpl; rewrite ?Ha.
  - intros _ Hb. destruct (H3 _ Hb) as (kb & Hkb & _ & Hp). change (pcb_addr (enter a k w)) with a in Hkb.
    rewrite Hk in Hkb. by injection Hkb as <-.
Qed.

(** What [pcb_state] says of a state reached from [enter]. *)
Lemma leave_state a k w s' b : tw_socks w !! a = Some k -> pcb_addr s' = a -> other_state s' = other_states a (tw_socks w) ->
  pcb_state s' b = (fun k => state (sk k)) <$> tw_socks (leave a k s' w) !! b.
Proof.
  intros Hk Ha Ho. unfold pcb_state, leave, other_states in *. rec_simpl. rewrite Ha, Ho.
  destruct (Z.eqb_spec b a) as [->|Hne].
  - destruct (pcb_freed s'); [by rewrite lookup_delete_eq|by rewrite lookup_insert_eq].
  - rewrite lookup_fmap, lookup_delete_ne by done. destruct (pcb_freed s'); [by rewrite lookup_delete_ne|by rewrite lookup_insert_ne].
Qed.

Lemma listed_pcb_state w s l (P : tcp_state -> Prop) :
  (forall a, pcb_state s a = (fun k => state (sk k)) <$> tw_socks w !! a) -> NoDup l ->
  Forall (fun a => exists st, pcb_state s a = Some st /\ P st) l -> listed_as w l (fun p => P (state p)).
Proof.
  intros Hs N H. split; [done|]. intros a Ha. rewrite Forall_forall in H. destruct (H _ Ha) as (st & E & HP).
  rewrite Hs in E. destruct (tw_socks w !! a) as [k|]; [|done]. exists k. injection E as <-. done.
Qed.

Lemma leave_world_ok a k s' w : world_ok w -> tw_socks w !! a = Some k -> keeps (enter a k w) s' -> tcp_input_pcb s' = 0 ->
  world_ok (leave a k s' w).
Proof.
  intros Hw Hk [[E1 E2] Hb0 Hl] Hi. specialize (Hl (enter_lists_ok _ _ _ Hw Hk)). rec_simpl_in E1. rec_simpl_in E2.
  pose proof (fun b => leave_state a k w s' b Hk E1 E2) as Hst.
  destruct Hl as [(N1 & N2 & N3) H1 H2 H3 H4]. pose proof Hw as [[W1 W1'] W2 _ _ _ W6 _].
  assert (Hdom : forall b, is_Some (tw_socks (leave a k s' w) !! b) -> is_Some (tw_socks w !! b)).
  { intros b. unfold leave. rec_simpl. destruct (pcb_freed s'); [by rewrite lookup_delete_is_Some; intros [_ ?]|].
    destruct (decide (b = a)) as [->|]; [by rewrite Hk|by rewrite lookup_insert_ne]. }
  split; try done.
  - split; [|done]. destruct (tw_socks (leave a k s' w) !! 0) eqn:E; [|done]. destruct (Hdom 0) as [? E']; [by rewrite E|]. congruence.
  - intros b Hb%Hdom. by apply W2.
  - by apply (listed_pcb_state _ s' _ (fun st => active_state st = true)).
  - apply (listed_pcb_state _ s' _ (fun st => st = TIME_WAIT)); [done|done|]. eapply Forall_impl; [exact H2|]. intros b Hb. by exists TIME_WAIT.
  - destruct (listed_pcb_state _ s' (tcp_bound_pcbs s') (fun st => st = CLOSED) Hst N3) as [_ Hb].
    { eapply Forall_impl; [exact H3|]. intros b Hb. by exists CLOSED. }
    split; [done|]. intros b Hin. destruct (Hb b Hin) as (kb & Hkb & Es). exists kb. split; [done|]. split; [done|].
    unfold leave in Hkb. rec_simpl_in Hkb. destruct (decide (b = a)) as [->|Hne].
    + destruct (pcb_freed s') eqn:F; [by rewrite lookup_delete_eq in Hkb|]. rewrite lookup_insert_eq in Hkb.
      injection Hkb as <-. rec_simpl. apply H4; [done|]. by rewrite E1.
    + assert (Hkb' : tw_socks w !! b = Some kb).
      { destruct (pcb_freed s'); [by rewrite lookup_delete_ne in Hkb|by rewrite lookup_insert_ne in Hkb]. }
      destruct (wo_bound _ Hw) as [_ Hb1]. destruct (Hb1 b) as (k' & Hk' & _ & Hp); [by eapply elem_of_sublist|].
      rewrite Hk' in Hkb'. by injection Hkb' as <-.
Qed.

(** A function that is called for no control block. *)
Lemma nowhere_state w b : world_ok w -> pcb_state (nowhere w) b = (fun k => state (sk k)) <$> tw_socks w !! b.
Proof.
  intros Hw. destruct (wo_null _ Hw) as [Hn _]. unfold pcb_state, nowhere. rec_simpl.
  destruct (Z.eqb_spec b 0) as [->|]; [by rewrite Hn|by rewrite lookup_fmap].
Qed.
Lemma nowhere_lists_ok w : world_ok w -> lists_ok (nowhere w).
Proof.
  intros Hw. pose proof (fun b => nowhere_state w b Hw) as Hs. destruct Hw as [_ _ [N1 H1] [N2 H2] [N3 H3] _ _].
  split; [done|apply Forall_forall; intros b Hb..|done].
  - destruct (H1 _ Hb) as (kb & Hkb & Ha). exists (state (sk kb)). split; [|done]. by rewrite Hs, Hkb.
  - destruct (H2 _ Hb) as (kb & Hkb & Ha). by rewrite Hs, Hkb; simpl; rewrite Ha.
  - destruct (H3 _ Hb) as (kb & Hkb & Ha & _). by rewrite Hs, Hkb; simpl; rewrite Ha.
Qed.
Lemma globally_world_ok w s' : world_ok w -> orderly (nowhere w) s' -> world_ok (w <| tw_st := s' |>).
Proof.
  intros Hw O. pose proof (od_lists _ _ O (nowhere_lists_ok _ Hw)) as [(N1 & N2 & N3) H1 H2 H3 _].
  destruct O as [(Ea & Eo & Ei) Hf _ [_ Sb] _ _ _ _ _]. specialize (Hf eq_refl).
  assert (Hs : forall b, pcb_state s' b = (fun k => state (sk k)) <$> tw_socks (w <| tw_st := s' |>) !! b).
  { intros b. rec_simpl. rewrite <- nowhere_state by done. unfold pcb_state. by rewrite Ea, Eo, Hf. }
  pose proof Hw as [W1 W2 _ _ [_ W5] W6 W7]. split; try done.
  - by apply (listed_pcb_state _ s' _ (fun st => active_state st = true)).
  - apply (listed_pcb_state _ s' _ (fun st => st = TIME_WAIT)); [done|done|]. eapply Forall_impl; [exact H2|].
    intros b Hb. by exists TIME_WAIT.
  - split; [done|]. intros b Hb. apply W5. by eapply elem_of_sublist.
  - rec_simpl. by rewrite Ei.
Qed.

(** ** Functions on the world *)

(** [tame m]: the world is sound after [m] whenever it was before. *)
Definition tame {A} (m : WM A) : Prop := forall w, world_ok w -> wlp m (fun _ => world_ok) w.

Lemma wlp_get_sock a Q w : (forall k, tw_socks w !! a = Some k -> Q k w) -> wlp (get_sock a) Q w.
Proof. intros H r w'. unfold get_sock. destruct (tw_socks w !! a); [|done]. intros [= <- <-]. auto. Qed.
Lemma wlp_get_listen a Q w : (forall l, tw_listens w !! a = Some l -> Q l w) -> wlp (get_listen a) Q w.
Proof. intros H r w'. unfold get_listen. destruct (tw_listens w !! a); [|done]. intros [= <- <-]. auto. Qed.
Lemma wlp_get_state a Q w : (forall st, (forall k, tw_socks w !! a = Some k -> st = state (sk k)) ->
    (tw_socks w !! a = None -> st = LISTEN) -> Q st w) -> wlp (get_state a) Q w.
Proof.
  intros H r w'. unfold get_state. destruct (tw_socks w !! a) as [k|] eqn:E; [|destruct (tw_listens w !! a); [|done]];
    intros [= <- <-]; apply H; congruence.
Qed.
Lemma wlp_upd_sock a f Q w : (forall k, tw_socks w !! a = Some k -> Q tt (w <| tw_socks := <[a := f k]> (tw_socks w) |>)) ->
  wlp (upd_sock a f) Q w.
Proof. intros H r w'. unfold upd_sock. destruct (tw_socks w !! a); [|done]. intros [= <- <-]. auto. Qed.
Lemma wlp_upd_listen a f Q w : (forall l, tw_listens w !! a = Some l -> Q tt (w <| tw_listens := <[a := f l]> (tw_listens w) |>)) ->
  wlp (upd_listen a f) Q w.
Proof. intros H r w'. unfold upd_listen. destruct (tw_listens w !! a); [|done]. intros [= <- <-]. auto. Qed.
Lemma wlp_mod_st f Q w : Q tt (w <| tw_st := f (tw_st w) |>) -> wlp (mod_st f) Q w.
Proof. by intros H r w' [= <- <-]. Qed.
Lemma wlp_focus {A} a (m : TM A) Q w :
  (forall k, tw_socks w !! a = Some k -> wlp m (fun r s' => Q r (leave a k s' w)) (enter a k w)) -> wlp (focus a m) Q w.
Proof.
  intros H r w'. unfold focus. destruct (tw_socks w !! a) as [k|]; [|done]. specialize (H k eq_refl). unfold wlp in H.
  destruct (m (enter a k w)) as [[r' s']|]; [|done]. intros [= <- <-]. auto.
Qed.
Lemma wlp_globally {A} (m : TM A) Q w : wlp m (fun r s' => Q r (w <| tw_st := s' |>)) (nowhere w) -> wlp (globally m) Q w.
Proof.
  intros H r w'. unfold globally, wlp in *. destruct (m (nowhere w)) as [[r' s']|]; [|done]. intros [= <- <-]. auto.
Qed.
Lemma wlp_on_net {A} (m : M net A) Q w : (forall r n, Q r (w <| tw_net := n |>)) -> wlp (on_net m) Q w.
Proof. intros H r w'. unfold on_net. destruct (m (tw_net w)) as [[? ?]|]; [|done]. intros [= <- <-]. auto. Qed.

Lemma tame_bind {A B} (m : WM A) (k : A -> WM B) : tame m -> (forall a, tame (k a)) -> tame (bind m k).
Proof. intros Hm Hk w Hw. apply wlp_bind. eapply wlp_conseq; [by apply Hm|]. intros a w'. apply Hk. Qed.
Lemma tame_ret {A} (a : A) : tame (ret a : WM A).
Proof. intros w Hw. by apply wlp_ret. Qed.
Lemma tame_get : tame get.
Proof. intros w Hw. by apply wlp_get. Qed.
Lemma tame_if {A} (b : bool) (m1 m2 : WM A) : tame m1 -> tame m2 -> tame (if b then m1 else m2).
Proof. by destruct b. Qed.
Lemma tame_assert msg b : tame (lwip_assert msg b : WM unit).
Proof. intros w Hw. by apply wlp_assert. Qed.
Lemma tame_fail {A} f : tame (fail f : WM A).
Proof. intros w Hw. apply wlp_fail. Qed.
Lemma tame_get_sock a : tame (get_sock a).
Proof. intros w Hw. by apply wlp_get_sock. Qed.
Lemma tame_get_listen a : tame (get_listen a).
Proof. intros w Hw. by apply wlp_get_listen. Qed.
Lemma tame_get_state a : tame (get_state a).
Proof. intros w Hw. by apply wlp_get_state. Qed.
Lemma focus_keeps {A} a (m : TM A) w : world_ok w ->
  (forall k, tw_socks w !! a = Some k -> wlp m (fun _ s' => keeps (enter a k w) s' /\ tcp_input_pcb s' = 0) (enter a k w)) ->
  wlp (focus a m) (fun _ => world_ok) w.
Proof.
  intros Hw H. apply wlp_focus. intros k Hk. eapply wlp_conseq; [by apply H|]. intros r s' [K Ki]. by apply leave_world_ok.
Qed.
Lemma focus_orderly {A} a (m : TM A) w : world_ok w ->
  (forall k, tw_socks w !! a = Some k -> wlp m (fun _ s' => orderly (enter a k w) s') (enter a k w)) ->
  wlp (focus a m) (fun _ => world_ok) w.
Proof.
  intros Hw H. apply focus_keeps; [done|]. intros k Hk. eapply wlp_conseq; [by apply H|]. intros r s' O.
  split; [by apply orderly_keeps|]. destruct O as [(_ & _ & ->) _ _ _ _ _ _ _ _]. apply (wo_idle _ Hw).
Qed.
Lemma tame_focus {A} a (m : TM A) : steps orderly m -> tame (focus a m).
Proof. intros Hm w Hw. apply focus_orderly; [done|]. intros k _. by apply steps_wlp. Qed.
Lemma tame_globally {A} (m : TM A) : steps orderly m -> tame (globally m).
Proof.
  intros Hm w Hw. apply wlp_globally. eapply wlp_steps_post; [exact Hm|]. intros r s' O. by apply globally_world_ok.
Qed.

(** No control block changes its place. *)
Lemma world_ok_same w w' : world_ok w -> (forall b, (fun k => place_of (sk k)) <$> tw_socks w' !! b = (fun k => place_of (sk k)) <$> tw_socks w !! b) ->
  (forall b, is_Some (tw_listens w' !! b) <-> is_Some (tw_listens w !! b)) -> lists_of (tw_st w') = lists_of (tw_st w) ->
  tcp_listen_pcbs w' = tcp_listen_pcbs w -> world_ok w'.
Proof.
  intros [W1 W2 W3 W4 W5 W6 W7] Hs Hl [= _ _ E3 E4 E5 _ _ E8] E9.
  assert (Hls : forall l (P : tcp_pcb -> Prop), (forall p p', place_of p = place_of p' -> P p -> P p') -> listed_as w l P -> listed_as w' l P).
  { intros l P HP [N H]. split; [done|]. intros b Hb. destruct (H b Hb) as (kb & Hkb & Hp). specialize (Hs b).
    rewrite Hkb in Hs. destruct (tw_socks w' !! b) as [k'|]; [|done]. injection Hs as Hs1 Hs2.
    exists k'. split; [done|]. apply (HP (sk kb)); [|done]. unfold place_of. congruence. }
  assert (Hdom : forall b, is_Some (tw_socks w' !! b) <-> is_Some (tw_socks w !! b)).
  { intros b. specialize (Hs b). destruct (tw_socks w' !! b), (tw_socks w !! b); done. }
  split; rewrite ?E3, ?E4, ?E5, ?E8, ?E9; try done.
  - rewrite !eq_None_not_Some, Hdom, Hl, <- !eq_None_not_Some. done.
  - intros b Hb%Hdom. rewrite eq_None_not_Some, Hl, <- eq_None_not_Some. auto.
  - apply Hls; [|done]. intros p p' [= E _]. by rewrite E.
  - apply Hls; [|done]. intros p p' [= E _]. by rewrite E.
  - apply Hls; [|done]. intros p p' [= E1 E2]. by rewrite E1, E2.
  - destruct W6 as [N H]. split; [done|]. intros b Hb. apply Hl. auto.
Qed.
Lemma tame_upd_sock a f : (forall k, place_of (sk (f k)) = place_of (sk k)) -> tame (upd_sock a f).
Proof.
  intros Hf w Hw. apply wlp_upd_sock. intros k Hk. apply (world_ok_same w); try done.
  intros b. rec_simpl. destruct (decide (b = a)) as [->|]; [|by rewrite lookup_insert_ne].
  rewrite lookup_insert_eq, Hk. simpl. by rewrite Hf.
Qed.
Lemma tame_upd_pcb a f : (forall p, place_of (f p) = place_of p) -> tame (upd_pcb a f).
Proof. intros Hf. apply tame_upd_sock. intros k. apply Hf. Qed.
Lemma tame_upd_listen a f : tame (upd_listen a f).
Proof.
  intros w Hw. apply wlp_upd_listen. intros l Hl. apply (world_ok_same w); try done.
  intros b. rec_simpl. destruct (decide (b = a)) as [->|]; [|by rewrite lookup_insert_ne]. rewrite lookup_insert_eq, Hl. done.
Qed.
Lemma tame_mod_st f : (forall s, lists_of (f s) = lists_of s) -> tame (mod_st f).
Proof. intros Hf w Hw. apply wlp_mod_st. apply (world_ok_same w); try done. apply Hf. Qed.
Lemma tame_modify f : (forall w, tw_socks (f w) = tw_socks w /\ tw_listens (f w) = tw_listens w /\ tw_st (f w) = tw_st w /\
  tcp_listen_pcbs (f w) = tcp_listen_pcbs w) -> tame (modify f).
Proof. intros Hf w Hw. apply wlp_modify. destruct (Hf w) as (E1 & E2 & E3 & E4). apply (world_ok_same w); rewrite ?E1, ?E2, ?E3, ?E4; done. Qed.
Lemma tame_on_net {A} (m : M net A) : tame (on_net m).
Proof. intros w Hw. apply wlp_on_net. intros r n. by apply (world_ok_same w). Qed.
Lemma tame_walk {A} (g : Z -> WM A) test l : (forall a, tame (g a)) -> tame (walk g test l).
Proof.
  intros Hg. induction l as [|a l IH]; cbn [walk]; [apply tame_ret|]. apply tame_bind; [apply Hg|]. intros x.
  apply tame_if; [apply tame_ret|apply IH].
Qed.

Create HintDb tame.
#[export] Hint Resolve tame_get_sock tame_get_listen tame_get_state tame_upd_listen tame_on_net tame_walk : tame.
#[export] Hint Extern 1 (tame (upd_sock _ _)) => apply tame_upd_sock; intros; repeat case_match; done : tame.
#[export] Hint Extern 1 (tame (upd_pcb _ _)) => apply tame_upd_pcb; intros; repeat case_match; done : tame.
#[export] Hint Extern 1 (tame (mod_st _)) => apply tame_mod_st; intros; repeat case_match; done : tame.
#[export] Hint Extern 1 (tame (modify _)) => apply tame_modify; intros; repeat case_match; done : tame.
#[export] Hint Extern 2 (tame (focus _ _)) => apply tame_focus; solve [auto 2 with steps] : tame.
#[export] Hint Extern 2 (tame (globally _)) => apply tame_globally; solve [auto 2 with steps] : tame.

(** A bind, a conditional or a match, down to its parts. *)
Ltac tame_step :=
  lazymatch goal with
  | |- tame (bind _ _) => apply tame_bind; [|intros ?]
  | |- tame (ret _) => apply tame_ret
  | |- tame get => apply tame_get
  | |- tame (lwip_assert _ _) => apply tame_assert
  | |- tame (fail _) => apply tame_fail
  | |- tame (if ?x then _ else _) => first [apply tame_if | destruct x]
  | |- tame (match ?x with _ => _ end) => destruct x
  | |- tame (let _ := _ in _) => cbv zeta
  | |- tame _ => solve [auto 2 with tame]
  end.
Ltac tame_tac := intros; repeat tame_step.
