(* ===== verification/TcpCalls.v ===== *)
(** * The calls of the application keep the lists sound

    Creating, binding, listening, connecting and closing, with the addresses and ports they
    choose; a world that is sound is so after each of them. *)

From S2P Require Import Prelude Def IpAddr Pbuf Net Netif Ip6Src Tcp.
From S2P Require Import TcpOut TcpIn TcpOpt TcpOutput TcpProcess TcpMachine TcpStream TcpInput.
From S2P Require Import TcpApp TcpWrite TcpClose TcpSteps TcpParse TcpPcbs TcpDemux TcpTimer.
From S2P Require Import TcpLists TcpOrder TcpOrderIn TcpWorld.

(** ** Ports and addresses *)

Lemma tame_port_used p : tame (tcp_port_used p).
Proof. unfold tcp_port_used. tame_tac. Qed.
Lemma tame_new_port : tame tcp_new_port.
Proof.
  assert (H : forall fuel n, tame (tcp_new_port_loop fuel n)).
  { pose proof tame_port_used. induction fuel as [|fuel IH]; intros n; cbn [tcp_new_port_loop]; tame_tac. }
  apply H.
Qed.
Lemma tame_zoned a : tame (tcp_zoned a).
Proof. unfold tcp_zoned. tame_tac. Qed.
Lemma tame_bind_used a p : tame (bind_used a p).
Proof. unfold bind_used. tame_tac. Qed.
Lemma tame_next_iss : tame tcp_next_iss.
Proof. unfold tcp_next_iss. tame_tac. Qed.
#[export] Hint Resolve tame_new_port tame_zoned tame_bind_used tame_next_iss : tame.

(** What they read: the control blocks are as they were. *)
Definition same_socks (w w' : tcp_world) : Prop := tw_socks w' = tw_socks w /\ tw_st w' = tw_st w /\
  tcp_listen_pcbs w' = tcp_listen_pcbs w.
Definition reads {A} (m : WM A) : Prop := forall w r w', m w = Ok (r, w') -> same_socks w w'.
Lemma reads_bind {A B} (m : WM A) (k : A -> WM B) : reads m -> (forall a, reads (k a)) -> reads (bind m k).
Proof. intros Hm Hk w r w' (a & w1 & (E1 & E2 & E3)%Hm & (E4 & E5 & E6)%Hk)%bind_inv. unfold same_socks. split_and!; congruence. Qed.
Lemma reads_ret {A} (a : A) : reads (ret a : WM A).
Proof. by intros w r w' [= _ <-]. Qed.
Lemma reads_get : reads get.
Proof. by intros w r w' [= _ <-]. Qed.
Lemma reads_get_sock a : reads (get_sock a).
Proof. intros w r w'. unfold get_sock. destruct (tw_socks w !! a); [|done]. by intros [= _ <-]. Qed.
Lemma reads_get_listen a : reads (get_listen a).
Proof. intros w r w'. unfold get_listen. destruct (tw_listens w !! a); [|done]. by intros [= _ <-]. Qed.
Lemma reads_on_net {A} (m : M net A) : reads (on_net m).
Proof. intros w r w'. unfold on_net. destruct (m (tw_net w)) as [[? ?]|]; [|done]. by intros [= _ <-]. Qed.
Lemma reads_modify f : (forall w, same_socks w (f w)) -> reads (modify f).
Proof. intros H w r w' [= _ <-]. apply H. Qed.
Lemma reads_assert msg b : reads (lwip_assert msg b).
Proof. intros w r w'. unfold lwip_assert. destruct b; [|done]. by intros [= _ <-]. Qed.
Lemma reads_walk {A} (g : Z -> WM A) test l : (forall a, reads (g a)) -> reads (walk g test l).
Proof.
  intros Hg. induction l as [|a l IH]; cbn [walk]; [apply reads_ret|]. apply reads_bind; [apply Hg|]. intros x.
  destruct (test x); [apply reads_ret|apply IH].
Qed.
#[export] Hint Resolve reads_get_sock reads_get_listen reads_on_net reads_walk : tame.
#[export] Hint Extern 1 (reads (modify _)) => apply reads_modify; intros; repeat case_match; done : tame.
Ltac reads_tac := intros; repeat lazymatch goal with
  | |- reads (bind _ _) => apply reads_bind; [|intros ?]
  | |- reads (ret _) => apply reads_ret
  | |- reads get => apply reads_get
  | |- reads (fail _) => intros ? ? ?; done
  | |- reads (lwip_assert _ _) => apply reads_assert
  | |- reads (if ?x then _ else _) => destruct x
  | |- reads (match ?x with _ => _ end) => destruct x
  | |- reads (let _ := _ in _) => cbv zeta
  | |- reads _ => solve [auto 2 with tame]
  end.
Lemma reads_new_port : reads tcp_new_port.
Proof.
  assert (H : forall fuel n, reads (tcp_new_port_loop fuel n)).
  { induction fuel as [|fuel IH]; intros n; cbn [tcp_new_port_loop]; unfold tcp_port_used; reads_tac. }
  apply H.
Qed.
Lemma reads_zoned a : reads (tcp_zoned a).
Proof. unfold tcp_zoned. reads_tac. Qed.
Lemma reads_bind_used a p : reads (bind_used a p).
Proof. unfold bind_used. reads_tac. Qed.
Lemma reads_next_iss : reads tcp_next_iss.
Proof. unfold tcp_next_iss. reads_tac. Qed.
Lemma reads_socks_assert msg ok l : reads (socks_assert msg ok l).
Proof. induction l as [|a l IH]; cbn [socks_assert]; reads_tac. Qed.
#[export] Hint Resolve reads_socks_assert : tame.
Lemma reads_sane : reads pcbs_sane.
Proof. unfold pcbs_sane. reads_tac. Qed.
#[export] Hint Resolve reads_new_port reads_zoned reads_bind_used reads_next_iss : tame.

(** [steady m]: every control block keeps its place, and the list of bound ones is the same. *)
Definition place (w : tcp_world) (a : Z) := (fun k => place_of (sk k)) <$> tw_socks w !! a.
Definition steady {A} (m : WM A) : Prop := forall w r w', m w = Ok (r, w') ->
  (forall a, place w' a = place w a) /\ tcp_bound_pcbs (tw_st w') = tcp_bound_pcbs (tw_st w).
Lemma reads_steady {A} (m : WM A) : reads m -> steady m.
Proof. intros H w r w' (E1 & E2 & _)%H. unfold place. by rewrite E1, E2. Qed.
#[export] Hint Extern 3 (steady _) => apply reads_steady; solve [auto 2 with tame] : tame.
Lemma steady_bind {A B} (m : WM A) (k : A -> WM B) : steady m -> (forall a, steady (k a)) -> steady (bind m k).
Proof.
  intros Hm Hk w r w' (a & w1 & [E1 E2]%Hm & [E3 E4]%Hk)%bind_inv. split; [|congruence]. intros b. by rewrite E3, E1.
Qed.
Lemma steady_if {A} (b : bool) (m1 m2 : WM A) : steady m1 -> steady m2 -> steady (if b then m1 else m2).
Proof. by destruct b. Qed.
Lemma steady_ret {A} (a : A) : steady (ret a : WM A).
Proof. apply reads_steady, reads_ret. Qed.
Lemma steady_upd_pcb a f : (forall p, place_of (f p) = place_of p) -> steady (upd_pcb a f).
Proof.
  intros Hf w r w'. unfold upd_pcb, upd_sock. destruct (tw_socks w !! a) as [k|] eqn:Hk; [|done]. intros [= _ <-]. split; [|done].
  intros b. unfold place. rec_simpl. destruct (decide (b = a)) as [->|]; [|by rewrite lookup_insert_ne].
  rewrite lookup_insert_eq, Hk. simpl. by rewrite Hf.
Qed.
#[export] Hint Extern 1 (steady (upd_pcb _ _)) => apply steady_upd_pcb; intros; repeat case_match; done : tame.

(** A control block in its place, before and after a function that leaves it there. *)
Definition placed (w : tcp_world) (a : Z) (st : tcp_state) (P : Z -> list Z -> Prop) : Prop :=
  world_ok w /\ exists k, tw_socks w !! a = Some k /\ state (sk k) = st /\ P (local_port (sk k)) (tcp_bound_pcbs (tw_st w)).
Lemma placed_steady {A} (m : WM A) a st P (Q : A -> tcp_world -> Prop) w : placed w a st P -> tame m -> steady m ->
  (forall r w', placed w' a st P -> Q r w') -> wlp m Q w.
Proof.
  intros [Hw (k & Hk & Hs & Hp)] Ht Hr HQ r w' E. apply HQ. split; [by eapply Ht|]. apply Hr in E as [E1 ->].
  specialize (E1 a). unfold place in E1. rewrite Hk in E1. destruct (tw_socks w' !! a) as [k'|]; [|done]. injection E1 as E1 E2.
  exists k'. by rewrite E1, E2.
Qed.
Lemma placed_focus {A} a (m : TM A) st P (Q : A -> tcp_world -> Prop) w : placed w a st P -> st <> ESTABLISHED ->
  steps calm m -> (forall r w', placed w' a st P -> Q r w') -> wlp (focus a m) Q w.
Proof.
  intros [Hw (k & Hk & Hs & Hp)] Hne Hm HQ r w' E. apply HQ. split; [eapply tame_focus; [|done..]; by apply calm_steps_orderly|].
  unfold focus in E. rewrite Hk in E. destruct (m (enter a k w)) as [[r1 s1]|] eqn:Em; [|done].
  injection E as <- <-. apply Hm in Em as [[= _ Ef _ _ Eb _ _ _] Est Ep _]. unfold leave. rec_simpl. rewrite Ef, Eb, lookup_insert_eq.
  change (st_pcb (enter a k w)) with (sk k) in *. eexists. split; [done|]. rec_simpl.
  rewrite Ep. split; [|done]. destruct Est as [->|[E' _]]; congruence.
Qed.

(** ** Allocation *)

(** The address is [0] or not in use. *)
Definition fresh (a : Z) (w : tcp_world) : Prop := world_ok w /\ (a <> 0 -> tw_socks w !! a = None /\ tw_listens w !! a = None).

Lemma memp_malloc_fresh w : world_ok w -> wlp memp_malloc_tcp (fun a w' => fresh a w' /\ tw_socks w' = tw_socks w) w.
Proof.
  intros Hw. unfold memp_malloc_tcp. wlp_step. eapply (wlp_conseq _ (fun _ w' => world_ok w' /\ tw_socks w' = tw_socks w)).
  { intros r w' E. split; [|unfold globally in E; by destruct (ask _) as [[? ?]|]; [injection E as _ <-|]].
    revert E. apply (tame_globally ask); [|done]. apply calm_steps_orderly. auto with steps. }
  intros a w1 [Hw1 Es]. wlp_step. wlp_step. wlp_step. split; [|done]. split; [done|].
  case_bool_decide; [done|]. case_bool_decide; [done|]. intros _. rewrite <- !not_elem_of_dom. done.
Qed.
Lemma or_else_fresh a m w : fresh a w -> tame m -> wlp (or_else a m) fresh w.
Proof.
  intros [Hw Hf] Hm. unfold or_else. wlp_step; [|by wlp_step]. wlp_step. eapply wlp_conseq; [by apply Hm|].
  intros [] w1 Hw1. eapply wlp_conseq; [by apply memp_malloc_fresh|]. by intros b w2 [? _].
Qed.

(** A new control block is on no list. *)
Lemma insert_world_ok a k w : fresh a w -> a <> 0 -> world_ok (w <| tw_socks := <[a := k]> (tw_socks w) |>).
Proof.
  intros [Hw Hf] Ha. destruct (Hf Ha) as [H1 H2]. destruct Hw as [[W1 W1'] W2 W3 W4 W5 W6 W7].
  assert (Hl : forall l P, listed_as w l P -> listed_as (w <| tw_socks := <[a := k]> (tw_socks w) |>) l P).
  { intros l P [N H]. split; [done|]. intros b Hb. destruct (H b Hb) as (kb & Hkb & Hp). exists kb. rec_simpl.
    rewrite lookup_insert_ne; [done|]. congruence. }
  split; rec_simpl; auto.
  - by rewrite lookup_insert_ne.
  - intros b. destruct (decide (b = a)) as [->|]; [done|]. rewrite lookup_insert_ne by done. apply W2.
Qed.
Lemma insert_listen_ok a l w : fresh a w -> a <> 0 -> world_ok (w <| tw_listens := <[a := l]> (tw_listens w) |>).
Proof.
  intros [Hw Hf] Ha. destruct (Hf Ha) as [H1 H2]. destruct Hw as [[W1 W1'] W2 W3 W4 W5 [N W6] W7]. split; rec_simpl; auto.
  - by rewrite lookup_insert_ne.
  - intros b Hb. rewrite lookup_insert_ne; [by apply W2|]. intros ->. rewrite H1 in Hb. by destruct Hb.
  - split; [done|]. intros b Hb. destruct (decide (b = a)) as [->|]; [by rewrite lookup_insert_eq|rewrite lookup_insert_ne; auto].
Qed.

Section Calls.
Context (cb : tcp_callbacks) (Happ : orderly_app cb).
Hint Extern 1 (steps orderly (tcp_abandon _ _)) => apply (orderly_abandon cb Happ) : steps.
Hint Extern 1 (steps orderly (tcp_abort _)) => apply (orderly_abandon cb Happ) : steps.

Lemma tame_handle_closepend : tame tcp_handle_closepend.
Proof.
  assert (H : forall l, tame (handle_closepend l)).
  { induction l as [|a l IH]; cbn [handle_closepend]; tame_tac. apply tame_focus, orderly_pending_fin. }
  unfold tcp_handle_closepend. tame_tac.
Qed.
Lemma tame_find_prio ticks l : forall x y z, tame (find_prio ticks l x y z).
Proof. induction l as [|a l IH]; intros x y z; cbn [find_prio]; tame_tac. Qed.
Lemma tame_find_oldest ticks test l : forall x y, tame (find_oldest ticks test l x y).
Proof. induction l as [|a l IH]; intros x y; cbn [find_oldest]; tame_tac. Qed.
Hint Resolve tame_handle_closepend tame_find_prio tame_find_oldest : tame.
Lemma tame_kill_prio p : tame (tcp_kill_prio cb p).
Proof. unfold tcp_kill_prio. tame_tac. Qed.
Lemma tame_kill_state st : tame (tcp_kill_state cb st).
Proof. unfold tcp_kill_state. tame_tac. Qed.
Lemma tame_kill_timewait : tame (tcp_kill_timewait cb).
Proof. unfold tcp_kill_timewait. tame_tac. Qed.
Hint Resolve tame_kill_prio tame_kill_state tame_kill_timewait : tame.

(** A control block that was just handed out, or [NULL]. *)
Definition handed_out (a : Z) (w : tcp_world) : Prop :=
  world_ok w /\ (a <> 0 -> placed w a CLOSED (fun port _ => port = 0)).
Lemma tcp_alloc_ok prio w : world_ok w -> wlp (tcp_alloc cb prio) handed_out w.
Proof.
  intros Hw. unfold tcp_alloc. wlp_step. eapply wlp_conseq; [by apply memp_malloc_fresh|]. intros a1 w1 [F1 _].
  wlp_step. eapply wlp_conseq; [apply or_else_fresh; [exact F1|tame_tac]|]. intros a2 w2 F2.
  wlp_step. eapply wlp_conseq; [apply or_else_fresh; [exact F2|tame_tac]|]. intros a3 w3 F3.
  wlp_step. eapply wlp_conseq; [apply or_else_fresh; [exact F3|tame_tac]|]. intros a4 w4 F4.
  wlp_step. eapply wlp_conseq; [apply or_else_fresh; [exact F4|tame_tac]|]. intros a5 w5 F5.
  wlp_step; [wlp_step; split; [by destruct F5|done]|]. wlp_step. wlp_step. wlp_step. apply Z.eqb_neq in H.
  set (k := tcp_sock_new prio (tcp_ticks (tw_st w5)) (tcp_timer_ctr w5)).
  pose proof (insert_world_ok _ k _ F5 H) as Hw'. split; [done|]. intros _. split; [done|].
  exists k. rec_simpl. by rewrite lookup_insert_eq.
Qed.
Lemma tame_alloc prio : tame (tcp_alloc cb prio).
Proof. intros w Hw. eapply wlp_conseq; [by apply tcp_alloc_ok|]. by intros a w' []. Qed.
Hint Resolve tame_alloc : tame.
Lemma tame_new_ip_type t : tame (tcp_new_ip_type cb t).
Proof. unfold tcp_new_ip_type. tame_tac. Qed.

(** A control block in a new place: the lists it may be on remain to be looked at. *)
Lemma upd_world_ok a k k' w w' : world_ok w -> tw_socks w !! a = Some k -> tw_socks w' = <[a := k']> (tw_socks w) ->
  tw_listens w' = tw_listens w -> tcp_listen_pcbs w' = tcp_listen_pcbs w -> tcp_input_pcb (tw_st w') = tcp_input_pcb (tw_st w) ->
  listed_as w' (tcp_active_pcbs (tw_st w')) (fun p => active_state (state p) = true) ->
  listed_as w' (tcp_tw_pcbs (tw_st w')) (fun p => state p = TIME_WAIT) ->
  listed_as w' (tcp_bound_pcbs (tw_st w')) (fun p => state p = CLOSED /\ local_port p <> 0) -> world_ok w'.
Proof.
  intros [[W1 W1'] W2 _ _ _ W6 W7] Hk E1 E2 E3 E4 H1 H2 H3. split; rewrite ?E1, ?E2, ?E3, ?E4; try done.
  - split; [|done]. rewrite lookup_insert_ne; [done|]. congruence.
  - intros b. destruct (decide (b = a)) as [->|]; [intros _; apply W2; by rewrite Hk|rewrite lookup_insert_ne by done; apply W2].
Qed.

(** ** Binding *)

Lemma bind_commit_ok a ip port w : placed w a CLOSED (fun _ _ => True) -> port <> 0 -> wlp (bind_commit a ip port) (fun _ => world_ok) w.
Proof.
  intros H0 Hport. unfold bind_commit. wlp_step. apply wlp_get_sock. intros k Hk. wlp_step.
  eapply (wlp_conseq _ (fun _ w' => placed w' a CLOSED (fun _ _ => True))).
  { wlp_step; [|by wlp_step]. eapply placed_steady; [exact H0|auto with tame..|done]. }
  clear k Hk H0. intros [] w1 [Hw1 (k & Hk & Hs & _)]. wlp_step. unfold upd_pcb. apply wlp_upd_sock. intros k' Hk'.
  assert (k' = k) as -> by congruence. wlp_step. unfold TCP_REG_BOUND, reg. wlp_step. wlp_step. wlp_step. wlp_step.
  - case_bool_decide; [apply wlp_fail|done].
  - apply bool_decide_eq_false in H. wlp_step. apply wlp_mod_st. wlp_step. apply wlp_mod_st. wlp_step. rec_simpl_in H.
    apply (upd_world_ok a k (k <| sk := sk k <| local_port := port |> |>) w1); try done.
    + eapply (listed_insert w1); [done|apply Hw1|]. intros Hin%(listed_holds _ _ _ _ _ (wo_active _ Hw1) Hk). by rewrite Hs in Hin.
    + eapply (listed_insert w1); [done|apply Hw1|]. intros Hin%(listed_holds _ _ _ _ _ (wo_tw _ Hw1) Hk). by rewrite Hs in Hin.
    + by eapply (listed_cons w1); [done|apply Hw1|..].
Qed.

Lemma state_placed w a st : world_ok w -> (forall k, tw_socks w !! a = Some k -> st = state (sk k)) ->
  (tw_socks w !! a = None -> st = LISTEN) -> state_is st CLOSED = true -> placed w a CLOSED (fun _ _ => True).
Proof.
  intros Hw H1 H2 ->%state_is_eq. split; [done|]. destruct (tw_socks w !! a) as [k|]; [|by specialize (H2 eq_refl)].
  exists k. by rewrite (H1 k eq_refl).
Qed.

Lemma tame_tcp_bind a ip port : tame (tcp_bind a ip port).
Proof.
  intros w Hw. unfold tcp_bind. cbv zeta. wlp_step. wlp_step. wlp_step. apply wlp_get_state. intros st E1 E2. wlp_step. wlp_step.
  pose proof (state_placed _ _ _ Hw E1 E2 H0) as P0. wlp_step.
  eapply placed_steady; [exact P0|auto with tame..|]. intros ip' w1 P1. wlp_step; wlp_step.
  - eapply placed_steady; [exact P1|auto with tame..|]. intros port' w2 P2. wlp_step; [wlp_step; apply P2|].
    apply Z.eqb_neq in H2. by apply bind_commit_ok.
  - eapply placed_steady; [exact P1|auto with tame..|]. intros used w2 P2. apply Z.eqb_neq in H1. wlp_step; [wlp_step; apply P2|].
    by apply bind_commit_ok.
Qed.

(** ** Listening *)

Lemma wlp_and {A} (m : WM A) (P Q : A -> tcp_world -> Prop) w : wlp m P w -> wlp m Q w -> wlp m (fun r w' => P r w' /\ Q r w') w.
Proof. unfold wlp. auto. Qed.
Lemma focus_listens {A} a (m : TM A) w :
  wlp (focus a m) (fun _ w' => tw_listens w' = tw_listens w /\ tcp_listen_pcbs w' = tcp_listen_pcbs w) w.
Proof. apply wlp_focus. intros k _. by intros r s' _. Qed.

(** A control block on no list is given back. *)
Lemma focus_free_ok a k w : world_ok w -> tw_socks w !! a = Some k -> unlisted_pcb (enter a k w) ->
  wlp (focus a tcp_free) (fun _ => world_ok) w.
Proof.
  intros Hw Hk Hu. apply focus_keeps; [done|]. intros k' Hk'. assert (k' = k) as -> by congruence.
  eapply wlp_conseq; [apply tcp_free_wlp|]. intros [] s' [_ ->]. split; [|apply (wo_idle _ Hw)].
  split; [done|done|]. intros Hl. apply (lists_ok_shrink (enter a k w)); try done. by left.
Qed.

(** Taken off the list of bound control blocks, one that is [CLOSED] is on none. *)
Definition rmv_bound (a : Z) (k : tcp_sock) : WM unit := if negb (local_port (sk k) =? 0) then TCP_RMV_BOUND_PCB a else ret tt.
Lemma rmv_bound_ok a k w : world_ok w -> tw_socks w !! a = Some k -> state (sk k) = CLOSED ->
  wlp (rmv_bound a k) (fun _ w' => world_ok w' /\ tw_socks w' = tw_socks w /\ tw_listens w' = tw_listens w /\ unlisted_pcb (enter a k w')) w.
Proof.
  intros Hw Hk Hs.
  assert (Ha : a ∉ tcp_active_pcbs (tw_st w)) by (intros Hin%(listed_holds _ _ _ _ _ (wo_active _ Hw) Hk); by rewrite Hs in Hin).
  assert (Ht : a ∉ tcp_tw_pcbs (tw_st w)) by (intros Hin%(listed_holds _ _ _ _ _ (wo_tw _ Hw) Hk); by rewrite Hs in Hin).
  unfold rmv_bound. wlp_step; [unfold TCP_RMV_BOUND_PCB; apply wlp_mod_st|wlp_step]; (split; [|split_and!; try done]).
  - assert (Hb : listed_as w (TCP_RMV (tcp_bound_pcbs (tw_st w)) a) (fun p => state p = CLOSED /\ local_port p <> 0)).
    { eapply listed_sublist; [apply Hw|apply TCP_RMV_sublist]. }
    destruct Hw as [W1 W2 W3 W4 W5 W6 W7]. by split.
  - destruct (wo_bound _ Hw) as [N _]. split_and!; [exact Ha|exact Ht|]. unfold enter. rec_simpl. rewrite TCP_RMV_in by done. by intros [_ ?].
  - done.
  - split_and!; [exact Ha|exact Ht|]. intros Hin%(listed_holds _ _ _ _ _ (wo_bound _ Hw) Hk). lia.
Qed.

Lemma TCP_REG_LISTEN_ok a w : world_ok w -> is_Some (tw_listens w !! a) -> wlp (TCP_REG_LISTEN a) (fun _ => world_ok) w.
Proof.
  intros Hw Ha. unfold TCP_REG_LISTEN, reg. wlp_step. wlp_step. wlp_step. wlp_step; [apply wlp_fail|].
  apply bool_decide_eq_false in H. wlp_step. apply wlp_mod_st. wlp_step. apply wlp_modify. rec_simpl.
  destruct Hw as [W1 W2 W3 W4 W5 [N W6] W7]. split; try done. rec_simpl. split; [by constructor|].
  intros b [->|Hb]%elem_of_cons; [done|auto].
Qed.
Lemma tame_listen a : tame (tcp_listen_with_backlog_and_err a).
Proof.
  intros w Hw. unfold tcp_listen_with_backlog_and_err. wlp_step. wlp_step. wlp_step. apply wlp_get_state. intros st E1 E2.
  wlp_step. wlp_step. pose proof (state_placed _ _ _ Hw E1 E2 H0) as [_ (k & Hk & Hs & _)]. wlp_step; [by wlp_step|].
  wlp_step. eapply wlp_conseq; [by apply memp_malloc_fresh|]. intros l w1 [F1 Es]. wlp_step; [wlp_step; by destruct F1|].
  apply Z.eqb_neq in H2. wlp_step. apply wlp_get_sock. intros k' Hk'. assert (k' = k) as -> by congruence. cbv zeta.
  wlp_step. wlp_step. pose proof (insert_listen_ok _ (mkListen (ip_addr_copy (local_ip (sk k))) (ip_type (local_ip (sk k)))
    (local_port (sk k)) (prio k) (so_options k) NETIF_NO_INDEX (ttl k) (tos k)) _ F1 H2) as Hw2.
  wlp_step. eapply wlp_conseq; [by apply (rmv_bound_ok a k)|]. intros ? w3 (Hw3 & Es3 & El3 & Hu). wlp_step.
  eapply wlp_conseq; [apply wlp_and; [|apply focus_listens]|].
  { apply (focus_free_ok a k); [done| |done]. rewrite Es3. rec_simpl. done. }
  intros ? w4 (Hw4 & El4 & _). wlp_step. eapply wlp_conseq; [apply TCP_REG_LISTEN_ok; [done|]|intros; by wlp_step].
  rewrite El4, El3. rec_simpl. by rewrite lookup_insert_eq.
Qed.

(** ** Closing *)

Lemma tame_remove_listener l lp : tame (tcp_remove_listener l lp).
Proof. induction l as [|a l IH]; cbn [tcp_remove_listener]; tame_tac. Qed.
Lemma tame_socks_assert msg ok l : tame (socks_assert msg ok l).
Proof. induction l as [|a l IH]; cbn [socks_assert]; tame_tac. Qed.
Hint Resolve tame_remove_listener tame_socks_assert : tame.
Lemma tame_sane : tame pcbs_sane.
Proof. unfold pcbs_sane. tame_tac. Qed.
Lemma tame_close_listen a : tame (tcp_close_listen a).
Proof.
  unfold tcp_close_listen. apply tame_bind; [apply tame_get_listen|intros _]. apply tame_bind; [unfold tcp_listen_closed; tame_tac|intros _].
  intros w Hw. wlp_step. wlp_step. set (w1 := w <| tcp_listen_pcbs := _ |>).
  assert (Hw1 : world_ok w1 /\ a ∉ tcp_listen_pcbs w1).
  { destruct Hw as [W1 W2 W3 W4 W5 [N W6] W7]. split; [split; try done|]; unfold w1; rec_simpl.
    - split; [eapply sublist_NoDup; [exact N|apply TCP_RMV_sublist]|]. intros b Hb. apply W6. eapply elem_of_sublist; [exact Hb|apply TCP_RMV_sublist].
    - rewrite TCP_RMV_in by done. by intros [_ ?]. }
  clearbody w1. clear Hw w. destruct Hw1 as [Hw Ha]. wlp_step.
  eapply (wlp_conseq _ (fun _ w' => world_ok w' /\ a ∉ tcp_listen_pcbs w')).
  { apply wlp_and; [by apply tame_sane|]. intros r w' (_ & _ & ->)%reads_sane. done. }
  intros [] w2 [Hw2 Ha2]. wlp_step. wlp_step. wlp_step. destruct Hw2 as [[W1 W1'] W2 W3 W4 W5 [N W6] W7].
  split; rec_simpl; try done.
  - split; [done|]. destruct (decide (a = 0)) as [->|]; [by rewrite lookup_delete_eq|by rewrite lookup_delete_ne].
  - intros b Hb. destruct (decide (a = b)) as [->|]; [by rewrite lookup_delete_eq|rewrite lookup_delete_ne by done; auto].
  - split; [done|]. intros b Hb. rewrite lookup_delete_ne; [auto|]. by intros ->.
Qed.
Lemma tame_close_any a : tame (tcp_close_any a).
Proof.
  unfold tcp_close_any. apply tame_bind; [apply tame_get_state|intros st]. apply tame_if; [apply tame_close_listen|].
  apply tame_focus, orderly_close.
Qed.

(** ** Connecting *)

Lemma not_bound w a k : world_ok w -> tw_socks w !! a = Some k -> local_port (sk k) = 0 -> a ∉ tcp_bound_pcbs (tw_st w).
Proof. intros Hw Hk Hp Hin%(listed_holds _ _ _ _ _ (wo_bound _ Hw) Hk). by destruct Hin. Qed.
Lemma placed_port a port w : placed w a CLOSED (fun _ l => a ∉ l) ->
  wlp (upd_pcb a (fun p => p <| local_port := port |>)) (fun _ w' => placed w' a CLOSED (fun _ l => a ∉ l)) w.
Proof.
  intros [Hw (k & Hk & Hs & Hb)]. unfold upd_pcb. apply wlp_upd_sock. intros k' Hk'. assert (k' = k) as -> by congruence.
  split; [|eexists; rec_simpl; rewrite lookup_insert_eq; done].
  apply (upd_world_ok a k (k <| sk := sk k <| local_port := port |> |>) w); try done; eapply (listed_insert w); try done; try apply Hw.
  - intros Hin%(listed_holds _ _ _ _ _ (wo_active _ Hw) Hk). by rewrite Hs in Hin.
  - intros Hin%(listed_holds _ _ _ _ _ (wo_tw _ Hw) Hk). by rewrite Hs in Hin.
Qed.

(** From [CLOSED] to [SYN_SENT], off the list of bound control blocks and onto the list of active ones. *)
Lemma syn_sent_world {A} (m : WM A) (Q : A -> tcp_world -> Prop) a old w : placed w a CLOSED (fun _ l => old = 0 -> a ∉ l) ->
  (forall w', world_ok w' -> wlp m Q w') ->
  wlp (upd_pcb a (fun p => p <| state := SYN_SENT |>) ;;; (if negb (old =? 0) then TCP_RMV_BOUND_PCB a else ret tt) ;;; TCP_REG_ACTIVE a ;;; m)
    Q w.
Proof.
  intros [Hw (k & Hk & Hs & Hb)] Hm. wlp_step. unfold upd_pcb. apply wlp_upd_sock. intros k' Hk'. assert (k' = k) as -> by congruence.
  set (w1 := w <| tw_socks := _ |>). wlp_step.
  eapply (wlp_conseq _ (fun _ w2 => exists l, w2 = w1 <| tw_st := tw_st w <| tcp_bound_pcbs := l |> |> /\ sublist l (tcp_bound_pcbs (tw_st w)) /\ (a ∉ l))).
  { wlp_step; [apply wlp_mod_st; eexists; split; [done|]|wlp_step; exists (tcp_bound_pcbs (tw_st w)); split; [by destruct w as [? ? []]|]].
    - split; [apply TCP_RMV_sublist|]. destruct (wo_bound _ Hw) as [N _]. unfold w1. rec_simpl. rewrite TCP_RMV_in by done. by intros [_ ?].
    - split; [done|]. apply Hb. lia. }
  intros ? w2 (l & -> & Hsub & Hl). unfold TCP_REG_ACTIVE, reg. wlp_step. wlp_step. wlp_step. wlp_step. wlp_step; [apply wlp_fail|].
  apply bool_decide_eq_false in H. rec_simpl_in H. wlp_step. apply wlp_mod_st. wlp_step. apply wlp_mod_st. apply Hm.
  apply (upd_world_ok a k (k <| sk := sk k <| state := SYN_SENT |> |>) w); try done.
  - by eapply (listed_cons w); [done|apply Hw|..].
  - eapply (listed_insert w); [done|apply Hw|]. intros Hin%(listed_holds _ _ _ _ _ (wo_tw _ Hw) Hk). by rewrite Hs in Hin.
  - eapply (listed_insert w); [done|eapply listed_sublist; [apply Hw|exact Hsub]|done].
Qed.

Lemma connect_send_ok a old w : placed w a CLOSED (fun _ l => old = 0 -> a ∉ l) -> wlp (connect_send a old) (fun _ => world_ok) w.
Proof.
  intros P0. unfold connect_send. wlp_step. eapply placed_steady; [exact P0|auto with tame..|]. intros iss w1 P1.
  wlp_step. eapply placed_steady; [exact P1|auto with tame..|]. intros ? w2 P2.
  wlp_step. eapply placed_focus; [exact P2|done|pose proof calm_eff_mss; calm_tac|]. intros ? w3 P3.
  wlp_step. eapply placed_focus; [exact P3|done|auto with steps|]. intros err w4 P4. wlp_step; [|wlp_step; apply P4].
  apply syn_sent_world; [exact P4|]. apply (tame_bind (focus a tcp_output)); [auto with tame|intros; apply tame_ret].
Qed.
Lemma steady_connect_local_ip a nif ip : steady (connect_local_ip a nif ip).
Proof.
  unfold connect_local_ip. apply steady_bind; [auto with tame|intros k]. apply steady_if; [|apply steady_ret].
  apply steady_bind; [auto with tame|intros [local|]]; [|apply steady_ret]. apply steady_bind; [auto with tame|intros _; apply steady_ret].
Qed.
Lemma tame_connect_local_ip a nif ip : tame (connect_local_ip a nif ip).
Proof. unfold connect_local_ip. tame_tac. Qed.
Lemma steady_connect_zone a nif : steady (connect_zone a nif).
Proof.
  unfold connect_zone. apply steady_bind; [auto with tame|intros k]. apply steady_if; [|apply steady_ret].
  apply steady_bind; auto with tame.
Qed.
Lemma tame_connect_zone a nif : tame (connect_zone a nif).
Proof. unfold connect_zone. tame_tac. Qed.
Hint Resolve steady_connect_local_ip tame_connect_local_ip steady_connect_zone tame_connect_zone : tame.

Lemma tame_connect a ip port : tame (tcp_connect a ip port).
Proof.
  intros w Hw. unfold tcp_connect. wlp_step. wlp_step. wlp_step. apply wlp_get_state. intros st E1 E2. wlp_step. wlp_step.
  pose proof (state_placed _ _ _ Hw E1 E2 H0) as P0. wlp_step. eapply placed_steady; [exact P0|auto with tame..|]. intros ? w1 P1.
  wlp_step. eapply placed_steady; [exact P1|auto with tame..|]. intros k w2 P2.
  wlp_step. eapply placed_steady; [exact P2|first [apply tame_if|apply steady_if]; auto with tame..|]. intros nif w3 P3. wlp_step; [wlp_step; apply P3|].
  wlp_step. eapply placed_steady; [exact P3|auto with tame..|]. intros has_ip w4 P4. wlp_step; [wlp_step; apply P4|].
  wlp_step. eapply placed_steady; [exact P4|auto with tame..|]. intros ? w5 [Hw5 (k5 & Hk5 & Hs5 & _)].
  wlp_step. apply wlp_get_sock. intros k' Hk'. assert (k' = k5) as -> by congruence. cbv zeta. wlp_step.
  - assert (P5 : placed w5 a CLOSED (fun _ l => a ∉ l)).
    { split; [done|]. exists k5. split_and!; [done|done|]. apply (not_bound _ _ k5); [done|done|lia]. }
    wlp_step. eapply placed_steady; [exact P5|auto with tame..|]. intros port' w6 P6. wlp_step.
    eapply wlp_conseq; [apply placed_port; exact P6|]. intros ? w7 [Hw7 (k7 & P7)]. wlp_step; [by wlp_step|].
    apply connect_send_ok. split; [done|]. exists k7. destruct P7 as (? & ? & ?). done.
  - apply connect_send_ok. split; [done|]. exists k5. split_and!; [done|done|lia].
Qed.

(** ** A change of the interface's address *)

Lemma tame_addr_changed old new : tame (tcp_netif_ip_addr_changed cb old new).
Proof.
  assert (H1 : forall l, tame (tcp_netif_ip_addr_changed_pcblist cb old l)).
  { induction l as [|a l IH]; cbn [tcp_netif_ip_addr_changed_pcblist]; tame_tac. }
  assert (H2 : forall new l, tame (listen_addr_changed old new l)).
  { intros n. induction l as [|a l IH]; cbn [listen_addr_changed]; tame_tac. }
  unfold tcp_netif_ip_addr_changed. tame_tac.
Qed.
End Calls.

(** * Incoming packets keep the lists sound

    [tcp_input] as a whole: the search for the control block, a connection request to a
    listener, and the control block the segment is for. *)

(** ** The search *)

Lemma find_active_in c l w : wlp (find_active c l) (fun r w' => w' = w /\ forall a, r = Some a -> a ∈ l) w.
Proof.
  induction l as [|a l IH]; cbn [find_active]; [by wlp_step|]. wlp_step. apply wlp_get_sock. intros k Hk.
  wlp_step. wlp_step. wlp_step. wlp_step. wlp_step. wlp_step. wlp_step.
  - wlp_step. split; [done|]. intros b [= <-]. by left.
  - eapply wlp_conseq; [exact IH|]. intros r w' [-> Hr]. split; [done|]. intros b Hb. right. auto.
Qed.
Lemma find_timewait_in c l w : wlp (find_timewait c l) (fun r w' => w' = w /\ forall a, r = Some a -> a ∈ l) w.
Proof.
  induction l as [|a l IH]; cbn [find_timewait]; [by wlp_step|]. wlp_step. apply wlp_get_sock. intros k Hk.
  wlp_step. wlp_step. wlp_step.
  - wlp_step. split; [done|]. intros b [= <-]. by left.
  - eapply wlp_conseq; [exact IH|]. intros r w' [-> Hr]. split; [done|]. intros b Hb. right. auto.
Qed.
Lemma TCP_RMV_perm l a : a ∈ l -> a :: TCP_RMV l a ≡ₚ l.
Proof.
  induction l as [|x l IH]; [by intros ?%elem_of_nil|]. simpl. destruct (Z.eqb_spec x a) as [->|Hne]; [done|].
  intros [->|Hin]%elem_of_cons; [done|]. by rewrite perm_swap, IH.
Qed.
Lemma to_front_perm l a : a ∈ l -> to_front l a ≡ₚ l.
Proof. intros Hin. unfold to_front. destruct l as [|h l]; [done|]. destruct (h =? a); [done|by apply TCP_RMV_perm]. Qed.
Lemma listed_perm w l l' P : listed_as w l P -> l' ≡ₚ l -> listed_as w l' P.
Proof. intros [N H] E. split; [by rewrite E|]. intros a. rewrite E. apply H. Qed.

Definition dest_ok (w : tcp_world) (d : tcp_dest) : Prop :=
  world_ok w /\ match d with
    | ToActive a => a ∈ tcp_active_pcbs (tw_st w)
    | ToTimeWait a => a ∈ tcp_tw_pcbs (tw_st w)
    | ToListener a => a ∈ tcp_listen_pcbs w
    | ToNobody => True
    end.
Lemma tcp_demux_ok c w : world_ok w -> wlp (tcp_demux c) (fun d w' => dest_ok w' d) w.
Proof.
  intros Hw. unfold tcp_demux. wlp_step. wlp_step. wlp_step. eapply wlp_conseq; [apply find_active_in|]. intros [a|] w' [-> Ha].
  - specialize (Ha a eq_refl). wlp_step. apply wlp_mod_st. wlp_step. pose proof (to_front_perm _ _ Ha) as Hp. split; [|by rec_simpl; rewrite Hp].
    pose proof (listed_perm _ _ _ _ (wo_active _ Hw) Hp) as Hl. destruct Hw. by split.
  - wlp_step. eapply wlp_conseq; [apply find_timewait_in|]. intros [a|] w' [-> Ht]; wlp_step; (split; [done|]); [auto|].
    destruct (tcp_listen_pcbs w); [done|by left].
Qed.

(** ** Connection requests *)

Lemma alloc_header_opts_calm : steps calm rst_reply.
Proof. unfold rst_reply. calm_tac. Qed.
Lemma calm_input_no_pcb : steps calm tcp_input_no_pcb.
Proof. unfold tcp_input_no_pcb. calm_tac. Qed.
Lemma calm_input_header b v p : steps calm (tcp_input_header b v p).
Proof. unfold tcp_input_header, tcp_input_options, tcp_input_fields. calm_tac. Qed.
#[export] Hint Resolve alloc_header_opts_calm calm_input_no_pcb calm_input_header : steps.

(** A control block on no list can be in any state; it is put on the list of active ones. *)
Definition off_lists (w : tcp_world) (a : Z) (P : tcp_state -> Prop) : Prop :=
  world_ok w /\ (exists k, tw_socks w !! a = Some k /\ P (state (sk k))) /\ (a ∉ tcp_active_pcbs (tw_st w)) /\ (a ∉ tcp_tw_pcbs (tw_st w)) /\
  (a ∉ tcp_bound_pcbs (tw_st w)).
Lemma placed_off_lists w a : placed w a CLOSED (fun port _ => port = 0) -> off_lists w a (fun st => st = CLOSED).
Proof.
  intros [Hw (k & Hk & Hs & Hp)]. split; [done|]. split; [by exists k|]. split_and!; intros Hin.
  - apply (listed_holds _ _ _ _ _ (wo_active _ Hw) Hk) in Hin. by rewrite Hs in Hin.
  - apply (listed_holds _ _ _ _ _ (wo_tw _ Hw) Hk) in Hin. by rewrite Hs in Hin.
  - apply (listed_holds _ _ _ _ _ (wo_bound _ Hw) Hk) in Hin as [_ Hin]. done.
Qed.
Lemma off_lists_upd w a f (P P' : tcp_state -> Prop) : off_lists w a P -> (forall k, P (state (sk k)) -> P' (state (sk (f k)))) ->
  wlp (upd_sock a f) (fun _ w' => off_lists w' a P') w.
Proof.
  intros (Hw & (k & Hk & Hp) & Ha & Ht & Hb) Hf. apply wlp_upd_sock. intros k' Hk'. assert (k' = k) as -> by congruence.
  split; [|split; [exists (f k); rec_simpl; rewrite lookup_insert_eq; auto|done]].
  apply (upd_world_ok a k (f k) w); try done; (eapply (listed_insert w); [done|apply Hw|done]).
Qed.
Lemma TCP_REG_ACTIVE_ok a w : off_lists w a (fun st => active_state st = true) -> wlp (TCP_REG_ACTIVE a) (fun _ => world_ok) w.
Proof.
  intros (Hw & (k & Hk & Hp) & Ha & _). unfold TCP_REG_ACTIVE, reg. wlp_step. wlp_step. wlp_step. wlp_step; [apply wlp_fail|].
  wlp_step. apply wlp_mod_st. wlp_step. apply wlp_mod_st. destruct Hw as [W1 W2 [N W3] W4 W5 W6 W7]. split; try done.
  rec_simpl. split; [by constructor|]. intros b [->|Hb]%elem_of_cons; [by exists k|auto].
Qed.

Section Input.
Context (cb : tcp_callbacks) (Happ : orderly_app cb).

Lemma orderly_listen_answer : steps orderly (listen_answer cb).
Proof. pose proof (orderly_abandon cb Happ). unfold listen_answer. repeat steps_step. Qed.
Lemma orderly_accept e : steps orderly (TCP_EVENT_ACCEPT cb e).
Proof.
  unfold TCP_EVENT_ACCEPT. pose proof calm_event. destruct (oa_accept cb Happ e) as [H1 _]. repeat steps_step.
Qed.

Lemma tame_listen_input c l : tame (tcp_listen_input cb c l).
Proof.
  intros w Hw. unfold tcp_listen_input. wlp_step. wlp_step. cbv zeta. wlp_step; [by wlp_step|].
  wlp_step; [by apply tame_globally; auto with steps|]. wlp_step; [|by wlp_step].
  wlp_step. apply wlp_get_listen. intros lp Hl. wlp_step. eapply wlp_conseq; [by apply tcp_alloc_ok|].
  intros a w1 [Hw1 Ha]. wlp_step.
  { apply (tame_bind (globally (TCP_EVENT_ACCEPT cb ERR_MEM))); [apply tame_globally, orderly_accept|intros; apply tame_ret|done]. }
  apply Z.eqb_neq in H2. specialize (Ha H2). wlp_step. eapply placed_steady; [exact Ha|auto with tame..|]. intros iss w2 P2%placed_off_lists.
  wlp_step. wlp_step. wlp_step. unfold upd_pcb.
  eapply wlp_conseq; [eapply (off_lists_upd _ _ _ _ (fun st => active_state st = true)); [exact P2|done]|]. intros ? w3 P3.
  wlp_step. eapply wlp_conseq; [eapply (off_lists_upd _ _ _ _ (fun st => active_state st = true)); [exact P3|done]|]. intros ? w4 P4.
  wlp_step. eapply wlp_conseq; [by apply TCP_REG_ACTIVE_ok|]. intros ? w5 Hw5. apply tame_focus; [apply orderly_listen_answer|done].
Qed.

(** ** [tcp_input] *)

Lemma tame_input_demux c p : tame (tcp_input_demux cb c p).
Proof.
  intros w Hw. unfold tcp_input_demux. wlp_step. eapply wlp_conseq; [by apply tcp_demux_ok|]. intros [a|a|a|] w1 [Hw1 Hd].
  - apply focus_keeps; [done|]. intros k Hk. apply input_found_ok; [done|done|exact (listed_holds _ _ _ _ _ (wo_active _ Hw1) Hk Hd)|].
    pose proof (wo_idle _ Hw1) as Hi. unfold enter. rec_simpl. rewrite Hi. intros <-. destruct (wo_null _ Hw1) as [Hn _]. congruence.
  - apply tame_focus; [auto with steps|done].
  - by apply tame_listen_input.
  - apply (tame_bind (globally tcp_input_no_pcb)); [apply tame_globally; auto with steps|intros _; apply (tame_sane)|done].
Qed.
Lemma tame_input p : tame (tcp_input cb p).
Proof.
  unfold tcp_input. pose proof tame_input_demux as Hd. tame_tac.
Qed.
End Input.
