(* ===== verification/TcpTicks.v ===== *)
(** * The timers keep the lists sound and serve every connection

    [tcp_slowtmr] and [tcp_fasttmr] walk over the active control blocks while callbacks change
    the list.  [standing]: where the walk is; what is behind it has been served in this tick. *)

From S2P Require Import Prelude Def IpAddr Pbuf Net Netif Ip6Src Tcp.
From S2P Require Import TcpOut TcpIn TcpOpt TcpOutput TcpProcess TcpMachine TcpStream TcpInput.
From S2P Require Import TcpApp TcpWrite TcpClose TcpSteps TcpParse TcpPcbs TcpDemux TcpTimer.
From S2P Require Import TcpLists TcpOrder TcpOrderIn TcpWorld TcpCalls.

(** ** Pointers into a list *)

Lemma list_after_app l1 a l2 : NoDup (l1 ++ a :: l2) -> list_after (l1 ++ a :: l2) a = l2.
Proof.
  induction l1 as [|x l1 IH]; simpl; [by rewrite Z.eqb_refl|]. intros [Hx N]%NoDup_cons.
  destruct (Z.eqb_spec x a) as [->|]; [|auto]. destruct Hx. set_solver.
Qed.
Lemma list_upto_app l1 a l2 : NoDup (l1 ++ a :: l2) -> list_upto (l1 ++ a :: l2) a = l1 ++ [a].
Proof.
  induction l1 as [|x l1 IH]; simpl; [by rewrite Z.eqb_refl|]. intros [Hx N]%NoDup_cons.
  destruct (Z.eqb_spec x a) as [->|]; [destruct Hx; set_solver|]. by rewrite IH.
Qed.
Lemma unlink_wlp m1 m2 l1 a l2 (Q : list Z -> tcp_st -> Prop) s : NoDup (l1 ++ a :: l2) -> Q (l1 ++ l2) s ->
  wlp (unlink m1 m2 (last l1) (l1 ++ a :: l2) a) Q s.
Proof.
  intros N HQ. unfold unlink. destruct l1 as [|pv l0 _] using rev_ind.
  - simpl. wlp_step. wlp_step. wlp_step. by rewrite Z.eqb_refl.
  - rewrite last_snoc. wlp_step. wlp_step. wlp_step. rewrite (list_after_app (l0 ++ [pv])) by done. rewrite <- (assoc_L app) in N |- *.
    simpl in *. rewrite list_upto_app by done. by rewrite <- !(assoc_L app) in HQ |- *.
Qed.
Lemma delete_sublist {A} (l1 : list A) a l2 : sublist (l1 ++ l2) (l1 ++ a :: l2).
Proof. apply sublist_app; [done|by apply sublist_cons]. Qed.

(** ** Visits *)

(** What a round of the timers does with a control block; unlike [orderly] functions it may
    clear [tcp_active_pcbs_changed]. *)
Record visits (s s' : tcp_st) : Prop := Visits {
  vs_keeps : keeps s s';
  vs_idle : tcp_input_pcb s' = tcp_input_pcb s;
  vs_active : sublist (tcp_active_pcbs s') (tcp_active_pcbs s)
}.
#[export] Instance visits_preorder : PreOrder visits.
Proof.
  split; [by split|]. intros s1 s2 s3 [K1 I1 A1] [K2 I2 A2]. split; [by transitivity s2|congruence|by etransitivity].
Qed.
#[export] Hint Resolve visits_preorder : steps.
Lemma orderly_visits s s' : orderly s s' -> visits s s'.
Proof. intros O. pose proof (orderly_keeps _ _ O). destruct O as [(_ & _ & I) _ _ [A _] _ _ _ _ _]. by split. Qed.
Lemma calm_visits s s' : calm s s' -> visits s s'.
Proof. intros C. by apply orderly_visits, calm_orderly. Qed.
Lemma clear_visits s : visits s (s <| tcp_active_pcbs_changed := false |>).
Proof. split; [|done|done]. split; [done|done|]. intros H. by destruct H. Qed.
Lemma went_visits chg fr s s' : went chg fr s s' -> visits s s'.
Proof. intros W. pose proof (went_keeps _ _ _ _ W). destruct W as [_ _ (_ & _ & I) (A & _) _ _]. by split. Qed.
#[export] Hint Extern 5 (steps visits _) => apply (steps_sub orderly); [solve [auto 3 with steps]|apply orderly_visits] : steps.
#[export] Hint Extern 1 (steps visits (modify (fun _ => _ <| tcp_active_pcbs_changed := false |>))) => apply steps_modify; apply clear_visits : steps.

Section Rounds.
Context (cb : tcp_callbacks) (Happ : orderly_app cb).
Context (cb_poll : TM Z) (Hpoll : steps orderly cb_poll).

(** *** [tcp_slowtmr] *)

Lemma slow_remove_ok l1 l2 reset s : tcp_active_pcbs s = l1 ++ pcb_addr s :: l2 -> NoDup (tcp_active_pcbs s) ->
  active_state (state (st_pcb s)) = true ->
  wlp (slow_remove cb (last l1) reset) (fun _ s' => visits s s' /\ (tcp_active_pcbs_changed s' = false -> tcp_active_pcbs s' = l1 ++ l2)) s.
Proof.
  intros El N Ha. unfold slow_remove. wlp_step. apply wlp_calm; [auto with steps|]. intros ? s1 C1.
  pose proof (calm_active _ _ C1 Ha) as Ha1. pose proof (calm_visits _ _ C1) as V1.
  assert (E1 : tcp_active_pcbs s1 = l1 ++ pcb_addr s1 :: l2 /\ pcb_freed s1 = pcb_freed s).
  { destruct C1 as [[= -> -> -> _ _ _ _ _] _ _ _]. done. }
  destruct E1 as [E1 F1]. assert (N1 : NoDup (tcp_active_pcbs s1)) by (destruct C1 as [[= _ _ -> _ _ _ _ _] _ _ _]; done).
  clear C1. wlp_step. wlp_step. wlp_step. rewrite E1. rewrite E1 in N1. apply unlink_wlp; [done|]. wlp_step. wlp_step.
  set (s2 := s1 <| tcp_active_pcbs := l1 ++ l2 |>). wlp_step. wlp_step. wlp_step. apply wlp_calm; [calm_tac|]. intros ? s3 C3.
  assert (V2 : pcb_freed s3 = false -> visits s1 (s3 <| pcb_freed := true |>) /\ tcp_active_pcbs s3 = l1 ++ l2).
  { intros F3. assert (W : went false false s1 s2).
    { destruct C3 as [[= _ F2 _ _ _ _ _ _] _ _ _]. rewrite F2 in F3. split; try done.
      - split_and!; [rewrite E1; apply delete_sublist|done..].
      - intros Hok. pose proof (listed_state _ Hok F3) as (_ & L2 & L3). unfold unlisted_pcb, s2. rec_simpl. split_and!.
        + apply NoDup_app in N1 as (_ & N1 & [N2 _]%NoDup_cons). intros [Hin|Hin]%elem_of_app; [|done]. apply (N1 _ Hin). by left.
        + intros Hin%L2. by rewrite Hin in Ha1.
        + intros Hin%L3. by rewrite Hin in Ha1. }
    destruct C3 as [L3 _ _ _]. pose proof (went_lists _ _ _ _ _ W L3) as W3. split.
    - apply (went_visits false true). destruct W3. by split.
    - by injection L3 as _ _ -> _ _ _ _ _. }
  wlp_step. eapply wlp_conseq; [apply tcp_free_wlp|]. intros ? s4 [F3 ->]. destruct (V2 F3) as [V3 E3]. wlp_step. wlp_step.
  eapply wlp_steps_post; [by apply orderly_err|]. intros ? s5 O5. pose proof (od_same _ _ O5) as Hsame. rec_simpl_in Hsame.
  split; [|intros Hc; by rewrite (Hsame Hc)]. transitivity s1; [done|]. transitivity (s3 <| pcb_freed := true |>); [done|].
  etransitivity; [apply clear_visits|by apply orderly_visits].
Qed.

Lemma slow_poll_ok i s : wlp (slow_poll cb_poll i) (fun r s' => visits s s' /\ (r = false -> tcp_active_pcbs s' = tcp_active_pcbs s)) s.
Proof.
  unfold slow_poll. wlp_step. apply wlp_calm; [calm_tac|]. intros ? s1 C1. pose proof (calm_visits _ _ C1) as V1.
  assert (E1 : tcp_active_pcbs s1 = tcp_active_pcbs s) by (destruct C1 as [[= _ _ -> _ _ _ _ _] _ _ _]; done). clear C1.
  wlp_step. wlp_step. wlp_step; [|by wlp_step]. wlp_step. apply wlp_calm; [calm_tac|]. intros ? s2 C2. pose proof (calm_visits _ _ C2) as V2.
  assert (E2 : tcp_active_pcbs s2 = tcp_active_pcbs s1) by (destruct C2 as [[= _ _ -> _ _ _ _ _] _ _ _]; done). clear C2.
  wlp_step. wlp_step. set (s3 := s2 <| tcp_active_pcbs_changed := false |>). wlp_step. eapply wlp_steps_post; [exact Hpoll|].
  intros err s4 O4. pose proof (od_same _ _ O4) as Hs. pose proof (orderly_visits _ _ O4) as V4.
  assert (V : visits s s4).
  { transitivity s1; [done|]. transitivity s2; [done|]. etransitivity; [apply clear_visits|exact V4]. }
  wlp_step. wlp_step. wlp_step; [by wlp_step|]. specialize (Hs H0). wlp_step. eapply wlp_calm; [calm_tac|]. intros ? s5 C5.
  wlp_step. split; [transitivity s4; [done|by apply calm_visits]|]. intros _.
  destruct C5 as [[= _ _ -> _ _ _ _ _] _ _ _]. rewrite Hs. unfold s3. rec_simpl. congruence.
Qed.

(** *** [tcp_fasttmr] *)

Definition same_active (s s' : tcp_st) : Prop := tcp_active_pcbs s' = tcp_active_pcbs s.
#[local] Instance same_active_preorder : PreOrder same_active.
Proof. split; [by intros s|]. unfold same_active. intros s1 s2 s3. congruence. Qed.
Lemma calm_same_active {A} (m : TM A) : steps calm m -> steps same_active m.
Proof. intros H. apply (steps_sub calm); [done|]. intros s1 s2 [[= _ _ E _ _ _ _ _] _ _ _]. exact E. Qed.
Hint Extern 4 (steps same_active _) => apply calm_same_active; solve [auto 2 with steps] : steps.
Hint Extern 1 (steps same_active (modp _)) => apply steps_modp; done : steps.
Lemma same_active_fast_send : steps same_active fast_send.
Proof. unfold fast_send, send_pending_fin, tcp_close_shutdown_fin. repeat steps_step. Qed.
Lemma orderly_fast_send : steps orderly fast_send.
Proof. pose proof orderly_pending_fin. unfold fast_send. repeat steps_step. Qed.
Lemma fast_refused_ok s : pcb_freed s = false ->
  wlp (fast_refused cb) (fun r s' => visits s s' /\ (r = false -> tcp_active_pcbs s' = tcp_active_pcbs s)) s.
Proof.
  intros Hf. unfold fast_refused. wlp_step. wlp_step. destruct (refused_data (st_pcb s)); [by wlp_step|].
  wlp_step. wlp_step. set (s1 := s <| tcp_active_pcbs_changed := false |>). wlp_step.
  eapply wlp_conseq; [apply (refused_data_ok cb Happ s1); by apply alive_refl|]. intros e s2 [O2 _]. wlp_step.
  pose proof (od_same _ _ O2) as Hs. split; [|exact Hs]. etransitivity; [apply clear_visits|by apply orderly_visits].
Qed.
End Rounds.

(** ** Where the walk is *)

(** Not yet served in this tick. *)
Definition due (w : tcp_world) (a : Z) : bool :=
  match tw_socks w !! a with Some k => negb (last_timer k =? tcp_timer_ctr w) | None => false end.

(** A round goes on: no control block is added, and none that was served is due again. *)
Record onward (w w' : tcp_world) : Prop := Onward {
  ow_ok : world_ok w -> world_ok w';
  ow_active : sublist (tcp_active_pcbs (tw_st w')) (tcp_active_pcbs (tw_st w));
  ow_ctr : tcp_timer_ctr w' = tcp_timer_ctr w;
  ow_due : forall a, due w' a = true -> due w a = true
}.
#[export] Instance onward_preorder : PreOrder onward.
Proof.
  split; [by split|]. intros w1 w2 w3 [A1 B1 C1 D1] [A2 B2 C2 D2]. split; [auto|by etransitivity|congruence|auto].
Qed.

Lemma leave_onward a k s' w : world_ok w -> tw_socks w !! a = Some k -> visits (enter a k w) s' -> onward w (leave a k s' w).
Proof.
  intros Hw Hk [K I A']. split; [|done|done|].
  - intros _. apply leave_world_ok; try done. rewrite I. apply (wo_idle _ Hw).
  - intros b. unfold due, leave. rec_simpl. destruct (pcb_freed s').
    + destruct (decide (b = a)) as [->|]; [by rewrite lookup_delete_eq|by rewrite lookup_delete_ne].
    + destruct (decide (b = a)) as [->|]; [by rewrite lookup_insert_eq, Hk|by rewrite lookup_insert_ne].
Qed.
Lemma focus_visits {A} a (m : TM A) (P : A -> tcp_st -> Prop) w :
  (forall k, tw_socks w !! a = Some k -> wlp m (fun r s' => visits (enter a k w) s' /\ P r s') (enter a k w)) -> world_ok w ->
  wlp (focus a m) (fun r w' => onward w w' /\ P r (tw_st w')) w.
Proof.
  intros H Hw. apply wlp_focus. intros k Hk. eapply wlp_conseq; [by apply H|]. intros r s' [V HP].
  split; [by apply leave_onward|done].
Qed.

(** The control block at [a] is marked as served. *)
Lemma mark_served a w Q : world_ok w ->
  (forall w', onward w w' -> tw_st w' = tw_st w -> due w' a = false -> (forall b k, tw_socks w' !! b = Some k -> exists k0,
     tw_socks w !! b = Some k0 /\ sk k = sk k0) -> Q tt w') ->
  wlp (upd_sock a (fun k => k <| last_timer := tcp_timer_ctr w |>)) Q w.
Proof.
  intros Hw HQ. apply wlp_upd_sock. intros k Hk. apply HQ; [split| | |]; try done.
  - intros _. apply (world_ok_same w); try done. intros b. rec_simpl. destruct (decide (b = a)) as [->|]; [|by rewrite lookup_insert_ne].
    by rewrite lookup_insert_eq, Hk.
  - intros b. unfold due. rec_simpl. destruct (decide (b = a)) as [->|]; [|by rewrite lookup_insert_ne].
    rewrite lookup_insert_eq. rec_simpl. by rewrite Z.eqb_refl.
  - unfold due. rec_simpl. rewrite lookup_insert_eq. rec_simpl. by rewrite Z.eqb_refl.
  - intros b kb. rec_simpl. destruct (decide (b = a)) as [->|]; [rewrite lookup_insert_eq; intros [= <-]; by exists k|].
    rewrite lookup_insert_ne by done. by exists kb.
Qed.

(** The walk: [pcb] is the first of [l2], what is in front of it has been served. *)
Definition standing (w : tcp_world) (pcb : Z) (l1 l2 : list Z) : Prop :=
  world_ok w /\ tcp_active_pcbs (tw_st w) = l1 ++ l2 /\ pcb = hd 0 l2 /\ Forall (fun a => due w a = false) l1.

Lemma standing_due w w' l1 : onward w w' -> Forall (fun a => due w a = false) l1 -> Forall (fun a => due w' a = false) l1.
Proof.
  intros O H. eapply Forall_impl; [exact H|]. intros a Ha. cbv beta in *. destruct (due w' a) eqn:E; [|done].
  apply (ow_due _ _ O) in E. congruence.
Qed.
Lemma standing_start w : world_ok w -> standing w (hd 0 (tcp_active_pcbs (tw_st w))) [] (tcp_active_pcbs (tw_st w)).
Proof. done. Qed.
Lemma standing_head w pcb l1 l2 : standing w pcb l1 l2 -> pcb <> 0 -> exists r, l2 = pcb :: r /\ NoDup (l1 ++ pcb :: r).
Proof.
  intros (Hw & El & -> & _) Hne. destruct l2 as [|x r]; [done|]. exists r. split; [done|]. simpl. rewrite <- El. apply Hw.
Qed.
Lemma standing_end w l1 l2 : standing w 0 l1 l2 -> l2 = [].
Proof.
  intros (Hw & El & E0 & _). destruct l2 as [|x r]; [done|]. simpl in E0. subst x. exfalso.
  destruct (wo_active _ Hw) as [_ H]. destruct (H 0) as (k & Hk & _); [rewrite El; set_solver|].
  destruct (wo_null _ Hw) as [Hn _]. congruence.
Qed.

(** How many are due; every round brings this number down, or takes a step over one that is not. *)
Definition due_count (w : tcp_world) : nat := length (filter (fun a => due w a = true) (tcp_active_pcbs (tw_st w))).
Lemma due_count_le w w' : world_ok w -> onward w w' -> (due_count w' <= due_count w)%nat.
Proof.
  intros Hw O. pose proof (ow_ok _ _ O Hw) as Hw'. unfold due_count. apply submseteq_length, NoDup_submseteq.
  { apply NoDup_filter, Hw'. }
  intros a. rewrite !list_elem_of_filter. intros [Hd Hin]. split; [by apply (ow_due _ _ O)|].
  eapply elem_of_sublist; [exact Hin|apply O].
Qed.
Lemma due_count_lt w w' a : world_ok w -> onward w w' -> a ∈ tcp_active_pcbs (tw_st w) -> due w a = true -> due w' a = false ->
  (due_count w' < due_count w)%nat.
Proof.
  intros Hw O Ha Hd Hd'. pose proof (ow_ok _ _ O Hw) as Hw'. unfold due_count.
  apply (submseteq_length (a :: filter _ _)), NoDup_submseteq.
  - apply NoDup_cons. split; [|apply NoDup_filter, Hw']. rewrite list_elem_of_filter. intros [? _]. congruence.
  - intros b [->|Hin]%elem_of_cons; rewrite list_elem_of_filter; [done|]. apply list_elem_of_filter in Hin as [Hb Hin].
    split; [by apply (ow_due _ _ O)|]. eapply elem_of_sublist; [exact Hin|apply O].
Qed.
(** The end of the walk: everything has been served. *)
Definition all_served (w : tcp_world) : Prop := Forall (fun a => due w a = false) (tcp_active_pcbs (tw_st w)).

Section Walks.
Context (cb : tcp_callbacks) (Happ : orderly_app cb).
Context (cb_poll : TM Z) (Hpoll : steps orderly cb_poll).

(** The walk after a round, with less to do. *)
Definition walked (w : tcp_world) (l2 : list Z) (w' : tcp_world) (l2' : list Z) : Prop :=
  onward w w' /\ ((due_count w' < due_count w)%nat \/ (length l2' < length l2)%nat).

Lemma walked_served w w2 w' a l l' : world_ok w -> onward w w2 -> a ∈ tcp_active_pcbs (tw_st w) -> due w a = true -> due w2 a = false ->
  onward w2 w' -> walked w l w' l'.
Proof.
  intros Hw O Hin Hd Hd2 O'. split; [by transitivity w2|]. left. apply (due_count_lt _ _ a); try done; [by transitivity w2|].
  destruct (due w' a) eqn:E; [|done]. apply (ow_due _ _ O') in E. congruence.
Qed.

Lemma slow_step_ok w pcb l1 l2 : standing w pcb l1 l2 -> pcb <> 0 ->
  wlp (slow_step cb cb_poll (last l1) pcb) (fun at_ w' => exists l1' l2', standing w' (snd at_) l1' l2' /\ fst at_ = last l1' /\
    walked w l2 w' l2') w.
Proof.
  intros St Hne. destruct (standing_head _ _ _ _ St Hne) as (r & -> & N). destruct St as (Hw & El & _ & Hl1).
  assert (Hin : pcb ∈ tcp_active_pcbs (tw_st w)) by (rewrite El; set_solver).
  unfold slow_step. wlp_step. apply wlp_get_sock. intros k Hk. wlp_step. wlp_step. wlp_step. wlp_step. wlp_step. wlp_step. wlp_step. wlp_step. wlp_step.
  - wlp_step. exists (l1 ++ [pcb]), r. split; [|split; [by rewrite last_snoc|split; [done|right; simpl; lia]]].
    split; [done|]. split; [by rewrite <- (assoc_L app)|]. split.
    + simpl. unfold pcb_next. by rewrite El, list_after_app.
    + apply Forall_app. split; [done|]. constructor; [|done]. unfold due. by rewrite Hk, H2.
  - assert (Hd : due w pcb = true) by (unfold due; by rewrite Hk, H2).
    wlp_step. apply mark_served; [done|]. intros w1 O1 Es1 Hd1 Hk1.
    assert (Hw1 : world_ok w1) by (by apply O1).
    wlp_step. eapply wlp_conseq; [apply (focus_visits pcb _ (fun _ s' => tcp_active_pcbs s' = l1 ++ pcb :: r)); [|exact Hw1]|].
    { intros k1 Hk1'. apply wlp_calm; [auto with steps|]. intros rr s' C. split; [by apply calm_visits|].
      destruct C as [[= _ _ -> _ _ _ _ _] _ _ _]. unfold enter. rec_simpl. by rewrite Es1. }
    intros [rm rs] w2 [O2 El2]. assert (Hw2 : world_ok w2) by (by apply O2).
    assert (O02 : onward w w2) by (by transitivity w1). assert (Hd2 : due w2 pcb = false).
    { destruct (due w2 pcb) eqn:E; [|done]. by rewrite (ow_due _ _ O2 _ E) in Hd1. }
    wlp_step. wlp_step. cbv zeta. unfold pcb_next at 1 2. rewrite El2, list_after_app by done. cbn [fst snd].
    assert (Hst : forall w' l2', onward w2 w' -> walked w (pcb :: r) w' l2') by (intros; by eapply walked_served).
    wlp_step.
    + wlp_step. eapply wlp_conseq; [apply (focus_visits pcb _ (fun _ s' => tcp_active_pcbs_changed s' = false -> tcp_active_pcbs s' = l1 ++ r)); [|exact Hw2]|].
      { intros k2 Hk2. apply slow_remove_ok; [exact Happ|exact El2|unfold enter; rec_simpl; by rewrite El2|].
        apply (listed_holds _ _ _ _ _ (wo_active _ Hw2) Hk2). rewrite El2. set_solver. }
      intros ? w3 [O3 El3]. assert (Hw3 : world_ok w3) by (by apply O3). wlp_step. wlp_step. wlp_step.
      destruct (tcp_active_pcbs_changed (tw_st w3)).
      * exists [], (tcp_active_pcbs (tw_st w3)). split; [by apply standing_start|]. split; [done|auto].
      * exists l1, r. specialize (El3 eq_refl). split; [|split; [done|auto]]. split; [done|]. split; [done|]. split; [done|].
        apply (standing_due w); [by transitivity w2|done].
    + wlp_step. apply wlp_get_sock. intros k2 Hk2. wlp_step.
      eapply wlp_conseq; [apply (focus_visits pcb _ (fun rr s' => rr = false -> tcp_active_pcbs s' = l1 ++ pcb :: r)); [|exact Hw2]|].
      { intros k3 Hk3. eapply wlp_conseq; [by apply slow_poll_ok|]. intros rr s' [V E]. split; [done|]. intros Hr. rewrite (E Hr). exact El2. }
      intros restart w3 [O3 El3]. assert (Hw3 : world_ok w3) by (by apply O3). wlp_step. wlp_step. wlp_step. destruct restart.
      * exists [], (tcp_active_pcbs (tw_st w3)). split; [by apply standing_start|]. split; [done|auto].
      * exists (l1 ++ [pcb]), r. specialize (El3 eq_refl). split; [|split; [by rewrite last_snoc|auto]]. split; [done|].
        split; [by rewrite El3, <- (assoc_L app)|]. split; [done|]. apply Forall_app. split; [apply (standing_due w); [by transitivity w2|done]|].
        apply (standing_due w2); [done|by constructor].
Qed.

Lemma slow_loop_ok fuel : forall at_ l1 l2 w, standing w (snd at_) l1 l2 -> fst at_ = last l1 ->
  wlp (slow_loop cb cb_poll fuel at_) (fun _ w' => onward w w' /\ all_served w') w.
Proof.
  induction fuel as [|fuel IH]; intros [pv pcb] l1 l2 w St Hp; cbn [slow_loop fst snd] in *; [apply wlp_fail|]. wlp_step.
  - wlp_step. split; [done|]. apply Z.eqb_eq in H as ->. pose proof (standing_end _ _ _ St) as ->.
    destruct St as (_ & El & _ & Hl). unfold all_served. by rewrite El, app_nil_r.
  - apply Z.eqb_neq in H. subst pv. wlp_step. eapply wlp_conseq; [by apply (slow_step_ok _ _ _ l2)|].
    intros at' w1 (l1' & l2' & St' & Hp' & O & _). eapply wlp_conseq; [by eapply IH|]. intros ? w2 [O2 Hs]. split; [by transitivity w1|done].
Qed.
End Walks.

Section FastWalk.
Context (cb : tcp_callbacks) (Happ : orderly_app cb).

Lemma fast_step_ok w pcb l1 l2 : standing w pcb l1 l2 -> pcb <> 0 ->
  wlp (fast_step cb pcb) (fun pcb' w' => exists l1' l2', standing w' pcb' l1' l2' /\ walked w l2 w' l2') w.
Proof.
  intros St Hne. destruct (standing_head _ _ _ _ St Hne) as (r & -> & N). destruct St as (Hw & El & _ & Hl1).
  assert (Hin : pcb ∈ tcp_active_pcbs (tw_st w)) by (rewrite El; set_solver).
  unfold fast_step. wlp_step. apply wlp_get_sock. intros k Hk. wlp_step. wlp_step. wlp_step.
  - assert (Hd : due w pcb = true) by (unfold due; by rewrite Hk).
    wlp_step. apply mark_served; [done|]. intros w1 O1 Es1 Hd1 Hk1. assert (Hw1 : world_ok w1) by (by apply O1).
    wlp_step. eapply wlp_conseq; [apply (focus_visits pcb _ (fun _ s' => tcp_active_pcbs s' = l1 ++ pcb :: r)); [|exact Hw1]|].
    { intros k1 Hk1' rr s' E. split; [apply orderly_visits; by eapply orderly_fast_send|].
      apply same_active_fast_send in E. unfold same_active in E. rewrite E. unfold enter. rec_simpl. by rewrite Es1. }
    intros ? w2 [O2 El2]. assert (Hw2 : world_ok w2) by (by apply O2).
    assert (O02 : onward w w2) by (by transitivity w1). assert (Hd2 : due w2 pcb = false).
    { destruct (due w2 pcb) eqn:E; [|done]. by rewrite (ow_due _ _ O2 _ E) in Hd1. }
    wlp_step. wlp_step. cbv zeta. unfold pcb_next at 1. rewrite El2, list_after_app by done.
    wlp_step. eapply wlp_conseq; [apply (focus_visits pcb _ (fun rr s' => rr = false -> tcp_active_pcbs s' = l1 ++ pcb :: r)); [|exact Hw2]|].
    { intros k3 Hk3. eapply wlp_conseq; [by apply fast_refused_ok|]. intros rr s' [V E]. split; [done|]. intros Hr. rewrite (E Hr). exact El2. }
    intros restart w3 [O3 El3]. assert (Hw3 : world_ok w3) by (by apply O3). wlp_step. wlp_step. wlp_step. destruct restart.
    + exists [], (tcp_active_pcbs (tw_st w3)). split; [by apply standing_start|]. by eapply walked_served.
    + exists (l1 ++ [pcb]), r. specialize (El3 eq_refl). split; [|by eapply walked_served]. split; [done|].
      split; [by rewrite El3, <- (assoc_L app)|]. split; [done|]. apply Forall_app. split; [apply (standing_due w); [by transitivity w2|done]|].
      apply (standing_due w2); [done|by constructor].
  - wlp_step. exists (l1 ++ [pcb]), r. split; [|split; [done|right; simpl; lia]].
    split; [done|]. split; [by rewrite <- (assoc_L app)|]. split.
    + unfold pcb_next. by rewrite El, list_after_app.
    + apply Forall_app. split; [done|]. constructor; [|done]. unfold due. by rewrite Hk, H.
Qed.

Lemma fast_loop_ok fuel : forall pcb l1 l2 w, standing w pcb l1 l2 ->
  wlp (fast_loop cb fuel pcb) (fun _ w' => onward w w' /\ all_served w') w.
Proof.
  induction fuel as [|fuel IH]; intros pcb l1 l2 w St; cbn [fast_loop]; [apply wlp_fail|]. wlp_step.
  - wlp_step. split; [done|]. apply Z.eqb_eq in H as ->. pose proof (standing_end _ _ _ St) as ->.
    destruct St as (_ & El & _ & Hl). unfold all_served. by rewrite El, app_nil_r.
  - apply Z.eqb_neq in H. wlp_step. eapply wlp_conseq; [by eapply (fast_step_ok _ _ _ l2)|].
    intros at' w1 (l1' & l2' & St' & O & _). eapply wlp_conseq; [by eapply IH|]. intros ? w2 [O2 Hs]. split; [by transitivity w1|done].
Qed.
End FastWalk.

(** ** [TIME_WAIT] *)

Definition expired (w : tcp_world) (a : Z) : bool :=
  match tw_socks w !! a with Some k => idle_over (tcp_ticks (tw_st w)) (2 * TCP_MSL) (sk k) | None => false end.

Definition same_ticks (s s' : tcp_st) : Prop := tcp_ticks s' = tcp_ticks s.
#[local] Instance same_ticks_preorder : PreOrder same_ticks.
Proof. split; [by intros s|]. unfold same_ticks. intros s1 s2 s3. congruence. Qed.
Lemma purge_ticks : steps same_ticks tcp_pcb_purge.
Proof. unfold tcp_pcb_purge. repeat steps_step; try (apply steps_modp; done); try (apply steps_modify; done). Qed.

(** The control block is taken off the list and given back, or nothing changes. *)
Lemma slow_timewait_ok l1 l2 s : tcp_tw_pcbs s = l1 ++ pcb_addr s :: l2 -> NoDup (tcp_tw_pcbs s) ->
  state (st_pcb s) = TIME_WAIT ->
  wlp (slow_timewait (last l1)) (fun r s' => if idle_over (tcp_ticks s) (2 * TCP_MSL) (st_pcb s)
    then r = false /\ visits s s' /\ pcb_freed s' = true /\ tcp_tw_pcbs s' = l1 ++ l2 /\ tcp_active_pcbs s' = tcp_active_pcbs s /\
      tcp_ticks s' = tcp_ticks s
    else r = true /\ s' = s) s.
Proof.
  intros El N Hs. unfold slow_timewait. wlp_step. wlp_step. wlp_step. wlp_step.
  destruct (idle_over (tcp_ticks s) (2 * TCP_MSL) (st_pcb s)); [|by wlp_step]. wlp_step.
  intros ? s1 Ep. pose proof (purge_ticks _ _ _ Ep) as Et. pose proof (calm_purge _ _ _ Ep) as C1. clear Ep.
  pose proof (calm_visits _ _ C1) as V1.
  assert (E1 : tcp_tw_pcbs s1 = l1 ++ pcb_addr s1 :: l2 /\ state (st_pcb s1) = TIME_WAIT /\ NoDup (tcp_tw_pcbs s1) /\ tcp_active_pcbs s1 = tcp_active_pcbs s).
  { destruct C1 as [[= -> _ -> -> _ _ _ _] [->|[Hx _]] _ _]; [done|congruence]. }
  clear C1. destruct E1 as (E1 & Hs1 & N1 & Ea). wlp_step. wlp_step. wlp_step. rewrite E1. rewrite E1 in N1. apply unlink_wlp; [done|].
  wlp_step. wlp_step. set (s2 := s1 <| tcp_tw_pcbs := l1 ++ l2 |>). wlp_step. eapply wlp_conseq; [apply tcp_free_wlp|]. intros ? s3 [F ->].
  wlp_step. split; [done|]. split; [transitivity s1; [done|]|done]. apply (went_visits false true). split; try done.
  - split_and!; [done| |done]. rewrite E1. apply delete_sublist.
  - intros Hok. pose proof (listed_state _ Hok F) as (L1 & _ & L3). unfold unlisted_pcb, s2. rec_simpl. split_and!.
    + intros Hin%L1. by rewrite Hs1 in Hin.
    + apply NoDup_app in N1 as (_ & N1 & [N2 _]%NoDup_cons). intros [Hin|Hin]%elem_of_app; [|done]. apply (N1 _ Hin). by left.
    + intros Hin%L3. by rewrite Hs1 in Hin.
Qed.

Lemma leave_same a k w : tw_socks w !! a = Some k -> tw_socks (leave a k (enter a k w) w) = tw_socks w.
Proof.
  intros Hk. unfold leave, enter. rec_simpl. rewrite insert_id; [done|]. rewrite Hk. f_equal. by destruct k.
Qed.

Lemma filter_same (P P' : Z -> Prop) `{!forall x, Decision (P x)} `{!forall x, Decision (P' x)} (l : list Z) :
  (forall a, a ∈ l -> P a <-> P' a) -> filter P l = filter P' l.
Proof.
  induction l as [|a l IH]; intros HP; [done|]. rewrite !filter_cons, IH by (intros; apply HP; by right).
  specialize (HP a ltac:(by left)). destruct (decide (P a)), (decide (P' a)); tauto.
Qed.

Lemma timewait_loop_ok l : forall l1 w, world_ok w -> tcp_tw_pcbs (tw_st w) = l1 ++ l ->
  wlp (timewait_loop (last l1) l) (fun _ w' => onward w w' /\ tcp_ticks (tw_st w') = tcp_ticks (tw_st w) /\
    tcp_active_pcbs (tw_st w') = tcp_active_pcbs (tw_st w) /\
    tcp_tw_pcbs (tw_st w') = l1 ++ filter (fun a => expired w a = false) l /\
    (forall b, tw_socks w' !! b = if decide (b ∈ l /\ expired w b = true) then None else tw_socks w !! b)) w.
Proof.
  induction l as [|a l IH]; intros l1 w Hw El; cbn [timewait_loop].
  { wlp_step. split_and!; done. }
  assert (N : NoDup (l1 ++ a :: l)) by (rewrite <- El; apply Hw).
  assert (Hin : a ∈ tcp_tw_pcbs (tw_st w)) by (rewrite El; set_solver).
  destruct (wo_tw _ Hw) as [_ Hl]. destruct (Hl _ Hin) as (k & Hk & Hst). wlp_step. apply wlp_focus. intros k' Hk'.
  assert (k' = k) as -> by congruence. eapply wlp_conseq; [apply (slow_timewait_ok l1 l); [exact El|unfold enter; rec_simpl; by rewrite El|done]|].
  intros r s' Hr. cbv beta in Hr. change (idle_over _ _ _) with (idle_over (tcp_ticks (tw_st w)) (2 * TCP_MSL) (sk k)) in Hr.
  assert (He : expired w a = idle_over (tcp_ticks (tw_st w)) (2 * TCP_MSL) (sk k)) by (unfold expired; by rewrite Hk).
  rewrite filter_cons. destruct (idle_over (tcp_ticks (tw_st w)) (2 * TCP_MSL) (sk k)); rewrite He.
  - destruct Hr as (-> & V & Hf & Et & Eac & Eti). set (w1 := leave a k s' w).
    assert (O1 : onward w w1) by (by apply leave_onward).
    assert (Es1 : tw_socks w1 = delete a (tw_socks w)) by (unfold w1, leave; rec_simpl; by rewrite Hf).
    assert (Ex : forall b, expired w1 b = if decide (b = a) then false else expired w b).
    { intros b. unfold expired. rewrite Es1. change (tcp_ticks (tw_st w1)) with (tcp_ticks s'). rewrite Eti.
      destruct (decide (b = a)) as [->|]; [by rewrite lookup_delete_eq|by rewrite lookup_delete_ne]. }
    assert (Ha : a ∉ l) by (by apply NoDup_app in N as (_ & _ & [? _]%NoDup_cons)).
    rewrite decide_False by done. eapply wlp_conseq; [apply (IH l1 w1); [by apply O1|exact Et]|].
    intros ? w2 (O2 & E2 & E3 & E4 & E5). split; [by transitivity w1|]. split_and!; [by rewrite E2|by rewrite E3| |].
    + rewrite E4. f_equal. apply filter_same. intros b Hb. rewrite Ex. rewrite decide_False; [done|by intros ->].
    + intros b. rewrite E5, Ex, Es1. destruct (decide (b = a)) as [->|Hne].
      * rewrite decide_False by (by intros [? _]). rewrite lookup_delete_eq, decide_True; [done|]. split; [by left|congruence].
      * rewrite lookup_delete_ne by done. apply decide_ext. rewrite elem_of_cons. tauto.
  - destruct Hr as [-> ->]. set (w1 := leave a k (enter a k w) w). rewrite decide_True by done.
    assert (Es1 : tw_socks w1 = tw_socks w) by (by apply leave_same).
    assert (O1 : onward w w1) by (by apply leave_onward).
    assert (Ex : forall b, expired w1 b = expired w b) by (intros b; unfold expired; by rewrite Es1).
    rewrite <- (last_snoc a l1). eapply wlp_conseq; [apply (IH (l1 ++ [a]) w1); [by apply O1|]|].
    { unfold w1, leave, enter. rec_simpl. by rewrite El, <- (assoc_L app). }
    intros ? w2 (O2 & E2 & E3 & E4 & E5). split; [by transitivity w1|]. split_and!; [by rewrite E2|by rewrite E3| |].
    + rewrite E4, <- (assoc_L app). simpl. do 2 f_equal. apply filter_same. intros b _. by rewrite Ex.
    + intros b. rewrite E5, Ex, Es1. destruct (decide (b = a)) as [->|Hne].
      * rewrite !decide_False; [done|intros [_ ?]; congruence..].
      * apply decide_ext. rewrite elem_of_cons. tauto.
Qed.

(** ** The timers *)

Lemma tcp_fasttmr_ok (cb : tcp_callbacks) (Happ : orderly_app cb) w : world_ok w -> wlp (tcp_fasttmr cb) (fun _ w' => world_ok w' /\ all_served w') w.
Proof.
  intros Hw. unfold tcp_fasttmr. wlp_step.
  eapply wlp_conseq; [by apply (tame_modify (fun w => w <| tcp_timer_ctr := u8_t (tcp_timer_ctr w + 1) |>))|].
  intros ? w2 Hw2. wlp_step. wlp_step.
  eapply wlp_conseq; [apply (fast_loop_ok cb Happ _ _ [] (tcp_active_pcbs (tw_st w2))); by apply standing_start|].
  intros ? w3 [O3 S3]. split; [by apply O3|done].
Qed.

Section Timers.
Context (cb : tcp_callbacks) (Happ : orderly_app cb).
Context (cb_poll : TM Z) (Hpoll : steps orderly cb_poll).

(** Every connection was served in this tick, and no one has been in [TIME_WAIT] for too long. *)
Definition ticked (w : tcp_world) : Prop :=
  world_ok w /\ all_served w /\ Forall (fun a => expired w a = false) (tcp_tw_pcbs (tw_st w)).

Lemma tcp_slowtmr_ok w : world_ok w -> wlp (tcp_slowtmr cb cb_poll)
  (fun _ w' => ticked w' /\ tcp_timer_ctr w' = u8_t (tcp_timer_ctr w + 1) /\ sublist (tcp_active_pcbs (tw_st w')) (tcp_active_pcbs (tw_st w))) w.
Proof.
  intros Hw. unfold tcp_slowtmr. apply wlp_bind, wlp_mod_st. set (w1 := w <| tw_st := _ |>).
  assert (Hw1 : world_ok w1) by (by apply (world_ok_same w)).
  apply wlp_bind, wlp_modify. set (w2 := w1 <| tcp_timer_ctr := _ |>). assert (Hw2 : world_ok w2) by (by apply (world_ok_same w1)).
  wlp_step. wlp_step. wlp_step.
  eapply wlp_conseq; [apply (slow_loop_ok cb Happ cb_poll Hpoll _ _ [] (tcp_active_pcbs (tw_st w2))); [by apply standing_start|done]|].
  intros ? w3 [O3 S3]. pose proof (ow_ok _ _ O3 Hw2) as Hw3. wlp_step. wlp_step.
  eapply wlp_conseq; [by apply (timewait_loop_ok _ [])|]. intros ? w4 (O4 & Et & Ea & Etw & Es). split.
  2:{ split; [by rewrite (ow_ctr _ _ O4), (ow_ctr _ _ O3)|]. rewrite Ea. apply (ow_active _ _ O3). }
  split; [by apply O4|]. split.
  - unfold all_served. rewrite Ea. by apply (standing_due w3).
  - simpl in Etw. rewrite Etw. apply Forall_forall. intros a [Ha Hin]%list_elem_of_filter. unfold expired. rewrite Es, Et.
    rewrite decide_False by (intros [_ ?]; congruence). exact Ha.
Qed.
Lemma tame_tmr : tame (tcp_tmr cb cb_poll).
Proof.
  unfold tcp_tmr. apply tame_bind; [|intros _]. { intros w Hw. eapply wlp_conseq; [by apply tcp_fasttmr_ok|]. by intros ? ? []. }
  apply tame_bind; [auto with tame|intros _]. apply tame_bind; [apply tame_get|intros w']. apply tame_if; [|apply tame_ret].
  intros w Hw. eapply wlp_conseq; [by apply tcp_slowtmr_ok|]. by intros ? ? [[] _].
Qed.
Lemma tame_txnow : tame tcp_txnow.
Proof.
  assert (H : forall l, tame (txnow_loop l)).
  { induction l as [|a l IH]; cbn [txnow_loop]; tame_tac. }
  unfold tcp_txnow. tame_tac.
Qed.
End Timers.

(** * The timers end

    The walks of [tcp_slowtmr] and [tcp_fasttmr] start again whenever a callback has changed
    the list; the fuel [loop_fuel] is enough for all of it.  [never m]: [m] does not run out
    of fuel. *)

Definition ends {S A} (m : M S A) (s : S) : Prop := m s <> Fault OutOfFuel.
Definition never {S A} (m : M S A) : Prop := forall s, ends m s.

Lemma ends_bind {S A B} (m : M S A) (k : A -> M S B) s : ends m s -> wlp m (fun r s' => ends (k r) s') s -> ends (bind m k) s.
Proof. unfold ends, wlp, bind. destruct (m s) as [[r s']|f] eqn:E; [|congruence]. intros _ H. by apply H. Qed.

Section Never.
Context {S : Type}.
Lemma never_bind {A B} (m : M S A) (k : A -> M S B) : never m -> (forall a, never (k a)) -> never (bind m k).
Proof. intros Hm Hk s. apply ends_bind; [apply Hm|]. intros r s' _. apply Hk. Qed.
Lemma never_ret {A} (a : A) : never (ret a : M S A).
Proof. by intros s. Qed.
Lemma never_get : never (get : M S S).
Proof. by intros s. Qed.
Lemma never_modify f : never (modify f : M S unit).
Proof. by intros s. Qed.
Lemma never_assert msg b : never (lwip_assert msg b : M S unit).
Proof. intros s. unfold lwip_assert. by destruct b. Qed.
Lemma never_fail {A} f : f <> OutOfFuel -> never (fail f : M S A).
Proof. intros H s [= E]. done. Qed.
Lemma never_if {A} (b : bool) (m1 m2 : M S A) : never m1 -> never m2 -> never (if b then m1 else m2).
Proof. by destruct b. Qed.
End Never.
Lemma never_gets {A} (f : tcp_st -> A) : never (gets f).
Proof. by intros s. Qed.
Lemma never_getp {A} (f : tcp_pcb -> A) : never (getp f).
Proof. by intros s. Qed.
Lemma never_modp f : never (modp f).
Proof. by intros s. Qed.
Lemma never_when b m : never m -> never (when b m).
Proof. intros H. unfold when. by destruct b. Qed.
Lemma never_ask : never ask.
Proof. intros s. unfold ask, ends. by destruct (oracle s). Qed.
Lemma never_get_sock a : never (get_sock a).
Proof. intros w. unfold get_sock, ends. by destruct (tw_socks w !! a). Qed.
Lemma never_upd_sock a f : never (upd_sock a f).
Proof. intros w. unfold upd_sock, ends. by destruct (tw_socks w !! a). Qed.
Lemma never_focus {A} a (m : TM A) : never m -> never (focus a m).
Proof.
  intros H w. unfold focus, ends. destruct (tw_socks w !! a) as [k|]; [|done]. specialize (H (enter a k w)). unfold ends in H.
  destruct (m (enter a k w)) as [[r s']|f]; congruence.
Qed.

Create HintDb never.
#[export] Hint Resolve never_ask never_get_sock never_upd_sock never_focus : never.
Ltac never_step :=
  lazymatch goal with
  | |- never (bind _ _) => apply never_bind; [|intros ?]
  | |- never (when _ _) => apply never_when
  | |- never (ret _) => apply never_ret
  | |- never get => apply never_get
  | |- never (gets _) => apply never_gets
  | |- never (getp _) => apply never_getp
  | |- never (modp _) => apply never_modp
  | |- never (modify _) => apply never_modify
  | |- never (lwip_assert _ _) => apply never_assert
  | |- never (fail _) => by apply never_fail
  | |- never (focus _ _) => apply never_focus
  | |- never (if ?x then _ else _) => first [apply never_if | destruct x]
  | |- never (match ?x with _ => _ end) => destruct x
  | |- never (let _ := _ in _) => cbv zeta
  | |- never _ => solve [auto 3 with never]
  end.
Ltac never_tac := intros; repeat never_step.

(** ** What a connection does in a tick *)

Lemma never_deref : never deref.
Proof. unfold deref. never_tac. Qed.
Lemma never_set_flags f : never (tcp_set_flags f).
Proof. apply never_modp. Qed.
Lemma never_clear_flags f : never (tcp_clear_flags f).
Proof. apply never_modp. Qed.
Lemma never_ack_now : never tcp_ack_now.
Proof. apply never_modp. Qed.
Lemma never_event e : never (event e).
Proof. apply never_modify. Qed.
#[export] Hint Resolve never_deref never_set_flags never_clear_flags never_ack_now never_event : never.
Lemma never_update_ann_wnd : never tcp_update_rcv_ann_wnd.
Proof. unfold tcp_update_rcv_ann_wnd. never_tac. Qed.
Lemma never_purge : never tcp_pcb_purge.
Proof. unfold tcp_pcb_purge. never_tac. Qed.
Lemma never_alloc_header n : never (tcp_output_alloc_header n).
Proof. unfold tcp_output_alloc_header, tcp_output_alloc_header_common. pose proof never_update_ann_wnd. never_tac. Qed.
Lemma never_control_segment o : never (tcp_output_control_segment o).
Proof. unfold tcp_output_control_segment. never_tac. Qed.
#[export] Hint Resolve never_update_ann_wnd never_purge never_alloc_header never_control_segment : never.
Lemma never_rst a b c d : never (tcp_rst a b c d).
Proof. unfold tcp_rst, tcp_output_alloc_header_common. never_tac. Qed.
Lemma never_empty_ack : never tcp_send_empty_ack.
Proof. unfold tcp_send_empty_ack. never_tac. Qed.
Lemma never_eff_mss m b a : never (tcp_eff_send_mss_netif m b a).
Proof. unfold tcp_eff_send_mss_netif. never_tac. Qed.
#[export] Hint Resolve never_eff_mss : never.
Lemma never_output_segment x : never (tcp_output_segment x).
Proof. unfold tcp_output_segment, tcp_output_segment_busy. never_tac. Qed.
#[export] Hint Resolve never_rst never_empty_ack never_output_segment : never.
Lemma never_output_loop wnd q : never (output_loop wnd q).
Proof. induction q as [|x q IH]; cbn [output_loop]; never_tac. Qed.
#[export] Hint Resolve never_output_loop : never.
Lemma never_output : never tcp_output.
Proof. unfold tcp_output, tcp_output_queued, output_local_ip, output_blocked, output_done. never_tac. Qed.
Lemma never_any_busy q : never (any_busy q).
Proof. induction q as [|x q IH]; cbn [any_busy]; unfold tcp_output_segment_busy; never_tac. Qed.
#[export] Hint Resolve never_output never_any_busy : never.
Lemma never_rto_prepare : never tcp_rexmit_rto_prepare.
Proof. unfold tcp_rexmit_rto_prepare. never_tac. Qed.
Lemma never_rto_commit : never tcp_rexmit_rto_commit.
Proof. unfold tcp_rexmit_rto_commit. never_tac. Qed.
Lemma never_tot_len p : never (pkt_tot_len p : TM Z).
Proof. unfold pkt_tot_len. never_tac. Qed.
#[export] Hint Resolve never_rto_prepare never_rto_commit never_tot_len : never.
Lemma never_payloads p : forall c sw, never (chksum_payloads p c sw).
Proof. induction p as [|x p IH]; intros c sw; cbn [chksum_payloads]; unfold chksum_nocopy; never_tac. Qed.
Lemma never_create_segment p a b c : never (tcp_create_segment p a b c).
Proof. unfold tcp_create_segment. never_tac. Qed.
Lemma never_prealloc a b c d : never (tcp_pbuf_prealloc a b c d).
Proof. unfold tcp_pbuf_prealloc. never_tac. Qed.
#[export] Hint Resolve never_payloads never_create_segment never_prealloc : never.
Lemma never_split n : never (tcp_split_unsent_seg n).
Proof. unfold tcp_split_unsent_seg, LWIP_CHKSUM_COPY, chksum_nocopy, valid_queuelen. never_tac. Qed.
Lemma never_keepalive : never tcp_keepalive.
Proof. unfold tcp_keepalive. never_tac. Qed.
Lemma never_window_probe : never tcp_zero_window_probe.
Proof. unfold tcp_zero_window_probe, probe_byte. never_tac. Qed.
#[export] Hint Resolve never_split never_keepalive never_window_probe : never.
Lemma never_slow_checks a b : never (slow_checks a b).
Proof.
  unfold slow_checks, slow_retransmit, slow_persist, persist_fires, persist_next_slot, slow_rto, slow_keepalive, slow_ooseq,
    tcp_free_ooseq. never_tac.
Qed.
Lemma never_slow_timewait pv : never (slow_timewait pv).
Proof. unfold slow_timewait, unlink, tcp_free. never_tac. Qed.
Lemma never_enqueue_flags fl : never (tcp_enqueue_flags fl).
Proof. unfold tcp_enqueue_flags, valid_queuelen. never_tac. Qed.
#[export] Hint Resolve never_slow_checks never_slow_timewait never_enqueue_flags : never.
Lemma never_close_fin : never tcp_close_shutdown_fin.
Proof. unfold tcp_close_shutdown_fin, tcp_send_fin. never_tac. Qed.
#[export] Hint Resolve never_close_fin : never.
Lemma never_fast_send : never fast_send.
Proof. unfold fast_send, send_pending_fin. never_tac. Qed.
#[export] Hint Resolve never_fast_send : never.

(** ** The walks *)

(** The functions of the application end. *)
Record app_ends (cb : tcp_callbacks) : Prop := AppEnds {
  ae_recv : forall p, never (cb_recv cb p);
  ae_closed : never (cb_closed cb);
  ae_err : forall e, never (cb_err cb e)
}.

(** Enough for [d] control blocks that are due and [l] on the way, on a list of at most [n]. *)
Definition enough (n : nat) (w : tcp_world) (l : list Z) : nat := due_count w * S n + length l.
Lemma enough_walked n w w' l l' : walked w l w' l' -> world_ok w -> (length (tcp_active_pcbs (tw_st w)) <= n)%nat ->
  (length l' <= length (tcp_active_pcbs (tw_st w')))%nat ->
  (enough n w' l' < enough n w l)%nat /\ (length (tcp_active_pcbs (tw_st w')) <= n)%nat.
Proof.
  intros [O D] Hw Hn Hl. pose proof (sublist_length _ _ (ow_active _ _ O)) as Hs. pose proof (due_count_le _ _ Hw O). unfold enough.
  split; [|lia]. destruct D as [D|D]; nia.
Qed.
Lemma standing_length w pcb l1 l2 : standing w pcb l1 l2 -> (length l2 <= length (tcp_active_pcbs (tw_st w)))%nat.
Proof. intros (_ & -> & _). rewrite length_app. lia. Qed.
Lemma enough_start w : (enough (length (tcp_active_pcbs (tw_st w))) w (tcp_active_pcbs (tw_st w)) < loop_fuel w)%nat.
Proof.
  unfold enough, loop_fuel, due_count. pose proof (length_filter (fun a => due w a = true) (tcp_active_pcbs (tw_st w))). nia.
Qed.

Section Walks.
Context (cb : tcp_callbacks) (Happ : orderly_app cb) (Hends : app_ends cb).

Lemma never_err e : never (TCP_EVENT_ERR cb e).
Proof. unfold TCP_EVENT_ERR. pose proof (ae_err _ Hends). never_tac. Qed.
Lemma never_pcbs_assert msg ok l : never (pcbs_assert msg ok l).
Proof. induction l; cbn [pcbs_assert]; never_tac. Qed.
Hint Resolve never_err never_pcbs_assert : never.
Lemma never_abandon reset : never (tcp_abandon cb reset).
Proof. unfold tcp_abandon, tcp_pcb_remove, tcp_pcbs_sane, tcp_free. never_tac. Qed.
Lemma never_recv p : never (TCP_EVENT_RECV cb p).
Proof. unfold TCP_EVENT_RECV. pose proof (ae_recv _ Hends). never_tac. Qed.
Lemma never_closed : never (TCP_EVENT_CLOSED cb).
Proof. unfold TCP_EVENT_CLOSED. pose proof (ae_closed _ Hends). never_tac. Qed.
Hint Resolve never_recv never_closed : never.
Lemma never_refused : never (fast_refused cb).
Proof. unfold fast_refused, tcp_process_refused_data, fin_wnd. never_tac. Qed.
Hint Resolve never_refused : never.
Lemma never_fast_step pcb : never (fast_step cb pcb).
Proof. unfold fast_step. never_tac. Qed.

Lemma fast_loop_ends n fuel : forall pcb l1 l2 w, standing w pcb l1 l2 -> (length (tcp_active_pcbs (tw_st w)) <= n)%nat ->
  (enough n w l2 < fuel)%nat -> ends (fast_loop cb fuel pcb) w.
Proof.
  induction fuel as [|fuel IH]; intros pcb l1 l2 w St Hn Hf; cbn [fast_loop]; [lia|].
  destruct (Z.eqb_spec pcb 0) as [->|Hne]; [done|]. apply ends_bind; [apply never_fast_step|].
  eapply wlp_conseq; [by eapply fast_step_ok|]. intros pcb' w' (l1' & l2' & St' & Wk).
  destruct (enough_walked n _ _ _ _ Wk (proj1 St) Hn (standing_length _ _ _ _ St')) as [H1 H2]. eapply IH; [exact St'|done|lia].
Qed.
Lemma tcp_fasttmr_ends w : world_ok w -> ends (tcp_fasttmr cb) w.
Proof.
  intros Hw. unfold tcp_fasttmr. apply ends_bind; [apply never_modify|].
  eapply wlp_conseq; [by apply (tame_modify (fun w => w <| tcp_timer_ctr := u8_t (tcp_timer_ctr w + 1) |>))|].
  intros ? w1 Hw1. apply ends_bind; [apply never_get|]. wlp_step.
  eapply (fast_loop_ends _ _ _ []); [by apply standing_start|done|apply enough_start].
Qed.

Context (cb_poll : TM Z) (Hpoll : steps orderly cb_poll) (Hpe : never cb_poll).

Lemma never_slow_step pv pcb : never (slow_step cb cb_poll pv pcb).
Proof. unfold slow_step, slow_remove, slow_poll, unlink, tcp_free. never_tac. Qed.
Lemma slow_loop_ends n fuel : forall at_ l1 l2 w, standing w (snd at_) l1 l2 -> fst at_ = last l1 ->
  (length (tcp_active_pcbs (tw_st w)) <= n)%nat -> (enough n w l2 < fuel)%nat -> ends (slow_loop cb cb_poll fuel at_) w.
Proof.
  induction fuel as [|fuel IH]; intros [pv pcb] l1 l2 w St Hp Hn Hf; cbn [slow_loop fst snd] in *; [lia|].
  destruct (Z.eqb_spec pcb 0) as [->|Hne]; [done|]. subst pv. apply ends_bind; [apply never_slow_step|].
  eapply wlp_conseq; [by apply (slow_step_ok cb Happ cb_poll Hpoll _ _ _ l2)|]. intros at' w' (l1' & l2' & St' & Hp' & Wk).
  destruct (enough_walked n _ _ _ _ Wk (proj1 St) Hn (standing_length _ _ _ _ St')) as [H1 H2]. eapply IH; [exact St'|done|done|lia].
Qed.
Lemma never_timewait_loop l : forall pv, never (timewait_loop pv l).
Proof. induction l as [|a l IH]; intros pv; cbn [timewait_loop]; never_tac. Qed.
Lemma tcp_slowtmr_ends w : world_ok w -> ends (tcp_slowtmr cb cb_poll) w.
Proof.
  intros Hw. unfold tcp_slowtmr. apply ends_bind; [apply never_modify|].
  eapply wlp_conseq; [by apply (tame_mod_st (fun s => s <| tcp_ticks := u32_t (tcp_ticks s + 1) |>))|]. intros ? w1 Hw1.
  apply ends_bind; [apply never_modify|].
  eapply wlp_conseq; [by apply (tame_modify (fun w => w <| tcp_timer_ctr := u8_t (tcp_timer_ctr w + 1) |>))|].
  intros ? w2 Hw2. apply ends_bind; [apply never_get|]. wlp_step. apply ends_bind.
  - eapply (slow_loop_ends _ _ _ []); [by apply standing_start|done|done|apply enough_start].
  - intros ? w3 _. apply ends_bind; [apply never_get|]. wlp_step. apply never_timewait_loop.
Qed.
Lemma tcp_tmr_ends w : world_ok w -> ends (tcp_tmr cb cb_poll) w.
Proof.
  intros Hw. unfold tcp_tmr. apply ends_bind; [by apply tcp_fasttmr_ends|].
  eapply wlp_conseq; [by apply tcp_fasttmr_ok|]. intros ? w1 [Hw1 _]. apply ends_bind; [apply never_modify|].
  eapply wlp_conseq; [by apply (tame_modify (fun w => w <| tcp_timer := u8_t (tcp_timer w + 1) |>))|].
  intros ? w2 Hw2. apply ends_bind; [apply never_get|]. wlp_step. destruct (negb _); [by apply tcp_slowtmr_ends|done].
Qed.
End Walks.
