(* ===== verification/TcpSearch.v ===== *)
(** * The searches among the control blocks

    [tcp_new_port] and [tcp_bind], completely: which port is chosen, when a call fails, what it
    changes.  Which control block a segment goes to ([tcp_input]), and which connection is given
    up when memory is short ([tcp_kill_prio], [tcp_kill_timewait]).  In a sound world no search
    fails. *)

From S2P Require Import Prelude Def IpAddr Pbuf Net Netif Ip6Src Tcp.
From S2P Require Import TcpOut TcpIn TcpOpt TcpOutput TcpProcess TcpMachine TcpStream TcpInput.
From S2P Require Import TcpApp TcpWrite TcpClose TcpSteps TcpParse TcpPcbs TcpDemux TcpTimer.
From S2P Require Import TcpLists TcpOrder TcpOrderIn TcpWorld TcpCalls.

(** ** Walks over the lists *)

Lemma walk_run {A} (g : Z -> WM A) (test : A -> bool) (f : Z -> option A) l w :
  (forall a, a ∈ l -> exists x, f a = Some x /\ g a w = Ok (x, w)) ->
  exists r, walk g test l w = Ok (r, w) /\
    match r with
    | Some a => a ∈ l /\ exists x, f a = Some x /\ test x = true
    | None => forall a x, a ∈ l -> f a = Some x -> test x = false
    end.
Proof.
  induction l as [|a l IH]; intros H; cbn [walk]; [exists None; split; [done|]; by intros a x ?%elem_of_nil|].
  destruct (H a) as (x & Hf & Hg); [by left|]. rewrite (bind_ok _ _ _ _ _ Hg). destruct (test x) eqn:E.
  - exists (Some a). split; [done|]. split; [by left|by exists x].
  - destruct IH as (r & Hr & Hp); [intros b Hb; apply H; by right|]. exists r. split; [done|]. destruct r as [b|].
    + destruct Hp as [? ?]. split; [by right|done].
    + intros b y [->|Hb]%elem_of_cons Hy; [congruence|eauto].
Qed.

Lemma listed_run w a : world_ok w -> a ∈ pcb_lists (tw_st w) -> exists k, tw_socks w !! a = Some k /\ get_sock a w = Ok (k, w).
Proof.
  intros Hw. unfold pcb_lists. rewrite !elem_of_app. intros H.
  assert (Hk : exists k, tw_socks w !! a = Some k).
  { destruct H as [H|[H|H]]; [apply (wo_bound _ Hw) in H|apply (wo_active _ Hw) in H|apply (wo_tw _ Hw) in H];
      destruct H as (k & Hk & _); by exists k. }
  destruct Hk as [k Hk]. exists k. split; [done|]. unfold get_sock. by rewrite Hk.
Qed.
Lemma listener_run w a : world_ok w -> a ∈ tcp_listen_pcbs w -> exists l, tw_listens w !! a = Some l /\ get_listen a w = Ok (l, w).
Proof.
  intros Hw Ha. destruct (wo_listen _ Hw) as [_ H]. destruct (H a Ha) as [l Hl]. exists l. split; [done|]. unfold get_listen. by rewrite Hl.
Qed.

(** Some control block, of a listener or a connection, passes the test. *)
Definition some_pcb (w : tcp_world) (tl : tcp_pcb_listen -> bool) (tk : tcp_sock -> bool) : Prop :=
  (exists a l, a ∈ tcp_listen_pcbs w /\ tw_listens w !! a = Some l /\ tl l = true) \/
  (exists a k, a ∈ pcb_lists (tw_st w) /\ tw_socks w !! a = Some k /\ tk k = true).
Lemma search_run w tl tk : world_ok w ->
  exists b, (let* w := get in
    let* r := walk get_listen tl (tcp_listen_pcbs w) in
    match r with
    | Some _ => ret true
    | None => let* r := walk get_sock tk (pcb_lists (tw_st w)) in ret (match r with Some _ => true | None => false end)
    end) w = Ok (b, w) /\ (b = true <-> some_pcb w tl tk).
Proof.
  intros Hw. unfold bind at 1, get. cbv beta iota.
  destruct (walk_run get_listen tl (fun a => tw_listens w !! a) (tcp_listen_pcbs w) w) as (r & Hr & Hp); [intros a; by apply listener_run|].
  rewrite (bind_ok _ _ _ _ _ Hr). destruct r as [a|].
  - exists true. split; [done|]. split; [|done]. intros _. left. destruct Hp as (Ha & l & Hl & Ht). by exists a, l.
  - destruct (walk_run get_sock tk (fun a => tw_socks w !! a) (pcb_lists (tw_st w)) w) as (r2 & Hr2 & Hp2); [intros a; by apply listed_run|].
    rewrite (bind_ok _ _ _ _ _ Hr2). eexists. split; [done|]. destruct r2 as [a|].
    + split; [|done]. intros _. right. destruct Hp2 as (Ha & k & Hk & Ht). by exists a, k.
    + split; [done|]. intros [(a & l & Ha & Hl & Ht)|(a & k & Ha & Hk & Ht)]; [|].
      * by rewrite (Hp _ _ Ha Hl) in Ht.
      * by rewrite (Hp2 _ _ Ha Hk) in Ht.
Qed.

(** ** Ports *)

Definition port_taken (w : tcp_world) (port : Z) : Prop :=
  some_pcb w (fun l => l_local_port l =? port) (fun k => local_port (sk k) =? port).
Lemma port_used_run w port : world_ok w -> exists b, tcp_port_used port w = Ok (b, w) /\ (b = true <-> port_taken w port).
Proof. intros Hw. by apply search_run. Qed.

(** The range of ports [tcp_new_port] chooses from, in the order it looks at them. *)
Definition tcp_port_ok (port : Z) : Prop := TCP_LOCAL_PORT_RANGE_START <= port < TCP_LOCAL_PORT_RANGE_END.
Definition tcp_port_at (p i : Z) : Z := TCP_LOCAL_PORT_RANGE_START + (p - TCP_LOCAL_PORT_RANGE_START + i) mod 16383.
Lemma tcp_port_at_ok p i : tcp_port_ok (tcp_port_at p i).
Proof. unfold tcp_port_ok, tcp_port_at, TCP_LOCAL_PORT_RANGE_START, TCP_LOCAL_PORT_RANGE_END. dlia. Qed.
Lemma tcp_port_at_0 p : tcp_port_ok p -> tcp_port_at p 0 = p.
Proof. unfold tcp_port_ok, tcp_port_at, TCP_LOCAL_PORT_RANGE_START, TCP_LOCAL_PORT_RANGE_END. dlia. Qed.
Lemma tcp_port_at_next p i : (if u16_t (tcp_port_at p i + 1) =? TCP_LOCAL_PORT_RANGE_END then TCP_LOCAL_PORT_RANGE_START else u16_t (tcp_port_at p i + 1))
  = tcp_port_at p (i + 1).
Proof.
  rewrite u16_t_id; [|pose proof (tcp_port_at_ok p i) as H; unfold tcp_port_ok, TCP_LOCAL_PORT_RANGE_START, TCP_LOCAL_PORT_RANGE_END in H; lia].
  unfold tcp_port_at, TCP_LOCAL_PORT_RANGE_START, TCP_LOCAL_PORT_RANGE_END. destruct (Z.eqb_spec (49152 + (p - 49152 + i) mod 16383 + 1) 65535); dlia.
Qed.
Lemma tcp_port_at_cover p k : tcp_port_ok k -> exists i, 1 <= i <= 16383 /\ tcp_port_at p i = k.
Proof.
  unfold tcp_port_ok, tcp_port_at, TCP_LOCAL_PORT_RANGE_START, TCP_LOCAL_PORT_RANGE_END. intros Hk.
  exists (1 + (k - p - 1) mod 16383). dlia.
Qed.

Lemma new_port_loop_run fuel : forall c p w, world_ok w -> tcp_port w = tcp_port_at p c ->
  0 <= c -> c + Z.of_nat fuel = 16384 -> (0 < fuel)%nat -> (forall i, 1 <= i <= c -> port_taken w (tcp_port_at p i)) ->
  exists r i, c < i <= 16384 /\ tcp_new_port_loop fuel c w = Ok (r, w <| tcp_port := tcp_port_at p i |>) /\
    (forall j, 1 <= j < i -> port_taken w (tcp_port_at p j)) /\
    ((r = tcp_port_at p i /\ ~ port_taken w r) \/ (r = 0 /\ forall k, tcp_port_ok k -> port_taken w k)).
Proof.
  induction fuel as [|fuel IH]; intros c p w Hw Hp Hc Hs Hf Hu; [lia|]. cbn [tcp_new_port_loop].
  set (w1 := w <| tcp_port := tcp_port_at p (c + 1) |>).
  rewrite (bind_ok _ _ w tt (w <| tcp_port := u16_t (tcp_port w + 1) |>)) by done.
  rewrite (bind_ok _ _ _ tt w1).
  2:{ unfold modify, w1. rewrite Hp, <- (tcp_port_at_next p c). rec_simpl. by destruct (_ =? _). }
  unfold get at 1, bind at 1. cbv beta iota. change (tcp_port w1) with (tcp_port_at p (c + 1)).
  assert (Hw1 : world_ok w1) by (by apply (world_ok_same w)).
  destruct (port_used_run w1 (tcp_port_at p (c + 1)) Hw1) as (b & Hb & Hiff). rewrite (bind_ok _ _ _ _ _ Hb).
  change (port_taken w1) with (port_taken w) in *. destruct b.
  - assert (Hu' : forall i, 1 <= i <= c + 1 -> port_taken w (tcp_port_at p i)).
    { intros i Hi. destruct (decide (i = c + 1)) as [->|]; [by apply Hiff|apply Hu; lia]. }
    cbv zeta. rewrite (u16_t_id (c + 1)) by lia.
    unfold TCP_LOCAL_PORT_RANGE_END at 1, TCP_LOCAL_PORT_RANGE_START at 1. destruct (Z.ltb_spec (65535 - 49152) (c + 1)).
    + exists 0, (c + 1). split; [lia|]. split; [done|]. split; [intros j Hj; apply Hu; lia|]. right. split; [done|].
      intros k Hk. destruct (tcp_port_at_cover p k Hk) as (i & Hi & <-). apply Hu'. lia.
    + destruct (IH (c + 1) p w1 Hw1 eq_refl) as (r & i & Hi & Hr & Hj); [lia..|exact Hu'|]. exists r, i. split; [lia|]. by rewrite Hr.
  - exists (tcp_port_at p (c + 1)), (c + 1). split; [lia|]. split; [done|]. split; [intros j Hj; apply Hu; lia|]. left. split; [done|].
    intros Ht. by apply Hiff in Ht.
Qed.
Lemma tcp_new_port_run w : world_ok w -> tcp_port_ok (tcp_port w) ->
  exists r i, 1 <= i <= 16384 /\ tcp_new_port w = Ok (r, w <| tcp_port := tcp_port_at (tcp_port w) i |>) /\
    (forall j, 1 <= j < i -> port_taken w (tcp_port_at (tcp_port w) j)) /\
    ((r = tcp_port_at (tcp_port w) i /\ ~ port_taken w r) \/ (r = 0 /\ forall k, tcp_port_ok k -> port_taken w k)).
Proof.
  intros Hw Hp. unfold tcp_new_port. set (f := Z.to_nat _). assert (Hf : Z.of_nat f = 16384) by (unfold f; rewrite Z2Nat.id; done).
  destruct (new_port_loop_run f 0 (tcp_port w) w) as (r & i & Hi & H); [done|by rewrite tcp_port_at_0|lia..|intros; lia|].
  exists r, i. split; [lia|done].
Qed.

(** ** [tcp_bind] *)

(** An address and port in use that is in the way of another one: the same port, the same
    version, and the same address or any address on either side. *)
Definition in_the_way (ip : ip_addr) (port : Z) (used : ip_addr) (used_port : Z) : Prop :=
  used_port = port /\ IP_IS_V6_VAL used = IP_IS_V6_VAL ip /\
  (ip_addr_isany_val used = true \/ ip_addr_isany_val ip = true \/ ip_addr_cmp used ip = true).
Lemma bind_conflict_iff ip port used used_port : bind_conflict ip port used used_port = true <-> in_the_way ip port used used_port.
Proof.
  unfold bind_conflict, in_the_way. rewrite !andb_true_iff, !orb_true_iff, Z.eqb_eq, eqb_true_iff. split; intros H; [|].
  - destruct H as [[H1 H2] H3]. split_and!; [done..|]. tauto.
  - destruct H as (H1 & H2 & H3). split; [done|]. tauto.
Qed.
(** Another control block is in the way of this address and port. *)
Definition bind_taken (w : tcp_world) (ip : ip_addr) (port : Z) : Prop :=
  (exists a l, a ∈ tcp_listen_pcbs w /\ tw_listens w !! a = Some l /\ in_the_way ip port (l_local_ip l) (l_local_port l)) \/
  (exists a k, a ∈ pcb_lists (tw_st w) /\ tw_socks w !! a = Some k /\ in_the_way ip port (local_ip (sk k)) (local_port (sk k))).
Lemma bind_used_run w ip port : world_ok w -> exists b, bind_used ip port w = Ok (b, w) /\ (b = true <-> bind_taken w ip port).
Proof.
  intros Hw. destruct (search_run w (fun l => bind_conflict ip port (l_local_ip l) (l_local_port l))
    (fun k => bind_conflict ip port (local_ip (sk k)) (local_port (sk k))) Hw) as (b & E & Hb). exists b. split; [exact E|].
  rewrite Hb. unfold some_pcb, bind_taken. by setoid_rewrite bind_conflict_iff.
Qed.

(** The control block with its address and port, and the world it is bound in. *)
Definition bound_sock (ip : ip_addr) (port : Z) (k : tcp_sock) : tcp_sock :=
  k <| sk := sk k <| local_ip := if negb (ip_addr_isany_val ip) || negb (ip_type ip =? ip_type (local_ip (sk k)))
                                 then ip_addr_set ip else local_ip (sk k) |> <| local_port := port |> |>.
Definition bound_world (a : Z) (ip : ip_addr) (port : Z) (k : tcp_sock) (w : tcp_world) : tcp_world :=
  w <| tw_socks := <[a := bound_sock ip port k]> (tw_socks w) |>
    <| tw_st := tw_st w <| timer_needed_calls := timer_needed_calls (tw_st w) + 1 |> <| tcp_bound_pcbs := a :: tcp_bound_pcbs (tw_st w) |> |>.

Lemma upd_sock_run a f k w : tw_socks w !! a = Some k -> upd_sock a f w = Ok (tt, w <| tw_socks := <[a := f k]> (tw_socks w) |>).
Proof. intros Hk. unfold upd_sock. by rewrite Hk. Qed.
Lemma set_socks_id w : w <| tw_socks := tw_socks w |> = w.
Proof. by destruct w. Qed.
Lemma bind_commit_run a ip port k w : tw_socks w !! a = Some k -> a ∉ tcp_bound_pcbs (tw_st w) ->
  bind_commit a ip port w = Ok (ERR_OK, bound_world a ip port k w).
Proof.
  intros Hk Ha. unfold bind_commit. rewrite (bind_ok _ _ w k w) by (unfold get_sock; by rewrite Hk).
  set (k1 := k <| sk := sk k <| local_ip := if negb (ip_addr_isany_val ip) || negb (ip_type ip =? ip_type (local_ip (sk k)))
    then ip_addr_set ip else local_ip (sk k) |> |>).
  set (w1 := w <| tw_socks := <[a := k1]> (tw_socks w) |>). rewrite (bind_ok _ _ w tt w1).
  2:{ unfold w1, k1. destruct (negb (ip_addr_isany_val ip) || _); [unfold upd_pcb; by rewrite (upd_sock_run _ _ k)|].
      unfold ret. do 2 f_equal. rewrite insert_id; [by destruct w|]. rewrite Hk. f_equal. by destruct k as [[] ? ? ? ? ? ? ? ?]. }
  rewrite (bind_ok _ _ w1 tt (w <| tw_socks := <[a := bound_sock ip port k]> (tw_socks w) |>)).
  2:{ unfold upd_pcb. rewrite (upd_sock_run _ _ k1) by (unfold w1; rec_simpl; by rewrite lookup_insert_eq).
      unfold w1. rec_simpl. by rewrite insert_insert_eq. }
  unfold TCP_REG_BOUND, reg. unfold bind, get. rec_simpl. rewrite bool_decide_eq_false_2 by done. done.
Qed.

Definition tcp_bind_post (w : tcp_world) (a : Z) (k : tcp_sock) (ip : ip_addr) (port r : Z) (w' : tcp_world) : Prop :=
  if port =? 0 then
    exists q, (r = ERR_BUF /\ w' = w <| tcp_port := q |> /\ forall p, tcp_port_ok p -> port_taken w p) \/
      (r = ERR_OK /\ tcp_port_ok q /\ ~ port_taken w q /\ w' = bound_world a ip q k (w <| tcp_port := q |>))
  else (r = ERR_USE /\ bind_taken w ip port /\ w' = w) \/ (r = ERR_OK /\ ~ bind_taken w ip port /\ w' = bound_world a ip port k w).

Lemma tcp_zoned_net ip ip' w w1 : tcp_zoned ip w = Ok (ip', w1) -> w1 = w <| tw_net := tw_net w1 |>.
Proof.
  unfold tcp_zoned. destruct (_ && _).
  - intros (z & w2 & E1 & [= _ ->])%bind_inv. unfold on_net in E1. destruct (ip6_addr_select_zone _ _ _) as [[? ?]|]; [|done].
    injection E1 as _ <-. done.
  - intros [= _ <-]. by destruct w.
Qed.
Lemma tcp_bind_run w a k ip ip' port w1 : world_ok w -> tw_socks w !! a = Some k -> state (sk k) = CLOSED ->
  a ∉ tcp_bound_pcbs (tw_st w) -> tcp_zoned ip w = Ok (ip', w1) -> tcp_port_ok (tcp_port w) ->
  exists r w', tcp_bind a (Some ip) port w = Ok (r, w') /\ tcp_bind_post w1 a k ip' port r w' /\ world_ok w'.
Proof.
  intros Hw Hk Hs Ha Hz Hp. pose proof (tcp_zoned_net _ _ _ _ Hz) as E1.
  assert (Hw1 : world_ok w1) by (rewrite E1; by apply (world_ok_same w)).
  assert (Hrun : exists r w', tcp_bind a (Some ip) port w = Ok (r, w') /\ tcp_bind_post w1 a k ip' port r w').
  { unfold tcp_bind. cbv zeta. assert (Ha0 : a <> 0) by (intros ->; destruct (wo_null _ Hw); congruence).
    m_assert ltac:(by apply negb_true_iff, Z.eqb_neq). rewrite (bind_ok _ _ w CLOSED w) by (unfold get_state; by rewrite Hk, Hs).
    rewrite (bind_ok _ _ w tt w) by done. rewrite (bind_ok _ _ _ _ _ Hz). clear Hz.
    assert (Hk1 : tw_socks w1 !! a = Some k) by (by rewrite E1). assert (Ha1 : a ∉ tcp_bound_pcbs (tw_st w1)) by (by rewrite E1).
    assert (Hp1 : tcp_port_ok (tcp_port w1)) by (by rewrite E1). clear E1 Hw Hk Ha Hp w. unfold tcp_bind_post. destruct (Z.eqb_spec port 0) as [->|Hne].
    - destruct (tcp_new_port_run w1 Hw1 Hp1) as (r & i & Hi & Hr & _ & Hcase). rewrite (bind_ok _ _ _ _ _ Hr).
      set (q := tcp_port_at (tcp_port w1) i) in *. pose proof (tcp_port_at_ok (tcp_port w1) i : tcp_port_ok q) as Hq.
      destruct Hcase as [[-> Hfree]|[-> Hall]].
      + destruct (Z.eqb_spec q 0) as [E|_]; [unfold tcp_port_ok, TCP_LOCAL_PORT_RANGE_START in Hq; lia|].
        rewrite (bind_commit_run _ _ _ k) by done. eexists _, _. split; [done|]. exists q. by right.
      + eexists _, _. split; [done|]. exists q. by left.
    - destruct (bind_used_run w1 ip' port Hw1) as (b & Hb & Hiff). rewrite (bind_ok _ _ _ _ _ Hb). destruct b.
      + eexists _, _. split; [done|]. left. split; [done|]. split; [by apply Hiff|done].
      + rewrite (bind_commit_run _ _ _ k) by done. eexists _, _. split; [done|]. right. split; [done|]. split; [|done].
        intros Ht. by apply Hiff in Ht. }
  destruct Hrun as (r & w' & Hr & Hpost). exists r, w'. split_and!; [done|done|]. exact (tame_tcp_bind a (Some ip) port w Hw _ _ Hr).
Qed.

(** ** The control block of a segment *)

(** The control block at [a] exists and is for the segment: it is bound to no interface or to the
    one the segment came in by, and has its ports and addresses. *)
Definition is_for (w : tcp_world) (c : conn_key) (a : Z) : Prop := exists k, tw_socks w !! a = Some k /\
  (netif_idx k = NETIF_NO_INDEX \/ netif_idx k = ck_inp c) /\ remote_port (sk k) = ck_sport c /\ local_port (sk k) = ck_dport c /\
  ip_addr_cmp (remote_ip (sk k)) (ck_src c) = true /\ ip_addr_cmp (local_ip (sk k)) (ck_dest c) = true.
Lemma is_for_iff w c a k : tw_socks w !! a = Some k -> is_for w c a <-> pcb_matches c k = true.
Proof.
  intros Hk. unfold is_for, pcb_matches. rewrite !andb_true_iff, negb_andb, orb_true_iff, !negb_involutive, !Z.eqb_eq. split.
  - intros (k' & Hk' & H1 & H2 & H3 & H4 & H5). assert (k' = k) as -> by congruence. tauto.
  - intros (H1 & ((H2 & H3) & H4) & H5). exists k. tauto.
Qed.

Lemma find_active_run c l w : (forall a, a ∈ l -> exists k, tw_socks w !! a = Some k /\ active_state (state (sk k)) = true) ->
  exists r, find_active c l w = Ok (r, w) /\
    match r with
    | Some a => exists l1 l2, l = l1 ++ a :: l2 /\ is_for w c a /\ Forall (fun b => ~ is_for w c b) l1
    | None => Forall (fun b => ~ is_for w c b) l
    end.
Proof.
  induction l as [|a l IH]; intros H; cbn [find_active]; [by exists None|].
  destruct (H a) as (k & Hk & Ha); [by left|]. rewrite (bind_ok _ _ w k w) by (unfold get_sock; by rewrite Hk).
  m_assert ltac:(by destruct (state (sk k))). m_assert ltac:(by destruct (state (sk k))). m_assert ltac:(by destruct (state (sk k))).
  destruct (pcb_matches c k) eqn:E.
  - exists (Some a). split; [done|]. exists [], l. split; [done|]. split; [by eapply is_for_iff|constructor].
  - destruct IH as (r & Hr & Hp); [intros b Hb; apply H; by right|]. exists r. split; [done|].
    assert (Hn : ~ is_for w c a) by (rewrite is_for_iff by exact Hk; congruence). destruct r as [b|].
    + destruct Hp as (l1 & l2 & -> & Hb & Hl1). exists (a :: l1), l2. split; [done|]. split; [done|by constructor].
    + by constructor.
Qed.
Lemma find_timewait_run c l w : (forall a, a ∈ l -> exists k, tw_socks w !! a = Some k /\ state (sk k) = TIME_WAIT) ->
  exists r, find_timewait c l w = Ok (r, w) /\
    match r with
    | Some a => exists l1 l2, l = l1 ++ a :: l2 /\ is_for w c a /\ Forall (fun b => ~ is_for w c b) l1
    | None => Forall (fun b => ~ is_for w c b) l
    end.
Proof.
  induction l as [|a l IH]; intros H; cbn [find_timewait]; [by exists None|].
  destruct (H a) as (k & Hk & Ha); [by left|]. rewrite (bind_ok _ _ w k w) by (unfold get_sock; by rewrite Hk).
  m_assert ltac:(by rewrite Ha). destruct (pcb_matches c k) eqn:E.
  - exists (Some a). split; [done|]. exists [], l. split; [done|]. split; [by eapply is_for_iff|constructor].
  - destruct IH as (r & Hr & Hp); [intros b Hb; apply H; by right|]. exists r. split; [done|].
    assert (Hn : ~ is_for w c a) by (rewrite is_for_iff by exact Hk; congruence). destruct r as [b|].
    + destruct Hp as (l1 & l2 & -> & Hb & Hl1). exists (a :: l1), l2. split; [done|]. split; [done|by constructor].
    + by constructor.
Qed.

Lemma to_front_split l1 a l2 : NoDup (l1 ++ a :: l2) -> to_front (l1 ++ a :: l2) a = a :: l1 ++ l2.
Proof.
  intros N. unfold to_front. destruct l1 as [|h l1]; simpl; [by rewrite Z.eqb_refl|].
  destruct (Z.eqb_spec h a) as [->|Hne].
  - simpl in N. apply NoDup_cons in N as [N _]. destruct N. set_solver.
  - f_equal. f_equal. simpl in N. apply NoDup_cons in N as [_ N]. clear Hne h. induction l1 as [|x l1 IH]; simpl; [by rewrite Z.eqb_refl|].
    simpl in N. apply NoDup_cons in N as [Hx N]. destruct (Z.eqb_spec x a) as [->|]; [destruct Hx; set_solver|]. by rewrite IH.
Qed.

(** The first active control block that is for the segment, which comes to the front; else the
    first in [TIME_WAIT]; else, with [TUN2SOCKS], the first listener. *)
Definition demux_post (w : tcp_world) (c : conn_key) (d : tcp_dest) (w' : tcp_world) : Prop :=
  let others l := Forall (fun b => ~ is_for w c b) l in
  match d with
  | ToActive a => exists l1 l2, tcp_active_pcbs (tw_st w) = l1 ++ a :: l2 /\ is_for w c a /\ others l1 /\
      w' = w <| tw_st := tw_st w <| tcp_active_pcbs := a :: l1 ++ l2 |> |>
  | ToTimeWait a => others (tcp_active_pcbs (tw_st w)) /\ w' = w /\
      exists l1 l2, tcp_tw_pcbs (tw_st w) = l1 ++ a :: l2 /\ is_for w c a /\ others l1
  | ToListener a => others (tcp_active_pcbs (tw_st w)) /\ others (tcp_tw_pcbs (tw_st w)) /\ w' = w /\
      exists l, tcp_listen_pcbs w = a :: l
  | ToNobody => others (tcp_active_pcbs (tw_st w)) /\ others (tcp_tw_pcbs (tw_st w)) /\ w' = w /\ tcp_listen_pcbs w = []
  end.
Lemma tcp_demux_run w c : world_ok w -> exists d w', tcp_demux c w = Ok (d, w') /\ demux_post w c d w'.
Proof.
  intros Hw. unfold tcp_demux. rewrite (bind_ok _ _ w w w) by done.
  destruct (find_active_run c (tcp_active_pcbs (tw_st w)) w) as (r & Hr & Hp); [apply Hw|]. rewrite (bind_ok _ _ _ _ _ Hr). destruct r as [a|].
  - destruct Hp as (l1 & l2 & El & Ha & Hl). eexists (ToActive a), _. split; [done|]. exists l1, l2. split_and!; [done..|].
    rewrite El, to_front_split; [done|]. rewrite <- El. apply Hw.
  - destruct (find_timewait_run c (tcp_tw_pcbs (tw_st w)) w) as (r & Hr2 & Hp2); [apply Hw|]. rewrite (bind_ok _ _ _ _ _ Hr2).
    destruct r as [a|]; [eexists (ToTimeWait a), w; done|].
    destruct (tcp_listen_pcbs w) as [|a l] eqn:E; eexists _, w; (split; [done|]); [done|]. split_and!; [done..|]. by exists l.
Qed.

(** ** Whom to give up *)

(** How long the connection has been idle. *)
Definition age (w : tcp_world) (k : tcp_sock) : Z := inactivity_of (tcp_ticks (tw_st w)) k.
Lemma age_nonneg w k : 0 <= age w k.
Proof. unfold age, inactivity_of, u32_t. apply Z.mod_pos_bound. lia. Qed.

Lemma find_oldest_run w test l : forall inact inactive,
  (forall a, a ∈ l -> exists k, tw_socks w !! a = Some k) ->
  exists r, find_oldest (tcp_ticks (tw_st w)) test l inact inactive w = Ok (r, w) /\
    ((r = inactive /\ forall b k, b ∈ l -> tw_socks w !! b = Some k -> test k = true -> age w k < inact) \/
     (r ∈ l /\ exists k, tw_socks w !! r = Some k /\ test k = true /\ inact <= age w k /\
        forall b kb, b ∈ l -> tw_socks w !! b = Some kb -> test kb = true -> age w kb <= age w k)).
Proof.
  induction l as [|a l IH]; intros inact inactive H; cbn [find_oldest].
  { exists inactive. split; [done|]. left. split; [done|]. by intros b k ?%elem_of_nil. }
  destruct (H a) as (k & Hk); [by left|]. rewrite (bind_ok _ _ w k w) by (unfold get_sock; by rewrite Hk). fold (age w k).
  assert (H' : forall b, b ∈ l -> exists k, tw_socks w !! b = Some k) by (intros b Hb; apply H; by right).
  destruct (test k && (inact <=? age w k)) eqn:E.
  - apply andb_true_iff in E as [Et Ea%Z.leb_le]. destruct (IH (age w k) a H') as (r & Hr & Hp). exists r. split; [done|]. right.
    destruct Hp as [[-> Hb]|(Hin & k' & Hk' & Ht' & Hle & Hb)].
    + split; [by left|]. exists k. split_and!; [done..|]. intros b kb [->|Hbl]%elem_of_cons Hkb Htb; [assert (kb = k) as -> by congruence; done|].
      specialize (Hb b kb Hbl Hkb Htb). lia.
    + split; [by right|]. exists k'. split_and!; [done|done|lia|].
      intros b kb [->|Hbl]%elem_of_cons Hkb Htb; [assert (kb = k) as -> by congruence; done|eauto].
  - destruct (IH inact inactive H') as (r & Hr & Hp). exists r. split; [done|].
    assert (Hno : test k = true -> age w k < inact).
    { intros Ht. rewrite Ht in E. simpl in E. lia. }
    destruct Hp as [[-> Hb]|(Hin & k' & Hk' & Ht' & Hle & Hb)]; [left|right].
    + split; [done|]. intros b kb [->|Hbl]%elem_of_cons Hkb Htb; [assert (kb = k) as -> by congruence; auto|eauto].
    + split; [by right|]. exists k'. split_and!; [done..|].
      intros b kb [->|Hbl]%elem_of_cons Hkb Htb; [assert (kb = k) as -> by congruence; specialize (Hno Htb); lia|eauto].
Qed.

(** [k] is given up rather than [k']. *)
Definition gives_way (w : tcp_world) (k k' : tcp_sock) : Prop := prio k < prio k' \/ (prio k = prio k' /\ age w k' <= age w k).
Lemma find_prio_run w l : forall mprio inact inactive,
  (forall a, a ∈ l -> exists k, tw_socks w !! a = Some k) ->
  exists r, find_prio (tcp_ticks (tw_st w)) l mprio inact inactive w = Ok (r, w) /\
    ((r = inactive /\ forall b k, b ∈ l -> tw_socks w !! b = Some k -> mprio < prio k \/ (prio k = mprio /\ age w k < inact)) \/
     (r ∈ l /\ exists k, tw_socks w !! r = Some k /\ (prio k < mprio \/ (prio k = mprio /\ inact <= age w k)) /\
        forall b kb, b ∈ l -> tw_socks w !! b = Some kb -> gives_way w k kb)).
Proof.
  induction l as [|a l IH]; intros mprio inact inactive H; cbn [find_prio].
  { exists inactive. split; [done|]. left. split; [done|]. by intros b k ?%elem_of_nil. }
  destruct (H a) as (k & Hk); [by left|]. rewrite (bind_ok _ _ w k w) by (unfold get_sock; by rewrite Hk). fold (age w k).
  assert (H' : forall b, b ∈ l -> exists k, tw_socks w !! b = Some k) by (intros b Hb; apply H; by right).
  destruct ((prio k <? mprio) || ((prio k =? mprio) && (inact <=? age w k))) eqn:E.
  - assert (Hbeat : prio k < mprio \/ (prio k = mprio /\ inact <= age w k)) by lia.
    destruct (IH (prio k) (age w k) a H') as (r & Hr & Hp). exists r. split; [done|]. right.
    destruct Hp as [[-> Hb]|(Hin & k' & Hk' & Hle & Hb)].
    + split; [by left|]. exists k. split_and!; [done..|]. unfold gives_way.
      intros b kb [->|Hbl]%elem_of_cons Hkb; [assert (kb = k) as -> by congruence; lia|]. specialize (Hb b kb Hbl Hkb). lia.
    + split; [by right|]. exists k'. split_and!; [done|lia|]. unfold gives_way in *.
      intros b kb [->|Hbl]%elem_of_cons Hkb; [assert (kb = k) as -> by congruence; lia|eauto].
  - destruct (IH mprio inact inactive H') as (r & Hr & Hp). exists r. split; [done|].
    assert (Hno : mprio < prio k \/ (prio k = mprio /\ age w k < inact)) by lia.
    destruct Hp as [[-> Hb]|(Hin & k' & Hk' & Hle & Hb)]; [left|right].
    + split; [done|]. intros b kb [->|Hbl]%elem_of_cons Hkb; [assert (kb = k) as -> by congruence; done|eauto].
    + split; [by right|]. exists k'. split_and!; [done..|]. unfold gives_way in *.
      intros b kb [->|Hbl]%elem_of_cons Hkb; [assert (kb = k) as -> by congruence; lia|eauto].
Qed.

Section Victims.
Context (cb : tcp_callbacks) (Happ : orderly_app cb).

(** An aborted control block is gone. *)
Lemma focus_abandon_gone reset a w w' : focus a (tcp_abandon cb reset) w = Ok (tt, w') -> tw_socks w' !! a = None.
Proof.
  unfold focus. destruct (tw_socks w !! a) as [k|]; [|done]. destruct (tcp_abandon cb reset (enter a k w)) as [[[] s']|] eqn:E; [|done].
  intros [= <-]. apply (abandon_freed cb Happ) in E. unfold leave. rec_simpl. by rewrite E, lookup_delete_eq.
Qed.

(** [m] aborts the control block at [a] and does nothing else. *)
Definition aborts (m : WM unit) (a : Z) (w : tcp_world) : Prop :=
  m w = focus a (tcp_abort cb) w /\ forall w', m w = Ok (tt, w') -> tw_socks w' !! a = None.
Lemma abort_run (find : WM Z) a w : find w = Ok (a, w) -> a <> 0 ->
  aborts (let* a := find in if negb (a =? 0) then focus a (tcp_abort cb) else ret tt) a w.
Proof.
  intros Hf Ha. assert (E : (let* a := find in if negb (a =? 0) then focus a (tcp_abort cb) else ret tt) w = focus a (tcp_abort cb) w).
  { rewrite (bind_ok _ _ _ _ _ Hf). by destruct (Z.eqb_spec a 0). }
  split; [exact E|]. intros w'. rewrite E. apply focus_abandon_gone.
Qed.
Lemma listed_null w l P a : world_ok w -> listed_as w l P -> a ∈ l -> a <> 0.
Proof. intros Hw [_ H] (k & Hk & _)%H ->. destruct (wo_null _ Hw). congruence. Qed.
Lemma listed_some w l P a : listed_as w l P -> a ∈ l -> exists k, tw_socks w !! a = Some k.
Proof. intros [_ H] (k & Hk & _)%H. by exists k. Qed.

Lemma kill_timewait_run w : world_ok w -> if decide (tcp_tw_pcbs (tw_st w) = []) then tcp_kill_timewait cb w = Ok (tt, w)
  else exists a k, a ∈ tcp_tw_pcbs (tw_st w) /\ tw_socks w !! a = Some k /\
    (forall b kb, b ∈ tcp_tw_pcbs (tw_st w) -> tw_socks w !! b = Some kb -> age w kb <= age w k) /\ aborts (tcp_kill_timewait cb) a w.
Proof.
  intros Hw. pose proof (wo_tw _ Hw) as Hl. unfold tcp_kill_timewait, aborts. rewrite (bind_ok _ _ w w w) by done.
  destruct (decide _) as [->|Hne]; [done|].
  destruct (find_oldest_run w (fun _ => true) (tcp_tw_pcbs (tw_st w)) 0 0) as (r & Hr & Hp); [intros a; by eapply listed_some|].
  destruct Hp as [[-> Hb]|(Hin & k & Hk & _ & _ & Hb)].
  - exfalso. destruct (tcp_tw_pcbs (tw_st w)) as [|b l] eqn:E; [done|]. destruct (listed_some _ _ _ b Hl) as [k Hk]; [by left|].
    specialize (Hb b k ltac:(by left) Hk eq_refl). pose proof (age_nonneg w k). lia.
  - exists r, k. split_and!; [done|done|by intros; eapply Hb|..]; apply abort_run; try done; by eapply listed_null.
Qed.

Lemma kill_prio_run w p : world_ok w -> 0 < p < 256 ->
  let candidates b kb := b ∈ tcp_active_pcbs (tw_st w) /\ tw_socks w !! b = Some kb in
  (exists a k, candidates a k /\ prio k < Z.min TCP_PRIO_MAX p /\ (forall b kb, candidates b kb -> gives_way w k kb) /\
     aborts (tcp_kill_prio cb p) a w) \/
  ((forall b kb, candidates b kb -> Z.min TCP_PRIO_MAX p <= prio kb) /\ tcp_kill_prio cb p w = Ok (tt, w)).
Proof.
  intros Hw Hprio. cbv zeta. pose proof (wo_active _ Hw) as Hl. unfold tcp_kill_prio, aborts. cbv zeta.
  destruct (Z.eqb_spec (Z.min TCP_PRIO_MAX p) 0) as [E|_]; [unfold TCP_PRIO_MAX in E; lia|]. rewrite (bind_ok _ _ w w w) by done.
  rewrite (u8_t_id (Z.min TCP_PRIO_MAX p - 1)) by (unfold TCP_PRIO_MAX; lia).
  destruct (find_prio_run w (tcp_active_pcbs (tw_st w)) (Z.min TCP_PRIO_MAX p - 1) 0 0) as (r & Hr & Hp); [intros a; by eapply listed_some|].
  destruct Hp as [[-> Hb]|(Hin & k & Hk & Hle & Hb)]; [right|left].
  - split; [|by rewrite (bind_ok _ _ _ _ _ Hr)]. intros b kb [Hbl Hkb]. specialize (Hb b kb Hbl Hkb). pose proof (age_nonneg w kb). lia.
  - exists r, k. split; [done|]. split; [lia|]. split; [by intros b kb [? ?]; eapply Hb|]. apply abort_run; [done|by eapply listed_null].
Qed.
End Victims.
