(* ===== verification/Raw.v ===== *)
(** * Raw sockets ([core/raw.c])

    The list of raw control blocks with its operations, the offer of every received packet
    to them, and sending.  [LWIP_MULTICAST_TX_OPTIONS] and the broadcast options are off. *)

From S2P Require Import Prelude Def IpAddr Pbuf InetChksum Net Netif IpOut.
From S2P Require Import Ip6Src.

Definition RAW_TTL : Z := 64.
Definition RAW_FLAGS_CONNECTED : Z := 1.
Definition RAW_FLAGS_HDRINCL : Z := 2.

(** ** Binding and connecting; a null address is [None] *)

(** [ip_addr_set_ipaddr], then a zone where the address needs one. *)
Definition raw_zoned (addr src : ip_addr) : M net ip_addr :=
  if IP_IS_V6_VAL addr && ip6_addr_lacks_zone (ip_2_ip6 addr) IP6_UNKNOWN then
    let* a := ip6_addr_select_zone (ip_2_ip6 addr) (ip_2_ip6 src) in
    ret (mkIpAddr a (ip_type addr))
  else ret addr.

Definition raw_bind (pcb : Z) (ipaddr : option ip_addr) : M net Z :=
  match ipaddr with
  | None => ret ERR_VAL
  | Some ipaddr =>
      if pcb =? 0 then ret ERR_VAL else
      upd_raw pcb (fun r => r <| raw_local_ip := ip_addr_set ipaddr |>) ;;;
      let* r := get_raw pcb in
      let* a := raw_zoned (raw_local_ip r) (raw_local_ip r) in
      upd_raw pcb (fun r => r <| raw_local_ip := a |>) ;;;
      ret ERR_OK
  end.

Definition raw_bind_netif (pcb nif : Z) : M net unit :=
  if negb (nif =? 0) then
    let* n := get_netif nif in
    upd_raw pcb (fun r => r <| raw_netif_idx := netif_get_index n |>)
  else upd_raw pcb (fun r => r <| raw_netif_idx := NETIF_NO_INDEX |>).

Definition raw_connect (pcb : Z) (ipaddr : option ip_addr) : M net Z :=
  match ipaddr with
  | None => ret ERR_VAL
  | Some ipaddr =>
      if pcb =? 0 then ret ERR_VAL else
      upd_raw pcb (fun r => r <| raw_remote_ip := ip_addr_set ipaddr |>) ;;;
      let* r := get_raw pcb in
      let* a := raw_zoned (raw_remote_ip r) (raw_local_ip r) in
      upd_raw pcb (fun r => r <| raw_remote_ip := a |>) ;;;
      upd_raw pcb (fun r => r <| raw_flags := u8_t (Z.lor (raw_flags r) RAW_FLAGS_CONNECTED) |>) ;;;
      ret ERR_OK
  end.

Definition raw_disconnect (pcb : Z) : M net unit :=
  let* r := get_raw pcb in
  upd_raw pcb (fun r => r <| raw_remote_ip :=
    if IP_IS_ANY_TYPE_VAL (raw_local_ip r) then ip_addr_copy IP_ANY_TYPE
    else ip_addr_set_any (IP_IS_V6_VAL (raw_remote_ip r)) |>) ;;;
  upd_raw pcb (fun r => r <| raw_netif_idx := NETIF_NO_INDEX |>) ;;;
  upd_raw pcb (fun r => r <| raw_flags := u8_t (Z.land (raw_flags r) (u8_t (Z.land (Z.lnot RAW_FLAGS_CONNECTED) 255))) |>).

Definition raw_recv (pcb recv recv_arg : Z) : M net unit :=
  upd_raw pcb (fun r => r <| raw_recv_fn := recv |>) ;;;
  upd_raw pcb (fun r => r <| raw_recv_arg := recv_arg |>).

(** ** Creation and removal *)

Fixpoint raw_find (fuel : nat) (test : Z -> raw_pcb -> bool) (pcb : Z) : M net Z :=
  match fuel with
  | O => fail OutOfFuel
  | S fuel =>
      if pcb =? 0 then ret 0 else
      let* r := get_raw pcb in
      if test pcb r then ret pcb else raw_find fuel test (raw_next r)
  end.

Section RawAlloc.
Context `{Malloc}.

Definition memp_free_raw (pcb : Z) : M net unit :=
  lift (memp_free pcb) ;;; modify (fun n => n <| n_raws := delete pcb (n_raws n) |>).

Definition raw_remove (pcb : Z) : M net unit :=
  let* n := get in
  (if raw_pcbs n =? pcb then
     let* r := get_raw (raw_pcbs n) in
     modify (fun n => n <| raw_pcbs := raw_next r |>)
   else
     let* pcb2 := (fun n => raw_find (raw_fuel n) (fun _ r => negb (raw_next r =? 0) && (raw_next r =? pcb)) (raw_pcbs n) n) in
     if pcb2 =? 0 then ret tt else
     let* r := get_raw pcb in
     upd_raw pcb2 (fun r2 => r2 <| raw_next := raw_next r |>)) ;;;
  memp_free_raw pcb.

(** All bytes zero, but for the protocol, the [ttl] and the link. *)
Definition raw_pcb_new (proto next : Z) : raw_pcb :=
  mkRaw IP4_ADDR_ANY IP4_ADDR_ANY 0 0 0 RAW_TTL next proto 0 0 0 0 0.

Definition raw_new (proto : Z) : M net Z :=
  let* pcb := lift (memp_malloc MEMP_RAW_PCB_SIZE) in
  if negb (pcb =? 0) then
    let* n := get in
    modify (fun n => n <| n_raws := <[pcb := raw_pcb_new proto (raw_pcbs n)]> (n_raws n) |>) ;;;
    modify (fun n => n <| raw_pcbs := pcb |>) ;;;
    ret pcb
  else ret pcb.

Definition raw_new_ip_type (type proto : Z) : M net Z :=
  let* pcb := raw_new proto in
  (if negb (pcb =? 0) then
     upd_raw pcb (fun r => r <| raw_local_ip := mkIpAddr (u_addr (raw_local_ip r)) type |>) ;;;
     upd_raw pcb (fun r => r <| raw_remote_ip := mkIpAddr (u_addr (raw_remote_ip r)) type |>)
   else ret tt) ;;;
  ret pcb.

End RawAlloc.

(** An interface changed its address: control blocks bound to it follow. *)
Fixpoint raw_rebind_all (fuel : nat) (old_addr new_addr : ip_addr) (rpcb : Z) : M net unit :=
  match fuel with
  | O => fail OutOfFuel
  | S fuel =>
      if rpcb =? 0 then ret tt else
      let* r := get_raw rpcb in
      (if ip_addr_cmp (raw_local_ip r) old_addr
       then upd_raw rpcb (fun r => r <| raw_local_ip := ip_addr_copy new_addr |>) else ret tt) ;;;
      raw_rebind_all fuel old_addr new_addr (raw_next r)
  end.
Definition raw_netif_ip_addr_changed (old_addr new_addr : ip_addr) : M net unit := fun n =>
  if negb (ip_addr_isany_val old_addr) && negb (ip_addr_isany_val new_addr)
  then raw_rebind_all (raw_fuel n) old_addr new_addr (raw_pcbs n) n else Ok (tt, n).

Section RawIO.
Context `{Malloc} `{NetEnv}.

(** ** Input *)

Inductive raw_input_state := RAW_INPUT_NONE | RAW_INPUT_EATEN | RAW_INPUT_DELIVERED.

Definition raw_input_local_match (pcb : raw_pcb) (broadcast : bool) : M net bool :=
  let* n := get in
  let g := ip_data n in
  let* other := (if negb (raw_netif_idx pcb =? NETIF_NO_INDEX) then
                   let* nif := get_netif (current_input_netif g) in
                   ret (negb (raw_netif_idx pcb =? netif_get_index nif))
                 else ret false) in
  if other then ret false
  else if IP_IS_ANY_TYPE_VAL (raw_local_ip pcb) then ret true
  else if ip_type (raw_local_ip pcb) =? ip_type (current_iphdr_dest g) then
    if broadcast then ret (ip4_addr_isany_val (ip_2_ip4 (raw_local_ip pcb)))
    else ret (ip_addr_isany_val (raw_local_ip pcb) || ip_addr_cmp (raw_local_ip pcb) (current_iphdr_dest g))
  else ret false.

(** The packet was eaten: the control block moves to the front. *)
Definition raw_to_front (prev pcb : Z) : M net unit :=
  if negb (prev =? 0) then
    let* r := get_raw pcb in
    upd_raw prev (fun x => x <| raw_next := raw_next r |>) ;;;
    let* n := get in
    upd_raw pcb (fun x => x <| raw_next := raw_pcbs n |>) ;;;
    modify (fun n => n <| raw_pcbs := pcb |>)
  else ret tt.

Fixpoint raw_input_loop (fuel : nat) (p proto : Z) (broadcast : bool) (prev pcb : Z) (status : raw_input_state)
    : M net raw_input_state :=
  match fuel with
  | O => fail OutOfFuel
  | S fuel =>
      if pcb =? 0 then ret status else
      let* r := get_raw pcb in
      let* n := get in
      let* local := (if raw_protocol r =? proto then raw_input_local_match r broadcast else ret false) in
      let hit := local && (negb (has_flag (raw_flags r) RAW_FLAGS_CONNECTED) ||
                           ip_addr_cmp (raw_remote_ip r) (current_iphdr_src (ip_data n))) in
      let* eaten :=
        (if hit && negb (raw_recv_fn r =? 0) then
           let* b := lift (get_pbuf p) in
           let* eaten := raw_recv_call (raw_recv_fn r) (raw_recv_arg r) pcb p (current_iphdr_src (ip_data n)) in
           if negb (eaten =? 0) then ret true else
           let* b' := lift (get_pbuf p) in
           lwip_assert "raw pcb recv callback altered pbuf payload pointer without eating packet"
             (((pb_payload b').1 =? (pb_payload b).1) && ((pb_payload b').2 =? (pb_payload b).2)) ;;;
           ret false
         else ret false) in
      if eaten then raw_to_front prev pcb ;;; ret RAW_INPUT_EATEN
      else
        let status := if hit && negb (raw_recv_fn r =? 0) then RAW_INPUT_DELIVERED else status in
        let* r := get_raw pcb in
        raw_input_loop fuel p proto broadcast pcb (raw_next r) status
  end.

Definition raw_input (p inp : Z) : M net raw_input_state :=
  let* n := get in
  let g := ip_data n in
  let* broadcast := (if IP_IS_V6_VAL (current_iphdr_dest g) then ret false
                     else let* nif := get_netif (current_netif g) in
                          ret (ip_addr_isbroadcast (current_iphdr_dest g) nif)) in
  let* b := lift (get_pbuf p) in
  let* vhl := lift (hdr_read (pb_payload b) 0 1) in
  let* proto := lift (hdr_read (pb_payload b) (if Z.shiftr vhl 4 =? 6 then IP6_NEXTH_OFF else IPH_PROTO_OFF) 1) in
  raw_input_loop (raw_fuel n) p proto broadcast 0 (raw_pcbs n) RAW_INPUT_NONE.

(** ** Output *)

Definition RAW_PCB_VERSION_MATCH (r : raw_pcb) (a : ip_addr) : bool :=
  IP_IS_ANY_TYPE_VAL (raw_local_ip r) || (ip_type (raw_local_ip r) =? ip_type a).

(** Room for the IP header: in the packet or in an empty buffer in front. *)
Definition raw_make_room (p header_size : Z) : M heap (option Z) :=
  let* r := pbuf_add_header p header_size in
  if negb (r =? 0) then
    let* q := pbuf_alloc custom_free PBUF_IP 0 PBUF_RAM in
    if q =? 0 then ret None else
    let* b := get_pbuf p in
    (if negb (pb_tot_len b =? 0) then pbuf_chain q p else ret tt) ;;;
    ret (Some q)
  else
    let* r := pbuf_remove_header p header_size in
    lwip_assert "Can't restore header we just removed!" (r =? 0) ;;;
    ret (Some p).

Definition raw_sendto_if_src (pcb p : Z) (dst_ip : ip_addr) (nif : Z) (src_ip : ip_addr) : M net Z :=
  if (pcb =? 0) || (nif =? 0) then ret ERR_VAL else
  let* r := get_raw pcb in
  if negb (RAW_PCB_VERSION_MATCH r src_ip) || negb (RAW_PCB_VERSION_MATCH r dst_ip) then ret ERR_VAL else
  let header_size := if IP_IS_V6_VAL dst_ip then IP6_HLEN else IP_HLEN in
  let* b := lift (get_pbuf p) in
  if has_flag (raw_flags r) RAW_FLAGS_HDRINCL then
    if pb_len b <? header_size then ret ERR_VAL
    else ip_output_if_hdrincl p src_ip dst_ip nif
  else
  if u16_t (pb_tot_len b + header_size) <? pb_tot_len b then ret ERR_MEM else
  let* q := lift (raw_make_room p header_size) in
  match q with
  | None => ret ERR_MEM
  | Some q =>
      (if IP_IS_V6_VAL dst_ip && negb (raw_chksum_reqd r =? 0) then
         let* b := lift (get_pbuf p) in
         let* chksum := lift (ip6_chksum_pseudo block_base p (raw_protocol r) (pb_tot_len b) (ip_2_ip6 src_ip) (ip_2_ip6 dst_ip)) in
         lwip_assert "Checksum must fit into first pbuf" (raw_chksum_offset r + 2 <=? pb_len b) ;;;
         lift (hdr_write (pb_payload b) (raw_chksum_offset r) (le16 chksum))
       else ret tt) ;;;
      let* err := ip_output_if q src_ip dst_ip (raw_ttl r) (raw_tos r) (raw_protocol r) nif in
      (if negb (q =? p) then let* _ := lift (pbuf_free custom_free q) in ret tt else ret tt) ;;;
      ret err
  end.

Definition raw_sendto (pcb p : Z) (ipaddr : ip_addr) : M net Z :=
  if pcb =? 0 then ret ERR_VAL else
  let* r := get_raw pcb in
  if negb (RAW_PCB_VERSION_MATCH r ipaddr) then ret ERR_VAL else
  let* nif := (if negb (raw_netif_idx r =? NETIF_NO_INDEX) then netif_get_by_index (raw_netif_idx r)
               else ip_route (raw_local_ip r) ipaddr) in
  if nif =? 0 then ret ERR_RTE else
  let* src := (if ip_addr_isany_val (raw_local_ip r) || ip_addr_ismulticast (raw_local_ip r)
               then ip_netif_get_local_ip nif ipaddr else ret (Some (raw_local_ip r))) in
  match src with
  | None => ret ERR_RTE
  | Some src_ip => raw_sendto_if_src pcb p ipaddr nif src_ip
  end.

Definition raw_send (pcb p : Z) : M net Z :=
  let* r := get_raw pcb in raw_sendto pcb p (raw_remote_ip r).

End RawIO.
