(* ===== verification/Udp.v ===== *)
(** * UDP ([core/udp.c])

    The list of UDP control blocks with its operations, the input of a datagram and the
    way of one to the IP layer, in the configuration of the project: [TUN2SOCKS] is set
    (the first control block takes every datagram; the sender gives source address and
    port), UDP-Lite, [SO_REUSE], multicast options and checksum checks are off.  The
    checksums of received datagrams are not looked at ([CHECKSUM_CHECK_UDP] is 0). *)

From S2P Require Import Prelude Def IpAddr Pbuf InetChksum Net Netif IpOut.
From S2P Require Import OnesComplement.

(** ** Ports *)

Definition UDP_LOCAL_PORT_RANGE_START : Z := 49152.
Definition UDP_LOCAL_PORT_RANGE_END : Z := 65535.
Definition UDP_ENSURE_LOCAL_PORT_RANGE (port : Z) : Z :=
  u16_t (Z.land port (u16_t (Z.lnot UDP_LOCAL_PORT_RANGE_START)) + UDP_LOCAL_PORT_RANGE_START).

(** [udp_init]; [r] is the answer of [LWIP_RAND()]. *)
Definition udp_init (r : Z) : M net unit :=
  modify (fun n => n <| udp_port := UDP_ENSURE_LOCAL_PORT_RANGE r |>).

(** A walk over [udp_pcbs]: the first control block that passes the test. *)
Fixpoint udp_find (fuel : nat) (test : Z -> udp_pcb -> bool) (pcb : Z) : M net Z :=
  match fuel with
  | O => fail OutOfFuel
  | S fuel =>
      if pcb =? 0 then ret 0 else
      let* u := get_udp pcb in
      if test pcb u then ret pcb else udp_find fuel test (udp_next u)
  end.
Definition udp_search (test : Z -> udp_pcb -> bool) : M net Z := fun n =>
  udp_find (udp_fuel n) test (udp_pcbs n) n.

(** [again:] with the number of collisions so far. *)
Fixpoint udp_new_port_loop (fuel : nat) (n : Z) : M net Z :=
  match fuel with
  | O => fail OutOfFuel
  | S fuel =>
      modify (fun s => s <| udp_port := if udp_port s =? UDP_LOCAL_PORT_RANGE_END
                                        then UDP_LOCAL_PORT_RANGE_START else u16_t (udp_port s + 1) |>) ;;;
      let* s := get in
      let* pcb := udp_search (fun _ u => udp_local_port u =? udp_port s) in
      if pcb =? 0 then ret (udp_port s)
      else
        let n := u16_t (n + 1) in
        if UDP_LOCAL_PORT_RANGE_END - UDP_LOCAL_PORT_RANGE_START <? n then ret 0
        else udp_new_port_loop fuel n
  end.
Definition udp_new_port : M net Z :=
  udp_new_port_loop (Z.to_nat (UDP_LOCAL_PORT_RANGE_END - UDP_LOCAL_PORT_RANGE_START + 1)) 0.

(** ** Binding *)

(** The other control block already has the port, at the address or at all of them. *)
Definition udp_conflict (pcb : Z) (ipaddr : ip_addr) (port : Z) (ipcb : Z) (u : udp_pcb) : bool :=
  negb (pcb =? ipcb) && (udp_local_port u =? port) &&
  (ip_addr_cmp (udp_local_ip u) ipaddr || ip_addr_isany_val ipaddr || ip_addr_isany_val (udp_local_ip u)).

(** An address that lacks a zone gets one. *)
Definition udp_zoned (ipaddr src : ip_addr) : M net ip_addr :=
  if IP_IS_V6_VAL ipaddr && ip6_addr_lacks_zone (ip_2_ip6 ipaddr) IP6_UNKNOWN then
    let* a := ip6_addr_select_zone (ip_2_ip6 ipaddr) (ip_2_ip6 src) in
    ret (mkIpAddr a (ip_type ipaddr))
  else ret ipaddr.

Definition udp_bind (pcb : Z) (ipaddr : option ip_addr) (port : Z) : M net Z :=
  let ipaddr := match ipaddr with Some a => a | None => IP4_ADDR_ANY end in
  lwip_assert "udp_bind: invalid pcb" (negb (pcb =? 0)) ;;;
  let* found := udp_search (fun ipcb _ => pcb =? ipcb) in
  let rebind := negb (found =? 0) in
  let* ipaddr := udp_zoned ipaddr ipaddr in
  let* port := (if port =? 0 then udp_new_port
                else
                  let* c := udp_search (udp_conflict pcb ipaddr port) in
                  ret (if c =? 0 then port else 0)) in
  if port =? 0 then ret ERR_USE else
  upd_udp pcb (fun u => u <| udp_local_ip := ip_addr_set ipaddr |>) ;;;
  upd_udp pcb (fun u => u <| udp_local_port := port |>) ;;;
  (if negb rebind then
     let* n := get in
     upd_udp pcb (fun u => u <| udp_next := udp_pcbs n |>) ;;;
     modify (fun n => n <| udp_pcbs := pcb |>)
   else ret tt) ;;;
  ret ERR_OK.

Definition udp_bind_netif (pcb nif : Z) : M net unit :=
  if negb (nif =? 0) then
    let* n := get_netif nif in
    upd_udp pcb (fun u => u <| udp_netif_idx := netif_get_index n |>)
  else upd_udp pcb (fun u => u <| udp_netif_idx := NETIF_NO_INDEX |>).

Definition udp_connect (pcb : Z) (ipaddr : ip_addr) (port : Z) : M net Z :=
  lwip_assert "udp_connect: invalid pcb" (negb (pcb =? 0)) ;;;
  let* u := get_udp pcb in
  let* err := (if udp_local_port u =? 0 then udp_bind pcb (Some (udp_local_ip u)) (udp_local_port u)
               else ret ERR_OK) in
  if negb (err =? ERR_OK) then ret err else
  let* u := get_udp pcb in
  let* remote := udp_zoned (ip_addr_set ipaddr) (udp_local_ip u) in
  upd_udp pcb (fun u => u <| udp_remote_ip := remote |>) ;;;
  upd_udp pcb (fun u => u <| udp_remote_port := port |>) ;;;
  upd_udp pcb (fun u => u <| udp_flags := u8_t (Z.lor (udp_flags u) UDP_FLAGS_CONNECTED) |>) ;;;
  let* found := udp_search (fun ipcb _ => pcb =? ipcb) in
  (if found =? 0 then
     let* n := get in
     upd_udp pcb (fun u => u <| udp_next := udp_pcbs n |>) ;;;
     modify (fun n => n <| udp_pcbs := pcb |>)
   else ret tt) ;;;
  ret ERR_OK.

Definition udp_disconnect (pcb : Z) : M net unit :=
  lwip_assert "udp_disconnect: invalid pcb" (negb (pcb =? 0)) ;;;
  let* u := get_udp pcb in
  upd_udp pcb (fun u => u <| udp_remote_ip :=
    if IP_IS_ANY_TYPE_VAL (udp_local_ip u) then ip_addr_copy IP_ANY_TYPE
    else ip_addr_set_any (IP_IS_V6_VAL (udp_remote_ip u)) |>) ;;;
  upd_udp pcb (fun u => u <| udp_remote_port := 0 |>) ;;;
  upd_udp pcb (fun u => u <| udp_netif_idx := NETIF_NO_INDEX |>) ;;;
  upd_udp pcb (fun u => u <| udp_flags := Z.land (udp_flags u) (Z.land (u8_t (Z.lnot UDP_FLAGS_CONNECTED)) 255) |>).

Definition udp_recv (pcb recv recv_arg : Z) : M net unit :=
  lwip_assert "udp_recv: invalid pcb" (negb (pcb =? 0)) ;;;
  upd_udp pcb (fun u => u <| udp_recv_fn := recv |>) ;;;
  upd_udp pcb (fun u => u <| udp_recv_arg := recv_arg |>).

(** ** Creation and removal *)

Section UdpAlloc.
Context `{Malloc}.

Definition memp_free_udp (pcb : Z) : M net unit :=
  lift (memp_free pcb) ;;; modify (fun n => n <| n_udps := delete pcb (n_udps n) |>).

Definition udp_remove (pcb : Z) : M net unit :=
  lwip_assert "udp_remove: invalid pcb" (negb (pcb =? 0)) ;;;
  let* n := get in
  (if udp_pcbs n =? pcb then
     let* u := get_udp pcb in
     modify (fun n => n <| udp_pcbs := udp_next u |>)
   else
     let* pcb2 := udp_search (fun _ u => negb (udp_next u =? 0) && (udp_next u =? pcb)) in
     if pcb2 =? 0 then ret tt else
     let* u := get_udp pcb in
     upd_udp pcb2 (fun u2 => u2 <| udp_next := udp_next u |>)) ;;;
  memp_free_udp pcb.

(** All bytes zero, [ttl] set. *)
Definition udp_pcb_new : udp_pcb :=
  mkUdp IP4_ADDR_ANY IP4_ADDR_ANY 0 0 0 UDP_TTL 0 0 0 0 0 0.

Definition udp_new : M net Z :=
  let* pcb := lift (memp_malloc MEMP_UDP_PCB_SIZE) in
  if pcb =? 0 then ret 0 else
  modify (fun n => n <| n_udps := <[pcb := udp_pcb_new]> (n_udps n) |>) ;;;
  ret pcb.

Definition udp_new_ip_type (type : Z) : M net Z :=
  let* pcb := udp_new in
  if pcb =? 0 then ret 0 else
  upd_udp pcb (fun u => u <| udp_local_ip := mkIpAddr (u_addr (udp_local_ip u)) type |>) ;;;
  upd_udp pcb (fun u => u <| udp_remote_ip := mkIpAddr (u_addr (udp_remote_ip u)) type |>) ;;;
  ret pcb.

End UdpAlloc.

(** An interface changed its address: control blocks bound to it follow. *)
Fixpoint udp_rebind_all (fuel : nat) (old_addr new_addr : ip_addr) (upcb : Z) : M net unit :=
  match fuel with
  | O => fail OutOfFuel
  | S fuel =>
      if upcb =? 0 then ret tt else
      let* u := get_udp upcb in
      (if ip_addr_cmp (udp_local_ip u) old_addr
       then upd_udp upcb (fun u => u <| udp_local_ip := ip_addr_copy new_addr |>) else ret tt) ;;;
      udp_rebind_all fuel old_addr new_addr (udp_next u)
  end.
Definition udp_netif_ip_addr_changed (old_addr new_addr : ip_addr) : M net unit := fun n =>
  if negb (ip_addr_isany_val old_addr) && negb (ip_addr_isany_val new_addr)
  then udp_rebind_all (udp_fuel n) old_addr new_addr (udp_pcbs n) n else Ok (tt, n).

(** * UDP datagrams in and out ([core/udp.c], continued) *)

(** [struct udp_hdr] ([prot/udp.h]). *)
Definition UDPH_SRC_OFF : Z := 0.
Definition UDPH_DEST_OFF : Z := 2.
Definition UDPH_LEN_OFF : Z := 4.
Definition UDPH_CHKSUM_OFF : Z := 6.

Section UdpIO.
Context `{Malloc} `{NetEnv}.

(** ** Input *)

(** With [TUN2SOCKS] the loop over the control blocks stops at the first one. *)
Definition udp_input (p inp : Z) : M net unit :=
  lwip_assert "udp_input: invalid pbuf" (negb (p =? 0)) ;;;
  lwip_assert "udp_input: invalid netif" (negb (inp =? 0)) ;;;
  let* b := lift (get_pbuf p) in
  if pb_len b <? UDP_HLEN then let* _ := lift (pbuf_free custom_free p) in ret tt else
  let* n := get in
  let g := ip_data n in
  let is_v6 := negb ((current_ip6_header g).1 =? 0) in
  let* broadcast := (if IP_IS_V6_VAL (current_iphdr_dest g) then ret false
                     else let* nif := get_netif (current_netif g) in
                          ret (ip_addr_isbroadcast (current_iphdr_dest g) nif)) in
  let* src := lift (hdr_read (pb_payload b) UDPH_SRC_OFF 2) in
  let* dest := lift (hdr_read (pb_payload b) UDPH_DEST_OFF 2) in
  let src := lwip_ntohs src in
  let dest := lwip_ntohs dest in
  let pcb := udp_pcbs n in
  let* for_us :=
    (if negb (pcb =? 0) then ret true
     else if is_v6 then
       let* i := netif_get_ip6_addr_match inp (ip_2_ip6 (current_iphdr_dest g)) in ret (0 <=? i)
     else
       let* nif := get_netif inp in ret (netif_ip4_addr nif =? ip_2_ip4 (current_iphdr_dest g))) in
  if for_us then
    let* r := lift (pbuf_remove_header p UDP_HLEN) in
    lwip_assert "pbuf_remove_header failed" (r =? 0) ;;;
    if negb (pcb =? 0) then
      let* u := get_udp pcb in
      if negb (udp_recv_fn u =? 0) then
        udp_recv_call (udp_recv_fn u) (udp_recv_arg u) pcb p
          (current_iphdr_src g) src (current_iphdr_dest g) dest
      else let* _ := lift (pbuf_free custom_free p) in ret tt
    else
      (if negb broadcast && negb (ip_addr_ismulticast (current_iphdr_dest g)) then
         let* _ := lift (pbuf_header_force p (s16_t (current_ip_header_tot_len g + UDP_HLEN))) in
         icmp_port_unreach is_v6 p
       else ret tt) ;;;
      let* _ := lift (pbuf_free custom_free p) in ret tt
  else let* _ := lift (pbuf_free custom_free p) in ret tt.

(** ** Output *)

Definition IP_ADDR_PCB_VERSION_MATCH (u : udp_pcb) (a : ip_addr) : bool :=
  IP_IS_ANY_TYPE_VAL (udp_local_ip u) || (ip_type (udp_local_ip u) =? ip_type a).

(** The header in the packet, or in a buffer of its own chained in front of it. *)
Definition udp_add_header (p tot_len : Z) : M heap Z :=
  let* r := pbuf_add_header p UDP_HLEN in
  if negb (r =? 0) then
    let* q := pbuf_alloc custom_free PBUF_IP UDP_HLEN PBUF_RAM in
    if q =? 0 then ret 0 else
    (if negb (tot_len =? 0) then pbuf_chain q p else ret tt) ;;;
    ret q
  else ret p.

(** The checksum field: [have_chksum] says that [chksum] is the sum of the data. *)
Definition udp_checksum (q tot_len : Z) (have_chksum : bool) (chksum : Z) (src_ip dst_ip : ip_addr) : M heap Z :=
  let* udpchksum :=
    (if have_chksum then
       let* c := ip_chksum_pseudo_partial block_base q IP_PROTO_UDP tot_len UDP_HLEN src_ip dst_ip in
       let acc := u32_t (c + u16_t (Z.lnot chksum)) in
       ret (u16_t (FOLD_U32T acc))
     else ip_chksum_pseudo block_base q IP_PROTO_UDP tot_len src_ip dst_ip) in
  ret (if udpchksum =? 0 then 65535 else udpchksum).

Definition udp_write_header (q : Z) (nochksum have_chksum : bool) (chksum : Z)
    (src_ip : ip_addr) (src_port : Z) (dst_ip : ip_addr) (dst_port : Z) : M heap unit :=
  let* qb := get_pbuf q in
  lwip_assert "check that first pbuf can hold struct udp_hdr" (UDP_HLEN <=? pb_len qb) ;;;
  let udphdr := pb_payload qb in
  hdr_write udphdr UDPH_SRC_OFF (le16 (lwip_htons src_port)) ;;;
  hdr_write udphdr UDPH_DEST_OFF (le16 (lwip_htons dst_port)) ;;;
  hdr_write udphdr UDPH_CHKSUM_OFF (le16 0) ;;;
  hdr_write udphdr UDPH_LEN_OFF (le16 (lwip_htons (pb_tot_len qb))) ;;;
  if IP_IS_V6_VAL dst_ip || negb nochksum then
    let* c := udp_checksum q (pb_tot_len qb) have_chksum chksum src_ip dst_ip in
    hdr_write udphdr UDPH_CHKSUM_OFF (le16 c)
  else ret tt.

Definition udp_sendto_if_src_chksum (pcb p : Z) (dst_ip : ip_addr) (dst_port nif : Z)
    (have_chksum : bool) (chksum : Z) (src_ip : ip_addr) (src_port : Z) : M net Z :=
  lwip_assert "udp_sendto_if_src: invalid pcb" (negb (pcb =? 0)) ;;;
  lwip_assert "udp_sendto_if_src: invalid pbuf" (negb (p =? 0)) ;;;
  lwip_assert "udp_sendto_if_src: invalid netif" (negb (nif =? 0)) ;;;
  let* u := get_udp pcb in
  if negb (IP_ADDR_PCB_VERSION_MATCH u src_ip) || negb (IP_ADDR_PCB_VERSION_MATCH u dst_ip) then ret ERR_VAL else
  let* err := (if udp_local_port u =? 0 then udp_bind pcb (Some (udp_local_ip u)) (udp_local_port u)
               else ret ERR_OK) in
  if negb (err =? ERR_OK) then ret err else
  let* b := lift (get_pbuf p) in
  if u16_t (pb_tot_len b + UDP_HLEN) <? pb_tot_len b then ret ERR_MEM else
  let* q := lift (udp_add_header p (pb_tot_len b)) in
  if q =? 0 then ret ERR_MEM else
  lift (udp_write_header q (has_flag (udp_flags u) UDP_FLAGS_NOCHKSUM) have_chksum chksum
          src_ip src_port dst_ip dst_port) ;;;
  let* err := ip_output_if_src q src_ip dst_ip (udp_ttl u) (udp_tos u) IP_PROTO_UDP nif in
  (if negb (q =? p) then let* _ := lift (pbuf_free custom_free q) in ret tt else ret tt) ;;;
  ret err.

Definition udp_sendto_if_src (pcb p : Z) (dst_ip : ip_addr) (dst_port nif : Z) (src_ip : ip_addr) (src_port : Z) : M net Z :=
  udp_sendto_if_src_chksum pcb p dst_ip dst_port nif false 0 src_ip src_port.

Definition udp_sendto_if_chksum (pcb p : Z) (dst_ip : ip_addr) (dst_port nif : Z)
    (have_chksum : bool) (chksum : Z) (src_ip : ip_addr) (src_port : Z) : M net Z :=
  lwip_assert "udp_sendto_if: invalid pcb" (negb (pcb =? 0)) ;;;
  lwip_assert "udp_sendto_if: invalid pbuf" (negb (p =? 0)) ;;;
  lwip_assert "udp_sendto_if: invalid netif" (negb (nif =? 0)) ;;;
  let* u := get_udp pcb in
  if negb (IP_ADDR_PCB_VERSION_MATCH u dst_ip) then ret ERR_VAL else
  udp_sendto_if_src_chksum pcb p dst_ip dst_port nif have_chksum chksum src_ip src_port.

Definition udp_sendto_if (pcb p : Z) (dst_ip : ip_addr) (dst_port nif : Z) (src_ip : ip_addr) (src_port : Z) : M net Z :=
  udp_sendto_if_chksum pcb p dst_ip dst_port nif false 0 src_ip src_port.

Definition udp_sendto_chksum (pcb p : Z) (dst_ip : ip_addr) (dst_port : Z)
    (have_chksum : bool) (chksum : Z) (src_ip : ip_addr) (src_port : Z) : M net Z :=
  lwip_assert "udp_sendto: invalid pcb" (negb (pcb =? 0)) ;;;
  lwip_assert "udp_sendto: invalid pbuf" (negb (p =? 0)) ;;;
  let* u := get_udp pcb in
  if negb (IP_ADDR_PCB_VERSION_MATCH u dst_ip) then ret ERR_VAL else
  let* nif := (if negb (udp_netif_idx u =? NETIF_NO_INDEX) then netif_get_by_index (udp_netif_idx u)
               else ip_route (udp_local_ip u) dst_ip) in
  if nif =? 0 then ret ERR_RTE else
  udp_sendto_if_chksum pcb p dst_ip dst_port nif have_chksum chksum src_ip src_port.

Definition udp_sendto (pcb p : Z) (dst_ip : ip_addr) (dst_port : Z) (src_ip : ip_addr) (src_port : Z) : M net Z :=
  udp_sendto_chksum pcb p dst_ip dst_port false 0 src_ip src_port.

(** [TUN2SOCKS]: nothing is sent. *)
Definition udp_send (pcb p : Z) : M net Z :=
  lwip_assert "udp_send: invalid pcb" (negb (pcb =? 0)) ;;;
  lwip_assert "udp_send: invalid pbuf" (negb (p =? 0)) ;;;
  let* u := get_udp pcb in
  if IP_IS_ANY_TYPE_VAL (udp_remote_ip u) then ret ERR_VAL else ret ERR_OK.
Definition udp_send_chksum (pcb p : Z) (have_chksum : bool) (chksum : Z) : M net Z :=
  lwip_assert "udp_send_chksum: invalid pcb" (negb (pcb =? 0)) ;;;
  lwip_assert "udp_send_chksum: invalid pbuf" (negb (p =? 0)) ;;;
  let* u := get_udp pcb in
  if IP_IS_ANY_TYPE_VAL (udp_remote_ip u) then ret ERR_VAL else ret ERR_OK.

End UdpIO.
