(* ===== verification/IpIn.v ===== *)
(** * IPv4 input ([core/ipv4/ip4.c], [core/ipv4/icmp.c])

    A packet from the interface: the checks of its header, the offer to the raw control
    blocks, and the dispatch to UDP, TCP or ICMP.  With [TUN2SOCKS] every unicast packet is
    accepted; header checksums of received packets are not looked at ([CHECKSUM_CHECK_IP]
    and [CHECKSUM_CHECK_ICMP] are 0).  Echo requests are answered. *)

From S2P Require Import Prelude Def IpAddr Pbuf InetChksum Net Netif IpOut.
From S2P Require Import Udp Ip6Src Raw.

Section IpIn.
Context `{Malloc} `{NetEnv}.

Definition drop (p : Z) : M net unit := let* _ := lift (pbuf_free custom_free p) in ret tt.

(** ** ICMP *)

Definition ICMP_ER : Z := 0.
Definition ICMP_ECHO : Z := 8.
Definition ICMP_ECHO_HLEN : Z := 8.
Definition PBUF_LINK_HLEN : Z := 14.
Definition ICMPH_TYPE_OFF : Z := 0.
Definition ICMPH_CHKSUM_OFF : Z := 2.

(** The packet with room for a link header: itself, or a copy ([None] after [goto icmperr],
    when the packet has not been freed). *)
Definition icmp_make_room (p hlen : Z) (iphdr_in : Z * Z) : M heap (option Z) :=
  let* r := pbuf_add_header p (hlen + PBUF_LINK_HLEN) in
  if negb (r =? 0) then
    let* b := get_pbuf p in
    let alloc_len := u16_t (pb_tot_len b + hlen) in
    if alloc_len <? pb_tot_len b then ret None else
    let* r := pbuf_alloc custom_free PBUF_LINK alloc_len PBUF_RAM in
    if r =? 0 then ret None else
    let* rb := get_pbuf r in
    if pb_len rb <? hlen + ICMP_ECHO_HLEN then let* _ := pbuf_free custom_free r in ret None else
    let* hdr := mem_read iphdr_in hlen in
    mem_write (pb_payload rb) hdr ;;;
    let* e := pbuf_remove_header r hlen in
    lwip_assert "icmp_input: moving r->payload to icmp header failed" (e =? 0) ;;;
    let* e := pbuf_copy r p in
    if negb (e =? ERR_OK) then let* _ := pbuf_free custom_free r in ret None else
    let* _ := pbuf_free custom_free p in
    ret (Some r)
  else
    let* e := pbuf_remove_header p (hlen + PBUF_LINK_HLEN) in
    lwip_assert "icmp_input: restoring original p->payload failed" (e =? 0) ;;;
    ret (Some p).

(** The echo request becomes the reply: addresses, type, checksums, time to live. *)
Definition icmp_echo_reply (iphdr iecho : Z * Z) (hlen : Z) (src dest : ip4_addr) : M heap unit :=
  hdr_write iphdr IPH_SRC_OFF (le32 src) ;;;
  hdr_write iphdr IPH_DEST_OFF (le32 dest) ;;;
  hdr_write iecho ICMPH_TYPE_OFF [ICMP_ER] ;;;
  let* chksum := hdr_read iecho ICMPH_CHKSUM_OFF 2 in
  hdr_write iecho ICMPH_CHKSUM_OFF
    (le16 (if PP_HTONS (65535 - Z.shiftl ICMP_ECHO 8) <? chksum
           then u16_t (chksum + PP_HTONS (u16_t (Z.shiftl ICMP_ECHO 8)) + 1)
           else u16_t (chksum + PP_HTONS (Z.shiftl ICMP_ECHO 8)))) ;;;
  hdr_write iphdr IPH_TTL_OFF [ICMP_TTL] ;;;
  hdr_write iphdr IPH_CHKSUM_OFF (le16 0) ;;;
  let* hdr := mem_read iphdr hlen in
  hdr_write iphdr IPH_CHKSUM_OFF (le16 (inet_chksum (address block_base iphdr) hdr)).

Definition icmp_echo (p inp hlen : Z) (iphdr_in : Z * Z) : M net unit :=
  let* n := get in
  let g := ip_data n in
  let src := ip_2_ip4 (current_iphdr_dest g) in
  if ip4_addr_ismulticast src then drop p else
  let* nif := get_netif (current_netif g) in
  if ip4_addr_isbroadcast src nif then drop p else
  let* b := lift (get_pbuf p) in
  if pb_tot_len b <? ICMP_ECHO_HLEN then drop p else
  let* r := lift (icmp_make_room p hlen iphdr_in) in
  match r with
  | None => drop p
  | Some p =>
      let* b := lift (get_pbuf p) in
      let iecho := pb_payload b in
      let* e := lift (pbuf_add_header p hlen) in
      (if negb (e =? 0) then ret tt
       else
         let* b := lift (get_pbuf p) in
         lift (icmp_echo_reply (pb_payload b) iecho hlen src (ip_2_ip4 (current_iphdr_src g))) ;;;
         let* _ := ip4_output_if p (Some src) None ICMP_TTL 0 IP_PROTO_ICMP inp in ret tt) ;;;
      drop p
  end.

Definition icmp_input (p inp : Z) : M net unit :=
  let* n := get in
  let iphdr_in := current_ip4_header (ip_data n) in
  let* vhl := lift (hdr_read iphdr_in IPH_VHL_OFF 1) in
  let hlen := IPH_HL_BYTES vhl in
  if hlen <? IP_HLEN then drop p else
  let* b := lift (get_pbuf p) in
  if pb_len b <? 4 then drop p else
  let* type := lift (hdr_read (pb_payload b) ICMPH_TYPE_OFF 1) in
  if type =? ICMP_ECHO then icmp_echo p inp hlen iphdr_in else drop p.

(** ** [ip4_input] *)

Definition ip4_input_accept (nif : Z) : bool := true.

(** The interface the packet is for, or [NULL]. *)
Definition ip4_input_netif (inp : Z) (dest : ip4_addr) : M net Z :=
  if ip4_addr_ismulticast dest then
    let* n := get_netif inp in
    ret (if netif_is_up n && negb (ip4_addr_isany_val (netif_ip4_addr n)) then inp else 0)
  else ret (if ip4_input_accept inp then inp else 0).

Definition upd_ip_data (f : ip_globals -> ip_globals) : M net unit :=
  modify (fun n => n <| ip_data := f (ip_data n) |>).

(** [switch (IPH_PROTO(iphdr))] *)
Definition ip4_deliver (p inp nif iphdr_hlen proto : Z) (raw_status : raw_input_state) : M net unit :=
  if proto =? IP_PROTO_UDP then udp_input p inp
  else if proto =? IP_PROTO_TCP then tcp_input p inp
  else if proto =? IP_PROTO_ICMP then icmp_input p inp
  else
    (match raw_status with
     | RAW_INPUT_DELIVERED => ret tt
     | _ =>
         let* n := get in
         let dest := ip_2_ip4 (current_iphdr_dest (ip_data n)) in
         let* x := get_netif nif in
         if negb (ip4_addr_isbroadcast dest x) && negb (ip4_addr_ismulticast dest) then
           let* _ := lift (pbuf_header_force p (s16_t iphdr_hlen)) in
           icmp_dest_unreach p ICMP_DUR_PROTO
         else ret tt
     end) ;;;
    drop p.

Definition ip4_set_any (a : ip_addr) : ip_addr :=
  mkIpAddr (mkIp6 IPADDR_ANY (ip6_w1 (u_addr a)) (ip6_w2 (u_addr a)) (ip6_w3 (u_addr a)) (ip6_zone (u_addr a))) (ip_type a).

(** From "send to upper layers" on. *)
Definition ip4_input_deliver (p inp nif iphdr_hlen : Z) (iphdr : Z * Z) : M net Z :=
  upd_ip_data (fun g => g <| current_netif := nif |>) ;;;
  upd_ip_data (fun g => g <| current_input_netif := inp |>) ;;;
  upd_ip_data (fun g => g <| current_ip4_header := iphdr |>) ;;;
  let* vhl := lift (hdr_read iphdr IPH_VHL_OFF 1) in
  upd_ip_data (fun g => g <| current_ip_header_tot_len := IPH_HL_BYTES vhl |>) ;;;
  let* raw_status := raw_input p inp in
  (match raw_status with
   | RAW_INPUT_EATEN => ret tt
   | _ =>
       let* _ := lift (pbuf_remove_header p iphdr_hlen) in
       let* proto := lift (hdr_read iphdr IPH_PROTO_OFF 1) in
       ip4_deliver p inp nif iphdr_hlen proto raw_status
   end) ;;;
  upd_ip_data (fun g => g <| current_netif := 0 |> <| current_input_netif := 0 |>
    <| current_ip4_header := (0, 0) |> <| current_ip_header_tot_len := 0 |>
    <| current_iphdr_src := ip4_set_any (current_iphdr_src g) |>
    <| current_iphdr_dest := ip4_set_any (current_iphdr_dest g) |>) ;;;
  ret ERR_OK.

Definition ip4_input (p inp : Z) : M net Z :=
  let* b := lift (get_pbuf p) in
  let iphdr := pb_payload b in
  let* vhl := lift (hdr_read iphdr IPH_VHL_OFF 1) in
  if negb (IPH_V vhl =? 4) then drop p ;;; ret ERR_OK else
  let iphdr_hlen := IPH_HL_BYTES vhl in
  let* len := lift (hdr_read iphdr IPH_LEN_OFF 2) in
  let iphdr_len := lwip_ntohs len in
  (if iphdr_len <? pb_tot_len b then lift (pbuf_realloc custom_free p iphdr_len) else ret tt) ;;;
  let* b := lift (get_pbuf p) in
  if (pb_len b <? iphdr_hlen) || (pb_tot_len b <? iphdr_len) || (iphdr_hlen <? IP_HLEN)
  then drop p ;;; ret ERR_OK else
  let* dest := lift (hdr_read iphdr IPH_DEST_OFF 4) in
  upd_ip_data (fun g => g <| current_iphdr_dest := ip_addr_copy_from_ip4 dest |>) ;;;
  let* src := lift (hdr_read iphdr IPH_SRC_OFF 4) in
  upd_ip_data (fun g => g <| current_iphdr_src := ip_addr_copy_from_ip4 src |>) ;;;
  let* nif := ip4_input_netif inp dest in
  let* x := get_netif inp in
  if ip4_addr_isbroadcast src x || ip4_addr_ismulticast src then drop p ;;; ret ERR_OK else
  if nif =? 0 then drop p ;;; ret ERR_OK else
  let* off := lift (hdr_read iphdr IPH_OFFSET_OFF 2) in
  if negb (Z.land off (PP_HTONS (Z.lor IP_OFFMASK IP_MF)) =? 0) then
    let* p := ip4_reass p in
    if p =? 0 then ret ERR_OK else
    let* b := lift (get_pbuf p) in
    ip4_input_deliver p inp nif iphdr_hlen (pb_payload b)
  else ip4_input_deliver p inp nif iphdr_hlen iphdr.

End IpIn.
