(* ===== verification/Ip6In.v ===== *)
(** * IPv6 input ([core/ipv6/ip6.c], [core/ip.c])

    [ip6_input] checks the header, skips the extension headers one after the other, and
    hands the packet to the raw control blocks and to UDP, TCP or ICMPv6.  A header is
    looked at where it lies, through pointers into the packet ([nexth], [ip6hdr]). *)

From S2P Require Import Prelude Def IpAddr Pbuf InetChksum Net Netif IpOut.
From S2P Require Import Udp Ip6Src Raw IpIn.

Definition IP6_NEXTH_HOPBYHOP : Z := 0.
Definition IP6_NEXTH_ROUTING : Z := 43.
Definition IP6_NEXTH_FRAGMENT : Z := 44.
Definition IP6_NEXTH_ICMP6 : Z := 58.
Definition IP6_NEXTH_NONE : Z := 59.
Definition IP6_NEXTH_DESTOPTS : Z := 60.
Definition IP6_PAD1_OPTION : Z := 0.
Definition IP6_PADN_OPTION : Z := 1.
Definition IP6_ROUTER_ALERT_OPTION : Z := 5.
Definition IP6_JUMBO_OPTION : Z := 194.
Definition IP6_HOME_ADDRESS_OPTION : Z := 201.
Definition IP6_OPT_HLEN : Z := 2.
Definition IP6_HBH_HLEN : Z := 2.
Definition IP6_DEST_HLEN : Z := 2.
Definition IP6_FRAG_HLEN : Z := 8.
Definition IP6_ROUT_TYPE2 : Z := 2.
Definition IP6_ROUT_RPL : Z := 3.
Definition IP6_FRAG_OFFSET_MASK : Z := 65528.
Definition IP6_FRAG_MORE_FLAG : Z := 1.
Definition ICMP6_PP_FIELD : Z := 0.
Definition ICMP6_PP_HEADER : Z := 1.
Definition ICMP6_PP_OPTION : Z := 2.

Section Ip6In.
Context `{Malloc} `{NetEnv}.

(** ** Options of the Hop-by-Hop and Destination headers *)

(** The options both headers know; the Destination header knows one more. *)
Definition ip6_opt_known (destopts : bool) (type : Z) : bool :=
  (type =? IP6_PADN_OPTION) || (type =? IP6_ROUTER_ALERT_OPTION) || (type =? IP6_JUMBO_OPTION) ||
  (destopts && (type =? IP6_HOME_ADDRESS_OPTION)).

(** [while (opt_offset < hlen)]; the answer says whether the packet lives on. *)
Fixpoint ip6_options (fuel : nat) (destopts : bool) (p : Z) (hdr : Z * Z) (hlen opt_offset : Z) : M net bool :=
  match fuel with
  | O => fail OutOfFuel
  | S fuel =>
      if hlen <=? opt_offset then ret true else
      let opt_hdr := ptr_add hdr opt_offset in
      let* type := lift (hdr_read opt_hdr 0 1) in
      if type =? IP6_PAD1_OPTION then
        ip6_options fuel destopts p hdr hlen (opt_offset + IP6_OPT_HLEN + -1)
      else
        let action := if ip6_opt_known destopts type then 0 else Z.land (Z.shiftr type 6) 3 in
        if action =? 1 then drop p ;;; ret false
        else if action =? 2 then icmp6_param_problem p ICMP6_PP_OPTION opt_hdr ;;; drop p ;;; ret false
        else if action =? 3 then
          let* n := get in
          (if negb (ip6_addr_ismulticast (ip_2_ip6 (current_iphdr_dest (ip_data n))))
           then icmp6_param_problem p ICMP6_PP_OPTION opt_hdr else ret tt) ;;;
          drop p ;;; ret false
        else
          let* opt_dlen := lift (hdr_read opt_hdr 1 1) in
          ip6_options fuel destopts p hdr hlen (opt_offset + IP6_OPT_HLEN + opt_dlen)
  end.

(** ** Extension headers *)

(** Where the walk over the headers stands: the packet, its IPv6 header, the pointer to
    the current next-header byte, and the bytes taken off so far.  [None] is
    [goto ip6_input_cleanup]. *)
Record ip6_walk := mkWalk { w_p : Z; w_ip6hdr : Z * Z; w_nexth : Z * Z; w_hlen_tot : Z }.

(** The header does not fit in the first buffer. *)
Definition ip6_ext_len (p : Z) (hdr : Z * Z) : M net (option Z) :=
  let* l := lift (hdr_read hdr 1 1) in
  let hlen := u16_t (8 * (1 + l)) in
  let* b := lift (get_pbuf p) in
  if (pb_len b <? 8) || (pb_len b <? hlen) then drop p ;;; ret None else ret (Some hlen).

Definition ip6_options_header (destopts : bool) (w : ip6_walk) : M net (option ip6_walk) :=
  let p := w_p w in
  let* b := lift (get_pbuf p) in
  let hdr := pb_payload b in
  let* hlen := ip6_ext_len p hdr in
  match hlen with
  | None => ret None
  | Some hlen =>
      let* ok := ip6_options (S (Z.to_nat hlen)) destopts p hdr hlen (if destopts then IP6_DEST_HLEN else IP6_HBH_HLEN) in
      if negb ok then ret None else
      let* _ := lift (pbuf_remove_header p hlen) in
      ret (Some (mkWalk p (w_ip6hdr w) hdr (u16_t (w_hlen_tot w + hlen))))
  end.

Definition ip6_routing_header (w : ip6_walk) : M net (option ip6_walk) :=
  let p := w_p w in
  let* b := lift (get_pbuf p) in
  let hdr := pb_payload b in
  let* hlen := ip6_ext_len p hdr in
  match hlen with
  | None => ret None
  | Some hlen =>
      let* seg_left := lift (hdr_read hdr 3 1) in
      let* bad :=
        (if negb (seg_left =? 0) then
           let* l := lift (hdr_read hdr 1 1) in
           if negb (Z.land l 1 =? 0) then ret (Some (ptr_add hdr 1)) else
           let* type := lift (hdr_read hdr 2 1) in
           if (type =? IP6_ROUT_TYPE2) || (type =? IP6_ROUT_RPL) then ret None else ret (Some (ptr_add hdr 2))
         else ret None) in
      match bad with
      | Some field => icmp6_param_problem p ICMP6_PP_FIELD field ;;; drop p ;;; ret None
      | None =>
          let* _ := lift (pbuf_remove_header p hlen) in
          ret (Some (mkWalk p (w_ip6hdr w) hdr (u16_t (w_hlen_tot w + hlen))))
      end
  end.

Definition ip6_fragment_header (w : ip6_walk) : M net (option ip6_walk) :=
  let p := w_p w in
  let* b := lift (get_pbuf p) in
  let hdr := pb_payload b in
  let hlen := IP6_FRAG_HLEN in
  if pb_len b <? hlen then drop p ;;; ret None else
  let hlen_tot := u16_t (w_hlen_tot w + hlen) in
  let* off := lift (hdr_read hdr 2 2) in
  let* plen := lift (hdr_read (w_ip6hdr w) IP6_PLEN_OFF 2) in
  if negb (Z.land (lwip_ntohs off) 1 =? 0) && negb (Z.land (lwip_ntohs plen) 7 =? 0) then
    icmp6_param_problem p ICMP6_PP_FIELD (ptr_add (w_ip6hdr w) IP6_PLEN_OFF) ;;; drop p ;;; ret None
  else if Z.land off (PP_HTONS (Z.lor IP6_FRAG_OFFSET_MASK IP6_FRAG_MORE_FLAG)) =? 0 then
    let* _ := lift (pbuf_remove_header p hlen) in
    ret (Some (mkWalk p (w_ip6hdr w) hdr hlen_tot))
  else
    upd_ip_data (fun g => g <| current_ip_header_tot_len := hlen_tot |>) ;;;
    let* p := ip6_reass p in
    if p =? 0 then ret None else
    let* b := lift (get_pbuf p) in
    let ip6hdr := pb_payload b in
    let* _ := lift (pbuf_remove_header p IP6_HLEN) in
    ret (Some (mkWalk p ip6hdr (ptr_add ip6hdr IP6_NEXTH_OFF) IP6_HLEN)).

(** [while ( *nexth != IP6_NEXTH_NONE )] *)
Fixpoint ip6_headers (fuel : nat) (w : ip6_walk) : M net (option ip6_walk) :=
  match fuel with
  | O => fail OutOfFuel
  | S fuel =>
      let* nexth := lift (hdr_read (w_nexth w) 0 1) in
      if nexth =? IP6_NEXTH_NONE then ret (Some w) else
      let* step :=
        (if nexth =? IP6_NEXTH_HOPBYHOP then let* w := ip6_options_header false w in ret (Some w)
         else if nexth =? IP6_NEXTH_DESTOPTS then let* w := ip6_options_header true w in ret (Some w)
         else if nexth =? IP6_NEXTH_ROUTING then let* w := ip6_routing_header w in ret (Some w)
         else if nexth =? IP6_NEXTH_FRAGMENT then let* w := ip6_fragment_header w in ret (Some w)
         else ret None) in
      match step with
      | None => ret (Some w)        (* goto options_done *)
      | Some None => ret None
      | Some (Some w) =>
          let* nexth := lift (hdr_read (w_nexth w) 0 1) in
          if nexth =? IP6_NEXTH_HOPBYHOP then
            icmp6_param_problem (w_p w) ICMP6_PP_HEADER (w_nexth w) ;;; drop (w_p w) ;;; ret None
          else ip6_headers fuel w
      end
  end.

(** Every header takes 8 bytes of the packet at least, unless the packet is exchanged for
    the one that [ip6_reass] has put together. *)
Definition IP6_HEADERS_FUEL : nat := Z.to_nat 65536.

(** ** Delivery *)

(** [switch ( *nexth )] *)
Definition ip6_deliver (w : ip6_walk) (inp : Z) (raw_status : raw_input_state) : M net unit :=
  let p := w_p w in
  let* nexth := lift (hdr_read (w_nexth w) 0 1) in
  if nexth =? IP6_NEXTH_NONE then drop p
  else if nexth =? IP_PROTO_UDP then udp_input p inp
  else if nexth =? IP_PROTO_TCP then tcp_input p inp
  else if nexth =? IP6_NEXTH_ICMP6 then icmp6_input p inp
  else
    (match raw_status with
     | RAW_INPUT_DELIVERED => ret tt
     | _ =>
         let* _ := lift (pbuf_add_header_force p (w_hlen_tot w)) in
         let* n := get in
         let* first := lift (hdr_read (w_ip6hdr w) IP6_NEXTH_OFF 1) in
         if negb (ip6_addr_ismulticast (ip_2_ip6 (current_iphdr_dest (ip_data n)))) && negb (first =? IP6_NEXTH_ICMP6)
         then icmp6_param_problem p ICMP6_PP_HEADER (w_nexth w) else ret tt
     end) ;;;
    drop p.

Definition ip6_input_payload (w : ip6_walk) (inp : Z) : M net unit :=
  upd_ip_data (fun g => g <| current_ip_header_tot_len := w_hlen_tot w |>) ;;;
  let* _ := lift (pbuf_add_header_force (w_p w) (w_hlen_tot w)) in
  let* raw_status := raw_input (w_p w) inp in
  match raw_status with
  | RAW_INPUT_EATEN => ret tt
  | _ => let* _ := lift (pbuf_remove_header (w_p w) (w_hlen_tot w)) in ip6_deliver w inp raw_status
  end.

(** ** [ip6_input] *)

Definition ip6_input_accept (nif : Z) : bool := true.

(** The interface the packet is for, or [NULL]. *)
Definition ip6_input_netif (inp : Z) (dest : ip6_addr) : M net Z :=
  if ip6_addr_ismulticast dest then
    if ip6_addr_isallnodes_iflocal dest || ip6_addr_isallnodes_linklocal dest then ret inp
    else if ip6_addr_issolicitednode dest then
      let* n := get_netif inp in
      ret (if existsb (fun x => ip6_addr_isvalid x.2 && ip6_addr_cmp_solicitednode dest (ip_2_ip6 x.1)) (ip6_slots n)
           then inp else 0)
    else ret 0
  else ret (if ip6_input_accept inp then inp else 0).

Definition ip6_input_cleanup : M net unit :=
  upd_ip_data (fun g => g <| current_netif := 0 |> <| current_input_netif := 0 |>
    <| current_ip6_header := (0, 0) |> <| current_ip_header_tot_len := 0 |>
    <| current_iphdr_src := mkIpAddr ip6_any (ip_type (current_iphdr_src g)) |>
    <| current_iphdr_dest := mkIpAddr ip6_any (ip_type (current_iphdr_dest g)) |>).

(** From the check of the source address on. *)
Definition ip6_input_accepted (p inp nif : Z) (ip6hdr : Z * Z) : M net unit :=
  let* n := get in
  let src := ip_2_ip6 (current_iphdr_src (ip_data n)) in
  let dest := ip_2_ip6 (current_iphdr_dest (ip_data n)) in
  if ip6_addr_isany_val src && negb (ip6_addr_issolicitednode dest) then drop p else
  if nif =? 0 then drop p else
  upd_ip_data (fun g => g <| current_netif := nif |>) ;;;
  let* _ := lift (pbuf_remove_header p IP6_HLEN) in
  let* w := ip6_headers IP6_HEADERS_FUEL (mkWalk p ip6hdr (ptr_add ip6hdr IP6_NEXTH_OFF) IP6_HLEN) in
  match w with
  | None => ret tt
  | Some w => ip6_input_payload w inp
  end.

Definition ip6_input (p inp : Z) : M net Z :=
  let* b := lift (get_pbuf p) in
  let ip6hdr := pb_payload b in
  let* vtcfl := lift (hdr_read ip6hdr 0 4) in
  if negb (Z.land (Z.shiftr (lwip_ntohl vtcfl) 28) 15 =? 6) then drop p ;;; ret ERR_OK else
  let* pl := lift (hdr_read ip6hdr IP6_PLEN_OFF 2) in
  let plen := lwip_ntohs pl in
  if (pb_len b <? IP6_HLEN) || (pb_tot_len b - IP6_HLEN <? plen) then drop p ;;; ret ERR_OK else
  lift (pbuf_realloc custom_free p (u16_t (IP6_HLEN + plen))) ;;;
  let* dest := lift (read_ip6 ip6hdr IP6_DEST_OFF) in
  upd_ip_data (fun g => g <| current_iphdr_dest := ip_addr_copy_from_ip6 dest |>) ;;;
  let* src := lift (read_ip6 ip6hdr IP6_SRC_OFF) in
  upd_ip_data (fun g => g <| current_iphdr_src := ip_addr_copy_from_ip6 src |>) ;;;
  if ip6_addr_isipv4mappedipv6 dest || ip6_addr_isipv4mappedipv6 src || ip6_addr_ismulticast src
  then drop p ;;; ret ERR_OK else
  let* x := get_netif inp in
  upd_ip_data (fun g => g
    <| current_iphdr_dest := ip_addr_copy_from_ip6 (ip6_addr_assign_zone IP6_UNKNOWN x dest) |>
    <| current_iphdr_src := ip_addr_copy_from_ip6 (ip6_addr_assign_zone IP6_UNICAST x src) |>
    <| current_ip6_header := ip6hdr |>
    <| current_netif := inp |> <| current_input_netif := inp |>) ;;;
  let* nif := ip6_input_netif inp (ip6_addr_assign_zone IP6_UNKNOWN x dest) in
  ip6_input_accepted p inp nif ip6hdr ;;;
  ip6_input_cleanup ;;;
  ret ERR_OK.

(** ** [ip_input] ([core/ip.c]) *)

Definition ip_input (p inp : Z) : M net Z :=
  if negb (p =? 0) then
    let* b := lift (get_pbuf p) in
    let* v := lift (hdr_read (pb_payload b) 0 1) in
    if Z.shiftr v 4 =? 6 then ip6_input p inp else ip4_input p inp
  else ret ERR_VAL.

End Ip6In.
