(* ===== verification/UdpFacts.v ===== *)
(** * Theory of the UDP control blocks

    The list of control blocks as a list of addresses ([udp_list]), the allocation of
    ports, and the invariant of the module ([udp_inv]): the bound control blocks are
    those on the list, and no two of them claim the same port of the same address. *)

From S2P Require Import Prelude Def IpAddr Pbuf PbufAlloc Links Net Netif.
From S2P Require Import Udp.

Definition udp_list (n : net) (l : list Z) : Prop := links udp_next (n_udps n) (udp_pcbs n) l.

Lemma udp_find_spec fuel test p l n : links udp_next (n_udps n) p l -> (length l < fuel)%nat ->
  udp_find fuel test p n = Ok (first_of (n_udps n) test l, n).
Proof.
  revert p l. induction fuel as [|fuel IH]; intros p l Hl Hf; [lia|].
  destruct l as [|q l]; simpl in Hl.
  - by subst.
  - destruct Hl as (-> & H0 & x & Hx & Hl). simpl. destruct (Z.eqb_spec q 0); [done|].
    rewrite (bind_ok _ _ _ _ _ (get_udp_ok _ _ _ Hx)), Hx. destruct (test q x); [done|].
    apply IH; [done|]. simpl in Hf. lia.
Qed.

Lemma udp_search_spec test l n : udp_list n l ->
  udp_search test n = Ok (first_of (n_udps n) test l, n).
Proof.
  intros Hl. unfold udp_search. apply udp_find_spec; [done|].
  unfold udp_fuel. pose proof (links_length _ _ _ _ Hl). lia.
Qed.

(** ** Ports *)

Definition port_in_range (k : Z) : Prop := UDP_LOCAL_PORT_RANGE_START <= k <= UDP_LOCAL_PORT_RANGE_END.
Definition port_used (n : net) (l : list Z) (k : Z) : Prop :=
  exists q x, q ∈ l /\ n_udps n !! q = Some x /\ udp_local_port x = k.

(** The [i]-th port tried after [p]. *)
Definition port_at (p i : Z) : Z :=
  UDP_LOCAL_PORT_RANGE_START + (p - UDP_LOCAL_PORT_RANGE_START + i) mod 16384.

Lemma port_at_range p i : port_in_range (port_at p i).
Proof. unfold port_in_range, port_at, UDP_LOCAL_PORT_RANGE_START, UDP_LOCAL_PORT_RANGE_END. dlia. Qed.
Lemma port_at_0 p : port_in_range p -> port_at p 0 = p.
Proof. unfold port_in_range, port_at, UDP_LOCAL_PORT_RANGE_START, UDP_LOCAL_PORT_RANGE_END. dlia. Qed.
Lemma port_at_step p i : 
  (if port_at p i =? UDP_LOCAL_PORT_RANGE_END then UDP_LOCAL_PORT_RANGE_START else u16_t (port_at p i + 1)) = port_at p (i + 1).
Proof.
  unfold port_at, u16_t, UDP_LOCAL_PORT_RANGE_START, UDP_LOCAL_PORT_RANGE_END.
  destruct (Z.eqb_spec (49152 + (p - 49152 + i) mod 16384) 65535); dlia.
Qed.
Lemma port_at_cover p k : port_in_range k -> exists i, 1 <= i <= 16384 /\ port_at p i = k.
Proof.
  unfold port_in_range, port_at, UDP_LOCAL_PORT_RANGE_START, UDP_LOCAL_PORT_RANGE_END. intros Hk.
  exists ((k - p - 1) mod 16384 + 1). split; dlia.
Qed.

(** What the search for a port does: it tries the ports of the range in cyclic order and
    answers the first unused one, 0 if there is none. *)
Definition new_port_spec (n : net) (l : list Z) (r k : Z) : Prop :=
  port_in_range k /\
  ((r = k /\ ~ port_used n l k) \/ (r = 0 /\ forall k', port_in_range k' -> port_used n l k')).

Lemma udp_new_port_loop_spec fuel c n l p : udp_list n l -> udp_port n = port_at p c ->
  0 <= c -> c + Z.of_nat fuel = 16384 -> (0 < fuel)%nat -> (forall i, 1 <= i <= c -> port_used n l (port_at p i)) ->
  exists r i, c < i <= 16384 /\ udp_new_port_loop fuel c n = Ok (r, n <| udp_port := port_at p i |>) /\
    new_port_spec n l r (port_at p i) /\ (forall j, 1 <= j < i -> port_used n l (port_at p j)).
Proof.
  revert c n. induction fuel as [|fuel IH]; intros c n Hl Hp Hc Hs Hf Hu; [lia|].
  cbn [udp_new_port_loop]. unfold modify, bind at 1. rewrite Hp, port_at_step.
  set (n1 := n <| udp_port := port_at p (c + 1) |>).
  unfold get, bind at 1. change (udp_port n1) with (port_at p (c + 1)).
  assert (Hl1 : udp_list n1 l) by done.
  rewrite (bind_ok _ _ _ _ _ (udp_search_spec _ _ _ Hl1)). change (n_udps n1) with (n_udps n).
  destruct (first_of_cases udp_next (n_udps n) (fun _ u => udp_local_port u =? port_at p (c + 1)) _ _ Hl)
    as [(-> & Hno)|(q & x & l1 & l2 & -> & Hq & -> & Hx & Ht)].
  - exists (port_at p (c + 1)), (c + 1). rewrite Z.eqb_refl. split; [lia|]. split; [done|].
    split; [split; [apply port_at_range|]|].
    + left. split; [done|]. intros (q & x & Hin & Hx & Heq).
      specialize (Hno q x Hin Hx). simpl in Hno. lia.
    + intros j Hj. apply Hu. lia.
  - apply Z.eqb_eq in Ht. assert (Hused : port_used n (l1 ++ q :: l2) (port_at p (c + 1))).
    { exists q, x. split; [|done]. apply elem_of_app. right. by left. }
    assert (Hu' : forall i, 1 <= i <= c + 1 -> port_used n (l1 ++ q :: l2) (port_at p i)).
    { intros i Hi. destruct (decide (i = c + 1)) as [->|]; [done|]. apply Hu. lia. }
    destruct (Z.eqb_spec q 0); [done|]. cbv zeta. rewrite (u16_t_id (c + 1)) by lia.
    unfold UDP_LOCAL_PORT_RANGE_END, UDP_LOCAL_PORT_RANGE_START.
    destruct (Z.ltb_spec (65535 - 49152) (c + 1)) as [Hlt|Hge].
    + exists 0, (c + 1). split; [lia|]. split; [done|]. split; [split; [apply port_at_range|]|].
      * right. split; [done|]. intros k Hk. destruct (port_at_cover p k Hk) as (i & Hi & <-).
        apply Hu'. lia.
      * intros j Hj. apply Hu. lia.
    + destruct (IH (c + 1) n1 Hl1 eq_refl) as (r & i & Hi & Hr & Hsp & Hj); [lia..|exact Hu'|].
      exists r, i. split; [lia|]. by rewrite Hr.
Qed.

Lemma udp_new_port_run n l : udp_list n l -> port_in_range (udp_port n) ->
  exists r i, 1 <= i <= 16384 /\ udp_new_port n = Ok (r, n <| udp_port := port_at (udp_port n) i |>) /\
    new_port_spec n l r (port_at (udp_port n) i) /\ (forall j, 1 <= j < i -> port_used n l (port_at (udp_port n) j)).
Proof.
  intros Hl Hp. unfold udp_new_port.
  set (f := Z.to_nat (UDP_LOCAL_PORT_RANGE_END - UDP_LOCAL_PORT_RANGE_START + 1)).
  assert (Hf : Z.of_nat f = 16384) by (unfold f; rewrite Z2Nat.id; done).
  destruct (udp_new_port_loop_spec f 0 n l (udp_port n)) as (r & i & Hi & Hr); [done|by rewrite port_at_0|lia..| |].
  - intros i Hi. lia.
  - exists r, i. split; [lia|done].
Qed.

(** ** Addresses *)

Lemma ip_addr_cmp_sym a b : ip_addr_cmp a b = ip_addr_cmp b a.
Proof.
  unfold ip_addr_cmp, IP_IS_V6_VAL, ip6_addr_cmp, ip6_addr_cmp_zoneless, ip6_addr_cmp_zone.
  rewrite (Z.eqb_sym (ip_type b)). destruct (Z.eqb_spec (ip_type a) (ip_type b)) as [->|]; [|done]. simpl.
  rewrite (Z.eqb_sym (ip6_w0 (ip_2_ip6 b))), (Z.eqb_sym (ip6_w1 (ip_2_ip6 b))), (Z.eqb_sym (ip6_w2 (ip_2_ip6 b))),
    (Z.eqb_sym (ip6_w3 (ip_2_ip6 b))), (Z.eqb_sym (ip6_zone (ip_2_ip6 b))), (Z.eqb_sym (ip_2_ip4 b)). done.
Qed.
Lemma ip_addr_cmp_set a b : ip_addr_cmp a (ip_addr_set b) = ip_addr_cmp a b.
Proof.
  unfold ip_addr_set, ip_addr_copy, ip_addr_cmp, IP_IS_V6_VAL, ip_2_ip4, ip_2_ip6.
  destruct b as [b tb]. simpl. destruct (Z.eqb_spec tb IPADDR_TYPE_V6) as [->|]; simpl; [done|].
  destruct (Z.eqb_spec (ip_type a) tb) as [->|]; [|done]. simpl. by destruct (Z.eqb_spec tb IPADDR_TYPE_V6).
Qed.
Lemma ip_addr_isany_set b : ip_addr_isany_val (ip_addr_set b) = ip_addr_isany_val b.
Proof.
  unfold ip_addr_set, ip_addr_copy, ip_addr_isany_val, IP_IS_V6_VAL, ip_2_ip4, ip_2_ip6.
  destruct b as [b tb]. simpl. destruct (Z.eqb_spec tb IPADDR_TYPE_V6) as [->|]; simpl; [done|].
  by destruct (Z.eqb_spec tb IPADDR_TYPE_V6).
Qed.

(** The address with the zone of the first interface, where it needs one. *)
Definition zoned (n : net) (a : ip_addr) : ip_addr :=
  if IP_IS_V6_VAL a && ip6_addr_lacks_zone (ip_2_ip6 a) IP6_UNKNOWN then
    match n_netifs n !! netif_list n with
    | Some nif => mkIpAddr (ip6_addr_assign_zone IP6_UNKNOWN nif (ip_2_ip6 a)) (ip_type a)
    | None => a
    end
  else a.

Definition netif_list_ok (n : net) : Prop :=
  (netif_list n = 0 /\ n_netifs n !! 0 = None) \/ (netif_list n <> 0 /\ is_Some (n_netifs n !! netif_list n)).

Lemma udp_zoned_run n a src : netif_list_ok n -> udp_zoned a src n = Ok (zoned n a, n).
Proof.
  intros Hn. unfold udp_zoned, zoned. destruct (_ && _); [|done].
  unfold ip6_addr_select_zone. rewrite (bind_ok _ _ n (if netif_list n =? 0 then ip_2_ip6 a else
    match n_netifs n !! netif_list n with Some nif => ip6_addr_assign_zone IP6_UNKNOWN nif (ip_2_ip6 a) | None => ip_2_ip6 a end) n).
  - destruct Hn as [(H0 & Hx)|(H0 & x & Hx)].
    + rewrite H0, Hx. simpl. by destruct a.
    + rewrite Hx. by destruct (Z.eqb_spec (netif_list n) 0).
  - unfold bind at 1, ip6_route. destruct Hn as [(H0 & Hx)|(H0 & x & Hx)].
    + by rewrite H0.
    + destruct (Z.eqb_spec (netif_list n) 0); [done|]. simpl. rewrite (bind_ok _ _ _ _ _ (get_netif_ok _ _ _ Hx)). by rewrite Hx.
Qed.

(** ** The invariant *)

(** Both control blocks would get a datagram to the same address and port. *)
Definition same_claim (a : ip_addr) (port : Z) (u : udp_pcb) : bool :=
  (udp_local_port u =? port) &&
  (ip_addr_cmp (udp_local_ip u) a || ip_addr_isany_val a || ip_addr_isany_val (udp_local_ip u)).

Record udp_inv (n : net) (l : list Z) : Prop := UdpInv {
  ui_list : udp_list n l;
  ui_port : port_in_range (udp_port n);
  ui_netif : netif_list_ok n;
  ui_live : forall q u, n_udps n !! q = Some u -> q <> 0 /\ is_Some (hp_blocks (n_heap n) !! q);
  ui_bound : forall q u, n_udps n !! q = Some u -> 0 <= udp_local_port u < 65536 /\ (q ∈ l <-> udp_local_port u <> 0);
  ui_apart : forall q u q' u', n_udps n !! q = Some u -> n_udps n !! q' = Some u' -> q <> q' ->
    udp_local_port u <> 0 -> same_claim (udp_local_ip u) (udp_local_port u) u' = false
}.

Lemma same_claim_sym u u' : same_claim (udp_local_ip u) (udp_local_port u) u' =
  same_claim (udp_local_ip u') (udp_local_port u') u.
Proof.
  unfold same_claim. rewrite (Z.eqb_sym (udp_local_port u')), (ip_addr_cmp_sym (udp_local_ip u')).
  destruct (_ =? _); simpl; [|done]. destruct (ip_addr_cmp _ _); simpl; [done|]. apply orb_comm.
Qed.

(** The state after a successful [udp_bind]. *)
Definition udp_bound (n : net) (pcb : Z) (u : udp_pcb) (a : ip_addr) (port : Z) (rebind : bool) : net :=
  let u := u <| udp_local_ip := ip_addr_set a |> <| udp_local_port := port |> in
  if rebind then n <| n_udps := <[pcb := u]> (n_udps n) |>
  else n <| n_udps := <[pcb := u <| udp_next := udp_pcbs n |>]> (n_udps n) |> <| udp_pcbs := pcb |>.

Lemma upd_udp_twice n pcb u f g : n_udps n !! pcb = Some u ->
  (upd_udp pcb f ;;; upd_udp pcb g) n = Ok (tt, n <| n_udps := <[pcb := g (f u)]> (n_udps n) |>).
Proof.
  intros Hu. rewrite (bind_ok _ _ _ _ _ (upd_udp_ok _ _ _ _ Hu)).
  erewrite upd_udp_ok by (rec_simpl; apply lookup_insert_eq). rec_simpl. by rewrite insert_insert_eq.
Qed.

Lemma udp_bound_run n pcb u a port rebind : n_udps n !! pcb = Some u ->
  (upd_udp pcb (fun u => u <| udp_local_ip := ip_addr_set a |>) ;;;
   upd_udp pcb (fun u => u <| udp_local_port := port |>) ;;;
   (if negb rebind then
      let* n := get in
      upd_udp pcb (fun u => u <| udp_next := udp_pcbs n |>) ;;;
      modify (fun n => n <| udp_pcbs := pcb |>)
    else ret tt) ;;;
   ret ERR_OK) n = Ok (ERR_OK, udp_bound n pcb u a port rebind).
Proof.
  intros Hu. rewrite (bind_ok _ _ _ _ _ (upd_udp_ok _ _ _ _ Hu)).
  erewrite bind_ok by (apply upd_udp_ok; rec_simpl; apply lookup_insert_eq). rec_simpl. rewrite insert_insert_eq.
  unfold udp_bound. destruct rebind; [done|]. simpl. unfold get, bind at 2.
  unfold bind. erewrite upd_udp_ok by (rec_simpl; apply lookup_insert_eq). rec_simpl. by rewrite insert_insert_eq.
Qed.

Lemma udp_bound_inv n l pcb u a port : udp_inv n l -> n_udps n !! pcb = Some u -> 0 < port < 65536 ->
  (forall q x, q <> pcb -> n_udps n !! q = Some x -> same_claim a port x = false) ->
  udp_inv (udp_bound n pcb u a port (bool_decide (pcb ∈ l))) (if bool_decide (pcb ∈ l) then l else pcb :: l).
Proof.
  intros Hi Hu Hp Ha. unfold udp_bound. set (u1 := u <| udp_local_ip := ip_addr_set a |> <| udp_local_port := port |>).
  set (b := bool_decide (pcb ∈ l)). set (u2 := if b then u1 else u1 <| udp_next := udp_pcbs n |>).
  set (n2 := if b then n <| n_udps := <[pcb := u1]> (n_udps n) |> else _). set (l2 := if b then l else pcb :: l).
  assert (Hm : n_udps n2 = <[pcb := u2]> (n_udps n)) by (subst n2 u2; by destruct b).
  assert (Hport : udp_local_port u2 = port /\ udp_local_ip u2 = ip_addr_set a) by (subst u2; by destruct b).
  destruct Hport as (Hpo & Hip).
  assert (Hin : pcb ∈ l2) by (subst l2 b; destruct (bool_decide_reflect (pcb ∈ l)); [done|by left]).
  assert (Hl2 : forall q, q <> pcb -> q ∈ l2 <-> q ∈ l).
  { intros q Hq. subst l2. destruct b; [done|]. rewrite elem_of_cons. split; [by intros [?|?]|by right]. }
  split.
  - unfold udp_list. rewrite Hm. subst n2 l2 u2 b. destruct (bool_decide_reflect (pcb ∈ l)) as [Hb|Hb].
    + apply (links_update udp_next _ (udp_pcbs n) l pcb u); [apply (ui_list _ _ Hi)|exact Hu|done].
    + apply (links_push udp_next _ (udp_pcbs n) l pcb); [apply (ui_list _ _ Hi)|by apply (ui_live _ _ Hi _ _ Hu)|done|done].
  - subst n2. destruct b; apply (ui_port _ _ Hi).
  - subst n2. destruct b; apply (ui_netif _ _ Hi).
  - intros q x. rewrite Hm. intros [(<- & _)|(_ & Hx)]%lookup_insert_Some.
    + assert (Hh : n_heap n2 = n_heap n) by (subst n2; by destruct b). rewrite Hh. by apply (ui_live _ _ Hi _ _ Hu).
    + assert (Hh : n_heap n2 = n_heap n) by (subst n2; by destruct b). rewrite Hh. by apply (ui_live _ _ Hi _ _ Hx).
  - intros q x. rewrite Hm. intros [(<- & <-)|(Hq & Hx)]%lookup_insert_Some.
    + rewrite Hpo. split; [lia|]. split; [lia|done].
    + destruct (ui_bound _ _ Hi _ _ Hx) as (H1 & H2). split; [done|]. rewrite Hl2; done.
  - intros q x q' x'. rewrite Hm. intros [(<- & <-)|(Hq & Hx)]%lookup_insert_Some [(<- & <-)|(Hq' & Hx')]%lookup_insert_Some Hne Hx0.
    + done.
    + rewrite Hpo, Hip. unfold same_claim. rewrite ip_addr_cmp_set, ip_addr_isany_set. by apply (Ha q' x').
    + rewrite same_claim_sym, Hpo, Hip. unfold same_claim. rewrite ip_addr_cmp_set, ip_addr_isany_set. by apply (Ha q x).
    + by apply (ui_apart _ _ Hi q x q' x').
Qed.

(** Assignments to the other fields of a control block. *)
Lemma udp_update_inv n l q u v : udp_inv n l -> n_udps n !! q = Some u ->
  udp_next v = udp_next u -> udp_local_ip v = udp_local_ip u -> udp_local_port v = udp_local_port u ->
  udp_inv (n <| n_udps := <[q := v]> (n_udps n) |>) l.
Proof.
  intros Hi Hu Hn Ha Hp. pose proof Hi as [Hl Hr Hf Hv Hb Hd]. split; rec_simpl; try done.
  - by eapply (links_update udp_next).
  - intros r x [(<- & <-)|(_ & Hx)]%lookup_insert_Some; [by apply (Hv _ _ Hu)|by apply (Hv _ _ Hx)].
  - intros r x [(<- & <-)|(_ & Hx)]%lookup_insert_Some; [rewrite Hp; by apply Hb|by apply Hb].
  - intros r x r' x' [(<- & <-)|(_ & Hx)]%lookup_insert_Some [(<- & <-)|(_ & Hx')]%lookup_insert_Some Hne; [done|..].
    + rewrite Hp, Ha. by apply (Hd _ _ _ _ Hu Hx').
    + unfold same_claim. rewrite Hp, Ha. apply (Hd _ _ _ _ Hx Hu Hne).
    + by apply (Hd _ _ _ _ Hx Hx').
Qed.

Lemma udp_port_inv n l k : udp_inv n l -> port_in_range k -> udp_inv (n <| udp_port := k |>) l.
Proof. by intros []. Qed.

(** [n] with another counter; the same one when the value does not change. *)
Lemma set_udp_port_id n : n <| udp_port := udp_port n |> = n.
Proof. by destruct n. Qed.

Definition bind_addr (ipaddr : option ip_addr) : ip_addr := match ipaddr with Some a => a | None => IP4_ADDR_ANY end.

(** The outcome of [udp_bind]: the control block is bound, to the port given or a new
    one, or nothing has changed but the port counter. *)
Definition udp_bind_post (n : net) (l : list Z) (pcb : Z) (u : udp_pcb) (a : ip_addr) (port r : Z) (n' : net) : Prop :=
  exists k, port_in_range k /\
  ((r = ERR_OK /\ exists port', n' = udp_bound (n <| udp_port := k |>) pcb u (zoned n a) port' (bool_decide (pcb ∈ l)) /\
      udp_inv n' (if bool_decide (pcb ∈ l) then l else pcb :: l) /\
      if port =? 0 then port' = k /\ ~ port_used n l k else port' = port /\ k = udp_port n) \/
   (r = ERR_USE /\ n' = n <| udp_port := k |> /\
      if port =? 0 then forall k', port_in_range k' -> port_used n l k'
      else k = udp_port n /\ exists q x, q ∈ l /\ q <> pcb /\ n_udps n !! q = Some x /\ same_claim (zoned n a) port x = true)).

Lemma udp_bind_spec n l pcb u ipaddr port : udp_inv n l -> n_udps n !! pcb = Some u -> 0 <= port < 65536 ->
  wp (udp_bind pcb ipaddr port) (udp_bind_post n l pcb u (bind_addr ipaddr) port) n.
Proof.
  intros Hi Hu Hp. destruct (ui_live _ _ Hi _ _ Hu) as (H0 & _). apply wp_run. unfold udp_bind.
  m_assert ltac:(by apply nz_true). rewrite (bind_ok _ _ _ _ _ (udp_search_spec _ _ _ (ui_list _ _ Hi))).
  rewrite (first_of_self udp_next _ _ _ _ (ui_list _ _ Hi) H0), negb_involutive.
  fold (bind_addr ipaddr). rewrite (bind_ok _ _ _ _ _ (udp_zoned_run _ _ _ (ui_netif _ _ Hi))).
  set (a := zoned n (bind_addr ipaddr)).
  assert (Htail : forall m k, udp_inv m l -> n_udps m = n_udps n -> 0 < k < 65536 ->
    (forall q x, q <> pcb -> n_udps n !! q = Some x -> same_claim a k x = false) ->
    udp_inv (udp_bound m pcb u a k (bool_decide (pcb ∈ l))) (if bool_decide (pcb ∈ l) then l else pcb :: l)).
  { intros m k Hm Hmu Hk Hc. apply udp_bound_inv; rewrite ?Hmu; done. }
  unfold udp_bind_post. destruct (Z.eqb_spec port 0) as [->|Hp0].
  - destruct (udp_new_port_run n l (ui_list _ _ Hi) (ui_port _ _ Hi)) as (r & i & Hir & Hrun & (Hrg & Hcase) & _).
    rewrite (bind_ok _ _ _ _ _ Hrun). set (k := port_at (udp_port n) i) in *.
    assert (Hk : 0 < k < 65536) by (unfold port_in_range, UDP_LOCAL_PORT_RANGE_START, UDP_LOCAL_PORT_RANGE_END in Hrg; lia).
    destruct Hcase as [(-> & Hfree)|(-> & Hall)].
    + destruct (Z.eqb_spec k 0); [lia|]. rewrite (udp_bound_run _ _ u) by done. eexists _, _. split; [done|].
      exists k. split; [done|]. left. split; [done|]. exists k. split; [done|]. split; [|done].
      apply Htail; [by apply udp_port_inv|done|done|]. intros q x Hq Hx. unfold same_claim.
      destruct (Z.eqb_spec (udp_local_port x) k) as [Hxk|]; [|done]. exfalso. apply Hfree. exists q, x. split; [|done].
      apply (ui_bound _ _ Hi _ _ Hx). lia.
    + eexists _, _. split; [done|]. exists k. split; [done|]. by right.
  - rewrite (bind_ok _ _ n (if first_of (n_udps n) (udp_conflict pcb a port) l =? 0 then port else 0) n).
    2:{ by rewrite (bind_ok _ _ _ _ _ (udp_search_spec _ _ _ (ui_list _ _ Hi))). }
    destruct (first_of_cases udp_next (n_udps n) (udp_conflict pcb a port) _ _ (ui_list _ _ Hi))
      as [(-> & Hno)|(q & x & l1 & l2 & -> & Hq & Hll & Hx & Ht)].
    + rewrite Z.eqb_refl. destruct (Z.eqb_spec port 0); [done|]. rewrite (udp_bound_run _ _ u) by done.
      eexists _, _. split; [done|]. exists (udp_port n). split; [apply (ui_port _ _ Hi)|]. left. split; [done|].
      exists port. rewrite set_udp_port_id. split; [done|]. split; [|done]. apply Htail; [done|done|lia|].
      intros q x Hq Hx. destruct (same_claim a port x) eqn:Hs; [|done]. exfalso.
      assert (Hin : q ∈ l). { apply (ui_bound _ _ Hi _ _ Hx). unfold same_claim in Hs. bool_to_prop. lia. }
      specialize (Hno q x Hin Hx). unfold udp_conflict in Hno. unfold same_claim in Hs.
      destruct (Z.eqb_spec pcb q); [done|]. simpl in Hno. congruence.
    + destruct (Z.eqb_spec q 0); [done|]. eexists _, _. split; [done|]. exists (udp_port n). split; [apply (ui_port _ _ Hi)|].
      right. split; [done|]. rewrite set_udp_port_id. split; [done|]. split; [done|]. exists q, x.
      rewrite Hll. split; [apply elem_of_app; right; by left|]. unfold udp_conflict in Ht. unfold same_claim.
      bool_to_prop. split; [congruence|]. split; [done|]. apply andb_true_iff. split; [by apply Z.eqb_eq|done].
Qed.

(** ** The other operations *)

Lemma wp_udp_update n l q u f (Q : unit -> net -> Prop) : udp_inv n l -> n_udps n !! q = Some u ->
  udp_next (f u) = udp_next u -> udp_local_ip (f u) = udp_local_ip u -> udp_local_port (f u) = udp_local_port u ->
  (udp_inv (n <| n_udps := <[q := f u]> (n_udps n) |>) l -> n_udps (n <| n_udps := <[q := f u]> (n_udps n) |>) !! q = Some (f u) ->
   Q tt (n <| n_udps := <[q := f u]> (n_udps n) |>)) -> wp (upd_udp q f) Q n.
Proof.
  intros Hi Hu Hn Ha Hp HQ. unfold wp. rewrite (upd_udp_ok _ _ _ _ Hu). apply HQ; [by eapply udp_update_inv|].
  rec_simpl. apply lookup_insert_eq.
Qed.

(** An unbound control block may change its address. *)
Lemma udp_unbound_inv n l q u v : udp_inv n l -> n_udps n !! q = Some u -> udp_local_port u = 0 ->
  udp_next v = udp_next u -> udp_local_port v = 0 -> udp_inv (n <| n_udps := <[q := v]> (n_udps n) |>) l.
Proof.
  intros Hi Hu Hu0 Hn Hp. pose proof Hi as [Hl Hr Hf Hv Hb Hd]. split; rec_simpl; try done.
  - by eapply (links_update udp_next).
  - intros r x [(<- & <-)|(_ & Hx)]%lookup_insert_Some; [by apply (Hv _ _ Hu)|by apply (Hv _ _ Hx)].
  - intros r x [(<- & <-)|(_ & Hx)]%lookup_insert_Some; [|by apply Hb]. pose proof (Hb _ _ Hu) as Hbu. rewrite Hu0 in Hbu. by rewrite Hp.
  - intros r x r' x' [(<- & <-)|(_ & Hx)]%lookup_insert_Some [(<- & <-)|(_ & Hx')]%lookup_insert_Some Hne H0; [done|done| |].
    + unfold same_claim. rewrite Hp. by destruct (Z.eqb_spec 0 (udp_local_port x)).
    + by apply (Hd _ _ _ _ Hx Hx').
Qed.

Definition keeps_inv (l : list Z) {A} : A -> net -> Prop := fun _ n' => udp_inv n' l.

Lemma udp_disconnect_spec n l pcb u : udp_inv n l -> n_udps n !! pcb = Some u ->
  wp (udp_disconnect pcb) (keeps_inv l) n.
Proof.
  intros Hi Hu. destruct (ui_live _ _ Hi _ _ Hu) as (H0 & _). unfold udp_disconnect.
  apply wp_bind, wp_assert; [by apply nz_true|]. apply wp_bind. unfold wp at 1. rewrite (get_udp_ok _ _ _ Hu).
  apply wp_bind. eapply wp_udp_update; [done..|]. intros Hi1 Hu1.
  apply wp_bind. eapply wp_udp_update; [done..|]. intros Hi2 Hu2.
  apply wp_bind. eapply wp_udp_update; [done..|]. intros Hi3 Hu3.
  by eapply wp_udp_update.
Qed.

Lemma udp_recv_spec n l pcb u recv arg : udp_inv n l -> n_udps n !! pcb = Some u ->
  wp (udp_recv pcb recv arg) (keeps_inv l) n.
Proof.
  intros Hi Hu. destruct (ui_live _ _ Hi _ _ Hu) as (H0 & _). unfold udp_recv.
  apply wp_bind, wp_assert; [by apply nz_true|].
  apply wp_bind. eapply wp_udp_update; [done..|]. intros Hi1 Hu1. by eapply wp_udp_update.
Qed.

Lemma udp_bind_netif_spec n l pcb u nif : udp_inv n l -> n_udps n !! pcb = Some u ->
  (nif <> 0 -> is_Some (n_netifs n !! nif)) -> wp (udp_bind_netif pcb nif) (keeps_inv l) n.
Proof.
  intros Hi Hu Hn. unfold udp_bind_netif. destruct (Z.eqb_spec nif 0); simpl; [by eapply wp_udp_update|].
  destruct Hn as (x & Hx); [done|]. apply wp_bind. unfold wp at 1. rewrite (get_netif_ok _ _ _ Hx).
  by eapply wp_udp_update.
Qed.

(** Where a control block goes that is not on the list yet. *)
Definition listed (l : list Z) (pcb : Z) : list Z := if bool_decide (pcb ∈ l) then l else pcb :: l.

Lemma listed_in l pcb : pcb ∈ listed l pcb.
Proof. unfold listed. destruct (bool_decide_reflect (pcb ∈ l)); [done|by left]. Qed.

Lemma udp_bound_lookup n pcb u a port b : exists v, n_udps (udp_bound n pcb u a port b) !! pcb = Some v /\
  udp_local_port v = port.
Proof. unfold udp_bound. destruct b; rec_simpl; rewrite lookup_insert_eq; eexists; split; done. Qed.

Lemma udp_connect_spec n l pcb u a port : udp_inv n l -> n_udps n !! pcb = Some u -> 0 <= port < 65536 ->
  wp (udp_connect pcb a port) (fun r n' =>
    (r = ERR_OK /\ udp_inv n' (listed l pcb) /\ exists v, n_udps n' !! pcb = Some v /\ udp_remote_port v = port /\
      has_flag (udp_flags v) UDP_FLAGS_CONNECTED = true) \/
    (r = ERR_USE /\ udp_inv n' l /\ udp_local_port u = 0)) n.
Proof.
  intros Hi Hu Hp. destruct (ui_live _ _ Hi _ _ Hu) as (H0 & _). unfold udp_connect.
  apply wp_bind, wp_assert; [by apply nz_true|]. apply wp_bind. unfold wp at 1. rewrite (get_udp_ok _ _ _ Hu).
  (* the second half, from a state where the control block is on the list *)
  assert (Hrest : forall m v, udp_inv m (listed l pcb) -> n_udps m !! pcb = Some v -> wp (
    let* u := get_udp pcb in
    let* remote := udp_zoned (ip_addr_set a) (udp_local_ip u) in
    upd_udp pcb (fun u => u <| udp_remote_ip := remote |>) ;;;
    upd_udp pcb (fun u => u <| udp_remote_port := port |>) ;;;
    upd_udp pcb (fun u => u <| udp_flags := u8_t (Z.lor (udp_flags u) UDP_FLAGS_CONNECTED) |>) ;;;
    let* found := udp_search (fun ipcb _ => pcb =? ipcb) in
    (if found =? 0 then
       let* n := get in
       upd_udp pcb (fun u => u <| udp_next := udp_pcbs n |>) ;;;
       modify (fun n => n <| udp_pcbs := pcb |>)
     else ret tt) ;;;
    ret ERR_OK) (fun r n' => r = ERR_OK /\ udp_inv n' (listed l pcb) /\ exists v, n_udps n' !! pcb = Some v /\ udp_remote_port v = port /\
      has_flag (udp_flags v) UDP_FLAGS_CONNECTED = true) m).
  { intros m v Hm Hv. apply wp_bind. unfold wp at 1. rewrite (get_udp_ok _ _ _ Hv).
    apply wp_bind. unfold wp at 1. rewrite (udp_zoned_run _ _ _ (ui_netif _ _ Hm)).
    apply wp_bind. eapply wp_udp_update; [done..|]. intros Hi1 Hu1.
    apply wp_bind. eapply wp_udp_update; [done..|]. intros Hi2 Hu2.
    apply wp_bind. eapply wp_udp_update; [done..|]. intros Hi3 Hu3.
    apply wp_bind. unfold wp at 1. rewrite (udp_search_spec _ _ _ (ui_list _ _ Hi3)).
    rewrite (first_of_self udp_next _ _ _ _ (ui_list _ _ Hi3) H0).
    rewrite bool_decide_eq_true_2 by apply listed_in. cbn [negb]. apply wp_bind, wp_ret, wp_ret.
    split; [done|]. split; [done|]. eexists. split; [exact Hu3|]. split; [done|]. rec_simpl.
    unfold has_flag, UDP_FLAGS_CONNECTED. apply negb_true_iff, Z.eqb_neq. intros Hz.
    apply (f_equal (fun x => Z.testbit x 2)) in Hz. unfold u8_t in Hz. change 256 with (2 ^ 8) in Hz.
    rewrite Z.land_spec, Z.mod_pow2_bits_low, Z.lor_spec in Hz by lia. change (Z.testbit 4 2) with true in Hz.
    by rewrite orb_true_r in Hz. }
  apply wp_bind. destruct (Z.eqb_spec (udp_local_port u) 0) as [Hz|Hz].
  - eapply wp_conseq; [apply (udp_bind_spec n l pcb u (Some (udp_local_ip u)) (udp_local_port u) Hi Hu); lia|].
    intros r n' (k & Hk & [(-> & port' & -> & Hinv & _)|(-> & -> & _)]); simpl.
    + destruct (udp_bound_lookup (n <| udp_port := k |>) pcb u (zoned n (udp_local_ip u)) port' (bool_decide (pcb ∈ l))) as (v & Hv & _).
      eapply wp_conseq; [by eapply Hrest|]. intros r n' Hr. by left.
    + apply wp_ret. right. split; [done|]. split; [by apply udp_port_inv|done].
  - apply wp_ret. simpl. assert (Hl : listed l pcb = l).
    { unfold listed. rewrite bool_decide_eq_true_2; [done|]. by apply (ui_bound _ _ Hi _ _ Hu). }
    eapply wp_conseq; [eapply Hrest; [by rewrite Hl|done]|]. intros r n' Hr. by left.
Qed.

(** ** Creation and removal *)

Lemma udp_remove_inv n l l' pcb m p : udp_inv n l -> pcb ∉ l' -> (forall q, q <> pcb -> q ∈ l' <-> q ∈ l) ->
  links udp_next m p l' -> (forall q, q <> pcb -> match m !! q, n_udps n !! q with
    | Some v, Some u => udp_local_ip v = udp_local_ip u /\ udp_local_port v = udp_local_port u
    | None, None => True | _, _ => False end) ->
  udp_inv (n <| n_heap := mkHeap (delete pcb (hp_pbufs (n_heap n))) (delete pcb (hp_blocks (n_heap n))) (hp_ooseq_pending (n_heap n)) |>
             <| udp_pcbs := p |> <| n_udps := delete pcb m |>) l'.
Proof.
  intros Hi Hnot Hl' Hlk Hm. pose proof Hi as [Hl Hr Hf Hv Hb Hd].
  assert (Hget : forall q v, delete pcb m !! q = Some v -> q <> pcb /\ exists u, n_udps n !! q = Some u /\
    udp_local_ip v = udp_local_ip u /\ udp_local_port v = udp_local_port u).
  { intros q v [Hq Hx]%lookup_delete_Some. split; [done|]. specialize (Hm q ltac:(done)). rewrite Hx in Hm.
    destruct (n_udps n !! q) as [u|]; [|done]. eauto. }
  split; rec_simpl; try done.
  - by apply links_delete.
  - intros q v (Hq & u & Hu & _)%Hget. destruct (Hv _ _ Hu). split; [done|]. cbn. by rewrite lookup_delete_ne.
  - intros q v (Hq & u & Hu & _ & ->)%Hget. rewrite Hl' by done. by apply Hb.
  - intros q v q' v' (Hq & u & Hu & Ha & Hp)%Hget (Hq' & u' & Hu' & Ha' & Hp')%Hget Hne Hn0.
    rewrite Ha, Hp in *. specialize (Hd _ _ _ _ Hu Hu' Hne Hn0). unfold same_claim in *. by rewrite Ha', Hp'.
Qed.

Lemma memp_free_ok h p : p <> 0 -> is_Some (hp_blocks h !! p) ->
  memp_free p h = Ok (tt, mkHeap (delete p (hp_pbufs h)) (delete p (hp_blocks h)) (hp_ooseq_pending h)).
Proof.
  intros H0 (bs & Hbs). unfold memp_free, mem_free, lwip_assert, bind.
  destruct (Z.eqb_spec p 0); [done|]. simpl. by rewrite Hbs.
Qed.

Lemma memp_free_udp_run n pcb : pcb <> 0 -> is_Some (hp_blocks (n_heap n) !! pcb) ->
  memp_free_udp pcb n = Ok (tt, n <| n_heap := mkHeap (delete pcb (hp_pbufs (n_heap n))) (delete pcb (hp_blocks (n_heap n))) (hp_ooseq_pending (n_heap n)) |>
    <| n_udps := delete pcb (n_udps n) |>).
Proof.
  intros H0 Hb. unfold memp_free_udp. by rewrite (bind_ok _ _ _ _ _ (lift_ok _ _ _ _ (memp_free_ok _ _ H0 Hb))).
Qed.

(** The list without the control block. *)
Definition unlisted (l : list Z) (pcb : Z) : list Z := filter (fun q => q <> pcb) l.
Lemma unlisted_not_in l pcb : pcb ∉ l -> unlisted l pcb = l.
Proof.
  induction l as [|q l IH]; [done|]. intros (Hq & Hl)%not_elem_of_cons. unfold unlisted.
  rewrite filter_cons_True by done. f_equal. by apply IH.
Qed.
Lemma unlisted_split l1 pcb l2 : NoDup (l1 ++ pcb :: l2) -> unlisted (l1 ++ pcb :: l2) pcb = l1 ++ l2.
Proof.
  intros (_ & H1 & (H2 & _)%NoDup_cons)%NoDup_app. unfold unlisted. rewrite filter_app, filter_cons_False by auto.
  f_equal; apply unlisted_not_in; [|done]. intros Hin. eapply H1; [done|by left].
Qed.
Lemma elem_of_unlisted l pcb q : q <> pcb -> q ∈ unlisted l pcb <-> q ∈ l.
Proof. intros Hq. unfold unlisted. rewrite list_elem_of_filter. by split; [intros (_ & ?)|]. Qed.
Lemma unlisted_out l pcb : pcb ∉ unlisted l pcb.
Proof. by intros (? & _)%list_elem_of_filter. Qed.

(** The predecessor the loop of [udp_remove] looks for. *)
Lemma behind_cases n l pcb : udp_list n l -> pcb <> 0 -> udp_pcbs n <> pcb ->
  let test := fun (_ : Z) (u : udp_pcb) => negb (udp_next u =? 0) && (udp_next u =? pcb) in
  (first_of (n_udps n) test l = 0 /\ pcb ∉ l) \/
  exists l1 a l2 ua, l = l1 ++ a :: pcb :: l2 /\ first_of (n_udps n) test l = a /\ a <> 0 /\ n_udps n !! a = Some ua.
Proof.
  intros Hl H0 Hhd test. destruct (first_of_cases udp_next (n_udps n) test _ _ Hl)
    as [(Hz & Hno)|(a & ua & l1 & l2 & Hf & Ha0 & -> & Ha & Ht)].
  - left. split; [done|]. intros (l1 & l2 & ->)%list_elem_of_split. destruct l1 as [|a l1 _] using rev_ind.
    + by destruct Hl.
    + rewrite <- app_assoc in Hl. destruct (links_lookup udp_next _ _ _ a Hl) as (_ & ua & Ha).
      { apply elem_of_app. right. by left. }
      pose proof (links_behind udp_next _ _ _ _ _ _ Hl Ha) as (Hnx & _).
      specialize (Hno a ua). rewrite <- app_assoc in Hno. unfold test in Hno. rewrite Hnx, Z.eqb_refl in Hno.
      rewrite nz_true in Hno by done. discriminate Hno; [|done]. apply elem_of_app. right. by left.
  - right. unfold test in Ht. bool_to_prop. pose proof (links_behind udp_next _ _ _ _ _ _ Hl Ha) as Hb.
    destruct l2 as [|q l2]; [done|]. destruct Hb as (Hb & _). exists l1, a, l2, ua. split_and!; congruence.
Qed.

Lemma udp_remove_spec n l pcb u : udp_inv n l -> n_udps n !! pcb = Some u ->
  wp (udp_remove pcb) (fun _ n' => udp_inv n' (unlisted l pcb) /\ n_udps n' !! pcb = None) n.
Proof.
  intros Hi Hu. destruct (ui_live _ _ Hi _ _ Hu) as (H0 & Hblk). pose proof (ui_list _ _ Hi) as Hl.
  pose proof (links_NoDup _ _ _ _ Hl) as Hnd. apply wp_run. unfold udp_remove. m_assert ltac:(by apply nz_true).
  unfold get, bind at 1.
  assert (Hsame : forall m, n_udps n = m -> forall q, q <> pcb -> match m !! q, n_udps n !! q with
    | Some v, Some u => udp_local_ip v = udp_local_ip u /\ udp_local_port v = udp_local_port u
    | None, None => True | _, _ => False end).
  { intros m <- q _. by destruct (n_udps n !! q). }
  destruct (Z.eqb_spec (udp_pcbs n) pcb) as [Heq|Hne].
  - rewrite (bind_ok _ _ n tt (n <| udp_pcbs := udp_next u |>)) by (by rewrite (bind_ok _ _ _ _ _ (get_udp_ok _ _ _ Hu))).
    rewrite memp_free_udp_run by done. eexists _, _. split; [done|]. split; [|rec_simpl; apply lookup_delete_eq].
    unfold udp_list in Hl. destruct l as [|q l]; [by simpl in Hl; subst|]. pose proof Hl as (Hq & _). rewrite Heq in Hq. subst q.
    change (pcb :: l) with ([] ++ pcb :: l) in Hnd |- *. rewrite unlisted_split by done. rewrite Heq in Hl. cbn [app] in *.
    apply (udp_remove_inv n (pcb :: l) l pcb (n_udps n) (udp_next u)); [done|by apply NoDup_cons in Hnd as [? _]| |by eapply links_pop|by apply Hsame].
    intros q Hq. simpl. rewrite elem_of_cons. by split; [right|intros [?|?]].
  - destruct (behind_cases n l pcb Hl H0 Hne) as [(Hf & Hnin)|(l1 & a & l2 & ua & -> & Hf & Ha0 & Ha)].
    + rewrite (bind_ok _ _ n tt n) by (by rewrite (bind_ok _ _ _ _ _ (udp_search_spec _ _ _ Hl)), Hf).
      rewrite memp_free_udp_run by done. eexists _, _. split; [done|]. split; [|rec_simpl; apply lookup_delete_eq].
      rewrite unlisted_not_in by done.
      replace (n <| n_heap := _ |>) with (n <| n_heap := mkHeap (delete pcb (hp_pbufs (n_heap n))) (delete pcb (hp_blocks (n_heap n)))
        (hp_ooseq_pending (n_heap n)) |> <| udp_pcbs := udp_pcbs n |>) by done.
      apply (udp_remove_inv n l l pcb (n_udps n) (udp_pcbs n)); [done|done|done|done|by apply Hsame].
    + set (n1 := n <| n_udps := <[a := ua <| udp_next := udp_next u |>]> (n_udps n) |>).
      rewrite (bind_ok _ _ n tt n1).
      2:{ rewrite (bind_ok _ _ _ _ _ (udp_search_spec _ _ _ Hl)), Hf. destruct (Z.eqb_spec a 0); [done|].
          rewrite (bind_ok _ _ _ _ _ (get_udp_ok _ _ _ Hu)). by rewrite (upd_udp_ok _ _ _ _ Ha). }
      rewrite memp_free_udp_run by done. eexists _, _. split; [done|]. split; [|rec_simpl; apply lookup_delete_eq].
      replace (l1 ++ a :: pcb :: l2) with ((l1 ++ [a]) ++ pcb :: l2) in * by (by rewrite <- app_assoc).
      rewrite unlisted_split by done. rewrite <- app_assoc.
      replace (n1 <| n_heap := _ |>) with (n <| n_heap := mkHeap (delete pcb (hp_pbufs (n_heap n))) (delete pcb (hp_blocks (n_heap n)))
        (hp_ooseq_pending (n_heap n)) |> <| udp_pcbs := udp_pcbs n |> <| n_udps := n_udps n1 |>) by done.
      pose proof Hnd as (_ & Hout & (Hout2 & _)%NoDup_cons)%NoDup_app.
      rewrite app_assoc. apply (udp_remove_inv n ((l1 ++ [a]) ++ pcb :: l2)); [done|..].
      * intros [Hin|Hin]%elem_of_app; [|done]. apply (Hout _ Hin). by left.
      * intros q Hq. rewrite !elem_of_app, !elem_of_cons. tauto.
      * rewrite <- app_assoc in Hl |- *. cbn [app] in Hl |- *. by apply (links_unlink udp_next _ _ l1 a pcb l2 ua _ u).
      * intros q Hq. subst n1. rec_simpl. destruct (decide (q = a)) as [->|Hqa].
        -- by rewrite lookup_insert_eq, Ha.
        -- rewrite lookup_insert_ne by done. by destruct (n_udps n !! q).
Qed.

Section UdpNew.
Context `{Malloc}.

Lemma udp_new_inv n l q bs u : udp_inv n l -> q <> 0 -> hp_blocks (n_heap n) !! q = None ->
  udp_local_port u = 0 ->
  udp_inv (n <| n_heap := add_block (n_heap n) q bs |> <| n_udps := <[q := u]> (n_udps n) |>) l.
Proof.
  intros Hi H0 Hq Hp. pose proof Hi as [Hl Hr Hf Hv Hb Hd].
  assert (Hnew : n_udps n !! q = None).
  { destruct (n_udps n !! q) as [x|] eqn:Hx; [|done]. destruct (Hv _ _ Hx) as (_ & y & Hy). by rewrite Hq in Hy. }
  assert (Hnl : q ∉ l). { intros Hin. destruct (links_lookup _ _ _ _ _ Hl Hin) as (_ & x & Hx). by rewrite Hnew in Hx. }
  split; rec_simpl; try done.
  - unfold udp_list. rec_simpl. eapply (links_ext udp_next); [|exact Hl]. intros r Hr'. rewrite lookup_insert_ne; [done|]. by intros ->.
  - intros r x [(<- & <-)|(Hne & Hx)]%lookup_insert_Some; change (hp_blocks (add_block (n_heap n) q bs)) with (<[q := bs]> (hp_blocks (n_heap n))).
    + split; [done|]. rewrite lookup_insert_eq. by eexists.
    + rewrite lookup_insert_ne by done. by apply (Hv _ _ Hx).
  - intros r x [(<- & <-)|(Hne & Hx)]%lookup_insert_Some; [rewrite Hp; by split; [lia|split]|by apply Hb].
  - intros r x r' x' [(<- & <-)|(Hne & Hx)]%lookup_insert_Some [(<- & <-)|(Hne' & Hx')]%lookup_insert_Some Hd0 Hn0; [done|by rewrite Hp in Hn0| |by apply (Hd _ _ _ _ Hx Hx')].
    unfold same_claim. rewrite Hp. by destruct (Z.eqb_spec 0 (udp_local_port x)).
Qed.

Lemma udp_new_spec n l : udp_inv n l ->
  wp udp_new (fun r n' => udp_inv n' l /\ (r = 0 \/ n_udps n !! r = None /\ n_udps n' !! r = Some udp_pcb_new)) n.
Proof.
  intros Hi. unfold udp_new. apply wp_bind, wp_lift. unfold wp, memp_malloc.
  destruct (mem_malloc_cases (n_heap n) MEMP_UDP_PCB_SIZE) as [->|(q & bs & -> & Hq0 & _ & Hqb & _)].
  - simpl. split; [|by left]. by destruct n.
  - destruct (Z.eqb_spec q 0); [done|]. simpl. split; [by apply udp_new_inv|]. right. split; [|rec_simpl; apply lookup_insert_eq].
    destruct (n_udps n !! q) as [x|] eqn:Hx; [|done]. destruct (ui_live _ _ Hi _ _ Hx) as (_ & y & Hy). by rewrite Hqb in Hy.
Qed.

(** ** Calls of the interface *)

Inductive udp_call :=
| UdpNew | UdpNewIpType (type : Z)
| UdpBind (pcb : Z) (ipaddr : option ip_addr) (port : Z)
| UdpConnect (pcb : Z) (ipaddr : ip_addr) (port : Z)
| UdpDisconnect (pcb : Z) | UdpRecv (pcb recv arg : Z)
| UdpRemove (pcb : Z).

Definition udp_do (c : udp_call) : M net unit :=
  match c with
  | UdpNew => let* _ := udp_new in ret tt
  | UdpNewIpType type => let* _ := udp_new_ip_type type in ret tt
  | UdpBind pcb ipaddr port => let* _ := udp_bind pcb ipaddr port in ret tt
  | UdpConnect pcb ipaddr port => let* _ := udp_connect pcb ipaddr port in ret tt
  | UdpDisconnect pcb => udp_disconnect pcb
  | UdpRecv pcb recv arg => udp_recv pcb recv arg
  | UdpRemove pcb => udp_remove pcb
  end.

(** The control block of a call exists and a port is a [u16_t]. *)
Definition udp_call_ok (n : net) (c : udp_call) : Prop :=
  match c with
  | UdpNew | UdpNewIpType _ => True
  | UdpBind pcb _ port | UdpConnect pcb _ port => is_Some (n_udps n !! pcb) /\ 0 <= port < 65536
  | UdpDisconnect pcb | UdpRecv pcb _ _ | UdpRemove pcb => is_Some (n_udps n !! pcb)
  end.

(** The states that sequences of calls lead to. *)
Inductive udp_reach : net -> net -> Prop :=
| udp_reach_refl n : udp_reach n n
| udp_reach_step n n1 n2 c : udp_reach n n1 -> udp_call_ok n1 c -> udp_do c n1 = Ok (tt, n2) -> udp_reach n n2.

Lemma wp_drop {S A} (m : M S A) (Q : unit -> S -> Prop) s :
  wp m (fun _ s' => Q tt s') s -> wp (let* _ := m in ret tt) Q s.
Proof. intros Hm. by apply wp_bind. Qed.

Lemma udp_do_inv n l c : udp_inv n l -> udp_call_ok n c -> wp (udp_do c) (fun _ n' => exists l', udp_inv n' l') n.
Proof.
  intros Hi Hok. destruct c; simpl in *.
  - apply wp_drop. eapply wp_conseq; [by apply udp_new_spec|]. intros r n' (Hi' & _). eauto.
  - apply wp_drop. unfold udp_new_ip_type. apply wp_bind. eapply wp_conseq; [by apply udp_new_spec|].
    intros r n' (Hi' & Hr). destruct (Z.eqb_spec r 0); [apply wp_ret; eauto|].
    destruct Hr as [?|(_ & Hr)]; [done|]. unfold wp, bind.
    rewrite (upd_udp_ok _ _ _ _ Hr). erewrite upd_udp_ok by (rec_simpl; apply lookup_insert_eq). simpl. exists l.
    rec_simpl. rewrite insert_insert_eq. by eapply (udp_unbound_inv n').
  - destruct Hok as ((u & Hu) & Hp). apply wp_drop. eapply wp_conseq; [by eapply udp_bind_spec|].
    intros r n' (k & Hk & [(_ & port' & _ & Hi' & _)|(_ & -> & _)]); [eauto|]. exists l. by apply udp_port_inv.
  - destruct Hok as ((u & Hu) & Hp). apply wp_drop. eapply wp_conseq; [by eapply udp_connect_spec|].
    intros r n' [(_ & Hi' & _)|(_ & Hi' & _)]; eauto.
  - destruct Hok as (u & Hu). eapply wp_conseq; [by eapply udp_disconnect_spec|]. intros ? n' Hi'. by exists l.
  - destruct Hok as (u & Hu). eapply wp_conseq; [by eapply udp_recv_spec|]. intros ? n' Hi'. by exists l.
  - destruct Hok as (u & Hu). eapply wp_conseq; [by eapply udp_remove_spec|]. intros ? n' (Hi' & _). eauto.
Qed.

Lemma udp_reach_inv n l n' : udp_inv n l -> udp_reach n n' -> exists l', udp_inv n' l'.
Proof.
  intros Hi Hr. revert l Hi. induction Hr as [n|n n1 n2 c Hr IH Hok Hdo]; intros l Hi; [eauto|].
  destruct (IH l Hi) as (l1 & Hi1). pose proof (udp_do_inv n1 l1 c Hi1 Hok) as Hw. unfold wp in Hw. by rewrite Hdo in Hw.
Qed.

End UdpNew.
