(* ===== verification/Datagram.v ===== *)
(** * Headers in packets

    What writing and reading header fields does to the bytes of a packet, and the UDP and
    IPv4 headers that the code writes: the bytes and their checksums. *)

From S2P Require Import Prelude Def IpAddr Pbuf PbufFacts PbufMut PbufData PbufAlloc.
From S2P Require Import OnesComplement InetChksum Net Netif IpOut Udp.

(** ** Reading and writing at an offset of the first buffer *)

(** Only the contents of the block of the first buffer change. *)
Record same_but (B : Z) (h h' : heap) : Prop := SameBut {
  sb_pbufs : hp_pbufs h' = hp_pbufs h;
  sb_blocks : forall x, x <> B -> hp_blocks h' !! x = hp_blocks h !! x;
  sb_block : forall bs, hp_blocks h !! B = Some bs -> exists bs', hp_blocks h' !! B = Some bs' /\ zlen bs' = zlen bs
}.

Lemma same_but_refl B h : same_but B h h.
Proof. split; eauto. Qed.
Lemma same_but_trans B h1 h2 h3 : same_but B h1 h2 -> same_but B h2 h3 -> same_but B h1 h3.
Proof.
  intros [Hp Hb Hz] [Hp' Hb' Hz']. split; [by rewrite Hp'| |].
  - intros x Hx. by rewrite Hb', Hb.
  - intros bs Hbs. destruct (Hz bs Hbs) as (b1 & H1 & E1). destruct (Hz' b1 H1) as (b2 & H2 & E2).
    exists b2. split; [done|congruence].
Qed.
Lemma same_but_poke B o x h bs : hp_blocks h !! B = Some bs -> 0 <= o -> o + zlen x <= zlen bs ->
  same_but B h (poke B o x h).
Proof.
  intros Hbs Ho Hx. split; [apply poke_pbufs|intros y Hy; by apply poke_blocks_ne|].
  intros c Hc. rewrite Hbs in Hc. injection Hc as <-. exists (zpatch o x bs). split; [by apply poke_blocks_eq|by apply zlen_zpatch].
Qed.

(** The first buffer of the packet holds its bytes alone. *)
Definition head_alone (l : list (Z * pbuf)) : Prop :=
  match l with [] => True | (_, b) :: l => payload_avoids (pb_payload b).1 l end.

Lemma packet_write h q b l d k x : packet h q ((q, b) :: l) d -> head_alone ((q, b) :: l) ->
  0 <= k -> k + zlen x <= pb_len b ->
  exists h', mem_write (ptr_add (pb_payload b) k) x h = Ok (tt, h') /\
    packet h' q ((q, b) :: l) (zpatch k x d) /\ same_but (pb_payload b).1 h h'.
Proof.
  intros Hpk Hav Hk Hx. pose proof Hpk as (Hc & Hlens & _).
  apply packet_tail in Hpk as (d1 & d2 & Hd1 & Hz1 & (Hc2 & Hl2 & Hd2) & ->).
  exists (poke (pb_payload b).1 ((pb_payload b).2 + k) x h). split; [by eapply mem_write_in|].
  split; [|destruct x as [|x0 x]; [rewrite poke_nil; apply same_but_refl|];
    rewrite zlen_cons in *; pose proof (zlen_nonneg x); destruct (load_block _ _ _ _ Hd1 ltac:(lia)) as (bs & Hbs & Ho & Hle);
    eapply same_but_poke; [exact Hbs|lia|rewrite zlen_cons; lia]].
  split; [|split; [done|]].
  - eapply chain_frame; [exact Hc|]. intros y _. by rewrite poke_pbufs.
  - simpl. rewrite (load_poke _ _ (pb_len b) d1) by (done || (simpl in Hlens; lia)).
    rewrite contents_poke_avoid, Hd2 by done. by rewrite zpatch_app_l by lia.
Qed.

Lemma packet_read h q b l d k n : packet h q ((q, b) :: l) d -> 0 <= k -> 0 <= n -> k + n <= pb_len b ->
  mem_read (ptr_add (pb_payload b) k) n h = Ok (zslice k n d, h).
Proof.
  intros Hpk Hk Hn Hle. apply packet_tail in Hpk as (d1 & d2 & Hd1 & Hz1 & _ & ->).
  apply mem_read_ok. rewrite zslice_app_l by lia. by eapply load_bytes_sub.
Qed.

(** A sequence of assignments to header fields, and what comes after it. *)
Definition hdr_writes {A} (hdr : Z * Z) (ws : list (Z * list Z)) (k : M heap A) : M heap A :=
  foldr (fun w k => hdr_write hdr w.1 w.2 ;;; k) k ws.
Definition patches (ws : list (Z * list Z)) (d : list Z) : list Z :=
  foldl (fun d w => zpatch w.1 w.2 d) d ws.

(** The assignments stay within a header of [n] bytes. *)
Definition writes_in (n : Z) (ws : list (Z * list Z)) : bool :=
  forallb (fun w => (0 <=? w.1) && (w.1 + zlen w.2 <=? n)) ws.

Lemma hdr_writes_spec n ws h q b l d : packet h q ((q, b) :: l) d -> head_alone ((q, b) :: l) ->
  n <= pb_len b -> writes_in n ws = true ->
  exists h', (forall A (k : M heap A), hdr_writes (pb_payload b) ws k h = k h') /\
    packet h' q ((q, b) :: l) (patches ws d) /\ same_but (pb_payload b).1 h h'.
Proof.
  intros Hpk Hal Hn. revert h d Hpk. induction ws as [|[k x] ws IH]; intros h d Hpk Hws.
  { exists h. split; [done|]. split; [done|apply same_but_refl]. }
  simpl in Hws. apply andb_true_iff in Hws as (Hkx & Hws). apply andb_true_iff in Hkx as (Hk%Z.leb_le & Hx%Z.leb_le).
  destruct (packet_write h q b l d k x Hpk Hal Hk ltac:(lia)) as (h1 & Hw & Hpk1 & Hs1).
  destruct (IH h1 _ Hpk1 Hws) as (h2 & Hw2 & Hpk2 & Hs2). exists h2. split; [|split].
  - intros A m. simpl. unfold hdr_write at 1. by rewrite (bind_ok _ _ _ _ _ Hw).
  - done.
  - by eapply same_but_trans.
Qed.

(** What is behind a header. *)
Lemma zdrop_exact {A} (pre d : list A) k : zlen pre = k -> zdrop k (pre ++ d) = d.
Proof. intros <-. rewrite zdrop_app_r, Z.sub_diag by lia. by apply zdrop_nonpos. Qed.

(** The first bytes of a packet, one by one. *)
Lemma split8 (d : list Z) : 8 <= zlen d ->
  exists a0 a1 a2 a3 a4 a5 a6 a7, d = a0 :: a1 :: a2 :: a3 :: a4 :: a5 :: a6 :: a7 :: zdrop 8 d.
Proof.
  intros Hd. do 8 (destruct d as [|? d]; [exfalso; autorewrite with zlen in Hd; lia|rewrite zlen_cons in Hd]).
  eauto 10.
Qed.
Lemma split20 (d : list Z) : 20 <= zlen d ->
  exists a0 a1 a2 a3 a4 a5 a6 a7 a8 a9 b0 b1 b2 b3 b4 b5 b6 b7 b8 b9,
  d = a0 :: a1 :: a2 :: a3 :: a4 :: a5 :: a6 :: a7 :: a8 :: a9 ::
      b0 :: b1 :: b2 :: b3 :: b4 :: b5 :: b6 :: b7 :: b8 :: b9 :: zdrop 20 d.
Proof.
  intros Hd. do 20 (destruct d as [|? d]; [exfalso; autorewrite with zlen in Hd; lia|rewrite zlen_cons in Hd]).
  do 20 eexists. reflexivity.
Qed.

(** ** The UDP header *)

Definition udp_bytes (sport dport c : Z) (data : list Z) : list Z :=
  be16 sport ++ be16 dport ++ be16 (UDP_HLEN + zlen data) ++ le16 c ++ data.

(** The checksum field of a datagram (RFC 768: a zero sum is sent as ones). *)
Definition udp_sum (src dst : ip_addr) (sport dport : Z) (data : list Z) : Z :=
  let d := udp_bytes sport dport 0 data in
  nonzero_sum (checksum (pseudo_header src dst IP_PROTO_UDP (zlen d) ++ d)).

Lemma udp_bytes_len sport dport c data : zlen (udp_bytes sport dport c data) = UDP_HLEN + zlen data.
Proof. unfold udp_bytes, be16, le16, UDP_HLEN. autorewrite with zlen. lia. Qed.

Lemma udp_bytes_ok sport dport c data : bytes_ok data -> bytes_ok (udp_bytes sport dport c data).
Proof. intros Hd. unfold udp_bytes. rewrite !Forall_app. auto with lwip. Qed.


Section UdpHeader.
Context `{NetEnv}.

Lemma udp_checksum_spec h q l sport dport data src dst have chk :
  packet h q l (udp_bytes sport dport 0 data) -> bytes_ok data -> zlen data + UDP_HLEN < 65536 ->
  ip6_ok (u_addr src) -> ip6_ok (u_addr dst) -> (have = true -> chk = canon (word_sum data)) ->
  udp_checksum q (UDP_HLEN + zlen data) have chk src dst h = Ok (udp_sum src dst sport dport data, h).
Proof.
  intros Hpk Hd Hlen Hs Hdst Hc. pose proof (zlen_nonneg data). unfold udp_sum. rewrite udp_bytes_len. unfold UDP_HLEN in *.
  pose proof (udp_bytes_ok sport dport 0 data Hd) as Hb. unfold udp_checksum. destruct have.
  - rewrite Hc by done. unfold bind at 1 2.
    rewrite (ip_chksum_pseudo_partial_spec _ h q l (udp_bytes sport dport 0 data)) by (done || lia).
    destruct (pseudo_header_ok src dst IP_PROTO_UDP (8 + zlen data)) as [Hph Hev]; [done|].
    set (ph := pseudo_header src dst IP_PROTO_UDP (8 + zlen data)) in *. unfold ret.
    set (hd := be16 sport ++ be16 dport ++ be16 (8 + zlen data) ++ le16 0).
    assert (Ed : udp_bytes sport dport 0 data = hd ++ data) by (subst hd; unfold udp_bytes; by rewrite <- !app_assoc).
    rewrite Ed, ztake_app_l, ztake_all by done. unfold checksum.
    rewrite !(word_sum_app_even ph), (word_sum_app_even hd) by done.
    rewrite Z.add_assoc. set (s1 := word_sum ph + word_sum hd). set (s2 := word_sum data).
    pose proof (canon_range s1). pose proof (canon_range s2).
    rewrite u16_lnot, u32_t_id, FOLD_once by lia.
    rewrite u16_t_id by (pose proof (canon_range (65535 - canon s1 + (65535 - canon s2))); lia).
    do 2 f_equal. apply nonzero_sum_add.
  - unfold bind. by rewrite (ip_chksum_pseudo_spec _ h q l (udp_bytes sport dport 0 data)) by (done || lia).
Qed.

(** The checksum that [udp_write_header] puts into the header. *)
Definition udp_field (nochksum : bool) (src dst : ip_addr) (sport dport : Z) (data : list Z) : Z :=
  if IP_IS_V6_VAL dst || negb nochksum then udp_sum src dst sport dport data else 0.

Lemma udp_write_header_spec h q b l d nochksum have chk src sport dst dport :
  packet h q ((q, b) :: l) d -> head_alone ((q, b) :: l) -> bytes_ok (zdrop UDP_HLEN d) -> UDP_HLEN <= pb_len b ->
  ip6_ok (u_addr src) -> ip6_ok (u_addr dst) -> (have = true -> chk = canon (word_sum (zdrop UDP_HLEN d))) ->
  exists h', udp_write_header q nochksum have chk src sport dst dport h = Ok (tt, h') /\
    packet h' q ((q, b) :: l)
      (udp_bytes sport dport (udp_field nochksum src dst sport dport (zdrop UDP_HLEN d)) (zdrop UDP_HLEN d)) /\
    same_but (pb_payload b).1 h h'.
Proof.
  intros Hpk Hal Hd Hlen Hs Hdst Hc. pose proof Hpk as (Hch & Hlens & _). pose proof (packet_len _ _ _ _ Hpk) as Hz.
  assert (Htot : pb_tot_len b = zlen d /\ pb_len b <= zlen d < 65536).
  { rewrite Hz. pose proof (lens_ok_total_lt _ Hlens). simpl in Hlens, Hz |- *. destruct Hlens as (_ & -> & Hlt & Hl).
    pose proof (total_nonneg _ Hl). simpl in *. lia. }
  destruct Htot as (Htot & Hlend).
  assert (Hq : hp_pbufs h !! q = Some b) by (inversion Hch; by simplify_eq).
  unfold udp_write_header. rewrite (bind_ok _ _ _ _ _ (get_pbuf_ok _ _ _ Hq)).
  rewrite (bind_ok _ _ _ _ _ (assert_true _ _ _ ltac:(apply Z.leb_le; exact Hlen))). cbv zeta.
  set (data := zdrop UDP_HLEN d) in *. assert (Hzd : zlen d = UDP_HLEN + zlen data) by (subst data; rewrite zlen_zdrop; unfold UDP_HLEN in *; lia).
  set (ws := [(UDPH_SRC_OFF, le16 (lwip_htons sport)); (UDPH_DEST_OFF, le16 (lwip_htons dport));
    (UDPH_CHKSUM_OFF, le16 0); (UDPH_LEN_OFF, le16 (lwip_htons (pb_tot_len b)))]).
  destruct (hdr_writes_spec UDP_HLEN ws h q b l d Hpk Hal Hlen eq_refl) as (h1 & Hrun & Hpk1 & Hs1).
  assert (Hb0 : patches ws d = udp_bytes sport dport 0 data).
  { subst ws data. unfold udp_bytes. rewrite !le16_htons, Htot, Hzd. unfold UDP_HLEN in *.
    destruct (split8 d) as (? & ? & ? & ? & ? & ? & ? & ? & ->); [lia|]. reflexivity. }
  rewrite Hb0 in Hpk1. match goal with |- exists h', ?m h = _ /\ _ => change (m h) with (hdr_writes (pb_payload b) ws
    (if IP_IS_V6_VAL dst || negb nochksum then
       let* c := udp_checksum q (pb_tot_len b) have chk src dst in
       hdr_write (pb_payload b) UDPH_CHKSUM_OFF (le16 c)
     else ret tt) h) end. rewrite Hrun. unfold udp_field. destruct (IP_IS_V6_VAL dst || negb nochksum).
  - rewrite Htot, Hzd. rewrite (bind_ok _ _ _ _ _ (udp_checksum_spec h1 q _ sport dport data src dst have chk Hpk1
      Hd ltac:(lia) Hs Hdst Hc)).
    set (c := udp_sum src dst sport dport data).
    destruct (packet_write h1 q b l _ UDPH_CHKSUM_OFF (le16 c) Hpk1 Hal) as (h2 & Hw & Hpk2 & Hs2);
      [done|unfold UDP_HLEN, UDPH_CHKSUM_OFF, zlen in *; simpl; lia|].
    exists h2. split; [done|]. split; [|by eapply same_but_trans]. exact Hpk2.
  - exists h1. by split; [|split].
Qed.
End UdpHeader.

(** ** The IPv4 header *)

Definition ip4_hdr (tos len id off ttl proto chk : Z) (src dest : ip4_addr) : list Z :=
  [69; tos] ++ be16 len ++ be16 id ++ be16 off ++ [ttl; proto] ++ le16 chk ++ le32 src ++ le32 dest.

Definition ip4_sum (tos len id off ttl proto : Z) (src dest : ip4_addr) : Z :=
  checksum (ip4_hdr tos len id off ttl proto 0 src dest).

Lemma ip4_hdr_ok tos len id off ttl proto chk src dest : byte_ok tos -> byte_ok ttl -> byte_ok proto ->
  bytes_ok (ip4_hdr tos len id off ttl proto chk src dest).
Proof.
  intros Ht Hl Hp. unfold ip4_hdr. rewrite !Forall_app.
  split_and!; auto with lwip; repeat apply Forall_cons_2; try apply Forall_nil_2; try done; by unfold byte_ok; lia.
Qed.

(** A header with this sum verifies. *)
Lemma ip4_sum_verifies tos len id off ttl proto src dest : byte_ok tos -> byte_ok ttl -> byte_ok proto ->
  checksum (ip4_hdr tos len id off ttl proto (ip4_sum tos len id off ttl proto src dest) src dest) = 0.
Proof.
  intros Ht Hl Hp. unfold ip4_sum.
  set (pre := [69; tos] ++ be16 len ++ be16 id ++ be16 off ++ [ttl; proto]).
  assert (E : forall c, ip4_hdr tos len id off ttl proto c src dest = pre ++ le16 c ++ (le32 src ++ le32 dest)) by done.
  rewrite !E. apply checksum_verifies; [|apply Forall_app; auto with lwip|done].
  subst pre. rewrite !Forall_app. split_and!; auto with lwip; repeat apply Forall_cons_2; try apply Forall_nil_2; try done; by unfold byte_ok; lia.
Qed.

(** [chk_sum = (chk_sum >> 16) + (chk_sum & 0xFFFF); chk_sum += chk_sum >> 16; ~chk_sum]. *)
Lemma short_fold s : 0 <= s < 4294967296 ->
  let c := u32_t (Z.shiftr s 16 + Z.land s 65535) in
  u16_t (u32_t (Z.lnot (u32_t (Z.shiftr c 16 + c)))) = 65535 - canon s.
Proof.
  intros Hs c. destruct (FOLD_eqm s Hs) as (Heq & Hz & Hr). fold (FOLD_U32T s) in c. subst c.
  set (c := FOLD_U32T s) in *. rewrite shiftr16. pose proof (canon_range s).
  assert (Hc : canon s = canon c).
  { apply canon_congr; [|by split; intros; apply Hz]. destruct Heq as (k & ->). exists (- k). lia. }
  rewrite Hc. rewrite (u32_t_id (c / 65536 + c)) by dlia. unfold Z.lnot, u32_t, u16_t, canon.
  destruct (Z.eqb_spec c 0) as [->|Hc0]; [done|]. dlia.
Qed.

Lemma htons_pair a b : byte_ok a -> byte_ok b -> PP_HTONS (Z.lor b (Z.shiftl a 8)) = of_le16 a b.
Proof.
  unfold byte_ok, of_le16. intros Ha Hb. change PP_HTONS with lwip_htons.
  rewrite lwip_htons_arith, Z.lor_comm, shiftl8, lor_add8 by lia. dlia.
Qed.
Lemma htons_word n : 0 <= n < 65536 -> lwip_htons n = word_sum (be16 n).
Proof. intros Hn. rewrite lwip_htons_arith. unfold be16, word_sum, of_le16. dlia. Qed.
Lemma addr_word a : u32_ok a -> Z.land a 65535 + Z.shiftr a 16 = word_sum (le32 a).
Proof.
  unfold u32_ok. intros Ha. rewrite land_ffff, shiftr16. unfold le32, word_sum, of_le16. dlia.
Qed.

(** What [ip4_write_header] adds up is the word sum of the header. *)
Lemma ip4_header_sum tos len id ttl proto src dest : byte_ok tos -> byte_ok ttl -> byte_ok proto ->
  0 <= len < 65536 -> 0 <= id < 65536 -> u32_ok src -> u32_ok dest ->
  let s := u32_t (PP_HTONS (Z.lor proto (Z.shiftl ttl 8))) in
  let s := u32_t (s + Z.land dest 65535) in
  let s := u32_t (s + Z.shiftr dest 16) in
  let s := u32_t (s + PP_HTONS (Z.lor tos (Z.shiftl 69 8))) in
  let s := u32_t (s + lwip_htons len) in
  let s := u32_t (s + lwip_htons id) in
  let s := u32_t (s + Z.land src 65535) in
  let s := u32_t (s + Z.shiftr src 16) in
  let s := u32_t (Z.shiftr s 16 + Z.land s 65535) in
  let s := u32_t (Z.shiftr s 16 + s) in
  u16_t (u32_t (Z.lnot s)) = ip4_sum tos len id 0 ttl proto src dest.
Proof.
  intros Ht Hl Hp Hlen Hid Hs Hd. cbv zeta. rewrite (htons_pair ttl proto), (htons_pair 69 tos) by (done || (unfold byte_ok; lia)).
  pose proof (addr_word src Hs) as Es. pose proof (addr_word dest Hd) as Ed.
  pose proof (lwip_htons_range len). pose proof (lwip_htons_range id).
  assert (Hr : forall a, u32_ok a -> 0 <= Z.land a 65535 < 65536 /\ 0 <= Z.shiftr a 16 < 65536).
  { unfold u32_ok. intros a Ha. rewrite land_ffff, shiftr16. dlia. }
  pose proof (Hr src Hs). pose proof (Hr dest Hd). unfold byte_ok, of_le16 in *.
  rewrite !(u32_t_id (ttl + _)), (u32_t_id (ttl + 256 * proto + _)), (u32_t_id (ttl + 256 * proto + _ + _)) by lia.
  rewrite (u32_t_id (_ + (69 + _))), (u32_t_id (_ + lwip_htons len)), (u32_t_id (_ + lwip_htons id)), (u32_t_id (_ + Z.land src _)), (u32_t_id (_ + Z.shiftr src 16)) by lia.
  rewrite short_fold by lia. unfold ip4_sum, checksum. do 2 f_equal.
  unfold ip4_hdr. rewrite !app_assoc, (word_sum_app_even _ (le32 dest)), (word_sum_app_even _ (le32 src)) by done.
  rewrite <- Es, <- Ed, (htons_word len), (htons_word id) by lia. unfold be16, le16. cbn [app word_sum]. unfold of_le16.
  change (0 / 256) with 0. rewrite !Z.mod_0_l by lia. lia.
Qed.

(** ** The IPv6 header *)

Definition ip6_hdr (tc plen nexth hl : Z) (src dest : ip6_addr) : list Z :=
  be32 (Z.lor (Z.shiftl 6 28) (Z.shiftl tc 20)) ++ be16 plen ++ [nexth; hl] ++ ip6_bytes src ++ ip6_bytes dest.

Lemma split40 (d : list Z) : 40 <= zlen d ->
  exists a b : list Z, exists a0 a1 a2 a3 a4 a5 a6 a7 a8 a9 b0 b1 b2 b3 b4 b5 b6 b7 b8 b9,
  exists c0 c1 c2 c3 c4 c5 c6 c7 c8 c9 d0 d1 d2 d3 d4 d5 d6 d7 d8 d9,
  a = [a0; a1; a2; a3; a4; a5; a6; a7; a8; a9; b0; b1; b2; b3; b4; b5; b6; b7; b8; b9] /\
  b = [c0; c1; c2; c3; c4; c5; c6; c7; c8; c9; d0; d1; d2; d3; d4; d5; d6; d7; d8; d9] /\
  d = a ++ b ++ zdrop 40 d.
Proof.
  intros Hd. destruct (split20 d) as (a0 & a1 & a2 & a3 & a4 & a5 & a6 & a7 & a8 & a9 & b0 & b1 & b2 & b3 & b4 & b5 & b6 & b7 & b8 & b9 & E); [lia|].
  assert (Hz : zlen (zdrop 20 d) = zlen d - 20) by (apply zlen_zdrop; lia).
  destruct (split20 (zdrop 20 d)) as (c0 & c1 & c2 & c3 & c4 & c5 & c6 & c7 & c8 & c9 & d0 & d1 & d2 & d3 & d4 & d5 & d6 & d7 & d8 & d9 & E2); [lia|].
  rewrite zdrop_zdrop in E2 by lia. change (20 + 20) with 40 in E2. rewrite E2 in E.
  eexists _, _. do 40 eexists. split; [reflexivity|]. split; [reflexivity|]. exact E.
Qed.

Section Ip4Header.
Context `{NetEnv}.

Lemma ip4_write_header_spec h q b l d tot_len src dest ttl tos proto id :
  packet h q ((q, b) :: l) d -> head_alone ((q, b) :: l) -> IP_HLEN <= pb_len b ->
  byte_ok tos -> byte_ok ttl -> byte_ok proto -> 0 <= tot_len < 65536 -> 0 <= id < 65536 -> u32_ok src -> u32_ok dest ->
  exists h', ip4_write_header (pb_payload b) tot_len (Some src) dest ttl tos proto id h = Ok (tt, h') /\
    packet h' q ((q, b) :: l)
      (ip4_hdr tos tot_len id 0 ttl proto (ip4_sum tos tot_len id 0 ttl proto src dest) src dest ++ zdrop IP_HLEN d) /\
    same_but (pb_payload b).1 h h'.
Proof.
  intros Hpk Hal Hlen Ht Hl Hp Hlen16 Hid Hs Hd. pose proof (ip4_header_sum tos tot_len id ttl proto src dest Ht Hl Hp Hlen16 Hid Hs Hd) as Hsum.
  set (ws := [(IPH_TTL_OFF, [u8_t ttl]); (IPH_PROTO_OFF, [u8_t proto]); (IPH_DEST_OFF, le32 dest);
    (IPH_VHL_OFF, [69]); (IPH_TOS_OFF, [tos]); (IPH_LEN_OFF, le16 (lwip_htons tot_len));
    (IPH_OFFSET_OFF, le16 0); (IPH_ID_OFF, le16 (lwip_htons id)); (IPH_SRC_OFF, le32 src)]).
  destruct (hdr_writes_spec IP_HLEN ws h q b l d Hpk Hal Hlen eq_refl) as (h1 & Hrun & Hpk1 & Hs1).
  set (c := ip4_sum tos tot_len id 0 ttl proto src dest) in *.
  destruct (packet_write h1 q b l _ IPH_CHKSUM_OFF (le16 c) Hpk1 Hal) as (h2 & Hw & Hpk2 & Hs2);
    [done|unfold IP_HLEN, IPH_CHKSUM_OFF, zlen in *; simpl; lia|].
  exists h2. split; [|split; [|by eapply same_but_trans]].
  - rewrite <- Hw, <- Hrun. rewrite <- Hsum. reflexivity.
  - enough (zpatch IPH_CHKSUM_OFF (le16 c) (patches ws d) = ip4_hdr tos tot_len id 0 ttl proto c src dest ++ zdrop IP_HLEN d) as <- by done.
    assert (Hzd : 20 <= zlen d).
    { pose proof Hpk as (_ & Hlens & _). rewrite (packet_len _ _ _ _ Hpk). unfold IP_HLEN in *. simpl in *.
      pose proof (total_nonneg l ltac:(tauto)). lia. }
    subst ws. rewrite !le16_htons, !u8_t_id by done. unfold IP_HLEN.
    destruct (split20 d Hzd) as (? & ? & ? & ? & ? & ? & ? & ? & ? & ? & ? & ? & ? & ? & ? & ? & ? & ? & ? & ? & ->).
    reflexivity.
Qed.

Lemma ip6_write_header_spec h q b l d tot_len src dest hl tc nexth :
  packet h q ((q, b) :: l) d -> head_alone ((q, b) :: l) -> IP6_HLEN <= pb_len b -> byte_ok hl ->
  IP6_HLEN <= tot_len < 65536 ->
  exists h', ip6_write_header (pb_payload b) tot_len src dest hl tc nexth h = Ok (tt, h') /\
    packet h' q ((q, b) :: l) (ip6_hdr tc (tot_len - IP6_HLEN) nexth hl src dest ++ zdrop IP6_HLEN d) /\
    same_but (pb_payload b).1 h h'.
Proof.
  intros Hpk Hal Hlen Hhl Htot.
  set (ws := [(IP6_HOPLIM_OFF, [u8_t hl]); (IP6_NEXTH_OFF, [nexth]); (IP6_DEST_OFF, ip6_bytes dest);
    (0, le32 (lwip_htonl (Z.lor (Z.shiftl 6 28) (Z.shiftl tc 20)))); (IP6_PLEN_OFF, le16 (lwip_htons (u16_t (tot_len - IP6_HLEN))))]).
  destruct (hdr_writes_spec IP6_HLEN ws h q b l d Hpk Hal Hlen eq_refl) as (h1 & Hrun & Hpk1 & Hs1).
  destruct (packet_write h1 q b l _ IP6_SRC_OFF (ip6_bytes src) Hpk1 Hal) as (h2 & Hw & Hpk2 & Hs2);
    [done|unfold IP6_HLEN, IP6_SRC_OFF, zlen in *; simpl; lia|].
  exists h2. split; [|split; [|by eapply same_but_trans]].
  - rewrite <- Hw, <- Hrun. reflexivity.
  - enough (zpatch IP6_SRC_OFF (ip6_bytes src) (patches ws d) =
      ip6_hdr tc (tot_len - IP6_HLEN) nexth hl src dest ++ zdrop IP6_HLEN d) as <- by done.
    assert (Hzd : 40 <= zlen d).
    { pose proof Hpk as (_ & Hlens & _). rewrite (packet_len _ _ _ _ Hpk). unfold IP6_HLEN in *. simpl in *.
      pose proof (total_nonneg l ltac:(tauto)). lia. }
    subst ws. rewrite le16_htons, le32_htonl, u8_t_id, u16_t_id by (done || (unfold IP6_HLEN in *; lia)). unfold IP6_HLEN in *.
    destruct (split40 d Hzd) as (a & r & Hsp). do 40 destruct Hsp as (? & Hsp). destruct Hsp as (-> & -> & ->). reflexivity.
Qed.
End Ip4Header.

(** A datagram with this sum verifies; the field is never zero. *)
Lemma udp_sum_verifies src dst sport dport data : bytes_ok data ->
  let c := udp_sum src dst sport dport data in
  0 < c <= 65535 /\
  checksum (pseudo_header src dst IP_PROTO_UDP (UDP_HLEN + zlen data) ++ udp_bytes sport dport c data) = 0.
Proof.
  intros Hd c. destruct (pseudo_header_ok src dst IP_PROTO_UDP (UDP_HLEN + zlen data)) as (Hph & Hev); [done|].
  assert (Ec : c = nonzero_sum (checksum (pseudo_header src dst IP_PROTO_UDP (UDP_HLEN + zlen data) ++ udp_bytes sport dport 0 data)))
    by (unfold c, udp_sum; by rewrite udp_bytes_len).
  rewrite Ec. clear c Ec. set (ph := pseudo_header src dst IP_PROTO_UDP (UDP_HLEN + zlen data)) in *.
  set (pre := be16 sport ++ be16 dport ++ be16 (UDP_HLEN + zlen data)).
  assert (E : forall v, ph ++ udp_bytes sport dport v data = (ph ++ pre) ++ le16 v ++ data)
    by (intros v; subst pre; unfold udp_bytes; by rewrite <- !app_assoc).
  assert (Hpre : bytes_ok (ph ++ pre)) by (subst pre; rewrite !Forall_app; auto with lwip).
  assert (Hevp : Z.even (zlen (ph ++ pre)) = true) by (rewrite zlen_app, Z.even_add, Hev; done).
  rewrite (E 0). set (c := checksum ((ph ++ pre) ++ le16 0 ++ data)).
  pose proof (checksum_verifies (ph ++ pre) data Hpre Hd Hevp) as Hver. change [0; 0] with (le16 0) in Hver. fold c in Hver.
  assert (Hc : 0 <= c <= 65535) by (subst c; unfold checksum; pose proof (canon_range (word_sum ((ph ++ pre) ++ le16 0 ++ data))); lia).
  unfold nonzero_sum. destruct (Z.eqb_spec c 0) as [Hz|Hnz]; [|rewrite E; split; [lia|done]].
  split; [lia|]. rewrite E. rewrite Hz in Hver. unfold checksum in Hver |- *.
  rewrite !word_sum_app_even in Hver |- * by done. change (word_sum (le16 0)) with 0 in Hver. change (word_sum (le16 65535)) with 65535.
  pose proof (word_sum_nonneg _ Hpre) as H0. rewrite word_sum_app_even in H0 by done. pose proof (word_sum_nonneg _ Hd).
  set (s := word_sum ph + word_sum pre + (0 + word_sum data)) in *.
  replace (word_sum ph + word_sum pre + (65535 + word_sum data)) with (s + 65535) by lia. unfold canon in *.
  destruct (Z.eqb_spec s 0); [lia|]. destruct (Z.eqb_spec (s + 65535) 0); [lia|].
  replace (s + 65535 - 1) with (s - 1 + 1 * 65535) by lia. rewrite Z.mod_add by lia. lia.
Qed.
