(* ===== verification/Prepend.v ===== *)
(** * Making room for headers

    Headers are put in front of a packet in place, when its first buffer has room, or in a
    new buffer that is chained to it.  The lemmas say what either way does to the packet. *)

From S2P Require Import Prelude Def Pbuf PbufFacts PbufMut PbufData PbufAlloc Datagram.

(** ** In place *)

(** A buffer whose data lies behind its own struct, [k] bytes of it unused. *)
Record room (h : heap) (p : Z) (b : pbuf) (k : Z) : Prop := Room {
  rm_contiguous : Z.land (pb_type_internal b) PBUF_TYPE_FLAG_STRUCT_DATA_CONTIGUOUS <> 0;
  rm_own : (pb_payload b).1 = p;
  rm_off : SIZEOF_STRUCT_PBUF + k <= (pb_payload b).2;
  rm_block : exists bs, hp_blocks h !! p = Some bs /\ (pb_payload b).2 + pb_len b <= zlen bs
}.

Lemma room_le h p b k k' : room h p b k -> k' <= k -> room h p b k'.
Proof. intros [Hc Ho Hoff Hb] Hk. split; try done. lia. Qed.

(** The buffer after [k] bytes have been taken from its room. *)
Lemma room_taken h h' p b k k' : room h p b k -> 0 <= k' ->
  (forall bs, hp_blocks h !! p = Some bs -> exists bs', hp_blocks h' !! p = Some bs' /\ zlen bs' = zlen bs) ->
  room h' p (strip_rec (- k') b) (k - k').
Proof.
  intros [Hc Ho Hoff (bs & Hbs & Hlen)] Hk Hbl. split; [done|done|simpl; lia|].
  destruct (Hbl bs Hbs) as (bs' & Hbs' & Hz). exists bs'. split; [done|]. simpl. lia.
Qed.

Lemma load_bytes_some h ptr n bs : hp_blocks h !! ptr.1 = Some bs -> 0 <= ptr.2 -> 0 <= n -> ptr.2 + n <= zlen bs ->
  load_bytes h ptr n = Some (zslice ptr.2 n bs).
Proof.
  intros Hb Ho Hn Hle. unfold load_bytes. destruct (Z.eqb_spec n 0) as [->|Hne].
  { unfold zslice. by rewrite ztake_nonpos. }
  rewrite Hb. rewrite (proj2 (Z.leb_le _ _) Ho), (proj2 (Z.leb_le _ _) Hn), (proj2 (Z.leb_le _ _) Hle). done.
Qed.

Lemma packet_head h p b l d : packet h p ((p, b) :: l) d ->
  p <> 0 /\ hp_pbufs h !! p = Some b /\ pb_tot_len b = zlen d /\ 0 <= pb_len b <= zlen d /\ zlen d < 65536.
Proof.
  intros (Hc & Hl & Hd). pose proof (contents_len _ _ _ Hl Hd) as Hz. pose proof (lens_ok_total_lt _ Hl).
  inversion Hc; simplify_eq. simpl in *. destruct Hl as (H0 & Ht & _ & Hl). pose proof (total_nonneg _ Hl).
  split_and!; try done; lia.
Qed.

Lemma prepend_spec h p b l d k force : packet h p ((p, b) :: l) d -> room h p b k -> 0 <= k -> k + zlen d < 65536 ->
  exists pre, zlen pre = k /\ pbuf_add_header_impl p k force h = Ok (0, setp h (p, strip_rec (- k) b)) /\
    packet (setp h (p, strip_rec (- k) b)) p ((p, strip_rec (- k) b) :: l) (pre ++ d).
Proof.
  intros Hpk [Hco Hown Hoff (bs & Hbs & Hle)] Hk Hlt. destruct (packet_head _ _ _ _ _ Hpk) as (Hp0 & Hp & Ht & Hbl & _).
  unfold SIZEOF_STRUCT_PBUF in Hoff. destruct (pb_payload b) as [blk off] eqn:Epay. simpl in *. subst blk.
  exists (zslice (off - k) k bs). split; [|split].
  - apply zlen_zslice; lia.
  - rewrite (pbuf_add_header_impl_spec h p b k force) by (rewrite ?Epay; done || (unfold SIZEOF_STRUCT_PBUF; simpl; lia)).
    rewrite Epay, Ht. unfold SIZEOF_STRUCT_PBUF. simpl. destruct (Z.ltb_spec 65535 (k + zlen d)); [lia|].
    by destruct (Z.ltb_spec (off - k) 24); [lia|].
  - pose proof Hpk as (Hc & Hl & Hd). pose proof (chain_NoDup _ _ _ Hc) as Hnd. simpl in Hnd. apply NoDup_cons in Hnd as [Hnin _].
    apply contents_cons_inv in Hd as (d1 & d2 & Hd1 & Hd2 & ->). inversion Hc as [|? ? ? _ _ Hc2]; simplify_eq. split; [|split].
    + constructor; [done|apply setp_lookup_eq|]. eapply chain_frame; [exact Hc2|].
      intros q Hq. apply setp_lookup_ne. by intros <-.
    + simpl in *. rewrite Epay in *. pose proof (total_nonneg l ltac:(tauto)). simpl in *.
      autorewrite with zlen in *. split_and!; try tauto; lia.
    + cbn [contents]. assert (Hlo : load_bytes h (p, off) (pb_len b) = Some (zslice off (pb_len b) bs))
        by (apply load_bytes_some; simpl; done || lia).
      assert (E1 : zslice off (pb_len b) bs = d1) by congruence.
      rewrite (contents_frame h) by done. rewrite Hd2. cbn. rewrite Epay. cbn.
      unfold strip_rec; cbn. rewrite Epay; cbn.
      rewrite (load_bytes_some _ _ _ bs) by (cbn; done || lia). cbn. rewrite app_assoc, <- E1. do 2 f_equal.
      pose proof (zslice_split (off - k) k (pb_len b) bs ltac:(lia) ltac:(lia) ltac:(lia)) as E2.
      replace (off - k + k) with off in E2 by lia. rewrite E2. f_equal; lia.
Qed.

(** A packet whose first buffer is ready for another header of [k] bytes. *)
Record ready (h : heap) (q : Z) (bq : pbuf) (lq : list (Z * pbuf)) (d : list Z) (k : Z) : Prop := Ready {
  rd_packet : packet h q ((q, bq) :: lq) d;
  rd_alone : head_alone ((q, bq) :: lq);
  rd_ref : pb_ref bq = 1;
  rd_room : room h q bq k
}.

(** Writing into the block of the first buffer leaves the packet ready. *)
Lemma ready_write h h' q bq lq d d' k : ready h q bq lq d k -> packet h' q ((q, bq) :: lq) d' ->
  (forall bs, hp_blocks h !! q = Some bs -> exists bs', hp_blocks h' !! q = Some bs' /\ zlen bs' = zlen bs) ->
  ready h' q bq lq d' k.
Proof.
  intros [Hpk Hal Hr [Hc Ho Hoff (bs & Hbs & Hle)]] Hpk' Hb. split; try done. split; try done.
  destruct (Hb bs Hbs) as (bs' & Hbs' & Hz). exists bs'. split; [done|lia].
Qed.

Lemma ready_head h q bq lq d k : ready h q bq lq d k -> q <> 0 /\ hp_pbufs h !! q = Some bq.
Proof. intros [Hpk _ _ _]. destruct (packet_head _ _ _ _ _ Hpk) as (? & ? & _). done. Qed.

Lemma ready_prepend h q bq lq d k n force : ready h q bq lq d (n + k) -> 0 <= n -> 0 <= k -> n + zlen d < 65536 ->
  exists pre, zlen pre = n /\ pbuf_add_header_impl q n force h = Ok (0, setp h (q, strip_rec (- n) bq)) /\
    ready (setp h (q, strip_rec (- n) bq)) q (strip_rec (- n) bq) lq (pre ++ d) k.
Proof.
  intros [Hpk Hal Hr Hroom] Hn Hk Hlt.
  destruct (prepend_spec h q bq lq d n force Hpk ltac:(eapply room_le; [exact Hroom|lia]) Hn Hlt) as (pre & Hz & Hrun & Hpk').
  exists pre. split; [done|]. split; [done|]. split; try done.
  replace k with (n + k - n) by lia. eapply (room_taken h); [done..|].
  intros bs Hbs. exists bs. by rewrite setp_blocks.
Qed.

(** ** In a new buffer *)

Section NewBuffer.
Context `{Malloc} (cf : Z -> M heap unit).

Definition ram_pbuf (q layer n : Z) : pbuf :=
  mkPbuf 0 (q, SIZEOF_STRUCT_PBUF + layer) n n (u8_t PBUF_RAM) 0 1 NETIF_NO_INDEX.

(** [pbuf_alloc(layer, n, PBUF_RAM)]: no memory, or a buffer in a new block. *)
Lemma pbuf_alloc_ram_run h layer n : 0 <= layer -> 0 <= n -> layer + n < 65536 ->
  pbuf_alloc cf layer n PBUF_RAM h = Ok (0, h) \/
  exists q bs, pbuf_alloc cf layer n PBUF_RAM h = Ok (q, setp (add_block h q bs) (q, ram_pbuf q layer n)) /\
    q <> 0 /\ hp_pbufs h !! q = None /\ hp_blocks h !! q = None /\
    zlen bs = SIZEOF_STRUCT_PBUF + layer + n /\ bytes_ok bs.
Proof.
  intros Hl Hn Hlt. unfold pbuf_alloc. change (PBUF_RAM =? PBUF_REF) with false. change (PBUF_RAM =? PBUF_ROM) with false.
  change (PBUF_RAM =? PBUF_POOL) with false. change (PBUF_RAM =? PBUF_RAM) with true. cbn [orb].
  rewrite (u16_t_id layer) by lia. rewrite !LWIP_MEM_ALIGN_SIZE_id by (unfold SIZEOF_STRUCT_PBUF; lia).
  rewrite (u16_t_id (layer + n)), u64_t_id by (unfold SIZEOF_STRUCT_PBUF; lia).
  destruct (Z.ltb_spec (layer + n) n); [lia|]. destruct (Z.ltb_spec (SIZEOF_STRUCT_PBUF + (layer + n)) n); [unfold SIZEOF_STRUCT_PBUF in *; lia|].
  cbn [orb]. destruct (mem_malloc_cases h (SIZEOF_STRUCT_PBUF + (layer + n))) as [Hm|(q & bs & Hm & Hq & Hf & Hfb & Hz & Hb)].
  - left. rewrite (bind_ok _ _ _ _ _ Hm). done.
  - right. exists q, bs. rewrite (bind_ok _ _ _ _ _ Hm). destruct (Z.eqb_spec q 0); [done|].
    rewrite (bind_ok _ _ _ _ _ (init_pbuf h q bs _ _ _ _ _ ltac:(unfold SIZEOF_STRUCT_PBUF in *; lia))).
    split_and!; try done. lia.
Qed.

Lemma ram_packet h q bs layer n : q <> 0 -> zlen bs = SIZEOF_STRUCT_PBUF + layer + n -> 0 <= layer -> 0 <= n < 65536 ->
  packet (setp (add_block h q bs) (q, ram_pbuf q layer n)) q [(q, ram_pbuf q layer n)] (zslice (SIZEOF_STRUCT_PBUF + layer) n bs) /\
  room (setp (add_block h q bs) (q, ram_pbuf q layer n)) q (ram_pbuf q layer n) layer.
Proof.
  intros Hq Hz Hl Hn. split.
  - split; [|split].
    + constructor; [done|apply setp_lookup_eq|constructor].
    + simpl. split_and!; try done; lia.
    + cbn [contents]. rewrite (load_bytes_some _ _ _ bs);
        [by rewrite app_nil_r|by rewrite setp_blocks; simpl; rewrite lookup_insert_eq|..];
        simpl; unfold SIZEOF_STRUCT_PBUF in *; lia.
  - split; [done|done|simpl; lia|]. exists bs. split; [by rewrite setp_blocks; simpl; rewrite lookup_insert_eq|simpl; lia].
Qed.

(** [pbuf_chain] on a single buffer in front. *)
Lemma pbuf_chain_one h q b t bt : q <> 0 -> t <> 0 -> q <> t -> hp_pbufs h !! q = Some b -> hp_pbufs h !! t = Some bt ->
  pb_next b = 0 -> pb_tot_len b = pb_len b -> 0 <= pb_ref bt < 255 ->
  pbuf_chain q t h = Ok (tt, setp (setp h (q, set_next t (set_tot_len (u16_t (pb_len b + pb_tot_len bt)) b)))
                               (t, set_ref (pb_ref bt + 1) bt)).
Proof.
  intros Hq0 Ht0 Hne Hq Ht Hn Htl Hr. unfold pbuf_chain, pbuf_cat, chain_fuel, bind, lwip_assert, ret.
  destruct (Z.eqb_spec q 0); [done|]. destruct (Z.eqb_spec t 0) as [|Hnt]; [done|]. cbn [negb andb].
  cbn [pbuf_cat_loop]. unfold bind, ret. rewrite (get_pbuf_ok _ _ _ Hq), Hn, Z.eqb_refl. rewrite (get_pbuf_ok _ _ _ Hq), Hn, Htl, !Z.eqb_refl.
  rewrite (get_pbuf_ok _ _ _ Ht). rewrite (upd_pbuf_ok _ _ _ _ Hq).
  rewrite (upd_pbuf_ok _ _ _ _ (setp_lookup_eq _ _ _)), setp_setp. unfold pbuf_ref, bind, lwip_assert, ret.
  destruct (Z.eqb_spec t 0); [done|]. cbn [negb].
  set (h1 := setp h _). assert (Ht1 : hp_pbufs h1 !! t = Some bt) by (subst h1; by rewrite setp_lookup_ne).
  rewrite (upd_pbuf_ok _ _ _ _ Ht1), (get_pbuf_ok _ _ _ (setp_lookup_eq _ _ _)). simpl.
  rewrite u8_t_id by lia. destruct (Z.ltb_spec 0 (pb_ref bt + 1)); [|lia].
  by rewrite <- Htl.
Qed.

(** The data of all buffers lies in blocks that are allocated. *)
Definition live (h : heap) (l : list (Z * pbuf)) : Prop :=
  forall B, B ∈ payload_blocks l -> is_Some (hp_blocks h !! B).

Lemma live_avoids h l q : live h l -> hp_blocks h !! q = None -> payload_avoids q l.
Proof. intros Hl Hq. apply avoids_iff. intros Hin. destruct (Hl q Hin) as (? & ?). congruence. Qed.

Lemma chain_new h q bs layer n p b l d :
  q <> 0 -> hp_pbufs h !! q = None -> hp_blocks h !! q = None -> zlen bs = SIZEOF_STRUCT_PBUF + layer + n ->
  0 <= layer -> 0 <= n -> packet h p ((p, b) :: l) d -> live h ((p, b) :: l) -> pb_ref b = 1 -> n + zlen d < 65536 ->
  exists h2 bq lq pre, pbuf_chain q p (setp (add_block h q bs) (q, ram_pbuf q layer n)) = Ok (tt, h2) /\
    zlen pre = n /\ pb_len bq = n /\ ready h2 q bq lq (pre ++ d) layer.
Proof.
  intros Hq Hf Hfb Hz Hl Hn Hpk Hlive Href Hlt. destruct (packet_head _ _ _ _ _ Hpk) as (Hp0 & Hp & Ht & Hbl & _).
  pose proof (live_avoids _ _ _ Hlive Hfb) as Hav. assert (Hne : q <> p) by congruence.
  set (h1 := setp (add_block h q bs) (q, ram_pbuf q layer n)). set (rq := ram_pbuf q layer n) in *.
  assert (Hp1 : hp_pbufs h1 !! p = Some b) by (subst h1; by rewrite setp_lookup_ne).
  pose proof (pbuf_chain_one h1 q rq p b Hq Hp0 Hne (setp_lookup_eq _ _ _) Hp1 eq_refl eq_refl ltac:(lia)) as Hrun.
  set (bq := set_next p (set_tot_len (u16_t (pb_len rq + pb_tot_len b)) rq)) in *.
  set (h2 := setp (setp h1 (q, bq)) (p, set_ref (pb_ref b + 1) b)) in *.
  exists h2, bq, ((p, set_ref (pb_ref b + 1) b) :: l), (zslice (SIZEOF_STRUCT_PBUF + layer) n bs).
  assert (Hbs : hp_blocks h2 !! q = Some bs) by (subst h2 h1; rewrite !setp_blocks; simpl; by rewrite lookup_insert_eq).
  split; [done|]. split; [apply zlen_zslice; unfold SIZEOF_STRUCT_PBUF in *; lia|]. split; [done|].
  pose proof Hpk as (Hc & Hlens & Hd). pose proof (chain_NoDup _ _ _ Hc) as Hnd. simpl in Hnd. apply NoDup_cons in Hnd as [Hnin _].
  inversion Hc as [|? ? ? _ _ Hc2]; simplify_eq.
  assert (Hql : q ∉ l.*1).
  { intros ((x & y) & -> & Hin)%list_elem_of_fmap. destruct (chain_lookup _ _ _ _ _ Hc2 Hin) as (_ & ?). simpl in *. congruence. }
  split; [split; [|split]| |done|].
  - constructor; [done|subst h2; rewrite setp_lookup_ne by done; apply setp_lookup_eq|].
    constructor; [done|apply setp_lookup_eq|]. eapply chain_frame; [exact Hc2|]. intros x Hx. subst h2 h1.
    by rewrite !setp_lookup_ne by (intros <-; done).
  - pose proof (packet_len _ _ _ _ Hpk) as Hzd. simpl in *. rewrite Ht, u16_t_id by lia. simpl. split_and!; try tauto; lia.
  - cbn [contents]. assert (Hrest : contents h2 ((p, set_ref (pb_ref b + 1) b) :: l) = Some d).
    { rewrite <- Hd. cbn [contents]. assert (Hx : forall x, x <> q -> hp_blocks h2 !! x = hp_blocks h !! x).
      { intros x Hx. subst h2 h1. rewrite !setp_blocks. simpl. by rewrite lookup_insert_ne. }
      apply Forall_cons in Hav as [Hpb Hav]. simpl in Hpb. change (pb_payload (set_ref (pb_ref b + 1) b)) with (pb_payload b).
      change (pb_len (set_ref (pb_ref b + 1) b)) with (pb_len b). rewrite (load_frame h h2) by (by apply Hx).
      rewrite (contents_frame h h2 l); [done|]. intros x y Hxy. apply Hx. rewrite Forall_forall in Hav.
      by specialize (Hav (x, y) Hxy). }
    cbn [contents] in Hrest. rewrite Hrest. rewrite (load_bytes_some _ _ _ bs);
      [done|done|..]; simpl; unfold SIZEOF_STRUCT_PBUF in *; lia.
  - apply Forall_cons in Hav as [Hpb Hav]. by apply Forall_cons_2.
  - split; [done|done|simpl; lia|]. exists bs. split; [done|]. simpl. lia.
Qed.

End NewBuffer.
