(* ===== verification/UdpSend.v ===== *)
(** * The way of a datagram to the interface

    [udp_sendto_if_src_chksum] puts a UDP header in front of the data and hands the packet
    to the IP layer; [ip4_output_if_src] puts an IPv4 header in front of that and hands it
    to the interface.  The lemmas follow the bytes of the packet all the way. *)

From S2P Require Import Prelude Def IpAddr Pbuf PbufFacts PbufMut PbufData PbufAlloc.
From S2P Require Import OnesComplement InetChksum Net Netif IpOut Udp Datagram Prepend.

(** The first buffer of a packet that is to be sent: [k] bytes of room, or too little for
    the UDP header, in which case the header goes into a buffer of its own. *)
Definition sendable (h : heap) (p : Z) (b : pbuf) (k : Z) : Prop :=
  room h p b k \/
  Z.land (pb_type_internal b) PBUF_TYPE_FLAG_STRUCT_DATA_CONTIGUOUS = 0 \/
  (Z.land (pb_type_internal b) PBUF_TYPE_FLAG_STRUCT_DATA_CONTIGUOUS <> 0 /\
   (pb_payload b).1 = p /\ SIZEOF_STRUCT_PBUF <= (pb_payload b).2 < SIZEOF_STRUCT_PBUF + UDP_HLEN).

Lemma no_room h p b l d : packet h p ((p, b) :: l) d -> zlen d + UDP_HLEN < 65536 ->
  Z.land (pb_type_internal b) PBUF_TYPE_FLAG_STRUCT_DATA_CONTIGUOUS = 0 \/
  (Z.land (pb_type_internal b) PBUF_TYPE_FLAG_STRUCT_DATA_CONTIGUOUS <> 0 /\
   (pb_payload b).1 = p /\ SIZEOF_STRUCT_PBUF <= (pb_payload b).2 < SIZEOF_STRUCT_PBUF + UDP_HLEN) ->
  pbuf_add_header p UDP_HLEN h = Ok (1, h).
Proof.
  intros Hpk Hlt Hno. destruct (packet_head _ _ _ _ _ Hpk) as (Hp0 & Hp & Ht & Hbl & _). unfold UDP_HLEN in *.
  destruct Hno as [Hc|(Hc & Hown & Hoff)].
  - unfold pbuf_add_header, pbuf_add_header_impl. destruct (Z.eqb_spec p 0); [done|]. cbn [negb].
    rewrite (bind_ok _ _ _ _ _ (assert_true _ _ _ eq_refl)). change (65535 <? 8) with false. change (8 =? 0) with false. cbv zeta iota.
    rewrite (bind_ok _ _ _ _ _ (get_pbuf_ok _ _ _ Hp)). change (u16_t 8) with 8. rewrite u16_t_id by lia.
    destruct (Z.ltb_spec (8 + pb_tot_len b) 8); [lia|]. rewrite Hc. done.
  - unfold pbuf_add_header. rewrite (pbuf_add_header_impl_spec h p b) by (done || lia). rewrite Ht.
    destruct (Z.ltb_spec 65535 (8 + zlen d)); [lia|]. destruct (Z.ltb_spec ((pb_payload b).2 - 8) SIZEOF_STRUCT_PBUF); [done|lia].
Qed.

(** ** The UDP header *)

Section UdpSend.
Context `{Malloc} `{NetEnv}.

Lemma udp_add_header_spec h p b l d k : packet h p ((p, b) :: l) d -> head_alone ((p, b) :: l) -> live h ((p, b) :: l) ->
  pb_ref b = 1 -> sendable h p b (UDP_HLEN + k) -> 0 <= k <= PBUF_IP -> zlen d + UDP_HLEN < 65536 ->
  exists q h', udp_add_header p (zlen d) h = Ok (q, h') /\
    ((q = 0 /\ h' = h) \/
     exists bq lq pre, q <> 0 /\ zlen pre = UDP_HLEN /\ UDP_HLEN <= pb_len bq /\ ready h' q bq lq (pre ++ d) k).
Proof.
  intros Hpk Hal Hlive Href Hs Hk Hlt. destruct (packet_head _ _ _ _ _ Hpk) as (Hp0 & Hp & Ht & Hbl & _). unfold udp_add_header.
  destruct Hs as [Hroom|Hno].
  - destruct (ready_prepend h p b l d k UDP_HLEN 0) as (pre & Hz & Hrun & Hrd); [done|done|lia|lia|].
    fold (pbuf_add_header p UDP_HLEN) in Hrun. rewrite (bind_ok _ _ _ _ _ Hrun). cbn [Z.eqb negb].
    exists p, (setp h (p, strip_rec (- UDP_HLEN) b)). split; [done|]. right. exists (strip_rec (- UDP_HLEN) b), l, pre.
    split_and!; try done. simpl. lia.
  - rewrite (bind_ok _ _ _ _ _ (no_room h p b l d Hpk Hlt Hno)). cbn [Z.eqb negb].
    destruct (pbuf_alloc_ram_run custom_free h PBUF_IP UDP_HLEN) as [Ha|(q & bs & Ha & Hq & Hf & Hfb & Hz & Hb)]; [done..| |].
    { exists 0, h. rewrite (bind_ok _ _ _ _ _ Ha). split; [done|]. by left. }
    rewrite (bind_ok _ _ _ _ _ Ha). destruct (Z.eqb_spec q 0); [done|].
    destruct (ram_packet h q bs PBUF_IP UDP_HLEN Hq Hz) as (Hqpk & Hqroom); [done|done|].
    set (h1 := setp (add_block h q bs) (q, ram_pbuf q PBUF_IP UDP_HLEN)) in *.
    assert (Hne : q <> p) by (intros ->; congruence).
    assert (Hqnl : payload_avoids q ((p, b) :: l)).
    { apply avoids_iff. intros Hin. destruct (Hlive q Hin) as (? & ?). congruence. }
    destruct (Z.eqb_spec (zlen d) 0) as [Hd0|Hd0]; cbn [negb].
    + exists q, h1. split; [done|]. right. apply zlen_0_inv in Hd0 as ->. eexists _, [], _. split; [done|]. rewrite app_nil_r.
      split; [|split; [|split; [exact Hqpk|by apply Forall_nil_2|done|eapply room_le; [exact Hqroom|lia]]]]; [|done].
      apply zlen_zslice; unfold PBUF_IP, UDP_HLEN, SIZEOF_STRUCT_PBUF in *; lia.
    + destruct (chain_new custom_free h q bs PBUF_IP UDP_HLEN p b l d) as (h2 & bq & lq & pre & Hrun & Hpre & Hlq & Hrd); try done; [lia|].
      fold h1 in Hrun. rewrite (bind_ok _ _ _ _ _ Hrun). exists q, h2. split; [done|]. right. exists bq, lq, pre.
      split_and!; try done; [lia|]. destruct Hrd as [? ? ? ?]. split; try done. eapply room_le; [done|lia].
Qed.
(** What [udp_sendto_if_src_chksum] does when nothing is wrong with its arguments: with no
    memory for a header nothing happens; otherwise [ip_output_if_src] gets the datagram. *)
Definition datagram_out (p q : Z) (u : udp_pcb) (src dst : ip_addr) (nif : Z) : M net Z :=
  let* err := ip_output_if_src q src dst (udp_ttl u) (udp_tos u) IP_PROTO_UDP nif in
  (if negb (q =? p) then let* _ := lift (pbuf_free custom_free q) in ret tt else ret tt) ;;;
  ret err.

Definition nochksum (u : udp_pcb) : bool := has_flag (udp_flags u) UDP_FLAGS_NOCHKSUM.

Record sendto_ok (n : net) (pcb p : Z) (u : udp_pcb) (b : pbuf) (l : list (Z * pbuf)) (d : list Z) (k : Z)
    (dst src : ip_addr) (nif : Z) : Prop := SendtoOk {
  so_pcb : pcb <> 0 /\ n_udps n !! pcb = Some u;
  so_bound : udp_local_port u <> 0;
  so_match : IP_ADDR_PCB_VERSION_MATCH u src = true /\ IP_ADDR_PCB_VERSION_MATCH u dst = true;
  so_nif : nif <> 0;
  so_packet : packet (n_heap n) p ((p, b) :: l) d;
  so_bytes : bytes_ok d;
  so_alone : head_alone ((p, b) :: l);
  so_live : live (n_heap n) ((p, b) :: l);
  so_ref : pb_ref b = 1;
  so_room : sendable (n_heap n) p b (UDP_HLEN + k);
  so_len : zlen d + UDP_HLEN < 65536;
  so_addrs : ip6_ok (u_addr src) /\ ip6_ok (u_addr dst)
}.

Lemma udp_sendto_if_src_spec n pcb p u b l d k dst dport nif have chk src sport :
  sendto_ok n pcb p u b l d k dst src nif -> 0 <= k <= PBUF_IP ->
  (have = true -> chk = canon (word_sum d)) ->
  udp_sendto_if_src_chksum pcb p dst dport nif have chk src sport n = Ok (ERR_MEM, n) \/
  exists q h1 bq lq, udp_sendto_if_src_chksum pcb p dst dport nif have chk src sport n =
      datagram_out p q u src dst nif (n <| n_heap := h1 |>) /\
    ready h1 q bq lq (udp_bytes sport dport (udp_field (nochksum u) src dst sport dport d) d) k.
Proof.
  intros [(Hpcb & Hu) Hb (Hms & Hmd) Hnif Hpk Hd Hal Hlive Href Hroom Hlen (Has & Had)] Hk Hc.
  destruct (packet_head _ _ _ _ _ Hpk) as (Hp0 & Hp & Ht & _). unfold udp_sendto_if_src_chksum.
  destruct (Z.eqb_spec pcb 0); [done|]. destruct (Z.eqb_spec p 0); [done|]. destruct (Z.eqb_spec nif 0); [done|]. cbn [negb].
  do 3 rewrite (bind_ok _ _ _ _ _ (assert_true _ _ _ eq_refl)). rewrite (bind_ok _ _ _ _ _ (get_udp_ok _ _ _ Hu)).
  rewrite Hms, Hmd. cbn [negb orb]. destruct (Z.eqb_spec (udp_local_port u) 0); [done|]. rewrite bind_ret_l. change (ERR_OK =? ERR_OK) with true. cbn [negb].
  rewrite (bind_ok _ _ _ _ _ (lift_same _ n b (get_pbuf_ok _ _ _ Hp))). rewrite Ht.
  unfold UDP_HLEN in Hlen. rewrite u16_t_id by (unfold UDP_HLEN; pose proof (zlen_nonneg d); lia).
  destruct (Z.ltb_spec (zlen d + UDP_HLEN) (zlen d)) as [Hlt|_]; [unfold UDP_HLEN in Hlt; lia|].
  destruct (udp_add_header_spec (n_heap n) p b l d k) as (q & h1 & Hadd & Hcase); try done.
  rewrite (bind_ok _ _ _ _ _ (lift_ok _ n _ _ Hadd)). destruct Hcase as [(-> & ->)|(bq & lq & pre & Hq & Hpre & Hbq & Hrd)].
  { left. cbn [Z.eqb]. f_equal. f_equal. by destruct n. }
  right. destruct (Z.eqb_spec q 0); [done|]. pose proof Hrd as [Hqpk Hqal Hqref Hqroom].
  pose proof (zdrop_exact pre d UDP_HLEN Hpre) as Hzd.
  destruct (udp_write_header_spec h1 q bq lq (pre ++ d) (nochksum u) have chk src sport dst dport)
    as (h2 & Hw & Hpk2 & Hsame); try done; [by rewrite Hzd|by rewrite Hzd|]. rewrite Hzd in Hpk2.
  exists q, h2, bq, lq. split.
  - rewrite (bind_ok _ _ _ _ _ (lift_heap _ n _ _ _ Hw)).
    reflexivity.
  - eapply ready_write; [exact Hrd|exact Hpk2|]. rewrite <- (rm_own _ _ _ _ Hqroom). apply Hsame.
Qed.

End UdpSend.

(** ** The IPv4 header *)

Section IpSend.
Context `{Malloc} `{NetEnv}.

(** The type-of-service, time-to-live and protocol of a packet are bytes. *)
Definition hdr_args (tos ttl proto : Z) : Prop := byte_ok tos /\ byte_ok ttl /\ byte_ok proto.

Definition ip4_packet (tos ttl proto id : Z) (src dst : ip4_addr) (d : list Z) : list Z :=
  let len := IP_HLEN + zlen d in
  ip4_hdr tos len id 0 ttl proto (ip4_sum tos len id 0 ttl proto src dst) src dst ++ d.

Lemma ip4_output_if_src_spec n q bq lq d k src dst ttl tos proto nif :
  ready (n_heap n) q bq lq d (IP_HLEN + k) -> 0 <= k -> IP_HLEN + zlen d < 65536 ->
  hdr_args tos ttl proto -> u32_ok src -> u32_ok dst -> 0 <= ip_id n < 65536 ->
  exists h1 bq', ip4_output_if_src q (Some src) (Some dst) ttl tos proto nif n =
      ip4_output_packet q dst nif (n <| n_heap := h1 |> <| ip_id := u16_t (ip_id n + 1) |>) /\
    ready h1 q bq' lq (ip4_packet tos ttl proto (ip_id n) src dst d) k.
Proof.
  intros Hrd Hk Hlt (Ht & Hl & Hp) Hs Hd Hid. destruct (ready_head _ _ _ _ _ _ Hrd) as (Hq0 & Hq).
  unfold ip4_output_if_src. rewrite (bind_ok _ _ _ _ _ (lift_same _ n bq (get_pbuf_ok _ _ _ Hq))).
  rewrite (rd_ref _ _ _ _ _ _ Hrd), (bind_ok _ _ _ _ _ (assert_true _ _ _ eq_refl)). unfold IP_HLEN in Hlt.
  destruct (ready_prepend _ _ _ _ _ k IP_HLEN 0 Hrd) as (pre & Hpre & Hadd & Hrd1); [done|done|unfold IP_HLEN; lia|].
  fold (pbuf_add_header q IP_HLEN) in Hadd. rewrite (bind_ok _ _ _ _ _ (lift_ok _ n _ _ Hadd)). cbn [Z.eqb negb].
  set (h1 := setp (n_heap n) _) in *. set (b1 := strip_rec (- IP_HLEN) bq) in *.
  destruct (ready_head _ _ _ _ _ _ Hrd1) as (_ & Hq1). pose proof (rd_packet _ _ _ _ _ _ Hrd1) as Hpk1.
  destruct (packet_head _ _ _ _ _ Hpk1) as (_ & _ & Htot & Hlen1 & Hmax).
  assert (Hzl : zlen (pre ++ d) = IP_HLEN + zlen d) by (rewrite zlen_app; lia). rewrite Hzl in *.
  rewrite (bind_ok _ _ _ _ _ (lift_heap _ n _ _ _ (get_pbuf_ok _ _ _ Hq1))).
  assert (Hb1 : IP_HLEN <= pb_len b1).
  { subst b1. simpl. destruct (packet_head _ _ _ _ _ (rd_packet _ _ _ _ _ _ Hrd)) as (_ & _ & _ & ? & _). lia. }
  rewrite (bind_ok _ _ _ _ _ (assert_true _ _ _ (proj2 (Z.leb_le _ _) Hb1))). unfold bind at 1, get. rec_simpl. rewrite Htot.
  destruct (ip4_write_header_spec h1 q b1 lq (pre ++ d) (IP_HLEN + zlen d) src dst ttl tos proto (ip_id n) Hpk1
    (rd_alone _ _ _ _ _ _ Hrd1) Hb1 Ht Hl Hp) as (h2 & Hw & Hpk2 & Hsame); try done; [unfold IP_HLEN; pose proof (zlen_nonneg d); lia|].
  rewrite (bind_ok _ _ _ _ _ (lift_heap _ n _ _ _ Hw)). exists h2, b1. split; [reflexivity|].
  eapply ready_write; [exact Hrd1| |rewrite <- (rm_own _ _ _ _ (rd_room _ _ _ _ _ _ Hrd1)); apply Hsame].
  by rewrite (zdrop_exact pre d IP_HLEN) in Hpk2.
Qed.

(** The interface sends what is not for itself and short enough. *)
Record sends (n : net) (nif : Z) (x : netif) (len : Z) : Prop := Sends {
  sd_netif : n_netifs n !! nif = Some x;
  sd_mtu : ni_mtu x = 0 \/ len <= ni_mtu x
}.

Lemma ip4_output_packet_sends n q bq lq d k dst nif x : ready (n_heap n) q bq lq d k ->
  sends n nif x (zlen d) -> ni_output x = output_ip -> dst <> netif_ip4_addr x ->
  ip4_output_packet q dst nif n = output q n.
Proof.
  intros Hrd [Hx Hmtu] Hout Hne. destruct (ready_head _ _ _ _ _ _ Hrd) as (_ & Hq).
  destruct (packet_head _ _ _ _ _ (rd_packet _ _ _ _ _ _ Hrd)) as (_ & _ & Htot & _).
  unfold ip4_output_packet. rewrite (bind_ok _ _ _ _ _ (get_netif_ok _ _ _ Hx)).
  destruct (Z.eqb_spec dst (netif_ip4_addr x)); [done|].
  rewrite (bind_ok _ _ _ _ _ (lift_same _ n bq (get_pbuf_ok _ _ _ Hq))), Htot, Hout.
  replace (negb (ni_mtu x =? 0) && (ni_mtu x <? zlen d)) with false; [done|].
  destruct (Z.eqb_spec (ni_mtu x) 0); [done|]. simpl. destruct (Z.ltb_spec (ni_mtu x) (zlen d)); [lia|done].
Qed.

(** ** The IPv6 header *)

Definition ip6_packet (tc hl nexth : Z) (src dst : ip6_addr) (d : list Z) : list Z :=
  ip6_hdr tc (zlen d) nexth hl src dst ++ d.

(** The destination with the zone it is sent with. *)
Definition ip6_zoned (x : netif) (dst : ip6_addr) : ip6_addr :=
  if ip6_addr_lacks_zone dst IP6_UNKNOWN then ip6_addr_assign_zone IP6_UNKNOWN x dst else dst.
Lemma ip6_bytes_zoned x dst : ip6_bytes (ip6_zoned x dst) = ip6_bytes dst.
Proof. unfold ip6_zoned, ip6_addr_assign_zone, ip6_addr_set_zone. by destruct (ip6_addr_lacks_zone dst IP6_UNKNOWN). Qed.

Lemma ip6_output_if_src_spec n q bq lq d k src dst hl tc nexth nif x :
  ready (n_heap n) q bq lq d (IP6_HLEN + k) -> 0 <= k -> IP6_HLEN + zlen d < 65536 -> byte_ok hl ->
  n_netifs n !! nif = Some x -> ni_mtu6 x = 0 -> ni_output_ip6 x = output_ip -> ip6_addr_own x (ip6_zoned x dst) = false ->
  exists h1 bq', ip6_output_if_src q (Some src) (Some dst) hl tc nexth nif n = output q (n <| n_heap := h1 |>) /\
    ready h1 q bq' lq (ip6_packet tc hl nexth src dst d) k.
Proof.
  intros Hrd Hk Hlt Hhl Hx Hmtu Hout Hown. destruct (ready_head _ _ _ _ _ _ Hrd) as (Hq0 & Hq).
  unfold ip6_output_if_src. rewrite (bind_ok _ _ _ _ _ (lift_same _ n bq (get_pbuf_ok _ _ _ Hq))).
  rewrite (rd_ref _ _ _ _ _ _ Hrd), (bind_ok _ _ _ _ _ (assert_true _ _ _ eq_refl)). unfold IP6_HLEN in Hlt.
  rewrite (bind_ok _ _ _ _ _ (get_netif_ok _ _ _ Hx)). cbv zeta. fold (ip6_zoned x dst).
  destruct (ready_prepend _ _ _ _ _ k IP6_HLEN 0 Hrd) as (pre & Hpre & Hadd & Hrd1); [done|done|unfold IP6_HLEN; lia|].
  fold (pbuf_add_header q IP6_HLEN) in Hadd. rewrite (bind_ok _ _ _ _ _ (lift_ok _ n _ _ Hadd)). cbn [Z.eqb negb].
  set (h1 := setp (n_heap n) _) in *. set (b1 := strip_rec (- IP6_HLEN) bq) in *.
  destruct (ready_head _ _ _ _ _ _ Hrd1) as (_ & Hq1). pose proof (rd_packet _ _ _ _ _ _ Hrd1) as Hpk1.
  destruct (packet_head _ _ _ _ _ Hpk1) as (_ & _ & Htot & Hlen1 & Hmax).
  assert (Hzl : zlen (pre ++ d) = IP6_HLEN + zlen d) by (rewrite zlen_app; lia). rewrite Hzl in *.
  rewrite (bind_ok _ _ _ _ _ (lift_heap _ n _ _ _ (get_pbuf_ok _ _ _ Hq1))).
  assert (Hb1 : IP6_HLEN <= pb_len b1).
  { subst b1. simpl. destruct (packet_head _ _ _ _ _ (rd_packet _ _ _ _ _ _ Hrd)) as (_ & _ & _ & ? & _). lia. }
  rewrite (bind_ok _ _ _ _ _ (assert_true _ _ _ (proj2 (Z.leb_le _ _) Hb1))). rewrite Htot.
  destruct (ip6_write_header_spec h1 q b1 lq (pre ++ d) (IP6_HLEN + zlen d) src (ip6_zoned x dst) hl tc nexth Hpk1
    (rd_alone _ _ _ _ _ _ Hrd1) Hb1 Hhl) as (h2 & Hw & Hpk2 & Hsame); [unfold IP6_HLEN; pose proof (zlen_nonneg d); lia|].
  rewrite (bind_ok _ _ _ _ _ (lift_heap _ n _ _ _ Hw)). exists h2, b1. split.
  - assert (Hg : get_netif nif (n <| n_heap := h2 |>) = Ok (x, n <| n_heap := h2 |>)) by (by apply get_netif_ok).
    unfold ip6_output_packet. rewrite (bind_ok _ _ _ _ _ Hg), Hown, Hmtu, Hout. reflexivity.
  - eapply ready_write; [exact Hrd1| |rewrite <- (rm_own _ _ _ _ (rd_room _ _ _ _ _ _ Hrd1)); apply Hsame].
    rewrite (zdrop_exact pre d IP6_HLEN Hpre) in Hpk2. replace (IP6_HLEN + zlen d - IP6_HLEN) with (zlen d) in Hpk2 by lia.
    unfold ip6_packet, ip6_hdr in *. by rewrite ip6_bytes_zoned in Hpk2.
Qed.

(** ** All the way *)

Definition ip_hlen (dst : ip_addr) : Z := if IP_IS_V6_VAL dst then IP6_HLEN else IP_HLEN.

(** The packet on the wire, and the state of the stack that leaves it there. *)
Definition ip_packet (tos ttl proto id : Z) (src dst : ip_addr) (d : list Z) : list Z :=
  if IP_IS_V6_VAL dst then ip6_packet tos ttl proto (ip_2_ip6 src) (ip_2_ip6 dst) d
  else ip4_packet tos ttl proto id (ip_2_ip4 src) (ip_2_ip4 dst) d.
Definition ip_sent (n : net) (dst : ip_addr) (h : heap) : net :=
  if IP_IS_V6_VAL dst then n <| n_heap := h |> else n <| n_heap := h |> <| ip_id := u16_t (ip_id n + 1) |>.

(** The interface of [tun2socks]: what it is asked to send and does not address itself
    goes out through [output]. *)
Record tun_netif (n : net) (nif : Z) (x : netif) (dst : ip_addr) (len : Z) : Prop := TunNetif {
  tn_netif : n_netifs n !! nif = Some x;
  tn_out : ni_output x = output_ip /\ ni_output_ip6 x = output_ip;
  tn_mtu : ni_mtu x = 0 \/ len <= ni_mtu x;
  tn_mtu6 : ni_mtu6 x = 0;
  tn_other : if IP_IS_V6_VAL dst then ip6_addr_own x (ip6_zoned x (ip_2_ip6 dst)) = false
             else ip_2_ip4 dst <> netif_ip4_addr x
}.

Lemma ip_output_if_src_spec n q bq lq d src dst ttl tos proto nif x :
  ready (n_heap n) q bq lq d (ip_hlen dst) -> ip_hlen dst + zlen d < 65536 -> hdr_args tos ttl proto ->
  ip6_ok (u_addr src) -> ip6_ok (u_addr dst) -> 0 <= ip_id n < 65536 -> tun_netif n nif x dst (ip_hlen dst + zlen d) ->
  exists h1 lq', ip_output_if_src q src dst ttl tos proto nif n = output q (ip_sent n dst h1) /\
    packet h1 q lq' (ip_packet tos ttl proto (ip_id n) src dst d).
Proof.
  intros Hrd Hlt Hargs Hs Hd Hid [Hx (Ho4 & Ho6) Hmtu Hmtu6 Hother]. unfold ip_output_if_src, ip_packet, ip_sent, ip_hlen in *.
  destruct (IP_IS_V6_VAL dst).
  - destruct (ip6_output_if_src_spec n q bq lq d 0 (ip_2_ip6 src) (ip_2_ip6 dst) ttl tos proto nif x) as (h1 & b1 & Hrun & Hrd1);
      try done; [by apply Hargs|]. exists h1, ((q, b1) :: lq). split; [done|]. apply Hrd1.
  - destruct (ip4_output_if_src_spec n q bq lq d 0 (ip_2_ip4 src) (ip_2_ip4 dst) ttl tos proto nif) as (h1 & b1 & Hrun & Hrd1);
      try done; [by apply ip6_ok_ip4..|]. exists h1, ((q, b1) :: lq). split; [|apply Hrd1]. etransitivity; [exact Hrun|].
    eapply ip4_output_packet_sends; [exact Hrd1| |done|done]. split; [exact Hx|].
    unfold ip4_packet. autorewrite with zlen. exact Hmtu.
Qed.

Lemma udp_sendto_packet n pcb p u b l d dst dport nif have chk src sport x :
  sendto_ok n pcb p u b l d (ip_hlen dst) dst src nif -> (have = true -> chk = canon (word_sum d)) ->
  byte_ok (udp_tos u) -> byte_ok (udp_ttl u) -> 0 <= ip_id n < 65536 ->
  ip_hlen dst + UDP_HLEN + zlen d < 65536 -> tun_netif n nif x dst (ip_hlen dst + UDP_HLEN + zlen d) ->
  udp_sendto_if_src_chksum pcb p dst dport nif have chk src sport n = Ok (ERR_MEM, n) \/
  exists q h1 lq, udp_sendto_if_src_chksum pcb p dst dport nif have chk src sport n =
      (let* err := output q in
       (if negb (q =? p) then let* _ := lift (pbuf_free custom_free q) in ret tt else ret tt) ;;;
       ret err) (ip_sent n dst h1) /\
    packet h1 q lq (ip_packet (udp_tos u) (udp_ttl u) IP_PROTO_UDP (ip_id n) src dst
                      (udp_bytes sport dport (udp_field (nochksum u) src dst sport dport d) d)).
Proof.
  intros Hok Hc Ht Hl Hid Hlt Htun. assert (Hk : 0 <= ip_hlen dst <= PBUF_IP) by (unfold ip_hlen; by destruct (IP_IS_V6_VAL dst)).
  destruct (udp_sendto_if_src_spec n pcb p u b l d (ip_hlen dst) dst dport nif have chk src sport Hok Hk Hc)
    as [He|(q & h1 & bq & lq & Hrun & Hrd)]; [by left|]. right. destruct (so_addrs _ _ _ _ _ _ _ _ _ _ _ Hok) as (Hs & Hd).
  set (bytes := udp_bytes sport dport _ d) in *. assert (Hzb : zlen bytes = UDP_HLEN + zlen d) by apply udp_bytes_len.
  destruct (ip_output_if_src_spec (n <| n_heap := h1 |>) q bq lq bytes src dst (udp_ttl u) (udp_tos u) IP_PROTO_UDP nif x)
    as (h2 & lq' & Hrun2 & Hpk); try done; [lia|destruct Htun; split; try done; rewrite Hzb; rec_simpl; by rewrite Z.add_assoc|].
  exists q, h2, lq'. split; [|exact Hpk]. rewrite Hrun. unfold datagram_out. unfold bind at 1. rewrite Hrun2.
  unfold ip_sent. by destruct (IP_IS_V6_VAL dst).
Qed.
End IpSend.
