(* ===== verification/UdpRecv.v ===== *)
(** * The way of a datagram to the application

    [udp_input] takes the UDP header off and calls the receive function of the first
    control block; [ip4_input] takes the IPv4 header off and calls [udp_input].  The lemmas
    follow the bytes of the packet, down to the arguments of the callback. *)

From S2P Require Import Prelude Def IpAddr Pbuf PbufFacts PbufMut PbufData PbufAlloc.
From S2P Require Import OnesComplement InetChksum Net Netif IpOut Udp Ip6Src Raw.
From S2P Require Import IpIn Ip6In Datagram Prepend UdpSend.

(** ** Header fields *)

Lemma packet_hdr_read h p b l d k n : packet h p ((p, b) :: l) d -> 0 <= k -> 0 <= n -> k + n <= pb_len b ->
  hdr_read (pb_payload b) k n h = Ok (of_le (zslice k n d), h).
Proof. intros Hpk Hk Hn Hle. unfold hdr_read. by rewrite (bind_ok _ _ _ _ _ (packet_read h p b l d k n Hpk Hk Hn Hle)). Qed.

Lemma hdr_read_blocks h h' ptr k m v : hdr_read ptr k m h = Ok (v, h) -> hp_blocks h' = hp_blocks h ->
  hdr_read ptr k m h' = Ok (v, h').
Proof.
  unfold hdr_read, mem_read, bind, ret. intros Hr Hb. rewrite (load_frame h h' _ m) by (by rewrite Hb).
  destruct (load_bytes h (ptr_add ptr k) m); [|done]. by injection Hr as ->.
Qed.

Lemma of_le_be16 v : 0 <= v < 65536 -> of_le (be16 v) = lwip_htons v.
Proof. intros Hv. rewrite lwip_htons_arith. unfold be16, of_le. simpl. dlia. Qed.
Lemma ntohs_be16 v : 0 <= v < 65536 -> lwip_ntohs (of_le (be16 v)) = v.
Proof. intros Hv. rewrite of_le_be16 by done. by apply lwip_htons_involutive. Qed.
Lemma of_le_le32 v : u32_ok v -> of_le (le32 v) = v.
Proof. unfold u32_ok, le32, of_le. intros Hv. simpl. dlia. Qed.
Lemma of_le_byte v : of_le [v] = v.
Proof. unfold of_le. simpl. lia. Qed.

(** Taking a header of [k] bytes off. *)
Lemma packet_strip h p b l pre d k : packet h p ((p, b) :: l) (pre ++ d) -> zlen pre = k -> k <= pb_len b ->
  pbuf_remove_header p k h = Ok (0, setp h (p, strip_rec k b)) /\
  packet (setp h (p, strip_rec k b)) p ((p, strip_rec k b) :: l) d.
Proof.
  intros Hpk Hz Hk. pose proof (zlen_nonneg pre). destruct (pbuf_remove_header_spec h p b l (pre ++ d) k Hpk) as (Hr & Hp); [lia|].
  split; [done|]. by rewrite (zdrop_exact pre d k Hz) in Hp.
Qed.

Section UdpRecv.
Context `{Malloc} `{NetEnv}.

(** Whether the destination is a broadcast address can be told. *)
Definition dest_known (n : net) : Prop :=
  IP_IS_V6_VAL (current_iphdr_dest (ip_data n)) = true \/ is_Some (n_netifs n !! current_netif (ip_data n)).

Lemma broadcast_known n : dest_known n -> exists v,
  (if IP_IS_V6_VAL (current_iphdr_dest (ip_data n)) then ret false
   else let* nif := get_netif (current_netif (ip_data n)) in
        ret (ip_addr_isbroadcast (current_iphdr_dest (ip_data n)) nif)) n = Ok (v, n).
Proof.
  unfold dest_known. destruct (IP_IS_V6_VAL _); [by exists false|]. intros [?|(x & Hx)]; [done|].
  eexists. by rewrite (bind_ok _ _ _ _ _ (get_netif_ok _ _ _ Hx)).
Qed.

(** The datagram goes to the first control block, whatever its ports. *)
Lemma udp_input_delivers n p b l sport dport x d inp pcb u :
  packet (n_heap n) p ((p, b) :: l) (be16 sport ++ be16 dport ++ x ++ d) -> zlen x = 4 -> UDP_HLEN <= pb_len b ->
  inp <> 0 -> 0 <= sport < 65536 -> 0 <= dport < 65536 -> dest_known n ->
  udp_pcbs n = pcb -> pcb <> 0 -> n_udps n !! pcb = Some u -> udp_recv_fn u <> 0 ->
  exists h1, udp_input p inp n =
      udp_recv_call (udp_recv_fn u) (udp_recv_arg u) pcb p (current_iphdr_src (ip_data n)) sport
        (current_iphdr_dest (ip_data n)) dport (n <| n_heap := h1 |>) /\
    packet h1 p ((p, strip_rec UDP_HLEN b) :: l) d.
Proof.
  intros Hpk Hx Hlen Hinp Hs Hd Hdk Hpcb Hpcb0 Hu Hrecv. destruct (packet_head _ _ _ _ _ Hpk) as (Hp0 & Hp & _).
  destruct (broadcast_known n Hdk) as (bc & Hbc). unfold UDP_HLEN in *.
  pose proof (packet_hdr_read _ _ _ _ _ UDPH_SRC_OFF 2 Hpk ltac:(done) ltac:(done) ltac:(unfold UDPH_SRC_OFF; lia)) as Hrs.
  pose proof (packet_hdr_read _ _ _ _ _ UDPH_DEST_OFF 2 Hpk ltac:(done) ltac:(done) ltac:(unfold UDPH_DEST_OFF; lia)) as Hrd.
  change (zslice UDPH_SRC_OFF 2 _) with (be16 sport) in Hrs. change (zslice UDPH_DEST_OFF 2 _) with (be16 dport) in Hrd.
  destruct (packet_strip (n_heap n) p b l (be16 sport ++ be16 dport ++ x) d UDP_HLEN) as (Hrm & Hpk1);
    [by rewrite <- !app_assoc|rewrite !zlen_app, Hx; done|done|].
  exists (setp (n_heap n) (p, strip_rec UDP_HLEN b)). split; [|done].
  unfold udp_input. destruct (Z.eqb_spec p 0); [done|]. destruct (Z.eqb_spec inp 0); [done|]. cbn [negb].
  do 2 rewrite (bind_ok _ _ _ _ _ (assert_true _ _ _ eq_refl)).
  rewrite (bind_ok _ _ _ _ _ (lift_same _ n b (get_pbuf_ok _ _ _ Hp))). destruct (Z.ltb_spec (pb_len b) UDP_HLEN) as [Hlt|_]; [unfold UDP_HLEN in Hlt; lia|].
  unfold bind at 1, get. cbv zeta. rewrite (bind_ok _ _ _ _ _ Hbc).
  rewrite (bind_ok _ _ _ _ _ (lift_same _ n _ Hrs)), (bind_ok _ _ _ _ _ (lift_same _ n _ Hrd)). rewrite !ntohs_be16 by done.
  rewrite Hpcb. destruct (Z.eqb_spec pcb 0); [done|]. cbn [negb]. rewrite bind_ret_l.
  rewrite (bind_ok _ _ _ _ _ (lift_ok _ n _ _ Hrm)). rewrite (bind_ok _ _ _ _ _ (assert_true _ _ _ eq_refl)).
  assert (Hg : get_udp pcb (n <| n_heap := setp (n_heap n) (p, strip_rec UDP_HLEN b) |>) =
    Ok (u, n <| n_heap := setp (n_heap n) (p, strip_rec UDP_HLEN b) |>)) by (by apply get_udp_ok).
  rewrite (bind_ok _ _ _ _ _ Hg). destruct (Z.eqb_spec (udp_recv_fn u) 0); [done|]. reflexivity.
Qed.

(** Freeing a packet that nobody else holds. *)
Lemma drop_owned n p l : chain (n_heap n) p l -> p <> 0 -> owned (n_heap n) l ->
  drop p n = Ok (tt, n <| n_heap := foldl del_pbuf (n_heap n) l |>).
Proof.
  intros Hc Hp Hown. unfold drop. by rewrite (bind_ok _ _ _ _ _ (lift_ok _ n _ _ (pbuf_free_owned custom_free _ _ _ Hc Hp Hown))).
Qed.

(** A packet too short for the header is freed. *)
Lemma udp_input_short n p b l inp : chain (n_heap n) p ((p, b) :: l) -> owned (n_heap n) ((p, b) :: l) ->
  pb_len b < UDP_HLEN -> inp <> 0 ->
  udp_input p inp n = Ok (tt, n <| n_heap := foldl del_pbuf (n_heap n) ((p, b) :: l) |>).
Proof.
  intros Hc Hown Hlt Hinp. assert (Hp : p <> 0 /\ hp_pbufs (n_heap n) !! p = Some b) by (inversion Hc; by simplify_eq).
  destruct Hp as (Hp0 & Hp). unfold udp_input. destruct (Z.eqb_spec p 0); [done|]. destruct (Z.eqb_spec inp 0); [done|]. cbn [negb].
  do 2 rewrite (bind_ok _ _ _ _ _ (assert_true _ _ _ eq_refl)).
  rewrite (bind_ok _ _ _ _ _ (lift_same _ n b (get_pbuf_ok _ _ _ Hp))). destruct (Z.ltb_spec (pb_len b) UDP_HLEN); [|lia].
  by apply drop_owned.
Qed.

(** ** IPv4 *)

Lemma bind_ip_data {A} f (k : unit -> M net A) n : bind (upd_ip_data f) k n = k tt (n <| ip_data := f (ip_data n) |>).
Proof. done. Qed.

(** The addresses of a packet that is being processed. *)
Definition ip4_addressed (n : net) (src dst : ip4_addr) : net :=
  n <| ip_data := ip_data n <| current_iphdr_dest := ip_addr_copy_from_ip4 dst |>
                            <| current_iphdr_src := ip_addr_copy_from_ip4 src |> |>.

(** An unfragmented packet without options whose source is no broadcast or multicast
    address and whose destination is no multicast address goes on. *)
Record ip4_good (n : net) (inp : Z) (x : netif) (src dst : ip4_addr) : Prop := Ip4Good {
  ig_netif : inp <> 0 /\ n_netifs n !! inp = Some x;
  ig_src : ip4_addr_isbroadcast src x = false /\ ip4_addr_ismulticast src = false;
  ig_dst : ip4_addr_ismulticast dst = false;
  ig_range : u32_ok src /\ u32_ok dst
}.

Lemma ip4_input_good n p b l d tos id ttl proto c src dst inp x :
  packet (n_heap n) p ((p, b) :: l) (ip4_hdr tos (IP_HLEN + zlen d) id 0 ttl proto c src dst ++ d) ->
  IP_HLEN <= pb_len b -> ip4_good n inp x src dst ->
  ip4_input p inp n = ip4_input_deliver p inp inp IP_HLEN (pb_payload b) (ip4_addressed n src dst).
Proof.
  intros Hpk Hlen [(Hinp & Hx) (Hs1 & Hs2) Hdst (Hsr & Hdr)]. destruct (packet_head _ _ _ _ _ Hpk) as (Hp0 & Hp & Ht & Hbl & Hmax).
  assert (Hz : zlen (ip4_hdr tos (IP_HLEN + zlen d) id 0 ttl proto c src dst ++ d) = IP_HLEN + zlen d) by (by rewrite zlen_app).
  rewrite Hz in *. unfold IP_HLEN in Hlen, Hmax. pose proof (zlen_nonneg d).
  assert (Hrd : forall k m v, 0 <= k -> 0 <= m -> k + m <= 20 ->
    zslice k m (ip4_hdr tos (IP_HLEN + zlen d) id 0 ttl proto c src dst ++ d) = v ->
    hdr_read (pb_payload b) k m (n_heap n) = Ok (of_le v, n_heap n)).
  { intros k m v Hk Hm Hkm <-. apply (packet_hdr_read _ p b l); [done..|lia]. }
  pose proof (Hrd IPH_VHL_OFF 1 [69] ltac:(done) ltac:(done) ltac:(done) eq_refl) as Hvhl. rewrite of_le_byte in Hvhl.
  pose proof (Hrd IPH_LEN_OFF 2 (be16 (IP_HLEN + zlen d)) ltac:(done) ltac:(done) ltac:(done) eq_refl) as Hln.
  pose proof (Hrd IPH_DEST_OFF 4 (le32 dst) ltac:(done) ltac:(done) ltac:(done) eq_refl) as Hds. rewrite of_le_le32 in Hds by done.
  pose proof (Hrd IPH_SRC_OFF 4 (le32 src) ltac:(done) ltac:(done) ltac:(done) eq_refl) as Hsc. rewrite of_le_le32 in Hsc by done.
  pose proof (Hrd IPH_OFFSET_OFF 2 [0; 0] ltac:(done) ltac:(done) ltac:(done) eq_refl) as Hof.
  unfold ip4_input. rewrite (bind_ok _ _ _ _ _ (lift_same _ n b (get_pbuf_ok _ _ _ Hp))). cbv zeta.
  rewrite (bind_ok _ _ _ _ _ (lift_same _ n _ Hvhl)). change (IPH_V 69 =? 4) with true. change (IPH_HL_BYTES 69) with IP_HLEN. cbn [negb].
  rewrite (bind_ok _ _ _ _ _ (lift_same _ n _ Hln)), ntohs_be16, Ht by (unfold IP_HLEN; lia). rewrite Z.ltb_irrefl, bind_ret_l.
  rewrite (bind_ok _ _ _ _ _ (lift_same _ n b (get_pbuf_ok _ _ _ Hp))), Ht, Z.ltb_irrefl. change (IP_HLEN <? IP_HLEN) with false.
  destruct (Z.ltb_spec (pb_len b) IP_HLEN) as [Hlt|_]; [unfold IP_HLEN in Hlt; lia|]. cbn [orb].
  rewrite (bind_ok _ _ _ _ _ (lift_same _ n _ Hds)), bind_ip_data.
  set (n1 := n <| ip_data := _ |>).
  rewrite (bind_ok _ _ _ _ _ (lift_same _ n1 _ Hsc)), bind_ip_data. change (n1 <| ip_data := _ |>) with (ip4_addressed n src dst).
  unfold ip4_input_netif. rewrite Hdst. cbn [ip4_input_accept]. rewrite bind_ret_l.
  assert (Hg : get_netif inp (ip4_addressed n src dst) = Ok (x, ip4_addressed n src dst)) by (by apply get_netif_ok).
  rewrite (bind_ok _ _ _ _ _ Hg), Hs1, Hs2. destruct (Z.eqb_spec inp 0); [done|]. cbn [orb].
  rewrite (bind_ok _ _ _ _ _ (lift_same _ (ip4_addressed n src dst) _ Hof)). reflexivity.
Qed.

(** The packet on its way up: the processing state, and the packet without its header. *)
Definition ip4_current (n : net) (inp : Z) (iphdr : Z * Z) : net :=
  n <| ip_data := ip_data n <| current_netif := inp |> <| current_input_netif := inp |>
                            <| current_ip4_header := iphdr |> <| current_ip_header_tot_len := IP_HLEN |> |>.

(** What follows the call of the upper layer. *)
Definition ip4_input_end : M net Z :=
  upd_ip_data (fun g => g <| current_netif := 0 |> <| current_input_netif := 0 |>
    <| current_ip4_header := (0, 0) |> <| current_ip_header_tot_len := 0 |>
    <| current_iphdr_src := ip4_set_any (current_iphdr_src g) |>
    <| current_iphdr_dest := ip4_set_any (current_iphdr_dest g) |>) ;;;
  ret ERR_OK.

Lemma ip4_input_deliver_spec n p b l d tos len id ttl proto c src dst inp :
  packet (n_heap n) p ((p, b) :: l) (ip4_hdr tos len id 0 ttl proto c src dst ++ d) ->
  IP_HLEN <= pb_len b -> is_Some (n_netifs n !! inp) -> raw_pcbs n = 0 ->
  let h1 := setp (n_heap n) (p, strip_rec IP_HLEN b) in
  ip4_input_deliver p inp inp IP_HLEN (pb_payload b) n =
    (ip4_deliver p inp inp IP_HLEN proto RAW_INPUT_NONE ;;; ip4_input_end)
      (ip4_current n inp (pb_payload b) <| n_heap := h1 |>) /\
  packet h1 p ((p, strip_rec IP_HLEN b) :: l) d.
Proof.
  intros Hpk Hlen (x & Hx) Hraw h1. destruct (packet_head _ _ _ _ _ Hpk) as (Hp0 & Hp & _).
  destruct (packet_strip (n_heap n) p b l (ip4_hdr tos len id 0 ttl proto c src dst) d IP_HLEN Hpk eq_refl Hlen) as (Hrm & Hpk1).
  split; [|exact Hpk1]. unfold IP_HLEN in Hlen.
  pose proof (packet_hdr_read _ p b l _ IPH_VHL_OFF 1 Hpk ltac:(done) ltac:(done) ltac:(unfold IPH_VHL_OFF; lia)) as Hvhl.
  pose proof (packet_hdr_read _ p b l _ IPH_PROTO_OFF 1 Hpk ltac:(done) ltac:(done) ltac:(unfold IPH_PROTO_OFF; lia)) as Hpr.
  change (zslice IPH_VHL_OFF 1 _) with [69] in Hvhl. change (zslice IPH_PROTO_OFF 1 _) with [proto] in Hpr. rewrite of_le_byte in Hvhl, Hpr.
  unfold ip4_input_deliver. do 3 rewrite bind_ip_data. set (n1 := _ <| ip_data := _ |>).
  rewrite (bind_ok _ _ _ _ _ (lift_same _ n1 _ Hvhl)), bind_ip_data. change (n1 <| ip_data := _ |>) with (ip4_current n inp (pb_payload b)).
  clear n1. set (n1 := ip4_current n inp (pb_payload b)).
  assert (Hri : raw_input p inp n1 = Ok (RAW_INPUT_NONE, n1)).
  { unfold raw_input. unfold bind at 1, get. cbv zeta.
    assert (Hbc : exists v, (if IP_IS_V6_VAL (current_iphdr_dest (ip_data n1)) then ret false
      else let* nif := get_netif (current_netif (ip_data n1)) in
           ret (ip_addr_isbroadcast (current_iphdr_dest (ip_data n1)) nif)) n1 = Ok (v, n1))
      by (apply (broadcast_known n1); right; by exists x).
    destruct Hbc as (v & Hbc). rewrite (bind_ok _ _ _ _ _ Hbc), (bind_ok _ _ _ _ _ (lift_same _ n1 b (get_pbuf_ok _ _ _ Hp))).
    rewrite (bind_ok _ _ _ _ _ (lift_same _ n1 _ Hvhl)). change (Z.shiftr 69 4 =? 6) with false. cbv iota.
    rewrite (bind_ok _ _ _ _ _ (lift_same _ n1 _ Hpr)). change (raw_pcbs n1) with (raw_pcbs n). by rewrite Hraw. }
  rewrite (bind_ok _ _ _ _ _ Hri). cbv iota beta.
  assert (Hup : (let* _ := lift (pbuf_remove_header p IP_HLEN) in
                 let* proto := lift (hdr_read (pb_payload b) IPH_PROTO_OFF 1) in
                 ip4_deliver p inp inp IP_HLEN proto RAW_INPUT_NONE) n1 =
                ip4_deliver p inp inp IP_HLEN proto RAW_INPUT_NONE (n1 <| n_heap := h1 |>)).
  { rewrite (bind_ok _ _ _ _ _ (lift_ok _ n1 _ _ Hrm)).
    by rewrite (bind_ok _ _ _ _ _ (lift_heap _ n1 _ _ _ (hdr_read_blocks _ h1 _ _ _ _ Hpr eq_refl))). }
  unfold bind at 1. rewrite Hup. reflexivity.
Qed.

(** ** From the interface to the application *)

(** The state in which the receive callback runs. *)
Definition recv_state (n : net) (inp : Z) (iphdr : Z * Z) (src dst : ip4_addr) (h : heap) : net :=
  ip4_current (ip4_addressed n src dst) inp iphdr <| n_heap := h |>.

Lemma ip4_input_udp n p b l d tos id ttl c src dst inp x sport dport uc u :
  packet (n_heap n) p ((p, b) :: l)
    (ip4_hdr tos (IP_HLEN + (UDP_HLEN + zlen d)) id 0 ttl IP_PROTO_UDP c src dst ++ udp_bytes sport dport uc d) ->
  IP_HLEN + UDP_HLEN <= pb_len b -> ip4_good n inp x src dst -> raw_pcbs n = 0 ->
  0 <= sport < 65536 -> 0 <= dport < 65536 ->
  udp_pcbs n <> 0 -> n_udps n !! udp_pcbs n = Some u -> udp_recv_fn u <> 0 ->
  exists h1 l', ip4_input p inp n =
      (udp_recv_call (udp_recv_fn u) (udp_recv_arg u) (udp_pcbs n) p
         (ip_addr_copy_from_ip4 src) sport (ip_addr_copy_from_ip4 dst) dport ;;; ip4_input_end)
        (recv_state n inp (pb_payload b) src dst h1) /\
    packet h1 p l' d.
Proof.
  intros Hpk Hlen Hgood Hraw Hs Hd Hpcb Hu Hrecv. pose proof Hgood as [(Hinp & Hx) _ _ _]. unfold IP_HLEN, UDP_HLEN in Hlen.
  rewrite <- (udp_bytes_len sport dport uc d) in Hpk.
  rewrite (ip4_input_good n p b l _ tos id ttl IP_PROTO_UDP c src dst inp x Hpk ltac:(unfold IP_HLEN; lia) Hgood).
  set (n1 := ip4_addressed n src dst).
  destruct (ip4_input_deliver_spec n1 p b l _ tos _ id ttl IP_PROTO_UDP c src dst inp Hpk) as (Hrun & Hpk1);
    [unfold IP_HLEN; lia|by exists x|done|]. rewrite Hrun. unfold ip4_deliver. change (IP_PROTO_UDP =? IP_PROTO_UDP) with true. cbv iota.
  set (h1 := setp (n_heap n1) (p, strip_rec IP_HLEN b)) in *. set (n2 := ip4_current n1 inp (pb_payload b) <| n_heap := h1 |>).
  destruct (udp_input_delivers n2 p (strip_rec IP_HLEN b) l sport dport (be16 (UDP_HLEN + zlen d) ++ le16 uc) d inp (udp_pcbs n) u)
    as (h2 & Hin & Hpk2); try done.
  - simpl. unfold IP_HLEN, UDP_HLEN. lia.
  - right. by exists x.
  - exists h2, ((p, strip_rec UDP_HLEN (strip_rec IP_HLEN b)) :: l). split; [|exact Hpk2].
    unfold bind at 1. rewrite Hin. reflexivity.
Qed.
End UdpRecv.
