(* ===== verification/Ip6Recv.v ===== *)
(** * The way of an IPv6 packet to the upper layer *)

From S2P Require Import Prelude Def IpAddr Pbuf PbufFacts PbufMut PbufData PbufAlloc.
From S2P Require Import OnesComplement InetChksum Net Netif IpOut Udp Ip6Src Raw.
From S2P Require Import IpIn Ip6In Datagram Prepend UdpSend UdpRecv.

(** ** Header fields *)

Lemma of_le_be32 v : 0 <= v < 4294967296 -> of_le (be32 v) = lwip_htonl v.
Proof. intros Hv. rewrite lwip_htonl_arith. unfold be32, of_le. simpl. dlia. Qed.

Lemma ip6_version tc : byte_ok tc ->
  let v := Z.lor (Z.shiftl 6 28) (Z.shiftl tc 20) in
  0 <= v < 4294967296 /\ Z.land (Z.shiftr (lwip_ntohl (of_le (be32 v))) 28) 15 = 6 /\ Z.shiftr (v / 16777216 mod 256) 4 = 6.
Proof.
  intros Htc v. unfold byte_ok in Htc. assert (Hv : v = 1610612736 + tc * 1048576).
  { subst v. rewrite !Z.shiftl_mul_pow2, (lor_add_disjoint 6 (tc * 2 ^ 20) 28) by (change (2 ^ 20) with 1048576; lia).
    change (2 ^ 20) with 1048576. lia. }
  split; [lia|]. split.
  - rewrite of_le_be32, lwip_htonl_involutive by lia. rewrite Z.shiftr_div_pow2 by lia. rewrite (Z.land_ones _ 4) by lia.
    change (2 ^ 28) with 268435456. change (2 ^ 4) with 16. rewrite Hv. dlia.
  - rewrite Z.shiftr_div_pow2 by lia. change (2 ^ 4) with 16. rewrite Hv. dlia.
Qed.

Lemma hdr_read_0 ptr o m h : hdr_read (ptr_add ptr o) 0 m h = hdr_read ptr o m h.
Proof. unfold hdr_read, ptr_add. simpl. by rewrite Z.add_0_r. Qed.

(** The address that is read back, without a zone. *)
Definition unzoned (a : ip6_addr) : ip6_addr := ip6_addr_set_zone 0 a.

Lemma read_ip6_ok h ptr off a (Hr : forall k m v, 0 <= k -> 0 <= m -> k + m <= 16 ->
    zslice k m (ip6_bytes a) = v -> hdr_read ptr (off + k) m h = Ok (of_le v, h)) : ip6_ok a ->
  read_ip6 ptr off h = Ok (unzoned a, h).
Proof.
  intros (Hw & _). unfold ip6_words in Hw. rewrite !Forall_cons in Hw. destruct Hw as (H0 & H1 & H2 & H3 & _).
  unfold read_ip6. pose proof (Hr 0 4 (le32 (ip6_w0 a)) ltac:(done) ltac:(done) ltac:(done) eq_refl) as R0. rewrite Z.add_0_r in R0.
  rewrite (bind_ok _ _ _ _ _ R0).
  rewrite (bind_ok _ _ _ _ _ (Hr 4 4 (le32 (ip6_w1 a)) ltac:(done) ltac:(done) ltac:(done) eq_refl)).
  rewrite (bind_ok _ _ _ _ _ (Hr 8 4 (le32 (ip6_w2 a)) ltac:(done) ltac:(done) ltac:(done) eq_refl)).
  rewrite (bind_ok _ _ _ _ _ (Hr 12 4 (le32 (ip6_w3 a)) ltac:(done) ltac:(done) ltac:(done) eq_refl)).
  by rewrite !of_le_le32.
Qed.

Lemma zslice_app_mid {A} o n (pre mid post : list A) k : zlen pre = o -> 0 <= k -> 0 <= n -> k + n <= zlen mid ->
  zslice (o + k) n (pre ++ mid ++ post) = zslice k n mid.
Proof.
  intros Ho Hk Hn Hle. pose proof (zlen_nonneg pre). unfold zslice. rewrite zdrop_app_r by lia.
  replace (o + k - zlen pre) with k by lia. rewrite zdrop_app_l, ztake_app_l by (rewrite ?zlen_zdrop; lia). done.
Qed.

(** [pbuf_realloc] to the length the packet has. *)
Lemma pbuf_realloc_same `{Malloc} cf h p b n : p <> 0 -> hp_pbufs h !! p = Some b -> pb_tot_len b <= n ->
  pbuf_realloc cf p n h = Ok (tt, h).
Proof.
  intros Hp Hb Hn. unfold pbuf_realloc. destruct (Z.eqb_spec p 0); [done|]. cbn [negb].
  rewrite (bind_ok _ _ _ _ _ (assert_true _ _ _ eq_refl)), (bind_ok _ _ _ _ _ (get_pbuf_ok _ _ _ Hb)).
  by rewrite (proj2 (Z.leb_le _ _) Hn).
Qed.

(** A buffer in one block with its [struct pbuf] has its payload behind the struct; for a
    buffer whose data lies elsewhere ([PBUF_REF]) there is nothing to ask. *)
Definition behind_struct (p : Z) (b : pbuf) : Prop :=
  Z.land (pb_type_internal b) PBUF_TYPE_FLAG_STRUCT_DATA_CONTIGUOUS <> 0 ->
  (pb_payload b).1 = p /\ SIZEOF_STRUCT_PBUF <= (pb_payload b).2.

(** [pbuf_add_header_force] takes back what [pbuf_remove_header] took off, for every type. *)
Lemma pbuf_force_back h p b k : p <> 0 -> hp_pbufs h !! p = Some b -> 0 <= k <= pb_len b ->
  pb_len b <= pb_tot_len b < 65536 -> behind_struct p b ->
  pbuf_add_header_force p k (setp h (p, strip_rec k b)) = Ok (0, h).
Proof.
  intros Hp Hb Hk Hl Hown. unfold pbuf_add_header_force.
  destruct (decide (Z.land (pb_type_internal b) PBUF_TYPE_FLAG_STRUCT_DATA_CONTIGUOUS = 0)) as [Href|Hco].
  - unfold pbuf_add_header_impl. m_assert ltac:(by apply nz_true). destruct (Z.ltb_spec 65535 k); [lia|].
    destruct (Z.eqb_spec k 0) as [->|]; [by rewrite strip_rec_0, setp_id|]. rewrite (u16_t_id k) by lia.
    m_step (get_pbuf_ok _ _ _ (setp_lookup_eq h p (strip_rec k b))). 
    change (pb_tot_len (strip_rec k b)) with (pb_tot_len b - k). change (pb_type_internal (strip_rec k b)) with (pb_type_internal b).
    replace (k + (pb_tot_len b - k)) with (pb_tot_len b) by lia. rewrite u16_t_id by lia.
    destruct (Z.ltb_spec (pb_tot_len b) k); [lia|]. rewrite Href. cbn [negb Z.eqb].
    do 3 m_step (upd_pbuf_ok _ _ _ _ (setp_lookup_eq _ _ _)). rewrite !setp_setp.
    rewrite <- (setp_id h p b Hb) at 2. do 4 f_equal. unfold strip_rec, set_tot_len, set_len, set_payload, ptr_add. simpl.
    destruct b as [nx [pb po] tot len ty fl rf ix]. simpl in *. rewrite !u16_t_id by lia.
    by replace (po + k + - k) with po by lia; replace (len - k + k) with len by lia; replace (tot - k + k) with tot by lia.
  - destruct (Hown Hco). rewrite (pbuf_add_header_impl_spec _ _ (strip_rec k b));
      [|done|apply setp_lookup_eq|simpl; done || lia..].
    rewrite setp_setp, strip_rec_strip, (setp_id h p b) by done. simpl.
    destruct (Z.ltb_spec 65535 (k + (pb_tot_len b - k))); [lia|].
    destruct (Z.ltb_spec ((pb_payload b).2 + k - k) SIZEOF_STRUCT_PBUF); [lia|done].
Qed.

Section Ip6Recv.
Context `{Malloc} `{NetEnv}.

(** ** [ip6_input] *)

(** A packet between unicast addresses is accepted. *)
Record ip6_good (n : net) (inp : Z) (x : netif) (src dst : ip6_addr) : Prop := Ip6Good {
  i6_netif : inp <> 0 /\ n_netifs n !! inp = Some x;
  i6_src : ip6_addr_ismulticast src = false /\ ip6_addr_isany_val src = false /\ ip6_addr_isipv4mappedipv6 src = false;
  i6_dst : ip6_addr_ismulticast dst = false /\ ip6_addr_isipv4mappedipv6 dst = false;
  i6_range : ip6_ok src /\ ip6_ok dst
}.

(** The addresses with the zone of the interface, where they have a scope. *)
Definition in_zone (type : lwip_ipv6_scope_type) (x : netif) (a : ip6_addr) : ip_addr :=
  ip_addr_copy_from_ip6 (ip6_addr_assign_zone type x (unzoned a)).

Definition ip6_current (n : net) (inp : Z) (x : netif) (ip6hdr : Z * Z) (src dst : ip6_addr) : net :=
  n <| ip_data := ip_data n <| current_iphdr_dest := in_zone IP6_UNKNOWN x dst |>
                            <| current_iphdr_src := in_zone IP6_UNICAST x src |>
                            <| current_ip6_header := ip6hdr |>
                            <| current_netif := inp |> <| current_input_netif := inp |> |>.

Definition ip6_input_end : M net Z := ip6_input_cleanup ;;; ret ERR_OK.

Lemma ip6_input_good n p b l d tc nexth hl src dst inp x :
  packet (n_heap n) p ((p, b) :: l) (ip6_packet tc hl nexth src dst d) -> IP6_HLEN <= pb_len b -> byte_ok tc ->
  ip6_good n inp x src dst ->
  ip6_input p inp n = (ip6_input_accepted p inp inp (pb_payload b) ;;; ip6_input_end) (ip6_current n inp x (pb_payload b) src dst).
Proof.
  intros Hpk Hlen Htc [(Hinp & Hx) (Hs1 & Hs2 & Hs3) (Hd1 & Hd2) (Hsr & Hdr)].
  destruct (packet_head _ _ _ _ _ Hpk) as (Hp0 & Hp & Ht & Hbl & Hmax).
  assert (Hz : zlen (ip6_packet tc hl nexth src dst d) = IP6_HLEN + zlen d) by (unfold ip6_packet; by rewrite zlen_app).
  rewrite Hz in *. unfold IP6_HLEN in Hlen, Hmax. pose proof (zlen_nonneg d). unfold ip6_packet in Hpk.
  assert (Hrd : forall k m v, 0 <= k -> 0 <= m -> k + m <= 40 -> zslice k m (ip6_hdr tc (zlen d) nexth hl src dst ++ d) = v ->
    hdr_read (pb_payload b) k m (n_heap n) = Ok (of_le v, n_heap n)).
  { intros k m v Hk Hm Hkm <-. apply (packet_hdr_read _ p b l); [done..|lia]. }
  destruct (ip6_version tc Htc) as (Hv & Hver & _).
  pose proof (Hrd 0 4 (be32 (Z.lor (Z.shiftl 6 28) (Z.shiftl tc 20))) ltac:(done) ltac:(done) ltac:(done) eq_refl) as Rv.
  pose proof (Hrd IP6_PLEN_OFF 2 (be16 (zlen d)) ltac:(done) ltac:(done) ltac:(done) eq_refl) as Rl.
  assert (Rs : read_ip6 (pb_payload b) IP6_SRC_OFF (n_heap n) = Ok (unzoned src, n_heap n)).
  { apply read_ip6_ok; [|done]. intros k m v Hk Hm Hkm <-. apply Hrd; [unfold IP6_SRC_OFF; lia..|].
    unfold ip6_hdr. rewrite <- !app_assoc.
    rewrite (app_assoc (be32 _)), (app_assoc _ [nexth; hl]). apply zslice_app_mid; done. }
  assert (Rd : read_ip6 (pb_payload b) IP6_DEST_OFF (n_heap n) = Ok (unzoned dst, n_heap n)).
  { apply read_ip6_ok; [|done]. intros k m v Hk Hm Hkm <-. apply Hrd; [unfold IP6_DEST_OFF; lia..|].
    unfold ip6_hdr. rewrite <- !app_assoc.
    rewrite (app_assoc (be32 _)), (app_assoc _ [nexth; hl]), (app_assoc _ (ip6_bytes src)). apply zslice_app_mid; done. }
  unfold ip6_input. rewrite (bind_ok _ _ _ _ _ (lift_same _ n b (get_pbuf_ok _ _ _ Hp))). cbv zeta.
  rewrite (bind_ok _ _ _ _ _ (lift_same _ n _ Rv)), Hver. change (6 =? 6) with true. cbn [negb].
  rewrite (bind_ok _ _ _ _ _ (lift_same _ n _ Rl)), ntohs_be16, Ht by lia. unfold IP6_HLEN in *.
  destruct (Z.ltb_spec (pb_len b) 40); [lia|]. destruct (Z.ltb_spec (40 + zlen d - 40) (zlen d)); [lia|]. cbn [orb].
  rewrite u16_t_id by lia.
  rewrite (bind_ok _ _ _ _ _ (lift_same _ n _ (pbuf_realloc_same custom_free _ p b (40 + zlen d) Hp0 Hp ltac:(lia)))).
  rewrite (bind_ok _ _ _ _ _ (lift_same _ n _ Rd)), bind_ip_data. set (n1 := n <| ip_data := _ |>).
  rewrite (bind_ok _ _ _ _ _ (lift_same _ n1 _ Rs)), bind_ip_data. set (n2 := n1 <| ip_data := _ |>).
  change (ip6_addr_isipv4mappedipv6 (unzoned dst)) with (ip6_addr_isipv4mappedipv6 dst).
  change (ip6_addr_isipv4mappedipv6 (unzoned src)) with (ip6_addr_isipv4mappedipv6 src).
  change (ip6_addr_ismulticast (unzoned src)) with (ip6_addr_ismulticast src). rewrite Hd2, Hs3, Hs1. cbn [orb].
  assert (Hg : get_netif inp n2 = Ok (x, n2)) by (by apply get_netif_ok). rewrite (bind_ok _ _ _ _ _ Hg), bind_ip_data.
  change (n2 <| ip_data := _ |>) with (ip6_current n inp x (pb_payload b) src dst).
  unfold ip6_input_netif. change (ip6_addr_ismulticast (ip6_addr_assign_zone IP6_UNKNOWN x (unzoned dst))) with (ip6_addr_ismulticast dst).
  rewrite Hd1. cbn [ip6_input_accept]. rewrite bind_ret_l. reflexivity.
Qed.

(** A next-header value that starts the payload. *)
Definition ip6_upper (nexth : Z) : bool :=
  negb ((nexth =? IP6_NEXTH_HOPBYHOP) || (nexth =? IP6_NEXTH_DESTOPTS) || (nexth =? IP6_NEXTH_ROUTING) ||
        (nexth =? IP6_NEXTH_FRAGMENT)).

Lemma ip6_headers_upper w nexth n : hdr_read (w_nexth w) 0 1 (n_heap n) = Ok (nexth, n_heap n) -> ip6_upper nexth = true ->
  ip6_headers IP6_HEADERS_FUEL w n = Ok (Some w, n).
Proof.
  intros Hr Hu. unfold IP6_HEADERS_FUEL. replace (Z.to_nat 65536) with (S (Z.to_nat 65535)) by lia.
  cbn [ip6_headers]. rewrite (bind_ok _ _ _ _ _ (lift_same _ n _ Hr)). destruct (nexth =? IP6_NEXTH_NONE); [done|].
  unfold ip6_upper in Hu. apply negb_true_iff in Hu. rewrite !orb_false_iff in Hu. destruct Hu as (((-> & ->) & ->) & ->). done.
Qed.

Lemma ip6_input_accepted_spec n p b l d tc hl nexth src dst inp :
  packet (n_heap n) p ((p, b) :: l) (ip6_packet tc hl nexth src dst d) -> IP6_HLEN <= pb_len b -> byte_ok tc ->
  behind_struct p b -> raw_pcbs n = 0 -> ip6_upper nexth = true -> IP_IS_V6_VAL (current_iphdr_dest (ip_data n)) = true ->
  ip6_addr_isany_val (ip_2_ip6 (current_iphdr_src (ip_data n))) = false -> inp <> 0 ->
  let h1 := setp (n_heap n) (p, strip_rec IP6_HLEN b) in
  let w := mkWalk p (pb_payload b) (ptr_add (pb_payload b) IP6_NEXTH_OFF) IP6_HLEN in
  ip6_input_accepted p inp inp (pb_payload b) n =
    ip6_deliver w inp RAW_INPUT_NONE
      (n <| ip_data := ip_data n <| current_netif := inp |> <| current_ip_header_tot_len := IP6_HLEN |> |> <| n_heap := h1 |>) /\
  packet h1 p ((p, strip_rec IP6_HLEN b) :: l) d.
Proof.
  intros Hpk Hlen Htc Hown Hraw Hup Hv6 Hsrc Hinp h1 w. destruct (packet_head _ _ _ _ _ Hpk) as (Hp0 & Hp & Ht & Hbl & Hmax).
  destruct (packet_strip (n_heap n) p b l (ip6_hdr tc (zlen d) nexth hl src dst) d IP6_HLEN Hpk eq_refl Hlen) as (Hrm & Hpk1).
  split; [|exact Hpk1].
  assert (Hadd' : pbuf_add_header_force p IP6_HLEN h1 = Ok (0, n_heap n)).
  { apply pbuf_force_back; [done|done|unfold IP6_HLEN in *; lia|lia|done]. }
  unfold IP6_HLEN in Hlen.
  pose proof (packet_hdr_read _ p b l _ 0 1 Hpk ltac:(done) ltac:(done) ltac:(lia)) as Hv.
  pose proof (packet_hdr_read _ p b l _ IP6_NEXTH_OFF 1 Hpk ltac:(done) ltac:(done) ltac:(unfold IP6_NEXTH_OFF; lia)) as Hnx.
  change (zslice IP6_NEXTH_OFF 1 _) with [nexth] in Hnx. rewrite of_le_byte in Hnx.
  change (zslice 0 1 _) with [Z.lor (Z.shiftl 6 28) (Z.shiftl tc 20) / 16777216 mod 256] in Hv. rewrite of_le_byte in Hv.
  destruct (ip6_version tc Htc) as (_ & _ & Hver).
  assert (Hnx1 : hdr_read (w_nexth w) 0 1 h1 = Ok (nexth, h1)).
  { apply (hdr_read_blocks (n_heap n)); [|done]. subst w. cbn [w_nexth]. by rewrite hdr_read_0. }
  unfold ip6_input_accepted. unfold bind at 1, get. cbv zeta. rewrite Hsrc. destruct (Z.eqb_spec inp 0); [done|]. cbn [andb].
  rewrite bind_ip_data. set (n1 := n <| ip_data := _ |>).
  rewrite (bind_ok _ _ _ _ _ (lift_ok _ n1 _ _ Hrm)). fold w h1.
  assert (Hh : ip6_headers IP6_HEADERS_FUEL w (n1 <| n_heap := h1 |>) = Ok (Some w, n1 <| n_heap := h1 |>))
    by (by eapply ip6_headers_upper).
  rewrite (bind_ok _ _ _ _ _ Hh). unfold ip6_input_payload. rewrite bind_ip_data. cbn [w_p w_hlen_tot w].
  set (n2 := n1 <| ip_data := ip_data n1 <| current_ip_header_tot_len := IP6_HLEN |> |>).
  change (n1 <| n_heap := h1 |> <| ip_data := _ |>) with (n2 <| n_heap := h1 |>).
  rewrite (bind_ok _ _ _ _ _ (lift_heap _ n2 _ _ _ Hadd')).
  change (n2 <| n_heap := n_heap n |>) with (n2 <| n_heap := n_heap n2 |>). replace (n2 <| n_heap := n_heap n2 |>) with n2 by (subst n2 n1; by destruct n).
  assert (Hri : raw_input p inp n2 = Ok (RAW_INPUT_NONE, n2)).
  { unfold raw_input. unfold bind at 1, get. cbv zeta. change (current_iphdr_dest (ip_data n2)) with (current_iphdr_dest (ip_data n)).
    rewrite Hv6, bind_ret_l. rewrite (bind_ok _ _ _ _ _ (lift_same _ n2 b (get_pbuf_ok _ _ _ Hp))).
    rewrite (bind_ok _ _ _ _ _ (lift_same _ n2 _ Hv)), Hver. change (6 =? 6) with true. cbv iota.
    rewrite (bind_ok _ _ _ _ _ (lift_same _ n2 _ Hnx)). change (raw_pcbs n2) with (raw_pcbs n). by rewrite Hraw. }
  rewrite (bind_ok _ _ _ _ _ Hri). cbv iota. rewrite (bind_ok _ _ _ _ _ (lift_ok _ n2 _ _ Hrm)). reflexivity.
Qed.

Definition recv6_state (n : net) (inp : Z) (x : netif) (ip6hdr : Z * Z) (src dst : ip6_addr) (h : heap) : net :=
  let n := ip6_current n inp x ip6hdr src dst in
  n <| ip_data := ip_data n <| current_netif := inp |> <| current_ip_header_tot_len := IP6_HLEN |> |> <| n_heap := h |>.

Lemma ip6_input_udp n p b l d tc hl src dst inp x sport dport uc u :
  packet (n_heap n) p ((p, b) :: l) (ip6_packet tc hl IP_PROTO_UDP src dst (udp_bytes sport dport uc d)) ->
  IP6_HLEN + UDP_HLEN <= pb_len b -> byte_ok tc -> behind_struct p b -> ip6_good n inp x src dst -> raw_pcbs n = 0 ->
  0 <= sport < 65536 -> 0 <= dport < 65536 ->
  udp_pcbs n <> 0 -> n_udps n !! udp_pcbs n = Some u -> udp_recv_fn u <> 0 ->
  exists h1 l', ip6_input p inp n =
      (udp_recv_call (udp_recv_fn u) (udp_recv_arg u) (udp_pcbs n) p
         (in_zone IP6_UNICAST x src) sport (in_zone IP6_UNKNOWN x dst) dport ;;; ip6_input_end)
        (recv6_state n inp x (pb_payload b) src dst h1) /\
    packet h1 p l' d.
Proof.
  intros Hpk Hlen Htc Hroom Hgood Hraw Hs Hd Hpcb Hu Hrecv. pose proof Hgood as [(Hinp & Hx) (_ & Hsrc & _) _ _]. unfold IP6_HLEN, UDP_HLEN in Hlen.
  rewrite (ip6_input_good n p b l _ tc IP_PROTO_UDP hl src dst inp x Hpk ltac:(unfold IP6_HLEN; lia) Htc Hgood).
  set (n1 := ip6_current n inp x (pb_payload b) src dst).
  destruct (ip6_input_accepted_spec n1 p b l _ tc hl IP_PROTO_UDP src dst inp Hpk) as (Hrun & Hpk1); try done; [unfold IP6_HLEN; lia|].
  set (h1 := setp (n_heap n1) (p, strip_rec IP6_HLEN b)) in *.
  set (n2 := n1 <| ip_data := ip_data n1 <| current_netif := inp |> <| current_ip_header_tot_len := IP6_HLEN |> |> <| n_heap := h1 |>) in *.
  destruct (udp_input_delivers n2 p (strip_rec IP6_HLEN b) l sport dport (be16 (UDP_HLEN + zlen d) ++ le16 uc) d inp (udp_pcbs n) u)
    as (h2 & Hin & Hpk2); try done; [simpl; unfold IP6_HLEN, UDP_HLEN; lia|by left|].
  exists h2, ((p, strip_rec UDP_HLEN (strip_rec IP6_HLEN b)) :: l). split; [|exact Hpk2].
  unfold bind at 1. rewrite Hrun. unfold ip6_deliver. cbn [w_nexth w_p].
  assert (Hnx1 : hdr_read (ptr_add (pb_payload b) IP6_NEXTH_OFF) 0 1 (n_heap n2) = Ok (IP_PROTO_UDP, n_heap n2)).
  { apply (hdr_read_blocks (n_heap n)); [|done].
    pose proof (packet_hdr_read _ p b l _ IP6_NEXTH_OFF 1 Hpk ltac:(done) ltac:(done) ltac:(unfold IP6_NEXTH_OFF; lia)) as Hnx.
    change (zslice IP6_NEXTH_OFF 1 _) with [IP_PROTO_UDP] in Hnx. rewrite of_le_byte in Hnx. by rewrite hdr_read_0. }
  rewrite (bind_ok _ _ _ _ _ (lift_same _ n2 _ Hnx1)). change (IP_PROTO_UDP =? IP6_NEXTH_NONE) with false.
  change (IP_PROTO_UDP =? IP_PROTO_UDP) with true. cbv iota. rewrite Hin. reflexivity.
Qed.
End Ip6Recv.

(** ** [ip_input] *)

Section IpRecv.
Context `{Malloc} `{NetEnv}.

Definition ip_good (n : net) (inp : Z) (x : netif) (src dst : ip_addr) : Prop :=
  if IP_IS_V6_VAL dst then ip6_good n inp x (ip_2_ip6 src) (ip_2_ip6 dst)
  else ip4_good n inp x (ip_2_ip4 src) (ip_2_ip4 dst).

(** The addresses as the application sees them. *)
Definition recv_src (x : netif) (src dst : ip_addr) : ip_addr :=
  if IP_IS_V6_VAL dst then in_zone IP6_UNICAST x (ip_2_ip6 src) else ip_addr_copy_from_ip4 (ip_2_ip4 src).
Definition recv_dst (x : netif) (dst : ip_addr) : ip_addr :=
  if IP_IS_V6_VAL dst then in_zone IP6_UNKNOWN x (ip_2_ip6 dst) else ip_addr_copy_from_ip4 (ip_2_ip4 dst).
Definition ip_input_end (dst : ip_addr) : M net Z := if IP_IS_V6_VAL dst then ip6_input_end else ip4_input_end.

(** A packet that has arrived at an application that wants it. *)
Record receives (n : net) (inp : Z) (x : netif) (p : Z) (b : pbuf) (src dst : ip_addr) (u : udp_pcb) : Prop := Receives {
  rc_good : ip_good n inp x src dst;
  rc_len : ip_hlen dst + UDP_HLEN <= pb_len b;
  rc_struct : IP_IS_V6_VAL dst = true -> behind_struct p b;
  rc_raw : raw_pcbs n = 0;
  rc_pcb : udp_pcbs n <> 0 /\ n_udps n !! udp_pcbs n = Some u;
  rc_recv : udp_recv_fn u <> 0
}.

Lemma ip_input_udp n p b l d tos ttl id src dst inp x sport dport uc u :
  packet (n_heap n) p ((p, b) :: l) (ip_packet tos ttl IP_PROTO_UDP id src dst (udp_bytes sport dport uc d)) ->
  receives n inp x p b src dst u -> byte_ok tos -> 0 <= sport < 65536 -> 0 <= dport < 65536 ->
  exists n1 l', ip_input p inp n =
      (udp_recv_call (udp_recv_fn u) (udp_recv_arg u) (udp_pcbs n) p (recv_src x src dst) sport (recv_dst x dst) dport ;;;
       ip_input_end dst) n1 /\
    packet (n_heap n1) p l' d.
Proof.
  intros Hpk [Hgood Hlen Hroom Hraw (Hpcb & Hu) Hrecv] Htos Hs Hd. destruct (packet_head _ _ _ _ _ Hpk) as (Hp0 & Hp & _).
  unfold ip_input. destruct (Z.eqb_spec p 0); [done|]. cbn [negb].
  rewrite (bind_ok _ _ _ _ _ (lift_same _ n b (get_pbuf_ok _ _ _ Hp))).
  pose proof (fun Hle : 0 + 1 <= pb_len b => packet_hdr_read _ p b l _ 0 1 Hpk (Z.le_refl 0) ltac:(lia) Hle) as Hv.
  unfold ip_packet, ip_good, ip_hlen, recv_src, recv_dst, ip_input_end in *. destruct (IP_IS_V6_VAL dst).
  - specialize (Hv ltac:(unfold IP6_HLEN, UDP_HLEN in *; lia)).
    change (zslice 0 1 _) with [Z.lor (Z.shiftl 6 28) (Z.shiftl tos 20) / 16777216 mod 256] in Hv. rewrite of_le_byte in Hv.
    destruct (ip6_version tos Htos) as (_ & _ & Hver). rewrite (bind_ok _ _ _ _ _ (lift_same _ n _ Hv)), Hver.
    change (6 =? 6) with true. cbv iota.
    destruct (ip6_input_udp n p b l d tos ttl (ip_2_ip6 src) (ip_2_ip6 dst) inp x sport dport uc u) as (h1 & l' & Hrun & Hpk1); try done; [by apply Hroom|].
    eexists _, l'. split; [exact Hrun|done].
  - specialize (Hv ltac:(unfold IP_HLEN, UDP_HLEN in *; lia)).
    change (zslice 0 1 _) with [69] in Hv. rewrite of_le_byte in Hv. rewrite (bind_ok _ _ _ _ _ (lift_same _ n _ Hv)).
    change (Z.shiftr 69 4 =? 6) with false. cbv iota. unfold ip4_packet in Hpk. rewrite udp_bytes_len in Hpk.
    destruct (ip4_input_udp n p b l d tos id ttl _ (ip_2_ip4 src) (ip_2_ip4 dst) inp x sport dport uc u Hpk) as (h1 & l' & Hrun & Hpk1); try done.
    eexists _, l'. split; [exact Hrun|done].
Qed.
End IpRecv.
