(* ===== verification/IcmpRaw.v ===== *)
(** * Theory of raw control blocks ([core/raw.c]) and of the echo reply ([core/ipv4/icmp.c])

    A received packet is offered to the control blocks in the order of the list; the one
    that eats it comes first from then on.  The list keeps its elements. *)

From S2P Require Import Prelude Def IpAddr Pbuf PbufFacts Links Net Netif.
From S2P Require Import IpOut Ip6Src Raw PbufMut PbufData PbufAlloc OnesComplement InetChksum.
From S2P Require Import IpIn Udp Datagram Prepend UdpSend UdpRecv.

Definition raw_list (n : net) (l : list Z) : Prop := links raw_next (n_raws n) (raw_pcbs n) l.

(** ** Moving to the front *)

Lemma raw_to_front_head pcb n : raw_to_front 0 pcb n = Ok (tt, n).
Proof. done. Qed.

Lemma raw_to_front_spec n l1 prev pcb l2 : raw_list n (l1 ++ prev :: pcb :: l2) ->
  exists n', raw_to_front prev pcb n = Ok (tt, n') /\ raw_list n' (pcb :: l1 ++ prev :: l2).
Proof.
  intros Hl. pose proof (links_NoDup _ _ _ _ Hl) as Hnd.
  destruct (links_lookup raw_next _ _ _ prev Hl) as (Hp0 & rp & Hrp); [apply elem_of_app; right; by left|].
  destruct (links_lookup raw_next _ _ _ pcb Hl) as (Hq0 & rq & Hrq); [apply elem_of_app; right; right; by left|].
  assert (Hne : pcb <> prev).
  { intros ->. apply NoDup_app in Hnd as (_ & _ & (Hn & _)%NoDup_cons). apply Hn. by left. }
  set (n1 := n <| n_raws := <[prev := rp <| raw_next := raw_next rq |>]> (n_raws n) |>).
  assert (Hq1 : n_raws n1 !! pcb = Some rq) by (subst n1; rec_simpl; by rewrite lookup_insert_ne).
  set (n2 := n1 <| n_raws := <[pcb := rq <| raw_next := raw_pcbs n1 |>]> (n_raws n1) |>).
  exists (n2 <| raw_pcbs := pcb |>). split.
  - unfold raw_to_front. destruct (Z.eqb_spec prev 0); [done|]. cbn [negb].
    rewrite (bind_ok _ _ _ _ _ (get_raw_ok _ _ _ Hrq)), (bind_ok _ _ _ _ _ (upd_raw_ok _ _ _ _ Hrp)). fold n1.
    unfold bind at 1, get. by rewrite (bind_ok _ _ _ _ _ (upd_raw_ok _ _ _ _ Hq1)).
  - unfold raw_list. subst n2. rec_simpl.
    apply (links_push raw_next _ (raw_pcbs n)); [|done| |done].
    + subst n1. rec_simpl. by apply (links_unlink raw_next _ _ l1 prev pcb l2 rp _ rq).
    + intros Hin. apply NoDup_app in Hnd as (_ & Hd & (Hn1 & (Hn2 & _)%NoDup_cons)%NoDup_cons).
      apply elem_of_app in Hin as [Hin|[Hin|Hin]%elem_of_cons]; [|done|done].
      apply (Hd _ Hin). right. by left.
Qed.

(** ** Input *)

(** The element before the rest of a list, as the loop keeps it. *)
Definition last_of (l : list Z) : Z := List.last l 0.

Section RawInput.
Context `{Malloc} `{NetEnv}.

(** What the documentation of [raw_recv] asks of a callback: it eats the packet and says
    so, or leaves it alone.  It does not touch the list of control blocks. *)
Definition raw_callback_ok : Prop := forall fn arg pcb p a n b, hp_pbufs (n_heap n) !! p = Some b ->
  exists e n', raw_recv_call fn arg pcb p a n = Ok (e, n') /\
    n_raws n' = n_raws n /\ raw_pcbs n' = raw_pcbs n /\ n_netifs n' = n_netifs n /\ ip_data n' = ip_data n /\
    (e = 0 -> hp_pbufs (n_heap n') !! p = Some b).

Lemma raw_local_match_run r bc n : is_Some (n_netifs n !! current_input_netif (ip_data n)) ->
  exists v, raw_input_local_match r bc n = Ok (v, n).
Proof.
  intros (x & Hx). unfold raw_input_local_match. unfold bind at 1, get. cbv zeta.
  assert (Hother : exists o, (if negb (raw_netif_idx r =? NETIF_NO_INDEX) then
      let* nif := get_netif (current_input_netif (ip_data n)) in ret (negb (raw_netif_idx r =? netif_get_index nif))
    else ret false) n = Ok (o, n)).
  { destruct (negb (raw_netif_idx r =? NETIF_NO_INDEX)); [|by exists false].
    eexists. by rewrite (bind_ok _ _ _ _ _ (get_netif_ok _ _ _ Hx)). }
  destruct Hother as (o & Ho). rewrite (bind_ok _ _ _ _ _ Ho). destruct o; [by eexists|].
  destruct (IP_IS_ANY_TYPE_VAL (raw_local_ip r)); [by eexists|].
  destruct (ip_type (raw_local_ip r) =? ip_type (current_iphdr_dest (ip_data n))); [|by eexists]. destruct bc; by eexists.
Qed.

(** The outcome of offering the packet to the control blocks [l2] of the list [l1 ++ l2]. *)
Definition raw_offered (n : net) (p proto : Z) (b : pbuf) (l1 l2 : list Z) (st : raw_input_state) (n' : net) : Prop :=
  exists l', raw_list n' l' /\ l' ≡ₚ l1 ++ l2 /\
    match st with
    | RAW_INPUT_EATEN => exists r, hd 0 l' ∈ l2 /\ n_raws n !! hd 0 l' = Some r /\ raw_protocol r = proto
    | _ => l' = l1 ++ l2 /\ hp_pbufs (n_heap n') !! p = Some b
    end.

Lemma raw_offered_step n n1 p proto b l1 pcb l2 st n' : n_raws n1 = n_raws n ->
  raw_offered n1 p proto b (l1 ++ [pcb]) l2 st n' -> raw_offered n p proto b l1 (pcb :: l2) st n'.
Proof.
  intros Hr (l' & Hl & Hperm & Hst). rewrite <- app_assoc in Hperm. exists l'. split; [done|]. split; [done|]. rewrite <- Hr.
  destruct st; [by rewrite <- app_assoc in Hst| |by rewrite <- app_assoc in Hst].
  destruct Hst as (r & Hin & Hlk & Hpr). exists r. split; [by right|done].
Qed.

Lemma raw_eaten n n1 p b l1 pcb l2 r : raw_list n1 (l1 ++ pcb :: l2) -> n_raws n1 = n_raws n -> n_raws n !! pcb = Some r ->
  exists n', raw_to_front (last_of l1) pcb n1 = Ok (tt, n') /\ raw_offered n p (raw_protocol r) b l1 (pcb :: l2) RAW_INPUT_EATEN n'.
Proof.
  intros Hl Hr Hlk. destruct l1 as [|prev l1 _] using rev_ind.
  - exists n1. split; [done|]. exists (pcb :: l2). split; [done|]. split; [done|]. exists r. split; [by left|done].
  - unfold last_of. rewrite List.last_last. rewrite <- app_assoc in Hl. destruct (raw_to_front_spec n1 l1 prev pcb l2 Hl) as (n' & Hrun & Hl').
    exists n'. split; [done|]. exists (pcb :: l1 ++ prev :: l2). split; [done|]. split.
    + rewrite <- app_assoc. simpl. rewrite (Permutation_middle l1 (prev :: l2) pcb). by rewrite (perm_swap prev pcb).
    + exists r. split; [by left|done].
Qed.

Lemma raw_input_loop_spec fuel p proto bc l1 l2 status n b : raw_callback_ok ->
  raw_list n (l1 ++ l2) -> (length l2 < fuel)%nat -> hp_pbufs (n_heap n) !! p = Some b ->
  is_Some (n_netifs n !! current_input_netif (ip_data n)) -> status <> RAW_INPUT_EATEN ->
  exists st n', raw_input_loop fuel p proto bc (last_of l1) (hd 0 l2) status n = Ok (st, n') /\
    raw_offered n p proto b l1 l2 st n'.
Proof.
  intros Hcb. revert l1 l2 status n. induction fuel as [|fuel IH]; intros l1 l2 status n Hl Hf Hp Hnif Hst; [lia|].
  destruct l2 as [|pcb l2].
  { exists status, n. split; [done|]. exists (l1 ++ []). split; [done|]. split; [done|]. by destruct status. }
  destruct (links_lookup raw_next _ _ _ pcb Hl) as (Hq0 & r & Hr); [apply elem_of_app; right; by left|].
  assert (Hnext : raw_next r = hd 0 l2).
  { pose proof (links_behind raw_next _ _ _ _ _ _ Hl Hr) as Hb. destruct l2; simpl in Hb; [done|]. by destruct Hb. }
  assert (Hgo : forall n1 status', n_raws n1 = n_raws n -> raw_pcbs n1 = raw_pcbs n -> n_netifs n1 = n_netifs n ->
    ip_data n1 = ip_data n -> hp_pbufs (n_heap n1) !! p = Some b -> status' <> RAW_INPUT_EATEN ->
    exists st n', (let* r := get_raw pcb in raw_input_loop fuel p proto bc pcb (raw_next r) status') n1 = Ok (st, n') /\
      raw_offered n p proto b l1 (pcb :: l2) st n').
  { intros n1 status' E1 E2 E3 E4 Hp1 Hst'. rewrite (bind_ok _ _ n1 r n1) by (apply get_raw_ok; by rewrite E1). rewrite Hnext.
    destruct (IH (l1 ++ [pcb]) l2 status' n1) as (st & n' & Hrun & Ho); try done; [|simpl in Hf; lia|by rewrite E3, E4|].
    - unfold raw_list. rewrite E1, E2, <- app_assoc. exact Hl.
    - exists st, n'. unfold last_of in Hrun. rewrite List.last_last in Hrun. split; [done|]. by eapply raw_offered_step. }
  simpl. destruct (Z.eqb_spec pcb 0); [done|]. rewrite (bind_ok _ _ _ _ _ (get_raw_ok _ _ _ Hr)). unfold bind at 1, get.
  assert (Hloc : exists v, (if raw_protocol r =? proto then raw_input_local_match r bc else ret false) n = Ok (v, n) /\
    (v = true -> raw_protocol r = proto)).
  { destruct (Z.eqb_spec (raw_protocol r) proto) as [He|He]; [|by exists false].
    destruct (raw_local_match_run r bc n Hnif) as (v & Hv). by exists v. }
  destruct Hloc as (v & Hv & Hvp). rewrite (bind_ok _ _ _ _ _ Hv). cbv zeta.
  set (hit := v && _ && _). destruct hit eqn:Hhit.
  - assert (Hpr : raw_protocol r = proto) by (apply Hvp; subst hit; by destruct v).
    destruct (Hcb (raw_recv_fn r) (raw_recv_arg r) pcb p (current_iphdr_src (ip_data n)) n b Hp) as (e & n1 & Hrun & E1 & E2 & E3 & E4 & Hkeep).
    destruct (Z.eqb_spec e 0) as [->|He].
    + rewrite (bind_ok _ _ n false n1).
      2:{ rewrite (bind_ok _ _ _ _ _ (lift_same _ n b (get_pbuf_ok _ _ _ Hp))), (bind_ok _ _ _ _ _ Hrun). cbn [Z.eqb negb].
          rewrite (bind_ok _ _ _ _ _ (lift_same _ n1 b (get_pbuf_ok _ _ _ (Hkeep eq_refl)))), !Z.eqb_refl. done. }
      apply Hgo; try done. by apply Hkeep.
    + rewrite (bind_ok _ _ n true n1).
      2:{ rewrite (bind_ok _ _ _ _ _ (lift_same _ n b (get_pbuf_ok _ _ _ Hp))), (bind_ok _ _ _ _ _ Hrun).
          by destruct (Z.eqb_spec e 0). }
      destruct (raw_eaten n n1 p b l1 pcb l2 r) as (n' & Hfr & Ho); try done.
      { unfold raw_list. by rewrite E1, E2. }
      exists RAW_INPUT_EATEN, n'. rewrite (bind_ok _ _ _ _ _ Hfr). split; [done|]. by rewrite <- Hpr.
  - rewrite bind_ret_l. apply Hgo; done.
Qed.

(** [raw_input] for a packet that holds an IP header. *)
Lemma raw_input_spec n l p b lp d inp : raw_callback_ok -> raw_list n l ->
  packet (n_heap n) p ((p, b) :: lp) d -> IP_HLEN <= pb_len b ->
  is_Some (n_netifs n !! current_input_netif (ip_data n)) ->
  is_Some (n_netifs n !! current_netif (ip_data n)) ->
  exists proto st n', raw_input p inp n = Ok (st, n') /\ raw_offered n p proto b [] l st n'.
Proof.
  intros Hcb Hl Hpk Hlen Hnif (x & Hx). unfold IP_HLEN in Hlen.
  assert (Hp : hp_pbufs (n_heap n) !! p = Some b) by (destruct Hpk as (Hc & _); inversion Hc; by simplify_eq).
  assert (Hrd : forall k, 0 <= k < 20 -> exists v, hdr_read (pb_payload b) k 1 (n_heap n) = Ok (v, n_heap n)).
  { intros k Hk. apply packet_tail in Hpk as (d1 & d2 & Hd1 & Hz & _). unfold hdr_read, bind, mem_read.
    rewrite (load_bytes_sub _ _ _ _ k 1 Hd1) by lia. by eexists. }
  unfold raw_input. unfold bind at 1, get. cbv zeta.
  assert (Hbc : exists v, (if IP_IS_V6_VAL (current_iphdr_dest (ip_data n)) then ret false
    else let* nif := get_netif (current_netif (ip_data n)) in
         ret (ip_addr_isbroadcast (current_iphdr_dest (ip_data n)) nif)) n = Ok (v, n)).
  { destruct (IP_IS_V6_VAL _); [by exists false|]. eexists. by rewrite (bind_ok _ _ _ _ _ (get_netif_ok _ _ _ Hx)). }
  destruct Hbc as (bc & Hbc). rewrite (bind_ok _ _ _ _ _ Hbc), (bind_ok _ _ _ _ _ (lift_same _ n b (get_pbuf_ok _ _ _ Hp))).
  destruct (Hrd 0) as (vhl & Hv); [lia|]. rewrite (bind_ok _ _ _ _ _ (lift_same _ n _ Hv)).
  destruct (Hrd (if Z.shiftr vhl 4 =? 6 then IP6_NEXTH_OFF else IPH_PROTO_OFF)) as (proto & Hpr);
    [unfold IP6_NEXTH_OFF, IPH_PROTO_OFF; destruct (_ =? 6); lia|]. rewrite (bind_ok _ _ _ _ _ (lift_same _ n _ Hpr)).
  assert (Hhd : raw_pcbs n = hd 0 l) by (unfold raw_list in Hl; destruct l; simpl in Hl; [done|by destruct Hl]).
  destruct (raw_input_loop_spec (raw_fuel n) p proto bc [] l RAW_INPUT_NONE n b) as (st & n' & Hrun & Ho); try done.
  - pose proof (links_length _ _ _ _ Hl). unfold raw_fuel. lia.
  - exists proto, st, n'. rewrite Hhd. by split.
Qed.
End RawInput.

(** * Echo replies ([core/ipv4/icmp.c])

    What [icmp_input] makes of an echo request: the bytes of the reply, and that it verifies
    when the request does; the checksum of the message is adjusted, not recomputed. *)

(** The adjustment of the checksum field when the type goes from 8 to 0. *)
Definition echo_chksum (ck : Z) : Z := if 65527 <? ck then u16_t (ck + 9) else u16_t (ck + 8).

Lemma echo_chksum_verifies code ck rest : byte_ok code -> 0 <= ck < 65536 -> bytes_ok rest ->
  checksum ([ICMP_ECHO; code] ++ le16 ck ++ rest) = 0 -> checksum ([ICMP_ER; code] ++ le16 (echo_chksum ck) ++ rest) = 0.
Proof.
  unfold byte_ok, echo_chksum. intros Hc Hck Hr. unfold checksum. change (65527 <? ck) with (65527 <? ck).
  assert (Hle : forall v, 0 <= v < 65536 -> word_sum (le16 v ++ rest) = v + word_sum rest).
  { intros v Hv. rewrite word_sum_app_even by done. unfold le16, word_sum at 1, of_le16. dlia. }
  assert (Hck' : 0 <= (if 65527 <? ck then u16_t (ck + 9) else u16_t (ck + 8)) < 65536) by (destruct (65527 <? ck); apply u16_t_range).
  rewrite (word_sum_app_even [ICMP_ECHO; code]), (word_sum_app_even [ICMP_ER; code]), !Hle by done. pose proof (word_sum_nonneg _ Hr). unfold word_sum at 1 3, of_le16, ICMP_ECHO, ICMP_ER, canon.
  set (s := word_sum rest) in *. clearbody s. rewrite !Z.add_0_r.
  destruct (Z.eqb_spec (8 + 256 * code + (ck + s)) 0) as [|_]; [lia|]. intros Hv.
  destruct (Z.ltb_spec 65527 ck); unfold u16_t in *.
  - replace ((ck + 9) mod 65536) with (ck - 65527) by dlia.
    destruct (Z.eqb_spec (0 + 256 * code + (ck - 65527 + s)) 0); [lia|]. dlia.
  - rewrite Z.mod_small by lia. destruct (Z.eqb_spec (0 + 256 * code + (ck + 8 + s)) 0); [lia|].
    replace (0 + 256 * code + (ck + 8 + s)) with (8 + 256 * code + (ck + s)) by lia. done.
Qed.

Lemma hdr_write_add ptr a o x : hdr_write (ptr_add ptr a) o x = hdr_write ptr (a + o) x.
Proof. unfold hdr_write, ptr_add. simpl. by rewrite Z.add_assoc. Qed.
Lemma hdr_read_add ptr a o m : hdr_read (ptr_add ptr a) o m = hdr_read ptr (a + o) m.
Proof. unfold hdr_read, ptr_add. simpl. by rewrite Z.add_assoc. Qed.

Section IcmpFacts.
Context `{Malloc} `{NetEnv}.

Definition echo_request (tos len id off ttl c : Z) (src dst : ip4_addr) (code ck : Z) (rest : list Z) : list Z :=
  ip4_hdr tos len id off ttl IP_PROTO_ICMP c src dst ++ [ICMP_ECHO; code] ++ le16 ck ++ rest.
Definition echo_reply (tos len id off : Z) (src dst : ip4_addr) (code ck : Z) (rest : list Z) : list Z :=
  ip4_hdr tos len id off ICMP_TTL IP_PROTO_ICMP (ip4_sum tos len id off ICMP_TTL IP_PROTO_ICMP src dst) src dst ++
  [ICMP_ER; code] ++ le16 (echo_chksum ck) ++ rest.

Lemma icmp_echo_reply_spec h p b l tos len id off ttl c src dst code ck rest :
  packet h p ((p, b) :: l) (echo_request tos len id off ttl c src dst code ck rest) -> head_alone ((p, b) :: l) ->
  IP_HLEN + 4 <= pb_len b -> byte_ok tos -> 0 <= ck < 65536 ->
  exists h', icmp_echo_reply (pb_payload b) (ptr_add (pb_payload b) IP_HLEN) IP_HLEN dst src h = Ok (tt, h') /\
    packet h' p ((p, b) :: l) (echo_reply tos len id off dst src code ck rest) /\ same_but (pb_payload b).1 h h'.
Proof.
  intros Hpk Hal Hlen Htos Hck. unfold IP_HLEN in Hlen.
  set (ws1 := [(IPH_SRC_OFF, le32 dst); (IPH_DEST_OFF, le32 src); (20, [ICMP_ER])]).
  destruct (hdr_writes_spec 24 ws1 h p b l _ Hpk Hal Hlen eq_refl) as (h1 & Hrun1 & Hpk1 & Hs1).
  pose proof (packet_hdr_read _ p b l _ 22 2 Hpk1 ltac:(done) ltac:(done) ltac:(lia)) as Hr.
  change (zslice 22 2 _) with (le16 ck) in Hr.
  replace (of_le (le16 ck)) with ck in Hr by (unfold of_le, le16; simpl; dlia).
  set (ws2 := [(22, le16 (echo_chksum ck)); (IPH_TTL_OFF, [ICMP_TTL]); (IPH_CHKSUM_OFF, le16 0)]).
  destruct (hdr_writes_spec 24 ws2 h1 p b l _ Hpk1 Hal Hlen eq_refl) as (h2 & Hrun2 & Hpk2 & Hs2).
  pose proof (packet_read _ p b l _ 0 IP_HLEN Hpk2 ltac:(done) ltac:(done) ltac:(unfold IP_HLEN; lia)) as Hrd.
  replace (ptr_add (pb_payload b) 0) with (pb_payload b) in Hrd by (unfold ptr_add; rewrite Z.add_0_r; by destruct (pb_payload b)).
  change (zslice 0 IP_HLEN _) with (ip4_hdr tos len id off ICMP_TTL IP_PROTO_ICMP 0 dst src) in Hrd.
  set (hdr := ip4_hdr tos len id off ICMP_TTL IP_PROTO_ICMP 0 dst src) in *.
  assert (Hsum : inet_chksum (address block_base (pb_payload b)) hdr = ip4_sum tos len id off ICMP_TTL IP_PROTO_ICMP dst src).
  { rewrite inet_chksum_spec; [done| |by vm_compute]. apply ip4_hdr_ok; done. }
  set (cs := ip4_sum tos len id off ICMP_TTL IP_PROTO_ICMP dst src) in *.
  destruct (packet_write h2 p b l _ IPH_CHKSUM_OFF (le16 cs) Hpk2 Hal) as (h3 & Hw & Hpk3 & Hs3); [done|unfold IPH_CHKSUM_OFF, zlen; simpl; lia|].
  exists h3. split; [|split; [exact Hpk3|eapply same_but_trans; [exact Hs1|eapply same_but_trans; [exact Hs2|exact Hs3]]]].
  unfold icmp_echo_reply. rewrite hdr_write_add, hdr_read_add.
  match goal with |- (hdr_write ?q _ _ ;;; hdr_write _ _ _ ;;; hdr_write _ _ _ ;;; ?k) h = _ =>
    change (hdr_writes q ws1 k h = Ok (tt, h3)) end.
  rewrite Hrun1, (bind_ok _ _ _ _ _ Hr), hdr_write_add.
  match goal with |- (hdr_write ?q _ (le16 ?v) ;;; hdr_write _ _ _ ;;; hdr_write _ _ _ ;;; ?k) h1 = _ =>
    replace v with (echo_chksum ck); [change (hdr_writes q ws2 k h1 = Ok (tt, h3))|] end.
  - rewrite Hrun2, (bind_ok _ _ _ _ _ Hrd), Hsum. exact Hw.
  - unfold echo_chksum. change (PP_HTONS (65535 - Z.shiftl ICMP_ECHO 8)) with 65527.
    change (PP_HTONS (u16_t (Z.shiftl ICMP_ECHO 8))) with 8. change (PP_HTONS (Z.shiftl ICMP_ECHO 8)) with 8.
    by replace (ck + 8 + 1) with (ck + 9) by lia.
Qed.
End IcmpFacts.
