(* ===== verification/PbufProps.v ===== *)
(** * Properties of the packet buffers

    The contracts of [pbuf.c], each with an instance on a concrete heap. *)

From S2P Require Import Prelude Def Pbuf PbufFacts PbufMut PbufData PbufAlloc.

(** ** A concrete heap and allocator *)

Definition max_key {A} (m : gmap Z A) : Z := map_fold (fun k _ a => Z.max k a) 0 m.

Lemma max_key_ge {A} (m : gmap Z A) k v : m !! k = Some v -> k <= max_key m.
Proof.
  unfold max_key. revert k v.
  apply (map_fold_weak_ind (fun a m => forall k v, m !! k = Some v -> k <= a)).
  - intros k v Hk. by rewrite lookup_empty in Hk.
  - intros i x m' a Hi IH k v Hk. apply lookup_insert_Some in Hk as [[-> _]|[_ Hk]]; [lia|].
    specialize (IH k v Hk). lia.
Qed.

(** Blocks are numbered upwards and filled with zeros. *)
#[refine] Instance bump_malloc : Malloc := {
  malloc h n := if n <? 0 then None
                else Some (1 + Z.max 0 (Z.max (max_key (hp_pbufs h)) (max_key (hp_blocks h))),
                           replicate (Z.to_nat n) 0)
}.
Proof.
  intros h n p bs. destruct (Z.ltb_spec n 0); [done|]. intros [= <- <-].
  set (p := 1 + _). split_and!; [lia| | | |].
  - destruct (hp_pbufs h !! p) eqn:E; [|done]. apply max_key_ge in E. lia.
  - destruct (hp_blocks h !! p) eqn:E; [|done]. apply max_key_ge in E. lia.
  - unfold zlen. rewrite length_replicate. lia.
  - apply Forall_replicate. unfold byte_ok. lia.
Defined.

Definition no_custom : Z -> M heap unit := fun _ => fail BadAccess.

(** Two pbufs [1 -> 2] with the bytes 1 2 3 and 4 5, and a separate pbuf [3] with
    the bytes 6 7; their payloads start 24 bytes into their blocks. *)
Definition ex_pbuf (next own tot len : Z) : pbuf := mkPbuf next (own, 24) tot len (u8_t PBUF_POOL) 0 1 0.
Definition ex_block (d : list Z) : list Z := replicate 24 0 ++ d.
Definition ex_heap : heap := mkHeap
  {[ 1 := ex_pbuf 2 1 5 3; 2 := ex_pbuf 0 2 2 2; 3 := ex_pbuf 0 3 2 2 ]}
  {[ 1 := ex_block [1; 2; 3]; 2 := ex_block [4; 5]; 3 := ex_block [6; 7]; 4 := replicate 8 0 ]} 0.
Definition ex_chain : list (Z * pbuf) := [(1, ex_pbuf 2 1 5 3); (2, ex_pbuf 0 2 2 2)].
Definition ex_single : list (Z * pbuf) := [(3, ex_pbuf 0 3 2 2)].

Lemma ex_packet : packet ex_heap 1 ex_chain [1; 2; 3; 4; 5].
Proof.
  split_and!; [repeat (econstructor; [done|by vm_compute|]); constructor| |by vm_compute].
  simpl. lia.
Defined.
Lemma ex_packet3 : packet ex_heap 3 ex_single [6; 7].
Proof.
  split_and!; [repeat (econstructor; [done|by vm_compute|]); constructor| |by vm_compute].
  simpl. lia.
Defined.
Lemma ex_owned l : l = ex_chain \/ l = ex_single -> owned ex_heap l.
Proof.
  assert (forall p b, p = 1 \/ p = 2 \/ p = 3 -> hp_pbufs ex_heap !! p = Some b ->
    (freeable ex_heap (p, b) /\ pb_ref b = 1) /\ (pb_payload b).1 = p) as Hf.
  { intros p b [->|[->| ->]] Hb; vm_compute in Hb; injection Hb as <-; split; try done;
      (split; [|done]); unfold freeable; split_and!; try done; by eexists. }
  intros [->| ->]; (split; [repeat constructor; apply Hf; auto|]).
  - intros x y [->|[->|Hx%elem_of_nil]%elem_of_cons]%elem_of_cons
      [->|[->|Hy%elem_of_nil]%elem_of_cons]%elem_of_cons; done.
  - intros x y ->%list_elem_of_singleton ->%list_elem_of_singleton; done.
Defined.

(** ** Chains: concatenation, truncation, release *)

(** C33: [pbuf_cat(h, t)] on two disjoint well-formed chains whose lengths fit in 16
    bits never fails: it returns a well-formed chain that starts at [h], visits the
    pbufs of [h] and then those of [t] (no pbuf is copied, reference counts and
    flags are kept), and holds the bytes of [h] followed by those of [t]. *)
Theorem pbuf_cat_concatenates h a la da t lt dt :
  packet h a la da -> packet h t lt dt -> a <> 0 -> t <> 0 ->
  (forall x, x ∈ la.*1 -> x ∉ lt.*1) -> total la + total lt < 65536 ->
  exists la' h', pbuf_cat a t h = Ok (tt, h') /\ la'.*1 = la.*1 /\
    Forall2 (fun x y => pb_ref x.2 = pb_ref y.2 /\ pb_flags x.2 = pb_flags y.2) la la' /\
    packet h' a (la' ++ lt) (da ++ dt).
Proof.
  intros. destruct (pbuf_cat_spec h a la da t lt dt) as (la' & ? & ? & ? & ?); auto.
  by exists la', (foldl setp h la').
Qed.

Lemma pbuf_cat_concatenates_ex : exists la' h', pbuf_cat 1 3 ex_heap = Ok (tt, h') /\
  packet h' 1 (la' ++ ex_single) [1; 2; 3; 4; 5; 6; 7].
Proof.
  destruct (pbuf_cat_concatenates ex_heap 1 ex_chain [1; 2; 3; 4; 5] 3 ex_single [6; 7])
    as (la' & h' & H1 & _ & _ & H2); [apply ex_packet|apply ex_packet3|done|done| |done|by exists la', h'].
  by intros x [->|[->|Hn%elem_of_nil]%elem_of_cons]%elem_of_cons Hy%list_elem_of_singleton.
Defined.

(** C34: [pbuf_realloc(p, n)] with [n] smaller than the packet shortens an unshared
    packet to its first [n] bytes, in a prefix of its pbufs; every pbuf behind it is
    freed (record and block), and nothing else in memory changes. *)
Theorem pbuf_realloc_truncates cf h p l d n :
  packet h p l d -> p <> 0 -> owned h l -> 0 <= n < zlen d ->
  exists l1 l2 l' h', l = l1 ++ l2 /\ l'.*1 = l1.*1 /\
    pbuf_realloc cf p n h = Ok (tt, h') /\ packet h' p l' (ztake n d) /\
    (forall x, x ∈ l2.*1 -> hp_pbufs h' !! x = None /\ hp_blocks h' !! x = None) /\
    (forall x, x ∉ l.*1 -> hp_pbufs h' !! x = hp_pbufs h !! x) /\
    (forall x, x ∉ l2.*1 -> hp_blocks h' !! x = hp_blocks h !! x).
Proof. apply pbuf_realloc_spec. Qed.

Lemma pbuf_realloc_truncates_ex : exists l' h', pbuf_realloc no_custom 1 2 ex_heap = Ok (tt, h') /\
  packet h' 1 l' [1; 2].
Proof.
  destruct (pbuf_realloc_truncates no_custom ex_heap 1 ex_chain [1; 2; 3; 4; 5] 2)
    as (l1 & l2 & l' & h' & _ & _ & H1 & H2 & _); [apply ex_packet|done|apply ex_owned; by left|done|by exists l', h'].
Defined.

(** C35: [pbuf_free] on any chain whose pbufs lwIP allocated: the leading pbufs with
    reference count one are deallocated, the walk stops at the first shared pbuf,
    which loses exactly one reference; the return value counts the deallocated
    pbufs (modulo 256). *)
Theorem pbuf_free_releases cf h p f r :
  chain h p (f ++ r) -> p <> 0 -> Forall (freeable h) (f ++ r) ->
  Forall (fun pb => pb_ref pb.2 = 1) f ->
  (match r with [] => True | (_, b) :: _ => 1 < pb_ref b end) ->
  pbuf_free cf p h = Ok (u8_t (zlen f), dec_ref r (foldl del_pbuf h f)).
Proof. apply pbuf_free_spec. Qed.

Lemma pbuf_free_releases_ex :
  pbuf_free no_custom 1 ex_heap = Ok (2, foldl del_pbuf ex_heap ex_chain).
Proof.
  rewrite (pbuf_free_releases no_custom ex_heap 1 ex_chain []); [done|apply ex_packet|done| | |done].
  - eapply Forall_impl; [apply (proj1 (ex_owned ex_chain ltac:(by left)))|]. by intros x [? _].
  - by repeat constructor.
Defined.

(** [pbuf_free_header(q, n)] drops the first [n] bytes of an unshared packet:
    pbufs that are used up are freed, the rest holds the remaining bytes, and
    nothing else changes (also when [n] exceeds the packet: then nothing is left). *)
Theorem pbuf_free_header_drops cf h p l d n :
  packet h p l d -> owned h l -> 0 <= n < 65536 ->
  exists l1 l2 l' h', l = l1 ++ l2 /\ l'.*1 = l2.*1 /\
    pbuf_free_header cf p n h = Ok (hd_ptr l', h') /\
    packet h' (hd_ptr l') l' (zdrop n d) /\
    (forall x, x ∈ l1.*1 -> hp_pbufs h' !! x = None /\ hp_blocks h' !! x = None) /\
    (forall x, x ∉ l.*1 -> hp_pbufs h' !! x = hp_pbufs h !! x) /\
    (forall x, x ∉ l1.*1 -> hp_blocks h' !! x = hp_blocks h !! x).
Proof. apply pbuf_free_header_spec. Qed.

Lemma pbuf_free_header_drops_ex : exists l' h', pbuf_free_header no_custom 1 4 ex_heap = Ok (hd_ptr l', h') /\
  packet h' (hd_ptr l') l' [5].
Proof.
  destruct (pbuf_free_header_drops no_custom ex_heap 1 ex_chain [1; 2; 3; 4; 5] 4)
    as (l1 & l2 & l' & h' & _ & _ & H1 & H2 & _); [apply ex_packet|apply ex_owned; by left|done|by exists l', h'].
Defined.

(** ** Headers *)

(** [pbuf_add_header] on a pbuf whose data follows its struct either refuses and
    changes nothing (a length would leave 16 bits, or the payload would run into the
    struct) or moves the payload back by exactly [n] bytes and grows both lengths. *)
Theorem pbuf_add_header_guarded h p b n force :
  p <> 0 -> hp_pbufs h !! p = Some b -> 0 <= n -> 0 <= pb_len b <= pb_tot_len b ->
  pb_tot_len b < 65536 -> Z.land (pb_type_internal b) PBUF_TYPE_FLAG_STRUCT_DATA_CONTIGUOUS <> 0 ->
  (pb_payload b).1 = p -> SIZEOF_STRUCT_PBUF <= (pb_payload b).2 ->
  pbuf_add_header_impl p n force h =
    if (65535 <? n + pb_tot_len b) || ((pb_payload b).2 - n <? SIZEOF_STRUCT_PBUF)
    then Ok (1, h) else Ok (0, setp h (p, strip_rec (- n) b)).
Proof. apply pbuf_add_header_impl_spec. Qed.

Lemma pbuf_add_header_guarded_ex : pbuf_add_header_impl 1 1 0 ex_heap = Ok (1, ex_heap).
Proof.
  rewrite (pbuf_add_header_guarded ex_heap 1 (ex_pbuf 2 1 5 3) 1 0); done || by vm_compute.
Defined.

(** a header removed with [pbuf_remove_header] and put back with
    [pbuf_add_header] leaves the heap exactly as it was. *)
Theorem pbuf_header_roundtrip h p b n :
  p <> 0 -> hp_pbufs h !! p = Some b -> 0 <= n <= pb_len b -> pb_len b <= pb_tot_len b < 65536 ->
  Z.land (pb_type_internal b) PBUF_TYPE_FLAG_STRUCT_DATA_CONTIGUOUS <> 0 ->
  (pb_payload b).1 = p -> SIZEOF_STRUCT_PBUF <= (pb_payload b).2 ->
  exists h1, pbuf_remove_header p n h = Ok (0, h1) /\ pbuf_add_header p n h1 = Ok (0, h).
Proof. apply pbuf_add_remove_header. Qed.

Lemma pbuf_header_roundtrip_ex :
  exists h1, pbuf_remove_header 1 2 ex_heap = Ok (0, h1) /\ pbuf_add_header 1 2 h1 = Ok (0, ex_heap).
Proof. apply (pbuf_header_roundtrip ex_heap 1 (ex_pbuf 2 1 5 3) 2); done || by vm_compute. Defined.

(** ** Data *)

(** C37: [pbuf_copy(to, from)] copies a whole packet: the target starts with the bytes
    of the source and keeps its remaining bytes, source and pbuf records are
    unchanged, and no block outside the target's payloads is written; it never trips
    one of its assertions, however the two chains are split. *)
Theorem pbuf_copy_copies h t lt dt f lf df :
  packet h t lt dt -> packet h f lf df -> t <> 0 -> f <> 0 -> solid lt -> solid lf ->
  payloads_nodup lt -> (forall B, B ∈ payload_blocks lt -> payload_avoids B lf) ->
  zlen df <= zlen dt ->
  exists h', pbuf_copy t f h = Ok (ERR_OK, h') /\ hp_pbufs h' = hp_pbufs h /\
    packet h' t lt (df ++ zdrop (zlen df) dt) /\ packet h' f lf df /\
    (forall B, B ∉ payload_blocks lt -> hp_blocks h' !! B = hp_blocks h !! B).
Proof. apply pbuf_copy_spec. Qed.

Lemma ex_nodup : payloads_nodup ex_chain.
Proof. apply (bool_decide_eq_true_1 (payloads_nodup ex_chain)). by vm_compute. Defined.

Lemma pbuf_copy_copies_ex : exists h', pbuf_copy 1 3 ex_heap = Ok (ERR_OK, h') /\
  packet h' 1 ex_chain [6; 7; 3; 4; 5].
Proof.
  destruct (pbuf_copy_copies ex_heap 1 ex_chain [1; 2; 3; 4; 5] 3 ex_single [6; 7])
    as (h' & H1 & _ & H2 & _); [apply ex_packet|apply ex_packet3|done|done|by repeat constructor|by repeat constructor
      |apply ex_nodup| |done|by exists h'].
  intros B [->|[->|Hn%elem_of_nil]%elem_of_cons]%elem_of_cons; by repeat constructor.
Defined.

(** [pbuf_take(p, data, n)] overwrites the first [n] bytes of the packet with the
    first [n] bytes of the buffer and leaves the rest of the packet, the pbuf
    records and every other block alone. *)
Theorem pbuf_take_overwrites h p l d data n :
  packet h p l d -> p <> 0 -> payloads_nodup l -> 0 <= n <= zlen d -> n <= zlen data ->
  exists h', pbuf_take p (Some data) n h = Ok (ERR_OK, h') /\
    packet h' p l (ztake n data ++ zdrop n d) /\ hp_pbufs h' = hp_pbufs h /\
    (forall B, B ∉ payload_blocks l -> hp_blocks h' !! B = hp_blocks h !! B).
Proof. apply pbuf_take_spec. Qed.

Lemma pbuf_take_overwrites_ex : exists h', pbuf_take 1 (Some [9; 9; 9; 9]) 4 ex_heap = Ok (ERR_OK, h') /\
  packet h' 1 ex_chain [9; 9; 9; 9; 5].
Proof.
  destruct (pbuf_take_overwrites ex_heap 1 ex_chain [1; 2; 3; 4; 5] [9; 9; 9; 9] 4)
    as (h' & H1 & H2 & _); [apply ex_packet|done|apply ex_nodup|done|done|by exists h'].
Defined.

(** [pbuf_copy_partial(p, dst, len, off)] copies the bytes [off, off + len) of the
    packet (what there is of them) to [dst] and returns their number, for every
    offset and length, including offsets beyond the packet. *)
Theorem pbuf_copy_partial_slice h p l d dst len off bs :
  packet h p l d -> p <> 0 -> dst.1 <> 0 ->
  payload_avoids dst.1 l -> hp_blocks h !! dst.1 = Some bs -> 0 <= dst.2 ->
  0 <= off < 65536 -> 0 <= len < 65536 -> dst.2 + len <= zlen bs ->
  pbuf_copy_partial p dst len off h =
    Ok (zlen (zslice off len d), poke dst.1 dst.2 (zslice off len d) h).
Proof. apply pbuf_copy_partial_spec. Qed.

Lemma pbuf_copy_partial_slice_ex :
  pbuf_copy_partial 1 (4, 0) 8 2 ex_heap = Ok (3, poke 4 0 [3; 4; 5] ex_heap).
Proof.
  rewrite (pbuf_copy_partial_slice ex_heap 1 ex_chain [1; 2; 3; 4; 5] (4, 0) 8 2 (replicate 8 0));
    [done|apply ex_packet|done|done|by repeat constructor|by vm_compute|done|done|done|done].
Defined.

(** [pbuf_memfind(p, mem, mem_len, start)] returns the first offset not below
    [start] at which the bytes of [mem] occur in the packet, across pbuf borders,
    and 0xffff when there is none. *)
Theorem pbuf_memfind_first h p l d m start :
  packet h p l d -> p <> 0 -> bytes_ok d -> 0 <= start < 65536 -> zlen d < 65535 -> zlen m < 65536 ->
  exists r, pbuf_memfind p m (zlen m) start h = Ok (r, h) /\
    ((r = 65535 /\ forall j, start <= j <= zlen d - zlen m -> ~ occurs d m j) \/
     (start <= r <= zlen d - zlen m /\ occurs d m r /\ forall j, start <= j < r -> ~ occurs d m j)).
Proof.
  intros Hp Hp0 Hb Hs Hd Hm. pose proof (packet_len _ _ _ _ Hp) as Hz. pose proof Hp as (Hc & Hl & _).
  inversion Hc as [|? b l' _ Hb' _]; subst; [done|]. destruct Hl as (_ & Ht & _). simpl in Hz.
  pose proof (zlen_nonneg m). unfold pbuf_memfind. m_step (get_pbuf_ok _ _ _ Hb').
  rewrite Ht, <- Hz. destruct (Z.leb_spec (zlen m + start) (zlen d)).
  - rewrite u16_t_id by lia. eapply pbuf_memfind_loop_spec; eauto; lia.
  - exists 65535. split; [done|]. left. split; [done|]. intros j Hj. lia.
Qed.

Lemma pbuf_memfind_first_ex : exists r, pbuf_memfind 1 [3; 4] 2 0 ex_heap = Ok (r, ex_heap) /\ r = 2.
Proof.
  destruct (pbuf_memfind_first ex_heap 1 ex_chain [1; 2; 3; 4; 5] [3; 4] 0) as (r & H1 & _);
    [apply ex_packet|done|by repeat constructor|done|done|done|]. exists r. split; [done|].
  vm_compute in H1. by injection H1.
Defined.

(** ** Allocation *)

(** C36: [pbuf_alloc(layer, n, PBUF_POOL)] either returns [NULL] with every pbuf and
    block as before (what it had built is freed again) or a chain of fresh pbufs of
    exactly [n] bytes, with reference counts one, disjoint from everything that was
    live; all older pbufs and blocks are untouched. *)
Theorem pbuf_alloc_pool_all_or_nothing `{Malloc} cf h layer n :
  0 <= layer < PBUF_POOL_BUFSIZE -> 0 <= n < 65536 ->
  exists r h', pbuf_alloc cf layer n PBUF_POOL h = Ok (r, h') /\
    ((r = 0 /\ hp_pbufs h' = hp_pbufs h /\ hp_blocks h' = hp_blocks h) \/
     (exists l d, r <> 0 /\ packet h' r l d /\ zlen d = n /\ bytes_ok d /\ owned h' l /\
        (forall x, x ∈ l.*1 -> hp_pbufs h !! x = None /\ hp_blocks h !! x = None) /\
        (forall x, x ∉ l.*1 -> hp_pbufs h' !! x = hp_pbufs h !! x /\ hp_blocks h' !! x = hp_blocks h !! x))).
Proof.
  intros Hl Hn. destruct (pbuf_alloc_pool_spec cf h layer n Hl Hn) as (r & h' & Hrun & Hres).
  exists r, h'. split; [done|]. destruct Hres as [?|(l & Hr & Hr0 & Ht & Hi)]; [by left|right].
  destruct (alloc_inv_packet _ _ _ Hi) as (d & Hp & Hz & Hb). exists l, d.
  rewrite Hr at 2. split_and!; [done|done|lia|done|apply fresh_freeable; by destruct Hi|by destruct Hi|by destruct Hi].
Qed.

Lemma pbuf_alloc_pool_all_or_nothing_ex : exists r h', pbuf_alloc no_custom 14 2000 PBUF_POOL ex_heap = Ok (r, h').
Proof.
  destruct (pbuf_alloc_pool_all_or_nothing no_custom ex_heap 14 2000) as (r & h' & H1 & _); [done|done|by exists r, h'].
Defined.

(** [pbuf_coalesce(p, layer)] never changes the bytes of an unshared packet: it
    returns one pbuf with all of them and has freed the old chain, or, without
    memory, the old chain itself. *)
Theorem pbuf_coalesce_same_bytes `{Malloc} cf h layer p l d :
  packet h p l d -> p <> 0 -> solid l -> owned h l -> 0 <= layer -> layer + zlen d < 65536 ->
  exists r h' l', pbuf_coalesce cf p layer h = Ok (r, h') /\ packet h' r l' d /\
    (l' = l \/ (exists b, l' = [(r, b)] /\
       forall x, x ∈ l.*1 -> hp_pbufs h' !! x = None /\ hp_blocks h' !! x = None)).
Proof. apply pbuf_coalesce_spec. Qed.

Lemma pbuf_coalesce_same_bytes_ex : exists r h' l', pbuf_coalesce no_custom 1 0 ex_heap = Ok (r, h') /\
  packet h' r l' [1; 2; 3; 4; 5].
Proof.
  destruct (pbuf_coalesce_same_bytes no_custom ex_heap 0 1 ex_chain [1; 2; 3; 4; 5])
    as (r & h' & l' & H1 & H2 & _); [apply ex_packet|done|by repeat constructor|apply ex_owned; by left|done|done|].
  by exists r, h', l'.
Defined.
