(* ===== verification/ChksumProps.v ===== *)
(** * Properties of the checksum functions *)

From S2P Require Import Prelude Def IpAddr OnesComplement Pbuf PbufFacts PbufMut PbufData InetChksum PbufProps.

(** C40: [lwip_standard_chksum] computes the 16-bit one's-complement sum of the
    buffer's words whatever the alignment of the buffer, for the documented lengths
    (up to 0x20000 bytes, so the 32-bit accumulator never wraps). *)
Theorem lwip_standard_chksum_correct addr data :
  bytes_ok data -> zlen data <= 131072 -> lwip_standard_chksum addr data = canon (word_sum data).
Proof. apply lwip_standard_chksum_spec. Qed.

Lemma lwip_standard_chksum_correct_ex : lwip_standard_chksum 7 [1; 2; 255; 254; 5] = canon (word_sum [1; 2; 255; 254; 5]).
Proof. apply lwip_standard_chksum_correct; [by repeat constructor|done]. Defined.

(** C38: [inet_chksum_pbuf] of a chain is the Internet checksum of the packet's flat
    bytes: it does not depend on how the packet is split into pbufs (odd lengths
    included) nor on where their payloads lie, and it does not change the heap. *)
Theorem inet_chksum_pbuf_flat base h p l d : packet h p l d -> bytes_ok d ->
  inet_chksum_pbuf base p h = Ok (checksum d, h).
Proof. apply inet_chksum_pbuf_spec. Qed.

Lemma inet_chksum_pbuf_flat_ex : inet_chksum_pbuf (fun B => B) 1 ex_heap = Ok (checksum [1; 2; 3; 4; 5], ex_heap).
Proof. apply (inet_chksum_pbuf_flat _ _ _ ex_chain); [apply ex_packet|by repeat constructor]. Defined.

(** [ip_chksum_pseudo] is the Internet checksum of the IPv4 (RFC 793) or IPv6
    (RFC 2460) pseudo header followed by the packet's bytes, by the type of the
    destination address. *)
Theorem ip_chksum_pseudo_flat base h p l d proto proto_len src dest :
  packet h p l d -> bytes_ok d -> byte_ok proto -> 0 <= proto_len < 65536 ->
  ip6_ok (u_addr src) -> ip6_ok (u_addr dest) ->
  ip_chksum_pseudo base p proto proto_len src dest h =
    Ok (checksum (pseudo_header src dest proto proto_len ++ d), h).
Proof. apply ip_chksum_pseudo_spec. Qed.

Definition ex_src : ip_addr := ip_addr_copy_from_ip4 (IP4_ADDR 10 0 0 1).
Definition ex_dst : ip_addr := ip_addr_copy_from_ip4 (IP4_ADDR 10 0 0 2).
Lemma ex_src_ok : ip6_ok (u_addr ex_src).
Proof. split; [repeat constructor|]; unfold u32_ok, byte_ok; vm_compute; done. Defined.
Lemma ex_dst_ok : ip6_ok (u_addr ex_dst).
Proof. split; [repeat constructor|]; unfold u32_ok, byte_ok; vm_compute; done. Defined.

Lemma ip_chksum_pseudo_flat_ex : ip_chksum_pseudo (fun B => B) 1 6 5 ex_src ex_dst ex_heap =
  Ok (checksum ([10; 0; 0; 1; 10; 0; 0; 2; 0; 6; 0; 5] ++ [1; 2; 3; 4; 5]), ex_heap).
Proof.
  rewrite (ip_chksum_pseudo_flat (fun B => B) ex_heap 1 ex_chain [1; 2; 3; 4; 5] 6 5 ex_src ex_dst);
    [by vm_compute|apply ex_packet|by repeat constructor|done|done|apply ex_src_ok|apply ex_dst_ok].
Defined.

(** [inet_chksum_pseudo_partial] sums only the first [n] bytes of the packet. *)
Theorem inet_chksum_pseudo_partial_prefix base h p l d proto proto_len n src dest :
  packet h p l d -> bytes_ok d -> byte_ok proto -> 0 <= proto_len < 65536 -> 0 <= n < 32767 ->
  u32_ok src -> u32_ok dest ->
  inet_chksum_pseudo_partial base p proto proto_len n src dest h =
    Ok (checksum (pseudo_header4 src dest proto proto_len ++ ztake n d), h).
Proof. apply inet_chksum_pseudo_partial_spec. Qed.

Lemma inet_chksum_pseudo_partial_prefix_ex :
  inet_chksum_pseudo_partial (fun B => B) 1 17 5 4 1 2 ex_heap =
    Ok (checksum (pseudo_header4 1 2 17 5 ++ [1; 2; 3; 4]), ex_heap).
Proof.
  rewrite (inet_chksum_pseudo_partial_prefix (fun B => B) ex_heap 1 ex_chain [1; 2; 3; 4; 5] 17 5 4 1 2);
    [done|apply ex_packet|by repeat constructor|done|done|done|done|done].
Defined.

(** a header whose checksum field (two bytes at an even offset, zero while
    [inet_chksum] runs) is filled with the result verifies: [inet_chksum] over the
    finished header is zero, at whatever addresses the two computations run. *)
Theorem inet_chksum_verifies addr addr' pre post :
  bytes_ok pre -> bytes_ok post -> Z.even (zlen pre) = true -> zlen pre + zlen post + 2 <= 131072 ->
  inet_chksum addr' (pre ++ le16 (inet_chksum addr (pre ++ [0; 0] ++ post)) ++ post) = 0.
Proof.
  intros Hpre Hpost Hev Hlen.
  assert (forall x, zlen (pre ++ le16 x ++ post) = zlen pre + zlen post + 2) as Hz.
  { intros x. rewrite !zlen_app. change (zlen (le16 x)) with 2. lia. }
  assert (forall x, bytes_ok (le16 x)) as Hle by (intros; repeat constructor; unfold byte_ok; dlia).
  rewrite (inet_chksum_spec addr).
  - rewrite inet_chksum_spec; [by apply checksum_verifies| |by rewrite Hz].
    apply Forall_app. split; [done|]. by apply Forall_app.
  - apply Forall_app. split; [done|]. apply Forall_app. split; [by repeat constructor|done].
  - specialize (Hz 0). change (le16 0) with [0; 0] in Hz. by rewrite Hz.
Qed.

Lemma inet_chksum_verifies_ex :
  inet_chksum 1 ([69; 0; 0; 20] ++ le16 (inet_chksum 0 ([69; 0; 0; 20] ++ [0; 0] ++ [10; 0; 0; 1; 9])) ++ [10; 0; 0; 1; 9]) = 0.
Proof. apply inet_chksum_verifies; [by repeat constructor|by repeat constructor|done|done]. Defined.

(** [pbuf_fill_chksum] writes the data into the pbuf and adds its sum, corrected
    for an odd position, to the running one's-complement sum. *)
Theorem pbuf_fill_chksum_accumulates base h p b d off data n s :
  p <> 0 -> hp_pbufs h !! p = Some b -> load_bytes h (pb_payload b) (pb_len b) = Some d ->
  0 <= off -> 0 < n -> off + n <= pb_len b -> pb_len b < 65536 -> n <= zlen data -> bytes_ok data -> 0 <= s ->
  pbuf_fill_chksum base p off data n (canon s) h =
    Ok ((ERR_OK, canon (s + parity off * word_sum (ztake n data))),
        poke (pb_payload b).1 ((pb_payload b).2 + off) (ztake n data) h).
Proof. apply pbuf_fill_chksum_spec. Qed.

Lemma pbuf_fill_chksum_accumulates_ex :
  pbuf_fill_chksum (fun B => B) 1 1 [8; 9] 2 (canon 5) ex_heap =
    Ok ((ERR_OK, canon (5 + 256 * word_sum [8; 9])), poke 1 25 [8; 9] ex_heap).
Proof.
  rewrite (pbuf_fill_chksum_accumulates (fun B => B) ex_heap 1 (ex_pbuf 2 1 5 3) [1; 2; 3] 1 [8; 9] 2 5);
    [done|done|by vm_compute|by vm_compute|done|done|done|done|done|by repeat constructor|done].
Defined.
