(* ===== verification/TimeoutsProps.v ===== *)
(** * Properties of the timer module *)

From Stdlib Require Import Sorted Permutation.
From S2P Require Import Prelude Timeouts TimeoutsFacts.

(** A world that is just a clock, with callbacks that do nothing. *)
Definition ex_quiet : M (@tstate Z) unit :=
  fun s => Ok (tt, mkTS (next_timeout s) (current_timeout_due_time s) (tcpip_tcp_timer_active s)
                        (u32_t (ts_world s))).
Definition ex_state (l : list sys_timeo) : @tstate Z := mkTS l 0 false 4294967000.
Definition ex_timers : list sys_timeo :=
  [mkTimeo 4294966990 h_lwip_cyclic_timer 1; mkTimeo 4294967100 h_lwip_cyclic_timer 2; mkTimeo 104 h_lwip_cyclic_timer 3].

(** [sys_timeout] inserts a timer at its place in the due-time order (behind
    timers due at the same time) although the clock wraps around: the list stays
    sorted and has exactly one entry more. *)
Theorem sys_timeout_inserts {W} (sys_now : W -> Z) malloc_ok (s : @tstate W) msecs h arg :
  let n := sys_now (ts_world s) in
  near_list n (next_timeout s) -> sorted n (next_timeout s) -> 0 <= msecs < 1073741824 -> malloc_ok s = true ->
  exists l', sys_timeout sys_now malloc_ok msecs h arg s = Ok (tt, set_list l' s) /\
    l' = insert_sorted n (mkTimeo (u32_t (n + msecs)) h arg) (next_timeout s) /\
    sorted n l' /\ near_list n l' /\ l' ≡ₚ mkTimeo (u32_t (n + msecs)) h arg :: next_timeout s.
Proof.
  intros n Hl Hs Hm Hok. eexists. split; [by apply sys_timeout_spec|]. fold n.
  split_and!; [done|by apply insert_sorted_sorted| |apply insert_sorted_perm].
  unfold near_list. rewrite insert_sorted_perm. constructor; [|done]. apply near_add. simpl. lia.
Qed.

Lemma ex_near : near_list 4294967000 ex_timers.
Proof. unfold near_list, near, ex_timers. repeat constructor; vm_compute; done. Defined.
Lemma ex_sorted : sorted 4294967000 ex_timers.
Proof. repeat constructor; vm_compute; done. Defined.

Lemma sys_timeout_inserts_ex : exists l',
  sys_timeout (fun n => n) (fun _ => true) 300 (h_other 1) 0 (ex_state ex_timers) = Ok (tt, set_list l' (ex_state ex_timers)) /\
  (to_time <$> l') = [4294966990; 4294967100; 4; 104].
Proof.
  destruct (sys_timeout_inserts (fun n => n) (fun _ => true) (ex_state ex_timers) 300 (h_other 1) 0)
    as (l' & H1 & H2 & _); [apply ex_near|apply ex_sorted|done|done|].
  exists l'. split; [done|]. rewrite H2. by vm_compute.
Defined.

(** C39: [sys_check_timeouts] terminates when the callbacks leave the timer module
    alone (they may let the clock advance): it fires every timer at most twice, and
    afterwards no pending timer is due, every cyclic timer is pending again, the
    list is sorted, and the TCP timer is pending exactly when it is marked active. *)
Theorem sys_check_timeouts_complete {W} (sys_now : W -> Z) malloc_ok tcp_pcbs cyclic_call other_call ooseq n
    (s : @tstate W) :
  0 <= n < 4294967296 -> (forall s, malloc_ok s = true) ->
  (forall h, quiet sys_now n (cyclic_call h)) -> (forall k a, quiet sys_now n (other_call k a)) ->
  quiet sys_now n ooseq -> timers_inv sys_now n s -> sys_now (ts_world s) = n ->
  exists s', sys_check_timeouts sys_now malloc_ok tcp_pcbs cyclic_call other_call ooseq
               (2 * length (next_timeout s) + 1) s = Ok (tt, s') /\
    timers_inv sys_now n s' /\ Forall (fun t => 0 < due n t) (next_timeout s') /\
    cyclic_args (next_timeout s') ≡ₚ cyclic_args (next_timeout s).
Proof. intros. by apply sys_check_timeouts_spec. Qed.

Lemma ex_quiet_ok : quiet (fun n => n) 4294967000 ex_quiet.
Proof.
  intros s [[H1 H2] H3]. exists (u32_t (ts_world s)). split; [done|].
  rewrite u32_t_id by done. by split.
Defined.
Lemma ex_inv : timers_inv (fun n => n) 4294967000 (ex_state ex_timers).
Proof.
  constructor; [apply ex_near|apply ex_sorted| |by vm_compute|].
  - repeat constructor; unfold entry_ok; simpl; lia.
  - repeat split; vm_compute; done.
Defined.

Lemma sys_check_timeouts_complete_ex : exists s',
  sys_check_timeouts (fun n => n) (fun _ => true) (fun _ => true) (fun _ => ex_quiet) (fun _ _ => ex_quiet) ex_quiet
    7 (ex_state ex_timers) = Ok (tt, s') /\ cyclic_args (next_timeout s') ≡ₚ [1; 2; 3].
Proof.
  destruct (sys_check_timeouts_complete (fun n => n) (fun _ => true) (fun _ => true) (fun _ => ex_quiet)
    (fun _ _ => ex_quiet) ex_quiet 4294967000 (ex_state ex_timers)) as (s' & H1 & _ & _ & H2);
    [done|done|intros; apply ex_quiet_ok|intros; apply ex_quiet_ok|apply ex_quiet_ok|apply ex_inv|done|by exists s'].
Defined.

(** [tcp_timer_needed] keeps the TCP timer pending exactly once when there are
    connections, and never starts a second one. *)
Theorem tcp_timer_needed_once {W} (sys_now : W -> Z) malloc_ok tcp_pcbs n (s : @tstate W) :
  0 <= n < 4294967296 -> (forall s, malloc_ok s = true) -> timers_inv sys_now n s -> sys_now (ts_world s) = n ->
  exists s', tcp_timer_needed sys_now malloc_ok tcp_pcbs s = Ok (tt, s') /\ timers_inv sys_now n s' /\
    (tcp_pcbs (ts_world s) = true -> tcp_pending (next_timeout s') = 1%nat) /\
    cyclic_args (next_timeout s') ≡ₚ cyclic_args (next_timeout s).
Proof. intros. by apply tcp_timer_needed_spec. Qed.

Lemma tcp_timer_needed_once_ex : exists s',
  tcp_timer_needed (fun n => n) (fun _ => true) (fun _ => true) (ex_state ex_timers) = Ok (tt, s') /\
  tcp_pending (next_timeout s') = 1%nat.
Proof.
  destruct (tcp_timer_needed_once (fun n => n) (fun _ => true) (fun _ => true) 4294967000 (ex_state ex_timers))
    as (s' & H1 & _ & H2 & _); [done|done|apply ex_inv|done|]. exists s'. split; [done|by apply H2].
Defined.

(** [sys_timeouts_sleeptime] is the time until the earliest timer is due, zero
    when it is overdue, and 0xffffffff without timers; its assertion never fails. *)
Theorem sys_timeouts_sleeptime_earliest {W} (sys_now : W -> Z) (s : @tstate W) :
  let n := sys_now (ts_world s) in
  near_list n (next_timeout s) ->
  sys_timeouts_sleeptime sys_now s =
    Ok (match next_timeout s with [] => SYS_TIMEOUTS_SLEEPTIME_INFINITE | t :: _ => Z.max 0 (due n t) end, s).
Proof. apply sys_timeouts_sleeptime_spec. Qed.

Lemma sys_timeouts_sleeptime_earliest_ex :
  sys_timeouts_sleeptime (fun n => n) (ex_state (drop 1 ex_timers)) = Ok (100, ex_state (drop 1 ex_timers)).
Proof.
  rewrite (sys_timeouts_sleeptime_earliest (fun n => n)); [by vm_compute|].
  unfold near_list, near, ex_timers. repeat constructor; vm_compute; done.
Defined.

(** [sys_restart_timeouts] rebases the timers to the current time: the first one
    is due now, the distances between timers, their order, handlers and arguments
    are kept. *)
Theorem sys_restart_timeouts_rebases {W} (sys_now : W -> Z) (s : @tstate W) n t0 rest :
  next_timeout s = t0 :: rest -> near_list n (t0 :: rest) -> sorted n (t0 :: rest) ->
  Forall (fun t => due n t - due n t0 < 1073741824) rest ->
  let n' := sys_now (ts_world s) in
  exists l', sys_restart_timeouts sys_now s = Ok (tt, set_list l' s) /\
    near_list n' l' /\ sorted n' l' /\
    (fun t => (due n' t, to_h t, to_arg t)) <$> l' =
    (fun t => (due n t - due n t0, to_h t, to_arg t)) <$> (t0 :: rest).
Proof. apply sys_restart_timeouts_spec. Qed.

Lemma sys_restart_timeouts_rebases_ex : exists l',
  sys_restart_timeouts (fun n => n) (mkTS ex_timers 0 false 77) = Ok (tt, set_list l' (mkTS ex_timers 0 false 77)) /\
  sorted 77 l'.
Proof.
  destruct (sys_restart_timeouts_rebases (fun n => n) (mkTS ex_timers 0 false 77) 4294967000
    (mkTimeo 4294966990 h_lwip_cyclic_timer 1) (drop 1 ex_timers)) as (l' & H1 & _ & H2 & _);
    [done|apply ex_near|apply ex_sorted| |by exists l'].
  repeat constructor; vm_compute; done.
Defined.

(** [sys_untimeout] removes the first timer with that handler and argument and
    no other, and changes nothing when there is none. *)
Theorem sys_untimeout_first {W} h arg (s : @tstate W) :
  exists l', sys_untimeout h arg s = Ok (tt, set_list l' s) /\
  ((l' = next_timeout s /\ forall t, t ∈ next_timeout s -> ~ (to_h t = h /\ to_arg t = arg)) \/
   (exists l1 t l2, next_timeout s = l1 ++ t :: l2 /\ l' = l1 ++ l2 /\ to_h t = h /\ to_arg t = arg /\
     forall x, x ∈ l1 -> ~ (to_h x = h /\ to_arg x = arg))).
Proof. eexists. split; [done|]. apply untimeout_list_spec. Qed.
