(* ===== verification/TcpProps.v ===== *)
(** * Properties of the TCP input and output paths *)

From S2P Require Import Prelude Def IpAddr Tcp TcpOut TcpIn TcpFacts TcpStream.
From S2P Require Import TcpOoseq TcpRecv TcpAck TcpReceive TcpOpt TcpOutput TcpSend TcpProcess.
From S2P Require Import TcpMachine TcpInput TcpApp TcpReset TcpDeliver TcpRun TcpExample.

(** ** From the wire to the application *)

(** C5: [tcp_input] refines the byte stream of the peer.  Take an application that keeps
    to the raw API ([app_ok]) and a connection that has consumed the first [N] bytes of the
    peer's stream [σ] (those the application accepted, followed by those it refused last).
    A segment of the stream that begins at or before [rcv_nxt] or ends within the window
    ([arrives]), with neither RST nor SYN and with readable options ([plain_segment]), is
    processed without a failed assertion or an access to a freed control block, if the
    connection is not in TIME_WAIT, holds no refused data in CLOSING, and holds no refused
    data elsewhere unless the application never aborts.  Afterwards either the connection is
    over, the application having got a beginning of [σ], all of it if it was told of the
    end; or [N'] >= [N] bytes are consumed, again exactly those accepted and refused,
    the end of the stream is reported once and after the last byte, and a segment that
    extends what was consumed has been taken up to the window's edge.  Outside the
    conditions: [tcp_receive_ooseq_untrimmed], [tcp_input_closing_drops_refused],
    [tcp_input_uses_freed_pcb]. *)
Theorem tcp_input_delivers_stream (σ : list Z) isn A cb N W b p s :
  app_ok σ isn A cb -> stream_inv σ isn A N W s -> N + 2 * TCP_WND - A < 1073741824 ->
  arrives σ isn N W b (input_setup p s) -> plain_segment (input_setup p s) -> state (st_pcb s) <> TIME_WAIT ->
  (state (st_pcb s) = CLOSING -> refused_data (st_pcb s) = []) ->
  refused_data (st_pcb s) = [] \/ never_aborts σ isn A cb ->
  exists s', tcp_input_pcb_found cb p s = Ok (tt, s') /\
    (ended σ s' \/ exists N' W', reaches σ N N' /\ stream_inv σ isn A N' W' s' /\
       (refused_data (st_pcb s) = [] -> b <= N -> state_num (state (st_pcb s)) < state_num CLOSE_WAIT ->
        Z.min (b + tcplen s) (N + W) <= N')).
Proof.
  intros Hok Hs Hn Har Hpl Hst Hcl Hna. pose proof (tcp_input_pcb_found_spec σ isn A cb N W b p s) as H.
  apply wp_run in H as ([] & s' & Hrun & Hout); eauto.
Qed.

(** An application that reopens the window for what it takes, and aborts the connection
    when it is told of the end of the stream. *)
Definition ex_quiet_cb : tcp_callbacks :=
  mkCallbacks (fun _ => ret 0) (fun _ => ret 0) (fun _ => ret 0) (ret 0) (fun _ => ret 0) (fun _ => ret tt).
Definition ex_cb : tcp_callbacks :=
  mkCallbacks (fun _ => ret 0) (fun _ => ret 0)
    (fun p => tcp_recved (u16_t (zlen (pkt_bytes p))) ;;; ret ERR_OK)
    (tcp_abort ex_quiet_cb ;;; ret ERR_ABRT) (fun _ => ret ERR_OK) (fun _ => ret tt).

Lemma ex_app_ok σ isn A : app_ok σ isn A ex_cb.
Proof.
  split.
  - intros p N W s Hc Hn. simpl. wp_step. eapply wp_conseq; [apply (tcp_recved_spec σ isn A _ N W); [apply u16_t_range|done|done]|].
    intros _ s' [H _]. by wp_steps.
  - intros N W s Hc Hn. simpl. wp_step. eapply wp_conseq.
    + eapply (tcp_abort_spec ex_quiet_cb); [intros e s1; by wp_steps|]. eapply conn_removable, Hc.
    + intros ? s' H. by wp_steps.
  - intros n N W s Hc Hn. simpl. wp_steps. by apply continues_refl.
  - intros e s. simpl. by wp_steps.
Defined.

(** The whole stream and the FIN, in one segment of two buffers. *)
Definition ex_fin_in : tcp_st := ex_arrived ex_pcb (Z.lor TCP_ACK TCP_FIN) 1000 6.

Lemma tcp_input_delivers_stream_ex : exists s',
  tcp_input_pcb_found ex_cb [[10; 20]; [30; 40; 50]] ex_fin_in = Ok (tt, s') /\
  ended ex_stream s' /\ accepted (events s') = ex_stream /\ eofs (events s') = 1.
Proof.
  destruct (tcp_input_delivers_stream ex_stream 1000 0 ex_cb 0 TCP_WND 0 [[10; 20]; [30; 40; 50]] ex_fin_in)
    as (s' & Hrun & H).
  - apply ex_app_ok.
  - apply ex_stream_inv.
  - unfold TCP_WND. lia.
  - split; try done. by left.
  - split; try done. split; [done|by left].
  - done.
  - done.
  - by left.
  - exists s'. split; [done|].
    assert (Hf : result_of (fun s => (pcb_freed s, accepted (events s), eofs (events s)))
      (tcp_input_pcb_found ex_cb [[10; 20]; [30; 40; 50]] ex_fin_in) = Some (true, ex_stream, 1)) by (by vm_compute).
    rewrite Hrun in Hf. simpl in Hf.
    injection Hf as Hf Ha He. split; [|by split]. destruct H as [H|(N' & W' & _ & [Hc _ _] & _)]; [done|].
    pose proof (ci_live _ _ _ _ _ _ Hc) as Hl. congruence.
Defined.

(** ** Any sequence of operations *)

(** C4: Whatever the order in which segments of the peer's stream (also lost, repeated,
    reordered or overlapping ones), window updates, calls of [tcp_output],
    retransmissions and [tcp_abort] follow each other on an established connection, in
    every state reached the application has got a beginning of the stream, each byte
    once and in order; it was told of the end at most once, and then it has got the
    whole stream. *)
Theorem tcp_run_delivers (σ : list Z) isn cb N s : (forall A, app_ok σ isn A cb) -> conn_run σ isn cb N s ->
  accepted (events s) `prefix_of` σ /\ (eofs (events s) = 0 \/ eofs (events s) = 1 /\ accepted (events s) = σ).
Proof. intros Hok Hr. by eapply run_inv_prefix, conn_run_inv. Qed.

(** The second half of the stream with its FIN arrives before the first half. *)
Definition ex_second : tcp_st := ex_arrived ex_pcb (Z.lor TCP_ACK TCP_FIN) 1002 4.
Definition ex_after_second : tcp_st := Eval vm_compute in
  match tcp_input_pcb_found ex_cb [[30; 40; 50]] ex_second with Ok (_, s) => s | Fault _ => ex_second end.
Definition ex_first : tcp_st :=
  ex_after_second <| in_flags := TCP_ACK |> <| seqno := 1000 |> <| tcplen := 2 |>.
Definition ex_after_first : tcp_st := Eval vm_compute in
  match tcp_input_pcb_found ex_cb [[10; 20]] ex_first with Ok (_, s) => s | Fault _ => ex_first end.


(** Whatever the flags, no options were sent. *)
Lemma ex_no_options p s : has (in_flags s) TCP_RST = false -> has (in_flags s) TCP_SYN = false ->
  tcphdr_optlen s = 0 -> tcphdr_opt1len s = 0 -> plain_segment (input_setup p s).
Proof.
  intros H1 H2 E1 E2. split; try done. split.
  - unfold opts_sized, input_setup. rec_simpl. rewrite E1, E2. lia.
  - by left.
Defined.

Lemma tcp_run_delivers_ex : conn_run ex_stream 1000 ex_cb 6 ex_after_first /\
  accepted (events ex_after_first) `prefix_of` ex_stream.
Proof.
  assert (Hr : conn_run ex_stream 1000 ex_cb 6 ex_after_first).
  { apply (run_op ex_stream 1000 ex_cb 0 6 ex_after_second ex_first (OpSegment [[10; 20]])); try done.
    - apply (run_op ex_stream 1000 ex_cb 0 0 ex_second ex_second (OpSegment [[30; 40; 50]])); try done.
      + apply (run_start _ _ _ 0 TCP_WND). apply ex_stream_inv.
      + split; [done|]. split_and!; [|by apply ex_no_options|done|done|by left].
        exists 2. split; try done. by right.
    - split; [done|]. split_and!; [|by apply ex_no_options|done|done|by left].
      exists 0. split; try done. by left. }
  split; [done|]. apply (tcp_run_delivers ex_stream 1000 ex_cb 6); [|done]. intros A. apply ex_app_ok.
Defined.

(** C11: As long as the connection of such a run exists, an operation whose precondition
    [op_pre] holds terminates without a failed assertion or an access to freed memory, and
    its result continues the run.  Window updates of up to 65535 bytes, [tcp_output], a
    retransmission and [tcp_abort] are always possible.  A segment has to begin at or before
    [rcv_nxt] or to end within the window, to be neither RST nor SYN and to have readable
    options; the connection is not in TIME_WAIT, and holds refused data only outside CLOSING
    and with an application that never aborts.  The announced edge is not beyond the window nor
    more than 2^29 behind [rcv_nxt].
    Without the conditions: [tcp_receive_ooseq_untrimmed], [tcp_input_uses_freed_pcb],
    [tcp_input_closing_drops_refused]. *)
Theorem tcp_run_goes_on (σ : list Z) isn cb N s s0 o : (forall A, app_ok σ isn A cb) -> conn_run σ isn cb N s ->
  op_load s s0 -> pcb_freed s0 = false -> op_pre σ isn cb N s0 o ->
  exists s' N', op_run cb o s0 = Ok (tt, s') /\ N <= N' <= N + TCP_WND /\ conn_run σ isn cb N' s'.
Proof.
  intros Hok Hr Hl Hf Hp. destruct (op_run_goes_on σ isn cb Hok N s s0 o) as (s' & N' & H); eauto.
Qed.

Lemma tcp_run_goes_on_ex : exists s' N', op_run ex_cb (OpSegment [[30; 40; 50]]) ex_second = Ok (tt, s') /\
  conn_run ex_stream 1000 ex_cb N' s'.
Proof.
  destruct (tcp_run_goes_on ex_stream 1000 ex_cb 0 ex_second ex_second (OpSegment [[30; 40; 50]])) as (s' & N' & H1 & _ & H2).
  - intros A. apply ex_app_ok.
  - apply (run_start _ _ _ 0 TCP_WND). apply ex_stream_inv.
  - done.
  - done.
  - split; [done|]. split_and!; [|by apply ex_no_options|done|done|by left].
    exists 2. split; try done. by right.
  - exists s', N'. split; [exact H1|exact H2].
Defined.

(** ** The state machine *)





(** C20: A segment with RST that reaches a connection (in one of the active states, with no
    refused data; the application's error callback leaves the stack alone) ends it or leaves
    it alone.  If it carries the very sequence number expected, or, in SYN_SENT, acknowledges
    our SYN, the control block leaves its list and is freed, the application is told ERR_RST
    and nothing else, nothing is sent, no assertion fails, and the lists stay well formed.
    Otherwise the connection keeps its state, its window, its data and its place, nobody is
    told anything, and only acknowledgements and queued segments are sent: with nothing
    queued and memory at hand exactly one acknowledgement if the number is 1 to [rcv_wnd]
    ahead of the one expected, and nothing at all elsewhere if no acknowledgement was due.
    (The edge [rcv_wnd] lies behind the window, and a RST in SYN_SENT needs no ACK flag:
    [rst_behind_window_challenged], [rst_without_ack_accepted].) *)
Theorem tcp_input_reset cb p s : err_ok cb -> resettable s -> has (in_flags s) TCP_RST = true ->
  exists s', tcp_input_pcb_found cb p s = Ok (tt, s') /\ (reset_due s -> torn_down s s') /\ (~ reset_due s -> spared s s').
Proof.
  intros H1 H2 H3. pose proof (tcp_input_reset_spec cb p s H1 H2 H3) as H. apply wp_run in H as ([] & s' & Hrun & H). eauto.
Qed.

Definition ex_reset_in (sq : Z) : tcp_st := ex_arrived ex_pcb TCP_RST sq 0.
Lemma ex_resettable sq : 0 <= sq < 4294967296 -> resettable (ex_reset_in sq).
Proof. intros Hsq. split; try done. split; try done; [by apply ex_pcbs_ok|by left]. Defined.

(** The number expected, one ahead, one behind. *)
Lemma tcp_input_reset_ex :
  (exists s', tcp_input_pcb_found ex_cb [[]] (ex_reset_in 1000) = Ok (tt, s') /\ pcb_freed s' = true /\
     tcp_active_pcbs s' = [] /\ events s' = [EvErr ERR_RST]) /\
  (exists s', tcp_input_pcb_found ex_cb [[]] (ex_reset_in 1001) = Ok (tt, s') /\ pcb_freed s' = false /\
     exists o, sent s' = [o] /\ pure_ack ex_pcb o) /\
  (exists s', tcp_input_pcb_found ex_cb [[]] (ex_reset_in 999) = Ok (tt, s') /\ pcb_freed s' = false /\ sent s' = []).
Proof.
  assert (Herr : err_ok ex_cb) by (intros e s; simpl; by wp_steps). split_and!.
  - destruct (tcp_input_reset ex_cb [[]] (ex_reset_in 1000)) as (s' & Hrun & H & _); [done|by apply ex_resettable|done|].
    exists s'. split; [exact Hrun|]. destruct H as [H1 H2 _ _ H5 _]; [by right|]. split; [exact H1|]. split; [exact H2|exact H5].
  - destruct (tcp_input_reset ex_cb [[]] (ex_reset_in 1001)) as (s' & Hrun & _ & H); [done|by apply ex_resettable|done|].
    exists s'. split; [exact Hrun|]. destruct H as [[_ _ H _ _ _] [Hc _]]; [by intros [[? _]|[_ ?]]|]. split; [exact H|]. by apply Hc.
  - destruct (tcp_input_reset ex_cb [[]] (ex_reset_in 999)) as (s' & Hrun & _ & H); [done|by apply ex_resettable|done|].
    exists s'. split; [exact Hrun|]. destruct H as [[_ _ H _ _ _] [_ Hn]]; [by intros [[? _]|[_ ?]]|]. split; [exact H|].
    apply Hn; [done| |done]. intros [_ [_ Hle]]. by vm_compute in Hle.
Defined.

(** ** Receiving *)

(** C15: On a segment of the peer's stream that begins at or before [rcv_nxt] or ends within
    the window ([arrives]), [tcp_receive] fails no assertion.  The bytes it reports are those
    of the stream from the old to the new [rcv_nxt]; the right edge of the window stays; a
    segment that starts at or before [rcv_nxt] is taken up to the window's edge; acknowledged
    segments leave the send queues, with [snd_queuelen] and [recv_acked] in step.  (A segment
    that begins behind a gap and ends beyond the window can be stored as it is, and an
    assertion fails when the gap is closed: [tcp_receive_ooseq_untrimmed].) *)
Theorem tcp_receive_in_order (σ : list Z) isn A N W b s :
  qlen_ok (st_pcb s) -> rx_inv σ isn A N W (st_pcb s) -> arrives σ isn N W b s ->
  state_num ESTABLISHED <= state_num (state (st_pcb s)) ->
  exists s' N', tcp_receive s = Ok (tt, s') /\ received σ isn A N W b s N' s'.
Proof.
  intros Hq Hr Ha Hs. pose proof (tcp_receive_spec σ isn A N W b s Hq Hr Ha Hs) as H.
  apply wp_run in H as ([] & s' & Hrun & N' & H). eauto.
Qed.

(** A segment beyond the next number expected waits in the out-of-order queue. *)
Definition ex_gap_in : tcp_st := input_setup [[30; 40; 50]] (ex_arrived ex_pcb (Z.lor TCP_ACK TCP_FIN) 1002 4).

Lemma tcp_receive_in_order_ex : exists s' N', tcp_receive ex_gap_in = Ok (tt, s') /\
  received ex_stream 1000 0 0 TCP_WND 2 ex_gap_in N' s' /\ recv_data s' = [] /\ length (ooseq (st_pcb s')) = 1%nat.
Proof.
  destruct (tcp_receive_in_order ex_stream 1000 0 0 TCP_WND 2 ex_gap_in) as (s' & N' & Hrun & H).
  - done.
  - by apply ex_rx_inv.
  - split; try done. by right.
  - done.
  - exists s', N'. assert (Hf : result_of (fun s => (recv_data s, length (ooseq (st_pcb s)))) (tcp_receive ex_gap_in) = Some ([], 1%nat)) by (by vm_compute).
    rewrite Hrun in Hf. simpl in Hf. injection Hf as H1 H2. by split_and!.
Defined.

(** ** Sending *)

(** C16: Whatever the drivers and the heap answer, [tcp_output] sends nothing but pure
    acknowledgements and queued segments that fit the peer's window and the congestion
    window, loses and invents no segment, takes segments off [unsent] from the front, keeps
    both queues sorted and touches neither the congestion state nor the receive side. *)
Theorem tcp_output_in_window (B : Z) s : Forall txseg_ok (unsent (st_pcb s)) -> state (st_pcb s) <> LISTEN ->
  tcp_input_pcb s <> pcb_addr s ->
  exists err s', tcp_output s = Ok (err, s') /\ outputs B s s'.
Proof.
  intros H1 H2 H3. pose proof (tcp_output_spec B s H1 H2 H3) as H. apply wp_run in H as (r & s' & Hrun & H & _). eauto.
Qed.

(** Two segments of 4 and 3 bytes are queued; the second does not fit a window of 5. *)
Definition ex_seg (sq : Z) (data : list Z) : tcp_seg := mkSeg sq TCP_PSH (zlen data) [data] 0 TF_SEG_DATA_CHECKSUMMED 0 false.
Definition ex_send_pcb (wnd : Z) : tcp_pcb :=
  ex_pcb <| unsent := [ex_seg 500 [1; 2; 3; 4]; ex_seg 504 [5; 6; 7]] |> <| snd_wnd := wnd |> <| snd_lbb := 507 |>
         <| snd_buf := TCP_SND_BUF - 7 |> <| snd_queuelen := 2 |> <| flags := TF_NODELAY |>.
Lemma ex_segs_ok wnd : Forall txseg_ok (unsent (ex_send_pcb wnd)).
Proof. repeat constructor. Defined.

Lemma tcp_output_in_window_ex : exists s', tcp_output (ex_arrived (ex_send_pcb 5) 0 0 0) = Ok (ERR_OK, s') /\
  outputs 500 (ex_arrived (ex_send_pcb 5) 0 0 0) s' /\ o_data <$> sent s' = [[1; 2; 3; 4]] /\ persist_backoff (st_pcb s') = 0 /\
  seg_seqno <$> unacked (st_pcb s') = [500] /\ seg_seqno <$> unsent (st_pcb s') = [504].
Proof.
  destruct (tcp_output_in_window 500 (ex_arrived (ex_send_pcb 5) 0 0 0)) as (err & s' & Hrun & H); [apply ex_segs_ok|done|done|].
  assert (Hf : (fun r => match r with Ok (e, s) => Some (e, o_data <$> sent s, persist_backoff (st_pcb s),
      seg_seqno <$> unacked (st_pcb s), seg_seqno <$> unsent (st_pcb s)) | Fault _ => None end)
    (tcp_output (ex_arrived (ex_send_pcb 5) 0 0 0)) = Some (ERR_OK, [[1; 2; 3; 4]], 0, [500], [504])) by (by vm_compute).
  rewrite Hrun in Hf. simpl in Hf. injection Hf as -> H1 H2 H3 H4. exists s'. by split_and!.
Defined.

(** C17: When IP accepts the packets and memory can be had, [tcp_output] never leaves data
    behind without a timer: all of it has been sent, or the retransmission timer runs for
    data in flight, or the persist timer has been started for a closed window. *)
Theorem tcp_output_attended s : Forall txseg_ok (unsent (st_pcb s)) -> state (st_pcb s) <> LISTEN ->
  tcp_input_pcb s <> pcb_addr s -> can_send s ->
  exists s', tcp_output s = Ok (ERR_OK, s') /\ attended (st_pcb s').
Proof.
  intros H1 H2 H3 H4. pose proof (tcp_output_spec 0 s H1 H2 H3) as H.
  apply wp_run in H as (r & s' & Hrun & _ & H). destruct (H H4) as (-> & _ & Ha). eauto.
Qed.

(** A window of 2 bytes with nothing in flight: the persist timer is started. *)
Lemma tcp_output_attended_ex : exists s', tcp_output (ex_arrived (ex_send_pcb 2) 0 0 0) = Ok (ERR_OK, s') /\
  attended (st_pcb s') /\ sent s' = [] /\ persist_backoff (st_pcb s') = 1.
Proof.
  destruct (tcp_output_attended (ex_arrived (ex_send_pcb 2) 0 0 0)) as (s' & Hrun & H); [apply ex_segs_ok|done|done| |].
  - split; [|done]. split; [done|]. split; [done|]. intros x rest [= <- <-] _. reflexivity.
  - assert (Hf : result_of (fun s => (sent s, persist_backoff (st_pcb s))) (tcp_output (ex_arrived (ex_send_pcb 2) 0 0 0)) =
      Some ([], 1)) by (by vm_compute).
    rewrite Hrun in Hf. simpl in Hf. injection Hf as H1 H2. exists s'. by split_and!.
Defined.

(** C24: A retransmission time-out with something in flight that no driver holds puts every
    unacknowledged segment back in front of the unsent ones, marks the recovery up to the end
    of what was in flight, counts the attempt, stops the round-trip measurement and outputs;
    the oldest segment then goes out again if the windows allow it. Otherwise nothing changes.
    The queues stay sorted and complete, and all that is sent fits the windows. *)
Theorem tcp_rexmit_rto_requeues (B : Z) s : tx_ordered B (st_pcb s) ->
  Forall txseg_ok (unacked (st_pcb s) ++ unsent (st_pcb s)) -> state (st_pcb s) <> LISTEN -> tcp_input_pcb s <> pcb_addr s ->
  exists s', tcp_rexmit_rto s = Ok (tt, s') /\ (tx_inv B (st_pcb s') /\
    Permutation (plains (unacked (st_pcb s') ++ unsent (st_pcb s'))) (plains (unacked (st_pcb s) ++ unsent (st_pcb s))) /\
    exists outs, sent s' = sent s ++ outs /\ Forall (fun o => pure_ack (st_pcb s) o \/
      in_window (lastack (st_pcb s)) (Z.min (snd_wnd (st_pcb s)) (cwnd (st_pcb s))) o /\
      sends (unacked (st_pcb s) ++ unsent (st_pcb s)) o) outs) /\
    (unacked (st_pcb s) <> [] -> idle (unacked (st_pcb s)) s -> exists s1 r, requeued s s1 /\ tcp_output s1 = Ok (r, s')) /\
    (unacked (st_pcb s) = [] \/ ~ idle (unacked (st_pcb s)) s -> exists l, s' = s <| oracle := l |>) /\
    (forall x rest, unacked (st_pcb s) = x :: rest -> oracle s = [] ->
       fits (Z.min (snd_wnd (st_pcb s)) (cwnd (st_pcb s))) (st_pcb s) x = true ->
       (ip_addr_isany_val (local_ip (st_pcb s)) = true -> netif_local_ip s <> None) ->
       exists o outs, sent s' = sent s ++ o :: outs /\ sends [x] o).
Proof.
  intros H1 H2 H3 H4.
  pose proof (wp_and _ _ _ _ (tcp_rexmit_rto_spec B s H1 H2 H3 H4) (tcp_rexmit_rto_again B s H2 H3 H4)) as H.
  apply wp_run in H as ([] & s' & Hrun & H). eauto.
Qed.

Definition ex_inflight_pcb : tcp_pcb :=
  ex_pcb <| unacked := [ex_seg 500 [1; 2; 3; 4]; ex_seg 504 [5; 6; 7]] |> <| snd_nxt := 507 |> <| snd_lbb := 507 |>
         <| snd_queuelen := 2 |> <| rtime := 0 |> <| cwnd := TCP_MSS |> <| flags := TF_NODELAY |>.
(** Two segments in flight: both are queued again, and both fit the windows. *)
Lemma tcp_rexmit_rto_requeues_ex : exists s', tcp_rexmit_rto (ex_arrived ex_inflight_pcb 0 0 0) = Ok (tt, s') /\
  tx_inv 500 (st_pcb s') /\ (exists s1 r, requeued (ex_arrived ex_inflight_pcb 0 0 0) s1 /\ tcp_output s1 = Ok (r, s')) /\
  o_data <$> sent s' = [[1; 2; 3; 4]; [5; 6; 7]].
Proof.
  destruct (tcp_rexmit_rto_requeues 500 (ex_arrived ex_inflight_pcb 0 0 0)) as (s' & Hrun & (H & _) & Hq & _).
  - split; repeat constructor.
  - repeat constructor.
  - done.
  - done.
  - assert (Hf : result_of (fun s => o_data <$> sent s) (tcp_rexmit_rto (ex_arrived ex_inflight_pcb 0 0 0)) =
      Some [[1; 2; 3; 4]; [5; 6; 7]]) by (by vm_compute).
    rewrite Hrun in Hf. simpl in Hf. injection Hf as H1. exists s'. split_and!; try done.
    apply Hq; [done|]. unfold idle. simpl. constructor.
Defined.

(** ** Control blocks *)

(** Aborting a connection keeps the well-formedness of the lists of control blocks
    (every control block is on one list, the one for its state): the block is taken off
    its list and freed, in [TIME_WAIT] and before, none of the assertions about leaked
    segments and of [tcp_pcbs_sane] fails, and the application gets no data. *)
Theorem tcp_abort_keeps_lists cb tw s : err_ok cb -> removable tw s ->
  exists s', tcp_abort cb s = Ok (tt, s') /\ aborted (stream_of s) s'.
Proof.
  intros H1 H2. pose proof (tcp_abort_spec cb tw s H1 H2) as H. apply wp_run in H as ([] & s' & Hrun & H). eauto.
Qed.

Lemma tcp_abort_keeps_lists_ex : exists s', tcp_abort ex_cb (ex_arrived ex_inflight_pcb 0 0 0) = Ok (tt, s') /\
  aborted ([], 0) s' /\ tcp_active_pcbs s' = [] /\ events s' = [EvErr ERR_ABRT] /\ o_flags <$> sent s' = [Z.lor TCP_RST TCP_ACK].
Proof.
  destruct (tcp_abort_keeps_lists ex_cb false (ex_arrived ex_inflight_pcb 0 0 0)) as (s' & Hrun & H).
  - intros e s. simpl. by wp_steps.
  - split; try done; [by apply ex_pcbs_ok|by left].
  - assert (Hf : result_of (fun s => (tcp_active_pcbs s, events s, o_flags <$> sent s)) (tcp_abort ex_cb (ex_arrived ex_inflight_pcb 0 0 0)) =
      Some ([], [EvErr ERR_ABRT], [Z.lor TCP_RST TCP_ACK])) by (by vm_compute).
    rewrite Hrun in Hf. simpl in Hf. injection Hf as H1 H2 H3. exists s'. by split_and!.
Defined.

(** C25: [tcp_recved] opens the window by the bytes the application has taken, never beyond
    [TCP_WND] whatever it is told, although the addition wraps around at 16 bits; the
    window it announces stays within the real one and the connection stays valid. *)
Theorem tcp_recved_window (σ : list Z) isn A n N W s : 0 <= n < 65536 -> conn_inv σ isn A N W s ->
  N + TCP_WND - A < 1073741824 ->
  exists s', tcp_recved n s = Ok (tt, s') /\ rcv_wnd (st_pcb s') = Z.min (W + n) TCP_WND /\
    conn_inv σ isn A N (Z.min (W + n) TCP_WND) s'.
Proof.
  intros H1 H2 H3. pose proof (tcp_recved_spec σ isn A n N W s H1 H2 H3) as H.
  apply wp_run in H as ([] & s' & Hrun & [(W' & HW & Hi) _ _ _ _] & Hw). exists s'. split_and!; [done..|].
  pose proof (ci_rx _ _ _ _ _ _ Hi) as [[Hok _] _]. by rewrite <- Hw, (ok_wnd _ _ _ _ _ Hok).
Qed.

Lemma tcp_recved_window_ex : exists s', tcp_recved 65000 (ex_arrived ex_pcb 0 0 0) = Ok (tt, s') /\ rcv_wnd (st_pcb s') = TCP_WND.
Proof.
  destruct (tcp_recved_window ex_stream 1000 0 65000 0 TCP_WND (ex_arrived ex_pcb 0 0 0)) as (s' & Hrun & H & _);
    [lia|apply ex_conn_inv|unfold TCP_WND; lia|]. exists s'. by split.
Defined.

(** ** Options *)

(** [tcp_parseopt] reads options of any content without leaving the header, provided
    one byte behind the options can be read, terminates, and sets the MSS to a value from
    1 to [TCP_MSS] or not at all; nothing else changes. *)
Theorem tcp_parseopt_safe s : opts_sized s -> opts_readable s (tcphdr_optlen s + 1) ->
  exists s', tcp_parseopt s = Ok (tt, s') /\ opt_frame s s' /\ mss_ok s s'.
Proof.
  intros H1 H2. pose proof (tcp_parseopt_safe_wp s H1 (or_intror H2)) as H. apply wp_run in H as ([] & s' & Hrun & H & H'). eauto.
Qed.

(** An MSS option, cut off by the end of the options. *)
Definition ex_opts (l : list Z) (optlen : Z) : tcp_st :=
  ex_arrived ex_pcb 0 0 0 <| tcphdr_opts := l |> <| tcphdr_optlen := optlen |> <| tcphdr_opt1len := optlen |>.
Lemma tcp_parseopt_safe_ex : exists s', tcp_parseopt (ex_opts [1; 1; 1; 2; 0] 4) = Ok (tt, s') /\ mss (st_pcb s') = TCP_MSS.
Proof.
  destruct (tcp_parseopt_safe (ex_opts [1; 1; 1; 2; 0] 4)) as (s' & Hrun & (m & i & E) & H).
  - split; [split; [discriminate..]|discriminate].
  - intros i Hi. change (0 <= i < 5) in Hi.
    assert (i = 0 \/ i = 1 \/ i = 2 \/ i = 3 \/ i = 4) as Hc by lia.
    destruct Hc as [->|[->|[->|[->| ->]]]]; eexists; (split; [reflexivity|unfold byte_ok; lia]).
  - assert (Hf : result_of (fun s => mss (st_pcb s)) (tcp_parseopt (ex_opts [1; 1; 1; 2; 0] 4)) = Some TCP_MSS) by (by vm_compute).
    rewrite Hrun in Hf. simpl in Hf. injection Hf as Hf. exists s'. by split.
Defined.

(** C29: Any list of options, encoded as in RFC 793 and followed by nothing or by the end
    of options and padding, is read back: the MSS becomes that of the last MSS option. *)
Theorem tcp_parseopt_roundtrip os tail s : opts_tail tail -> Forall opt_wf os -> opts_sized s ->
  opts_at s 0 (opts_encode os ++ tail) -> tcphdr_optlen s = zlen (opts_encode os) + zlen tail ->
  exists s', tcp_parseopt s = Ok (tt, s') /\ mss (st_pcb s') = opts_mss os (mss (st_pcb s)).
Proof.
  intros H1 H2 H3 H4 H5.
  assert (H : wp tcp_parseopt (fun _ s' => mss (st_pcb s') = opts_mss os (mss (st_pcb s))) s) by (by eapply tcp_parseopt_encoded).
  apply wp_run in H as ([] & s' & Hrun & H). eauto.
Qed.

Lemma tcp_parseopt_roundtrip_ex : exists s',
  tcp_parseopt (ex_opts (opts_encode [OptNop; OptOther 3 [7]; OptMss 536; OptMss 9000] ++ [0; 0]) 14) = Ok (tt, s') /\
  mss (st_pcb s') = TCP_MSS.
Proof.
  destruct (tcp_parseopt_roundtrip [OptNop; OptOther 3 [7]; OptMss 536; OptMss 9000] [0; 0]
    (ex_opts (opts_encode [OptNop; OptOther 3 [7]; OptMss 536; OptMss 9000] ++ [0; 0]) 14)) as (s' & Hrun & H).
  - right. by exists [0].
  - repeat constructor; discriminate || reflexivity.
  - split; [split; [discriminate..]|discriminate].
  - intros k b Hk. unfold opt_byte. change (tcphdr_opt2 _) with (@None (list Z)). cbv iota. replace (Z.to_nat (0 + Z.of_nat k)) with k by lia. exact Hk.
  - reflexivity.
  - exists s'. by split.
Defined.

(** ** Sequence numbers *)

(** The comparisons of sequence numbers are the order of the stream positions they stand
    for, across the wrap-around at 2^32, as long as the positions are within 2^31. *)
Theorem tcp_seq_order isn a b c : -2147483648 <= a - b < 2147483648 -> -2147483648 <= a - c < 2147483648 ->
  TCP_SEQ_LT (seq_of isn a) (seq_of isn b) = (a <? b) /\ TCP_SEQ_LEQ (seq_of isn a) (seq_of isn b) = (a <=? b) /\
  TCP_SEQ_GT (seq_of isn a) (seq_of isn b) = (b <? a) /\ TCP_SEQ_GEQ (seq_of isn a) (seq_of isn b) = (b <=? a) /\
  TCP_SEQ_BETWEEN (seq_of isn a) (seq_of isn b) (seq_of isn c) = (b <=? a) && (a <=? c).
Proof.
  intros Hb Hc. split_and!; [eapply seq_lt|eapply seq_leq|eapply seq_gt|eapply seq_geq|eapply seq_between];
    first [apply denotes_seq|done].
Qed.

Lemma tcp_seq_order_ex : TCP_SEQ_LT (seq_of 4294967290 3) (seq_of 4294967290 9) = true /\
  seq_of 4294967290 3 = 4294967293 /\ seq_of 4294967290 9 = 3.
Proof. split; [|done]. apply (tcp_seq_order 4294967290 3 9 9); lia. Defined.
