(* ===== verification/TcpSendProps.v ===== *)
(** * Properties of the TCP sending side, and of a sender and a receiver together *)

From S2P Require Import Prelude Def IpAddr Tcp TcpOut TcpIn TcpFacts TcpStream.
From S2P Require Import TcpOoseq TcpRecv TcpAck TcpReceive TcpOpt TcpOutput TcpSend TcpProcess.
From S2P Require Import TcpMachine TcpInput TcpApp TcpDeliver TcpRun TcpExample.
From S2P Require Import TcpWrite TcpWriteFacts TcpClose TcpSteps TcpSendStream TcpSender TcpSendRun TcpParse.
From S2P Require Import TcpLink OnesComplement Pbuf PbufFacts PbufMut PbufData InetChksum TcpChksum PbufProps.
From S2P Require Import ChksumProps.

(** ** The two ends *)

(** An application that takes everything. *)
Definition ex_taker : tcp_callbacks :=
  mkCallbacks (fun _ => ret 0) (fun _ => ret 0) (fun p => tcp_recved (u16_t (zlen (pkt_bytes p))) ;;; ret ERR_OK)
    (ret ERR_OK) (fun _ => ret ERR_OK) (fun _ => ret tt).

Lemma ex_taker_ok σ isn A : app_ok σ isn A ex_taker.
Proof.
  split.
  - intros p N W s Hc Hn. simpl. wp_step. eapply wp_conseq; [apply (tcp_recved_spec σ isn A _ N W); [apply u16_t_range|done|done]|].
    intros _ s' [H _]. by wp_steps.
  - intros N W s Hc Hn. simpl. wp_steps. by apply continues_refl.
  - intros n N W s Hc Hn. simpl. wp_steps. by apply continues_refl.
  - intros e s. simpl. by wp_steps.
Defined.

(** An established connection with nothing queued, about to send from number 1000 on. *)
Definition ex_sender_pcb : tcp_pcb := ex_pcb <| lastack := 1000 |> <| snd_nxt := 1000 |> <| snd_lbb := 1000 |> <| snd_wl2 := 1000 |>.
Definition ex_sender : tcp_st := ex_arrived ex_sender_pcb 0 0 0.
Definition ex_state (r : result (Z * tcp_st)) : tcp_st := match r with Ok (_, s) => s | Fault _ => ex_sender end.

(** The application writes the stream and shuts down: one segment with the FIN goes out. *)
Definition ex_written : tcp_st := Eval vm_compute in ex_state (tcp_write ex_stream TCP_WRITE_FLAG_COPY (fun _ => false) ex_sender).
Definition ex_shut : tcp_st := Eval vm_compute in ex_state (tcp_shutdown false true ex_written).
Definition ex_out : tcp_out := Eval vm_compute in match sent ex_shut with o :: _ => o | [] => mkOut 0 0 0 0 0 0 [] [] end.
(** It arrives in two buffers. *)
Definition ex_packet : pkt := Eval vm_compute in [ztake 22 (tcp_packet 0 ex_out); zdrop 22 (tcp_packet 0 ex_out)].
Definition ex_receiver : tcp_st := ex_arrived ex_pcb 0 0 0.
Definition ex_read : option pkt * tcp_st := Eval vm_compute in
  match tcp_input_header false false ex_packet ex_receiver with Ok x => x | Fault _ => (None, ex_receiver) end.
Definition ex_received : tcp_st := Eval vm_compute in
  match op_run ex_taker (OpSegment (default [] (fst ex_read))) (snd ex_read) with Ok (_, s) => s | Fault _ => ex_receiver end.

Lemma ex_sender_ok : sender ex_stream 1000 0 0 false ex_sender.
Proof.
  split.
  - split; try done; [|by exists 0].
    split; try done; try (by constructor).
    + split; repeat constructor.
    + unfold send_end. simpl. lia.
  - split; [|done]. split; try done; constructor.
Defined.

Lemma ex_loaded s : pcb_freed s = false -> state (st_pcb s) <> LISTEN -> 0 <= in_wnd s < 65536 -> send_load s s.
Proof. intros H1 H2 H3. by split. Defined.

Lemma ex_linked : link_run 1000 ex_taker ex_stream 5 true ex_shut ex_received.
Proof.
  apply (link_arrive 1000 ex_taker ex_stream 5 true ex_shut ex_receiver ex_out ex_receiver (snd ex_read) (default [] (fst ex_read))).
  - change 5 with (op_written SendShutdown ERR_OK 5) at 1. change true with (negb (may_write (state (st_pcb ex_shut)))).
    apply (link_send 1000 ex_taker ex_stream 5 false ex_written ex_receiver ex_written SendShutdown ERR_OK ex_shut).
    + change 5 with (op_written (SendWrite ex_stream TCP_WRITE_FLAG_COPY (fun _ => false)) ERR_OK 0) at 1.
      change false with (negb (may_write (state (st_pcb ex_written)))).
      apply (link_send 1000 ex_taker ex_stream 0 false ex_sender ex_receiver ex_sender
        (SendWrite ex_stream TCP_WRITE_FLAG_COPY (fun _ => false)) ERR_OK ex_written).
      * apply (link_start _ _ _ TCP_WND); try done; [apply ex_sender_ok|apply ex_stream_inv].
      * by apply ex_loaded.
      * split; [|done]. split_and!; try done; repeat constructor; done.
      * by vm_compute.
    + by apply ex_loaded.
    + by split.
    + by vm_compute.
  - by left.
  - done.
  - done.
  - split; try done; [by split; try done; exists 0|].
    exists 0, false, (hd [] ex_packet), (tl ex_packet). split; [by vm_compute|]. split; [done|by vm_compute].
  - split; try done. by left.
  - by vm_compute.
Defined.

(** C1: Two connections and the network between them.  The application at one end writes
    the stream [σ] piece by piece with [tcp_write] and shuts down behind it; [tcp_output],
    the retransmission timer and acknowledgements of any content run in any order.  What was
    sent may be lost, repeated, delayed and reordered, and arrives as bytes in any chain of
    buffers at the other end, whose application accepts, refuses, reopens the window or
    aborts.  In every state of such a run, what the receiving application has got is a
    beginning of what the sending one has written so far, each byte once and in order; if it
    was told of the end (once), it has got all of [σ].

    A run ([link_run]) writes and shuts down only while the last unsent segment ends at
    [snd_lbb] ([tail_at_end]) and times out only while nothing unsent precedes what is in
    flight ([in_order]): both fail while a segment put back for a fast retransmission waits
    on the unsent queue, and then data is written with old sequence numbers
    ([tcp_write_behind_retransmission]).  The sender's MSS and largest window stay as they
    are between its operations ([send_load]).  A segment arrives only where [admits] holds:
    not beyond the window, not in TIME_WAIT, no refused data unless the application never
    aborts, and none in CLOSING; it has no options, and the stream is shorter than 2^30. *)
Theorem tcp_link_delivers iss cb (σ : list Z) T c sa sb :
  (forall τ A, app_ok τ iss A cb) -> zlen σ + 1 + 2 * TCP_WND < 1073741824 -> link_run iss cb σ T c sa sb ->
  accepted (events sb) `prefix_of` ztake T σ /\ (eofs (events sb) = 0 \/ eofs (events sb) = 1 /\ accepted (events sb) = σ).
Proof. intros Hok Hσ Hl. by eapply linked_prefix. Qed.

Lemma tcp_link_delivers_ex : accepted (events ex_received) `prefix_of` ex_stream /\
  accepted (events ex_received) = ex_stream /\ eofs (events ex_received) = 1.
Proof.
  split; [|by vm_compute]. apply (tcp_link_delivers 1000 ex_taker ex_stream 5 true ex_shut ex_received).
  - intros τ A. apply ex_taker_ok.
  - done.
  - apply ex_linked.
Defined.




(** ** The sender *)

(** C2: Take a sender that writes, sends, times out, handles acknowledgements of any content
    and shuts down, in any order, where it writes and shuts down only while the last unsent
    segment ends at [snd_lbb] ([tail_at_end]), and times out only while nothing unsent
    precedes what is in flight ([in_order]).  Then all it has sent are bare acknowledgements
    and parts of the written stream at the positions their sequence numbers stand for, with
    the FIN only behind the last byte and after the shutdown; every byte written and not
    acknowledged, and the FIN, is on a queue; the send buffer and the queue length account
    for exactly what is queued.  The two conditions fail while a segment put back for a fast
    retransmission waits on the unsent queue, and data written then is numbered wrongly
    ([tcp_write_behind_retransmission]). *)
Theorem tcp_send_run_sound (σ : list Z) iss T c s : send_run σ iss T c s ->
  Forall (genuine σ iss T c) (sent s) /\
  exists L, lastack (st_pcb s) = seq_of iss L /\ 0 <= L <= send_end T c /\ T <= zlen σ /\
    (forall i, L <= i < send_end T c -> exists x a, x ∈ unacked (st_pcb s) ++ unsent (st_pcb s) /\
       placed σ iss L (send_end T c) x a /\ a <= i < a + TCP_TCPLEN x) /\
    snd_buf (st_pcb s) + seg_lens (unacked (st_pcb s) ++ unsent (st_pcb s)) = TCP_SND_BUF /\
    snd_queuelen (st_pcb s) = clens (unacked (st_pcb s)) + clens (unsent (st_pcb s)).
Proof.
  intros Hr. destruct (send_run_inv _ _ _ _ _ Hr) as (L & [Hs _] & Hg). split; [done|]. exists L.
  destruct Hs as [[] [Hq _] Hb _ _ _ _]. tauto.
Qed.

Lemma ex_send_run : send_run ex_stream 1000 5 true ex_shut.
Proof. apply (linked_sends 1000 ex_taker ex_stream 5 true ex_shut ex_received), ex_linked. Defined.

Lemma tcp_send_run_sound_ex : Forall (genuine ex_stream 1000 5 true) (sent ex_shut) /\
  (o_data <$> sent ex_shut) = [ex_stream] /\ (o_flags <$> sent ex_shut) = [Z.lor (Z.lor TCP_FIN TCP_PSH) TCP_ACK].
Proof. split; [|by vm_compute]. destruct (tcp_send_run_sound ex_stream 1000 5 true ex_shut ex_send_run) as [H _]. exact H. Defined.

(** C12: In the runs of such a sender no operation fails: writing, sending, a time-out, an
    acknowledgement or the shutdown terminates without a failed assertion, and the run goes
    on.  The operation has to meet [send_pre]: data is written and the shutdown comes only
    while the last unsent segment ends at [snd_lbb], a time-out only while nothing unsent
    precedes what is in flight, which excludes a fast retransmission that waits on the
    unsent queue ([tcp_write_behind_retransmission]).  Between the operations MSS, largest
    window and queues stay as they are ([send_load]), which excludes an MSS option that comes
    after the handshake ([tcp_write_after_mss_option] fails an assertion). *)
Theorem tcp_send_run_goes_on (σ : list Z) iss T c s s0 o : send_run σ iss T c s -> send_load s s0 -> send_pre σ T s0 o ->
  exists r s', send_step o s0 = Ok (r, s') /\
    send_run σ iss (op_written o r T) (negb (may_write (state (st_pcb s')))) s'.
Proof. intros Hr Hl Hp. by apply (send_step_goes_on σ iss T c s). Qed.

(** The segment is acknowledged up to its third byte; then the timer expires. *)
Definition ex_acked : tcp_st := ex_shut <| ackno := 1003 |> <| in_wnd := 1000 |> <| in_flags := TCP_ACK |>.

Lemma tcp_send_run_goes_on_ex : exists r s', send_step SendAck ex_acked = Ok (r, s') /\
  send_run ex_stream 1000 5 (negb (may_write (state (st_pcb s')))) s' /\ lastack (st_pcb s') = 1003 /\
  unacked (st_pcb s') = unacked (st_pcb ex_shut).
Proof.
  destruct (tcp_send_run_goes_on ex_stream 1000 5 true ex_shut ex_acked SendAck) as (r & s' & Hrun & Hr).
  - apply ex_send_run.
  - split; try done. by apply only_acks_same.
  - done.
  - exists r, s'. split; [exact Hrun|]. split; [exact Hr|].
    assert (Hf : result_of (fun s => (lastack (st_pcb s), unacked (st_pcb s))) (send_step SendAck ex_acked) =
      Some (1003, unacked (st_pcb ex_shut))) by (by vm_compute).
    rewrite Hrun in Hf. simpl in Hf. injection Hf as H1 H2. split; [exact H1|exact H2].
Defined.



(** ** The header on the wire *)

(** C26: Whatever bytes arrive, reading the TCP header fails no assertion and reads nothing
    outside the packet.  A packet is dropped only if it is too short for its header, sent to
    a group, or too long by one; otherwise the options and the data are what lies behind
    the fixed header, and the header variables hold its fields. *)
Theorem tcp_input_header_safe to_group v6 c rest s : zlen (pkt_bytes (c :: rest)) < 65536 ->
  exists r s', tcp_input_header to_group v6 (c :: rest) s = Ok (r, s') /\ unread_of s' = unread_of s /\
    match r with
    | Some p' => header_read (c :: rest) p' s' /\ tcphdr_optlen s' = TCPH_HDRLEN_BYTES c - TCP_HLEN /\
        TCP_HLEN <= zlen c /\ to_group = false /\ fields_read (tcp_fields c) v6 (zlen (pkt_bytes p')) s'
    | None => zlen c < TCP_HLEN \/ to_group = true \/ TCPH_HDRLEN_BYTES c < TCP_HLEN \/ zlen (pkt_bytes (c :: rest)) < TCPH_HDRLEN_BYTES c \/
        (exists n more, rest = n :: more /\ zlen c + zlen n < TCPH_HDRLEN_BYTES c) \/ 65535 <= zlen (pkt_bytes (c :: rest)) - TCPH_HDRLEN_BYTES c
    end.
Proof.
  intros Hl. pose proof (tcp_input_header_spec to_group v6 c rest s Hl) as H.
  apply wp_run in H as (r & s' & Hrun & H). exists r, s'. split; [done|exact H].
Qed.

(** A header that claims to be longer than the packet. *)
Lemma tcp_input_header_safe_ex : exists s', tcp_input_header false false [replicate 12 0 ++ [240] ++ replicate 7 0] ex_receiver = Ok (None, s').
Proof.
  destruct (tcp_input_header_safe false false (replicate 12 0 ++ [240] ++ replicate 7 0) [] ex_receiver) as (r & s' & Hrun & _); [done|].
  exists s'. rewrite Hrun. f_equal. f_equal.
  assert (Hf : (fun x => match x with Ok (r, s) => Some r | _ => None end)
    (tcp_input_header false false [replicate 12 0 ++ [240] ++ replicate 7 0] ex_receiver) = Some None) by (by vm_compute).
  rewrite Hrun in Hf. by injection Hf.
Defined.

(** C27: What [tcp_output_segment] puts into a packet, [tcp_input] reads from it, in whatever
    buffers the packet arrives as long as the first one holds the fixed header and the
    options do not go beyond the second: ports, sequence and acknowledgement numbers,
    flags, window, options, data. *)
Theorem tcp_packet_roundtrip chksum o v6 c rest s : out_fits o -> pkt_bytes (c :: rest) = tcp_packet chksum o -> TCP_HLEN <= zlen c ->
  exists r s', tcp_input_header false v6 (c :: rest) s = Ok (r, s') /\ unread_of s' = unread_of s /\
    match r with
    | Some p' => pkt_bytes p' = o_data o /\ p' <> [] /\ opts_sized s' /\ tcphdr_optlen s' = zlen (o_opts o) /\
        (forall i, 0 <= i < zlen (o_opts o) -> opt_byte s' i = o_opts o !! Z.to_nat i) /\
        fields_read (mkFields (o_src o) (o_dest o) (o_seqno o) (o_ackno o) (o_wnd o) (o_flags o)) v6 (zlen (o_data o)) s'
    | None => (exists n more, rest = n :: more /\ zlen c + zlen n < TCP_HLEN + zlen (o_opts o)) \/ 65535 <= zlen (o_data o)
    end.
Proof.
  intros Ho Hp Hc. pose proof (tcp_packet_read chksum o v6 c rest s Ho Hp Hc) as H.
  apply wp_run in H as (r & s' & Hrun & H). exists r, s'. split; [done|exact H].
Qed.

(** A SYN with an MSS option that straddles two buffers. *)
Definition ex_syn : tcp_out := mkOut 4000 80 4294967290 0 TCP_SYN 32768 [2; 4; 5; 180] [].
Lemma tcp_packet_roundtrip_ex : exists p' s',
  tcp_input_header false false [ztake 22 (tcp_packet 0 ex_syn); zdrop 22 (tcp_packet 0 ex_syn)] ex_receiver = Ok (Some p', s') /\
  seqno s' = 4294967290 /\ tcplen s' = 1 /\ pkt_bytes p' = [].
Proof.
  destruct (tcp_packet_roundtrip 0 ex_syn false (ztake 22 (tcp_packet 0 ex_syn)) [zdrop 22 (tcp_packet 0 ex_syn)] ex_receiver)
    as (r & s' & Hrun & _ & H).
  - split; try done; try (by cbn). exists 1. done.
  - by vm_compute.
  - done.
  - destruct r as [p'|].
    + exists p', s'. split; [exact Hrun|]. destruct H as (H1 & _ & _ & _ & _ & (H2 & _ & H3)).
      injection H2 as _ _ H4 _ _ H5. rewrite H5 in H3. split_and!; [exact H4|exact H3|exact H1].
    + exfalso. destruct H as [(n & more & H & H')|H]; [|done]. injection H as <- <-. done.
Defined.

(** C28: The checksum field that [tcp_output_segment] puts into a segment, from the sum of the
    headers and the sum carried along with the data, makes the packet verify: at the
    receiver [ip_chksum_pseudo] of the packet is zero, whatever buffers it is in there and
    wherever they lie. *)
Theorem tcp_segment_chksum_verifies base base' h q l h' q' l' o seg src dest :
  packet h q l (tcp_packet 0 o) -> chksum_fits o -> o_data o = seg_data seg ->
  (seg_chksum seg, seg_chksum_swapped seg) = sum_of (seg_data seg) -> ip6_ok (u_addr src) -> ip6_ok (u_addr dest) ->
  exists c, segment_chksum base seg q (zlen (tcp_packet 0 o)) (TCP_HLEN + zlen (o_opts o)) src dest h = Ok (c, h) /\
    (packet h' q' l' (tcp_packet c o) ->
     ip_chksum_pseudo base' q' IP_PROTO_TCP (zlen (tcp_packet 0 o)) src dest h' = Ok (0, h')).
Proof.
  intros Hp Hf Ed Hsum Hs Hd. eexists. split; [by apply (segment_chksum_spec base h q l)|].
  intros Hp'. by apply (tcp_packet_verifies base' h' q' l').
Qed.

(** Three bytes of data in a segment with an odd sum; the packet is sent from one buffer
    and received in two. *)
Definition ex_data_seg : tcp_seg := mkSeg 1000 TCP_PSH 3 [[10; 20; 30]] 0 TF_SEG_DATA_CHECKSUMMED (sum_of [10; 20; 30]).1 (sum_of [10; 20; 30]).2.
Definition ex_data_out : tcp_out := mkOut 4000 80 1000 500 (Z.lor TCP_PSH TCP_ACK) 32768 [] [10; 20; 30].
Definition ex_tx_heap : heap := mkHeap {[ 1 := ex_pbuf 0 1 23 23 ]} {[ 1 := ex_block (tcp_packet 0 ex_data_out) ]} 0.
Definition ex_sum : Z := Eval vm_compute in
  match segment_chksum (fun B => B) ex_data_seg 1 23 20 ex_src ex_dst ex_tx_heap with Ok (c, _) => c | Fault _ => 0 end.
Definition ex_rx_heap : heap := mkHeap {[ 1 := ex_pbuf 2 1 23 21; 2 := ex_pbuf 0 2 2 2 ]}
  {[ 1 := ex_block (ztake 21 (tcp_packet ex_sum ex_data_out)); 2 := ex_block (zdrop 21 (tcp_packet ex_sum ex_data_out)) ]} 0.

Lemma tcp_segment_chksum_verifies_ex :
  segment_chksum (fun B => B) ex_data_seg 1 23 20 ex_src ex_dst ex_tx_heap = Ok (ex_sum, ex_tx_heap) /\
  ip_chksum_pseudo (fun B => 2 * B + 1) 1 IP_PROTO_TCP 23 ex_src ex_dst ex_rx_heap = Ok (0, ex_rx_heap).
Proof.
  destruct (tcp_segment_chksum_verifies (fun B => B) (fun B => 2 * B + 1) ex_tx_heap 1 [(1, ex_pbuf 0 1 23 23)]
    ex_rx_heap 1 [(1, ex_pbuf 2 1 23 21); (2, ex_pbuf 0 2 2 2)] ex_data_out ex_data_seg ex_src ex_dst) as (c & Hc & Hv).
  - split_and!; [repeat (econstructor; [done|by vm_compute|]); constructor| |by vm_compute]. simpl. lia.
  - split; [exists 0; done|done|]. split; repeat constructor; done.
  - done.
  - done.
  - apply ex_src_ok.
  - apply ex_dst_ok.
  - change (segment_chksum (fun B => B) ex_data_seg 1 23 20 ex_src ex_dst ex_tx_heap = Ok (c, ex_tx_heap)) in Hc.
    assert (Hf : (fun x => match x with Ok (c, _) => Some c | Fault _ => None end)
      (segment_chksum (fun B => B) ex_data_seg 1 23 20 ex_src ex_dst ex_tx_heap) = Some ex_sum) by (by vm_compute).
    rewrite Hc in Hf. injection Hf as ->. split; [exact Hc|]. apply Hv.
    split_and!; [repeat (econstructor; [done|by vm_compute|]); constructor| |by vm_compute]. simpl. lia.
Defined.
