(* ===== verification/NetExample.v ===== *)
(** * A small network world

    Two hosts of the network layer with one interface each, to evaluate the code on: the
    first holds a datagram to send, the second the packet that arrives. *)

From S2P Require Import Prelude Def IpAddr Pbuf PbufFacts PbufMut PbufData PbufAlloc.
From S2P Require Import OnesComplement InetChksum Links Net Netif IpOut Ip6Src Raw.
From S2P Require Import Udp IpIn Ip6In UdpFacts Datagram Prepend UdpSend UdpRecv.
From S2P Require Import Ip6Recv PbufProps.

(** The tun device takes every packet, the application frees what it gets, and the modules
    outside do nothing. *)
#[export] Instance quiet_env : NetEnv := {
  block_base := fun B => 1024 * B;
  output := fun _ => ret ERR_OK;
  udp_recv_call := fun _ _ _ p _ _ _ _ => let* _ := lift (pbuf_free no_custom p) in ret tt;
  raw_recv_call := fun _ _ _ _ _ => ret 0;
  tcp_input := fun _ _ => ret tt;
  ip4_reass := fun p => ret p;
  ip6_reass := fun p => ret p;
  icmp6_input := fun _ _ => ret tt;
  icmp6_param_problem := fun _ _ _ => ret tt;
  ip6_frag := fun _ _ _ => ret ERR_OK;
  nd6_get_destination_mtu := fun _ _ => ret 1500;
  icmp6_dest_unreach := fun _ _ => ret tt
}.

(** The value a run returns. *)
Definition answer {S A} (r : result (A * S)) : option A :=
  match r with Ok (a, _) => Some a | Fault _ => None end.

Definition addr4 (a b c d : Z) : ip_addr := ip_addr_copy_from_ip4 (IP4_ADDR a b c d).
Definition no_ip6 : ip_addr := mkIpAddr ip6_any IPADDR_TYPE_V6.

(** An interface 10.0.0.[k]/8 with an MTU of 1500, up and running. *)
Definition ex_netif (k : Z) : netif :=
  mkNetif 0 (addr4 10 0 0 k) (addr4 255 0 0 0) (addr4 10 0 0 1) [no_ip6; no_ip6; no_ip6] [0; 0; 0]
    output_ip output_ip 1500 0 (NETIF_FLAG_UP + NETIF_FLAG_LINK_UP) 0 0 0.
Definition ex_globals : ip_globals := mkIpData 0 0 (0, 0) (0, 0) 0 IP4_ADDR_ANY IP4_ADDR_ANY.
Definition ex_udp (port : Z) : udp_pcb :=
  mkUdp IP4_ADDR_ANY IP4_ADDR_ANY 0 0 0 UDP_TTL 0 0 port 0 7 9.

(** Pbuf 1: a [PBUF_RAM] buffer with the bytes [d], 82 bytes of headers in front. *)
Definition ex_ram (d : list Z) : pbuf := mkPbuf 0 (1, 106) (zlen d) (zlen d) (u8_t PBUF_RAM) 0 1 0.
Definition ex_ram_heap (d : list Z) (blocks : gmap Z (list Z)) : heap :=
  mkHeap {[ 1 := ex_ram d ]} (<[1 := replicate 106 0 ++ d]> blocks) 0.

(** The interface is block 5, the UDP control block 6. *)
Definition ex_net (k port : Z) (d : list Z) : net :=
  mkNet (ex_ram_heap d {[ 5 := [0]; 6 := [0] ]}) {[ 5 := ex_netif k ]} 5 {[ 6 := ex_udp port ]} 6 49152 ∅ 0 17 ex_globals.

(** Evaluates [packet], given the list of buffers. *)
Ltac packet_by_compute :=
  split_and!; [repeat (econstructor; [done|by vm_compute|]); constructor|vm_compute; repeat split; done|by vm_compute].

Definition ex_data : list Z := [104; 105; 33].
Lemma ex_send_packet k port : packet (n_heap (ex_net k port ex_data)) 1 [(1, ex_ram ex_data)] ex_data.
Proof. packet_by_compute. Defined.

(** The datagram 8.8.8.8:53 -> 10.0.0.9:40000 with that data, sent by the first host. *)
Definition ex_src : ip_addr := addr4 8 8 8 8.
Definition ex_dst : ip_addr := addr4 10 0 0 9.
Lemma ex_sendto_ok : sendto_ok (ex_net 2 53 ex_data) 6 1 (ex_udp 53) (ex_ram ex_data) [] ex_data (ip_hlen ex_dst) ex_dst ex_src 5.
Proof.
  split.
  - split; [lia|by vm_compute].
  - by vm_compute.
  - split; by vm_compute.
  - lia.
  - apply ex_send_packet.
  - unfold ex_data. repeat (apply Forall_cons_2; [unfold byte_ok; lia|]). apply Forall_nil_2.
  - apply Forall_nil_2.
  - intros B HB. vm_compute in HB. apply list_elem_of_singleton in HB as ->. vm_compute. by eexists.
  - done.
  - left. split; [by vm_compute|done|by vm_compute|]. eexists. split; [by vm_compute|by vm_compute].
  - by vm_compute.
  - split; (split; [|unfold byte_ok; vm_compute; split; [discriminate|done]]);
      repeat (apply Forall_cons_2; [unfold u32_ok; vm_compute; split; [discriminate|done]|]); apply Forall_nil_2.
Defined.
Lemma ex_tun_netif : tun_netif (ex_net 2 53 ex_data) 5 (ex_netif 2) ex_dst 31.
Proof. split; [done|done|by right|done|by vm_compute]. Defined.

(** The packet that leaves, and the second host with it. *)
Definition ex_wire : list Z :=
  ip_packet 0 64 IP_PROTO_UDP 17 ex_src ex_dst (udp_bytes 53 40000 (udp_sum ex_src ex_dst 53 40000 ex_data) ex_data).
Definition ex_receiver : net := ex_net 9 40000 ex_wire.
Lemma ex_wire_packet : packet (n_heap ex_receiver) 1 [(1, ex_ram ex_wire)] ex_wire.
Proof. packet_by_compute. Defined.
Lemma ex_receives : receives ex_receiver 5 (ex_netif 9) 1 (ex_ram ex_wire) ex_src ex_dst (ex_udp 40000).
Proof.
  split; [|done|done|done|done|done].
  split; [done|by vm_compute|by vm_compute|done].
Defined.

(** The list of UDP control blocks of the first host. *)
Lemma ex_udp_inv : udp_inv (ex_net 2 53 ex_data) [6].
Proof.
  assert (forall q u, n_udps (ex_net 2 53 ex_data) !! q = Some u -> q = 6 /\ u = ex_udp 53) as Hone.
  { intros q u Hq. change (({[6 := ex_udp 53]} : gmap Z udp_pcb) !! q = Some u) in Hq. by apply lookup_singleton_Some in Hq as [<- <-]. }
  split.
  - split; [done|]. split; [lia|]. eexists. by split.
  - by vm_compute.
  - right. split; [by vm_compute|by vm_compute; eexists].
  - intros q u [-> ->]%Hone. split; [lia|]. vm_compute. by eexists.
  - intros q u [-> ->]%Hone. split; [by vm_compute|]. split; [by vm_compute|intros _; by left].
  - intros q u q' u' [-> _]%Hone [-> _]%Hone. done.
Defined.

(** An echo request with 4 bytes of data, and a list of two raw control blocks. *)
Definition ex_echo : list Z :=
  ip4_hdr 0 32 7 0 64 IP_PROTO_ICMP (ip4_sum 0 32 7 0 64 IP_PROTO_ICMP (ip_2_ip4 ex_src) (ip_2_ip4 ex_dst)) (ip_2_ip4 ex_src) (ip_2_ip4 ex_dst) ++
  [8; 0] ++ le16 (checksum [8; 0; 0; 0; 0; 1; 0; 2; 1; 2; 3; 4]) ++ [0; 1; 0; 2; 1; 2; 3; 4].
Lemma ex_echo_packet : packet (n_heap (ex_net 9 53 ex_echo)) 1 [(1, ex_ram ex_echo)] ex_echo.
Proof. packet_by_compute. Defined.

Definition ex_raw (next proto : Z) : raw_pcb := mkRaw IP4_ADDR_ANY IP4_ADDR_ANY 0 0 0 RAW_TTL next proto 0 7 9 0 0.
Definition ex_raw_net : net := ex_net 9 53 ex_wire
  <| n_raws := {[ 10 := ex_raw 11 6; 11 := ex_raw 0 17 ]} |> <| raw_pcbs := 10 |>
  <| ip_data := ex_globals <| current_netif := 5 |> <| current_input_netif := 5 |> <| current_iphdr_dest := ex_dst |> |>.
