(* ===== verification/TcpWorldExample.v ===== *)
(** * A small host

    An application, and the worlds the theorems about all connections are evaluated in. *)

From S2P Require Import Prelude Def IpAddr Pbuf Net Netif Ip6Src Tcp.
From S2P Require Import TcpOut TcpIn TcpOpt TcpOutput TcpProcess TcpMachine TcpStream TcpInput.
From S2P Require Import TcpApp TcpWrite TcpClose TcpSteps TcpParse TcpPcbs TcpDemux TcpTimer.
From S2P Require Import TcpLists TcpOrder TcpOrderIn TcpWorld TcpCalls TcpTicks TcpSearch TcpExample.
From S2P Require Import NetExample.

(** An application that takes whatever comes, and is content. *)
Definition quiet_app : tcp_callbacks :=
  mkCallbacks (fun _ => ret ERR_OK) (fun _ => ret ERR_OK) (fun _ => ret ERR_OK) (ret ERR_OK) (fun _ => ret ERR_OK) (fun _ => ret tt).

Lemma ret_well_behaved : well_behaved (ret ERR_OK).
Proof. split; [apply steps_ret; apply _|]. by intros s r s' [= <- <-] ->. Defined.
Lemma quiet_orderly : orderly_app quiet_app.
Proof. split; intros; simpl; first [apply ret_well_behaved|apply steps_ret; apply _]. Defined.
Lemma quiet_poll : steps orderly (ret ERR_OK).
Proof. apply steps_ret. apply _. Defined.
Lemma quiet_ends : app_ends quiet_app.
Proof. split; intros; apply never_ret. Defined.

(** One that gives every connection up when it is asked to go on. *)
Definition weary_poll : TM Z := tcp_abort quiet_app ;;; ret ERR_ABRT.
Lemma weary_orderly : steps orderly weary_poll.
Proof. apply steps_bind; [apply _|exact (orderly_abandon quiet_app quiet_orderly true)|intros; apply steps_ret; apply _]. Defined.
Lemma weary_ends : never weary_poll.
Proof. apply never_bind; [apply (never_abandon quiet_app quiet_ends)|intros; apply never_ret]. Defined.

(** An interface with number 1, through which packets come and go. *)
Definition ex_tun : net :=
  ex_net 1 7 [] <| ip_data := mkIpData 5 5 (69, 0) (0, 0) 20 (addr4 8 8 8 8) (addr4 10 0 0 1) |>.
(** Nothing there but the addresses the allocator will hand out. *)
Definition ex_empty (addrs : list Z) : tcp_st :=
  mkSt ex_pcb 0 (mkSeg 0 0 0 [] 0 0 0 false) 0 0 0 0 0 0 0 0 false 0 [] [] 0 0 None 0 77 [] [] [] false
    0 true ∅ None [] [] 0 0 addrs.
Definition ex_boot (addrs : list Z) : tcp_world := mkTcpWorld ∅ ∅ (ex_empty addrs) [] 49152 6510 0 0 ex_tun.
Lemma ex_boot_ok addrs : world_ok (ex_boot addrs).
Proof. split; try done; split; try (intros a ?%elem_of_nil); try constructor; done. Defined.

(** The lists a run leaves behind: active, [TIME_WAIT], bound, listening. *)
Definition world_lists (w : tcp_world) : list Z * list Z * list Z * list Z :=
  (tcp_active_pcbs (tw_st w), tcp_tw_pcbs (tw_st w), tcp_bound_pcbs (tw_st w), tcp_listen_pcbs w).
Definition lists_after {A} (r : result (A * tcp_world)) : option (list Z * list Z * list Z * list Z) :=
  match r with Ok (_, w) => Some (world_lists w) | Fault _ => None end.
Lemma after_lists {A} r (a : A) w l : r = Ok (a, w) -> lists_after r = Some l -> world_lists w = l.
Proof. by intros -> [= <-]. Defined.

(** A host with these connections on its lists. *)
Definition ex_sock (p : tcp_pcb) (pr tm : Z) : tcp_sock := mkSock p pr 0 0 TCP_TTL 0 0 tm TCP_KEEPIDLE_DEFAULT.
Definition ex_host (socks : gmap Z tcp_sock) (active tw bound : list Z) (addrs : list Z) : tcp_world :=
  mkTcpWorld socks ∅ (ex_empty addrs <| tcp_active_pcbs := active |> <| tcp_tw_pcbs := tw |> <| tcp_bound_pcbs := bound |>)
    [] 49152 6510 0 0 ex_tun.

(** A SYN to port 80, as it is in the buffer. *)
Definition ex_syn : pkt := [[15; 160; 0; 80; 0; 0; 3; 232; 0; 0; 0; 0; 80; 2; 128; 0; 0; 0; 0; 0]].

(** A connection, one that is closing, and one whose time in [TIME_WAIT] is over. *)
Definition ex_timed : tcp_world :=
  ex_host {[ 100 := ex_sock ex_pcb 64 0; 102 := ex_sock (ex_pcb <| state := CLOSING |> <| local_port := 81 |>) 1 0;
             101 := ex_sock (ex_pcb <| state := TIME_WAIT |> <| tmr := 4294967000 |> <| local_port := 82 |>) 64 0 ]}
    [100; 102] [101] [] [].
Lemma ex_timed_ok : world_ok ex_timed.
Proof.
  split; [done|done|..|done].
  - split; [by apply (bool_decide_unpack _); vm_compute|]. intros a [->|[->|?%elem_of_nil]%elem_of_cons]%elem_of_cons; [..|done]; by eexists.
  - split; [by apply (bool_decide_unpack _); vm_compute|]. intros a [->|?%elem_of_nil]%elem_of_cons; [|done]. by eexists.
  - split; [constructor|by intros a ?%elem_of_nil].
  - split; [constructor|by intros a ?%elem_of_nil].
Defined.

(** A control block that is bound to the first port, one that is not bound, and a connection. *)
Definition ex_closed : tcp_pcb := tcp_pcb_new 77.
Definition ex_binding : tcp_world :=
  ex_host {[ 100 := ex_sock ex_pcb 64 0; 200 := ex_sock ex_closed 64 0;
             201 := ex_sock (ex_closed <| local_ip := addr4 10 0 0 1 |> <| local_port := 49153 |>) 64 0 ]} [100] [] [201] [].
Lemma ex_binding_ok : world_ok ex_binding.
Proof.
  split; [done|done|..|done].
  - split; [by apply (bool_decide_unpack _); vm_compute|]. intros a [->|?%elem_of_nil]%elem_of_cons; [|done]. by eexists.
  - split; [constructor|by intros a ?%elem_of_nil].
  - split; [by apply (bool_decide_unpack _); vm_compute|]. intros a [->|?%elem_of_nil]%elem_of_cons; [|done]. by eexists.
  - split; [constructor|by intros a ?%elem_of_nil].
Defined.
Lemma after_result {S A} (r : result (A * S)) a w b : r = Ok (a, w) -> match r with Ok (a, _) => Some a | Fault _ => None end = Some b -> a = b.
Proof. by intros -> [= <-]. Defined.
