(* ===== verification/NetProps.v ===== *)
(** * Properties of the network layer

    UDP from the sender's call through the bytes of an IP packet to the receive callback,
    the list of UDP control blocks, raw sockets, ICMP echo, and the choice of an IPv6 source
    address, each with an instance on the hosts of [NetExample]. *)

From S2P Require Import Prelude Def IpAddr Pbuf PbufFacts PbufMut PbufData PbufAlloc.
From S2P Require Import OnesComplement InetChksum Links Net Netif IpOut Ip6Src Raw.
From S2P Require Import Udp IpIn Ip6In UdpFacts Datagram Prepend UdpSend UdpRecv.
From S2P Require Import Ip6Recv IcmpRaw PbufProps NetExample.

(** ** Datagrams *)

Section UdpProps.
Context `{Malloc} `{NetEnv}.

(** What [udp_sendto_if_src_chksum] asks of its arguments and of the interface. *)
Record udp_sends (n : net) (pcb p : Z) (u : udp_pcb) (b : pbuf) (l : list (Z * pbuf)) (d : list Z)
    (dst src : ip_addr) (nif : Z) (x : netif) : Prop := UdpSends {
  us_args : sendto_ok n pcb p u b l d (ip_hlen dst) dst src nif;
  us_tos : byte_ok (udp_tos u) /\ byte_ok (udp_ttl u);
  us_id : 0 <= ip_id n < 65536;
  us_len : ip_hlen dst + UDP_HLEN + zlen d < 65536;
  us_netif : tun_netif n nif x dst (ip_hlen dst + UDP_HLEN + zlen d)
}.

(** The end of the call: the packet goes to the tun device, a header buffer is freed. *)
Definition udp_goes_out (p q : Z) : M net Z :=
  let* err := output q in
  (if negb (q =? p) then let* _ := lift (pbuf_free custom_free q) in ret tt else ret tt) ;;;
  ret err.

(** C6: A datagram sent with [udp_sendto_if_src] arrives as it was.  The call either fails
    with [ERR_MEM] and has changed nothing, or hands one packet to the tun device; and
    whatever stack gets that packet, in whatever buffers, as long as the IP and UDP headers
    lie in the first one: its [ip_input] calls the receive function of its UDP control
    block once, with the sender's ports and addresses and with exactly the sender's data. *)
Theorem udp_datagram_delivered n pcb p u b l d dst dport nif src sport x :
  udp_sends n pcb p u b l d dst src nif x -> 0 <= sport < 65536 -> 0 <= dport < 65536 ->
  udp_sendto_if_src pcb p dst dport nif src sport n = Ok (ERR_MEM, n) \/
  exists q h1 lq w,
    udp_sendto_if_src pcb p dst dport nif src sport n = udp_goes_out p q (ip_sent n dst h1) /\
    packet h1 q lq w /\
    forall n' p' b' l' inp x' u',
      packet (n_heap n') p' ((p', b') :: l') w -> receives n' inp x' p' b' src dst u' ->
      exists n1 l1, ip_input p' inp n' =
          (udp_recv_call (udp_recv_fn u') (udp_recv_arg u') (udp_pcbs n') p' (recv_src x' src dst) sport
             (recv_dst x' dst) dport ;;; ip_input_end dst) n1 /\
        packet (n_heap n1) p' l1 d.
Proof.
  intros [Hs [Htos Httl] Hid Hlen Hn] Hsp Hdp.
  destruct (udp_sendto_packet n pcb p u b l d dst dport nif false 0 src sport x)
    as [Herr|(q & h1 & lq & Hrun & Hp)]; [done..|by left|right].
  eexists q, h1, lq, _. split; [exact Hrun|]. split; [exact Hp|].
  intros n' p' b' l' inp x' u' Hp' Hr. by eapply ip_input_udp.
Qed.

Lemma ip_packet_verifies tos ttl proto id src dst d : hdr_args tos ttl proto -> IP_IS_V6_VAL dst = false ->
  checksum (ztake IP_HLEN (ip_packet tos ttl proto id src dst d)) = 0.
Proof.
  intros (Htos & Httl & Hproto) H6. unfold ip_packet, ip4_packet. rewrite H6.
  rewrite ztake_app_l, ztake_all by done. by apply ip4_sum_verifies.
Qed.

Lemma ip_packet_payload tos ttl proto id src dst d :
  zdrop (ip_hlen dst) (ip_packet tos ttl proto id src dst d) = d.
Proof. unfold ip_packet, ip_hlen. by destruct (IP_IS_V6_VAL dst); apply zdrop_exact. Qed.

(** C18: What leaves with a datagram verifies: the IPv4 header has checksum zero, and so has
    the UDP datagram behind its RFC 768 / RFC 8200 pseudo header, whatever chain of buffers
    the data came in, and whether the sum of the data was computed beforehand or not.  Only
    over IPv4 and with [UDP_FLAGS_NOCHKSUM] there is no UDP checksum: the field is zero. *)
Theorem udp_datagram_verifies n pcb p u b l d dst dport nif have chk src sport x :
  udp_sends n pcb p u b l d dst src nif x -> (have = true -> chk = canon (word_sum d)) ->
  udp_sendto_if_src_chksum pcb p dst dport nif have chk src sport n = Ok (ERR_MEM, n) \/
  exists q h1 lq w c,
    udp_sendto_if_src_chksum pcb p dst dport nif have chk src sport n = udp_goes_out p q (ip_sent n dst h1) /\
    packet h1 q lq w /\ zdrop (ip_hlen dst) w = udp_bytes sport dport c d /\
    (IP_IS_V6_VAL dst = false -> checksum (ztake IP_HLEN w) = 0) /\
    (if IP_IS_V6_VAL dst || negb (nochksum u)
     then c <> 0 /\ checksum (pseudo_header src dst IP_PROTO_UDP (UDP_HLEN + zlen d) ++ zdrop (ip_hlen dst) w) = 0
     else c = 0).
Proof.
  intros [Hs [Htos Httl] Hid Hlen Hn] Hchk.
  destruct (udp_sendto_packet n pcb p u b l d dst dport nif have chk src sport x)
    as [Herr|(q & h1 & lq & Hrun & Hp)]; [done..|by left|right].
  eexists q, h1, lq, _, _. split_and!; [exact Hrun|exact Hp|apply ip_packet_payload| |].
  { intros H6. by apply ip_packet_verifies. }
  rewrite ip_packet_payload. unfold udp_field.
  destruct (IP_IS_V6_VAL dst || negb (nochksum u)); [|done].
  destruct (udp_sum_verifies src dst sport dport d) as [Hc Hv]; [apply Hs|]. split; [lia|done].
Qed.

End UdpProps.

Lemma ex_udp_sends : udp_sends (ex_net 2 53 ex_data) 6 1 (ex_udp 53) (ex_ram ex_data) [] ex_data ex_dst ex_src 5 (ex_netif 2).
Proof.
  split; [apply ex_sendto_ok|split; unfold byte_ok; vm_compute; by split|by vm_compute|by vm_compute|apply ex_tun_netif].
Defined.

Lemma udp_datagram_delivered_ex :
  (exists q h1 lq w,
    udp_sendto_if_src 6 1 ex_dst 40000 5 ex_src 53 (ex_net 2 53 ex_data) =
      udp_goes_out 1 q (ip_sent (ex_net 2 53 ex_data) ex_dst h1) /\ packet h1 q lq w /\
    (w = ex_wire -> exists n1 l1, ip_input 1 5 ex_receiver =
      (udp_recv_call 7 9 6 1 (recv_src (ex_netif 9) ex_src ex_dst) 53 (recv_dst (ex_netif 9) ex_dst) 40000 ;;; ip_input_end ex_dst) n1 /\
      packet (n_heap n1) 1 l1 ex_data)).
Proof.
  destruct (udp_datagram_delivered (ex_net 2 53 ex_data) 6 1 (ex_udp 53) (ex_ram ex_data) [] ex_data ex_dst 40000 5 ex_src 53 (ex_netif 2))
    as [Herr|(q & h1 & lq & w & Hrun & Hp & Hr)]; [apply ex_udp_sends|lia|lia| |].
  - apply (f_equal answer) in Herr. by vm_compute in Herr.
  - exists q, h1, lq, w. split; [exact Hrun|]. split; [exact Hp|]. intros ->.
    apply (Hr ex_receiver 1 (ex_ram ex_wire) [] 5 (ex_netif 9) (ex_udp 40000)); [apply ex_wire_packet|apply ex_receives].
Defined.

Lemma udp_datagram_verifies_ex : exists q h1 lq w c,
  udp_sendto_if_src_chksum 6 1 ex_dst 40000 5 false 0 ex_src 53 (ex_net 2 53 ex_data) =
    udp_goes_out 1 q (ip_sent (ex_net 2 53 ex_data) ex_dst h1) /\ packet h1 q lq w /\
  c <> 0 /\ checksum (pseudo_header ex_src ex_dst IP_PROTO_UDP 11 ++ zdrop 20 w) = 0.
Proof.
  destruct (udp_datagram_verifies (ex_net 2 53 ex_data) 6 1 (ex_udp 53) (ex_ram ex_data) [] ex_data ex_dst 40000 5 false 0 ex_src 53 (ex_netif 2))
    as [Herr|(q & h1 & lq & w & c & Hrun & Hp & _ & _ & Hc & Hv)]; [apply ex_udp_sends|done| |].
  - apply (f_equal answer) in Herr. by vm_compute in Herr.
  - exists q, h1, lq, w, c. split; [exact Hrun|]. split; [exact Hp|]. split; [exact Hc|exact Hv].
Defined.

(** ** The list of UDP control blocks *)

(** C19: From any sound state, whatever sequence of [udp_new], [udp_bind], [udp_connect],
    [udp_disconnect], [udp_recv] and [udp_remove] calls the application makes on control
    blocks that exist: the list stays well formed, holds exactly the control blocks with a
    port, and no two control blocks claim the same port at the same address (or at all
    addresses); no call fails an assertion, follows a dangling pointer or runs for ever. *)
Theorem udp_calls_sound `{Malloc} n l n1 c : udp_inv n l -> udp_reach n n1 -> udp_call_ok n1 c ->
  (exists l1, udp_inv n1 l1) /\ exists n2 l2, udp_do c n1 = Ok (tt, n2) /\ udp_inv n2 l2.
Proof.
  intros Hinv Hreach Hok. destruct (udp_reach_inv _ _ _ Hinv Hreach) as [l1 Hinv1]. split; [by exists l1|].
  pose proof (udp_do_inv _ _ _ Hinv1 Hok) as Hwp. unfold wp in Hwp.
  destruct (udp_do c n1) as [[[] n2]|f] eqn:E; [|done]. destruct Hwp as [l2 Hinv2]. by exists n2, l2.
Qed.

Lemma udp_calls_sound_ex : exists n2 l2,
  udp_do (UdpBind 6 (Some ex_dst) 5353) (ex_net 2 53 ex_data) = Ok (tt, n2) /\ udp_inv n2 l2.
Proof.
  apply (udp_calls_sound (ex_net 2 53 ex_data) [6]); [apply ex_udp_inv|apply udp_reach_refl|].
  split; [by vm_compute; eexists|lia].
Defined.

(** C30: [udp_bind] succeeds exactly when it may.  With a port it answers [ERR_USE], and
    changes nothing, when another control block claims the port at that address; without
    one it looks for a free ephemeral port and answers [ERR_USE] only if all 16384 are
    taken.  Otherwise the control block gets the address (with the zone of the interface
    when it needs one) and the port, is on the list, and the list stays sound. *)
Theorem udp_bind_outcome n l pcb u ipaddr port :
  udp_inv n l -> n_udps n !! pcb = Some u -> 0 <= port < 65536 ->
  exists r n', udp_bind pcb ipaddr port n = Ok (r, n') /\ udp_bind_post n l pcb u (bind_addr ipaddr) port r n'.
Proof.
  intros Hinv Hu Hport. pose proof (udp_bind_spec n l pcb u ipaddr port Hinv Hu Hport) as Hwp. unfold wp in Hwp.
  destruct (udp_bind pcb ipaddr port n) as [[r n']|f]; [|done]. by exists r, n'.
Qed.

Lemma udp_bind_outcome_ex : exists r n',
  udp_bind 6 None 0 (ex_net 2 53 ex_data) = Ok (r, n') /\
  udp_bind_post (ex_net 2 53 ex_data) [6] 6 (ex_udp 53) IP4_ADDR_ANY 0 r n'.
Proof. apply (udp_bind_outcome (ex_net 2 53 ex_data) [6] 6 (ex_udp 53) None 0); [apply ex_udp_inv|done|lia]. Defined.

(** [udp_new_port] terminates after at most 16384 rounds, whatever ports are in use:
    it answers the first free port behind [udp_port], wrapping around from 65535 to 49152,
    and [0] only if every port of the range is taken. *)
Theorem udp_new_port_first n l : udp_list n l -> port_in_range (udp_port n) ->
  exists r i, 1 <= i <= 16384 /\ udp_new_port n = Ok (r, n <| udp_port := port_at (udp_port n) i |>) /\
    (forall j, 1 <= j < i -> port_used n l (port_at (udp_port n) j)) /\
    ((r = port_at (udp_port n) i /\ port_in_range r /\ ~ port_used n l r) \/
     (r = 0 /\ forall k, port_in_range k -> port_used n l k)).
Proof.
  intros Hl Hp. destruct (udp_new_port_run n l Hl Hp) as (r & i & Hi & Hrun & (Hr & Hor) & Hused).
  exists r, i. split_and!; [lia|lia|exact Hrun|exact Hused|].
  destruct Hor as [(-> & Hfree)|Hno]; [by left|by right].
Qed.

Lemma udp_new_port_first_ex : exists r i, 1 <= i <= 16384 /\
  udp_new_port (ex_net 2 53 ex_data) = Ok (r, ex_net 2 53 ex_data <| udp_port := port_at 49152 i |>).
Proof.
  destruct (udp_new_port_first (ex_net 2 53 ex_data) [6]) as (r & i & Hi & Hrun & _);
    [apply ex_udp_inv|by vm_compute|by exists r, i].
Defined.

(** ** IPv6 source addresses *)

(** C32: [ip6_select_source_address] answers the address of a usable slot such that none of
    the usable slots is to be preferred over it, or none only if no slot is usable.
    [preferred_over] is RFC 6724 as far as the comment in [ip6.c] says it is followed, on the
    octets of the addresses: the destination itself (rule 1), the scope (rule 2, with the
    unique local addresses below the global ones), preferred before deprecated (rule 3), and
    the destination's /64 prefix (rule 8, cut down); rule 6 is missing. *)
Theorem ip6_select_source_address_best nif dest :
  ip6_ok dest -> Forall (fun slot => ip6_ok (ip_2_ip6 slot.1)) (ip6_slots nif) ->
  match ip6_select_source_address nif dest with
  | None => forall slot, ~ usable (ip6_slots nif) slot
  | Some a => exists slot, a = slot.1 /\ usable (ip6_slots nif) slot /\
      forall slot', usable (ip6_slots nif) slot' -> ~ preferred_over dest slot' slot
  end.
Proof.
  intros Hd Hok. pose proof (ip6_select_loop_spec (ip6_slots nif) dest (mkBest None IP6_MULTICAST_SCOPE_RESERVED 0 0) eq_refl) as H.
  unfold ip6_select_source_address. destruct (ip6_select_loop _ _ _ _).
  - destruct H as (slot & -> & Hb). exists slot. split; [done|]. by apply best_of_preferred.
  - intros slot Hs%usable_valid. by apply (H slot).
Qed.

(** A preferred link-local address, a preferred unique local one and a deprecated global one, for
    a global destination. *)
Definition ex_addr6 (w0 w3 : Z) : ip6_addr := mkIp6 (PP_HTONL w0) 0 0 (PP_HTONL w3) 0.
Definition ex_netif6 : netif :=
  ex_netif 2 <| ni_ip6_addr := [mkIpAddr (ex_addr6 4269801472 1) IPADDR_TYPE_V6; mkIpAddr (ex_addr6 4244635648 1) IPADDR_TYPE_V6;
                                mkIpAddr (ex_addr6 536939960 1) IPADDR_TYPE_V6] |> <| ni_ip6_addr_state := [48; 48; 16] |>.

Lemma ip6_select_source_address_best_ex :
  let slot := (mkIpAddr (ex_addr6 536939960 1) IPADDR_TYPE_V6, 16) in
  ip6_select_source_address ex_netif6 (ex_addr6 536939961 5) = Some slot.1 /\
  forall slot', usable (ip6_slots ex_netif6) slot' -> ~ preferred_over (ex_addr6 536939961 5) slot' slot.
Proof.
  intros slot. assert (Hs : ip6_select_source_address ex_netif6 (ex_addr6 536939961 5) = Some slot.1) by (by vm_compute).
  split; [exact Hs|]. pose proof (ip6_select_source_address_best ex_netif6 (ex_addr6 536939961 5)) as H. rewrite Hs in H.
  destruct H as (s & E & Hu & H).
  - split; [repeat constructor; by vm_compute|by vm_compute].
  - repeat constructor; by vm_compute.
  - assert (Es : s = slot); [|by rewrite <- Es]. destruct Hu as [Hin _]. destruct s as [a st]. cbn [fst] in E. subst a.
    change (ip6_slots ex_netif6) with
      [(mkIpAddr (ex_addr6 4269801472 1) IPADDR_TYPE_V6, 48); (mkIpAddr (ex_addr6 4244635648 1) IPADDR_TYPE_V6, 48); slot] in Hin.
    rewrite !elem_of_cons in Hin. by destruct Hin as [[=]|[[=]|[->|Hin%not_elem_of_nil]]].
Defined.

(** ** ICMP echo *)

(** C31: The answer to an echo request, made in the request's own buffers: for a request
    whose ICMP checksum is right, [icmp_echo_reply] swaps the addresses, makes it an echo
    reply with the request's identifier, sequence number and data, and both the IP header
    and the ICMP message (whose checksum is only adjusted) verify. *)
Theorem icmp_echo_reply_verifies `{Malloc} `{NetEnv} h p b l tos len id off ttl c src dst code ck rest :
  packet h p ((p, b) :: l) (echo_request tos len id off ttl c src dst code ck rest) -> head_alone ((p, b) :: l) ->
  IP_HLEN + 4 <= pb_len b -> byte_ok tos -> byte_ok code -> 0 <= ck < 65536 -> bytes_ok rest ->
  checksum ([ICMP_ECHO; code] ++ le16 ck ++ rest) = 0 ->
  exists h' w ipc ck', icmp_echo_reply (pb_payload b) (ptr_add (pb_payload b) IP_HLEN) IP_HLEN dst src h = Ok (tt, h') /\
    packet h' p ((p, b) :: l) w /\
    w = ip4_hdr tos len id off ICMP_TTL IP_PROTO_ICMP ipc dst src ++ [ICMP_ER; code] ++ le16 ck' ++ rest /\
    checksum (ztake IP_HLEN w) = 0 /\ checksum (zdrop IP_HLEN w) = 0.
Proof.
  intros Hp Ha Hlen Htos Hcode Hck Hrest Hsum.
  destruct (icmp_echo_reply_spec h p b l tos len id off ttl c src dst code ck rest) as (h' & Hrun & Hp' & _); [done..|].
  eexists h', _, _, _. split_and!; [exact Hrun|exact Hp'|reflexivity| |].
  - unfold echo_reply. rewrite ztake_app_l, ztake_all by done.
    apply ip4_sum_verifies; [done|unfold byte_ok, ICMP_TTL; lia|unfold byte_ok, IP_PROTO_ICMP; lia].
  - unfold echo_reply. rewrite zdrop_exact by done. by apply echo_chksum_verifies.
Qed.

Lemma icmp_echo_reply_verifies_ex : exists h' w ipc ck',
  icmp_echo_reply (1, 106) (1, 126) 20 (ip_2_ip4 ex_dst) (ip_2_ip4 ex_src) (n_heap (ex_net 9 53 ex_echo)) = Ok (tt, h') /\
  packet h' 1 [(1, ex_ram ex_echo)] w /\
  w = ip4_hdr 0 32 7 0 64 1 ipc (ip_2_ip4 ex_dst) (ip_2_ip4 ex_src) ++ [0; 0] ++ le16 ck' ++ [0; 1; 0; 2; 1; 2; 3; 4] /\
  checksum (ztake 20 w) = 0 /\ checksum (zdrop 20 w) = 0.
Proof.
  apply (icmp_echo_reply_verifies (n_heap (ex_net 9 53 ex_echo)) 1 (ex_ram ex_echo) [] 0 32 7 0 64
    (ip4_sum 0 32 7 0 64 IP_PROTO_ICMP (ip_2_ip4 ex_src) (ip_2_ip4 ex_dst)) (ip_2_ip4 ex_src) (ip_2_ip4 ex_dst) 0
    (checksum [8; 0; 0; 0; 0; 1; 0; 2; 1; 2; 3; 4]) [0; 1; 0; 2; 1; 2; 3; 4]);
    [apply ex_echo_packet|apply Forall_nil_2|by vm_compute|by split|by split|split; [by vm_compute|by vm_compute]| |by vm_compute].
  repeat (apply Forall_cons_2; [unfold byte_ok; lia|]). apply Forall_nil_2.
Defined.

(** ** Raw sockets *)

(** [raw_input] offers a packet to the raw control blocks without losing one: it
    terminates without a fault, and the list holds the same control blocks as before.
    Either nobody took the packet, then the list and the packet's buffer are unchanged, or
    a control block for the packet's protocol took it, and is now the first of the list. *)
Theorem raw_input_keeps_list `{Malloc} `{NetEnv} n l p b lp d inp : raw_callback_ok -> raw_list n l ->
  packet (n_heap n) p ((p, b) :: lp) d -> IP_HLEN <= pb_len b ->
  is_Some (n_netifs n !! current_input_netif (ip_data n)) -> is_Some (n_netifs n !! current_netif (ip_data n)) ->
  exists proto st n' l', raw_input p inp n = Ok (st, n') /\ raw_list n' l' /\ l' ≡ₚ l /\
    match st with
    | RAW_INPUT_EATEN => exists r, hd 0 l' ∈ l /\ n_raws n !! hd 0 l' = Some r /\ raw_protocol r = proto
    | _ => l' = l /\ hp_pbufs (n_heap n') !! p = Some b
    end.
Proof.
  intros Hcb Hl Hp Hlen Hin Hcur.
  destruct (raw_input_spec n l p b lp d inp Hcb Hl Hp Hlen Hin Hcur) as (proto & st & n' & Hrun & l' & Ho).
  by exists proto, st, n', l'.
Qed.

Lemma raw_input_keeps_list_ex : exists proto st n' l',
  raw_input 1 5 ex_raw_net = Ok (st, n') /\ raw_list n' l' /\ l' ≡ₚ [10; 11] /\
  match st with
  | RAW_INPUT_EATEN => exists r, hd 0 l' ∈ [10; 11] /\ n_raws ex_raw_net !! hd 0 l' = Some r /\ raw_protocol r = proto
  | _ => l' = [10; 11] /\ hp_pbufs (n_heap n') !! 1 = Some (ex_ram ex_wire)
  end.
Proof.
  apply (raw_input_keeps_list ex_raw_net [10; 11] 1 (ex_ram ex_wire) [] ex_wire).
  - intros fn arg pcb p a n b Hb. exists 0, n. by split_and!.
  - split; [done|]. split; [lia|]. eexists. split; [by vm_compute|]. split; [done|]. split; [lia|]. eexists. by split; [vm_compute|].
  - apply ex_wire_packet.
  - by vm_compute.
  - vm_compute. by eexists.
  - vm_compute. by eexists.
Defined.
