(* ===== verification/NetFindings.v ===== *)
(** * Runs of the network layer that do not do what they mean to

    Evaluated on small hosts: each lemma is a run of the model on a concrete input. *)

From S2P Require Import Prelude Def IpAddr Pbuf PbufFacts PbufMut PbufData PbufAlloc.
From S2P Require Import OnesComplement InetChksum Links Net Netif IpOut Ip6Src Raw.
From S2P Require Import Udp IpIn Ip6In UdpFacts Datagram Prepend UdpSend UdpRecv.
From S2P Require Import Ip6Recv PbufProps NetExample.

(** The fault a run ends in. *)
Definition faults {A} (r : result A) : option fault := match r with Ok _ => None | Fault f => Some f end.

(** ** [udp_netif_ip_addr_changed] *)

(** Two control blocks at 10.0.0.2 and 10.0.0.3, both with port 53; then the interface changes
    its address from 10.0.0.3 to 10.0.0.2.  Both blocks now claim the same address and port,
    which [udp_bind] refuses with [ERR_USE]. *)
Definition two_udps : net := ex_net 2 53 ex_data
  <| n_udps := {[ 6 := ex_udp 53 <| udp_local_ip := addr4 10 0 0 2 |> <| udp_next := 7 |>;
                  7 := ex_udp 53 <| udp_local_ip := addr4 10 0 0 3 |> ]} |>.
Lemma udp_addr_change_conflict : exists n u6 u7,
  udp_netif_ip_addr_changed (addr4 10 0 0 3) (addr4 10 0 0 2) two_udps = Ok (tt, n) /\
  n_udps n !! 6 = Some u6 /\ n_udps n !! 7 = Some u7 /\
  same_claim (udp_local_ip u6) (udp_local_port u6) u7 = true /\
  answer (udp_bind 7 (Some (addr4 10 0 0 2)) 53 two_udps) = Some ERR_USE.
Proof. eexists _, _, _. split_and!; [reflexivity|by vm_compute..]. Qed.

(** ** [ip4_frag] *)

(** An interface with an MTU of 29: the fragments carry 8 bytes.  The tun device here notes
    the flags and the offset of every packet it gets, in block 99. *)
Definition note_fragment (p : Z) : M net Z :=
  let* b := lift (get_pbuf p) in
  let* field := lift (mem_read (ptr_add (pb_payload b) IPH_OFFSET_OFF) 2) in
  let* n := get in
  let log := default [] (hp_blocks (n_heap n) !! 99) in
  modify (fun n => n <| n_heap := with_blocks (<[99 := log ++ field]> (hp_blocks (n_heap n))) (n_heap n) |>) ;;;
  ret ERR_OK.
Definition noting_env : NetEnv := {|
  block_base := block_base; output := note_fragment; udp_recv_call := udp_recv_call; raw_recv_call := raw_recv_call;
  tcp_input := tcp_input; ip4_reass := ip4_reass; ip6_reass := ip6_reass; icmp6_input := icmp6_input;
  icmp6_param_problem := icmp6_param_problem; ip6_frag := ip6_frag;
  nd6_get_destination_mtu := nd6_get_destination_mtu; icmp6_dest_unreach := icmp6_dest_unreach
|}.
Definition long_packet : list Z :=
  ip4_hdr 0 37 7 0 64 IP_PROTO_UDP 0 (ip_2_ip4 ex_src) (ip_2_ip4 ex_dst) ++ replicate 17 1.
Definition small_mtu : net := ex_net 2 53 long_packet <| n_netifs := {[ 5 := ex_netif 2 <| ni_mtu := 29 |> ]} |>.

(** 17 bytes make three fragments at offsets 0, 8 and 16 bytes.  [last] is computed with
    [mtu - IP_HLEN], which here is more than a fragment carries: the second fragment has no
    "more fragments" flag although a third one follows, and the byte in it is lost. *)
Lemma ip4_frag_last_early :
  match @ip4_frag bump_malloc noting_env 1 5 small_mtu with
  | Ok (r, n) => r = ERR_OK /\ hp_blocks (n_heap n) !! 99 = Some [32; 0;  0; 1;  0; 2]
  | Fault _ => False
  end.
Proof. by vm_compute. Qed.

(** ** Reads behind the packet *)

(** A packet of 20 bytes for a protocol nobody knows: the answer of [icmp_send_response]
    quotes 28 bytes of it. *)
Definition bare_header : list Z := ip4_hdr 0 20 7 0 64 99 0 (ip_2_ip4 ex_src) (ip_2_ip4 ex_dst).
Lemma icmp_response_overread : faults (ip_input 1 5 (ex_net 9 53 bare_header)) = Some BadAccess.
Proof. by vm_compute. Qed.

(** A packet of one byte: [ip4_input] reads the length field, and the checks come later. *)
Lemma ip4_input_overread : faults (ip_input 1 5 (ex_net 9 53 [69])) = Some BadAccess.
Proof. by vm_compute. Qed.

(** A Hop-by-Hop header of 8 bytes whose last byte is the kind of a PadN option: the length
    byte behind it is read, which is not in the packet. *)
Definition hbh_packet : list Z :=
  ip6_hdr 0 8 IP6_NEXTH_HOPBYHOP 64 (mkIp6 1 2 3 4 0) (mkIp6 5 6 7 8 0) ++ [59; 0; 0; 0; 0; 0; 0; 1].
Lemma ip6_options_overread : faults (ip_input 1 5 (ex_net 9 53 hbh_packet)) = Some BadAccess.
Proof. by vm_compute. Qed.

(** ** Answers *)

(** [raw_bind] never answers [ERR_USE]: raw control blocks may share an address. *)
Lemma raw_bind_never_in_use pcb ipaddr n : answer (raw_bind pcb ipaddr n) <> Some ERR_USE.
Proof.
  unfold raw_bind. destruct ipaddr as [a|]; [|done]. destruct (pcb =? 0); [done|].
  unfold bind, upd_raw. destruct (n_raws n !! pcb); [|done].
  destruct (get_raw pcb _) as [[r' n1]|]; [|done]. destruct (raw_zoned _ _ n1) as [[a' n2]|]; [|done].
  by destruct (n_raws n2 !! pcb).
Qed.

(** [udp_send] answers [ERR_OK] without sending: the state is as before. *)
Lemma udp_send_sends_nothing pcb p n r n' : udp_send pcb p n = Ok (r, n') -> n' = n.
Proof.
  unfold udp_send, bind, lwip_assert. destruct (negb (pcb =? 0)); [|done]. cbn. destruct (negb (p =? 0)); [|done]. cbn.
  unfold get_udp. destruct (n_udps n !! pcb) as [u|]; [|done]. by destruct (IP_IS_ANY_TYPE_VAL _); intros [= _ <-].
Qed.
