(* ===== verification/TcpWorldProps.v ===== *)
(** * TCP as a whole

    What the application, the tun device and the clock may do with all connections together,
    in any order: the lists stay sound, every tick serves every connection and ends, a segment
    goes to its connection, ports and addresses are given out once. *)

From S2P Require Import Prelude Def IpAddr Pbuf Net Netif Ip6Src Tcp.
From S2P Require Import TcpOut TcpIn TcpOpt TcpOutput TcpProcess TcpMachine TcpStream TcpInput.
From S2P Require Import TcpApp TcpWrite TcpClose TcpSteps TcpParse TcpPcbs TcpDemux TcpTimer.
From S2P Require Import TcpLists TcpOrder TcpOrderIn TcpWorld TcpCalls TcpTicks TcpSearch TcpExample.
From S2P Require Import NetExample TcpWorldExample.

(** ** Calls *)

(** What can happen: a call of the application, a packet ([n] is the network layer at that
    moment), a tick of the timer, a change of the interface's address. *)
Inductive tcp_call :=
| TcpNew | TcpNewIpType (type : Z)
| TcpBind (pcb : Z) (ipaddr : option ip_addr) (port : Z) | TcpBindNetif (pcb nif : Z)
| TcpListen (pcb : Z) | TcpConnect (pcb : Z) (ipaddr : ip_addr) (port : Z)
| TcpWrite (pcb : Z) (data : list Z) (apiflags : Z) (rom : tcp_seg -> bool) | TcpOutput (pcb : Z) | TcpRecved (pcb len : Z)
| TcpShutdown (pcb : Z) (rx tx : bool) | TcpClose (pcb : Z) | TcpAbort (pcb : Z)
| TcpSetPrio (pcb prio : Z) | TcpPoll (pcb interval : Z)
| TcpPacket (n : net) (p : pkt) | TcpTick | TcpTxNow
| TcpAddrChanged (old_addr : ip_addr) (new_addr : option ip_addr).

Section Calls.
Context (cb : tcp_callbacks) (cb_poll : TM Z).

Definition tcp_do (c : tcp_call) : WM unit :=
  match c with
  | TcpNew => let* _ := tcp_new cb in ret tt
  | TcpNewIpType type => let* _ := tcp_new_ip_type cb type in ret tt
  | TcpBind pcb ipaddr port => let* _ := tcp_bind pcb ipaddr port in ret tt
  | TcpBindNetif pcb nif => tcp_bind_netif pcb nif
  | TcpListen pcb => let* _ := tcp_listen_with_backlog pcb in ret tt
  | TcpConnect pcb ipaddr port => let* _ := tcp_connect pcb ipaddr port in ret tt
  | TcpWrite pcb data apiflags rom => let* _ := focus pcb (tcp_write data apiflags rom) in ret tt
  | TcpOutput pcb => let* _ := focus pcb tcp_output in ret tt
  | TcpRecved pcb len => focus pcb (tcp_recved len)
  | TcpShutdown pcb rx tx => let* _ := focus pcb (tcp_shutdown rx tx) in ret tt
  | TcpClose pcb => let* _ := tcp_close_any pcb in ret tt
  | TcpAbort pcb => focus pcb (tcp_abort cb)
  | TcpSetPrio pcb prio => tcp_setprio pcb prio
  | TcpPoll pcb interval => tcp_poll pcb interval
  | TcpPacket n p => modify (fun w => w <| tw_net := n |>) ;;; tcp_input cb p
  | TcpTick => tcp_tmr cb cb_poll
  | TcpTxNow => tcp_txnow
  | TcpAddrChanged old_addr new_addr => tcp_netif_ip_addr_changed cb old_addr new_addr
  end.
Fixpoint tcp_run (cs : list tcp_call) : WM unit :=
  match cs with [] => ret tt | c :: cs => tcp_do c ;;; tcp_run cs end.

Lemma tame_do (Happ : orderly_app cb) (Hpoll : steps orderly cb_poll) c : tame (tcp_do c).
Proof.
  pose proof orderly_close. pose proof orderly_shutdown. pose proof (orderly_abandon cb Happ).
  pose proof (tame_alloc cb Happ). pose proof (tame_new_ip_type cb Happ). pose proof tame_tcp_bind. pose proof tame_listen.
  pose proof tame_connect. pose proof tame_close_any. pose proof (tame_input cb Happ). pose proof (tame_tmr cb Happ cb_poll Hpoll).
  pose proof tame_txnow. pose proof (tame_addr_changed cb Happ). assert (steps orderly (tcp_abort cb)) by exact (orderly_abandon cb Happ true).
  destruct c; unfold tcp_do, tcp_new, tcp_bind_netif, tcp_listen_with_backlog, tcp_setprio, tcp_poll; tame_tac; apply tame_focus; auto with steps.
Qed.
End Calls.

(** C3: Whatever calls, packets and ticks come in whatever order, the lists of control blocks
    stay sound: no control block is on a list twice or on two lists, every one on a list exists,
    and the lists hold what the axioms of [tcp_priv.h] say (active states, [TIME_WAIT], bound and
    [CLOSED], [LISTEN]).  For every application that, in its callbacks, does what the functions
    of the application interface do and answers [ERR_ABRT] when it has aborted. *)
Theorem tcp_calls_sound cb cb_poll cs w w' : orderly_app cb -> steps orderly cb_poll -> world_ok w ->
  tcp_run cb cb_poll cs w = Ok (tt, w') -> world_ok w' /\ forall a,
  (a ∈ tcp_active_pcbs (tw_st w') -> (a ∉ tcp_tw_pcbs (tw_st w')) /\ (a ∉ tcp_bound_pcbs (tw_st w')) /\ (a ∉ tcp_listen_pcbs w')) /\
  (a ∈ tcp_tw_pcbs (tw_st w') -> (a ∉ tcp_bound_pcbs (tw_st w')) /\ (a ∉ tcp_listen_pcbs w')) /\
  (a ∈ tcp_bound_pcbs (tw_st w') -> a ∉ tcp_listen_pcbs w').
Proof.
  intros Happ Hpoll Hw E. assert (Hw' : world_ok w').
  { revert w w' Hw E. induction cs as [|c cs IH]; intros w w' Hw; [by intros [= <-]|]. cbn [tcp_run].
    intros ([] & w1 & E1 & E2)%bind_inv. eapply IH; [|exact E2]. by eapply tame_do. }
  split; [done|]. intros a. by apply one_list.
Qed.

(** A server is opened, a client asks for a connection, time passes. *)
Lemma tcp_calls_sound_ex : exists w',
  tcp_run quiet_app (ret ERR_OK) [TcpNew; TcpBind 100 None 80; TcpListen 100; TcpPacket ex_tun ex_syn; TcpTick; TcpTick]
    (ex_boot [100; 101; 102; 1500; 0; 0; 0; 0]) = Ok (tt, w') /\
  world_lists w' = ([102], [], [], [101]) /\ world_ok w'.
Proof.
  destruct (tcp_run _ _ _ _) as [[[] w']|] eqn:E; [|by vm_compute in E].
  exists w'. split; [done|]. split; [by apply (after_lists _ _ _ _ E); vm_compute|].
  by apply (tcp_calls_sound _ _ _ _ _ quiet_orderly quiet_poll (ex_boot_ok _) E).
Defined.

(** ** The timer *)

(** C8: [tcp_tmr] ends, whatever the application does with its connections in the callbacks,
    as long as it ends itself: though both timers start the walk over the list again whenever
    a callback has changed it, the walk is over after at most as many rounds as the square of
    the number of connections. *)
Theorem tcp_tmr_terminates cb cb_poll w : orderly_app cb -> app_ends cb -> steps orderly cb_poll -> never cb_poll -> world_ok w ->
  tcp_tmr cb cb_poll w <> Fault OutOfFuel.
Proof. intros Happ Hends Hpoll Hpe Hw. exact (tcp_tmr_ends cb Happ Hends cb_poll Hpoll Hpe w Hw). Qed.
Lemma tcp_tmr_terminates_ex : tcp_tmr quiet_app weary_poll ex_timed <> Fault OutOfFuel.
Proof. apply tcp_tmr_terminates; [apply quiet_orderly|apply quiet_ends|apply weary_orderly|apply weary_ends|apply ex_timed_ok]. Defined.

(** C9: A round of the slow timer: the counter of rounds goes up, every connection still there
    has been looked at in this round (even if a callback threw the walk off the list), no
    connection has come, and nobody is left in [TIME_WAIT] for longer than twice the maximum
    segment lifetime. *)
Theorem tcp_slowtmr_serves_all cb cb_poll w w' : orderly_app cb -> steps orderly cb_poll -> world_ok w ->
  tcp_slowtmr cb cb_poll w = Ok (tt, w') ->
  world_ok w' /\ tcp_timer_ctr w' = u8_t (tcp_timer_ctr w + 1) /\ sublist (tcp_active_pcbs (tw_st w')) (tcp_active_pcbs (tw_st w)) /\
  (forall a, a ∈ tcp_active_pcbs (tw_st w') -> exists k, tw_socks w' !! a = Some k /\ last_timer k = tcp_timer_ctr w') /\
  (forall a, a ∈ tcp_tw_pcbs (tw_st w') -> exists k, tw_socks w' !! a = Some k /\
     u32_t (tcp_ticks (tw_st w') - tmr (sk k)) <= 2 * TCP_MSL / TCP_SLOW_INTERVAL).
Proof.
  intros Happ Hpoll Hw E. destruct (tcp_slowtmr_ok cb Happ cb_poll Hpoll w Hw _ _ E) as ((Hw' & Hs & Ht) & Ec & Hsub).
  split_and!; [done..| |].
  - intros a Ha. destruct (wo_active _ Hw') as [_ H]. destruct (H a Ha) as (k & Hk & _). exists k. split; [done|].
    eapply Forall_forall in Hs; [|exact Ha]. unfold due in Hs. rewrite Hk in Hs. by apply negb_false_iff, Z.eqb_eq in Hs.
  - intros a Ha. destruct (wo_tw _ Hw') as [_ H]. destruct (H a Ha) as (k & Hk & _). exists k. split; [done|].
    eapply Forall_forall in Ht; [|exact Ha]. unfold expired in Ht. rewrite Hk in Ht. unfold idle_over in Ht. lia.
Qed.
Lemma tcp_slowtmr_serves_all_ex : exists w', tcp_slowtmr quiet_app weary_poll ex_timed = Ok (tt, w') /\
  world_lists w' = ([], [], [], []) /\ world_ok w'.
Proof.
  destruct (tcp_slowtmr _ _ _) as [[[] w']|] eqn:E; [|by vm_compute in E]. exists w'. split; [done|].
  split; [by apply (after_lists _ _ _ _ E); vm_compute|]. by apply (tcp_slowtmr_serves_all _ _ _ _ quiet_orderly weary_orderly ex_timed_ok E).
Defined.

(** ** Searches *)

(** C10: The search of [tcp_input] succeeds and is right: a segment goes to the first active
    control block with its interface, addresses and ports, which moves to the front of the list
    and no other changes places; if there is none, to the first in [TIME_WAIT]; if there is none
    either, to the first listener; and to nobody only when nobody listens. *)
Theorem tcp_demux_finds w c : world_ok w -> exists d w', tcp_demux c w = Ok (d, w') /\ demux_post w c d w' /\ world_ok w'.
Proof.
  intros Hw. destruct (tcp_demux_run w c Hw) as (d & w' & E & Hp). exists d, w'. split_and!; [done..|].
  by destruct (tcp_demux_ok c w Hw _ _ E).
Qed.
Lemma tcp_demux_finds_ex : exists w', tcp_demux (mkKey (ex_ip 2) (ex_ip 1) 4000 81 1) ex_timed = Ok (ToActive 102, w') /\
  tcp_active_pcbs (tw_st w') = [102; 100] /\ world_ok w'.
Proof.
  destruct (tcp_demux_finds ex_timed (mkKey (ex_ip 2) (ex_ip 1) 4000 81 1) ex_timed_ok) as (d & w' & E & Hd & Hw).
  pose proof (after_lists _ _ _ ([102; 100], [101], [], []) E ltac:(by vm_compute)) as [= H _ _ _].
  assert (d = ToActive 102) as -> by (apply (after_result _ _ _ _ E); by vm_compute). by exists w'.
Defined.



(** C23: [tcp_kill_prio], when there is no memory for a connection with priority [p]: it aborts
    an active connection of lower priority - of those with the lowest, one that has been idle for
    longest -, and that control block is gone; or every active connection has at least that
    priority and nothing happens. *)
Theorem tcp_kill_prio_victim cb w p : orderly_app cb -> world_ok w -> 0 < p < 256 ->
  let candidates b kb := b ∈ tcp_active_pcbs (tw_st w) /\ tw_socks w !! b = Some kb in
  (exists a k, candidates a k /\ prio k < Z.min TCP_PRIO_MAX p /\
     (forall b kb, candidates b kb -> prio k < prio kb \/ (prio k = prio kb /\ age w kb <= age w k)) /\
     tcp_kill_prio cb p w = focus a (tcp_abort cb) w /\ forall w', tcp_kill_prio cb p w = Ok (tt, w') -> tw_socks w' !! a = None) \/
  ((forall b kb, candidates b kb -> Z.min TCP_PRIO_MAX p <= prio kb) /\ tcp_kill_prio cb p w = Ok (tt, w)).
Proof. intros Happ Hw Hp. exact (kill_prio_run cb Happ w p Hw Hp). Qed.
Lemma tcp_kill_prio_victim_ex : exists w', tcp_kill_prio quiet_app 64 ex_timed = Ok (tt, w') /\
  tcp_active_pcbs (tw_st w') = [100] /\ tw_socks w' !! 102 = None.
Proof.
  destruct (tcp_kill_prio quiet_app 64 ex_timed) as [[[] w']|] eqn:E; [|by vm_compute in E]. exists w'.
  pose proof (after_lists _ _ _ ([100], [101], [], []) E ltac:(by vm_compute)) as [= H _ _ _]. split_and!; [done..|].
  destruct (tcp_kill_prio_victim quiet_app ex_timed 64 quiet_orderly ex_timed_ok ltac:(lia)) as [(a & k & [Hin Hk] & Hlt & _ & _ & Hg)|[H2 _]].
  - apply Hg in E. apply elem_of_cons in Hin as [->|[->|?%elem_of_nil]%elem_of_cons]; [|done|done].
    injection Hk as <-. by vm_compute in Hlt.
  - assert (H3 : 102 ∈ tcp_active_pcbs (tw_st ex_timed)) by (by apply elem_of_cons; right; left).
    by specialize (H2 102 _ (conj H3 eq_refl)).
Defined.
