(* ===== verification/TcpFindings.v ===== *)
(** * What modelling TCP showed

    Runs of the model, evaluated, in which the code does not do what it means to. *)

From S2P Require Import Prelude Def IpAddr Tcp TcpOut TcpIn TcpOpt TcpOutput.
From S2P Require Import TcpProcess TcpInput TcpApp TcpExample TcpWrite Pbuf Net Netif.
From S2P Require Import Ip6Src TcpMachine TcpStream TcpClose TcpParse TcpPcbs TcpDemux TcpTimer.
From S2P Require Import TcpSteps TcpLists TcpOrder TcpOrderIn TcpWorld TcpCalls TcpTicks TcpSearch.
From S2P Require Import NetExample TcpWorldExample.

(** An application that aborts the connection when it is offered data. *)
Definition ex_quiet_app : tcp_callbacks :=
  mkCallbacks (fun _ => ret 0) (fun _ => ret 0) (fun _ => ret 0) (ret 0) (fun _ => ret 0) (fun _ => ret tt).
Definition ex_abort_app : tcp_callbacks :=
  mkCallbacks (fun _ => ret 0) (fun _ => ret 0) (fun _ => tcp_abort ex_quiet_app ;;; ret ERR_ABRT) (ret 0) (fun _ => ret 0) (fun _ => ret tt).
(** An application whose buffers are full. *)
Definition ex_full_app : tcp_callbacks :=
  mkCallbacks (fun _ => ret 0) (fun _ => ret 0) (fun _ => ret ERR_MEM) (ret 0) (fun _ => ret 0) (fun _ => ret tt).

(** [tcp_input] reads [pcb->rcv_ann_wnd] after [tcp_process_refused_data] has reported that
    the control block was freed. *)
Lemma tcp_input_uses_freed_pcb :
  tcp_input_pcb_found ex_abort_app [[]] (ex_arrived (ex_pcb <| refused_data := [[7]] |>) TCP_ACK 1000 0) = Fault BadAccess.
Proof. by vm_compute. Qed.

(** The first segment of an empty out-of-order queue is stored without being cut to the
    window (here: numbers 1005 to 1009 with a window up to 1008); when the gap is closed
    an assertion fails. *)
Definition ex_small_window : tcp_pcb := ex_pcb <| rcv_wnd := 8 |> <| rcv_ann_wnd := 8 |> <| rcv_ann_right_edge := 1008 |>.
Definition ex_second (s : tcp_st) : tcp_st := input_setup [[6; 7; 8; 9; 0]] (s <| seqno := 1000 |> <| tcplen := 5 |>).
Lemma tcp_receive_ooseq_untrimmed :
  (tcp_receive ;;; modify ex_second ;;; tcp_receive) (input_setup [[1; 2; 3; 4; 5]] (ex_arrived ex_small_window TCP_ACK 1005 5)) =
  Fault (AssertFailed "tcp_receive: ooseq tcplen > rcv_wnd").
Proof. by vm_compute. Qed.

(** A reset just behind the window (the window is 1000 to 1000 + [TCP_WND] - 1) is answered by
    a challenge acknowledgement, as one inside it. *)
Lemma rst_behind_window_challenged :
  result_of (fun s => (pcb_freed s, sent s))
    (tcp_input_pcb_found ex_full_app [[]] (ex_arrived ex_pcb TCP_RST (1000 + TCP_WND) 0)) =
  Some (false, [mkOut (local_port ex_pcb) (remote_port ex_pcb) (snd_nxt ex_pcb) 1000 TCP_ACK (rcv_ann_wnd ex_pcb) [] []]).
Proof. by vm_compute. Qed.

(** In SYN_SENT a reset is accepted by the number in its acknowledgement field, although it
    carries no ACK flag. *)
Lemma rst_without_ack_accepted :
  result_of (fun s => (pcb_freed s, events s))
    (tcp_input_pcb_found ex_full_app [[]] (ex_arrived (ex_pcb <| state := SYN_SENT |>) TCP_RST 77 0 <| ackno := snd_nxt ex_pcb |>)) =
  Some (true, [EvErr ERR_RST]).
Proof. by vm_compute. Qed.

(** In CLOSING, data the application refused (and the end of the stream behind it) is thrown
    away when our FIN is acknowledged: the application is never offered it again. *)
Definition ex_refusing : tcp_pcb :=
  ex_pcb <| state := CLOSING |> <| refused_data := [[7]] |> <| refused_fin := true |>.
Lemma tcp_input_closing_drops_refused :
  result_of (fun s => (state (st_pcb s), refused_data (st_pcb s), accepted (events s), eofs (events s)))
    (tcp_input_pcb_found ex_full_app [[]] (ex_arrived ex_refusing TCP_ACK 1000 0)) = Some (TIME_WAIT, [], [], 0).
Proof. by vm_compute. Qed.

(** An MSS option whose length byte lies behind the options is read one byte beyond them. *)
Lemma tcp_parseopt_overread :
  tcp_parseopt (ex_arrived ex_pcb 0 0 0 <| tcphdr_opts := [1; 1; 1; 2] |> <| tcphdr_optlen := 4 |> <| tcphdr_opt1len := 4 |>) =
  Fault BadAccess.
Proof. by vm_compute. Qed.

(** The window of a reset is put in network byte order twice: 32768 is sent as 128. *)
Lemma tcp_rst_window_swapped :
  result_of (fun s => o_wnd <$> sent s) (tcp_rst 1 2 80 4000 (ex_arrived ex_pcb 0 0 0)) = Some [128].
Proof. by vm_compute. Qed.

(** [tcp_split_unsent_seg] moves PSH and FIN to the new segment, but [TCPH_SET_FLAG] cannot
    clear them in the old one: a FIN stays on the first half, in front of data. *)
Definition ex_queued (q1 q2 : list tcp_seg) (lbb : Z) : tcp_pcb :=
  ex_pcb <| unacked := q1 |> <| unsent := q2 |> <| snd_queuelen := zlen q1 + zlen q2 |> <| snd_lbb := lbb |>
         <| snd_nxt := lbb |>.
Definition ex_seg (sq fl : Z) (d : list Z) : tcp_seg := mkSeg sq fl (zlen d) [d] 0 TF_SEG_DATA_CHECKSUMMED 0 false.
Lemma tcp_split_keeps_fin :
  result_of (fun s => (fun x => (seg_seqno x, seg_flags x, seg_p x)) <$> unsent (st_pcb s))
    (tcp_split_unsent_seg 2 (ex_arrived (ex_queued [] [ex_seg 500 (Z.lor TCP_FIN TCP_PSH) [1; 2; 3; 4]] 504) 0 0 0)) =
  Some [(500, Z.lor TCP_FIN TCP_PSH, [[1; 2]]); (502, Z.lor TCP_FIN TCP_PSH, [[3; 4]])].
Proof. by vm_compute. Qed.

(** When there is no memory for the new segment, [tcp_split_unsent_seg] frees the new buffer
    twice: [tcp_create_segment] has freed it already. *)
Lemma tcp_split_double_free :
  tcp_split_unsent_seg 2 (ex_arrived (ex_queued [] [ex_seg 500 TCP_PSH [1; 2; 3; 4]] 504) 0 0 0 <| oracle := [0; 0; 1] |>) = Fault BadAccess.
Proof. by vm_compute. Qed.

(** A segment chosen for fast retransmission waits alone on the unsent queue (the driver
    had no memory); [tcp_write] appends new data to it, although other data, in flight,
    comes between. *)
Lemma tcp_write_behind_retransmission :
  result_of (fun s => (fun x => (seg_seqno x, pkt_bytes (seg_p x))) <$> unsent (st_pcb s))
    ((let* _ := tcp_rexmit in let* _ := tcp_output in tcp_write [9; 9] TCP_WRITE_FLAG_COPY (fun _ => false))
       (ex_arrived (ex_queued [ex_seg 500 TCP_PSH [1; 2; 3; 4]; ex_seg 504 TCP_PSH [5; 6; 7; 8]] [] 508) 0 0 0 <| oracle := [0; 0; 0; -1] |>)) =
  Some [(500, [1; 2; 3; 4; 9; 9])].
Proof. by vm_compute. Qed.

(** An MSS option in a segment that is no SYN makes [pcb->mss] smaller than a segment on the
    unsent queue; the next [tcp_write] fails an assertion. *)
Lemma tcp_write_after_mss_option :
  (tcp_input_pcb_found ex_full_app [[]] ;;; tcp_write [9; 9] TCP_WRITE_FLAG_COPY (fun _ => false))
    (ex_arrived (ex_queued [] [ex_seg 500 TCP_PSH (replicate 100 7)] 600 <| snd_wnd := 50 |>) TCP_ACK 1000 0
       <| tcphdr_opts := [2; 4; 0; 50; 0] |> <| tcphdr_optlen := 4 |> <| tcphdr_opt1len := 4 |> <| in_wnd := 50 |>) =
  Fault (AssertFailed "mss_local is too small").
Proof. by vm_compute. Qed.

(** * What modelling the whole of TCP showed

    Runs of the model, evaluated, in which the code does not do what it means to. *)

(** When [LWIP_RAND()] ends in fourteen ones, [tcp_init] starts the ports at 65535, which is
    [TCP_LOCAL_PORT_RANGE_END]. The next port is then 0, that is "none", and the one after it 1. *)
Lemma tcp_init_port_wraps :
  match (tcp_init 16383 ;;; let* a := tcp_new_port in let* b := tcp_new_port in ret (a, b)) (ex_boot []) with
  | Ok (ab, _) => Some ab | Fault _ => None
  end = Some (0, 1).
Proof. by vm_compute. Qed.

(** 65535 is never given out: after 65534 comes 49152, whatever ports are in use. *)
Lemma tcp_port_65535_skipped p i : tcp_port_at p i <> 65535.
Proof. pose proof (tcp_port_at_ok p i) as H. unfold tcp_port_ok, TCP_LOCAL_PORT_RANGE_END in H. lia. Qed.

(** A control block that listens already does not get to the test for it. *)
Definition ex_listening : tcp_world :=
  ex_boot [] <| tw_listens := {[ 300 := mkListen IP4_ADDR_ANY 0 80 64 0 0 TCP_TTL 0 ]} |> <| tcp_listen_pcbs := [300] |>.
Lemma tcp_listen_twice :
  tcp_listen_with_backlog_and_err 300 ex_listening = Fault (AssertFailed "tcp_listen_with_backlog_and_err: pcb already connected").
Proof. by vm_compute. Qed.

(** The fast timer offers refused data again outside [tcp_input]. An application that closes the
    connection in the callback, having read not everything, has the control block freed, and
    [tcp_process_refused_data] then looks at [pcb->rcv_wnd] for the FIN behind the data. *)
Definition ex_closing_app : tcp_callbacks :=
  mkCallbacks (fun _ => ret ERR_OK) (fun _ => ret ERR_OK) (fun _ => let* _ := tcp_close in ret ERR_OK) (ret ERR_OK)
    (fun _ => ret ERR_OK) (fun _ => ret tt).
Definition ex_refused : tcp_pcb := ex_pcb <| refused_data := [[7]] |> <| refused_fin := true |> <| rcv_wnd := TCP_WND - 1 |>.
Lemma tcp_fasttmr_uses_freed_pcb :
  tcp_fasttmr ex_closing_app (ex_host {[ 100 := ex_sock ex_refused 64 0 ]} [100] [] [] []) = Fault BadAccess.
Proof. by vm_compute. Qed.
(** Without the FIN the same application is served well. *)
Lemma tcp_fasttmr_without_fin :
  lists_after (tcp_fasttmr ex_closing_app (ex_host {[ 100 := ex_sock (ex_refused <| refused_fin := false |>) 64 0 ]} [100] [] [] [])) =
  Some ([], [], [], []).
Proof. by vm_compute. Qed.

(** A listener for which no [accept] function was registered has [tcp_accept_null]; when there is
    no memory for a connection it is called without a control block, and aborts that. *)
Definition ex_null_app : tcp_callbacks :=
  mkCallbacks (fun _ => tcp_accept_null quiet_app 0) (fun _ => ret ERR_OK) (fun _ => ret ERR_OK) (ret ERR_OK)
    (fun _ => ret ERR_OK) (fun _ => ret tt).
Lemma tcp_listen_input_no_memory : tcp_input ex_null_app ex_syn (ex_listening <| tw_net := ex_tun |>) = Fault BadAccess.
Proof. by vm_compute. Qed.
